(* ===== verification/_CoqProject ===== *)
-Q . S2P
Prelude.v
Text.v
UsbErrors.v
UsbTypes.v
DescriptorParser.v
Marshalling.v
Interfaces.v
DeviceManager.v
ConnectionNotifier.v
FunctionSwitchWindow.v
PortManager.v
Base64.v
AccessoryManager.v
RightDatabase.v
RightManager.v
Json.v
HostDriver.v
HostEvents.v
HostPolicy.v
HostManager.v
HostInvariant.v
HostVisibility.v
HostDecisions.v
HostReading.v
HostStrategy.v
HostSim.v
SerialManager.v
Service.v
ServiceHost.v
ServiceSerial.v
ServiceGadget.v
Parcels.v
Callbacks.v
ServiceLifecycle.v
ServiceUnload.v
ServiceGate.v
ServicePorts.v
ServiceIdentity.v
ServiceRights.v
Client.v
ClientLaws.v
Napi.v
JsValues.v
JsLaws.v
JsTrees.v
JsRoundTrip.v
Platform.v
JsWorld.v
JsCalls.v
JsAsync.v
JsTransfer.v
JsSerial.v
JsExports.v
JsSteps.v
JsPromises.v
JsQueue.v
JsSettle.v
JsBytes.v
JsArguments.v
JsSession.v
JsSim.v
TaiheTypes.v
TaiheWorld.v
TaiheCalls.v
TaiheTransfer.v
TaiheSerial.v
TaiheModule.v
TaiheLaws.v
TaiheSim.v
TaiheOwnership.v
TaiheSession.v
SettingsShare.v
ServiceTypes.v
EndToEnd.v
TaiheEndToEnd.v
ServiceSim.v
ServiceWhole.v
