(* ===== verification/Prelude.v ===== *)
(** * A verified model of the OpenHarmony USB manager

    The repository is the USB manager of OpenHarmony: a system service that owns the USB
    devices attached to the machine (host side), the gadget functions the machine exposes
    (device side), the roles of its ports and its USB serial ports, and that decides which
    application may use which device.  This development models its native services, the
    library and the JavaScript and ArkTS modules through which applications use them, and the
    data and callbacks between them, as executable functions, and proves what makes each part
    correct and how they work together.

    The bracketed text above a definition ([file.cpp:first-last] [Symbol]) names the lines
    that it translates; file names are those under [src/], most of them in
    [services/native/src], [services/native/include], [interfaces/innerkits/native],
    [interfaces/kits/js/napi/src] and [frameworks/ets/taihe/usb_manager].  The build is the one with
    [USB_MANAGER_FEATURE_HOST], [_DEVICE], [_PORT], [USB_MANAGER_V2_0] and
    [USB_MANAGER_PASS_THROUGH] (the other build of the host manager does not compile: its
    policies use an interface that it does not declare).

    ** Conventions

    An object with state is a [Record]; an operation is a function in the state monad [ST]
    of this file.  C++ integers are [Z], and every conversion that can change a value is
    written out ([u8] ... [i64]).  An out-parameter is a component of the result.  An
    undefined behaviour that the code can run into (a read outside a buffer, a null
    pointer, an exception that leaves the service) is a result of its own, so that its
    absence is a theorem.  Logging is left out.

    Code outside the repository (drivers, the IPC library, the relational store, cJSON, the
    timers, the notification service, the ability and bundle managers, the policy service)
    is a class over an abstract state, with its operations only; a second class, where a
    theorem needs one, states the documented behaviour the theorem relies on
    ([ParcelLaws], [RdbLaws], [TimerLaws], [CJsonLaws], [SerialLaws], [AccessLaws],
    [Delivers], [NapiLaws], [EnumLaws], [SecurecLaws], [SettingsLaws], ...), and every theorem with such a hypothesis is applied to a
    concrete instance, its witness.

    An operation that holds a mutex throughout, exclusively, is one transition.  The
    sections of the host manager that change the status of a device hold theirs as a shared
    lock only, so that they overlap: [HostVisibility] takes them apart, and its histories
    mix their parts in any order, as long as no two sections are about the same device at
    once, which the code does not exclude ([HostSim.announcement_overtaken] is what happens
    then).  [SerialClose] of the serial manager takes and releases several locks: it is the
    composition of its critical sections ([SerialManager.close_race_strands_port]
    interleaves them), and the histories of [SerialManager] run the calls one after the
    other.  A request of a client to the service is one transition of the whole service;
    threads of the IPC pool that run two requests at the same time are therefore covered
    only as far as the managers are.  The calls of a client library and the notices of the
    service's death are one transition each ([ClientLaws.death_between_test_and_use] is
    what happens between the two halves of a call).

    ** The files

    - [Prelude], [Text]: the monad, integers, invariants ([preserves] and its hints), texts.
    - [UsbErrors] ([usb_errors.h]): the codes, over the framework's offset.
    - [UsbTypes]: devices, configurations, interfaces, endpoints, accessories
      ([usb_device.h], [usb_config.h], [usb_interface.h], [usb_endpoint.h],
      [usb_accessory.h]).  [Marshalling] and [Parcels]: their parcels and those of the other
      types, [struct_parcel.cpp] included.  [Json]: the JSON texts of the broadcasts.
    - [DescriptorParser] ([usb_descriptor_parser.cpp]): the parser of what a device says
      about itself.
    - [Interfaces]: what the components use of each other.
    - [DeviceManager] ([usb_device_manager.cpp]), [ConnectionNotifier]
      ([usb_connection_notifier.cpp]), [FunctionSwitchWindow]
      ([usb_function_switch_window.cpp]), [AccessoryManager] and [Base64]
      ([usb_accessory_manager.cpp]), [PortManager] ([usb_port_manager.cpp]): device mode.
    - [RightDatabase] ([usb_right_database.cpp], [usb_right_db_helper.cpp]) and
      [RightManager] ([usb_right_manager.cpp]): who may use what.
    - [HostDriver], [HostEvents], [HostPolicy], [HostManager] ([usb_host_manager.cpp]): the
      attached devices and the enterprise policies; [HostInvariant], [HostVisibility],
      [HostDecisions], [HostReading], [HostStrategy]: their theorems; [HostSim]: a platform
      that can be run.
    - [SerialManager] ([serial_manager.cpp]): the serial ports.
    - [Callbacks] ([usb_transfer_callback_impl.cpp], [usbd_callback_stub.cpp] and their
      neighbours): the completions of transfers on their way to the application.
    - [Service], [ServiceHost], [ServiceSerial], [ServiceGadget], [ServiceLifecycle]
      ([usb_service.cpp], [usb_report_sys_event.cpp], [usb_manager_subscriber.cpp]): the
      requests of the clients, the events of the drivers, starting and stopping;
      [ServiceGate], [ServicePorts], [ServiceIdentity], [ServiceTypes], [ServiceUnload]:
      their theorems; [ServiceRights]: the right manager in the place that the service has
      for one.
    - [Client] ([usb_srv_client.cpp], [usb_device_pipe.cpp], [usb_request.cpp]): the library
      that an application links; [ClientLaws]: its calls as a table of requests, and its
      connection; [EndToEnd]: the library, the service and the right manager together.
    - [Napi] ([napi_util.cpp], [usb_napi_errors.cpp]): the JavaScript engine as a class of
      its operations, and the bindings' own helpers; [JsValues] ([usb_info.cpp]): devices,
      pipes, accessories and parameters as JavaScript objects; [JsWorld]
      ([usb_async_context.h], [serial_async_context.h]): the state of the bindings;
      [JsCalls], [JsAsync], [JsTransfer] ([usb_info.cpp]) and [JsSerial]
      ([serial_info.cpp]): the native functions that answer at once, those with a promise,
      the submitted transfers, and those of the serial ports; [JsExports]: the tables of the
      two modules.  [JsSteps]: what an application and the engine can do, step by step.
      [JsLaws], [JsTrees], [JsRoundTrip], [JsPromises], [JsQueue], [JsSettle], [JsBytes],
      [JsArguments], [JsSession]: their theorems; [JsSim]: an engine that can be run.
    - [Platform]: what both kinds of bindings need of the build and of the system.
    - [TaiheTypes]: the structures and enumerations of [ohos.usbManager.taihe], and their
      conversions; [TaiheWorld]: the runtime of ArkTS as a class of its operations, and the
      state of the bindings; [TaiheCalls], [TaiheTransfer] ([ohos.usbManager.impl.cpp]) and
      [TaiheSerial] ([ohos.usbManager.serial.impl.cpp]): the functions that answer at once,
      the submitted transfers, and those of the serial ports; [TaiheModule]: all of them as
      one datatype, and what an application, the service and the main thread can do, step by
      step.  [TaiheLaws], [TaiheOwnership], [TaiheSession]: their theorems; [TaiheSim]: a
      runtime that can be run; [TaiheEndToEnd]: the modules on top of the library and the
      service.
    - [SettingsShare] ([usb_settings_datashare.cpp]): the settings of the system, which the
      service and the window see as operations of their platforms.
    - [ServiceSim], [ServiceWhole]: all components together on a concrete platform.

    ** How the parts interact

    A native application calls [Client], a JavaScript one the functions of [JsExports],
    which read their arguments from the engine and call [Client], at once or in a queued
    work, an ArkTS one those of [TaiheModule], which get structures and call [Client] at
    once.  The library finds the service, watches for its death and sends
    a request of [IUsbServer.idl] ([ClientLaws.request_of]); the service answers it
    ([ServiceGate.serve], [ServicePorts.serve_port], [ServiceGadget]).  A driver event reaches [ServiceGadget.DeviceEvent]; for an arrival the host manager
    reads the descriptors ([HostManager.GetDeviceInfo], [DescriptorParser]), asks the policy
    service ([HostPolicy.ExecuteStrategy]), enters the device and announces it
    ([HostEvents], [Json]), and the service records its identity
    ([ServiceHost.AddDevice]).  A client's request names a bus and an address; the service
    looks up the identity, asks the right manager whether the caller has a right to it
    ([Service.HasRight], [RightManager.HasRight], [RightDatabase]) and passes it on.  The
    completion of a submitted transfer comes back through [Callbacks].  The function status
    of the gadget goes to [DeviceManager], which drives the notifier and the window, and to
    [AccessoryManager]; port roles go to [PortManager].  After each event the service
    decides whether it is still needed ([ServiceGadget.UnLoadSelf]).

    ** What the theorems show

    - Mediation: a client without a right reaches neither a device nor a port
      ([ServiceGate], [ServicePorts]); the right that is looked up is that of the device
      attached under the name, as long as no device arrives under a name that is still taken,
      where the code keeps the identity of the first ([ServiceIdentity]); a right is one that was granted and has
      not expired, and the clean-ups only remove ([RightManager], [RightDatabase]).  The same
      from the application's end: what it can do and what it is told through the library
      ([EndToEnd]; what an ordinary application is told of its rights is exact for a user
      other than the console user, while the clock stands still and the store answers).
    - The connection: call after call, the library uses no proxy whose death it would not
      hear of and none that is null, and which calls get the service back ([ClientLaws]).
    - The table of devices: what is listed is what was announced, of every device that no
      section is about ([HostVisibility]); who is shown which device ([ServiceTypes]); a
      policy decides exactly the devices it describes ([HostDecisions]); asking for the
      policy ends, gives the policy the service has, and a trust list settles the fate of a
      device that is not a hub ([HostStrategy]); a device that is read is closed again ([HostReading]).
    - Data: the parser is memory-safe, terminates, computes a fold that is stated without
      its operations ([DescriptorParser.apply_descs]), and inverts a descriptor encoder
      ([DescriptorParser]); parcels, JSON and base64 are read back as
      they were written ([Marshalling], [Parcels], [Json], [Base64]); what the service lists
      holds values of its types ([ServiceTypes]); reports of the driver reach the
      application in order ([Callbacks]).
    - JavaScript: whatever an application calls and whichever operations the engine refuses,
      each queued work has a pending promise of its own, or none where the engine
      refused to make one ([JsQueue]), and its end settles that
      promise with the outcome of the work and no other ([JsSettle]); a work writes only to
      the array of its own transfer ([JsBytes]); arguments that do not fit a signature are
      refused before anything happens ([JsArguments], which says which functions have none);
      a device that is listed and handed back is the same but for what its objects do not
      carry, the names of its interfaces among it ([JsRoundTrip]), and is opened
      ([JsSession]).
    - ArkTS: each function is exactly the calls of the library that a table says, with every
      argument ([TaiheEndToEnd.calls_of]), so that an application without rights reaches nothing with them either ([TaiheEndToEnd]); every
      call reports at most one error, with a documented code, and nothing but
      801 without its part of the build ([TaiheLaws]); the context of a submitted transfer
      belongs to the service, which has taken the transfer ([TaiheWorld.in_flight]), or to
      one task, which deletes it once, and no completion and no task meets one that is
      gone; the descriptor of the accessory is closed once ([TaiheOwnership]); structures
      handed back are the device that they came from, [connectDevice] does the same in both
      languages, and what a transfer answers ([TaiheSession]).
    - Settings that are written are read back ([SettingsShare]).
    - Sessions of serial ports, with the ports that a refused clean-up loses, and of accessories, debouncing of the connection, the protocol
      between device manager and notifier, the table of ports ([SerialManager],
      [AccessoryManager], [DeviceManager], [ConnectionNotifier], [PortManager]).
    - Life cycle: how often and how long the start asks for the event service
      ([ServiceLifecycle]); every event of the drivers decides afresh whether an unload is
      scheduled, and none is left of an earlier decision ([ServiceUnload]).

    ** Bounds and fuel

    The loops of the parser get the length of the buffer as fuel: an iteration consumes a
    byte at least, and [OutOfFuel] is shown impossible.  [split_funcs] gets the length of
    its string, since every round moves forward; [bit_params] 32 rounds, the width of the
    word.  The retries of the code are its own counters ([RETRY_NUM], the registrations of
    [Init], the waits of [WaitUsbdService]), with enough rounds for each;
    [policy_rounds] is 51, since each round of [GetUsbPolicy] takes 100 ms of the 5 s that
    it waits, and a theorem shows that it suffices for a clock that does not stand still.
    Printed JSON is read back up to the library's nesting limit of 1000.

    ** Not modelled

    Of the JavaScript modules, their registration ([usb_middle.cpp] and its neighbours,
    which open the library and hand its [UsbInit] to the engine) and the tracing.  A call, the
    [execute] of a work and its [complete] are each one step; an [execute] that runs while
    the engine changes the same array is not modelled.  The client
    library's builds without a feature, whose functions answer that the capability is not
    supported, and its singleton are left out.  The proxies and stubs of [IUsbServer.idl]
    are generated code.  Of the ArkTS modules, the classes that Taihe generates from the IDL
    are the classes [EnumRuntime] and [Runtime], and its promise variants, which call the
    same functions on a thread of their own, are left out, as is [ani_constructor.cpp], which
    registers the modules.  A call, a completion and a task are each one step there, and
    the allocator does not give out memory in use ([TaiheModule.step]); the service is taken
    to complete each transfer that it has taken once, with the user data of the request.  The dialogs
    ([frameworks/dialog]) are ArkTS pages.  [usb_timer_wraper.cpp],
    [usb_security_report.cpp] and [usb_serial_reader.cpp] forward to libraries, which the
    classes stand for; [usb_service_subscriber.cpp] belongs
    to the other build. *)

From Stdlib Require Export ZArith Lia ZifyBool.
From stdpp Require Export base tactics option list list_numbers gmap strings fin_maps sorting.

Declare Scope usb_scope.
Delimit Scope usb_scope with usb.

#[global] Open Scope Z_scope.
#[export] Set Default Goal Selector "!".

(** ** Machine integers

    C++ fixed-width integers are kept as [Z]; a conversion to a width is the
    wrap-around below (two's complement for the signed types). *)
Definition u8 (z : Z) : Z := z mod 2 ^ 8.
Definition u16 (z : Z) : Z := z mod 2 ^ 16.
Definition u32 (z : Z) : Z := z mod 2 ^ 32.
Definition u64 (z : Z) : Z := z mod 2 ^ 64.
Definition i8 (z : Z) : Z := (z + 2 ^ 7) mod 2 ^ 8 - 2 ^ 7.
Definition i32 (z : Z) : Z := (z + 2 ^ 31) mod 2 ^ 32 - 2 ^ 31.
Definition i64 (z : Z) : Z := (z + 2 ^ 63) mod 2 ^ 64 - 2 ^ 63.

Definition UINT8_MAX : Z := 255.
Definition UINT16_MAX : Z := 65535.
Definition UINT32_MAX : Z := 4294967295.
Definition INT32_MAX : Z := 2147483647.
Definition INT32_MIN : Z := -2147483648.

Definition is_u8 (z : Z) : Prop := 0 <= z < 2 ^ 8.
Definition is_u16 (z : Z) : Prop := 0 <= z < 2 ^ 16.
Definition is_u32 (z : Z) : Prop := 0 <= z < 2 ^ 32.
Definition is_i32 (z : Z) : Prop := -2 ^ 31 <= z < 2 ^ 31.

(** Unfold the range predicates and the conversions, then [lia]. *)
Ltac width_lia :=
  unfold is_u8, is_u16, is_u32, is_i32, UINT8_MAX, UINT16_MAX, UINT32_MAX,
    INT32_MAX, INT32_MIN in *; lia.

Section Widths.
Implicit Types z : Z.

Lemma u8_id z : is_u8 z → u8 z = z.
Proof. intros. by apply Z.mod_small. Qed.
Lemma u16_id z : is_u16 z → u16 z = z.
Proof. intros. by apply Z.mod_small. Qed.
Lemma u32_id z : is_u32 z → u32 z = z.
Proof. intros. by apply Z.mod_small. Qed.
Lemma u64_id z : 0 <= z < 2 ^ 64 → u64 z = z.
Proof. intros. by apply Z.mod_small. Qed.
Lemma u64_range z : 0 <= u64 z < 2 ^ 64.
Proof. apply Z.mod_pos_bound. lia. Qed.
Lemma i32_id z : is_i32 z → i32 z = z.
Proof. intros. unfold i32. rewrite Z.mod_small; width_lia. Qed.

Lemma u8_range z : is_u8 (u8 z).
Proof. apply Z.mod_pos_bound. lia. Qed.
Lemma u16_range z : is_u16 (u16 z).
Proof. apply Z.mod_pos_bound. lia. Qed.
Lemma u32_range z : is_u32 (u32 z).
Proof. apply Z.mod_pos_bound. lia. Qed.
Lemma i32_range z : is_i32 (i32 z).
Proof.
  unfold i32, is_i32. pose proof (Z.mod_pos_bound (z + 2 ^ 31) (2 ^ 32)). lia.
Qed.

(** The conversions between the signed and the unsigned 32-bit view of a word
    are inverse to each other on their ranges. *)
Lemma i32_u32 z : is_i32 z → i32 (u32 z) = z.
Proof.
  intros H. unfold i32, u32.
  rewrite Zplus_mod_idemp_l, Z.mod_small; width_lia.
Qed.

Lemma u32_i32 z : is_u32 z → u32 (i32 z) = z.
Proof.
  intros H. unfold i32, u32.
  rewrite Zminus_mod_idemp_l.
  replace (z + 2 ^ 31 - 2 ^ 31) with z by lia. by apply Z.mod_small.
Qed.

Lemma land_is_u32 a b : is_u32 b → is_u32 (Z.land a b).
Proof.
  intros Hb. assert (Heq : Z.land a b mod 2 ^ 32 = Z.land a b).
  { rewrite <- (u32_id b Hb) at 2. unfold u32. rewrite <- !Z.land_ones by lia.
    by rewrite Z.land_assoc. }
  rewrite <- Heq. apply Z.mod_pos_bound. lia.
Qed.

Lemma u32_mod z : u32 (u32 z) = u32 z.
Proof. apply u32_id, u32_range. Qed.
End Widths.

Create HintDb width.
#[export] Hint Resolve u8_range u16_range u32_range i32_range : width.
Create Rewrite HintDb width_id.
#[export] Hint Rewrite u8_id u16_id u32_id i32_id using (solve [auto with width | width_lia]) : width_id.

(** ** Boolean tests

    [bsimp] turns the boolean comparisons of the code into propositions in the
    hypotheses and the goal. *)
Ltac bsimp :=
  repeat match goal with
    | H : (_ && _)%bool = true |- _ => apply andb_true_iff in H as [? ?]
    | H : (_ || _)%bool = false |- _ => apply orb_false_iff in H as [? ?]
    | H : (_ || _)%bool = true |- _ => apply orb_true_iff in H
    | H : (_ && _)%bool = false |- _ => apply andb_false_iff in H
    | H : negb _ = true |- _ => apply negb_true_iff in H
    | H : negb _ = false |- _ => apply negb_false_iff in H
    | H : (_ =? _) = true |- _ => apply Z.eqb_eq in H
    | H : (_ =? _) = false |- _ => apply Z.eqb_neq in H
    | H : (_ <? _) = true |- _ => apply Z.ltb_lt in H
    | H : (_ <? _) = false |- _ => apply Z.ltb_ge in H
    | H : (_ <=? _) = true |- _ => apply Z.leb_le in H
    | H : (_ <=? _) = false |- _ => apply Z.leb_gt in H
    end.

(** Case analysis on the guard of the first conditional in the goal (or in a
    hypothesis), keeping the equation. *)
Ltac case_if :=
  match goal with
  | |- context [if ?b then _ else _] =>
      lazymatch b with
      | negb ?c => destruct c eqn:?; cbn [negb]
      | _ => destruct b eqn:?
      end
  end.

Ltac case_if_in H :=
  match type of H with
  | context [if ?b then _ else _] => destruct b eqn:?
  end.

Ltac case_match_in H :=
  match type of H with
  | context [match ?x with _ => _ end] => destruct x eqn:?
  end.

(** ** Effects

    A C++ member function is a state transformer that returns its result and
    the next state of the object graph it can reach. *)
Definition ST (S A : Type) : Type := S → A * S.

#[global] Instance ST_ret {S} : MRet (ST S) := λ A a s, (a, s).
#[global] Instance ST_bind {S} : MBind (ST S) := λ A B f m s, let '(a, s') := m s in f a s'.
#[global] Instance ST_fmap {S} : FMap (ST S) := λ A B f m s, let '(a, s') := m s in (f a, s').

Definition get_st {S} : ST S S := λ s, (s, s).
Definition put_st {S} (s : S) : ST S unit := λ _, (tt, s).
Definition gets {S A} (f : S → A) : ST S A := λ s, (f s, s).
Definition modify {S} (f : S → S) : ST S unit := λ s, (tt, f s).
Definition mwhen {S} (b : bool) (m : ST S unit) : ST S unit := if b then m else mret tt.

(** A loop over a container, as the code's range-based [for]. *)
Fixpoint mfor {S A} (l : list A) (f : A → ST S unit) : ST S unit :=
  match l with
  | [] => mret tt
  | x :: l' => f x ;; mfor l' f
  end.

Definition run {S A} (m : ST S A) (s : S) : A * S := m s.
Definition result {S A} (m : ST S A) (s : S) : A := (m s).1.
Definition after {S A} (m : ST S A) (s : S) : S := (m s).2.

Section StateLaws.
Context {S : Type}.

Lemma bind_unfold {A B} (m : ST S A) (f : A → ST S B) s :
  (m ≫= f) s = f (m s).1 (m s).2.
Proof. unfold mbind, ST_bind. by destruct (m s). Qed.

Lemma after_bind {A B} (m : ST S A) (f : A → ST S B) s :
  after (m ≫= f) s = after (f (result m s)) (after m s).
Proof. unfold after, result. by rewrite bind_unfold. Qed.
Lemma result_bind {A B} (m : ST S A) (f : A → ST S B) s :
  result (m ≫= f) s = result (f (result m s)) (after m s).
Proof. unfold after, result. by rewrite bind_unfold. Qed.
Lemma after_pair {A} (m : ST S A) s a s' : m s = (a, s') → s' = after m s.
Proof. unfold after. by intros ->. Qed.
Lemma after_ret {A} (a : A) (s : S) : after (mret a) s = s.
Proof. done. Qed.
Lemma result_ret {A} (a : A) (s : S) : result (mret a) s = a.
Proof. done. Qed.
Lemma after_gets {A} (f : S → A) s : after (gets f) s = s.
Proof. done. Qed.
Lemma result_gets {A} (f : S → A) s : result (gets f) s = f s.
Proof. done. Qed.
Lemma after_modify (f : S → S) s : after (modify f) s = f s.
Proof. done. Qed.
Lemma after_if {A} (b : bool) (m n : ST S A) s :
  after (if b then m else n) s = if b then after m s else after n s.
Proof. by destruct b. Qed.
Lemma after_when (b : bool) (m : ST S unit) s :
  after (mwhen b m) s = if b then after m s else s.
Proof. by destruct b. Qed.

(** [preserves I m]: the operation keeps the invariant whatever it returns. *)
Definition preserves (I : S → Prop) {A} (m : ST S A) : Prop :=
  ∀ s, I s → I (after m s).

Lemma preserves_ret (I : S → Prop) {A} (a : A) : preserves I (mret a).
Proof. by intros s. Qed.

Lemma preserves_bind (I : S → Prop) {A B} (m : ST S A) (f : A → ST S B) :
  preserves I m → (∀ a, preserves I (f a)) → preserves I (m ≫= f).
Proof.
  intros Hm Hf s Hs. unfold after. rewrite bind_unfold. by apply Hf, Hm.
Qed.

Lemma preserves_gets (I : S → Prop) {A} (f : S → A) : preserves I (gets f).
Proof. by intros s. Qed.

Lemma preserves_modify (I : S → Prop) (f : S → S) :
  (∀ s, I s → I (f s)) → preserves I (modify f).
Proof. intros H s Hs. by apply H. Qed.

Lemma preserves_when (I : S → Prop) b (m : ST S unit) :
  preserves I m → preserves I (mwhen b m).
Proof. intros H. destruct b; [exact H | apply preserves_ret]. Qed.

Lemma preserves_for (I : S → Prop) {A} (l : list A) (f : A → ST S unit) :
  (∀ x, preserves I (f x)) → preserves I (mfor l f).
Proof.
  intros H. induction l as [|x l IH]; [apply preserves_ret|].
  apply preserves_bind; auto.
Qed.

Lemma preserves_mapM (I : S → Prop) {A B} (f : A → ST S B) (l : list A) :
  (∀ x, preserves I (f x)) → preserves I (mapM f l).
Proof.
  intros H. induction l as [|x l IH]; [apply preserves_ret|].
  apply preserves_bind; [apply H|]. intros y. apply preserves_bind; [apply IH|].
  intros ys. apply preserves_ret.
Qed.

Lemma preserves_if (I : S → Prop) {A} (b : bool) (m n : ST S A) :
  (b = true → preserves I m) → (b = false → preserves I n) →
  preserves I (if b then m else n).
Proof. destruct b; auto. Qed.
End StateLaws.

Create Rewrite HintDb st.
#[export] Hint Rewrite @after_bind @result_bind @after_ret @result_ret @after_gets @result_gets
  @after_modify @after_when : st.

(** The hint database of the invariant proofs: an operation built from steps that
    preserve the invariant preserves it. *)
Create HintDb preserve.
#[export] Hint Resolve preserves_ret preserves_gets : preserve.

Ltac step_preserve :=
  repeat first
    [ progress intros
    | solve [auto 2 with preserve nocore]
    | apply preserves_ret
    | apply preserves_gets
    | apply preserves_bind
    | apply preserves_when
    | apply preserves_for
    | apply preserves_mapM
    | apply preserves_if
    | match goal with |- preserves _ (match ?x with _ => _ end) => destruct x end ].

(** Evaluate a monadic computation by symbolic execution: unfold the monad, then split on
    the results of the calls whose implementation is a parameter. *)
Ltac st_unfold :=
  cbv [result after run mbind ST_bind mret ST_ret fmap ST_fmap gets modify get_st put_st mwhen] in *.

(** Run a program up to its next call of a component. *)
Ltac st_exec :=
  repeat (rewrite ?bind_unfold, ?Z.eqb_refl; cbn [gets modify mret ST_ret fst snd negb]);
  cbn beta iota zeta.

Ltac head_of t := lazymatch t with ?f _ => head_of f | _ => t end.

Ltac st_split :=
  repeat (simpl in *;
    match goal with
    | |- context [match ?m with (_, _) => _ end] =>
        let h := head_of m in
        lazymatch h with
        | match _ with _ => _ end => fail
        | _ => destruct m eqn:?
        end
    | |- context [if ?b then _ else _] =>
        lazymatch b with
        | context [match _ with _ => _ end] => fail
        | _ => destruct b eqn:?
        end
    end).

(** ** Association of a list of optional results *)
Definition opt_is_some {A} (o : option A) : bool :=
  match o with Some _ => true | None => false end.

Lemma opt_is_some_true {A} (o : option A) : opt_is_some o = true ↔ is_Some o.
Proof. destruct o; simpl; split; [by eauto | done | done | by intros [? ?]]. Qed.

(** ** Lists *)
Lemma filter_none {A} (P : A → Prop) `{!∀ x, Decision (P x)} (l : list A) :
  (∀ x, x ∈ l → ¬ P x) → filter P l = [].
Proof.
  induction l as [|x l IH]; intros Hl; [done|].
  rewrite filter_cons_False by (apply Hl; left). apply IH. intros y Hy. apply Hl. by right.
Qed.

Lemma forallb_false_exists {A} (f : A → bool) (l : list A) :
  forallb f l = false → ∃ x, x ∈ l ∧ f x = false.
Proof.
  induction l as [|x l IH]; simpl; [done|]. destruct (f x) eqn:E; simpl.
  - intros (y & Hy & Hf)%IH. exists y. split; [by right|done].
  - intros _. exists x. split; [by left|done].
Qed.

Lemma forallb_true_elem {A} (f : A → bool) (l : list A) x :
  forallb f l = true → x ∈ l → f x = true.
Proof.
  intros Hf Hx. rewrite forallb_forall in Hf. apply Hf. by apply list_elem_of_In.
Qed.

(** ** Maps in key order

    The iteration order of a [std::map] is the order of its keys. *)
Definition key_le {A} (p q : Z * A) : Prop := Z.le p.1 q.1.
#[export] Instance key_le_dec {A} (p q : Z * A) : Decision (key_le p q) := Z_le_dec p.1 q.1.
#[export] Instance key_le_trans {A} : Transitive (@key_le A).
Proof. intros p q r. unfold key_le. lia. Qed.
#[export] Instance key_le_total {A} : Total (@key_le A).
Proof. intros p q. unfold key_le. lia. Qed.
Definition map_in_order {A} (m : gmap Z A) : list (Z * A) :=
  merge_sort key_le (map_to_list m).

Section InOrder.
Context {A : Type}.
Implicit Types m : gmap Z A.

Lemma elem_of_map_in_order m k x : (k, x) ∈ map_in_order m ↔ m !! k = Some x.
Proof. unfold map_in_order. by rewrite merge_sort_Permutation, elem_of_map_to_list. Qed.

Lemma NoDup_map_in_order m : NoDup (map_in_order m).*1.
Proof. unfold map_in_order. rewrite merge_sort_Permutation. apply NoDup_fst_map_to_list. Qed.

Lemma length_map_in_order m : length (map_in_order m) = size m.
Proof. unfold map_in_order. by rewrite merge_sort_Permutation, length_map_to_list. Qed.

(** The keys come out in strictly ascending order. *)
Lemma map_in_order_sorted m : StronglySorted Z.lt (map_in_order m).*1.
Proof.
  pose proof (NoDup_map_in_order m) as Hnd.
  assert (Hs : StronglySorted key_le (map_in_order m)).
  { apply (StronglySorted_merge_sort key_le _). }
  induction Hs as [|p l Hs IH Hp]; csimpl; [constructor|].
  csimpl in Hnd. apply NoDup_cons in Hnd as [Hn Hnd]. constructor; [by apply IH|].
  apply Forall_fmap. rewrite Forall_forall in Hp |- *. intros q Hq. simpl.
  specialize (Hp q Hq). unfold key_le in Hp. assert (p.1 ≠ q.1); [|lia].
  intros Heq. apply Hn. rewrite Heq. by apply list_elem_of_fmap_2.
Qed.
End InOrder.
