(* ===== verification/Text.v ===== *)
(** * Texts and numbers

    The C library's reading of a decimal number and the searches on strings that several
    components use. *)

From Stdlib Require Import Ascii.
From S2P Require Import Prelude.

#[local] Set Default Goal Selector "!".

(** ** Reading a decimal number *)

(** [std::isspace] on the C locale, and the value of a decimal digit. *)
Definition is_space (c : ascii) : bool :=
  let n := Ascii.nat_of_ascii c in
  bool_decide (n = 32 ∨ (9 ≤ n ∧ n ≤ 13))%nat.
Definition digit_of (c : ascii) : option Z :=
  let n := Z.of_nat (Ascii.nat_of_ascii c) in
  if (48 <=? n) && (n <=? 57) then Some (n - 48) else None.

Fixpoint skip_spaces (s : string) : string :=
  match s with
  | String c s' => if is_space c then skip_spaces s' else s
  | EmptyString => EmptyString
  end.

(** The digits at the front of a string: the number read so far, how many, the rest. *)
Fixpoint read_digits (s : string) (acc : Z) (count : nat) : Z * nat * string :=
  match s with
  | String c s' =>
      match digit_of c with
      | Some d => read_digits s' (acc * 10 + d) (S count)
      | None => (acc, count, s)
      end
  | EmptyString => (acc, count, s)
  end.

(** [std::strtol(str, &endptr, 10)] on a 64-bit [long]: the value, whether [errno] was set,
    the rest of the string, and whether any character was consumed. *)
Definition strtol10 (str : string) : Z * bool * string * bool :=
  let s := skip_spaces str in
  let '(neg, s) :=
    match s with
    | String "-"%char s' => (true, s')
    | String "+"%char s' => (false, s')
    | _ => (false, s)
    end in
  let '(n, count, rest) := read_digits s 0 0 in
  if decide (count = 0%nat) then (0, false, str, false)
  else
    let v := if (neg : bool) then - n else n in
    if v <? - 2 ^ 63 then (- 2 ^ 63, true, rest, true)
    else if 2 ^ 63 - 1 <? v then (2 ^ 63 - 1, true, rest, true)
    else (v, false, rest, true).

(** [std::regex_match(s, "^[0-9]+$")] *)
Definition all_digits (s : string) : bool :=
  negb (String.eqb s "") &&
  forallb (λ c, opt_is_some (digit_of c)) (String.list_ascii_of_string s).

(** [std::stoi]: [None] is the exception. *)
Definition stoi (s : string) : option Z :=
  let '(number, errno, _, _) := strtol10 s in
  if (errno : bool) || (number <? INT32_MIN) || (INT32_MAX <? number) then None else Some number.

(** ** C strings *)

(** [std::string::c_str], as the C library reads it: up to the first NUL. *)
Fixpoint c_str (s : string) : string :=
  match s with
  | EmptyString => EmptyString
  | String c s => if Ascii.eqb c "000"%char then EmptyString else String c (c_str s)
  end.
Definition no_nul (s : string) : Prop := c_str s = s.

Lemma c_str_no_nul s : no_nul (c_str s).
Proof.
  unfold no_nul. induction s as [|c s IH]; simpl; [done|]. destruct (Ascii.eqb c _) eqn:E; [done|].
  simpl. by rewrite E, IH.
Qed.

(** ** Strings of digits *)
Section Digits.
Definition digit_char (d : nat) : ascii := Ascii.ascii_of_nat (48 + d).
Definition digits_string (ds : list nat) : string :=
  String.string_of_list_ascii (digit_char <$> ds).
Lemma digits_string_cons d ds :
  digits_string (d :: ds) = String (digit_char d) (digits_string ds).
Proof. reflexivity. Qed.
Definition digits_value (ds : list nat) : Z := foldl (λ acc d, acc * 10 + Z.of_nat d) 0 ds.

Ltac ten_digits d := do 10 (destruct d as [|d]; [reflexivity|]); lia.

Lemma digit_of_char d : (d < 10)%nat → digit_of (digit_char d) = Some (Z.of_nat d).
Proof. intros. ten_digits d. Qed.

Lemma read_digits_string ds : ∀ acc n,
  Forall (λ d, d < 10)%nat ds →
  read_digits (digits_string ds) acc n =
    (foldl (λ acc d, acc * 10 + Z.of_nat d) acc ds, (n + length ds)%nat, "").
Proof.
  induction ds as [|d ds IH]; intros acc n Hds.
  { cbn. by rewrite Nat.add_0_r. }
  apply Forall_cons in Hds as [Hd Hds]. rewrite digits_string_cons. cbn [read_digits foldl length].
  rewrite digit_of_char, IH by done.
  by replace (S n + length ds)%nat with (n + S (length ds))%nat by lia.
Qed.

Lemma digits_value_pos ds : 0 <= digits_value ds.
Proof.
  unfold digits_value. assert (H : ∀ acc, 0 <= acc →
    0 <= foldl (λ acc d, acc * 10 + Z.of_nat d) acc ds); [|by apply H].
  induction ds as [|d ds IH]; intros acc Hacc; simpl; [done|]. apply IH. lia.
Qed.

(** A digit is neither a space nor a sign, so [strtol] starts reading at it. *)
Lemma strtol_front d s :
  (d < 10)%nat → skip_spaces (String (digit_char d) s) = String (digit_char d) s.
Proof. intros. ten_digits d. Qed.

Lemma strtol_minus s : skip_spaces (String "-"%char s) = String "-"%char s.
Proof. reflexivity. Qed.

Lemma strtol_no_sign {A} d s (f : string → A) (g : string → A) (h : A) :
  (d < 10)%nat →
  match String (digit_char d) s with
  | String "-"%char s' => f s'
  | String "+"%char s' => g s'
  | _ => h
  end = h.
Proof. intros. ten_digits d. Qed.

End Digits.

Lemma string_app_empty_r (s : string) : s +:+ "" = s.
Proof. induction s as [|c s IH]; [done|]. exact (f_equal (String c) IH). Qed.
