(* ===== verification/UsbErrors.v ===== *)
(** * Error codes

    [utils/native/include/usb_errors.h].  The framework's offset is
    [ErrCodeOffset(SUBSYS_USB, USB_MODULE_TYPE_SERVICE)], computed by the base library's
    [errors.h]; it and the driver framework's codes ([hdf_base.h]) are outside the
    repository, so they are the fields of the class [ErrBase], with the documented facts
    the code relies on: the offset is a positive [int32_t] far from overflow, and driver
    framework errors are negative. *)

From S2P Require Import Prelude.

#[local] Set Default Goal Selector "!".

Class ErrBase := {
  USBFWK_SERVICE_ERR_OFFSET : Z;
  HDF_FAILURE : Z;
  HDF_ERR_NOT_SUPPORT : Z;
  err_offset_range : 0 < USBFWK_SERVICE_ERR_OFFSET < 2 ^ 31 - 1000;
  hdf_failure_range : -2 ^ 31 <= HDF_FAILURE < 0;
  hdf_not_support_range : -2 ^ 31 <= HDF_ERR_NOT_SUPPORT < 0;
}.

(** [usb_errors.h:33-33] [USB_OFFSET] *)
Definition USB_OFFSET : Z := 100.

(** [usb_errors.h:37-38] [UEC_OK], and the base library's [ERR_OK] *)
Definition UEC_OK : Z := 0.
Definition ERR_OK : Z := 0.

Section Codes.
Context `{EB : ErrBase}.

(** [usb_errors.h:40-40] [UEC_INTERFACE_NO_MEMORY] *)
Definition UEC_INTERFACE_NO_MEMORY : Z := USBFWK_SERVICE_ERR_OFFSET.
(** [usb_errors.h:41-41] [UEC_INTERFACE_INVALID_OPERATION] *)
Definition UEC_INTERFACE_INVALID_OPERATION : Z := USBFWK_SERVICE_ERR_OFFSET + 1.
(** [usb_errors.h:42-42] [UEC_INTERFACE_INVALID_VALUE] *)
Definition UEC_INTERFACE_INVALID_VALUE : Z := USBFWK_SERVICE_ERR_OFFSET + 2.
(** [usb_errors.h:43-43] [UEC_INTERFACE_NAME_NOT_FOUND] *)
Definition UEC_INTERFACE_NAME_NOT_FOUND : Z := USBFWK_SERVICE_ERR_OFFSET + 3.
(** [usb_errors.h:44-44] [UEC_INTERFACE_PERMISSION_DENIED] *)
Definition UEC_INTERFACE_PERMISSION_DENIED : Z := USBFWK_SERVICE_ERR_OFFSET + 4.
(** [usb_errors.h:45-45] [UEC_INTERFACE_NO_INIT] *)
Definition UEC_INTERFACE_NO_INIT : Z := USBFWK_SERVICE_ERR_OFFSET + 5.
(** [usb_errors.h:46-46] [UEC_INTERFACE_ALREADY_EXISTS] *)
Definition UEC_INTERFACE_ALREADY_EXISTS : Z := USBFWK_SERVICE_ERR_OFFSET + 6.
(** [usb_errors.h:47-47] [UEC_INTERFACE_DEAD_OBJECT] *)
Definition UEC_INTERFACE_DEAD_OBJECT : Z := USBFWK_SERVICE_ERR_OFFSET + 7.
(** [usb_errors.h:48-48] [UEC_INTERFACE_OVERFLOW] *)
Definition UEC_INTERFACE_OVERFLOW : Z := USBFWK_SERVICE_ERR_OFFSET + 8.
(** [usb_errors.h:49-49] [UEC_INTERFACE_ENOUGH_DATA] *)
Definition UEC_INTERFACE_ENOUGH_DATA : Z := USBFWK_SERVICE_ERR_OFFSET + 9.
(** [usb_errors.h:50-50] [UEC_INTERFACE_WOULD_BLOCK] *)
Definition UEC_INTERFACE_WOULD_BLOCK : Z := USBFWK_SERVICE_ERR_OFFSET + 10.
(** [usb_errors.h:51-51] [UEC_INTERFACE_TIMED_OUT] *)
Definition UEC_INTERFACE_TIMED_OUT : Z := USBFWK_SERVICE_ERR_OFFSET + 11.
(** [usb_errors.h:52-52] [UEC_INTERFACE_WRITE_PARCEL_ERROR] *)
Definition UEC_INTERFACE_WRITE_PARCEL_ERROR : Z := USBFWK_SERVICE_ERR_OFFSET + 12.
(** [usb_errors.h:53-53] [UEC_INTERFACE_READ_PARCEL_ERROR] *)
Definition UEC_INTERFACE_READ_PARCEL_ERROR : Z := USBFWK_SERVICE_ERR_OFFSET + 13.
(** [usb_errors.h:54-54] [UEC_INTERFACE_GET_SYSTEM_ABILITY_MANAGER_FAILED] *)
Definition UEC_INTERFACE_GET_SYSTEM_ABILITY_MANAGER_FAILED : Z := USBFWK_SERVICE_ERR_OFFSET + 14.
(** [usb_errors.h:55-55] [UEC_INTERFACE_GET_USB_SERVICE_FAILED] *)
Definition UEC_INTERFACE_GET_USB_SERVICE_FAILED : Z := USBFWK_SERVICE_ERR_OFFSET + 15.
(** [usb_errors.h:56-56] [UEC_INTERFACE_ADD_DEATH_RECIPIENT_FAILED] *)
Definition UEC_INTERFACE_ADD_DEATH_RECIPIENT_FAILED : Z := USBFWK_SERVICE_ERR_OFFSET + 16.
(** [usb_errors.h:57-57] [UEC_INTERFACE_INNER_ERR] *)
Definition UEC_INTERFACE_INNER_ERR : Z := USBFWK_SERVICE_ERR_OFFSET + 17.
(** [usb_errors.h:58-58] [UEC_INTREFACE_END] *)
Definition UEC_INTREFACE_END : Z := USBFWK_SERVICE_ERR_OFFSET + 18.
(** [usb_errors.h:60-60] [UEC_SERVICE_NO_MEMORY] *)
Definition UEC_SERVICE_NO_MEMORY : Z := USBFWK_SERVICE_ERR_OFFSET + USB_OFFSET.
(** [usb_errors.h:61-61] [UEC_SERVICE_INVALID_OPERATION] *)
Definition UEC_SERVICE_INVALID_OPERATION : Z := USBFWK_SERVICE_ERR_OFFSET + USB_OFFSET + 1.
(** [usb_errors.h:62-62] [UEC_SERVICE_INVALID_VALUE] *)
Definition UEC_SERVICE_INVALID_VALUE : Z := USBFWK_SERVICE_ERR_OFFSET + USB_OFFSET + 2.
(** [usb_errors.h:63-63] [UEC_SERVICE_NAME_NOT_FOUND] *)
Definition UEC_SERVICE_NAME_NOT_FOUND : Z := USBFWK_SERVICE_ERR_OFFSET + USB_OFFSET + 3.
(** [usb_errors.h:64-64] [UEC_SERVICE_PERMISSION_DENIED] *)
Definition UEC_SERVICE_PERMISSION_DENIED : Z := USBFWK_SERVICE_ERR_OFFSET + USB_OFFSET + 4.
(** [usb_errors.h:65-65] [UEC_SERVICE_NO_INIT] *)
Definition UEC_SERVICE_NO_INIT : Z := USBFWK_SERVICE_ERR_OFFSET + USB_OFFSET + 5.
(** [usb_errors.h:66-66] [UEC_SERVICE_ALREADY_EXISTS] *)
Definition UEC_SERVICE_ALREADY_EXISTS : Z := USBFWK_SERVICE_ERR_OFFSET + USB_OFFSET + 6.
(** [usb_errors.h:67-67] [UEC_SERVICE_DEAD_OBJECT] *)
Definition UEC_SERVICE_DEAD_OBJECT : Z := USBFWK_SERVICE_ERR_OFFSET + USB_OFFSET + 7.
(** [usb_errors.h:68-68] [UEC_SERVICE_OVERFLOW] *)
Definition UEC_SERVICE_OVERFLOW : Z := USBFWK_SERVICE_ERR_OFFSET + USB_OFFSET + 8.
(** [usb_errors.h:69-69] [UEC_SERVICE_ENOUGH_DATA] *)
Definition UEC_SERVICE_ENOUGH_DATA : Z := USBFWK_SERVICE_ERR_OFFSET + USB_OFFSET + 9.
(** [usb_errors.h:70-70] [UEC_SERVICE_WOULD_BLOCK] *)
Definition UEC_SERVICE_WOULD_BLOCK : Z := USBFWK_SERVICE_ERR_OFFSET + USB_OFFSET + 10.
(** [usb_errors.h:71-71] [UEC_SERVICE_TIMED_OUT] *)
Definition UEC_SERVICE_TIMED_OUT : Z := USBFWK_SERVICE_ERR_OFFSET + USB_OFFSET + 11.
(** [usb_errors.h:72-72] [UEC_SERVICE_WRITE_PARCEL_ERROR] *)
Definition UEC_SERVICE_WRITE_PARCEL_ERROR : Z := USBFWK_SERVICE_ERR_OFFSET + USB_OFFSET + 12.
(** [usb_errors.h:73-73] [UEC_SERVICE_READ_PARCEL_ERROR] *)
Definition UEC_SERVICE_READ_PARCEL_ERROR : Z := USBFWK_SERVICE_ERR_OFFSET + USB_OFFSET + 13.
(** [usb_errors.h:74-74] [UEC_SERVICE_GET_SYSTEM_ABILITY_MANAGER_FAILED] *)
Definition UEC_SERVICE_GET_SYSTEM_ABILITY_MANAGER_FAILED : Z := USBFWK_SERVICE_ERR_OFFSET + USB_OFFSET + 14.
(** [usb_errors.h:75-75] [UEC_SERVICE_GET_USB_SERVICE_FAILED] *)
Definition UEC_SERVICE_GET_USB_SERVICE_FAILED : Z := USBFWK_SERVICE_ERR_OFFSET + USB_OFFSET + 15.
(** [usb_errors.h:76-76] [UEC_SERVICE_ADD_DEATH_RECIPIENT_FAILED] *)
Definition UEC_SERVICE_ADD_DEATH_RECIPIENT_FAILED : Z := USBFWK_SERVICE_ERR_OFFSET + USB_OFFSET + 16.
(** [usb_errors.h:77-77] [UEC_SERVICE_INNER_ERR] *)
Definition UEC_SERVICE_INNER_ERR : Z := USBFWK_SERVICE_ERR_OFFSET + USB_OFFSET + 17.
(** [usb_errors.h:78-78] [UEC_SERVICE_PERMISSION_DENIED_SYSAPI] *)
Definition UEC_SERVICE_PERMISSION_DENIED_SYSAPI : Z := USBFWK_SERVICE_ERR_OFFSET + USB_OFFSET + 18.
(** [usb_errors.h:79-79] [UEC_SERVICE_PERMISSION_CHECK_HDC] *)
Definition UEC_SERVICE_PERMISSION_CHECK_HDC : Z := USBFWK_SERVICE_ERR_OFFSET + USB_OFFSET + 19.
(** [usb_errors.h:80-80] [UEC_SERVICE_NOT_SUPPORT_SWITCH_PORT] *)
Definition UEC_SERVICE_NOT_SUPPORT_SWITCH_PORT : Z := USBFWK_SERVICE_ERR_OFFSET + USB_OFFSET + 20.
(** [usb_errors.h:81-81] [UEC_SERVICE_END] *)
Definition UEC_SERVICE_END : Z := USBFWK_SERVICE_ERR_OFFSET + USB_OFFSET + 21.
(** [usb_errors.h:82-82] [UEC_SERVICE_PRE_MANAGE_INTERFACE_FAILED] *)
Definition UEC_SERVICE_PRE_MANAGE_INTERFACE_FAILED : Z := USBFWK_SERVICE_ERR_OFFSET + USB_OFFSET + 22.
(** [usb_errors.h:83-83] [UEC_SERVICE_EXECUTE_POLICY_FAILED] *)
Definition UEC_SERVICE_EXECUTE_POLICY_FAILED : Z := USBFWK_SERVICE_ERR_OFFSET + USB_OFFSET + 23.
(** [usb_errors.h:84-84] [UEC_SERVICE_PREPARE_EDM_SA_FAILED] *)
Definition UEC_SERVICE_PREPARE_EDM_SA_FAILED : Z := USBFWK_SERVICE_ERR_OFFSET + USB_OFFSET + 24.
(** [usb_errors.h:85-85] [UEC_SERVICE_GET_EDM_SERVICE_FAILED] *)
Definition UEC_SERVICE_GET_EDM_SERVICE_FAILED : Z := USBFWK_SERVICE_ERR_OFFSET + USB_OFFSET + 25.
(** [usb_errors.h:86-86] [UEC_SERVICE_EDM_DEVICE_SIZE_EXCEED] *)
Definition UEC_SERVICE_EDM_DEVICE_SIZE_EXCEED : Z := USBFWK_SERVICE_ERR_OFFSET + USB_OFFSET + 26.
(** [usb_errors.h:87-87] [UEC_SERVICE_EDM_SA_TIME_OUT_FAILED] *)
Definition UEC_SERVICE_EDM_SA_TIME_OUT_FAILED : Z := USBFWK_SERVICE_ERR_OFFSET + USB_OFFSET + 27.
(** [usb_errors.h:88-88] [UEC_SERVICE_EDM_SEND_REQUEST_FAILED] *)
Definition UEC_SERVICE_EDM_SEND_REQUEST_FAILED : Z := USBFWK_SERVICE_ERR_OFFSET + USB_OFFSET + 28.
(** [usb_errors.h:89-89] [UEC_SERVICE_OBJECT_CREATE_FAILED] *)
Definition UEC_SERVICE_OBJECT_CREATE_FAILED : Z := USBFWK_SERVICE_ERR_OFFSET + USB_OFFSET + 29.
(** [usb_errors.h:90-90] [UEC_SERVICE_GET_TOKEN_INFO_FAILED] *)
Definition UEC_SERVICE_GET_TOKEN_INFO_FAILED : Z := USBFWK_SERVICE_ERR_OFFSET + USB_OFFSET + 30.
(** [usb_errors.h:91-91] [UEC_SERVICE_ACCESSORY_NOT_MATCH] *)
Definition UEC_SERVICE_ACCESSORY_NOT_MATCH : Z := USBFWK_SERVICE_ERR_OFFSET + USB_OFFSET + 31.
(** [usb_errors.h:92-92] [UEC_SERVICE_ACCESSORY_REOPEN] *)
Definition UEC_SERVICE_ACCESSORY_REOPEN : Z := USBFWK_SERVICE_ERR_OFFSET + USB_OFFSET + 32.
(** [usb_errors.h:93-93] [UEC_SERVICE_ACCESSORY_OPEN_NATIVE_NODE_FAILED] *)
Definition UEC_SERVICE_ACCESSORY_OPEN_NATIVE_NODE_FAILED : Z := USBFWK_SERVICE_ERR_OFFSET + USB_OFFSET + 33.
(** [usb_errors.h:94-94] [UEC_SERVICE_DATABASE_OPERATION_FAILED] *)
Definition UEC_SERVICE_DATABASE_OPERATION_FAILED : Z := USBFWK_SERVICE_ERR_OFFSET + USB_OFFSET + 34.
(** [usb_errors.h:95-95] [UEC_SERVICE_FUNCTION_NOT_SUPPORT] *)
Definition UEC_SERVICE_FUNCTION_NOT_SUPPORT : Z := USBFWK_SERVICE_ERR_OFFSET + USB_OFFSET + 35.
(** [usb_errors.h:96-96] [UEC_SERVICE_PERMISSION_DENIED_SYSAPI_FAILED] *)
Definition UEC_SERVICE_PERMISSION_DENIED_SYSAPI_FAILED : Z := USBFWK_SERVICE_ERR_OFFSET + USB_OFFSET + 36.
(** [usb_errors.h:97-97] [UEC_SERIAL_PORT_REPEAT_OPEN] *)
Definition UEC_SERIAL_PORT_REPEAT_OPEN : Z := USBFWK_SERVICE_ERR_OFFSET + USB_OFFSET + 37.
(** [usb_errors.h:98-98] [UEC_SERIAL_PORT_REPEAT_CLOSE] *)
Definition UEC_SERIAL_PORT_REPEAT_CLOSE : Z := USBFWK_SERVICE_ERR_OFFSET + USB_OFFSET + 38.
(** [usb_errors.h:99-99] [UEC_SERIAL_PORT_NOT_OPEN] *)
Definition UEC_SERIAL_PORT_NOT_OPEN : Z := USBFWK_SERVICE_ERR_OFFSET + USB_OFFSET + 39.
(** [usb_errors.h:100-100] [UEC_SERIAL_IO_EXCEPTION] *)
Definition UEC_SERIAL_IO_EXCEPTION : Z := USBFWK_SERVICE_ERR_OFFSET + USB_OFFSET + 40.
(** [usb_errors.h:101-101] [UEC_SERIAL_DEVICENOTOPEN] *)
Definition UEC_SERIAL_DEVICENOTOPEN : Z := USBFWK_SERVICE_ERR_OFFSET + USB_OFFSET + 41.
(** [usb_errors.h:102-102] [UEC_SERIAL_OTHER_ERROR] *)
Definition UEC_SERIAL_OTHER_ERROR : Z := USBFWK_SERVICE_ERR_OFFSET + USB_OFFSET + 42.
(** [usb_errors.h:103-103] [UEC_SERIAL_PORT_NOT_EXIST] *)
Definition UEC_SERIAL_PORT_NOT_EXIST : Z := USBFWK_SERVICE_ERR_OFFSET + USB_OFFSET + 43.
(** [usb_errors.h:104-104] [UEC_SERIAL_PORT_OCCUPIED] *)
Definition UEC_SERIAL_PORT_OCCUPIED : Z := USBFWK_SERVICE_ERR_OFFSET + USB_OFFSET + 44.
(** [usb_errors.h:105-105] [UEC_SERIAL_DATEBASE_ERROR] *)
Definition UEC_SERIAL_DATEBASE_ERROR : Z := USBFWK_SERVICE_ERR_OFFSET + USB_OFFSET + 45.
End Codes.

(** [usb_errors.h:105-114] [UsbRightErrCode] *)
Definition USB_RIGHT_OK : Z := 0.
Definition USB_RIGHT_FAILURE : Z := -1.
Definition USB_RIGHT_RDB_EXECUTE_FAILTURE : Z := -2.
Definition USB_RIGHT_RDB_NO_INIT : Z := -3.
Definition USB_RIGHT_RDB_EMPTY : Z := -4.
Definition USB_RIGHT_PERMISSION_DENIED : Z := -5.
Definition USB_RIGHT_NOP : Z := -6.
Definition USB_RIGHT_OVERFLOW : Z := -7.

(** Decide equations and inequations between error codes. *)
Ltac uec :=
  pose proof err_offset_range; pose proof hdf_failure_range;
  pose proof hdf_not_support_range;
  unfold UEC_INTERFACE_NO_MEMORY, UEC_INTERFACE_INVALID_OPERATION, UEC_INTERFACE_INVALID_VALUE, UEC_INTERFACE_NAME_NOT_FOUND, UEC_INTERFACE_PERMISSION_DENIED, UEC_INTERFACE_NO_INIT, UEC_INTERFACE_ALREADY_EXISTS, UEC_INTERFACE_DEAD_OBJECT, UEC_INTERFACE_OVERFLOW, UEC_INTERFACE_ENOUGH_DATA, UEC_INTERFACE_WOULD_BLOCK, UEC_INTERFACE_TIMED_OUT, UEC_INTERFACE_WRITE_PARCEL_ERROR, UEC_INTERFACE_READ_PARCEL_ERROR, UEC_INTERFACE_GET_SYSTEM_ABILITY_MANAGER_FAILED, UEC_INTERFACE_GET_USB_SERVICE_FAILED, UEC_INTERFACE_ADD_DEATH_RECIPIENT_FAILED, UEC_INTERFACE_INNER_ERR, UEC_INTREFACE_END, UEC_SERVICE_NO_MEMORY, UEC_SERVICE_INVALID_OPERATION, UEC_SERVICE_INVALID_VALUE, UEC_SERVICE_NAME_NOT_FOUND, UEC_SERVICE_PERMISSION_DENIED, UEC_SERVICE_NO_INIT, UEC_SERVICE_ALREADY_EXISTS, UEC_SERVICE_DEAD_OBJECT, UEC_SERVICE_OVERFLOW, UEC_SERVICE_ENOUGH_DATA, UEC_SERVICE_WOULD_BLOCK, UEC_SERVICE_TIMED_OUT, UEC_SERVICE_WRITE_PARCEL_ERROR, UEC_SERVICE_READ_PARCEL_ERROR, UEC_SERVICE_GET_SYSTEM_ABILITY_MANAGER_FAILED, UEC_SERVICE_GET_USB_SERVICE_FAILED, UEC_SERVICE_ADD_DEATH_RECIPIENT_FAILED, UEC_SERVICE_INNER_ERR, UEC_SERVICE_PERMISSION_DENIED_SYSAPI, UEC_SERVICE_PERMISSION_CHECK_HDC, UEC_SERVICE_NOT_SUPPORT_SWITCH_PORT, UEC_SERVICE_END, UEC_SERVICE_PRE_MANAGE_INTERFACE_FAILED, UEC_SERVICE_EXECUTE_POLICY_FAILED, UEC_SERVICE_PREPARE_EDM_SA_FAILED, UEC_SERVICE_GET_EDM_SERVICE_FAILED, UEC_SERVICE_EDM_DEVICE_SIZE_EXCEED, UEC_SERVICE_EDM_SA_TIME_OUT_FAILED, UEC_SERVICE_EDM_SEND_REQUEST_FAILED, UEC_SERVICE_OBJECT_CREATE_FAILED, UEC_SERVICE_GET_TOKEN_INFO_FAILED, UEC_SERVICE_ACCESSORY_NOT_MATCH, UEC_SERVICE_ACCESSORY_REOPEN, UEC_SERVICE_ACCESSORY_OPEN_NATIVE_NODE_FAILED, UEC_SERVICE_DATABASE_OPERATION_FAILED, UEC_SERVICE_FUNCTION_NOT_SUPPORT, UEC_SERVICE_PERMISSION_DENIED_SYSAPI_FAILED, UEC_SERIAL_PORT_REPEAT_OPEN, UEC_SERIAL_PORT_REPEAT_CLOSE, UEC_SERIAL_PORT_NOT_OPEN, UEC_SERIAL_IO_EXCEPTION, UEC_SERIAL_DEVICENOTOPEN, UEC_SERIAL_OTHER_ERROR, UEC_SERIAL_PORT_NOT_EXIST, UEC_SERIAL_PORT_OCCUPIED, UEC_SERIAL_DATEBASE_ERROR,
    USB_OFFSET, UEC_OK, ERR_OK, USB_RIGHT_OK in *; lia.

(** The code's test [ret != UEC_OK]. *)
Definition failed (ret : Z) : bool := negb (ret =? UEC_OK).

Lemma failed_true ret : failed ret = true ↔ ret ≠ UEC_OK.
Proof. unfold failed. rewrite negb_true_iff. apply Z.eqb_neq. Qed.
Lemma failed_false ret : failed ret = false ↔ ret = UEC_OK.
Proof. unfold failed. rewrite negb_false_iff. apply Z.eqb_eq. Qed.
Lemma failed_ok : failed UEC_OK = false.
Proof. reflexivity. Qed.

Section CodeFacts.
Context `{EB : ErrBase}.

Lemma invalid_value_not_ok : UEC_SERVICE_INVALID_VALUE ≠ UEC_OK.
Proof. uec. Qed.
Lemma permission_denied_not_ok : UEC_SERVICE_PERMISSION_DENIED ≠ UEC_OK.
Proof. uec. Qed.
Lemma accessory_not_match_not_ok : UEC_SERVICE_ACCESSORY_NOT_MATCH ≠ UEC_OK.
Proof. uec. Qed.
Lemma failed_invalid_value : failed UEC_SERVICE_INVALID_VALUE = true.
Proof. apply failed_true, invalid_value_not_ok. Qed.
Lemma failed_permission_denied : failed UEC_SERVICE_PERMISSION_DENIED = true.
Proof. apply failed_true, permission_denied_not_ok. Qed.
End CodeFacts.

Create HintDb uec.
#[export] Hint Resolve invalid_value_not_ok permission_denied_not_ok : uec.
Create Rewrite HintDb uec_test.
#[export] Hint Rewrite @failed_invalid_value @failed_permission_denied failed_ok : uec_test.

(** A concrete choice of the external constants, for evaluation. *)
Definition sample_codes : ErrBase.
Proof. refine (Build_ErrBase (28 * 2 ^ 21) (-1) (-2) _ _ _); abstract lia. Defined.
