(* ===== verification/UsbTypes.v ===== *)
(** * The USB data model

    The descriptor objects of [interfaces/innerkits/native/include]: an endpoint, an
    interface, a configuration and a device, each with its members, its default
    constructor, its accessors and its mutators (a mutator returns the updated object).
    A [std::vector] member is a list, [std::string] is [string], an integer member is
    the [Z] it holds.  The bracketed text above a definition names the file and lines it
    translates. *)

From S2P Require Import Prelude.

#[local] Set Default Goal Selector "!".

(** [usb_common.h:27-67] the masks and constants of the descriptors *)
Definition INVALID_USB_INT_VALUE : Z := -1.
Definition USB_ENDPOINT_XFERTYPE_MASK : Z := 3.
Definition USB_ENDPOINT_NUMBER_MASK : Z := 15.
Definition USB_ENDPOINT_DIR_MASK : Z := 128.
Definition USB_ENDPOINT_DIR_OUT : Z := 0.
Definition USB_ENDPOINT_DIR_IN : Z := 128.
Definition USB_CFG_SELF_POWERED : Z := 128.
Definition USB_CFG_REMOTE_WAKEUP : Z := 32.

(** ** The gadget functions, one bit each *)
(** [usb_srv_support.h:52-63] [Function] *)
Definition FUNCTION_NONE : Z := 0.
Definition FUNCTION_ACM : Z := 1.
Definition FUNCTION_ECM : Z := Z.shiftl 1 1.
Definition FUNCTION_HDC : Z := Z.shiftl 1 2.
Definition FUNCTION_MTP : Z := Z.shiftl 1 3.
Definition FUNCTION_PTP : Z := Z.shiftl 1 4.
Definition FUNCTION_RNDIS : Z := Z.shiftl 1 5.
Definition FUNCTION_NCM : Z := Z.shiftl 1 8.
Definition FUNCTION_STORAGE : Z := Z.shiftl 1 9.
Definition FUNCTION_DEVMODE_AUTH : Z := Z.shiftl 1 12.

(** ** [USBEndpoint] *)
Module USBEndpoint.
(** [usb_endpoint.h:214-219] [USBEndpoint] the data members *)
Record t := mk {
  address_ : Z;
  attributes_ : Z;
  interval_ : Z;
  maxPacketSize_ : Z;
  interfaceId_ : Z;
}.

Definition set_address_ (v : Z) (s : t) : t :=
  mk v (attributes_ s) (interval_ s) (maxPacketSize_ s) (interfaceId_ s).
Definition set_attributes_ (v : Z) (s : t) : t :=
  mk (address_ s) v (interval_ s) (maxPacketSize_ s) (interfaceId_ s).
Definition set_interval_ (v : Z) (s : t) : t :=
  mk (address_ s) (attributes_ s) v (maxPacketSize_ s) (interfaceId_ s).
Definition set_maxPacketSize_ (v : Z) (s : t) : t :=
  mk (address_ s) (attributes_ s) (interval_ s) v (interfaceId_ s).
Definition set_interfaceId_ (v : Z) (s : t) : t :=
  mk (address_ s) (attributes_ s) (interval_ s) (maxPacketSize_ s) v.

(** [usb_endpoint.h:214-219] [USBEndpoint] the member initialisers, for the default constructor *)
Definition default : t := mk 0 0 INVALID_USB_INT_VALUE INVALID_USB_INT_VALUE UINT8_MAX.

(** [usb_endpoint.h:102-105] [USBEndpoint::GetAddress] *)
Definition GetAddress (s : t) : Z := address_ s.
(** [usb_endpoint.h:112-115] [USBEndpoint::GetAttributes] *)
Definition GetAttributes (s : t) : Z := attributes_ s.
(** [usb_endpoint.h:122-125] [USBEndpoint::GetInterval] *)
Definition GetInterval (s : t) : Z := interval_ s.
(** [usb_endpoint.h:127-130] [USBEndpoint::GetMaxPacketSize] *)
Definition GetMaxPacketSize (s : t) : Z := maxPacketSize_ s.
(** [usb_endpoint.h:157-160] [USBEndpoint::SetAddr] *)
Definition SetAddr (v : Z) (s : t) : t := set_address_ v s.
(** [usb_endpoint.h:162-165] [USBEndpoint::SetAttr] *)
Definition SetAttr (v : Z) (s : t) : t := set_attributes_ v s.
(** [usb_endpoint.h:167-170] [USBEndpoint::SetInterval] *)
Definition SetInterval (v : Z) (s : t) : t := set_interval_ v s.
(** [usb_endpoint.h:172-175] [USBEndpoint::SetMaxPacketSize] *)
Definition SetMaxPacketSize (v : Z) (s : t) : t := set_maxPacketSize_ v s.
(** [usb_endpoint.h:177-180] [USBEndpoint::SetInterfaceId] *)
Definition SetInterfaceId (v : Z) (s : t) : t := set_interfaceId_ v s.
(** [usb_endpoint.h:30-36] [USBEndpoint::USBEndpoint] the member-wise constructor *)
Definition make (address attributes interval maxPacketSize : Z) : t :=
  mk address attributes (i32 interval) (i32 maxPacketSize) UINT8_MAX.
(** [usb_endpoint.h:97-100] [GetNumber] *)
Definition GetNumber (s : t) : Z := u8 (Z.land (address_ s) USB_ENDPOINT_NUMBER_MASK).
(** [usb_endpoint.h:107-110] [GetDirection] *)
Definition GetDirection (s : t) : Z := Z.land (address_ s) USB_ENDPOINT_DIR_MASK.
(** [usb_endpoint.h:117-120] [GetEndpointNumber] *)
Definition GetEndpointNumber (s : t) : Z := Z.land (address_ s) USB_ENDPOINT_NUMBER_MASK.
(** [usb_endpoint.h:132-135] [GetType] *)
Definition GetType (s : t) : Z := Z.land (attributes_ s) USB_ENDPOINT_XFERTYPE_MASK.
(** [usb_endpoint.h:182-185] [GetInterfaceId] the member is [uint8_t], the result [int8_t] *)
Definition GetInterfaceId (s : t) : Z := i8 (interfaceId_ s).
End USBEndpoint.

(** ** [UsbInterface] *)
Module UsbInterface.
(** [usb_interface.h:304-313] [UsbInterface] the data members *)
Record t := mk {
  id_ : Z;
  protocol_ : Z;
  klass_ : Z;
  subClass_ : Z;
  alternateSetting_ : Z;
  name_ : string;
  endpoints_ : list USBEndpoint.t;
  iInterface_ : Z;
  authorized_ : bool;
}.

Definition set_id_ (v : Z) (s : t) : t :=
  mk v (protocol_ s) (klass_ s) (subClass_ s) (alternateSetting_ s) (name_ s) (endpoints_ s) (iInterface_ s) (authorized_ s).
Definition set_protocol_ (v : Z) (s : t) : t :=
  mk (id_ s) v (klass_ s) (subClass_ s) (alternateSetting_ s) (name_ s) (endpoints_ s) (iInterface_ s) (authorized_ s).
Definition set_klass_ (v : Z) (s : t) : t :=
  mk (id_ s) (protocol_ s) v (subClass_ s) (alternateSetting_ s) (name_ s) (endpoints_ s) (iInterface_ s) (authorized_ s).
Definition set_subClass_ (v : Z) (s : t) : t :=
  mk (id_ s) (protocol_ s) (klass_ s) v (alternateSetting_ s) (name_ s) (endpoints_ s) (iInterface_ s) (authorized_ s).
Definition set_alternateSetting_ (v : Z) (s : t) : t :=
  mk (id_ s) (protocol_ s) (klass_ s) (subClass_ s) v (name_ s) (endpoints_ s) (iInterface_ s) (authorized_ s).
Definition set_name_ (v : string) (s : t) : t :=
  mk (id_ s) (protocol_ s) (klass_ s) (subClass_ s) (alternateSetting_ s) v (endpoints_ s) (iInterface_ s) (authorized_ s).
Definition set_endpoints_ (v : list USBEndpoint.t) (s : t) : t :=
  mk (id_ s) (protocol_ s) (klass_ s) (subClass_ s) (alternateSetting_ s) (name_ s) v (iInterface_ s) (authorized_ s).
Definition set_iInterface_ (v : Z) (s : t) : t :=
  mk (id_ s) (protocol_ s) (klass_ s) (subClass_ s) (alternateSetting_ s) (name_ s) (endpoints_ s) v (authorized_ s).
Definition set_authorized_ (v : bool) (s : t) : t :=
  mk (id_ s) (protocol_ s) (klass_ s) (subClass_ s) (alternateSetting_ s) (name_ s) (endpoints_ s) (iInterface_ s) v.

(** [usb_interface.h:304-313] [UsbInterface] the member initialisers, for the default constructor *)
Definition default : t := mk INT32_MAX INT32_MAX INT32_MAX INT32_MAX INT32_MAX "" [] UINT8_MAX true.

(** [usb_interface.h:33-47] [UsbInterface::UsbInterface] the member-wise constructor; it does not keep the name *)
Definition make (id protocol interfaceClass subClass alternateSetting : Z) (name : string)
    (endpoints : list USBEndpoint.t) : t :=
  mk id protocol interfaceClass subClass alternateSetting (name_ default) endpoints (iInterface_ default)
    (authorized_ default).

(** [usb_interface.h:142-145] [UsbInterface::GetName] *)
Definition GetName (s : t) : string := name_ s.
(** [usb_interface.h:147-150] [UsbInterface::GetId] *)
Definition GetId (s : t) : Z := id_ s.
(** [usb_interface.h:152-155] [UsbInterface::GetClass] *)
Definition GetClass (s : t) : Z := klass_ s.
(** [usb_interface.h:157-160] [UsbInterface::GetSubClass] *)
Definition GetSubClass (s : t) : Z := subClass_ s.
(** [usb_interface.h:162-165] [UsbInterface::GetAlternateSetting] *)
Definition GetAlternateSetting (s : t) : Z := alternateSetting_ s.
(** [usb_interface.h:167-170] [UsbInterface::GetProtocol] *)
Definition GetProtocol (s : t) : Z := protocol_ s.
(** [usb_interface.h:187-190] [UsbInterface::GetEndpoints] *)
Definition GetEndpoints (s : t) : list USBEndpoint.t := endpoints_ s.
(** [usb_interface.h:253-256] [UsbInterface::GetiInterface] *)
Definition GetiInterface (s : t) : Z := iInterface_ s.
(** [usb_interface.h:258-261] [UsbInterface::GetAuthorizeStatus] *)
Definition GetAuthorizeStatus (s : t) : bool := authorized_ s.
(** [usb_interface.h:192-195] [UsbInterface::SetEndpoints] *)
Definition SetEndpoints (v : list USBEndpoint.t) (s : t) : t := set_endpoints_ v s.
(** [usb_interface.h:197-200] [UsbInterface::SetId] *)
Definition SetId (v : Z) (s : t) : t := set_id_ v s.
(** [usb_interface.h:202-205] [UsbInterface::SetProtocol] *)
Definition SetProtocol (v : Z) (s : t) : t := set_protocol_ v s.
(** [usb_interface.h:207-210] [UsbInterface::SetClass] *)
Definition SetClass (v : Z) (s : t) : t := set_klass_ v s.
(** [usb_interface.h:212-215] [UsbInterface::SetSubClass] *)
Definition SetSubClass (v : Z) (s : t) : t := set_subClass_ v s.
(** [usb_interface.h:217-220] [UsbInterface::SetAlternateSetting] *)
Definition SetAlternateSetting (v : Z) (s : t) : t := set_alternateSetting_ v s.
(** [usb_interface.h:222-225] [UsbInterface::SetName] *)
Definition SetName (v : string) (s : t) : t := set_name_ v s.
(** [usb_interface.h:248-251] [UsbInterface::SetiInterface] *)
Definition SetiInterface (v : Z) (s : t) : t := set_iInterface_ v s.
(** [usb_interface.h:263-266] [UsbInterface::SetAuthorizeStatus] *)
Definition SetAuthorizeStatus (v : bool) (s : t) : t := set_authorized_ v s.
(** [usb_interface.h:172-175] [GetEndpointCount] the vector's [size_t] size returned as [int32_t] *)
Definition GetEndpointCount (s : t) : Z := i32 (Z.of_nat (length (endpoints_ s))).
(** [usb_interface.h:177-185] [GetEndpoint] *)
Definition GetEndpoint (index : Z) (s : t) : option USBEndpoint.t :=
  if Z.of_nat (length (endpoints_ s)) <=? index then None
  else endpoints_ s !! Z.to_nat index.
End UsbInterface.

(** ** [USBConfig] *)
Module USBConfig.
(** [usb_config.h:273-279] [USBConfig] the data members *)
Record t := mk {
  id_ : Z;
  attributes_ : Z;
  interfaces_ : list UsbInterface.t;
  maxPower_ : Z;
  name_ : string;
  iConfiguration_ : Z;
}.

Definition set_id_ (v : Z) (s : t) : t :=
  mk v (attributes_ s) (interfaces_ s) (maxPower_ s) (name_ s) (iConfiguration_ s).
Definition set_attributes_ (v : Z) (s : t) : t :=
  mk (id_ s) v (interfaces_ s) (maxPower_ s) (name_ s) (iConfiguration_ s).
Definition set_interfaces_ (v : list UsbInterface.t) (s : t) : t :=
  mk (id_ s) (attributes_ s) v (maxPower_ s) (name_ s) (iConfiguration_ s).
Definition set_maxPower_ (v : Z) (s : t) : t :=
  mk (id_ s) (attributes_ s) (interfaces_ s) v (name_ s) (iConfiguration_ s).
Definition set_name_ (v : string) (s : t) : t :=
  mk (id_ s) (attributes_ s) (interfaces_ s) (maxPower_ s) v (iConfiguration_ s).
Definition set_iConfiguration_ (v : Z) (s : t) : t :=
  mk (id_ s) (attributes_ s) (interfaces_ s) (maxPower_ s) (name_ s) v.

(** [usb_config.h:273-279] [USBConfig] the member initialisers, for the default constructor *)
Definition default : t := mk INVALID_USB_INT_VALUE 0 [] INVALID_USB_INT_VALUE "" UINT8_MAX.

(** [usb_config.h:35-43] [USBConfig::USBConfig] the member-wise constructor *)
Definition make (id attributes : Z) (name : string) (maxPower : Z) (interfaces : list UsbInterface.t) : t :=
  mk (i32 id) attributes interfaces (i32 maxPower) name (iConfiguration_ default).

(** [usb_config.h:135-138] [USBConfig::GetId] *)
Definition GetId (s : t) : Z := id_ s.
(** [usb_config.h:140-143] [USBConfig::GetAttributes] *)
Definition GetAttributes (s : t) : Z := attributes_ s.
(** [usb_config.h:165-168] [USBConfig::GetName] *)
Definition GetName (s : t) : string := name_ s.
(** [usb_config.h:185-188] [USBConfig::GetInterfaces] *)
Definition GetInterfaces (s : t) : list UsbInterface.t := interfaces_ s.
(** [usb_config.h:232-235] [USBConfig::GetiConfiguration] *)
Definition GetiConfiguration (s : t) : Z := iConfiguration_ s.
(** [usb_config.h:180-183] [USBConfig::SetInterfaces] *)
Definition SetInterfaces (v : list UsbInterface.t) (s : t) : t := set_interfaces_ v s.
(** [usb_config.h:190-193] [USBConfig::SetId] *)
Definition SetId (v : Z) (s : t) : t := set_id_ v s.
(** [usb_config.h:195-198] [USBConfig::SetAttribute] *)
Definition SetAttribute (v : Z) (s : t) : t := set_attributes_ v s.
(** [usb_config.h:200-203] [USBConfig::SetMaxPower] *)
Definition SetMaxPower (v : Z) (s : t) : t := set_maxPower_ v s.
(** [usb_config.h:222-225] [USBConfig::SetName] *)
Definition SetName (v : string) (s : t) : t := set_name_ v s.
(** [usb_config.h:227-230] [USBConfig::SetiConfiguration] *)
Definition SetiConfiguration (v : Z) (s : t) : t := set_iConfiguration_ v s.
(** [usb_config.h:145-152] [GetInterface] [None] is the [false] result, which leaves the output alone *)
Definition GetInterface (index : Z) (s : t) : option UsbInterface.t :=
  if Z.of_nat (length (interfaces_ s)) <=? index then None
  else interfaces_ s !! Z.to_nat index.
(** [usb_config.h:154-157] [GetInterfaceCount] *)
Definition GetInterfaceCount (s : t) : Z := u32 (Z.of_nat (length (interfaces_ s))).
(** [usb_config.h:159-163] [GetMaxPower] in mA: the field counts units of 2 mA *)
Definition GetMaxPower (s : t) : Z := i32 (maxPower_ s * 2).
(** [usb_config.h:170-173] [IsRemoteWakeup] *)
Definition IsRemoteWakeup (s : t) : bool := negb (Z.land (attributes_ s) USB_CFG_REMOTE_WAKEUP =? 0).
(** [usb_config.h:175-178] [IsSelfPowered] *)
Definition IsSelfPowered (s : t) : bool := negb (Z.land (attributes_ s) USB_CFG_SELF_POWERED =? 0).
End USBConfig.


(** [usb_device.h:34-38] [AuthorizeStatus] *)
Inductive AuthorizeStatus := DISABLED | ENABLED | NEW_ARRIVED.

#[global] Instance AuthorizeStatus_eq_dec : EqDecision AuthorizeStatus.
Proof. solve_decision. Defined.


(** ** [UsbDevice] *)
Module UsbDevice.
(** [usb_device.h:471-495] [UsbDevice] the data members *)
Record t := mk {
  name_ : string;
  manufacturerName_ : string;
  productName_ : string;
  version_ : string;
  serial_ : string;
  authorizeStatus_ : AuthorizeStatus;
  devAddr_ : Z;
  busNum_ : Z;
  descConfigCount_ : Z;
  bMaxPacketSize0_ : Z;
  bcdUSB_ : Z;
  bcdDevice_ : Z;
  iManufacturer_ : Z;
  iProduct_ : Z;
  iSerialNumber_ : Z;
  vendorId_ : Z;
  productId_ : Z;
  baseClass_ : Z;
  subClass_ : Z;
  protocol_ : Z;
  configs_ : list USBConfig.t;
}.

Definition set_name_ (v : string) (s : t) : t :=
  mk v (manufacturerName_ s) (productName_ s) (version_ s) (serial_ s) (authorizeStatus_ s) (devAddr_ s) (busNum_ s) (descConfigCount_ s) (bMaxPacketSize0_ s) (bcdUSB_ s) (bcdDevice_ s) (iManufacturer_ s) (iProduct_ s) (iSerialNumber_ s) (vendorId_ s) (productId_ s) (baseClass_ s) (subClass_ s) (protocol_ s) (configs_ s).
Definition set_manufacturerName_ (v : string) (s : t) : t :=
  mk (name_ s) v (productName_ s) (version_ s) (serial_ s) (authorizeStatus_ s) (devAddr_ s) (busNum_ s) (descConfigCount_ s) (bMaxPacketSize0_ s) (bcdUSB_ s) (bcdDevice_ s) (iManufacturer_ s) (iProduct_ s) (iSerialNumber_ s) (vendorId_ s) (productId_ s) (baseClass_ s) (subClass_ s) (protocol_ s) (configs_ s).
Definition set_productName_ (v : string) (s : t) : t :=
  mk (name_ s) (manufacturerName_ s) v (version_ s) (serial_ s) (authorizeStatus_ s) (devAddr_ s) (busNum_ s) (descConfigCount_ s) (bMaxPacketSize0_ s) (bcdUSB_ s) (bcdDevice_ s) (iManufacturer_ s) (iProduct_ s) (iSerialNumber_ s) (vendorId_ s) (productId_ s) (baseClass_ s) (subClass_ s) (protocol_ s) (configs_ s).
Definition set_version_ (v : string) (s : t) : t :=
  mk (name_ s) (manufacturerName_ s) (productName_ s) v (serial_ s) (authorizeStatus_ s) (devAddr_ s) (busNum_ s) (descConfigCount_ s) (bMaxPacketSize0_ s) (bcdUSB_ s) (bcdDevice_ s) (iManufacturer_ s) (iProduct_ s) (iSerialNumber_ s) (vendorId_ s) (productId_ s) (baseClass_ s) (subClass_ s) (protocol_ s) (configs_ s).
Definition set_serial_ (v : string) (s : t) : t :=
  mk (name_ s) (manufacturerName_ s) (productName_ s) (version_ s) v (authorizeStatus_ s) (devAddr_ s) (busNum_ s) (descConfigCount_ s) (bMaxPacketSize0_ s) (bcdUSB_ s) (bcdDevice_ s) (iManufacturer_ s) (iProduct_ s) (iSerialNumber_ s) (vendorId_ s) (productId_ s) (baseClass_ s) (subClass_ s) (protocol_ s) (configs_ s).
Definition set_authorizeStatus_ (v : AuthorizeStatus) (s : t) : t :=
  mk (name_ s) (manufacturerName_ s) (productName_ s) (version_ s) (serial_ s) v (devAddr_ s) (busNum_ s) (descConfigCount_ s) (bMaxPacketSize0_ s) (bcdUSB_ s) (bcdDevice_ s) (iManufacturer_ s) (iProduct_ s) (iSerialNumber_ s) (vendorId_ s) (productId_ s) (baseClass_ s) (subClass_ s) (protocol_ s) (configs_ s).
Definition set_devAddr_ (v : Z) (s : t) : t :=
  mk (name_ s) (manufacturerName_ s) (productName_ s) (version_ s) (serial_ s) (authorizeStatus_ s) v (busNum_ s) (descConfigCount_ s) (bMaxPacketSize0_ s) (bcdUSB_ s) (bcdDevice_ s) (iManufacturer_ s) (iProduct_ s) (iSerialNumber_ s) (vendorId_ s) (productId_ s) (baseClass_ s) (subClass_ s) (protocol_ s) (configs_ s).
Definition set_busNum_ (v : Z) (s : t) : t :=
  mk (name_ s) (manufacturerName_ s) (productName_ s) (version_ s) (serial_ s) (authorizeStatus_ s) (devAddr_ s) v (descConfigCount_ s) (bMaxPacketSize0_ s) (bcdUSB_ s) (bcdDevice_ s) (iManufacturer_ s) (iProduct_ s) (iSerialNumber_ s) (vendorId_ s) (productId_ s) (baseClass_ s) (subClass_ s) (protocol_ s) (configs_ s).
Definition set_descConfigCount_ (v : Z) (s : t) : t :=
  mk (name_ s) (manufacturerName_ s) (productName_ s) (version_ s) (serial_ s) (authorizeStatus_ s) (devAddr_ s) (busNum_ s) v (bMaxPacketSize0_ s) (bcdUSB_ s) (bcdDevice_ s) (iManufacturer_ s) (iProduct_ s) (iSerialNumber_ s) (vendorId_ s) (productId_ s) (baseClass_ s) (subClass_ s) (protocol_ s) (configs_ s).
Definition set_bMaxPacketSize0_ (v : Z) (s : t) : t :=
  mk (name_ s) (manufacturerName_ s) (productName_ s) (version_ s) (serial_ s) (authorizeStatus_ s) (devAddr_ s) (busNum_ s) (descConfigCount_ s) v (bcdUSB_ s) (bcdDevice_ s) (iManufacturer_ s) (iProduct_ s) (iSerialNumber_ s) (vendorId_ s) (productId_ s) (baseClass_ s) (subClass_ s) (protocol_ s) (configs_ s).
Definition set_bcdUSB_ (v : Z) (s : t) : t :=
  mk (name_ s) (manufacturerName_ s) (productName_ s) (version_ s) (serial_ s) (authorizeStatus_ s) (devAddr_ s) (busNum_ s) (descConfigCount_ s) (bMaxPacketSize0_ s) v (bcdDevice_ s) (iManufacturer_ s) (iProduct_ s) (iSerialNumber_ s) (vendorId_ s) (productId_ s) (baseClass_ s) (subClass_ s) (protocol_ s) (configs_ s).
Definition set_bcdDevice_ (v : Z) (s : t) : t :=
  mk (name_ s) (manufacturerName_ s) (productName_ s) (version_ s) (serial_ s) (authorizeStatus_ s) (devAddr_ s) (busNum_ s) (descConfigCount_ s) (bMaxPacketSize0_ s) (bcdUSB_ s) v (iManufacturer_ s) (iProduct_ s) (iSerialNumber_ s) (vendorId_ s) (productId_ s) (baseClass_ s) (subClass_ s) (protocol_ s) (configs_ s).
Definition set_iManufacturer_ (v : Z) (s : t) : t :=
  mk (name_ s) (manufacturerName_ s) (productName_ s) (version_ s) (serial_ s) (authorizeStatus_ s) (devAddr_ s) (busNum_ s) (descConfigCount_ s) (bMaxPacketSize0_ s) (bcdUSB_ s) (bcdDevice_ s) v (iProduct_ s) (iSerialNumber_ s) (vendorId_ s) (productId_ s) (baseClass_ s) (subClass_ s) (protocol_ s) (configs_ s).
Definition set_iProduct_ (v : Z) (s : t) : t :=
  mk (name_ s) (manufacturerName_ s) (productName_ s) (version_ s) (serial_ s) (authorizeStatus_ s) (devAddr_ s) (busNum_ s) (descConfigCount_ s) (bMaxPacketSize0_ s) (bcdUSB_ s) (bcdDevice_ s) (iManufacturer_ s) v (iSerialNumber_ s) (vendorId_ s) (productId_ s) (baseClass_ s) (subClass_ s) (protocol_ s) (configs_ s).
Definition set_iSerialNumber_ (v : Z) (s : t) : t :=
  mk (name_ s) (manufacturerName_ s) (productName_ s) (version_ s) (serial_ s) (authorizeStatus_ s) (devAddr_ s) (busNum_ s) (descConfigCount_ s) (bMaxPacketSize0_ s) (bcdUSB_ s) (bcdDevice_ s) (iManufacturer_ s) (iProduct_ s) v (vendorId_ s) (productId_ s) (baseClass_ s) (subClass_ s) (protocol_ s) (configs_ s).
Definition set_vendorId_ (v : Z) (s : t) : t :=
  mk (name_ s) (manufacturerName_ s) (productName_ s) (version_ s) (serial_ s) (authorizeStatus_ s) (devAddr_ s) (busNum_ s) (descConfigCount_ s) (bMaxPacketSize0_ s) (bcdUSB_ s) (bcdDevice_ s) (iManufacturer_ s) (iProduct_ s) (iSerialNumber_ s) v (productId_ s) (baseClass_ s) (subClass_ s) (protocol_ s) (configs_ s).
Definition set_productId_ (v : Z) (s : t) : t :=
  mk (name_ s) (manufacturerName_ s) (productName_ s) (version_ s) (serial_ s) (authorizeStatus_ s) (devAddr_ s) (busNum_ s) (descConfigCount_ s) (bMaxPacketSize0_ s) (bcdUSB_ s) (bcdDevice_ s) (iManufacturer_ s) (iProduct_ s) (iSerialNumber_ s) (vendorId_ s) v (baseClass_ s) (subClass_ s) (protocol_ s) (configs_ s).
Definition set_baseClass_ (v : Z) (s : t) : t :=
  mk (name_ s) (manufacturerName_ s) (productName_ s) (version_ s) (serial_ s) (authorizeStatus_ s) (devAddr_ s) (busNum_ s) (descConfigCount_ s) (bMaxPacketSize0_ s) (bcdUSB_ s) (bcdDevice_ s) (iManufacturer_ s) (iProduct_ s) (iSerialNumber_ s) (vendorId_ s) (productId_ s) v (subClass_ s) (protocol_ s) (configs_ s).
Definition set_subClass_ (v : Z) (s : t) : t :=
  mk (name_ s) (manufacturerName_ s) (productName_ s) (version_ s) (serial_ s) (authorizeStatus_ s) (devAddr_ s) (busNum_ s) (descConfigCount_ s) (bMaxPacketSize0_ s) (bcdUSB_ s) (bcdDevice_ s) (iManufacturer_ s) (iProduct_ s) (iSerialNumber_ s) (vendorId_ s) (productId_ s) (baseClass_ s) v (protocol_ s) (configs_ s).
Definition set_protocol_ (v : Z) (s : t) : t :=
  mk (name_ s) (manufacturerName_ s) (productName_ s) (version_ s) (serial_ s) (authorizeStatus_ s) (devAddr_ s) (busNum_ s) (descConfigCount_ s) (bMaxPacketSize0_ s) (bcdUSB_ s) (bcdDevice_ s) (iManufacturer_ s) (iProduct_ s) (iSerialNumber_ s) (vendorId_ s) (productId_ s) (baseClass_ s) (subClass_ s) v (configs_ s).
Definition set_configs_ (v : list USBConfig.t) (s : t) : t :=
  mk (name_ s) (manufacturerName_ s) (productName_ s) (version_ s) (serial_ s) (authorizeStatus_ s) (devAddr_ s) (busNum_ s) (descConfigCount_ s) (bMaxPacketSize0_ s) (bcdUSB_ s) (bcdDevice_ s) (iManufacturer_ s) (iProduct_ s) (iSerialNumber_ s) (vendorId_ s) (productId_ s) (baseClass_ s) (subClass_ s) (protocol_ s) v.

(** [usb_device.h:471-495] [UsbDevice] the member initialisers, for the default constructor *)
Definition default : t := mk "" "" "" "" "" ENABLED UINT8_MAX UINT8_MAX UINT8_MAX UINT8_MAX UINT16_MAX UINT16_MAX UINT8_MAX UINT8_MAX UINT8_MAX INVALID_USB_INT_VALUE INVALID_USB_INT_VALUE INVALID_USB_INT_VALUE INVALID_USB_INT_VALUE INVALID_USB_INT_VALUE [].

(** [usb_device.h:42-58] [UsbDevice::UsbDevice] the member-wise constructor *)
Definition make (name manufacturerName productName version : string) (devAddr busNum vendorId productId
    baseClass subClass protocol : Z) (configs : list USBConfig.t) : t :=
  mk name manufacturerName productName version (serial_ default) (authorizeStatus_ default) devAddr busNum
    (descConfigCount_ default) (bMaxPacketSize0_ default) (bcdUSB_ default) (bcdDevice_ default)
    (iManufacturer_ default) (iProduct_ default) (iSerialNumber_ default) vendorId productId baseClass
    subClass protocol configs.

(** [usb_device.h:180-183] [UsbDevice::GetName] *)
Definition GetName (s : t) : string := name_ s.
(** [usb_device.h:185-188] [UsbDevice::GetManufacturerName] *)
Definition GetManufacturerName (s : t) : string := manufacturerName_ s.
(** [usb_device.h:190-193] [UsbDevice::GetProductName] *)
Definition GetProductName (s : t) : string := productName_ s.
(** [usb_device.h:195-198] [UsbDevice::GetVersion] *)
Definition GetVersion (s : t) : string := version_ s.
(** [usb_device.h:200-203] [UsbDevice::GetVendorId] *)
Definition GetVendorId (s : t) : Z := vendorId_ s.
(** [usb_device.h:205-208] [UsbDevice::GetProductId] *)
Definition GetProductId (s : t) : Z := productId_ s.
(** [usb_device.h:210-213] [UsbDevice::GetClass] *)
Definition GetClass (s : t) : Z := baseClass_ s.
(** [usb_device.h:215-218] [UsbDevice::GetSubclass] *)
Definition GetSubclass (s : t) : Z := subClass_ s.
(** [usb_device.h:220-223] [UsbDevice::GetProtocol] *)
Definition GetProtocol (s : t) : Z := protocol_ s.
(** [usb_device.h:244-247] [UsbDevice::GetDevAddr] *)
Definition GetDevAddr (s : t) : Z := devAddr_ s.
(** [usb_device.h:249-252] [UsbDevice::GetBusNum] *)
Definition GetBusNum (s : t) : Z := busNum_ s.
(** [usb_device.h:254-257] [UsbDevice::GetDescConfigCount] *)
Definition GetDescConfigCount (s : t) : Z := descConfigCount_ s.
(** [usb_device.h:319-322] [UsbDevice::GetConfigs] *)
Definition GetConfigs (s : t) : list USBConfig.t := configs_ s.
(** [usb_device.h:355-358] [UsbDevice::GetiManufacturer] *)
Definition GetiManufacturer (s : t) : Z := iManufacturer_ s.
(** [usb_device.h:365-368] [UsbDevice::GetiProduct] *)
Definition GetiProduct (s : t) : Z := iProduct_ s.
(** [usb_device.h:375-378] [UsbDevice::GetiSerialNumber] *)
Definition GetiSerialNumber (s : t) : Z := iSerialNumber_ s.
(** [usb_device.h:385-388] [UsbDevice::GetmSerial] *)
Definition GetmSerial (s : t) : string := serial_ s.
(** [usb_device.h:395-398] [UsbDevice::GetbMaxPacketSize0] *)
Definition GetbMaxPacketSize0 (s : t) : Z := bMaxPacketSize0_ s.
(** [usb_device.h:405-408] [UsbDevice::GetbcdUSB] *)
Definition GetbcdUSB (s : t) : Z := bcdUSB_ s.
(** [usb_device.h:415-418] [UsbDevice::GetbcdDevice] *)
Definition GetbcdDevice (s : t) : Z := bcdDevice_ s.
(** [usb_device.h:420-423] [UsbDevice::GetAuthorizeStatus] *)
Definition GetAuthorizeStatus (s : t) : AuthorizeStatus := authorizeStatus_ s.
(** [usb_device.h:239-242] [UsbDevice::SetConfigs] *)
Definition SetConfigs (v : list USBConfig.t) (s : t) : t := set_configs_ v s.
(** [usb_device.h:259-262] [UsbDevice::SetDevAddr] *)
Definition SetDevAddr (v : Z) (s : t) : t := set_devAddr_ v s.
(** [usb_device.h:264-267] [UsbDevice::SetBusNum] *)
Definition SetBusNum (v : Z) (s : t) : t := set_busNum_ v s.
(** [usb_device.h:269-272] [UsbDevice::SetName] *)
Definition SetName (v : string) (s : t) : t := set_name_ v s.
(** [usb_device.h:274-277] [UsbDevice::SetManufacturerName] *)
Definition SetManufacturerName (v : string) (s : t) : t := set_manufacturerName_ v s.
(** [usb_device.h:279-282] [UsbDevice::SetProductName] *)
Definition SetProductName (v : string) (s : t) : t := set_productName_ v s.
(** [usb_device.h:284-287] [UsbDevice::SetVersion] *)
Definition SetVersion (v : string) (s : t) : t := set_version_ v s.
(** [usb_device.h:289-292] [UsbDevice::SetVendorId] *)
Definition SetVendorId (v : Z) (s : t) : t := set_vendorId_ v s.
(** [usb_device.h:294-297] [UsbDevice::SetProductId] *)
Definition SetProductId (v : Z) (s : t) : t := set_productId_ v s.
(** [usb_device.h:299-302] [UsbDevice::SetClass] *)
Definition SetClass (v : Z) (s : t) : t := set_baseClass_ v s.
(** [usb_device.h:304-307] [UsbDevice::SetSubclass] *)
Definition SetSubclass (v : Z) (s : t) : t := set_subClass_ v s.
(** [usb_device.h:309-312] [UsbDevice::SetProtocol] *)
Definition SetProtocol (v : Z) (s : t) : t := set_protocol_ v s.
(** [usb_device.h:314-317] [UsbDevice::SetDescConfigCount] *)
Definition SetDescConfigCount (v : Z) (s : t) : t := set_descConfigCount_ v s.
(** [usb_device.h:350-353] [UsbDevice::SetiManufacturer] *)
Definition SetiManufacturer (v : Z) (s : t) : t := set_iManufacturer_ v s.
(** [usb_device.h:360-363] [UsbDevice::SetiProduct] *)
Definition SetiProduct (v : Z) (s : t) : t := set_iProduct_ v s.
(** [usb_device.h:370-373] [UsbDevice::SetiSerialNumber] *)
Definition SetiSerialNumber (v : Z) (s : t) : t := set_iSerialNumber_ v s.
(** [usb_device.h:380-383] [UsbDevice::SetmSerial] *)
Definition SetmSerial (v : string) (s : t) : t := set_serial_ v s.
(** [usb_device.h:390-393] [UsbDevice::SetbMaxPacketSize0] *)
Definition SetbMaxPacketSize0 (v : Z) (s : t) : t := set_bMaxPacketSize0_ v s.
(** [usb_device.h:400-403] [UsbDevice::SetbcdUSB] *)
Definition SetbcdUSB (v : Z) (s : t) : t := set_bcdUSB_ v s.
(** [usb_device.h:410-413] [UsbDevice::SetbcdDevice] *)
Definition SetbcdDevice (v : Z) (s : t) : t := set_bcdDevice_ v s.
(** [usb_device.h:425-428] [UsbDevice::SetAuthorizeStatus] *)
Definition SetAuthorizeStatus (v : AuthorizeStatus) (s : t) : t := set_authorizeStatus_ v s.
(** [usb_device.h:225-228] [GetConfigCount] *)
Definition GetConfigCount (s : t) : Z := i32 (Z.of_nat (length (configs_ s))).
(** [usb_device.h:230-237] [GetConfig] [None] is the [ERR_INVALID_VALUE] result *)
Definition GetConfig (index : Z) (s : t) : option USBConfig.t :=
  if Z.of_nat (length (configs_ s)) <=? index then None
  else configs_ s !! Z.to_nat index.
End UsbDevice.

(** ** [USBAccessory] *)
Module USBAccessory.
(** [usb_accessory.h:211-215] [USBAccessory] the data members *)
Record t := mk {
  manufacturer_ : string;
  product_ : string;
  description_ : string;
  version_ : string;
  serialNumber_ : string;
}.

(** [usb_accessory.h:60-60] [USBAccessory::USBAccessory] the default constructor *)
Definition default : t := mk "" "" "" "" "".
(** [usb_accessory.h:37-45] [USBAccessory::USBAccessory] the member-wise constructor *)
Definition make (manufacturer product description version serialNumber : string) : t :=
  mk manufacturer product description version serialNumber.

Definition set_manufacturer_ (v : string) (s : t) : t :=
  mk v (product_ s) (description_ s) (version_ s) (serialNumber_ s).
Definition set_product_ (v : string) (s : t) : t :=
  mk (manufacturer_ s) v (description_ s) (version_ s) (serialNumber_ s).
Definition set_description_ (v : string) (s : t) : t :=
  mk (manufacturer_ s) (product_ s) v (version_ s) (serialNumber_ s).
Definition set_version_ (v : string) (s : t) : t :=
  mk (manufacturer_ s) (product_ s) (description_ s) v (serialNumber_ s).
Definition set_serialNumber_ (v : string) (s : t) : t :=
  mk (manufacturer_ s) (product_ s) (description_ s) (version_ s) v.

(** [usb_accessory.h:95-117] [USBAccessory::GetJsonString] [print] is [cJSON_PrintUnformatted] on the fields, in order; [None] is a null pointer *)
Definition GetJsonString (print : list (string * string) → option string) (a : t) : string :=
  match print [("manufacturer", manufacturer_ a); ("product", product_ a);
               ("description", description_ a); ("version", version_ a);
               ("serialNumber", serialNumber_ a)]%string with
  | Some s => s
  | None => ""
  end.

(** [usb_accessory.h:119-129] [USBAccessory::ToString] *)
Definition ToString (a : t) : string :=
  ("USBAccessory[manufacturer=" +:+ manufacturer_ a +:+ ",product=" +:+ product_ a +:+
   ",description=" +:+ description_ a +:+ ",version=" +:+ version_ a +:+
   ",serialNumber=" +:+ serialNumber_ a +:+ ";  ]")%string.

(** [usb_accessory.h:131-143] [USBAccessory::SetAccessory] fewer than five strings leave it as it was *)
Definition SetAccessory (accessorys : list string) (a : t) : t :=
  match accessorys with
  | m :: p :: d :: v :: n :: _ => mk m p d v n
  | _ => a
  end.

(** [usb_accessory.h:145-148] [USBAccessory::GetManufacturer] *)
Definition GetManufacturer (a : t) : string := manufacturer_ a.
(** [usb_accessory.h:150-153] [USBAccessory::GetProduct] *)
Definition GetProduct (a : t) : string := product_ a.
(** [usb_accessory.h:155-158] [USBAccessory::GetDescription] *)
Definition GetDescription (a : t) : string := description_ a.
(** [usb_accessory.h:160-163] [USBAccessory::GetVersion] *)
Definition GetVersion (a : t) : string := version_ a.
(** [usb_accessory.h:165-168] [USBAccessory::GetSerialNumber] *)
Definition GetSerialNumber (a : t) : string := serialNumber_ a.

(** [usb_accessory.h:195-202] [USBAccessory::operator==] *)
Definition eqb (a b : t) : bool :=
  String.eqb (manufacturer_ a) (GetManufacturer b) &&
  String.eqb (product_ a) (GetProduct b) &&
  String.eqb (description_ a) (GetDescription b) &&
  String.eqb (version_ a) (GetVersion b) &&
  String.eqb (serialNumber_ a) (GetSerialNumber b).

#[export] Instance t_eq_dec : EqDecision t.
Proof. solve_decision. Defined.
End USBAccessory.
