(* ===== verification/DescriptorParser.v ===== *)
(** * The descriptor parser

    [services/native/src/usb_descriptor_parser.cpp].  The parser walks a byte buffer by
    pointer arithmetic and overlays packed structures on it.  A buffer is the list of its
    bytes; a pointer into it is an absolute position.  Reading outside the buffer is the
    result [OutOfBounds], so that memory safety is a theorem; a loop that does not end
    within its fuel is the result [OutOfFuel], so that termination is one too. *)

From S2P Require Import Prelude UsbErrors UsbTypes.

#[local] Set Default Goal Selector "!".

(** ** Results of code that reads memory *)
Inductive res (A : Type) :=
  | Val (a : A)
  | OutOfBounds
  | OutOfFuel.
Arguments Val {A} a.
Arguments OutOfBounds {A}.
Arguments OutOfFuel {A}.

#[global] Instance res_ret : MRet res := λ A a, Val a.
#[global] Instance res_bind : MBind res := λ A B f m,
  match m with Val a => f a | OutOfBounds => OutOfBounds | OutOfFuel => OutOfFuel end.

(** A byte at a position, and a little-endian 16-bit field. *)
Definition rd8 (mem : list Z) (p : Z) : res Z :=
  if p <? 0 then OutOfBounds
  else match mem !! Z.to_nat p with Some b => Val b | None => OutOfBounds end.

Definition rd16 (mem : list Z) (p : Z) : res Z :=
  lo ← rd8 mem p; hi ← rd8 mem (p + 1); Val (lo + 256 * hi).

(** ** The packed structures of [usbd_type.h] *)
Module UsbdDescriptorHeader.
(** [usbd_type.h:31-34] [UsbdDescriptorHeader] *)
Record t := mk { bLength : Z; bDescriptorType : Z }.
Definition size : Z := 2.
Definition read (mem : list Z) (p : Z) : res t :=
  bLength ← rd8 mem p; bDescriptorType ← rd8 mem (p + 1);
  Val (mk bLength bDescriptorType).
End UsbdDescriptorHeader.

Module UsbdDeviceDescriptor.
(** [usbd_type.h:36-51] [UsbdDeviceDescriptor] *)
Record t := mk {
  bLength : Z; bDescriptorType : Z; bcdUSB : Z; bDeviceClass : Z; bDeviceSubClass : Z;
  bDeviceProtocol : Z; bMaxPacketSize0 : Z; idVendor : Z; idProduct : Z; bcdDevice : Z;
  iManufacturer : Z; iProduct : Z; iSerialNumber : Z; bNumConfigurations : Z }.
Definition size : Z := 18.
Definition read (mem : list Z) (p : Z) : res t :=
  a ← rd8 mem p; b ← rd8 mem (p + 1); c ← rd16 mem (p + 2); d ← rd8 mem (p + 4);
  e ← rd8 mem (p + 5); f ← rd8 mem (p + 6); g ← rd8 mem (p + 7); h ← rd16 mem (p + 8);
  i ← rd16 mem (p + 10); j ← rd16 mem (p + 12); k ← rd8 mem (p + 14);
  l ← rd8 mem (p + 15); m ← rd8 mem (p + 16); n ← rd8 mem (p + 17);
  Val (mk a b c d e f g h i j k l m n).
End UsbdDeviceDescriptor.

Module UsbdConfigDescriptor.
(** [usbd_type.h:53-62] [UsbdConfigDescriptor] *)
Record t := mk {
  bLength : Z; bDescriptorType : Z; wTotalLength : Z; bNumInterfaces : Z;
  bConfigurationValue : Z; iConfiguration : Z; bmAttributes : Z; bMaxPower : Z }.
Definition size : Z := 9.
Definition read (mem : list Z) (p : Z) : res t :=
  a ← rd8 mem p; b ← rd8 mem (p + 1); c ← rd16 mem (p + 2); d ← rd8 mem (p + 4);
  e ← rd8 mem (p + 5); f ← rd8 mem (p + 6); g ← rd8 mem (p + 7); h ← rd8 mem (p + 8);
  Val (mk a b c d e f g h).
End UsbdConfigDescriptor.

Module UsbdInterfaceDescriptor.
(** [usbd_type.h:64-74] [UsbdInterfaceDescriptor] *)
Record t := mk {
  bLength : Z; bDescriptorType : Z; bInterfaceNumber : Z; bAlternateSetting : Z;
  bNumEndpoints : Z; bInterfaceClass : Z; bInterfaceSubClass : Z;
  bInterfaceProtocol : Z; iInterface : Z }.
Definition size : Z := 9.
Definition read (mem : list Z) (p : Z) : res t :=
  a ← rd8 mem p; b ← rd8 mem (p + 1); c ← rd8 mem (p + 2); d ← rd8 mem (p + 3);
  e ← rd8 mem (p + 4); f ← rd8 mem (p + 5); g ← rd8 mem (p + 6); h ← rd8 mem (p + 7);
  i ← rd8 mem (p + 8);
  Val (mk a b c d e f g h i).
End UsbdInterfaceDescriptor.

Module UsbdEndpointDescriptor.
(** [usbd_type.h:76-83] [UsbdEndpointDescriptor] *)
Record t := mk {
  bLength : Z; bDescriptorType : Z; bEndpointAddress : Z; bmAttributes : Z;
  wMaxPacketSize : Z; bInterval : Z }.
Definition size : Z := 7.
Definition read (mem : list Z) (p : Z) : res t :=
  a ← rd8 mem p; b ← rd8 mem (p + 1); c ← rd8 mem (p + 2); d ← rd8 mem (p + 3);
  e ← rd16 mem (p + 4); f ← rd8 mem (p + 6);
  Val (mk a b c d e f).
End UsbdEndpointDescriptor.

(** [usb_descriptor_parser.cpp:26-36] [DescriptorType] and the two endpoint lengths *)
Definition NORMAL_ENDPOINT_DESCRIPTOR : Z := 7.
Definition AUDIO_ENDPOINT_DESCRIPTOR : Z := 9.
Definition DESCRIPTOR_TYPE_DEVICE : Z := 1.
Definition DESCRIPTOR_TYPE_CONFIG : Z := 2.
Definition DESCRIPTOR_TYPE_INTERFACE : Z := 4.
Definition DESCRIPTOR_TYPE_ENDPOINT : Z := 5.

(** [v.back() = f(v.back())] *)
Definition update_back {A} (f : A → A) (l : list A) : list A :=
  match last l with
  | Some x => removelast l ++ [f x]
  | None => l
  end.

Section Parser.
Context `{EB : ErrBase}.

Definition device_of_descriptor (d : UsbdDeviceDescriptor.t) (dev : UsbDevice.t) : UsbDevice.t :=
  let dev := UsbDevice.SetVendorId (UsbdDeviceDescriptor.idVendor d) dev in
  let dev := UsbDevice.SetProductId (UsbdDeviceDescriptor.idProduct d) dev in
  let dev := UsbDevice.SetClass (UsbdDeviceDescriptor.bDeviceClass d) dev in
  let dev := UsbDevice.SetSubclass (UsbdDeviceDescriptor.bDeviceSubClass d) dev in
  let dev := UsbDevice.SetProtocol (UsbdDeviceDescriptor.bDeviceProtocol d) dev in
  let dev := UsbDevice.SetDescConfigCount (UsbdDeviceDescriptor.bNumConfigurations d) dev in
  let dev := UsbDevice.SetbMaxPacketSize0 (UsbdDeviceDescriptor.bMaxPacketSize0 d) dev in
  let dev := UsbDevice.SetbcdDevice (UsbdDeviceDescriptor.bcdDevice d) dev in
  let dev := UsbDevice.SetbcdUSB (UsbdDeviceDescriptor.bcdUSB d) dev in
  let dev := UsbDevice.SetiManufacturer (UsbdDeviceDescriptor.iManufacturer d) dev in
  let dev := UsbDevice.SetiProduct (UsbdDeviceDescriptor.iProduct d) dev in
  UsbDevice.SetiSerialNumber (UsbdDeviceDescriptor.iSerialNumber d) dev.

(** [usb_descriptor_parser.cpp:41-75] [UsbDescriptorParser::ParseDeviceDescriptor] [None] is the null buffer *)
Definition ParseDeviceDescriptor (buffer : option (list Z)) (length : Z) (dev : UsbDevice.t)
    : res (Z * UsbDevice.t) :=
  match buffer with
  | None => Val (UEC_SERVICE_INVALID_VALUE, dev)
  | Some mem =>
    if length =? 0 then Val (UEC_SERVICE_INVALID_VALUE, dev)
    else if length <? UsbdDeviceDescriptor.size then Val (UEC_SERVICE_INVALID_VALUE, dev)
    else
      d ← UsbdDeviceDescriptor.read mem 0;
      if negb (UsbdDeviceDescriptor.bLength d =? UsbdDeviceDescriptor.size)
      then Val (UEC_SERVICE_INVALID_VALUE, dev)
      else Val (UEC_OK, device_of_descriptor d dev)
  end.

Definition config_of_descriptor (d : UsbdConfigDescriptor.t) (config : USBConfig.t) : USBConfig.t :=
  let config := USBConfig.SetId (UsbdConfigDescriptor.bConfigurationValue d) config in
  let config := USBConfig.SetAttribute (UsbdConfigDescriptor.bmAttributes d) config in
  let config := USBConfig.SetMaxPower (UsbdConfigDescriptor.bMaxPower d) config in
  USBConfig.SetiConfiguration (UsbdConfigDescriptor.iConfiguration d) config.

(** [usb_descriptor_parser.cpp:77-92] [AddConfig] *)
Definition AddConfig (configs : list USBConfig.t) (d : UsbdConfigDescriptor.t)
    : Z * list USBConfig.t :=
  (UEC_OK, configs ++ [config_of_descriptor d USBConfig.default]).

Definition interface_of_descriptor (d : UsbdInterfaceDescriptor.t) (i : UsbInterface.t)
    : UsbInterface.t :=
  let i := UsbInterface.SetId (UsbdInterfaceDescriptor.bInterfaceNumber d) i in
  let i := UsbInterface.SetProtocol (UsbdInterfaceDescriptor.bInterfaceProtocol d) i in
  let i := UsbInterface.SetAlternateSetting (UsbdInterfaceDescriptor.bAlternateSetting d) i in
  let i := UsbInterface.SetClass (UsbdInterfaceDescriptor.bInterfaceClass d) i in
  let i := UsbInterface.SetSubClass (UsbdInterfaceDescriptor.bInterfaceSubClass d) i in
  UsbInterface.SetiInterface (UsbdInterfaceDescriptor.iInterface d) i.

(** [usb_descriptor_parser.cpp:94-115] [AddInterface] *)
Definition AddInterface (configs : list USBConfig.t) (d : UsbdInterfaceDescriptor.t)
    : Z * list USBConfig.t :=
  match configs with
  | [] => (UEC_SERVICE_INVALID_VALUE, configs)
  | _ =>
    let interface := interface_of_descriptor d UsbInterface.default in
    (UEC_OK,
     update_back (λ c, USBConfig.SetInterfaces (USBConfig.GetInterfaces c ++ [interface]) c)
       configs)
  end.

Definition endpoint_of_descriptor (d : UsbdEndpointDescriptor.t) (e : USBEndpoint.t)
    : USBEndpoint.t :=
  let e := USBEndpoint.SetAddr (UsbdEndpointDescriptor.bEndpointAddress d) e in
  let e := USBEndpoint.SetAttr (UsbdEndpointDescriptor.bmAttributes d) e in
  let e := USBEndpoint.SetInterval (UsbdEndpointDescriptor.bInterval d) e in
  USBEndpoint.SetMaxPacketSize (UsbdEndpointDescriptor.wMaxPacketSize d) e.

(** [usb_descriptor_parser.cpp:117-137] [AddEndpoint] *)
Definition AddEndpoint (configs : list USBConfig.t) (d : UsbdEndpointDescriptor.t)
    : Z * list USBConfig.t :=
  match last configs with
  | None => (UEC_SERVICE_INVALID_VALUE, configs)
  | Some config =>
    match last (USBConfig.GetInterfaces config) with
    | None => (UEC_SERVICE_INVALID_VALUE, configs)
    | Some interface =>
      let endpoint :=
        USBEndpoint.SetInterfaceId (u8 (UsbInterface.GetId interface))
          (endpoint_of_descriptor d USBEndpoint.default) in
      (UEC_OK,
       update_back (λ c,
         USBConfig.SetInterfaces
           (update_back (λ i,
              UsbInterface.SetEndpoints (UsbInterface.GetEndpoints i ++ [endpoint]) i)
            (USBConfig.GetInterfaces c)) c)
         configs)
    end
  end.

(** [usb_descriptor_parser.cpp:154-189] [UsbDescriptorParser::ParseConfigDescriptors] the loop body and its exits *)
Fixpoint ParseConfigDescriptors_loop (fuel : nat) (buffer : list Z) (length cursor : Z)
    (configs : list USBConfig.t) : res (Z * list USBConfig.t) :=
  match fuel with
  | O => OutOfFuel
  | S fuel =>
    if negb (cursor <? length) then Val (UEC_OK, configs)
    else if u32 (length - cursor) <? UsbdDescriptorHeader.size then Val (UEC_OK, configs)
    else
      header ← UsbdDescriptorHeader.read buffer cursor;
      let bLength := UsbdDescriptorHeader.bLength header in
      let bDescriptorType := UsbdDescriptorHeader.bDescriptorType header in
      if (bLength <? UsbdDescriptorHeader.size) || (u32 (length - cursor) <? bLength)
      then Val (UEC_OK, configs)
      else
        let continue r :=
          let '(ret, configs) := r in
          if failed ret then Val (ret, configs)
          else ParseConfigDescriptors_loop fuel buffer length (u32 (cursor + bLength)) configs in
        if bDescriptorType =? DESCRIPTOR_TYPE_CONFIG then
          if negb (bLength =? UsbdConfigDescriptor.size)
          then Val (UEC_SERVICE_INVALID_VALUE, configs)
          else d ← UsbdConfigDescriptor.read buffer cursor; continue (AddConfig configs d)
        else if bDescriptorType =? DESCRIPTOR_TYPE_INTERFACE then
          if negb (bLength =? UsbdInterfaceDescriptor.size)
          then Val (UEC_SERVICE_INVALID_VALUE, configs)
          else d ← UsbdInterfaceDescriptor.read buffer cursor; continue (AddInterface configs d)
        else if bDescriptorType =? DESCRIPTOR_TYPE_ENDPOINT then
          if negb (bLength =? NORMAL_ENDPOINT_DESCRIPTOR) &&
             negb (bLength =? AUDIO_ENDPOINT_DESCRIPTOR)
          then Val (UEC_SERVICE_INVALID_VALUE, configs)
          else d ← UsbdEndpointDescriptor.read buffer cursor; continue (AddEndpoint configs d)
        else continue (UEC_OK, configs)
  end.

(** [usb_descriptor_parser.cpp:139-191] [UsbDescriptorParser::ParseConfigDescriptors] every iteration consumes at least a byte, so the buffer's size is fuel enough *)
Definition ParseConfigDescriptors (descriptor : list Z) (offset : Z)
    (configs : list USBConfig.t) : res (Z * list USBConfig.t) :=
  ParseConfigDescriptors_loop (S (length descriptor)) descriptor
    (u32 (Z.of_nat (length descriptor))) offset configs.

(** *** The pointer-based entry points

    [ParseConfigDescriptor], [ParseInterfaceDescriptor] and [ParseEndpointDescriptor] take
    a pointer, here a position in [mem] or [None] for the null pointer, the bytes left and
    a cursor they advance.  Their scans need not make progress, so they take their fuel as
    an argument. *)

(** [usb_descriptor_parser.cpp:257-277] [UsbDescriptorParser::ParseInterfaceDescriptor] the scan for a descriptor of type [ty], which [ParseEndpointDescriptor] repeats *)
Fixpoint scan_header (ty : Z) (fuel : nat) (mem : list Z) (buffer length cursor : Z)
    : res (Z * Z) :=
  match fuel with
  | O => OutOfFuel
  | S fuel =>
    if negb (cursor <? length) then Val (UEC_OK, cursor)
    else if u32 (length - cursor) <=? UsbdDescriptorHeader.size
    then Val (UEC_SERVICE_INVALID_VALUE, cursor)
    else
      header ← UsbdDescriptorHeader.read mem (buffer + cursor);
      if UsbdDescriptorHeader.size <=? UsbdDescriptorHeader.bLength header
      then Val (UEC_SERVICE_INVALID_VALUE, cursor)
      else if UsbdDescriptorHeader.bDescriptorType header =? ty then Val (UEC_OK, cursor)
      else scan_header ty fuel mem buffer length
             (u32 (cursor + UsbdDescriptorHeader.bLength header))
  end.

(** [usb_descriptor_parser.cpp:307-351] [UsbDescriptorParser::ParseEndpointDescriptor] the result code, the cursor and the endpoint *)
Definition ParseEndpointDescriptor (fuel : nat) (mem : list Z) (buffer : option Z)
    (length cursor : Z) (ep : USBEndpoint.t) : res (Z * Z * USBEndpoint.t) :=
  match buffer with
  | None => Val (UEC_SERVICE_INVALID_VALUE, cursor, ep)
  | Some buffer =>
    if length =? 0 then Val (UEC_SERVICE_INVALID_VALUE, cursor, ep)
    else
      r ← scan_header DESCRIPTOR_TYPE_ENDPOINT fuel mem buffer length cursor;
      let '(ret, cursor) := r in
      if failed ret then Val (ret, cursor, ep)
      else if u32 (length - cursor) <? UsbdInterfaceDescriptor.size
      then Val (UEC_SERVICE_INVALID_VALUE, cursor, ep)
      else
        d ← UsbdEndpointDescriptor.read mem (buffer + cursor);
        if negb (UsbdEndpointDescriptor.bLength d =? NORMAL_ENDPOINT_DESCRIPTOR) &&
           negb (UsbdEndpointDescriptor.bLength d =? AUDIO_ENDPOINT_DESCRIPTOR)
        then Val (UEC_SERVICE_INVALID_VALUE, cursor, ep)
        else Val (UEC_OK, u32 (cursor + UsbdEndpointDescriptor.bLength d),
                  endpoint_of_descriptor d ep)
  end.

(** [usb_descriptor_parser.cpp:292-301] [UsbDescriptorParser::ParseInterfaceDescriptor] the endpoint loop: the result of each call is ignored *)
Fixpoint parse_endpoints (n : nat) (fuel : nat) (mem : list Z) (buffer length cursor : Z)
    (interfaceNumber : Z) (eps : list USBEndpoint.t) : res (Z * list USBEndpoint.t) :=
  match n with
  | O => Val (cursor, eps)
  | S n =>
    r ← ParseEndpointDescriptor fuel mem (Some (buffer + cursor)) (u32 (length - cursor)) 0
          USBEndpoint.default;
    let '(_, epCursor, ep) := r in
    parse_endpoints n fuel mem buffer length (u32 (cursor + epCursor)) interfaceNumber
      (eps ++ [USBEndpoint.SetInterfaceId interfaceNumber ep])
  end.

(** [usb_descriptor_parser.cpp:250-305] [UsbDescriptorParser::ParseInterfaceDescriptor] *)
Definition ParseInterfaceDescriptor (fuel : nat) (mem : list Z) (buffer : option Z)
    (length cursor : Z) (interface : UsbInterface.t) : res (Z * Z * UsbInterface.t) :=
  match buffer with
  | None => Val (UEC_SERVICE_INVALID_VALUE, cursor, interface)
  | Some buffer =>
    if length =? 0 then Val (UEC_SERVICE_INVALID_VALUE, cursor, interface)
    else
      r ← scan_header DESCRIPTOR_TYPE_INTERFACE fuel mem buffer length cursor;
      let '(ret, cursor) := r in
      if failed ret then Val (ret, cursor, interface)
      else if u32 (length - cursor) <? UsbdInterfaceDescriptor.size
      then Val (UEC_SERVICE_INVALID_VALUE, cursor, interface)
      else
        d ← UsbdInterfaceDescriptor.read mem (buffer + cursor);
        if negb (UsbdInterfaceDescriptor.bLength d =? UsbdInterfaceDescriptor.size)
        then Val (UEC_SERVICE_INVALID_VALUE, cursor, interface)
        else
          let cursor := u32 (cursor + UsbdInterfaceDescriptor.bLength d) in
          let interface := interface_of_descriptor d interface in
          r ← parse_endpoints (Z.to_nat (UsbdInterfaceDescriptor.bNumEndpoints d)) fuel mem
                buffer length cursor (UsbdInterfaceDescriptor.bInterfaceNumber d) [];
          let '(cursor, eps) := r in
          Val (UEC_OK, cursor, UsbInterface.SetEndpoints eps interface)
  end.

(** [usb_descriptor_parser.cpp:226-243] [UsbDescriptorParser::ParseConfigDescriptor] add an interface, or replace the one with its id: the list, and whether [i] advances *)
Definition record_interface (interface : UsbInterface.t) (interfaces : list UsbInterface.t)
    : list UsbInterface.t * bool :=
  let same i := UsbInterface.GetId i =? UsbInterface.GetId interface in
  match list_find (λ i, Is_true (same i)) interfaces with
  | None =>
    if 0 <=? UsbInterface.GetEndpointCount interface
    then (interfaces ++ [interface], true) else (interfaces, false)
  | Some (k, _) =>
    if 0 <? UsbInterface.GetEndpointCount interface
    then (<[k := interface]> interfaces, false) else (interfaces, false)
  end.

(** [usb_descriptor_parser.cpp:215-245] [UsbDescriptorParser::ParseConfigDescriptor] the interface loop: the result code, the cursor and the interfaces *)
Fixpoint parse_interfaces (fuel : nat) (mem : list Z) (buffer length cursor i : Z)
    (bNumInterfaces : Z) (interfaces : list UsbInterface.t)
    : res (Z * Z * list UsbInterface.t) :=
  match fuel with
  | O => OutOfFuel
  | S fuel' =>
    if negb ((i <? bNumInterfaces) && (cursor <? length)) then Val (UEC_OK, cursor, interfaces)
    else
      r ← ParseInterfaceDescriptor fuel' mem (Some (buffer + cursor)) (u32 (length - cursor)) 0
            UsbInterface.default;
      let '(ret, interfaceCursor, interface) := r in
      if failed ret then Val (UEC_SERVICE_INVALID_VALUE, cursor, interfaces)
      else
        let '(interfaces, advance) := record_interface interface interfaces in
        parse_interfaces fuel' mem buffer length (u32 (cursor + interfaceCursor))
          (if advance then i + 1 else i) bNumInterfaces interfaces
  end.

(** [usb_descriptor_parser.cpp:193-248] [UsbDescriptorParser::ParseConfigDescriptor] the structure is read before the length test, as in the code *)
Definition ParseConfigDescriptor (fuel : nat) (mem : list Z) (buffer : option Z)
    (length cursor : Z) (config : USBConfig.t) : res (Z * Z * USBConfig.t) :=
  match buffer with
  | None => Val (UEC_SERVICE_INVALID_VALUE, cursor, config)
  | Some buffer =>
    if length =? 0 then Val (UEC_SERVICE_INVALID_VALUE, cursor, config)
    else
      d ← UsbdConfigDescriptor.read mem buffer;
      if (length <? UsbdConfigDescriptor.size) ||
         negb (UsbdConfigDescriptor.bLength d =? UsbdConfigDescriptor.size)
      then Val (UEC_SERVICE_INVALID_VALUE, cursor, config)
      else
        let cursor := u32 (cursor + UsbdConfigDescriptor.size) in
        let config := config_of_descriptor d config in
        r ← parse_interfaces fuel mem buffer length cursor 0
              (UsbdConfigDescriptor.bNumInterfaces d) [];
        let '(ret, cursor, interfaces) := r in
        if failed ret then Val (ret, cursor, config)
        else Val (UEC_OK, cursor, USBConfig.SetInterfaces interfaces config)
  end.
End Parser.

(** ** Memory safety of reads *)
Section Reads.
Implicit Types (mem : list Z) (p : Z).

(** The structure of [n] bytes at [p] lies inside the buffer. *)
Definition inside (mem : list Z) (p n : Z) : Prop :=
  0 <= p ∧ p + n <= Z.of_nat (length mem).

Lemma rd8_inside mem p : inside mem p 1 → ∃ b, rd8 mem p = Val b.
Proof.
  intros [Hp Hn]. unfold rd8.
  destruct (p <? 0) eqn:E; [bsimp; lia|].
  destruct (lookup_lt_is_Some_2 mem (Z.to_nat p)) as [b ->]; [lia|]. by exists b.
Qed.

Lemma inside_sub mem p n q m :
  inside mem p n → p <= q → q + m <= p + n → inside mem q m.
Proof. unfold inside. lia. Qed.
End Reads.

(** Discharge a read that lies inside the buffer. *)
Ltac read_ok :=
  lazymatch goal with
  | H : inside ?mem ?p ?n |- context [rd8 ?mem ?q] =>
      let b := fresh "b" in let Hb := fresh "Hb" in
      destruct (rd8_inside mem q) as [b Hb];
      [ apply (inside_sub _ _ _ _ _ H); lia | rewrite Hb; clear Hb; cbn [mbind res_bind] ]
  end.

Section StructReads.
Implicit Types (mem : list Z) (p : Z).

Lemma header_read mem p :
  inside mem p UsbdDescriptorHeader.size → ∃ d, UsbdDescriptorHeader.read mem p = Val d.
Proof.
  unfold UsbdDescriptorHeader.size, UsbdDescriptorHeader.read. intros H.
  repeat read_ok. eauto.
Qed.

Lemma device_read mem p :
  inside mem p UsbdDeviceDescriptor.size → ∃ d, UsbdDeviceDescriptor.read mem p = Val d.
Proof.
  unfold UsbdDeviceDescriptor.size, UsbdDeviceDescriptor.read, rd16. intros H.
  repeat read_ok. eauto.
Qed.

Lemma config_read mem p :
  inside mem p UsbdConfigDescriptor.size → ∃ d, UsbdConfigDescriptor.read mem p = Val d.
Proof.
  unfold UsbdConfigDescriptor.size, UsbdConfigDescriptor.read, rd16. intros H.
  repeat read_ok. eauto.
Qed.

Lemma interface_read mem p :
  inside mem p UsbdInterfaceDescriptor.size → ∃ d, UsbdInterfaceDescriptor.read mem p = Val d.
Proof.
  unfold UsbdInterfaceDescriptor.size, UsbdInterfaceDescriptor.read. intros H.
  repeat read_ok. eauto.
Qed.

Lemma endpoint_read mem p :
  inside mem p UsbdEndpointDescriptor.size → ∃ d, UsbdEndpointDescriptor.read mem p = Val d.
Proof.
  unfold UsbdEndpointDescriptor.size, UsbdEndpointDescriptor.read, rd16. intros H.
  repeat read_ok. eauto.
Qed.
End StructReads.

Section ParserSafety.
Context `{EB : ErrBase}.

(** A result of the parser that is a value, with one of its two result codes. *)
Definition parsed_code (r : res (Z * list USBConfig.t)) : Prop :=
  ∃ ret configs, r = Val (ret, configs) ∧ (ret = UEC_OK ∨ ret = UEC_SERVICE_INVALID_VALUE).

Lemma AddConfig_code configs d : (AddConfig configs d).1 = UEC_OK.
Proof. reflexivity. Qed.

Lemma AddInterface_code configs d :
  (AddInterface configs d).1 = UEC_OK ∨ (AddInterface configs d).1 = UEC_SERVICE_INVALID_VALUE.
Proof. destruct configs; simpl; auto. Qed.

Lemma AddEndpoint_code configs d :
  (AddEndpoint configs d).1 = UEC_OK ∨ (AddEndpoint configs d).1 = UEC_SERVICE_INVALID_VALUE.
Proof.
  unfold AddEndpoint. destruct (last configs) as [c|]; [|by right].
  destruct (last (USBConfig.GetInterfaces c)); [by left | by right].
Qed.

(** With fuel for every remaining byte, the loop reads only inside the buffer and ends. *)
Lemma loop_parsed fuel mem len cursor configs :
  0 <= len <= Z.of_nat (length mem) → len < 2 ^ 32 → 0 <= cursor →
  Z.max 0 (len - cursor) < Z.of_nat fuel →
  parsed_code (ParseConfigDescriptors_loop fuel mem len cursor configs).
Proof.
  intros Hlen H32. revert cursor configs.
  induction fuel as [|fuel IH]; intros cursor configs Hc Hf.
  { lia. }
  assert (Hstop : ∀ ret configs, ret = UEC_OK ∨ ret = UEC_SERVICE_INVALID_VALUE →
    parsed_code (Val (ret, configs))) by (intros; eexists _, _; eauto).
  cbn [ParseConfigDescriptors_loop].
  destruct (cursor <? len) eqn:Hcl; cbn [negb]; [bsimp|by apply Hstop; left].
  rewrite (u32_id (len - cursor)) by width_lia.
  destruct (len - cursor <? _) eqn:Hh; [by apply Hstop; left|bsimp].
  destruct (header_read mem cursor) as [h ->];
    [unfold inside, UsbdDescriptorHeader.size in *; lia|].
  cbn [mbind res_bind].
  set (bl := UsbdDescriptorHeader.bLength h).
  destruct ((bl <? _) || (len - cursor <? bl)) eqn:Hb; [by apply Hstop; left|].
  bsimp. unfold UsbdDescriptorHeader.size in *.
  assert (Hcont : ∀ ret configs, ret = UEC_OK ∨ ret = UEC_SERVICE_INVALID_VALUE →
    parsed_code (if failed ret then Val (ret, configs)
      else ParseConfigDescriptors_loop fuel mem len (u32 (cursor + bl)) configs)).
  { intros ret cfs Hr. case_if; [by apply Hstop|].
    rewrite u32_id by width_lia. apply IH; lia. }
  case_if; [|case_if; [|case_if]].
  - case_if; [|by apply Hstop; right]. bsimp.
    destruct (config_read mem cursor) as [d ->];
      [unfold inside, UsbdConfigDescriptor.size in *; lia|].
    cbn [mbind res_bind]. destruct (AddConfig configs d) eqn:E.
    apply Hcont. pose proof (AddConfig_code configs d) as HA. rewrite E in HA. by left.
  - case_if; [|by apply Hstop; right]. bsimp.
    destruct (interface_read mem cursor) as [d ->];
      [unfold inside, UsbdInterfaceDescriptor.size in *; lia|].
    cbn [mbind res_bind]. destruct (AddInterface configs d) eqn:E.
    apply Hcont. pose proof (AddInterface_code configs d) as HA. by rewrite E in HA.
  - case_if; [by apply Hstop; right|].
    destruct (endpoint_read mem cursor) as [d ->];
      [unfold inside, UsbdEndpointDescriptor.size, NORMAL_ENDPOINT_DESCRIPTOR,
         AUDIO_ENDPOINT_DESCRIPTOR in *; lia|].
    cbn [mbind res_bind]. destruct (AddEndpoint configs d) eqn:E.
    apply Hcont. pose proof (AddEndpoint_code configs d) as HA. by rewrite E in HA.
  - by apply (Hcont UEC_OK); left.
Qed.

Lemma parse_configs_code (descriptor : list Z) (offset : Z) (configs : list USBConfig.t) :
  is_u32 offset → parsed_code (ParseConfigDescriptors descriptor offset configs).
Proof.
  intros Hoff. unfold ParseConfigDescriptors.
  assert (0 <= u32 (Z.of_nat (length descriptor)) <= Z.of_nat (length descriptor)).
  { unfold u32. pose proof (Z.mod_pos_bound (Z.of_nat (length descriptor)) (2 ^ 32)).
    split; [lia|]. apply Z.mod_le; lia. }
  pose proof (u32_range (Z.of_nat (length descriptor))).
  apply loop_parsed; width_lia.
Qed.

(** C37: Parsing the configuration descriptors of any buffer, from any offset, terminates
    without reading outside the buffer, and returns [UEC_OK] or
    [UEC_SERVICE_INVALID_VALUE]: a device cannot crash or hang the service with the
    descriptors it reports. *)
Theorem ParseConfigDescriptors_safe (descriptor : list Z) (offset : Z)
    (configs : list USBConfig.t) (Hoff : is_u32 offset) :
  parsed_code (ParseConfigDescriptors descriptor offset configs).
Proof. by apply parse_configs_code. Qed.

(** Reading a device descriptor needs 18 bytes in the buffer: then the result is a
    value; a null, empty or short buffer, or a [bLength] that is not 18, is refused with
    the device unchanged; otherwise every field of the structure lands in the device. *)
Theorem ParseDeviceDescriptor_spec (mem : list Z) (length : Z) (dev : UsbDevice.t)
    (Hlen : 0 <= length <= Z.of_nat (List.length mem)) :
  (length < UsbdDeviceDescriptor.size ∧
     ParseDeviceDescriptor (Some mem) length dev = Val (UEC_SERVICE_INVALID_VALUE, dev)) ∨
  ∃ d, UsbdDeviceDescriptor.read mem 0 = Val d ∧
    ParseDeviceDescriptor (Some mem) length dev =
      if UsbdDeviceDescriptor.bLength d =? UsbdDeviceDescriptor.size
      then Val (UEC_OK, device_of_descriptor d dev)
      else Val (UEC_SERVICE_INVALID_VALUE, dev).
Proof.
  unfold ParseDeviceDescriptor.
  destruct (Z.ltb_spec length UsbdDeviceDescriptor.size) as [Hs|Hs].
  { left. split; [done|]. by destruct (length =? 0). }
  right. unfold UsbdDeviceDescriptor.size in *.
  destruct (device_read mem 0) as [d Hd]; [unfold inside, UsbdDeviceDescriptor.size; lia|].
  exists d. split; [done|]. rewrite (proj2 (Z.eqb_neq length 0)) by lia.
  rewrite Hd. cbn [mbind res_bind]. by case_if.
Qed.
End ParserSafety.

(** ** The abstract parser

    A configuration blob is a sequence of descriptors.  The parser implements the fold
    [apply_descs] of that sequence, which is stated on the records and the lists
    themselves, without the operations of the parser: it adds a configuration, an interface
    to the last configuration, an endpoint to the last interface, skips what it does not
    know, and stops at the first descriptor that has no parent. *)
Inductive Desc :=
  | DConfig (d : UsbdConfigDescriptor.t)
  | DInterface (d : UsbdInterfaceDescriptor.t)
  | DEndpoint (d : UsbdEndpointDescriptor.t) (audio : list Z)
  | DOther (ty : Z) (payload : list Z).

(** A 16-bit field in little-endian order. *)
Definition le16 (w : Z) : list Z := [w mod 256; w / 256].

Definition desc_bytes (d : Desc) : list Z :=
  match d with
  | DConfig (UsbdConfigDescriptor.mk len ty total ifs value str attr power) =>
      [len; ty] ++ le16 total ++ [ifs; value; str; attr; power]
  | DInterface (UsbdInterfaceDescriptor.mk len ty num alt eps cls sub proto str) =>
      [len; ty; num; alt; eps; cls; sub; proto; str]
  | DEndpoint (UsbdEndpointDescriptor.mk len ty addr attr size interval) audio =>
      [len; ty; addr; attr] ++ le16 size ++ [interval] ++ audio
  | DOther ty payload => [2 + Z.of_nat (length payload); ty] ++ payload
  end.

(** The lengths and types a descriptor of each kind announces in its header. *)
Definition wf_desc (d : Desc) : Prop :=
  match d with
  | DConfig d =>
      UsbdConfigDescriptor.bLength d = 9 ∧ UsbdConfigDescriptor.bDescriptorType d = 2
  | DInterface d =>
      UsbdInterfaceDescriptor.bLength d = 9 ∧ UsbdInterfaceDescriptor.bDescriptorType d = 4
  | DEndpoint d audio =>
      UsbdEndpointDescriptor.bLength d = 7 + Z.of_nat (length audio) ∧
      UsbdEndpointDescriptor.bDescriptorType d = 5 ∧
      (length audio = 0%nat ∨ length audio = 2%nat)
  | DOther ty _ => ty ≠ 2 ∧ ty ≠ 4 ∧ ty ≠ 5
  end.

Section AbstractParser.
Context `{EB : ErrBase}.

(** What each descriptor describes; the members that it does not carry are initial. *)
Definition described_config (d : UsbdConfigDescriptor.t) : USBConfig.t :=
  {| USBConfig.id_ := UsbdConfigDescriptor.bConfigurationValue d;
     USBConfig.attributes_ := UsbdConfigDescriptor.bmAttributes d;
     USBConfig.interfaces_ := [];
     USBConfig.maxPower_ := UsbdConfigDescriptor.bMaxPower d;
     USBConfig.name_ := "";
     USBConfig.iConfiguration_ := UsbdConfigDescriptor.iConfiguration d |}.
Definition described_interface (d : UsbdInterfaceDescriptor.t) : UsbInterface.t :=
  {| UsbInterface.id_ := UsbdInterfaceDescriptor.bInterfaceNumber d;
     UsbInterface.protocol_ := UsbdInterfaceDescriptor.bInterfaceProtocol d;
     UsbInterface.klass_ := UsbdInterfaceDescriptor.bInterfaceClass d;
     UsbInterface.subClass_ := UsbdInterfaceDescriptor.bInterfaceSubClass d;
     UsbInterface.alternateSetting_ := UsbdInterfaceDescriptor.bAlternateSetting d;
     UsbInterface.name_ := "";
     UsbInterface.endpoints_ := [];
     UsbInterface.iInterface_ := UsbdInterfaceDescriptor.iInterface d;
     UsbInterface.authorized_ := true |}.
Definition described_endpoint (i : UsbInterface.t) (d : UsbdEndpointDescriptor.t) : USBEndpoint.t :=
  {| USBEndpoint.address_ := UsbdEndpointDescriptor.bEndpointAddress d;
     USBEndpoint.attributes_ := UsbdEndpointDescriptor.bmAttributes d;
     USBEndpoint.interval_ := UsbdEndpointDescriptor.bInterval d;
     USBEndpoint.maxPacketSize_ := UsbdEndpointDescriptor.wMaxPacketSize d;
     USBEndpoint.interfaceId_ := u8 (UsbInterface.id_ i) |}.

Definition with_interface (i : UsbInterface.t) (c : USBConfig.t) : USBConfig.t :=
  let 'USBConfig.mk id attributes interfaces maxPower name text := c in
  USBConfig.mk id attributes (interfaces ++ [i]) maxPower name text.
Definition with_endpoint (e : USBEndpoint.t) (i : UsbInterface.t) : UsbInterface.t :=
  let 'UsbInterface.mk id protocol klass sub alternate name endpoints text authorized := i in
  UsbInterface.mk id protocol klass sub alternate name (endpoints ++ [e]) text authorized.

(** A list and its last element. *)
Definition unsnoc {A} (l : list A) : option (list A * A) :=
  match reverse l with [] => None | x :: before => Some (reverse before, x) end.

Definition orphan (configs : list USBConfig.t) : Z * list USBConfig.t :=
  (UEC_SERVICE_INVALID_VALUE, configs).

Definition apply_desc (configs : list USBConfig.t) (d : Desc) : Z * list USBConfig.t :=
  match d with
  | DConfig d => (UEC_OK, configs ++ [described_config d])
  | DInterface d =>
      match unsnoc configs with
      | None => orphan configs
      | Some (before, c) => (UEC_OK, before ++ [with_interface (described_interface d) c])
      end
  | DEndpoint d _ =>
      match unsnoc configs with
      | None => orphan configs
      | Some (before, USBConfig.mk id attributes interfaces maxPower name text) =>
          match unsnoc interfaces with
          | None => orphan configs
          | Some (others, i) =>
              (UEC_OK, before ++ [USBConfig.mk id attributes
                 (others ++ [with_endpoint (described_endpoint i d) i]) maxPower name text])
          end
      end
  | DOther _ _ => (UEC_OK, configs)
  end.

Lemma unsnoc_snoc {A} (l : list A) x : unsnoc (l ++ [x]) = Some (l, x).
Proof. unfold unsnoc. by rewrite reverse_snoc, reverse_involutive. Qed.
Lemma update_back_snoc {A} (f : A → A) l x : update_back f (l ++ [x]) = l ++ [f x].
Proof. unfold update_back. by rewrite last_snoc, removelast_last. Qed.
Lemma no_parent {A} (l : list A) : l = [] ∨ ∃ before x, l = before ++ [x].
Proof. destruct l as [|x l _] using rev_ind; [by left|right; eauto]. Qed.

(** The operations of the parser do what the abstract parser says. *)
Lemma AddConfig_applies configs d : AddConfig configs d = apply_desc configs (DConfig d).
Proof. done. Qed.
Lemma AddInterface_applies configs d : AddInterface configs d = apply_desc configs (DInterface d).
Proof.
  destruct (no_parent configs) as [->|(before & c & ->)]; [done|].
  cbn [apply_desc]. rewrite unsnoc_snoc. unfold AddInterface. rewrite update_back_snoc.
  destruct (before ++ [c]) eqn:Hl; [by destruct before|]. by destruct c.
Qed.
Lemma AddEndpoint_applies configs d audio : AddEndpoint configs d = apply_desc configs (DEndpoint d audio).
Proof.
  destruct (no_parent configs) as [->|(before & c & ->)]; [done|].
  cbn [apply_desc]. rewrite unsnoc_snoc. unfold AddEndpoint. rewrite last_snoc.
  destruct c as [id attributes interfaces maxPower name text]. unfold USBConfig.GetInterfaces.
  cbn [USBConfig.interfaces_].
  destruct (no_parent interfaces) as [->|(others & i & ->)]; [done|].
  rewrite unsnoc_snoc, last_snoc, update_back_snoc. cbn [USBConfig.interfaces_].
  rewrite update_back_snoc. by destruct i.
Qed.

Fixpoint apply_descs (configs : list USBConfig.t) (ds : list Desc) : Z * list USBConfig.t :=
  match ds with
  | [] => (UEC_OK, configs)
  | d :: ds =>
      let '(ret, configs) := apply_desc configs d in
      if failed ret then (ret, configs) else apply_descs configs ds
  end.

(** Reading a byte that was laid out after a prefix. *)
Lemma rd8_app (pre bs : list Z) k :
  (k < length bs)%nat →
  rd8 (pre ++ bs) (Z.of_nat (length pre) + Z.of_nat k) =
    match bs !! k with Some b => Val b | None => OutOfBounds end.
Proof.
  intros Hk. unfold rd8. rewrite (proj2 (Z.ltb_ge _ 0)) by lia.
  rewrite lookup_app_r by lia. by replace (Z.to_nat _ - length pre)%nat with k by lia.
Qed.

Lemma rd8_at (pre bs : list Z) p k b :
  p = Z.of_nat (length pre) + Z.of_nat k → bs !! k = Some b → rd8 (pre ++ bs) p = Val b.
Proof.
  intros -> Hb. rewrite rd8_app by (by eapply lookup_lt_Some). by rewrite Hb.
Qed.

Lemma rd8_bind_at {B} (pre bs : list Z) p k b (f : Z → res B) :
  p = Z.of_nat (length pre) + Z.of_nat k → bs !! k = Some b →
  (rd8 (pre ++ bs) p ≫= f) = f b.
Proof. intros Hp Hb. by rewrite (rd8_at _ _ _ _ _ Hp Hb). Qed.

(** Read the successive bytes of a structure laid out after the prefix. *)
Ltac reads_from k :=
  try (erewrite (rd8_bind_at _ _ _ k) by first [lia | reflexivity];
       cbn [mbind res_bind]; reads_from (S k)).

Lemma header_at pre len ty rest :
  UsbdDescriptorHeader.read (pre ++ len :: ty :: rest) (Z.of_nat (length pre)) =
    Val (UsbdDescriptorHeader.mk len ty).
Proof. unfold UsbdDescriptorHeader.read. by reads_from 0%nat. Qed.

Lemma le16_value w : w mod 256 + 256 * (w / 256) = w.
Proof. pose proof (Z.div_mod w 256). lia. Qed.

Lemma config_at pre d rest :
  UsbdConfigDescriptor.read (pre ++ desc_bytes (DConfig d) ++ rest) (Z.of_nat (length pre)) =
    Val d.
Proof.
  destruct d. unfold UsbdConfigDescriptor.read, rd16. simpl.
  reads_from 0%nat. by rewrite le16_value.
Qed.

Lemma interface_at pre d rest :
  UsbdInterfaceDescriptor.read (pre ++ desc_bytes (DInterface d) ++ rest)
    (Z.of_nat (length pre)) = Val d.
Proof.
  destruct d. unfold UsbdInterfaceDescriptor.read. simpl.
  by reads_from 0%nat.
Qed.

Lemma endpoint_at pre d audio rest :
  UsbdEndpointDescriptor.read (pre ++ desc_bytes (DEndpoint d audio) ++ rest)
    (Z.of_nat (length pre)) = Val d.
Proof.
  destruct d. unfold UsbdEndpointDescriptor.read, rd16. simpl.
  reads_from 0%nat. by rewrite le16_value.
Qed.

(** The header of a descriptor, as the loop sees it. *)
Definition desc_length (d : Desc) : Z :=
  match d with
  | DConfig d => UsbdConfigDescriptor.bLength d
  | DInterface d => UsbdInterfaceDescriptor.bLength d
  | DEndpoint d _ => UsbdEndpointDescriptor.bLength d
  | DOther _ payload => 2 + Z.of_nat (length payload)
  end.
Definition desc_type (d : Desc) : Z :=
  match d with
  | DConfig d => UsbdConfigDescriptor.bDescriptorType d
  | DInterface d => UsbdInterfaceDescriptor.bDescriptorType d
  | DEndpoint d _ => UsbdEndpointDescriptor.bDescriptorType d
  | DOther ty _ => ty
  end.

Lemma desc_header_at pre d rest :
  UsbdDescriptorHeader.read (pre ++ desc_bytes d ++ rest) (Z.of_nat (length pre)) =
    Val (UsbdDescriptorHeader.mk (desc_length d) (desc_type d)).
Proof. by destruct d as [[]|[]|[]|]; apply header_at. Qed.

Lemma desc_bytes_length d : wf_desc d → Z.of_nat (length (desc_bytes d)) = desc_length d.
Proof.
  destruct d as [[]|[]|[]|]; simpl; rewrite ?length_app; simpl; lia.
Qed.

Lemma desc_length_min d : wf_desc d → 2 <= desc_length d.
Proof. destruct d as [[]|[]|[]|]; simpl; lia. Qed.
End AbstractParser.

Section Refinement.
Context `{EB : ErrBase}.

#[local] Arguments desc_bytes : simpl never.

(** The bytes of a descriptor sequence, followed by at most one stray byte. *)
Definition layout (ds : list Desc) (tail : list Z) : list Z :=
  concat (desc_bytes <$> ds) ++ tail.

Lemma layout_cons d ds tail : layout (d :: ds) tail = desc_bytes d ++ layout ds tail.
Proof. unfold layout. simpl. by rewrite app_assoc. Qed.

(** One iteration of the loop on a well-formed descriptor is one step of the fold. *)
Lemma loop_step fuel pre d rest configs :
  wf_desc d → Z.of_nat (length (pre ++ desc_bytes d ++ rest)) < 2 ^ 32 →
  ParseConfigDescriptors_loop (S fuel) (pre ++ desc_bytes d ++ rest)
    (Z.of_nat (length (pre ++ desc_bytes d ++ rest))) (Z.of_nat (length pre)) configs =
  let '(ret, configs) := apply_desc configs d in
  if failed ret then Val (ret, configs)
  else ParseConfigDescriptors_loop fuel (pre ++ desc_bytes d ++ rest)
    (Z.of_nat (length (pre ++ desc_bytes d ++ rest)))
    (Z.of_nat (length (pre ++ desc_bytes d))) configs.
Proof.
  intros Hwf H32. pose proof (desc_bytes_length d Hwf) as Hlen.
  pose proof (desc_length_min d Hwf) as Hmin. rewrite !length_app in *.
  cbn [ParseConfigDescriptors_loop].
  rewrite (proj2 (Z.ltb_lt _ _)) by lia. cbn [negb].
  rewrite (u32_id (_ - _)) by width_lia.
  unfold UsbdDescriptorHeader.size. rewrite (proj2 (Z.ltb_ge _ 2)) by lia.
  rewrite desc_header_at. cbn [mbind res_bind UsbdDescriptorHeader.bLength
    UsbdDescriptorHeader.bDescriptorType].
  rewrite (proj2 (Z.ltb_ge (desc_length d) 2)), (proj2 (Z.ltb_ge _ (desc_length d))) by lia.
  cbn [orb]. rewrite (u32_id (_ + desc_length d)) by width_lia.
  replace (Z.of_nat (length pre) + desc_length d)
    with (Z.of_nat (length pre + length (desc_bytes d))) by lia.
  destruct d as [d|d|d audio|ty pl]; cbn [desc_length desc_type] in *;
    rewrite <- ?AddConfig_applies, <- ?AddInterface_applies, <- ?AddEndpoint_applies.
  - destruct Hwf as [HL HT]. rewrite HL, HT. cbn -[AddConfig]. by rewrite (config_at pre d rest).
  - destruct Hwf as [HL HT]. rewrite HL, HT. cbn -[AddInterface]. by rewrite (interface_at pre d rest).
  - destruct Hwf as (HL & HT & Ha). rewrite HT. cbn -[AddEndpoint].
    destruct (negb _ && _) eqn:E;
      [unfold NORMAL_ENDPOINT_DESCRIPTOR, AUDIO_ENDPOINT_DESCRIPTOR in *; lia|].
    by rewrite (endpoint_at pre d audio rest).
  - destruct Hwf as (H2 & H4 & H5).
    unfold DESCRIPTOR_TYPE_CONFIG, DESCRIPTOR_TYPE_INTERFACE, DESCRIPTOR_TYPE_ENDPOINT.
    by rewrite (proj2 (Z.eqb_neq ty 2)), (proj2 (Z.eqb_neq ty 4)), (proj2 (Z.eqb_neq ty 5)).
Qed.

Lemma loop_stop fuel pre tail configs :
  (length tail <= 1)%nat → Z.of_nat (length (pre ++ tail)) < 2 ^ 32 →
  ParseConfigDescriptors_loop (S fuel) (pre ++ tail) (Z.of_nat (length (pre ++ tail)))
    (Z.of_nat (length pre)) configs = Val (UEC_OK, configs).
Proof.
  intros Ht H32. rewrite length_app in *. cbn [ParseConfigDescriptors_loop].
  destruct (_ <? _) eqn:E; [|done]. cbn [negb].
  rewrite (u32_id (_ - _)) by width_lia.
  unfold UsbdDescriptorHeader.size. by rewrite (proj2 (Z.ltb_lt _ 2)) by lia.
Qed.

Lemma loop_fold ds : ∀ fuel pre tail configs,
  Forall wf_desc ds → (length tail <= 1)%nat →
  Z.of_nat (length (pre ++ layout ds tail)) < 2 ^ 32 → (length ds < fuel)%nat →
  ParseConfigDescriptors_loop fuel (pre ++ layout ds tail)
    (Z.of_nat (length (pre ++ layout ds tail))) (Z.of_nat (length pre)) configs =
  Val (apply_descs configs ds).
Proof.
  induction ds as [|d ds IH]; intros [|fuel] pre tail configs Hwf Ht H32 Hf; simpl in Hf; try lia.
  { by apply loop_stop. }
  apply Forall_cons in Hwf as [Hd Hds].
  rewrite layout_cons in *. rewrite loop_step by done. simpl.
  destruct (apply_desc configs d) as [ret configs']. case_if; [done|].
  rewrite app_assoc in *. apply IH; [done..|lia].
Qed.

Lemma layout_descs_length ds tail :
  Forall wf_desc ds → (length ds <= length (layout ds tail))%nat.
Proof.
  intros H. induction H as [|d ds Hd _ IH]; [simpl; lia|].
  rewrite layout_cons, length_app. simpl.
  pose proof (desc_bytes_length d Hd). pose proof (desc_length_min d Hd). lia.
Qed.

(** C35: on the bytes of any sequence of well-formed descriptors (plus at most one stray
    byte), wherever it starts in the buffer, [ParseConfigDescriptors] computes the
    abstract fold of the sequence, which is stated without the operations of the parser:
    each descriptor gives the record of its fields, a configuration is added at the end, an
    interface to the last configuration, an endpoint to the last interface of the last
    configuration, under whose number it is filed; unknown descriptors are skipped, and the
    first orphan stops the parse with its error. *)
Theorem ParseConfigDescriptors_refines (pre : list Z) (ds : list Desc) (tail : list Z)
    (configs : list USBConfig.t)
    (Hwf : Forall wf_desc ds) (Htail : (length tail <= 1)%nat)
    (Hsize : Z.of_nat (length (pre ++ layout ds tail)) < 2 ^ 32) :
  ParseConfigDescriptors (pre ++ layout ds tail) (Z.of_nat (length pre)) configs =
    Val (apply_descs configs ds).
Proof.
  unfold ParseConfigDescriptors. rewrite (u32_id (Z.of_nat _)) by width_lia.
  apply loop_fold; [done..|]. pose proof (layout_descs_length ds tail Hwf).
  rewrite length_app. lia.
Qed.
End Refinement.

(** ** Round trip

    [describe] lays the descriptors of a configuration list out in the standard order. *)
Definition describe_endpoint (e : USBEndpoint.t) : Desc :=
  DEndpoint (UsbdEndpointDescriptor.mk 7 5 (USBEndpoint.address_ e)
    (USBEndpoint.attributes_ e) (USBEndpoint.maxPacketSize_ e) (USBEndpoint.interval_ e)) [].

Definition describe_interface (i : UsbInterface.t) : list Desc :=
  DInterface (UsbdInterfaceDescriptor.mk 9 4 (UsbInterface.id_ i)
    (UsbInterface.alternateSetting_ i) (Z.of_nat (length (UsbInterface.endpoints_ i)))
    (UsbInterface.klass_ i) (UsbInterface.subClass_ i) (UsbInterface.protocol_ i)
    (UsbInterface.iInterface_ i)) :: (describe_endpoint <$> UsbInterface.endpoints_ i).

Definition describe_config (total : Z) (c : USBConfig.t) : list Desc :=
  DConfig (UsbdConfigDescriptor.mk 9 2 total (Z.of_nat (length (USBConfig.interfaces_ c)))
    (USBConfig.id_ c) (USBConfig.iConfiguration_ c) (USBConfig.attributes_ c)
    (USBConfig.maxPower_ c)) :: concat (describe_interface <$> USBConfig.interfaces_ c).

Definition describe (total : Z) (cs : list USBConfig.t) : list Desc :=
  concat (describe_config total <$> cs).

(** What descriptors can carry: the names are empty (they are string indices on the
    wire), an interface is authorized, and an endpoint knows its interface. *)
Definition plain_endpoint (i : UsbInterface.t) (e : USBEndpoint.t) : Prop :=
  USBEndpoint.interfaceId_ e = u8 (UsbInterface.id_ i).
Definition plain_interface (i : UsbInterface.t) : Prop :=
  UsbInterface.name_ i = "" ∧ UsbInterface.authorized_ i = true ∧
  Forall (plain_endpoint i) (UsbInterface.endpoints_ i).
Definition plain_config (c : USBConfig.t) : Prop :=
  USBConfig.name_ c = "" ∧ Forall plain_interface (USBConfig.interfaces_ c).

Section RoundTrip.
Context `{EB : ErrBase}.

Lemma apply_descs_app configs ds ds' configs' :
  apply_descs configs ds = (UEC_OK, configs') →
  apply_descs configs (ds ++ ds') = apply_descs configs' ds'.
Proof.
  revert configs. induction ds as [|d ds IH]; intros configs; simpl.
  { by intros [= ->]. }
  destruct (apply_desc configs d) as [ret c]. case_if; [|apply IH].
  intros [= -> ->]. done.
Qed.

Lemma apply_endpoints i es : ∀ cfgs c js es0,
  USBConfig.interfaces_ c = js ++ [UsbInterface.set_endpoints_ es0 i] →
  Forall (plain_endpoint i) es →
  apply_descs (cfgs ++ [c]) (describe_endpoint <$> es) =
    (UEC_OK, cfgs ++ [USBConfig.set_interfaces_
       (js ++ [UsbInterface.set_endpoints_ (es0 ++ es) i]) c]).
Proof.
  induction es as [|e es IH]; intros cfgs c js es0 Hi Hp; simpl.
  { rewrite app_nil_r, <- Hi. by destruct c. }
  apply Forall_cons in Hp as [He Hes].
  rewrite unsnoc_snoc. destruct c as [id attributes interfaces power name text]. cbn in Hi. subst interfaces.
  rewrite unsnoc_snoc, failed_ok. rewrite (IH cfgs _ js (es0 ++ [e])).
  - by rewrite <- app_assoc.
  - destruct e, i. unfold plain_endpoint in He. simpl in *. by rewrite He.
  - done.
Qed.

Lemma interface_described i :
  UsbInterface.name_ i = "" → UsbInterface.authorized_ i = true →
  described_interface (UsbdInterfaceDescriptor.mk 9 4 (UsbInterface.id_ i)
    (UsbInterface.alternateSetting_ i) (Z.of_nat (length (UsbInterface.endpoints_ i)))
    (UsbInterface.klass_ i) (UsbInterface.subClass_ i) (UsbInterface.protocol_ i)
    (UsbInterface.iInterface_ i)) = UsbInterface.set_endpoints_ [] i.
Proof. destruct i. simpl. by intros -> ->. Qed.

Lemma apply_interfaces ifs : ∀ cfgs c js,
  USBConfig.interfaces_ c = js → Forall plain_interface ifs →
  apply_descs (cfgs ++ [c]) (concat (describe_interface <$> ifs)) =
    (UEC_OK, cfgs ++ [USBConfig.set_interfaces_ (js ++ ifs) c]).
Proof.
  induction ifs as [|i ifs IH]; intros cfgs c js Hi Hp; simpl.
  { rewrite app_nil_r, <- Hi. by destruct c. }
  apply Forall_cons in Hp as [(Hn & Ha & Hes) Hifs].
  rewrite unsnoc_snoc, failed_ok, (interface_described i Hn Ha).
  replace (with_interface _ c) with
    (USBConfig.set_interfaces_ (js ++ [UsbInterface.set_endpoints_ [] i]) c) by (subst js; by destruct c).
  rewrite (apply_descs_app _ _ _ _ (apply_endpoints i (UsbInterface.endpoints_ i) cfgs
    (USBConfig.set_interfaces_ (js ++ [UsbInterface.set_endpoints_ [] i]) c)
    js [] eq_refl Hes)).
  simpl. rewrite (IH cfgs _ (js ++ [i])); [|by destruct i|done].
  rewrite <- app_assoc. by destruct c.
Qed.

Lemma apply_describe total cs : ∀ cfgs,
  Forall plain_config cs →
  apply_descs cfgs (describe total cs) = (UEC_OK, cfgs ++ cs).
Proof.
  induction cs as [|c cs IH]; intros cfgs Hp; simpl; [by rewrite app_nil_r|].
  apply Forall_cons in Hp as [[Hn Hifs] Hcs].
  rewrite (apply_descs_app _ _ _ _
    (apply_interfaces (USBConfig.interfaces_ c) cfgs (described_config _)
      [] eq_refl Hifs)).
  unfold describe in IH. rewrite IH by done. rewrite <- app_assoc. simpl.
  by destruct c; simpl in *; rewrite Hn.
Qed.

Lemma describe_wf total cs : Forall wf_desc (describe total cs).
Proof.
  unfold describe. induction cs as [|c cs IH]; simpl; [constructor|].
  constructor; [done|]. apply Forall_app. split; [|done]. clear IH.
  induction (USBConfig.interfaces_ c) as [|i ifs IH]; simpl; [constructor|].
  constructor; [done|]. apply Forall_app. split; [|done].
  apply Forall_fmap, Forall_true. intros e. simpl. auto.
Qed.

(** Parsing the descriptors of a list of configurations returns exactly that list:
    no interface or endpoint is lost, duplicated, reordered or attached to the wrong
    parent. *)
Theorem ParseConfigDescriptors_roundtrip (pre : list Z) (total : Z) (cs : list USBConfig.t)
    (Hplain : Forall plain_config cs)
    (Hsize : Z.of_nat (length (pre ++ layout (describe total cs) [])) < 2 ^ 32) :
  ParseConfigDescriptors (pre ++ layout (describe total cs) []) (Z.of_nat (length pre)) [] =
    Val (UEC_OK, cs).
Proof.
  unfold ParseConfigDescriptors. rewrite (u32_id (Z.of_nat _)) by width_lia.
  rewrite loop_fold; [by rewrite (apply_describe total cs [])| | | |]; [|simpl; lia|done|].
  - apply describe_wf.
  - pose proof (layout_descs_length _ [] (describe_wf total cs)). rewrite length_app. lia.
Qed.
End RoundTrip.

(** ** The pointer-based entry points

    The scan of [ParseInterfaceDescriptor] and [ParseEndpointDescriptor] refuses a header
    whose [bLength] is at least the size of a header, and so every well-formed one. *)
Section PointerEntryPoints.
Context `{EB : ErrBase}.
Implicit Types (mem : list Z).

Lemma rd8_byte mem p b : Forall is_u8 mem → rd8 mem p = Val b → is_u8 b.
Proof.
  intros Hm. unfold rd8. case_if; [done|].
  destruct (mem !! _) eqn:E; [|done]. intros [= ->]. by eapply Forall_lookup_1.
Qed.

Lemma res_bind_Val {A B} (m : res A) (f : A → res B) b :
  m ≫= f = Val b → ∃ a, m = Val a ∧ f a = Val b.
Proof. destruct m; simpl; [eauto|done|done]. Qed.

Lemma header_length_byte mem p h :
  UsbdDescriptorHeader.read mem p = Val h → rd8 mem p = Val (UsbdDescriptorHeader.bLength h).
Proof.
  unfold UsbdDescriptorHeader.read. intros (a & Ha & H)%res_bind_Val.
  apply res_bind_Val in H as (b & _ & [= <-]). done.
Qed.

Lemma interface_length_byte mem p d :
  UsbdInterfaceDescriptor.read mem p = Val d →
  rd8 mem p = Val (UsbdInterfaceDescriptor.bLength d).
Proof.
  unfold UsbdInterfaceDescriptor.read. intros (a & Ha & H)%res_bind_Val.
  repeat (let b := fresh "b" in apply res_bind_Val in H as (b & _ & H)).
  by injection H as <-.
Qed.

(** A scan that succeeds stops at a header shorter than a header. *)
Lemma scan_header_ok ty fuel mem buffer length : ∀ cursor cursor',
  Forall is_u8 mem → is_u32 length → 0 <= cursor < length →
  scan_header ty fuel mem buffer length cursor = Val (UEC_OK, cursor') →
  0 <= cursor' < length ∧ ∃ b, rd8 mem (buffer + cursor') = Val b ∧ b < 2.
Proof.
  induction fuel as [|fuel IH]; intros cursor cursor' Hm Hl Hc; [done|].
  cbn [scan_header]. case_if; [|lia].
  rewrite u32_id by width_lia. case_if; [intros [= E]; by destruct invalid_value_not_ok|].
  unfold UsbdDescriptorHeader.size in *. bsimp.
  intros (h & Hh & H)%res_bind_Val. apply header_length_byte in Hh as Hb.
  pose proof (rd8_byte _ _ _ Hm Hb) as H8.
  revert H. case_if; [intros [= E]; by destruct invalid_value_not_ok|]. bsimp.
  case_if; [intros [= <-]; eauto|].
  rewrite u32_id by width_lia. apply IH; [done|done|width_lia].
Qed.

(** [ParseInterfaceDescriptor] succeeds on no input: called as the parser calls it,
    with a cursor at the start of a non-empty buffer, it never returns [UEC_OK], because
    its scan only lets headers with [bLength < 2] through and it then requires
    [bLength = 9]. *)
Theorem ParseInterfaceDescriptor_never_ok (fuel : nat) (mem : list Z) (buffer length : Z)
    (interface : UsbInterface.t) (Hmem : Forall is_u8 mem) (Hlen : is_u32 length) :
  ∀ cursor' interface',
    ParseInterfaceDescriptor fuel mem (Some buffer) length 0 interface ≠
      Val (UEC_OK, cursor', interface').
Proof.
  intros cursor' interface'. unfold ParseInterfaceDescriptor.
  assert (Herr : ∀ c (i : UsbInterface.t), Val (UEC_SERVICE_INVALID_VALUE, c, i) ≠
    Val (UEC_OK, cursor', interface'))
    by (intros c i [= E]; by destruct invalid_value_not_ok).
  case_if; [apply Herr|]. intros H. apply res_bind_Val in H as ([ret c] & Hs & H).
  revert H. case_if.
  { apply failed_true in Heqb0. by intros [= -> -> _]. }
  apply failed_false in Heqb0 as ->.
  apply scan_header_ok in Hs as (Hc & b & Hb & H2); [|done|done|width_lia].
  case_if; [apply Herr|]. intros H. apply res_bind_Val in H as (d & Hd & H).
  apply interface_length_byte in Hd. rewrite Hb in Hd. injection Hd as ->.
  revert H. unfold UsbdInterfaceDescriptor.size. case_if; [lia|apply Herr].
Qed.

(** Hence [ParseConfigDescriptor] never delivers an interface: when it returns
    [UEC_OK] the configuration has none, whatever interfaces the bytes describe. *)
Theorem ParseConfigDescriptor_no_interfaces (fuel : nat) (mem : list Z) (buffer : option Z)
    (length cursor : Z) (config config' : USBConfig.t) (cursor' : Z)
    (Hmem : Forall is_u8 mem)
    (Hok : ParseConfigDescriptor fuel mem buffer length cursor config =
           Val (UEC_OK, cursor', config')) :
  USBConfig.GetInterfaces config' = [].
Proof.
  revert Hok. unfold ParseConfigDescriptor.
  destruct buffer as [p|]; [|intros [= E]; by destruct invalid_value_not_ok].
  case_if; [intros [= E]; by destruct invalid_value_not_ok|].
  intros (d & _ & H)%res_bind_Val. revert H.
  case_if; [intros [= E]; by destruct invalid_value_not_ok|].
  intros ([[ret c] ifs] & Hl & H)%res_bind_Val. revert H.
  case_if; [apply failed_true in Heqb1; by intros [= -> _ _]|].
  apply failed_false in Heqb1 as ->. intros [= <- <-].
  destruct fuel as [|fuel]; [done|]. revert Hl. cbn [parse_interfaces].
  case_if; [|by intros [= _ <-]].
  intros ([[ret c'] i] & Hi & H)%res_bind_Val. revert H.
  case_if; [intros [= E]; by destruct invalid_value_not_ok|].
  apply failed_false in Heqb2 as ->.
  exfalso. by eapply ParseInterfaceDescriptor_never_ok in Hi; [|done|apply u32_range].
Qed.

(** A header with [bLength = 0] sends the scan of [ParseInterfaceDescriptor] into an
    endless loop: no amount of fuel is enough. *)
Theorem ParseInterfaceDescriptor_diverges (fuel : nat) (interface : UsbInterface.t) :
  ParseInterfaceDescriptor fuel [0; 1; 0] (Some 0) 3 0 interface = OutOfFuel.
Proof.
  unfold ParseInterfaceDescriptor. cbn [Z.eqb].
  assert (H : scan_header DESCRIPTOR_TYPE_INTERFACE fuel [0; 1; 0] 0 3 0 = OutOfFuel)
    by (induction fuel as [|fuel IH]; [done|exact IH]).
  by rewrite H.
Qed.

(** [ParseConfigDescriptor] overlays the structure before it tests the length. *)
Lemma ParseConfigDescriptor_overread (fuel : nat) (config : USBConfig.t) :
  ParseConfigDescriptor fuel [9] (Some 0) 1 0 config = OutOfBounds.
Proof. reflexivity. Qed.
End PointerEntryPoints.

(** ** Witnesses *)
Definition sample_configs : list USBConfig.t :=
  let ep := USBEndpoint.mk 129 2 0 512 3 in
  let itf := UsbInterface.mk 3 80 8 6 0 "" [ep; USBEndpoint.mk 2 2 0 64 3] 0 true in
  [USBConfig.mk 1 128 [itf; UsbInterface.mk 4 1 3 1 0 "" [] 5 true] 250 "" 0;
   USBConfig.mk 2 64 [] 50 "" 7].

Lemma sample_configs_plain : Forall plain_config sample_configs.
Proof. repeat (constructor; simpl; try reflexivity). Qed.

Lemma ParseConfigDescriptors_roundtrip_witness :
  @ParseConfigDescriptors sample_codes
    ([18; 1] ++ layout (describe 57 sample_configs) []) 2 [] = Val (UEC_OK, sample_configs).
Proof.
  apply (@ParseConfigDescriptors_roundtrip sample_codes [18; 1] 57 sample_configs).
  - apply sample_configs_plain.
  - vm_compute. reflexivity.
Defined.

Definition sample_descs : list Desc :=
  [DConfig (UsbdConfigDescriptor.mk 9 2 32 1 1 0 128 50); DOther 33 [1; 2; 3];
   DInterface (UsbdInterfaceDescriptor.mk 9 4 0 0 1 8 6 80 0);
   DEndpoint (UsbdEndpointDescriptor.mk 9 5 129 2 512 0) [0; 0]].

Lemma ParseConfigDescriptors_refines_witness :
  @ParseConfigDescriptors sample_codes ([] ++ layout sample_descs [7]) 0 [] =
    Val (@apply_descs sample_codes [] sample_descs).
Proof.
  apply (@ParseConfigDescriptors_refines sample_codes [] sample_descs [7] []).
  - repeat constructor; simpl; lia.
  - simpl. lia.
  - vm_compute. reflexivity.
Defined.

Lemma ParseConfigDescriptors_safe_witness :
  is_u32 3 ∧ @parsed_code sample_codes (@ParseConfigDescriptors sample_codes [9; 2; 0; 9] 3 []).
Proof. split; [width_lia|]. apply ParseConfigDescriptors_safe. width_lia. Defined.

Lemma ParseDeviceDescriptor_spec_witness :
  (1 < UsbdDeviceDescriptor.size ∧
     @ParseDeviceDescriptor sample_codes (Some [18]) 1 UsbDevice.default =
       Val (@UEC_SERVICE_INVALID_VALUE sample_codes, UsbDevice.default)) ∨
  ∃ d, UsbdDeviceDescriptor.read [18] 0 = Val d ∧
    @ParseDeviceDescriptor sample_codes (Some [18]) 1 UsbDevice.default =
      if UsbdDeviceDescriptor.bLength d =? UsbdDeviceDescriptor.size
      then Val (UEC_OK, device_of_descriptor d UsbDevice.default)
      else Val (@UEC_SERVICE_INVALID_VALUE sample_codes, UsbDevice.default).
Proof. apply (@ParseDeviceDescriptor_spec sample_codes [18] 1 UsbDevice.default). simpl. lia. Defined.

Lemma ParseInterfaceDescriptor_never_ok_witness :
  @ParseInterfaceDescriptor sample_codes 9 [9; 4; 0; 0; 0; 3; 1; 1; 0] (Some 0) 9 0
    UsbInterface.default ≠ Val (UEC_OK, 9, UsbInterface.default).
Proof.
  apply ParseInterfaceDescriptor_never_ok; [|width_lia].
  repeat constructor; unfold is_u8; lia.
Defined.

Lemma ParseConfigDescriptor_no_interfaces_witness :
  USBConfig.GetInterfaces (USBConfig.mk 1 128 [] 50 "" 0) = [].
Proof.
  apply (@ParseConfigDescriptor_no_interfaces sample_codes 9 [9; 2; 9; 0; 0; 1; 0; 128; 50]
    (Some 0) 9 0 USBConfig.default _ 9).
  - repeat constructor; unfold is_u8; lia.
  - reflexivity.
Defined.
