(* ===== verification/Marshalling.v ===== *)
(** * Marshalling of the USB data model

    The [Marshalling] and [Unmarshalling] members of [interfaces/innerkits/native/include],
    which carry devices between the service and its clients.  The parcel is the IPC
    library's: the class [Parcel] is the part of its interface the code uses, and
    [ParcelLaws] its documented behaviour, a first-in first-out sequence of typed words.
    A write may fail; [ReliableParcel] says that none does. *)

From S2P Require Import Prelude UsbTypes.

#[local] Set Default Goal Selector "!".

(** What a parcel holds: an [Int32] and a [Uint32] are the same 32-bit word, [PObject] is
    the mark before a parcelable object. *)
Inductive pitem :=
  | PU8 (z : Z)
  | PU16 (z : Z)
  | PW32 (z : Z)
  | PStr (s : string)
  | PBool (b : bool)
  | PW64 (z : Z)
  | PToken (s : string)
  | PBuf (l : list Z)
  | PObject.

Class Parcel (P : Type) := {
  WriteUint8 : Z → ST P bool;
  WriteUint16 : Z → ST P bool;
  WriteUint32 : Z → ST P bool;
  WriteInt32 : Z → ST P bool;
  WriteString : string → ST P bool;
  ReadUint8 : ST P Z;
  ReadUint16 : ST P Z;
  ReadUint32 : ST P Z;
  ReadInt32 : ST P Z;
  ReadString : ST P string;
}.

Section Specs.
Context {P : Type} (contents : P → list pitem).

(** [writes m xs]: [m] succeeds and appends [xs]; [reads m xs a]: on a parcel that starts
    with [xs], [m] consumes it and returns [a]. *)
Definition writes (m : ST P bool) (xs : list pitem) : Prop :=
  ∀ p, result m p = true ∧ contents (after m p) = contents p ++ xs.
Definition appends (m : ST P unit) (xs : list pitem) : Prop :=
  ∀ p, contents (after m p) = contents p ++ xs.
Definition reads {A} (m : ST P A) (xs : list pitem) (a : A) : Prop :=
  ∀ p rest, contents p = xs ++ rest → result m p = a ∧ contents (after m p) = rest.
End Specs.

Class ParcelLaws (P : Type) `{Parcel P} (contents : P → list pitem) := {
  read_uint8 z : reads contents ReadUint8 [PU8 z] z;
  read_uint16 z : reads contents ReadUint16 [PU16 z] z;
  read_uint32 z : reads contents ReadUint32 [PW32 z] z;
  read_int32 z : reads contents ReadInt32 [PW32 z] (i32 z);
  read_string s : reads contents ReadString [PStr s] s;
}.

Class ReliableParcel (P : Type) `{Parcel P} (contents : P → list pitem) := {
  write_uint8 z : writes contents (WriteUint8 z) [PU8 z];
  write_uint16 z : writes contents (WriteUint16 z) [PU16 z];
  write_uint32 z : writes contents (WriteUint32 z) [PW32 z];
  write_int32 z : writes contents (WriteInt32 z) [PW32 (u32 z)];
  write_string s : writes contents (WriteString s) [PStr s];
}.

(** [WRITE_PARCEL_AND_RETURN_FALSE_WHEN_FAIL] followed by the rest of the function. *)
Definition or_return_false {P} (m k : ST P bool) : ST P bool :=
  b ← m; if (b : bool) then k else mret false.
Notation "m ';!' k" := (or_return_false m k)
  (at level 100, k at level 200, right associativity) : usb_scope.
#[local] Open Scope usb_scope.

(** The loops [for (i = 0; i < count && i < MAX; i++)] over a vector: the elements they
    reach, with the count the code computed. *)
Definition upto {A} (count max : Z) (l : list A) : list A :=
  take (Z.to_nat (Z.min count max)) l.

(** Write each element, ignoring the result of the nested call, as the code does. *)
Definition write_each {P A} (f : A → ST P bool) (l : list A) : ST P unit :=
  mfor l (λ x, f x ;; mret tt).

Fixpoint read_n {P A} (n : nat) (m : ST P A) : ST P (list A) :=
  match n with
  | O => mret []
  | S n => x ← m; xs ← read_n n m; mret (x :: xs)
  end.

(** [usb_interface.h:29-29] [USB_ENDPOINT_MAX_NUM] *)
Definition USB_ENDPOINT_MAX_NUM : Z := 128.
(** [usb_config.h:31-31] [USB_INTERFACE_MAX_NUM] *)
Definition USB_INTERFACE_MAX_NUM : Z := 128.
(** [usb_device.h:32-32] [USB_CONFIG_MAX_NUM] *)
Definition USB_CONFIG_MAX_NUM : Z := 128.

Section Codecs.
Context {P : Type} `{Parcel P}.

(** [usb_endpoint.h:52-60] [Marshalling] *)
Definition USBEndpoint_Marshalling (e : USBEndpoint.t) : ST P bool :=
  WriteUint32 (USBEndpoint.address_ e) ;!
  WriteUint32 (USBEndpoint.attributes_ e) ;!
  WriteInt32 (USBEndpoint.interval_ e) ;!
  WriteInt32 (USBEndpoint.maxPacketSize_ e) ;!
  WriteUint8 (USBEndpoint.interfaceId_ e) ;!
  mret true.

(** [usb_endpoint.h:62-74] [Unmarshalling] *)
Definition USBEndpoint_Unmarshalling : ST P USBEndpoint.t :=
  address ← ReadUint32;
  attributes ← ReadUint32;
  interval ← ReadInt32;
  maxPacketSize ← ReadInt32;
  interfaceId ← ReadUint8;
  mret (USBEndpoint.mk address attributes interval maxPacketSize interfaceId).

(** [usb_interface.h:74-90] [Marshalling] *)
Definition UsbInterface_Marshalling (i : UsbInterface.t) : ST P bool :=
  let epCount := u32 (Z.of_nat (length (UsbInterface.endpoints_ i))) in
  WriteInt32 (UsbInterface.id_ i) ;!
  WriteInt32 (UsbInterface.protocol_ i) ;!
  WriteInt32 (UsbInterface.klass_ i) ;!
  WriteInt32 (UsbInterface.subClass_ i) ;!
  WriteInt32 (UsbInterface.alternateSetting_ i) ;!
  WriteString (UsbInterface.name_ i) ;!
  WriteUint8 (UsbInterface.iInterface_ i) ;!
  WriteUint32 epCount ;!
  (write_each USBEndpoint_Marshalling
     (upto epCount USB_ENDPOINT_MAX_NUM (UsbInterface.endpoints_ i)) ;;
   mret true).

(** [usb_interface.h:92-118] [Unmarshalling] *)
Definition UsbInterface_Unmarshalling : ST P UsbInterface.t :=
  id ← ReadInt32;
  protocol ← ReadInt32;
  klass ← ReadInt32;
  subClass ← ReadInt32;
  alternateSetting ← ReadInt32;
  name ← ReadString;
  iInterface ← ReadUint8;
  epCount ← ReadUint32;
  endpoints ← read_n (Z.to_nat (Z.min epCount USB_ENDPOINT_MAX_NUM)) USBEndpoint_Unmarshalling;
  mret (UsbInterface.mk id protocol klass subClass alternateSetting name endpoints iInterface
          (UsbInterface.authorized_ UsbInterface.default)).

(** [usb_config.h:70-85] [Marshalling] *)
Definition USBConfig_Marshalling (c : USBConfig.t) : ST P bool :=
  let infCount := u32 (Z.of_nat (length (USBConfig.interfaces_ c))) in
  WriteInt32 (USBConfig.id_ c) ;!
  WriteUint32 (USBConfig.attributes_ c) ;!
  WriteInt32 (USBConfig.maxPower_ c) ;!
  WriteUint8 (USBConfig.iConfiguration_ c) ;!
  WriteString (USBConfig.name_ c) ;!
  WriteUint32 infCount ;!
  (write_each UsbInterface_Marshalling
     (upto infCount USB_INTERFACE_MAX_NUM (USBConfig.interfaces_ c)) ;;
   mret true).

(** [usb_config.h:87-112] [Unmarshalling] *)
Definition USBConfig_Unmarshalling : ST P USBConfig.t :=
  id ← ReadInt32;
  attributes ← ReadUint32;
  maxPower ← ReadInt32;
  iConfiguration ← ReadUint8;
  name ← ReadString;
  infCount ← ReadUint32;
  interfaces ← read_n (Z.to_nat (Z.min infCount USB_INTERFACE_MAX_NUM)) UsbInterface_Unmarshalling;
  mret (USBConfig.mk id attributes interfaces maxPower name iConfiguration).

(** [usb_device.h:59-86] [Marshalling] the count is an [uint32_t] written with [WriteInt32] *)
Definition UsbDevice_Marshalling (d : UsbDevice.t) : ST P bool :=
  let configCount := u32 (Z.of_nat (length (UsbDevice.configs_ d))) in
  WriteUint8 (UsbDevice.busNum_ d) ;!
  WriteUint8 (UsbDevice.devAddr_ d) ;!
  WriteInt32 (UsbDevice.vendorId_ d) ;!
  WriteInt32 (UsbDevice.productId_ d) ;!
  WriteInt32 (UsbDevice.baseClass_ d) ;!
  WriteInt32 (UsbDevice.subClass_ d) ;!
  WriteInt32 (UsbDevice.protocol_ d) ;!
  WriteUint8 (UsbDevice.iManufacturer_ d) ;!
  WriteUint8 (UsbDevice.iProduct_ d) ;!
  WriteUint8 (UsbDevice.iSerialNumber_ d) ;!
  WriteUint8 (UsbDevice.bMaxPacketSize0_ d) ;!
  WriteUint16 (UsbDevice.bcdUSB_ d) ;!
  WriteUint16 (UsbDevice.bcdDevice_ d) ;!
  WriteString (UsbDevice.name_ d) ;!
  WriteString (UsbDevice.manufacturerName_ d) ;!
  WriteString (UsbDevice.productName_ d) ;!
  WriteString (UsbDevice.version_ d) ;!
  WriteString (UsbDevice.serial_ d) ;!
  WriteInt32 (i32 configCount) ;!
  (write_each USBConfig_Marshalling
     (upto configCount USB_CONFIG_MAX_NUM (UsbDevice.configs_ d)) ;;
   mret true).

(** [usb_device.h:88-125] [Unmarshalling] *)
Definition UsbDevice_Unmarshalling : ST P UsbDevice.t :=
  busNum ← ReadUint8;
  devAddr ← ReadUint8;
  vendorId ← ReadInt32;
  productId ← ReadInt32;
  baseClass ← ReadInt32;
  subClass ← ReadInt32;
  protocol ← ReadInt32;
  iManufacturer ← ReadUint8;
  iProduct ← ReadUint8;
  iSerialNumber ← ReadUint8;
  bMaxPacketSize0 ← ReadUint8;
  bcdUSB ← ReadUint16;
  bcdDevice ← ReadUint16;
  name ← ReadString;
  manufacturerName ← ReadString;
  productName ← ReadString;
  version ← ReadString;
  serial ← ReadString;
  configCount ← ReadUint32;
  configs ← read_n (Z.to_nat (Z.min configCount USB_CONFIG_MAX_NUM)) USBConfig_Unmarshalling;
  mret (UsbDevice.mk name manufacturerName productName version serial
          (UsbDevice.authorizeStatus_ UsbDevice.default) devAddr busNum
          (UsbDevice.descConfigCount_ UsbDevice.default) bMaxPacketSize0 bcdUSB bcdDevice
          iManufacturer iProduct iSerialNumber vendorId productId baseClass subClass protocol
          configs).
End Codecs.

(** ** The wire format *)
Definition USBEndpoint_items (e : USBEndpoint.t) : list pitem :=
  [PW32 (USBEndpoint.address_ e); PW32 (USBEndpoint.attributes_ e);
   PW32 (u32 (USBEndpoint.interval_ e)); PW32 (u32 (USBEndpoint.maxPacketSize_ e));
   PU8 (USBEndpoint.interfaceId_ e)].

Definition UsbInterface_items (i : UsbInterface.t) : list pitem :=
  let n := u32 (Z.of_nat (length (UsbInterface.endpoints_ i))) in
  [PW32 (u32 (UsbInterface.id_ i)); PW32 (u32 (UsbInterface.protocol_ i));
   PW32 (u32 (UsbInterface.klass_ i)); PW32 (u32 (UsbInterface.subClass_ i));
   PW32 (u32 (UsbInterface.alternateSetting_ i)); PStr (UsbInterface.name_ i);
   PU8 (UsbInterface.iInterface_ i); PW32 n] ++
  concat (USBEndpoint_items <$> upto n USB_ENDPOINT_MAX_NUM (UsbInterface.endpoints_ i)).

Definition USBConfig_items (c : USBConfig.t) : list pitem :=
  let n := u32 (Z.of_nat (length (USBConfig.interfaces_ c))) in
  [PW32 (u32 (USBConfig.id_ c)); PW32 (USBConfig.attributes_ c);
   PW32 (u32 (USBConfig.maxPower_ c)); PU8 (USBConfig.iConfiguration_ c);
   PStr (USBConfig.name_ c); PW32 n] ++
  concat (UsbInterface_items <$> upto n USB_INTERFACE_MAX_NUM (USBConfig.interfaces_ c)).

Definition UsbDevice_items (d : UsbDevice.t) : list pitem :=
  let n := u32 (Z.of_nat (length (UsbDevice.configs_ d))) in
  [PU8 (UsbDevice.busNum_ d); PU8 (UsbDevice.devAddr_ d);
   PW32 (u32 (UsbDevice.vendorId_ d)); PW32 (u32 (UsbDevice.productId_ d));
   PW32 (u32 (UsbDevice.baseClass_ d)); PW32 (u32 (UsbDevice.subClass_ d));
   PW32 (u32 (UsbDevice.protocol_ d)); PU8 (UsbDevice.iManufacturer_ d);
   PU8 (UsbDevice.iProduct_ d); PU8 (UsbDevice.iSerialNumber_ d);
   PU8 (UsbDevice.bMaxPacketSize0_ d); PU16 (UsbDevice.bcdUSB_ d);
   PU16 (UsbDevice.bcdDevice_ d); PStr (UsbDevice.name_ d);
   PStr (UsbDevice.manufacturerName_ d); PStr (UsbDevice.productName_ d);
   PStr (UsbDevice.version_ d); PStr (UsbDevice.serial_ d); PW32 n] ++
  concat (USBConfig_items <$> upto n USB_CONFIG_MAX_NUM (UsbDevice.configs_ d)).

(** What arrives: every container cut to its limit, and the members that are not
    marshalled at their default values. *)
Definition wire_interface (i : UsbInterface.t) : UsbInterface.t :=
  UsbInterface.set_authorized_ true
    (UsbInterface.set_endpoints_ (take 128 (UsbInterface.endpoints_ i)) i).
Definition wire_config (c : USBConfig.t) : USBConfig.t :=
  USBConfig.set_interfaces_ (wire_interface <$> take 128 (USBConfig.interfaces_ c)) c.
Definition wire_device (d : UsbDevice.t) : UsbDevice.t :=
  UsbDevice.set_authorizeStatus_ ENABLED (UsbDevice.set_descConfigCount_ UINT8_MAX
    (UsbDevice.set_configs_ (wire_config <$> take 128 (UsbDevice.configs_ d)) d)).

(** Every integer member holds a value of its C++ type. *)
Definition typed_endpoint (e : USBEndpoint.t) : Prop :=
  is_i32 (USBEndpoint.interval_ e) ∧ is_i32 (USBEndpoint.maxPacketSize_ e).
Definition typed_interface (i : UsbInterface.t) : Prop :=
  is_i32 (UsbInterface.id_ i) ∧ is_i32 (UsbInterface.protocol_ i) ∧
  is_i32 (UsbInterface.klass_ i) ∧ is_i32 (UsbInterface.subClass_ i) ∧
  is_i32 (UsbInterface.alternateSetting_ i) ∧
  is_u32 (Z.of_nat (length (UsbInterface.endpoints_ i))) ∧
  Forall typed_endpoint (UsbInterface.endpoints_ i).
Definition typed_config (c : USBConfig.t) : Prop :=
  is_i32 (USBConfig.id_ c) ∧ is_i32 (USBConfig.maxPower_ c) ∧
  is_u32 (Z.of_nat (length (USBConfig.interfaces_ c))) ∧
  Forall typed_interface (USBConfig.interfaces_ c).
Definition typed_device (d : UsbDevice.t) : Prop :=
  is_i32 (UsbDevice.vendorId_ d) ∧ is_i32 (UsbDevice.productId_ d) ∧
  is_i32 (UsbDevice.baseClass_ d) ∧ is_i32 (UsbDevice.subClass_ d) ∧
  is_i32 (UsbDevice.protocol_ d) ∧
  is_u32 (Z.of_nat (length (UsbDevice.configs_ d))) ∧
  Forall typed_config (UsbDevice.configs_ d).

(** ** Composing specifications *)
Section Rules.
Context {P : Type} (contents : P → list pitem).

Lemma writes_seq m k xs ys :
  writes contents m xs → writes contents k ys → writes contents (m ;! k) (xs ++ ys).
Proof.
  intros Hm Hk p. unfold or_return_false, result, after. rewrite bind_unfold.
  destruct (Hm p) as [Hb Hc]. unfold result, after in *. rewrite Hb.
  destruct (Hk (m p).2) as [Hb' Hc']. unfold result, after in *.
  split; [done|]. by rewrite Hc', Hc, app_assoc.
Qed.

Lemma writes_true : writes contents (mret true) [].
Proof. intros p. split; [done|]. by rewrite app_nil_r. Qed.

Lemma writes_after_loop m k xs ys :
  appends contents m xs → writes contents k ys → writes contents (m ;; k) (xs ++ ys).
Proof.
  intros Hm Hk p. unfold result, after. rewrite bind_unfold.
  destruct (Hk (m p).2) as [Hb Hc]. specialize (Hm p). unfold result, after in *.
  split; [done|]. by rewrite Hc, Hm, app_assoc.
Qed.

Lemma appends_each {A} (f : A → ST P bool) (g : A → list pitem) l :
  (∀ x, writes contents (f x) (g x)) → appends contents (write_each f l) (concat (g <$> l)).
Proof.
  unfold write_each, appends, after. intros Hf.
  induction l as [|x l IH]; intros p; cbn [mfor]; [by rewrite app_nil_r|].
  rewrite !bind_unfold. destruct (Hf x p) as [_ Hc]. unfold after in Hc.
  specialize (IH (f x p).2). cbn. rewrite IH, Hc. by rewrite app_assoc.
Qed.

Lemma reads_ret {A} (a : A) : reads contents (mret a) [] a.
Proof. by intros p rest Hp. Qed.

Lemma reads_bind {A B} (m : ST P A) (f : A → ST P B) xs ys a b :
  reads contents m xs a → reads contents (f a) ys b → reads contents (m ≫= f) (xs ++ ys) b.
Proof.
  intros Hm Hf p rest Hp. rewrite <- app_assoc in Hp.
  destruct (Hm _ _ Hp) as [Ha Hc]. unfold result, after in *. rewrite bind_unfold, Ha.
  by apply Hf.
Qed.

Lemma reads_one {A B} (m : ST P A) (f : A → ST P B) x ys a b :
  reads contents m [x] a → reads contents (f a) ys b → reads contents (m ≫= f) (x :: ys) b.
Proof. apply (reads_bind _ _ [x]). Qed.

Lemma reads_n {A} (m : ST P A) (g : A → list pitem) (w : A → A) l :
  (∀ x, x ∈ l → reads contents m (g x) (w x)) →
  reads contents (read_n (length l) m) (concat (g <$> l)) (w <$> l).
Proof.
  induction l as [|x l IH]; intros Hl; simpl; [apply reads_ret|].
  eapply reads_bind; [apply Hl; left|].
  rewrite <- (app_nil_r (concat _)). eapply reads_bind.
  - apply IH. intros y Hy. apply Hl. by right.
  - apply reads_ret.
Qed.
End Rules.

(** A count computed as [uint32_t] and written as an [int32_t] is read back intact. *)
Lemma write_count {P} `{Parcel P} (contents : P → list pitem) `{!ReliableParcel P contents} z :
  is_u32 z → writes contents (WriteInt32 (i32 z)) [PW32 z].
Proof. intros Hz. rewrite <- (u32_i32 z Hz) at 2. apply write_int32. Qed.

(** Compose the specification of a straight-line sequence of writes or reads. *)
Ltac write_steps :=
  repeat first
    [ apply writes_true
    | eapply (writes_seq _ _ _ [_]);
      [ first [ solve [ eapply write_count; [typeclasses eauto | apply u32_range] ] | apply write_uint8 | apply write_uint16 | apply write_uint32
              | apply write_int32 | apply write_string ] | ]
    | eapply writes_after_loop ].

Ltac read_steps :=
  repeat first
    [ apply reads_ret
    | eapply reads_one;
      [ first [ apply read_uint8 | apply read_uint16 | apply read_uint32
              | apply read_int32 | apply read_string ] | ] ].

Section WriteSide.
Context {P : Type} `{Parcel P} (contents : P → list pitem) `{!ReliableParcel P contents}.

Lemma USBEndpoint_writes e : writes contents (USBEndpoint_Marshalling e) (USBEndpoint_items e).
Proof. unfold USBEndpoint_Marshalling, USBEndpoint_items. write_steps. Qed.

Lemma UsbInterface_writes i :
  writes contents (UsbInterface_Marshalling i) (UsbInterface_items i).
Proof.
  unfold UsbInterface_Marshalling, UsbInterface_items.
  rewrite <- (app_nil_r (concat _)). simpl. write_steps. apply appends_each, USBEndpoint_writes.
Qed.

Lemma USBConfig_writes c : writes contents (USBConfig_Marshalling c) (USBConfig_items c).
Proof.
  unfold USBConfig_Marshalling, USBConfig_items.
  rewrite <- (app_nil_r (concat _)). simpl. write_steps. apply appends_each, UsbInterface_writes.
Qed.

Lemma UsbDevice_writes d : writes contents (UsbDevice_Marshalling d) (UsbDevice_items d).
Proof.
  unfold UsbDevice_Marshalling, UsbDevice_items.
  rewrite <- (app_nil_r (concat _)). simpl. write_steps. apply appends_each, USBConfig_writes.
Qed.
End WriteSide.

Section ReadSide.
Context {P : Type} `{Parcel P} (contents : P → list pitem) `{!ParcelLaws P contents}.

Lemma upto_take {A} (max : nat) (l : list A) :
  is_u32 (Z.of_nat (length l)) →
  upto (u32 (Z.of_nat (length l))) (Z.of_nat max) l = take max l ∧
  Z.to_nat (Z.min (u32 (Z.of_nat (length l))) (Z.of_nat max)) = length (take max l).
Proof.
  intros Hl. rewrite u32_id by done. unfold upto. rewrite length_take.
  destruct (decide (length l <= max)%nat) as [Hle|Hgt].
  - rewrite !take_ge by lia. split; [done|lia].
  - split; [f_equal; lia|lia].
Qed.

Lemma USBEndpoint_reads e :
  typed_endpoint e → reads contents USBEndpoint_Unmarshalling (USBEndpoint_items e) e.
Proof.
  intros [Hi Hm]. unfold USBEndpoint_Unmarshalling, USBEndpoint_items. read_steps.
  rewrite !i32_u32 by done. destruct e. apply reads_ret.
Qed.

(** The read of a container whose count was read before, and what the object is built from afterwards. *)
Lemma reads_counted {A B} (m : ST P A) (g : A → list pitem) (w : A → A) (l : list A)
    (k : list A → ST P B) b :
  is_u32 (Z.of_nat (length l)) →
  (∀ x, x ∈ l → reads contents m (g x) (w x)) →
  (reads contents (k (w <$> take 128 l)) [] b) →
  reads contents
    (xs ← read_n (Z.to_nat (Z.min (u32 (Z.of_nat (length l))) 128)) m; k xs)
    (concat (g <$> upto (u32 (Z.of_nat (length l))) 128 l)) b.
Proof.
  intros Hl Hm Hk. destruct (upto_take 128 l Hl) as [Hu Hn].
  change (Z.of_nat 128) with 128 in *.
  rewrite Hu, Hn.
  rewrite <- (app_nil_r (concat _)). eapply reads_bind; [|exact Hk].
  apply reads_n. intros x Hx. apply Hm. by apply elem_of_take in Hx as (i & Hx%list_elem_of_lookup_2 & _).
Qed.

Lemma UsbInterface_reads i :
  typed_interface i →
  reads contents UsbInterface_Unmarshalling (UsbInterface_items i) (wire_interface i).
Proof.
  intros (Hid & Hpr & Hkl & Hsu & Hal & Hn & He).
  unfold UsbInterface_Unmarshalling, UsbInterface_items. simpl. read_steps.
  apply (reads_counted _ USBEndpoint_items id (UsbInterface.endpoints_ i)); [done| |].
  - intros x Hx. apply USBEndpoint_reads. by eapply Forall_forall in He.
  - rewrite !i32_u32, list_fmap_id by done. destruct i. apply reads_ret.
Qed.

Lemma USBConfig_reads c :
  typed_config c → reads contents USBConfig_Unmarshalling (USBConfig_items c) (wire_config c).
Proof.
  intros (Hid & Hp & Hn & Hi).
  unfold USBConfig_Unmarshalling, USBConfig_items. simpl. read_steps.
  apply (reads_counted _ UsbInterface_items wire_interface (USBConfig.interfaces_ c)); [done| |].
  - intros x Hx. apply UsbInterface_reads. by eapply Forall_forall in Hi.
  - rewrite !i32_u32 by done. destruct c. apply reads_ret.
Qed.

Lemma UsbDevice_reads d :
  typed_device d → reads contents UsbDevice_Unmarshalling (UsbDevice_items d) (wire_device d).
Proof.
  intros (H1 & H2 & H3 & H4 & H5 & Hn & Hc).
  unfold UsbDevice_Unmarshalling, UsbDevice_items. simpl. read_steps.
  apply (reads_counted _ USBConfig_items wire_config (UsbDevice.configs_ d)); [done| |].
  - intros x Hx. apply USBConfig_reads. by eapply Forall_forall in Hc.
  - rewrite !i32_u32 by done. destruct d. apply reads_ret.
Qed.
End ReadSide.

Section DeviceRoundTrip.
Context {P : Type} `{Parcel P} (contents : P → list pitem)
  `{!ParcelLaws P contents} `{!ReliableParcel P contents}.

(** C38: a device that the service marshals into an empty parcel is unmarshalled by the
    client as the same device, with every container cut to its first 128 elements, the
    parcel fully consumed, and the authorization status and descriptor count (which are
    not marshalled) at their defaults. *)
Theorem UsbDevice_roundtrip (d : UsbDevice.t) (p : P)
    (Hd : typed_device d) (Hp : contents p = []) :
  result (UsbDevice_Marshalling d) p = true ∧
  result UsbDevice_Unmarshalling (after (UsbDevice_Marshalling d) p) = wire_device d ∧
  contents (after UsbDevice_Unmarshalling (after (UsbDevice_Marshalling d) p)) = [].
Proof.
  destruct (UsbDevice_writes contents d p) as [Hw Hc]. split; [done|].
  apply (UsbDevice_reads contents d Hd). by rewrite Hc, Hp, app_nil_r.
Qed.

(** The limits are the only loss: a device within them arrives as it was sent. *)
Definition fits_interface (i : UsbInterface.t) : Prop :=
  (length (UsbInterface.endpoints_ i) <= 128)%nat ∧ UsbInterface.authorized_ i = true.
Definition fits_config (c : USBConfig.t) : Prop :=
  (length (USBConfig.interfaces_ c) <= 128)%nat ∧ Forall fits_interface (USBConfig.interfaces_ c).
Definition fits_device (d : UsbDevice.t) : Prop :=
  (length (UsbDevice.configs_ d) <= 128)%nat ∧ Forall fits_config (UsbDevice.configs_ d) ∧
  UsbDevice.authorizeStatus_ d = ENABLED ∧ UsbDevice.descConfigCount_ d = UINT8_MAX.

Lemma fmap_fix {A} (f : A → A) (Q : A → Prop) l :
  (∀ x, Q x → f x = x) → Forall Q l → f <$> l = l.
Proof. intros Hf. induction 1 as [|x l Hx _ IH]; [done|]. by rewrite fmap_cons, Hf, IH. Qed.

Lemma wire_interface_fits i : fits_interface i → wire_interface i = i.
Proof. intros [Hl Ha]. unfold wire_interface. rewrite take_ge by done. destruct i. simpl in *. by subst. Qed.

Lemma wire_config_fits c : fits_config c → wire_config c = c.
Proof.
  intros [Hl Hi]. unfold wire_config. rewrite take_ge by done.
  rewrite (fmap_fix _ _ _ wire_interface_fits Hi). by destruct c.
Qed.

Lemma wire_device_fits d : fits_device d → wire_device d = d.
Proof.
  intros (Hl & Hc & Ha & Hn). unfold wire_device. rewrite take_ge by done.
  rewrite (fmap_fix _ _ _ wire_config_fits Hc). destruct d. simpl in *. by subst.
Qed.

(** Within the 128-element limits, and with the members that are not marshalled at
    their defaults, a device survives the trip to the client unchanged. *)
Theorem UsbDevice_roundtrip_exact (d : UsbDevice.t) (p : P)
    (Hd : typed_device d) (Hf : fits_device d) (Hp : contents p = []) :
  result UsbDevice_Unmarshalling (after (UsbDevice_Marshalling d) p) = d.
Proof.
  destruct (UsbDevice_writes contents d p) as [_ Hc].
  destruct (UsbDevice_reads contents d Hd _ [] ltac:(by rewrite Hc, Hp, app_nil_r)) as [-> _].
  by apply wire_device_fits.
Qed.
End DeviceRoundTrip.

(** ** A concrete parcel: the list of what it holds *)
Definition pop {A} (f : pitem → option A) (d : A) : ST (list pitem) A :=
  λ p, match p with
       | x :: p' => match f x with Some a => (a, p') | None => (d, p) end
       | [] => (d, p)
       end.
Definition push (x : pitem) : ST (list pitem) bool := λ p, (true, p ++ [x]).

#[export] Instance list_parcel : Parcel (list pitem) := {
  WriteUint8 z := push (PU8 z);
  WriteUint16 z := push (PU16 z);
  WriteUint32 z := push (PW32 z);
  WriteInt32 z := push (PW32 (u32 z));
  WriteString s := push (PStr s);
  ReadUint8 := pop (λ x, match x with PU8 z => Some z | _ => None end) 0;
  ReadUint16 := pop (λ x, match x with PU16 z => Some z | _ => None end) 0;
  ReadUint32 := pop (λ x, match x with PW32 z => Some z | _ => None end) 0;
  ReadInt32 := pop (λ x, match x with PW32 z => Some (i32 z) | _ => None end) 0;
  ReadString := pop (λ x, match x with PStr s => Some s | _ => None end) "";
}.

#[export] Instance list_parcel_laws : ParcelLaws (list pitem) id.
Proof. constructor; intros z p rest Hp; simpl in Hp; by rewrite Hp. Qed.
#[export] Instance list_parcel_reliable : ReliableParcel (list pitem) id.
Proof. by constructor. Qed.

Definition sample_device : UsbDevice.t :=
  UsbDevice.mk "1-2" "vendor" "disk" "1.0" "serial" NEW_ARRIVED 2 1 1 64 512 256 1 2 3
    1921 21905 0 0 0
    [USBConfig.mk 1 128
       [UsbInterface.mk 0 80 8 6 0 "storage" [USBEndpoint.mk 129 2 0 512 0] 0 false] 250 "" 0].

Lemma sample_device_typed : typed_device sample_device.
Proof.
  unfold typed_device, typed_config, typed_interface, typed_endpoint.
  repeat (split || constructor); simpl; width_lia.
Qed.

Lemma UsbDevice_roundtrip_witness :
  result (S := list pitem) UsbDevice_Unmarshalling (after (UsbDevice_Marshalling sample_device) []) =
    wire_device sample_device.
Proof.
  apply (UsbDevice_roundtrip (P := list pitem) id sample_device []); [apply sample_device_typed|].
  reflexivity.
Defined.

Definition sample_plain_device : UsbDevice.t := wire_device sample_device.

Lemma UsbDevice_roundtrip_exact_witness :
  result (S := list pitem) UsbDevice_Unmarshalling
    (after (UsbDevice_Marshalling sample_plain_device) []) = sample_plain_device.
Proof.
  apply (UsbDevice_roundtrip_exact (P := list pitem) id sample_plain_device []).
  - unfold typed_device, typed_config, typed_interface, typed_endpoint.
    repeat (split || constructor); simpl; width_lia.
  - unfold fits_device, fits_config, fits_interface.
    repeat (split || constructor); simpl; try lia; reflexivity.
  - reflexivity.
Defined.
