(* ===== verification/Interfaces.v ===== *)
(** * Interfaces between the components

    What the components of the service use of each other and of the platform.  A class
    holds the operations over an abstract state; a class of laws, where one is needed,
    holds their documented behaviour.  [FunctionWindow] and [NotifierOps] are implemented
    by components of this development ([FunctionSwitchWindow], [ConnectionNotifier]); the
    others stand for libraries and drivers outside the repository. *)

From S2P Require Import Prelude.

#[local] Set Default Goal Selector "!".

(** The gadget driver interface ([IUsbDeviceInterface]). *)
Class DeviceHdi (H : Type) := {
  (** the out-parameter's old value; the result code and its new value *)
  hdi_GetCurrentFunctions : Z → ST H (Z * Z);
  hdi_SetCurrentFunctions : Z → ST H Z;
  hdi_BindUsbdDeviceSubscriber : ST H Z;
  hdi_UnbindUsbdDeviceSubscriber : ST H Z;
}.

(** The accessory part of the same driver: the accessory's strings (empty when the call
    fails), and its file. *)
Class AccessoryHdi (H : Type) `{DeviceHdi H} := {
  hdi_GetAccessoryInfo : ST H (list string);
  (** the out-parameter's old value; the result code and its new value *)
  hdi_OpenAccessory : Z → ST H (Z * Z);
  hdi_CloseAccessory : Z → ST H Z;
}.

(** The function-choice window ([UsbFunctionSwitchWindow]). *)
Class FunctionWindow (Win : Type) := {
  window_Init : ST Win Z;
  window_PopUp : ST Win bool;
  window_Dismiss : ST Win bool;
}.

(** The notification service of the daemon ([UsbConnectionNotifier]). *)
Class NotifierOps (N : Type) := {
  notify_Send : string → ST N unit;
  notify_Cancel : bool → ST N unit;
  notify_SendHdc : ST N unit;
  notify_CancelHdc : ST N unit;
}.

(** The statuses the gadget driver reports. *)
(** [usbd_type.h:21-29] [UsbdDeviceAction] *)
Definition ACT_DEVUP : Z := 0.
Definition ACT_DEVDOWN : Z := 1.
Definition ACT_UPDEVICE : Z := 2.
Definition ACT_DOWNDEVICE : Z := 3.
Definition ACT_ACCESSORYUP : Z := 4.
Definition ACT_ACCESSORYDOWN : Z := 5.
Definition ACT_ACCESSORYSEND : Z := 6.

(** The notification names of [usb_connection_notifier.h]. *)
Definition USB_FUNC_CHARGE : string := "USB_func_charge_notifier".
Definition USB_FUNC_MTP : string := "USB_func_mtp_notifier".
Definition USB_FUNC_PTP : string := "USB_func_ptp_notifier".
Definition USB_FUNC_MORE : string := "USB_func_more_notifier".
Definition USB_HDC_NOTIFIER_TITLE : string := "USB_hdc_notifier_title".
Definition USB_HDC_NOTIFIER_CONTENT : string := "USB_hdc_notifier_content".
Definition USB_FUNC_REVERSE_CHARGE : string := "USB_func_charge_connected_notifier".

(** The timer library: a registered one-shot task stays pending under a fresh identifier
    until it is unregistered or fires. *)
Class Timers (T Task : Type) := {
  pending : T → gmap Z Task;
  timer_Register : Task → Z → bool → ST T Z;
  timer_Unregister : Z → ST T unit;
}.

Class TimerLaws (T Task : Type) `{Timers T Task} := {
  register_fresh task delay once t :
    pending t !! result (timer_Register task delay once) t = None;
  register_pending task delay once t :
    pending (after (timer_Register task delay once) t) =
      <[result (timer_Register task delay once) t := task]> (pending t);
  unregister_pending id t :
    pending (after (timer_Unregister id) t) = delete id (pending t);
}.

(** The use of a notifier's HDC notification: [R b] are the notifier's states in which it is
    shown ([b]) or not.  A notifier that satisfies this class can rely on being asked to
    show only when it is not shown, and to cancel only when it is. *)
Class HdcProtocol (N : Type) `{NotifierOps N} (R : bool → N → Prop) := {
  send_keeps b name n : name ≠ ""%string → R b n → R b (after (notify_Send name) n);
  cancel_keeps b isHost n : R b n → R b (after (notify_Cancel isHost) n);
  send_hdc_shows n : R false n → R true (after notify_SendHdc n);
  cancel_hdc_hides n : R true n → R false (after notify_CancelHdc n);
}.

(** The use of a function-choice window: [R c] are the window's states allowed while the
    device is connected ([c]) or not.  A window that satisfies this class can rely on being
    popped up only while the device is connected, and dismissed when it no longer is. *)
Class WindowProtocol (Win : Type) `{FunctionWindow Win} (R : bool → Win → Prop) := {
  plug_in w : R false w → R true w;
  pop_up_keeps w : R true w → R true (after window_PopUp w);
  dismiss_any c c' w : R c w → R c' (after window_Dismiss w);
  window_init_keeps c w : R c w → R c (after window_Init w);
}.

Section TimerRuns.
Context {T Task : Type} `{TimerLaws T Task}.

Lemma unregister_run id (t : T) :
  ∃ t', timer_Unregister id t = (tt, t') ∧ pending t' = delete id (pending t).
Proof.
  exists (after (timer_Unregister id) t). rewrite unregister_pending.
  unfold after. by destruct (timer_Unregister id t) as [[] t'].
Qed.

Lemma register_run task delay once (t : T) :
  ∃ id t', timer_Register task delay once t = (id, t') ∧ pending t !! id = None ∧
    pending t' = <[id := task]> (pending t).
Proof.
  exists (result (timer_Register task delay once) t), (after (timer_Register task delay once) t).
  rewrite register_fresh, register_pending. unfold result, after.
  by destruct (timer_Register task delay once t).
Qed.
End TimerRuns.

(** The port driver interface ([IUsbPortInterface]). *)
Class PortHdi (H : Type) (PortInfo : Type) := {
  hdi_SetPortRole : Z → Z → Z → ST H Z;
  hdi_QueryPorts : ST H (Z * list PortInfo);
  hdi_BindUsbdPortSubscriber : ST H Z;
  hdi_UnbindUsbdPortSubscriber : ST H Z;
}.

(** The system parameters ([OHOS::system]). *)
Class SystemParams (Sys : Type) := {
  GetBoolParameter : string → bool → Sys → bool;
  GetStringParameter : string → string → Sys → string;
  SetParameter : string → string → ST Sys bool;
}.

(** [std::string::find(needle) != npos] *)
Fixpoint str_contains (needle s : string) : bool :=
  String.prefix needle s ||
  match s with
  | EmptyString => false
  | String _ s => str_contains needle s
  end.

(** Two concrete instances used for evaluation: a timer whose identifiers count up, and
    a parameter store that is a finite map. *)
Record counting_timers (Task : Type) := CountingTimers {
  ct_next : positive; ct_pending : gmap Z Task }.
Arguments CountingTimers {Task}.
Arguments ct_next {Task}.
Arguments ct_pending {Task}.

Section CountingTimers.
Context {Task : Type}.

(** The identifier registered next is above every pending one. *)
Definition ct_fresh (t : counting_timers Task) : Z :=
  Z.max (Z.pos (ct_next t)) (map_fold (λ id _ acc, Z.max (id + 1) acc) 0 (ct_pending t)).

#[export] Instance ct_timers : Timers (counting_timers Task) Task := {
  pending := ct_pending;
  timer_Register task _ _ := λ t,
    (ct_fresh t, CountingTimers (ct_next t) (<[ct_fresh t := task]> (ct_pending t)));
  timer_Unregister id := λ t, (tt, CountingTimers (ct_next t) (delete id (ct_pending t)));
}.

Lemma ct_fresh_above (t : counting_timers Task) id task :
  ct_pending t !! id = Some task → id < ct_fresh t.
Proof.
  intros Hid. unfold ct_fresh. apply Z.lt_le_trans with (id + 1); [lia|].
  etrans; [|apply Z.le_max_r]. revert id task Hid.
  refine (map_fold_weak_ind (λ acc m, ∀ id task, m !! id = Some task → id + 1 <= acc) _ _ _ _ _).
  - intros id task. by rewrite lookup_empty.
  - intros i x m acc _ IH id task. rewrite lookup_insert. case_decide; [subst; lia|].
    intros Hid%IH. lia.
Qed.

#[export] Instance ct_timer_laws : TimerLaws (counting_timers Task) Task.
Proof.
  constructor; [|done..]. intros task delay once t.
  destruct (ct_pending t !! ct_fresh t) eqn:E; [|exact E].
  apply ct_fresh_above in E. lia.
Qed.
End CountingTimers.

#[export] Instance map_params : SystemParams (gmap string string) := {
  GetBoolParameter key def sys :=
    match sys !! key with Some "true" => true | Some "false" => false | _ => def end;
  GetStringParameter key def sys := default def (sys !! key);
  SetParameter key v := λ sys, (true, <[key := v]> sys);
}.
