(* ===== verification/DeviceManager.v ===== *)
(** * The device-mode manager

    [services/native/src/usb_device_manager.cpp], the build with [USB_MANAGER_V2_0]: which
    gadget functions the device exposes, the debounced connection state, the notifications
    and the function window that follow from them.

    The driver, the timer, the function window and the connection notifier are used through
    the classes of [Interfaces].  Events published to the system are recorded in [log],
    oldest first. *)

From Stdlib Require Import Ascii.
From stdpp Require Import pretty.
From S2P Require Import Prelude Text UsbErrors UsbTypes Interfaces.

#[local] Set Default Goal Selector "!".

(** ** Functions and their names *)
(** [usb_device_manager.cpp:42-53] [FUNCTION_MAPPING_N2C] in the order of the [std::map], by name *)
Definition FUNCTION_MAPPING_N2C : list (string * Z) :=
  [("acm", FUNCTION_ACM); ("devmode_auth", FUNCTION_DEVMODE_AUTH); ("ecm", FUNCTION_ECM);
   ("hdc", FUNCTION_HDC); ("mtp", FUNCTION_MTP); ("ncm", FUNCTION_NCM);
   ("none", FUNCTION_NONE); ("ptp", FUNCTION_PTP); ("rndis", FUNCTION_RNDIS);
   ("storage", FUNCTION_STORAGE)].

(** [usb_device_manager.h:83-85] [functionSettable_] *)
Definition functionSettable_ : Z :=
  Z.lor FUNCTION_HDC (Z.lor FUNCTION_ACM (Z.lor FUNCTION_ECM (Z.lor FUNCTION_MTP
    (Z.lor FUNCTION_PTP (Z.lor FUNCTION_RNDIS (Z.lor FUNCTION_NCM FUNCTION_STORAGE)))))).

(** The macros of [usb_device_manager.h]; a complement of an [int] macro is an [int]. *)
Definition USB_FUNCTION_HDC : Z := Z.shiftl 1 2.
Definition USB_FUNCTION_MTP : Z := Z.shiftl 1 3.
Definition USB_FUNCTION_PTP : Z := Z.shiftl 1 4.
Definition USB_FUNCTION_STORAGE : Z := Z.shiftl 1 9.
Definition USB_FUNCTION_DEVMODE_AUTH : Z := Z.shiftl 1 12.

(** [static_cast<uint32_t>(f) & bit] is not zero. *)
Definition has_func (f bit : Z) : bool := negb (Z.land (u32 f) bit =? 0).

(** [usb_device_manager.cpp:232-236] [UsbDeviceManager::IsSettableFunctions] *)
Definition IsSettableFunctions (funcs : Z) : bool :=
  (u32 funcs =? FUNCTION_NONE) ||
  (Z.land (u32 (Z.lnot functionSettable_)) (u32 funcs) =? 0).

(** [std::string_view::find(",", pos)] and [substr(pos, n)]. *)
Definition find_comma (s : string) (pos : nat) : option nat := String.index pos "," s.
Definition substr (s : string) (pos n : nat) : string := String.substring pos n s.

(** [usb_device_manager.cpp:249-259] [UsbDeviceManager::ConvertFromString] the split loop; every round moves [pos] forward, so the length is fuel enough *)
Fixpoint split_funcs (fuel : nat) (strFun : string) (pos : nat) (vModeStr : list string)
    : list string :=
  match fuel with
  | O => vModeStr
  | S fuel =>
    if decide (pos < String.length strFun)%nat then
      match find_comma strFun pos with
      | None => vModeStr ++ [substr strFun pos (String.length strFun - pos)]
      | Some findPos =>
          split_funcs fuel strFun (findPos + 1) (vModeStr ++ [substr strFun pos (findPos - pos)])
      end
    else vModeStr
  end.

(** [FUNCTION_MAPPING_N2C.find(item)] *)
Definition find_function (item : string) : option Z :=
  snd <$> find (λ p, String.eqb p.1 item) FUNCTION_MAPPING_N2C.

Section Conversions.
Context `{EB : ErrBase}.

(** [usb_device_manager.cpp:261-272] [UsbDeviceManager::ConvertFromString] the names' values, or-ed; the first unknown name is the error *)
Fixpoint or_functions (ret : Z) (items : list string) : Z :=
  match items with
  | [] => ret
  | item :: items =>
      match find_function item with
      | Some f => or_functions (Z.lor ret f) items
      | None => u32 UEC_SERVICE_INVALID_VALUE
      end
  end.

(** [usb_device_manager.cpp:238-273] [UsbDeviceManager::ConvertFromString] *)
Definition ConvertFromString (strFun : string) : Z :=
  if String.eqb strFun "none" then FUNCTION_NONE
  else if decide (String.length strFun = 0)%nat then u32 UEC_SERVICE_INVALID_VALUE
  else or_functions 0 (split_funcs (String.length strFun) strFun 0 []).
End Conversions.

(** [usb_device_manager.cpp:281-290] [UsbDeviceManager::ConvertToString] the loop over the map, with its separator flag *)
Fixpoint append_names (function : Z) (m : list (string * Z)) (stream : string) (flag : bool)
    : string :=
  match m with
  | [] => stream
  | (name, f) :: m =>
      if negb (Z.land function f =? 0) then
        append_names function m
          ((if flag then stream +:+ "," else stream) +:+ name)%string true
      else append_names function m stream flag
  end.

(** [usb_device_manager.cpp:275-293] [UsbDeviceManager::ConvertToString] *)
Definition ConvertToString (function : Z) : string :=
  if (function <=? FUNCTION_NONE) || (functionSettable_ <? function) then "none"
  else append_names function FUNCTION_MAPPING_N2C "" false.

(** [usb_device_manager.cpp:481-490] [UsbDeviceManager::BroadcastFuncChange] the names of the set bits, lowest first; a 32-bit word is empty after 32 rounds *)
Fixpoint bit_params (fuel : nat) (remainderFunc bit : Z) : list string :=
  match fuel with
  | O => []
  | S fuel =>
    if remainderFunc =? 0 then []
    else if negb (Z.land remainderFunc bit =? 0) then
      ConvertToString bit ::
        bit_params fuel (Z.land remainderFunc (u32 (Z.lnot bit))) (u32 (Z.shiftl bit 1))
    else bit_params fuel remainderFunc (u32 (Z.shiftl bit 1))
  end.

(** The parameters [BroadcastFuncChange] sets to [true] for a function word. *)
Definition func_params (currentFunc : Z) : list string := bit_params 32 (u32 currentFunc) 1.

(** ** Reading an integer *)
(** [usb_device_manager.cpp:601-616] [StringToInteger] [None] is [false]; [c_str()] stops at a NUL, which the strings here do not hold *)
Definition StringToInteger (str : string) : option Z :=
  let '(number, errno, rest, consumed) := strtol10 str in
  if (errno : bool) || (number <? INT32_MIN) || (INT32_MAX <? number) then None
  else if negb consumed || negb (String.eqb rest "") then None
  else Some (i32 number).

(** ** The manager's state *)
Definition DELAY_CONNECT_INTERVAL : Z := 1000.
Definition DELAY_DISCONN_INTERVAL : Z := 1400.

(** The two closures [HandleEvent] gives to the timer. *)
Inductive DelayTask := ConnectTask | DisconnectTask.

(** What the manager publishes: its HiSysEvents and the sticky [COMMON_EVENT_USB_STATE]. *)
Inductive Event :=
  | OperationFault (operationType : string) (failReason : Z) (failDescription : string)
  | FunctionChanged (current update : Z)
  | PlugInOut (currentFunctions : Z) (connected : bool)
  | UsbState (connected : bool) (functions : list string).

Section DeviceManager.
Context {H Win N T : Type}.

(** [usb_device_manager.h:86-100] [UsbDeviceManager] the members, the components they reach and the published events *)
Record st := mk_st {
  currentFunctions_ : Z;
  connected_ : bool;
  isReverseCharge_ : bool;
  hasHdcNotifier_ : bool;
  gadgetConnected_ : bool;
  isDisableDialog_ : bool;
  usbDeviceInterface_ : bool;
  delayDisconnTimerId_ : Z;
  phyConnect_ : bool;
  subscribed_ : bool;
  hdi : H;
  window : Win;
  notifier : N;
  timers : T;
  log : list Event;
}.

Definition set_currentFunctions_ (v : Z) (s : st) : st :=
  mk_st v (connected_ s) (isReverseCharge_ s) (hasHdcNotifier_ s) (gadgetConnected_ s) (isDisableDialog_ s) (usbDeviceInterface_ s) (delayDisconnTimerId_ s) (phyConnect_ s) (subscribed_ s) (hdi s) (window s) (notifier s) (timers s) (log s).
Definition set_connected_ (v : bool) (s : st) : st :=
  mk_st (currentFunctions_ s) v (isReverseCharge_ s) (hasHdcNotifier_ s) (gadgetConnected_ s) (isDisableDialog_ s) (usbDeviceInterface_ s) (delayDisconnTimerId_ s) (phyConnect_ s) (subscribed_ s) (hdi s) (window s) (notifier s) (timers s) (log s).
Definition set_isReverseCharge_ (v : bool) (s : st) : st :=
  mk_st (currentFunctions_ s) (connected_ s) v (hasHdcNotifier_ s) (gadgetConnected_ s) (isDisableDialog_ s) (usbDeviceInterface_ s) (delayDisconnTimerId_ s) (phyConnect_ s) (subscribed_ s) (hdi s) (window s) (notifier s) (timers s) (log s).
Definition set_hasHdcNotifier_ (v : bool) (s : st) : st :=
  mk_st (currentFunctions_ s) (connected_ s) (isReverseCharge_ s) v (gadgetConnected_ s) (isDisableDialog_ s) (usbDeviceInterface_ s) (delayDisconnTimerId_ s) (phyConnect_ s) (subscribed_ s) (hdi s) (window s) (notifier s) (timers s) (log s).
Definition set_gadgetConnected_ (v : bool) (s : st) : st :=
  mk_st (currentFunctions_ s) (connected_ s) (isReverseCharge_ s) (hasHdcNotifier_ s) v (isDisableDialog_ s) (usbDeviceInterface_ s) (delayDisconnTimerId_ s) (phyConnect_ s) (subscribed_ s) (hdi s) (window s) (notifier s) (timers s) (log s).
Definition set_isDisableDialog_ (v : bool) (s : st) : st :=
  mk_st (currentFunctions_ s) (connected_ s) (isReverseCharge_ s) (hasHdcNotifier_ s) (gadgetConnected_ s) v (usbDeviceInterface_ s) (delayDisconnTimerId_ s) (phyConnect_ s) (subscribed_ s) (hdi s) (window s) (notifier s) (timers s) (log s).
Definition set_usbDeviceInterface_ (v : bool) (s : st) : st :=
  mk_st (currentFunctions_ s) (connected_ s) (isReverseCharge_ s) (hasHdcNotifier_ s) (gadgetConnected_ s) (isDisableDialog_ s) v (delayDisconnTimerId_ s) (phyConnect_ s) (subscribed_ s) (hdi s) (window s) (notifier s) (timers s) (log s).
Definition set_delayDisconnTimerId_ (v : Z) (s : st) : st :=
  mk_st (currentFunctions_ s) (connected_ s) (isReverseCharge_ s) (hasHdcNotifier_ s) (gadgetConnected_ s) (isDisableDialog_ s) (usbDeviceInterface_ s) v (phyConnect_ s) (subscribed_ s) (hdi s) (window s) (notifier s) (timers s) (log s).
Definition set_phyConnect_ (v : bool) (s : st) : st :=
  mk_st (currentFunctions_ s) (connected_ s) (isReverseCharge_ s) (hasHdcNotifier_ s) (gadgetConnected_ s) (isDisableDialog_ s) (usbDeviceInterface_ s) (delayDisconnTimerId_ s) v (subscribed_ s) (hdi s) (window s) (notifier s) (timers s) (log s).
Definition set_subscribed_ (v : bool) (s : st) : st :=
  mk_st (currentFunctions_ s) (connected_ s) (isReverseCharge_ s) (hasHdcNotifier_ s) (gadgetConnected_ s) (isDisableDialog_ s) (usbDeviceInterface_ s) (delayDisconnTimerId_ s) (phyConnect_ s) v (hdi s) (window s) (notifier s) (timers s) (log s).
Definition set_hdi (v : H) (s : st) : st :=
  mk_st (currentFunctions_ s) (connected_ s) (isReverseCharge_ s) (hasHdcNotifier_ s) (gadgetConnected_ s) (isDisableDialog_ s) (usbDeviceInterface_ s) (delayDisconnTimerId_ s) (phyConnect_ s) (subscribed_ s) v (window s) (notifier s) (timers s) (log s).
Definition set_window (v : Win) (s : st) : st :=
  mk_st (currentFunctions_ s) (connected_ s) (isReverseCharge_ s) (hasHdcNotifier_ s) (gadgetConnected_ s) (isDisableDialog_ s) (usbDeviceInterface_ s) (delayDisconnTimerId_ s) (phyConnect_ s) (subscribed_ s) (hdi s) v (notifier s) (timers s) (log s).
Definition set_notifier (v : N) (s : st) : st :=
  mk_st (currentFunctions_ s) (connected_ s) (isReverseCharge_ s) (hasHdcNotifier_ s) (gadgetConnected_ s) (isDisableDialog_ s) (usbDeviceInterface_ s) (delayDisconnTimerId_ s) (phyConnect_ s) (subscribed_ s) (hdi s) (window s) v (timers s) (log s).
Definition set_timers (v : T) (s : st) : st :=
  mk_st (currentFunctions_ s) (connected_ s) (isReverseCharge_ s) (hasHdcNotifier_ s) (gadgetConnected_ s) (isDisableDialog_ s) (usbDeviceInterface_ s) (delayDisconnTimerId_ s) (phyConnect_ s) (subscribed_ s) (hdi s) (window s) (notifier s) v (log s).
Definition set_log (v : list Event) (s : st) : st :=
  mk_st (currentFunctions_ s) (connected_ s) (isReverseCharge_ s) (hasHdcNotifier_ s) (gadgetConnected_ s) (isDisableDialog_ s) (usbDeviceInterface_ s) (delayDisconnTimerId_ s) (phyConnect_ s) (subscribed_ s) (hdi s) (window s) (notifier s) (timers s) v.

Context `{EB : ErrBase} `{DeviceHdi H} `{FunctionWindow Win} `{NotifierOps N} `{Timers T DelayTask}.

Definition on_hdi {A} (m : ST H A) : ST st A := λ s, let '(a, h) := m (hdi s) in (a, set_hdi h s).
Definition on_window {A} (m : ST Win A) : ST st A :=
  λ s, let '(a, w) := m (window s) in (a, set_window w s).
Definition on_notifier {A} (m : ST N A) : ST st A :=
  λ s, let '(a, n) := m (notifier s) in (a, set_notifier n s).
Definition on_timers {A} (m : ST T A) : ST st A :=
  λ s, let '(a, t) := m (timers s) in (a, set_timers t s).
Definition emit (e : Event) : ST st unit := modify (λ s, set_log (log s ++ [e]) s).

(** [usb_device_manager.cpp:730-737] [UsbDeviceManager::ReportUsbOperationFaultSysEvent] *)
Definition ReportUsbOperationFaultSysEvent (operationType : string) (failReason : Z)
    (failDescription : string) : ST st unit :=
  emit (OperationFault operationType failReason failDescription).

(** [usb_device_manager.cpp:739-745] [UsbDeviceManager::ReportFuncChangeSysEvent] the event carries the member [currentFunctions_], not the parameter *)
Definition ReportFuncChangeSysEvent (currentFunctions updateFunctions : Z) : ST st unit :=
  cur ← gets currentFunctions_; emit (FunctionChanged cur updateFunctions).

(** [usb_device_manager.cpp:747-753] [UsbDeviceManager::ReportDevicePlugSysEvent] *)
Definition ReportDevicePlugSysEvent (currentFunctions : Z) (connected : bool) : ST st unit :=
  emit (PlugInOut currentFunctions connected).

(** [usb_device_manager.cpp:73-91] [UsbDeviceManager::InitUsbDeviceInterface] [get] is what [IUsbDeviceInterface::Get] yields *)
Definition InitUsbDeviceInterface (get : option H) : ST st bool :=
  match get with
  | None => modify (set_usbDeviceInterface_ false) ;; mret false
  | Some h =>
      modify (λ s, set_usbDeviceInterface_ true (set_hdi h s)) ;;
      modify (set_subscribed_ true) ;;
      ret ← on_hdi hdi_BindUsbdDeviceSubscriber;
      mret (ret =? ERR_OK)
  end.

(** [usb_device_manager.cpp:93-101] [UsbDeviceManager::Stop] *)
Definition Stop : ST st unit :=
  present ← gets usbDeviceInterface_;
  if negb present then mret tt
  else on_hdi hdi_UnbindUsbdDeviceSubscriber ;; mret tt.

(** [usb_device_manager.cpp:103-110] [UsbDeviceManager::BindUsbdSubscriber] *)
Definition BindUsbdSubscriber : ST st Z :=
  present ← gets usbDeviceInterface_;
  if negb present then mret UEC_SERVICE_INVALID_VALUE
  else on_hdi hdi_BindUsbdDeviceSubscriber.

(** [usb_device_manager.cpp:112-119] [UsbDeviceManager::UnbindUsbdSubscriber] *)
Definition UnbindUsbdSubscriber : ST st Z :=
  present ← gets usbDeviceInterface_;
  if negb present then mret UEC_SERVICE_INVALID_VALUE
  else on_hdi hdi_UnbindUsbdDeviceSubscriber.

(** [usb_device_manager.cpp:122-139] [UsbDeviceManager::GetCurrentFunctions] the result code and the out-parameter *)
Definition GetCurrentFunctions (funcs : Z) : ST st (Z * Z) :=
  present ← gets usbDeviceInterface_;
  if negb present then mret (UEC_SERVICE_INVALID_VALUE, funcs)
  else on_hdi (hdi_GetCurrentFunctions funcs).

(** [usb_device_manager.cpp:473-500] [UsbDeviceManager::BroadcastFuncChange] *)
Definition BroadcastFuncChange (connected : bool) (currentFunc : Z) : ST st unit :=
  emit (UsbState connected (func_params currentFunc)) ;;
  ReportDevicePlugSysEvent currentFunc connected.

(** [usb_device_manager.cpp:518-549] [UsbDeviceManager::ProcessFunctionNotifier] *)
Definition ProcessFunctionNotifier (connected : bool) (func : Z) : ST st unit :=
  if connected then
    reverse ← gets isReverseCharge_;
    on_notifier (notify_Send
      (if has_func func USB_FUNCTION_MTP then USB_FUNC_MTP
       else if has_func func USB_FUNCTION_PTP then USB_FUNC_PTP
       else if (reverse : bool) then USB_FUNC_REVERSE_CHARGE
       else USB_FUNC_CHARGE)) ;;
    has ← gets hasHdcNotifier_;
    mwhen (has_func func USB_FUNCTION_HDC && negb has)
      (on_notifier notify_SendHdc ;; modify (set_hasHdcNotifier_ true)) ;;
    has ← gets hasHdcNotifier_;
    mwhen (negb (has_func func USB_FUNCTION_HDC) && has)
      (on_notifier notify_CancelHdc ;; modify (set_hasHdcNotifier_ false))
  else
    on_notifier (notify_Cancel false) ;;
    has ← gets hasHdcNotifier_;
    mwhen has (on_notifier notify_CancelHdc ;; modify (set_hasHdcNotifier_ false)).

(** [usb_device_manager.cpp:551-571] [UsbDeviceManager::ProcessFunctionSwitchWindow] *)
Definition ProcessFunctionSwitchWindow (connected : bool) : ST st unit :=
  if connected then on_window window_PopUp ;; mret tt
  else on_window window_Dismiss ;; mret tt.

(** [usb_device_manager.cpp:502-511] [UsbDeviceManager::ProcessFuncChange] *)
Definition ProcessFuncChange (connected : bool) (currentFunc : Z) : ST st unit :=
  BroadcastFuncChange connected currentFunc ;;
  disabled ← gets isDisableDialog_;
  mwhen (negb disabled) (ProcessFunctionSwitchWindow connected) ;;
  ProcessFunctionNotifier connected currentFunc.

(** [usb_device_manager.cpp:295-311] [UsbDeviceManager::UpdateFunctions] *)
Definition UpdateFunctions (func : Z) : ST st unit :=
  cur ← gets currentFunctions_;
  if func =? cur then mret tt
  else
    ReportFuncChangeSysEvent cur func ;;
    modify (set_currentFunctions_ func) ;;
    connected ← gets connected_;
    gadget ← gets gadgetConnected_;
    (if negb connected && gadget then mret tt else BroadcastFuncChange connected func) ;;
    ProcessFunctionNotifier connected func.

(** [usb_device_manager.cpp:142-170] [UsbDeviceManager::SetCurrentFunctions] *)
Definition SetCurrentFunctions (funcs : Z) : ST st Z :=
  present ← gets usbDeviceInterface_;
  if negb present then mret UEC_SERVICE_INVALID_VALUE
  else
    r ← on_hdi (hdi_GetCurrentFunctions 0);
    let '(ret, lastFunc) := r in
    if failed ret then
      ReportUsbOperationFaultSysEvent "FUNCTION_CHANGED" UEC_SERVICE_INVALID_VALUE
        "DevIntfGetFunc is failed" ;;
      mret UEC_SERVICE_INVALID_VALUE
    else if lastFunc =? funcs then mret UEC_OK
    else
      ret ← on_hdi (hdi_SetCurrentFunctions funcs);
      if failed ret then
        ReportUsbOperationFaultSysEvent "FUNCTION_CHANGED" ret "DevIntfSetFunc is failed" ;;
        mret (if ret =? HDF_ERR_NOT_SUPPORT then UEC_SERVICE_FUNCTION_NOT_SUPPORT else ret)
      else UpdateFunctions funcs ;; mret UEC_OK.

(** [usb_device_manager.cpp:203-216] [UsbDeviceManager::Init] *)
Definition Init : ST st Z := on_window window_Init.

(** [usb_device_manager.cpp:343-346] [UsbDeviceManager::SetPhyConnectState] *)
Definition SetPhyConnectState (phyConnect : bool) : ST st unit := modify (set_phyConnect_ phyConnect).

(** [usb_device_manager.cpp:513-516] [UsbDeviceManager::SetChargeFlag] *)
Definition SetChargeFlag (isReverseCharge : bool) : ST st unit :=
  modify (set_isReverseCharge_ isReverseCharge).

(** [usb_device_manager.cpp:754-757] [UsbDeviceManager::IsGadgetConnected] *)
Definition IsGadgetConnected : ST st bool := gets gadgetConnected_.

(** [usb_device_manager.cpp:318-341] [UsbDeviceManager::ProcessStatus] the new value of the out-parameter [curConnect] *)
Definition ProcessStatus (status : Z) (curConnect : bool) : ST st bool :=
  if status =? ACT_UPDEVICE then modify (set_gadgetConnected_ true) ;; mret true
  else if status =? ACT_DOWNDEVICE then modify (set_gadgetConnected_ false) ;; mret false
  else if (status =? ACT_ACCESSORYUP) || (status =? ACT_ACCESSORYDOWN) ||
          (status =? ACT_ACCESSORYSEND) then
    modify (set_isDisableDialog_ true) ;;
    ProcessFunctionSwitchWindow false ;;
    mret curConnect
  else mret curConnect.

(** [usb_device_manager.cpp:358-363] [UsbDeviceManager::HandleEvent] the connect closure; its call of [GetCurrentFunctions] writes the member *)
Definition connect_task : ST st unit :=
  modify (set_connected_ true) ;;
  cur ← gets currentFunctions_;
  r ← GetCurrentFunctions cur;
  modify (set_currentFunctions_ r.2) ;;
  connected ← gets connected_;
  cur ← gets currentFunctions_;
  ProcessFuncChange connected cur.

(** [static_cast<uint32_t>(f) & ~MTP & ~PTP], as [uint32_t]. *)
Definition without_media (f : Z) : Z :=
  Z.land (Z.land (u32 f) (u32 (Z.lnot USB_FUNCTION_MTP))) (u32 (Z.lnot USB_FUNCTION_PTP)).

(** [usb_device_manager.cpp:367-384] [UsbDeviceManager::HandleEvent] the disconnect closure: media and authentication functions are reset *)
Definition disconnect_task : ST st unit :=
  modify (set_connected_ false) ;;
  modify (set_isDisableDialog_ false) ;;
  cur ← gets currentFunctions_;
  (if has_func cur USB_FUNCTION_MTP || has_func cur USB_FUNCTION_PTP then
     modify (set_currentFunctions_ (i32 (without_media cur))) ;;
     cur ← gets currentFunctions_;
     modify (set_currentFunctions_ (if cur =? 0 then USB_FUNCTION_STORAGE else cur)) ;;
     cur ← gets currentFunctions_;
     on_hdi (hdi_SetCurrentFunctions cur) ;; mret tt
   else if has_func cur USB_FUNCTION_DEVMODE_AUTH then
     modify (set_currentFunctions_ USB_FUNCTION_STORAGE) ;;
     on_hdi (hdi_SetCurrentFunctions USB_FUNCTION_STORAGE) ;; mret tt
   else mret tt) ;;
  cur ← gets currentFunctions_;
  ProcessFuncChange false cur.

Definition run_task (task : DelayTask) : ST st unit :=
  match task with ConnectTask => connect_task | DisconnectTask => disconnect_task end.

(** The timer thread takes a pending one-shot task and runs it. *)
Definition fire (id : Z) (task : DelayTask) : ST st unit :=
  on_timers (timer_Unregister id) ;; run_task task.

(** [usb_device_manager.cpp:349-396] [UsbDeviceManager::HandleEvent] *)
Definition HandleEvent (status : Z) : ST st unit :=
  present ← gets usbDeviceInterface_;
  if negb present then mret tt
  else
    curConnect ← ProcessStatus status false;
    id ← gets delayDisconnTimerId_;
    on_timers (timer_Unregister id) ;;
    connected ← gets connected_;
    if curConnect && negb (Bool.eqb connected curConnect) then
      id ← on_timers (timer_Register ConnectTask DELAY_CONNECT_INTERVAL true);
      modify (set_delayDisconnTimerId_ id)
    else if negb curConnect && negb (Bool.eqb connected curConnect) then
      phy ← gets phyConnect_;
      id ← on_timers (timer_Register DisconnectTask
             (DELAY_DISCONN_INTERVAL + if (phy : bool) then DELAY_DISCONN_INTERVAL else 0) true);
      modify (set_delayDisconnTimerId_ id)
    else mret tt.

(** [usb_device_manager.cpp:459-470] [UsbDeviceManager::UserChangeProcess] the driver takes the functions; an accepted change is reported *)
Definition apply_user_change (funcs : Z) : ST st Z :=
  ret ← on_hdi (hdi_SetCurrentFunctions funcs);
  cur ← gets currentFunctions_;
  mwhen ((ret =? ERR_OK) && negb (funcs =? cur))
    (modify (set_currentFunctions_ funcs) ;;
     ReportFuncChangeSysEvent funcs funcs ;;
     connected ← gets connected_;
     BroadcastFuncChange connected funcs) ;;
  connected ← gets connected_;
  cur ← gets currentFunctions_;
  ProcessFunctionNotifier connected cur ;;
  mret ret.

(** [usb_device_manager.cpp:454-457] [UsbDeviceManager::UserChangeProcess] the functions a user change leaves: no media function, storage when nothing is left. *)
Definition user_change_functions (cur : Z) : Z :=
  i32 (if without_media cur =? 0 then USB_FUNCTION_STORAGE else without_media cur).

(** [usb_device_manager.cpp:448-471] [UsbDeviceManager::UserChangeProcess] the interface is not tested before its use; a null one ends the process ([None]) *)
Definition UserChangeProcess : st → option (Z * st) := λ s,
  let cur := currentFunctions_ s in
  if has_func cur USB_FUNCTION_MTP || has_func cur USB_FUNCTION_PTP then
    if negb (usbDeviceInterface_ s) then None
    else Some (apply_user_change (user_change_functions cur) s)
  else
    Some ((connected ← gets connected_;
           cur ← gets currentFunctions_;
           ProcessFunctionNotifier connected cur ;;
           mret HDF_FAILURE) s).

(** [usb_device_manager.cpp:218-230] [UsbDeviceManager::SetUsbd] [usbd] and [usbd_]: whether the version-1 interface is there *)
Definition SetUsbd (usbd usbd_ : bool) : Z * bool :=
  if negb usbd then (UEC_SERVICE_INVALID_VALUE, usbd_) else (UEC_OK, true).

(** *** The dump commands: the lines written to the descriptor.  [hidumper_set] is the
    build flag [USB_MANAGER_HIDUMPER_SET]. *)
Section Dump.
Context (hidumper_set : bool).

(** [usb_device_manager.cpp:573-592] [UsbDeviceManager::GetDumpHelp] *)
Definition GetDumpHelp : list string :=
  ["========= dump the all device function =========";
   "usb_device -a:    Query all function"; "usb_device -f Q:  Query Current function"] ++
  (if hidumper_set then
     ["usb_device -f 0:  Switch to function:none"; "usb_device -f 1:  Switch to function:acm";
      "usb_device -f 2:  Switch to function:ecm"; "usb_device -f 3:  Switch to function:acm&ecm";
      "usb_device -f 4:  Switch to function:hdc"; "usb_device -f 5:  Switch to function:acm&hdc";
      "usb_device -f 6:  Switch to function:ecm&hdc"; "usb_device -f 32: Switch to function:rndis";
      "usb_device -f 512:Switch to function:storage";
      "usb_device -f 36: Switch to function:rndis&hdc";
      "usb_device -f 516:Switch to function:storage&hdc"]
   else []) ++
  ["------------------------------------------------"].

(** [usb_device_manager.cpp:594-599] [UsbDeviceManager::DumpGetSupportFunc] *)
Definition DumpGetSupportFunc : ST st (list string) :=
  cur ← gets currentFunctions_;
  mret ["Usb Device function list info:";
        ("current function: " +:+ ConvertToString (u32 cur))%string;
        ("supported functions list: " +:+ ConvertToString functionSettable_)%string].

(** Query the driver and print the current functions. *)
Definition dump_current : ST st (list string) :=
  r ← on_hdi (hdi_GetCurrentFunctions 0);
  let '(ret, cur) := r in
  mret (if failed ret then [("GetCurrentFunctions failed: " +:+ pretty ret)%string]
        else [("current function: " +:+ ConvertToString (u32 cur))%string]).

(** [usb_device_manager.cpp:619-664] [UsbDeviceManager::DumpSetFunc] *)
Definition DumpSetFunc (args : string) : ST st (list string) :=
  present ← gets usbDeviceInterface_;
  if negb present then mret []
  else if String.eqb args "Q" then dump_current
  else if hidumper_set then
    if negb (all_digits args) then
      mret ("Invalid input, please enter a valid integer" :: GetDumpHelp)
    else
      match StringToInteger args with
      | None => mret ("Invalid input, the number is out of range" :: GetDumpHelp)
      | Some mode =>
          ret ← on_hdi (hdi_SetCurrentFunctions mode);
          if failed ret then mret ["SetCurrentFunctions failed"] else dump_current
      end
  else mret ("Invalid input, please enter a valid argument" :: GetDumpHelp).

(** [usb_device_manager.cpp:713-728] [UsbDeviceManager::Dump] *)
Definition Dump (args : list string) : ST st (list string) :=
  match args with
  | [_; cmd] =>
      if String.eqb cmd "-a" then DumpGetSupportFunc
      else mret ("func param error, please enter again" :: GetDumpHelp)
  | [_; cmd; param] =>
      if String.eqb cmd "-f" then DumpSetFunc param
      else mret ("func param error, please enter again" :: GetDumpHelp)
  | _ => mret GetDumpHelp
  end.
End Dump.
End DeviceManager.

(** ** The function words and their names *)

(** A statement about every word below a power of two, checked exhaustively. *)
Definition below (n : nat) (P : Z → bool) : bool := forallb (λ k, P (Z.of_nat k)) (seq 0 n).

Lemma below_spec n P z : below n P = true → 0 <= z < Z.of_nat n → P z = true.
Proof.
  unfold below. rewrite forallb_forall. intros HP Hz.
  rewrite <- (Z2Nat.id z) by lia. apply HP, in_seq. lia.
Qed.

Section FunctionNames.
Context `{EB : ErrBase}.

(** The words the device can be set to, apart from "none". *)
Definition settable_word (f : Z) : Prop := 0 < f ∧ Z.land f functionSettable_ = f.

Lemma settable_word_bound f : settable_word f → 0 < f < 1024.
Proof.
  intros [H0 Hf]. split; [done|].
  assert (Hm : f mod 2 ^ 10 = f).
  { rewrite <- Z.land_ones by lia. rewrite <- Hf at 1. by rewrite <- Z.land_assoc. }
  pose proof (Z.mod_pos_bound f (2 ^ 10)). lia.
Qed.

(** The names of a settable word all appear in the table, so the error value of
    [ConvertFromString] is not produced. *)
Definition or_known (items : list string) : option Z :=
  foldl (λ acc item, r ← acc; f ← find_function item; Some (Z.lor r f)) (Some 0) items.

Lemma or_functions_known items : ∀ acc v,
  foldl (λ acc item, r ← acc; f ← find_function item; Some (Z.lor r f)) (Some acc) items = Some v →
  or_functions acc items = v.
Proof.
  induction items as [|x items IH]; intros acc v; simpl; [by intros [= ->]|].
  destruct (find_function x) as [f|]; simpl; [apply IH|].
  intros Hn. exfalso. revert Hn. clear.
  induction items as [|y items IH]; simpl; [done|]. exact IH.
Qed.

Definition name_roundtrip (f : Z) : bool :=
  negb ((0 <? f) && (Z.land f functionSettable_ =? f)) ||
  (let s := ConvertToString f in
   negb (String.eqb s "none") && negb (bool_decide (String.length s = 0%nat)) &&
   match or_known (split_funcs (String.length s) s 0 []) with
   | Some v => v =? f
   | None => false
   end).

Lemma name_roundtrip_below : below 1024 name_roundtrip = true.
Proof. by vm_compute. Qed.

(** For every combination of settable functions, parsing the string
    [ConvertToString] prints gives the combination back, and [IsSettableFunctions]
    accepts it. *)
Theorem function_string_roundtrip (f : Z) (Hf : settable_word f) :
  ConvertFromString (ConvertToString f) = f ∧ IsSettableFunctions f = true.
Proof.
  pose proof (settable_word_bound f Hf) as Hb. destruct Hf as [H0 Hl]. split.
  - pose proof (below_spec 1024 _ f name_roundtrip_below ltac:(lia)) as H.
    unfold name_roundtrip in H. rewrite (proj2 (Z.ltb_lt _ _) H0), (proj2 (Z.eqb_eq _ _) Hl) in H.
    cbn [negb andb orb] in H. set (s := ConvertToString f) in *.
    apply andb_true_iff in H as [[H1%negb_true_iff H2%negb_true_iff]%andb_true_iff H3].
    unfold ConvertFromString. rewrite H1. apply bool_decide_eq_false in H2.
    rewrite decide_False by done.
    destruct (or_known _) as [v|] eqn:E; [|done]. apply Z.eqb_eq in H3 as ->.
    by apply or_functions_known.
  - unfold IsSettableFunctions. rewrite u32_id by width_lia.
    apply orb_true_iff. right. apply Z.eqb_eq. rewrite <- Hl.
    rewrite (Z.land_comm f), Z.land_assoc. by rewrite Z.land_0_l.
Qed.

(** What [BroadcastFuncChange] should publish: the names of the set bits, lowest first. *)
Definition set_bits (w : Z) : list Z :=
  (λ k, Z.shiftl 1 (Z.of_nat k)) <$> filter (λ k, Is_true (Z.testbit w (Z.of_nat k))) (seq 0 32).
End FunctionNames.

Section Broadcast.
Implicit Types (w : Z).

Lemma testbit_bit k i : 0 <= k → Z.testbit (Z.shiftl 1 k) i = (i =? k).
Proof.
  intros Hk. rewrite Z.shiftl_1_l.
  destruct (Z.eqb_spec i k) as [->|Hn]; [by apply Z.pow2_bits_true|].
  apply Z.pow2_bits_false. lia.
Qed.

Lemma land_bit w k : 0 <= k → (Z.land w (Z.shiftl 1 k) =? 0) = negb (Z.testbit w k).
Proof.
  intros Hk. destruct (Z.testbit w k) eqn:E; simpl; [apply Z.eqb_neq|apply Z.eqb_eq].
  - intros H. assert (Ht : Z.testbit (Z.land w (Z.shiftl 1 k)) k = true).
    { by rewrite Z.land_spec, E, testbit_bit, Z.eqb_refl. }
    by rewrite H, Z.bits_0 in Ht.
  - apply Z.bits_inj_0. intros i. rewrite Z.land_spec, testbit_bit by done.
    destruct (Z.eqb_spec i k) as [->|]; [by rewrite E|by rewrite andb_false_r].
Qed.

(** The word that is left when the loop has passed the bits below [k]. *)
Definition high_part w (k : Z) : Z := Z.shiftl (Z.shiftr w k) k.

Lemma high_part_bits w k i : 0 <= k → 0 <= i →
  Z.testbit (high_part w k) i = (k <=? i) && Z.testbit w i.
Proof.
  intros Hk Hi. unfold high_part. rewrite Z.shiftl_spec by done.
  destruct (Z.leb_spec k i).
  - rewrite Z.shiftr_spec by lia. simpl. f_equal. lia.
  - by rewrite Z.testbit_neg_r by lia.
Qed.

Lemma testbit_u32_lnot_bit k i : 0 <= k → 0 <= i < 32 →
  Z.testbit (u32 (Z.lnot (Z.shiftl 1 k))) i = negb (i =? k).
Proof.
  intros Hk Hi. unfold u32. rewrite Z.mod_pow2_bits_low by lia.
  by rewrite Z.lnot_spec, testbit_bit by lia.
Qed.

Lemma u32_bits_high w i : is_u32 w → 32 <= i → Z.testbit w i = false.
Proof.
  intros Hw Hi. destruct (Z.eq_dec w 0) as [->|Hn]; [apply Z.bits_0|].
  apply Z.bits_above_log2; [width_lia|].
  apply Z.lt_le_trans with 32; [|done]. apply Z.log2_lt_pow2; width_lia.
Qed.

Lemma high_part_step w k : is_u32 w → 0 <= k < 32 →
  (if Z.testbit w k then Z.land (high_part w k) (u32 (Z.lnot (Z.shiftl 1 k))) else high_part w k) =
    high_part w (k + 1).
Proof.
  intros Hw Hk. apply Z.bits_inj'. intros i Hi.
  rewrite high_part_bits by lia.
  assert (Hl : Z.testbit (if Z.testbit w k then Z.land (high_part w k) (u32 (Z.lnot (Z.shiftl 1 k)))
      else high_part w k) i = (k <=? i) && Z.testbit w i && negb (Z.testbit w k && (i =? k))).
  { destruct (Z.testbit w k) eqn:E.
    - rewrite Z.land_spec, high_part_bits by lia.
      destruct (Z.lt_ge_cases i 32); [by rewrite testbit_u32_lnot_bit by lia|].
      rewrite (u32_bits_high w i) by done. by rewrite !andb_false_r.
    - rewrite high_part_bits by lia. by rewrite andb_true_r. }
  rewrite Hl. destruct (Z.eqb_spec i k) as [->|Hn].
  - rewrite Z.leb_refl, (proj2 (Z.leb_gt (k + 1) k)) by lia. by destruct (Z.testbit w k).
  - rewrite andb_false_r. simpl. rewrite andb_true_r. f_equal. lia.
Qed.

Lemma high_part_zero w k i : 0 <= k → high_part w k = 0 → k <= i → Z.testbit w i = false.
Proof.
  intros Hk H0 Hi. pose proof (high_part_bits w k i Hk ltac:(lia)) as H.
  rewrite H0, Z.bits_0, (proj2 (Z.leb_le k i) Hi) in H. by simpl in H.
Qed.

Lemma shift_bit k : 0 <= k < 31 → u32 (Z.shiftl (Z.shiftl 1 k) 1) = Z.shiftl 1 (k + 1).
Proof.
  intros Hk. rewrite Z.shiftl_shiftl by lia. apply u32_id.
  unfold is_u32. rewrite Z.shiftl_1_l. split; [lia|]. apply Z.pow_lt_mono_r; lia.
Qed.

Lemma bit_params_spec w : is_u32 w → ∀ (n k : nat), (k + n = 32)%nat → (0 < n)%nat →
  bit_params n (high_part w (Z.of_nat k)) (Z.shiftl 1 (Z.of_nat k)) =
  (λ j, ConvertToString (Z.shiftl 1 (Z.of_nat j))) <$>
    filter (λ j, Is_true (Z.testbit w (Z.of_nat j))) (seq k n).
Proof.
  intros Hw. induction n as [|n IH]; intros k Hk Hn; [lia|]. cbn [bit_params seq].
  destruct (high_part w (Z.of_nat k) =? 0) eqn:E0.
  { bsimp. rewrite filter_none; [done|].
    intros j Hj. change (j ∈ seq k (S n)) in Hj. apply elem_of_seq in Hj.
    pose proof (high_part_zero w (Z.of_nat k) (Z.of_nat j) ltac:(lia) E0 ltac:(lia)) as Hf.
    rewrite Hf. by intros []. }
  rewrite land_bit, negb_involutive, high_part_bits, Z.leb_refl by lia. cbn [andb].
  pose proof (high_part_step w (Z.of_nat k) Hw ltac:(lia)) as Hstep.
  assert (Hrest : bit_params n (high_part w (Z.of_nat k + 1)) (u32 (Z.shiftl (Z.shiftl 1 (Z.of_nat k)) 1)) =
    (λ j, ConvertToString (Z.shiftl 1 (Z.of_nat j))) <$>
      filter (λ j, Is_true (Z.testbit w (Z.of_nat j))) (seq (S k) n)).
  { destruct n as [|n]; [done|]. rewrite shift_bit by lia.
    replace (Z.of_nat k + 1) with (Z.of_nat (S k)) by lia. apply IH; lia. }
  destruct (Z.testbit w (Z.of_nat k)) eqn:Ek.
  - rewrite filter_cons_True by (by rewrite Ek). rewrite Hstep, Hrest. done.
  - rewrite filter_cons_False by (by rewrite Ek; intros []). rewrite Hstep, Hrest. done.
Qed.

(** The [COMMON_EVENT_USB_STATE] broadcast names every set bit of the function word,
    lowest first and once each: the bit loop ends for every 32-bit word and loses none. *)
Theorem broadcast_names_set_bits (currentFunc : Z) :
  func_params currentFunc = ConvertToString <$> set_bits (u32 currentFunc).
Proof.
  unfold func_params, set_bits. rewrite <- list_fmap_compose.
  pose proof (bit_params_spec (u32 currentFunc) (u32_range _) 32 0 eq_refl ltac:(lia)) as H.
  unfold high_part in H at 1. rewrite Z.shiftr_0_r, Z.shiftl_0_r in H. exact H.
Qed.
End Broadcast.

(** ** Integers in the dump commands *)
Section ReadInteger.
(** [StringToInteger] reads a signed or unsigned digit string exactly when its value
    fits [int32_t]: in range the result is the value, out of range (including values that
    overflow [long], where [strtol] saturates) it is refused. *)
Theorem StringToInteger_digits (neg : bool) (ds : list nat)
    (Hds : Forall (λ d, d < 10)%nat ds) (Hne : ds ≠ []) :
  let v := if neg then - digits_value ds else digits_value ds in
  StringToInteger (if neg then String "-"%char (digits_string ds) else digits_string ds) =
    if (INT32_MIN <=? v) && (v <=? INT32_MAX) then Some v else None.
Proof.
  intros v.
  assert (Hs : strtol10 (if neg then String "-"%char (digits_string ds) else digits_string ds) =
    if v <? - 2 ^ 63 then (- 2 ^ 63, true, "", true)
    else if 2 ^ 63 - 1 <? v then (2 ^ 63 - 1, true, "", true) else (v, false, "", true)).
  { destruct ds as [|d ds]; [done|]. subst v. apply Forall_cons in Hds as Hd.
    destruct Hd as [Hd _]. unfold strtol10. destruct neg.
    - rewrite strtol_minus, read_digits_string by done. done.
    - rewrite digits_string_cons, strtol_front, strtol_no_sign by done.
      rewrite <- digits_string_cons, read_digits_string by done. done. }
  unfold StringToInteger. rewrite Hs. unfold INT32_MIN, INT32_MAX in *.
  destruct (v <? - 2 ^ 63) eqn:E1; [|destruct (2 ^ 63 - 1 <? v) eqn:E2];
    destruct (_ && _) eqn:E3; cbn [orb]; try done; try lia.
  - case_if; [lia|]. cbn. by rewrite i32_id by width_lia.
  - case_if; [done|]. lia.
Qed.

(** Whatever the string, a value [StringToInteger] returns is an [int32_t]. *)
Theorem StringToInteger_range (s : string) (n : Z) (Hn : StringToInteger s = Some n) : is_i32 n.
Proof.
  revert Hn. unfold StringToInteger. destruct (strtol10 s) as [[[v e] rest] c].
  case_if; [done|]. case_if; [done|]. intros [= <-]. apply i32_range.
Qed.
End ReadInteger.

(** ** The state machine *)
Section DeviceMachine.
Context {H Win N T : Type} `{EB : ErrBase} `{DeviceHdi H} `{FunctionWindow Win} `{NotifierOps N}
  `{Timers T DelayTask}.
#[local] Abbreviation st := (@st H Win N T).
Implicit Types (s : st).

(** The setters compute on a state in constructor form. *)
#[local] Arguments set_currentFunctions_ _ _ _ _ v !s /.
#[local] Arguments set_connected_ _ _ _ _ v !s /.
#[local] Arguments set_isReverseCharge_ _ _ _ _ v !s /.
#[local] Arguments set_hasHdcNotifier_ _ _ _ _ v !s /.
#[local] Arguments set_gadgetConnected_ _ _ _ _ v !s /.
#[local] Arguments set_isDisableDialog_ _ _ _ _ v !s /.
#[local] Arguments set_usbDeviceInterface_ _ _ _ _ v !s /.
#[local] Arguments set_delayDisconnTimerId_ _ _ _ _ v !s /.
#[local] Arguments set_phyConnect_ _ _ _ _ v !s /.
#[local] Arguments set_subscribed_ _ _ _ _ v !s /.
#[local] Arguments set_hdi _ _ _ _ v !s /.
#[local] Arguments set_window _ _ _ _ v !s /.
#[local] Arguments set_notifier _ _ _ _ v !s /.
#[local] Arguments set_timers _ _ _ _ v !s /.
#[local] Arguments set_log _ _ _ _ v !s /.

(** The HDC notification is on exactly when the device is connected with HDC. *)
Definition hdc_shown s : Prop :=
  hasHdcNotifier_ s = connected_ s && has_func (currentFunctions_ s) USB_FUNCTION_HDC.

(** At most one connection task is pending, the one the manager remembers. *)
Definition one_timer s : Prop :=
  ∀ id task, pending (timers s) !! id = Some task → id = delayDisconnTimerId_ s.

(** The effect of a notification round: the flag follows the arguments, and nothing else
    of the manager changes. *)
Lemma ProcessFunctionNotifier_after connected func s :
  ∃ n, after (ProcessFunctionNotifier connected func) s =
    set_hasHdcNotifier_ (connected && has_func func USB_FUNCTION_HDC) (set_notifier n s).
Proof.
  unfold ProcessFunctionNotifier, on_notifier. destruct s. st_unfold. simpl.
  destruct connected; st_split; simpl;
    destruct (has_func func USB_FUNCTION_HDC) eqn:?, hasHdcNotifier_0; simplify_eq/=;
    by eexists.
Qed.

Lemma BroadcastFuncChange_after connected func s :
  after (BroadcastFuncChange connected func) s =
    set_log (log s ++ [UsbState connected (func_params func); PlugInOut func connected]) s.
Proof. destruct s. unfold after. simpl. by rewrite <- app_assoc. Qed.

Lemma ProcessFunctionSwitchWindow_after connected s :
  ∃ w, after (ProcessFunctionSwitchWindow connected) s = set_window w s.
Proof.
  unfold ProcessFunctionSwitchWindow, on_window. destruct s. st_unfold.
  destruct connected; st_split; by eexists.
Qed.

Lemma ProcessFuncChange_after connected func s :
  ∃ n w, after (ProcessFuncChange connected func) s =
    set_hasHdcNotifier_ (connected && has_func func USB_FUNCTION_HDC)
      (set_notifier n (set_window w (set_log
        (log s ++ [UsbState connected (func_params func); PlugInOut func connected]) s))).
Proof.
  unfold ProcessFuncChange. autorewrite with st. rewrite BroadcastFuncChange_after.
  set (s1 := set_log _ s). destruct (isDisableDialog_ s1); simpl.
  - destruct (ProcessFunctionNotifier_after connected func s1) as [n ->].
    exists n, (window s). by destruct s.
  - destruct (ProcessFunctionSwitchWindow_after connected s1) as [w ->].
    destruct (ProcessFunctionNotifier_after connected func (set_window w s1)) as [n ->].
    by exists n, w.
Qed.

(** *** The two timer tasks *)

(** The function word after a disconnect: the media functions are dropped (storage when
    nothing is left), an authentication word becomes storage. *)
Definition disconnected_functions (cur : Z) : Z :=
  if has_func cur USB_FUNCTION_MTP || has_func cur USB_FUNCTION_PTP then
    if i32 (without_media cur) =? 0 then USB_FUNCTION_STORAGE else i32 (without_media cur)
  else if has_func cur USB_FUNCTION_DEVMODE_AUTH then USB_FUNCTION_STORAGE
  else cur.

Lemma connect_task_after s :
  ∃ cur h n w, after connect_task s =
    set_hasHdcNotifier_ (has_func cur USB_FUNCTION_HDC)
      (set_notifier n (set_window w (set_log
        (log s ++ [UsbState true (func_params cur); PlugInOut cur true])
        (set_currentFunctions_ cur (set_hdi h (set_connected_ true s)))))).
Proof.
  unfold connect_task. autorewrite with st. simpl.
  assert (Hget : ∃ h, after (GetCurrentFunctions (currentFunctions_ s)) (set_connected_ true s) =
    set_hdi h (set_connected_ true s)).
  { unfold GetCurrentFunctions, on_hdi. destruct s. st_unfold. st_split; by eexists. }
  destruct Hget as [h Hget]. simpl in Hget. rewrite Hget. clear Hget.
  set (cur := (result (GetCurrentFunctions _) _).2).
  simpl. match goal with |- context [after (ProcessFuncChange ?c ?f) ?s] =>
    destruct (ProcessFuncChange_after c f s) as (n & w & ->) end.
  exists cur, h, n, w. by destruct s.
Qed.

Lemma disconnect_task_after s :
  ∃ h n w, after disconnect_task s =
    set_hasHdcNotifier_ false
      (set_notifier n (set_window w (set_log
        (log s ++ [UsbState false (func_params (disconnected_functions (currentFunctions_ s)));
                   PlugInOut (disconnected_functions (currentFunctions_ s)) false])
        (set_currentFunctions_ (disconnected_functions (currentFunctions_ s))
          (set_hdi h (set_isDisableDialog_ false (set_connected_ false s))))))).
Proof.
  unfold disconnect_task. autorewrite with st. simpl.
  set (m := if has_func (currentFunctions_ s) USB_FUNCTION_MTP || _ then _ else _).
  assert (Hm : ∃ h, after m (set_isDisableDialog_ false (set_connected_ false s)) =
    set_currentFunctions_ (disconnected_functions (currentFunctions_ s))
      (set_hdi h (set_isDisableDialog_ false (set_connected_ false s)))).
  { unfold m, disconnected_functions, on_hdi. destruct s. cbn [currentFunctions_].
    destruct (has_func _ USB_FUNCTION_MTP || has_func _ USB_FUNCTION_PTP);
      [|destruct (has_func _ USB_FUNCTION_DEVMODE_AUTH)]; st_unfold; st_split;
      simplify_eq/=; by eexists. }
  destruct Hm as [h Hm]. simpl in Hm. rewrite Hm. clear Hm. simpl.
  match goal with |- context [after (ProcessFuncChange ?c ?f) ?s] =>
    destruct (ProcessFuncChange_after c f s) as (n & w & ->) end.
  exists h, n, w. by destruct s.
Qed.

(** *** The guarded operations as steps *)

(** What can happen to the manager: a driver event, a timer, a request of the service. *)
Inductive step : st → st → Prop :=
  | step_event status s : step s (after (HandleEvent status) s)
  | step_fire id task s :
      pending (timers s) !! id = Some task → step s (after (fire id task) s)
  | step_set funcs s : step s (after (SetCurrentFunctions funcs) s)
  | step_update func s : step s (after (UpdateFunctions func) s)
  | step_phy b s : step s (after (SetPhyConnectState b) s)
  | step_charge b s : step s (after (SetChargeFlag b) s)
  | step_user ret s s' : UserChangeProcess s = Some (ret, s') → step s s'
  | step_query funcs s : step s (after (GetCurrentFunctions funcs) s)
  | step_init get s : step s (after (InitUsbDeviceInterface get) s)
  | step_window s : step s (after Init s)
  | step_stop s : step s (after Stop s)
  | step_dump hidumper_set args s : step s (after (Dump hidumper_set args) s).

(** The manager as constructed: nothing connected, no notification, no task. *)
Definition initial s : Prop :=
  connected_ s = false ∧ hasHdcNotifier_ s = false ∧ pending (timers s) = ∅.

(** *** Operations that leave the connection state alone *)

(** [s'] agrees with [s] on the connection, the functions, the HDC flag and the timers. *)
Record quiet (s0 s : st) : Prop := {
  quiet_connected : connected_ s = connected_ s0;
  quiet_hdc : hasHdcNotifier_ s = hasHdcNotifier_ s0;
  quiet_functions : currentFunctions_ s = currentFunctions_ s0;
  quiet_timers : timers s = timers s0;
  quiet_timer_id : delayDisconnTimerId_ s = delayDisconnTimerId_ s0;
}.

Lemma quiet_refl s : quiet s s.
Proof. done. Qed.

Lemma quiet_hdc_shown s s' : quiet s s' → hdc_shown s → hdc_shown s'.
Proof. intros Hq. unfold hdc_shown. by destruct Hq as [-> -> -> _ _]. Qed.

Lemma quiet_on_hdi {A} s0 (m : ST H A) : preserves (quiet s0) (on_hdi m).
Proof. intros s []. unfold after, on_hdi. by destruct (m (hdi s)). Qed.
Lemma quiet_on_window {A} s0 (m : ST Win A) : preserves (quiet s0) (on_window m).
Proof. intros s []. unfold after, on_window. by destruct (m (window s)). Qed.
Lemma quiet_emit s0 e : preserves (quiet s0) (emit e).
Proof. by intros s []. Qed.
Lemma quiet_modify s0 (f : st → st) :
  (∀ s, quiet s (f s)) → preserves (quiet s0) (modify f).
Proof. intros Hf s []. destruct (Hf s). constructor; unfold after; simpl; congruence. Qed.
#[local] Hint Resolve quiet_on_hdi quiet_on_window quiet_emit : preserve.
#[local] Hint Extern 5 (preserves (quiet _) (modify _)) => by apply quiet_modify : preserve.

Lemma quiet_GetCurrentFunctions s0 funcs : preserves (quiet s0) (GetCurrentFunctions funcs).
Proof. unfold GetCurrentFunctions. step_preserve. Qed.
Lemma quiet_InitUsbDeviceInterface s0 get : preserves (quiet s0) (InitUsbDeviceInterface get).
Proof. unfold InitUsbDeviceInterface. step_preserve. Qed.
Lemma quiet_Stop s0 : preserves (quiet s0) Stop.
Proof. unfold Stop. step_preserve. Qed.
Lemma quiet_Dump s0 hs args : preserves (quiet s0) (Dump hs args).
Proof.
  unfold Dump, DumpSetFunc, DumpGetSupportFunc, dump_current. step_preserve.
Qed.
Lemma quiet_ProcessStatus s0 status b : preserves (quiet s0) (ProcessStatus status b).
Proof. unfold ProcessStatus, ProcessFunctionSwitchWindow. step_preserve. Qed.

Lemma ProcessStatus_result status b s :
  result (ProcessStatus status b) s =
    if status =? ACT_UPDEVICE then true else if status =? ACT_DOWNDEVICE then false else b.
Proof.
  unfold ProcessStatus. repeat case_if; autorewrite with st; done.
Qed.

(** *** The HDC notification *)

Lemma UpdateFunctions_after func s :
  ∃ n, after (UpdateFunctions func) s =
    if func =? currentFunctions_ s then s
    else set_hasHdcNotifier_ (connected_ s && has_func func USB_FUNCTION_HDC) (set_notifier n
      (set_log (log s ++ FunctionChanged (currentFunctions_ s) func ::
         (if negb (connected_ s) && gadgetConnected_ s then []
          else [UsbState (connected_ s) (func_params func); PlugInOut func (connected_ s)]))
        (set_currentFunctions_ func s))).
Proof.
  unfold UpdateFunctions, ReportFuncChangeSysEvent, emit. autorewrite with st.
  destruct (func =? _); [by exists (notifier s)|]. autorewrite with st. simpl.
  destruct (negb (connected_ s) && gadgetConnected_ s); autorewrite with st;
    rewrite ?BroadcastFuncChange_after; simpl;
    match goal with |- context [after (ProcessFunctionNotifier ?c ?f) ?s] =>
      destruct (ProcessFunctionNotifier_after c f s) as [n ->] end;
    exists n; by rewrite <- ?app_assoc.
Qed.

Lemma hdc_UpdateFunctions func : preserves hdc_shown (UpdateFunctions func).
Proof.
  intros s Hs. destruct (UpdateFunctions_after func s) as [n ->]. by destruct (func =? _).
Qed.

(** An operation that is quiet preserves the flag. *)
Lemma hdc_quiet {A} (m : ST st A) : (∀ s0, preserves (quiet s0) m) → preserves hdc_shown m.
Proof. intros Hm s Hs. apply (quiet_hdc_shown s); [|done]. by apply Hm. Qed.

Lemma hdc_on_hdi {A} (m : ST H A) : preserves hdc_shown (on_hdi m).
Proof. apply hdc_quiet. intros. apply quiet_on_hdi. Qed.
Lemma hdc_emit e : preserves hdc_shown (emit e).
Proof. apply hdc_quiet. intros. apply quiet_emit. Qed.
#[local] Hint Resolve hdc_UpdateFunctions hdc_on_hdi hdc_emit : preserve.

Lemma hdc_SetCurrentFunctions funcs : preserves hdc_shown (SetCurrentFunctions funcs).
Proof. unfold SetCurrentFunctions, ReportUsbOperationFaultSysEvent. step_preserve. Qed.

Lemma hdc_run_task task s : hdc_shown (after (run_task task) s).
Proof.
  destruct task; simpl.
  - by destruct (connect_task_after s) as (cur & h & n & w & ->).
  - by destruct (disconnect_task_after s) as (h & n & w & ->).
Qed.

Lemma hdc_UserChangeProcess ret s s' :
  UserChangeProcess s = Some (ret, s') → hdc_shown s'.
Proof.
  assert (Hlast : ∀ (r : Z) s, hdc_shown (after (connected ← gets connected_; cur ← gets currentFunctions_;
    ProcessFunctionNotifier connected cur ;; mret r) s)).
  { intros r s0. autorewrite with st.
    by destruct (ProcessFunctionNotifier_after (connected_ s0) (currentFunctions_ s0) s0) as [n ->]. }
  unfold UserChangeProcess. case_if; [case_if; [|by intros]|]; intros [= ->%after_pair].
  - unfold apply_user_change. do 3 rewrite after_bind. apply Hlast.
  - apply Hlast.
Qed.

(** *** The timer *)

(** The operation leaves the timers and the remembered task alone. *)
Definition same_timers s0 s : Prop :=
  timers s = timers s0 ∧ delayDisconnTimerId_ s = delayDisconnTimerId_ s0.

Lemma quiet_same_timers s0 s : quiet s0 s → same_timers s0 s.
Proof. by intros []. Qed.

Lemma same_quiet {A} (m : ST st A) s0 :
  (∀ s0, preserves (quiet s0) m) → preserves (same_timers s0) m.
Proof.
  intros Hm s [Ht Hd]. unfold same_timers. rewrite <- Ht, <- Hd.
  apply quiet_same_timers. by apply Hm.
Qed.

Lemma same_modify s0 (f : st → st) :
  (∀ s, same_timers s (f s)) → preserves (same_timers s0) (modify f).
Proof. intros Hf s [Ht Hd]. unfold same_timers. rewrite <- Ht, <- Hd. apply Hf. Qed.

Lemma same_on_notifier {A} s0 (m : ST N A) : preserves (same_timers s0) (on_notifier m).
Proof. intros s []. unfold after, on_notifier. by destruct (m (notifier s)). Qed.
Lemma same_on_hdi {A} s0 (m : ST H A) : preserves (same_timers s0) (on_hdi m).
Proof. apply same_quiet. intros. apply quiet_on_hdi. Qed.
Lemma same_on_window {A} s0 (m : ST Win A) : preserves (same_timers s0) (on_window m).
Proof. apply same_quiet. intros. apply quiet_on_window. Qed.
Lemma same_emit s0 e : preserves (same_timers s0) (emit e).
Proof. apply same_quiet. intros. apply quiet_emit. Qed.
#[local] Hint Extern 1 (preserves _ (ReportDevicePlugSysEvent _ _)) =>
  unfold ReportDevicePlugSysEvent : preserve.
#[local] Hint Extern 1 (preserves _ (ReportUsbOperationFaultSysEvent _ _ _)) =>
  unfold ReportUsbOperationFaultSysEvent : preserve.
#[local] Hint Resolve same_emit same_on_hdi same_on_window same_on_notifier : preserve.
#[local] Hint Extern 5 (preserves (same_timers _) (modify _)) => by apply same_modify : preserve.

Lemma same_UpdateFunctions s0 func : preserves (same_timers s0) (UpdateFunctions func).
Proof. unfold UpdateFunctions, BroadcastFuncChange, ProcessFunctionNotifier. step_preserve. Qed.
Lemma same_SetCurrentFunctions s0 funcs : preserves (same_timers s0) (SetCurrentFunctions funcs).
Proof. unfold SetCurrentFunctions. step_preserve; apply same_UpdateFunctions. Qed.
Lemma same_run_task s0 task : preserves (same_timers s0) (run_task task).
Proof.
  intros s []. destruct task; simpl.
  - by destruct (connect_task_after s) as (cur & h & n & w & ->).
  - by destruct (disconnect_task_after s) as (h & n & w & ->).
Qed.

Lemma same_UserChangeProcess ret s s' : UserChangeProcess s = Some (ret, s') → same_timers s s'.
Proof.
  assert (Hp : ∀ s0 c f, preserves (same_timers s0) (ProcessFunctionNotifier c f)).
  { intros. unfold ProcessFunctionNotifier. step_preserve. }
  unfold UserChangeProcess. case_if; [case_if; [|by intros]|]; intros [= ->%after_pair].
  - match goal with |- _ (after ?m _) => assert (preserves (same_timers s) m) as Hm end.
    { unfold apply_user_change, BroadcastFuncChange. step_preserve. }
    by apply Hm.
  - match goal with |- _ (after ?m _) => assert (preserves (same_timers s) m) as Hm end.
    { step_preserve. }
    by apply Hm.
Qed.

(** *** Status events *)

(** The connection a status asks for: every status but "up" asks for none. *)
Definition wanted (status : Z) : bool := status =? ACT_UPDEVICE.
Definition wanted_task (status : Z) : DelayTask := if wanted status then ConnectTask else DisconnectTask.

Lemma ProcessStatus_spec status s :
  ∃ g d w, ProcessStatus status false s =
    (wanted status, set_gadgetConnected_ g (set_isDisableDialog_ d (set_window w s))).
Proof.
  unfold ProcessStatus, wanted, ProcessFunctionSwitchWindow, on_window. destruct s.
  repeat case_if; try lia; st_unfold; st_split; by do 3 eexists.
Qed.

(** The timer operations of a status event. *)
Definition reschedule (status : Z) : ST st unit :=
  id ← gets delayDisconnTimerId_;
  on_timers (timer_Unregister id) ;;
  connected ← gets connected_;
  phy ← gets phyConnect_;
  if Bool.eqb connected (wanted status) then mret tt
  else
    id ← on_timers (timer_Register (wanted_task status)
           (if wanted status then DELAY_CONNECT_INTERVAL
            else DELAY_DISCONN_INTERVAL + if (phy : bool) then DELAY_DISCONN_INTERVAL else 0) true);
    modify (set_delayDisconnTimerId_ id).

Lemma HandleEvent_reschedule status s (Hp : usbDeviceInterface_ s = true) :
  ∃ g d w, after (HandleEvent status) s =
    after (reschedule status) (set_gadgetConnected_ g (set_isDisableDialog_ d (set_window w s))).
Proof.
  destruct (ProcessStatus_spec status s) as (g & d & w & Hps). exists g, d, w.
  set (s1 := set_gadgetConnected_ _ _) in *.
  assert (Hr : result (ProcessStatus status false) s = wanted status) by (unfold result; by rewrite Hps).
  assert (Ha : after (ProcessStatus status false) s = s1) by (unfold after; by rewrite Hps).
  unfold HandleEvent, reschedule. autorewrite with st. rewrite Hp. cbn [negb]. autorewrite with st.
  rewrite Hr, Ha. unfold wanted_task.
  destruct (after (on_timers _) s1); simpl.
  by destruct (wanted status), connected_0; simpl; autorewrite with st.
Qed.

Lemma HandleEvent_absent status s (Hp : usbDeviceInterface_ s = false) :
  after (HandleEvent status) s = s.
Proof. unfold HandleEvent. autorewrite with st. by rewrite Hp. Qed.

Lemma hdc_HandleEvent status : preserves hdc_shown (HandleEvent status).
Proof.
  intros s Hs. destruct (usbDeviceInterface_ s) eqn:Hp; [|by rewrite HandleEvent_absent].
  destruct (HandleEvent_reschedule status s Hp) as (g & d & w & ->).
  assert (Ht : ∀ A (m : ST T A), preserves hdc_shown (on_timers m)).
  { intros A m s0 Hs0. unfold after, on_timers. by destruct (m (timers s0)). }
  assert (Hm : ∀ id, preserves hdc_shown (modify (set_delayDisconnTimerId_ id))).
  { intros id s0 Hs0. done. }
  assert (Hr : preserves hdc_shown (reschedule status)); [|by apply Hr].
  unfold reschedule. step_preserve.
Qed.

(** *** The invariants of every run *)

Lemma hdc_shown_rtc s s' : initial s → rtc step s s' → hdc_shown s'.
Proof.
  intros Hi Hr.
  assert (Hs : hdc_shown s) by (destruct Hi as (Hc & Hh & _); unfold hdc_shown; by rewrite Hc, Hh).
  clear Hi. revert Hs. induction Hr as [|s s1 s' Hstep _ IH]; intros Hs; [done|].
  apply IH. clear IH. destruct Hstep as [status s|id task s _|funcs s|func s|b s|b s|ret s s1 Hu
    |funcs s|get s|s|s|hs args s].
  - by apply hdc_HandleEvent.
  - unfold fire. rewrite after_bind. apply hdc_run_task.
  - by apply hdc_SetCurrentFunctions.
  - by apply hdc_UpdateFunctions.
  - done.
  - done.
  - by apply (hdc_UserChangeProcess _ _ _ Hu).
  - by apply (hdc_quiet (GetCurrentFunctions funcs)); [intros; apply quiet_GetCurrentFunctions|].
  - by apply (hdc_quiet (InitUsbDeviceInterface get)); [intros; apply quiet_InitUsbDeviceInterface|].
  - by apply (hdc_quiet Init); [intros; apply quiet_on_window|].
  - by apply (hdc_quiet Stop); [intros; apply quiet_Stop|].
  - by apply (hdc_quiet (Dump hs args)); [intros; apply quiet_Dump|].
Qed.

(** The HDC notification is shown exactly while the device is connected with the HDC
    function, whatever the manager is asked and however its timer tasks interleave with
    the requests. *)
Theorem hdc_notification_invariant s s' (Hi : initial s) (Hr : rtc step s s') :
  hasHdcNotifier_ s' = connected_ s' && has_func (currentFunctions_ s') USB_FUNCTION_HDC.
Proof. exact (hdc_shown_rtc s s' Hi Hr). Qed.

(** *** What the manager promises to its notifier

    Every operation of the manager uses the notifier's HDC calls in turn: it sends only when
    it has not sent, and cancels only what it has sent.  [shown_as R] relates the manager's
    flag to the notifier's state. *)
Section Protocol.
Context (R : bool → N → Prop) `{!HdcProtocol N R}.

Definition shown_as s : Prop := R (hasHdcNotifier_ s) (notifier s).

Lemma shown_as_modify (f : st → st) :
  (∀ s, hasHdcNotifier_ (f s) = hasHdcNotifier_ s ∧ notifier (f s) = notifier s) →
  preserves shown_as (modify f).
Proof. intros Hf s Hs. unfold shown_as. rewrite after_modify. by destruct (Hf s) as [-> ->]. Qed.
Lemma shown_as_on_hdi {A} (m : ST H A) : preserves shown_as (on_hdi m).
Proof. intros s Hs. unfold after, on_hdi. by destruct (m (hdi s)). Qed.
Lemma shown_as_on_window {A} (m : ST Win A) : preserves shown_as (on_window m).
Proof. intros s Hs. unfold after, on_window. by destruct (m (window s)). Qed.
Lemma shown_as_on_timers {A} (m : ST T A) : preserves shown_as (on_timers m).
Proof. intros s Hs. unfold after, on_timers. by destruct (m (timers s)). Qed.
Lemma shown_as_emit e : preserves shown_as (emit e).
Proof. by apply shown_as_modify. Qed.
Lemma shown_as_Send name :
  name ≠ ""%string → preserves shown_as (on_notifier (notify_Send name)).
Proof.
  intros Hname s Hs. unfold shown_as, after, on_notifier in *.
  pose proof (send_keeps _ name _ Hname Hs) as H'. unfold after in H'.
  by destruct (notify_Send name (notifier s)).
Qed.
Lemma shown_as_Cancel h : preserves shown_as (on_notifier (notify_Cancel h)).
Proof.
  intros s Hs. unfold shown_as, after, on_notifier in *.
  pose proof (cancel_keeps _ h _ Hs) as H'. unfold after in H'.
  by destruct (notify_Cancel h (notifier s)).
Qed.

Lemma shown_as_send_hdc b {A} (k : ST st A) :
  preserves shown_as k →
  preserves shown_as (has ← gets hasHdcNotifier_;
    mwhen (b && negb has) (on_notifier notify_SendHdc ;; modify (set_hasHdcNotifier_ true)) ;; k).
Proof.
  intros Hk s Hs. autorewrite with st. apply Hk. rewrite andb_comm.
  destruct (hasHdcNotifier_ s) eqn:E; cbn [negb andb]; [done|]. destruct b; [|done].
  autorewrite with st. unfold shown_as in *. rewrite E in Hs.
  pose proof (send_hdc_shows _ Hs) as H'. unfold after, on_notifier in *.
  by destruct (notify_SendHdc (notifier s)).
Qed.

Lemma shown_as_cancel_hdc b :
  preserves shown_as (has ← gets hasHdcNotifier_;
    mwhen (b && has) (on_notifier notify_CancelHdc ;; modify (set_hasHdcNotifier_ false))).
Proof.
  intros s Hs. autorewrite with st. rewrite andb_comm.
  destruct (hasHdcNotifier_ s) eqn:E; [|done]. destruct b; [|done].
  autorewrite with st. unfold shown_as in *. rewrite E in Hs.
  pose proof (cancel_hdc_hides _ Hs) as H'. unfold after, on_notifier in *.
  by destruct (notify_CancelHdc (notifier s)).
Qed.

#[local] Hint Extern 1 (preserves shown_as (modify _)) =>
  (apply shown_as_modify; intros; split; reflexivity) : preserve.
#[local] Hint Resolve shown_as_on_hdi shown_as_on_window shown_as_on_timers shown_as_emit
  shown_as_Cancel : preserve.

Lemma shown_as_ProcessFunctionNotifier c f : preserves shown_as (ProcessFunctionNotifier c f).
Proof.
  unfold ProcessFunctionNotifier. destruct c.
  - apply preserves_bind; [step_preserve|intros reverse]. apply preserves_bind; [|intros _].
    { apply shown_as_Send. by repeat case_if. }
    apply (shown_as_send_hdc (has_func f USB_FUNCTION_HDC)), shown_as_cancel_hdc.
  - apply preserves_bind; [step_preserve|intros _]. apply (shown_as_cancel_hdc true).
Qed.
#[local] Hint Resolve shown_as_ProcessFunctionNotifier : preserve.

Lemma shown_as_GetCurrentFunctions f : preserves shown_as (GetCurrentFunctions f).
Proof. unfold GetCurrentFunctions. step_preserve. Qed.
Lemma shown_as_UpdateFunctions f : preserves shown_as (UpdateFunctions f).
Proof. unfold UpdateFunctions, ReportFuncChangeSysEvent, BroadcastFuncChange, ReportDevicePlugSysEvent. step_preserve. Qed.
Lemma shown_as_ProcessFuncChange c f : preserves shown_as (ProcessFuncChange c f).
Proof.
  unfold ProcessFuncChange, BroadcastFuncChange, ReportDevicePlugSysEvent,
    ProcessFunctionSwitchWindow. step_preserve.
Qed.
#[local] Hint Resolve shown_as_GetCurrentFunctions shown_as_UpdateFunctions
  shown_as_ProcessFuncChange : preserve.

Lemma shown_as_run_task task : preserves shown_as (run_task task).
Proof. destruct task; simpl; unfold connect_task, disconnect_task; step_preserve. Qed.
#[local] Hint Resolve shown_as_run_task : preserve.

Lemma shown_as_apply_user_change f : preserves shown_as (apply_user_change f).
Proof.
  unfold apply_user_change, ReportFuncChangeSysEvent, BroadcastFuncChange, ReportDevicePlugSysEvent.
  step_preserve.
Qed.

Lemma shown_as_UserChangeProcess s ret s' :
  UserChangeProcess s = Some (ret, s') → shown_as s → shown_as s'.
Proof.
  unfold UserChangeProcess. intros Hu Hs.
  destruct (_ || _); [destruct (negb _); [done|]|]; injection Hu as Hu; apply after_pair in Hu as ->.
  - by apply shown_as_apply_user_change.
  - revert Hs. apply preserves_bind; [step_preserve|]. step_preserve.
Qed.

Lemma shown_as_step s s' : step s s' → shown_as s → shown_as s'.
Proof.
  destruct 1 as [status s|id task s _|funcs s|func s|b s|b s|ret s s1 Hu|funcs s|get s|s|s|hs args s];
    try match goal with |- _ → shown_as (after ?m ?s) =>
      revert s; change (preserves shown_as m) end.
  - unfold HandleEvent, ProcessStatus, ProcessFunctionSwitchWindow. step_preserve.
  - unfold fire. step_preserve.
  - unfold SetCurrentFunctions, ReportUsbOperationFaultSysEvent. step_preserve.
  - step_preserve.
  - unfold SetPhyConnectState. step_preserve.
  - unfold SetChargeFlag. step_preserve.
  - by apply (shown_as_UserChangeProcess _ ret).
  - step_preserve.
  - unfold InitUsbDeviceInterface. step_preserve.
  - unfold Init. step_preserve.
  - unfold Stop. step_preserve.
  - unfold Dump, DumpSetFunc, DumpGetSupportFunc, dump_current. step_preserve.
Qed.

Lemma shown_as_rtc s s' : rtc step s s' → shown_as s → shown_as s'.
Proof. induction 1; eauto using shown_as_step. Qed.
End Protocol.

(** *** What the manager promises to its window *)
Section WindowUse.
Context (R : bool → Win → Prop) `{!WindowProtocol Win R}.

Definition wanted_as s : Prop := R (connected_ s) (window s).

Lemma wanted_as_modify (f : st → st) :
  (∀ s, connected_ (f s) = connected_ s ∧ window (f s) = window s) →
  preserves wanted_as (modify f).
Proof. intros Hf s Hs. unfold wanted_as. rewrite after_modify. by destruct (Hf s) as [-> ->]. Qed.
Lemma wanted_as_on_hdi {A} (m : ST H A) : preserves wanted_as (on_hdi m).
Proof. intros s Hs. unfold after, on_hdi. by destruct (m (hdi s)). Qed.
Lemma wanted_as_on_notifier {A} (m : ST N A) : preserves wanted_as (on_notifier m).
Proof. intros s Hs. unfold after, on_notifier. by destruct (m (notifier s)). Qed.
Lemma wanted_as_on_timers {A} (m : ST T A) : preserves wanted_as (on_timers m).
Proof. intros s Hs. unfold after, on_timers. by destruct (m (timers s)). Qed.
Lemma wanted_as_emit e : preserves wanted_as (emit e).
Proof. by apply wanted_as_modify. Qed.

Lemma after_on_window {A} (m : ST Win A) s :
  after (on_window m) s = set_window (after m (window s)) s.
Proof. unfold after, on_window. by destruct (m (window s)). Qed.

Lemma wanted_as_Init : preserves wanted_as (on_window window_Init).
Proof. intros s Hs. unfold wanted_as. rewrite after_on_window. by apply window_init_keeps. Qed.
Lemma wanted_as_Dismiss : preserves wanted_as (on_window window_Dismiss).
Proof.
  intros s Hs. unfold wanted_as. rewrite after_on_window. by apply (dismiss_any (connected_ s)).
Qed.

#[local] Hint Extern 1 (preserves wanted_as (modify _)) =>
  (apply wanted_as_modify; intros; split; reflexivity) : preserve.
#[local] Hint Resolve wanted_as_on_hdi wanted_as_on_notifier wanted_as_on_timers wanted_as_emit
  wanted_as_Init wanted_as_Dismiss : preserve.

Lemma wanted_as_ProcessFunctionNotifier c f : preserves wanted_as (ProcessFunctionNotifier c f).
Proof. unfold ProcessFunctionNotifier. step_preserve. Qed.
Lemma wanted_as_BroadcastFuncChange c f : preserves wanted_as (BroadcastFuncChange c f).
Proof. unfold BroadcastFuncChange, ReportDevicePlugSysEvent. step_preserve. Qed.
Lemma wanted_as_GetCurrentFunctions f : preserves wanted_as (GetCurrentFunctions f).
Proof. unfold GetCurrentFunctions. step_preserve. Qed.
#[local] Hint Resolve wanted_as_ProcessFunctionNotifier wanted_as_BroadcastFuncChange
  wanted_as_GetCurrentFunctions : preserve.
Lemma wanted_as_UpdateFunctions f : preserves wanted_as (UpdateFunctions f).
Proof. unfold UpdateFunctions, ReportFuncChangeSysEvent. step_preserve. Qed.
Lemma wanted_as_apply_user_change f : preserves wanted_as (apply_user_change f).
Proof. unfold apply_user_change, ReportFuncChangeSysEvent. step_preserve. Qed.
#[local] Hint Resolve wanted_as_UpdateFunctions wanted_as_apply_user_change : preserve.

(** The state during the connect task: connected, so that the window may be popped up. *)
Definition plugged_in s : Prop := connected_ s = true ∧ R true (window s).

Lemma plugged_in_modify (f : st → st) :
  (∀ s, connected_ (f s) = connected_ s ∧ window (f s) = window s) → preserves plugged_in (modify f).
Proof. intros Hf s Hs. unfold plugged_in. rewrite after_modify. by destruct (Hf s) as [-> ->]. Qed.
Lemma plugged_in_on_hdi {A} (m : ST H A) : preserves plugged_in (on_hdi m).
Proof. intros s Hs. unfold after, on_hdi. by destruct (m (hdi s)). Qed.
Lemma plugged_in_on_notifier {A} (m : ST N A) : preserves plugged_in (on_notifier m).
Proof. intros s Hs. unfold after, on_notifier. by destruct (m (notifier s)). Qed.
Lemma plugged_in_emit e : preserves plugged_in (emit e).
Proof. by apply plugged_in_modify. Qed.
Lemma plugged_in_window c : preserves plugged_in (ProcessFunctionSwitchWindow c).
Proof.
  intros s [Hc Hs]. unfold ProcessFunctionSwitchWindow, plugged_in.
  destruct c; autorewrite with st; rewrite after_on_window; simpl; (split; [done|]).
  - by apply pop_up_keeps.
  - by apply (dismiss_any true).
Qed.

#[local] Hint Extern 1 (preserves plugged_in (modify _)) =>
  (apply plugged_in_modify; intros; split; reflexivity) : preserve.
#[local] Hint Resolve plugged_in_on_hdi plugged_in_on_notifier plugged_in_emit plugged_in_window : preserve.

Lemma wanted_as_connect_task : preserves wanted_as connect_task.
Proof.
  intros s Hs. unfold connect_task. rewrite after_bind. rewrite after_modify.
  assert (Hp : plugged_in (set_connected_ true s)).
  { split; [done|]. unfold wanted_as in Hs. simpl. destruct (connected_ s); [done|by apply plug_in]. }
  match goal with |- wanted_as (after ?m _) => assert (Hm : preserves plugged_in m) end.
  { unfold GetCurrentFunctions, ProcessFuncChange, BroadcastFuncChange, ReportDevicePlugSysEvent,
      ProcessFunctionNotifier. step_preserve. }
  destruct (Hm _ Hp) as [Hc HR]. unfold wanted_as. by rewrite Hc.
Qed.

(** The state during the disconnect task, before the window is dismissed. *)
Definition unplugging s : Prop :=
  connected_ s = false ∧ isDisableDialog_ s = false ∧ ∃ c, R c (window s).

Lemma unplugging_modify (f : st → st) :
  (∀ s, connected_ (f s) = connected_ s ∧ isDisableDialog_ (f s) = isDisableDialog_ s ∧
        window (f s) = window s) → preserves unplugging (modify f).
Proof. intros Hf s Hs. unfold unplugging. rewrite after_modify. by destruct (Hf s) as (-> & -> & ->). Qed.
Lemma unplugging_on_hdi {A} (m : ST H A) : preserves unplugging (on_hdi m).
Proof. intros s Hs. unfold after, on_hdi. by destruct (m (hdi s)). Qed.

Lemma unplugging_ProcessFuncChange f s :
  unplugging s → wanted_as (after (ProcessFuncChange false f) s).
Proof.
  intros (Hc & Hd & c & HR). unfold ProcessFuncChange, BroadcastFuncChange, ReportDevicePlugSysEvent,
    emit.
  autorewrite with st. simpl isDisableDialog_. rewrite Hd. cbn [negb].
  apply wanted_as_ProcessFunctionNotifier. unfold wanted_as, ProcessFunctionSwitchWindow.
  autorewrite with st. rewrite after_on_window. simpl. by apply (dismiss_any c).
Qed.

Lemma wanted_as_disconnect_task : preserves wanted_as disconnect_task.
Proof.
  intros s Hs. unfold disconnect_task.
  do 2 (rewrite after_bind, after_modify). rewrite after_bind, after_gets, result_gets.
  assert (Hu : unplugging (set_isDisableDialog_ false (set_connected_ false s))).
  { split_and!; [done..|]. by exists (connected_ s). }
  generalize dependent (set_isDisableDialog_ false (set_connected_ false s)). intros s1 Hu.
  rewrite after_bind. rewrite after_bind, after_gets. apply unplugging_ProcessFuncChange.
  revert Hu. match goal with |- _ → unplugging (after ?m _) => assert (Hm : preserves unplugging m) end;
    [|by apply Hm].
  step_preserve; first [apply unplugging_on_hdi | by apply unplugging_modify].
Qed.

Lemma wanted_as_run_task task : preserves wanted_as (run_task task).
Proof. destruct task; [apply wanted_as_connect_task|apply wanted_as_disconnect_task]. Qed.
#[local] Hint Resolve wanted_as_run_task : preserve.

Lemma wanted_as_UserChangeProcess s ret s' :
  UserChangeProcess s = Some (ret, s') → wanted_as s → wanted_as s'.
Proof.
  unfold UserChangeProcess. intros Hu Hs.
  destruct (_ || _); [destruct (negb _); [done|]|]; injection Hu as Hu; apply after_pair in Hu as ->.
  - by apply wanted_as_apply_user_change.
  - revert Hs. apply preserves_bind; [step_preserve|]. step_preserve.
Qed.

Lemma wanted_as_step s s' : step s s' → wanted_as s → wanted_as s'.
Proof.
  destruct 1 as [status s|id task s _|funcs s|func s|b s|b s|ret s s1 Hu|funcs s|get s|s|s|hs args s];
    try match goal with |- _ → wanted_as (after ?m ?s) =>
      revert s; change (preserves wanted_as m) end.
  - unfold HandleEvent, ProcessStatus, ProcessFunctionSwitchWindow. step_preserve.
  - unfold fire. step_preserve.
  - unfold SetCurrentFunctions, ReportUsbOperationFaultSysEvent. step_preserve.
  - step_preserve.
  - unfold SetPhyConnectState. step_preserve.
  - unfold SetChargeFlag. step_preserve.
  - by apply (wanted_as_UserChangeProcess _ ret).
  - step_preserve.
  - unfold InitUsbDeviceInterface. step_preserve.
  - unfold Init. step_preserve.
  - unfold Stop. step_preserve.
  - unfold Dump, DumpSetFunc, DumpGetSupportFunc, dump_current. step_preserve.
Qed.
End WindowUse.

Context `{!TimerLaws T DelayTask}.

Lemma on_timers_unregister id s :
  ∃ t, after (on_timers (timer_Unregister id)) s = set_timers t s ∧
    pending t = delete id (pending (timers s)).
Proof.
  exists (after (timer_Unregister id) (timers s)). rewrite unregister_pending. split; [|done].
  unfold after, on_timers. by destruct (timer_Unregister id (timers s)).
Qed.

Lemma on_timers_register task delay s :
  ∃ t id, on_timers (timer_Register task delay true) s = (id, set_timers t s) ∧
    pending (timers s) !! id = None ∧ pending t = <[id := task]> (pending (timers s)).
Proof.
  exists (after (timer_Register task delay true) (timers s)),
    (result (timer_Register task delay true) (timers s)).
  rewrite register_fresh, register_pending. split_and!; [|done..].
  unfold after, result, on_timers. by destruct (timer_Register task delay true (timers s)).
Qed.

(** A status event: the remembered task is cancelled, and one is registered exactly when
    the status contradicts the connection; the connection itself, the functions and the
    HDC flag stay, and nothing is published. *)
Lemma HandleEvent_after status s (Hp : usbDeviceInterface_ s = true) :
  ∃ g d w t id, after (HandleEvent status) s =
    set_delayDisconnTimerId_ id (set_timers t
      (set_gadgetConnected_ g (set_isDisableDialog_ d (set_window w s)))) ∧
    if Bool.eqb (connected_ s) (wanted status)
    then pending t = delete (delayDisconnTimerId_ s) (pending (timers s)) ∧
         id = delayDisconnTimerId_ s
    else pending t = <[id := wanted_task status]>
           (delete (delayDisconnTimerId_ s) (pending (timers s))).
Proof.
  destruct (HandleEvent_reschedule status s Hp) as (g & d & w & ->). exists g, d, w.
  unfold reschedule. autorewrite with st. simpl.
  match goal with |- context [on_timers (timer_Unregister ?id)] =>
    match goal with |- context [after (on_timers (timer_Unregister id)) ?s] =>
      destruct (on_timers_unregister id s) as (t & -> & Ht) end end. simpl in *.
  destruct (Bool.eqb _ _); [by exists t, (delayDisconnTimerId_ s)|].
  rewrite after_bind. unfold result, after. simpl.
  match goal with |- context [on_timers (timer_Register ?k ?d true) ?s] =>
    destruct (on_timers_register k d s) as (t' & id & -> & _ & Ht') end. simpl in *.
  exists t', id. by rewrite <- Ht.
Qed.

Lemma one_timer_HandleEvent status s : one_timer s → one_timer (after (HandleEvent status) s).
Proof.
  intros Hs. destruct (usbDeviceInterface_ s) eqn:Hp; [|by rewrite HandleEvent_absent].
  destruct (HandleEvent_after status s Hp) as (g & d & w & t & id & -> & Ht).
  intros id' task. simpl. destruct (Bool.eqb _ _).
  - destruct Ht as [-> ->]. intros [Hne Hl]%lookup_delete_Some. by apply Hs in Hl.
  - rewrite Ht, lookup_insert. case_decide; [done|]. intros [Hne Hl]%lookup_delete_Some. by apply Hs in Hl.
Qed.

Lemma fire_after id task s :
  ∃ t, after (fire id task) s = after (run_task task) (set_timers t s) ∧
    pending t = delete id (pending (timers s)).
Proof.
  unfold fire. rewrite after_bind. destruct (on_timers_unregister id s) as (t & -> & Ht). by exists t.
Qed.

Lemma one_timer_initial s : initial s → one_timer s.
Proof. intros (_ & _ & Hp) ??. by rewrite Hp. Qed.

Lemma one_timer_rtc s s' : rtc step s s' → one_timer s → one_timer s'.
Proof.
  assert (Hsame : ∀ s s', same_timers s s' → one_timer s → one_timer s').
  { unfold one_timer. by intros ?? [-> ->]. }
  intros Hr. induction Hr as [|s s1 s' Hstep _ IH]; intros Hs; [done|].
  apply IH. clear IH. destruct Hstep as [status s|id task s _|funcs s|func s|b s|b s|ret s s1 Hu
    |funcs s|get s|s|s|hs args s].
  - by apply one_timer_HandleEvent.
  - destruct (fire_after id task s) as (t & -> & Ht).
    apply (Hsame (set_timers t s)); [by apply same_run_task|].
    intros id' task'. simpl. rewrite Ht. intros [Hne Hl]%lookup_delete_Some. by apply Hs in Hl.
  - by apply (Hsame s); [apply same_SetCurrentFunctions|].
  - by apply (Hsame s); [apply same_UpdateFunctions|].
  - exact Hs.
  - exact Hs.
  - by apply (Hsame s); [apply (same_UserChangeProcess _ _ _ Hu)|].
  - by apply (Hsame s); [apply quiet_same_timers, quiet_GetCurrentFunctions|].
  - by apply (Hsame s); [apply quiet_same_timers, quiet_InitUsbDeviceInterface|].
  - by apply (Hsame s); [apply quiet_same_timers, quiet_on_window|].
  - by apply (Hsame s); [apply quiet_same_timers, quiet_Stop|].
  - by apply (Hsame s); [apply quiet_same_timers, quiet_Dump|].
Qed.

(** At most one connection task is pending, and it is the one whose identifier the
    manager remembers; so cancelling the remembered task leaves none behind. *)
Theorem one_timer_invariant s s' id task (Hi : initial s) (Hr : rtc step s s')
    (Hl : pending (timers s') !! id = Some task) :
  id = delayDisconnTimerId_ s'.
Proof. apply (one_timer_rtc s s' Hr) in Hl; [done|]. by apply one_timer_initial. Qed.

(** *** Debouncing *)

(** The delay elapses: the pending tasks run (there is at most one). *)
Definition elapse (s : st) : st :=
  foldl (λ s p, after (fire p.1 p.2) s) s (map_to_list (pending (timers s))).

(** A burst of driver statuses. *)
Definition burst (statuses : list Z) (s : st) : st :=
  foldl (λ s status, after (HandleEvent status) s) s statuses.

Lemma burst_keeps statuses : ∀ s, usbDeviceInterface_ s = true → one_timer s →
  let s' := burst statuses s in
  usbDeviceInterface_ s' = true ∧ one_timer s' ∧ connected_ s' = connected_ s ∧ log s' = log s ∧
  currentFunctions_ s' = currentFunctions_ s ∧ hasHdcNotifier_ s' = hasHdcNotifier_ s.
Proof.
  induction statuses as [|status statuses IH]; intros s Hp Ho s'; [done|].
  unfold s'. change (burst (status :: statuses) s) with (burst statuses (after (HandleEvent status) s)).
  pose proof (one_timer_HandleEvent status s Ho) as Ho'.
  destruct (HandleEvent_after status s Hp) as (g & d & w & t & id & Heq & _).
  rewrite Heq in *. clear Heq. set (s1 := set_delayDisconnTimerId_ id _) in *.
  exact (IH s1 Hp Ho').
Qed.

(** C34: debouncing, in every reachable state. After any burst of statuses that ends in [last], once the delay has
    elapsed the device is connected exactly when [last] is "up"; and when that is the
    connection it had before the burst, the burst was a glitch: no event at all was
    published, and the functions and the HDC notification are unchanged. *)
Theorem debounce statuses last s0 s (Hi : initial s0) (Hr : rtc step s0 s)
    (Hp : usbDeviceInterface_ s = true) :
  let s' := elapse (burst (statuses ++ [last]) s) in
  connected_ s' = (last =? ACT_UPDEVICE) ∧
  (connected_ s = (last =? ACT_UPDEVICE) →
     log s' = log s ∧ currentFunctions_ s' = currentFunctions_ s ∧
     hasHdcNotifier_ s' = hasHdcNotifier_ s) ∧
  (connected_ s ≠ (last =? ACT_UPDEVICE) →
     ∃ func, log s' = log s ++ [UsbState (last =? ACT_UPDEVICE) (func_params func);
                                PlugInOut func (last =? ACT_UPDEVICE)] ∧
       currentFunctions_ s' = func).
Proof.
  assert (Ho : one_timer s) by (by eapply one_timer_rtc, one_timer_initial). clear Hi Hr s0.
  unfold burst. rewrite foldl_app. cbn [foldl]. fold (burst statuses s). fold (wanted last).
  destruct (burst_keeps statuses s Hp Ho) as (Hp1 & Ho1 & Hc1 & Hl1 & Hf1 & Hh1).
  set (s1 := burst statuses s) in *. rewrite <- Hc1, <- Hl1, <- Hf1, <- Hh1. clearbody s1.
  destruct (HandleEvent_after last s1 Hp1) as (g & d & w & t & id & -> & Ht).
  assert (Hnone : delete (delayDisconnTimerId_ s1) (pending (timers s1)) = ∅).
  { apply map_eq. intros i. rewrite lookup_empty. destruct (delete _ _ !! i) eqn:E; [|done].
    apply lookup_delete_Some in E as [Hne E]. by apply Ho1 in E. }
  unfold elapse. simpl. destruct (Bool.eqb (connected_ s1) (wanted last)) eqn:E.
  - apply eqb_prop in E. destruct Ht as [-> ->]. rewrite Hnone, map_to_list_empty. simpl.
    split_and!; [done..|]. by intros [].
  - apply eqb_false_iff in E. rewrite Ht, Hnone, insert_empty, map_to_list_singleton. simpl.
    match goal with |- context [fire id ?k] => match goal with |- context [after (fire id k) ?s] =>
      destruct (fire_after id k s) as (t' & -> & _) end end.
    unfold wanted_task. destruct (wanted last); simpl.
    + match goal with |- context [after connect_task ?s] =>
        destruct (connect_task_after s) as (cur & h & n & w' & ->) end. simpl.
      split_and!; [done|done|]. intros _. by exists cur.
    + match goal with |- context [after disconnect_task ?s] =>
        destruct (disconnect_task_after s) as (h & n & w' & ->) end. simpl.
      split_and!; [done|done|]. intros _. by eexists.
Qed.

(** *** Functions *)

(** A request to set the functions, on every branch. No interface: refused, nothing
    changes. The driver's query fails, or its update fails: a fault event is published and
    the error returned (an unsupported one mapped), and the manager's functions stay. The
    driver already has the functions: success without an update. Otherwise the manager has
    exactly the requested functions, and publishes the change (the state broadcast is held
    back only while a gadget connection is still being debounced). *)
Theorem SetCurrentFunctions_spec funcs s :
  let '(r, s') := SetCurrentFunctions funcs s in
  let '((gret, last), h1) := hdi_GetCurrentFunctions 0 (hdi s) in
  let '(sret, h2) := hdi_SetCurrentFunctions funcs h1 in
  let fault code text := set_log (log s ++ [OperationFault "FUNCTION_CHANGED" code text]) in
  if negb (usbDeviceInterface_ s) then r = UEC_SERVICE_INVALID_VALUE ∧ s' = s
  else if failed gret then
    r = UEC_SERVICE_INVALID_VALUE ∧
    s' = fault UEC_SERVICE_INVALID_VALUE "DevIntfGetFunc is failed"%string (set_hdi h1 s)
  else if last =? funcs then r = UEC_OK ∧ s' = set_hdi h1 s
  else if failed sret then
    r = (if sret =? HDF_ERR_NOT_SUPPORT then UEC_SERVICE_FUNCTION_NOT_SUPPORT else sret) ∧
    s' = fault sret "DevIntfSetFunc is failed"%string (set_hdi h2 s)
  else
    r = UEC_OK ∧ hdi s' = h2 ∧ currentFunctions_ s' = funcs ∧ connected_ s' = connected_ s ∧
    log s' = log s ++
      (if funcs =? currentFunctions_ s then []
       else FunctionChanged (currentFunctions_ s) funcs ::
         (if negb (connected_ s) && gadgetConnected_ s then []
          else [UsbState (connected_ s) (func_params funcs); PlugInOut funcs (connected_ s)])).
Proof.
  destruct (SetCurrentFunctions funcs s) as [r s'] eqn:E. revert E.
  unfold SetCurrentFunctions, ReportUsbOperationFaultSysEvent, emit, on_hdi.
  destruct (hdi_GetCurrentFunctions 0 (hdi s)) as [[gret last] h1] eqn:Eget.
  destruct (hdi_SetCurrentFunctions funcs h1) as [sret h2] eqn:Eset.
  rewrite bind_unfold. simpl. destruct (usbDeviceInterface_ s) eqn:Ep; simpl;
    [|by st_unfold; intros [= <- <-]].
  rewrite bind_unfold, Eget. simpl.
  destruct (failed gret); [by st_unfold; intros [= <- <-]; simpl; rewrite ?Ep|].
  destruct (last =? funcs); [by st_unfold; intros [= <- <-]; simpl; rewrite ?Ep|].
  rewrite bind_unfold. simpl. rewrite Eset. simpl.
  destruct (failed sret); [by st_unfold; intros [= <- <-]; simpl; rewrite ?Ep|].
  rewrite bind_unfold. simpl. destruct (UpdateFunctions_after funcs (set_hdi h2 (set_hdi h1 s))) as [n Hn].
  unfold after in Hn. simpl in Hn. rewrite Hn. intros [= <- <-]. simpl.
  destruct (funcs =? currentFunctions_ s) eqn:Ef; simpl; [|done].
  bsimp. by rewrite app_nil_r.
Qed.

(** The media bits are removed and the others kept. *)
Lemma without_media_bits f k : 0 <= k < 32 →
  Z.testbit (without_media f) k = Z.testbit f k && negb ((k =? 3) || (k =? 4)).
Proof.
  intros Hk. unfold without_media, USB_FUNCTION_MTP, USB_FUNCTION_PTP.
  rewrite !Z.land_spec, !testbit_u32_lnot_bit by lia. unfold u32.
  rewrite Z.mod_pow2_bits_low by lia.
  by destruct (Z.testbit f k), (k =? 3), (k =? 4).
Qed.

(** When the disconnect task has run, the device is not connected and neither media
    function is left, whatever the driver answered: files stay reachable only after the
    user chooses so again. Unless the functions fall back to storage, every other function
    is kept. *)
Theorem disconnect_clears_media s k (Hk : 0 <= k < 32) :
  let s' := after disconnect_task s in
  connected_ s' = false ∧
  has_func (currentFunctions_ s') USB_FUNCTION_MTP = false ∧
  has_func (currentFunctions_ s') USB_FUNCTION_PTP = false ∧
  (currentFunctions_ s' = USB_FUNCTION_STORAGE ∨
   (k ≠ 3 → k ≠ 4 → Z.testbit (u32 (currentFunctions_ s')) k = Z.testbit (u32 (currentFunctions_ s)) k)).
Proof.
  assert (Hbit : ∀ f j, 0 <= j → has_func f (Z.shiftl 1 j) = Z.testbit (u32 f) j).
  { intros f j Hj. unfold has_func. by rewrite land_bit, negb_involutive. }
  assert (Hm : ∀ f j, 0 <= j < 32 →
    Z.testbit (u32 (i32 (without_media f))) j = Z.testbit (u32 f) j && negb ((j =? 3) || (j =? 4))).
  { intros f j Hj. assert (Hu : is_u32 (without_media f)).
    { apply land_is_u32, u32_range. }
    rewrite u32_i32 by done. rewrite without_media_bits by done. unfold u32.
    by rewrite Z.mod_pow2_bits_low by lia. }
  destruct (disconnect_task_after s) as (h & n & w & ->). simpl. unfold disconnected_functions.
  split; [done|]. unfold USB_FUNCTION_MTP, USB_FUNCTION_PTP in *. rewrite !Hbit by lia.
  repeat case_if; rewrite ?Hm by lia; bsimp; split_and!; auto.
  - by rewrite andb_false_r.
  - by rewrite andb_false_r.
  - right. intros H3' H4'. rewrite (proj2 (Z.eqb_neq k 3)), (proj2 (Z.eqb_neq k 4)) by done.
    by rewrite andb_true_r.
Qed.

Lemma apply_user_change_spec funcs s ret h
    (Hset : hdi_SetCurrentFunctions funcs (hdi s) = (ret, h)) :
  ∃ s', apply_user_change funcs s = (ret, s') ∧ hdi s' = h ∧
    currentFunctions_ s' = (if ret =? ERR_OK then funcs else currentFunctions_ s) ∧
    log s' = log s ++
      (if (ret =? ERR_OK) && negb (funcs =? currentFunctions_ s) then
         [FunctionChanged funcs funcs; UsbState (connected_ s) (func_params funcs);
          PlugInOut funcs (connected_ s)]
       else []).
Proof.
  exists (after (apply_user_change funcs) s).
  assert (Hh : on_hdi (hdi_SetCurrentFunctions funcs) s = (ret, set_hdi h s)).
  { unfold on_hdi. by rewrite Hset. }
  assert (Hr : result (on_hdi (hdi_SetCurrentFunctions funcs)) s = ret) by (unfold result; by rewrite Hh).
  assert (Ha : after (on_hdi (hdi_SetCurrentFunctions funcs)) s = set_hdi h s) by (unfold after; by rewrite Hh).
  split.
  - rewrite (surjective_pairing (apply_user_change funcs s)). f_equal.
    fold (result (apply_user_change funcs) s). unfold apply_user_change. autorewrite with st. exact Hr.
  - unfold apply_user_change, ReportFuncChangeSysEvent, emit. autorewrite with st.
    rewrite Hr, Ha. simpl.
    destruct (ret =? ERR_OK), (funcs =? currentFunctions_ s) eqn:Ef; simpl; autorewrite with st;
      rewrite ?BroadcastFuncChange_after; simpl;
      match goal with |- context [after (ProcessFunctionNotifier ?c ?f) ?s] =>
        destruct (ProcessFunctionNotifier_after c f s) as [n ->] end; simpl;
      rewrite <- ?app_assoc, ?app_nil_r; bsimp; done.
Qed.

(** A user switch on a device with a media function: when the driver accepts the reduced
    functions, the manager has them, tells the driver's result, and broadcasts the state;
    but the change event it reports gives the new functions as the old ones too, since the
    member is assigned before it is read for the event. *)
Theorem UserChangeProcess_media s ret h
    (Hp : usbDeviceInterface_ s = true)
    (Hm : has_func (currentFunctions_ s) USB_FUNCTION_MTP || has_func (currentFunctions_ s) USB_FUNCTION_PTP = true)
    (Hset : hdi_SetCurrentFunctions (user_change_functions (currentFunctions_ s)) (hdi s) = (ret, h)) :
  let func := user_change_functions (currentFunctions_ s) in
  ∃ s', UserChangeProcess s = Some (ret, s') ∧ hdi s' = h ∧
    currentFunctions_ s' = (if (ret =? ERR_OK) then func else currentFunctions_ s) ∧
    log s' = log s ++
      (if (ret =? ERR_OK) && negb (func =? currentFunctions_ s) then
         [FunctionChanged func func; UsbState (connected_ s) (func_params func);
          PlugInOut func (connected_ s)]
       else []).
Proof.
  intros func. destruct (apply_user_change_spec func s ret h Hset) as (s' & He & Hs').
  exists s'. split; [|done]. unfold UserChangeProcess. by rewrite Hm, Hp, <- He.
Qed.
End DeviceMachine.

(** ** The theorems on a concrete device

    A driver that accepts every function word and remembers it, timers that count up. *)
Section Samples.
#[local] Existing Instance sample_codes.
#[local] Instance sample_hdi : DeviceHdi Z := {
  hdi_GetCurrentFunctions _ := λ h, ((0, h), h);
  hdi_SetCurrentFunctions f := λ _, (0, f);
  hdi_BindUsbdDeviceSubscriber := λ h, (0, h);
  hdi_UnbindUsbdDeviceSubscriber := λ h, (0, h);
}.
#[local] Instance sample_window : FunctionWindow unit := {
  window_Init := λ w, (0, w); window_PopUp := λ w, (true, w); window_Dismiss := λ w, (true, w) }.
#[local] Instance sample_notifier : NotifierOps (list string) := {
  notify_Send name := λ l, (tt, l ++ [name]); notify_Cancel _ := λ _, (tt, []);
  notify_SendHdc := λ l, (tt, l ++ ["hdc"%string]); notify_CancelHdc := λ l, (tt, l) }.

Definition sample : @st Z unit (list string) (counting_timers DelayTask) :=
  mk_st (Z.lor FUNCTION_HDC FUNCTION_MTP) false false false false false true 0 false true
    (Z.lor FUNCTION_HDC FUNCTION_MTP) tt [] (CountingTimers 1 ∅) [].

Lemma function_string_roundtrip_witness :
  settable_word 12 ∧ ConvertFromString (ConvertToString 12) = 12 ∧ IsSettableFunctions 12 = true.
Proof. split; [done|]. by apply (function_string_roundtrip 12). Defined.

Lemma StringToInteger_digits_witness :
  StringToInteger "-2147483648" = Some INT32_MIN ∧
  let v := if true then - digits_value [2;1;4;7;4;8;3;6;4;9]%nat else digits_value [2;1;4;7;4;8;3;6;4;9]%nat in
  StringToInteger (if true then String "-"%char (digits_string [2;1;4;7;4;8;3;6;4;9]%nat)
                   else digits_string [2;1;4;7;4;8;3;6;4;9]%nat) =
    if (INT32_MIN <=? v) && (v <=? INT32_MAX) then Some v else None.
Proof.
  split; [by vm_compute|].
  apply (StringToInteger_digits true [2;1;4;7;4;8;3;6;4;9]%nat); [|done].
  repeat constructor; lia.
Defined.

Lemma StringToInteger_range_witness : StringToInteger " 42" = Some 42 ∧ is_i32 42.
Proof. split; [by vm_compute|]. by apply (StringToInteger_range " 42"). Defined.

Definition plugged : @st Z unit (list string) (counting_timers DelayTask) :=
  after (fire 1 ConnectTask) (after (HandleEvent ACT_UPDEVICE) sample).

Lemma initial_sample : initial sample.
Proof. done. Qed.

Lemma plugged_reachable : rtc step sample plugged.
Proof.
  eapply rtc_l; [apply (step_event ACT_UPDEVICE)|].
  apply rtc_once, step_fire. by vm_compute.
Qed.

Lemma hdc_notification_invariant_witness :
  connected_ plugged = true ∧ has_func (currentFunctions_ plugged) USB_FUNCTION_HDC = true ∧
  hasHdcNotifier_ plugged = connected_ plugged && has_func (currentFunctions_ plugged) USB_FUNCTION_HDC.
Proof.
  split_and!; [by vm_compute|by vm_compute|].
  apply (hdc_notification_invariant sample plugged initial_sample plugged_reachable).
Defined.

Lemma one_timer_invariant_witness :
  pending (timers (after (HandleEvent ACT_UPDEVICE) sample)) !! 1 = Some ConnectTask ∧
  1 = delayDisconnTimerId_ (after (HandleEvent ACT_UPDEVICE) sample).
Proof.
  split; [by vm_compute|].
  refine (one_timer_invariant sample _ 1 ConnectTask initial_sample _ _).
  - apply rtc_once, step_event.
  - by vm_compute.
Defined.

(** The cable drops and comes back within the delay. *)
Lemma debounce_witness :
  connected_ plugged = true ∧
  let s' := elapse (burst ([ACT_DOWNDEVICE] ++ [ACT_UPDEVICE]) plugged) in
  connected_ s' = (ACT_UPDEVICE =? ACT_UPDEVICE) ∧
  (connected_ plugged = (ACT_UPDEVICE =? ACT_UPDEVICE) →
     log s' = log plugged ∧ currentFunctions_ s' = currentFunctions_ plugged ∧
     hasHdcNotifier_ s' = hasHdcNotifier_ plugged) ∧
  (connected_ plugged ≠ (ACT_UPDEVICE =? ACT_UPDEVICE) →
     ∃ func, log s' = log plugged ++ [UsbState (ACT_UPDEVICE =? ACT_UPDEVICE) (func_params func);
                                PlugInOut func (ACT_UPDEVICE =? ACT_UPDEVICE)] ∧
       currentFunctions_ s' = func).
Proof.
  split; [by vm_compute|].
  apply (debounce [ACT_DOWNDEVICE] ACT_UPDEVICE sample plugged initial_sample plugged_reachable).
  by vm_compute.
Defined.

Lemma disconnect_clears_media_witness :
  0 <= 2 < 32 ∧
  let s' := after disconnect_task plugged in
  connected_ s' = false ∧
  has_func (currentFunctions_ s') USB_FUNCTION_MTP = false ∧
  has_func (currentFunctions_ s') USB_FUNCTION_PTP = false ∧
  (currentFunctions_ s' = USB_FUNCTION_STORAGE ∨
   (2 ≠ 3 → 2 ≠ 4 → Z.testbit (u32 (currentFunctions_ s')) 2 = Z.testbit (u32 (currentFunctions_ plugged)) 2)).
Proof. split; [lia|]. apply (disconnect_clears_media plugged 2). lia. Defined.

Lemma UserChangeProcess_media_witness :
  let func := user_change_functions (currentFunctions_ sample) in
  func = FUNCTION_HDC ∧
  ∃ s', UserChangeProcess sample = Some (0, s') ∧ hdi s' = func ∧
    currentFunctions_ s' = (if 0 =? ERR_OK then func else currentFunctions_ sample) ∧
    log s' = log sample ++
      (if (0 =? ERR_OK) && negb (func =? currentFunctions_ sample) then
         [FunctionChanged func func; UsbState (connected_ sample) (func_params func);
          PlugInOut func (connected_ sample)]
       else []).
Proof. intros func. split; [by vm_compute|]. by apply (UserChangeProcess_media sample). Defined.
End Samples.
