(* ===== verification/ConnectionNotifier.v ===== *)
(** * The connection notifier

    [services/native/src/usb_connection_notifier.cpp]: the two notifications the service
    shows, one for the USB function in use and one for HDC debugging.

    The notification service of the system is the class [NotificationCenter]; what it shows
    is [posted].  The manager's HDC calls are proved to keep to the protocol the device
    manager promises ([HdcProtocol] of [Interfaces]), which makes the two together show
    exactly what the device manager means to.  The icon is not modelled. *)

From S2P Require Import Prelude UsbErrors UsbTypes Interfaces.
From S2P Require DeviceManager.

#[local] Set Default Goal Selector "!".

(** [usb_connection_notifier.cpp:53-54] [constants] *)
Definition NOTIFICATION_ID_ZERO : Z := 0.
Definition NOTIFICATION_ID_ONE : Z := 1.
Definition NOTIFICATION_NAME : string := "usb_service".
Definition NOTIFICATION_NAME_ONE : string := "usb_service1".
Definition g_uid : Z := 1018.
Definition DEFAULT_PARAM_VALUE : string := "charge,mtp,ptp".

(** [usb_connection_notifier.cpp:61-67] [SUPPORTED_FUNC] *)
Definition SUPPORTED_FUNC_NONE : Z := -1.
Definition SUPPORTED_FUNC_MTP : Z := 8.
Definition SUPPORTED_FUNC_PTP : Z := 16.
Definition SUPPORTED_FUNC_REVERSECHARGE : Z := Z.shiftl 1 30.

(** What a tap on the notification opens: the function dialog, with the functions it
    offers, or the settings page. *)
Inductive WantAgent := FunctionDialog (usbSupportedFunctions : Z) | DeveloperSettings.

(** The fields of a request that differ between the two notifications. *)
Record notification := mk_notification {
  n_id : Z;
  n_title : string;
  n_text : string;
  n_uid : Z;
  n_group : string;
  n_agent : WantAgent;
}.

(** The notification service and the resources of the dialog's package: [hap_strings] is
    [None] when the resource manager cannot be set up, and otherwise looks a name up. *)
Class NotificationCenter (C : Type) := {
  PublishNotification : notification → ST C Z;
  CancelNotification_id : Z → ST C Z;
  hap_strings : ST C (option (string → string));
}.

(** A notification service that works: a request is shown under its identifier, replacing
    the one shown there, until it is cancelled. *)
Class CenterLaws (C : Type) `{NotificationCenter C} := {
  posted : C → gmap Z notification;
  publish_posts n c : posted (after (PublishNotification n) c) = <[n_id n := n]> (posted c);
  cancel_removes id c : posted (after (CancelNotification_id id) c) = delete id (posted c);
  strings_posted c : posted (after hap_strings c) = posted c;
}.

Section Notifier.
Context {C Sys : Type}.

(** ** The notifier's state *)
(** [usb_connection_notifier.h:48-76] [UsbConnectionNotifier] the members; of the two requests only their identifiers are read again *)
Record st := mk_st {
  notifierMap : gmap string string;
  usbSupportedFunctions_ : Z;
  request_id : Z;
  requestHdc_id : Z;
  lastFunc_ : string;
  center : C;
  sys : Sys;
}.

Definition set_notifierMap (v : gmap string string) (s : st) : st :=
  mk_st v (usbSupportedFunctions_ s) (request_id s) (requestHdc_id s) (lastFunc_ s) (center s) (sys s).
Definition set_usbSupportedFunctions_ (v : Z) (s : st) : st :=
  mk_st (notifierMap s) v (request_id s) (requestHdc_id s) (lastFunc_ s) (center s) (sys s).
Definition set_request_id (v : Z) (s : st) : st :=
  mk_st (notifierMap s) (usbSupportedFunctions_ s) v (requestHdc_id s) (lastFunc_ s) (center s) (sys s).
Definition set_requestHdc_id (v : Z) (s : st) : st :=
  mk_st (notifierMap s) (usbSupportedFunctions_ s) (request_id s) v (lastFunc_ s) (center s) (sys s).
Definition set_lastFunc_ (v : string) (s : st) : st :=
  mk_st (notifierMap s) (usbSupportedFunctions_ s) (request_id s) (requestHdc_id s) v (center s) (sys s).
Definition set_center (v : C) (s : st) : st :=
  mk_st (notifierMap s) (usbSupportedFunctions_ s) (request_id s) (requestHdc_id s) (lastFunc_ s) v (sys s).
Definition set_sys (v : Sys) (s : st) : st :=
  mk_st (notifierMap s) (usbSupportedFunctions_ s) (request_id s) (requestHdc_id s) (lastFunc_ s) (center s) v.

Context `{NotificationCenter C} `{SystemParams Sys}.

Definition on_center {A} (m : ST C A) : ST st A :=
  λ s, let '(a, c) := m (center s) in (a, set_center c s).

(** [usb_connection_notifier.cpp:167-195] [UsbConnectionNotifier::GetHapString] every key of the map gets its resource string *)
Definition GetHapString : ST st unit :=
  strings ← on_center hap_strings;
  match strings with
  | None => mret tt
  | Some f => modify (λ s, set_notifierMap (map_imap (λ k _, Some (f k)) (notifierMap s)) s)
  end.

(** [notifierMap\[key\]]: a missing key is inserted with an empty string. *)
Definition notifier_string (key : string) : ST st string :=
  m ← gets notifierMap;
  match m !! key with
  | Some v => mret v
  | None => modify (set_notifierMap (<[key := ""%string]> m)) ;; mret ""%string
  end.

(** [usb_connection_notifier.cpp:293-310] [UsbConnectionNotifier::GetSupportedFunctions] *)
Definition GetSupportedFunctions : ST st Z :=
  p ← gets sys;
  let supportedFuncStr :=
    GetStringParameter "const.usb_manager.supported_functions" DEFAULT_PARAM_VALUE p in
  mret (if str_contains "none" supportedFuncStr then SUPPORTED_FUNC_NONE
        else
          let mtp := if str_contains "mtp" supportedFuncStr then SUPPORTED_FUNC_MTP else 0 in
          let ptp := if str_contains "ptp" supportedFuncStr then SUPPORTED_FUNC_PTP else 0 in
          let reverseCharge :=
            if str_contains "reverseCharge" supportedFuncStr
            then SUPPORTED_FUNC_REVERSECHARGE else 0 in
          i32 (Z.lor mtp (Z.lor ptp reverseCharge))).

(** [usb_connection_notifier.cpp:197-215] [UsbConnectionNotifier::SetWantAgent] *)
Definition SetWantAgent : ST st WantAgent :=
  f ← gets usbSupportedFunctions_; mret (FunctionDialog f).

(** [usb_connection_notifier.cpp:217-234] [UsbConnectionNotifier::SetWantAgentHdc] *)
Definition SetWantAgentHdc : WantAgent := DeveloperSettings.

(** [usb_connection_notifier.cpp:236-273] [UsbConnectionNotifier::SendNotification] *)
Definition SendNotification (func : string) : ST st unit :=
  supported ← GetSupportedFunctions;
  modify (set_usbSupportedFunctions_ supported) ;;
  if supported <=? 0 then mret tt
  else
    modify (set_lastFunc_ func) ;;
    GetHapString ;;
    title ← notifier_string func;
    text ← notifier_string USB_FUNC_MORE;
    modify (set_request_id NOTIFICATION_ID_ZERO) ;;
    agent ← SetWantAgent;
    on_center (PublishNotification
      (mk_notification NOTIFICATION_ID_ZERO title text g_uid NOTIFICATION_NAME agent)) ;;
    mret tt.

(** [usb_connection_notifier.cpp:275-291] [UsbConnectionNotifier::CancelNotification] *)
Definition CancelNotification (isHost : bool) : ST st unit :=
  lastFunc ← gets lastFunc_;
  let reverse := String.eqb lastFunc USB_FUNC_REVERSE_CHARGE in
  if (isHost && negb reverse) || (negb isHost && reverse) then mret tt
  else
    modify (set_lastFunc_ ""%string) ;;
    notificationId ← gets request_id;
    on_center (CancelNotification_id notificationId) ;;
    mret tt.

(** [usb_connection_notifier.cpp:312-347] [UsbConnectionNotifier::SendHdcNotification] *)
Definition SendHdcNotification : ST st unit :=
  GetHapString ;;
  title ← notifier_string USB_HDC_NOTIFIER_TITLE;
  text ← notifier_string USB_HDC_NOTIFIER_CONTENT;
  modify (set_requestHdc_id NOTIFICATION_ID_ONE) ;;
  on_center (PublishNotification
    (mk_notification NOTIFICATION_ID_ONE title text g_uid NOTIFICATION_NAME_ONE SetWantAgentHdc)) ;;
  mret tt.

(** [usb_connection_notifier.cpp:349-358] [UsbConnectionNotifier::CancelHdcNotification] *)
Definition CancelHdcNotification : ST st unit :=
  notificationId ← gets requestHdc_id;
  on_center (CancelNotification_id notificationId) ;;
  mret tt.

(** The notifier implements the interface the managers use. *)
#[export] Instance notifier_ops : NotifierOps st := {
  notify_Send := SendNotification;
  notify_Cancel := CancelNotification;
  notify_SendHdc := SendHdcNotification;
  notify_CancelHdc := CancelHdcNotification;
}.

(** A freshly constructed notifier: a request's identifier is 0 until it is set. *)
Definition initial (s : st) : Prop :=
  request_id s = 0 ∧ requestHdc_id s = 0 ∧ lastFunc_ s = ""%string.
End Notifier.

(** ** What is shown *)
Section Shown.
Context {C Sys : Type} `{CenterLaws C} `{SystemParams Sys}.
Abbreviation st := (@st C Sys).
Implicit Types (s : st).

Lemma GetHapString_run s :
  ∃ m c, GetHapString s = (tt, set_notifierMap m (set_center c s)) ∧
    posted c = posted (center s).
Proof.
  pose proof (strings_posted (center s)) as Hp. unfold GetHapString, on_center.
  rewrite bind_unfold. unfold after in Hp. destruct (hap_strings (center s)) as [[f|] c]; simpl in *.
  - by eexists _, c.
  - exists (notifierMap s), c. by destruct s.
Qed.

Lemma notifier_string_run key s :
  ∃ m, notifier_string key s = (default ""%string (notifierMap s !! key), set_notifierMap m s).
Proof.
  unfold notifier_string. rewrite bind_unfold. simpl.
  destruct (notifierMap s !! key); simpl; [|by eexists].
  exists (notifierMap s). by destruct s.
Qed.

Lemma on_center_publish n s :
  ∃ r c, on_center (PublishNotification n) s = (r, set_center c s) ∧
    posted c = <[n_id n := n]> (posted (center s)).
Proof.
  rewrite <- (publish_posts n (center s)). unfold on_center, after.
  destruct (PublishNotification n (center s)) as [r c]. by exists r, c.
Qed.

Lemma on_center_cancel id s :
  ∃ r c, on_center (CancelNotification_id id) s = (r, set_center c s) ∧
    posted c = delete id (posted (center s)).
Proof.
  rewrite <- (cancel_removes id (center s)). unfold on_center, after.
  destruct (CancelNotification_id id (center s)) as [r c]. by exists r, c.
Qed.

(** The two notifications shown, and what the notifier remembers of them: notification 1 is
    the HDC one ([hdc]), notification 0 the function in use. *)
Record shows (hdc : bool) s : Prop := {
  shows_hdc : is_Some (posted (center s) !! NOTIFICATION_ID_ONE) ↔ hdc = true;
  shows_hdc_id : hdc = true → requestHdc_id s = NOTIFICATION_ID_ONE;
  shows_func : is_Some (posted (center s) !! NOTIFICATION_ID_ZERO) ↔ lastFunc_ s ≠ ""%string;
  shows_func_id : request_id s = NOTIFICATION_ID_ZERO;
}.

Lemma shows_initial s : initial s → posted (center s) = ∅ → shows false s.
Proof.
  intros (Hr & Hh & Hl) Hp. constructor; rewrite ?Hp, ?Hl, ?lookup_empty; try done;
    by split; [intros [? ?]|].
Qed.

(** What the four operations do. *)
Lemma SendNotification_run func s :
  let f := result GetSupportedFunctions s in
  if f <=? 0 then after (SendNotification func) s = set_usbSupportedFunctions_ f s
  else ∃ m c n,
    after (SendNotification func) s =
      set_request_id NOTIFICATION_ID_ZERO (set_notifierMap m (set_center c
        (set_lastFunc_ func (set_usbSupportedFunctions_ f s)))) ∧
    posted c = <[NOTIFICATION_ID_ZERO := n]> (posted (center s)) ∧
    n_agent n = FunctionDialog f.
Proof.
  intros f. unfold SendNotification, after. st_exec. fold (result GetSupportedFunctions s).
  fold f. change ((GetSupportedFunctions s).2) with s.
  destruct (f <=? 0); [done|]. st_exec.
  destruct (GetHapString_run (set_lastFunc_ func (set_usbSupportedFunctions_ f s))) as (m & c & -> & Hc).
  st_exec. do 2 (match goal with |- context [notifier_string ?k ?s] =>
    let m := fresh "m" in destruct (notifier_string_run k s) as (m & ->) end; st_exec).
  unfold SetWantAgent. st_exec.
  match goal with |- context [on_center (PublishNotification ?n) ?s] =>
    destruct (on_center_publish n s) as (r & c' & -> & Hp); exists m1, c', n end.
  simpl in Hp. rewrite Hc in Hp. simpl in Hp. split_and!; [by destruct s|done|done].
Qed.

Lemma CancelNotification_run isHost s :
  let s' := after (CancelNotification isHost) s in
  if Bool.eqb isHost (String.eqb (lastFunc_ s) USB_FUNC_REVERSE_CHARGE) then
    ∃ c, s' = set_center c (set_lastFunc_ ""%string s) ∧
      posted c = delete (request_id s) (posted (center s))
  else s' = s.
Proof.
  cbv zeta. unfold CancelNotification, after. st_exec.
  destruct isHost, (String.eqb (lastFunc_ s) USB_FUNC_REVERSE_CHARGE); cbn [Bool.eqb andb orb negb];
    try done; st_exec;
    match goal with |- context [on_center (CancelNotification_id ?n) ?s] =>
      destruct (on_center_cancel n s) as (r & c & -> & Hp); by exists c end.
Qed.

Lemma SendHdcNotification_run s :
  ∃ m c n, after SendHdcNotification s =
    set_requestHdc_id NOTIFICATION_ID_ONE (set_notifierMap m (set_center c s)) ∧
  posted c = <[NOTIFICATION_ID_ONE := n]> (posted (center s)).
Proof.
  unfold SendHdcNotification, after. st_exec.
  destruct (GetHapString_run s) as (m & c & -> & Hc).
  st_exec. do 2 (match goal with |- context [notifier_string ?k ?s] =>
    let m := fresh "m" in destruct (notifier_string_run k s) as (m & ->) end; st_exec).
  match goal with |- context [on_center (PublishNotification ?n) ?s] =>
    destruct (on_center_publish n s) as (r & c' & -> & Hp); exists m1, c', n end.
  simpl in Hp. rewrite Hc in Hp. split; [by destruct s|done].
Qed.

Lemma CancelHdcNotification_run s :
  ∃ c, after CancelHdcNotification s = set_center c s ∧
    posted c = delete (requestHdc_id s) (posted (center s)).
Proof.
  unfold CancelHdcNotification, after. st_exec.
  destruct (on_center_cancel (requestHdc_id s) s) as (r & c & -> & Hp). by exists c.
Qed.

Lemma lookup_other_is_Some i j (n : notification) (m : gmap Z notification) :
  i ≠ j → is_Some (<[i := n]> m !! j) ↔ is_Some (m !! j).
Proof. intros Hn. by rewrite lookup_insert_ne. Qed.

(** The notifier's side of the interface: the device manager's calls keep [shows]. *)
#[export] Instance notifier_protocol : HdcProtocol st shows.
Proof.
  constructor; simpl.
  - intros hdc name s Hname [Ha Hb Hc Hd]. pose proof (SendNotification_run name s) as Hr.
    cbv zeta in Hr. destruct (_ <=? 0); [rewrite Hr; by constructor|]. destruct Hr as (m & c' & n & -> & Hp & _).
    constructor; simpl; rewrite ?Hp; [by rewrite lookup_insert_ne|done| |done].
    rewrite lookup_insert_eq. by split.
  - intros hdc isHost s [Ha Hb Hc Hd]. pose proof (CancelNotification_run isHost s) as Hr. cbv zeta in Hr.
    destruct (Bool.eqb _ _); [|rewrite Hr; by constructor]. destruct Hr as (c' & -> & Hp).
    rewrite Hd in Hp.
    constructor; simpl; rewrite ?Hp; [by rewrite lookup_delete_ne|done| |done].
    rewrite lookup_delete_eq. split; [by intros [? ?]|done].
  - intros s [Ha Hb Hc Hd]. destruct (SendHdcNotification_run s) as (m & c & n & -> & Hp).
    constructor; simpl; rewrite ?Hp; [|done|by rewrite lookup_insert_ne|done].
    rewrite lookup_insert_eq. by split.
  - intros s [Ha Hb Hc Hd]. destruct (CancelHdcNotification_run s) as (c & -> & Hp).
    rewrite (Hb eq_refl) in Hp.
    constructor; simpl; rewrite ?Hp; [|done|by rewrite lookup_delete_ne|done].
    rewrite lookup_delete_eq. split; [by intros [? ?]|done].
Qed.
End Shown.

(** ** The notifier under the device manager *)
Section System.
Context {C Sys H Win T : Type} `{EB : ErrBase} `{CenterLaws C} `{SystemParams Sys}
  `{DeviceHdi H} `{FunctionWindow Win} `{Timers T DeviceManager.DelayTask}.
Abbreviation dm := (@DeviceManager.st H Win (@st C Sys) T).
Implicit Types (s : dm).

(** A device manager with a fresh notifier, and nothing shown. *)
Definition fresh_system s : Prop :=
  DeviceManager.initial s ∧ initial (DeviceManager.notifier s) ∧
  posted (center (DeviceManager.notifier s)) = ∅.

Lemma system_shows s s' : fresh_system s → rtc DeviceManager.step s s' →
  shows (DeviceManager.hasHdcNotifier_ s') (DeviceManager.notifier s').
Proof.
  intros (Hi & Hn & Hp) Hr. apply (DeviceManager.shown_as_rtc shows s s' Hr).
  destruct Hi as (_ & Hh & _). unfold DeviceManager.shown_as. rewrite Hh. by apply shows_initial.
Qed.

(** C36: in every reachable state of the device manager with this notifier, the HDC
    notification is on the screen exactly while the device is connected with the HDC
    function; and the notification of the function in use is there exactly when the
    notifier remembers one. *)
Theorem hdc_notification_posted s s' (Hs : fresh_system s) (Hr : rtc DeviceManager.step s s') :
  let shown := posted (center (DeviceManager.notifier s')) in
  (is_Some (shown !! NOTIFICATION_ID_ONE) ↔
     DeviceManager.connected_ s' = true ∧
     DeviceManager.has_func (DeviceManager.currentFunctions_ s') DeviceManager.USB_FUNCTION_HDC = true) ∧
  (is_Some (shown !! NOTIFICATION_ID_ZERO) ↔ lastFunc_ (DeviceManager.notifier s') ≠ ""%string).
Proof.
  destruct (system_shows s s' Hs Hr) as [Ha _ Hc _]. destruct Hs as (Hi & _ & _).
  pose proof (DeviceManager.hdc_shown_rtc s s' Hi Hr) as Hh. unfold DeviceManager.hdc_shown in Hh.
  split; [|done]. by rewrite Ha, Hh, andb_true_iff.
Qed.

(** Cancelling, in every reachable state: a host-side cancel takes the function
    notification down exactly when it is the reverse-charging one, a device-side cancel
    exactly when it is not; otherwise nothing changes.  The HDC notification stays as it
    is. *)
Theorem CancelNotification_sides s s' isHost (Hs : fresh_system s)
    (Hr : rtc DeviceManager.step s s') :
  let n := DeviceManager.notifier s' in
  let n' := after (CancelNotification isHost) n in
  posted (center n') !! NOTIFICATION_ID_ONE = posted (center n) !! NOTIFICATION_ID_ONE ∧
  if bool_decide (isHost = true ↔ lastFunc_ n = USB_FUNC_REVERSE_CHARGE)
  then posted (center n') !! NOTIFICATION_ID_ZERO = None ∧ lastFunc_ n' = ""%string
  else n' = n.
Proof.
  destruct (system_shows s s' Hs Hr) as [_ _ _ Hd]. cbv zeta.
  pose proof (CancelNotification_run isHost (DeviceManager.notifier s')) as Hc. cbv zeta in Hc.
  set (n := DeviceManager.notifier s') in *. clearbody n. clear Hs Hr.
  assert (Hb : Bool.eqb isHost (String.eqb (lastFunc_ n) USB_FUNC_REVERSE_CHARGE) =
    bool_decide (isHost = true ↔ lastFunc_ n = USB_FUNC_REVERSE_CHARGE)).
  { symmetry. destruct (String.eqb_spec (lastFunc_ n) USB_FUNC_REVERSE_CHARGE) as [He|He],
      isHost; cbn [Bool.eqb]; first [by apply bool_decide_true|apply bool_decide_false];
      by (destruct 1; naive_solver). }
  rewrite <- Hb. destruct (Bool.eqb _ _); [|by rewrite Hc].
  destruct Hc as (c & -> & Hp). simpl. rewrite Hp, Hd.
  by rewrite lookup_delete_eq, lookup_delete_ne.
Qed.
End System.

(** ** The system on a concrete notification service

    A service that shows every request, with resource strings equal to their names. *)
Section Samples.
#[local] Existing Instance sample_codes.
#[local] Instance sample_center : NotificationCenter (gmap Z notification) := {
  PublishNotification n := λ c, (0, <[n_id n := n]> c);
  CancelNotification_id id := λ c, (0, delete id c);
  hap_strings := λ c, (Some (λ k, k), c);
}.
#[local] Instance sample_laws : CenterLaws (gmap Z notification).
Proof. by refine {| posted := λ c, c |}. Defined.
#[local] Instance sample_hdi : DeviceHdi Z := {
  hdi_GetCurrentFunctions _ := λ h, ((0, h), h);
  hdi_SetCurrentFunctions f := λ _, (0, f);
  hdi_BindUsbdDeviceSubscriber := λ h, (0, h);
  hdi_UnbindUsbdDeviceSubscriber := λ h, (0, h);
}.
#[local] Instance sample_window : FunctionWindow unit := {
  window_Init := λ w, (0, w); window_PopUp := λ w, (true, w); window_Dismiss := λ w, (true, w) }.

Definition sample_notifier : @st (gmap Z notification) (gmap string string) :=
  mk_st (list_to_map ((λ k, (k, ""%string)) <$>
      [USB_FUNC_CHARGE; USB_FUNC_MTP; USB_FUNC_PTP; USB_FUNC_MORE; USB_HDC_NOTIFIER_TITLE;
       USB_HDC_NOTIFIER_CONTENT; USB_FUNC_REVERSE_CHARGE])) 0 0 0 "" ∅ ∅.

Definition sample : @DeviceManager.st Z unit (@st (gmap Z notification) (gmap string string))
    (counting_timers DeviceManager.DelayTask) :=
  DeviceManager.mk_st (Z.lor FUNCTION_HDC FUNCTION_MTP) false false false false false true 0 false true
    (Z.lor FUNCTION_HDC FUNCTION_MTP) tt sample_notifier (CountingTimers 1 ∅) [].

Lemma sample_fresh : fresh_system sample.
Proof. by repeat split. Qed.

(** The cable is plugged in and the delay passes. *)
Definition plugged :=
  after (DeviceManager.fire 1 DeviceManager.ConnectTask)
    (after (DeviceManager.HandleEvent ACT_UPDEVICE) sample).

Lemma notifier_plugged_reachable : rtc DeviceManager.step sample plugged.
Proof.
  eapply rtc_l; [apply (DeviceManager.step_event ACT_UPDEVICE)|].
  apply rtc_once, DeviceManager.step_fire. by vm_compute.
Qed.

Lemma hdc_notification_posted_witness :
  n_title <$> (center (DeviceManager.notifier plugged) !! NOTIFICATION_ID_ZERO) = Some USB_FUNC_MTP ∧
  is_Some (posted (center (DeviceManager.notifier plugged)) !! NOTIFICATION_ID_ONE).
Proof.
  split; [by vm_compute|].
  apply (hdc_notification_posted sample plugged sample_fresh notifier_plugged_reachable).
  by vm_compute.
Defined.

Lemma CancelNotification_sides_witness :
  let n := DeviceManager.notifier plugged in
  after (CancelNotification true) n = n.
Proof.
  destruct (CancelNotification_sides sample plugged true sample_fresh notifier_plugged_reachable) as [_ Hc].
  rewrite bool_decide_false in Hc; [exact Hc|]. intros [Hl _]. specialize (Hl eq_refl).
  revert Hl. by vm_compute.
Defined.
End Samples.
