(* ===== verification/FunctionSwitchWindow.v ===== *)
(** * The function-switch window

    [services/native/src/usb_function_switch_window.cpp]: the dialog that asks the user for
    the USB function.  It is shown through the system's ability manager, once its package is
    installed and the device has booted, and aborted when the cable goes.

    The ability manager, the package manager, the parameter watcher, the settings and the
    accounts are the class [WindowPlatform]; the timer and the parameters are the classes of
    [Interfaces].  [platform] calls that only log are left out. *)

From S2P Require Import Prelude UsbErrors UsbTypes Interfaces.
From S2P Require DeviceManager.

#[local] Set Default Goal Selector "!".

(** [usb_function_switch_window.h:37-42] [UsbFunctionSwitchWindowAction] *)
Inductive WindowAction := ACTION_DEFAULT | ACTION_SHOW | ACTION_DISMISS | ACTION_FORBID.

#[global] Instance WindowAction_eq_dec : EqDecision WindowAction.
Proof. solve_decision. Defined.

(** [usb_function_switch_window.h:44-49] [SUPPORTED_FUNC] *)
Definition SUPPORTED_FUNC_NONE : Z := -1.
Definition SUPPORTED_FUNC_MTP : Z := 8.
Definition SUPPORTED_FUNC_PTP : Z := 16.

(** [usb_function_switch_window.cpp:42-46] [constants] *)
Definition MAX_RETRY_TIMES : nat := 30.
Definition DELAY_CHECK_DIALOG : Z := 1.
Definition DEFAULT_PARAM_VALUE : string := "charge,mtp,ptp".

(** The parameters the window reads. *)
Definition PROMPT : string := "persist.usb.setting.gadget_conn_prompt".
Definition TEMP_PROMPT : string := "usb.setting.gadget_conn_prompt".
Definition BOOT_COMPLETED : string := "bootevent.boot.completed".
Definition SUPPORTED_FUNCTIONS : string := "const.usb_manager.supported_functions".

(** A remote object, as the handle the ability manager gives. *)
Definition Remote : Type := Z.

(** [usb_function_switch_window.h:73-75] [UsbFuncAbilityConn] the members of the connection *)
Record Conn := mk_Conn { isAbortDialog_ : bool; remoteObject_ : option Remote }.

(** The task of [Init]'s timer. *)
Inductive CheckTask := CheckDialog.

(** What the window uses of the platform.  [ConnectAbility] is asked for one of the two
    system dialogs; [SendRequest] sends a command with the dialog's parameters and gives the
    result code and the integer of the reply, when there is one; [Query] is
    [UsbSettingDataShare::Query] of a setting (a user's one after the user's identifier):
    [None] when it fails. *)
Inductive SystemDialog := SceneBoard | SystemUI.
Class WindowPlatform (E : Type) := {
  AbilityManager : ST E bool;
  ConnectAbility : SystemDialog → ST E Z;
  DisconnectAbility : ST E Z;
  SendRequest : Remote → Z → option string → ST E (Z * option Z);
  GetBundleInfo : ST E bool;
  SubscribeCommonEvent_ : ST E bool;
  WatchParameter : string → ST E Z;
  Query : string → ST E (option string);
  QueryActiveOsAccountIds : ST E (list Z);
  print_params : list (string * string) → option string;
}.

(** The two operations of the timer class that start and stop its thread. *)
Class TimerControl (T : Type) := {
  timer_Setup : ST T Z;
  timer_Shutdown : ST T unit;
}.

(** The end of a callback: [NullDeref] is the use of a null pointer. *)
Inductive CallbackEnd := Returned | NullDeref.

Section Window.
Context {T E Sys : Type}.

(** ** The window's state *)
(** [usb_function_switch_window.h:85-93] [UsbFunctionSwitchWindow] the members; [subscribed_] is the subscription to the end of the package scan *)
Record st := mk_st {
  usbFuncAbilityConn : option Conn;
  windowAction_ : WindowAction;
  isDialogInstalled_ : bool;
  checkDialogTimerId_ : Z;
  subscribed_ : bool;
  timer_ : T;
  platform : E;
  sys : Sys;
}.

Definition set_usbFuncAbilityConn (v : option Conn) (s : st) : st :=
  mk_st v (windowAction_ s) (isDialogInstalled_ s) (checkDialogTimerId_ s) (subscribed_ s) (timer_ s) (platform s) (sys s).
Definition set_windowAction_ (v : WindowAction) (s : st) : st :=
  mk_st (usbFuncAbilityConn s) v (isDialogInstalled_ s) (checkDialogTimerId_ s) (subscribed_ s) (timer_ s) (platform s) (sys s).
Definition set_isDialogInstalled_ (v : bool) (s : st) : st :=
  mk_st (usbFuncAbilityConn s) (windowAction_ s) v (checkDialogTimerId_ s) (subscribed_ s) (timer_ s) (platform s) (sys s).
Definition set_checkDialogTimerId_ (v : Z) (s : st) : st :=
  mk_st (usbFuncAbilityConn s) (windowAction_ s) (isDialogInstalled_ s) v (subscribed_ s) (timer_ s) (platform s) (sys s).
Definition set_subscribed_ (v : bool) (s : st) : st :=
  mk_st (usbFuncAbilityConn s) (windowAction_ s) (isDialogInstalled_ s) (checkDialogTimerId_ s) v (timer_ s) (platform s) (sys s).
Definition set_timer_ (v : T) (s : st) : st :=
  mk_st (usbFuncAbilityConn s) (windowAction_ s) (isDialogInstalled_ s) (checkDialogTimerId_ s) (subscribed_ s) v (platform s) (sys s).
Definition set_platform (v : E) (s : st) : st :=
  mk_st (usbFuncAbilityConn s) (windowAction_ s) (isDialogInstalled_ s) (checkDialogTimerId_ s) (subscribed_ s) (timer_ s) v (sys s).
Definition set_sys (v : Sys) (s : st) : st :=
  mk_st (usbFuncAbilityConn s) (windowAction_ s) (isDialogInstalled_ s) (checkDialogTimerId_ s) (subscribed_ s) (timer_ s) (platform s) v.

Context `{EB : ErrBase} `{Timers T CheckTask} `{TimerControl T} `{WindowPlatform E}
  `{SystemParams Sys}.

Definition on_timer {A} (m : ST T A) : ST st A :=
  λ s, let '(a, t) := m (timer_ s) in (a, set_timer_ t s).
Definition on_platform {A} (m : ST E A) : ST st A :=
  λ s, let '(a, e) := m (platform s) in (a, set_platform e s).
Definition on_sys {A} (m : ST Sys A) : ST st A :=
  λ s, let '(a, p) := m (sys s) in (a, set_sys p s).

(** [OHOS::system::GetBoolParameter]. *)
Definition bool_param (key : string) (def : bool) : ST st bool :=
  p ← gets sys; mret (GetBoolParameter key def p).

(** [usb_function_switch_window.cpp:84-95] [UsbFunctionSwitchWindow::SubscribeCommonEvent] *)
Definition SubscribeCommonEvent : ST st unit :=
  ret ← on_platform SubscribeCommonEvent_;
  mwhen ret (modify (set_subscribed_ true)).

(** [usb_function_switch_window.cpp:187-201] [UsbFunctionSwitchWindow::GetSupportedFunctions] *)
Definition GetSupportedFunctions : ST st Z :=
  p ← gets sys;
  let supportedFuncStr := GetStringParameter SUPPORTED_FUNCTIONS DEFAULT_PARAM_VALUE p in
  mret (if str_contains "none" supportedFuncStr then SUPPORTED_FUNC_NONE
        else
          let mtp := if str_contains "mtp" supportedFuncStr then SUPPORTED_FUNC_MTP else 0 in
          let ptp := if str_contains "ptp" supportedFuncStr then SUPPORTED_FUNC_PTP else 0 in
          i32 (Z.lor mtp ptp)).

(** [usb_function_switch_window.cpp:253-272] [UsbFunctionSwitchWindow::UsbFuncAbilityConn::PrepareJson] *)
Definition PrepareJson : ST st string :=
  supportedFuncs ← GetSupportedFunctions;
  mret (default ""%string (print_params
    [("supportedFuncs", pretty.pretty supportedFuncs);
     ("ability.want.params.uiExtensionType", "sysDialog/common")]%string)).

Definition on_conn (f : Conn → Conn) : ST st unit :=
  modify (λ s, set_usbFuncAbilityConn (f <$> usbFuncAbilityConn s) s).

(** [usb_function_switch_window.cpp:203-251] [UsbFunctionSwitchWindow::UsbFuncAbilityConn::OnAbilityConnectDone] on the connection object [c] *)
Definition OnAbilityConnectDone (remoteObject : option Remote) : ST st CallbackEnd :=
  conn ← gets usbFuncAbilityConn;
  match conn, remoteObject with
  | Some c, Some remote =>
      if isAbortDialog_ c then
        match remoteObject_ c with
        | None => mret NullDeref
        | Some old => on_platform (SendRequest old 3 None) ;; mret Returned
        end
      else
        paramStr ← PrepareJson;
        if String.eqb paramStr "" then mret Returned
        else
          r ← on_platform (SendRequest remote 1 (Some paramStr));
          let '(ret, reply) := r in
          if negb (ret =? ERR_OK) then mret Returned
          else
            match reply with
            | Some code =>
                mwhen (code =? ERR_OK) (on_conn (λ c, mk_Conn (isAbortDialog_ c) (Some remote))) ;;
                mret Returned
            | None => mret Returned
            end
  | _, _ => mret Returned
  end.

(** [usb_function_switch_window.cpp:274-282] [UsbFunctionSwitchWindow::UsbFuncAbilityConn::OnAbilityDisconnectDone] *)
Definition OnAbilityDisconnectDone : ST st unit :=
  on_conn (λ c, mk_Conn (isAbortDialog_ c) None).

(** [usb_function_switch_window.cpp:284-305] [UsbFunctionSwitchWindow::UsbFuncAbilityConn::CloseDialog] of the connection *)
Definition CloseDialog : ST st unit :=
  on_conn (λ c, mk_Conn true (remoteObject_ c)) ;;
  conn ← gets usbFuncAbilityConn;
  match c ← conn; remoteObject_ c with
  | None => mret tt
  | Some remote => on_platform (SendRequest remote 3 None) ;; mret tt
  end.

(** [usb_function_switch_window.cpp:307-311] [UsbFunctionSwitchWindow::UsbFuncAbilityConn::ReopenDialog] *)
Definition ReopenDialog : ST st unit :=
  on_conn (λ c, mk_Conn false (remoteObject_ c)).

(** [usb_function_switch_window.cpp:313-345] [UsbFunctionSwitchWindow::ShowFunctionSwitchWindow] *)
Definition ShowFunctionSwitchWindow : ST st bool :=
  installed ← gets isDialogInstalled_;
  if negb installed then mret false
  else
    conn ← gets usbFuncAbilityConn;
    mwhen (negb (opt_is_some conn)) (modify (set_usbFuncAbilityConn (Some (mk_Conn false None)))) ;;
    ReopenDialog ;;
    manager ← on_platform AbilityManager;
    if negb manager then mret false
    else
      ret ← on_platform (ConnectAbility SceneBoard);
      if negb (ret =? ERR_OK) then
        ret ← on_platform (ConnectAbility SystemUI);
        if negb (ret =? ERR_OK) then modify (set_usbFuncAbilityConn None) ;; mret false
        else mret true
      else mret true.

(** [usb_function_switch_window.cpp:347-368] [UsbFunctionSwitchWindow::UnShowFunctionSwitchWindow] *)
Definition UnShowFunctionSwitchWindow : ST st bool :=
  conn ← gets usbFuncAbilityConn;
  match conn with
  | None => mret true
  | Some _ =>
      manager ← on_platform AbilityManager;
      if negb manager then mret false
      else
        CloseDialog ;;
        ret ← on_platform DisconnectAbility;
        mret (ret =? UEC_OK)
  end.

(** [usb_function_switch_window.cpp:374-392] [UsbFunctionSwitchWindow::CheckDialogInstallStatus] the [while] loop, with the tries left *)
Fixpoint check_dialog (tries : nat) : ST st bool :=
  match tries with
  | O => mret false
  | S tries =>
      installed ← on_platform GetBundleInfo;
      modify (set_isDialogInstalled_ installed) ;;
      if negb installed then check_dialog tries
      else
        action ← gets windowAction_;
        booted ← bool_param BOOT_COMPLETED false;
        mwhen (bool_decide (action = ACTION_SHOW) && booted) (ShowFunctionSwitchWindow ;; mret tt) ;;
        mret true
  end.

(** [usb_function_switch_window.cpp:370-394] [UsbFunctionSwitchWindow::CheckDialogInstallStatus] *)
Definition CheckDialogInstallStatus : ST st bool := check_dialog MAX_RETRY_TIMES.

(** [usb_function_switch_window.cpp:107-115] [UsbFunctionSwitchWindow::Init] the timer's task *)
Definition check_task : ST st unit :=
  checkRet ← CheckDialogInstallStatus;
  mwhen (negb checkRet) SubscribeCommonEvent ;;
  id ← gets checkDialogTimerId_;
  on_timer (timer_Unregister id) ;;
  on_timer timer_Shutdown.

(** [usb_function_switch_window.cpp:97-128] [UsbFunctionSwitchWindow::Init] *)
Definition Init : ST st Z :=
  installed ← gets isDialogInstalled_;
  if (installed : bool) then mret UEC_OK
  else
    id ← gets checkDialogTimerId_;
    on_timer (timer_Unregister id) ;;
    on_timer timer_Shutdown ;;
    ret ← on_timer timer_Setup;
    if negb (ret =? UEC_OK) then
      checkRet ← CheckDialogInstallStatus;
      mwhen (negb checkRet) SubscribeCommonEvent ;;
      installed ← gets isDialogInstalled_;
      mret (if (installed : bool) then UEC_OK else ret)
    else
      id ← on_timer (timer_Register CheckDialog DELAY_CHECK_DIALOG true);
      modify (set_checkDialogTimerId_ id) ;;
      mret UEC_OK.

(** [usb_function_switch_window.cpp:436-475] [UsbFunctionSwitchWindow::ShouldRejectShowWindow] *)
Definition ShouldRejectShowWindow : ST st bool :=
  provisioned ← on_platform (Query "device_provisioned");
  if match provisioned with Some v => negb (String.eqb v "1") | None => false end then mret true
  else
    ids ← on_platform QueryActiveOsAccountIds;
    match ids with
    | [] => mret true
    | userId :: _ =>
        complete ← on_platform (Query (pretty.pretty userId +:+ "/user_setup_complete"));
        if match complete with Some v => negb (String.eqb v "1") | None => false end then mret true
        else
          ota ← on_platform (Query (pretty.pretty userId +:+ "/is_ota_finished"));
          mret (match ota with Some v => String.eqb v "0" | None => false end)
    end.

(** [usb_function_switch_window.cpp:130-173] [UsbFunctionSwitchWindow::PopUpFunctionSwitchWindow] *)
Definition PopUpFunctionSwitchWindow : ST st bool :=
  isPromptEnabled ← bool_param PROMPT true;
  if negb isPromptEnabled then mret false
  else
    isTempDisablePrompt ← bool_param TEMP_PROMPT true;
    if negb isTempDisablePrompt then
      on_sys (SetParameter TEMP_PROMPT "true") ;; mret false
    else
      supportedFuncs ← GetSupportedFunctions;
      if supportedFuncs <? 0 then mret false
      else
        action ← gets windowAction_;
        if bool_decide (action = ACTION_FORBID) then mret false
        else
          modify (set_windowAction_ ACTION_SHOW) ;;
          booted ← bool_param BOOT_COMPLETED false;
          if negb booted then on_platform (WatchParameter BOOT_COMPLETED) ;; mret false
          else
            ShouldRejectShowWindow ;;
            ShowFunctionSwitchWindow.

(** [usb_function_switch_window.cpp:175-185] [UsbFunctionSwitchWindow::DismissFunctionSwitchWindow] *)
Definition DismissFunctionSwitchWindow : ST st bool :=
  action ← gets windowAction_;
  if bool_decide (action = ACTION_FORBID) then mret false
  else
    modify (set_windowAction_ ACTION_DISMISS) ;;
    UnShowFunctionSwitchWindow.

(** [usb_function_switch_window.cpp:422-434] [UsbFunctionSwitchWindow::ShowWindowIfConnected] *)
Definition ShowWindowIfConnected : ST st bool :=
  action ← gets windowAction_;
  if bool_decide (action = ACTION_SHOW) then ShowFunctionSwitchWindow else mret false.

(** [usb_function_switch_window.cpp:396-420] [UsbFunctionSwitchWindow::BootCompletedEventCallback] on the window it was registered with *)
Definition BootCompletedEventCallback : ST st unit :=
  booted ← bool_param BOOT_COMPLETED false;
  mwhen booted (ShouldRejectShowWindow ;; ShowWindowIfConnected ;; mret tt).

(** [usb_function_switch_window.cpp:52-59] [OnReceiveEvent] [finished]: the action is [COMMON_EVENT_BUNDLE_SCAN_FINISHED] *)
Definition OnReceiveEvent (finished : bool) : ST st unit :=
  mwhen finished (CheckDialogInstallStatus ;; mret tt).

(** The window implements the interface the device manager uses. *)
#[export] Instance function_window : FunctionWindow st := {
  window_Init := Init;
  window_PopUp := PopUpFunctionSwitchWindow;
  window_Dismiss := DismissFunctionSwitchWindow;
}.
End Window.

(** ** How the parts change the state *)
Section Runs.
Context {T E Sys : Type} `{EB : ErrBase} `{Timers T CheckTask} `{TimerControl T}
  `{WindowPlatform E} `{SystemParams Sys}.
Abbreviation st := (@st T E Sys).
Implicit Types (s : st).

Lemma window_platform_run {A} (m : ST E A) s :
  on_platform m s = (result m (platform s), set_platform (after m (platform s)) s).
Proof. unfold on_platform, result, after. by destruct (m (platform s)). Qed.

(** [ShouldRejectShowWindow] only asks. *)
Lemma ShouldReject_run s : ∃ b e, ShouldRejectShowWindow s = (b, set_platform e s).
Proof.
  unfold ShouldRejectShowWindow. st_exec. rewrite window_platform_run. st_exec.
  case_if; [by eexists _, _|]. st_exec. rewrite window_platform_run. st_exec.
  destruct (result QueryActiveOsAccountIds _) as [|u ids]; [by eexists _, _; destruct s|]. st_exec.
  rewrite window_platform_run. st_exec. case_if; [by eexists _, _; destruct s|]. st_exec.
  rewrite window_platform_run. by eexists _, _; destruct s.
Qed.

(** Showing the dialog: it needs the package; when it succeeds, the connection is there and
    not aborted; only the connection and the platform change. *)
Lemma Show_run s :
  let '(shown, s') := ShowFunctionSwitchWindow s in
  (isDialogInstalled_ s = false → shown = false ∧ s' = s) ∧
  (shown = true → isDialogInstalled_ s = true ∧
     ∃ c, usbFuncAbilityConn s' = Some c ∧ isAbortDialog_ c = false) ∧
  ∃ c e, s' = set_usbFuncAbilityConn c (set_platform e s).
Proof.
  unfold ShowFunctionSwitchWindow. st_exec.
  destruct (isDialogInstalled_ s) eqn:Hi; cbn [negb]; st_exec.
  2: { split_and!; [done|done|]. exists (usbFuncAbilityConn s), (platform s). by destruct s. }
  unfold ReopenDialog, on_conn, mwhen.
  assert (Hs : ∃ c, (if negb (opt_is_some (usbFuncAbilityConn s))
      then modify (set_usbFuncAbilityConn (Some (mk_Conn false None))) else mret tt) s =
    (tt, set_usbFuncAbilityConn (Some c) s)).
  { destruct (usbFuncAbilityConn s) as [c|] eqn:Hc; [|by eexists].
    exists c. unfold mret, ST_ret. simpl. rewrite <- Hc. by destruct s. }
  destruct Hs as (c & ->). st_exec. rewrite window_platform_run. st_exec.
  destruct (result AbilityManager _); cbn [negb]; st_exec.
  2: { split_and!; [done|done|]. eexists _, _. by destruct s. }
  rewrite window_platform_run. st_exec.
  destruct (result (ConnectAbility SceneBoard) _ =? ERR_OK); cbn [negb]; st_exec.
  { split_and!; [done|intros _; split; [done|by eexists]|]. eexists _, _. by destruct s. }
  rewrite window_platform_run. st_exec.
  destruct (result (ConnectAbility SystemUI) _ =? ERR_OK); cbn [negb]; st_exec.
  - split_and!; [done|intros _; split; [done|by eexists]|]. eexists _, _. by destruct s.
  - split_and!; [done|done|]. eexists _, _. by destruct s.
Qed.

(** Taking it down: an existing connection is aborted when the ability manager is there. *)
Lemma UnShow_run s :
  (usbFuncAbilityConn s = None ∧ after UnShowFunctionSwitchWindow s = s) ∨
  (∃ e, usbFuncAbilityConn s ≠ None ∧ after UnShowFunctionSwitchWindow s = set_platform e s ∧
     result AbilityManager (platform s) = false) ∨
  ∃ c e, usbFuncAbilityConn s = Some c ∧
    after UnShowFunctionSwitchWindow s =
      set_usbFuncAbilityConn (Some (mk_Conn true (remoteObject_ c))) (set_platform e s).
Proof.
  unfold UnShowFunctionSwitchWindow, after. st_exec.
  destruct (usbFuncAbilityConn s) as [c|] eqn:Hc; [right|by left]. st_exec.
  rewrite window_platform_run. st_exec.
  destruct (result AbilityManager (platform s)) eqn:Hm; cbn [negb]; st_exec.
  2: { left. by eexists. }
  right. unfold CloseDialog, on_conn. st_exec. cbn [usbFuncAbilityConn set_usbFuncAbilityConn set_platform].
  rewrite Hc. cbn [fmap option_fmap option_map mbind option_bind remoteObject_].
  destruct (remoteObject_ c) as [r|] eqn:Hr; st_exec; rewrite ?window_platform_run; st_exec;
    rewrite ?window_platform_run; st_exec; exists c; eexists; (split; [done|]); rewrite Hr; by destruct s.
Qed.

Lemma GetSupportedFunctions_pure s : GetSupportedFunctions s = (result GetSupportedFunctions s, s).
Proof. done. Qed.

(** The dialog is popped up only when both prompt parameters allow it, the device
    supports a function to choose, the system has booted and the dialog's package is
    installed; then it is wanted, and the connection to it is there and not aborted.  A
    disabled prompt changes nothing; the temporary one is used up by the first attempt. *)
Theorem PopUp_spec s :
  let '(shown, s') := PopUpFunctionSwitchWindow s in
  let param key def := GetBoolParameter key def (sys s) in
  (shown = true →
     param PROMPT true = true ∧ param TEMP_PROMPT true = true ∧
     0 <= result GetSupportedFunctions s ∧ param BOOT_COMPLETED false = true ∧
     isDialogInstalled_ s = true ∧ windowAction_ s' = ACTION_SHOW ∧
     ∃ c, usbFuncAbilityConn s' = Some c ∧ isAbortDialog_ c = false) ∧
  (param PROMPT true = false → s' = s) ∧
  (param PROMPT true = true → param TEMP_PROMPT true = false →
     s' = set_sys (after (SetParameter TEMP_PROMPT "true") (sys s)) s).
Proof.
  unfold PopUpFunctionSwitchWindow, bool_param. st_exec.
  destruct (GetBoolParameter PROMPT true (sys s)) eqn:Hp; cbn [negb]; st_exec; [|done].
  destruct (GetBoolParameter TEMP_PROMPT true (sys s)) eqn:Ht; cbn [negb]; st_exec.
  2: { split_and!; [done..|]. intros _ _. unfold on_sys, after. by destruct (SetParameter _ _ _). }
  rewrite GetSupportedFunctions_pure. st_exec.
  destruct (result GetSupportedFunctions s <? 0) eqn:Hf; st_exec; [done|]. apply Z.ltb_ge in Hf.
  case_bool_decide; st_exec; [done|]. cbn [sys set_windowAction_].
  destruct (GetBoolParameter BOOT_COMPLETED false (sys s)) eqn:Hb; cbn [negb]; st_exec; [|done].
  match goal with |- context [ShouldRejectShowWindow ?s] =>
    destruct (ShouldReject_run s) as (b & e & ->) end. st_exec.
  match goal with |- context [ShowFunctionSwitchWindow ?s] => pose proof (Show_run s) as Hs;
    destruct (ShowFunctionSwitchWindow s) as [shown s'] end.
  destruct Hs as (_ & Hs & c & e' & ->). split; [|done]. intros ->.
  destruct (Hs eq_refl) as (Hi & c' & Hc). split_and!; [done..|]. by exists c'.
Qed.

(** The packages after [k] failed queries. *)
Definition after_queries (k : nat) (e : E) : E := Nat.iter k (after GetBundleInfo) e.

Lemma check_dialog_spec tries s :
  let '(found, s') := check_dialog tries s in
  (found = true ↔ ∃ k, (k < tries)%nat ∧ result GetBundleInfo (after_queries k (platform s)) = true) ∧
  (tries ≠ 0%nat → isDialogInstalled_ s' = found).
Proof.
  revert s. induction tries as [|tries IH]; intros s; cbn [check_dialog].
  { split; [|done]. split; [done|]. intros (k & Hk & _). lia. }
  st_exec. rewrite window_platform_run. st_exec.
  destruct (result GetBundleInfo (platform s)) eqn:Hr; cbn [negb]; st_exec.
  - unfold bool_param. st_exec. unfold mwhen.
    match goal with |- context [if ?b then _ else _] => destruct b end; st_exec.
    + match goal with |- context [ShowFunctionSwitchWindow ?s] => pose proof (Show_run s) as Hs;
        destruct (ShowFunctionSwitchWindow s) as [shown s'] end.
      destruct Hs as (_ & _ & c & e & ->). split; [|done]. split; [|done]. intros _.
      exists 0%nat. split; [lia|exact Hr].
    + split; [|done]. split; [|done]. intros _. exists 0%nat. split; [lia|exact Hr].
  - match goal with |- context [check_dialog tries ?s] => specialize (IH s);
      destruct (check_dialog tries s) as [found s'] eqn:Ec end.
    destruct IH as [Hf Hi]. cbn [platform set_isDialogInstalled_ set_platform] in Hf. split.
    + rewrite Hf. split; intros (k & Hk & Hq).
      * exists (S k). split; [lia|]. unfold after_queries in *. by rewrite Nat.iter_succ_r.
      * destruct k as [|k]; [exfalso; unfold after_queries in Hq; simpl in Hq; congruence|].
        exists k. split; [lia|]. unfold after_queries in *. by rewrite Nat.iter_succ_r in Hq.
    + intros _. destruct tries; [|by apply Hi]. injection Ec as <- <-. done.
Qed.

(** The check of the dialog's package ends after at most thirty queries; it succeeds
    exactly when one of them does, and what it remembers is its result. *)
Theorem CheckDialogInstallStatus_spec s :
  let '(found, s') := CheckDialogInstallStatus s in
  (found = true ↔
     ∃ k, (k < 30)%nat ∧ result GetBundleInfo (after_queries k (platform s)) = true) ∧
  isDialogInstalled_ s' = found.
Proof.
  unfold CheckDialogInstallStatus. pose proof (check_dialog_spec MAX_RETRY_TIMES s) as H'.
  destruct (check_dialog MAX_RETRY_TIMES s) as [found s']. destruct H' as [Hf Hi].
  split; [exact Hf|by apply Hi].
Qed.

(** The cable goes while the dialog is still being connected: the dismissal marks the
    connection aborted before there is a remote object, and when the connection then comes,
    the callback uses the null pointer. *)
Theorem dismiss_before_connect s remote c (Ha : windowAction_ s ≠ ACTION_FORBID)
    (Hc : usbFuncAbilityConn s = Some c) (Hr : remoteObject_ c = None)
    (Hm : result AbilityManager (platform s) = true) :
  result (OnAbilityConnectDone (Some remote)) (after DismissFunctionSwitchWindow s) = NullDeref.
Proof.
  unfold DismissFunctionSwitchWindow. rewrite after_bind. cbn [result gets fst].
  change (after (gets windowAction_) s) with s. rewrite bool_decide_false by done.
  rewrite after_bind. change (after (modify ?f) s) with (f s).
  destruct (UnShow_run (set_windowAction_ ACTION_DISMISS s)) as [[Hu _]|[(e & _ & _ & Hm')|(c' & e & Hc' & Hu)]].
  - cbn in Hu. congruence.
  - cbn in Hm'. congruence.
  - cbn in Hc'. rewrite Hc in Hc'. injection Hc' as <-. rewrite Hu.
    unfold OnAbilityConnectDone, result. st_exec. simpl. by rewrite Hr.
Qed.
End Runs.

(** ** The window under the device manager *)
Section Wanted.
Context {T E Sys : Type} `{EB : ErrBase} `{Timers T CheckTask} `{TimerControl T}
  `{WindowPlatform E} `{SystemParams Sys}.
Abbreviation st := (@st T E Sys).
Implicit Types (w : st).

(** Operations that do not decide whether the window is wanted. *)
Definition same_action (a : WindowAction) w : Prop := windowAction_ w = a.

Section SameAction.
Context (a : WindowAction).

Lemma same_action_modify (f : st → st) :
  (∀ w, windowAction_ (f w) = windowAction_ w) → preserves (same_action a) (modify f).
Proof. intros Hf w Hw. unfold same_action. by rewrite after_modify, Hf. Qed.
Lemma same_action_on_platform {A} (m : ST E A) : preserves (same_action a) (on_platform m).
Proof. intros w Hw. unfold after. by rewrite window_platform_run. Qed.
Lemma same_action_on_timer {A} (m : ST T A) : preserves (same_action a) (on_timer m).
Proof. intros w Hw. unfold after, on_timer. by destruct (m (timer_ w)). Qed.
Lemma same_action_on_sys {A} (m : ST Sys A) : preserves (same_action a) (on_sys m).
Proof. intros w Hw. unfold after, on_sys. by destruct (m (sys w)). Qed.

#[local] Hint Extern 1 (preserves (same_action _) (modify _)) =>
  (apply same_action_modify; intros; reflexivity) : preserve.
#[local] Hint Extern 1 (preserves (same_action _) (on_conn _)) =>
  (apply same_action_modify; intros; reflexivity) : preserve.
#[local] Hint Resolve same_action_on_platform same_action_on_timer same_action_on_sys : preserve.

Lemma same_action_Show : preserves (same_action a) ShowFunctionSwitchWindow.
Proof. unfold ShowFunctionSwitchWindow, ReopenDialog. step_preserve. Qed.
Lemma same_action_UnShow : preserves (same_action a) UnShowFunctionSwitchWindow.
Proof. unfold UnShowFunctionSwitchWindow, CloseDialog. step_preserve. Qed.
Lemma same_action_ShouldReject : preserves (same_action a) ShouldRejectShowWindow.
Proof. unfold ShouldRejectShowWindow. step_preserve. Qed.
Lemma same_action_Subscribe : preserves (same_action a) SubscribeCommonEvent.
Proof. unfold SubscribeCommonEvent. step_preserve. Qed.
#[local] Hint Resolve same_action_Show same_action_UnShow same_action_ShouldReject
  same_action_Subscribe : preserve.
Lemma same_action_check n : preserves (same_action a) (check_dialog n).
Proof. induction n; cbn [check_dialog]; unfold bool_param; step_preserve. Qed.
Lemma same_action_Check : preserves (same_action a) CheckDialogInstallStatus.
Proof. apply same_action_check. Qed.
#[local] Hint Resolve same_action_Check : preserve.
Lemma same_action_Init : preserves (same_action a) Init.
Proof. unfold Init. step_preserve. Qed.
Lemma same_action_check_task : preserves (same_action a) check_task.
Proof. unfold check_task. step_preserve. Qed.
Lemma same_action_Connect r : preserves (same_action a) (OnAbilityConnectDone r).
Proof. unfold OnAbilityConnectDone, PrepareJson, GetSupportedFunctions. step_preserve. Qed.
Lemma same_action_Boot : preserves (same_action a) BootCompletedEventCallback.
Proof. unfold BootCompletedEventCallback, ShowWindowIfConnected, bool_param. step_preserve. Qed.
Lemma same_action_OnReceive b : preserves (same_action a) (OnReceiveEvent b).
Proof. unfold OnReceiveEvent. step_preserve. Qed.
End SameAction.

(** The window is wanted only while the device is connected. *)
Definition wanted (connected : bool) w : Prop := windowAction_ w = ACTION_SHOW → connected = true.

#[export] Instance window_protocol : WindowProtocol st wanted.
Proof.
  constructor; simpl.
  - done.
  - done.
  - intros c c' w Hw. unfold wanted, DismissFunctionSwitchWindow.
    rewrite after_bind, result_gets, after_gets. case_bool_decide as Ha; [rewrite after_ret; congruence|].
    rewrite after_bind, after_modify.
    by rewrite (same_action_UnShow ACTION_DISMISS (set_windowAction_ ACTION_DISMISS w)).
  - intros c w Hw. unfold wanted. by rewrite (same_action_Init (windowAction_ w) w).
Qed.

(** What the system calls on the window by itself. *)
Inductive callback : st → st → Prop :=
  | callback_connect r w : callback w (after (OnAbilityConnectDone r) w)
  | callback_disconnect w : callback w (after OnAbilityDisconnectDone w)
  | callback_boot w : callback w (after BootCompletedEventCallback w)
  | callback_scan b w : callback w (after (OnReceiveEvent b) w)
  | callback_check w : callback w (after check_task w).

Lemma callback_same_action w w' : callback w w' → windowAction_ w' = windowAction_ w.
Proof.
  destruct 1 as [r w|w|w|b w|w].
  - by apply (same_action_Connect (windowAction_ w) r w).
  - done.
  - by apply (same_action_Boot (windowAction_ w) w).
  - by apply (same_action_OnReceive (windowAction_ w) b w).
  - by apply (same_action_check_task (windowAction_ w) w).
Qed.

Context {HD N DT : Type} `{DeviceHdi HD} `{NotifierOps N} `{Timers DT DeviceManager.DelayTask}.
Abbreviation dm := (@DeviceManager.st HD st N DT).
Implicit Types (s : dm).

(** The device manager's steps, interleaved with the window's callbacks. *)
Inductive system_step : dm → dm → Prop :=
  | system_manager s s' : DeviceManager.step s s' → system_step s s'
  | system_window s w : callback (DeviceManager.window s) w →
      system_step s (DeviceManager.set_window w s).

Definition fresh_system s : Prop :=
  DeviceManager.initial s ∧ windowAction_ (DeviceManager.window s) = ACTION_DEFAULT.

Lemma system_wanted_step s s' :
  system_step s s' → DeviceManager.wanted_as wanted s → DeviceManager.wanted_as wanted s'.
Proof.
  destruct 1 as [s s' Hstep|s w Hc].
  - by apply (DeviceManager.wanted_as_step wanted).
  - unfold DeviceManager.wanted_as, wanted. simpl. by rewrite (callback_same_action _ _ Hc).
Qed.

Lemma system_wanted_rtc s s' :
  fresh_system s → rtc system_step s s' → DeviceManager.wanted_as wanted s'.
Proof.
  intros [_ Ha] Hr. assert (Hw : DeviceManager.wanted_as wanted s).
  { unfold DeviceManager.wanted_as, wanted. by rewrite Ha. }
  clear Ha. induction Hr; eauto using system_wanted_step.
Qed.

(** In every reachable state of the device manager with this window, however the
    window's callbacks interleave with the connection events, the window is wanted only
    while the device is connected; and while it is not connected, the callbacks that show a
    wanted window ([ShowWindowIfConnected]) do nothing. *)
Theorem window_wanted_while_connected s s' (Hs : fresh_system s) (Hr : rtc system_step s s') :
  (windowAction_ (DeviceManager.window s') = ACTION_SHOW → DeviceManager.connected_ s' = true) ∧
  (DeviceManager.connected_ s' = false →
     ShowWindowIfConnected (DeviceManager.window s') = (false, DeviceManager.window s')).
Proof.
  pose proof (system_wanted_rtc s s' Hs Hr) as Hw.
  split; [exact Hw|]. intros Hc. unfold ShowWindowIfConnected. st_exec.
  case_bool_decide as Ha; [|done]. unfold DeviceManager.wanted_as, wanted in Hw.
  specialize (Hw Ha). congruence.
Qed.
End Wanted.

(** ** The window on a concrete platform

    Everything is there: the package is installed, the ability manager accepts. *)
Section Samples.
#[local] Existing Instance sample_codes.
#[local] Instance sample_platform : WindowPlatform unit := {
  AbilityManager := λ e, (true, e);
  ConnectAbility _ := λ e, (0, e);
  DisconnectAbility := λ e, (0, e);
  SendRequest _ _ _ := λ e, ((0, Some 0), e);
  GetBundleInfo := λ e, (true, e);
  SubscribeCommonEvent_ := λ e, (true, e);
  WatchParameter _ := λ e, (0, e);
  Query _ := λ e, (None, e);
  QueryActiveOsAccountIds := λ e, ([100], e);
  print_params _ := Some "{}"%string;
}.
#[local] Instance sample_control : TimerControl (counting_timers CheckTask) := {
  timer_Setup := λ t, (0, t);
  timer_Shutdown := λ t, (tt, CountingTimers (ct_next t) ∅);
}.
#[local] Instance sample_hdi : DeviceHdi Z := {
  hdi_GetCurrentFunctions _ := λ h, ((0, h), h);
  hdi_SetCurrentFunctions f := λ _, (0, f);
  hdi_BindUsbdDeviceSubscriber := λ h, (0, h);
  hdi_UnbindUsbdDeviceSubscriber := λ h, (0, h);
}.
#[local] Instance sample_notifier : NotifierOps unit := {
  notify_Send _ := λ n, (tt, n); notify_Cancel _ := λ n, (tt, n);
  notify_SendHdc := λ n, (tt, n); notify_CancelHdc := λ n, (tt, n) }.

Definition booted : gmap string string := {[ BOOT_COMPLETED := "true"%string ]}.
Definition sample_win : @st (counting_timers CheckTask) unit (gmap string string) :=
  mk_st None ACTION_DEFAULT true 0 false (CountingTimers 1 ∅) tt booted.

(** The dialog is asked for, and the cable goes before it is there. *)
Definition popped := after PopUpFunctionSwitchWindow sample_win.

Lemma dismiss_before_connect_witness :
  result PopUpFunctionSwitchWindow sample_win = true ∧
  result (OnAbilityConnectDone (Some 7)) (after DismissFunctionSwitchWindow popped) = NullDeref.
Proof.
  split; [by vm_compute|].
  apply (dismiss_before_connect popped 7 (mk_Conn false None)); by vm_compute.
Defined.

Definition sample_system : @DeviceManager.st Z (@st (counting_timers CheckTask) unit (gmap string string))
    unit (counting_timers DeviceManager.DelayTask) :=
  DeviceManager.mk_st (Z.lor FUNCTION_HDC FUNCTION_MTP) false false false false false true 0 false true
    (Z.lor FUNCTION_HDC FUNCTION_MTP) sample_win tt (CountingTimers 1 ∅) [].

Definition connected_system :=
  after (DeviceManager.fire 1 DeviceManager.ConnectTask)
    (after (DeviceManager.HandleEvent ACT_UPDEVICE) sample_system).

Lemma connected_system_reachable : rtc system_step sample_system connected_system.
Proof.
  eapply rtc_l; [apply system_manager, (DeviceManager.step_event ACT_UPDEVICE)|].
  apply rtc_once, system_manager, DeviceManager.step_fire. by vm_compute.
Qed.

Lemma window_wanted_while_connected_witness :
  windowAction_ (DeviceManager.window connected_system) = ACTION_SHOW ∧
  DeviceManager.connected_ connected_system = true.
Proof.
  split; [by vm_compute|].
  apply (window_wanted_while_connected sample_system connected_system); [by repeat split| |by vm_compute].
  apply connected_system_reachable.
Defined.
End Samples.
