(* ===== verification/PortManager.v ===== *)
(** * The port manager

    [services/native/src/usb_port_manager.cpp], the build with [USB_MANAGER_V2_0]: the
    table of USB ports with their roles and modes, filled from the port driver and kept up
    to date by its role-change callbacks, and the requests to switch a role.

    The driver and the notifier are used through the classes of [Interfaces].  A
    [std::map] is a [gmap] whose iteration order is the order of its keys
    ([map_in_order]).  The methods that hold [mutex_] are single transitions here. *)

From Stdlib Require Import Ascii.
From stdpp Require Import pretty sorting.
From S2P Require Import Prelude Text UsbErrors UsbTypes Interfaces Marshalling.

#[local] Set Default Goal Selector "!".

(** ** Ports *)
(** [usb_port.h:26-30] [UsbPortStatus] *)
Record UsbPortStatus := mk_UsbPortStatus {
  currentMode : Z;
  currentPowerRole : Z;
  currentDataRole : Z;
}.

Definition set_currentMode (v : Z) (s : UsbPortStatus) : UsbPortStatus :=
  mk_UsbPortStatus v (currentPowerRole s) (currentDataRole s).
Definition set_currentPowerRole (v : Z) (s : UsbPortStatus) : UsbPortStatus :=
  mk_UsbPortStatus (currentMode s) v (currentDataRole s).
Definition set_currentDataRole (v : Z) (s : UsbPortStatus) : UsbPortStatus :=
  mk_UsbPortStatus (currentMode s) (currentPowerRole s) v.

(** [usb_port.h:31-34] [UsbPort] *)
Record UsbPort := mk_UsbPort {
  id : Z;
  supportedModes : Z;
  usbPortStatus : UsbPortStatus;
}.

Definition set_id (v : Z) (s : UsbPort) : UsbPort :=
  mk_UsbPort v (supportedModes s) (usbPortStatus s).
Definition set_supportedModes (v : Z) (s : UsbPort) : UsbPort :=
  mk_UsbPort (id s) v (usbPortStatus s).
Definition set_usbPortStatus (v : UsbPortStatus) (s : UsbPort) : UsbPort :=
  mk_UsbPort (id s) (supportedModes s) v.

(** The roles and modes of [usb_srv_support.h]. *)
(** [usb_srv_support.h:34-38] [PowerRole] *)
Definition POWER_ROLE_SOURCE : Z := 1.
Definition POWER_ROLE_SINK : Z := 2.
(** [usb_srv_support.h:40-44] [DataRole] *)
Definition DATA_ROLE_HOST : Z := 1.
Definition DATA_ROLE_DEVICE : Z := 2.
(** [usb_srv_support.h:46-50] [PortMode] *)
Definition PORT_MODE_DEVICE : Z := 1.
Definition PORT_MODE_HOST : Z := 2.

(** The constants of [usb_port_manager.cpp:36-45]. *)
Definition DEFAULT_ROLE_HOST : Z := 1.
Definition DEFAULT_ROLE_DEVICE : Z := 2.
Definition CMD_INDEX : Z := 1.
Definition HOST_MODE : Z := 2.

(** The fault events, and the exit notice [Stop] gives to the memory manager. *)
Inductive Event :=
  | PortRoleChanged (currentPowerRole updatePowerRole currentDataRole updateDataRole : Z)
  | NotifyProcessStatus.

(** What a dump command ends in: the lines it prints, or one of the two ways it can fail
    that the code does not handle: [stoi] throwing, and [operator[]] on an empty vector. *)
Inductive DumpResult :=
  | Printed (lines : list string)
  | StoiOutOfRange
  | EmptyVectorIndexed.

(** Print a line first. *)
Definition after_line (line : string) (r : DumpResult) : DumpResult :=
  match r with Printed lines => Printed (line :: lines) | r => r end.

Section PortCodec.
Context {P : Type} `{Parcel P}.
Open Scope usb_scope.

(** [usb_port.h:36-44] [Marshalling] *)
Definition UsbPort_Marshalling (p : UsbPort) : ST P bool :=
  WriteInt32 (id p) ;!
  WriteInt32 (supportedModes p) ;!
  WriteInt32 (currentMode (usbPortStatus p)) ;!
  WriteInt32 (currentPowerRole (usbPortStatus p)) ;!
  WriteInt32 (currentDataRole (usbPortStatus p)) ;!
  mret true.

(** [usb_port.h:46-58] [Unmarshalling] *)
Definition UsbPort_Unmarshalling : ST P UsbPort :=
  id ← ReadInt32;
  supportedModes ← ReadInt32;
  currentMode ← ReadInt32;
  currentPowerRole ← ReadInt32;
  currentDataRole ← ReadInt32;
  mret (mk_UsbPort id supportedModes
          (mk_UsbPortStatus currentMode currentPowerRole currentDataRole)).
End PortCodec.

Section PortManager.
Context {H N : Type}.

(** ** The manager's state *)
(** [usb_port_manager.h:75-81] [UsbPortManager] the members, the components they reach and the published events *)
Record st := mk_st {
  portMap_ : gmap Z UsbPort;
  supportedModeMap_ : gmap Z Z;
  usbd_ : bool;
  usbPortInterface_ : bool;
  subscribed_ : bool;
  hdi : H;
  notifier : N;
  log : list Event;
}.

Definition set_portMap_ (v : gmap Z UsbPort) (s : st) : st :=
  mk_st v (supportedModeMap_ s) (usbd_ s) (usbPortInterface_ s) (subscribed_ s) (hdi s) (notifier s) (log s).
Definition set_supportedModeMap_ (v : gmap Z Z) (s : st) : st :=
  mk_st (portMap_ s) v (usbd_ s) (usbPortInterface_ s) (subscribed_ s) (hdi s) (notifier s) (log s).
Definition set_usbd_ (v : bool) (s : st) : st :=
  mk_st (portMap_ s) (supportedModeMap_ s) v (usbPortInterface_ s) (subscribed_ s) (hdi s) (notifier s) (log s).
Definition set_usbPortInterface_ (v : bool) (s : st) : st :=
  mk_st (portMap_ s) (supportedModeMap_ s) (usbd_ s) v (subscribed_ s) (hdi s) (notifier s) (log s).
Definition set_subscribed_ (v : bool) (s : st) : st :=
  mk_st (portMap_ s) (supportedModeMap_ s) (usbd_ s) (usbPortInterface_ s) v (hdi s) (notifier s) (log s).
Definition set_hdi (v : H) (s : st) : st :=
  mk_st (portMap_ s) (supportedModeMap_ s) (usbd_ s) (usbPortInterface_ s) (subscribed_ s) v (notifier s) (log s).
Definition set_notifier (v : N) (s : st) : st :=
  mk_st (portMap_ s) (supportedModeMap_ s) (usbd_ s) (usbPortInterface_ s) (subscribed_ s) (hdi s) v (log s).
Definition set_log (v : list Event) (s : st) : st :=
  mk_st (portMap_ s) (supportedModeMap_ s) (usbd_ s) (usbPortInterface_ s) (subscribed_ s) (hdi s) (notifier s) v.

Context `{EB : ErrBase} `{PortHdi H UsbPort} `{NotifierOps N}.

Definition on_hdi {A} (m : ST H A) : ST st A := λ s, let '(a, h) := m (hdi s) in (a, set_hdi h s).
Definition on_notifier {A} (m : ST N A) : ST st A :=
  λ s, let '(a, n) := m (notifier s) in (a, set_notifier n s).
Definition emit (e : Event) : ST st unit := modify (λ s, set_log (log s ++ [e]) s).

(** [usb_port_manager.cpp:512-520] [UsbPortManager::ReportPortRoleChangeSysEvent] *)
Definition ReportPortRoleChangeSysEvent
    (currentPowerRole updatePowerRole currentDataRole updateDataRole : Z) : ST st unit :=
  emit (PortRoleChanged currentPowerRole updatePowerRole currentDataRole updateDataRole).

(** [usb_port_manager.cpp:377-388] [UsbPortManager::AddPort] [std::map::insert] does not replace *)
Definition AddPort (port : UsbPort) : ST st unit :=
  ports ← gets portMap_;
  match ports !! id port with
  | Some _ => mret tt
  | None => modify (set_portMap_ (<[id port := port]> ports))
  end.

(** [usb_port_manager.cpp:365-375] [UsbPortManager::AddPortInfo] *)
Definition AddPortInfo (portId supportedModes currentMode currentDataRole currentPowerRole : Z)
    : ST st unit :=
  AddPort (mk_UsbPort portId supportedModes
             (mk_UsbPortStatus currentMode currentPowerRole currentDataRole)).

(** [usb_port_manager.cpp:277-316] [UsbPortManager::QueryPort] *)
Definition QueryPort : ST st Z :=
  present ← gets usbPortInterface_;
  if negb present then mret UEC_SERVICE_INVALID_VALUE
  else
    r ← on_hdi hdi_QueryPorts;
    let '(ret, portList) := r in
    if negb (ret =? UEC_OK) then mret ret
    else
      mfor portList (λ it,
        AddPortInfo (id it) (supportedModes it) (currentMode (usbPortStatus it))
          (currentDataRole (usbPortStatus it)) (currentPowerRole (usbPortStatus it))) ;;
      mret ret.

(** [usb_port_manager.cpp:69-79] [UsbPortManager::AddSupportedMode] *)
Definition AddSupportedMode : ST st unit :=
  modify (set_supportedModeMap_ ∅) ;;
  ports ← gets portMap_;
  mfor (map_in_order ports) (λ kv, modify (λ s,
    set_supportedModeMap_ (<[kv.1 := supportedModes kv.2]> (supportedModeMap_ s)) s)).

(** [usb_port_manager.cpp:59-67] [UsbPortManager::Init] *)
Definition Init : ST st unit :=
  QueryPort ;; AddSupportedMode.

(** [usb_port_manager.cpp:85-93] [UsbPortManager::InitUsbPortInterface] the retry loop; [get i] is what the call of [IUsbPortInterface::Get] in round [i] yields *)
Fixpoint get_interface (get : nat → option H) (i rounds : nat) : option H :=
  match rounds with
  | O => None
  | S rounds => match get i with Some h => Some h | None => get_interface get (S i) rounds end
  end.

(** [usb_port_manager.cpp:82-113] [UsbPortManager::InitUsbPortInterface] [added] is the result of [AddDeathRecipient] *)
Definition InitUsbPortInterface (get : nat → option H) (added : bool) : ST st bool :=
  match get_interface get 0 3 with
  | None => modify (set_usbPortInterface_ false) ;; mret false
  | Some h =>
      modify (λ s, set_usbPortInterface_ true (set_hdi h s)) ;;
      modify (set_subscribed_ true) ;;
      if negb added then mret false
      else
        ret ← on_hdi hdi_BindUsbdPortSubscriber;
        mret (ret =? ERR_OK)
  end.

(** [usb_port_manager.cpp:129-140] [UsbPortManager::Stop] *)
Definition Stop : ST st unit :=
  present ← gets usbPortInterface_;
  if negb present then mret tt
  else on_hdi hdi_UnbindUsbdPortSubscriber ;; emit NotifyProcessStatus.

(** [usb_port_manager.cpp:142-149] [UsbPortManager::BindUsbdSubscriber] *)
Definition BindUsbdSubscriber : ST st Z :=
  present ← gets usbPortInterface_;
  if negb present then mret UEC_SERVICE_INVALID_VALUE
  else on_hdi hdi_BindUsbdPortSubscriber.

(** [usb_port_manager.cpp:151-158] [UsbPortManager::UnbindUsbdSubscriber] *)
Definition UnbindUsbdSubscriber : ST st Z :=
  present ← gets usbPortInterface_;
  if negb present then mret UEC_SERVICE_INVALID_VALUE
  else on_hdi hdi_UnbindUsbdPortSubscriber.

(** [usb_port_manager.cpp:161-176] [UsbPortManager::IsReverseCharge] *)
Definition IsReverseCharge : ST st bool :=
  ports ← gets portMap_;
  mret match ports !! CMD_INDEX with
       | None => false
       | Some p => currentPowerRole (usbPortStatus p) =? DEFAULT_ROLE_HOST
       end.

(** [usb_port_manager.cpp:178-209] [UsbPortManager::SetPortRole] *)
Definition SetPortRole (portId powerRole dataRole : Z) : ST st Z :=
  present ← gets usbPortInterface_;
  if negb present then mret UEC_SERVICE_INVALID_VALUE
  else
    ret ← on_hdi (hdi_SetPortRole portId powerRole dataRole);
    if negb (ret =? UEC_OK) then mret ret
    else
      reverse ← IsReverseCharge;
      (if (reverse : bool) then on_notifier (notify_Send USB_FUNC_REVERSE_CHARGE)
       else on_notifier (notify_Send USB_FUNC_CHARGE)) ;;
      mret UEC_OK.

(** [usb_port_manager.cpp:211-225] [UsbPortManager::GetIUsbInterface] [get i]: whether [IUsbInterface::Get] yields the driver in round [i] *)
Definition GetIUsbInterface (get : nat → bool) : ST st unit :=
  have ← gets usbd_;
  mwhen (negb have) (modify (set_usbd_ (get 0%nat || get 1%nat || get 2%nat))).

(** [usb_port_manager.cpp:227-236] [UsbPortManager::SetUsbd] the argument is whether the pointer is set *)
Definition SetUsbd (usbd : bool) : ST st Z :=
  if negb usbd then mret UEC_SERVICE_INVALID_VALUE
  else modify (set_usbd_ usbd) ;; mret UEC_OK.

(** [usb_port_manager.cpp:238-261] [UsbPortManager::GetPorts] the result code and the out-parameter *)
Definition GetPorts (ports : list UsbPort) : ST st (Z * list UsbPort) :=
  m ← gets portMap_;
  if negb (bool_decide (m = ∅)) then mret (UEC_OK, ports ++ (map_in_order m).*2)
  else
    ret ← QueryPort;
    if ret =? UEC_OK then
      m ← gets portMap_;
      mret (ret, ports ++ (map_in_order m).*2)
    else mret (UEC_SERVICE_INVALID_VALUE, ports).

(** [usb_port_manager.cpp:263-275] [UsbPortManager::GetSupportedModes] the result code and the out-parameter *)
Definition GetSupportedModes (portId supportedModes : Z) : ST st (Z * Z) :=
  m ← gets supportedModeMap_;
  mret match m !! portId with
       | Some modes => (UEC_OK, modes)
       | None => (UEC_SERVICE_INVALID_VALUE, supportedModes)
       end.

(** The status after a role change: the mode follows the data role, when that is one of
    the two the code knows. *)
Definition updated_status (st0 : UsbPortStatus) (powerRole dataRole : Z) : UsbPortStatus :=
  let st1 := set_currentDataRole dataRole (set_currentPowerRole powerRole st0) in
  if currentDataRole st1 =? DATA_ROLE_HOST then set_currentMode PORT_MODE_HOST st1
  else if currentDataRole st1 =? DATA_ROLE_DEVICE then set_currentMode PORT_MODE_DEVICE st1
  else st1.

(** [usb_port_manager.cpp:318-339] [UsbPortManager::UpdatePort] [mode] is not used *)
Definition UpdatePort (portId powerRole dataRole mode : Z) : ST st unit :=
  ports ← gets portMap_;
  match ports !! portId with
  | None => mret tt
  | Some p =>
      mwhen (id p =? portId)
        (ReportPortRoleChangeSysEvent (currentPowerRole (usbPortStatus p)) powerRole
           (currentDataRole (usbPortStatus p)) dataRole ;;
         modify (set_portMap_
           (<[portId := set_usbPortStatus (updated_status (usbPortStatus p) powerRole dataRole) p]>
              ports)))
  end.

(** [usb_port_manager.cpp:341-363] [UsbPortManager::UpdatePort] the overload with [supportedModes], which is not used either *)
Definition UpdatePort_modes (portId powerRole dataRole mode supportedModes : Z) : ST st unit :=
  UpdatePort portId powerRole dataRole mode.

(** [usb_port_manager.cpp:390-400] [UsbPortManager::RemovePort] *)
Definition RemovePort (portId : Z) : ST st unit :=
  modify (λ s, set_portMap_ (delete portId (portMap_ s)) s).

(** [usb_port_manager.cpp:402-416] [UsbPortManager::GetPortsInfo] *)
Definition GetPortsInfo : ST st DumpResult :=
  r ← GetPorts [];
  let '(ret, usbports) := r in
  mret (if negb (ret =? UEC_OK) then Printed ["GetPortsInfo:GetPorts failed"]
        else
          match usbports with
          | [] => EmptyVectorIndexed
          | p :: _ =>
              let mode := currentMode (usbPortStatus p) in
              Printed [("get current port " +:+ pretty mode +:+
                (if (mode =? HOST_MODE)%Z then ": host" else ": device"))%string]
          end).

(** [hidumper_set] is the build flag [USB_MANAGER_HIDUMPER_SET]. *)
Section Dump.
Context (hidumper_set : bool).

(** [usb_port_manager.cpp:418-428] [UsbPortManager::GetDumpHelp] *)
Definition GetDumpHelp : list string :=
  ["=========== dump the all device port ===========";
   "usb_port -a: Query All Port List"; "usb_port -p Q: Query Port"] ++
  (if hidumper_set then ["usb_port -p 1: Switch to host"; "usb_port -p 2: Switch to device"]
   else []) ++
  ["------------------------------------------------"].

(** One line of the port list. *)
Definition port_line (p : UsbPort) : string :=
  ("id: " +:+ pretty (id p) +:+ " | supportedModes: " +:+ pretty (supportedModes p) +:+
   " | currentMode: " +:+ pretty (currentMode (usbPortStatus p)) +:+
   " | currentPowerRole: " +:+ pretty (currentPowerRole (usbPortStatus p)) +:+
   " | currentDataRole: " +:+ pretty (currentDataRole (usbPortStatus p)))%string.

(** [usb_port_manager.cpp:430-448] [UsbPortManager::DumpGetSupportPort] *)
Definition DumpGetSupportPort : ST st DumpResult :=
  r ← GetPorts [];
  let '(ret, ports) := r in
  mret (Printed ("Usb Port device status:" ::
    (if negb (ret =? UEC_OK) then ["UsbPortManager::GetPorts failed, port is empty"]
     else match ports with
          | [] => ["all port list is empty"]
          | _ => port_line <$> ports
          end))).

(** [usb_port_manager.cpp:450-493] [UsbPortManager::DumpSetPortRoles] *)
Definition DumpSetPortRoles (args : string) : ST st DumpResult :=
  present ← gets usbPortInterface_;
  if negb present then mret (Printed [])
  else if String.eqb args "Q" then GetPortsInfo
  else if hidumper_set then
    if negb (all_digits args) then
      mret (Printed ("Invalid input, please enter a valid integer" :: GetDumpHelp))
    else
      match stoi args with
      | None => mret StoiOutOfRange
      | Some mode =>
          if mode =? DEFAULT_ROLE_HOST then
            SetPortRole PORT_MODE_DEVICE POWER_ROLE_SOURCE DATA_ROLE_HOST ;; GetPortsInfo
          else if mode =? DEFAULT_ROLE_DEVICE then
            SetPortRole PORT_MODE_DEVICE POWER_ROLE_SINK DATA_ROLE_DEVICE ;; GetPortsInfo
          else mret (Printed ("port param error, please enter again" :: GetDumpHelp))
      end
  else mret (Printed ("port param error, please enter again" :: GetDumpHelp)).

(** [usb_port_manager.cpp:495-510] [UsbPortManager::Dump] *)
Definition Dump (args : list string) : ST st DumpResult :=
  match args with
  | [_; cmd] =>
      if String.eqb cmd "-a" then DumpGetSupportPort
      else mret (Printed ("port param error, please enter again" :: GetDumpHelp))
  | [_; cmd; param] =>
      if String.eqb cmd "-p" then DumpSetPortRoles param
      else mret (Printed ("port param error, please enter again" :: GetDumpHelp))
  | _ => mret (Printed GetDumpHelp)
  end.
End Dump.
End PortManager.

(** ** The port table *)
Section Table.
Context {H N : Type} `{EB : ErrBase} `{PortHdi H UsbPort} `{NotifierOps N}.
Abbreviation st := (@st H N).
Implicit Types (s : st) (p : UsbPort) (m : gmap Z UsbPort).

(** A list of ports as a table: the first port under an identifier counts. *)
Definition table (l : list UsbPort) : gmap Z UsbPort := list_to_map ((λ p, (id p, p)) <$> l).

Lemma table_lookup_keyed l k p : table l !! k = Some p → id p = k ∧ p ∈ l.
Proof.
  unfold table. intros Hl%elem_of_list_to_map_2.
  apply list_elem_of_fmap in Hl as (q & [= -> ->] & Hq). done.
Qed.

(** The operations of the manager that change the table, on the table alone. *)
Lemma after_AddPort p s :
  after (AddPort p) s = set_portMap_ (portMap_ s ∪ {[id p := p]}) s.
Proof.
  unfold AddPort. autorewrite with st.
  destruct (portMap_ s !! id p) as [q|] eqn:E; autorewrite with st.
  - assert (portMap_ s ∪ {[id p := p]} = portMap_ s) as ->; [|by destruct s].
    apply map_eq. intros k. rewrite lookup_union.
    destruct (decide (k = id p)) as [->|Hn].
    + by rewrite E, lookup_singleton_eq.
    + rewrite lookup_singleton_ne by done. by destruct (portMap_ s !! k).
  - f_equal. apply map_eq. intros k. rewrite lookup_union.
    destruct (decide (k = id p)) as [->|Hn].
    + by rewrite E, lookup_insert_eq, lookup_singleton_eq.
    + rewrite lookup_insert_ne, lookup_singleton_ne by done. by destruct (portMap_ s !! k).
Qed.

Definition AddPortInfo_of p : ST st unit :=
  AddPortInfo (id p) (supportedModes p) (currentMode (usbPortStatus p))
    (currentDataRole (usbPortStatus p)) (currentPowerRole (usbPortStatus p)).

Lemma AddPortInfo_of_eq p : AddPortInfo_of p = AddPort p.
Proof. by destruct p as [? ? [? ? ?]]. Qed.

Lemma after_add_all l s :
  after (mfor l AddPortInfo_of) s = set_portMap_ (portMap_ s ∪ table l) s.
Proof.
  revert s. induction l as [|p l IH]; intros s; simpl.
  - autorewrite with st. unfold table. simpl. rewrite (right_id_L ∅ (∪)). by destruct s.
  - autorewrite with st. rewrite IH, AddPortInfo_of_eq, after_AddPort. simpl.
    unfold table. simpl. rewrite insert_union_singleton_l, (assoc_L (∪)). by destruct s.
Qed.

(** What [QueryPort] does: the ports the driver lists are added to the table, none is
    replaced, and nothing else of the manager changes. *)
Lemma QueryPort_run s :
  let q := hdi_QueryPorts (hdi s) in
  QueryPort s =
    if usbPortInterface_ s then
      if q.1.1 =? UEC_OK then
        (UEC_OK, set_portMap_ (portMap_ s ∪ table q.1.2) (set_hdi q.2 s))
      else (q.1.1, set_hdi q.2 s)
    else (UEC_SERVICE_INVALID_VALUE, s).
Proof.
  intros q. unfold QueryPort. rewrite bind_unfold. simpl.
  destruct (usbPortInterface_ s) eqn:E; simpl; [|done].
  rewrite bind_unfold. unfold on_hdi. subst q.
  destruct (hdi_QueryPorts (hdi s)) as [[ret l] h]. simpl.
  destruct (ret =? UEC_OK) eqn:Er; simpl; [|done].
  rewrite bind_unfold. simpl. apply Z.eqb_eq in Er as ->.
  fold (AddPortInfo_of). pose proof (after_add_all l (set_hdi h s)) as Ha.
  unfold after in Ha. f_equal. exact Ha.
Qed.

Lemma QueryPort_rest s :
  supportedModeMap_ (after QueryPort s) = supportedModeMap_ s ∧
  log (after QueryPort s) = log s ∧ notifier (after QueryPort s) = notifier s ∧
  usbPortInterface_ (after QueryPort s) = usbPortInterface_ s.
Proof.
  unfold after. rewrite QueryPort_run. by repeat case_if.
Qed.

Lemma map_in_order_values m p :
  (∀ k q, m !! k = Some q → id q = k) →
  p ∈ (map_in_order m).*2 ↔ m !! id p = Some p.
Proof.
  intros Hk. rewrite list_elem_of_fmap. split.
  - intros ([k q] & -> & Hq). apply elem_of_map_in_order in Hq. simpl.
    by rewrite (Hk k q Hq).
  - intros Hp. exists (id p, p). split; [done|]. by apply elem_of_map_in_order.
Qed.

Lemma map_in_order_ids m :
  (∀ k q, m !! k = Some q → id q = k) → id <$> (map_in_order m).*2 = (map_in_order m).*1.
Proof.
  intros Hk. rewrite <- list_fmap_compose. apply list_fmap_ext. intros i [k q] Hi.
  apply list_elem_of_lookup_2, elem_of_map_in_order in Hi. simpl. by apply Hk.
Qed.

(** ** Transitions *)

(** The calls that reach the manager: the service's requests and the driver's
    callbacks. *)
Inductive call : st → st → Prop :=
  | call_init_interface get added s : call s (after (InitUsbPortInterface get added) s)
  | call_stop s : call s (after Stop s)
  | call_bind s : call s (after BindUsbdSubscriber s)
  | call_unbind s : call s (after UnbindUsbdSubscriber s)
  | call_set_usbd b s : call s (after (SetUsbd b) s)
  | call_reverse s : call s (after IsReverseCharge s)
  | call_set_role portId powerRole dataRole s :
      call s (after (SetPortRole portId powerRole dataRole) s)
  | call_get_ports ports s : call s (after (GetPorts ports) s)
  | call_get_modes portId modes s : call s (after (GetSupportedModes portId modes) s)
  | call_query s : call s (after QueryPort s)
  | call_update portId powerRole dataRole mode s :
      call s (after (UpdatePort portId powerRole dataRole mode) s)
  | call_update_modes portId powerRole dataRole mode modes s :
      call s (after (UpdatePort_modes portId powerRole dataRole mode modes) s)
  | call_remove portId s : call s (after (RemovePort portId) s)
  | call_dump hidumper_set args s : call s (after (Dump hidumper_set args) s).

(** The service initialises the manager, and may do it again when it restarts. *)
Inductive step : st → st → Prop :=
  | step_init s : step s (after Init s)
  | step_call s s' : call s s' → step s s'.

(** A freshly constructed manager. *)
Definition initial s : Prop :=
  portMap_ s = ∅ ∧ supportedModeMap_ s = ∅ ∧ usbPortInterface_ s = false.

(** *** Properties of every entry of the table

    A property of the entries that the ports the driver reports
    have, and that a role change keeps, holds of the table at all times. *)
Section Entries.
Context (I : Z → UsbPort → Prop).

Definition entries s : Prop := ∀ k p, portMap_ s !! k = Some p → I k p.

Definition reported_ok : Prop :=
  ∀ h p, p ∈ (result hdi_QueryPorts h).2 → I (id p) p.
Definition update_ok : Prop :=
  ∀ k p powerRole dataRole, I k p → id p = k →
    I k (set_usbPortStatus (updated_status (usbPortStatus p) powerRole dataRole) p).

Lemma entries_modify (f : st → st) :
  (∀ s, portMap_ (f s) = portMap_ s) → preserves entries (modify f).
Proof. intros Hf s Hs. unfold entries. rewrite after_modify, Hf. exact Hs. Qed.
Lemma entries_on_hdi {A} (f : ST H A) : preserves entries (on_hdi f).
Proof. intros s Hs. unfold after, on_hdi. destruct (f (hdi s)). exact Hs. Qed.
Lemma entries_on_notifier {A} (f : ST N A) : preserves entries (on_notifier f).
Proof. intros s Hs. unfold after, on_notifier. destruct (f (notifier s)). exact Hs. Qed.
Lemma entries_emit e : preserves entries (emit e).
Proof. by apply entries_modify. Qed.

Lemma entries_union s m2 :
  entries s → (∀ k p, m2 !! k = Some p → I k p) → entries (set_portMap_ (portMap_ s ∪ m2) s).
Proof.
  intros Hs H2 k p. simpl. rewrite lookup_union_Some_raw. intros [Hk|[_ Hk]]; eauto.
Qed.

Lemma entries_AddPort p : I (id p) p → preserves entries (AddPort p).
Proof.
  intros Hp s Hs. rewrite after_AddPort. apply entries_union; [done|].
  intros k q [<- <-]%lookup_singleton_Some. done.
Qed.

Lemma entries_QueryPort : reported_ok → preserves entries QueryPort.
Proof.
  intros Hr s Hs. unfold after. rewrite QueryPort_run. repeat case_if; [|exact Hs..].
  intros k p. simpl. rewrite lookup_union_Some_raw. intros [Hk|[_ Hk]]; [by eauto|].
  apply table_lookup_keyed in Hk as [<- Hp]. by apply (Hr (hdi s)).
Qed.

Lemma entries_UpdatePort a b c d : update_ok → preserves entries (UpdatePort a b c d).
Proof.
  intros Hu s Hs. unfold UpdatePort. autorewrite with st.
  destruct (portMap_ s !! a) as [p|] eqn:E; [|exact Hs]. rewrite after_when.
  destruct (id p =? a) eqn:Ea; [|exact Hs]. apply Z.eqb_eq in Ea.
  unfold ReportPortRoleChangeSysEvent. autorewrite with st. simpl. intros k q. simpl.
  destruct (decide (k = a)) as [->|Hn].
  - rewrite lookup_insert_eq. intros [= <-]. apply Hu; auto.
  - rewrite lookup_insert_ne by done. apply Hs.
Qed.

Lemma entries_RemovePort a : preserves entries (RemovePort a).
Proof. intros s Hs k p. simpl. intros [_ Hk]%lookup_delete_Some. by apply Hs. Qed.

#[local] Hint Extern 1 (preserves entries (modify _)) =>
  (apply entries_modify; intros; reflexivity) : preserve.
#[local] Hint Resolve entries_on_hdi entries_on_notifier entries_emit
  entries_QueryPort entries_UpdatePort entries_RemovePort : preserve.

Lemma entries_AddSupportedMode : preserves entries AddSupportedMode.
Proof. unfold AddSupportedMode. step_preserve. Qed.
Lemma entries_GetPorts ports : reported_ok → preserves entries (GetPorts ports).
Proof. unfold GetPorts. step_preserve. Qed.
Lemma entries_SetPortRole a b c : preserves entries (SetPortRole a b c).
Proof. unfold SetPortRole, IsReverseCharge. step_preserve. Qed.
#[local] Hint Resolve entries_AddSupportedMode entries_GetPorts entries_SetPortRole : preserve.
Lemma entries_GetPortsInfo : reported_ok → preserves entries GetPortsInfo.
Proof. unfold GetPortsInfo. step_preserve. Qed.
#[local] Hint Resolve entries_GetPortsInfo : preserve.
Lemma entries_Dump b args : reported_ok → preserves entries (Dump b args).
Proof. unfold Dump, DumpSetPortRoles, DumpGetSupportPort. step_preserve. Qed.
#[local] Hint Resolve entries_Dump : preserve.

Lemma entries_step s s' : reported_ok → update_ok → step s s' → entries s → entries s'.
Proof.
  intros Hr Hu Hstep Hs. revert Hs. destruct Hstep as [s|s s' []];
    match goal with |- _ → entries (after ?m ?s) =>
      revert s; change (preserves entries m) end;
    unfold Init, InitUsbPortInterface, Stop, BindUsbdSubscriber, UnbindUsbdSubscriber, SetUsbd,
      IsReverseCharge, GetSupportedModes, UpdatePort_modes; step_preserve.
Qed.

Lemma entries_rtc s s' : reported_ok → update_ok → initial s → rtc step s s' → entries s'.
Proof.
  intros Hr Hu [Hi _] Hsteps. assert (Hs : entries s) by (intros k p; by rewrite Hi).
  clear Hi. induction Hsteps; [done|]. eauto using entries_step.
Qed.
End Entries.

(** Every port is stored under its own identifier. *)
Definition keyed s : Prop := entries (λ k p, id p = k) s.

(** The mode of a port agrees with its data role, when that is one of the known ones. *)
Definition consistent p : Prop :=
  (currentDataRole (usbPortStatus p) = DATA_ROLE_HOST →
   currentMode (usbPortStatus p) = PORT_MODE_HOST) ∧
  (currentDataRole (usbPortStatus p) = DATA_ROLE_DEVICE →
   currentMode (usbPortStatus p) = PORT_MODE_DEVICE).

Lemma updated_status_consistent p a b :
  consistent p ∨ b = DATA_ROLE_HOST ∨ b = DATA_ROLE_DEVICE →
  consistent (set_usbPortStatus (updated_status (usbPortStatus p) a b) p).
Proof.
  intros Hb. unfold consistent, updated_status. simpl.
  destruct (b =? DATA_ROLE_HOST) eqn:E1; [|destruct (b =? DATA_ROLE_DEVICE) eqn:E2];
    simpl; bsimp; split; unfold DATA_ROLE_HOST, DATA_ROLE_DEVICE in *; try done; lia.
Qed.

Lemma keyed_rtc s s' : initial s → rtc step s s' → keyed s'.
Proof.
  intros Hi Hr. apply (entries_rtc _ s s'); [by intros h p| |exact Hi|exact Hr].
  by intros k p a b <- _.
Qed.

Lemma consistent_rtc s s' :
  reported_ok (λ _, consistent) → initial s → rtc step s s' →
  entries (λ _, consistent) s'.
Proof.
  intros Ho Hi Hr. eapply entries_rtc; [exact Ho| |exact Hi|exact Hr].
  intros k p a b Hc _. apply updated_status_consistent. by left.
Qed.

(** ** What the operations promise *)

(** In every reachable state the table holds each port under its own identifier;
    and if the driver reports ports whose mode agrees with their data role, so does every
    port of the table, whatever sequence of role-change callbacks, role requests, removals,
    queries and dumps has happened. *)
Theorem port_table_invariant s s' portId p (Hi : initial s) (Hr : rtc step s s')
    (Hp : portMap_ s' !! portId = Some p) :
  id p = portId ∧ (reported_ok (λ _, consistent) → consistent p).
Proof.
  split; [by apply (keyed_rtc s s')|].
  intros Ho. exact (consistent_rtc s s' Ho Hi Hr portId p Hp).
Qed.

Lemma UpdatePort_known s portId powerRole dataRole mode p :
  keyed s → portMap_ s !! portId = Some p →
  after (UpdatePort portId powerRole dataRole mode) s =
    set_portMap_ (<[portId :=
        set_usbPortStatus (updated_status (usbPortStatus p) powerRole dataRole) p]> (portMap_ s))
      (set_log (log s ++ [PortRoleChanged (currentPowerRole (usbPortStatus p)) powerRole
                            (currentDataRole (usbPortStatus p)) dataRole]) s).
Proof.
  intros Hk Hp. unfold UpdatePort. autorewrite with st. rewrite Hp, after_when.
  rewrite (Hk _ _ Hp), Z.eqb_refl. unfold ReportPortRoleChangeSysEvent, emit.
  autorewrite with st. done.
Qed.

(** A role-change callback of the driver, on a reachable state: for a known port the
    roles become the reported ones, the mode follows the data role when it is host or
    device and is kept otherwise, the supported modes and every other port are kept, and
    the old and the new roles are reported once; for an unknown port nothing changes.  The
    [mode] the callback carries is not used. *)
Theorem UpdatePort_spec s0 s portId powerRole dataRole mode (Hi : initial s0)
    (Hr : rtc step s0 s) :
  let s' := after (UpdatePort portId powerRole dataRole mode) s in
  match portMap_ s !! portId with
  | None => s' = s
  | Some p =>
      (∃ p', portMap_ s' !! portId = Some p' ∧ id p' = portId ∧
         supportedModes p' = supportedModes p ∧
         currentPowerRole (usbPortStatus p') = powerRole ∧
         currentDataRole (usbPortStatus p') = dataRole ∧
         currentMode (usbPortStatus p') =
           (if dataRole =? DATA_ROLE_HOST then PORT_MODE_HOST
            else if dataRole =? DATA_ROLE_DEVICE then PORT_MODE_DEVICE
            else currentMode (usbPortStatus p))) ∧
      (∀ k, k ≠ portId → portMap_ s' !! k = portMap_ s !! k) ∧
      log s' = log s ++ [PortRoleChanged (currentPowerRole (usbPortStatus p)) powerRole
                           (currentDataRole (usbPortStatus p)) dataRole]
  end.
Proof.
  intros s'. subst s'. pose proof (keyed_rtc s0 s Hi Hr) as Hk.
  destruct (portMap_ s !! portId) as [p|] eqn:E.
  - rewrite (UpdatePort_known s _ _ _ _ p) by done. simpl. split; [|split].
    + eexists. split; [apply lookup_insert_eq|].
      rewrite <- (Hk _ _ E). unfold updated_status. simpl.
      by repeat (case_if; [done|]).
    + intros k Hn. by rewrite lookup_insert_ne.
    + done.
  - unfold UpdatePort. autorewrite with st. by rewrite E.
Qed.

(** What [GetPorts] returns for a table. *)
Lemma map_in_order_spec m :
  (∀ k q, m !! k = Some q → id q = k) →
  StronglySorted Z.lt (id <$> (map_in_order m).*2) ∧
  (∀ p, p ∈ (map_in_order m).*2 ↔ m !! id p = Some p).
Proof.
  intros Hk. split; [|by intros p; apply map_in_order_values].
  rewrite map_in_order_ids by done. apply map_in_order_sorted.
Qed.

(** [GetPorts] on a reachable state.  When it succeeds, the ports it returns are
    exactly those of the table afterwards, in strictly ascending order of their
    identifiers; a table that is not empty is returned as it is without asking the driver;
    an empty one is filled with the first port the driver reports under each identifier. *)
Theorem GetPorts_spec s0 s (Hi : initial s0) (Hr : rtc step s0 s) :
  let '((ret, ports), s') := GetPorts [] s in
  (ret = UEC_OK →
     StronglySorted Z.lt (id <$> ports) ∧ (∀ p, p ∈ ports ↔ portMap_ s' !! id p = Some p)) ∧
  (portMap_ s ≠ ∅ → ret = UEC_OK ∧ s' = s) ∧
  (portMap_ s = ∅ → ret = UEC_OK →
     portMap_ s' = table (result hdi_QueryPorts (hdi s)).2).
Proof.
  pose proof (keyed_rtc s0 s Hi Hr) as Hk.
  unfold GetPorts. rewrite bind_unfold. simpl. case_bool_decide as He; simpl.
  2: { split; [|done]. intros _. by apply map_in_order_spec. }
  rewrite bind_unfold. pose proof (keyed_rtc s0 (after QueryPort s) Hi) as Hk'.
  specialize (Hk' (rtc_r _ _ _ Hr (step_call _ _ (call_query s)))).
  unfold after in Hk'. rewrite QueryPort_run in *. unfold result.
  destruct (hdi_QueryPorts (hdi s)) as [[r l] h]. simpl in *.
  pose proof invalid_value_not_ok as Hv.
  assert (Hv' : (UEC_SERVICE_INVALID_VALUE =? UEC_OK) = false) by by apply Z.eqb_neq.
  destruct (usbPortInterface_ s); cbn in Hk' |- *; [|by rewrite Hv'].
  destruct (r =? UEC_OK) eqn:Er; cbn in Hk' |- *; [|by rewrite Er].
  split; [intros _; by apply map_in_order_spec|]. split; [by intros []|].
  intros _ _. by rewrite He, (left_id_L ∅ (∪)).
Qed.

(** *** The supported modes *)

(** Every operation but [Init] leaves the table of supported modes alone. *)
Section Modes.
Context (modes : gmap Z Z).
Definition same_modes s : Prop := supportedModeMap_ s = modes.

Lemma same_modes_modify (f : st → st) :
  (∀ s, supportedModeMap_ (f s) = supportedModeMap_ s) → preserves same_modes (modify f).
Proof. intros Hf s Hs. unfold same_modes. rewrite after_modify, Hf. exact Hs. Qed.
Lemma same_modes_on_hdi {A} (f : ST H A) : preserves same_modes (on_hdi f).
Proof. intros s Hs. unfold after, on_hdi. destruct (f (hdi s)). exact Hs. Qed.
Lemma same_modes_on_notifier {A} (f : ST N A) : preserves same_modes (on_notifier f).
Proof. intros s Hs. unfold after, on_notifier. destruct (f (notifier s)). exact Hs. Qed.
Lemma same_modes_emit e : preserves same_modes (emit e).
Proof. by apply same_modes_modify. Qed.
Lemma same_modes_QueryPort : preserves same_modes QueryPort.
Proof. intros s Hs. unfold same_modes. by rewrite (proj1 (QueryPort_rest s)). Qed.

#[local] Hint Extern 1 (preserves same_modes (modify _)) =>
  (apply same_modes_modify; intros; reflexivity) : preserve.
#[local] Hint Resolve same_modes_on_hdi same_modes_on_notifier same_modes_emit
  same_modes_QueryPort : preserve.

Lemma same_modes_call s s' : call s s' → same_modes s → same_modes s'.
Proof.
  destruct 1;
    match goal with |- _ → same_modes (after ?m ?s) =>
      revert s; change (preserves same_modes m) end;
    unfold InitUsbPortInterface, Stop, BindUsbdSubscriber, UnbindUsbdSubscriber, SetUsbd,
      IsReverseCharge, GetSupportedModes, RemovePort, Dump, DumpSetPortRoles, DumpGetSupportPort,
      GetPortsInfo, GetPorts, SetPortRole, UpdatePort_modes, UpdatePort, IsReverseCharge,
      ReportPortRoleChangeSysEvent; step_preserve.
Qed.
End Modes.

Lemma after_record_modes (l : list (Z * UsbPort)) s :
  after (mfor l (λ kv, modify (λ s,
    set_supportedModeMap_ (<[kv.1 := supportedModes kv.2]> (supportedModeMap_ s)) s))) s =
  set_supportedModeMap_
    (foldl (λ (m : gmap Z Z) kv, <[kv.1 := supportedModes kv.2]> m) (supportedModeMap_ s) l) s.
Proof.
  revert s. induction l as [|x l IH]; intros s; simpl; [by destruct s|].
  autorewrite with st. rewrite IH. simpl. by destruct s.
Qed.

Lemma foldl_insert_lookup (l : list (Z * UsbPort)) (acc : gmap Z Z) k :
  NoDup l.*1 →
  foldl (λ (m : gmap Z Z) kv, <[kv.1 := supportedModes kv.2]> m) acc l !! k =
    match (list_to_map l : gmap Z UsbPort) !! k with
    | Some p => Some (supportedModes p)
    | None => acc !! k
    end.
Proof.
  revert acc. induction l as [|[j p] l IH]; intros acc Hnd; csimpl in *; [done|].
  apply NoDup_cons in Hnd as [Hn Hnd]. rewrite IH by done.
  destruct (decide (k = j)) as [->|Hkj].
  - by rewrite lookup_insert_eq, (proj1 (not_elem_of_list_to_map _ _) Hn), lookup_insert_eq.
  - by rewrite !lookup_insert_ne by done.
Qed.

Lemma AddSupportedMode_modes s k :
  supportedModeMap_ (after AddSupportedMode s) !! k = supportedModes <$> (portMap_ s !! k) ∧
  portMap_ (after AddSupportedMode s) = portMap_ s.
Proof.
  unfold AddSupportedMode. autorewrite with st. simpl. rewrite after_record_modes. simpl.
  split; [|done]. rewrite foldl_insert_lookup by apply NoDup_map_in_order.
  assert (Heq : list_to_map (map_in_order (portMap_ s)) = portMap_ s).
  { rewrite <- (list_to_map_to_list (portMap_ s)) at 2.
    apply list_to_map_proper; [apply NoDup_map_in_order|]. apply merge_sort_Permutation. }
  rewrite Heq, lookup_empty. by destruct (portMap_ s !! k).
Qed.

(** After [Init], whatever calls follow, [GetSupportedModes] answers from the ports
    that were in the table when [Init] returned: a port known then is answered with the
    modes it had then, any other port is refused, even if a later query has added it to
    the table or a removal has taken it out. *)
Theorem GetSupportedModes_snapshot s0 s portId modes (Hr : rtc call (after Init s0) s) :
  GetSupportedModes portId modes s =
    (match portMap_ (after Init s0) !! portId with
     | Some p => (UEC_OK, supportedModes p)
     | None => (UEC_SERVICE_INVALID_VALUE, modes)
     end, s).
Proof.
  assert (Hm : same_modes (supportedModeMap_ (after Init s0)) s).
  { assert (Hb : same_modes (supportedModeMap_ (after Init s0)) (after Init s0)) by done.
    revert Hb. generalize (supportedModeMap_ (after Init s0)). intros m Hb.
    induction Hr; [done|]. eauto using same_modes_call. }
  unfold GetSupportedModes. rewrite bind_unfold. simpl. rewrite Hm.
  unfold Init. autorewrite with st.
  destruct (AddSupportedMode_modes (after QueryPort s0) portId) as [-> ->].
  by destruct (portMap_ (after QueryPort s0) !! portId).
Qed.

(** *** Role requests *)

(** A role request leaves the table of ports and the event log as they are (the roles
    change when the driver calls back).  Without a driver it is refused; a driver error is
    returned and nothing is shown; a success shows one notification, which names the
    power role port 1 had before the request. *)
Theorem SetPortRole_spec s portId powerRole dataRole :
  let '(ret, s') := SetPortRole portId powerRole dataRole s in
  let '(r, h) := hdi_SetPortRole portId powerRole dataRole (hdi s) in
  portMap_ s' = portMap_ s ∧ supportedModeMap_ s' = supportedModeMap_ s ∧ log s' = log s ∧
  (if usbPortInterface_ s then
     hdi s' = h ∧ ret = r ∧
     notifier s' =
       (if r =? UEC_OK then
          after (notify_Send (if result IsReverseCharge s then USB_FUNC_REVERSE_CHARGE
                              else USB_FUNC_CHARGE)) (notifier s)
        else notifier s)
   else ret = UEC_SERVICE_INVALID_VALUE ∧ s' = s).
Proof.
  unfold SetPortRole. rewrite bind_unfold. simpl.
  destruct (usbPortInterface_ s); simpl; [|by case_match].
  rewrite bind_unfold. unfold on_hdi.
  destruct (hdi_SetPortRole portId powerRole dataRole (hdi s)) as [r h]. simpl.
  destruct (r =? UEC_OK) eqn:Er; simpl; [|done]. apply Z.eqb_eq in Er as ->.
  unfold IsReverseCharge, on_notifier. st_unfold. simpl.
  destruct (portMap_ s !! CMD_INDEX) as [p|]; [destruct (_ =? _)|]; simpl;
    by destruct (notify_Send _ (notifier s)).
Qed.
End Table.

(** ** The transport of a port *)
Section PortRoundtrip.
Context {P : Type} (contents : P → list pitem) `{!Parcel P}
  `{!ParcelLaws P contents} `{!ReliableParcel P contents}.

(** The fields are 32-bit integers. *)
Definition UsbPort_wf (p : UsbPort) : Prop :=
  is_i32 (id p) ∧ is_i32 (supportedModes p) ∧ is_i32 (currentMode (usbPortStatus p)) ∧
  is_i32 (currentPowerRole (usbPortStatus p)) ∧ is_i32 (currentDataRole (usbPortStatus p)).

Definition UsbPort_image (p : UsbPort) : list pitem :=
  (λ z, PW32 (u32 z)) <$>
    [id p; supportedModes p; currentMode (usbPortStatus p);
     currentPowerRole (usbPortStatus p); currentDataRole (usbPortStatus p)].

Lemma UsbPort_roundtrip (p : UsbPort) :
  UsbPort_wf p →
  writes contents (UsbPort_Marshalling p) (UsbPort_image p) ∧
  reads contents UsbPort_Unmarshalling (UsbPort_image p) p.
Proof.
  destruct p as [a b [c d e]]. intros (Ha & Hb & Hc & Hd & He).
  split; unfold UsbPort_image; simpl.
  - unfold UsbPort_Marshalling. write_steps.
  - unfold UsbPort_Unmarshalling. read_steps. simpl in *. rewrite !i32_u32 by done.
    apply reads_ret.
Qed.
End PortRoundtrip.

(** ** The theorems on a concrete driver

    A driver that lists two ports and accepts every request; a notifier that records. *)
Section Samples.
#[local] Existing Instance sample_codes.
#[local] Instance sample_hdi : PortHdi (list UsbPort) UsbPort := {
  hdi_SetPortRole _ _ _ := λ h, (0, h);
  hdi_QueryPorts := λ h, ((0, h), h);
  hdi_BindUsbdPortSubscriber := λ h, (0, h);
  hdi_UnbindUsbdPortSubscriber := λ h, (0, h);
}.
#[local] Instance sample_notifier : NotifierOps (list string) := {
  notify_Send name := λ l, (tt, l ++ [name]); notify_Cancel _ := λ _, (tt, []);
  notify_SendHdc := λ l, (tt, l); notify_CancelHdc := λ l, (tt, l) }.

Definition sample_ports : list UsbPort :=
  [mk_UsbPort 2 3 (mk_UsbPortStatus PORT_MODE_HOST POWER_ROLE_SOURCE DATA_ROLE_HOST);
   mk_UsbPort 1 3 (mk_UsbPortStatus PORT_MODE_DEVICE POWER_ROLE_SINK DATA_ROLE_DEVICE)].

Definition fresh : @st (list UsbPort) (list string) := mk_st ∅ ∅ false false false [] [] [].
Definition ready : @st (list UsbPort) (list string) :=
  after Init (after (InitUsbPortInterface (λ i, if decide (i = 2%nat) then Some sample_ports else None)
                       true) fresh).
Definition switched : @st (list UsbPort) (list string) :=
  after (UpdatePort 1 POWER_ROLE_SOURCE DATA_ROLE_HOST 0) ready.

Lemma port_fresh_initial : initial fresh.
Proof. done. Qed.

Lemma ready_reachable : rtc step fresh ready.
Proof.
  eapply rtc_l; [apply step_call, call_init_interface|]. apply rtc_once, step_init.
Qed.

Lemma switched_reachable : rtc step fresh switched.
Proof. eapply rtc_r; [apply ready_reachable|]. apply step_call, call_update. Qed.

(** Port 1 after the switch, with the mode of its new role. *)
Lemma port_table_invariant_witness :
  let p := mk_UsbPort 1 3 (mk_UsbPortStatus PORT_MODE_HOST POWER_ROLE_SOURCE DATA_ROLE_HOST) in
  portMap_ switched !! 1 = Some p ∧
  (id p = 1 ∧ (reported_ok (H := list UsbPort) (λ _, consistent) → consistent p)).
Proof.
  split; [by vm_compute|].
  apply (port_table_invariant fresh switched 1 _ port_fresh_initial switched_reachable).
  by vm_compute.
Defined.

Lemma UpdatePort_spec_witness :
  let s' := after (UpdatePort 7 POWER_ROLE_SOURCE DATA_ROLE_HOST 0) ready in
  portMap_ ready !! 7 = None ∧
  match portMap_ ready !! 1 with
  | None => False
  | Some p =>
      ∃ p', portMap_ switched !! 1 = Some p' ∧ currentMode (usbPortStatus p) = PORT_MODE_DEVICE ∧
        currentMode (usbPortStatus p') = PORT_MODE_HOST
  end.
Proof.
  split; [by vm_compute|].
  pose proof (UpdatePort_spec fresh ready 1 POWER_ROLE_SOURCE DATA_ROLE_HOST 0
                port_fresh_initial ready_reachable) as Hu.
  assert (Hp : portMap_ ready !! 1 =
    Some (mk_UsbPort 1 3 (mk_UsbPortStatus PORT_MODE_DEVICE POWER_ROLE_SINK DATA_ROLE_DEVICE)))
    by by vm_compute.
  cbv zeta in Hu. rewrite Hp in Hu |- *. destruct Hu as [(p' & Hp' & _ & _ & _ & _ & Hm) _].
  exists p'. split_and!; [exact Hp'|done|exact Hm].
Defined.

Lemma GetPorts_spec_witness :
  let '((ret, ports), s') := GetPorts [] ready in
  ret = UEC_OK ∧ id <$> ports = [1; 2] ∧ s' = ready ∧
  (∀ p, p ∈ ports ↔ portMap_ ready !! id p = Some p).
Proof.
  pose proof (GetPorts_spec fresh ready port_fresh_initial ready_reachable) as Hg.
  assert (Hn : portMap_ ready ≠ ∅) by by vm_compute.
  assert (Hv : id <$> (result (GetPorts []) ready).2 = [1; 2]) by by vm_compute.
  unfold result in Hv. destruct (GetPorts [] ready) as [[ret ports] s'].
  destruct Hg as (Hp & Hk & _). destruct (Hk Hn) as [-> ->].
  split_and!; [done|exact Hv|done|]. by apply Hp.
Defined.

(** A port is taken out after [Init]: its modes are still answered. *)
Lemma GetSupportedModes_snapshot_witness :
  portMap_ (after (RemovePort 1) ready) !! 1 = None ∧
  GetSupportedModes 1 0 (after (RemovePort 1) ready) = ((UEC_OK, 3), after (RemovePort 1) ready).
Proof.
  split; [by vm_compute|].
  set (s0 := after (InitUsbPortInterface (λ i, if decide (i = 2%nat) then Some sample_ports
                                               else None) true) fresh).
  rewrite (GetSupportedModes_snapshot s0 (after (RemovePort 1) ready) 1 0).
  - by vm_compute.
  - apply rtc_once, call_remove.
Defined.

(** The dump command throws on a number that does not fit, and indexes an empty vector
    when the driver has no port. *)
Example dump_out_of_range :
  result (Dump true ["usb_port"; "-p"; "99999999999"]) ready = StoiOutOfRange.
Proof. by vm_compute. Qed.

Example dump_empty_vector :
  result (Dump false ["usb_port"; "-p"; "Q"])
    (after (InitUsbPortInterface (λ _, Some []) true) fresh) = EmptyVectorIndexed.
Proof. by vm_compute. Qed.
End Samples.
