(* ===== verification/Base64.v ===== *)
(** * The base64 decoder of the accessory manager

    [UsbAccessoryManager::Base64Decode] of
    [services/native/src/usb_accessory_manager.cpp], with the RFC 4648 encoder it is meant
    to invert as the reference definition. *)

From Stdlib Require Import Ascii.
From S2P Require Import Prelude.

#[local] Set Default Goal Selector "!".

(** A character as [unsigned char]. *)
Definition uchar (c : ascii) : Z := Z.of_N (N_of_ascii c).

(** [usb_accessory_manager.cpp:55-58] [BASE_64_CHARS] *)
Definition BASE_64_CHARS : string :=
  "ABCDEFGHIJKLMNOPQRSTUVWXYZabcdefghijklmnopqrstuvwxyz0123456789+/".

(** [std::string::find] of a character: its first index. *)
Fixpoint find_char (s : string) (c : Z) : option Z :=
  match s with
  | EmptyString => None
  | String a s => if uchar a =? c then Some 0 else Z.succ <$> find_char s c
  end.

(** [BASE_64_CHARS.find(c)] stored in an [unsigned char]: [npos] becomes 255. *)
Definition sextet (c : Z) : Z := default 255 (u8 <$> find_char BASE_64_CHARS c).

(** [usb_accessory_manager.cpp:431-434] [IsBase64] in the C locale *)
Definition IsBase64 (c : Z) : bool :=
  ((48 <=? c) && (c <=? 57)) || ((65 <=? c) && (c <=? 90)) || ((97 <=? c) && (c <=? 122)) ||
  (c =? 43) || (c =? 47).

(** [usb_accessory_manager.cpp:452-456] [UsbAccessoryManager::Base64Decode] the three bytes of [charArray3], each an [unsigned char] *)
Definition combine (c0 c1 c2 c3 : Z) : list Z :=
  [u8 (Z.shiftl c0 2 + Z.shiftr (Z.land c1 48) 4);
   u8 (Z.shiftl (Z.land c1 15) 4 + Z.shiftr (Z.land c2 60) 2);
   u8 (Z.shiftl (Z.land c2 3) 6 + c3)].

(** [combine] on the sextets of a full group of four characters. *)
Definition decode_group (charArray4 : list Z) : list Z :=
  match sextet <$> charArray4 with
  | [c0; c1; c2; c3] => combine c0 c1 c2 c3
  | _ => []
  end.

(** [usb_accessory_manager.cpp:445-462] [UsbAccessoryManager::Base64Decode] the [while] loop; [group] is [charArray4] up to [i] *)
Fixpoint decode_loop (s : string) (group decoded_data : list Z) : list Z * list Z :=
  match s with
  | EmptyString => (group, decoded_data)
  | String a s =>
      let c := uchar a in
      if negb (c =? 61) && IsBase64 c then
        let group := group ++ [c] in
        if decide (length group = 4%nat) then
          decode_loop s [] (decoded_data ++ decode_group group)
        else decode_loop s group decoded_data
      else (group, decoded_data)
  end.

(** [usb_accessory_manager.cpp:436-488] [UsbAccessoryManager::Base64Decode] of a string whose size fits an [int]; a last group that is not full is padded with NUL and gives one byte less than it has characters *)
Definition Base64Decode (basicString : string) : list Z :=
  let '(group, decoded_data) := decode_loop basicString [] [] in
  match group with
  | [] => decoded_data
  | _ =>
      decoded_data ++
        take (length group - 1) (decode_group (group ++ replicate (4 - length group) 0))
  end.

(** ** The encoding of RFC 4648 *)
Definition b64_char (n : Z) : ascii :=
  default "A"%char (String.get (Z.to_nat n) BASE_64_CHARS).

Fixpoint encode (bytes : list Z) : string :=
  match bytes with
  | [] => ""
  | [a] => String (b64_char (a / 4)) (String (b64_char (a mod 4 * 16)) "==")
  | [a; b] =>
      String (b64_char (a / 4)) (String (b64_char (a mod 4 * 16 + b / 16))
        (String (b64_char (b mod 16 * 4)) "="))
  | a :: b :: c :: rest =>
      String (b64_char (a / 4)) (String (b64_char (a mod 4 * 16 + b / 16))
        (String (b64_char (b mod 16 * 4 + c / 64)) (String (b64_char (c mod 64))
          (encode rest))))
  end%string.

(** ** Decoding inverts encoding *)

(** A fact about the sixty-four sextets, checked on each. *)
Lemma sextets (P : Z → bool) z :
  forallb (λ k, P (Z.of_nat k)) (seq 0 64) = true → 0 <= z < 64 → P z = true.
Proof.
  rewrite forallb_forall. intros HP Hz.
  rewrite <- (Z2Nat.id z) by lia. apply HP, in_seq. lia.
Qed.

Lemma b64_char_accepted z : 0 <= z < 64 →
  negb (uchar (b64_char z) =? 61) && IsBase64 (uchar (b64_char z)) = true.
Proof.
  apply (sextets (λ z, negb (uchar (b64_char z) =? 61) && IsBase64 (uchar (b64_char z)))).
  by vm_compute.
Qed.

Lemma sextet_b64_char z : 0 <= z < 64 → sextet (uchar (b64_char z)) = z.
Proof.
  intros Hz. apply Z.eqb_eq. revert Hz. apply (sextets (λ z, sextet (uchar (b64_char z)) =? z)).
  by vm_compute.
Qed.

(** The masks of [combine] as quotients and remainders. *)
Lemma sextet_masks z : 0 <= z < 64 →
  Z.shiftr (Z.land z 48) 4 = z / 16 ∧ Z.land z 15 = z mod 16 ∧
  Z.shiftr (Z.land z 60) 2 = z / 4 ∧ Z.land z 3 = z mod 4.
Proof.
  intros Hz.
  pose proof (sextets (λ z, (Z.shiftr (Z.land z 48) 4 =? z / 16) && (Z.land z 15 =? z mod 16) &&
    (Z.shiftr (Z.land z 60) 2 =? z / 4) && (Z.land z 3 =? z mod 4)) z eq_refl Hz) as H.
  simpl in H. bsimp. done.
Qed.

Lemma combine_bytes a b c :
  is_u8 a → is_u8 b → is_u8 c →
  combine (a / 4) (a mod 4 * 16 + b / 16) (b mod 16 * 4 + c / 64) (c mod 64) = [a; b; c].
Proof.
  intros Ha Hb Hc. unfold is_u8 in *. unfold combine. rewrite !Z.shiftl_mul_pow2 by lia.
  destruct (sextet_masks (a mod 4 * 16 + b / 16)) as (-> & -> & _); [Z.to_euclidean_division_equations; lia|].
  destruct (sextet_masks (b mod 16 * 4 + c / 64)) as (_ & _ & -> & ->); [Z.to_euclidean_division_equations; lia|].
  assert (H1 : a / 4 * 2 ^ 2 + (a mod 4 * 16 + b / 16) / 16 = a) by (Z.to_euclidean_division_equations; lia).
  assert (H2 : (a mod 4 * 16 + b / 16) mod 16 * 2 ^ 4 + (b mod 16 * 4 + c / 64) / 4 = b)
    by (Z.to_euclidean_division_equations; lia).
  assert (H3 : (b mod 16 * 4 + c / 64) mod 4 * 2 ^ 6 + c mod 64 = c)
    by (Z.to_euclidean_division_equations; lia).
  rewrite H1, H2, H3. by rewrite !u8_id by (unfold is_u8; lia).
Qed.

(** *** The loop on encoded input *)

(** One accepted character joins a group that it does not fill, or fills it. *)
Lemma decode_loop_char z s group data :
  0 <= z < 64 → (length group < 3)%nat →
  decode_loop (String (b64_char z) s) group data =
    decode_loop s (group ++ [uchar (b64_char z)]) data.
Proof.
  intros Hz Hl. cbn [decode_loop]. rewrite b64_char_accepted by done.
  rewrite decide_False; [done|]. rewrite length_app. simpl. lia.
Qed.

Lemma decode_loop_fill z s group data :
  0 <= z < 64 → length group = 3%nat →
  decode_loop (String (b64_char z) s) group data =
    decode_loop s [] (data ++ decode_group (group ++ [uchar (b64_char z)])).
Proof.
  intros Hz Hl. cbn [decode_loop]. rewrite b64_char_accepted by done.
  rewrite decide_True; [done|]. rewrite length_app, Hl. done.
Qed.

Lemma decode_group_chars z0 z1 z2 z3 :
  0 <= z0 < 64 → 0 <= z1 < 64 → 0 <= z2 < 64 → 0 <= z3 < 64 →
  decode_group [uchar (b64_char z0); uchar (b64_char z1); uchar (b64_char z2); uchar (b64_char z3)] =
    combine z0 z1 z2 z3.
Proof. intros. unfold decode_group. simpl. by rewrite !sextet_b64_char. Qed.

(** A short group ends in NULs, whose sextet is 255 and does not reach the bytes kept. *)
Lemma decode_group_two z0 z1 : 0 <= z0 < 64 → 0 <= z1 < 64 →
  take 1 (decode_group [uchar (b64_char z0); uchar (b64_char z1); 0; 0]) =
    take 1 (combine z0 z1 0 0).
Proof. intros. unfold decode_group. simpl. by rewrite !sextet_b64_char. Qed.

Lemma decode_group_three z0 z1 z2 : 0 <= z0 < 64 → 0 <= z1 < 64 → 0 <= z2 < 64 →
  take 2 (decode_group [uchar (b64_char z0); uchar (b64_char z1); uchar (b64_char z2); 0]) =
    take 2 (combine z0 z1 z2 0).
Proof. intros. unfold decode_group. simpl. by rewrite !sextet_b64_char. Qed.

(** A string the loop stops at: empty, or starting outside the alphabet. *)
Definition stops (s : string) : Prop :=
  match s with
  | EmptyString => True
  | String a _ => uchar a = 61 ∨ IsBase64 (uchar a) = false
  end.

Lemma decode_loop_stops s group data : stops s → decode_loop s group data = (group, data).
Proof.
  destruct s as [|a s]; [done|]. simpl. intros [->|H]; [done|]. rewrite H, andb_false_r. done.
Qed.

(** The decoder from a loop state. *)
Definition finish (r : list Z * list Z) : list Z :=
  match r.1 with
  | [] => r.2
  | _ => r.2 ++ take (length r.1 - 1) (decode_group (r.1 ++ replicate (4 - length r.1) 0))
  end.

Lemma Base64Decode_finish s : Base64Decode s = finish (decode_loop s [] []).
Proof. unfold Base64Decode, finish. by destruct (decode_loop s [] []). Qed.

Lemma string_app_cons a s t : (String a s +:+ t = String a (s +:+ t))%string.
Proof. done. Qed.

Ltac sextet_range := unfold is_u8 in *; Z.to_euclidean_division_equations; lia.

Lemma combine_one a : is_u8 a → combine (a / 4) (a mod 4 * 16) 0 0 = [a; 0; 0].
Proof.
  intros Ha. rewrite <- (combine_bytes a 0 0) by sextet_range. f_equal; sextet_range.
Qed.

Lemma combine_two a b : is_u8 a → is_u8 b →
  combine (a / 4) (a mod 4 * 16 + b / 16) (b mod 16 * 4) 0 = [a; b; 0].
Proof.
  intros Ha Hb. rewrite <- (combine_bytes a b 0) by sextet_range. f_equal; sextet_range.
Qed.

Lemma decode_encode_from bytes tail data :
  Forall is_u8 bytes → stops tail →
  finish (decode_loop (encode bytes +:+ tail)%string [] data) = data ++ bytes.
Proof.
  intros Hb Ht. revert data Hb. generalize (Nat.le_refl (length bytes)).
  generalize (length bytes) at 2 as n. intros n. revert bytes.
  induction n as [|n IH]; intros bytes Hn data Hb.
  { destruct bytes; [|simpl in Hn; lia]. simpl. rewrite decode_loop_stops by done.
    unfold finish. simpl. by rewrite app_nil_r. }
  destruct bytes as [|a [|b [|c rest]]]; [apply IH; [simpl; lia|done]|..];
    repeat match goal with H : Forall is_u8 (_ :: _) |- _ => apply Forall_cons in H as [? H] end.
  - cbn [encode]. rewrite !string_app_cons. rewrite !decode_loop_char by (first [sextet_range|simpl; lia]).
    rewrite decode_loop_stops by (by left). unfold finish. cbn [fst snd app length Nat.sub replicate].
    rewrite decode_group_two by sextet_range. f_equal.
    by rewrite combine_one.
  - cbn [encode]. rewrite !string_app_cons. rewrite !decode_loop_char by (first [sextet_range|simpl; lia]).
    rewrite decode_loop_stops by (by left). unfold finish. cbn [fst snd app length Nat.sub replicate].
    rewrite decode_group_three by sextet_range. f_equal.
    by rewrite combine_two.
  - cbn [encode]. rewrite !string_app_cons. rewrite !decode_loop_char by (first [sextet_range|simpl; lia]).
    rewrite decode_loop_fill by (first [sextet_range|done]).
    rewrite IH by (first [done|simpl in Hn; lia]).
    cbn [app]. rewrite decode_group_chars, combine_bytes by (first [done|sextet_range]).
    by rewrite <- app_assoc.
Qed.

(** Decoding the RFC 4648 encoding of any bytes gives the bytes back, and what follows
    the encoding is ignored when it does not start with a character of the alphabet. *)
Theorem Base64Decode_encode (bytes : list Z) (tail : string)
    (Hb : Forall is_u8 bytes) (Ht : stops tail) :
  Base64Decode (encode bytes +:+ tail)%string = bytes.
Proof. rewrite Base64Decode_finish. by apply (decode_encode_from bytes tail []). Qed.

Lemma Base64Decode_encode_witness :
  encode [77; 97; 110; 255] = "TWFu/w=="%string ∧
  Base64Decode (encode [77; 97; 110; 255] +:+ "~")%string = [77; 97; 110; 255].
Proof.
  split; [by vm_compute|]. apply Base64Decode_encode.
  - repeat constructor; unfold is_u8; lia.
  - by right.
Defined.
