(* ===== verification/AccessoryManager.v ===== *)
(** * The accessory manager

    [services/native/src/usb_accessory_manager.cpp], the build with [USB_MANAGER_V2_0]: the
    switch of the device into USB accessory mode and back, driven by the gadget driver's
    statuses and two timers; the broadcasts that announce an accessory; the accessory's
    identity for the right manager; its file.

    The driver and the timers are used through the classes of [Interfaces].  Broadcasts are
    recorded in [log], oldest first. *)

From Stdlib Require Import Ascii.
From S2P Require Import Prelude UsbErrors UsbTypes Interfaces Marshalling Base64.

#[local] Set Default Goal Selector "!".

(** [usb_accessory_manager.h:38-44] [ACCESSORYMODE] *)
Inductive ACCESSORYMODE := ACC_NONE | ACC_CONFIGURING | ACC_START | ACC_STOP | ACC_SEND.

#[global] Instance ACCESSORYMODE_eq_dec : EqDecision ACCESSORYMODE.
Proof. solve_decision. Defined.

(** [usb_accessory_manager.cpp:40-46] [constants] *)
Definition ACCESSORY_INFO_SIZE : Z := 5.
Definition ACCESSORY_EXTRA_INDEX : nat := 5.
Definition FUN_ACCESSORY : Z := Z.shiftl 1 11.
Definition NUM_OF_SERAIL_BIT : nat := 16.
Definition DELAY_ACC_INTERVAL : Z := 10 * 1000.
Definition ANTI_SHAKE_INTERVAL : Z := 1 * 1000.
Definition ACCESSORY_IS_BUSY : Z := -16.

(** [static_cast<uint32_t>(f) & FUN_ACCESSORY] is not zero. *)
Definition has_accessory (f : Z) : bool := negb (Z.land (u32 f) FUN_ACCESSORY =? 0).

(** The closures given to the timer: [ProcessAccessoryStart]'s, which restores the
    functions, and [HandleEvent]'s, which handles the remembered status. *)
Inductive AccTask := RestoreTask | ShakeTask.

(** The [COMMON_EVENT_USB_ACCESSORY_ATTACHED] and [_DETACHED] broadcasts with their data. *)
Inductive Broadcast := Attached (data : string) | Detached (data : string).

(** What the manager uses of the platform: the common events, the clock, the JSON printer,
    the driver's device node and the library's hash functions. *)
Class AccessoryPlatform (E : Type) := {
  PublishCommonEvent : Broadcast → ST E bool;
  now_millis : ST E Z;
  open_driver_path : ST E Z;
  json_object : list (string * string) → option string;
  json_array : list Z → option string;
  string_hash : string → Z;
  int_hash : Z → Z;
}.

Section Codec.
Context {P : Type} `{Parcel P}.
Open Scope usb_scope.

(** [usb_accessory.h:61-69] [Marshalling] *)
Definition USBAccessory_Marshalling (a : USBAccessory.t) : ST P bool :=
  WriteString (USBAccessory.manufacturer_ a) ;!
  WriteString (USBAccessory.product_ a) ;!
  WriteString (USBAccessory.description_ a) ;!
  WriteString (USBAccessory.version_ a) ;!
  WriteString (USBAccessory.serialNumber_ a) ;!
  mret true.

(** [usb_accessory.h:71-83] [Unmarshalling] *)
Definition USBAccessory_Unmarshalling : ST P USBAccessory.t :=
  manufacturer ← ReadString;
  product ← ReadString;
  description ← ReadString;
  version ← ReadString;
  serialNumber ← ReadString;
  mret (USBAccessory.mk manufacturer product description version serialNumber).
End Codec.

(** ** The serial number's hash *)
Definition hex_digit (n : Z) : ascii :=
  if n <? 10 then ascii_of_N (Z.to_N (48 + n)) else ascii_of_N (Z.to_N (87 + n)).

(** [std::hex << std::setw(n) << std::setfill('0')] of a number below [16 ^ n]. *)
Fixpoint hex_padded (n : nat) (z : Z) : string :=
  match n with
  | O => ""
  | S n => (hex_padded n (z / 16) +:+ String (hex_digit (z mod 16)) "")%string
  end.

Section AccessoryManager.
Context {H T E : Type}.

(** ** The manager's state *)
(** [usb_accessory_manager.h:71-83] [UsbAccessoryManager] the members, the components they reach and the broadcasts *)
Record st := mk_st {
  accessory : USBAccessory.t;
  accStatus_ : ACCESSORYMODE;
  eventStatus_ : Z;
  curDeviceFunc_ : Z;
  lastDeviceFunc_ : Z;
  accFd_ : Z;
  accDelayTimerId_ : Z;
  antiShakeDelayTimerId_ : Z;
  base64Map_ : gmap ascii Z;
  usbDeviceInterface_ : bool;
  hdi : H;
  timers : T;
  platform : E;
  log : list Broadcast;
}.

Definition set_accessory (v : USBAccessory.t) (s : st) : st :=
  mk_st v (accStatus_ s) (eventStatus_ s) (curDeviceFunc_ s) (lastDeviceFunc_ s) (accFd_ s) (accDelayTimerId_ s) (antiShakeDelayTimerId_ s) (base64Map_ s) (usbDeviceInterface_ s) (hdi s) (timers s) (platform s) (log s).
Definition set_accStatus_ (v : ACCESSORYMODE) (s : st) : st :=
  mk_st (accessory s) v (eventStatus_ s) (curDeviceFunc_ s) (lastDeviceFunc_ s) (accFd_ s) (accDelayTimerId_ s) (antiShakeDelayTimerId_ s) (base64Map_ s) (usbDeviceInterface_ s) (hdi s) (timers s) (platform s) (log s).
Definition set_eventStatus_ (v : Z) (s : st) : st :=
  mk_st (accessory s) (accStatus_ s) v (curDeviceFunc_ s) (lastDeviceFunc_ s) (accFd_ s) (accDelayTimerId_ s) (antiShakeDelayTimerId_ s) (base64Map_ s) (usbDeviceInterface_ s) (hdi s) (timers s) (platform s) (log s).
Definition set_curDeviceFunc_ (v : Z) (s : st) : st :=
  mk_st (accessory s) (accStatus_ s) (eventStatus_ s) v (lastDeviceFunc_ s) (accFd_ s) (accDelayTimerId_ s) (antiShakeDelayTimerId_ s) (base64Map_ s) (usbDeviceInterface_ s) (hdi s) (timers s) (platform s) (log s).
Definition set_lastDeviceFunc_ (v : Z) (s : st) : st :=
  mk_st (accessory s) (accStatus_ s) (eventStatus_ s) (curDeviceFunc_ s) v (accFd_ s) (accDelayTimerId_ s) (antiShakeDelayTimerId_ s) (base64Map_ s) (usbDeviceInterface_ s) (hdi s) (timers s) (platform s) (log s).
Definition set_accFd_ (v : Z) (s : st) : st :=
  mk_st (accessory s) (accStatus_ s) (eventStatus_ s) (curDeviceFunc_ s) (lastDeviceFunc_ s) v (accDelayTimerId_ s) (antiShakeDelayTimerId_ s) (base64Map_ s) (usbDeviceInterface_ s) (hdi s) (timers s) (platform s) (log s).
Definition set_accDelayTimerId_ (v : Z) (s : st) : st :=
  mk_st (accessory s) (accStatus_ s) (eventStatus_ s) (curDeviceFunc_ s) (lastDeviceFunc_ s) (accFd_ s) v (antiShakeDelayTimerId_ s) (base64Map_ s) (usbDeviceInterface_ s) (hdi s) (timers s) (platform s) (log s).
Definition set_antiShakeDelayTimerId_ (v : Z) (s : st) : st :=
  mk_st (accessory s) (accStatus_ s) (eventStatus_ s) (curDeviceFunc_ s) (lastDeviceFunc_ s) (accFd_ s) (accDelayTimerId_ s) v (base64Map_ s) (usbDeviceInterface_ s) (hdi s) (timers s) (platform s) (log s).
Definition set_base64Map_ (v : gmap ascii Z) (s : st) : st :=
  mk_st (accessory s) (accStatus_ s) (eventStatus_ s) (curDeviceFunc_ s) (lastDeviceFunc_ s) (accFd_ s) (accDelayTimerId_ s) (antiShakeDelayTimerId_ s) v (usbDeviceInterface_ s) (hdi s) (timers s) (platform s) (log s).
Definition set_usbDeviceInterface_ (v : bool) (s : st) : st :=
  mk_st (accessory s) (accStatus_ s) (eventStatus_ s) (curDeviceFunc_ s) (lastDeviceFunc_ s) (accFd_ s) (accDelayTimerId_ s) (antiShakeDelayTimerId_ s) (base64Map_ s) v (hdi s) (timers s) (platform s) (log s).
Definition set_hdi (v : H) (s : st) : st :=
  mk_st (accessory s) (accStatus_ s) (eventStatus_ s) (curDeviceFunc_ s) (lastDeviceFunc_ s) (accFd_ s) (accDelayTimerId_ s) (antiShakeDelayTimerId_ s) (base64Map_ s) (usbDeviceInterface_ s) v (timers s) (platform s) (log s).
Definition set_timers (v : T) (s : st) : st :=
  mk_st (accessory s) (accStatus_ s) (eventStatus_ s) (curDeviceFunc_ s) (lastDeviceFunc_ s) (accFd_ s) (accDelayTimerId_ s) (antiShakeDelayTimerId_ s) (base64Map_ s) (usbDeviceInterface_ s) (hdi s) v (platform s) (log s).
Definition set_platform (v : E) (s : st) : st :=
  mk_st (accessory s) (accStatus_ s) (eventStatus_ s) (curDeviceFunc_ s) (lastDeviceFunc_ s) (accFd_ s) (accDelayTimerId_ s) (antiShakeDelayTimerId_ s) (base64Map_ s) (usbDeviceInterface_ s) (hdi s) (timers s) v (log s).
Definition set_log (v : list Broadcast) (s : st) : st :=
  mk_st (accessory s) (accStatus_ s) (eventStatus_ s) (curDeviceFunc_ s) (lastDeviceFunc_ s) (accFd_ s) (accDelayTimerId_ s) (antiShakeDelayTimerId_ s) (base64Map_ s) (usbDeviceInterface_ s) (hdi s) (timers s) (platform s) v.

Context `{EB : ErrBase} `{AccessoryHdi H} `{Timers T AccTask} `{AccessoryPlatform E}.

Definition on_hdi {A} (m : ST H A) : ST st A := λ s, let '(a, h) := m (hdi s) in (a, set_hdi h s).
Definition on_timers {A} (m : ST T A) : ST st A :=
  λ s, let '(a, t) := m (timers s) in (a, set_timers t s).
Definition on_platform {A} (m : ST E A) : ST st A :=
  λ s, let '(a, e) := m (platform s) in (a, set_platform e s).

(** [CommonEventManager::PublishCommonEvent], whose [bool] is the result. *)
Definition publish (b : Broadcast) : ST st bool :=
  modify (λ s, set_log (log s ++ [b]) s) ;; on_platform (PublishCommonEvent b).

(** [usb_accessory_manager.cpp:74-83] [UsbAccessoryManager::InitUsbAccessoryInterface] [get] is what [IUsbDeviceInterface::Get] yields *)
Definition InitUsbAccessoryInterface (get : option H) : ST st bool :=
  match get with
  | None => modify (set_usbDeviceInterface_ false) ;; mret false
  | Some h => modify (λ s, set_usbDeviceInterface_ true (set_hdi h s)) ;; mret true
  end.

(** [usb_accessory_manager.cpp:86-101] [UsbAccessoryManager::GetAccessoryInfo] the vector it fills *)
Definition GetAccessoryInfo : ST st (list string) :=
  present ← gets usbDeviceInterface_;
  if negb present then mret [] else on_hdi hdi_GetAccessoryInfo.

(** [usb_accessory_manager.cpp:103-118] [UsbAccessoryManager::SetCurrentFunctions] *)
Definition SetCurrentFunctions (funcs : Z) : ST st Z :=
  present ← gets usbDeviceInterface_;
  if negb present then mret UEC_SERVICE_INVALID_VALUE
  else on_hdi (hdi_SetCurrentFunctions funcs).

(** [usb_accessory_manager.cpp:120-135] [UsbAccessoryManager::GetCurrentFunctions] the result code and the out-parameter *)
Definition GetCurrentFunctions (funcs : Z) : ST st (Z * Z) :=
  present ← gets usbDeviceInterface_;
  if negb present then mret (UEC_SERVICE_INVALID_VALUE, funcs)
  else on_hdi (hdi_GetCurrentFunctions funcs).

(** [usb_accessory_manager.cpp:147-157] [UsbAccessoryManager::GetAccessoryList] *)
Definition GetAccessoryList (bundleName : string) (accessoryList : list USBAccessory.t)
    : ST st (list USBAccessory.t) :=
  status ← gets accStatus_;
  acc ← gets accessory;
  mret (if decide (status = ACC_START) then
          accessoryList ++
            [USBAccessory.set_serialNumber_
               (bundleName +:+ USBAccessory.GetSerialNumber acc)%string acc]
        else accessoryList).

(** [usb_accessory_manager.cpp:159-182] [UsbAccessoryManager::OpenAccessory] the result code and the out-parameter *)
Definition OpenAccessory (fd : Z) : ST st (Z * Z) :=
  present ← gets usbDeviceInterface_;
  if negb present then mret (UEC_SERVICE_INVALID_VALUE, fd)
  else
    r ← on_hdi (hdi_OpenAccessory fd);
    let '(ret, fd) := r in
    if ret =? UEC_OK then modify (set_accFd_ fd) ;; mret (ret, fd)
    else if ret =? ACCESSORY_IS_BUSY then mret (UEC_SERVICE_ACCESSORY_REOPEN, fd)
    else mret (UEC_SERVICE_ACCESSORY_OPEN_NATIVE_NODE_FAILED, fd).

(** [usb_accessory_manager.cpp:184-209] [UsbAccessoryManager::CloseAccessory] the argument is only logged; the driver gets a fresh descriptor of its node *)
Definition CloseAccessory (fd : Z) : ST st Z :=
  present ← gets usbDeviceInterface_;
  if negb present then mret UEC_SERVICE_INVALID_VALUE
  else
    newFd ← on_platform open_driver_path;
    ret ← on_hdi (hdi_CloseAccessory newFd);
    if negb (ret =? UEC_OK) then mret ret
    else modify (set_accFd_ 0) ;; mret ret.

(** [usb_accessory_manager.cpp:406-422] [UsbAccessoryManager::SerialValueHash] *)
Definition SerialValueHash (serialValue : string) : ST st string :=
  millis ← on_platform now_millis;
  let timestamp := u64 millis in
  let hashValue := u32 (Z.lxor (string_hash serialValue) (u64 (Z.shiftl (int_hash timestamp) 1))) in
  mret (hex_padded NUM_OF_SERAIL_BIT hashValue).

Definition json (a : USBAccessory.t) : string := USBAccessory.GetJsonString json_object a.

(** [usb_accessory_manager.cpp:211-252] [UsbAccessoryManager::ProcessAccessoryStart] the [bool] of the publication is returned as the result code *)
Definition ProcessAccessoryStart (curFunc : Z) (curAccStatus : ACCESSORYMODE) : ST st Z :=
  status ← gets accStatus_;
  if has_accessory curFunc && negb (bool_decide (status = ACC_START)) then
    modify (set_accStatus_ ACC_START) ;;
    accessorys ← GetAccessoryInfo;
    modify (λ s, set_accessory (USBAccessory.SetAccessory accessorys (accessory s)) s) ;;
    acc ← gets accessory;
    hashSerial ← SerialValueHash (USBAccessory.GetSerialNumber acc);
    modify (λ s, set_accessory (USBAccessory.set_serialNumber_ hashSerial (accessory s)) s) ;;
    acc ← gets accessory;
    ok ← publish (Attached (json acc));
    mret (Z.b2z ok)
  else if negb (has_accessory curFunc) && bool_decide (curAccStatus = ACC_CONFIGURING) then
    ret ← SetCurrentFunctions FUN_ACCESSORY;
    if negb (ret =? UEC_OK) then mret ret
    else
      modify (set_lastDeviceFunc_ (i32 (u32 curFunc))) ;;
      id ← on_timers (timer_Register RestoreTask DELAY_ACC_INTERVAL true);
      modify (set_accDelayTimerId_ id) ;;
      modify (set_accStatus_ ACC_CONFIGURING) ;;
      mret UEC_OK
  else mret UEC_OK.

(** [usb_accessory_manager.cpp:237-244] [UsbAccessoryManager::ProcessAccessoryStart] the task: back to the remembered functions *)
Definition restore_task : ST st unit :=
  modify (set_accStatus_ ACC_STOP) ;;
  last ← gets lastDeviceFunc_;
  SetCurrentFunctions last ;;
  mret tt.

(** [usb_accessory_manager.cpp:254-278] [UsbAccessoryManager::ProcessAccessoryStop] *)
Definition ProcessAccessoryStop (curFunc : Z) (curAccStatus : ACCESSORYMODE) : ST st Z :=
  status ← gets accStatus_;
  if has_accessory curFunc && bool_decide (status = ACC_START) then
    modify (set_accStatus_ ACC_STOP) ;;
    last ← gets lastDeviceFunc_;
    SetCurrentFunctions last ;;
    last ← gets lastDeviceFunc_;
    modify (set_curDeviceFunc_ last) ;;
    acc ← gets accessory;
    ok ← publish (Detached (json acc));
    mret (Z.b2z ok)
  else mret UEC_OK.

(** [usb_accessory_manager.cpp:424-429] [UsbAccessoryManager::InitBase64Map] *)
Definition InitBase64Map : ST st unit :=
  mfor (zip (String.list_ascii_of_string BASE_64_CHARS) (seqZ 0 64)) (λ ci,
    modify (λ s, set_base64Map_ (<[ci.1 := ci.2]> (base64Map_ s)) s)).

(** [usb_accessory_manager.cpp:286-308] [UsbAccessoryManager::ProcessAccessorySend] the extra data as a JSON array; [None] is the printer's failure *)
Definition extra_info (accessorys : list string) : ST st (option string) :=
  match accessorys !! ACCESSORY_EXTRA_INDEX with
  | Some extraEcode =>
      if String.eqb extraEcode "" then mret (Some ""%string)
      else
        m ← gets base64Map_;
        mwhen (bool_decide (m = ∅)) InitBase64Map ;;
        mret (json_array (Base64Decode extraEcode))
  | None => mret (Some ""%string)
  end.

(** [usb_accessory_manager.cpp:280-322] [UsbAccessoryManager::ProcessAccessorySend] *)
Definition ProcessAccessorySend : ST st Z :=
  modify (set_accStatus_ ACC_SEND) ;;
  accessorys ← GetAccessoryInfo;
  modify (λ s, set_accessory (USBAccessory.SetAccessory accessorys (accessory s)) s) ;;
  extraInfo ← extra_info accessorys;
  match extraInfo with
  | None => mret UEC_SERVICE_INVALID_VALUE
  | Some extraInfo =>
      publish (Attached (json (USBAccessory.mk "" "" extraInfo "" ""))) ;;
      mret UEC_OK
  end.

(** [usb_accessory_manager.cpp:377-404] [UsbAccessoryManager::ProcessHandle] *)
Definition ProcessHandle (curAccStatus : ACCESSORYMODE) : ST st unit :=
  status ← gets accStatus_;
  if bool_decide (curAccStatus = ACC_CONFIGURING) || bool_decide (curAccStatus = ACC_START) then
    id ← gets accDelayTimerId_;
    on_timers (timer_Unregister id) ;;
    r ← GetCurrentFunctions 0;
    let '(ret, curFunc) := r in
    if negb (ret =? UEC_OK) then mret tt
    else
      modify (set_curDeviceFunc_ curFunc) ;;
      ProcessAccessoryStart curFunc curAccStatus ;;
      mret tt
  else if bool_decide (curAccStatus = ACC_STOP) && negb (bool_decide (status = ACC_CONFIGURING)) then
    cur ← gets curDeviceFunc_;
    ProcessAccessoryStop cur curAccStatus ;;
    mret tt
  else if bool_decide (curAccStatus = ACC_SEND) then ProcessAccessorySend ;; mret tt
  else mret tt.

(** [usb_accessory_manager.cpp:350-373] [UsbAccessoryManager::HandleEvent] the mode a status asks for *)
Definition status_mode (status : Z) (accStatus : ACCESSORYMODE) : ACCESSORYMODE :=
  if status =? ACT_UPDEVICE then
    (if decide (accStatus = ACC_CONFIGURING) then ACC_START else ACC_NONE)
  else if status =? ACT_ACCESSORYUP then ACC_CONFIGURING
  else if (status =? ACT_DOWNDEVICE) || (status =? ACT_ACCESSORYDOWN) then ACC_STOP
  else if status =? ACT_ACCESSORYSEND then ACC_SEND
  else ACC_NONE.

(** [usb_accessory_manager.cpp:324-375] [UsbAccessoryManager::HandleEvent] *)
Definition HandleEvent (status : Z) (delayProcess : bool) : ST st unit :=
  present ← gets usbDeviceInterface_;
  if negb present then mret tt
  else
    modify (set_eventStatus_ status) ;;
    mwhen delayProcess
      (id ← gets antiShakeDelayTimerId_; on_timers (timer_Unregister id)) ;;
    if ((status =? ACT_UPDEVICE) || (status =? ACT_DOWNDEVICE)) && delayProcess then
      id ← on_timers (timer_Register ShakeTask ANTI_SHAKE_INTERVAL true);
      modify (set_antiShakeDelayTimerId_ id)
    else
      accStatus ← gets accStatus_;
      ProcessHandle (status_mode status accStatus).

Definition run_task (task : AccTask) : ST st unit :=
  match task with
  | RestoreTask => restore_task
  | ShakeTask => status ← gets eventStatus_; HandleEvent status false
  end.

(** The timer thread takes a pending one-shot task and runs it. *)
Definition fire (id : Z) (task : AccTask) : ST st unit :=
  on_timers (timer_Unregister id) ;; run_task task.

(** [usb_accessory_manager.cpp:490-495] [UsbAccessoryManager::compare] *)
Definition compare (s1 s2 : string) : bool :=
  if String.eqb s1 "" then String.eqb s2 "" else String.eqb s1 s2.

(** [usb_accessory_manager.cpp:497-516] [UsbAccessoryManager::GetAccessorySerialNumber] the result code and the out-parameter *)
Definition GetAccessorySerialNumber (access : USBAccessory.t) (bundleName serialValue : string)
    : ST st (Z * string) :=
  status ← gets accStatus_;
  acc ← gets accessory;
  mret (
    if negb (bool_decide (status = ACC_START)) then (UEC_SERVICE_ACCESSORY_NOT_MATCH, serialValue)
    else if
      compare (USBAccessory.GetManufacturer acc) (USBAccessory.GetManufacturer access) &&
      compare (USBAccessory.GetProduct acc) (USBAccessory.GetProduct access) &&
      compare (USBAccessory.GetDescription acc) (USBAccessory.GetDescription access) &&
      compare (USBAccessory.GetManufacturer acc) (USBAccessory.GetManufacturer access) &&
      compare (USBAccessory.GetVersion acc) (USBAccessory.GetVersion access) &&
      (compare (USBAccessory.GetSerialNumber acc) (USBAccessory.GetSerialNumber access) ||
       compare (bundleName +:+ USBAccessory.GetSerialNumber acc)
         (USBAccessory.GetSerialNumber access))
    then (UEC_OK,
          (USBAccessory.GetManufacturer access +:+ USBAccessory.GetProduct access +:+
           USBAccessory.GetVersion access +:+ USBAccessory.GetSerialNumber access)%string)
    else (UEC_SERVICE_ACCESSORY_NOT_MATCH, serialValue)).
End AccessoryManager.

(** ** How each part changes the state *)

Section Runs.
Context {H T E : Type} `{EB : ErrBase} `{AccessoryHdi H} `{AccessoryPlatform E}
  `{TimerLaws T AccTask}.
Abbreviation st := (@st H T E).
Implicit Types (s : st).

Lemma on_hdi_run {A} (m : ST H A) s : ∃ a h, on_hdi m s = (a, set_hdi h s) ∧ m (hdi s) = (a, h).
Proof. unfold on_hdi. destruct (m (hdi s)) as [a h]. by exists a, h. Qed.

Lemma GetAccessoryInfo_run s : ∃ l h, GetAccessoryInfo s = (l, set_hdi h s).
Proof.
  unfold GetAccessoryInfo. rewrite bind_unfold. simpl.
  destruct (usbDeviceInterface_ s); simpl; [|by exists [], (hdi s); destruct s].
  destruct (on_hdi_run hdi_GetAccessoryInfo s) as (l & h & -> & _). by exists l, h.
Qed.

Lemma SetCurrentFunctions_run f s : ∃ r h, SetCurrentFunctions f s = (r, set_hdi h s).
Proof.
  unfold SetCurrentFunctions. rewrite bind_unfold. simpl.
  destruct (usbDeviceInterface_ s); simpl.
  - destruct (on_hdi_run (hdi_SetCurrentFunctions f) s) as (r & h & -> & _). by exists r, h.
  - exists UEC_SERVICE_INVALID_VALUE, (hdi s). by destruct s.
Qed.

Lemma GetCurrentFunctions_run f s : ∃ r h, GetCurrentFunctions f s = (r, set_hdi h s).
Proof.
  unfold GetCurrentFunctions. rewrite bind_unfold. simpl.
  destruct (usbDeviceInterface_ s); simpl.
  - destruct (on_hdi_run (hdi_GetCurrentFunctions f) s) as (r & h & -> & _). by exists r, h.
  - exists (UEC_SERVICE_INVALID_VALUE, f), (hdi s). by destruct s.
Qed.

Lemma SerialValueHash_run v s : ∃ x e, SerialValueHash v s = (x, set_platform e s).
Proof.
  unfold SerialValueHash, on_platform. rewrite bind_unfold. simpl.
  destruct (now_millis (platform s)) as [m e]. simpl. by eexists _, e.
Qed.

Lemma publish_run b s :
  ∃ ok e, publish b s = (ok, set_log (log s ++ [b]) (set_platform e s)).
Proof.
  unfold publish, on_platform. rewrite bind_unfold. simpl.
  destruct (PublishCommonEvent b (platform s)) as [ok e]. by exists ok, e.
Qed.

Lemma base64_loop_run l s :
  ∃ m, mfor l (λ ci : ascii * Z, modify (λ s,
    set_base64Map_ (<[ci.1 := ci.2]> (base64Map_ s)) s)) s = (tt, set_base64Map_ m s).
Proof.
  revert s. induction l as [|x l IH]; intros s; simpl.
  - exists (base64Map_ s). by destruct s.
  - rewrite bind_unfold. simpl. destruct (IH (set_base64Map_ (<[x.1:=x.2]> (base64Map_ s)) s)) as (m & ->).
    by exists m.
Qed.

Lemma InitBase64Map_run s : ∃ m, InitBase64Map s = (tt, set_base64Map_ m s).
Proof. apply base64_loop_run. Qed.

Lemma extra_info_run l s : ∃ o m, extra_info l s = (o, set_base64Map_ m s).
Proof.
  unfold extra_info. destruct (l !! ACCESSORY_EXTRA_INDEX) as [x|].
  - destruct (String.eqb x ""); [by exists (Some ""%string), (base64Map_ s); destruct s|].
    rewrite bind_unfold. cbn [gets fst snd]. rewrite bind_unfold.
    destruct (InitBase64Map_run s) as (m & Hm).
    exists (json_array (Base64Decode x)), (if bool_decide (base64Map_ s = ∅) then m else base64Map_ s).
    unfold mwhen. case_bool_decide; [by rewrite Hm|by destruct s].
  - by exists (Some ""%string), (base64Map_ s); destruct s.
Qed.

(** The three ways [ProcessAccessoryStart] can go: the accessory is announced, the switch
    to accessory mode is under way, nothing but a driver call. *)
Definition announced s s' : Prop := ∃ h e a,
  s' = set_log (log s ++ [Attached (json a)])
         (set_accessory a (set_accStatus_ ACC_START (set_platform e (set_hdi h s)))).
Definition configuring f s s' : Prop := ∃ h t id,
  s' = set_accStatus_ ACC_CONFIGURING (set_accDelayTimerId_ id (set_timers t
         (set_lastDeviceFunc_ (i32 (u32 f)) (set_hdi h s)))) ∧
  pending t = <[id := RestoreTask]> (pending (timers s)).

Lemma ProcessAccessoryStart_run f cur s :
  let s' := after (ProcessAccessoryStart f cur) s in
  (has_accessory f = true ∧ announced s s') ∨
  (has_accessory f = false ∧ configuring f s s') ∨
  (∃ h, s' = set_hdi h s).
Proof.
  cbv zeta. unfold after, ProcessAccessoryStart. st_exec.
  destruct (has_accessory f) eqn:Ef; cbn [andb negb].
  - case_bool_decide; cbn [negb]; [right; right; exists (hdi s); by destruct s|].
    left. split; [done|]. st_exec.
    destruct (GetAccessoryInfo_run (set_accStatus_ ACC_START s)) as (l & h & ->). st_exec.
    match goal with |- context [SerialValueHash ?v ?s] =>
      destruct (SerialValueHash_run v s) as (x & e & ->) end. st_exec.
    match goal with |- context [publish ?v ?s] =>
      destruct (publish_run v s) as (ok & e' & ->) end. st_exec.
    eexists h, e', _. by destruct s.
  - case_bool_decide; [|right; right; exists (hdi s); by destruct s]. st_exec.
    destruct (SetCurrentFunctions_run FUN_ACCESSORY s) as (r & h & ->). st_exec.
    destruct (r =? UEC_OK); cbn [negb]; [|right; right; by exists h].
    right. left. split; [done|]. st_exec. unfold on_timers. simpl.
    destruct (register_run RestoreTask DELAY_ACC_INTERVAL true (timers s)) as (id & t & -> & _ & Ht).
    simpl. exists h, t, id. split; [by destruct s|done].
Qed.

Lemma ProcessAccessoryStop_run f cur s :
  let s' := after (ProcessAccessoryStop f cur) s in
  (has_accessory f = true ∧ accStatus_ s = ACC_START ∧ ∃ h e,
     s' = set_log (log s ++ [Detached (json (accessory s))])
            (set_curDeviceFunc_ (lastDeviceFunc_ s)
               (set_accStatus_ ACC_STOP (set_platform e (set_hdi h s))))) ∨
  s' = s.
Proof.
  cbv zeta. unfold after, ProcessAccessoryStop. st_exec.
  destruct (has_accessory f) eqn:Ef; cbn [andb]; [|by right].
  case_bool_decide; [|by right]. left. split_and!; [done..|]. st_exec.
  match goal with |- context [SetCurrentFunctions ?v ?s] =>
    destruct (SetCurrentFunctions_run v s) as (r & h & ->) end. st_exec.
  match goal with |- context [publish ?v ?s] =>
    destruct (publish_run v s) as (ok & e & ->) end.
  exists h, e. by destruct s.
Qed.

Lemma ProcessAccessorySend_run s :
  ∃ h e m a bs, after ProcessAccessorySend s =
    set_log (log s ++ (Attached <$> bs)) (set_base64Map_ m (set_accessory a
      (set_accStatus_ ACC_SEND (set_platform e (set_hdi h s))))).
Proof.
  unfold after, ProcessAccessorySend. st_exec.
  destruct (GetAccessoryInfo_run (set_accStatus_ ACC_SEND s)) as (l & h & ->). st_exec.
  match goal with |- context [extra_info ?v ?s] =>
    destruct (extra_info_run v s) as (o & m & ->) end. st_exec.
  destruct o as [x|].
  - st_exec. match goal with |- context [publish ?v ?s] =>
      destruct (publish_run v s) as (ok & e & ->) end.
    eexists h, e, m, _, [_]. by destruct s.
  - eexists h, (platform s), m, _, []. simpl. rewrite app_nil_r. by destruct s.
Qed.

Lemma restore_task_run s :
  ∃ h, after restore_task s = set_accStatus_ ACC_STOP (set_hdi h s).
Proof.
  unfold after, restore_task. st_exec.
  match goal with |- context [SetCurrentFunctions ?v ?s] =>
    destruct (SetCurrentFunctions_run v s) as (r & h & ->) end.
  exists h. by destruct s.
Qed.

Lemma acc_on_timers_unregister id s :
  ∃ t, on_timers (timer_Unregister id) s = (tt, set_timers t s) ∧
    pending t = delete id (pending (timers s)).
Proof.
  destruct (unregister_run id (timers s)) as (t & Ht & Hd). exists t.
  unfold on_timers. by rewrite Ht.
Qed.

Lemma acc_on_timers_register task delay s :
  ∃ id t, on_timers (timer_Register task delay true) s = (id, set_timers t s) ∧
    pending t = <[id := task]> (pending (timers s)).
Proof.
  destruct (register_run task delay true (timers s)) as (id & t & Ht & _ & Hr). exists id, t.
  unfold on_timers. by rewrite Ht.
Qed.
End Runs.

(** Settle the tests on the status. *)
Ltac decide_modes :=
  repeat (cbn [andb orb negb];
    match goal with |- context [bool_decide ?P] =>
      first [rewrite (bool_decide_true P) by done | rewrite (bool_decide_false P) by done] end);
  cbn [andb orb negb].
Ltac exec_unregister t Ht :=
  match goal with |- context [on_timers (timer_Unregister ?id) ?s] =>
    destruct (acc_on_timers_unregister id s) as (t & -> & Ht) end.
Ltac exec_register t id Ht :=
  match goal with |- context [on_timers (timer_Register ?k ?d true) ?s] =>
    destruct (acc_on_timers_register k d s) as (id & t & -> & Ht) end.

(** ** The state machine *)
Section Machine.
Context {H T E : Type} `{EB : ErrBase} `{AccessoryHdi H} `{AccessoryPlatform E}
  `{TimerLaws T AccTask}.
Abbreviation st := (@st H T E).
Implicit Types (s : st).

(** What can happen to the manager. *)
Inductive step : st → st → Prop :=
  | step_init get s : step s (after (InitUsbAccessoryInterface get) s)
  | step_event status s : step s (after (HandleEvent status true) s)
  | step_fire id task s :
      pending (timers s) !! id = Some task → step s (after (fire id task) s)
  | step_list b l s : step s (after (GetAccessoryList b l) s)
  | step_serial a b v s : step s (after (GetAccessorySerialNumber a b v) s)
  | step_open fd s : step s (after (OpenAccessory fd) s)
  | step_close fd s : step s (after (CloseAccessory fd) s).

(** A freshly constructed manager. *)
Definition initial s : Prop :=
  accStatus_ s = ACC_NONE ∧ lastDeviceFunc_ s = FUNCTION_NONE ∧ pending (timers s) = ∅ ∧ log s = [].

(** Every detach broadcast directly follows an attach broadcast with the same data. *)
Definition paired (l : list Broadcast) : Prop :=
  ∀ i d, l !! i = Some (Detached d) → ∃ j, i = S j ∧ l !! j = Some (Attached d).

Record inv s : Prop := {
  inv_last : has_accessory (lastDeviceFunc_ s) = false;
  inv_timers id task : pending (timers s) !! id = Some task →
    id = match task with RestoreTask => accDelayTimerId_ s | ShakeTask => antiShakeDelayTimerId_ s end;
  inv_restore id : pending (timers s) !! id = Some RestoreTask →
    accStatus_ s = ACC_CONFIGURING ∨ accStatus_ s = ACC_SEND;
  inv_paired : paired (log s);
  inv_running : accStatus_ s = ACC_START → last (log s) = Some (Attached (json (accessory s)));
}.

(** No task of a kind is pending. *)
Definition none_pending (task : AccTask) s : Prop :=
  ∀ id, pending (timers s) !! id ≠ Some task.

Lemma paired_attached l bs : paired l → paired (l ++ (Attached <$> bs)).
Proof.
  intros Hl i d [Hi|[Hn Hi]]%lookup_app_Some.
  - destruct (Hl i d Hi) as (j & -> & Hj). exists j. split; [done|].
    rewrite lookup_app_l; [done|]. by eapply lookup_lt_Some.
  - apply list_elem_of_lookup_2, list_elem_of_fmap in Hi as (x & [=] & _).
Qed.

Lemma paired_detached l d : paired l → last l = Some (Attached d) → paired (l ++ [Detached d]).
Proof.
  intros Hl Hd i d' [Hi|[Hn Hi]]%lookup_app_Some.
  - destruct (Hl i d' Hi) as (j & -> & Hj). exists j. split; [done|].
    rewrite lookup_app_l; [done|]. by eapply lookup_lt_Some.
  - apply list_lookup_singleton_Some in Hi as [Hi [= <-]].
    rewrite last_lookup in Hd. pose proof (lookup_lt_Some _ _ _ Hd).
    exists (pred (length l)). split; [lia|]. rewrite lookup_app_l by done. done.
Qed.

Lemma inv_initial s : initial s → inv s.
Proof.
  intros (Ha & Hf & Hp & Hl). constructor.
  - by rewrite Hf.
  - intros ??. by rewrite Hp.
  - intros ?. by rewrite Hp.
  - intros i d. by rewrite Hl.
  - by rewrite Ha.
Qed.

Lemma inv_hdi h s : inv s → inv (set_hdi h s).
Proof. by intros []. Qed.

(** Cancelling timers, or registering one under the identifier the manager remembers. *)
Lemma inv_cancel t id s : inv s → pending t = delete id (pending (timers s)) → inv (set_timers t s).
Proof.
  intros [] Ht. constructor; simpl; try done; rewrite Ht.
  - intros id' task [_ Hi]%lookup_delete_Some. eauto.
  - intros id' [_ Hi]%lookup_delete_Some. eauto.
Qed.

Lemma none_pending_cancel t id task s :
  inv s → pending t = delete id (pending (timers s)) →
  id = match task with RestoreTask => accDelayTimerId_ s | ShakeTask => antiShakeDelayTimerId_ s end →
  none_pending task (set_timers t s).
Proof.
  intros Hs Ht Hid id'. simpl. rewrite Ht. intros [Hn Hi]%lookup_delete_Some.
  apply (inv_timers s Hs) in Hi. destruct task; congruence.
Qed.

Lemma inv_shake t id s : inv s → none_pending ShakeTask s →
  pending t = <[id := ShakeTask]> (pending (timers s)) →
  inv (set_antiShakeDelayTimerId_ id (set_timers t s)).
Proof.
  intros [] Hn Ht. constructor; simpl; try done; rewrite Ht.
  - intros id' task [[-> <-]|[Hne Hi]]%lookup_insert_Some; [done|].
    destruct task; [exact (inv_timers0 id' RestoreTask Hi)|]. by destruct (Hn id').
  - intros id' [[-> [=]]|[Hne Hi]]%lookup_insert_Some. eauto.
Qed.

Lemma inv_Start f cur s : inv s → none_pending RestoreTask s →
  inv (after (ProcessAccessoryStart f cur) s).
Proof.
  intros Hs Hn.
  destruct (ProcessAccessoryStart_run f cur s) as [[Hf Ha]|[[Hf Ha]|[h ->]]].
  - destruct Ha as (h & e & a & ->). destruct Hs. constructor; simpl; try done.
    + intros id Hi. by destruct (Hn id).
    + by apply (paired_attached _ [json a]).
    + intros _. by rewrite last_snoc.
  - destruct Ha as (h & t & id & -> & Ht). destruct Hs. constructor; simpl; try done; rewrite ?Ht.
    + unfold has_accessory in *. by rewrite u32_i32 by apply u32_range.
    + intros id' task [[-> <-]|[Hne Hi]]%lookup_insert_Some; [done|].
      destruct task; [by destruct (Hn id')|exact (inv_timers0 id' ShakeTask Hi)].
    + by left.
  - by apply inv_hdi.
Qed.

Lemma inv_Stop f cur s : inv s → inv (after (ProcessAccessoryStop f cur) s).
Proof.
  intros Hs. destruct (ProcessAccessoryStop_run f cur s) as [(Hf & Ha & h & e & ->)| ->]; [|done].
  destruct Hs. constructor; simpl; try done.
  - intros id Hi. by destruct (inv_restore0 id Hi); congruence.
  - apply paired_detached; auto.
Qed.

Lemma inv_Send s : inv s → inv (after ProcessAccessorySend s).
Proof.
  intros Hs. destruct (ProcessAccessorySend_run s) as (h & e & m & a & bs & ->).
  destruct Hs. constructor; simpl; try done; [by right|by apply paired_attached].
Qed.

Lemma inv_ProcessHandle cur s : inv s → inv (after (ProcessHandle cur) s).
Proof.
  intros Hs. unfold after, ProcessHandle. st_exec.
  destruct (bool_decide (cur = ACC_CONFIGURING) || bool_decide (cur = ACC_START)).
  - st_exec. destruct (acc_on_timers_unregister (accDelayTimerId_ s) s) as (t & -> & Ht). st_exec.
    destruct (GetCurrentFunctions_run 0 (set_timers t s)) as ([r f] & h & ->). st_exec.
    assert (Hi : inv (set_hdi h (set_timers t s))) 
      by by apply inv_hdi, (inv_cancel t (accDelayTimerId_ s)).
    destruct (negb (r =? UEC_OK)); st_exec; [done|].
    apply inv_Start.
    + by destruct Hi.
    + exact (none_pending_cancel t _ RestoreTask s Hs Ht eq_refl).
  - destruct (bool_decide (cur = ACC_STOP) && _); st_exec; [by apply inv_Stop|].
    destruct (bool_decide (cur = ACC_SEND)); st_exec; [by apply inv_Send|done].
Qed.

Lemma inv_HandleEvent status delay s :
  inv s → inv (after (HandleEvent status delay) s).
Proof.
  intros Hs. unfold after, HandleEvent. st_exec.
  destruct (usbDeviceInterface_ s); cbn [negb]; [|done]. st_exec.
  set (s1 := set_eventStatus_ status s). assert (Hi : inv s1) by by destruct Hs. clearbody s1. clear Hs s.
  destruct delay; cbn [mwhen]; st_exec.
  - destruct (acc_on_timers_unregister (antiShakeDelayTimerId_ s1) s1) as (t & -> & Ht). st_exec.
    destruct ((status =? ACT_UPDEVICE) || (status =? ACT_DOWNDEVICE)); cbn [andb]; st_exec.
    + unfold on_timers. simpl.
      destruct (register_run ShakeTask ANTI_SHAKE_INTERVAL true t) as (id & t' & -> & _ & Ht'). simpl.
      change (set_timers t' (set_timers t s1)) with (set_timers t' (set_timers t s1)).
      apply (inv_shake t' id (set_timers t s1)); [by apply (inv_cancel t (antiShakeDelayTimerId_ s1))| |done].
      exact (none_pending_cancel t _ ShakeTask s1 Hi Ht eq_refl).
    + apply inv_ProcessHandle. by apply (inv_cancel t (antiShakeDelayTimerId_ s1)).
  - rewrite andb_false_r. st_exec. by apply inv_ProcessHandle.
Qed.

Lemma inv_fire id task s : inv s → pending (timers s) !! id = Some task → inv (after (fire id task) s).
Proof.
  intros Hs Hp. unfold after, fire. st_exec.
  destruct (acc_on_timers_unregister id s) as (t & -> & Ht). st_exec.
  pose proof (inv_cancel t id s Hs Ht) as Hi. destruct task; simpl.
  - pose proof (none_pending_cancel t id RestoreTask s Hs Ht (inv_timers s Hs _ _ Hp)) as Hn.
    destruct (restore_task_run (set_timers t s)) as (h & Hr). unfold after in Hr. rewrite Hr.
    destruct Hi. constructor; simpl; try done. intros id' Hid'. by destruct (Hn id').
  - st_exec. by apply inv_HandleEvent.
Qed.

Lemma inv_step s s' : step s s' → inv s → inv s'.
Proof.
  destruct 1 as [get s|status s|id task s Hp|b l s|a b v s|fd s|fd s]; intros Hs.
  - destruct get; by destruct Hs.
  - by apply inv_HandleEvent.
  - by apply inv_fire.
  - done.
  - done.
  - unfold after, OpenAccessory. st_exec. destruct (usbDeviceInterface_ s); [|done]. cbn [negb]. st_exec.
    destruct (on_hdi_run (hdi_OpenAccessory fd) s) as ([r f] & h & -> & _). st_exec.
    repeat case_match; st_exec; by destruct Hs.
  - unfold after, CloseAccessory. st_exec. destruct (usbDeviceInterface_ s); [|done]. cbn [negb]. st_exec.
    unfold on_platform. destruct (open_driver_path (platform s)) as [n e]. st_exec.
    destruct (on_hdi_run (hdi_CloseAccessory n) (set_platform e s)) as (r & h & -> & _). st_exec.
    repeat case_match; st_exec; by destruct Hs.
Qed.

Lemma inv_rtc s s' : initial s → rtc step s s' → inv s'.
Proof.
  intros Hi Hr. assert (Hs : inv s) by by apply inv_initial. clear Hi.
  induction Hr; [done|]. eauto using inv_step.
Qed.

(** In every reachable state the functions that will be restored are not accessory
    mode, and a pending restore task is the one the manager remembers and the accessory is
    then still being configured or has sent its data: a running accessory is never switched
    off by the timer. *)
Theorem accessory_restore_safe s s' id (Hi : initial s) (Hr : rtc step s s')
    (Hp : pending (timers s') !! id = Some RestoreTask) :
  has_accessory (lastDeviceFunc_ s') = false ∧ id = accDelayTimerId_ s' ∧
  accStatus_ s' ≠ ACC_START ∧ accStatus_ s' ≠ ACC_STOP.
Proof.
  destruct (inv_rtc s s' Hi Hr). split_and!; [done|by apply (inv_timers0 id RestoreTask)|..];
    by destruct (inv_restore0 id Hp) as [-> | ->].
Qed.

(** Broadcasts are well bracketed: in every reachable state, each detach broadcast
    directly follows an attach broadcast that carries the same accessory, so an accessory is
    never reported detached twice, without having been attached, or with other data. *)
Theorem detach_follows_attach s s' (Hi : initial s) (Hr : rtc step s s') : paired (log s').
Proof. by destruct (inv_rtc s s' Hi Hr). Qed.
End Machine.

(** ** A session with a driver that keeps its word *)

(** The documented behaviour of the gadget driver when it works: the functions set are the
    functions read, and reading the accessory's strings does not change them. *)
Class GadgetLaws (H : Type) `{AccessoryHdi H} := {
  functions : H → Z;
  functions_i32 h : is_i32 (functions h);
  get_functions f h : hdi_GetCurrentFunctions f h = ((UEC_OK, functions h), h);
  set_functions f h : is_i32 f →
    result (hdi_SetCurrentFunctions f) h = UEC_OK ∧
    functions (after (hdi_SetCurrentFunctions f) h) = f;
  info_functions h : functions (after hdi_GetAccessoryInfo h) = functions h;
}.

Section Session.
Context {H T E : Type} `{EB : ErrBase} `{GadgetLaws H} `{AccessoryPlatform E}
  `{TimerLaws T AccTask}.
Abbreviation st := (@st H T E).
Implicit Types (s : st).

Lemma set_functions_run f s : usbDeviceInterface_ s = true → is_i32 f →
  ∃ h, SetCurrentFunctions f s = (UEC_OK, set_hdi h s) ∧ functions h = f.
Proof.
  intros Hp Hf. destruct (set_functions f (hdi s) Hf) as [Hr Ha].
  unfold SetCurrentFunctions, on_hdi. st_exec. rewrite Hp. cbn [negb].
  unfold result, after in *. destruct (hdi_SetCurrentFunctions f (hdi s)) as [r h].
  simpl in *. subst r. by exists h.
Qed.

Lemma get_functions_run f s : usbDeviceInterface_ s = true →
  GetCurrentFunctions f s = ((UEC_OK, functions (hdi s)), s).
Proof.
  intros Hp. unfold GetCurrentFunctions, on_hdi. st_exec. rewrite Hp. cbn [negb].
  rewrite get_functions. by destruct s.
Qed.

Lemma info_run s :
  ∃ l h, GetAccessoryInfo s = (l, set_hdi h s) ∧ functions h = functions (hdi s).
Proof.
  unfold GetAccessoryInfo, on_hdi. st_exec. destruct (usbDeviceInterface_ s); cbn [negb].
  - pose proof (info_functions (hdi s)) as Hi. unfold after in Hi.
    destruct (hdi_GetAccessoryInfo (hdi s)) as [l h]. by exists l, h.
  - exists [], (hdi s). by destruct s.
Qed.

Lemma ACCESSORY_i32 : is_i32 FUN_ACCESSORY.
Proof. done. Qed.

(** The three transitions of [ProcessHandle] with this driver. *)
Lemma handle_configures s :
  usbDeviceInterface_ s = true → has_accessory (functions (hdi s)) = false →
  ∃ h t id,
    after (ProcessHandle ACC_CONFIGURING) s =
      set_accStatus_ ACC_CONFIGURING (set_accDelayTimerId_ id (set_timers t
        (set_lastDeviceFunc_ (functions (hdi s)) (set_curDeviceFunc_ (functions (hdi s))
          (set_hdi h s))))) ∧
    functions h = FUN_ACCESSORY ∧ pending t !! id = Some RestoreTask.
Proof.
  intros Hp Hf. unfold after, ProcessHandle. st_exec. decide_modes. st_exec. exec_unregister t Ht. st_exec.
  rewrite get_functions_run by done. st_exec. cbn [hdi set_timers].
  unfold ProcessAccessoryStart. st_exec. rewrite Hf. decide_modes. st_exec.
  match goal with |- context [SetCurrentFunctions ?f ?s] =>
    destruct (set_functions_run f s Hp ACCESSORY_i32) as (h & -> & Hh) end. st_exec.
  exec_register t' tid Ht'. st_exec. exists h, t', tid.
  rewrite i32_u32 by apply functions_i32. split; [by destruct s|]. split; [done|].
  rewrite Ht'. apply lookup_insert_eq.
Qed.

Lemma handle_announces s cur :
  cur = ACC_CONFIGURING ∨ cur = ACC_START →
  usbDeviceInterface_ s = true → has_accessory (functions (hdi s)) = true →
  accStatus_ s ≠ ACC_START →
  ∃ h e a t,
    after (ProcessHandle cur) s =
      set_log (log s ++ [Attached (json a)]) (set_accessory a (set_accStatus_ ACC_START
        (set_platform e (set_hdi h (set_curDeviceFunc_ (functions (hdi s)) (set_timers t s)))))) ∧
    functions h = functions (hdi s) ∧ pending t = delete (accDelayTimerId_ s) (pending (timers s)).
Proof.
  intros Hc Hp Hf Ha. unfold after, ProcessHandle. st_exec.
  assert (bool_decide (cur = ACC_CONFIGURING) || bool_decide (cur = ACC_START) = true) as ->
    by by destruct Hc as [-> | ->].
  st_exec. exec_unregister t Ht. st_exec.
  rewrite get_functions_run by done. st_exec. cbn [hdi set_timers].
  unfold ProcessAccessoryStart. st_exec. rewrite Hf. cbn [accStatus_ set_curDeviceFunc_ set_timers].
  decide_modes. st_exec.
  match goal with |- context [GetAccessoryInfo ?s] =>
    destruct (info_run s) as (l & h & -> & Hh) end. st_exec.
  match goal with |- context [SerialValueHash ?v ?s] =>
    destruct (SerialValueHash_run v s) as (x & e & ->) end. st_exec.
  match goal with |- context [publish ?v ?s] =>
    destruct (publish_run v s) as (ok & e' & ->) end. st_exec.
  eexists h, e', _, t. split; [by destruct s|]. by rewrite Hh.
Qed.

Lemma handle_stops s :
  usbDeviceInterface_ s = true → has_accessory (curDeviceFunc_ s) = true →
  accStatus_ s = ACC_START → is_i32 (lastDeviceFunc_ s) →
  ∃ h e,
    after (ProcessHandle ACC_STOP) s =
      set_log (log s ++ [Detached (json (accessory s))])
        (set_curDeviceFunc_ (lastDeviceFunc_ s) (set_accStatus_ ACC_STOP
          (set_platform e (set_hdi h s)))) ∧
    functions h = lastDeviceFunc_ s.
Proof.
  intros Hp Hf Ha Hl. unfold after, ProcessHandle. st_exec. rewrite Ha. decide_modes. st_exec.
  unfold ProcessAccessoryStop. st_exec. rewrite Hf, Ha. decide_modes. st_exec.
  match goal with |- context [SetCurrentFunctions ?f ?s] =>
    destruct (set_functions_run f s Hp Hl) as (h & -> & Hh) end. st_exec.
  match goal with |- context [publish ?v ?s] =>
    destruct (publish_run v s) as (ok & e & ->) end. st_exec.
  exists h, e. split; [by destruct s|done].
Qed.

(** An event that is handled at once. *)
Lemma HandleEvent_now status delay s :
  usbDeviceInterface_ s = true →
  (status =? ACT_UPDEVICE) || (status =? ACT_DOWNDEVICE) = false ∨ delay = false →
  ∃ t, after (HandleEvent status delay) s =
    after (ProcessHandle (status_mode status (accStatus_ s))) (set_timers t (set_eventStatus_ status s)).
Proof.
  intros Hp Hd. unfold after, HandleEvent. st_exec. rewrite Hp. cbn [negb]. st_exec.
  destruct delay; cbn [mwhen]; st_exec.
  - destruct Hd as [Hd|]; [|done]. exec_unregister t Ht. st_exec. rewrite Hd. cbn [andb]. st_exec.
    by exists t.
  - rewrite andb_false_r. st_exec. exists (timers s). by destruct s.
Qed.

(** The restore task. *)
Lemma fire_restores id s :
  usbDeviceInterface_ s = true → is_i32 (lastDeviceFunc_ s) →
  ∃ h t, after (fire id RestoreTask) s = set_accStatus_ ACC_STOP (set_hdi h (set_timers t s)) ∧
    functions h = lastDeviceFunc_ s.
Proof.
  intros Hp Hl. unfold after, fire. st_exec. exec_unregister t Ht. st_exec.
  cbn [run_task]. unfold restore_task. st_exec.
  match goal with |- context [SetCurrentFunctions ?f ?s] =>
    destruct (set_functions_run f s Hp Hl) as (h & -> & Hh) end. st_exec.
  exists h, t. split; [by destruct s|done].
Qed.

(** The request for accessory mode. *)
Lemma session_request s :
  usbDeviceInterface_ s = true → has_accessory (functions (hdi s)) = false →
  let s' := after (HandleEvent ACT_ACCESSORYUP true) s in
  accStatus_ s' = ACC_CONFIGURING ∧ functions (hdi s') = FUN_ACCESSORY ∧
  lastDeviceFunc_ s' = functions (hdi s) ∧ usbDeviceInterface_ s' = true ∧ log s' = log s ∧
  ∃ id, pending (timers s') !! id = Some RestoreTask.
Proof.
  intros Hp Hf.
  destruct (HandleEvent_now ACT_ACCESSORYUP true s Hp (or_introl eq_refl)) as (t0 & ->).
  assert (Hm : status_mode ACT_ACCESSORYUP (accStatus_ s) = ACC_CONFIGURING) by done. rewrite Hm.
  destruct (handle_configures (set_timers t0 (set_eventStatus_ ACT_ACCESSORYUP s)) Hp Hf)
    as (h & t & tid & -> & Hh & Ht). cbn. split_and!; [done..|]. by exists tid.
Qed.

(** The host enumerates the device in accessory mode. *)
Lemma session_start s :
  inv s → usbDeviceInterface_ s = true → accStatus_ s = ACC_CONFIGURING →
  functions (hdi s) = FUN_ACCESSORY →
  let s' := after (HandleEvent ACT_UPDEVICE false) s in
  accStatus_ s' = ACC_START ∧ functions (hdi s') = FUN_ACCESSORY ∧
  curDeviceFunc_ s' = FUN_ACCESSORY ∧ lastDeviceFunc_ s' = lastDeviceFunc_ s ∧
  usbDeviceInterface_ s' = true ∧ none_pending RestoreTask s' ∧
  log s' = log s ++ [Attached (json (accessory s'))].
Proof.
  intros Hs Hp Ha Hf. unfold after, HandleEvent. st_exec. rewrite Hp. cbn [negb mwhen]. st_exec.
  rewrite andb_false_r. st_exec. cbn [accStatus_ set_eventStatus_]. rewrite Ha.
  assert (Hm : status_mode ACT_UPDEVICE ACC_CONFIGURING = ACC_START) by done. rewrite Hm.
  set (s1 := set_eventStatus_ ACT_UPDEVICE s).
  destruct (handle_announces s1 ACC_START (or_intror eq_refl) Hp) as (h & e & a & t & Hr & Hh & Ht).
  { unfold s1. cbn [hdi set_eventStatus_]. rewrite Hf. done. }
  { unfold s1. cbn [accStatus_ set_eventStatus_]. by rewrite Ha. }
  unfold after in Hr. rewrite Hr. unfold s1 in *. cbn in *. rewrite Hf in *. split_and!; try done.
  intros id. cbn. rewrite Ht. intros [Hn Hi]%lookup_delete_Some.
  by apply (inv_timers s Hs id RestoreTask) in Hi.
Qed.

(** The accessory goes away. *)
Lemma session_end s :
  usbDeviceInterface_ s = true → accStatus_ s = ACC_START → curDeviceFunc_ s = FUN_ACCESSORY →
  is_i32 (lastDeviceFunc_ s) →
  let s' := after (HandleEvent ACT_ACCESSORYDOWN true) s in
  accStatus_ s' = ACC_STOP ∧ functions (hdi s') = lastDeviceFunc_ s ∧
  log s' = log s ++ [Detached (json (accessory s))].
Proof.
  intros Hp Ha Hf Hl.
  destruct (HandleEvent_now ACT_ACCESSORYDOWN true s Hp (or_introl eq_refl)) as (t & ->).
  assert (Hm : status_mode ACT_ACCESSORYDOWN (accStatus_ s) = ACC_STOP) by done. rewrite Hm.
  destruct (handle_stops (set_timers t (set_eventStatus_ ACT_ACCESSORYDOWN s)) Hp) as (h & e & -> & Hh).
  - cbn. by rewrite Hf.
  - done.
  - done.
  - done.
Qed.

(** The driver asks for accessory mode while the device has other functions: the
    accessory function is set and the restore task is pending; when that task fires because
    no host came, the driver has the functions from before again, and nothing was
    broadcast. *)
Theorem accessory_timeout_restores s (Hp : usbDeviceInterface_ s = true)
    (Hf : has_accessory (functions (hdi s)) = false) :
  let s1 := after (HandleEvent ACT_ACCESSORYUP true) s in
  accStatus_ s1 = ACC_CONFIGURING ∧ functions (hdi s1) = FUN_ACCESSORY ∧
  ∃ id, pending (timers s1) !! id = Some RestoreTask ∧
    let s2 := after (fire id RestoreTask) s1 in
    accStatus_ s2 = ACC_STOP ∧ functions (hdi s2) = functions (hdi s) ∧ log s2 = log s.
Proof.
  intros s1. destruct (session_request s Hp Hf) as (Ha & Hc & Hl & Hp1 & Hlog & id & Hid).
  fold s1 in Ha, Hc, Hl, Hp1, Hlog, Hid. clearbody s1. split_and!; [done..|].
  exists id. split; [done|].
  destruct (fire_restores id s1 Hp1) as (h & t & -> & Hh); [rewrite Hl; apply functions_i32|].
  cbn. by rewrite Hh, Hl, Hlog.
Qed.

(** C39: a whole session on a reachable state: the driver asks for accessory mode, the host
    enumerates the device (the debounced connection), the accessory goes away.  The
    accessory runs in between, with the restore task cancelled; afterwards the driver has
    the functions from before again, and exactly one attach and one detach broadcast with
    the same data were made. *)
Theorem accessory_session s0 s (Hi : initial s0) (Hr : rtc step s0 s)
    (Hp : usbDeviceInterface_ s = true) (Hf : has_accessory (functions (hdi s)) = false) :
  let s1 := after (HandleEvent ACT_ACCESSORYUP true) s in
  let s2 := after (HandleEvent ACT_UPDEVICE false) s1 in
  let s3 := after (HandleEvent ACT_ACCESSORYDOWN true) s2 in
  (accStatus_ s2 = ACC_START ∧ functions (hdi s2) = FUN_ACCESSORY ∧ none_pending RestoreTask s2) ∧
  (accStatus_ s3 = ACC_STOP ∧ functions (hdi s3) = functions (hdi s)) ∧
  ∃ data, log s3 = log s ++ [Attached data; Detached data].
Proof.
  intros s1. assert (Hs1 : inv s1) by by apply inv_HandleEvent, (inv_rtc s0).
  destruct (session_request s Hp Hf) as (Ha & Hc & Hl & Hp1 & Hlog & _).
  fold s1 in Ha, Hc, Hl, Hp1, Hlog. clearbody s1. intros s2.
  destruct (session_start s1 Hs1 Hp1 Ha Hc) as (Ha2 & Hc2 & Hcur & Hl2 & Hp2 & Hn & Hlog2).
  fold s2 in Ha2, Hc2, Hcur, Hl2, Hp2, Hn, Hlog2. clearbody s2. intros s3.
  destruct (session_end s2 Hp2 Ha2 Hcur) as (Ha3 & Hc3 & Hlog3).
  { rewrite Hl2, Hl. apply functions_i32. }
  fold s3 in Ha3, Hc3, Hlog3. clearbody s3. split_and!; [done..|congruence|].
  exists (json (accessory s2)). by rewrite Hlog3, Hlog2, Hlog, <- app_assoc.
Qed.

(** A connection status that arrives while the accessory is being configured, but
    before the driver shows the accessory function, cancels the restore task and leaves the
    manager configuring: no timer is left that would bring the old functions back. *)
Theorem UPDEVICE_strands_configuring s0 s (Hi : initial s0) (Hr : rtc step s0 s)
    (Hp : usbDeviceInterface_ s = true) (Ha : accStatus_ s = ACC_CONFIGURING)
    (Hf : has_accessory (functions (hdi s)) = false) :
  let s' := after (HandleEvent ACT_UPDEVICE false) s in
  accStatus_ s' = ACC_CONFIGURING ∧ none_pending RestoreTask s' ∧ functions (hdi s') = functions (hdi s).
Proof.
  pose proof (inv_rtc s0 s Hi Hr) as Hs. clear Hi Hr.
  cbv zeta. unfold after, HandleEvent. st_exec. rewrite Hp. cbn [negb mwhen]. st_exec.
  rewrite andb_false_r. st_exec. cbn [accStatus_ set_eventStatus_]. rewrite Ha.
  assert (Hm : status_mode ACT_UPDEVICE ACC_CONFIGURING = ACC_START) by done. rewrite Hm.
  unfold ProcessHandle. st_exec. decide_modes. st_exec. exec_unregister t Ht. st_exec.
  rewrite get_functions_run by done. st_exec. cbn [hdi set_timers set_eventStatus_].
  unfold ProcessAccessoryStart. st_exec. rewrite Hf. decide_modes. st_exec.
  split_and!; [done| |done]. intros id. cbn in Ht |- *. rewrite Ht.
  intros [Hn Hid]%lookup_delete_Some. by apply (inv_timers s Hs id RestoreTask) in Hid.
Qed.
End Session.

(** ** The accessory's identity *)
Lemma compare_eqb s1 s2 : compare s1 s2 = String.eqb s1 s2.
Proof.
  unfold compare. destruct (String.eqb_spec s1 "") as [->|]; [|done]. by destruct s2.
Qed.

Section Identity.
Context {H T E : Type} `{EB : ErrBase}.

(** The accessory a client names is the running one: every field agrees, and the serial
    number is the manager's, with or without the client's bundle name before it. *)
Definition names_running (acc access : USBAccessory.t) (bundleName : string) : Prop :=
  USBAccessory.manufacturer_ access = USBAccessory.manufacturer_ acc ∧
  USBAccessory.product_ access = USBAccessory.product_ acc ∧
  USBAccessory.description_ access = USBAccessory.description_ acc ∧
  USBAccessory.version_ access = USBAccessory.version_ acc ∧
  (USBAccessory.serialNumber_ access = USBAccessory.serialNumber_ acc ∨
   USBAccessory.serialNumber_ access = (bundleName +:+ USBAccessory.serialNumber_ acc)%string).

(** An accessory is matched exactly while it runs and when the client names the
    running one; the identity returned is made of the client's fields, and a refusal leaves
    the out-parameter; the manager's state does not change. *)
Theorem GetAccessorySerialNumber_spec (s : @st H T E) access bundleName serialValue :
  let '((ret, v), s') := GetAccessorySerialNumber access bundleName serialValue s in
  s' = s ∧
  (ret = UEC_OK ↔ accStatus_ s = ACC_START ∧ names_running (accessory s) access bundleName) ∧
  v = (if (ret =? UEC_OK)%Z then
         USBAccessory.manufacturer_ access +:+ USBAccessory.product_ access +:+
         USBAccessory.version_ access +:+ USBAccessory.serialNumber_ access
       else serialValue)%string.
Proof.
  pose proof accessory_not_match_not_ok as Hn.
  assert (Hn' : (UEC_SERVICE_ACCESSORY_NOT_MATCH =? UEC_OK) = false) by by apply Z.eqb_neq.
  unfold GetAccessorySerialNumber. st_exec. rewrite !compare_eqb.
  unfold names_running.
  destruct (decide (accStatus_ s = ACC_START)) as [Ha|Ha].
  2: { rewrite bool_decide_false by done. cbn [negb]. rewrite Hn'.
    split; [done|]. split; [|done]. split; [done|]. by intros []. }
  rewrite bool_decide_true by done. cbn [negb].
  unfold USBAccessory.GetManufacturer, USBAccessory.GetProduct, USBAccessory.GetDescription,
    USBAccessory.GetVersion, USBAccessory.GetSerialNumber.
  match goal with |- context [if ?b then _ else _] => destruct b eqn:Eb end; cbn iota beta.
  - rewrite Z.eqb_refl. split; [done|]. split; [|done]. split; [intros _|done]. split; [done|].
    rewrite !andb_true_iff, orb_true_iff, !String.eqb_eq in Eb.
    destruct Eb as [[[[[Hm Hp] Hd] _] Hv] Hs].
    split_and!; [by symmetry..|]. destruct Hs; [left|right]; by symmetry.
  - rewrite Hn'. split; [done|]. split; [|done]. split; [done|].
    intros (_ & Hm & Hp & Hd & Hv & Hs). exfalso.
    apply not_true_iff_false in Eb. apply Eb.
    rewrite !andb_true_iff, orb_true_iff, !String.eqb_eq.
    split_and!; [by symmetry..|]. destruct Hs; [left|right]; by symmetry.
Qed.
End Identity.

(** ** The theorems on a concrete driver

    A driver that remembers the function word, with an accessory that has five strings. *)
Section Samples.
#[local] Existing Instance sample_codes.
#[local] Instance sample_hdi : DeviceHdi Z := {
  hdi_GetCurrentFunctions _ := λ h, ((0, i32 h), h);
  hdi_SetCurrentFunctions f := λ _, (0, f);
  hdi_BindUsbdDeviceSubscriber := λ h, (0, h);
  hdi_UnbindUsbdDeviceSubscriber := λ h, (0, h);
}.
#[local] Instance sample_accessory : AccessoryHdi Z := {
  hdi_GetAccessoryInfo := λ h, (["maker"; "product"; "description"; "1.0"; "serial"]%string, h);
  hdi_OpenAccessory _ := λ h, ((0, 7), h);
  hdi_CloseAccessory _ := λ h, (0, h);
}.
#[local] Instance sample_laws : GadgetLaws Z.
Proof.
  refine {| functions := i32 |}.
  - apply i32_range.
  - done.
  - intros f h Hf. split; [done|]. by apply i32_id.
  - done.
Defined.
#[local] Instance sample_platform : AccessoryPlatform unit := {
  PublishCommonEvent _ := λ e, (true, e);
  now_millis := λ e, (1000, e);
  open_driver_path := λ e, (9, e);
  json_object l := Some (foldr (λ kv acc, (kv.2 +:+ ";" +:+ acc)%string) "" l);
  json_array l := Some "[]"%string;
  string_hash s := Z.of_nat (String.length s);
  int_hash z := z;
}.

Definition fresh : @st Z (counting_timers AccTask) unit :=
  mk_st (USBAccessory.mk "" "" "" "" "") ACC_NONE 0 FUNCTION_NONE FUNCTION_NONE 0 UINT32_MAX UINT32_MAX
    ∅ true (Z.lor FUNCTION_HDC FUNCTION_MTP) (CountingTimers 1 ∅) tt [].

Lemma acc_fresh_initial : initial fresh.
Proof. done. Qed.

Definition asked := after (HandleEvent ACT_ACCESSORYUP true) fresh.

Lemma asked_reachable : rtc step fresh asked.
Proof. apply rtc_once, step_event. Qed.

(** The host enumerates the device and the accessory goes away, through the debouncing. *)
Definition running :=
  after (fire 2 ShakeTask) (after (HandleEvent ACT_UPDEVICE true) asked).
Definition gone := after (HandleEvent ACT_ACCESSORYDOWN true) running.

Lemma running_reachable : rtc step fresh running.
Proof.
  eapply rtc_r; [|apply step_fire; by vm_compute].
  eapply rtc_r; [apply asked_reachable|]. apply step_event.
Qed.

Lemma gone_reachable : rtc step fresh gone.
Proof. eapply rtc_r; [apply running_reachable|]. apply step_event. Qed.

Lemma accessory_restore_safe_witness :
  pending (timers asked) !! 1 = Some RestoreTask ∧
  has_accessory (lastDeviceFunc_ asked) = false ∧ 1 = accDelayTimerId_ asked ∧
  accStatus_ asked ≠ ACC_START ∧ accStatus_ asked ≠ ACC_STOP.
Proof.
  split; [by vm_compute|].
  apply (accessory_restore_safe fresh asked 1 acc_fresh_initial asked_reachable). by vm_compute.
Defined.

Lemma detach_follows_attach_witness :
  log gone = [Attached "maker;product;description;1.0;00000000000007d6;";
              Detached "maker;product;description;1.0;00000000000007d6;"]%string ∧
  paired (log gone).
Proof.
  split; [by vm_compute|]. apply (detach_follows_attach fresh gone acc_fresh_initial gone_reachable).
Defined.

Lemma accessory_timeout_restores_witness :
  functions (hdi fresh) = 12 ∧
  ∃ id, pending (timers asked) !! id = Some RestoreTask ∧
    functions (hdi (after (fire id RestoreTask) asked)) = functions (hdi fresh).
Proof.
  split; [by vm_compute|].
  destruct (accessory_timeout_restores fresh) as (_ & _ & id & Hid & _ & Hf & _).
  - done.
  - by vm_compute.
  - by exists id.
Defined.

Lemma accessory_session_witness :
  ∃ data, log (after (HandleEvent ACT_ACCESSORYDOWN true) (after (HandleEvent ACT_UPDEVICE false)
    (after (HandleEvent ACT_ACCESSORYUP true) fresh))) = [Attached data; Detached data].
Proof.
  destruct (accessory_session fresh fresh acc_fresh_initial (rtc_refl _ _)) as (_ & _ & data & Hd).
  - done.
  - by vm_compute.
  - exists data. exact Hd.
Defined.

Lemma UPDEVICE_strands_configuring_witness :
  let s := set_hdi 12 asked in
  accStatus_ (after (HandleEvent ACT_UPDEVICE false) s) = ACC_CONFIGURING ∧
  none_pending RestoreTask (after (HandleEvent ACT_UPDEVICE false) s).
Proof.
  assert (Hr : rtc step fresh (set_hdi 12 asked)).
  { eapply rtc_r; [apply asked_reachable|]. exact (step_init (Some 12) asked). }
  destruct (UPDEVICE_strands_configuring fresh (set_hdi 12 asked) acc_fresh_initial Hr)
    as (Ha & Hn & _); [by vm_compute..|].
  by split.
Defined.

(** A published attach broadcast is reported as an error: the [bool] is returned as the code. *)
Example announce_code :
  result (ProcessAccessoryStart FUN_ACCESSORY ACC_START) asked = 1 ∧ 1 ≠ UEC_OK.
Proof. split; [by vm_compute|done]. Qed.
End Samples.
