(* ===== verification/RightDatabase.v ===== *)
(** * The table of granted rights

    [services/native/src/usb_right_database.cpp] and [usb_right_db_helper.cpp]: the
    relational store of (user, device, application, token) rights, with its transactions,
    and the helper that adds, looks up and removes records.

    The store itself is a library ([RdbStore]); the [WHERE] texts and predicates of the code
    are the conjunctions [clause] below, with the arguments in place. *)

From stdpp Require Import pretty.
From S2P Require Import Prelude UsbErrors.

#[local] Set Default Goal Selector "!".

(** ** The store *)

(** [OHOS::NativeRdb::E_OK] *)
Definition E_OK : Z := 0.

(** [usb_right_database.h:39-48] [CREATE_USB_RIGHT_TABLE] a row of the table; a token that was never put is null *)
Record row := mk_row {
  row_id : Z;
  row_uid : Z;
  row_installTime : Z;
  row_updateTime : Z;
  row_requestTime : Z;
  row_validPeriod : Z;
  row_deviceName : string;
  row_bundleName : string;
  row_tokenId : option string;
}.

Definition TABLE_COLUMNS : list string :=
  ["id"; "uid"; "installTime"; "updateTime"; "requestTime"; "validPeriod"; "deviceName";
   "bundleName"; "tokenId"].

(** The integer columns by name, and the text columns. *)
Definition column_long (name : string) (r : row) : option Z :=
  if String.eqb name "id" then Some (row_id r)
  else if String.eqb name "uid" then Some (row_uid r)
  else if String.eqb name "installTime" then Some (row_installTime r)
  else if String.eqb name "updateTime" then Some (row_updateTime r)
  else if String.eqb name "requestTime" then Some (row_requestTime r)
  else if String.eqb name "validPeriod" then Some (row_validPeriod r)
  else None.

(** A [ValuesBucket]. *)
Record values := mk_values {
  v_uid : Z;
  v_installTime : Z;
  v_updateTime : Z;
  v_requestTime : Z;
  v_validPeriod : Z;
  v_deviceName : string;
  v_bundleName : string;
  v_tokenId : option string;
}.

Definition row_of (id : Z) (v : values) : row :=
  mk_row id (v_uid v) (v_installTime v) (v_updateTime v) (v_requestTime v) (v_validPeriod v)
    (v_deviceName v) (v_bundleName v) (v_tokenId v).

(** An update sets the columns that were put. *)
Definition update_row (v : values) (r : row) : row :=
  mk_row (row_id r) (v_uid v) (v_installTime v) (v_updateTime v) (v_requestTime v)
    (v_validPeriod v) (v_deviceName v) (v_bundleName v)
    (match v_tokenId v with Some t => Some t | None => row_tokenId r end).

(** The conditions the code writes; a clause is their conjunction. *)
Inductive cond :=
  | UidIs (uid : Z)
  | DeviceIs (deviceName : string)
  | BundleIs (bundleName : string)
  | TokenIs (tokenId : string)
  | RequestBefore (time : Z)
  | PeriodIs (validPeriod : Z)
  | PeriodNotIn (periods : list Z)
  | BundleIn (bundleNames : list string).
Definition clause : Type := list cond.

Definition cond_holds (c : cond) (r : row) : bool :=
  match c with
  | UidIs uid => row_uid r =? uid
  | DeviceIs d => String.eqb (row_deviceName r) d
  | BundleIs b => String.eqb (row_bundleName r) b
  | TokenIs t => match row_tokenId r with Some t' => String.eqb t' t | None => false end
  | RequestBefore t => row_requestTime r <? t
  | PeriodIs p => row_validPeriod r =? p
  | PeriodNotIn ps => negb (existsb (λ p, row_validPeriod r =? p) ps)
  | BundleIn bs => existsb (String.eqb (row_bundleName r)) bs
  end.
Definition matches (c : clause) (r : row) : bool := forallb (λ c, cond_holds c r) c.

(** A result set: what its accessors answer, [None] being an error code. *)
Record ResultSet := mk_rs {
  GetRowCount : option Z;
  GetColumnCount : option Z;
  GetAllColumnNames : option (list string);
  GetColumnIndex : string → option Z;
  GoToRow : Z → bool;
  GetInt : Z → Z → option Z;
  GetLong : Z → Z → option Z;
  GetString : Z → Z → option string;
  IsEnded : Z → bool;
}.

Class RdbStore (S : Type) := {
  rdb_BeginTransaction : ST S Z;
  rdb_Commit : ST S Z;
  rdb_RollBack : ST S Z;
  rdb_Insert : values → ST S (Z * Z);
  rdb_Update : values → clause → ST S (Z * Z);
  rdb_Delete : clause → ST S (Z * Z);
  rdb_Query : clause → list string → bool → ST S (option ResultSet);
  rdb_ExecuteSql : string → ST S Z;
}.

(** ** [UsbRightDataBase] *)
Section DataBase.
Context {S : Type} `{RdbStore S}.

(** [usb_right_database.h:51-77] [UsbRightDataBase] with the helper's pointer to it: [rightDatabase_] and [store_] say whether they are there *)
Record db := mk_db {
  rightDatabase_ : bool;
  store_ : bool;
  store : S;
}.

Definition set_store (v : S) (s : db) : db := mk_db (rightDatabase_ s) (store_ s) v.

Definition on_store {A} (m : ST S A) : ST db A :=
  λ s, let '(a, t) := m (store s) in (a, set_store t s).

(** [usb_right_database.cpp:26-39] [UsbRightDataBase::UsbRightDataBase] [get] is what [RdbHelper::GetRdbStore] yields *)
Definition UsbRightDataBase (get : option S) (fallback : S) : db :=
  match get with
  | Some t => mk_db true true t
  | None => mk_db true false fallback
  end.

(** [usb_right_database.cpp:53-65] [UsbRightDataBase::BeginTransaction] *)
Definition BeginTransaction : ST db Z :=
  present ← gets store_;
  if negb present then mret USB_RIGHT_RDB_NO_INIT
  else
    ret ← on_store rdb_BeginTransaction;
    mret (if negb (ret =? E_OK) then USB_RIGHT_RDB_EXECUTE_FAILTURE else USB_RIGHT_OK).

(** [usb_right_database.cpp:67-79] [UsbRightDataBase::Commit] *)
Definition Commit : ST db Z :=
  present ← gets store_;
  if negb present then mret USB_RIGHT_RDB_NO_INIT
  else
    ret ← on_store rdb_Commit;
    mret (if negb (ret =? E_OK) then USB_RIGHT_RDB_EXECUTE_FAILTURE else USB_RIGHT_OK).

(** [usb_right_database.cpp:81-93] [UsbRightDataBase::RollBack] *)
Definition RollBack : ST db Z :=
  present ← gets store_;
  if negb present then mret USB_RIGHT_RDB_NO_INIT
  else
    ret ← on_store rdb_RollBack;
    mret (if negb (ret =? E_OK) then USB_RIGHT_RDB_EXECUTE_FAILTURE else USB_RIGHT_OK).

(** [usb_right_database.cpp:95-109] [UsbRightDataBase::Insert] the row id on success *)
Definition Insert (insertValues : values) : ST db Z :=
  present ← gets store_;
  if negb present then mret USB_RIGHT_RDB_NO_INIT
  else
    r ← on_store (rdb_Insert insertValues);
    mret (if negb (r.1 =? E_OK) then USB_RIGHT_RDB_EXECUTE_FAILTURE else r.2).

(** [usb_right_database.cpp:126-139] [UsbRightDataBase::Update] the result and [changedRows]; the overload that takes predicates only differs in how the clause is written *)
Definition Update (v : values) (whereClause : clause) (changedRows : Z) : ST db (Z * Z) :=
  present ← gets store_;
  if negb present then mret (USB_RIGHT_RDB_NO_INIT, changedRows)
  else
    r ← on_store (rdb_Update v whereClause);
    mret (if negb (r.1 =? E_OK) then USB_RIGHT_RDB_EXECUTE_FAILTURE else USB_RIGHT_OK, r.2).

(** [usb_right_database.cpp:141-154] [UsbRightDataBase::Delete] *)
Definition Delete_predicates (predicates : clause) : ST db Z :=
  present ← gets store_;
  if negb present then mret USB_RIGHT_RDB_NO_INIT
  else
    r ← on_store (rdb_Delete predicates);
    mret (if negb (r.1 =? E_OK) then USB_RIGHT_RDB_EXECUTE_FAILTURE else USB_RIGHT_OK).

(** [usb_right_database.cpp:156-169] [UsbRightDataBase::Delete] *)
Definition Delete (whereClause : clause) (changedRows : Z) : ST db (Z * Z) :=
  present ← gets store_;
  if negb present then mret (USB_RIGHT_RDB_NO_INIT, changedRows)
  else
    r ← on_store (rdb_Delete whereClause);
    mret (if negb (r.1 =? E_OK) then USB_RIGHT_RDB_EXECUTE_FAILTURE else USB_RIGHT_OK, r.2).

(** [usb_right_database.cpp:171-183] [UsbRightDataBase::ExecuteSql] *)
Definition ExecuteSql (sql : string) : ST db Z :=
  present ← gets store_;
  if negb present then mret USB_RIGHT_RDB_NO_INIT
  else
    ret ← on_store (rdb_ExecuteSql sql);
    mret (if negb (ret =? E_OK) then USB_RIGHT_RDB_EXECUTE_FAILTURE else USB_RIGHT_OK).

(** [usb_right_database.cpp:195-203] [UsbRightDataBase::Query] *)
Definition Query (predicates : clause) (columns : list string) (distinct : bool)
    : ST db (option ResultSet) :=
  present ← gets store_;
  if negb present then mret None else on_store (rdb_Query predicates columns distinct).

(** [usb_right_database.cpp:205-215] [UsbRightDataBaseCallBack::OnCreate] *)
Definition OnCreate (create_table : string) : ST S Z :=
  ret ← rdb_ExecuteSql create_table;
  mret (if negb (ret =? E_OK) then USB_RIGHT_RDB_EXECUTE_FAILTURE else USB_RIGHT_OK).

(** [usb_right_database.cpp:217-231] [UsbRightDataBaseCallBack::OnUpgrade] *)
Definition OnUpgrade (oldVersion newVersion : Z) : ST S Z :=
  if newVersion <=? oldVersion then mret USB_RIGHT_OK
  else
    rdb_ExecuteSql "ALTER TABLE usbRightInfoTable ADD COLUMN tokenId TEXT DEFAULT ''" ;;
    mret USB_RIGHT_OK.

(** [usb_right_database.cpp:233-240] [UsbRightDataBaseCallBack::OnDowngrade] *)
Definition OnDowngrade (oldVersion newVersion : Z) : ST S Z := mret USB_RIGHT_OK.

(** ** [UsbRightDbHelper] *)

(** [(void)RollBack(); return ret;] *)
Definition rollback_with {A} (a : A) : ST db A := RollBack ;; mret a.

(** [usb_right_db_helper.h:33-33] [USB_RIGHT_VALID_PERIOD_MIN] *)
Definition USB_RIGHT_VALID_PERIOD_MIN : Z := 0.
(** [usb_right_db_helper.h:34-34] [USB_RIGHT_VALID_PERIOD_MAX] *)
Definition USB_RIGHT_VALID_PERIOD_MAX : Z := 0xFFFFFFFF.
(** [usb_right_db_helper.h:35-35] [USB_RIGHT_VALID_PERIOD_SET] *)
Definition USB_RIGHT_VALID_PERIOD_SET : Z := 0x0FFFFFFF.

(** [usb_right_db_helper.h:37-44] [UsbRightAppInfo] *)
Record UsbRightAppInfo := mk_info {
  primaryKeyId : Z;
  uid : Z;
  installTime : Z;
  updateTime : Z;
  requestTime : Z;
  validPeriod : Z;
}.

(** [usb_right_db_helper.h:46-57] [UsbRightTableInfo] *)
Record UsbRightTableInfo := mk_table {
  rowCount : Z;
  columnCount : Z;
  primaryKeyIndex : Z;
  uidIndex : Z;
  installTimeIndex : Z;
  updateTimeIndex : Z;
  requestTimeIndex : Z;
  validPeriodIndex : Z;
  deviceNameIndex : Z;
  bundleNameIndex : Z;
}.

(** [usb_right_db_helper.cpp:65-93] [UsbRightDbHelper::IsRecordExpired] one record; the subtraction is on [uint64_t] *)
Definition IsInfoExpired (info : UsbRightAppInfo) (expiredTime : Z) : bool :=
  if expiredTime <? requestTime info then true
  else if validPeriod info =? USB_RIGHT_VALID_PERIOD_MIN then false
  else if validPeriod info =? USB_RIGHT_VALID_PERIOD_MAX then false
  else if u64 (expiredTime - requestTime info) <? validPeriod info then false
  else if (updateTime info <? installTime info) || (requestTime info <? installTime info) then true
  else true.

(** The columns [PutInt]/[PutLong]/[PutString] set. *)
Definition bucket (deviceName bundleName : string) (tokenId : option string)
    (info : UsbRightAppInfo) : values :=
  mk_values (uid info) (i64 (installTime info)) (i64 (updateTime info))
    (i64 (requestTime info)) (i64 (validPeriod info)) deviceName bundleName tokenId.

(** [usb_right_db_helper.cpp:95-134] [UsbRightDbHelper::AddRightRecord] *)
Definition AddRightRecord (deviceName bundleName : string) (info : UsbRightAppInfo) : ST db Z :=
  present ← gets rightDatabase_;
  if negb present then mret USB_RIGHT_RDB_EXECUTE_FAILTURE
  else
    ret ← BeginTransaction;
    if ret <? USB_RIGHT_OK then mret ret
    else
      ret ← Insert (bucket deviceName bundleName None info);
      if i32 ret <? USB_RIGHT_OK then rollback_with (i32 ret)
      else
        ret ← Commit;
        if ret <? USB_RIGHT_OK then rollback_with ret else mret ret.

(** [usb_right_db_helper.cpp:483-509] [UsbRightDbHelper::GetResultSetTableInfo] the last column of each name *)
Fixpoint table_columns (i : Z) (columnNames : list string) (table : UsbRightTableInfo)
    : UsbRightTableInfo :=
  match columnNames with
  | [] => table
  | n :: columnNames =>
      let set name (new old : Z) := if String.eqb n name then new else old in
      table_columns (i + 1) columnNames
        (mk_table (rowCount table) (columnCount table)
          (set "id" i (primaryKeyIndex table)) (set "uid" i (uidIndex table))
          (set "installTime" i (installTimeIndex table))
          (set "updateTime" i (updateTimeIndex table))
          (set "requestTime" i (requestTimeIndex table))
          (set "validPeriod" i (validPeriodIndex table))
          (set "deviceName" i (deviceNameIndex table))
          (set "bundleName" i (bundleNameIndex table)))%string
  end.

(** [usb_right_db_helper.cpp:467-518] [UsbRightDbHelper::GetResultSetTableInfo] [table] is uninitialised in the caller: its old fields are arbitrary *)
Definition GetResultSetTableInfo (resultSet : ResultSet) (table : UsbRightTableInfo)
    : Z * UsbRightTableInfo :=
  match GetRowCount resultSet, GetColumnCount resultSet, GetAllColumnNames resultSet with
  | Some rowCount, Some columnCount, Some columnNames =>
      let t := table_columns 0 columnNames table in
      (USB_RIGHT_OK,
       mk_table rowCount columnCount (primaryKeyIndex t) (uidIndex t) (installTimeIndex t)
         (updateTimeIndex t) (requestTimeIndex t) (validPeriodIndex t) (deviceNameIndex t)
         (bundleNameIndex t))
  | _, _, _ => (USB_RIGHT_RDB_EXECUTE_FAILTURE, table)
  end.

(** [usb_right_db_helper.cpp:541-553] [UsbRightDbHelper::GetResultRightRecordEx] one row; it is skipped when a column cannot be read *)
Definition read_info (resultSet : ResultSet) (table : UsbRightTableInfo) (i : Z)
    : option UsbRightAppInfo :=
  k ← GetInt resultSet i (primaryKeyIndex table);
  u ← GetInt resultSet i (uidIndex table);
  it ← GetLong resultSet i (installTimeIndex table);
  ut ← GetLong resultSet i (updateTimeIndex table);
  rt ← GetLong resultSet i (requestTimeIndex table);
  vp ← GetLong resultSet i (validPeriodIndex table);
  Some (mk_info (u32 k) u (u64 it) (u64 ut) (u64 rt) (u64 vp)).

(** [usb_right_db_helper.cpp:535-555] [UsbRightDbHelper::GetResultRightRecordEx] the rows from [i] on, [n] of them left *)
Fixpoint read_rows (resultSet : ResultSet) (table : UsbRightTableInfo) (i : Z) (n : nat)
    (infos : list UsbRightAppInfo) : list UsbRightAppInfo :=
  match n with
  | O => infos
  | Datatypes.S n =>
      if negb (GoToRow resultSet i) then infos
      else
        let infos := match read_info resultSet table i with
                     | Some info => infos ++ [info]
                     | None => infos
                     end in
        if IsEnded resultSet i then infos
        else read_rows resultSet table (i + 1) n infos
  end.

(** [usb_right_db_helper.cpp:520-562] [UsbRightDbHelper::GetResultRightRecordEx] *)
Definition GetResultRightRecordEx (table0 : UsbRightTableInfo) (resultSet : ResultSet)
    (infos : list UsbRightAppInfo) : Z * list UsbRightAppInfo :=
  let '(ret, table) := GetResultSetTableInfo resultSet table0 in
  if ret <? USB_RIGHT_OK then (ret, infos)
  else
    let infos := read_rows resultSet table 0 (Z.to_nat (rowCount table)) infos in
    (i32 (Z.of_nat (length infos)), infos).

(** The uninitialised table of [GetResultRightRecordEx]. *)
Context (table0 : UsbRightTableInfo).

(** [usb_right_db_helper.cpp:136-161] [UsbRightDbHelper::QueryAndGetResult] *)
Definition QueryAndGetResult (rdbPredicates : clause) (columns : list string)
    (infos : list UsbRightAppInfo) : ST db (Z * list UsbRightAppInfo) :=
  present ← gets rightDatabase_;
  if negb present then mret (USB_RIGHT_RDB_EXECUTE_FAILTURE, infos)
  else
    ret ← BeginTransaction;
    if ret <? USB_RIGHT_OK then mret (ret, infos)
    else
      resultSet ← Query rdbPredicates columns false;
      match resultSet with
      | None => rollback_with (USB_RIGHT_RDB_EXECUTE_FAILTURE, infos)
      | Some resultSet =>
          ret ← Commit;
          if ret <? USB_RIGHT_OK then rollback_with (ret, infos)
          else mret (GetResultRightRecordEx table0 resultSet infos)
      end.

(** [usb_right_db_helper.cpp:163-180] [UsbRightDbHelper::QueryRightRecord] *)
Definition QueryRightRecord (uid : Z) (deviceName bundleName tokenId : string)
    : list UsbRightAppInfo → ST db (Z * list UsbRightAppInfo) :=
  QueryAndGetResult [UidIs uid; DeviceIs deviceName; BundleIs bundleName; TokenIs tokenId] [].

(** [usb_right_db_helper.cpp:182-190] [UsbRightDbHelper::QueryUserRightRecord] *)
Definition QueryUserRightRecord (uid : Z) : list UsbRightAppInfo → ST db (Z * list UsbRightAppInfo) :=
  QueryAndGetResult [UidIs uid] [].

(** [usb_right_db_helper.cpp:192-201] [UsbRightDbHelper::QueryDeviceRightRecord] *)
Definition QueryDeviceRightRecord (uid : Z) (deviceName : string)
    : list UsbRightAppInfo → ST db (Z * list UsbRightAppInfo) :=
  QueryAndGetResult [UidIs uid; DeviceIs deviceName] [].

(** [usb_right_db_helper.cpp:203-212] [UsbRightDbHelper::QueryAppRightRecord] *)
Definition QueryAppRightRecord (uid : Z) (bundleName : string)
    : list UsbRightAppInfo → ST db (Z * list UsbRightAppInfo) :=
  QueryAndGetResult [UidIs uid; BundleIs bundleName] [].

(** [usb_right_db_helper.cpp:262-272] [UsbRightDbHelper::QueryAndGetResultColumnValues] [false] when the cursor fails; the strings read so far *)
Fixpoint read_strings (resultSet : ResultSet) (columnIndex i : Z) (n : nat)
    (columnValues : list string) : bool * list string :=
  match n with
  | O => (true, columnValues)
  | Datatypes.S n =>
      if negb (GoToRow resultSet i) then (false, columnValues)
      else
        let columnValues := match GetString resultSet i columnIndex with
                            | Some tempStr => columnValues ++ [tempStr]
                            | None => columnValues
                            end in
        if IsEnded resultSet i then (true, columnValues)
        else read_strings resultSet columnIndex (i + 1) n columnValues
  end.

(** [usb_right_db_helper.cpp:232-280] [UsbRightDbHelper::QueryAndGetResultColumnValues] *)
Definition QueryAndGetResultColumnValues (rdbPredicates : clause) (columns : list string)
    (columnName : string) (columnValues : list string) : ST db (Z * list string) :=
  present ← gets rightDatabase_;
  if negb present then mret (USB_RIGHT_RDB_EXECUTE_FAILTURE, columnValues)
  else
    ret ← BeginTransaction;
    if ret <? USB_RIGHT_OK then mret (ret, columnValues)
    else
      resultSet ← Query rdbPredicates columns true;
      match resultSet with
      | None => rollback_with (USB_RIGHT_RDB_EXECUTE_FAILTURE, columnValues)
      | Some resultSet =>
          ret ← Commit;
          if ret <? USB_RIGHT_OK then rollback_with (ret, columnValues)
          else
            mret match GetRowCount resultSet, GetColumnIndex resultSet columnName with
                 | Some rowCount, Some columnIndex =>
                     match read_strings resultSet columnIndex 0 (Z.to_nat rowCount) columnValues with
                     | (true, columnValues) => (i32 (Z.of_nat (length columnValues)), columnValues)
                     | (false, columnValues) => (USB_RIGHT_RDB_EXECUTE_FAILTURE, columnValues)
                     end
                 | _, _ => (USB_RIGHT_RDB_EXECUTE_FAILTURE, columnValues)
                 end
      end.

(** [usb_right_db_helper.cpp:214-221] [UsbRightDbHelper::QueryRightRecordUids] *)
Definition QueryRightRecordUids : list string → ST db (Z * list string) :=
  QueryAndGetResultColumnValues [] ["uid"] "uid".

(** [usb_right_db_helper.cpp:223-230] [UsbRightDbHelper::QueryRightRecordApps] *)
Definition QueryRightRecordApps (uid : Z) : list string → ST db (Z * list string) :=
  QueryAndGetResultColumnValues [UidIs uid] ["bundleName"] "bundleName".

(** [usb_right_db_helper.cpp:282-318] [UsbRightDbHelper::UpdateRightRecord] *)
Definition UpdateRightRecord (_ : Z) (deviceName bundleName : string) (info : UsbRightAppInfo) : ST db Z :=
  present ← gets rightDatabase_;
  if negb present then mret USB_RIGHT_RDB_EXECUTE_FAILTURE
  else
    ret ← BeginTransaction;
    if ret <? USB_RIGHT_OK then mret ret
    else
      r ← Update (bucket deviceName bundleName None info)
            [UidIs (uid info); DeviceIs deviceName; BundleIs bundleName] 0;
      if r.1 <? USB_RIGHT_OK then rollback_with r.1
      else
        ret ← Commit;
        if ret <? USB_RIGHT_OK then rollback_with ret else mret ret.

(** [usb_right_db_helper.cpp:320-350] [UsbRightDbHelper::DeleteAndNoOtherOperation] *)
Definition DeleteAndNoOtherOperation (whereClause : clause) : ST db Z :=
  present ← gets rightDatabase_;
  if negb present then mret USB_RIGHT_RDB_EXECUTE_FAILTURE
  else
    ret ← BeginTransaction;
    if ret <? USB_RIGHT_OK then mret ret
    else
      r ← Delete whereClause 0;
      if r.1 <? USB_RIGHT_OK then rollback_with r.1
      else
        ret ← Commit;
        ret ← (if ret <? USB_RIGHT_OK then rollback_with ret else mret ret);
        mret (if r.2 <=? 0 then USB_RIGHT_RDB_EMPTY else ret).

(** [usb_right_db_helper.cpp:352-375] [UsbRightDbHelper::DeleteAndNoOtherOperation] *)
Definition DeleteAndNoOtherOperation_predicates (rdbPredicates : clause) : ST db Z :=
  present ← gets rightDatabase_;
  if negb present then mret USB_RIGHT_RDB_EXECUTE_FAILTURE
  else
    ret ← BeginTransaction;
    if ret <? USB_RIGHT_OK then mret ret
    else
      ret ← Delete_predicates rdbPredicates;
      if ret <? USB_RIGHT_OK then rollback_with ret
      else
        ret ← Commit;
        if ret <? USB_RIGHT_OK then rollback_with ret else mret ret.

(** [usb_right_db_helper.cpp:377-388] [UsbRightDbHelper::DeleteRightRecord] *)
Definition DeleteRightRecord (uid : Z) (deviceName bundleName tokenId : string) : ST db Z :=
  DeleteAndNoOtherOperation
    [UidIs uid; DeviceIs deviceName; BundleIs bundleName; TokenIs tokenId].

(** [usb_right_db_helper.cpp:390-400] [UsbRightDbHelper::DeleteDeviceRightRecord] *)
Definition DeleteDeviceRightRecord (uid : Z) (deviceName : string) : ST db Z :=
  DeleteAndNoOtherOperation [UidIs uid; DeviceIs deviceName].

(** [usb_right_db_helper.cpp:402-412] [UsbRightDbHelper::DeleteAppRightRecord] *)
Definition DeleteAppRightRecord (uid : Z) (bundleName : string) : ST db Z :=
  DeleteAndNoOtherOperation [UidIs uid; BundleIs bundleName].

(** [usb_right_db_helper.cpp:414-424] [UsbRightDbHelper::DeleteAppsRightRecord] *)
Definition DeleteAppsRightRecord (uid : Z) (bundleNames : list string) : ST db Z :=
  DeleteAndNoOtherOperation_predicates [UidIs uid; BundleIn bundleNames].

(** [usb_right_db_helper.cpp:426-436] [UsbRightDbHelper::DeleteUidRightRecord] *)
Definition DeleteUidRightRecord (uid : Z) : ST db Z := DeleteAndNoOtherOperation [UidIs uid].

(** [usb_right_db_helper.cpp:438-453] [UsbRightDbHelper::DeleteNormalExpiredRightRecord] *)
Definition DeleteNormalExpiredRightRecord (uid expiredTime : Z) : ST db Z :=
  let relativeExpiredTime :=
    if expiredTime <=? USB_RIGHT_VALID_PERIOD_SET then 0
    else expiredTime - USB_RIGHT_VALID_PERIOD_SET in
  DeleteAndNoOtherOperation
    [UidIs uid; RequestBefore relativeExpiredTime;
     PeriodNotIn [USB_RIGHT_VALID_PERIOD_MIN; USB_RIGHT_VALID_PERIOD_MAX]].

(** [usb_right_db_helper.cpp:455-465] [UsbRightDbHelper::DeleteValidPeriodRightRecord] *)
Definition DeleteValidPeriodRightRecord (validPeriod : Z) (deviceName : string) : ST db Z :=
  DeleteAndNoOtherOperation [PeriodIs validPeriod; DeviceIs deviceName].

(** [usb_right_db_helper.cpp:596-628] [UsbRightDbHelper::CheckIfNeedUpdateEx] the result and [isUpdate] *)
Definition CheckIfNeedUpdateEx (isUpdate : bool) (uid : Z) (deviceName bundleName tokenId : string)
    : ST db (Z * bool) :=
  present ← gets rightDatabase_;
  if negb present then mret (USB_RIGHT_RDB_EXECUTE_FAILTURE, isUpdate)
  else
    resultSet ← Query [UidIs uid; DeviceIs deviceName; BundleIs bundleName; TokenIs tokenId] [] false;
    match resultSet with
    | None => rollback_with (USB_RIGHT_RDB_EXECUTE_FAILTURE, isUpdate)
    | Some resultSet =>
        match GetRowCount resultSet with
        | None => rollback_with (USB_RIGHT_RDB_EXECUTE_FAILTURE, isUpdate)
        | Some rowCount => mret (USB_RIGHT_OK, 0 <? rowCount)
        end
    end.

(** [usb_right_db_helper.cpp:630-662] [UsbRightDbHelper::AddOrUpdateRightRecordEx] the row id of an insertion is narrowed to [int32_t] *)
Definition AddOrUpdateRightRecordEx (isUpdate : bool) (deviceName bundleName tokenId : string)
    (info : UsbRightAppInfo) : ST db Z :=
  present ← gets rightDatabase_;
  if negb present then mret USB_RIGHT_RDB_EXECUTE_FAILTURE
  else
    let v := bucket deviceName bundleName (Some tokenId) info in
    ret ← (if isUpdate then
             r ← Update v [UidIs (uid info); DeviceIs deviceName; BundleIs bundleName;
                           TokenIs tokenId] 0;
             mret r.1
           else r ← Insert v; mret (i32 r));
    if ret <? USB_RIGHT_OK then rollback_with ret else mret ret.

(** [usb_right_db_helper.cpp:564-594] [UsbRightDbHelper::AddOrUpdateRightRecord] *)
Definition AddOrUpdateRightRecord (uid : Z) (deviceName bundleName tokenId : string)
    (info : UsbRightAppInfo) : ST db Z :=
  present ← gets rightDatabase_;
  if negb present then mret USB_RIGHT_RDB_EXECUTE_FAILTURE
  else
    ret ← BeginTransaction;
    if ret <? USB_RIGHT_OK then mret ret
    else
      r ← CheckIfNeedUpdateEx false uid deviceName bundleName tokenId;
      if r.1 <? USB_RIGHT_OK then mret r.1
      else
        ret ← AddOrUpdateRightRecordEx r.2 deviceName bundleName tokenId info;
        if ret <? USB_RIGHT_OK then mret ret
        else
          ret ← Commit;
          if ret <? USB_RIGHT_OK then rollback_with ret else mret ret.

(** [usb_right_db_helper.cpp:664-695] [UsbRightDbHelper::QueryRightRecordCount] *)
Definition QueryRightRecordCount : ST db Z :=
  present ← gets rightDatabase_;
  if negb present then mret USB_RIGHT_RDB_EXECUTE_FAILTURE
  else
    ret ← BeginTransaction;
    if ret <? USB_RIGHT_OK then mret ret
    else
      resultSet ← Query [] [] false;
      match resultSet with
      | None => rollback_with USB_RIGHT_RDB_EXECUTE_FAILTURE
      | Some resultSet =>
          ret ← Commit;
          if ret <? USB_RIGHT_OK then rollback_with ret
          else mret (default USB_RIGHT_RDB_EXECUTE_FAILTURE (GetRowCount resultSet))
      end.

(** [usb_right_db_helper.cpp:46-63] [UsbRightDbHelper::IsRecordExpired] *)
Definition IsRecordExpired (uid : Z) (deviceName bundleName tokenId : string) (expiredTime : Z)
    : ST db bool :=
  r ← QueryRightRecord uid deviceName bundleName tokenId [];
  mret (if r.1 <=? 0 then true else forallb (λ info, IsInfoExpired info expiredTime) r.2).
End DataBase.

(** ** What the store promises

    The laws of a transactional store: [rows] is what its queries see, [durable] what
    survives; inside a transaction only a commit changes the durable rows.  Nothing says
    that an operation succeeds. *)

(** The result set answers about the rows [l], column by column, or fails. *)
Record lists (rs : ResultSet) (l : list row) : Prop := {
  lists_count n : GetRowCount rs = Some n → n = Z.of_nat (length l);
  lists_names names : GetAllColumnNames rs = Some names → names = TABLE_COLUMNS;
  lists_int i c v : GetInt rs i c = Some v → 0 <= c →
    ∃ r name, l !! Z.to_nat i = Some r ∧ TABLE_COLUMNS !! Z.to_nat c = Some name ∧
              column_long name r = Some v;
  lists_long i c v : GetLong rs i c = Some v → 0 <= c →
    ∃ r name, l !! Z.to_nat i = Some r ∧ TABLE_COLUMNS !! Z.to_nat c = Some name ∧
              column_long name r = Some v;
}.

Class RdbLaws (S : Type) `{RdbStore S} := {
  rows : S → list row;
  durable : S → list row;
  in_tx : S → bool;
  begin_law s r s' : rdb_BeginTransaction s = (r, s') →
    rows s' = rows s ∧ durable s' = durable s ∧
    in_tx s' = if r =? E_OK then true else in_tx s;
  commit_law s r s' : rdb_Commit s = (r, s') →
    rows s' = rows s ∧ durable s' = (if r =? E_OK then rows s else durable s) ∧
    in_tx s' = if r =? E_OK then false else in_tx s;
  rollback_law s r s' : rdb_RollBack s = (r, s') →
    durable s' = durable s ∧ rows s' = (if r =? E_OK then durable s else rows s) ∧
    in_tx s' = if r =? E_OK then false else in_tx s;
  insert_law v s r id s' : rdb_Insert v s = ((r, id), s') → in_tx s = true →
    durable s' = durable s ∧ in_tx s' = true ∧
    rows s' = if r =? E_OK then rows s ++ [row_of id v] else rows s;
  update_law v c s r n s' : rdb_Update v c s = ((r, n), s') → in_tx s = true →
    durable s' = durable s ∧ in_tx s' = true ∧
    rows s' = if r =? E_OK then (λ x, if matches c x then update_row v x else x) <$> rows s
              else rows s;
  delete_law c s r n s' : rdb_Delete c s = ((r, n), s') → in_tx s = true →
    durable s' = durable s ∧ in_tx s' = true ∧
    rows s' = (if r =? E_OK then filter (λ x, matches c x = false) (rows s) else rows s) ∧
    (r = E_OK → n = Z.of_nat (length (filter (λ x, matches c x = true) (rows s))));
  query_law c cols distinct s o s' : rdb_Query c cols distinct s = (o, s') →
    rows s' = rows s ∧ durable s' = durable s ∧ in_tx s' = in_tx s ∧
    (cols = [] → distinct = false → ∀ rs, o = Some rs →
       lists rs (filter (λ x, matches c x = true) (rows s)));
}.

Section StoreLaws.
Context {S : Type} `{RdbLaws S} (table0 : UsbRightTableInfo).
#[local] Abbreviation db := (@db S).
Implicit Types (s : db).

(** What the theorems see of a database: the visible rows, the durable ones, and whether
    a transaction is open. *)
Definition view s : list row * list row * bool :=
  (rows (store s), durable (store s), in_tx (store s)).

Lemma view_durable s R D t : view s = (R, D, t) → durable (store s) = D.
Proof. by intros [= <- <- <-]. Qed.

(** The error codes of the wrapper are negative. *)
Ltac codes := unfold USB_RIGHT_OK, USB_RIGHT_RDB_NO_INIT, USB_RIGHT_RDB_EXECUTE_FAILTURE,
  USB_RIGHT_RDB_EMPTY in *; lia.

Lemma BeginTransaction_inv s r s' R D t :
  BeginTransaction s = (r, s') → view s = (R, D, t) →
  r = USB_RIGHT_OK ∧ view s' = (R, D, true) ∨ r < USB_RIGHT_OK ∧ view s' = (R, D, t).
Proof.
  intros Hr Hv. injection Hv as <- <- <-. revert Hr. unfold BeginTransaction, on_store. st_unfold.
  destruct (store_ s); simpl; [|intros [= <- <-]; right; split; [codes|done]].
  destruct (rdb_BeginTransaction (store s)) as [e t'] eqn:E. apply begin_law in E as (E1 & E2 & E3).
  intros [= <- <-]. unfold view. simpl. rewrite E1, E2, E3.
  destruct (e =? E_OK); simpl; [by left|right; split; [codes|done]].
Qed.

Lemma Commit_inv s r s' R D t :
  Commit s = (r, s') → view s = (R, D, t) →
  r = USB_RIGHT_OK ∧ view s' = (R, R, false) ∨ r < USB_RIGHT_OK ∧ view s' = (R, D, t).
Proof.
  intros Hr Hv. injection Hv as <- <- <-. revert Hr. unfold Commit, on_store. st_unfold.
  destruct (store_ s); simpl; [|intros [= <- <-]; right; split; [codes|done]].
  destruct (rdb_Commit (store s)) as [e t'] eqn:E. apply commit_law in E as (E1 & E2 & E3).
  intros [= <- <-]. unfold view. simpl. rewrite E1, E2, E3.
  destruct (e =? E_OK); simpl; [by left|right; split; [codes|done]].
Qed.

(** A rollback, whatever it returns, leaves the durable rows. *)
Lemma rollback_with_inv {A} (a : A) s b s' R D t :
  rollback_with a s = (b, s') → view s = (R, D, t) →
  b = a ∧ ∃ R' t', view s' = (R', D, t') ∧ (R' = R ∨ R' = D).
Proof.
  intros Hr Hv. injection Hv as <- <- <-. revert Hr. unfold rollback_with, RollBack, on_store. st_unfold.
  destruct (store_ s); simpl;
    [|intros [= <- <-]; split; [done|exists (rows (store s)), (in_tx (store s)); by auto]].
  destruct (rdb_RollBack (store s)) as [e t'] eqn:E. apply rollback_law in E as (E1 & E2 & _).
  intros [= <- <-]. split; [done|]. unfold view. simpl. rewrite E1.
  exists (rows t'), (in_tx t'). split; [done|]. rewrite E2. destruct (e =? E_OK); auto.
Qed.

Lemma Insert_inv v s r s' R D :
  Insert v s = (r, s') → view s = (R, D, true) →
  (i32 r < USB_RIGHT_OK ∧ view s' = (R, D, true)) ∨ view s' = (R ++ [row_of r v], D, true).
Proof.
  intros Hr Hv. injection Hv as <- <- Ht. revert Hr. unfold Insert, on_store. st_unfold.
  destruct (store_ s); simpl; [|intros [= <- <-]; left; unfold view; rewrite Ht; split; [by vm_compute|done]].
  destruct (rdb_Insert v (store s)) as [[e id] t'] eqn:E. simpl.
  apply insert_law in E as (E1 & E2 & E3); [|done].
  intros [= <- <-]. unfold view. simpl. rewrite E1, E2, E3.
  destruct (e =? E_OK); simpl; [by right|left; split; [by vm_compute|done]].
Qed.

Lemma Update_inv v c n s r s' R D :
  Update v c n s = (r, s') → view s = (R, D, true) →
  r.1 = USB_RIGHT_OK ∧ view s' = ((λ x, if matches c x then update_row v x else x) <$> R, D, true) ∨
  r.1 < USB_RIGHT_OK ∧ view s' = (R, D, true).
Proof.
  intros Hr Hv. injection Hv as <- <- Ht. revert Hr. unfold Update, on_store. st_unfold.
  destruct (store_ s); simpl;
    [|intros [= <- <-]; right; unfold view; rewrite Ht; split; [simpl; codes|done]].
  destruct (rdb_Update v c (store s)) as [[e id] t'] eqn:E. simpl.
  apply update_law in E as (E1 & E2 & E3); [|done].
  intros [= <- <-]. unfold view. simpl. rewrite E1, E2, E3.
  destruct (e =? E_OK); simpl; [by left|right; split; [codes|done]].
Qed.

Lemma Delete_inv c n s r s' R D :
  Delete c n s = (r, s') → view s = (R, D, true) →
  r.1 = USB_RIGHT_OK ∧ view s' = (filter (λ x, matches c x = false) R, D, true) ∧
    r.2 = Z.of_nat (length (filter (λ x, matches c x = true) R)) ∨
  r.1 < USB_RIGHT_OK ∧ view s' = (R, D, true).
Proof.
  intros Hr Hv. injection Hv as <- <- Ht. revert Hr. unfold Delete, on_store. st_unfold.
  destruct (store_ s); simpl;
    [|intros [= <- <-]; right; unfold view; rewrite Ht; split; [simpl; codes|done]].
  destruct (rdb_Delete c (store s)) as [[e k] t'] eqn:E. simpl.
  apply delete_law in E as (E1 & E2 & E3 & E4); [|done].
  intros [= <- <-]. unfold view. simpl. rewrite E1, E2, E3.
  destruct (e =? E_OK) eqn:Ee; simpl; [left|right; split; [codes|done]].
  bsimp. split_and!; [done|done|by apply E4].
Qed.

Lemma Delete_predicates_inv c s r s' R D :
  Delete_predicates c s = (r, s') → view s = (R, D, true) →
  r = USB_RIGHT_OK ∧ view s' = (filter (λ x, matches c x = false) R, D, true) ∨
  r < USB_RIGHT_OK ∧ view s' = (R, D, true).
Proof.
  intros Hr Hv. injection Hv as <- <- Ht. revert Hr. unfold Delete_predicates, on_store. st_unfold.
  destruct (store_ s); simpl;
    [|intros [= <- <-]; right; unfold view; rewrite Ht; split; [simpl; codes|done]].
  destruct (rdb_Delete c (store s)) as [[e k] t'] eqn:E. simpl.
  apply delete_law in E as (E1 & E2 & E3 & E4); [|done].
  intros [= <- <-]. unfold view. simpl. rewrite E1, E2, E3.
  destruct (e =? E_OK) eqn:Ee; simpl; [by left|right; split; [codes|done]].
Qed.

Lemma Query_inv c s o s' R D t :
  Query c [] false s = (o, s') → view s = (R, D, t) →
  view s' = (R, D, t) ∧ ∀ rs, o = Some rs → lists rs (filter (λ x, matches c x = true) R).
Proof.
  intros Hr Hv. injection Hv as <- <- <-. revert Hr.
  unfold Query, on_store. st_unfold. destruct (store_ s); simpl; [|by intros [= <- <-]].
  destruct (rdb_Query c [] false (store s)) as [e t'] eqn:E.
  apply query_law in E as (E1 & E2 & E3 & E4). intros [= <- <-]. unfold view. simpl.
  rewrite E1, E2, E3. split; [done|]. by apply E4.
Qed.

Lemma Query_view c cols distinct s o s' R D t :
  Query c cols distinct s = (o, s') → view s = (R, D, t) → view s' = (R, D, t).
Proof.
  intros Hr Hv. injection Hv as <- <- <-. revert Hr.
  unfold Query, on_store. st_unfold. destruct (store_ s); simpl; [|by intros [= <- <-]].
  destruct (rdb_Query c cols distinct (store s)) as [e t'] eqn:E.
  apply query_law in E as (E1 & E2 & E3 & E4). intros [= <- <-]. unfold view. simpl.
  by rewrite E1, E2, E3.
Qed.

(** Symbolic execution of a helper operation: run the next database call by its law. *)
Ltac db_call :=
  match goal with
  | Hv : view ?s = _ |- context [BeginTransaction ?s] =>
      let E := fresh in destruct (BeginTransaction s) as [? ?] eqn:E;
      pose proof (BeginTransaction_inv _ _ _ _ _ _ E Hv) as [[-> ?]|[? ?]]; clear E Hv
  | Hv : view ?s = _ |- context [Commit ?s] =>
      let E := fresh in destruct (Commit s) as [? ?] eqn:E;
      pose proof (Commit_inv _ _ _ _ _ _ E Hv) as [[-> ?]|[? ?]]; clear E Hv
  | Hv : view ?s = _ |- context [rollback_with ?a ?s] =>
      let E := fresh in destruct (rollback_with a s) as [? ?] eqn:E;
      pose proof (rollback_with_inv _ _ _ _ _ _ _ E Hv) as [-> (? & ? & ? & ?)]; clear E Hv
  | Hv : view ?s = _ |- context [Insert ?v ?s] =>
      let E := fresh in destruct (Insert v s) as [? ?] eqn:E;
      pose proof (Insert_inv _ _ _ _ _ _ E Hv) as [[? ?]|?]; clear E Hv
  | Hv : view ?s = _ |- context [Update ?v ?c ?n ?s] =>
      let E := fresh in destruct (Update v c n s) as [[? ?] ?] eqn:E;
      pose proof (Update_inv _ _ _ _ _ _ _ _ E Hv) as [[? ?]|[? ?]]; clear E Hv; simpl in *; subst
  | Hv : view ?s = _ |- context [Delete ?c ?n ?s] =>
      let E := fresh in destruct (Delete c n s) as [[? ?] ?] eqn:E;
      pose proof (Delete_inv _ _ _ _ _ _ _ E Hv) as [(? & ? & ?)|[? ?]]; clear E Hv; simpl in *; subst
  | Hv : view ?s = _ |- context [Delete_predicates ?c ?s] =>
      let E := fresh in destruct (Delete_predicates c s) as [? ?] eqn:E;
      pose proof (Delete_predicates_inv _ _ _ _ _ _ E Hv) as [[-> ?]|[? ?]]; clear E Hv
  | Hv : view ?s = _ |- context [Query ?c [] false ?s] =>
      let E := fresh in destruct (Query c [] false s) as [[?|] ?] eqn:E;
      pose proof (Query_inv _ _ _ _ _ _ _ E Hv) as [? ?]; clear E Hv
  | Hv : view ?s = _ |- context [Query ?c ?cols ?d ?s] =>
      let E := fresh in destruct (Query c cols d s) as [[?|] ?] eqn:E;
      pose proof (Query_view _ _ _ _ _ _ _ _ _ E Hv); clear E Hv
  end.

(** Decide the tests on result codes. *)
Ltac code_test :=
  match goal with
  | |- context [if ?a <? ?b then _ else _] =>
      first [rewrite (proj2 (Z.ltb_lt a b)) by codes | rewrite (proj2 (Z.ltb_ge a b)) by codes]
  end.

Ltac db_branch :=
  match goal with
  | |- context [negb (rightDatabase_ ?s)] => destruct (rightDatabase_ s); simpl
  | |- context [match GetRowCount ?rs with _ => _ end] => destruct (GetRowCount rs) eqn:?
  end.

(** The operation has returned: a failure left the durable rows. *)
Ltac db_failed :=
  match goal with
  | |- (_, _) = (_, _) → _ => intros [= <- <-]; code_test; by eapply view_durable
  end.

Ltac db_run := repeat first [db_failed | db_call | code_test | db_branch | progress simpl].

Definition key_clause (uid : Z) (deviceName bundleName tokenId : string) : clause :=
  [UidIs uid; DeviceIs deviceName; BundleIs bundleName; TokenIs tokenId].

(** The table with a right granted: the records of its key are overwritten, or one is
    added. *)
Definition granted (c : clause) (id : Z) (v : values) (R : list row) : list row :=
  if existsb (matches c) R then (λ x, if matches c x then update_row v x else x) <$> R
  else R ++ [row_of id v].

Lemma existsb_filter c R :
  existsb (matches c) R = (0 <? Z.of_nat (length (filter (λ x, matches c x = true) R))).
Proof.
  induction R as [|x R IH]; simpl; [done|]. destruct (matches c x) eqn:E; simpl.
  - rewrite filter_cons_True by done. simpl. lia.
  - rewrite IH. by rewrite filter_cons_False by (rewrite E; done).
Qed.

Lemma AddOrUpdateRightRecord_inv deviceName bundleName tokenId info s r s' R
    (Hv : view s = (R, R, false))
    (Hr : AddOrUpdateRightRecord (uid info) deviceName bundleName tokenId info s = (r, s')) :
  let c := key_clause (uid info) deviceName bundleName tokenId in
  let v := bucket deviceName bundleName (Some tokenId) info in
  if r <? USB_RIGHT_OK then durable (store s') = R
  else ∃ id, view s' = (granted c id v R, granted c id v R, false).
Proof.
  intros c v. revert Hr. unfold AddOrUpdateRightRecord, CheckIfNeedUpdateEx, AddOrUpdateRightRecordEx.
  st_unfold. destruct (rightDatabase_ s).
  all: db_run.
  assert (Hz : (0 <? z) = existsb (matches c) R).
  { rewrite existsb_filter. f_equal.
    match goal with Hl : ∀ rs, Some ?r = Some rs → _ |- _ => by apply (lists_count _ _ (Hl r eq_refl)) end. }
  unfold granted. rewrite Hz. fold c v. destruct (existsb (matches c) R); db_run.
  - intros [= <- <-]. code_test. by exists 0.
  - match goal with |- context [i32 ?id <? _] => destruct (i32 id <? USB_RIGHT_OK) eqn:Ei end;
      bsimp; db_run. intros [= <- <-]. code_test. by eexists.
Qed.

Lemma filter_split c R :
  length (filter (λ x, matches c x = true) R) = 0%nat → filter (λ x, matches c x = false) R = R.
Proof.
  induction R as [|x R IH]; [done|]. destruct (matches c x) eqn:E.
  - by rewrite filter_cons_True.
  - rewrite filter_cons_False by (by rewrite E). rewrite filter_cons_True by done.
    intros Hl. by rewrite IH.
Qed.

Lemma filter_length_disj c R :
  (length (filter (λ x, matches c x = true) R) + length (filter (λ x, matches c x = false) R) = length R)%nat.
Proof.
  induction R as [|x R IH]; [done|]. destruct (matches c x) eqn:E.
  - rewrite filter_cons_True by done. rewrite filter_cons_False by (by rewrite E). simpl. lia.
  - rewrite filter_cons_False by (by rewrite E). rewrite filter_cons_True by done. simpl. lia.
Qed.

Lemma DeleteAndNoOtherOperation_inv c s r s' R
    (Hv : view s = (R, R, false)) (Hr : DeleteAndNoOtherOperation c s = (r, s')) :
  let R' := filter (λ x, matches c x = false) R in
  if r =? USB_RIGHT_OK then view s' = (R', R', false) ∧ R' ≠ R
  else durable (store s') = R.
Proof.
  intros R'. assert (Hsame : r < USB_RIGHT_OK → durable (store s') = R →
    if r =? USB_RIGHT_OK then view s' = (R', R', false) ∧ R' ≠ R else durable (store s') = R).
  { intros. by rewrite (proj2 (Z.eqb_neq _ _)) by codes. }
  revert Hr Hsame. unfold DeleteAndNoOtherOperation. st_unfold. destruct (rightDatabase_ s); simpl.
  2: { intros [= <- <-] Hsame. apply Hsame; [codes|by eapply view_durable]. }
  db_run; try (intros [= <- <-] Hsame; apply Hsame; [codes|by eapply view_durable]).
  - intros [= <- <-] Hsame. destruct (Z.of_nat _ <=? 0) eqn:Ez; simpl.
    + apply Hsame; [codes|].
      match goal with Hw : view ?d = _ |- durable (store ?d) = _ => rewrite (view_durable _ _ _ _ Hw) end.
      apply filter_split. lia.
    + split; [done|]. intros HR. bsimp. apply (f_equal length) in HR. unfold R' in HR.
      pose proof (filter_length_disj c R). lia.
  - intros [= <- <-] Hsame. destruct (Z.of_nat _ <=? 0); apply Hsame; try codes; by eapply view_durable.
Qed.

Lemma DeleteAndNoOtherOperation_code c s r s' R D t :
  view s = (R, D, t) → DeleteAndNoOtherOperation c s = (r, s') → r <= USB_RIGHT_OK.
Proof.
  intros Hv. unfold DeleteAndNoOtherOperation. st_unfold. destruct (rightDatabase_ s).
  all: db_run; intros [= <- <-]; repeat case_if; codes.
Qed.

(** *** Removing never adds *)

(** No visible or durable record is outside [R0]. *)
Definition within (R0 : list row) s : Prop :=
  (∀ x, x ∈ rows (store s) → x ∈ R0) ∧ (∀ x, x ∈ durable (store s) → x ∈ R0).

Lemma within_view R0 s R D t :
  view s = (R, D, t) → within R0 s ↔ (∀ x, x ∈ R → x ∈ R0) ∧ (∀ x, x ∈ D → x ∈ R0).
Proof. by intros [= <- <- <-]. Qed.

Ltac within_end :=
  match goal with
  | Hv : view ?s = _ |- (_, ?s) = (_, _) → _ =>
      intros [= <- <-]; rewrite (within_view _ _ _ _ _ Hv)
  end;
  repeat match goal with Ho : _ ∨ _ |- _ => destruct Ho; subst end;
  split; intros ?; rewrite ?list_elem_of_filter; intuition auto.

Lemma within_Delete R0 c : preserves (within R0) (DeleteAndNoOtherOperation c).
Proof.
  intros s Hw. destruct (view s) as [[R D] t] eqn:Hv. rewrite (within_view _ _ _ _ _ Hv) in Hw.
  destruct Hw as [HR HD]. destruct (DeleteAndNoOtherOperation c s) as [r s'] eqn:E.
  unfold after. rewrite E. simpl. revert E.
  unfold DeleteAndNoOtherOperation. st_unfold. destruct (rightDatabase_ s).
  all: repeat first [within_end | db_call | code_test | db_branch | progress simpl].
Qed.

Lemma within_Delete_predicates R0 c : preserves (within R0) (DeleteAndNoOtherOperation_predicates c).
Proof.
  intros s Hw. destruct (view s) as [[R D] t] eqn:Hv. rewrite (within_view _ _ _ _ _ Hv) in Hw.
  destruct Hw as [HR HD]. destruct (DeleteAndNoOtherOperation_predicates c s) as [r s'] eqn:E.
  unfold after. rewrite E. simpl. revert E.
  unfold DeleteAndNoOtherOperation_predicates. st_unfold. destruct (rightDatabase_ s).
  all: repeat first [within_end | db_call | code_test | db_branch | progress simpl].
Qed.

Lemma within_QueryAndGetResult R0 c cols infos :
  preserves (within R0) (QueryAndGetResult table0 c cols infos).
Proof.
  intros s Hw. destruct (view s) as [[R D] t] eqn:Hv. rewrite (within_view _ _ _ _ _ Hv) in Hw.
  destruct Hw as [HR HD]. destruct (QueryAndGetResult table0 c cols infos s) as [r s'] eqn:E.
  unfold after. rewrite E. simpl. revert E.
  unfold QueryAndGetResult. st_unfold. destruct (rightDatabase_ s).
  all: repeat first [within_end | db_call | code_test | db_branch | progress simpl].
Qed.

Lemma within_QueryColumn R0 c cols name values :
  preserves (within R0) (QueryAndGetResultColumnValues c cols name values).
Proof.
  intros s Hw. destruct (view s) as [[R D] t] eqn:Hv. rewrite (within_view _ _ _ _ _ Hv) in Hw.
  destruct Hw as [HR HD]. destruct (QueryAndGetResultColumnValues c cols name values s) as [r s'] eqn:E.
  unfold after. rewrite E. simpl. revert E.
  unfold QueryAndGetResultColumnValues. st_unfold. destruct (rightDatabase_ s).
  all: repeat first [within_end | db_call | code_test | progress simpl].
Qed.

(** *** Looking up *)

(** The record a row is read as. *)
Definition info_of (x : row) : UsbRightAppInfo :=
  mk_info (u32 (row_id x)) (row_uid x) (u64 (row_installTime x)) (u64 (row_updateTime x))
    (u64 (row_requestTime x)) (u64 (row_validPeriod x)).

Lemma table_columns_names t :
  table_columns 0 TABLE_COLUMNS t = mk_table (rowCount t) (columnCount t) 0 1 2 3 4 5 6 7.
Proof. reflexivity. Qed.

(** Both accessors read a column of a row of the result. *)
Lemma read_column rs l i c v : lists rs l → 0 <= c →
  GetInt rs i c = Some v ∨ GetLong rs i c = Some v →
  ∃ x name, l !! Z.to_nat i = Some x ∧ TABLE_COLUMNS !! Z.to_nat c = Some name ∧
            column_long name x = Some v.
Proof. intros Hl Hc [Hv|Hv]; [by eapply lists_int|by eapply lists_long]. Qed.

Lemma read_info_sound rs l n m d b i info :
  lists rs l → read_info rs (mk_table n m 0 1 2 3 4 5 d b) i = Some info →
  ∃ x, l !! Z.to_nat i = Some x ∧ info = info_of x.
Proof.
  intros Hl. unfold read_info. cbn [primaryKeyIndex uidIndex installTimeIndex updateTimeIndex
    requestTimeIndex validPeriodIndex]. intros Hi.
  apply bind_Some in Hi as (k & Hk & Hi). apply bind_Some in Hi as (u & Hu & Hi).
  apply bind_Some in Hi as (it & Hit & Hi). apply bind_Some in Hi as (ut & Hut & Hi).
  apply bind_Some in Hi as (rt & Hrt & Hi). apply bind_Some in Hi as (vp & Hvp & [= <-]).
  apply (or_introl (B := GetLong rs i 0 = Some k)) in Hk.
  apply (or_introl (B := GetLong rs i 1 = Some u)) in Hu.
  apply (or_intror (A := GetInt rs i 2 = Some it)) in Hit.
  apply (or_intror (A := GetInt rs i 3 = Some ut)) in Hut.
  apply (or_intror (A := GetInt rs i 4 = Some rt)) in Hrt.
  apply (or_intror (A := GetInt rs i 5 = Some vp)) in Hvp.
  repeat match goal with
    | Hc : _ ∨ _ |- _ => apply (read_column rs l i _ _ Hl) in Hc as (? & ? & ? & ? & ?); [|lia]
    end.
  simplify_eq/=. unfold column_long in *. simplify_eq/=. by eexists.
Qed.

Lemma read_rows_sound rs l m d b : ∀ n i infos info k,
  lists rs l → info ∈ read_rows rs (mk_table k m 0 1 2 3 4 5 d b) i n infos →
  info ∈ infos ∨ ∃ x, x ∈ l ∧ info = info_of x.
Proof.
  induction n as [|n IH]; intros i infos info k Hl; cbn [read_rows]; [by left|].
  case_if; [|by left].
  assert (Hstep : ∀ info, info ∈ match read_info rs (mk_table k m 0 1 2 3 4 5 d b) i with
      | Some info => infos ++ [info] | None => infos end →
      info ∈ infos ∨ ∃ x, x ∈ l ∧ info = info_of x).
  { intros info'. destruct (read_info _ _ _) as [y|] eqn:Ey; [|by left].
    intros [Hin|Hin%list_elem_of_singleton]%elem_of_app; [by left|right]. subst.
    destruct (read_info_sound _ _ _ _ _ _ _ _ Hl Ey) as (x & Hx & ->).
    exists x. split; [|done]. by eapply list_elem_of_lookup_2. }
  case_if; [apply Hstep|]. intros [Hin|Hin]%IH; [by apply Hstep|by right|done].
Qed.

Lemma GetResultRightRecordEx_sound t rs l infos r infos' info :
  lists rs l → GetResultRightRecordEx t rs infos = (r, infos') → info ∈ infos' →
  info ∈ infos ∨ ∃ x, x ∈ l ∧ info = info_of x.
Proof.
  intros Hl. unfold GetResultRightRecordEx, GetResultSetTableInfo.
  destruct (GetRowCount rs) as [n|]; [|by intros [= <- <-]; left].
  destruct (GetColumnCount rs) as [m|]; [|by intros [= <- <-]; left].
  destruct (GetAllColumnNames rs) as [names|] eqn:En; [|by intros [= <- <-]; left].
  apply (lists_names _ _ Hl) in En as ->. rewrite table_columns_names. simpl.
  intros [= <- <-]. by apply read_rows_sound.
Qed.

Lemma IsRecordExpired_inv uid deviceName bundleName tokenId now s s' R D t
    (Hv : view s = (R, D, t))
    (Hr : IsRecordExpired table0 uid deviceName bundleName tokenId now s = (false, s')) :
  ∃ x, x ∈ R ∧ matches (key_clause uid deviceName bundleName tokenId) x = true ∧
       IsInfoExpired (info_of x) now = false.
Proof.
  revert Hr. unfold IsRecordExpired, QueryRightRecord, QueryAndGetResult. fold (key_clause uid deviceName bundleName tokenId).
  st_unfold. destruct (rightDatabase_ s); [|done]. db_run; try done.
  all: try (destruct (_ <=? 0) eqn:?; bsimp; [done|codes]).
  match goal with Hl : ∀ rs, Some ?r = Some rs → _ |- _ => specialize (Hl r eq_refl); rename Hl into Hlists end.
  destruct (GetResultRightRecordEx table0 _ []) as [n infos] eqn:Eg. simpl.
  destruct (n <=? 0); [done|]. intros [= (info & Hin & Hf)%forallb_false_exists _].
  apply (GetResultRightRecordEx_sound _ _ _ _ _ _ _ Hlists Eg) in Hin as [Hin|(x & Hx & ->)];
    [by apply not_elem_of_nil in Hin|].
  apply list_elem_of_filter in Hx as [Hm Hx]. by exists x.
Qed.

(** *** One record per right *)

(** The right a record grants. *)
Definition row_key (x : row) : Z * string * string * option string :=
  (row_uid x, row_deviceName x, row_bundleName x, row_tokenId x).
Definition unique_rights (R : list row) : Prop := NoDup (row_key <$> R).

Lemma matches_key u d b t x :
  matches (key_clause u d b t) x = true ↔ row_key x = (u, d, b, Some t).
Proof.
  unfold matches, row_key. simpl. destruct x as [? u' ? ? ? ? d' b' [t'|]]; simpl.
  - rewrite !andb_true_iff, Z.eqb_eq, !String.eqb_eq.
    split; [by intros (-> & -> & -> & -> & _)|by intros [= -> -> -> ->]].
  - rewrite !andb_true_iff. split; [by intros (_ & _ & _ & ?)|by intros [=]].
Qed.

Lemma granted_keys info d b t id R :
  let c := key_clause (uid info) d b t in
  row_key <$> granted c id (bucket d b (Some t) info) R =
    (row_key <$> R) ++ if existsb (matches c) R then [] else [(uid info, d, b, Some t)].
Proof.
  intros c. unfold granted. destruct (existsb _ _).
  - rewrite app_nil_r, <- list_fmap_compose. apply list_fmap_ext. intros _ x _. unfold compose.
    destruct (matches c x) eqn:E; [|done]. apply matches_key in E. by rewrite E.
  - by rewrite fmap_app.
Qed.

Lemma granted_unique info d b t id R :
  unique_rights R →
  unique_rights (granted (key_clause (uid info) d b t) id (bucket d b (Some t) info) R).
Proof.
  unfold unique_rights. rewrite granted_keys. intros HR. destruct (existsb _ R) eqn:E.
  - by rewrite app_nil_r.
  - apply NoDup_app. split_and!; [done| |apply NoDup_singleton].
    intros k Hk Hs. apply list_elem_of_singleton in Hs as ->.
    apply list_elem_of_fmap in Hk as (x & Hx & Hin).
    symmetry in Hx. apply matches_key in Hx.
    apply not_true_iff_false in E. apply E, existsb_exists. exists x.
    split; [by apply list_elem_of_In|done].
Qed.

(** The table never holds two records of one right, so the expiry of a right is the
    expiry of its one record: granting, whether it succeeds or fails, keeps the durable
    table free of duplicates. *)
Theorem AddOrUpdateRightRecord_unique deviceName bundleName tokenId info s r s' R
    (Hv : view s = (R, R, false)) (Hu : unique_rights R)
    (Hr : AddOrUpdateRightRecord (uid info) deviceName bundleName tokenId info s = (r, s')) :
  unique_rights (durable (store s')).
Proof.
  pose proof (AddOrUpdateRightRecord_inv _ _ _ _ _ _ _ _ Hv Hr) as Hs. simpl in Hs.
  destruct (r <? USB_RIGHT_OK); [by rewrite Hs|].
  destruct Hs as [id Hs]. rewrite (view_durable _ _ _ _ Hs). by apply granted_unique.
Qed.

(** Granting a right is all or nothing. A success makes exactly the granted table
    durable, with no transaction left open; any failure, of the transaction, the lookup,
    the write or the commit, leaves the durable table as it was. *)
Theorem AddOrUpdateRightRecord_atomic deviceName bundleName tokenId info s r s' R
    (Hv : view s = (R, R, false))
    (Hr : AddOrUpdateRightRecord (uid info) deviceName bundleName tokenId info s = (r, s')) :
  let c := key_clause (uid info) deviceName bundleName tokenId in
  let v := bucket deviceName bundleName (Some tokenId) info in
  if r <? USB_RIGHT_OK then durable (store s') = R
  else ∃ id, view s' = (granted c id v R, granted c id v R, false).
Proof. exact (AddOrUpdateRightRecord_inv _ _ _ _ _ _ _ _ Hv Hr). Qed.

(** Removing rights is all or nothing too. Success means exactly the matching records
    are gone, durably; every other answer, "nothing to remove" included, leaves the
    durable table as it was. *)
Theorem DeleteAndNoOtherOperation_atomic c s r s' R
    (Hv : view s = (R, R, false)) (Hr : DeleteAndNoOtherOperation c s = (r, s')) :
  let R' := filter (λ x, matches c x = false) R in
  if r =? USB_RIGHT_OK then view s' = (R', R', false) ∧ R' ≠ R
  else durable (store s') = R.
Proof. exact (DeleteAndNoOtherOperation_inv _ _ _ _ _ Hv Hr). Qed.

(** The lookup fails closed. When the helper says a right has not expired, the table
    holds a record of exactly that user, device, application and token that had not
    expired: no failure of the store, no unreadable column and no skipped row can grant
    one. *)
Theorem IsRecordExpired_sound uid deviceName bundleName tokenId now s s' R D t
    (Hv : view s = (R, D, t))
    (Hr : IsRecordExpired table0 uid deviceName bundleName tokenId now s = (false, s')) :
  ∃ x, x ∈ R ∧ row_key x = (uid, deviceName, bundleName, Some tokenId) ∧
       IsInfoExpired (info_of x) now = false.
Proof.
  destruct (IsRecordExpired_inv _ _ _ _ _ _ _ _ _ _ Hv Hr) as (x & Hx & Hm & He).
  exists x. split_and!; [done|by apply matches_key|done].
Qed.
End StoreLaws.

(** ** A store whose operations succeed *)

(** The result set of a list of rows, and of a list of texts. *)
Definition all_rows (l : list row) : ResultSet :=
  let column i c := x ← l !! Z.to_nat i; name ← TABLE_COLUMNS !! Z.to_nat c; column_long name x in
  {| GetRowCount := Some (Z.of_nat (length l));
     GetColumnCount := Some (Z.of_nat (length TABLE_COLUMNS));
     GetAllColumnNames := Some TABLE_COLUMNS;
     GetColumnIndex := λ _, None;
     GoToRow := λ i, bool_decide (Z.to_nat i < length l)%nat;
     GetInt := column; GetLong := column; GetString := λ _ _, None;
     IsEnded := λ _, false |}.

Class RdbHealthy (S : Type) `{RdbLaws S} := {
  begin_ok s : result rdb_BeginTransaction s = E_OK;
  commit_ok s : in_tx s = true → result rdb_Commit s = E_OK;
  delete_ok c s : in_tx s = true → (result (rdb_Delete c) s).1 = E_OK;
  query_ok c s : result (rdb_Query c [] false) s =
    Some (all_rows (filter (λ x, matches c x = true) (rows s)));
}.

Section Healthy.
Context {S : Type} `{RdbHealthy S} (table0 : UsbRightTableInfo).
#[local] Abbreviation db := (@db S).
Implicit Types (s : db).

(** The database is opened and no transaction is running. *)
Definition ready s (R : list row) : Prop :=
  rightDatabase_ s = true ∧ store_ s = true ∧ view s = (R, R, false).

Lemma all_rows_lists l : lists (all_rows l) l.
Proof.
  constructor; simpl; [by intros ? [= <-]|by intros ? [= <-]|..];
    intros i c v Hb _; apply bind_Some in Hb as (x & Hx & Hb);
    apply bind_Some in Hb as (name & Hn & Hc); by exists x, name.
Qed.

Lemma read_info_all l i x n m d b :
  l !! Z.to_nat i = Some x →
  read_info (all_rows l) (mk_table n m 0 1 2 3 4 5 d b) i = Some (info_of x).
Proof. intros Hi. unfold read_info. simpl. by rewrite Hi. Qed.

Lemma read_rows_all l1 : ∀ l0 infos k m d b,
  read_rows (all_rows (l0 ++ l1)) (mk_table k m 0 1 2 3 4 5 d b) (Z.of_nat (length l0)) (length l1) infos =
    infos ++ (info_of <$> l1).
Proof.
  induction l1 as [|x l1 IH]; intros l0 infos k m d b; cbn [read_rows length].
  { by rewrite app_nil_r. }
  cbn [GoToRow all_rows]. rewrite bool_decide_true by (rewrite Nat2Z.id, length_app; simpl; lia).
  cbn [negb IsEnded].
  rewrite (read_info_all (l0 ++ x :: l1) _ x) by (by rewrite Nat2Z.id, list_lookup_middle).
  fold (all_rows (l0 ++ x :: l1)).
  specialize (IH (l0 ++ [x]) (infos ++ [info_of x]) k m d b).
  rewrite <- app_assoc, length_app in IH. simpl in IH.
  replace (Z.of_nat (length l0) + 1) with (Z.of_nat (length l0 + 1)) by lia.
  rewrite IH, <- app_assoc. done.
Qed.

Lemma GetResult_all t l :
  GetResultRightRecordEx t (all_rows l) [] = (i32 (Z.of_nat (length l)), info_of <$> l).
Proof.
  unfold GetResultRightRecordEx, GetResultSetTableInfo.
  cbn [GetRowCount GetColumnCount GetAllColumnNames all_rows].
  rewrite table_columns_names. cbn [rowCount primaryKeyIndex uidIndex installTimeIndex
    updateTimeIndex requestTimeIndex validPeriodIndex deviceNameIndex bundleNameIndex].
  fold (all_rows l). simpl (_ <? _). cbv iota.
  rewrite Nat2Z.id. pose proof (read_rows_all l [] [] (Z.of_nat (length l))
    (Z.of_nat (length TABLE_COLUMNS)) 6 7) as Hr.
  rewrite !app_nil_l in Hr. change (Z.of_nat (length (@nil row))) with 0 in Hr.
  rewrite Hr. by rewrite length_fmap.
Qed.

(** The wrapper on a healthy store. *)
Lemma Begin_ready s R D t :
  store_ s = true → view s = (R, D, t) →
  ∃ t', BeginTransaction s = (USB_RIGHT_OK, set_store t' s) ∧ view (set_store t' s) = (R, D, true).
Proof.
  intros Hs [= <- <- <-]. unfold BeginTransaction, on_store. st_unfold. rewrite Hs. simpl.
  pose proof (begin_ok (store s)) as Hb. unfold result in Hb.
  destruct (rdb_BeginTransaction (store s)) as [r t'] eqn:E. simpl in Hb. subst.
  apply begin_law in E as (E1 & E2 & E3). exists t'. split; [done|].
  unfold view. simpl. by rewrite E1, E2, E3.
Qed.

Lemma Commit_ready s R D :
  store_ s = true → view s = (R, D, true) →
  ∃ t', Commit s = (USB_RIGHT_OK, set_store t' s) ∧ view (set_store t' s) = (R, R, false).
Proof.
  intros Hs [= <- <- Ht]. unfold Commit, on_store. st_unfold. rewrite Hs. simpl.
  pose proof (commit_ok (store s) Ht) as Hb. unfold result in Hb.
  destruct (rdb_Commit (store s)) as [r t'] eqn:E. simpl in Hb. subst.
  apply commit_law in E as (E1 & E2 & E3). exists t'. split; [done|].
  unfold view. simpl. by rewrite E1, E2, E3.
Qed.

Lemma Query_ready c s R D t :
  store_ s = true → view s = (R, D, t) →
  ∃ t', Query c [] false s = (Some (all_rows (filter (λ x, matches c x = true) R)), set_store t' s) ∧
    view (set_store t' s) = (R, D, t).
Proof.
  intros Hs [= <- <- <-]. unfold Query, on_store. st_unfold. rewrite Hs. simpl.
  pose proof (query_ok c (store s)) as Hb. unfold result in Hb.
  destruct (rdb_Query c [] false (store s)) as [r t'] eqn:E. simpl in Hb. subst.
  apply query_law in E as (E1 & E2 & E3 & _). exists t'. split; [done|].
  unfold view. simpl. by rewrite E1, E2, E3.
Qed.

(** Looking up in a healthy store reads the table, and changes nothing. *)
Lemma IsRecordExpired_ready u d b k now s R :
  ready s R → Z.of_nat (length R) <= INT32_MAX →
  ∃ s', IsRecordExpired table0 u d b k now s =
      (forallb (λ x, IsInfoExpired (info_of x) now)
        (filter (λ x, matches (key_clause u d b k) x = true) R), s') ∧ ready s' R.
Proof.
  intros (Hr & Hs & Hv) HR.
  destruct (Begin_ready s _ _ _ Hs Hv) as (t1 & E1 & V1).
  destruct (Query_ready (key_clause u d b k) (set_store t1 s) _ _ _ Hs V1) as (t2 & E2 & V2).
  destruct (Commit_ready (set_store t2 (set_store t1 s)) _ _ Hs V2) as (t3 & E3 & V3).
  exists (set_store t3 (set_store t2 (set_store t1 s))). split; [|done].
  unfold IsRecordExpired, QueryRightRecord, QueryAndGetResult. fold (key_clause u d b k).
  set (l := filter _ R) in *.
  assert (Hl : (length l <= length R)%nat) by apply length_filter.
  st_unfold. rewrite Hr. cbn [negb]. rewrite E1, Z.ltb_irrefl. cbv iota beta. rewrite E2. cbv iota beta.
  rewrite E3, Z.ltb_irrefl. cbv iota beta. rewrite GetResult_all. cbn [fst snd].
  rewrite i32_id by width_lia. f_equal.
  destruct l as [|x l]; [done|]. rewrite (proj2 (Z.leb_gt _ _)) by (simpl; lia).
  generalize (x :: l). clear. intros l. induction l as [|y l IH]; simpl; [done|]. f_equal. exact IH.
Qed.
Lemma Delete_ready c n s R D :
  store_ s = true → view s = (R, D, true) →
  ∃ t', Delete c n s = ((USB_RIGHT_OK, Z.of_nat (length (filter (λ x, matches c x = true) R))),
                        set_store t' s) ∧
    view (set_store t' s) = (filter (λ x, matches c x = false) R, D, true).
Proof.
  intros Hs [= <- <- Ht]. unfold Delete, on_store. st_unfold. rewrite Hs. simpl.
  pose proof (delete_ok c (store s) Ht) as Hb. unfold result in Hb.
  destruct (rdb_Delete c (store s)) as [[r k] t'] eqn:E. simpl in Hb. subst.
  apply delete_law in E as (E1 & E2 & E3 & E4); [|done]. exists t'.
  rewrite E4 by done. split; [done|]. unfold view. simpl. by rewrite E1, E2, E3.
Qed.

(** Removing from a healthy store removes exactly the matching records. *)
Lemma DeleteAndNoOtherOperation_ready c s R :
  ready s R →
  let R' := filter (λ x, matches c x = false) R in
  ∃ s', DeleteAndNoOtherOperation c s =
      (if Z.of_nat (length (filter (λ x, matches c x = true) R)) <=? 0 then USB_RIGHT_RDB_EMPTY
       else USB_RIGHT_OK, s') ∧ ready s' R'.
Proof.
  intros (Hr & Hs & Hv) R'.
  destruct (Begin_ready s _ _ _ Hs Hv) as (t1 & E1 & V1).
  destruct (Delete_ready c 0 (set_store t1 s) _ _ Hs V1) as (t2 & E2 & V2).
  destruct (Commit_ready (set_store t2 (set_store t1 s)) _ _ Hs V2) as (t3 & E3 & V3).
  exists (set_store t3 (set_store t2 (set_store t1 s))). split; [|done].
  unfold DeleteAndNoOtherOperation. st_unfold. rewrite Hr. cbn [negb].
  rewrite E1, Z.ltb_irrefl. cbv iota beta. rewrite E2. cbv iota beta. cbn [fst snd].
  rewrite Z.ltb_irrefl. cbv iota beta. rewrite E3, Z.ltb_irrefl. done.
Qed.
End Healthy.

(** No helper operation opens or closes the database. *)
Section Flags.
Context {S : Type} `{RdbStore S} (table0 : UsbRightTableInfo).
#[local] Abbreviation db := (@db S).
Implicit Types (s : db).

Definition flags s : bool * bool := (rightDatabase_ s, store_ s).
Definition keeps_flags {A} (m : ST db A) : Prop := ∀ f, preserves (λ s, flags s = f) m.

Lemma flags_on_store {A} (m : ST S A) f : preserves (λ s, flags s = f) (on_store m).
Proof. intros s Hs. unfold after, on_store. by destruct (m (store s)). Qed.
#[local] Hint Resolve flags_on_store : preserve.

Lemma flags_AddOrUpdateRightRecord u d b k info : keeps_flags (AddOrUpdateRightRecord u d b k info).
Proof.
  intros f. unfold AddOrUpdateRightRecord, CheckIfNeedUpdateEx, AddOrUpdateRightRecordEx,
    BeginTransaction, Query, Update, Insert, Commit, rollback_with, RollBack. step_preserve.
Qed.
End Flags.

(** ** A table in memory

    A store whose operations all succeed: the rows, the last durable rows, and whether a
    transaction is open. *)
Record mem := mk_mem {
  mem_rows : list row;
  mem_durable : list row;
  mem_tx : bool;
  mem_next : Z;
}.

(** The texts of a column, once each. *)
Definition column_texts (cols : list string) (l : list row) : list string :=
  match cols with
  | [c] => remove_dups (omap (λ x,
      if String.eqb c "uid" then Some (pretty (row_uid x))
      else if String.eqb c "bundleName" then Some (row_bundleName x)
      else if String.eqb c "deviceName" then Some (row_deviceName x) else None) l)
  | _ => []
  end.

Definition all_texts (texts : list string) : ResultSet :=
  {| GetRowCount := Some (Z.of_nat (length texts)); GetColumnCount := Some 1;
     GetAllColumnNames := None; GetColumnIndex := λ _, Some 0;
     GoToRow := λ i, bool_decide (Z.to_nat i < length texts)%nat;
     GetInt := λ _ _, None; GetLong := λ _ _, None;
     GetString := λ i _, texts !! Z.to_nat i; IsEnded := λ _, false |}.

#[export] Instance mem_store : RdbStore mem := {
  rdb_BeginTransaction := λ m, (0, mk_mem (mem_rows m) (mem_durable m) true (mem_next m));
  rdb_Commit := λ m, (0, mk_mem (mem_rows m) (mem_rows m) false (mem_next m));
  rdb_RollBack := λ m, (0, mk_mem (mem_durable m) (mem_durable m) false (mem_next m));
  rdb_Insert v := λ m,
    ((0, mem_next m), mk_mem (mem_rows m ++ [row_of (mem_next m) v]) (mem_durable m) (mem_tx m)
                        (mem_next m + 1));
  rdb_Update v c := λ m,
    ((0, Z.of_nat (length (filter (λ x, matches c x = true) (mem_rows m)))),
     mk_mem ((λ x, if matches c x then update_row v x else x) <$> mem_rows m) (mem_durable m)
       (mem_tx m) (mem_next m));
  rdb_Delete c := λ m,
    ((0, Z.of_nat (length (filter (λ x, matches c x = true) (mem_rows m)))),
     mk_mem (filter (λ x, matches c x = false) (mem_rows m)) (mem_durable m) (mem_tx m) (mem_next m));
  rdb_Query c cols distinct := λ m,
    (Some (let l := filter (λ x, matches c x = true) (mem_rows m) in
           match cols with [] => all_rows l | _ => all_texts (column_texts cols l) end), m);
  rdb_ExecuteSql _ := λ m, (0, m);
}.

#[export] Instance mem_laws : RdbLaws mem.
Proof.
  refine {| rows := mem_rows; durable := mem_durable; in_tx := mem_tx |}; simpl.
  1-3: by intros s r s' [= <- <-].
  - by intros v s r id s' [= <- <- <-] Ht.
  - by intros v c s r n s' [= <- <- <-] Ht.
  - by intros c s r n s' [= <- <- <-] Ht.
  - intros c cols d s o s' [= <- <-]. split_and!; [done..|].
    intros -> _ rs [= <-]. apply all_rows_lists.
Defined.

#[export] Instance mem_healthy : RdbHealthy mem.
Proof. by constructor. Qed.

(** ** The theorems on a table in memory *)
Section Samples.
Definition sample_info : UsbRightAppInfo := mk_info 0 100 5 5 1000 USB_RIGHT_VALID_PERIOD_SET.
Definition empty_db : @db mem := mk_db true true (mk_mem [] [] false 1).
Definition sample_row : row := row_of 1 (bucket "dev" "app" (Some "7"%string) sample_info).
Definition sample_db : @db mem := mk_db true true (mk_mem [sample_row] [sample_row] false 2).
Definition no_table : UsbRightTableInfo := mk_table 0 0 0 0 0 0 0 0 0 0.

Lemma AddOrUpdateRightRecord_atomic_witness :
  let m := AddOrUpdateRightRecord (uid sample_info) "dev" "app" "7" sample_info in
  let c := key_clause (uid sample_info) "dev" "app" "7" in
  let v := bucket "dev" "app" (Some "7"%string) sample_info in
  result m empty_db = USB_RIGHT_OK ∧
  if USB_RIGHT_OK <? USB_RIGHT_OK then durable (store (after m empty_db)) = []
  else ∃ id, view (after m empty_db) = (granted c id v [], granted c id v [], false).
Proof.
  intros m c v. split; [by vm_compute|].
  by apply (AddOrUpdateRightRecord_atomic "dev" "app" "7" sample_info empty_db USB_RIGHT_OK _ []).
Defined.

Lemma AddOrUpdateRightRecord_unique_witness :
  let m := AddOrUpdateRightRecord (uid sample_info) "dev" "app" "7" sample_info in
  result m sample_db = USB_RIGHT_OK ∧ unique_rights (durable (store (after m sample_db))).
Proof.
  intros m. split; [by vm_compute|].
  apply (AddOrUpdateRightRecord_unique "dev" "app" "7" sample_info sample_db USB_RIGHT_OK _ [sample_row]);
    [done| |done].
  apply NoDup_singleton.
Defined.

Lemma DeleteAndNoOtherOperation_atomic_witness :
  let c := key_clause 100 "dev" "app" "7" in
  let m := DeleteAndNoOtherOperation c in
  let R' := filter (λ x, matches c x = false) [sample_row] in
  result m sample_db = USB_RIGHT_OK ∧
  if USB_RIGHT_OK =? USB_RIGHT_OK then view (after m sample_db) = (R', R', false) ∧ R' ≠ [sample_row]
  else durable (store (after m sample_db)) = [sample_row].
Proof.
  intros c m R'. split; [by vm_compute|].
  by apply (DeleteAndNoOtherOperation_atomic c sample_db USB_RIGHT_OK _ [sample_row]).
Defined.

Lemma IsRecordExpired_sound_witness :
  result (IsRecordExpired no_table 100 "dev" "app" "7" 2000) sample_db = false ∧
  ∃ x, x ∈ [sample_row] ∧ row_key x = (100, "dev"%string, "app"%string, Some "7"%string) ∧
       IsInfoExpired (info_of x) 2000 = false.
Proof.
  split; [by vm_compute|].
  by apply (IsRecordExpired_sound no_table 100 "dev" "app" "7" 2000 sample_db
    (after (IsRecordExpired no_table 100 "dev" "app" "7" 2000) sample_db) [sample_row] [sample_row] false).
Defined.
End Samples.
