(* ===== verification/RightManager.v ===== *)
(** * The right manager

    [services/native/src/usb_right_manager.cpp]: who may use a device.  A right is a record
    of the table of [RightDatabase]; it is granted by the user through a dialog, expires,
    and is cleaned up when its application, user or device goes away.

    The platform the manager asks (clock, bundle manager, accounts, tokens, parameters,
    ability manager) is the class [RightPlatform]; while a dialog is up the rest of the
    system runs, which is the parameter [dialog]. *)

From stdpp Require Import sorting.
From S2P Require Import Prelude Text UsbErrors UsbTypes RightDatabase.

#[local] Set Default Goal Selector "!".

(** ** The platform *)
Class RightPlatform (E : Type) := {
  (** [system_clock::now()] in seconds *)
  clock : ST E Z;
  GetOsAccountLocalIdFromUid : E → Z * Z;
  IsOsAccountExists_ : Z → E → Z * bool;
  has_bundle_manager : E → bool;
  GetApplicationInfo : string → Z → E → bool;
  (** install and update times *)
  GetBundleInfo : string → Z → E → option (Z * Z);
  GetBundleResourceInfo : string → E → option (Z * string);
  (** the result, the user and the bundle of a token *)
  GetHapTokenInfo : Z → E → Z * Z * string;
  IsSystemAppByFullTokenID : E → bool;
  is_native_token : E → bool;
  VerifyAccessToken : string → E → Z;
  GetParameter : string → string → E → Z * string;
  GetBoolParameter_ : string → bool → E → bool;
  has_ability_manager : E → bool;
  ConnectAbility_ : string * string → Z → ST E Z;
  DisconnectAbility_ : ST E Z;
  (** a remote request: the code and the parameters; the result and the reply's integer *)
  SendRequest : Z → string → ST E (Z * option Z);
  SubscribeCommonEvent : ST E bool;
  (** the product name of a bus-device name, from the host component *)
  GetDeviceProductName : string → E → option string;
  StrToInt : string → option Z;
  (** [cJSON_PrintUnformatted] on an object's fields *)
  print_json : list (string * string) → option string;
}.

(** [PermissionState::PERMISSION_DENIED], [cJSON] aside, the only platform constant used. *)
Definition PERMISSION_DENIED : Z := -1.

(** [usb_right_manager.cpp:50-52] [USB_RIGHT_USERID] *)
Definition USB_RIGHT_USERID_INVALID : Z := -1.
Definition USB_RIGHT_USERID_DEFAULT : Z := 100.
Definition USB_RIGHT_USERID_CONSOLE : Z := 0.
(** [usb_right_manager.cpp:54-54] [MAX_RETRY_TIMES] *)
Definition MAX_RETRY_TIMES : nat := 30.

(** [usb_right_manager.cpp:62-72] [UsbRightTightUpChoose] *)
Definition TIGHT_UP_USB_RIGHT_RECORD_NONE : Z := 0.
Definition TIGHT_UP_USB_RIGHT_RECORD_APP_UNINSTALLED : Z := Z.shiftl 1 0.
Definition TIGHT_UP_USB_RIGHT_RECORD_USER_DELETED : Z := Z.shiftl 1 1.
Definition TIGHT_UP_USB_RIGHT_RECORD_EXPIRED : Z := Z.shiftl 1 2.
Definition TIGHT_UP_USB_RIGHT_RECORD_APP_REINSTALLED : Z := Z.shiftl 1 3.
Definition TIGHT_UP_USB_RIGHT_RECORD_ALL : Z :=
  Z.lor TIGHT_UP_USB_RIGHT_RECORD_APP_UNINSTALLED
    (Z.lor TIGHT_UP_USB_RIGHT_RECORD_USER_DELETED
      (Z.lor TIGHT_UP_USB_RIGHT_RECORD_EXPIRED TIGHT_UP_USB_RIGHT_RECORD_APP_REINSTALLED)).

(** The system events the manager is told of. *)
Inductive SystemEvent :=
  | PackageRemoved (userId : option Z) (bundleName : string)
  | UserRemoved
  | UserStopped (uid : Z)
  | DataShareReady
  | PowerConnected
  | PowerDisconnected
  | UserSwitched
  | OtherEvent.

(** The calls the event handler makes into the service. *)
Inductive ServiceCall :=
  | CallInitSettingsDataHdcStatus
  | CallSetPhyConnect (connected : bool)
  | CallUserChangeProcess.

(** [serial_device_identity.h:20-23] [SerialDeviceIdentity] *)
Record SerialDeviceIdentity := mk_serial_identity {
  busDev : string;
  deviceName : string;
}.

Section RightManager.
Context {S E : Type} `{RdbStore S} `{RightPlatform E} `{EB : ErrBase}.
Context (table0 : UsbRightTableInfo).

(** [usb_right_manager.h:109-112] [UsbRightManager] the members, the database helper (whose [GetInstance] never returns null) and the platform *)
Record st := mk_st {
  database : @db S;
  platform : E;
  usbAbilityConn_ : bool;
  remoteObject_ : bool;
  usbDialogParams_ : list (string * string);
  log : list ServiceCall;
}.

Definition set_database (v : @db S) (s : st) : st :=
  mk_st v (platform s) (usbAbilityConn_ s) (remoteObject_ s) (usbDialogParams_ s) (log s).
Definition set_platform (v : E) (s : st) : st :=
  mk_st (database s) v (usbAbilityConn_ s) (remoteObject_ s) (usbDialogParams_ s) (log s).
Definition set_usbAbilityConn_ (v : bool) (s : st) : st :=
  mk_st (database s) (platform s) v (remoteObject_ s) (usbDialogParams_ s) (log s).
Definition set_remoteObject_ (v : bool) (s : st) : st :=
  mk_st (database s) (platform s) (usbAbilityConn_ s) v (usbDialogParams_ s) (log s).
Definition set_usbDialogParams_ (v : list (string * string)) (s : st) : st :=
  mk_st (database s) (platform s) (usbAbilityConn_ s) (remoteObject_ s) v (log s).
Definition set_log (v : list ServiceCall) (s : st) : st :=
  mk_st (database s) (platform s) (usbAbilityConn_ s) (remoteObject_ s) (usbDialogParams_ s) v.

Definition on_db {A} (m : ST (@db S) A) : ST st A :=
  λ s, let '(a, d) := m (database s) in (a, set_database d s).
Definition on_platform {A} (m : ST E A) : ST st A :=
  λ s, let '(a, e) := m (platform s) in (a, set_platform e s).
Definition ask {A} (f : E → A) : ST st A := gets (λ s, f (platform s)).

(** What the rest of the system does until the dialog disappears. *)
Context (dialog : ST st unit).

(** [usb_right_manager.cpp:714-719] [UsbRightManager::GetCurrentTimestamp] *)
Definition GetCurrentTimestamp : ST st Z :=
  time ← on_platform clock; mret (u64 time).

(** [usb_right_manager.cpp:721-729] [UsbRightManager::GetCurrentUserId] the new value of [uid] *)
Definition GetCurrentUserId : ST st Z :=
  r ← ask GetOsAccountLocalIdFromUid;
  mret (if negb (r.1 =? UEC_OK) then USB_RIGHT_USERID_DEFAULT else r.2).

(** [usb_right_manager.cpp:731-739] [UsbRightManager::IsOsAccountExists] the result and the out-parameter *)
Definition IsOsAccountExists (id : Z) : ST st (Z * bool) :=
  r ← ask (IsOsAccountExists_ id);
  mret (if negb (r.1 =? UEC_OK) then USB_RIGHT_FAILURE else USB_RIGHT_OK, r.2).

(** [usb_right_manager.cpp:606-623] [UsbRightManager::GetBundleMgr] *)
Definition GetBundleMgr : ST st bool := ask has_bundle_manager.

(** [usb_right_manager.cpp:681-694] [UsbRightManager::IsAppInstalled] *)
Definition IsAppInstalled (uid : Z) (bundleName : string) : ST st bool :=
  bundleMgr ← GetBundleMgr;
  if negb bundleMgr then mret false
  else
    found ← ask (GetApplicationInfo bundleName uid);
    mret (if negb found then false else true).

(** [usb_right_manager.cpp:696-712] [UsbRightManager::GetBundleInstallAndUpdateTime] [None] is [false] *)
Definition GetBundleInstallAndUpdateTime (uid : Z) (bundleName : string) : ST st (option (Z * Z)) :=
  bundleMgr ← GetBundleMgr;
  if negb bundleMgr then mret None
  else
    info ← ask (GetBundleInfo bundleName uid);
    mret match info with
         | None => None
         | Some (i, u) => Some (u64 i, u64 u)
         end.

(** [usb_right_manager.cpp:625-632] [UsbRightManager::GetBundleResMgr] *)
Definition GetBundleResMgr (bundleName : string) : ST st (option (Z * string)) :=
  bundleMgr ← GetBundleMgr;
  if negb bundleMgr then mret None else ask (GetBundleResourceInfo bundleName).

(** [usb_right_manager.cpp:634-650] [UsbRightManager::GetAppName] [None] is [false] *)
Definition GetAppName (bundleName : string) : ST st (option string) :=
  info ← GetBundleResMgr bundleName;
  mret match info with
       | None => None
       | Some (ret, label) => if negb (ret =? ERR_OK) then None else Some label
       end.

(** [usb_right_manager.cpp:652-668] [UsbRightManager::IsSystemAppOrSa] *)
Definition IsSystemAppOrSa : ST st bool :=
  isSystemApp ← ask IsSystemAppByFullTokenID;
  if (isSystemApp : bool) then mret true else ask is_native_token.

(** [usb_right_manager.cpp:670-679] [UsbRightManager::VerifyPermission] *)
Definition VerifyPermission : ST st bool :=
  ret ← ask (VerifyAccessToken "ohos.permission.MANAGE_USB_CONFIG");
  mret (if ret =? PERMISSION_DENIED then false else true).

(** [usb_right_manager.cpp:741-762] [UsbRightManager::HasSetFuncRight] *)
Definition HasSetFuncRight (functions : Z) : ST st Z :=
  if Z.land (u32 functions) FUNCTION_HDC =? 0 then mret UEC_OK
  else
    r ← ask (GetParameter "persist.hdc.control" "true");
    if negb (String.eqb r.2 "true") then mret UEC_SERVICE_PERMISSION_CHECK_HDC
    else
      developer ← ask (GetBoolParameter_ "const.security.developermode.state" false);
      mret (if negb developer then UEC_SERVICE_PERMISSION_CHECK_HDC else UEC_OK).

(** *** Cleaning up *)

(** [usb_right_manager.cpp:962-974] [UsbRightManager::CleanUpRightTemporaryExpired] *)
Definition CleanUpRightTemporaryExpired (deviceName : string) : ST st Z :=
  on_db (DeleteValidPeriodRightRecord USB_RIGHT_VALID_PERIOD_MIN deviceName).

(** [usb_right_manager.cpp:976-985] [UsbRightManager::CleanUpRightNormalExpired] *)
Definition CleanUpRightNormalExpired (uid : Z) : ST st Z :=
  nowTime ← GetCurrentTimestamp;
  on_db (DeleteNormalExpiredRightRecord uid nowTime).

(** [usb_right_manager.cpp:951-960] [UsbRightManager::CleanUpRightUserStopped] *)
Definition CleanUpRightUserStopped (uid : Z) : ST st Z := on_db (DeleteUidRightRecord uid).

(** [usb_right_manager.cpp:803-813] [UsbRightManager::CleanUpRightAppUninstalled] the loop: the last result and the number deleted *)
Fixpoint delete_uninstalled (uid : Z) (apps : list string) (ret deleteApps : Z) : ST st (Z * Z) :=
  match apps with
  | [] => mret (ret, deleteApps)
  | app :: apps =>
      installed ← IsAppInstalled uid app;
      if negb installed then
        ret ← on_db (DeleteAppRightRecord uid app);
        if negb (ret =? USB_RIGHT_OK) then delete_uninstalled uid apps ret deleteApps
        else delete_uninstalled uid apps ret (deleteApps + 1)
      else delete_uninstalled uid apps ret deleteApps
  end.

(** [usb_right_manager.cpp:788-817] [UsbRightManager::CleanUpRightAppUninstalled] *)
Definition CleanUpRightAppUninstalled_all (uid : Z) : ST st Z :=
  q ← on_db (QueryRightRecordApps uid []);
  let '(ret, apps) := q in
  if ret <=? 0 then mret USB_RIGHT_NOP
  else r ← delete_uninstalled uid apps ret 0; mret r.1.

(** [usb_right_manager.cpp:850-861] [UsbRightManager::StringVectorFound] the index found *)
Fixpoint StringVectorFound (strings : list string) (value : string) (i : nat) : option nat :=
  match strings with
  | [] => None
  | x :: strings => if String.eqb value x then Some i else StringVectorFound strings value (Datatypes.S i)
  end.

(** [usb_right_manager.cpp:819-841] [UsbRightManager::CleanUpRightAppUninstalled] *)
Definition CleanUpRightAppUninstalled (uid : Z) (bundleName : string) : ST st Z :=
  q ← on_db (QueryRightRecordApps uid []);
  let '(ret, apps) := q in
  if ret <=? 0 then mret USB_RIGHT_NOP
  else
    match StringVectorFound apps bundleName 0 with
    | None => mret USB_RIGHT_NOP
    | Some index => on_db (DeleteAppRightRecord uid (default "" (apps !! index)))
    end.

(** The byte order of [std::string], for [std::sort]. *)
Definition string_le (a b : string) : Prop := Is_true (String.leb a b).
#[local] Instance string_le_dec : RelDecision string_le.
Proof. intros a b. unfold string_le. apply _. Defined.

(** [std::unique]: neighbours that are equal become one. *)
Fixpoint unique (l : list string) : list string :=
  match l with
  | x :: ((y :: _) as l') => if String.eqb x y then unique l' else x :: unique l'
  | _ => l
  end.

(** [usb_right_manager.cpp:843-848] [UsbRightManager::StringVectorSortAndUniq] *)
Definition StringVectorSortAndUniq (strings : list string) : list string :=
  unique (merge_sort string_le strings).

(** [usb_right_manager.cpp:881-902] [UsbRightManager::CleanUpRightAppReinstalled] the loop: the reinstalled bundles, or [None] for the early failure *)
Fixpoint find_reinstalled (uid : Z) (apps deleteBundleNames : list string)
    : ST st (option (list string)) :=
  match apps with
  | [] => mret (Some deleteBundleNames)
  | bundleName :: apps =>
      q ← on_db (QueryAppRightRecord table0 uid bundleName []);
      let '(ret, infos) := q in
      if ret <? 0 then mret None
      else
        times ← GetBundleInstallAndUpdateTime uid bundleName;
        match times with
        | None => mret None
        | Some (i, _) =>
            find_reinstalled uid apps
              (if existsb (λ info, negb (installTime info =? i)) infos
               then deleteBundleNames ++ [bundleName] else deleteBundleNames)
        end
  end.

(** [usb_right_manager.cpp:863-911] [UsbRightManager::CleanUpRightAppReinstalled] *)
Definition CleanUpRightAppReinstalled (uid : Z) : ST st Z :=
  q ← on_db (QueryRightRecordApps uid []);
  let '(ret, apps) := q in
  if ret <=? 0 then mret USB_RIGHT_NOP
  else
    r ← find_reinstalled uid (StringVectorSortAndUniq apps) [];
    match r with
    | None => mret USB_RIGHT_FAILURE
    | Some deleteBundleNames =>
        on_db (DeleteAppsRightRecord uid (StringVectorSortAndUniq deleteBundleNames))
    end.

(** [usb_right_manager.cpp:929-945] [UsbRightManager::CleanUpRightUserDeleted] the loop: the number of users deleted *)
Fixpoint delete_users (rightRecordUids : list string) (deleteUsers : Z) : ST st Z :=
  match rightRecordUids with
  | [] => mret deleteUsers
  | u :: rightRecordUids =>
      match StrToInt u with
      | None => delete_users rightRecordUids deleteUsers
      | Some uid =>
          r ← IsOsAccountExists uid;
          if negb (r.1 =? USB_RIGHT_OK) then delete_users rightRecordUids deleteUsers
          else if negb r.2 then
            on_db (DeleteUidRightRecord uid) ;; delete_users rightRecordUids (deleteUsers + 1)
          else delete_users rightRecordUids deleteUsers
      end
  end.

(** [usb_right_manager.cpp:913-949] [UsbRightManager::CleanUpRightUserDeleted] the result, [totalUsers] and [deleteUsers] *)
Definition CleanUpRightUserDeleted (totalUsers deleteUsers : Z) : ST st (Z * Z * Z) :=
  q ← on_db (QueryRightRecordUids []);
  let '(ret, rightRecordUids) := q in
  if ret <=? 0 then mret (USB_RIGHT_NOP, totalUsers, deleteUsers)
  else
    deleteUsers ← delete_users rightRecordUids 0;
    mret (USB_RIGHT_OK, i32 (Z.of_nat (length rightRecordUids)), deleteUsers).

(** [usb_right_manager.cpp:987-1030] [UsbRightManager::TidyUpRight] *)
Definition TidyUpRight (choose : Z) : ST st Z :=
  if choose =? TIGHT_UP_USB_RIGHT_RECORD_NONE then mret USB_RIGHT_NOP
  else if negb (Z.lor choose TIGHT_UP_USB_RIGHT_RECORD_ALL =? TIGHT_UP_USB_RIGHT_RECORD_ALL) then
    mret UEC_SERVICE_INVALID_VALUE
  else
    uid ← GetCurrentUserId;
    if uid =? USB_RIGHT_USERID_CONSOLE then mret 1
    else
      let chosen bit := negb (Z.land choose bit =? 0) in
      ret ← (if chosen TIGHT_UP_USB_RIGHT_RECORD_APP_UNINSTALLED
             then CleanUpRightAppUninstalled_all uid else mret 0);
      ret ← (if chosen TIGHT_UP_USB_RIGHT_RECORD_USER_DELETED
             then r ← CleanUpRightUserDeleted 0 0; mret r.1.1 else mret ret);
      ret ← (if chosen TIGHT_UP_USB_RIGHT_RECORD_EXPIRED
             then CleanUpRightNormalExpired uid else mret ret);
      (if chosen TIGHT_UP_USB_RIGHT_RECORD_APP_REINSTALLED
       then CleanUpRightAppReinstalled uid else mret ret).

(** [usb_right_manager.cpp:764-786] [UsbRightManager::CleanUpRightExpired] *)
Definition CleanUpRightExpired (devices : list string) : ST st Z :=
  mfor devices (λ dev, CleanUpRightTemporaryExpired dev ;; mret tt) ;;
  uid ← GetCurrentUserId;
  CleanUpRightNormalExpired uid.

(** *** Rights *)

(** [usb_right_manager.cpp:172-191] [UsbRightManager::HasRight] *)
Definition HasRight (deviceName bundleName tokenId : string) (userId : Z) : ST st bool :=
  if userId =? USB_RIGHT_USERID_CONSOLE then mret true
  else
    nowTime ← GetCurrentTimestamp;
    TidyUpRight TIGHT_UP_USB_RIGHT_RECORD_EXPIRED ;;
    expired ← on_db (IsRecordExpired table0 userId deviceName bundleName tokenId nowTime);
    mret (negb expired).

(** [usb_right_manager.cpp:402-435] [UsbRightManager::AddDeviceRight] *)
Definition AddDeviceRight (deviceName bundleName tokenId : string) (userId : Z) : ST st bool :=
  if userId =? USB_RIGHT_USERID_CONSOLE then mret true
  else
    installTime ← GetCurrentTimestamp;
    updateTime ← GetCurrentTimestamp;
    times ← GetBundleInstallAndUpdateTime userId bundleName;
    let '(installTime, updateTime) := default (installTime, updateTime) times in
    requestTime ← GetCurrentTimestamp;
    ret ← on_db (AddOrUpdateRightRecord userId deviceName bundleName tokenId
             (mk_info 0 userId installTime updateTime requestTime USB_RIGHT_VALID_PERIOD_SET));
    mret (if ret <? 0 then false else true).

(** [usb_right_manager.cpp:1032-1041] [UsbRightManager::IsAllDigits] *)
Definition IsAllDigits (s : string) : bool :=
  forallb (λ c, opt_is_some (digit_of c)) (String.list_ascii_of_string s).

(** [std::stoul] on a string of digits. *)
Definition stoul (s : string) : Z := (read_digits s 0 0).1.1.

(** [usb_right_manager.cpp:322-336] [IsWithinUint64Range] on a string of digits *)
Definition IsWithinUint64Range (numberStr : string) : bool :=
  if String.eqb numberStr "" then false
  else if 2 ^ 64 <=? stoul numberStr then false
  else true.

(** [usb_right_manager.cpp:354-400] [UsbRightManager::AddDeviceRight] an [AccessTokenID] is a [uint32_t] *)
Definition AddDeviceRight_token (deviceName tokenIdStr : string) : ST st bool :=
  if negb (IsAllDigits tokenIdStr) then mret false
  else if negb (IsWithinUint64Range tokenIdStr) then mret false
  else
    r ← ask (GetHapTokenInfo (u32 (stoul tokenIdStr)));
    let '(ret, uid, bundleName) := r in
    if negb (ret =? UEC_OK) then mret false
    else if uid =? USB_RIGHT_USERID_CONSOLE then mret true
    else
      installTime ← GetCurrentTimestamp;
      updateTime ← GetCurrentTimestamp;
      times ← GetBundleInstallAndUpdateTime uid bundleName;
      let '(installTime, updateTime) := default (installTime, updateTime) times in
      requestTime ← GetCurrentTimestamp;
      ret ← on_db (AddOrUpdateRightRecord uid deviceName bundleName tokenIdStr
               (mk_info 0 uid installTime updateTime requestTime USB_RIGHT_VALID_PERIOD_SET));
      mret (if ret <? 0 then false else true).

(** [usb_right_manager.cpp:437-456] [UsbRightManager::RemoveDeviceRight] *)
Definition RemoveDeviceRight (deviceName bundleName tokenId : string) (userId : Z) : ST st bool :=
  if userId =? USB_RIGHT_USERID_CONSOLE then mret true
  else
    ret ← on_db (DeleteRightRecord userId deviceName bundleName tokenId);
    mret (if ret <? 0 then false else true).

(** [usb_right_manager.cpp:458-477] [UsbRightManager::CancelDeviceRight] *)
Definition CancelDeviceRight (deviceName bundleName tokenId : string) (userId : Z) : ST st Z :=
  if userId =? USB_RIGHT_USERID_CONSOLE then mret UEC_SERVICE_INVALID_VALUE
  else
    on_db (DeleteRightRecord userId deviceName bundleName tokenId) ;;
    mret UEC_OK.

(** *** The dialog *)

(** [usb_right_manager.cpp:193-219] [UsbRightManager::ConnectAbility] *)
Definition ConnectAbility (userId : Z) : ST st Z :=
  modify (set_usbAbilityConn_ true) ;;
  abmc ← ask has_ability_manager;
  if negb abmc then mret USB_RIGHT_FAILURE
  else
    ret ← on_platform (ConnectAbility_ ("com.ohos.sceneboard", "com.ohos.sceneboard.systemdialog")%string userId);
    if negb (ret =? ERR_OK) then
      ret ← on_platform (ConnectAbility_ ("com.ohos.systemui", "com.ohos.systemui.dialog")%string userId);
      if negb (ret =? ERR_OK) then modify (set_usbAbilityConn_ false) ;; mret ret
      else mret USB_RIGHT_OK
    else mret USB_RIGHT_OK.

(** Connect the dialog with its parameters, a [std::map] listed by key, and wait until it has disappeared. *)
Definition run_dialog (params : list (string * string)) (userId : Z) : ST st bool :=
  modify (set_usbDialogParams_ params) ;;
  ret ← ConnectAbility userId;
  if negb (ret =? UEC_OK) then mret false else dialog ;; mret true.

(** [usb_right_manager.cpp:254-291] [UsbRightManager::ShowUsbDialog] *)
Definition ShowUsbDialog (busDev deviceName bundleName tokenId : string) (userId : Z) : ST st bool :=
  appName ← GetAppName bundleName;
  productName ← ask (GetDeviceProductName busDev);
  run_dialog
    [("appName", default bundleName appName); ("bundleName", bundleName); ("deviceName", busDev);
     ("productName", default busDev productName); ("tokenId", tokenId)]%string
    userId.

(** [usb_right_manager.cpp:494-531] [UsbRightManager::ShowUsbDialog] for an accessory *)
Definition ShowUsbDialog_accessory (access : USBAccessory.t) (seriaValue bundleName tokenId : string)
    : ST st bool :=
  appName ← GetAppName bundleName;
  run_dialog
    [("accessory", USBAccessory.GetJsonString print_json access);
     ("appName", default bundleName appName); ("bundleName", bundleName);
     ("deviceName", seriaValue); ("productName", USBAccessory.GetProduct access);
     ("tokenId", tokenId)]%string
    USB_RIGHT_USERID_INVALID.

(** [std::to_string] *)
Definition to_string (z : Z) : string := pretty.pretty z.

(** [usb_right_manager.cpp:533-572] [UsbRightManager::ShowSerialDialog] *)
Definition ShowSerialDialog (portId tokenId : Z) (bundleName busDev : string) : ST st bool :=
  appName ← GetAppName bundleName;
  let castId := i32 tokenId in
  if castId <? 0 then mret false
  else
    run_dialog
      [("appName", default bundleName appName); ("bundleName", "com.example.serial");
       ("deviceName", "1-1"); ("portId", to_string portId);
       ("productName", "COM" +:+ to_string portId); ("tokenId", to_string castId)]%string
      USB_RIGHT_USERID_INVALID.

(** [usb_right_manager.cpp:238-252] [UsbRightManager::GetUserAgreementByDiag] *)
Definition GetUserAgreementByDiag (busDev deviceName bundleName tokenId : string) (userId : Z)
    : ST st bool :=
  shown ← ShowUsbDialog busDev deviceName bundleName tokenId userId;
  if negb shown then mret false else HasRight deviceName bundleName tokenId userId.

(** [usb_right_manager.cpp:574-585] [UsbRightManager::GetUserAgreementByDiag] for an accessory *)
Definition GetUserAgreementByDiag_accessory (access : USBAccessory.t)
    (seriaValue bundleName tokenId : string) (userId : Z) : ST st bool :=
  shown ← ShowUsbDialog_accessory access seriaValue bundleName tokenId;
  if negb shown then mret false else HasRight seriaValue bundleName tokenId userId.

(** [usb_right_manager.cpp:587-604] [UsbRightManager::GetUserAgreementByDiag] for a serial port; [None]: [stoul] throws out of the function *)
Definition GetUserAgreementByDiag_serial (portId : Z) (identity : SerialDeviceIdentity)
    (bundleName tokenId : string) (userId : Z) : ST st (option bool) :=
  if negb (all_digits tokenId) then mret (Some false)
  else if 2 ^ 64 <=? stoul tokenId then mret None
  else
    shown ← ShowSerialDialog portId (u32 (stoul tokenId)) bundleName (busDev identity);
    if negb shown then mret (Some false)
    else b ← HasRight (deviceName identity) bundleName tokenId userId; mret (Some b).

(** [usb_right_manager.cpp:222-236] [UsbRightManager::RequestRight] *)
Definition RequestRight (busDev deviceName bundleName tokenId : string) (userId : Z) : ST st Z :=
  has ← HasRight deviceName bundleName tokenId userId;
  if (has : bool) then mret UEC_OK
  else
    agreed ← GetUserAgreementByDiag busDev deviceName bundleName tokenId userId;
    mret (if negb agreed then UEC_SERVICE_PERMISSION_DENIED else UEC_OK).

(** [usb_right_manager.cpp:303-320] [UsbRightManager::RequestRight] for an accessory: the result and the out-parameter *)
Definition RequestRight_accessory (access : USBAccessory.t) (seriaValue bundleName tokenId : string)
    (userId : Z) : ST st (Z * bool) :=
  has ← HasRight seriaValue bundleName tokenId userId;
  if (has : bool) then mret (UEC_OK, true)
  else
    agreed ← GetUserAgreementByDiag_accessory access seriaValue bundleName tokenId userId;
    mret (if negb agreed then (UEC_OK, false) else (UEC_OK, true)).

(** [usb_right_manager.cpp:338-352] [UsbRightManager::RequestRight] for a serial port *)
Definition RequestRight_serial (portId : Z) (identity : SerialDeviceIdentity)
    (bundleName tokenId : string) (userId : Z) : ST st (option Z) :=
  has ← HasRight (deviceName identity) bundleName tokenId userId;
  if (has : bool) then mret (Some UEC_OK)
  else
    agreed ← GetUserAgreementByDiag_serial portId identity bundleName tokenId userId;
    mret match agreed with
         | None => None
         | Some agreed => Some (if negb agreed then UEC_SERVICE_PERMISSION_DENIED else UEC_OK)
         end.

(** [usb_right_manager.cpp:1132-1151] [UsbRightManager::UsbAbilityConn::CloseDialog] *)
Definition CloseDialog : ST st unit :=
  remote ← gets remoteObject_;
  if negb remote then mret tt else on_platform (SendRequest 3 "") ;; mret tt.

(** [usb_right_manager.cpp:1043-1064] [UsbRightManager::UnShowUsbDialog] *)
Definition UnShowUsbDialog : ST st bool :=
  conn ← gets usbAbilityConn_;
  if negb conn then mret true
  else
    abmc ← ask has_ability_manager;
    if negb abmc then mret false
    else
      CloseDialog ;;
      ret ← on_platform DisconnectAbility_;
      mret (if negb (ret =? UEC_OK) then false else true).

(** [usb_right_manager.cpp:1066-1121] [UsbRightManager::UsbAbilityConn::OnAbilityConnectDone] [remoteObject]: whether there is one; the constant keys of the request are not repeated *)
Definition OnAbilityConnectDone (remoteObject : bool) : ST st unit :=
  if negb remoteObject then mret tt
  else
    params ← gets usbDialogParams_;
    match print_json (params ++
            [("ability.want.params.uiExtensionType"%string, "sysDialog/common"%string)]) with
    | None => mret tt
    | Some paramStr =>
        r ← on_platform (SendRequest 1 paramStr);
        if negb (r.1 =? ERR_OK) then mret tt
        else
          match r.2 with
          | Some ret => if negb (ret =? ERR_OK) then mret tt else modify (set_remoteObject_ true)
          | None => mret tt
          end
    end.

(** [usb_right_manager.cpp:1123-1130] [UsbRightManager::UsbAbilityConn::OnAbilityDisconnectDone] the semaphore is what ends [dialog] *)
Definition OnAbilityDisconnectDone : ST st unit := modify (set_remoteObject_ false).

(** [usb_right_manager.cpp:479-486] [UsbRightManager::RemoveDeviceAllRight] *)
Definition RemoveDeviceAllRight (deviceName : string) : ST st bool :=
  CleanUpRightTemporaryExpired deviceName ;;
  TidyUpRight TIGHT_UP_USB_RIGHT_RECORD_ALL ;;
  UnShowUsbDialog ;;
  mret true.

(** [usb_right_manager.cpp:81-132] [OnReceiveEvent] *)
Definition OnReceiveEvent (e : SystemEvent) : ST st unit :=
  let call c := modify (λ s, set_log (log s ++ [c]) s) in
  match e with
  | PackageRemoved userId bundleName =>
      CleanUpRightAppUninstalled (default USB_RIGHT_USERID_DEFAULT userId) bundleName ;; mret tt
  | UserRemoved => CleanUpRightUserDeleted 0 0 ;; mret tt
  | UserStopped uid => CleanUpRightUserStopped uid ;; mret tt
  | DataShareReady => call CallInitSettingsDataHdcStatus
  | PowerConnected => call (CallSetPhyConnect true)
  | PowerDisconnected => call (CallSetPhyConnect false)
  | UserSwitched => call CallUserChangeProcess
  | OtherEvent => mret tt
  end.

(** [usb_right_manager.cpp:156-168] [UsbRightManager::Init] the retry loop *)
Fixpoint subscribe (retries : nat) : ST st Z :=
  match retries with
  | O => mret UEC_SERVICE_INNER_ERR
  | Datatypes.S retries =>
      ret ← on_platform SubscribeCommonEvent;
      if negb ret then subscribe retries else mret UEC_OK
  end.

(** [usb_right_manager.cpp:135-170] [UsbRightManager::Init] *)
Definition Init : ST st Z := subscribe MAX_RETRY_TIMES.
End RightManager.

(** ** Cleaning up only removes *)
Section Cleaning.
Context {S E : Type} `{RdbLaws S} `{RightPlatform E} `{EB : ErrBase}.
Context (table0 : UsbRightTableInfo).
#[local] Abbreviation st := (@st S E).
Implicit Types (s : st).

(** The records of the manager are among [R0]. *)
Definition only (R0 : list row) s : Prop := within R0 (database s).

Lemma only_on_db {A} R0 (m : ST (@db S) A) :
  preserves (within R0) m → preserves (only R0) (on_db m).
Proof.
  intros Hm s Hs. unfold only, after, on_db.
  pose proof (Hm (database s) Hs) as Hd. unfold after in Hd. by destruct (m (database s)).
Qed.
Lemma only_on_platform {A} R0 (m : ST E A) : preserves (only R0) (on_platform m).
Proof. intros s Hs. unfold only, after, on_platform. by destruct (m (platform s)). Qed.
Lemma only_ask {A} R0 (f : E → A) : preserves (only R0) (ask f).
Proof. by intros s. Qed.
Lemma only_modify R0 (f : st → st) :
  (∀ s, database (f s) = database s) → preserves (only R0) (modify f).
Proof. intros Hf s Hs. unfold only, after. simpl. by rewrite Hf. Qed.
#[local] Hint Resolve only_on_platform only_ask : preserve.
#[local] Hint Extern 5 (preserves (only _) (modify _)) => by apply only_modify : preserve.

Lemma only_Delete R0 c : preserves (only R0) (on_db (DeleteAndNoOtherOperation c)).
Proof. apply only_on_db, within_Delete. Qed.
Lemma only_Delete_predicates R0 c : preserves (only R0) (on_db (DeleteAndNoOtherOperation_predicates c)).
Proof. apply only_on_db, within_Delete_predicates. Qed.
Lemma only_apps R0 uid apps : preserves (only R0) (on_db (QueryRightRecordApps uid apps)).
Proof. apply only_on_db, within_QueryColumn. Qed.
Lemma only_uids R0 uids : preserves (only R0) (on_db (QueryRightRecordUids uids)).
Proof. apply only_on_db, within_QueryColumn. Qed.
Lemma only_app R0 uid b infos : preserves (only R0) (on_db (QueryAppRightRecord table0 uid b infos)).
Proof. apply only_on_db, within_QueryAndGetResult. Qed.
#[local] Hint Resolve only_Delete only_Delete_predicates only_apps only_uids only_app : preserve.
#[local] Hint Extern 1 (preserves (only _) (on_db (DeleteAppRightRecord _ _))) => apply only_Delete : preserve.
#[local] Hint Extern 1 (preserves (only _) (on_db (DeleteUidRightRecord _))) => apply only_Delete : preserve.
#[local] Hint Extern 1 (preserves (only _) (on_db (DeleteNormalExpiredRightRecord _ _))) => apply only_Delete : preserve.
#[local] Hint Extern 1 (preserves (only _) (on_db (DeleteValidPeriodRightRecord _ _))) => apply only_Delete : preserve.
#[local] Hint Extern 1 (preserves (only _) (on_db (DeleteAppsRightRecord _ _))) => apply only_Delete_predicates : preserve.

Lemma only_delete_uninstalled R0 uid apps : ∀ ret n,
  preserves (only R0) (delete_uninstalled uid apps ret n).
Proof.
  induction apps as [|app apps IH]; intros ret n; cbn [delete_uninstalled]; [apply preserves_ret|].
  unfold IsAppInstalled, GetBundleMgr. step_preserve; apply IH.
Qed.
Lemma only_find_reinstalled R0 uid apps : ∀ l, preserves (only R0) (find_reinstalled table0 uid apps l).
Proof.
  induction apps as [|app apps IH]; intros l; cbn [find_reinstalled]; [apply preserves_ret|].
  unfold GetBundleInstallAndUpdateTime, GetBundleMgr. step_preserve; apply IH.
Qed.
Lemma only_delete_users R0 uids : ∀ n, preserves (only R0) (delete_users uids n).
Proof.
  induction uids as [|u uids IH]; intros n; cbn [delete_users]; [apply preserves_ret|].
  unfold IsOsAccountExists. step_preserve; apply IH.
Qed.
#[local] Hint Resolve only_delete_uninstalled only_find_reinstalled only_delete_users : preserve.

Lemma only_TidyUpRight R0 choose : preserves (only R0) (TidyUpRight table0 choose).
Proof.
  unfold TidyUpRight, GetCurrentUserId, CleanUpRightAppUninstalled_all, CleanUpRightUserDeleted,
    CleanUpRightNormalExpired, GetCurrentTimestamp, CleanUpRightAppReinstalled.
  step_preserve.
Qed.
Lemma only_CleanUpRightTemporaryExpired R0 d : preserves (only R0) (CleanUpRightTemporaryExpired d).
Proof. apply only_Delete. Qed.
#[local] Hint Resolve only_TidyUpRight only_CleanUpRightTemporaryExpired : preserve.

Lemma only_RemoveDeviceAllRight R0 d : preserves (only R0) (RemoveDeviceAllRight table0 d).
Proof.
  unfold RemoveDeviceAllRight, UnShowUsbDialog, CloseDialog. step_preserve.
Qed.

Lemma only_IsRecordExpired R0 u d b k now :
  preserves (only R0) (on_db (IsRecordExpired table0 u d b k now)).
Proof.
  apply only_on_db. unfold IsRecordExpired. apply preserves_bind; [|intros; apply preserves_ret].
  apply within_QueryAndGetResult.
Qed.

Lemma only_HasRight R0 d b k u : preserves (only R0) (HasRight table0 d b k u).
Proof. unfold HasRight, GetCurrentTimestamp. step_preserve; apply only_IsRecordExpired. Qed.

(** Apart from granting, no operation of the manager can make a right appear: looking
    one up, removing, every clean-up (expired, uninstalled, reinstalled, deleted user,
    detached device) and every system event leave no record, visible or durable, that was
    not there, whichever of the store's operations fail. *)
Theorem cleanup_only_removes R0 :
  (∀ d b k u, preserves (only R0) (HasRight table0 d b k u)) ∧
  (∀ d b k u, preserves (only R0) (RemoveDeviceRight d b k u)) ∧
  (∀ d b k u, preserves (only R0) (CancelDeviceRight d b k u)) ∧
  (∀ d, preserves (only R0) (RemoveDeviceAllRight table0 d)) ∧
  (∀ devices, preserves (only R0) (CleanUpRightExpired devices)) ∧
  (∀ choose, preserves (only R0) (TidyUpRight table0 choose)) ∧
  (∀ e, preserves (only R0) (OnReceiveEvent e)).
Proof.
  split_and!; intros.
  - apply only_HasRight.
  - unfold RemoveDeviceRight, DeleteRightRecord. step_preserve.
  - unfold CancelDeviceRight, DeleteRightRecord. step_preserve.
  - apply only_RemoveDeviceAllRight.
  - unfold CleanUpRightExpired, CleanUpRightNormalExpired, GetCurrentUserId, GetCurrentTimestamp.
    step_preserve.
  - apply only_TidyUpRight.
  - unfold OnReceiveEvent, CleanUpRightAppUninstalled, CleanUpRightUserDeleted, CleanUpRightUserStopped.
    step_preserve.
Qed.

(** ** What a right rests on *)

(** The clock as the manager reads it at a state. *)
Definition now_at s : Z := u64 (result clock (platform s)).

Lemma GetCurrentTimestamp_result s : result GetCurrentTimestamp s = now_at s.
Proof.
  unfold GetCurrentTimestamp, now_at, result, on_platform. st_unfold. by destruct (clock (platform s)).
Qed.
Lemma GetCurrentTimestamp_database s : database (after GetCurrentTimestamp s) = database s.
Proof.
  unfold GetCurrentTimestamp, after, on_platform. st_unfold. by destruct (clock (platform s)).
Qed.

(** The consistent states between operations: no transaction is open. *)
Definition settled s (R : list row) : Prop := view (database s) = (R, R, false).

Lemma settled_only s R : settled s R → only R s.
Proof. intros Hs. unfold only. by rewrite (within_view _ _ _ _ _ Hs). Qed.

Lemma HasRight_inv d b k u s s' R :
  only R s → u ≠ USB_RIGHT_USERID_CONSOLE → HasRight table0 d b k u s = (true, s') →
  ∃ x, x ∈ R ∧ row_key x = (u, d, b, Some k) ∧ IsInfoExpired (info_of x) (now_at s) = false.
Proof.
  intros Hs Hu. unfold HasRight. rewrite (proj2 (Z.eqb_neq _ _) Hu), !bind_unfold.
  fold (result GetCurrentTimestamp s) (after GetCurrentTimestamp s). rewrite GetCurrentTimestamp_result.
  set (s2 := (TidyUpRight table0 TIGHT_UP_USB_RIGHT_RECORD_EXPIRED (after GetCurrentTimestamp s)).2).
  assert (Hs2 : only R s2).
  { apply only_TidyUpRight. unfold only. by rewrite GetCurrentTimestamp_database. }
  clearbody s2. unfold on_db. destruct (view (database s2)) as [[R2 D2] t2] eqn:Hv.
  destruct (IsRecordExpired _ _ _ _ _ _ _) as [e db'] eqn:Ee. simpl. intros [= He _].
  apply negb_true_iff in He as ->.
  destruct (IsRecordExpired_inv _ _ _ _ _ _ _ _ _ _ _ Hv Ee) as (x & Hx & Hm & Hexp).
  exists x. split_and!; [|by apply matches_key|done].
  unfold only in Hs2. rewrite (within_view _ _ _ _ _ Hv) in Hs2. destruct Hs2 as [Hin _]. by apply Hin.
Qed.

(** C33: a right is never invented. When [HasRight] answers yes for a user other than the
    console, the table holds a record of that very user, device, application and token,
    granted no later than now and still within its period. *)
Theorem HasRight_sound d b k u s s' R
    (Hs : settled s R) (Hu : u ≠ USB_RIGHT_USERID_CONSOLE)
    (Hr : HasRight table0 d b k u s = (true, s')) :
  ∃ x, x ∈ R ∧ row_key x = (u, d, b, Some k) ∧ u64 (row_requestTime x) <= now_at s ∧
    (u64 (row_validPeriod x) = USB_RIGHT_VALID_PERIOD_MIN ∨
     u64 (row_validPeriod x) = USB_RIGHT_VALID_PERIOD_MAX ∨
     now_at s < u64 (row_requestTime x) + u64 (row_validPeriod x)).
Proof.
  destruct (HasRight_inv _ _ _ _ _ _ _ (settled_only _ _ Hs) Hu Hr) as (x & Hx & Hk & He).
  exists x. split_and!; [done|done|..]; revert He; unfold IsInfoExpired, info_of; simpl;
    (case_if; [done|]); bsimp; [done|].
  case_if; [intros _; bsimp; by left|]. case_if; [intros _; bsimp; by right; left|].
  case_if; [|by case_if]. intros _. bsimp. right; right.
  pose proof (u64_range (result clock (platform s)) : 0 <= now_at s < 2 ^ 64).
  pose proof (u64_range (row_requestTime x)).
  match goal with H : u64 (_ - _) < _ |- _ => rewrite u64_id in H by lia end. lia.
Qed.

(** A removed right is gone: after [RemoveDeviceRight] has answered yes, [HasRight]
    answers no, at any time and whatever happened on the platform since. *)
Theorem RemoveDeviceRight_removes d b k u s s1 s2 R
    (Hs : settled s R) (Hu : u ≠ USB_RIGHT_USERID_CONSOLE)
    (Hr : RemoveDeviceRight d b k u s = (true, s1)) (Hsame : database s2 = database s1) :
  result (HasRight table0 d b k u) s2 = false.
Proof.
  destruct (HasRight table0 d b k u s2) as [[|] s3] eqn:Eh; [|unfold result; by rewrite Eh].
  exfalso. revert Hr. unfold RemoveDeviceRight, on_db. rewrite (proj2 (Z.eqb_neq _ _) Hu). st_unfold.
  destruct (DeleteRightRecord u d b k (database s)) as [r db'] eqn:Ed. simpl.
  pose proof (DeleteAndNoOtherOperation_inv _ _ _ _ _ Hs Ed) as Hd. cbv zeta in Hd.
  destruct (r <? 0) eqn:Er; intros [= <-]. destruct (r =? USB_RIGHT_OK) eqn:Er0.
  - destruct Hd as [Hv _]. refine (_ (HasRight_inv d b k u s2 s3 _ _ Hu Eh)).
    + intros (x & Hx & Hk & _). apply list_elem_of_filter in Hx as [Hm _].
      apply matches_key in Hk. exact (eq_true_false_abs _ Hk Hm).
    + unfold only. rewrite Hsame. by rewrite (within_view _ _ _ _ _ Hv).
  - pose proof (DeleteAndNoOtherOperation_code _ _ _ _ _ _ _ Hs Ed). unfold USB_RIGHT_OK in *. lia.
Qed.
End Cleaning.

(** ** With a store that works *)
Section Working.
Context {S E : Type} `{RdbHealthy S} `{RightPlatform E} `{EB : ErrBase}.
Context (table0 : UsbRightTableInfo).
#[local] Abbreviation st := (@st S E).
Implicit Types (s : st).

(** The records as the manager writes them: a time it read, and its period or one of the
    two special ones. *)
Definition regular (x : row) : Prop :=
  0 <= row_requestTime x < 2 ^ 63 ∧
  (row_validPeriod x = USB_RIGHT_VALID_PERIOD_SET ∨ row_validPeriod x = USB_RIGHT_VALID_PERIOD_MIN ∨
   row_validPeriod x = USB_RIGHT_VALID_PERIOD_MAX).

(** The records a clean-up of expired rights removes. *)
Definition tidy_clause (uid now : Z) : clause :=
  [UidIs uid;
   RequestBefore (if now <=? USB_RIGHT_VALID_PERIOD_SET then 0 else now - USB_RIGHT_VALID_PERIOD_SET);
   PeriodNotIn [USB_RIGHT_VALID_PERIOD_MIN; USB_RIGHT_VALID_PERIOD_MAX]].

(** The clean-up's fixed period agrees with the records' own: it removes expired records only. *)
Lemma tidy_expired uid now x :
  0 <= now < 2 ^ 64 → regular x → matches (tidy_clause uid now) x = true →
  IsInfoExpired (info_of x) now = true.
Proof.
  intros Hnow [Ht Hp] Hm. unfold matches, tidy_clause in Hm. simpl in Hm. bsimp.
  unfold IsInfoExpired, info_of. simpl.
  rewrite (u64_id (row_requestTime x)) by lia.
  assert (Hset : row_validPeriod x = USB_RIGHT_VALID_PERIOD_SET).
  { unfold USB_RIGHT_VALID_PERIOD_SET, USB_RIGHT_VALID_PERIOD_MIN, USB_RIGHT_VALID_PERIOD_MAX in *. lia. }
  rewrite Hset. case_if; [done|]. bsimp.
  match goal with Hlt : _ < (if ?c then _ else _) |- _ => destruct c eqn:Ec; bsimp; [lia|] end.
  simpl. rewrite u64_id by (unfold USB_RIGHT_VALID_PERIOD_SET in *; lia).
  rewrite (u64_id USB_RIGHT_VALID_PERIOD_SET) by (unfold USB_RIGHT_VALID_PERIOD_SET; lia).
  rewrite (proj2 (Z.ltb_ge _ _)) by lia. by case_if.
Qed.
Lemma on_db_after {A} (m : ST (@db S) A) s : database (after (on_db m) s) = after m (database s).
Proof. unfold after, on_db. by destruct (m (database s)). Qed.
Lemma on_db_result {A} (m : ST (@db S) A) s : result (on_db m) s = result m (database s).
Proof. unfold result, on_db. by destruct (m (database s)). Qed.

Lemma TidyUp_expired_after s :
  after (TidyUpRight table0 TIGHT_UP_USB_RIGHT_RECORD_EXPIRED) s =
    if result GetCurrentUserId s =? USB_RIGHT_USERID_CONSOLE then s
    else after (CleanUpRightNormalExpired (result GetCurrentUserId s)) s.
Proof.
  unfold TidyUpRight.
  change (TIGHT_UP_USB_RIGHT_RECORD_EXPIRED =? TIGHT_UP_USB_RIGHT_RECORD_NONE) with false.
  change (Z.lor TIGHT_UP_USB_RIGHT_RECORD_EXPIRED TIGHT_UP_USB_RIGHT_RECORD_ALL =?
          TIGHT_UP_USB_RIGHT_RECORD_ALL) with true. cbn [negb].
  rewrite after_bind. change (after GetCurrentUserId s) with s.
  destruct (result GetCurrentUserId s =? USB_RIGHT_USERID_CONSOLE) eqn:Eu; [done|].
  change (Z.land TIGHT_UP_USB_RIGHT_RECORD_EXPIRED TIGHT_UP_USB_RIGHT_RECORD_APP_UNINSTALLED =? 0) with true.
  change (Z.land TIGHT_UP_USB_RIGHT_RECORD_EXPIRED TIGHT_UP_USB_RIGHT_RECORD_USER_DELETED =? 0) with true.
  change (Z.land TIGHT_UP_USB_RIGHT_RECORD_EXPIRED TIGHT_UP_USB_RIGHT_RECORD_EXPIRED =? 0) with false.
  change (Z.land TIGHT_UP_USB_RIGHT_RECORD_EXPIRED TIGHT_UP_USB_RIGHT_RECORD_APP_REINSTALLED =? 0) with true.
  cbn [negb]. by autorewrite with st.
Qed.

Lemma TidyUp_ready s R :
  ready (database s) R →
  ∃ R', ready (database (after (TidyUpRight table0 TIGHT_UP_USB_RIGHT_RECORD_EXPIRED) s)) R' ∧
    (R' = R ∨ ∃ uid, R' = filter (λ x, matches (tidy_clause uid (now_at s)) x = false) R).
Proof.
  intros Hs. rewrite TidyUp_expired_after. case_if; [by exists R; auto|].
  set (uid := result GetCurrentUserId s).
  exists (filter (λ x, matches (tidy_clause uid (now_at s)) x = false) R).
  split; [|by right; exists uid]. unfold CleanUpRightNormalExpired. rewrite after_bind.
  rewrite on_db_after, GetCurrentTimestamp_result, GetCurrentTimestamp_database.
  destruct (DeleteAndNoOtherOperation_ready (tidy_clause uid (now_at s)) _ _ Hs) as (s' & He & Hs').
  unfold DeleteNormalExpiredRightRecord, after. fold (tidy_clause uid (now_at s)). by rewrite He.
Qed.

(** Dropping expired records does not change whether a key has an unexpired one. *)
Lemma forallb_drop_expired uid now c R :
  0 <= now < 2 ^ 64 → Forall regular R →
  forallb (λ x, IsInfoExpired (info_of x) now)
    (filter (λ x, matches c x = true) (filter (λ x, matches (tidy_clause uid now) x = false) R)) =
  forallb (λ x, IsInfoExpired (info_of x) now) (filter (λ x, matches c x = true) R).
Proof.
  intros Hnow HR. induction R as [|x R IH]; [done|]. apply Forall_cons in HR as [Hx HR].
  specialize (IH HR). destruct (matches (tidy_clause uid now) x) eqn:Et.
  - rewrite filter_cons_False by (by rewrite Et). rewrite IH.
    destruct (matches c x) eqn:Ec; [|by rewrite filter_cons_False by (by rewrite Ec)].
    rewrite filter_cons_True by done. simpl. by rewrite (tidy_expired uid now x).
  - rewrite (filter_cons_True _ _ R) by done.
    destruct (matches c x) eqn:Ec.
    + rewrite !filter_cons_True by done. cbn [forallb]. by rewrite IH.
    + by rewrite !filter_cons_False by (by rewrite Ec).
Qed.

Lemma HasRight_ready d b k u s R :
  ready (database s) R → Forall regular R → Z.of_nat (length R) <= INT32_MAX →
  u ≠ USB_RIGHT_USERID_CONSOLE → now_at (after GetCurrentTimestamp s) = now_at s →
  result (HasRight table0 d b k u) s =
    negb (forallb (λ x, IsInfoExpired (info_of x) (now_at s))
           (filter (λ x, matches (key_clause u d b k) x = true) R)).
Proof.
  intros Hs Hreg Hlen Hu Hclock. unfold HasRight. rewrite (proj2 (Z.eqb_neq _ _) Hu).
  autorewrite with st. rewrite on_db_result, GetCurrentTimestamp_result. f_equal.
  set (s1 := after GetCurrentTimestamp s) in *.
  assert (Hs1 : ready (database s1) R) by (unfold s1; by rewrite GetCurrentTimestamp_database).
  destruct (TidyUp_ready s1 R Hs1) as (R' & Hs' & HR').
  assert (Hlen' : Z.of_nat (length R') <= INT32_MAX).
  { destruct HR' as [->|[uid ->]]; [done|].
    pose proof (length_filter (λ x, matches (tidy_clause uid (now_at s1)) x = false) R). lia. }
  destruct (IsRecordExpired_ready table0 u d b k (now_at s) _ R' Hs' Hlen') as (s'' & He & _).
  unfold result at 1. rewrite He. cbn [fst]. destruct HR' as [->|[uid ->]]; [done|].
  rewrite Hclock. apply forallb_drop_expired; [apply u64_range|done].
Qed.

(** With a working store, [HasRight] is exactly the specification: the user holds the
    right when an unexpired record of it is in the table. The clean-up it runs first never
    changes its answer. *)
Theorem HasRight_exact d b k u s R
    (Hs : ready (database s) R) (Hreg : Forall regular R) (Hlen : Z.of_nat (length R) <= INT32_MAX)
    (Hu : u ≠ USB_RIGHT_USERID_CONSOLE) (Hclock : now_at (after GetCurrentTimestamp s) = now_at s) :
  result (HasRight table0 d b k u) s = true ↔
  ∃ x, x ∈ R ∧ row_key x = (u, d, b, Some k) ∧ IsInfoExpired (info_of x) (now_at s) = false.
Proof.
  rewrite (HasRight_ready _ _ _ _ _ _ Hs Hreg Hlen Hu Hclock), negb_true_iff. split.
  - intros (x & [Hm Hx]%list_elem_of_filter & He)%forallb_false_exists.
    exists x. split_and!; [done|by apply matches_key|done].
  - intros (x & Hx & Hk%matches_key & He). apply not_true_is_false. intros Hall.
    apply (forallb_true_elem _ _ x) in Hall; [congruence|]. by apply list_elem_of_filter.
Qed.
(** *** Granting *)

(** The records of a key after a grant all say what was granted, and there is one. *)
Lemma granted_key info d b k id R x :
  let c := key_clause (uid info) d b k in
  x ∈ granted c id (bucket d b (Some k) info) R → row_key x = (uid info, d, b, Some k) →
  row_requestTime x = i64 (requestTime info) ∧ row_validPeriod x = i64 (validPeriod info).
Proof.
  intros c. unfold granted. destruct (existsb (matches c) R) eqn:Ee.
  - intros (y & -> & Hy)%list_elem_of_fmap. destruct (matches c y) eqn:Em; [done|].
    intros Hk%matches_key. exfalso. exact (eq_true_false_abs _ Hk Em).
  - intros [Hx|Hx%list_elem_of_singleton]%elem_of_app Hk; [|by subst].
    apply matches_key in Hk. apply not_true_iff_false in Ee. exfalso. apply Ee, existsb_exists.
    exists x. split; [by apply list_elem_of_In|done].
Qed.

Lemma granted_exists info d b k id R :
  let c := key_clause (uid info) d b k in
  ∃ x, x ∈ granted c id (bucket d b (Some k) info) R ∧ row_key x = (uid info, d, b, Some k).
Proof.
  intros c. unfold granted. destruct (existsb (matches c) R) eqn:Ee.
  - apply existsb_exists in Ee as (y & Hy & Em). exists (update_row (bucket d b (Some k) info) y).
    split; [|done]. apply list_elem_of_fmap. exists y. split; [by rewrite Em|by apply list_elem_of_In].
  - eexists. split; [apply elem_of_app; right; by apply list_elem_of_singleton|done].
Qed.

Lemma granted_regular info d b k id R :
  0 <= requestTime info < 2 ^ 63 → validPeriod info = USB_RIGHT_VALID_PERIOD_SET →
  Forall regular R → Forall regular (granted (key_clause (uid info) d b k) id (bucket d b (Some k) info) R).
Proof.
  intros Ht Hp HR. apply Forall_forall. intros x Hx.
  assert (Hi : i64 (requestTime info) = requestTime info).
  { unfold i64. rewrite Z.mod_small; lia. }
  unfold granted in Hx. rewrite Forall_forall in HR. destruct (existsb _ R).
  - apply list_elem_of_fmap in Hx as (y & -> & Hy). destruct (matches _ y); [|by apply HR].
    split; simpl; [by rewrite Hi|left; by rewrite Hp].
  - apply elem_of_app in Hx as [Hx|Hx%list_elem_of_singleton]; [by apply HR|subst].
    split; simpl; [by rewrite Hi|left; by rewrite Hp].
Qed.

Lemma granted_length c id v R : Z.of_nat (length (granted c id v R)) <= Z.of_nat (length R) + 1.
Proof. unfold granted. destruct (existsb _ R); rewrite ?length_fmap, ?length_app; simpl; lia. Qed.

(** The clock reading a grant records. *)
Definition grant_time s : Z := now_at (after GetCurrentTimestamp (after GetCurrentTimestamp s)).

Lemma AddDeviceRight_inv d b k u s s1 R :
  ready (database s) R → u ≠ USB_RIGHT_USERID_CONSOLE → AddDeviceRight d b k u s = (true, s1) →
  ∃ i t id, let info := mk_info 0 u i t (grant_time s) USB_RIGHT_VALID_PERIOD_SET in
    ready (database s1) (granted (key_clause u d b k) id (bucket d b (Some k) info) R).
Proof.
  intros (Hf1 & Hf2 & Hv) Hu. unfold AddDeviceRight. rewrite (proj2 (Z.eqb_neq _ _) Hu), !bind_unfold.
  fold (result GetCurrentTimestamp s) (after GetCurrentTimestamp s). set (sa := after GetCurrentTimestamp s).
  fold (result GetCurrentTimestamp sa) (after GetCurrentTimestamp sa).
  set (sb := after GetCurrentTimestamp sa). change (now_at sb) with (grant_time s).
  assert (Hask : (GetBundleInstallAndUpdateTime u b sb).2 = sb).
  { unfold GetBundleInstallAndUpdateTime, GetBundleMgr, ask. st_unfold. by case_if. }
  rewrite Hask. destruct (default _ _) as [i t]. rewrite !bind_unfold.
  fold (result GetCurrentTimestamp sb) (after GetCurrentTimestamp sb).
  rewrite GetCurrentTimestamp_result. change (now_at sb) with (grant_time s).
  set (sc := after GetCurrentTimestamp sb).
  set (info := mk_info 0 u i t (grant_time s) USB_RIGHT_VALID_PERIOD_SET).
  assert (Hdb : database sc = database s).
  { unfold sc, sb, sa. by rewrite !GetCurrentTimestamp_database. }
  unfold on_db. rewrite Hdb. destruct (AddOrUpdateRightRecord u d b k info (database s)) as [r db'] eqn:Er.
  pose proof (AddOrUpdateRightRecord_inv d b k info _ _ _ _ Hv Er) as Ha. cbv zeta in Ha.
  pose proof (flags_AddOrUpdateRightRecord u d b k info _ (database s) eq_refl) as Hf.
  unfold after in Hf. rewrite Er in Hf. simpl in Hf.
  unfold USB_RIGHT_OK in Ha. simpl. destruct (r <? 0); [done|]. intros [= <-].
  destruct Ha as [id Ha]. exists i, t, id. simpl. unfold flags in Hf.
  injection Hf as Hg1 Hg2. split_and!; [congruence|congruence|exact Ha].
Qed.

(** A granted right holds exactly for its period. After [AddDeviceRight] has answered
    yes, whatever the platform did since, [HasRight] answers yes from the moment of the
    grant until the period has run out, and no outside it. *)
Theorem AddDeviceRight_grants d b k u s s1 s2 R
    (Hs : ready (database s) R) (Hreg : Forall regular R) (Hlen : Z.of_nat (length R) < INT32_MAX)
    (Hu : u ≠ USB_RIGHT_USERID_CONSOLE) (Ht : grant_time s < 2 ^ 63)
    (Hr : AddDeviceRight d b k u s = (true, s1)) (Hsame : database s2 = database s1)
    (Hclock : now_at (after GetCurrentTimestamp s2) = now_at s2) :
  result (HasRight table0 d b k u) s2 = true ↔
    grant_time s <= now_at s2 < grant_time s + USB_RIGHT_VALID_PERIOD_SET.
Proof.
  destruct (AddDeviceRight_inv _ _ _ _ _ _ _ Hs Hu Hr) as (i & t & id & Hs1). cbv zeta in Hs1.
  set (info := mk_info 0 u i t (grant_time s) USB_RIGHT_VALID_PERIOD_SET) in *.
  pose proof (u64_range (result clock (platform (after GetCurrentTimestamp (after GetCurrentTimestamp s))))
    : 0 <= grant_time s < 2 ^ 64) as Hg.
  pose proof (u64_range (result clock (platform s2)) : 0 <= now_at s2 < 2 ^ 64) as Hn.
  set (R1 := granted _ id _ R) in *. rewrite <- Hsame in Hs1.
  assert (Hreg1 : Forall regular R1) by (apply (granted_regular info); [simpl; lia|done|done]).
  pose proof (granted_length (key_clause u d b k) id (bucket d b (Some k) info) R) as Hlen1.
  fold R1 in Hlen1.
  rewrite (HasRight_ready d b k u s2 R1 Hs1 Hreg1 ltac:(lia) Hu Hclock), negb_true_iff.
  assert (Hi : i64 (grant_time s) = grant_time s) by (unfold i64; rewrite Z.mod_small; lia).
  assert (Hexp : ∀ x, x ∈ R1 → row_key x = (u, d, b, Some k) →
    IsInfoExpired (info_of x) (now_at s2) = false ↔
    grant_time s <= now_at s2 < grant_time s + USB_RIGHT_VALID_PERIOD_SET).
  { intros x Hx Hk. destruct (granted_key info d b k id R x Hx Hk) as [Hrt Hvp].
    simpl in Hrt, Hvp. rewrite Hi in Hrt. change (i64 USB_RIGHT_VALID_PERIOD_SET) with USB_RIGHT_VALID_PERIOD_SET in Hvp.
    unfold IsInfoExpired, info_of. simpl. rewrite Hrt, Hvp, (u64_id (grant_time s)) by lia.
    change (u64 USB_RIGHT_VALID_PERIOD_SET) with USB_RIGHT_VALID_PERIOD_SET.
    case_if; bsimp; [split; [done|lia]|]. simpl. rewrite u64_id by lia.
    case_if; bsimp; [split; [lia|done]|]. split; [by case_if|lia]. }
  split.
  - intros (x & [Hm Hx]%list_elem_of_filter & He)%forallb_false_exists.
    apply matches_key in Hm. by apply (Hexp x).
  - intros Hnow. destruct (granted_exists info d b k id R) as (x & Hx & Hk).
    apply not_true_is_false. intros Hall. apply (forallb_true_elem _ _ x) in Hall.
    + apply (Hexp x) in Hnow; [congruence|done|done].
    + apply list_elem_of_filter. split; [by apply matches_key|done].
Qed.

(** A temporary right ends with its device: once a detached device's rights have been
    processed, the table holds no temporary record of it. *)
Theorem RemoveDeviceAllRight_temporary d s R x
    (Hs : ready (database s) R)
    (Hx : x ∈ rows (store (database (after (RemoveDeviceAllRight table0 d) s)))) :
  ¬ (row_deviceName x = d ∧ row_validPeriod x = USB_RIGHT_VALID_PERIOD_MIN).
Proof.
  intros [Hd Hp].
  set (c := [PeriodIs USB_RIGHT_VALID_PERIOD_MIN; DeviceIs d]).
  destruct (DeleteAndNoOtherOperation_ready c _ _ Hs) as (db' & He & Hs').
  set (R' := filter (λ x, matches c x = false) R) in *.
  assert (Hx' : x ∈ R').
  { unfold RemoveDeviceAllRight in Hx. rewrite after_bind in Hx.
    set (s1 := after (CleanUpRightTemporaryExpired d) s) in *.
    assert (H1' : only R' s1).
    { apply settled_only. unfold settled, s1, CleanUpRightTemporaryExpired. rewrite on_db_after.
      unfold DeleteValidPeriodRightRecord, after. fold c. rewrite He. apply Hs'. }
    assert (Hr : preserves (only R') (TidyUpRight table0 TIGHT_UP_USB_RIGHT_RECORD_ALL ;;
                                      UnShowUsbDialog ;; mret true)).
    { apply preserves_bind; [apply only_TidyUpRight|]. intros _. unfold UnShowUsbDialog, CloseDialog.
      step_preserve; solve [apply only_on_platform | apply only_ask]. }
    exact (proj1 (Hr s1 H1') x Hx). }
  unfold R' in Hx'. apply list_elem_of_filter in Hx' as [Hm _]. revert Hm. unfold matches. simpl.
  rewrite Hd, Hp, String.eqb_refl. done.
Qed.
End Working.

(** ** The lists of bundles *)
Section SortedBundles.

Lemma string_leb_spec a b :
  String.leb a b = true ↔
  match a, b with
  | EmptyString, _ => True
  | String _ _, EmptyString => False
  | String c a', String d b' =>
      (Ascii.N_of_ascii c < Ascii.N_of_ascii d)%N ∨ c = d ∧ String.leb a' b' = true
  end.
Proof.
  destruct a as [|c a], b as [|d b]; unfold String.leb; simpl; [done..|].
  unfold Ascii.compare. destruct (N.compare_spec (Ascii.N_of_ascii c) (Ascii.N_of_ascii d)) as [He|Hl|Hg].
  - apply (f_equal Ascii.ascii_of_N) in He. rewrite !Ascii.ascii_N_embedding in He. subst.
    split; [by right|]. intros [Hn|[_ Hn]]; [by apply N.lt_irrefl in Hn|done].
  - split; [by left|done].
  - split; [done|]. intros [Hn|[-> _]]; [by apply N.lt_asymm in Hn|by apply N.lt_irrefl in Hg].
Qed.

#[local] Instance string_le_trans : Transitive string_le.
Proof.
  unfold string_le. intros a b c. rewrite !Is_true_true. revert b c.
  induction a as [|x a IH]; intros b c; rewrite !(string_leb_spec (String _ _)) || rewrite !string_leb_spec;
    [done|].
  destruct b as [|y b]; [done|]. rewrite (string_leb_spec (String y b)).
  destruct c as [|z c]; [done|]. rewrite ?(string_leb_spec (String x a)).
  intros [Hxy|[-> Hab]] [Hyz|[-> Hbc]].
  - left. by etrans.
  - by left.
  - by left.
  - right. split; [done|]. by eapply IH.
Qed.

#[local] Instance string_le_total : Total string_le.
Proof.
  intros a b. unfold string_le. rewrite !Is_true_true. apply String.leb_total.
Qed.

Lemma unique_cons y z l :
  unique (y :: z :: l) = if String.eqb y z then unique (z :: l) else y :: unique (z :: l).
Proof. done. Qed.

Lemma unique_elem l x : x ∈ unique l ↔ x ∈ l.
Proof.
  induction l as [|y [|z l] IH]; [done..|]. rewrite unique_cons.
  destruct (String.eqb_spec y z) as [->|Hn].
  - rewrite IH, !elem_of_cons. clear. tauto.
  - rewrite elem_of_cons, IH, !elem_of_cons. done.
Qed.

Lemma unique_sorted l :
  StronglySorted string_le l → StronglySorted string_le (unique l) ∧ NoDup (unique l).
Proof.
  induction l as [|y [|z l] IH]; intros Hl; [by split; constructor|by split; [done|apply NoDup_singleton]|].
  apply StronglySorted_inv in Hl as [Hl Hy]. destruct (IH Hl) as [IH1 IH2].
  rewrite unique_cons. destruct (String.eqb_spec y z) as [->|Hn]; [done|].
  assert (Hy' : ∀ x, x ∈ unique (z :: l) → string_le y x).
  { intros x Hx%(proj1 (unique_elem _ _)). rewrite Forall_forall in Hy. by apply Hy. }
  split.
  - constructor; [done|]. by apply Forall_forall.
  - constructor; [|done]. intros Hin%(proj1 (unique_elem _ _)).
    apply elem_of_cons in Hin as [->|Hin]; [done|]. apply Hn.
    apply StronglySorted_inv in Hl as [_ Hz]. rewrite Forall_forall in Hz. rewrite Forall_forall in Hy.
    apply String.leb_antisym; apply Is_true_true.
    + apply Hy. by left.
    + by apply Hz.
Qed.

(** The bundle lists the clean-up works on are sorted, hold each bundle once, and hold
    exactly the bundles of the records. *)
Theorem StringVectorSortAndUniq_spec l :
  StronglySorted string_le (StringVectorSortAndUniq l) ∧ NoDup (StringVectorSortAndUniq l) ∧
  ∀ x, x ∈ StringVectorSortAndUniq l ↔ x ∈ l.
Proof.
  unfold StringVectorSortAndUniq.
  destruct (unique_sorted (merge_sort string_le l)) as [H1 H2].
  { apply StronglySorted_merge_sort; apply _. }
  split_and!; [done|done|]. intros x. rewrite unique_elem. by rewrite merge_sort_Permutation.
Qed.
End SortedBundles.

(** ** The theorems on a small platform

    The clock stands still at the platform's state; bundles and accounts exist; the caller
    is user 100. *)
Section Samples.
#[local] Existing Instance sample_codes.
#[local] Instance sample_platform : RightPlatform Z := {
  clock := λ t, (t, t);
  GetOsAccountLocalIdFromUid _ := (0, 100);
  IsOsAccountExists_ _ _ := (0, true);
  has_bundle_manager _ := true;
  GetApplicationInfo _ _ _ := true;
  GetBundleInfo _ _ _ := Some (5, 5);
  GetBundleResourceInfo _ _ := None;
  GetHapTokenInfo _ _ := (0, 100, "app"%string);
  IsSystemAppByFullTokenID _ := false;
  is_native_token _ := false;
  VerifyAccessToken _ _ := 0;
  GetParameter _ d _ := (0, d);
  GetBoolParameter_ _ d _ := d;
  has_ability_manager _ := true;
  ConnectAbility_ _ _ := λ t, (0, t);
  DisconnectAbility_ := λ t, (0, t);
  SendRequest _ _ := λ t, ((0, Some 0), t);
  SubscribeCommonEvent := λ t, (true, t);
  GetDeviceProductName _ _ := None;
  StrToInt _ := None;
  print_json _ := None;
}.

Definition at_time (t : Z) (d : @db mem) : @st mem Z := mk_st d t false false [] [].
Definition sample_st : @st mem Z := at_time 2000 sample_db.

Lemma sample_ready : ready (database sample_st) [sample_row].
Proof. done. Qed.
Lemma sample_regular : Forall regular [sample_row].
Proof. apply Forall_singleton. split; [by vm_compute|by left]. Qed.

Lemma HasRight_sound_witness :
  result (HasRight no_table "dev" "app" "7" 100) sample_st = true ∧
  ∃ x, x ∈ [sample_row] ∧ row_key x = (100, "dev"%string, "app"%string, Some "7"%string) ∧
    u64 (row_requestTime x) <= now_at sample_st ∧
    (u64 (row_validPeriod x) = USB_RIGHT_VALID_PERIOD_MIN ∨
     u64 (row_validPeriod x) = USB_RIGHT_VALID_PERIOD_MAX ∨
     now_at sample_st < u64 (row_requestTime x) + u64 (row_validPeriod x)).
Proof.
  split; [by vm_compute|].
  by apply (HasRight_sound no_table "dev" "app" "7" 100 sample_st
    (after (HasRight no_table "dev" "app" "7" 100) sample_st) [sample_row]).
Defined.

Lemma RemoveDeviceRight_removes_witness :
  let s1 := after (RemoveDeviceRight "dev" "app" "7" 100) sample_st in
  result (RemoveDeviceRight "dev" "app" "7" 100) sample_st = true ∧
  result (HasRight no_table "dev" "app" "7" 100) (at_time 3000 (database s1)) = false.
Proof.
  intros s1. split; [by vm_compute|].
  by apply (RemoveDeviceRight_removes no_table "dev" "app" "7" 100 sample_st s1
    (at_time 3000 (database s1)) [sample_row]).
Defined.

Lemma HasRight_exact_witness :
  ready (database sample_st) [sample_row] ∧
  (result (HasRight no_table "dev" "app" "7" 100) sample_st = true ↔
   ∃ x, x ∈ [sample_row] ∧ row_key x = (100, "dev"%string, "app"%string, Some "7"%string) ∧
        IsInfoExpired (info_of x) (now_at sample_st) = false).
Proof.
  split; [exact sample_ready|].
  apply (HasRight_exact no_table "dev" "app" "7" 100 sample_st [sample_row] sample_ready sample_regular);
    [by vm_compute|done|done].
Defined.

Lemma AddDeviceRight_grants_witness :
  let s := at_time 1000 empty_db in
  let s1 := after (AddDeviceRight "dev" "app" "7" 100) s in
  let s2 := at_time 2000 (database s1) in
  result (AddDeviceRight "dev" "app" "7" 100) s = true ∧
  (result (HasRight no_table "dev" "app" "7" 100) s2 = true ↔
     grant_time s <= now_at s2 < grant_time s + USB_RIGHT_VALID_PERIOD_SET).
Proof.
  intros s s1 s2. split; [by vm_compute|].
  by apply (AddDeviceRight_grants no_table "dev" "app" "7" 100 s s1 s2 []).
Defined.

(** A table with a temporary record of the device that is detached. *)
Definition temporary_db : @db mem :=
  let x := row_of 1 (bucket "dev" "app" (Some "7"%string) (mk_info 0 100 5 5 1000 0)) in
  mk_db true true (mk_mem [x; sample_row] [x; sample_row] false 3).

Lemma RemoveDeviceAllRight_temporary_witness :
  sample_row ∈ rows (store (database (after (RemoveDeviceAllRight no_table "dev") (at_time 2000 temporary_db)))) ∧
  ¬ (row_deviceName sample_row = "dev" ∧ row_validPeriod sample_row = USB_RIGHT_VALID_PERIOD_MIN).
Proof.
  assert (Hin : sample_row ∈ rows (store (database
    (after (RemoveDeviceAllRight no_table "dev") (at_time 2000 temporary_db))))).
  { vm_compute. left. }
  split; [exact Hin|].
  by apply (RemoveDeviceAllRight_temporary no_table "dev" (at_time 2000 temporary_db) (mem_rows (store temporary_db))).
Defined.
End Samples.
