(* ===== verification/Json.v ===== *)
(** * The JSON form of the USB data model

    The [getJsonString] members of [interfaces/innerkits/native/include] and the
    constructors that read a cJSON item back: the text of the attach and detach
    broadcasts.  cJSON itself is outside the repository: the class [CJson] is its printer
    and its parser, and [CJsonLaws] the fact that parsing printed text gives the item
    back, within the library's nesting limit and for strings without a NUL. *)

From Stdlib Require Import Ascii.
From stdpp Require Import countable.
From S2P Require Import Prelude Text UsbTypes Marshalling.

#[local] Set Default Goal Selector "!".

(** A cJSON item.  The numbers the code writes are integers: a number item is represented
    by its integral part. *)
#[warnings="-register-all"]
Inductive json :=
  | JNum (z : Z)
  | JStr (s : string)
  | JBool (b : bool)
  | JArr (l : list json)
  | JObj (l : list (string * json)).

(** ** The library calls the code makes on an item *)

(** [tolower], and the comparison of member names, which ignores case. *)
Definition to_lower (c : ascii) : ascii :=
  let n := nat_of_ascii c in
  if (65 <=? n)%nat && (n <=? 90)%nat then ascii_of_nat (n + 32) else c.
Fixpoint same_name (a b : string) : bool :=
  match a, b with
  | EmptyString, EmptyString => true
  | String x a, String y b => Ascii.eqb (to_lower x) (to_lower y) && same_name a b
  | _, _ => false
  end.

(** [cJSON_GetObjectItem]: the first member of that name; a null pointer is [None]. *)
Fixpoint member (key : string) (l : list (string * json)) : option json :=
  match l with
  | [] => None
  | (k, v) :: l => if same_name key k then Some v else member key l
  end.
Definition GetObjectItem (j : option json) (key : string) : option json :=
  match j with
  | Some (JObj l) => member key l
  | _ => None
  end.

(** The items that [cJSON_GetArraySize] counts and [cJSON_GetArrayItem] returns. *)
Definition children (j : option json) : list json :=
  match j with
  | Some (JArr l) => l
  | Some (JObj l) => l.*2
  | _ => []
  end.

(** [valueint] of a number item: saturated to [int]. *)
Definition valueint (z : Z) : Z :=
  if INT32_MAX <=? z then INT32_MAX else if z <=? INT32_MIN then INT32_MIN else z.

Class CJson := {
  cJSON_PrintUnformatted : json → option string;
  cJSON_Parse : string → option json;
}.

(** An item of at most [n] nested levels whose texts hold no NUL. *)
Fixpoint nested (n : nat) (j : json) : Prop :=
  match n with
  | O => False
  | S n =>
      match j with
      | JArr l => Forall (nested n) l
      | JObj l => Forall (λ kv, no_nul kv.1 ∧ nested n kv.2) l
      | JStr s => no_nul s
      | _ => True
      end
  end.

(** [CJSON_NESTING_LIMIT] *)
Definition CJSON_NESTING_LIMIT : nat := 1000.

Class CJsonLaws `{CJson} := {
  print_total j : is_Some (cJSON_PrintUnformatted j);
  parse_print n j s : (n ≤ CJSON_NESTING_LIMIT)%nat → nested n j →
    cJSON_PrintUnformatted j = Some s → cJSON_Parse s = Some j;
}.

Section Json.
Context `{CJson}.

(** Print an item; a failed allocation anywhere gives the empty string. *)
Definition print_item (j : json) : string := default "" (cJSON_PrintUnformatted j).

(** A vector member, each element printed and parsed again, as the code does; a failed
    parse adds nothing. *)
Definition reparse {A} (f : A → string) (l : list A) : json :=
  JArr (omap (λ x, cJSON_Parse (f x)) l).
#[local] Arguments reparse : simpl never.

(** [usb_endpoint.h:194-201] [USBEndpoint::getJsonString] the item that is printed *)
Definition USBEndpoint_item (e : USBEndpoint.t) : json :=
  JObj [
    ("address", JNum (USBEndpoint.address_ e));
    ("attributes", JNum (USBEndpoint.attributes_ e));
    ("interval", JNum (USBEndpoint.interval_ e));
    ("maxPacketSize", JNum (USBEndpoint.maxPacketSize_ e));
    ("direction", JNum (USBEndpoint.GetDirection e));
    ("number", JNum (USBEndpoint.GetEndpointNumber e));
    ("type", JNum (USBEndpoint.GetType e));
    ("interfaceId", JNum (USBEndpoint.interfaceId_ e))]%string.

(** [usb_endpoint.h:187-212] [USBEndpoint::getJsonString] *)
Definition USBEndpoint_getJsonString (e : USBEndpoint.t) : string := print_item (USBEndpoint_item e).

(** [usb_interface.h:275-292] [UsbInterface::getJsonString] the item that is printed *)
Definition UsbInterface_item (i : UsbInterface.t) : json :=
  JObj [
    ("id", JNum (UsbInterface.id_ i));
    ("protocol", JNum (UsbInterface.protocol_ i));
    ("clazz", JNum (UsbInterface.klass_ i));
    ("subClass", JNum (UsbInterface.subClass_ i));
    ("alternateSetting", JNum (UsbInterface.alternateSetting_ i));
    ("name", JStr (c_str (UsbInterface.name_ i)));
    ("endpoints", reparse USBEndpoint_getJsonString (UsbInterface.endpoints_ i))]%string.

(** [usb_interface.h:268-302] [UsbInterface::getJsonString] *)
Definition UsbInterface_getJsonString (i : UsbInterface.t) : string := print_item (UsbInterface_item i).

(** [usb_config.h:244-261] [USBConfig::getJsonString] the item that is printed *)
Definition USBConfig_item (c : USBConfig.t) : json :=
  JObj [
    ("id", JNum (USBConfig.id_ c));
    ("attributes", JNum (USBConfig.attributes_ c));
    ("maxPower", JNum (USBConfig.maxPower_ c));
    ("name", JStr (c_str (USBConfig.name_ c)));
    ("isRemoteWakeup", JBool (USBConfig.IsRemoteWakeup c));
    ("isSelfPowered", JBool (USBConfig.IsSelfPowered c));
    ("interfaces", reparse UsbInterface_getJsonString (USBConfig.interfaces_ c))]%string.

(** [usb_config.h:237-271] [USBConfig::getJsonString] *)
Definition USBConfig_getJsonString (c : USBConfig.t) : string := print_item (USBConfig_item c).

(** [usb_device.h:437-459] [UsbDevice::getJsonString] the item that is printed *)
Definition UsbDevice_item (d : UsbDevice.t) : json :=
  JObj [
    ("busNum", JNum (UsbDevice.busNum_ d));
    ("devAddress", JNum (UsbDevice.devAddr_ d));
    ("serial", JStr "");
    ("name", JStr (c_str (UsbDevice.name_ d)));
    ("manufacturerName", JStr (c_str (UsbDevice.manufacturerName_ d)));
    ("productName", JStr (c_str (UsbDevice.productName_ d)));
    ("version", JStr (c_str (UsbDevice.version_ d)));
    ("vendorId", JNum (UsbDevice.vendorId_ d));
    ("productId", JNum (UsbDevice.productId_ d));
    ("clazz", JNum (UsbDevice.baseClass_ d));
    ("subClass", JNum (UsbDevice.subClass_ d));
    ("protocol", JNum (UsbDevice.protocol_ d));
    ("configs", reparse USBConfig_getJsonString (UsbDevice.configs_ d))]%string.

(** [usb_device.h:430-469] [UsbDevice::getJsonString] the serial number is not disclosed *)
Definition UsbDevice_getJsonString (d : UsbDevice.t) : string := print_item (UsbDevice_item d).

(** ** Reading an item back *)

(** [usb_device.h:158-167] [GetIntValue], the same in each class *)
Definition GetIntValue (j : option json) (key : string) : Z :=
  match GetObjectItem j key with
  | Some (JNum z) => valueint z
  | _ => 0
  end.

(** [usb_device.h:169-178] [GetStringValue], the same in each class *)
Definition GetStringValue (j : option json) (key : string) : string :=
  match GetObjectItem j key with
  | Some (JStr s) => s
  | _ => ""
  end.

(** Assigning an [int] to a [std::string] makes it the one character of that code. *)
Definition string_of_int (z : Z) : string :=
  String (ascii_of_N (Z.to_N (u8 z))) "".

(** [usb_endpoint.h:38-48] [USBEndpoint::USBEndpoint] *)
Definition USBEndpoint_of_json (j : option json) : USBEndpoint.t :=
  USBEndpoint.mk (u32 (GetIntValue j "address")) (u32 (GetIntValue j "attributes"))
    (GetIntValue j "interval") (GetIntValue j "maxPacketSize")
    (u8 (GetIntValue j "interfaceId")).

(** [usb_interface.h:49-71] [UsbInterface::UsbInterface] *)
Definition UsbInterface_of_json (j : option json) : UsbInterface.t :=
  UsbInterface.mk (GetIntValue j "id") (GetIntValue j "protocol") (GetIntValue j "clazz")
    (GetIntValue j "subClass") (GetIntValue j "alternateSetting") (GetStringValue j "name")
    (map (λ e, USBEndpoint_of_json (Some e)) (children (GetObjectItem j "endpoints")))
    (UsbInterface.iInterface_ UsbInterface.default) (UsbInterface.authorized_ UsbInterface.default).

(** [usb_config.h:45-66] [USBConfig::USBConfig] *)
Definition USBConfig_of_json (j : option json) : USBConfig.t :=
  USBConfig.mk (GetIntValue j "id") (u32 (GetIntValue j "attributes"))
    (map (λ i, UsbInterface_of_json (Some i)) (children (GetObjectItem j "interfaces")))
    (GetIntValue j "maxPower") (GetStringValue j "name")
    (USBConfig.iConfiguration_ USBConfig.default).

(** [usb_device.h:126-153] [UsbDevice::UsbDevice] *)
Definition UsbDevice_of_json (j : option json) : UsbDevice.t :=
  let d := UsbDevice.default in
  UsbDevice.mk (GetStringValue j "name") (GetStringValue j "manufacturerName")
    (GetStringValue j "productName") (GetStringValue j "version")
    (string_of_int (GetIntValue j "serial")) (UsbDevice.authorizeStatus_ d)
    (u8 (GetIntValue j "devAddress")) (u8 (GetIntValue j "busNum"))
    (UsbDevice.descConfigCount_ d) (UsbDevice.bMaxPacketSize0_ d) (UsbDevice.bcdUSB_ d)
    (UsbDevice.bcdDevice_ d) (UsbDevice.iManufacturer_ d) (UsbDevice.iProduct_ d)
    (UsbDevice.iSerialNumber_ d) (GetIntValue j "vendorId") (GetIntValue j "productId")
    (GetIntValue j "clazz") (GetIntValue j "subClass") (GetIntValue j "protocol")
    (map (λ c, USBConfig_of_json (Some c)) (children (GetObjectItem j "configs"))).

(** ** What comes back

    The members that the text leaves out are at their default values, and the serial
    number is the character of code 0: the text holds a string, which is not a number. *)
Definition json_interface (i : UsbInterface.t) : UsbInterface.t :=
  UsbInterface.set_authorized_ true (UsbInterface.set_iInterface_ UINT8_MAX i).
Definition json_config (c : USBConfig.t) : USBConfig.t :=
  USBConfig.set_iConfiguration_ UINT8_MAX
    (USBConfig.set_interfaces_ (map json_interface (USBConfig.interfaces_ c)) c).
Definition json_device (d : UsbDevice.t) : UsbDevice.t :=
  let e := UsbDevice.default in
  UsbDevice.mk (UsbDevice.name_ d) (UsbDevice.manufacturerName_ d) (UsbDevice.productName_ d)
    (UsbDevice.version_ d) (String "000"%char "") (UsbDevice.authorizeStatus_ e)
    (UsbDevice.devAddr_ d) (UsbDevice.busNum_ d) (UsbDevice.descConfigCount_ e)
    (UsbDevice.bMaxPacketSize0_ e) (UsbDevice.bcdUSB_ e) (UsbDevice.bcdDevice_ e)
    (UsbDevice.iManufacturer_ e) (UsbDevice.iProduct_ e) (UsbDevice.iSerialNumber_ e)
    (UsbDevice.vendorId_ d) (UsbDevice.productId_ d) (UsbDevice.baseClass_ d)
    (UsbDevice.subClass_ d) (UsbDevice.protocol_ d) (map json_config (UsbDevice.configs_ d)).

(** A value that survives the library's [int]: every unsigned word has its top bit clear. *)
Definition is_u31 (z : Z) : Prop := 0 <= z < 2 ^ 31.

Definition plain_endpoint (e : USBEndpoint.t) : Prop :=
  is_u31 (USBEndpoint.address_ e) ∧ is_u31 (USBEndpoint.attributes_ e) ∧
  is_i32 (USBEndpoint.interval_ e) ∧ is_i32 (USBEndpoint.maxPacketSize_ e) ∧
  is_u8 (USBEndpoint.interfaceId_ e).
Definition plain_interface (i : UsbInterface.t) : Prop :=
  is_i32 (UsbInterface.id_ i) ∧ is_i32 (UsbInterface.protocol_ i) ∧
  is_i32 (UsbInterface.klass_ i) ∧ is_i32 (UsbInterface.subClass_ i) ∧
  is_i32 (UsbInterface.alternateSetting_ i) ∧ no_nul (UsbInterface.name_ i) ∧
  Forall plain_endpoint (UsbInterface.endpoints_ i).
Definition plain_config (c : USBConfig.t) : Prop :=
  is_i32 (USBConfig.id_ c) ∧ is_u31 (USBConfig.attributes_ c) ∧
  is_i32 (USBConfig.maxPower_ c) ∧ no_nul (USBConfig.name_ c) ∧
  Forall plain_interface (USBConfig.interfaces_ c).
Definition plain_device (d : UsbDevice.t) : Prop :=
  is_u8 (UsbDevice.busNum_ d) ∧ is_u8 (UsbDevice.devAddr_ d) ∧
  is_i32 (UsbDevice.vendorId_ d) ∧ is_i32 (UsbDevice.productId_ d) ∧
  is_i32 (UsbDevice.baseClass_ d) ∧ is_i32 (UsbDevice.subClass_ d) ∧
  is_i32 (UsbDevice.protocol_ d) ∧
  no_nul (UsbDevice.name_ d) ∧ no_nul (UsbDevice.manufacturerName_ d) ∧
  no_nul (UsbDevice.productName_ d) ∧ no_nul (UsbDevice.version_ d) ∧
  Forall plain_config (UsbDevice.configs_ d).

(** ** Lemmas *)
Lemma valueint_id z : is_i32 z → valueint z = z.
Proof. intros. unfold valueint. repeat case_if; bsimp; width_lia. Qed.
Lemma u31_i32 z : is_u31 z → is_i32 z.
Proof. unfold is_u31. width_lia. Qed.
Lemma u31_u32 z : is_u31 z → is_u32 z.
Proof. unfold is_u31. width_lia. Qed.
Lemma u8_i32 z : is_u8 z → is_i32 z.
Proof. width_lia. Qed.

Create Rewrite HintDb json_int.
#[local] Hint Rewrite valueint_id u8_id u32_id
  using (solve [auto using u31_i32, u31_u32, u8_i32]) : json_int.

Context `{!CJsonLaws}.

Lemma parse_item n j :
  (n ≤ CJSON_NESTING_LIMIT)%nat → nested n j → cJSON_Parse (print_item j) = Some j.
Proof.
  intros Hn Hj. unfold print_item. destruct (print_total j) as [s Hs]. rewrite Hs.
  by apply (parse_print n j).
Qed.

(** A vector of elements that come back is the array of their items. *)
Lemma reparse_items {A} (f : A → string) (g : A → json) (n : nat) (l : list A) :
  (n < CJSON_NESTING_LIMIT)%nat →
  (∀ x, x ∈ l → f x = print_item (g x) ∧ nested n (g x)) →
  reparse f l = JArr (map g l) ∧ nested (S n) (reparse f l).
Proof.
  intros Hn Hl. assert (Heq : reparse f l = JArr (map g l)).
  { unfold reparse. f_equal. induction l as [|x l IH]; [done|]. simpl.
    destruct (Hl x) as [-> Hx]; [left|]. rewrite (parse_item n) by (auto with lia).
    f_equal. apply IH. intros. apply Hl. by right. }
  split; [done|]. rewrite Heq. simpl. apply Forall_forall. intros j Hj.
  apply list_elem_of_fmap in Hj as (x & -> & Hx). by apply Hl.
Qed.

(** Look the members of a concrete item up. *)
Ltac json_get :=
  unfold GetIntValue, GetStringValue, GetObjectItem; cbn [member children];
  repeat match goal with
  | |- context [same_name ?a ?b] =>
      let v := eval vm_compute in (same_name a b) in change (same_name a b) with v
  end; cbn iota.

(** The obligations of a concrete item's nesting. *)
Ltac json_nested :=
  repeat (constructor; [split; [done|] | ]); first [done | apply c_str_no_nul | idtac].

Lemma endpoint_nested e : nested 2 (USBEndpoint_item e).
Proof. simpl. json_nested. Qed.

Lemma endpoint_back e :
  plain_endpoint e → USBEndpoint_of_json (Some (USBEndpoint_item e)) = e.
Proof.
  intros (? & ? & ? & ? & ?). destruct e. cbn in *. unfold USBEndpoint_of_json, USBEndpoint_item.
  json_get. by autorewrite with json_int.
Qed.

(** The elements of a vector come back one by one. *)
Lemma map_back {A B} (g : A → json) (r : option json → B) (v : A → B) (P : A → Prop) l :
  Forall P l → (∀ x, P x → r (Some (g x)) = v x) → map (λ j, r (Some j)) (map g l) = map v l.
Proof.
  intros Hl Hr. rewrite map_map. induction Hl as [|x l Hx Hl IH]; simpl; [done|].
  by rewrite Hr, IH.
Qed.

Lemma endpoints_items l :
  reparse USBEndpoint_getJsonString l = JArr (map USBEndpoint_item l) ∧
  nested 3 (reparse USBEndpoint_getJsonString l).
Proof. apply reparse_items; [unfold CJSON_NESTING_LIMIT; lia|]. eauto using endpoint_nested. Qed.

Lemma interface_nested i : nested 4 (UsbInterface_item i).
Proof.
  pose proof (proj2 (endpoints_items (UsbInterface.endpoints_ i))).
  unfold UsbInterface_item. json_nested.
Qed.

Lemma interface_back i :
  plain_interface i → UsbInterface_of_json (Some (UsbInterface_item i)) = json_interface i.
Proof.
  intros (? & ? & ? & ? & ? & Hn & He). destruct i as [iid pr cl sc al nm eps ii au]. cbn in *.
  unfold UsbInterface_of_json, UsbInterface_item. json_get. cbn.
  rewrite (proj1 (endpoints_items eps)). cbn [children].
  rewrite (map_back _ USBEndpoint_of_json (λ e, e) _ _ He endpoint_back), map_id, Hn.
  by autorewrite with json_int.
Qed.

Lemma interfaces_items l :
  reparse UsbInterface_getJsonString l = JArr (map UsbInterface_item l) ∧
  nested 5 (reparse UsbInterface_getJsonString l).
Proof. apply reparse_items; [unfold CJSON_NESTING_LIMIT; lia|]. eauto using interface_nested. Qed.

Lemma config_nested c : nested 6 (USBConfig_item c).
Proof.
  pose proof (proj2 (interfaces_items (USBConfig.interfaces_ c))).
  unfold USBConfig_item. json_nested.
Qed.

Lemma config_back c :
  plain_config c → USBConfig_of_json (Some (USBConfig_item c)) = json_config c.
Proof.
  intros (? & ? & ? & Hn & Hi). destruct c as [cid at_ ifs mp nm ic]. cbn in *.
  unfold USBConfig_of_json, USBConfig_item. json_get. cbn.
  rewrite (proj1 (interfaces_items ifs)). cbn [children].
  rewrite (map_back _ UsbInterface_of_json json_interface _ _ Hi interface_back), Hn.
  by autorewrite with json_int.
Qed.

Lemma configs_items l :
  reparse USBConfig_getJsonString l = JArr (map USBConfig_item l) ∧
  nested 7 (reparse USBConfig_getJsonString l).
Proof. apply reparse_items; [unfold CJSON_NESTING_LIMIT; lia|]. eauto using config_nested. Qed.

Lemma device_nested d : nested 8 (UsbDevice_item d).
Proof.
  pose proof (proj2 (configs_items (UsbDevice.configs_ d))).
  unfold UsbDevice_item. json_nested.
Qed.

(** A device that is printed for a broadcast and read back by the constructor is the
    same device, but for the members the text leaves out, which are at their defaults: in
    particular its authorisation status is [ENABLED], its serial number the one character
    of code 0 (the text discloses none), and the string indices of its configurations and
    interfaces unset.  The words must have their top bit clear and the strings no NUL. *)
Theorem UsbDevice_json_roundtrip d :
  plain_device d →
  UsbDevice_of_json (cJSON_Parse (UsbDevice_getJsonString d)) = json_device d.
Proof.
  intros (? & ? & ? & ? & ? & ? & ? & Hn & Hm & Hp & Hv & Hc). unfold UsbDevice_getJsonString.
  rewrite (parse_item 8); [|unfold CJSON_NESTING_LIMIT; lia|apply device_nested].
  destruct d. cbn in *. unfold UsbDevice_of_json, UsbDevice_item. json_get. cbn.
  rewrite (proj1 (configs_items configs_)). cbn [children].
  rewrite (map_back _ USBConfig_of_json json_config _ _ Hc config_back), Hn, Hm, Hp, Hv.
  unfold json_device. cbn. by autorewrite with json_int.
Qed.
End Json.

(** ** A concrete library

    An instance used for evaluation: the text of an item is the bit string of its number
    in a numbering of the items. *)
Section JsonInduction.
Variable Q : json → Prop.
Hypothesis Hnum : ∀ z, Q (JNum z).
Hypothesis Hstr : ∀ s, Q (JStr s).
Hypothesis Hbool : ∀ b, Q (JBool b).
Hypothesis Harr : ∀ l, Forall Q l → Q (JArr l).
Hypothesis Hobj : ∀ l, Forall (λ kv, Q kv.2) l → Q (JObj l).

Fixpoint json_nested_ind (j : json) : Q j :=
  match j with
  | JNum z => Hnum z
  | JStr s => Hstr s
  | JBool b => Hbool b
  | JArr l => Harr l ((fix go l : Forall Q l :=
      match l with [] => Forall_nil_2 Q | j :: l => Forall_cons_2 Q j l (json_nested_ind j) (go l) end) l)
  | JObj l => Hobj l ((fix go l : Forall (λ kv, Q kv.2) l :=
      match l with
      | [] => Forall_nil_2 _
      | kv :: l => Forall_cons_2 _ kv l (json_nested_ind kv.2) (go l)
      end) l)
  end.
End JsonInduction.

Fixpoint json_to_tree (j : json) : gen_tree (Z + string + bool) :=
  match j with
  | JNum z => GenLeaf (inl (inl z))
  | JStr s => GenLeaf (inl (inr s))
  | JBool b => GenLeaf (inr b)
  | JArr l => GenNode 0 (map json_to_tree l)
  | JObj l => GenNode 1 (map (λ kv, GenNode 2 [GenLeaf (inl (inr kv.1)); json_to_tree kv.2]) l)
  end.

Fixpoint tree_to_json (t : gen_tree (Z + string + bool)) : json :=
  match t with
  | GenLeaf (inl (inl z)) => JNum z
  | GenLeaf (inl (inr s)) => JStr s
  | GenLeaf (inr b) => JBool b
  | GenNode 0 l => JArr (map tree_to_json l)
  | GenNode _ l => JObj (omap (λ t,
      match t with
      | GenNode _ [GenLeaf (inl (inr k)); v] => Some (k, tree_to_json v)
      | _ => None
      end) l)
  end.

Lemma tree_of_json j : tree_to_json (json_to_tree j) = j.
Proof.
  induction j as [z|s|b|l IH|l IH] using json_nested_ind; simpl; f_equal; try done.
  - induction IH as [|j l Hj Hl IH]; simpl; [done|]. by rewrite Hj, IH.
  - induction IH as [|[k j] l Hj Hl IH]; csimpl in *; [done|]. by rewrite Hj, IH.
Qed.

#[export] Instance json_eq_dec : EqDecision json.
Proof.
  refine (λ i j, cast_if (decide (json_to_tree i = json_to_tree j))).
  - by rewrite <- (tree_of_json i), <- (tree_of_json j), e.
  - congruence.
Defined.
#[export] Instance json_countable : Countable json := inj_countable' json_to_tree tree_to_json tree_of_json.

Fixpoint bits (p : positive) : string :=
  match p with
  | xH => ""
  | xO p => String "0" (bits p)
  | xI p => String "1" (bits p)
  end.
Fixpoint of_bits (s : string) : positive :=
  match s with
  | EmptyString => xH
  | String c s => if Ascii.eqb c "0" then xO (of_bits s) else xI (of_bits s)
  end.
Lemma of_bits_bits p : of_bits (bits p) = p.
Proof. induction p as [p IH|p IH|]; simpl; by rewrite ?IH. Qed.

#[export] Instance numbered_json : CJson := {
  cJSON_PrintUnformatted j := Some (bits (encode j));
  cJSON_Parse s := decode (of_bits s);
}.

#[export] Instance numbered_json_laws : CJsonLaws.
Proof.
  constructor; [by eexists|]. intros n j s _ _ [= <-]. simpl. by rewrite of_bits_bits, decode_encode.
Qed.

(** *** Witness: a device with one configuration, interface and endpoint *)
Lemma UsbDevice_json_roundtrip_witness :
  UsbDevice_of_json (cJSON_Parse (UsbDevice_getJsonString sample_device)) =
    json_device sample_device.
Proof.
  apply (UsbDevice_json_roundtrip sample_device).
  repeat (split || constructor); try reflexivity; vm_compute; congruence.
Defined.

(** What a reader of the broadcast sees of a device that is not enabled. *)
Example status_lost :
  UsbDevice.authorizeStatus_ (UsbDevice_of_json (cJSON_Parse (UsbDevice_getJsonString
    (UsbDevice.SetAuthorizeStatus DISABLED sample_device)))) = ENABLED.
Proof. done. Qed.
