(* ===== verification/HostDriver.v ===== *)
(** * The host manager: its state and the driver

    [services/native/src/usb_host_manager.cpp], the build with [USB_MANAGER_PASS_THROUGH]
    (the other build does not declare the gadget interface that the policies use): the
    members of [UsbHostManager], the interfaces of the platform, and the operations that
    pass a request on to the host driver.  A pointer to the driver is a [bool], whether it
    is non-null; the two mutexes around a request make it one transition.

    The other parts of the class follow in [HostEvents] (the broadcasts), [HostPolicy]
    (the device policies) and [HostManager] (the table of devices). *)

From stdpp Require Import pretty sorting.
From S2P Require Import Prelude UsbErrors UsbTypes Interfaces Marshalling Json.

#[local] Set Default Goal Selector "!".

(** ** The driver's structures *)
Record UsbDev := mk_UsbDev { busNum : Z; devAddr : Z }.
Record UsbPipe := mk_UsbPipe { intfId : Z; endpointId : Z }.
Record UsbCtrlTransfer := mk_UsbCtrlTransfer {
  requestType : Z; requestCmd : Z; value : Z; index : Z; timeout : Z }.
Record UsbCtrlTransferParams := mk_UsbCtrlTransferParams {
  p_requestType : Z; p_requestCmd : Z; p_value : Z; p_index : Z; p_length : Z; p_timeout : Z }.
(** Of a transfer, the manager reads the endpoint only. *)
Record USBTransferInfo := mk_USBTransferInfo { endpoint : Z; info_rest : list Z }.

#[export] Instance UsbDev_eq_dec : EqDecision UsbDev.
Proof. solve_decision. Defined.

(** ** The table's keys

    A [std::map] with [std::string] keys is enumerated in the order of its keys, which is
    the order of their bytes. *)
Definition string_le (a b : string) : Prop := String.leb a b = true.
#[export] Instance string_le_dec a b : Decision (string_le a b) := decide (_ = _).
Definition keys_in_order {A} (m : gmap string A) : list string :=
  merge_sort string_le (elements (dom m)).

(** [std::to_string(busNum) + "-" + std::to_string(devAddr)] *)
Definition dev_name (busNum devAddr : Z) : string := pretty busNum +:+ "-" +:+ pretty devAddr.

(** ** The platform *)

(** The host driver ([IUsbHostInterface]) and the part of the gadget driver
    ([IUsbDeviceInterface]) that authorises devices.  An operation with an out-parameter
    takes its old value and returns the result code with the new one. *)
Class HostHdi (E : Type) := {
  hdi_BindUsbdHostSubscriber : ST E Z;
  hdi_UnbindUsbdHostSubscriber : ST E Z;
  hdi_OpenDevice : UsbDev → ST E Z;
  hdi_CloseDevice : UsbDev → ST E Z;
  hdi_ResetDevice : UsbDev → ST E Z;
  hdi_ClaimInterface : UsbDev → Z → Z → ST E Z;
  hdi_SetInterface : UsbDev → Z → Z → ST E Z;
  hdi_ReleaseInterface : UsbDev → Z → ST E Z;
  hdi_SetConfig : UsbDev → Z → ST E Z;
  hdi_GetConfig : UsbDev → Z → ST E (Z * Z);
  hdi_ManageInterface : UsbDev → Z → bool → ST E Z;
  hdi_ClearHalt : UsbDev → UsbPipe → ST E Z;
  hdi_GetRawDescriptor : UsbDev → list Z → ST E (Z * list Z);
  hdi_GetStringDescriptor : UsbDev → Z → list Z → ST E (Z * list Z);
  hdi_GetDeviceFileDescriptor : UsbDev → Z → ST E (Z * Z);
  hdi_GetDeviceSpeed : UsbDev → Z → ST E (Z * Z);
  hdi_GetInterfaceActiveStatus : UsbDev → Z → bool → ST E (Z * bool);
  hdi_BulkTransferRead : UsbDev → UsbPipe → Z → list Z → ST E (Z * list Z);
  hdi_BulkTransferReadwithLength : UsbDev → UsbPipe → Z → Z → list Z → ST E (Z * list Z);
  hdi_BulkTransferWrite : UsbDev → UsbPipe → Z → list Z → ST E Z;
  hdi_ControlTransferRead : UsbDev → UsbCtrlTransfer → list Z → ST E (Z * list Z);
  hdi_ControlTransferReadwithLength : UsbDev → UsbCtrlTransferParams → list Z → ST E (Z * list Z);
  hdi_ControlTransferWrite : UsbDev → UsbCtrlTransfer → list Z → ST E Z;
  hdi_RequestQueue : UsbDev → UsbPipe → list Z → list Z → ST E Z;
  hdi_RequestWait : UsbDev → Z → list Z * list Z → ST E (Z * (list Z * list Z));
  hdi_RequestCancel : UsbDev → UsbPipe → ST E Z;
  hdi_UsbCancelTransfer : UsbDev → Z → ST E Z;
  hdi_UsbSubmitTransfer : UsbDev → USBTransferInfo → Z → Z → ST E Z;
  hdi_RegBulkCallback : UsbDev → UsbPipe → Z → ST E Z;
  hdi_UnRegBulkCallback : UsbDev → UsbPipe → ST E Z;
  hdi_BulkRead : UsbDev → UsbPipe → Z → ST E Z;
  hdi_BulkWrite : UsbDev → UsbPipe → Z → ST E Z;
  hdi_BulkCancel : UsbDev → UsbPipe → ST E Z;
  hdi_UsbDeviceAuthorize : Z → Z → bool → ST E Z;
  hdi_UsbInterfaceAuthorize : UsbDev → Z → Z → bool → ST E Z;
}.

(** A common event as it is published: its action, its data, and whether only system
    subscribers receive it. *)
Record CommonEvent := mk_CommonEvent { action : string; data : string; system_only : bool }.

(** A reply of the device-policy service: reading consumes it; [None] is a failed read. *)
Class Reply (Rp : Type) := {
  reply_ReadInt32 : ST Rp (option Z);
  reply_ReadBool : ST Rp (option bool);
}.

(** What the rest of the system offers: the service registry, the policy service, the
    event bus, remote objects, files, time and text conversion. *)
Class HostSystem (E Rp : Type) := {
  GetDeviceInterface : ST E bool;
  GetHostInterface : ST E bool;
  AddDeathRecipient : Z → ST E bool;
  PublishEvent : CommonEvent → ST E bool;
  GetSystemAbilityManager : ST E bool;
  CheckEdmAbility : ST E bool;
  LoadEdmAbility : ST E Z;
  (** the request code and the request's fields; the result code and the reply *)
  EdmSendRequest : Z → list pitem → ST E (Z * Rp);
  (** [access(path, mode)] *)
  access_exists : string → ST E Z;
  access_rw : string → ST E Z;
  (** [steady_clock] in milliseconds *)
  steady_now : E → Z;
  sleep_for : Z → ST E unit;
  (** [iconv] from UTF-16LE to UTF-8: [None] is a failed conversion *)
  iconv_utf16le : list Z → option string;
}.

(** What the manager uses of the serial manager and of the right manager. *)
Class SerialPorts (S : Type) := {
  (** the result code, and the bus and address of each port's device *)
  serial_GetPortList : ST S (Z * list UsbDev);
}.
Class CallerRights (R : Type) := {
  rights_IsSystemAppOrSa : ST R bool;
}.

(** The recipient that watches the client of a submitted transfer. *)
(** [usb_host_manager.h:175-188] [UsbSubmitTransferDeathRecipient] the members *)
Record DeathRecipient := mk_DeathRecipient { devInfo_ : UsbDev; endpoint_ : Z }.

(** ** What the manager publishes *)
(** The fault of a plug event, as it is reported. *)
Record PlugReport := mk_PlugReport {
  class_description : string; interface_description : string; sn_num : string }.

Inductive HostEvent :=
  (** a broadcast, with the device it is about *)
  | Broadcast (dev : UsbDevice.t) (event : CommonEvent)
  | HostPlugReport (event : string) (dev : UsbDevice.t) (report : PlugReport)
  | ManageDeviceReport (operationType : string) (vid pid baseClass subClass protocol : Z)
  | HostProcessExit.

Section HostDriver.
Context {E N S R : Type}.

(** ** The manager's state *)
(** [usb_host_manager.h:165-203] [UsbHostManager] the members, the components they reach and the published events *)
Record st := mk_st {
  devices_ : gmap string UsbDevice.t;
  serialDevices_ : list UsbDev;
  usbSerialManager_ : bool;
  usbHostHdiCb_ : option Z;
  usbDeviceInterface_ : bool;
  usbHostInterface_ : bool;
  usbManagerSubscriber_ : bool;
  recipients : list (Z * DeathRecipient);
  platform : E;
  notifier : N;
  serial : S;
  rights : R;
  log : list HostEvent;
}.

Definition set_devices_ (v : gmap string UsbDevice.t) (s : st) : st :=
  mk_st v (serialDevices_ s) (usbSerialManager_ s) (usbHostHdiCb_ s) (usbDeviceInterface_ s) (usbHostInterface_ s) (usbManagerSubscriber_ s) (recipients s) (platform s) (notifier s) (serial s) (rights s) (log s).
Definition set_serialDevices_ (v : list UsbDev) (s : st) : st :=
  mk_st (devices_ s) v (usbSerialManager_ s) (usbHostHdiCb_ s) (usbDeviceInterface_ s) (usbHostInterface_ s) (usbManagerSubscriber_ s) (recipients s) (platform s) (notifier s) (serial s) (rights s) (log s).
Definition set_usbSerialManager_ (v : bool) (s : st) : st :=
  mk_st (devices_ s) (serialDevices_ s) v (usbHostHdiCb_ s) (usbDeviceInterface_ s) (usbHostInterface_ s) (usbManagerSubscriber_ s) (recipients s) (platform s) (notifier s) (serial s) (rights s) (log s).
Definition set_usbHostHdiCb_ (v : option Z) (s : st) : st :=
  mk_st (devices_ s) (serialDevices_ s) (usbSerialManager_ s) v (usbDeviceInterface_ s) (usbHostInterface_ s) (usbManagerSubscriber_ s) (recipients s) (platform s) (notifier s) (serial s) (rights s) (log s).
Definition set_usbDeviceInterface_ (v : bool) (s : st) : st :=
  mk_st (devices_ s) (serialDevices_ s) (usbSerialManager_ s) (usbHostHdiCb_ s) v (usbHostInterface_ s) (usbManagerSubscriber_ s) (recipients s) (platform s) (notifier s) (serial s) (rights s) (log s).
Definition set_usbHostInterface_ (v : bool) (s : st) : st :=
  mk_st (devices_ s) (serialDevices_ s) (usbSerialManager_ s) (usbHostHdiCb_ s) (usbDeviceInterface_ s) v (usbManagerSubscriber_ s) (recipients s) (platform s) (notifier s) (serial s) (rights s) (log s).
Definition set_usbManagerSubscriber_ (v : bool) (s : st) : st :=
  mk_st (devices_ s) (serialDevices_ s) (usbSerialManager_ s) (usbHostHdiCb_ s) (usbDeviceInterface_ s) (usbHostInterface_ s) v (recipients s) (platform s) (notifier s) (serial s) (rights s) (log s).
Definition set_recipients (v : list (Z * DeathRecipient)) (s : st) : st :=
  mk_st (devices_ s) (serialDevices_ s) (usbSerialManager_ s) (usbHostHdiCb_ s) (usbDeviceInterface_ s) (usbHostInterface_ s) (usbManagerSubscriber_ s) v (platform s) (notifier s) (serial s) (rights s) (log s).
Definition set_platform (v : E) (s : st) : st :=
  mk_st (devices_ s) (serialDevices_ s) (usbSerialManager_ s) (usbHostHdiCb_ s) (usbDeviceInterface_ s) (usbHostInterface_ s) (usbManagerSubscriber_ s) (recipients s) v (notifier s) (serial s) (rights s) (log s).
Definition set_notifier (v : N) (s : st) : st :=
  mk_st (devices_ s) (serialDevices_ s) (usbSerialManager_ s) (usbHostHdiCb_ s) (usbDeviceInterface_ s) (usbHostInterface_ s) (usbManagerSubscriber_ s) (recipients s) (platform s) v (serial s) (rights s) (log s).
Definition set_serial (v : S) (s : st) : st :=
  mk_st (devices_ s) (serialDevices_ s) (usbSerialManager_ s) (usbHostHdiCb_ s) (usbDeviceInterface_ s) (usbHostInterface_ s) (usbManagerSubscriber_ s) (recipients s) (platform s) (notifier s) v (rights s) (log s).
Definition set_rights (v : R) (s : st) : st :=
  mk_st (devices_ s) (serialDevices_ s) (usbSerialManager_ s) (usbHostHdiCb_ s) (usbDeviceInterface_ s) (usbHostInterface_ s) (usbManagerSubscriber_ s) (recipients s) (platform s) (notifier s) (serial s) v (log s).
Definition set_log (v : list HostEvent) (s : st) : st :=
  mk_st (devices_ s) (serialDevices_ s) (usbSerialManager_ s) (usbHostHdiCb_ s) (usbDeviceInterface_ s) (usbHostInterface_ s) (usbManagerSubscriber_ s) (recipients s) (platform s) (notifier s) (serial s) (rights s) v.
Context {Rp : Type} `{EB : ErrBase} `{HD : HostHdi E} `{SY : HostSystem E Rp}.

Definition on_platform {A} (m : ST E A) : ST st A :=
  λ s, let '(a, e) := m (platform s) in (a, set_platform e s).
Definition on_notifier {A} (m : ST N A) : ST st A :=
  λ s, let '(a, n) := m (notifier s) in (a, set_notifier n s).
Definition on_serial {A} (m : ST S A) : ST st A :=
  λ s, let '(a, r) := m (serial s) in (a, set_serial r s).
Definition on_rights {A} (m : ST R A) : ST st A :=
  λ s, let '(a, r) := m (rights s) in (a, set_rights r s).
Definition emit (e : HostEvent) : ST st unit := modify (λ s, set_log (log s ++ [e]) s).

(** A request to the driver: refused when the driver was never obtained. *)
Definition with_host (m : ST E Z) : ST st Z :=
  b ← gets usbHostInterface_;
  if (b : bool) then on_platform m else mret UEC_SERVICE_INVALID_VALUE.
Definition with_host_out {A} (x : A) (m : ST E (Z * A)) : ST st (Z * A) :=
  b ← gets usbHostInterface_;
  if (b : bool) then on_platform m else mret (UEC_SERVICE_INVALID_VALUE, x).

(** The device under a key, which the loops over [devices_] read afresh at each use. *)
Definition device_at (name : string) : ST st (option UsbDevice.t) := gets (λ s, devices_ s !! name).
Definition update_device (name : string) (f : UsbDevice.t → UsbDevice.t) : ST st unit :=
  modify (λ s, set_devices_ (alter f name (devices_ s)) s).

(** [for (auto it = devices_.begin(); ...)], with an early exit on [Some r]. *)
Fixpoint until_some {A B} (l : list A) (f : A → ST st (option B)) : ST st (option B) :=
  match l with
  | [] => mret None
  | x :: l =>
      r ← f x;
      match r with Some b => mret (Some b) | None => until_some l f end
  end.
Definition for_devices (f : string → UsbDevice.t → ST st unit) : ST st unit :=
  devs ← gets devices_;
  mfor (keys_in_order devs) (λ name,
    d ← device_at name;
    match d with Some d => f name d | None => mret tt end).

(** ** Starting and stopping *)

(** [usb_host_manager.cpp:140-160] [UsbHostManager::InitUsbHostInterface] *)
Definition InitUsbHostInterface : ST st bool :=
  b ← on_platform GetDeviceInterface;
  modify (set_usbDeviceInterface_ b) ;;
  if negb b then mret false
  else
    h ← on_platform GetHostInterface;
    modify (set_usbHostInterface_ h) ;;
    if negb h then mret false
    else
      modify (set_usbManagerSubscriber_ true) ;;
      ret ← on_platform hdi_BindUsbdHostSubscriber;
      mret (ret =? ERR_OK).

(** [usb_host_manager.cpp:163-171] [UsbHostManager::Stop] *)
Definition Stop : ST st unit :=
  b ← gets usbHostInterface_;
  if negb b then mret tt
  else on_platform hdi_UnbindUsbdHostSubscriber ;; emit HostProcessExit.

(** ** Requests to the driver *)

(** [usb_host_manager.cpp:173-180] [UsbHostManager::BindUsbdSubscriber] *)
Definition BindUsbdSubscriber : ST st Z := with_host hdi_BindUsbdHostSubscriber.

(** [usb_host_manager.cpp:182-189] [UsbHostManager::UnbindUsbdSubscriber] *)
Definition UnbindUsbdSubscriber : ST st Z := with_host hdi_UnbindUsbdHostSubscriber.

(** [usb_host_manager.cpp:267-275] [UsbHostManager::OpenDevice] *)
Definition OpenDevice (busNum devAddr : Z) : ST st Z :=
  with_host (hdi_OpenDevice (mk_UsbDev busNum devAddr)).

(** [usb_host_manager.cpp:286-294] [UsbHostManager::Close] *)
Definition Close (busNum devAddr : Z) : ST st Z :=
  with_host (hdi_CloseDevice (mk_UsbDev busNum devAddr)).

(** [usb_host_manager.cpp:305-313] [UsbHostManager::ResetDevice] *)
Definition ResetDevice (busNum devAddr : Z) : ST st Z :=
  with_host (hdi_ResetDevice (mk_UsbDev busNum devAddr)).

(** [usb_host_manager.cpp:324-332] [UsbHostManager::ClaimInterface] *)
Definition ClaimInterface (busNum devAddr interfaceid force : Z) : ST st Z :=
  with_host (hdi_ClaimInterface (mk_UsbDev busNum devAddr) interfaceid force).

(** [usb_host_manager.cpp:343-351] [UsbHostManager::SetInterface] *)
Definition SetInterface (busNum devAddr interfaceid altIndex : Z) : ST st Z :=
  with_host (hdi_SetInterface (mk_UsbDev busNum devAddr) interfaceid altIndex).

(** [usb_host_manager.cpp:362-370] [UsbHostManager::ReleaseInterface] *)
Definition ReleaseInterface (busNum devAddr interface : Z) : ST st Z :=
  with_host (hdi_ReleaseInterface (mk_UsbDev busNum devAddr) interface).

(** [usb_host_manager.cpp:381-389] [UsbHostManager::SetActiveConfig] *)
Definition SetActiveConfig (busNum devAddr configIndex : Z) : ST st Z :=
  with_host (hdi_SetConfig (mk_UsbDev busNum devAddr) configIndex).

(** [usb_host_manager.cpp:421-429] [UsbHostManager::UsbAttachKernelDriver] *)
Definition UsbAttachKernelDriver (busNum devAddr interfaceid : Z) : ST st Z :=
  with_host (hdi_ManageInterface (mk_UsbDev busNum devAddr) interfaceid false).

(** [usb_host_manager.cpp:441-449] [UsbHostManager::UsbDetachKernelDriver] *)
Definition UsbDetachKernelDriver (busNum devAddr interfaceid : Z) : ST st Z :=
  with_host (hdi_ManageInterface (mk_UsbDev busNum devAddr) interfaceid true).

(** [usb_host_manager.cpp:461-470] [UsbHostManager::ClearHalt] *)
Definition ClearHalt (busNum devAddr interfaceId endpointId : Z) : ST st Z :=
  with_host (hdi_ClearHalt (mk_UsbDev busNum devAddr) (mk_UsbPipe interfaceId endpointId)).

(** [usb_host_manager.cpp:748-758] [UsbHostManager::BulkTransferWrite] *)
Definition BulkTransferWrite (dev : UsbDev) (pipe : UsbPipe) (bufferData : list Z) (timeOut : Z) : ST st Z :=
  with_host (hdi_BulkTransferWrite dev pipe timeOut bufferData).

(** [usb_host_manager.cpp:871-881] [UsbHostManager::RequestQueue] *)
Definition RequestQueue (dev : UsbDev) (pipe : UsbPipe) (clientData bufferData : list Z) : ST st Z :=
  with_host (hdi_RequestQueue dev pipe clientData bufferData).

(** [usb_host_manager.cpp:910-919] [UsbHostManager::RequestCancel] *)
Definition RequestCancel (busNum devAddr interfaceId endpointId : Z) : ST st Z :=
  with_host (hdi_RequestCancel (mk_UsbDev busNum devAddr) (mk_UsbPipe interfaceId endpointId)).

(** [usb_host_manager.cpp:932-940] [UsbHostManager::UsbCancelTransfer] *)
Definition UsbCancelTransfer (devInfo : UsbDev) (endpoint : Z) : ST st Z :=
  with_host (hdi_UsbCancelTransfer devInfo endpoint).

(** [usb_host_manager.cpp:1103-1112] [UsbHostManager::BulkCancel] *)
Definition BulkCancel (devInfo : UsbDev) (pipe : UsbPipe) : ST st Z :=
  with_host (hdi_BulkCancel devInfo pipe).

(** [usb_host_manager.cpp:1868-1876] [UsbHostManager::ManageInterface] *)
Definition ManageInterface (dev : UsbDev) (interfaceId : Z) (disable : bool) : ST st Z :=
  with_host (hdi_ManageInterface dev interfaceId disable).

(** [usb_host_manager.cpp:610-618] [UsbHostManager::GetActiveConfig] *)
Definition GetActiveConfig (busNum devAddr : Z) (configIndex : Z) : ST st (Z * Z) :=
  with_host_out configIndex (hdi_GetConfig (mk_UsbDev busNum devAddr) configIndex).

(** [usb_host_manager.cpp:630-638] [UsbHostManager::GetRawDescriptor] *)
Definition GetRawDescriptor (busNum devAddr : Z) (bufferData : list Z) : ST st (Z * list Z) :=
  with_host_out bufferData (hdi_GetRawDescriptor (mk_UsbDev busNum devAddr) bufferData).

(** [usb_host_manager.cpp:649-657] [UsbHostManager::GetFileDescriptor] *)
Definition GetFileDescriptor (busNum devAddr : Z) (fd : Z) : ST st (Z * Z) :=
  with_host_out fd (hdi_GetDeviceFileDescriptor (mk_UsbDev busNum devAddr) fd).

(** [usb_host_manager.cpp:668-676] [UsbHostManager::GetDeviceSpeed] *)
Definition GetDeviceSpeed (busNum devAddr : Z) (speed : Z) : ST st (Z * Z) :=
  with_host_out speed (hdi_GetDeviceSpeed (mk_UsbDev busNum devAddr) speed).

(** [usb_host_manager.cpp:687-696] [UsbHostManager::GetInterfaceActiveStatus] *)
Definition GetInterfaceActiveStatus (busNum devAddr interfaceid : Z) (unactivated : bool) : ST st (Z * bool) :=
  with_host_out unactivated (hdi_GetInterfaceActiveStatus (mk_UsbDev busNum devAddr) interfaceid unactivated).

(** [usb_host_manager.cpp:707-717] [UsbHostManager::BulkTransferRead] *)
Definition BulkTransferRead (dev : UsbDev) (pipe : UsbPipe) (timeOut : Z) (bufferData : list Z) : ST st (Z * list Z) :=
  with_host_out bufferData (hdi_BulkTransferRead dev pipe timeOut bufferData).

(** [usb_host_manager.cpp:728-738] [UsbHostManager::BulkTransferReadwithLength] *)
Definition BulkTransferReadwithLength (dev : UsbDev) (pipe : UsbPipe) (length timeOut : Z) (bufferData : list Z) : ST st (Z * list Z) :=
  with_host_out bufferData (hdi_BulkTransferReadwithLength dev pipe timeOut length bufferData).

(** [usb_host_manager.cpp:891-900] [UsbHostManager::RequestWait] *)
Definition RequestWait (dev : UsbDev) (timeOut : Z) (data : list Z * list Z) : ST st (Z * (list Z * list Z)) :=
  with_host_out data (hdi_RequestWait dev timeOut data).

(** ** Control transfers

    The direction bit of the request decides between the driver's read and write. *)
(** [usb_host_manager.cpp:768-792] [UsbHostManager::ControlTransfer] *)
Definition ControlTransfer (dev : UsbDev) (ctrl : UsbCtrlTransfer) (bufferData : list Z)
    : ST st (Z * list Z) :=
  b ← gets usbHostInterface_;
  if negb b then mret (UEC_SERVICE_INVALID_VALUE, bufferData)
  else if Z.land (u32 (requestType ctrl)) USB_ENDPOINT_DIR_MASK =? USB_ENDPOINT_DIR_OUT then
    ret ← on_platform (hdi_ControlTransferWrite dev ctrl bufferData);
    mret (ret, bufferData)
  else on_platform (hdi_ControlTransferRead dev ctrl []).

(** [usb_host_manager.cpp:816-844] [UsbHostManager::UsbControlTransfer] *)
Definition UsbControlTransfer (dev : UsbDev) (ctrlParams : UsbCtrlTransferParams)
    (bufferData : list Z) : ST st (Z * list Z) :=
  b ← gets usbHostInterface_;
  if negb b then mret (UEC_SERVICE_INVALID_VALUE, bufferData)
  else
    let ctrl := mk_UsbCtrlTransfer (p_requestType ctrlParams) (p_requestCmd ctrlParams)
                  (p_value ctrlParams) (p_index ctrlParams) (p_timeout ctrlParams) in
    if Z.land (u32 (p_requestType ctrlParams)) USB_ENDPOINT_DIR_MASK =? USB_ENDPOINT_DIR_OUT then
      ret ← on_platform (hdi_ControlTransferWrite dev ctrl bufferData);
      mret (ret, bufferData)
    else on_platform (hdi_ControlTransferReadwithLength dev ctrlParams []).

(** ** Submitted transfers and the death of their clients *)

(** [usb_host_manager.cpp:955-995] [UsbHostManager::UsbSubmitTransfer] [cb] is the client's remote object, [ashmem] the shared memory *)
Definition UsbSubmitTransfer (devInfo : UsbDev) (info : USBTransferInfo) (cb ashmem : Z) : ST st Z :=
  b ← gets usbHostInterface_;
  if negb b then mret UEC_SERVICE_INVALID_VALUE
  else
    let submitRecipient := mk_DeathRecipient devInfo (endpoint info) in
    ok ← on_platform (AddDeathRecipient cb);
    if negb ok then mret UEC_SERVICE_INVALID_VALUE
    else
      before ← gets recipients;
      modify (set_recipients (before ++ [(cb, submitRecipient)])) ;;
      ret ← on_platform (hdi_UsbSubmitTransfer devInfo info cb ashmem);
      if negb (ret =? UEC_OK) then
        modify (set_recipients before) ;;
        mret ret
      else mret ret.

(** [usb_host_manager.cpp:193-201] [UsbSubmitTransferDeathRecipient::OnRemoteDied] *)
Definition OnRemoteDied (r : DeathRecipient) : ST st unit :=
  ret ← UsbCancelTransfer (devInfo_ r) (endpoint_ r);
  if ret =? UEC_OK then Close (busNum (devInfo_ r)) (devAddr (devInfo_ r)) ;; mret tt
  else mret tt.

(** ** Bulk callbacks

    The wrapper of the client's callback is created once and reused until it is dropped. *)
(** [usb_host_manager.cpp:997-1015] [UsbHostManager::RegBulkCallback] *)
Definition RegBulkCallback (devInfo : UsbDev) (pipe : UsbPipe) (cb : option Z) : ST st Z :=
  match cb with
  | None => mret UEC_SERVICE_INVALID_VALUE
  | Some cb =>
      old ← gets usbHostHdiCb_;
      let wrapped := default cb old in
      modify (set_usbHostHdiCb_ (Some wrapped)) ;;
      with_host (hdi_RegBulkCallback devInfo pipe wrapped)
  end.

(** [usb_host_manager.cpp:1029-1040] [UsbHostManager::UnRegBulkCallback] *)
Definition UnRegBulkCallback (devInfo : UsbDev) (pipe : UsbPipe) : ST st Z :=
  b ← gets usbHostInterface_;
  if negb b then mret UEC_SERVICE_INVALID_VALUE
  else
    modify (set_usbHostHdiCb_ None) ;;
    on_platform (hdi_UnRegBulkCallback devInfo pipe).

(** [usb_host_manager.cpp:1053-1067] [UsbHostManager::BulkRead] *)
Definition BulkRead (devInfo : UsbDev) (pipe : UsbPipe) (ashmem : option Z) : ST st Z :=
  match ashmem with
  | None => mret UEC_SERVICE_INVALID_VALUE
  | Some m => with_host (hdi_BulkRead devInfo pipe m)
  end.

(** [usb_host_manager.cpp:1078-1092] [UsbHostManager::BulkWrite] *)
Definition BulkWrite (devInfo : UsbDev) (pipe : UsbPipe) (ashmem : option Z) : ST st Z :=
  match ashmem with
  | None => mret UEC_SERVICE_INVALID_VALUE
  | Some m => with_host (hdi_BulkWrite devInfo pipe m)
  end.

(** ** Running a call of a component *)
Lemma invalid_not_ok : UEC_SERVICE_INVALID_VALUE ≠ UEC_OK.
Proof. uec. Qed.
Lemma on_platform_run {A} (m : ST E A) (s : st) :
  on_platform m s = ((m (platform s)).1, set_platform (m (platform s)).2 s).
Proof. unfold on_platform. by destruct (m (platform s)). Qed.
Lemma on_notifier_run {A} (m : ST N A) (s : st) :
  on_notifier m s = ((m (notifier s)).1, set_notifier (m (notifier s)).2 s).
Proof. unfold on_notifier. by destruct (m (notifier s)). Qed.
Lemma on_serial_run {A} (m : ST S A) (s : st) :
  on_serial m s = ((m (serial s)).1, set_serial (m (serial s)).2 s).
Proof. unfold on_serial. by destruct (m (serial s)). Qed.
Lemma on_rights_run {A} (m : ST R A) (s : st) :
  on_rights m s = ((m (rights s)).1, set_rights (m (rights s)).2 s).
Proof. unfold on_rights. by destruct (m (rights s)). Qed.

(** Everything but the table, the log, the platform and the notifier is the same. *)
Record host_frame (s s' : st) : Prop := {
  fr_serialDevices : serialDevices_ s' = serialDevices_ s;
  fr_serialManager : usbSerialManager_ s' = usbSerialManager_ s;
  fr_callback : usbHostHdiCb_ s' = usbHostHdiCb_ s;
  fr_device_interface : usbDeviceInterface_ s' = usbDeviceInterface_ s;
  fr_host_interface : usbHostInterface_ s' = usbHostInterface_ s;
  fr_recipients : recipients s' = recipients s;
  fr_serial : serial s' = serial s;
  fr_rights : rights s' = rights s;
}.
#[global] Instance host_frame_preorder : PreOrder host_frame.
Proof.
  split; [by intros s; split|]. intros s1 s2 s3 [] []. split; congruence.
Qed.
End HostDriver.
Arguments st : clear implicits.
