(* ===== verification/HostEvents.v ===== *)
(** * The host manager: what it reports

    The part of [services/native/src/usb_host_manager.cpp] that describes a device to the
    rest of the system: the attach and detach broadcasts with the reverse-charging
    notification, the plug reports and the policy reports. *)

From Stdlib Require Import Ascii.
From S2P Require Import Prelude UsbErrors UsbTypes Interfaces Json HostDriver.

#[local] Set Default Goal Selector "!".

(** [CommonEventSupport]'s names of the two broadcasts. *)
Definition COMMON_EVENT_USB_DEVICE_ATTACHED : string :=
  "usual.event.hardware.usb.action.USB_DEVICE_ATTACHED".
Definition COMMON_EVENT_USB_DEVICE_DETACHED : string :=
  "usual.event.hardware.usb.action.USB_DEVICE_DETACHED".

(** ** Descriptions *)

(** [std::hex] with [std::setw(width)] and [std::setfill('0')], of a 32-bit integer. *)
Definition hex_char (upper : bool) (d : Z) : ascii :=
  ascii_of_nat (Z.to_nat (if d <? 10 then 48 + d else (if upper then 55 else 87) + d)).
Fixpoint hex_digits (upper : bool) (fuel : nat) (z : Z) (rest : string) : string :=
  match fuel with
  | O => rest
  | S fuel =>
      let rest := String (hex_char upper (z mod 16)) rest in
      if z / 16 =? 0 then rest else hex_digits upper fuel (z / 16) rest
  end.
Fixpoint pad_zeros (n : nat) (s : string) : string :=
  match n with O => s | S n => String "0" (pad_zeros n s) end.
Definition setw_hex (upper : bool) (width : nat) (z : Z) : string :=
  let s := hex_digits upper 8 (u32 z) "" in pad_zeros (width - String.length s) s.

(** [usb_host_manager.cpp:55-59] the constants of the descriptions *)
Definition CLASS_PRINT_LENGTH : nat := 2.
Definition USAGE_IN_INTERFACE_CLASS : Z := 0.
Definition DES_USAGE_IN_INTERFACE : Z := 2.
Definition BCD_HEX_DIGITS : nat := 4.
Definition LAST_FIVE : nat := 5.

(** [usb_host_manager.cpp:109-111] the classes that are told apart *)
Definition RANDOM_VALUE_INDICATE : Z := -1.
Definition BASE_CLASS_AUDIO : Z := 1.
Definition BASE_CLASS_HUB : Z := 9.

(** [usb_host_manager.h:44-50] [DeviceClassUsage] *)
Record DeviceClassUsage := mk_DeviceClassUsage { usage : Z; description : string }.

(** [usb_host_manager.cpp:63-81] [deviceUsageMap] *)
Definition deviceUsageMap : list (Z * DeviceClassUsage) :=
  [(0, mk_DeviceClassUsage 2 "Use class information in the Interface Descriptors");
   (1, mk_DeviceClassUsage 2 "Audio");
   (2, mk_DeviceClassUsage 3 "Communications and CDC Control");
   (3, mk_DeviceClassUsage 2 "HID(Human Interface Device)");
   (5, mk_DeviceClassUsage 2 "Physical");
   (6, mk_DeviceClassUsage 2 "Image");
   (7, mk_DeviceClassUsage 2 "Printer");
   (8, mk_DeviceClassUsage 2 "Mass Storage");
   (9, mk_DeviceClassUsage 1 "Hub");
   (10, mk_DeviceClassUsage 2 "CDC-Data");
   (11, mk_DeviceClassUsage 2 "Smart Card");
   (13, mk_DeviceClassUsage 2 "Content Security");
   (14, mk_DeviceClassUsage 2 "Video");
   (15, mk_DeviceClassUsage 2 "Personal Healthcare");
   (16, mk_DeviceClassUsage 2 "Audio/Video Device");
   (17, mk_DeviceClassUsage 1 "Billboard Device Class");
   (18, mk_DeviceClassUsage 2 "USB Type-C Bridge Class")].

(** [usb_interface_type.h:98-119] [UsbDeviceType] *)
Record UsbDeviceType := mk_UsbDeviceType {
  t_baseClass : Z; t_subClass : Z; t_protocol : Z; isDeviceType : bool }.

(** [usb_interface_type.h:103-112] [UsbDeviceType::operator<] equality under the order *)
Definition same_triple (a b : UsbDeviceType) : bool :=
  (t_baseClass a =? t_baseClass b) && (t_subClass a =? t_subClass b) &&
  (t_protocol a =? t_protocol b).

(** [usb_host_manager.cpp:83-86] [interfaceUsageMap] *)
Definition interfaceUsageMap : list (UsbDeviceType * string) :=
  [(mk_UsbDeviceType 3 1 1 false, "KeyBoard"%string);
   (mk_UsbDeviceType 3 1 2 false, "Mouse/Table/Touch screen"%string)].

(** [usb_host_manager.cpp:1309-1320] [UsbHostManager::GetDeviceDescription] *)
Definition GetDeviceDescription (baseClass : Z) : string * Z :=
  match list_find (λ kv, kv.1 = baseClass) deviceUsageMap with
  | Some (_, (_, u)) => (description u, usage u)
  | None => ("NA"%string, 1)
  end.

(** [usb_host_manager.cpp:1323-1331] [UsbHostManager::ConcatenateToDescription] *)
Definition ConcatenateToDescription (interfaceType : UsbDeviceType) (str : string) : string :=
  (setw_hex false CLASS_PRINT_LENGTH (t_baseClass interfaceType) +:+ "_" +:+
   setw_hex false CLASS_PRINT_LENGTH (t_subClass interfaceType) +:+ "_" +:+
   setw_hex false CLASS_PRINT_LENGTH (t_protocol interfaceType) +:+ "," +:+ str)%string.

(** [usb_host_manager.cpp:1333-1341] [UsbHostManager::GetInterfaceUsageDescription] *)
Definition GetInterfaceUsageDescription (interfaceType : UsbDeviceType) : string :=
  match list_find (λ kv, same_triple kv.1 interfaceType = true) interfaceUsageMap with
  | Some (_, (_, d)) => d
  | None => "NA"
  end.

(** [usb_host_manager.cpp:1343-1364] [UsbHostManager::GetInterfaceDescription] the description and the base class it extends *)
Definition GetInterfaceDescription (dev : UsbDevice.t) (description : string) (baseClass : Z)
    : string * Z :=
  foldl (λ acc i,
    let config := default USBConfig.default (UsbDevice.GetConfig i dev) in
    foldl (λ '(description, _) j,
      let description :=
        if negb (i =? 0) || negb (j =? 0) then (description +:+ ";")%string else description in
      let interface := default UsbInterface.default (USBConfig.GetInterface j config) in
      let interfaceType := mk_UsbDeviceType (UsbInterface.GetClass interface)
        (UsbInterface.GetSubClass interface) (UsbInterface.GetProtocol interface) false in
      ((description +:+ ConcatenateToDescription interfaceType
          (GetInterfaceUsageDescription interfaceType))%string,
       UsbInterface.GetClass interface))
      acc (seqZ 0 (USBConfig.GetInterfaceCount config)))
    (description, baseClass) (seqZ 0 (UsbDevice.GetConfigCount dev)).

(** What a plug report says of a device. *)
(** [usb_host_manager.cpp:1366-1392] [UsbHostManager::ReportHostPlugSysEvent] the computed fields *)
Definition plug_report (dev : UsbDevice.t) : PlugReport :=
  let '(deviceUsageDes, deviceUsage) := GetDeviceDescription (UsbDevice.GetClass dev) in
  let '(extUsageDes, intfBaseClass) :=
    if negb (Z.land deviceUsage DES_USAGE_IN_INTERFACE =? 0)
    then GetInterfaceDescription dev "" 0 else (""%string, 0) in
  let deviceUsageDes :=
    if UsbDevice.GetClass dev =? USAGE_IN_INTERFACE_CLASS
    then (GetDeviceDescription intfBaseClass).1 else deviceUsageDes in
  let n := String.length (UsbDevice.GetmSerial dev) in
  mk_PlugReport deviceUsageDes extUsageDes
    (if bool_decide (LAST_FIVE < n)%nat
     then String.substring (n - LAST_FIVE) LAST_FIVE (UsbDevice.GetmSerial dev) else "").

(** [usb_host_manager.cpp:1394-1399] [BcdToString] *)
Definition BcdToString (bcdUsb : Z) : string := setw_hex true BCD_HEX_DIGITS bcdUsb.

(** ** Broadcasts *)

(** [usb_host_manager.cpp:1260-1270] [IsAudioDevice] *)
Definition IsAudioDevice (dev : UsbDevice.t) : bool :=
  existsb (λ config, existsb (λ intf, UsbInterface.GetClass intf =? BASE_CLASS_AUDIO)
                       (USBConfig.GetInterfaces config)) (UsbDevice.GetConfigs dev).

Section HostEvents.
Context {E N SM R Rp : Type} `{EB : ErrBase} `{HD : HostHdi E} `{SY : HostSystem E Rp}.
Context `{NO : NotifierOps N} `{CJ : CJson}.
Abbreviation st := (HostDriver.st E N SM R).

(** [usb_host_manager.cpp:1366-1392] [UsbHostManager::ReportHostPlugSysEvent] *)
Definition ReportHostPlugSysEvent (event : string) (dev : UsbDevice.t) : ST st unit :=
  emit (HostPlugReport event dev (plug_report dev)).

(** [CommonEventManager::PublishCommonEvent], recorded with the device it is about. *)
Definition publish (dev : UsbDevice.t) (e : CommonEvent) : ST st bool :=
  emit (Broadcast dev e) ;; on_platform (PublishEvent e).

(** [usb_host_manager.cpp:1272-1292] [UsbHostManager::PublishCommonEvent] *)
Definition PublishCommonEvent (event : string) (dev : UsbDevice.t) : ST st bool :=
  let hub := UsbDevice.GetClass dev =? BASE_CLASS_HUB in
  (if hub then mret tt
   else if IsAudioDevice dev then mret tt
   else if String.eqb event COMMON_EVENT_USB_DEVICE_DETACHED
   then on_notifier (notify_Cancel true)
   else on_notifier (notify_Send USB_FUNC_REVERSE_CHARGE)) ;;
  ReportHostPlugSysEvent event dev ;;
  publish dev (mk_CommonEvent event (UsbDevice_getJsonString dev) hub).

(** [usb_host_manager.cpp:2151-2176] [UsbHostManager::ReportManageDeviceInfo] [interface] is read only for an interface report *)
Definition ReportManageDeviceInfo (operationType : string) (device : UsbDevice.t)
    (interface : option UsbInterface.t) (isInterfaceType : bool) : ST st unit :=
  let vid := UsbDevice.GetVendorId device in
  let pid := UsbDevice.GetProductId device in
  match isInterfaceType, interface with
  | true, Some interface =>
      emit (ManageDeviceReport operationType vid pid (UsbInterface.GetClass interface)
              (UsbInterface.GetSubClass interface) (UsbInterface.GetProtocol interface))
  | _, _ =>
      emit (ManageDeviceReport operationType vid pid (UsbDevice.GetClass device)
              (UsbDevice.GetSubclass device) (UsbDevice.GetProtocol device))
  end.
(** What [PublishCommonEvent] adds to the log. *)
Definition announcement (ev : string) (d : UsbDevice.t) : list HostEvent :=
  [HostPlugReport ev d (plug_report d);
   Broadcast d (mk_CommonEvent ev (UsbDevice_getJsonString d)
                  (UsbDevice.GetClass d =? BASE_CLASS_HUB))].

Lemma PublishCommonEvent_run ev d (s : st) :
  ∃ ok e n, PublishCommonEvent ev d s =
    (ok, set_log (log s ++ announcement ev d)
           (set_platform e (set_notifier n s))).
Proof.
  unfold PublishCommonEvent, announcement, ReportHostPlugSysEvent, publish, emit.
  repeat case_if; st_exec; rewrite ?on_notifier_run, ?on_platform_run; st_exec;
    rewrite ?on_platform_run; st_exec; rewrite ?on_platform_run; cbn; rewrite <- app_assoc.
  all: destruct s; by eexists _, _, _.
Qed.
End HostEvents.

(** *** Evaluation *)
Example bcd_2_0 : BcdToString 512 = "0200"%string.
Proof. reflexivity. Qed.
Example keyboard_description :
  ConcatenateToDescription (mk_UsbDeviceType 3 1 1 false)
    (GetInterfaceUsageDescription (mk_UsbDeviceType 3 1 1 true)) = "03_01_01,KeyBoard"%string.
Proof. reflexivity. Qed.
Example vendor_description :
  ConcatenateToDescription (mk_UsbDeviceType 255 (-1) 10 false) "NA" = "ff_ffffffff_0a,NA"%string.
Proof. reflexivity. Qed.
