(* ===== verification/HostPolicy.v ===== *)
(** * The host manager: device policies

    The part of [services/native/src/usb_host_manager.cpp] that applies the policies of
    the enterprise device manager (EDM): whole devices and single interfaces are
    authorised or not, by a global switch, by type, by a list of trusted devices, or for
    being a USB serial port.

    The type tables are [std::unordered_map]s, whose order of enumeration is not
    specified: it is the parameter [hash_order]. *)

From S2P Require Import Prelude UsbErrors UsbTypes Interfaces Marshalling Json HostDriver.
From S2P Require Import HostEvents.

#[local] Set Default Goal Selector "!".

(** ** Types of devices and interfaces *)
(** The three values of a table entry: base class, subclass and protocol, -1 for any. *)
Record TypeValues := mk_TypeValues { v_baseClass : Z; v_subClass : Z; v_protocol : Z }.

(** [usb_interface_type.h:23-96] [InterfaceType] *)
Inductive InterfaceType :=
  | TYPE_INTERFACE | TYPE_STORAGE | TYPE_AUDIO | TYPE_HID | TYPE_PHYSICAL | TYPE_IMAGE
  | TYPE_PRINTER | TYPE_COMMUNICATION | TYPE_FULL_SPEED_HUB | TYPE_FULL_SPEED_HUB_S
  | TYPE_FULL_SPEED_HUB_M | TYPE_CDC_DATA | TYPE_SMART_CARD | TYPE_CONTENT_SECURTIY
  | TYPE_VIDEO | TYPE_PERSONAL_HEALTHCARE | TYPE_AVCONTROL | TYPE_AVV_STREAMING
  | TYPE_AVA_STREAMING | TYPE_BILLBOARD | TYPE_TYPEC_BRIDGE | TYPE_BDP | TYPE_MCTP_MANA_1
  | TYPE_MCTP_MANA_2 | TYPE_MCTP_HOST_1 | TYPE_MCTP_HOST_2 | TYPE_I3C | TYPE_DIAGNOSTIC_1
  | TYPE_DIAGNOSTIC_2 | TYPE_DIAGNOSTIC_3 | TYPE_DIAGNOSTIC_4 | TYPE_DIAGNOSTIC_5
  | TYPE_DIAGNOSTIC_6 | TYPE_DIAGNOSTIC_7 | TYPE_DIAGNOSTIC_8 | TYPE_DIAGNOSTIC_9
  | TYPE_DIAGNOSTIC_10 | TYPE_DIAGNOSTIC_11 | TYPE_DIAGNOSTIC_12 | TYPE_DIAGNOSTIC_13
  | TYPE_DIAGNOSTIC_14 | TYPE_WIRLESS_CONTROLLER_1 | TYPE_WIRLESS_CONTROLLER_2
  | TYPE_WIRLESS_CONTROLLER_3 | TYPE_WIRLESS_CONTROLLER_4 | TYPE_WIRLESS_CONTROLLER_5
  | TYPE_WIRLESS_CONTROLLER_6 | TYPE_WIRLESS_CONTROLLER_7 | TYPE_MISCELLANEOUS_1
  | TYPE_MISCELLANEOUS_2 | TYPE_MISCELLANEOUS_3 | TYPE_MISCELLANEOUS_4 | TYPE_MISCELLANEOUS_5
  | TYPE_MISCELLANEOUS_6 | TYPE_MISCELLANEOUS_7 | TYPE_MISCELLANEOUS_8 | TYPE_MISCELLANEOUS_9
  | TYPE_MISCELLANEOUS_10 | TYPE_MISCELLANEOUS_11 | TYPE_MISCELLANEOUS_12
  | TYPE_MISCELLANEOUS_13 | TYPE_MISCELLANEOUS_14 | TYPE_MISCELLANEOUS_15
  | TYPE_MISCELLANEOUS_16 | TYPE_MISCELLANEOUS_17 | TYPE_MISCELLANEOUS_18
  | TYPE_MISCELLANEOUS_19 | TYPE_APPLICATION_SPE_1 | TYPE_APPLICATION_SPE_2
  | TYPE_APPLICATION_SPE_3 | TYPE_APPLICATION_SPE_4 | TYPE_VENDOR_SPECIFIC.

(** [usb_interface_type.h:131-157] [d_typeMap] *)
Definition d_typeMap : list (InterfaceType * TypeValues) :=
  [(TYPE_INTERFACE, mk_TypeValues 0 0 0); (TYPE_COMMUNICATION, mk_TypeValues 2 (-1) (-1));
   (TYPE_FULL_SPEED_HUB, mk_TypeValues 9 0 0); (TYPE_FULL_SPEED_HUB_S, mk_TypeValues 9 0 1);
   (TYPE_FULL_SPEED_HUB_M, mk_TypeValues 9 0 2); (TYPE_BILLBOARD, mk_TypeValues 17 0 0);
   (TYPE_DIAGNOSTIC_1, mk_TypeValues 220 1 1); (TYPE_DIAGNOSTIC_2, mk_TypeValues 220 2 0);
   (TYPE_DIAGNOSTIC_3, mk_TypeValues 220 2 1); (TYPE_DIAGNOSTIC_4, mk_TypeValues 220 3 0);
   (TYPE_DIAGNOSTIC_5, mk_TypeValues 220 3 1); (TYPE_DIAGNOSTIC_6, mk_TypeValues 220 4 0);
   (TYPE_DIAGNOSTIC_7, mk_TypeValues 220 4 1); (TYPE_DIAGNOSTIC_8, mk_TypeValues 220 5 0);
   (TYPE_DIAGNOSTIC_9, mk_TypeValues 220 5 1); (TYPE_DIAGNOSTIC_10, mk_TypeValues 220 6 0);
   (TYPE_DIAGNOSTIC_11, mk_TypeValues 220 6 1); (TYPE_DIAGNOSTIC_12, mk_TypeValues 220 7 0);
   (TYPE_DIAGNOSTIC_13, mk_TypeValues 220 7 1); (TYPE_DIAGNOSTIC_14, mk_TypeValues 220 8 0);
   (TYPE_MISCELLANEOUS_1, mk_TypeValues 239 1 1);
   (TYPE_MISCELLANEOUS_2, mk_TypeValues 239 1 2);
   (TYPE_MISCELLANEOUS_3, mk_TypeValues 239 2 1);
   (TYPE_MISCELLANEOUS_4, mk_TypeValues 239 2 2);
   (TYPE_VENDOR_SPECIFIC, mk_TypeValues 255 (-1) (-1))].

(** [usb_interface_type.h:159-225] [g_typeMap] *)
Definition g_typeMap : list (InterfaceType * TypeValues) :=
  [(TYPE_AUDIO, mk_TypeValues 1 (-1) (-1)); (TYPE_COMMUNICATION, mk_TypeValues 2 (-1) (-1));
   (TYPE_HID, mk_TypeValues 3 (-1) (-1)); (TYPE_PHYSICAL, mk_TypeValues 5 (-1) (-1));
   (TYPE_IMAGE, mk_TypeValues 6 1 1); (TYPE_PRINTER, mk_TypeValues 7 (-1) (-1));
   (TYPE_STORAGE, mk_TypeValues 8 (-1) (-1)); (TYPE_CDC_DATA, mk_TypeValues 10 (-1) (-1));
   (TYPE_SMART_CARD, mk_TypeValues 11 (-1) (-1));
   (TYPE_CONTENT_SECURTIY, mk_TypeValues 13 0 0); (TYPE_VIDEO, mk_TypeValues 14 (-1) (-1));
   (TYPE_PERSONAL_HEALTHCARE, mk_TypeValues 15 (-1) (-1));
   (TYPE_AVCONTROL, mk_TypeValues 16 1 0); (TYPE_AVV_STREAMING, mk_TypeValues 16 2 0);
   (TYPE_AVA_STREAMING, mk_TypeValues 16 3 0); (TYPE_TYPEC_BRIDGE, mk_TypeValues 18 0 0);
   (TYPE_BDP, mk_TypeValues 19 0 0); (TYPE_MCTP_MANA_1, mk_TypeValues 20 0 1);
   (TYPE_MCTP_MANA_2, mk_TypeValues 20 0 2); (TYPE_MCTP_HOST_1, mk_TypeValues 20 1 1);
   (TYPE_MCTP_HOST_2, mk_TypeValues 20 1 2); (TYPE_I3C, mk_TypeValues 60 0 0);
   (TYPE_DIAGNOSTIC_1, mk_TypeValues 220 1 1); (TYPE_DIAGNOSTIC_2, mk_TypeValues 220 2 0);
   (TYPE_DIAGNOSTIC_3, mk_TypeValues 220 2 1); (TYPE_DIAGNOSTIC_4, mk_TypeValues 220 3 0);
   (TYPE_DIAGNOSTIC_5, mk_TypeValues 220 3 1); (TYPE_DIAGNOSTIC_6, mk_TypeValues 220 4 0);
   (TYPE_DIAGNOSTIC_7, mk_TypeValues 220 4 1); (TYPE_DIAGNOSTIC_8, mk_TypeValues 220 5 0);
   (TYPE_DIAGNOSTIC_9, mk_TypeValues 220 5 1); (TYPE_DIAGNOSTIC_10, mk_TypeValues 220 6 0);
   (TYPE_DIAGNOSTIC_11, mk_TypeValues 220 6 1); (TYPE_DIAGNOSTIC_12, mk_TypeValues 220 7 0);
   (TYPE_DIAGNOSTIC_13, mk_TypeValues 220 7 1); (TYPE_DIAGNOSTIC_14, mk_TypeValues 220 8 0);
   (TYPE_WIRLESS_CONTROLLER_1, mk_TypeValues 224 1 1);
   (TYPE_WIRLESS_CONTROLLER_2, mk_TypeValues 224 1 2);
   (TYPE_WIRLESS_CONTROLLER_3, mk_TypeValues 224 1 3);
   (TYPE_WIRLESS_CONTROLLER_4, mk_TypeValues 224 1 4);
   (TYPE_WIRLESS_CONTROLLER_5, mk_TypeValues 224 2 1);
   (TYPE_WIRLESS_CONTROLLER_6, mk_TypeValues 224 2 2);
   (TYPE_WIRLESS_CONTROLLER_7, mk_TypeValues 224 2 3);
   (TYPE_MISCELLANEOUS_1, mk_TypeValues 239 1 1);
   (TYPE_MISCELLANEOUS_2, mk_TypeValues 239 1 2);
   (TYPE_MISCELLANEOUS_5, mk_TypeValues 239 3 1);
   (TYPE_MISCELLANEOUS_6, mk_TypeValues 239 4 1);
   (TYPE_MISCELLANEOUS_7, mk_TypeValues 239 4 2);
   (TYPE_MISCELLANEOUS_8, mk_TypeValues 239 4 3);
   (TYPE_MISCELLANEOUS_9, mk_TypeValues 239 4 4);
   (TYPE_MISCELLANEOUS_10, mk_TypeValues 239 4 5);
   (TYPE_MISCELLANEOUS_11, mk_TypeValues 239 4 6);
   (TYPE_MISCELLANEOUS_12, mk_TypeValues 239 4 7);
   (TYPE_MISCELLANEOUS_13, mk_TypeValues 239 5 0);
   (TYPE_MISCELLANEOUS_14, mk_TypeValues 239 5 1);
   (TYPE_MISCELLANEOUS_15, mk_TypeValues 239 5 2);
   (TYPE_MISCELLANEOUS_16, mk_TypeValues 239 6 1);
   (TYPE_MISCELLANEOUS_17, mk_TypeValues 239 6 2);
   (TYPE_MISCELLANEOUS_18, mk_TypeValues 239 7 1);
   (TYPE_MISCELLANEOUS_19, mk_TypeValues 239 7 2);
   (TYPE_APPLICATION_SPE_1, mk_TypeValues 254 1 1);
   (TYPE_APPLICATION_SPE_2, mk_TypeValues 254 2 0);
   (TYPE_APPLICATION_SPE_3, mk_TypeValues 254 3 0);
   (TYPE_APPLICATION_SPE_4, mk_TypeValues 254 3 1);
   (TYPE_VENDOR_SPECIFIC, mk_TypeValues 255 (-1) (-1))].

#[export] Instance InterfaceType_eq_dec : EqDecision InterfaceType.
Proof. solve_decision. Defined.

(** [std::unordered_map::find] *)
Definition find_type (m : list (InterfaceType * TypeValues)) (t : InterfaceType) : option TypeValues :=
  match list_find (λ kv, kv.1 = t) m with Some (_, (_, v)) => Some v | None => None end.

(** The order in which a hash table enumerates its entries. *)
Class HashOrder := {
  hash_order {A} : list A → list A;
  hash_order_perm {A} (l : list A) : hash_order l ≡ₚ l;
}.

(** [usb_interface_type.h:126-129] [UsbDeviceId] *)
Record UsbDeviceId := mk_UsbDeviceId { productId : Z; vendorId : Z }.

(** The values of a table entry against a class, a subclass and a protocol. *)
Definition matches_type (v : TypeValues) (baseClass subClass protocol : Z) : bool :=
  (baseClass =? v_baseClass v) &&
  ((subClass =? v_subClass v) || (v_subClass v =? RANDOM_VALUE_INDICATE)) &&
  ((protocol =? v_protocol v) || (v_protocol v =? RANDOM_VALUE_INDICATE)).

(** [usb_host_manager.cpp:91-108] the constants of the policy service *)
Definition MANAGE_INTERFACE_INTERVAL : Z := 100.
Definition EDM_SA_MAX_TIME_OUT : Z := 5000.
Definition EDM_SYSTEM_ABILITY_ID : Z := 1601.
Definition EDM_DESCRIPTOR : string := "ohos.edm.IEnterpriseDeviceMgr".
Definition WITHOUT_USERID : Z := 0.
Definition WITHOUT_ADMIN : Z := 1.
Definition EMD_MASK_CODE : Z := 20.
Definition DISABLE_USB : Z := 1043.
Definition ALLOWED_USB_DEVICES : Z := 1044.
Definition USB_STORAGE_DEVICE_ACCESS_POLICY : Z := 1026.
Definition USB_DEVICE_ACCESS_POLICY : Z := 1059.
Definition TRUSTLIST_POLICY_MAX_DEVICES : Z := 1000.
Definition EDM_SA_TIME_OUT_CODE : Z := 9200007.
Definition STORAGE_BASE_CLASS : Z := 8.
Definition GET_EDM_STORAGE_DISABLE_TYPE : Z := 2.

(** What the policy service answers, as it is collected. *)
Record Policy := mk_Policy {
  IsGlobalDisabled : bool;
  disableType : list UsbDeviceType;
  trustUsbDeviceIds : list UsbDeviceId;
}.

Section HostPolicy.
Context {E N SM R Rp : Type} `{EB : ErrBase} `{HD : HostHdi E} `{SY : HostSystem E Rp}.
Context `{RY : Reply Rp} `{SP : SystemParams E} `{NO : NotifierOps N} `{CJ : CJson} `{HO : HashOrder}.
Abbreviation st := (HostDriver.st E N SM R).

(** ** Authorising a device and an interface *)

(** [usb_host_manager.cpp:1528-1533] [UsbHostManager::IsEdmEnabled] *)
Definition IsEdmEnabled : ST st bool :=
  v ← gets (λ s, GetStringParameter "persist.edm.enterprise_config_enable" "false" (platform s));
  mret (String.eqb v "true").

(** [usb_host_manager.cpp:2144-2149] [UsbHostManager::IsUsbSerialDisable] *)
Definition IsUsbSerialDisable : ST st bool :=
  isSerialDisable ← gets (λ s, GetStringParameter "persist.edm.usb_serial_disable" "0" (platform s));
  enabled ← IsEdmEnabled;
  mret (enabled && String.eqb isSerialDisable "1").

(** [usb_host_manager.cpp:2120-2128] [UsbHostManager::IsUsbSerialDevice] *)
Definition IsUsbSerialDevice (dev : UsbDevice.t) : ST st bool :=
  gets (λ s, existsb (λ d, (busNum d =? UsbDevice.GetBusNum dev) &&
                           (devAddr d =? UsbDevice.GetDevAddr dev)) (serialDevices_ s)).

(** [usb_host_manager.cpp:1564-1574] [UsbHostManager::UsbDeviceAuthorize] what is reported of the change: an arriving device is announced by [AddDevice] *)
Definition report_change (authorized : bool) (operationType : string) (d : UsbDevice.t) : ST st unit :=
  mwhen (negb authorized) (ReportManageDeviceInfo operationType d None false) ;;
  mwhen (negb (bool_decide (UsbDevice.GetAuthorizeStatus d = NEW_ARRIVED)))
    (PublishCommonEvent (if authorized then COMMON_EVENT_USB_DEVICE_ATTACHED
                         else COMMON_EVENT_USB_DEVICE_DETACHED) d ;; mret tt).

(** [usb_host_manager.cpp:1535-1578] [UsbHostManager::UsbDeviceAuthorize] *)
Definition UsbDeviceAuthorize (busNum devAddr : Z) (authorized : bool) (operationType : string)
    : ST st Z :=
  b ← gets usbDeviceInterface_;
  if negb b then mret UEC_SERVICE_INVALID_VALUE
  else
    let name := dev_name busNum devAddr in
    d ← device_at name;
    match d with
    | None => mret UEC_SERVICE_INVALID_VALUE
    | Some d =>
        let authorizeStatus := UsbDevice.GetAuthorizeStatus d in
        if (authorized && negb (bool_decide (authorizeStatus = DISABLED))) ||
           (negb authorized && bool_decide (authorizeStatus = DISABLED))
        then mret UEC_OK
        else
          ret ← on_platform (hdi_UsbDeviceAuthorize busNum devAddr authorized);
          if negb (ret =? UEC_OK) then mret ret
          else
            report_change authorized operationType d ;;
            update_device name
              (UsbDevice.SetAuthorizeStatus (if authorized then ENABLED else DISABLED)) ;;
            on_platform (sleep_for MANAGE_INTERFACE_INTERVAL) ;;
            mret UEC_OK
    end.

(** [usb_host_manager.cpp:1580-1597] [UsbHostManager::UsbInterfaceAuthorize] *)
Definition UsbInterfaceAuthorize (dev : UsbDev) (configId interfaceId : Z) (authorized : bool)
    : ST st Z :=
  b ← gets usbDeviceInterface_;
  if negb b then mret UEC_SERVICE_INVALID_VALUE
  else
    ret ← on_platform (hdi_UsbInterfaceAuthorize dev configId interfaceId authorized);
    ret ← (if (ret =? UEC_OK) && authorized
           then ManageInterface dev interfaceId (negb authorized) else mret ret);
    on_platform (sleep_for MANAGE_INTERFACE_INTERVAL) ;;
    mret ret.

(** ** Policies over the table

    An interface of a device's configuration, by index, and its authorisation. *)
Definition interface_at (d : option UsbDevice.t) (i j : nat) : option UsbInterface.t :=
  d ← d; c ← UsbDevice.configs_ d !! i; USBConfig.interfaces_ c !! j.
Definition set_interface_status (name : string) (i j : nat) (b : bool) : ST st unit :=
  update_device name (λ d, UsbDevice.SetConfigs
    (alter (λ c, USBConfig.SetInterfaces
              (alter (UsbInterface.SetAuthorizeStatus b) j (USBConfig.interfaces_ c)) c)
       i (UsbDevice.configs_ d)) d).

(** [for (auto &interface : it->second->GetConfigs()[index].GetInterfaces())] *)
Definition for_interfaces (name : string) (i : nat) (d : UsbDevice.t)
    (f : nat → UsbInterface.t → ST st unit) : ST st unit :=
  mfor (seq 0 (length (default [] (USBConfig.interfaces_ <$> (UsbDevice.configs_ d !! i)))))
    (λ j, d ← device_at name;
          match interface_at d i j with Some x => f j x | None => mret tt end).

Definition config_id (d : UsbDevice.t) (i : nat) : Z :=
  default 0 (USBConfig.GetId <$> (UsbDevice.configs_ d !! i)).

(** [usb_host_manager.cpp:1933-1974] [UsbHostManager::ManageGlobalInterfaceImpl] *)
Definition ManageGlobalInterfaceImpl (disable : bool) : ST st Z :=
  for_devices (λ name d,
    serialDisable ← IsUsbSerialDisable;
    isSerial ← IsUsbSerialDevice d;
    if (disable && negb (UsbDevice.GetClass d =? BASE_CLASS_HUB)) || (serialDisable && isSerial)
    then mret tt
    else
      let bus := UsbDevice.GetBusNum d in
      let addr := UsbDevice.GetDevAddr d in
      UsbDeviceAuthorize bus addr (negb disable) "GlobalType" ;;
      if disable then mret tt
      else
        ret ← OpenDevice bus addr;
        if negb (ret =? UEC_OK) then mret tt
        else
          r ← GetActiveConfig bus addr 0;
          if negb (r.1 =? 0) || (r.2 <? 1) then Close bus addr ;; mret tt
          else
            let index := u8 (r.2 - 1) in
            if Z.of_nat (length (UsbDevice.GetConfigs d)) <=? index then Close bus addr ;; mret tt
            else
              for_interfaces name (Z.to_nat index) d (λ j interface,
                UsbInterfaceAuthorize (mk_UsbDev bus addr) (u8 (config_id d (Z.to_nat index)))
                  (u8 (UsbInterface.GetId interface)) (negb disable) ;;
                set_interface_status name (Z.to_nat index) j (negb disable)) ;;
              Close bus addr ;; mret tt) ;;
  mret UEC_OK.

(** [usb_host_manager.cpp:1976-1998] [UsbHostManager::ManageDeviceImpl] *)
Definition ManageDeviceImpl (vendorId productId : Z) (disable : bool) : ST st Z :=
  devs ← gets devices_;
  r ← until_some (keys_in_order devs) (λ name,
    d ← device_at name;
    match d with
    | None => mret None
    | Some d =>
        if UsbDevice.GetClass d =? BASE_CLASS_HUB then mret None
        else if (UsbDevice.GetVendorId d =? vendorId) && (UsbDevice.GetProductId d =? productId) then
          ret ← OpenDevice (UsbDevice.GetBusNum d) (UsbDevice.GetDevAddr d);
          if negb (ret =? UEC_OK) then mret (Some ret)
          else
            UsbDeviceAuthorize (UsbDevice.GetBusNum d) (UsbDevice.GetDevAddr d)
              (negb disable) "DeviceType" ;;
            Close (UsbDevice.GetBusNum d) (UsbDevice.GetDevAddr d) ;;
            mret None
        else mret None
    end);
  mret (default UEC_OK r).

(** [usb_host_manager.cpp:2000-2046] [UsbHostManager::ManageInterfaceTypeImpl] *)
Definition ManageInterfaceTypeImpl (interfaceType : InterfaceType) (disable : bool) : ST st Z :=
  match find_type g_typeMap interfaceType with
  | None => mret UEC_SERVICE_INVALID_VALUE
  | Some v =>
      for_devices (λ name d,
        if (UsbDevice.GetClass d =? BASE_CLASS_HUB) ||
           bool_decide (UsbDevice.GetAuthorizeStatus d = DISABLED) then mret tt
        else
          let dev := mk_UsbDev (UsbDevice.GetBusNum d) (UsbDevice.GetDevAddr d) in
          r ← GetActiveConfig (busNum dev) (devAddr dev) 0;
          if negb (r.1 =? 0) then mret tt
          else
            let index := u8 (r.2 - 1) in
            if Z.of_nat (length (UsbDevice.GetConfigs d)) <=? index then mret tt
            else
              for_interfaces name (Z.to_nat index) d (λ j interface,
                let needReport := negb (Bool.eqb (UsbInterface.GetAuthorizeStatus interface) (negb disable)) in
                ret ← (if matches_type v (UsbInterface.GetClass interface)
                            (UsbInterface.GetSubClass interface) (UsbInterface.GetProtocol interface)
                       then
                         ret ← UsbInterfaceAuthorize dev (u8 (config_id d (Z.to_nat index)))
                                 (u8 (UsbInterface.GetId interface)) (negb disable);
                         set_interface_status name (Z.to_nat index) j (negb disable) ;;
                         mret ret
                       else mret RANDOM_VALUE_INDICATE);
                mwhen (disable && needReport && (ret =? UEC_OK))
                  (ReportManageDeviceInfo "InterfaceType" d (Some interface) true))) ;;
      mret UEC_OK
  end.

(** [usb_host_manager.cpp:2048-2080] [UsbHostManager::ManageDeviceTypeImpl] *)
Definition ManageDeviceTypeImpl (interfaceType : InterfaceType) (disable : bool) : ST st Z :=
  match find_type d_typeMap interfaceType with
  | None => mret UEC_SERVICE_INVALID_VALUE
  | Some v =>
      for_devices (λ name d,
        serialDisable ← IsUsbSerialDisable;
        isSerial ← IsUsbSerialDevice d;
        if serialDisable && isSerial then mret tt
        else if matches_type v (UsbDevice.GetClass d) (UsbDevice.GetSubclass d)
                  (UsbDevice.GetProtocol d) then
          ret ← OpenDevice (UsbDevice.GetBusNum d) (UsbDevice.GetDevAddr d);
          if negb (ret =? UEC_OK) then mret tt
          else
            UsbDeviceAuthorize (UsbDevice.GetBusNum d) (UsbDevice.GetDevAddr d)
              (negb disable) "InterfaceType" ;;
            Close (UsbDevice.GetBusNum d) (UsbDevice.GetDevAddr d) ;;
            mret tt
        else mret tt) ;;
      mret UEC_OK
  end.

(** [usb_host_manager.cpp:1909-1931] [UsbHostManager::FindMatchingTypes] *)
Definition FindMatchingTypes (map : list (InterfaceType * TypeValues)) (isDev : bool)
    (disableType : list UsbDeviceType) : list InterfaceType :=
  omap (λ dev,
    if negb (Bool.eqb (isDeviceType dev) isDev) then None
    else
      match list_find (λ kv : InterfaceType * TypeValues,
              ((v_baseClass kv.2 =? t_baseClass dev) &&
               ((v_subClass kv.2 =? -1) || (v_subClass kv.2 =? t_subClass dev)) &&
               ((v_protocol kv.2 =? -1) || (v_protocol kv.2 =? t_protocol dev))) = true)
              (hash_order map) with
      | Some (_, (t, _)) => Some t
      | None => None
      end) disableType.

(** [usb_host_manager.cpp:1886-1907] [UsbHostManager::ExecuteManageDeviceType] *)
Definition ExecuteManageDeviceType (disableType : list UsbDeviceType) (disable : bool)
    (map : list (InterfaceType * TypeValues)) (isDev : bool) : ST st unit :=
  let interfaceTypes := FindMatchingTypes map isDev disableType in
  mfor (hash_order map) (λ kv,
    let canFind := existsb (λ t, bool_decide (kv.1 = t)) interfaceTypes in
    let execDisable := if canFind then disable else negb disable in
    (if isDev then ManageDeviceTypeImpl kv.1 execDisable
     else ManageInterfaceTypeImpl kv.1 execDisable) ;; mret tt).

(** [usb_host_manager.cpp:1626-1646] [UsbHostManager::ExecuteManageInterfaceType] *)
Definition ExecuteManageInterfaceType (disableType : list UsbDeviceType) (disable : bool) : ST st Z :=
  for_devices (λ _ d, OpenDevice (UsbDevice.GetBusNum d) (UsbDevice.GetDevAddr d) ;; mret tt) ;;
  ExecuteManageDeviceType disableType disable d_typeMap true ;;
  ExecuteManageDeviceType disableType disable g_typeMap false ;;
  for_devices (λ _ d, Close (UsbDevice.GetBusNum d) (UsbDevice.GetDevAddr d) ;; mret tt) ;;
  mret UEC_OK.

(** A device against the list of trusted devices. *)
Definition in_trust_list (trustList : list UsbDeviceId) (d : UsbDevice.t) : bool :=
  existsb (λ t, (UsbDevice.GetProductId d =? productId t) &&
                (UsbDevice.GetVendorId d =? vendorId t)) trustList.

(** The loop of [ExecuteManageDevicePolicy], which keeps the last device's result. *)
Fixpoint manage_each (names : list string) (trustList : list UsbDeviceId) (ret : Z) : ST st Z :=
  match names with
  | [] => mret ret
  | name :: names =>
      d ← device_at name;
      match d with
      | None => manage_each names trustList ret
      | Some d =>
          let inTrustList := in_trust_list trustList d in
          ret ← ManageDeviceImpl (UsbDevice.GetVendorId d) (UsbDevice.GetProductId d)
                  (negb (inTrustList || bool_decide (trustList = [])));
          on_platform (sleep_for MANAGE_INTERFACE_INTERVAL) ;;
          manage_each names trustList ret
      end
  end.

(** [usb_host_manager.cpp:1599-1624] [UsbHostManager::ExecuteManageDevicePolicy] *)
Definition ExecuteManageDevicePolicy (trustList : list UsbDeviceId) : ST st Z :=
  devs ← gets devices_;
  ret ← manage_each (keys_in_order devs) trustList UEC_OK;
  mret (if negb (ret =? UEC_OK) then UEC_SERVICE_EXECUTE_POLICY_FAILED else UEC_OK).

(** ** Asking the policy service

    The four questions share their request; a reply starts with a code, which must be
    readable and [ERR_OK]. *)
Definition edm_query (code : Z) : ST st (option Rp) :=
  r ← on_platform (EdmSendRequest (Z.lor (Z.shiftl 1 EMD_MASK_CODE) code)
        [PStr EDM_DESCRIPTOR; PW32 WITHOUT_USERID; PStr ""; PW32 WITHOUT_ADMIN]);
  let '(sendRet, reply) := r in
  let '(ret, reply) := reply_ReadInt32 reply in
  let isSuccess := match ret with Some ret => ret =? ERR_OK | None => false end in
  mret (if negb isSuccess || negb (sendRet =? UEC_OK) then None else Some reply).

(** A value-returning read gives 0 or [false] when it fails. *)
Definition ReadInt32_or_0 : ST Rp Z := default 0 <$> reply_ReadInt32.
Definition ReadBool_or_false : ST Rp bool := default false <$> reply_ReadBool.

Fixpoint read_types (n : nat) : ST Rp (list UsbDeviceType) :=
  match n with
  | O => mret []
  | S n =>
      b ← ReadInt32_or_0; sc ← ReadInt32_or_0; p ← ReadInt32_or_0; dt ← ReadBool_or_false;
      l ← read_types n;
      mret (mk_UsbDeviceType b sc p dt :: l)
  end.
Fixpoint read_ids (n : nat) : ST Rp (list UsbDeviceId) :=
  match n with
  | O => mret []
  | S n =>
      v ← ReadInt32_or_0; p ← ReadInt32_or_0;
      l ← read_ids n;
      mret (mk_UsbDeviceId p v :: l)
  end.

(** [usb_host_manager.cpp:1769-1794] [UsbHostManager::GetEdmGlobalPolicy] [remote] is whether the service is there; the result code and the policy collected so far *)
Definition GetEdmGlobalPolicy (remote : bool) (p : Policy) : ST st (Z * Policy) :=
  if negb remote then mret (UEC_SERVICE_INVALID_VALUE, p)
  else
    r ← edm_query DISABLE_USB;
    match r with
    | None => mret (UEC_SERVICE_EDM_SEND_REQUEST_FAILED, p)
    | Some reply =>
        let b := default (IsGlobalDisabled p) (result reply_ReadBool reply) in
        mret (UEC_OK, mk_Policy b (disableType p) (trustUsbDeviceIds p))
    end.

(** [usb_host_manager.cpp:1796-1828] [UsbHostManager::GetEdmStroageTypePolicy] *)
Definition GetEdmStroageTypePolicy (remote : bool) (p : Policy) : ST st (Z * Policy) :=
  if negb remote then mret (UEC_SERVICE_INVALID_VALUE, p)
  else
    r ← edm_query USB_STORAGE_DEVICE_ACCESS_POLICY;
    match r with
    | None => mret (UEC_SERVICE_EDM_SEND_REQUEST_FAILED, p)
    | Some reply =>
        let stroageDisableType := default 0 (result reply_ReadInt32 reply) in
        mret (UEC_OK,
          if stroageDisableType =? GET_EDM_STORAGE_DISABLE_TYPE
          then mk_Policy (IsGlobalDisabled p)
                 (disableType p ++ [mk_UsbDeviceType STORAGE_BASE_CLASS 0 0 false])
                 (trustUsbDeviceIds p)
          else p)
    end.

(** [usb_host_manager.cpp:1729-1767] [UsbHostManager::GetEdmTypePolicy] *)
Definition GetEdmTypePolicy (remote : bool) (p : Policy) : ST st (Z * Policy) :=
  if negb remote then mret (UEC_SERVICE_INVALID_VALUE, p)
  else
    r ← edm_query USB_DEVICE_ACCESS_POLICY;
    match r with
    | None => mret (UEC_SERVICE_EDM_SEND_REQUEST_FAILED, p)
    | Some reply =>
        let '(size, reply) := ReadInt32_or_0 reply in
        if (size <? 0) || (TRUSTLIST_POLICY_MAX_DEVICES <? size)
        then mret (UEC_SERVICE_EDM_DEVICE_SIZE_EXCEED, p)
        else
          mret (UEC_OK, mk_Policy (IsGlobalDisabled p)
            (disableType p ++ result (read_types (Z.to_nat size)) reply) (trustUsbDeviceIds p))
    end.

(** [usb_host_manager.cpp:1830-1866] [UsbHostManager::GetEdmTrustListPolicy] *)
Definition GetEdmTrustListPolicy (remote : bool) (p : Policy) : ST st (Z * Policy) :=
  if negb remote then mret (UEC_SERVICE_INVALID_VALUE, p)
  else
    r ← edm_query ALLOWED_USB_DEVICES;
    match r with
    | None => mret (UEC_SERVICE_EDM_SEND_REQUEST_FAILED, p)
    | Some reply =>
        let '(size, reply) := ReadInt32_or_0 reply in
        if (size <? 0) || (TRUSTLIST_POLICY_MAX_DEVICES <? size)
        then mret (UEC_SERVICE_EDM_DEVICE_SIZE_EXCEED, p)
        else
          mret (UEC_OK, mk_Policy (IsGlobalDisabled p) (disableType p)
            (trustUsbDeviceIds p ++ result (read_ids (Z.to_nat size)) reply))
    end.

(** [usb_host_manager.cpp:1685-1701] [UsbHostManager::LoadEdmService] *)
Definition LoadEdmService : ST st unit :=
  sm ← on_platform GetSystemAbilityManager;
  if negb sm then mret tt
  else on_platform LoadEdmAbility ;; mret tt.

(** Ask the next question unless the last one failed. *)
Definition then_ask (m : ST st (Z * Policy)) (k : Policy → ST st (Z * Policy)) : ST st (Z * Policy) :=
  r ← m; if negb (r.1 =? UEC_OK) then mret r else k r.2.

(** [usb_host_manager.cpp:1648-1683] [UsbHostManager::GetEdmPolicy] *)
Definition GetEdmPolicy (p : Policy) : ST st (Z * Policy) :=
  sm ← on_platform GetSystemAbilityManager;
  if negb sm then mret (UEC_SERVICE_GET_SYSTEM_ABILITY_MANAGER_FAILED, p)
  else
    remote ← on_platform CheckEdmAbility;
    if negb remote then LoadEdmService ;; mret (UEC_SERVICE_GET_EDM_SERVICE_FAILED, p)
    else
      then_ask (GetEdmGlobalPolicy remote p) (λ p,
      then_ask (GetEdmStroageTypePolicy remote p) (λ p,
      then_ask (GetEdmTypePolicy remote p) (λ p,
      then_ask (GetEdmTrustListPolicy remote p) (λ p, mret (UEC_OK, p))))).

(** The loop of [GetUsbPolicy]; [None] when the fuel runs out. *)
Fixpoint policy_loop (fuel : nat) (startTime : Z) (p : Policy) : ST st (option (Z * Policy)) :=
  match fuel with
  | O => mret None
  | S fuel =>
      r ← GetEdmPolicy p;
      let '(ret, p) := r in
      if ret =? UEC_OK then mret (Some (UEC_OK, p))
      else if ret =? EDM_SA_TIME_OUT_CODE then
        currentTime ← gets (λ s, steady_now (platform s));
        if EDM_SA_MAX_TIME_OUT <=? currentTime - startTime
        then mret (Some (UEC_SERVICE_EDM_SA_TIME_OUT_FAILED, p))
        else
          on_platform (sleep_for MANAGE_INTERFACE_INTERVAL) ;;
          policy_loop fuel startTime p
      else mret (Some (UEC_SERVICE_PREPARE_EDM_SA_FAILED, p))
  end.

(** Every retry sleeps 100 ms and the time allowed is 5000 ms. *)
Definition policy_rounds : nat := 51.

(** [usb_host_manager.cpp:1703-1727] [UsbHostManager::GetUsbPolicy] *)
Definition GetUsbPolicy (p : Policy) : ST st (Z * Policy) :=
  startTime ← gets (λ s, steady_now (platform s));
  r ← policy_loop policy_rounds startTime p;
  mret (default (UEC_SERVICE_EDM_SA_TIME_OUT_FAILED, p) r).

(** ** The strategy *)

(** [usb_host_manager.cpp:2130-2142] [UsbHostManager::ManageUsbSerialDevice] [strategy] is [ExecuteStrategy], which calls this function back, for [disable] only *)
Definition ManageUsbSerialDevice_with (strategy : ST st unit) (disable : bool) : ST st Z :=
  devs ← gets serialDevices_;
  mfor devs (λ dev, UsbDeviceAuthorize (busNum dev) (devAddr dev) (negb disable) "UsbSerialType" ;; mret tt) ;;
  mwhen (negb disable) strategy ;;
  mret UEC_OK.

(** [usb_host_manager.cpp:216-265] [UsbHostManager::ExecuteStrategy] *)
Definition ExecuteStrategy : ST st unit :=
  enabled ← IsEdmEnabled;
  if negb enabled then mret tt
  else
    r ← GetUsbPolicy (mk_Policy false [] []);
    let '(ret, p) := r in
    if (ret =? UEC_SERVICE_EDM_SA_TIME_OUT_FAILED) || (ret =? UEC_SERVICE_PREPARE_EDM_SA_FAILED)
    then mret tt
    else if IsGlobalDisabled p then ManageGlobalInterfaceImpl true ;; mret tt
    else
      serial ← IsUsbSerialDisable;
      mwhen serial (ManageUsbSerialDevice_with (mret tt) true ;; mret tt) ;;
      if negb (bool_decide (disableType p = [])) then
        ExecuteManageInterfaceType (disableType p) true ;; mret tt
      else if bool_decide (trustUsbDeviceIds p = []) then mret tt
      else ExecuteManageDevicePolicy (trustUsbDeviceIds p) ;; mret tt.

(** [usb_host_manager.cpp:2130-2142] [UsbHostManager::ManageUsbSerialDevice] *)
Definition ManageUsbSerialDevice (disable : bool) : ST st Z :=
  ManageUsbSerialDevice_with ExecuteStrategy disable.

(** [usb_host_manager.cpp:203-208] [UsbEdmLoadCallback::OnLoadSystemAbilitySuccess] *)
Definition OnLoadSystemAbilitySuccess : ST st unit := ExecuteStrategy.

(** [usb_host_manager.cpp:400-403] [UsbHostManager::ManageGlobalInterface] *)
Definition ManageGlobalInterface (disable : bool) : ST st Z := ManageGlobalInterfaceImpl disable.
(** [usb_host_manager.cpp:405-409] [UsbHostManager::ManageDevice] *)
Definition ManageDevice (vendorId productId : Z) (disable : bool) : ST st Z :=
  ManageDeviceImpl vendorId productId disable.
(** [usb_host_manager.cpp:411-414] [UsbHostManager::ManageDevicePolicy] *)
Definition ManageDevicePolicy (trustList : list UsbDeviceId) : ST st Z :=
  ExecuteManageDevicePolicy trustList.
(** [usb_host_manager.cpp:416-419] [UsbHostManager::ManageInterfaceType] *)
Definition ManageInterfaceType (disableType : list UsbDeviceType) (disable : bool) : ST st Z :=
  ExecuteManageInterfaceType disableType disable.
(** ** The effect of an authorisation *)

(** What [UsbDeviceAuthorize] reports of a device whose status it changes. *)
Definition authorize_report (authorized : bool) (operationType : string) (d : UsbDevice.t)
    : list HostEvent :=
  (if authorized then []
   else [ManageDeviceReport operationType (UsbDevice.GetVendorId d) (UsbDevice.GetProductId d)
           (UsbDevice.GetClass d) (UsbDevice.GetSubclass d) (UsbDevice.GetProtocol d)]) ++
  (if bool_decide (UsbDevice.GetAuthorizeStatus d = NEW_ARRIVED) then []
   else announcement (if authorized then COMMON_EVENT_USB_DEVICE_ATTACHED
                      else COMMON_EVENT_USB_DEVICE_DETACHED) d).

(** The status that an authorisation gives. *)
Definition status_of (authorized : bool) : AuthorizeStatus := if authorized then ENABLED else DISABLED.

(** The device has the status already: authorised means not [DISABLED]. *)
Definition settled (authorized : bool) (d : UsbDevice.t) : bool :=
  Bool.eqb authorized (negb (bool_decide (UsbDevice.GetAuthorizeStatus d = DISABLED))).

Lemma report_run b op d (s : st) :
  ∃ s' : st, report_change b op d s = (tt, s') ∧ host_frame s s' ∧
    devices_ s' = devices_ s ∧ log s' = log s ++ authorize_report b op d.
Proof.
  unfold report_change, authorize_report.
  destruct b, (bool_decide (UsbDevice.GetAuthorizeStatus d = NEW_ARRIVED));
    cbn [negb mwhen]; unfold ReportManageDeviceInfo, emit; st_exec;
    try match goal with |- context [PublishCommonEvent ?ev d ?t] =>
      destruct (PublishCommonEvent_run ev d t) as (ok & e & n & ->); st_exec end;
    eexists; (split; [reflexivity|]); (split; [by split|]); (split; [done|]); cbn;
    by rewrite ?app_nil_r, <- ?app_assoc.
Qed.

(** Every branch of [UsbDeviceAuthorize]: it leaves the table and the log alone, or the
    device changes its status and the change is reported. *)
Lemma UsbDeviceAuthorize_run bus addr b op (s : st) :
  ∃ ret (s' : st), UsbDeviceAuthorize bus addr b op s = (ret, s') ∧ host_frame s s' ∧
    ((devices_ s' = devices_ s ∧ log s' = log s ∧
      (ret = UEC_OK → ∃ d, devices_ s !! dev_name bus addr = Some d ∧ settled b d = true)) ∨
     ∃ d, devices_ s !! dev_name bus addr = Some d ∧ settled b d = false ∧ ret = UEC_OK ∧
       devices_ s' = alter (UsbDevice.SetAuthorizeStatus (status_of b)) (dev_name bus addr) (devices_ s) ∧
       log s' = log s ++ authorize_report b op d).
Proof.
  pose proof invalid_not_ok as Hno.
  unfold UsbDeviceAuthorize, device_at. st_exec.
  case_if; st_exec; [|by eexists _, s; (split; [done|]); (split; [done|]); left].
  destruct (devices_ s !! dev_name bus addr) as [d|] eqn:Hd; st_exec;
    [|by eexists _, s; (split; [done|]); (split; [done|]); left].
  assert (Hset : settled b d =
    (b && negb (bool_decide (UsbDevice.GetAuthorizeStatus d = DISABLED)))
    || (negb b && bool_decide (UsbDevice.GetAuthorizeStatus d = DISABLED))).
  { unfold settled. by destruct b, (bool_decide _). }
  rewrite <- Hset. destruct (settled b d) eqn:Hb; st_exec.
  { eexists _, s. do 2 (split; [done|]). left. split_and!; [done..|]. intros _. by exists d. }
  rewrite on_platform_run. st_exec. case_if; st_exec; bsimp;
    [|eexists _, _; (split; [done|]); (split; [by split|]); by left].
  match goal with |- context [report_change b op d ?t] =>
    destruct (report_run b op d t) as (s1 & -> & Hf & Hdev & Hlog) end.
  unfold update_device. st_exec. rewrite on_platform_run. st_exec.
  eexists _, _. split; [done|]. split; [|right; exists d; split_and!; [done..| |]].
  - destruct Hf. by split.
  - cbn. by rewrite Hdev.
  - cbn. by rewrite Hlog.
Qed.
End HostPolicy.

(** Unfold the operations of the policies down to calls of the platform. *)
Ltac host_preserve :=
  unfold IsUsbSerialDisable, IsEdmEnabled, IsUsbSerialDevice, OpenDevice, Close, GetActiveConfig,
    UsbInterfaceAuthorize, ManageInterface, for_devices, for_interfaces, ReportManageDeviceInfo in *;
  step_preserve.
