(* ===== verification/HostManager.v ===== *)
(** * The host manager: the table of devices

    The part of [services/native/src/usb_host_manager.cpp] that keeps the attached
    devices: a device is read from the driver, added, announced to the clients, listed
    and removed.

    [devices_] maps a name to the device it owns; a device is only reached through the
    table, so the owned pointer is the device itself.  An operation that holds
    [devicesMutex_] is one transition; [AddDevice] releases the lock twice, and is the
    composition of its three critical sections. *)

From stdpp Require Import pretty sorting.
From S2P Require Import Prelude Text UsbErrors UsbTypes DescriptorParser Interfaces Marshalling Json.
From S2P Require Import HostDriver HostEvents HostPolicy.

#[local] Set Default Goal Selector "!".

(** Whether the platform's [char] is signed: a byte of 0xFF then reads as -1. *)
Class CharSign := char_is_signed : bool.

(** [usb_host_manager.cpp:87-90] the constants of the strings *)
Definition HALF : Z := 2.
Definition DESCRIPTOR_TYPE_STRING : Z := 3.
Definition DESCRIPTOR_VALUE_START_OFFSET : nat := 2.
Definition CURSOR_INIT : Z := 18.
(** [usb_host_manager.cpp:112-115] the constants of the device files *)
Definition RETRY_NUM : nat := 10.
Definition RETRY_INTERVAL : Z := 100.
Definition USB_DEV_FS_PATH : string := "/dev/bus/usb".

(** [%03u] *)
Definition pad3 (z : Z) : string :=
  let s := pretty z in pad_zeros (3 - String.length s) s.

Section HostManager.
Context {E N SM R Rp : Type} `{EB : ErrBase} `{HD : HostHdi E} `{SY : HostSystem E Rp}.
Context `{RY : Reply Rp} `{SP : SystemParams E} `{NO : NotifierOps N} `{CJ : CJson} `{HO : HashOrder}.
Context `{SR : SerialPorts SM} `{CR : CallerRights R} `{CS : CharSign}.
Abbreviation st := (HostDriver.st E N SM R).

(** ** Reading a device from the driver *)

(** [usb_host_manager.cpp:501-525] [UsbHostManager::CheckDevPathIsExist] the path always fits its buffer *)
Definition CheckDevPathIsExist (busNum devAddr : Z) : ST st Z :=
  let path := (USB_DEV_FS_PATH +:+ "/" +:+ pad3 busNum +:+ "/" +:+ pad3 devAddr)%string in
  ret ← on_platform (access_exists path);
  if negb (ret =? UEC_OK) then mret UEC_SERVICE_INNER_ERR
  else
    ret ← on_platform (access_rw path);
    mret (if negb (ret =? UEC_OK) then UEC_SERVICE_INNER_ERR else UEC_OK).

(** [usb_host_manager.cpp:1437-1475] [Utf16leToUtf8] *)
Definition Utf16leToUtf8 (bytes : list Z) : string :=
  if negb (Z.of_nat (length bytes) mod HALF =? 0) then " "
  else
    let bom :=
      match bytes with
      | b0 :: b1 :: _ => negb char_is_signed && (b0 =? 255) && (b1 =? 254)
      | _ => false
      end in
    let bytes := if bom then drop 2 bytes else bytes in
    match bytes with
    | [] => " "
    | _ =>
        match iconv_utf16le bytes with
        | None => " "
        | Some str => c_str str
        end
    end.

(** [usb_host_manager.cpp:1477-1526] [UsbHostManager::GetDevStringValFromIdx] *)
Definition GetDevStringValFromIdx (busNum devAddr idx : Z) : ST st string :=
  if idx =? 0 then mret " "%string
  else
    b ← gets usbHostInterface_;
    if negb b then mret " "%string
    else
      r ← on_platform (hdi_GetStringDescriptor (mk_UsbDev busNum devAddr) idx []);
      let '(ret, strV) := r in
      if negb (ret =? UEC_OK) then mret " "%string
      else
        match strV with
        | _ :: ty :: value =>
            if negb (ty =? DESCRIPTOR_TYPE_STRING) then mret " "%string
            else mret (Utf16leToUtf8 value)
        | _ => mret " "%string
        end.

(** The interfaces of a configuration, and the configurations, with their names filled in. *)
Definition name_interfaces (bus addr : Z) : list UsbInterface.t → ST st (list UsbInterface.t) :=
  mapM (λ i, s ← GetDevStringValFromIdx bus addr (UsbInterface.GetiInterface i);
             mret (UsbInterface.SetName s i)).
Definition name_configs (bus addr : Z) : list USBConfig.t → ST st (list USBConfig.t) :=
  mapM (λ c, s ← GetDevStringValFromIdx bus addr (USBConfig.GetiConfiguration c);
             ifs ← name_interfaces bus addr (USBConfig.GetInterfaces c);
             mret (USBConfig.SetInterfaces ifs (USBConfig.SetName s c))).

(** [usb_host_manager.cpp:1401-1435] [UsbHostManager::FillDevStrings] the result is [UEC_OK] and the device it updates *)
Definition FillDevStrings (dev : UsbDevice.t) : ST st UsbDevice.t :=
  let bus := UsbDevice.GetBusNum dev in
  let addr := UsbDevice.GetDevAddr dev in
  let dev := UsbDevice.SetVersion (BcdToString (UsbDevice.GetbcdUSB dev)) dev in
  m ← GetDevStringValFromIdx bus addr (UsbDevice.GetiManufacturer dev);
  p ← GetDevStringValFromIdx bus addr (UsbDevice.GetiProduct dev);
  n ← GetDevStringValFromIdx bus addr (UsbDevice.GetiSerialNumber dev);
  let dev := UsbDevice.SetmSerial n
               (UsbDevice.SetProductName p (UsbDevice.SetManufacturerName m dev)) in
  configs ← name_configs bus addr (UsbDevice.GetConfigs dev);
  mret (UsbDevice.SetConfigs configs dev).

(** The operations that parse return [OutOfBounds] or [OutOfFuel] when the parser would
    read outside its buffer or not return. *)
(** [usb_host_manager.cpp:568-594] [UsbHostManager::GetDeviceInfoDescriptor] the code, the descriptor and the device *)
Definition GetDeviceInfoDescriptor (uDev : UsbDev) (descriptor : list Z) (dev : UsbDevice.t)
    : ST st (res (Z * list Z * UsbDevice.t)) :=
  r ← GetRawDescriptor (busNum uDev) (devAddr uDev) descriptor;
  let '(ret, descriptor) := r in
  if negb (ret =? UEC_OK) then mret (Val (ret, descriptor, dev))
  else
    let length := u32 (Z.of_nat (length descriptor)) in
    if bool_decide (descriptor = []) || (length =? 0)
    then mret (Val (UEC_SERVICE_INVALID_VALUE, descriptor, dev))
    else
      let dev := UsbDevice.SetName (dev_name (busNum uDev) (devAddr uDev))
                   (UsbDevice.SetDevAddr (devAddr uDev) (UsbDevice.SetBusNum (busNum uDev) dev)) in
      mret (r ← ParseDeviceDescriptor (Some descriptor) length dev;
            Val (r.1, descriptor, r.2)).

(** [usb_host_manager.cpp:596-608] [UsbHostManager::GetConfigDescriptor] *)
Definition GetConfigDescriptor (dev : UsbDevice.t) (descriptor : list Z)
    : ST st (res (Z * UsbDevice.t)) :=
  match ParseConfigDescriptors descriptor CURSOR_INIT [] with
  | Val (ret, configs) =>
      if negb (ret =? UEC_OK) then mret (Val (ret, dev))
      else
        dev ← FillDevStrings (UsbDevice.SetConfigs configs dev);
        mret (Val (UEC_OK, dev))
  | OutOfBounds => mret OutOfBounds
  | OutOfFuel => mret OutOfFuel
  end.

(** The first loop of [GetDeviceInfo]: wait for the device's file to appear. *)
Fixpoint wait_path (n : nat) (busNum devAddr : Z) : ST st unit :=
  match n with
  | O => mret tt
  | S n =>
      ret ← CheckDevPathIsExist busNum devAddr;
      if ret =? UEC_OK then mret tt
      else on_platform (sleep_for RETRY_INTERVAL) ;; wait_path n busNum devAddr
  end.

(** [usb_host_manager.cpp:527-566] [UsbHostManager::GetDeviceInfo] *)
Definition GetDeviceInfo (busNum devAddr : Z) (dev : UsbDevice.t) : ST st (res (Z * UsbDevice.t)) :=
  wait_path RETRY_NUM busNum devAddr ;;
  ret ← OpenDevice busNum devAddr;
  if negb (ret =? UEC_OK) then mret (Val (ret, dev))
  else
    r ← GetDeviceInfoDescriptor (mk_UsbDev busNum devAddr) [] dev;
    match r with
    | OutOfBounds => mret OutOfBounds
    | OutOfFuel => mret OutOfFuel
    | Val (ret, descriptor, dev) =>
        if negb (ret =? UEC_OK) then
          res ← Close busNum devAddr;
          mret (Val (if negb (res =? UEC_OK) then res else ret, dev))
        else
          r ← GetConfigDescriptor dev descriptor;
          match r with
          | OutOfBounds => mret OutOfBounds
          | OutOfFuel => mret OutOfFuel
          | Val (res, dev) =>
              ret ← Close busNum devAddr;
              mret (Val (if negb (ret =? UEC_OK) then ret else res, dev))
          end
    end.

(** ** Serial ports *)

(** [usb_host_manager.cpp:2082-2089] [UsbHostManager::SetSerialManager] *)
Definition SetSerialManager (serialManager : bool) : ST st unit :=
  mwhen serialManager (modify (set_usbSerialManager_ true)).

Definition dev_of (dev : UsbDevice.t) : UsbDev :=
  mk_UsbDev (UsbDevice.GetBusNum dev) (UsbDevice.GetDevAddr dev).

(** [usb_host_manager.cpp:2091-2118] [UsbHostManager::AddUsbSerialDevice] *)
Definition AddUsbSerialDevice (dev : UsbDevice.t) : ST st unit :=
  b ← gets usbSerialManager_;
  if negb b then mret tt
  else
    r ← on_serial serial_GetPortList;
    let '(ret, serialList) := r in
    if negb (ret =? UEC_OK) then mret tt
    else
      mwhen (bool_decide (dev_of dev ∈ serialList))
        (known ← gets serialDevices_;
         mwhen (negb (bool_decide (dev_of dev ∈ known)))
           (modify (set_serialDevices_ (known ++ [dev_of dev])))).

(** ** Adding and removing a device *)

(** The key of a device. *)
Definition key_of (dev : UsbDevice.t) : string :=
  dev_name (UsbDevice.GetBusNum dev) (UsbDevice.GetDevAddr dev).

(** [usb_host_manager.cpp:1215-1236] [UsbHostManager::AddDevice] the first critical section *)
Definition AddDevice_insert (dev : UsbDevice.t) : ST st unit :=
  let name := key_of dev in
  let dev := UsbDevice.SetAuthorizeStatus NEW_ARRIVED dev in
  modify (λ s, set_devices_ (<[name := dev]> (devices_ s)) s) ;;
  AddUsbSerialDevice dev.

(** [usb_host_manager.cpp:1241-1257] [UsbHostManager::AddDevice] the second critical section *)
Definition AddDevice_announce (name : string) : ST st bool :=
  d ← device_at name;
  match d with
  | None => mret false
  | Some dev =>
      (if bool_decide (UsbDevice.GetAuthorizeStatus dev = DISABLED) then mret tt
       else
         let dev := UsbDevice.SetAuthorizeStatus ENABLED dev in
         update_device name (λ _, dev) ;;
         PublishCommonEvent COMMON_EVENT_USB_DEVICE_ATTACHED dev ;; mret tt) ;;
      mret true
  end.

(** [usb_host_manager.cpp:1209-1258] [UsbHostManager::AddDevice] [None] is the null pointer *)
Definition AddDevice (dev : option UsbDevice.t) : ST st bool :=
  match dev with
  | None => mret false
  | Some dev =>
      AddDevice_insert dev ;;
      ExecuteStrategy ;;
      AddDevice_announce (key_of dev)
  end.

(** Erase the first entry of a device. *)
Fixpoint erase_first (k : UsbDev) (l : list UsbDev) : list UsbDev :=
  match l with
  | [] => []
  | x :: l => if bool_decide (x = k) then l else x :: erase_first k l
  end.

(** [usb_host_manager.cpp:1171-1207] [UsbHostManager::DelDevice] *)
Definition DelDevice (busNum devNum : Z) : ST st bool :=
  let name := dev_name busNum devNum in
  d ← device_at name;
  match d with
  | None => mret false
  | Some devOld =>
      mwhen (bool_decide (UsbDevice.GetAuthorizeStatus devOld = ENABLED))
        (PublishCommonEvent COMMON_EVENT_USB_DEVICE_DETACHED devOld ;; mret tt) ;;
      modify (λ s, set_serialDevices_ (erase_first (dev_of devOld) (serialDevices_ s)) s) ;;
      modify (λ s, set_devices_ (delete name (devices_ s)) s) ;;
      mret true
  end.

(** ** Queries *)

(** The devices in the order of the table. *)
Definition devices_in_order (m : gmap string UsbDevice.t) : list UsbDevice.t :=
  omap (λ name, m !! name) (keys_in_order m).

(** [usb_host_manager.cpp:482-499] [UsbHostManager::GetDevices] the devices appended to [deviceList] *)
Definition GetDevices (deviceList : list UsbDevice.t) : ST st (Z * list UsbDevice.t) :=
  isSystemAppOrSa ← on_rights rights_IsSystemAppOrSa;
  devs ← gets devices_;
  mret (UEC_OK, deviceList ++ omap (λ d,
    if ((UsbDevice.GetClass d =? BASE_CLASS_HUB) && negb isSystemAppOrSa) ||
       negb (bool_decide (UsbDevice.GetAuthorizeStatus d = ENABLED)) then None
    else Some (if (isSystemAppOrSa : bool) then d else UsbDevice.SetmSerial "" d))
    (devices_in_order devs)).

(** [usb_host_manager.cpp:1123-1134] [UsbHostManager::GetTargetDevice] [None] leaves the out-parameter alone *)
Definition GetTargetDevice (busNum devAddr : Z) : ST st (option UsbDevice.t) :=
  devs ← gets devices_;
  mret (snd <$> list_find (λ d, UsbDevice.GetBusNum d = busNum ∧ UsbDevice.GetDevAddr d = devAddr)
                  (devices_in_order devs)).

(** [usb_host_manager.cpp:1136-1152] [UsbHostManager::GetEndpointFromId] *)
Definition GetEndpointFromId (dev : UsbDevice.t) (endpointId : Z) : option USBEndpoint.t :=
  let eps := concat (map (λ c, concat (map UsbInterface.GetEndpoints (USBConfig.GetInterfaces c)))
                      (UsbDevice.GetConfigs dev)) in
  snd <$> list_find (λ ep, USBEndpoint.GetAddress ep = u32 endpointId) eps.

(** [usb_host_manager.cpp:1154-1169] [UsbHostManager::GetProductName] *)
Definition GetProductName (deviceName : string) : ST st (option string) :=
  d ← device_at deviceName;
  mret (UsbDevice.GetProductName <$> d).

(** [usb_host_manager.cpp:1294-1307] [UsbHostManager::Dump] the lines printed, and the result *)
Definition Dump (args : string) : ST st (list string * bool) :=
  if negb (String.eqb args "-a") then mret (["args is not -a"%string], false)
  else
    devs ← gets devices_;
    mret ("Usb Host all device list info:"%string ::
          map (λ d, ("usb host list info: " +:+ UsbDevice_getJsonString d)%string)
            (devices_in_order devs), true).
End HostManager.
