(* ===== verification/HostInvariant.v ===== *)
(** * The host manager: what every policy keeps

    A policy acts on the table of devices through three operations only: it authorises a
    device ([UsbDeviceAuthorize]), it marks an interface, and it reports what it does; the
    rest are calls of the platform.  A predicate that these keep is kept by every policy
    and by the strategy that chooses between them, which is shown once here, and used for
    what the clients see ([HostVisibility]) and for the identities of the devices
    ([ServiceIdentity]). *)

From S2P Require Import Prelude UsbErrors UsbTypes DescriptorParser Interfaces Marshalling Json.
From S2P Require Import HostDriver HostEvents HostPolicy HostManager.

#[local] Set Default Goal Selector "!".

Section PolicyInvariant.
Context {E N SM R Rp : Type} `{EB : ErrBase} `{HD : HostHdi E} `{SY : HostSystem E Rp}.
Context `{RY : Reply Rp} `{SP : SystemParams E} `{NO : NotifierOps N} `{CJ : CJson} `{HO : HashOrder}.
Abbreviation st := (HostDriver.st E N SM R).

(** What a predicate on the manager's states must keep. *)
Class PolicyInvariant (I : st → Prop) := {
  inv_platform {A} (m : ST E A) : preserves I (on_platform m);
  inv_authorize bus addr b op : preserves I (UsbDeviceAuthorize bus addr b op);
  inv_set_interface name i j b : preserves I (set_interface_status name i j b);
  inv_manage_report op v p c sc pr : preserves I (emit (ManageDeviceReport op v p c sc pr));
}.

Context (I : st → Prop) `{!PolicyInvariant I}.

Lemma kept_host (m : ST E Z) : preserves I (with_host m).
Proof. unfold with_host. step_preserve. apply inv_platform. Qed.
Lemma kept_host_out {A} (x : A) (m : ST E (Z * A)) : preserves I (with_host_out x m).
Proof. unfold with_host_out. step_preserve. apply inv_platform. Qed.
Lemma kept_device_at name : preserves I (device_at name).
Proof. apply preserves_gets. Qed.

#[local] Hint Resolve inv_platform inv_authorize inv_set_interface inv_manage_report kept_host
  kept_host_out kept_device_at : preserve.

Lemma kept_until_some {A B} (l : list A) (f : A → ST st (option B)) :
  (∀ x, preserves I (f x)) → preserves I (until_some l f).
Proof. intros Hf. induction l as [|x l IH]; simpl; step_preserve; auto. Qed.

Lemma kept_ManageGlobalInterfaceImpl disable :
  preserves I (ManageGlobalInterfaceImpl disable).
Proof. unfold ManageGlobalInterfaceImpl. host_preserve. Qed.

Lemma kept_ManageDeviceImpl v p disable : preserves I (ManageDeviceImpl v p disable).
Proof.
  unfold ManageDeviceImpl. step_preserve. apply kept_until_some. host_preserve.
Qed.

Lemma kept_ManageInterfaceTypeImpl t disable :
  preserves I (ManageInterfaceTypeImpl t disable).
Proof. unfold ManageInterfaceTypeImpl. host_preserve. Qed.

Lemma kept_ManageDeviceTypeImpl t disable :
  preserves I (ManageDeviceTypeImpl t disable).
Proof. unfold ManageDeviceTypeImpl. host_preserve. Qed.

#[local] Hint Resolve kept_ManageGlobalInterfaceImpl kept_ManageDeviceImpl
  kept_ManageInterfaceTypeImpl kept_ManageDeviceTypeImpl : preserve.

Lemma kept_ExecuteManageInterfaceType types disable :
  preserves I (ExecuteManageInterfaceType types disable).
Proof. unfold ExecuteManageInterfaceType, ExecuteManageDeviceType. host_preserve. Qed.

Lemma kept_manage_each names trust ret : preserves I (manage_each names trust ret).
Proof. revert ret. induction names as [|n names IH]; simpl; step_preserve; auto. Qed.

Lemma kept_ExecuteManageDevicePolicy trust :
  preserves I (ExecuteManageDevicePolicy trust).
Proof. unfold ExecuteManageDevicePolicy. step_preserve. apply kept_manage_each. Qed.

Lemma kept_edm_query code : preserves I (edm_query (Rp:=Rp) code).
Proof. unfold edm_query. step_preserve. Qed.
#[local] Hint Resolve kept_ExecuteManageInterfaceType kept_ExecuteManageDevicePolicy
  kept_edm_query : preserve.

Lemma kept_GetEdmPolicy p : preserves I (GetEdmPolicy p).
Proof.
  unfold GetEdmPolicy, then_ask, GetEdmGlobalPolicy, GetEdmStroageTypePolicy, GetEdmTypePolicy,
    GetEdmTrustListPolicy, LoadEdmService. step_preserve.
Qed.

Lemma kept_GetUsbPolicy p : preserves I (GetUsbPolicy p).
Proof.
  assert (Hl : ∀ n t q, preserves I (policy_loop n t q)).
  { intros n t. induction n as [|n IH]; intros q; simpl; step_preserve; auto using kept_GetEdmPolicy. }
  unfold GetUsbPolicy. step_preserve.
Qed.

Lemma kept_ManageUsbSerialDevice_with strategy disable :
  preserves I strategy → preserves I (ManageUsbSerialDevice_with strategy disable).
Proof. intros H. unfold ManageUsbSerialDevice_with. step_preserve. Qed.
#[local] Hint Resolve kept_GetUsbPolicy kept_ManageUsbSerialDevice_with : preserve.

Lemma kept_ExecuteStrategy : preserves I ExecuteStrategy.
Proof.
  unfold ExecuteStrategy. host_preserve.
Qed.
#[local] Hint Resolve kept_ExecuteStrategy : preserve.

Lemma kept_ManageUsbSerialDevice disable : preserves I (ManageUsbSerialDevice disable).
Proof. apply kept_ManageUsbSerialDevice_with, kept_ExecuteStrategy. Qed.
End PolicyInvariant.
