(* ===== verification/HostVisibility.v ===== *)
(** * The host manager: what the clients see

    A client learns of the devices in two ways: it lists them, and it follows the attach
    and detach broadcasts.  The theorems of this file say that the two agree: a device is
    listed exactly when the last broadcast about it was an attach.

    The sections of the manager that change the status of a device hold [devicesMutex_] as
    a [std::shared_lock], so that they overlap: the histories here are made of the parts of
    these sections ([part]), not of whole operations.  What the code does not exclude is
    that two sections are about the same device at once, and then the two may disagree
    ([HostSim.announcement_overtaken]). *)

From Stdlib Require Import Ascii.
From stdpp Require Import pretty sorting relations.
From S2P Require Import Prelude UsbErrors UsbTypes DescriptorParser Interfaces Marshalling Json.
From S2P Require Import HostDriver HostEvents HostPolicy HostManager HostInvariant.

#[local] Set Default Goal Selector "!".

(** ** The names of devices

    On bytes, a name determines the bus and the address: the numbers hold no dash. *)
Definition dashless (s : string) : bool :=
  forallb (λ c, negb (Ascii.eqb c "-"%char)) (String.list_ascii_of_string s).

Lemma dash_split a b x y :
  dashless a = true → dashless b = true →
  (a +:+ String "-"%char x)%string = (b +:+ String "-"%char y)%string → a = b ∧ x = y.
Proof.
  revert b. unfold dashless. induction a as [|c a IH]; intros [|e b]; simpl; intros Ha Hb [=];
    subst; try done.
  bsimp. by destruct (IH b) as [-> ->].
Qed.

Lemma dashless_u8 z : is_u8 z → dashless (pretty z) = true.
Proof.
  intros Hz. assert (Hall : forallb (λ n, dashless (pretty n)) (seqZ 0 256) = true) by (by vm_compute).
  eapply (forallb_true_elem _ _ z) in Hall; [done|]. apply elem_of_seqZ. width_lia.
Qed.

Lemma dev_name_inj b a b' a' :
  is_u8 b → is_u8 a → is_u8 b' → is_u8 a' → dev_name b a = dev_name b' a' → b = b' ∧ a = a'.
Proof.
  intros Hb Ha Hb' Ha'. unfold dev_name. intros Heq.
  apply (dash_split (pretty b) (pretty b') (pretty a) (pretty a')) in Heq as [H1 H2];
    [|by apply dashless_u8..].
  by apply (inj pretty) in H1, H2.
Qed.

Section Visibility.
Context {E N SM R Rp : Type} `{EB : ErrBase} `{HD : HostHdi E} `{SY : HostSystem E Rp}.
Context `{RY : Reply Rp} `{SP : SystemParams E} `{NO : NotifierOps N} `{CJ : CJson} `{HO : HashOrder}.
Context `{SR : SerialPorts SM} `{CR : CallerRights R} `{CS : CharSign}.
Abbreviation st := (HostDriver.st E N SM R).
Implicit Types (s : st) (k : UsbDev) (d : UsbDevice.t).

(** ** The invariant *)
Definition typed_dev k : Prop := is_u8 (busNum k) ∧ is_u8 (devAddr k).
Definition name_of k : string := dev_name (busNum k) (devAddr k).

(** What an event says of a device: attached ([true]), detached ([false]) or nothing. *)
Definition about k (e : HostEvent) : option bool :=
  match e with
  | Broadcast d ev =>
      if bool_decide (dev_of d = k)
      then Some (String.eqb (action ev) COMMON_EVENT_USB_DEVICE_ATTACHED) else None
  | _ => None
  end.
(** The last broadcast about the device was an attach. *)
Definition announced (l : list HostEvent) k : bool :=
  foldl (λ b e, default b (about k e)) false l.
(** The device is in the table and enabled. *)
Definition shown (devs : gmap string UsbDevice.t) k : bool :=
  match devs !! name_of k with
  | Some d => bool_decide (UsbDevice.GetAuthorizeStatus d = ENABLED)
  | None => false
  end.
(** Every device is kept under its own name. *)
Definition keyed (devs : gmap string UsbDevice.t) : Prop :=
  ∀ name d, devs !! name = Some d → name = key_of d ∧ typed_dev (dev_of d).

Definition consistent s : Prop :=
  keyed (devices_ s) ∧
  ∀ k, typed_dev k → announced (log s) k = shown (devices_ s) k.

#[local] Arguments announced : simpl never.
#[local] Arguments shown : simpl never.

Lemma announced_snoc l e k : announced (l ++ [e]) k = default (announced l k) (about k e).
Proof. unfold announced. by rewrite foldl_snoc. Qed.

Lemma name_of_dev d : name_of (dev_of d) = key_of d.
Proof. done. Qed.

Lemma key_same d d' : dev_of d = dev_of d' → key_of d = key_of d'.
Proof. intros H. exact (f_equal name_of H). Qed.

Lemma name_of_inj k k' : typed_dev k → typed_dev k' → name_of k = name_of k' → k = k'.
Proof.
  intros [??] [??] Heq. apply dev_name_inj in Heq as [??]; [|done..]. destruct k, k'; simpl in *; congruence.
Qed.

(** Nothing that a client can see changes. *)
Lemma consistent_same s s' :
  devices_ s' = devices_ s → log s' = log s → consistent s → consistent s'.
Proof. unfold consistent. by intros -> ->. Qed.

Lemma consistent_platform {A} (m : ST E A) : preserves consistent (on_platform m).
Proof.
  intros s Hs. unfold after, on_platform. destruct (m (platform s)) as [a e]. by apply (consistent_same s).
Qed.
Lemma consistent_notifier {A} (m : ST N A) : preserves consistent (on_notifier m).
Proof.
  intros s Hs. unfold after, on_notifier. destruct (m (notifier s)) as [a n]. by apply (consistent_same s).
Qed.
Lemma consistent_serial {A} (m : ST SM A) : preserves consistent (on_serial m).
Proof.
  intros s Hs. unfold after, on_serial. destruct (m (serial s)) as [a n]. by apply (consistent_same s).
Qed.

(** A report is no broadcast. *)
Lemma consistent_emit e : (∀ k, about k e = None) → preserves consistent (emit e).
Proof.
  intros He s [Hk Hs]. split; [done|]. intros k Hk'. cbn. by rewrite announced_snoc, He, Hs.
Qed.

(** A change of a device that keeps its name and whether it is enabled. *)
Lemma consistent_alter s s' name f :
  consistent s → log s' = log s → devices_ s' = alter f name (devices_ s) →
  (∀ d, devices_ s !! name = Some d → dev_of (f d) = dev_of d ∧
     bool_decide (UsbDevice.GetAuthorizeStatus (f d) = ENABLED) =
     bool_decide (UsbDevice.GetAuthorizeStatus d = ENABLED)) →
  consistent s'.
Proof.
  intros [Hk Hs] Hl Hd Hf. split.
  - intros n d. rewrite Hd, lookup_alter. case_decide; [subst|by apply Hk].
    intros (d' & Hd' & ->)%fmap_Some. destruct (Hf d' Hd') as [Hid _].
    apply Hk in Hd' as [-> Ht]. by rewrite (key_same _ _ Hid), Hid.
  - intros k Hkt. rewrite Hl, Hs by done. unfold shown. rewrite Hd, lookup_alter.
    case_decide as Hn; [|done]. subst name.
    destruct (devices_ s !! name_of k) as [d|] eqn:Hd0; [|done]. simpl. by rewrite (proj2 (Hf d eq_refl)).
Qed.

(** ** Broadcasts *)
Lemma announced_announcement l ev d k :
  announced (l ++ announcement ev d) k =
    if bool_decide (dev_of d = k) then String.eqb ev COMMON_EVENT_USB_DEVICE_ATTACHED
    else announced l k.
Proof.
  unfold announcement. rewrite cons_middle, app_assoc, !announced_snoc. cbn. by case_bool_decide.
Qed.

(** Announcing a device, and giving it the status that was announced or removing it. *)
Lemma consistent_announce s s' ev d d' :
  consistent s → devices_ s !! key_of d = Some d' → dev_of d' = dev_of d →
  log s' = log s ++ announcement ev d →
  (∃ d'', dev_of d'' = dev_of d ∧ devices_ s' = <[key_of d := d'']> (devices_ s) ∧
     bool_decide (UsbDevice.GetAuthorizeStatus d'' = ENABLED) =
       String.eqb ev COMMON_EVENT_USB_DEVICE_ATTACHED) ∨
  (String.eqb ev COMMON_EVENT_USB_DEVICE_ATTACHED = false ∧
     devices_ s' = delete (key_of d) (devices_ s)) →
  consistent s'.
Proof.
  intros [Hk Hs] Hd' Hid Hlog Hdevs.
  assert (Ht : typed_dev (dev_of d)). { rewrite <- Hid. by apply (Hk (key_of d)). }
  split.
  - intros n x. destruct Hdevs as [(d'' & Hid'' & -> & _)|[_ ->]].
    + rewrite lookup_insert. case_decide; [|by apply Hk]. subst n. intros [= <-].
      by rewrite (key_same _ _ Hid''), Hid''.
    + rewrite lookup_delete. case_decide; [done|]. apply Hk.
  - intros k Hkt. rewrite Hlog, announced_announcement. case_bool_decide as Hdk.
    + subst k. unfold shown. rewrite name_of_dev.
      destruct Hdevs as [(d'' & _ & -> & <-)|[-> ->]].
      * by rewrite lookup_insert_eq.
      * by rewrite lookup_delete_eq.
    + rewrite Hs by done. unfold shown. assert (key_of d ≠ name_of k).
      { intros Heq. apply Hdk. by apply name_of_inj. }
      destruct Hdevs as [(d'' & _ & -> & _)|[_ ->]].
      * by rewrite lookup_insert_ne.
      * by rewrite lookup_delete_ne.
Qed.

Lemma detached_is_not_attached :
  String.eqb COMMON_EVENT_USB_DEVICE_DETACHED COMMON_EVENT_USB_DEVICE_ATTACHED = false.
Proof. done. Qed.

(** A report that is no broadcast in front of an announcement. *)
Lemma consistent_reported s s' (l : list HostEvent) :
  Forall (λ e, ∀ k, about k e = None) l →
  devices_ s' = devices_ s → log s' = log s ++ l → consistent s → consistent s'.
Proof.
  intros Hl Hd Hlog [Hk Hs]. split; [by rewrite Hd|]. intros k Hkt. rewrite Hd, Hlog, <- Hs by done.
  clear -Hl. revert Hl. induction l as [|e l IH] using rev_ind; intros Hl; [by rewrite app_nil_r|].
  apply Forall_app in Hl as [Hl He]. rewrite app_assoc, announced_snoc.
  rewrite Forall_singleton in He. rewrite (He k). by apply IH.
Qed.

#[local] Hint Resolve consistent_platform consistent_notifier consistent_serial : preserve.
#[local] Hint Extern 1 (preserves consistent (emit _)) => apply consistent_emit; reflexivity : preserve.

Lemma consistent_AddUsbSerialDevice d : preserves consistent (AddUsbSerialDevice d).
Proof. unfold AddUsbSerialDevice. step_preserve. intros s Hs. by apply (consistent_same s). Qed.

(** A device arrives under a name that is not shown: it is not announced yet. *)
Lemma consistent_AddDevice_insert d s :
  typed_dev (dev_of d) → shown (devices_ s) (dev_of d) = false →
  consistent s → consistent (after (AddDevice_insert d) s).
Proof.
  intros Ht Hsh [Hk Hs]. unfold AddDevice_insert. rewrite after_bind, after_modify.
  apply consistent_AddUsbSerialDevice. split.
  - intros n x. cbn. rewrite lookup_insert. case_decide; [by intros [= <-]; subst|apply Hk].
  - intros k Hkt. cbn. rewrite Hs by done. unfold shown at 2. cbn. rewrite lookup_insert.
    case_decide as Hn; [|done]. rewrite <- (name_of_dev d) in Hn.
    apply name_of_inj in Hn as <-; [|done..]. by rewrite Hsh.
Qed.

Lemma consistent_DelDevice b a : preserves consistent (DelDevice b a).
Proof.
  intros s Hs. unfold after, DelDevice, device_at. st_exec.
  destruct (devices_ s !! dev_name b a) as [d|] eqn:Hd; [|done]. cbn [mwhen]. st_exec.
  assert (Hkey : dev_name b a = key_of d ∧ typed_dev (dev_of d)) by (by apply (proj1 Hs)).
  destruct Hkey as [Hkey Ht]. rewrite Hkey in Hd |- *. case_bool_decide as Hst; cbn [mwhen]; st_exec.
  - match goal with |- context [PublishCommonEvent ?ev d ?t] =>
      destruct (PublishCommonEvent_run ev d t) as (ok & e & n & ->) end. st_exec.
    eapply (consistent_announce s _ COMMON_EVENT_USB_DEVICE_DETACHED d d); try done. by right.
  - destruct Hs as [Hk Hs]. split.
    + intros n x. cbn. rewrite lookup_delete. case_decide; [done|apply Hk].
    + intros k Hkt. cbn. rewrite Hs by done. unfold shown. cbn. rewrite lookup_delete.
      case_decide as Hn; [|done]. rewrite <- (name_of_dev d) in Hn.
      apply name_of_inj in Hn as <-; [|done..]. rewrite name_of_dev, Hd. by apply bool_decide_eq_false_2.
Qed.

(** ** The parts of the sections

    Where a section is with a device: an authorisation has read its status and asks the
    driver ([Deciding]), then it has reported the change and will write the status
    ([Reported]); the end of [AddDevice] has enabled it and will announce it ([Marked]).
    [parts] are the devices that a section is about. *)
Inductive phase := Deciding (authorized : bool) (operationType : string) | Reported (authorized : bool) | Marked.
Abbreviation parts := (gmap string phase).
Implicit Types h : parts.

(** The exclusive sections, which insert and delete, wait for all others.  No part starts
    about a device that another section is about. *)
Inductive part : st * parts → st * parts → Prop :=
  | part_read name b op d s h :
      h !! name = None → devices_ s !! name = Some d → settled b d = false →
      part (s, h) (s, <[name := Deciding b op]> h)
  | part_refused name b op s h :
      h !! name = Some (Deciding b op) → part (s, h) (s, delete name h)
  | part_report name b op d s h :
      h !! name = Some (Deciding b op) → devices_ s !! name = Some d →
      part (s, h) (after (report_change b op d) s, <[name := Reported b]> h)
  | part_write name b s h :
      h !! name = Some (Reported b) →
      part (s, h) (after (update_device name (UsbDevice.SetAuthorizeStatus (status_of b))) s, delete name h)
  | part_mark name d s h :
      h !! name = None → devices_ s !! name = Some d → UsbDevice.GetAuthorizeStatus d ≠ DISABLED →
      part (s, h) (after (update_device name (UsbDevice.SetAuthorizeStatus ENABLED)) s, <[name := Marked]> h)
  | part_announce name d s h :
      h !! name = Some Marked → devices_ s !! name = Some d →
      part (s, h) (after (PublishCommonEvent COMMON_EVENT_USB_DEVICE_ATTACHED d) s, delete name h)
  | part_insert d s :
      typed_dev (dev_of d) → shown (devices_ s) (dev_of d) = false →
      part (s, ∅) (after (AddDevice_insert d) s, ∅)
  | part_delete b a s : part (s, ∅) (after (DelDevice b a) s, ∅)
  | part_interface name i j b s h : part (s, h) (after (set_interface_status name i j b) s, h)
  | part_manage_report op v p c sc pr s h :
      part (s, h) (after (emit (ManageDeviceReport op v p c sc pr)) s, h)
  | part_environment s s' h :
      devices_ s' = devices_ s → log s' = log s → part (s, h) (s', h).

(** *** The invariant of the parts *)
Definition phase_ok s k (p : option phase) : Prop :=
  match p with
  | None => announced (log s) k = shown (devices_ s) k
  | Some (Deciding b _) =>
      announced (log s) k = shown (devices_ s) k ∧ ∃ d, devices_ s !! name_of k = Some d ∧ settled b d = false
  | Some (Reported b) => announced (log s) k = b ∧ is_Some (devices_ s !! name_of k)
  | Some Marked => shown (devices_ s) k = true
  end.
Definition steady s h : Prop :=
  keyed (devices_ s) ∧ ∀ k, typed_dev k → phase_ok s k (h !! name_of k).

Lemma steady_alone s : steady s ∅ ↔ consistent s.
Proof. split; intros [Hk Hs]; (split; [done|]); intros k Ht; specialize (Hs k Ht); by rewrite ?lookup_empty in *. Qed.

(** A part that is about one device only, whose name and identity it keeps. *)
Lemma steady_at s h s' h' d f :
  steady s h → devices_ s !! key_of d = Some d → dev_of (f d) = dev_of d →
  devices_ s' = alter f (key_of d) (devices_ s) →
  (∀ k, k ≠ dev_of d → announced (log s') k = announced (log s) k) →
  (∀ n, n ≠ key_of d → h' !! n = h !! n) →
  phase_ok s' (dev_of d) (h' !! key_of d) → steady s' h'.
Proof.
  intros [Hk Hs] Hd Hid Hdev Hlog Hh Hok. pose proof (proj2 (Hk _ _ Hd)) as Ht. split.
  - intros n x. rewrite Hdev, lookup_alter. case_decide; [subst|by apply Hk]. rewrite Hd. intros [= <-].
    by rewrite (key_same _ _ Hid), Hid.
  - intros k Hkt. destruct (decide (k = dev_of d)) as [->|Hne]; [by rewrite name_of_dev|].
    assert (Hn : name_of k ≠ key_of d). { intros Hn. apply Hne. by apply name_of_inj. }
    rewrite Hh by done. specialize (Hs k Hkt). unfold phase_ok, shown in *.
    rewrite Hlog, Hdev, lookup_alter_ne by done. exact Hs.
Qed.
(** A part that changes no name, no status and no broadcast. *)
Lemma steady_same s h s' f name :
  steady s h → devices_ s' = alter f name (devices_ s) →
  (∀ k, announced (log s') k = announced (log s) k) →
  (∀ d, dev_of (f d) = dev_of d ∧ UsbDevice.GetAuthorizeStatus (f d) = UsbDevice.GetAuthorizeStatus d) →
  steady s' h.
Proof.
  intros [Hk Hs] Hdev Hlog Hf. split.
  - intros n x. rewrite Hdev, lookup_alter. case_decide; [subst|by apply Hk]. intros (d & Hd & ->)%fmap_Some.
    destruct (Hf d) as [Hid _]. apply Hk in Hd as [-> Ht]. by rewrite (key_same _ _ Hid), Hid.
  - intros k Hkt. specialize (Hs k Hkt). unfold phase_ok, shown in *. rewrite Hlog, Hdev, lookup_alter.
    case_decide as Hn; [|exact Hs]. subst name. destruct (devices_ s !! name_of k) as [d|]; cbn; [|exact Hs].
    destruct (Hf d) as [_ Hst]. rewrite Hst. repeat case_match; try done.
    + destruct Hs as [H1 (d' & [= <-] & H2)]. split; [done|]. exists (f d). split; [done|].
      unfold settled in *. by rewrite Hst.
    + destruct Hs as [H1 _]. split; [done|by eexists].
Qed.

Lemma settled_new b d : settled b d = false → UsbDevice.GetAuthorizeStatus d = NEW_ARRIVED → b = false.
Proof. unfold settled. intros H1 H2. rewrite H2 in H1. by destruct b. Qed.

Lemma steady_report name b op d s h :
  h !! name = Some (Deciding b op) → devices_ s !! name = Some d → steady s h →
  steady (after (report_change b op d) s) (<[name := Reported b]> h).
Proof.
  intros Hh Hd Hst. destruct (proj1 Hst _ _ Hd) as [-> Ht]. unfold after.
  destruct (report_run b op d s) as (s' & -> & _ & Hdev & Hlog). cbn [snd].
  pose proof (proj2 Hst _ Ht) as Hok. rewrite name_of_dev, Hh in Hok. destruct Hok as [Ha (d' & Hd' & Hset)].
  rewrite name_of_dev, Hd in Hd'. injection Hd' as <-.
  set (r := if b then [] else [ManageDeviceReport op (UsbDevice.GetVendorId d) (UsbDevice.GetProductId d)
      (UsbDevice.GetClass d) (UsbDevice.GetSubclass d) (UsbDevice.GetProtocol d)]).
  assert (Hr : ∀ k, announced (log s ++ r) k = announced (log s) k).
  { intros k. unfold r. destruct b; [by rewrite app_nil_r|]. by rewrite announced_snoc. }
  unfold authorize_report in Hlog. fold r in Hlog. rewrite app_assoc in Hlog.
  apply (steady_at s h _ _ d id); [done..|rewrite Hdev; symmetry; apply alter_id; done| | |].
  - intros k Hne. rewrite Hlog. case_bool_decide; [by rewrite app_nil_r|].
    rewrite announced_announcement, bool_decide_eq_false_2 by done. apply Hr.
  - intros n Hn. by rewrite lookup_insert_ne.
  - rewrite lookup_insert_eq. cbn. rewrite Hdev, Hlog, name_of_dev, Hd. split; [|by eexists].
    case_bool_decide as Hnew.
    + rewrite app_nil_r, Hr, Ha, (settled_new b d Hset Hnew). unfold shown. rewrite name_of_dev, Hd, Hnew. done.
    + rewrite announced_announcement, bool_decide_eq_true_2 by done. by destruct b.
Qed.

Lemma steady_write name b s h :
  h !! name = Some (Reported b) → steady s h →
  steady (after (update_device name (UsbDevice.SetAuthorizeStatus (status_of b))) s) (delete name h).
Proof.
  intros Hh Hst. destruct (devices_ s !! name) as [d|] eqn:Hd.
  - destruct (proj1 Hst _ _ Hd) as [-> Ht]. pose proof (proj2 Hst _ Ht) as Hok. rewrite name_of_dev, Hh in Hok.
    destruct Hok as [Ha _].
    apply (steady_at s h _ _ d (UsbDevice.SetAuthorizeStatus (status_of b))); [done..| |].
    + intros n Hn. by rewrite lookup_delete_ne.
    + rewrite lookup_delete_eq. cbn. unfold shown. cbn. rewrite name_of_dev, lookup_alter_eq, Hd, Ha. cbn. by destruct b.
  - destruct Hst as [Hk Hs]. assert (Hne : ∀ k, typed_dev k → name_of k ≠ name).
    { intros k Ht <-. specialize (Hs k Ht). rewrite Hh in Hs. cbn in Hs. rewrite Hd in Hs. by destruct Hs as [_ []]. }
    assert (Hsame : alter (UsbDevice.SetAuthorizeStatus (status_of b)) name (devices_ s) = devices_ s).
    { apply map_eq. intros n. rewrite lookup_alter. case_decide; [subst; by rewrite Hd|done]. }
    unfold steady, phase_ok. cbn. rewrite Hsame. split; [done|].
    intros k Ht. pose proof (Hne k Ht). rewrite lookup_delete_ne by done. by apply Hs.
Qed.

Lemma steady_mark name d s h :
  devices_ s !! name = Some d → steady s h →
  steady (after (update_device name (UsbDevice.SetAuthorizeStatus ENABLED)) s) (<[name := Marked]> h).
Proof.
  intros Hd Hst. destruct (proj1 Hst _ _ Hd) as [-> Ht].
  apply (steady_at s h _ _ d (UsbDevice.SetAuthorizeStatus ENABLED)); [done..| |].
  - intros n Hn. by rewrite lookup_insert_ne.
  - rewrite lookup_insert_eq. cbn. unfold shown. cbn. by rewrite name_of_dev, lookup_alter_eq, Hd.
Qed.

Lemma steady_announce name d s h :
  h !! name = Some Marked → devices_ s !! name = Some d → steady s h →
  steady (after (PublishCommonEvent COMMON_EVENT_USB_DEVICE_ATTACHED d) s) (delete name h).
Proof.
  intros Hh Hd Hst. destruct (proj1 Hst _ _ Hd) as [-> Ht]. pose proof (proj2 Hst _ Ht) as Hok.
  rewrite name_of_dev, Hh in Hok. cbn in Hok. unfold after.
  destruct (PublishCommonEvent_run COMMON_EVENT_USB_DEVICE_ATTACHED d s) as (ok & e & n & ->). cbn [snd].
  apply (steady_at s h _ _ d id); [done..|cbn; symmetry; apply alter_id; done| | |].
  - intros k Hne. cbn. by rewrite announced_announcement, bool_decide_eq_false_2 by done.
  - intros m Hm. by rewrite lookup_delete_ne.
  - rewrite lookup_delete_eq. cbn. by rewrite announced_announcement, bool_decide_eq_true_2, Hok by done.
Qed.

Lemma steady_part x y : part x y → steady x.1 x.2 → steady y.1 y.2.
Proof.
  intros []; cbn [fst snd].
  - intros Hst. destruct (proj1 Hst _ _ H0) as [-> Ht]. pose proof (proj2 Hst _ Ht) as Hok. rewrite name_of_dev, H in Hok.
    apply (steady_at s h _ _ d id); [done..|symmetry; by apply alter_id|done| |].
    + intros n Hn. by rewrite lookup_insert_ne.
    + rewrite lookup_insert_eq. split; [done|]. exists d. by rewrite name_of_dev.
  - intros [Hk Hs]. split; [done|]. intros k Ht. specialize (Hs k Ht). rewrite lookup_delete.
    case_decide as Hn; [|done]. rewrite <- Hn, H in Hs. by destruct Hs.
  - by apply steady_report.
  - by apply steady_write.
  - by eapply steady_mark.
  - by apply steady_announce.
  - rewrite !steady_alone. by apply consistent_AddDevice_insert.
  - rewrite !steady_alone. apply consistent_DelDevice.
  - intros Hst. by eapply steady_same.
  - intros Hst. apply (steady_same s h _ id "" Hst); [cbn; symmetry; by apply alter_id| |done].
    intros k. cbn. by rewrite announced_snoc.
  - intros Hst. apply (steady_same s h _ id "" Hst); [rewrite H; symmetry; by apply alter_id| |done].
    intros k. by rewrite H0.
Qed.

(** ** The operations, made of these parts

    Run alone, an operation is a history of parts.  A request that only reaches the driver
    is [step_request]. *)
Inductive host_step : st → st → Prop :=
  | step_insert d s :
      typed_dev (dev_of d) → shown (devices_ s) (dev_of d) = false →
      host_step s (after (AddDevice_insert d) s)
  | step_announce name s : host_step s (after (AddDevice_announce name) s)
  | step_delete b a s : host_step s (after (DelDevice b a) s)
  | step_strategy s : host_step s (after ExecuteStrategy s)
  | step_global disable s : host_step s (after (ManageGlobalInterface disable) s)
  | step_device v p disable s : host_step s (after (ManageDevice v p disable) s)
  | step_trust trust s : host_step s (after (ManageDevicePolicy trust) s)
  | step_type types disable s : host_step s (after (ManageInterfaceType types disable) s)
  | step_serial disable s : host_step s (after (ManageUsbSerialDevice disable) s)
  | step_request (m : ST E Z) s : host_step s (after (with_host m) s)
  | step_environment s s' :
      devices_ s' = devices_ s → log s' = log s → host_step s s'.

(** The states that parts reach from [s0], with no section under way. *)
Definition by_parts s0 s : Prop := rtc part (s0, ∅) (s, ∅).
Lemma by_parts_more s0 s s' : rtc part (s, ∅) (s', ∅) → by_parts s0 s → by_parts s0 s'.
Proof. intros H1 H2. unfold by_parts. by etrans. Qed.

Lemma authorize_parts bus addr b op s : rtc part (s, ∅) (after (UsbDeviceAuthorize bus addr b op) s, ∅).
Proof.
  unfold after. destruct (UsbDeviceAuthorize_run bus addr b op s) as
    (ret & s' & -> & _ & [(Hd & Hl & _)|(d & Hd & Hset & _ & Hd' & Hl)]); cbn [snd].
  { by apply rtc_once, part_environment. }
  set (name := dev_name bus addr) in *.
  eapply rtc_l; [by apply (part_read name b op d)|].
  eapply rtc_l; [apply (part_report name b op d); [apply lookup_insert_eq|done]|]. rewrite insert_insert_eq.
  eapply rtc_l; [apply (part_write name b), lookup_insert_eq|]. rewrite delete_insert_eq, delete_id by apply lookup_empty.
  apply rtc_once, part_environment; unfold after; destruct (report_run b op d s) as (s1 & -> & _ & Hdev & Hlog); cbn.
  - by rewrite Hdev.
  - by rewrite Hlog.
Qed.
Lemma announce_parts name s : rtc part (s, ∅) (after (AddDevice_announce name) s, ∅).
Proof.
  unfold after, AddDevice_announce, device_at. st_exec. destruct (devices_ s !! name) as [d|] eqn:Hd; [|done].
  case_bool_decide as Hst; st_exec; [done|]. set (d' := UsbDevice.SetAuthorizeStatus ENABLED d).
  eapply rtc_l; [by apply (part_mark name d)|].
  eapply rtc_l; [apply (part_announce name d'); [apply lookup_insert_eq|cbn; by rewrite lookup_alter_eq, Hd]|].
  rewrite delete_insert_eq, delete_id by apply lookup_empty.
  unfold update_device, after. st_exec.
  assert (Heq : alter (λ _, d') name (devices_ s) = alter (UsbDevice.SetAuthorizeStatus ENABLED) name (devices_ s)).
  { apply map_eq. intros n. rewrite !lookup_alter. case_decide; [subst; by rewrite Hd|done]. }
  rewrite Heq. match goal with |- context [PublishCommonEvent ?ev d' ?t] =>
    destruct (PublishCommonEvent_run ev d' t) as (ok & e & n & ->) end. by st_exec.
Qed.

#[export] Instance by_parts_policies s0 : PolicyInvariant (by_parts s0).
Proof.
  constructor; intros; intros s Hs; (eapply by_parts_more; [|exact Hs]).
  - apply rtc_once, part_environment; unfold after; rewrite on_platform_run; done.
  - apply authorize_parts.
  - apply rtc_once, part_interface.
  - apply rtc_once, part_manage_report.
Qed.

Lemma alone {A} (m : ST st A) s : (∀ s0, preserves (by_parts s0) m) → rtc part (s, ∅) (after m s, ∅).
Proof. intros Hm. apply (Hm s s), rtc_refl. Qed.
Lemma host_step_parts s s' : host_step s s' → rtc part (s, ∅) (s', ∅).
Proof.
  intros [].
  - by apply rtc_once, part_insert.
  - apply announce_parts.
  - apply rtc_once, part_delete.
  - apply alone. intros. apply kept_ExecuteStrategy, _.
  - apply alone. intros. apply kept_ManageGlobalInterfaceImpl, _.
  - apply alone. intros. apply kept_ManageDeviceImpl, _.
  - apply alone. intros. apply kept_ExecuteManageDevicePolicy, _.
  - apply alone. intros. apply kept_ExecuteManageInterfaceType, _.
  - apply alone. intros. apply kept_ManageUsbSerialDevice, _.
  - apply alone. intros. apply kept_host, _.
  - by apply rtc_once, part_environment.
Qed.

Definition host_start s : Prop := devices_ s = ∅ ∧ log s = [].

Lemma host_start_consistent s : host_start s → consistent s.
Proof.
  intros [Hd Hl]. split; [by intros n d; rewrite Hd, lookup_empty|].
  intros k _. by rewrite Hd, Hl.
Qed.
Lemma parts_steady x y : rtc part x y → steady x.1 x.2 → steady y.1 y.2.
Proof. induction 1 as [|x y z Hxy _ IH]; intros Hs; [done|]. by apply IH, (steady_part x). Qed.

Lemma host_step_consistent s s' : host_step s s' → consistent s → consistent s'.
Proof. intros Hst. rewrite <- !steady_alone. by apply (parts_steady (s, ∅) (s', ∅)), host_step_parts. Qed.
Lemma host_reachable_consistent s s' : host_start s → rtc host_step s s' → consistent s'.
Proof.
  intros Hs%host_start_consistent Hr. induction Hr as [|s1 s2 s3 H12 _ IH]; [done|].
  by apply IH, (host_step_consistent s1).
Qed.

Lemma elem_of_devices_in_order (m : gmap string UsbDevice.t) d :
  d ∈ devices_in_order m ↔ ∃ name, m !! name = Some d.
Proof.
  unfold devices_in_order, keys_in_order. rewrite list_elem_of_omap. split.
  - intros (name & _ & H). by exists name.
  - intros [name H]. exists name. split; [|done].
    rewrite merge_sort_Permutation, elem_of_elements. by apply elem_of_dom_2 in H.
Qed.

(** C24: The sections that change the status of a device overlap in any way - the parts of
    one may come between the parts of another -, as long as no two sections are about the
    same device at once and no device arrives under the name of one that is still shown.
    Then, in every history that starts with an empty table, a system client lists a device
    that no section is about exactly when it is in the table and the last broadcast about
    it was an attach: one that was disabled, is not announced yet or was removed is not
    listed, and every other device that was announced still is.  Every operation, run
    alone, is such a history.  (Two sections about one device can break it; the code does
    not exclude them: [announcement_overtaken].) *)
Theorem listed_iff_announced s s' h d (Hs : host_start s) (Hr : rtc part (s, ∅) (s', h))
    (Hsys : (rights_IsSystemAppOrSa (rights s')).1 = true) (Hh : h !! key_of d = None) :
  (d ∈ (result (GetDevices []) s').2 ↔
     (∃ name, devices_ s' !! name = Some d) ∧ announced (log s') (dev_of d) = true) ∧
  (∀ s1 s2, host_step s1 s2 → rtc part (s1, ∅) (s2, ∅)).
Proof.
  split; [|apply host_step_parts].
  assert (Hst : steady s' h).
  { apply (parts_steady _ _ Hr). by apply steady_alone, host_start_consistent. }
  destruct Hst as [Hk Ha].
  assert (Hshown : ∀ name, devices_ s' !! name = Some d →
      announced (log s') (dev_of d) = bool_decide (UsbDevice.GetAuthorizeStatus d = ENABLED)).
  { intros name Hx. destruct (Hk name d Hx) as [-> Ht]. specialize (Ha _ Ht). rewrite name_of_dev, Hh in Ha.
    cbn in Ha. rewrite Ha. unfold shown. by rewrite name_of_dev, Hx. }
  unfold GetDevices, result. rewrite !bind_unfold, on_rights_run. st_exec. rewrite Hsys. cbn.
  rewrite list_elem_of_omap. setoid_rewrite elem_of_devices_in_order. split.
  - intros (x & [name Hx] & H). rewrite andb_false_r in H. cbn in H.
    case_bool_decide as Hst; [|done]. injection H as <-. split; [by exists name|].
    rewrite (Hshown name) by done. by apply bool_decide_eq_true_2.
  - intros [[name Hx] Hann]. rewrite (Hshown name) in Hann by done. exists d. split; [by exists name|].
    by rewrite andb_false_r, Hann.
Qed.
End Visibility.
