(* ===== verification/HostDecisions.v ===== *)
(** * The host manager: policies are exact

    With a driver that does what it is asked, a policy decides every device: the nested
    loops of the code amount to one pass over the table, whatever order the type tables
    are enumerated in. *)

From stdpp Require Import pretty sorting.
From S2P Require Import Prelude UsbErrors UsbTypes DescriptorParser Interfaces Marshalling Json.
From S2P Require Import HostDriver HostEvents HostPolicy HostManager HostVisibility.

#[local] Set Default Goal Selector "!".

(** A driver that opens and authorises every device. *)
Class ReliableHost (E : Type) `{HostHdi E} := {
  open_ok dev e : result (hdi_OpenDevice dev) e = UEC_OK;
  authorize_ok b a z e : result (hdi_UsbDeviceAuthorize b a z) e = UEC_OK;
}.

(** Give a device the status of a decision, unless it has it. *)
Definition decide_status (authorized : bool) (d : UsbDevice.t) : UsbDevice.t :=
  if settled authorized d then d else UsbDevice.SetAuthorizeStatus (status_of authorized) d.

(** A trust list's decision: hubs are left alone, an empty list trusts every device. *)
Definition trusted (trust : list UsbDeviceId) (d : UsbDevice.t) : bool :=
  in_trust_list trust d || bool_decide (trust = []).
Definition apply_trust (trust : list UsbDeviceId) (d : UsbDevice.t) : UsbDevice.t :=
  if UsbDevice.GetClass d =? BASE_CLASS_HUB then d else decide_status (trusted trust d) d.

Lemma settled_decided b d : settled b (decide_status b d) = true.
Proof.
  unfold decide_status. destruct (settled b d) eqn:Hs; [done|]. by destruct b.
Qed.

Lemma decide_status_same b d : dev_of (decide_status b d) = dev_of d ∧
  UsbDevice.GetClass (decide_status b d) = UsbDevice.GetClass d ∧
  UsbDevice.GetVendorId (decide_status b d) = UsbDevice.GetVendorId d ∧
  UsbDevice.GetProductId (decide_status b d) = UsbDevice.GetProductId d.
Proof. unfold decide_status. by destruct (settled b d). Qed.

Lemma decide_status_idemp b d : decide_status b (decide_status b d) = decide_status b d.
Proof. unfold decide_status at 1. by rewrite settled_decided. Qed.

(** ** The type tables

    No two entries of a table match the same class, subclass and protocol, so that the
    order in which a table is enumerated does not matter. *)
Definition overlap (v w : TypeValues) : bool :=
  (v_baseClass v =? v_baseClass w) &&
  ((v_subClass v =? v_subClass w) || (v_subClass v =? RANDOM_VALUE_INDICATE) ||
   (v_subClass w =? RANDOM_VALUE_INDICATE)) &&
  ((v_protocol v =? v_protocol w) || (v_protocol v =? RANDOM_VALUE_INDICATE) ||
   (v_protocol w =? RANDOM_VALUE_INDICATE)).

Fixpoint disjoint_types (l : list (InterfaceType * TypeValues)) : bool :=
  match l with
  | [] => true
  | kv :: l => forallb (λ kv', negb (overlap kv.2 kv'.2)) l && disjoint_types l
  end.

Lemma d_typeMap_disjoint : disjoint_types d_typeMap = true.
Proof. by vm_compute. Qed.
Lemma g_typeMap_disjoint : disjoint_types g_typeMap = true.
Proof. by vm_compute. Qed.

Lemma matches_overlap v w b c p :
  matches_type v b c p = true → matches_type w b c p = true → overlap v w = true.
Proof. unfold matches_type, overlap. intros. lia. Qed.

Lemma disjoint_types_unique l kv kv' b c p :
  disjoint_types l = true → kv ∈ l → kv' ∈ l →
  matches_type kv.2 b c p = true → matches_type kv'.2 b c p = true → kv = kv'.
Proof.
  induction l as [|x l IH]; simpl; [set_solver|]. intros Hd Hk Hk' Hm Hm'. bsimp.
  assert (Hx : ∀ y, y ∈ l → matches_type x.2 b c p = true → matches_type y.2 b c p = true → False).
  { intros y Hy H1 H2. eapply (forallb_true_elem _ _ y) in H; [|done].
    simpl in H. by rewrite (matches_overlap x.2 y.2 b c p) in H. }
  apply elem_of_cons in Hk as [->|Hk], Hk' as [->|Hk']; [done| | |by apply IH].
  - exfalso. by apply (Hx kv').
  - exfalso. by apply (Hx kv).
Qed.

(** The entry that matches, in any enumeration. *)
Definition find_match (l : list (InterfaceType * TypeValues)) (b c p : Z)
    : option (InterfaceType * TypeValues) :=
  snd <$> list_find (λ kv, matches_type kv.2 b c p = true) l.

Lemma find_match_spec l b c p kv :
  disjoint_types l = true →
  find_match l b c p = Some kv ↔ kv ∈ l ∧ matches_type kv.2 b c p = true.
Proof.
  intros Hd. unfold find_match. split.
  - intros ([i x] & Hx & [= ->])%fmap_Some. apply list_find_Some in Hx as (Hx & Hm & _).
    split; [by eapply list_elem_of_lookup_2|done].
  - intros [Hk Hm]. destruct (list_find_elem_of (λ kv, matches_type kv.2 b c p = true) l kv) as [[i x] Hx]; [done..|].
    rewrite Hx. simpl. f_equal. apply list_find_Some in Hx as (Hx & Hmx & _).
    eapply disjoint_types_unique; [done|by eapply list_elem_of_lookup_2|done..].
Qed.

(** [find_match] over any enumeration of a table is [find_match] over the table. *)
Lemma find_match_perm l l' b c p :
  disjoint_types l = true → l' ≡ₚ l → find_match l' b c p = find_match l b c p.
Proof.
  intros Hd Hp. destruct (find_match l b c p) as [kv|] eqn:E.
  - apply find_match_spec in E as [Hk Hm]; [|done]. unfold find_match.
    destruct (list_find_elem_of (λ kv, matches_type kv.2 b c p = true) l' kv) as [[i x] Hx];
      [by rewrite Hp|done|].
    rewrite Hx. simpl. f_equal. apply list_find_Some in Hx as (Hx & Hmx & _).
    eapply disjoint_types_unique; [done| |done..]. rewrite <- Hp. by eapply list_elem_of_lookup_2.
  - destruct (find_match l' b c p) as [kv|] eqn:E'; [|done].
    unfold find_match in E'. apply fmap_Some in E' as ([i x] & Hx & ->).
    apply list_find_Some in Hx as (Hx & Hm & _). apply list_elem_of_lookup_2 in Hx.
    assert (find_match l b c p = Some x) as Hf by (apply find_match_spec; [done|by rewrite <- Hp]).
    by rewrite Hf in E.
Qed.

(** The types that a list of types disables, by the table alone. *)
Definition listed_types (m : list (InterfaceType * TypeValues)) (isDev : bool)
    (types : list UsbDeviceType) : list InterfaceType :=
  omap (λ dev, if Bool.eqb (isDeviceType dev) isDev
               then fst <$> find_match m (t_baseClass dev) (t_subClass dev) (t_protocol dev)
               else None) types.

Lemma FindMatchingTypes_listed `{HO : HashOrder} m isDev types :
  disjoint_types m = true → FindMatchingTypes m isDev types = listed_types m isDev types.
Proof.
  intros Hd. unfold FindMatchingTypes, listed_types. apply list_omap_ext. apply Forall_Forall2_diag.
  apply Forall_forall. intros dev _. destruct (Bool.eqb (isDeviceType dev) isDev); simpl; [|done].
  rewrite <- (find_match_perm m (hash_order m)) by (done || apply hash_order_perm).
  unfold find_match. set (P := λ kv : InterfaceType * TypeValues, _ = true).
  set (Q := λ kv : InterfaceType * TypeValues, matches_type kv.2 _ _ _ = true).
  rewrite (list_find_ext P Q).
  - destruct (list_find Q (hash_order m)) as [[i [t v]]|]; done.
  - intros kv. unfold P, Q, matches_type, RANDOM_VALUE_INDICATE. lia.
Qed.

Section Decisions.
Context {E N SM R Rp : Type} `{EB : ErrBase} `{HD : HostHdi E} `{SY : HostSystem E Rp}.
Context `{RY : Reply Rp} `{SP : SystemParams E} `{NO : NotifierOps N} `{CJ : CJson} `{HO : HashOrder}.
Context `{RH : !ReliableHost E}.
Abbreviation st := (HostDriver.st E N SM R).
Implicit Types (s : st) (d : UsbDevice.t).

(** The manager is initialised and its table is keyed. *)
Definition ready s : Prop :=
  usbDeviceInterface_ s = true ∧ usbHostInterface_ s = true ∧ keyed (devices_ s).

(** The table of [s'] is that of [s] with every device under a name of [l] changed by [f]. *)
Definition updated (f : UsbDevice.t → UsbDevice.t) (l : list string) s s' : Prop :=
  host_frame s s' ∧
  ∀ n, devices_ s' !! n =
    if bool_decide (n ∈ l) then f <$> devices_ s !! n else devices_ s !! n.

(** A change that keeps a device's identity keeps the manager ready. *)
Lemma ready_updated f l s s' :
  (∀ d, dev_of (f d) = dev_of d) → updated f l s s' → ready s → ready s'.
Proof.
  intros Hf [[] Hd] (H1 & H2 & Hk). split_and!; [congruence..|]. intros n d. rewrite Hd.
  case_bool_decide; [|apply Hk]. intros (x & Hx & ->)%fmap_Some. apply Hk in Hx as [-> Ht].
  by rewrite (key_same _ _ (Hf x)), (Hf x).
Qed.

(** Authorising the device under a name. *)
Lemma authorize_updated name d b op s :
  ready s → devices_ s !! name = Some d →
  ∃ s', UsbDeviceAuthorize (UsbDevice.GetBusNum d) (UsbDevice.GetDevAddr d) b op s = (UEC_OK, s') ∧
    updated (decide_status b) [name] s s'.
Proof.
  intros (Hdi & _ & Hk) Hd. destruct (Hk name d Hd) as [-> _].
  assert (Hret : result (UsbDeviceAuthorize (UsbDevice.GetBusNum d) (UsbDevice.GetDevAddr d) b op) s = UEC_OK).
  { unfold result, UsbDeviceAuthorize, device_at. st_exec. rewrite Hdi. st_exec.
    fold (key_of d). rewrite Hd. case_if; [done|]. st_exec. rewrite on_platform_run. st_exec.
    pose proof (authorize_ok (UsbDevice.GetBusNum d) (UsbDevice.GetDevAddr d) b (platform s)) as Hok.
    unfold result in Hok. rewrite Hok. by st_exec. }
  destruct (UsbDeviceAuthorize_run (UsbDevice.GetBusNum d) (UsbDevice.GetDevAddr d) b op s)
    as (ret & s' & Heq & Hf & Hcase).
  unfold result in Hret. rewrite Heq in Hret. simpl in Hret. subst ret.
  exists s'. split; [done|]. split; [done|]. fold (key_of d) in *. intros n.
  destruct Hcase as [(Hdev & _ & Hset)|(x & Hx & Hset & _ & Hdev & _)].
  - destruct (Hset eq_refl) as (x & Hx & Hsx). rewrite Hdev. case_bool_decide as Hn; [|done].
    apply list_elem_of_singleton in Hn as ->. rewrite Hx. simpl. unfold decide_status. by rewrite Hsx.
  - rewrite Hdev, lookup_alter. rewrite Hd in Hx. injection Hx as <-. case_decide as Hn.
    + subst n. rewrite bool_decide_eq_true_2 by (by left). rewrite Hd. simpl.
      unfold decide_status. by rewrite Hset.
    + rewrite bool_decide_eq_false_2; [done|]. by intros ->%list_elem_of_singleton.
Qed.

(** ** Loops that update one device at a time *)
Lemma updated_refl f s : updated f [] s s.
Proof. split; [done|]. intros n. by rewrite bool_decide_eq_false_2 by set_solver. Qed.

Lemma updated_cons f name l s s1 s2 :
  name ∉ l → updated f [name] s s1 → updated f l s1 s2 → updated f (name :: l) s s2.
Proof.
  intros Hn [F1 H1] [F2 H2]. split; [by etrans|]. intros n. rewrite H2, H1.
  destruct (decide (n = name)) as [->|Hne].
  - rewrite (bool_decide_eq_false_2 (name ∈ l)) by done.
    by rewrite !bool_decide_eq_true_2 by (by left).
  - rewrite (bool_decide_eq_false_2 (n ∈ [name])) by (by intros ->%list_elem_of_singleton).
    by rewrite (bool_decide_ext (n ∈ name :: l) (n ∈ l)) by (rewrite elem_of_cons; naive_solver).
Qed.

(** The table where [f] does nothing is the same. *)
Lemma updated_skip f name s :
  (∀ d, devices_ s !! name = Some d → f d = d) → updated f [name] s s.
Proof.
  intros Hf. split; [done|]. intros n. case_bool_decide as Hn; [|done].
  apply list_elem_of_singleton in Hn as ->. destruct (devices_ s !! name) as [d|]; [|done].
  simpl. by rewrite Hf.
Qed.

(** The driver requests around an update. *)
Lemma updated_request f l (e e' : E) s s' :
  updated f l (set_platform e s) s' → updated f l s (set_platform e' s').
Proof.
  intros [F H]. split; [|exact H]. destruct F. by split.
Qed.

Lemma ready_request e s : ready s → ready (set_platform e s).
Proof. done. Qed.

Lemma OpenDevice_ready b a s : ready s → ∃ e, OpenDevice b a s = (UEC_OK, set_platform e s).
Proof.
  intros (_ & Hh & _). unfold OpenDevice, with_host. st_exec. rewrite Hh, on_platform_run.
  pose proof (open_ok (mk_UsbDev b a) (platform s)) as Hok. unfold result in Hok.
  exists (hdi_OpenDevice (mk_UsbDev b a) (platform s)).2. by rewrite Hok.
Qed.

Lemma Close_ready b a s : ready s → ∃ r e, Close b a s = (r, set_platform e s).
Proof.
  intros (_ & Hh & _). unfold Close, with_host. st_exec. rewrite Hh, on_platform_run. by eexists _, _.
Qed.

(** A device is opened, authorised or not, and closed: the shape of both policies. *)
Lemma managed_updated {A} (x : Z → A) (y : A) name d b op s :
  ready s → devices_ s !! name = Some d →
  ∃ s', (ret ← OpenDevice (UsbDevice.GetBusNum d) (UsbDevice.GetDevAddr d);
         if negb (ret =? UEC_OK) then mret (x ret)
         else
           UsbDeviceAuthorize (UsbDevice.GetBusNum d) (UsbDevice.GetDevAddr d) b op ;;
           Close (UsbDevice.GetBusNum d) (UsbDevice.GetDevAddr d) ;;
           mret y) s = (y, s') ∧ updated (decide_status b) [name] s s'.
Proof.
  intros Hs Hd. st_exec.
  destruct (OpenDevice_ready (UsbDevice.GetBusNum d) (UsbDevice.GetDevAddr d) s Hs) as [e ->]. st_exec.
  destruct (authorize_updated name d b op (set_platform e s)) as (s1 & -> & Hu); [done..|]. st_exec.
  destruct (Close_ready (UsbDevice.GetBusNum d) (UsbDevice.GetDevAddr d) s1) as (r & e' & ->).
  { eapply ready_updated; [|exact Hu|by apply ready_request]. intros u. apply decide_status_same. }
  st_exec. exists (set_platform e' s1). split; [done|]. exact (updated_request _ _ e e' _ _ Hu).
Qed.

Lemma updated_ext f g name s s' :
  (∀ d, devices_ s !! name = Some d → f d = g d) →
  updated f [name] s s' → updated g [name] s s'.
Proof.
  intros Hfg [F H]. split; [done|]. intros n. rewrite H. case_bool_decide as Hn; [|done].
  apply list_elem_of_singleton in Hn as ->. destruct (devices_ s !! name) as [d|]; [|done].
  simpl. by rewrite Hfg.
Qed.

(** A loop over names whose steps update their device. *)
Section Loops.
Context (s0 : st) (f : UsbDevice.t → UsbDevice.t) (Hf : ∀ d, dev_of (f d) = dev_of d).

Lemma until_some_updated {B} (body : string → ST st (option B)) :
  (∀ name s, ready s → host_frame s0 s → ∃ s', body name s = (None, s') ∧ updated f [name] s s') →
  ∀ l s, NoDup l → ready s → host_frame s0 s →
  ∃ s', until_some l body s = (None, s') ∧ updated f l s s'.
Proof.
  intros Hbody l. induction l as [|n l IH]; intros s Hl Hs Hfr; simpl.
  - exists s. split; [done|apply updated_refl].
  - apply NoDup_cons in Hl as [Hn Hl]. destruct (Hbody n s Hs Hfr) as (s1 & H1 & Hu1).
    destruct (IH s1 Hl) as (s2 & H2 & Hu2);
      [by eapply ready_updated|etrans; [done|apply Hu1]|].
    exists s2. rewrite bind_unfold, H1. simpl. split; [done|]. by eapply updated_cons.
Qed.

Lemma mfor_updated (body : string → ST st unit) :
  (∀ name s, ready s → host_frame s0 s → ∃ s', body name s = (tt, s') ∧ updated f [name] s s') →
  ∀ l s, NoDup l → ready s → host_frame s0 s →
  ∃ s', mfor l body s = (tt, s') ∧ updated f l s s'.
Proof.
  intros Hbody l. induction l as [|n l IH]; intros s Hl Hs Hfr; simpl.
  - exists s. split; [done|apply updated_refl].
  - apply NoDup_cons in Hl as [Hn Hl]. destruct (Hbody n s Hs Hfr) as (s1 & H1 & Hu1).
    destruct (IH s1 Hl) as (s2 & H2 & Hu2);
      [by eapply ready_updated|etrans; [done|apply Hu1]|].
    exists s2. rewrite bind_unfold, H1. simpl. split; [done|]. by eapply updated_cons.
Qed.
End Loops.

Lemma NoDup_keys_in_order {A} (m : gmap string A) : NoDup (keys_in_order m).
Proof. unfold keys_in_order. rewrite merge_sort_Permutation. apply NoDup_elements. Qed.
Lemma elem_of_keys_in_order {A} (m : gmap string A) n : n ∈ keys_in_order m ↔ n ∈ dom m.
Proof. unfold keys_in_order. by rewrite merge_sort_Permutation, elem_of_elements. Qed.

(** An update over all names is a pass over the table. *)
Lemma updated_all f s s' :
  updated f (keys_in_order (devices_ s)) s s' → devices_ s' = f <$> devices_ s.
Proof.
  intros [_ H]. apply map_eq. intros n. rewrite H, lookup_fmap. case_bool_decide as Hn; [done|].
  rewrite elem_of_keys_in_order, not_elem_of_dom in Hn. by rewrite Hn.
Qed.

(** ** The trust list *)

(** What one call of [ManageDeviceImpl] does to a device. *)
Definition apply_ids (vendorId productId : Z) (disable : bool) (d : UsbDevice.t) : UsbDevice.t :=
  if UsbDevice.GetClass d =? BASE_CLASS_HUB then d
  else if (UsbDevice.GetVendorId d =? vendorId) && (UsbDevice.GetProductId d =? productId)
  then decide_status (negb disable) d else d.

Lemma apply_ids_dev v p disable d : dev_of (apply_ids v p disable d) = dev_of d.
Proof. unfold apply_ids. repeat case_if; try done. apply decide_status_same. Qed.

Lemma ManageDeviceImpl_pass v p disable s :
  ready s → ∃ s', ManageDeviceImpl v p disable s = (UEC_OK, s') ∧
    host_frame s s' ∧ devices_ s' = apply_ids v p disable <$> devices_ s.
Proof.
  intros Hs. unfold ManageDeviceImpl. st_exec.
  match goal with |- context [until_some ?l ?body s] =>
    destruct (until_some_updated s (apply_ids v p disable) (apply_ids_dev v p disable) body) with l s
      as (s' & -> & Hu); [|apply NoDup_keys_in_order|done..|] end.
  - intros name t Ht _. unfold device_at. rewrite bind_unfold. cbn.
    destruct (devices_ t !! name) as [d|] eqn:Hd; cbn;
      [|exists t; split; [done|]; apply updated_skip; by rewrite Hd].
    repeat case_if.
    3,1: exists t; split; [done|]; apply updated_skip; intros x; rewrite Hd; intros [= <-];
      unfold apply_ids; by rewrite ?Heqb, ?Heqb0.
    destruct (managed_updated Some None name d (negb disable) "DeviceType" t Ht Hd) as (t' & Heq & Hu).
    exists t'. split; [exact Heq|]. revert Hu. apply updated_ext. intros x. rewrite Hd. intros [= <-].
    unfold apply_ids. by rewrite Heqb, Heqb0.
  - st_exec. exists s'. split; [done|]. split; [apply Hu|]. by apply updated_all.
Qed.

Lemma apply_trust_dev trust d : dev_of (apply_trust trust d) = dev_of d.
Proof. unfold apply_trust. case_if; [done|]. apply decide_status_same. Qed.

Lemma trusted_same trust d d' :
  UsbDevice.GetVendorId d' = UsbDevice.GetVendorId d →
  UsbDevice.GetProductId d' = UsbDevice.GetProductId d → trusted trust d' = trusted trust d.
Proof. intros Hv Hp. unfold trusted, in_trust_list. by rewrite Hv, Hp. Qed.

Lemma apply_trust_idemp trust d : apply_trust trust (apply_trust trust d) = apply_trust trust d.
Proof.
  unfold apply_trust. destruct (UsbDevice.GetClass d =? BASE_CLASS_HUB) eqn:Hh; [by rewrite Hh|].
  destruct (decide_status_same (trusted trust d) d) as (_ & Hc & Hv & Hp). rewrite Hc, Hh.
  rewrite (trusted_same trust d) by done. apply decide_status_idemp.
Qed.

(** The call that one device causes decides it, and possibly others, the same way. *)
Lemma apply_ids_trust trust x d :
  apply_ids (UsbDevice.GetVendorId x) (UsbDevice.GetProductId x) (negb (trusted trust x)) d ∈
    [d; apply_trust trust d].
Proof.
  unfold apply_ids, apply_trust. case_if; [set_solver|].
  case_if; [|set_solver]. bsimp. rewrite negb_involutive, (trusted_same trust d x) by congruence.
  set_solver.
Qed.
Lemma apply_ids_trust_self trust d :
  apply_ids (UsbDevice.GetVendorId d) (UsbDevice.GetProductId d) (negb (trusted trust d)) d =
    apply_trust trust d.
Proof. unfold apply_ids, apply_trust. by rewrite !Z.eqb_refl, negb_involutive. Qed.

(** Each device of the table is as it was, or decided; those of the names are decided. *)
Definition partly_trusted (trust : list UsbDeviceId) (names : list string)
    (m m' : gmap string UsbDevice.t) : Prop :=
  ∀ n, (m' !! n = m !! n ∧ n ∉ names) ∨ m' !! n = apply_trust trust <$> m !! n.

(** All the names of a table. *)
Lemma partly_trusted_all trust m m' :
  partly_trusted trust (keys_in_order m) m m' → m' = apply_trust trust <$> m.
Proof.
  intros H. apply map_eq. intros n. rewrite lookup_fmap.
  destruct (H n) as [[Heq Hn]| ->]; [|done].
  rewrite elem_of_keys_in_order, not_elem_of_dom in Hn. by rewrite Heq, Hn.
Qed.

Lemma manage_each_pass trust names ret s :
  ret = UEC_OK → ready s → ∃ s', manage_each names trust ret s = (UEC_OK, s') ∧
    host_frame s s' ∧ partly_trusted trust names (devices_ s) (devices_ s').
Proof.
  intros ->. revert s. induction names as [|name names IH]; intros s Hs; simpl.
  { exists s. split; [done|]. split; [done|]. intros n. left. split; [done|]. apply not_elem_of_nil. }
  unfold device_at. st_exec. destruct (devices_ s !! name) as [x|] eqn:Hx.
  - fold (trusted trust x).
    destruct (ManageDeviceImpl_pass (UsbDevice.GetVendorId x) (UsbDevice.GetProductId x)
                (negb (trusted trust x)) s Hs) as (s1 & H1 & F1 & D1).
    st_exec. rewrite H1. cbn. rewrite on_platform_run. cbn.
    match goal with |- context [manage_each names trust UEC_OK ?t] => destruct (IH t) as (s2 & -> & F2 & D2) end.
    { destruct Hs as (? & ? & Hk), F1. split_and!; cbn; [congruence..|]. rewrite D1. intros n d.
      rewrite lookup_fmap. intros (y & Hy & ->)%fmap_Some. apply Hk in Hy as [-> Ht].
      by rewrite (key_same _ _ (apply_ids_dev _ _ _ y)), apply_ids_dev. }
    exists s2. split; [done|]. split; [etrans; [exact F1|]; destruct F2; by split|].
    intros n. cbn in D2. specialize (D2 n). rewrite D1, lookup_fmap in D2.
    destruct (devices_ s !! n) as [d|] eqn:Hd; simpl in D2 |- *.
    2:{ right. by destruct D2 as [[-> _]| ->]. }
    pose proof (apply_ids_trust trust x d) as Hin.
    destruct D2 as [[-> Hn]| ->].
    + apply elem_of_cons in Hin as [Heq|Heq%list_elem_of_singleton]; [|right; by rewrite Heq].
      destruct (decide (n = name)) as [->|Hne]; [|left; split; [by rewrite Heq|set_solver]].
      right. rewrite Hx in Hd. injection Hd as ->. by rewrite apply_ids_trust_self.
    + right. f_equal. apply elem_of_cons in Hin as [->|Heq%list_elem_of_singleton]; [done|].
      by rewrite Heq, apply_trust_idemp.
  - destruct (IH s Hs) as (s2 & -> & F2 & D2). exists s2. split; [done|]. split; [done|].
    intros n. destruct (D2 n) as [[Heq Hn]|Heq]; [|by right].
    destruct (decide (n = name)) as [->|Hne]; [right; by rewrite Heq, Hx|left; set_solver].
Qed.

(** C26: A trust list decides the whole table in one pass, although the code visits the
    devices of an identifier once for each of them: with a driver that does what it is
    asked, every hub is left alone, every other device that is trusted (all are by an
    empty list) is no longer [DISABLED], every device that is not is [DISABLED], and
    the call reports success. *)
Theorem ManageDevicePolicy_exact trust s (Hs : ready s) :
  ∃ s', ManageDevicePolicy trust s = (UEC_OK, s') ∧
    devices_ s' = apply_trust trust <$> devices_ s.
Proof.
  unfold ManageDevicePolicy, ExecuteManageDevicePolicy. st_exec.
  destruct (manage_each_pass trust (keys_in_order (devices_ s)) UEC_OK s) as (s' & -> & _ & Hd); [done..|].
  st_exec. exists s'. split; [done|]. by apply partly_trusted_all.
Qed.

(** ** Policies by type *)

(** What one entry of the device-type table does to a device. *)
Definition matches_device (v : TypeValues) d : bool :=
  matches_type v (UsbDevice.GetClass d) (UsbDevice.GetSubclass d) (UsbDevice.GetProtocol d).
Definition apply_type (v : TypeValues) (disable : bool) d : UsbDevice.t :=
  if matches_device v d then decide_status (negb disable) d else d.

(** What the whole table does: the decision of the entry that matches, if any. *)
Definition type_disabled (listed : list InterfaceType) (disable : bool) (t : InterfaceType) : bool :=
  if existsb (λ u, bool_decide (t = u)) listed then disable else negb disable.
Definition apply_types (m : list (InterfaceType * TypeValues)) (types : list UsbDeviceType)
    (disable : bool) d : UsbDevice.t :=
  match find_match m (UsbDevice.GetClass d) (UsbDevice.GetSubclass d) (UsbDevice.GetProtocol d) with
  | Some (t, _) => decide_status (negb (type_disabled (listed_types m true types) disable t)) d
  | None => d
  end.

Lemma matches_device_decided v b d : matches_device v (decide_status b d) = matches_device v d.
Proof. unfold decide_status, matches_device. by destruct (settled b d). Qed.

Lemma apply_type_dev v disable d : dev_of (apply_type v disable d) = dev_of d.
Proof. unfold apply_type. case_if; [apply decide_status_same|done]. Qed.

(** Without serial ports among the devices, an entry is a pass over the table. *)
Lemma ManageDeviceTypeImpl_pass t v disable s :
  ready s → serialDevices_ s = [] → find_type d_typeMap t = Some v →
  ∃ s', ManageDeviceTypeImpl t disable s = (UEC_OK, s') ∧
    host_frame s s' ∧ devices_ s' = apply_type v disable <$> devices_ s.
Proof.
  intros Hs Hser Hv. unfold ManageDeviceTypeImpl, for_devices. rewrite Hv. st_exec.
  match goal with |- context [mfor ?l ?body s] =>
    destruct (mfor_updated s (apply_type v disable) (apply_type_dev v disable) body) with l s
      as (s' & -> & Hu); [|apply NoDup_keys_in_order|done..|] end.
  - intros name u Hu Hfr. unfold device_at, IsUsbSerialDisable, IsEdmEnabled, IsUsbSerialDevice. st_exec.
    destruct (devices_ u !! name) as [d|] eqn:Hd; st_exec;
      [|exists u; split; [done|]; apply updated_skip; by rewrite Hd].
    rewrite (fr_serialDevices _ _ Hfr), Hser. simpl existsb. rewrite andb_false_r.
    fold (matches_device v d). case_if.
    2:{ exists u. split; [done|]. apply updated_skip. intros x. rewrite Hd. intros [= <-].
        unfold apply_type. by rewrite Heqb. }
    destruct (managed_updated (λ _, tt) tt name d (negb disable) "InterfaceType" u Hu Hd) as (u' & Heq & Hu').
    exists u'. split; [exact Heq|]. revert Hu'. apply updated_ext. intros x. rewrite Hd. intros [= <-].
    unfold apply_type. by rewrite Heqb.
  - st_exec. exists s'. split; [done|]. split; [apply Hu|]. by apply updated_all.
Qed.

Lemma d_typeMap_found kv : kv ∈ d_typeMap → find_type d_typeMap kv.1 = Some kv.2.
Proof.
  intros Hk. assert (Hall : Forall (λ kv, find_type d_typeMap kv.1 = Some kv.2) d_typeMap).
  { unfold d_typeMap at 2. repeat constructor. }
  rewrite Forall_forall in Hall. by apply Hall.
Qed.

Lemma d_typeMap_NoDup : NoDup d_typeMap.
Proof.
  apply (NoDup_fmap_1 fst). apply (bool_decide_unpack _). by vm_compute.
Qed.

(** One pass after the other is one pass. *)
Lemma types_pass (dis : InterfaceType → bool) l s :
  (∀ kv, kv ∈ l → kv ∈ d_typeMap) → ready s → serialDevices_ s = [] →
  ∃ s', mfor l (λ kv, ManageDeviceTypeImpl kv.1 (dis kv.1) ;; mret tt) s = (tt, s') ∧
    host_frame s s' ∧ ready s' ∧
    devices_ s' = (λ d, foldl (λ d kv, apply_type kv.2 (dis kv.1) d) d l) <$> devices_ s.
Proof.
  revert s. induction l as [|kv l IH]; intros s Hl Hs Hser; simpl.
  { exists s. split_and!; try done. by rewrite map_fmap_id || (symmetry; apply map_fmap_id). }
  destruct (ManageDeviceTypeImpl_pass kv.1 kv.2 (dis kv.1) s) as (s1 & H1 & F1 & D1);
    [done..|by apply d_typeMap_found, Hl; left|].
  assert (Hs1 : ready s1).
  { destruct Hs as (? & ? & Hk), F1. split_and!; [congruence..|]. rewrite D1. intros n d.
    rewrite lookup_fmap. intros (y & Hy & ->)%fmap_Some. apply Hk in Hy as [-> Ht].
    by rewrite (key_same _ _ (apply_type_dev _ _ y)), apply_type_dev. }
  destruct (IH s1) as (s2 & H2 & F2 & Hs2 & D2);
    [intros; apply Hl; by right|done|by rewrite (fr_serialDevices _ _ F1)|].
  exists s2. rewrite !bind_unfold, H1. cbn. split_and!; [done|by etrans|done|].
  rewrite D2, D1. by rewrite <- map_fmap_compose.
Qed.

Lemma apply_type_class v disable d :
  UsbDevice.GetClass (apply_type v disable d) = UsbDevice.GetClass d ∧
  UsbDevice.GetSubclass (apply_type v disable d) = UsbDevice.GetSubclass d ∧
  UsbDevice.GetProtocol (apply_type v disable d) = UsbDevice.GetProtocol d.
Proof. unfold apply_type, decide_status. by repeat case_if. Qed.

(** The passes of a table without overlaps decide a device once. *)
Lemma fold_types (dis : InterfaceType → bool) l d :
  NoDup l →
  (∀ kv kv', kv ∈ l → kv' ∈ l → matches_device kv.2 d = true → matches_device kv'.2 d = true → kv = kv') →
  foldl (λ d kv, apply_type kv.2 (dis kv.1) d) d l =
    match find_match l (UsbDevice.GetClass d) (UsbDevice.GetSubclass d) (UsbDevice.GetProtocol d) with
    | Some (t, _) => decide_status (negb (dis t)) d
    | None => d
    end.
Proof.
  assert (Hrest : ∀ l d, (∀ kv, kv ∈ l → matches_device kv.2 d = false) →
      foldl (λ d kv, apply_type kv.2 (dis kv.1) d) d l = d).
  { intros l'. induction l' as [|kv l' IH]; intros x Hx; [done|]. simpl.
    assert (apply_type kv.2 (dis kv.1) x = x) as ->.
    { unfold apply_type. by rewrite Hx by (by left). }
    apply IH. intros. apply Hx. by right. }
  induction l as [|kv l IH]; intros Hnd Hu; [done|]. apply NoDup_cons in Hnd as [Hn Hnd].
  simpl. unfold find_match, apply_type at 2. simpl. fold (matches_device kv.2 d).
  destruct (matches_device kv.2 d) eqn:Hm.
  - rewrite decide_True by done. destruct kv as [t v]. simpl in *. apply Hrest.
    intros kv' Hk'. rewrite matches_device_decided.
    destruct (matches_device kv'.2 d) eqn:Hm'; [|done]. exfalso. apply Hn.
    rewrite (Hu (t, v) kv'); [done|by left|by right|done..].
  - rewrite decide_False by done. rewrite IH; [|done|intros; apply Hu; by (done || right)].
    unfold find_match. by destruct (list_find _ l) as [[i kv']|].
Qed.

(** What the device half of a type policy does. *)
Lemma device_types_pass types disable s :
  ready s → serialDevices_ s = [] →
  ∃ s', ExecuteManageDeviceType types disable d_typeMap true s = (tt, s') ∧
    host_frame s s' ∧ ready s' ∧
    devices_ s' = apply_types d_typeMap types disable <$> devices_ s.
Proof.
  intros Hs Hser. unfold ExecuteManageDeviceType.
  rewrite FindMatchingTypes_listed by apply d_typeMap_disjoint.
  destruct (types_pass (type_disabled (listed_types d_typeMap true types) disable)
              (hash_order d_typeMap) s) as (s' & H1 & F & Hr & D); [by intros kv; rewrite hash_order_perm|done..|].
  exists s'. split; [exact H1|]. split_and!; [done..|]. rewrite D. apply map_fmap_ext. intros n d _.
  rewrite fold_types.
  - unfold apply_types. rewrite (find_match_perm d_typeMap); [done|apply d_typeMap_disjoint|].
    apply hash_order_perm.
  - rewrite hash_order_perm. apply d_typeMap_NoDup.
  - intros kv kv'. rewrite !hash_order_perm. intros. eapply disjoint_types_unique; [apply d_typeMap_disjoint|done..].
Qed.

(** The statuses of the devices, which the interface half leaves alone. *)
Definition statuses s : gmap string AuthorizeStatus := UsbDevice.GetAuthorizeStatus <$> devices_ s.

Definition keeps (m : gmap string AuthorizeStatus) s : Prop := statuses s = m.

Section KeepStatuses.
Context (m : gmap string AuthorizeStatus).

Lemma keeps_platform {A} (op : ST E A) : preserves (keeps m) (on_platform op).
Proof. intros s Hs. unfold after. by rewrite on_platform_run. Qed.
Lemma keeps_host (op : ST E Z) : preserves (keeps m) (with_host op).
Proof. unfold with_host. step_preserve. apply keeps_platform. Qed.
Lemma keeps_host_out {A} (x : A) (op : ST E (Z * A)) : preserves (keeps m) (with_host_out x op).
Proof. unfold with_host_out. step_preserve. apply keeps_platform. Qed.
Lemma keeps_emit e : preserves (keeps m) (emit e).
Proof. by intros s Hs. Qed.
Lemma keeps_set_interface name i j b : preserves (keeps m) (set_interface_status name i j b).
Proof.
  unfold keeps. intros s <-. unfold statuses. cbn. apply map_eq. intros n.
  rewrite !lookup_fmap, lookup_alter. case_decide; [subst|done]. by destruct (devices_ s !! n).
Qed.
Lemma keeps_device_at name : preserves (keeps m) (device_at (E:=E) (N:=N) (S:=SM) (R:=R) name).
Proof. apply preserves_gets. Qed.
#[local] Hint Resolve keeps_platform keeps_host keeps_host_out keeps_emit keeps_set_interface
  keeps_device_at : preserve.

Lemma keeps_ManageInterfaceTypeImpl t disable : preserves (keeps m) (ManageInterfaceTypeImpl t disable).
Proof. unfold ManageInterfaceTypeImpl. host_preserve. Qed.
#[local] Hint Resolve keeps_ManageInterfaceTypeImpl : preserve.

Lemma keeps_interface_half types disable :
  preserves (keeps m) (ExecuteManageDeviceType types disable g_typeMap false ;;
                   for_devices (λ _ d, Close (UsbDevice.GetBusNum d) (UsbDevice.GetDevAddr d) ;; mret tt) ;;
                   mret UEC_OK).
Proof. unfold ExecuteManageDeviceType. host_preserve. Qed.
End KeepStatuses.

(** Opening the devices changes nothing of the manager. *)
Lemma open_all_same s :
  ∃ s', for_devices (λ _ d, OpenDevice (UsbDevice.GetBusNum d) (UsbDevice.GetDevAddr d) ;; mret tt) s = (tt, s') ∧
    host_frame s s' ∧ devices_ s' = devices_ s.
Proof.
  pose (same := λ t : st, host_frame s t ∧ devices_ t = devices_ s).
  assert (Hp : ∀ A (op : ST E A), preserves same (on_platform op)).
  { intros A op t [F D]. unfold after. rewrite on_platform_run. split; [|done]. destruct F. by split. }
  assert (Hs : preserves same (for_devices (λ _ d,
     OpenDevice (UsbDevice.GetBusNum d) (UsbDevice.GetDevAddr d) ;; mret tt))).
  { unfold for_devices, device_at, OpenDevice, with_host. step_preserve. }
  specialize (Hs s). unfold after in Hs.
  destruct (for_devices _ s) as [[] s']. exists s'. split; [done|]. by apply Hs.
Qed.

(** C27: A policy by type decides the devices as a table of types reads, in one pass and
    in whatever order the hash table enumerates its entries: with a driver that does what
    it is asked, and no USB serial ports, the status of a device whose class, subclass and
    protocol match an entry becomes [DISABLED] when the entry is among the listed types
    (for [disable]; the other way round to enable), and is not [DISABLED] when it is not
    listed; a device of no entry keeps its status. *)
Theorem ManageInterfaceType_devices types disable s (Hs : ready s) (Hser : serialDevices_ s = []) :
  result (ManageInterfaceType types disable) s = UEC_OK ∧
  statuses (after (ManageInterfaceType types disable) s) =
    (λ d, UsbDevice.GetAuthorizeStatus (apply_types d_typeMap types disable d)) <$> devices_ s.
Proof.
  unfold result, after, ManageInterfaceType, ExecuteManageInterfaceType. rewrite bind_unfold.
  destruct (open_all_same s) as (s1 & -> & F1 & D1). cbn [fst snd]. rewrite bind_unfold.
  destruct (device_types_pass types disable s1) as (s2 & -> & _ & _ & D2);
    [|by rewrite (fr_serialDevices _ _ F1)|].
  { destruct Hs as (? & ? & ?), F1. split_and!; [congruence..|by rewrite D1]. }
  cbn [fst snd]. split; [by rewrite !bind_unfold|].
  pose proof (keeps_interface_half (statuses s2) types disable s2 eq_refl) as Hk.
  unfold after in Hk. rewrite Hk. unfold statuses. rewrite D2, D1. by rewrite <- map_fmap_compose.
Qed.
End Decisions.
