(* ===== verification/HostReading.v ===== *)
(** * The host manager: reading a device

    [GetDeviceInfo] opens a device, reads and parses its descriptors and its strings, and
    closes it.  Whatever the device answers, the call returns, reads no memory outside the
    descriptor, and leaves no device open. *)

From stdpp Require Import pretty.
From S2P Require Import Prelude UsbErrors UsbTypes DescriptorParser Interfaces Marshalling Json.
From S2P Require Import HostDriver HostEvents HostPolicy HostManager.

#[local] Set Default Goal Selector "!".

(** A driver whose open devices can be counted: only a successful open and a close change
    the count. *)
Class OpenCounted (E Rp : Type) `{HostHdi E} `{HostSystem E Rp} (opened : E → Z) := {
  counted_open dev e : opened (after (hdi_OpenDevice dev) e) =
    opened e + (if result (hdi_OpenDevice dev) e =? UEC_OK then 1 else 0);
  counted_close dev e : opened (after (hdi_CloseDevice dev) e) = opened e - 1;
  counted_raw dev b e : opened (after (hdi_GetRawDescriptor dev b) e) = opened e;
  counted_string dev i b e : opened (after (hdi_GetStringDescriptor dev i b) e) = opened e;
  counted_exists p e : opened (after (access_exists p) e) = opened e;
  counted_rw p e : opened (after (access_rw p) e) = opened e;
  counted_sleep ms e : opened (after (sleep_for ms) e) = opened e;
}.

Section Reading.
Context {E N SM R Rp : Type} `{EB : ErrBase} `{HD : HostHdi E} `{SY : HostSystem E Rp} `{CS : CharSign}.
Abbreviation st := (HostDriver.st E N SM R).
Implicit Types (s : st) (d : UsbDevice.t).

(** ** What is read *)
Lemma FillDevStrings_id d s :
  dev_of (result (FillDevStrings d) s) = dev_of d ∧
  UsbDevice.GetName (result (FillDevStrings d) s) = UsbDevice.GetName d.
Proof. unfold FillDevStrings. by rewrite !result_bind. Qed.

Lemma ParseDeviceDescriptor_id mem d :
  ∃ ret d', ParseDeviceDescriptor (Some mem) (u32 (Z.of_nat (length mem))) d = Val (ret, d') ∧
    dev_of d' = dev_of d ∧ UsbDevice.GetName d' = UsbDevice.GetName d.
Proof.
  destruct (ParseDeviceDescriptor_spec mem (u32 (Z.of_nat (length mem))) d) as [[_ ->]|(x & _ & ->)].
  - pose proof (u32_range (Z.of_nat (length mem))) as Hr. split; [unfold is_u32 in Hr; lia|].
    unfold u32. apply Z.mod_le; lia.
  - by eexists _, _.
  - case_if; by eexists _, _.
Qed.

Lemma GetDeviceInfoDescriptor_reads uDev desc d s :
  ∃ ret desc' d', result (GetDeviceInfoDescriptor uDev desc d) s = Val (ret, desc', d') ∧
    (ret = UEC_OK → dev_of d' = uDev ∧
       UsbDevice.GetName d' = dev_name (busNum uDev) (devAddr uDev)).
Proof.
  unfold GetDeviceInfoDescriptor. rewrite result_bind.
  generalize (after (GetRawDescriptor (busNum uDev) (devAddr uDev) desc) s). intros s'.
  destruct (result (GetRawDescriptor _ _ _) s) as [ret desc']. case_if; bsimp.
  - destruct (bool_decide (desc' = []) || _); [|].
    + exists UEC_SERVICE_INVALID_VALUE, desc', d. split; [done|]. by intros Hbad%invalid_not_ok.
    + set (d0 := UsbDevice.SetName _ _). destruct (ParseDeviceDescriptor_id desc' d0)
        as (ret' & d' & Heq & Hid & Hn). rewrite result_ret, Heq. cbn.
      exists ret', desc', d'. split; [done|]. intros _. rewrite Hid, Hn. by destruct uDev.
  - by exists ret, desc', d.
Qed.

Lemma GetConfigDescriptor_reads d desc s :
  ∃ ret d', result (GetConfigDescriptor d desc) s = Val (ret, d') ∧
    dev_of d' = dev_of d ∧ UsbDevice.GetName d' = UsbDevice.GetName d.
Proof.
  unfold GetConfigDescriptor.
  destruct (parse_configs_code desc CURSOR_INIT []) as (ret & configs & -> & Hret); [by vm_compute|].
  case_if; bsimp; [|by eexists _, _]. rewrite result_bind.
  destruct (FillDevStrings_id (UsbDevice.SetConfigs configs d) s) as [H1 H2].
  eexists _, _. split; [done|]. by rewrite H1, H2.
Qed.

Lemma GetDeviceInfo_reads b a d s :
  ∃ ret d', result (GetDeviceInfo b a d) s = Val (ret, d') ∧
    (ret = UEC_OK → dev_of d' = mk_UsbDev b a ∧ UsbDevice.GetName d' = dev_name b a).
Proof.
  unfold GetDeviceInfo. rewrite !result_bind.
  case_if; bsimp; [|by eexists _, d]. rewrite result_bind.
  match goal with |- context [GetDeviceInfoDescriptor ?u ?l d] =>
    match goal with |- context [result _ ?t] =>
      destruct (GetDeviceInfoDescriptor_reads u l d t) as (ret3 & desc & d3 & -> & Hid) end end.
  case_if; bsimp.
  - rewrite result_bind. match goal with |- context [result (GetConfigDescriptor d3 desc) ?t] =>
      destruct (GetConfigDescriptor_reads d3 desc t) as (ret4 & d4 & -> & Hid4 & Hn4) end.
    rewrite result_bind. eexists _, d4. split; [done|]. intros _. rewrite Hid4, Hn4. by apply Hid.
  - rewrite result_bind. eexists _, d3. split; [done|]. case_if; intros ?; bsimp; congruence.
Qed.

(** ** What is opened *)
Context {opened : E → Z} `{OC : !OpenCounted E Rp opened}.

(** Only the platform changes, and the number of open devices by [n]. *)
Definition opens (n : Z) s s' : Prop :=
  ∃ e, s' = set_platform e s ∧ opened e = opened (platform s) + n.

Lemma opens_0 s : opens 0 s s.
Proof. exists (platform s). split; [by destruct s|lia]. Qed.
Lemma opens_trans n m k s1 s2 s3 : opens n s1 s2 → opens m s2 s3 → k = n + m → opens k s1 s3.
Proof. intros (e1 & -> & H1) (e2 & -> & H2) ->. exists e2. split; [done|]. cbn in H2. lia. Qed.

(** [quiet m]: the operation opens and closes nothing. *)
Definition quiet {A} (m : ST st A) : Prop := ∀ s, opens 0 s (after m s).

Lemma quiet_ret {A} (a : A) : quiet (mret a).
Proof. intros s. apply opens_0. Qed.
Lemma quiet_bind {A B} (m : ST st A) (f : A → ST st B) :
  quiet m → (∀ a, quiet (f a)) → quiet (m ≫= f).
Proof. intros Hm Hf s. rewrite after_bind. eapply opens_trans; [apply Hm|apply Hf|done]. Qed.
Lemma quiet_gets {A} (f : st → A) : quiet (gets f).
Proof. intros s. apply opens_0. Qed.
Lemma quiet_platform {A} (m : ST E A) :
  (∀ e, opened (after m e) = opened e) → quiet (on_platform (N:=N) (S:=SM) (R:=R) m).
Proof.
  intros Hm s. unfold after. rewrite on_platform_run. exists (m (platform s)).2. split; [done|].
  specialize (Hm (platform s)). unfold after in Hm. lia.
Qed.
Lemma quiet_mapM {A B} (f : A → ST st B) l : (∀ a, quiet (f a)) → quiet (mapM f l).
Proof. intros Hf. induction l; simpl; auto using quiet_ret, quiet_bind. Qed.

Ltac quiet_step :=
  repeat first
    [ progress intros | apply quiet_ret | apply quiet_gets
    | apply quiet_platform; intros; first [apply counted_raw | apply counted_string
        | apply counted_exists | apply counted_rw | apply counted_sleep]
    | apply quiet_bind | apply quiet_mapM
    | match goal with
      | |- quiet (if ?b then _ else _) => destruct b
      | |- quiet (match ?x with _ => _ end) => destruct x
      end ].

Lemma quiet_wait n b a : quiet (wait_path (N:=N) (SM:=SM) (R:=R) n b a).
Proof.
  induction n as [|n IH]; simpl; [apply quiet_ret|]. unfold CheckDevPathIsExist.
  repeat (quiet_step || apply IH).
Qed.

Lemma quiet_FillDevStrings d : quiet (FillDevStrings d).
Proof.
  assert (Hs : ∀ b a i, quiet (GetDevStringValFromIdx b a i)).
  { intros b a i. unfold GetDevStringValFromIdx. quiet_step. }
  unfold FillDevStrings, name_configs, name_interfaces. repeat (quiet_step || apply Hs).
Qed.

Lemma quiet_GetDeviceInfoDescriptor uDev desc d : quiet (GetDeviceInfoDescriptor uDev desc d).
Proof. unfold GetDeviceInfoDescriptor, GetRawDescriptor, with_host_out. quiet_step. Qed.
Lemma quiet_GetConfigDescriptor d desc : quiet (GetConfigDescriptor d desc).
Proof.
  unfold GetConfigDescriptor. destruct (ParseConfigDescriptors _ _ _) as [[ret configs]| |];
    [|apply quiet_ret..]. case_if; [|apply quiet_ret].
  apply quiet_bind; [apply quiet_FillDevStrings|]. quiet_step.
Qed.

(** ** Opening and closing *)
Lemma open_run b a s :
  ∃ ret s', OpenDevice b a s = (ret, s') ∧ opens (if ret =? UEC_OK then 1 else 0) s s' ∧
    (ret = UEC_OK → usbHostInterface_ s' = true).
Proof.
  unfold OpenDevice, with_host. rewrite bind_unfold. cbn.
  destruct (usbHostInterface_ s) eqn:Hh.
  - rewrite on_platform_run. eexists _, _. split_and!; [done| |done]. eexists. split; [done|].
    exact (counted_open (mk_UsbDev b a) (platform s)).
  - eexists _, s. split_and!; [done| |by intros ?%invalid_not_ok].
    rewrite (proj2 (Z.eqb_neq _ _) invalid_not_ok). apply opens_0.
Qed.

Lemma close_opens b a s : usbHostInterface_ s = true → opens (-1) s (after (Close b a) s).
Proof.
  intros Hh. unfold after, Close, with_host. rewrite bind_unfold. cbn. rewrite Hh, on_platform_run.
  eexists. split; [done|]. exact (counted_close (mk_UsbDev b a) (platform s)).
Qed.

Lemma opens_host n s s' : opens n s s' → usbHostInterface_ s' = usbHostInterface_ s.
Proof. by intros (e & -> & _). Qed.

(** C30: Whatever the driver and the device answer, [GetDeviceInfo] returns without reading
    outside the descriptor it was given, and leaves no device open: every path after a
    successful open ends with a close.  When it returns [UEC_OK], the device it has read
    carries the bus, the address and the name it was asked for. *)
Theorem GetDeviceInfo_closes (b a : Z) d s :
  ∃ ret d', result (GetDeviceInfo b a d) s = Val (ret, d') ∧
    opens 0 s (after (GetDeviceInfo b a d) s) ∧
    (ret = UEC_OK → dev_of d' = mk_UsbDev b a ∧ UsbDevice.GetName d' = dev_name b a).
Proof.
  destruct (GetDeviceInfo_reads b a d s) as (ret & d' & Hr & Hid). exists ret, d'.
  split_and!; [done| |done]. clear ret d' Hr Hid. unfold GetDeviceInfo. rewrite after_bind.
  pose proof (quiet_wait RETRY_NUM b a s) as H1. revert H1.
  generalize (after (wait_path RETRY_NUM b a) s). intros s1 H1.
  rewrite after_bind. destruct (open_run b a s1) as (ret1 & s2 & Hop & H2 & Hh).
  assert (result (OpenDevice b a) s1 = ret1) as -> by (unfold result; by rewrite Hop).
  assert (after (OpenDevice b a) s1 = s2) as -> by (unfold after; by rewrite Hop).
  pose proof (opens_trans _ _ _ _ _ _ H1 H2 eq_refl) as H12.
  destruct (ret1 =? UEC_OK) eqn:E1; bsimp; cbn [negb]; [|rewrite after_ret; exact H12]. specialize (Hh E1).
  rewrite after_bind. pose proof (quiet_GetDeviceInfoDescriptor (mk_UsbDev b a) [] d s2) as H3.
  destruct (GetDeviceInfoDescriptor_reads (mk_UsbDev b a) [] d s2) as (ret3 & desc & d3 & -> & _).
  revert H3. generalize (after (GetDeviceInfoDescriptor (mk_UsbDev b a) [] d) s2). intros s3 H3.
  assert (Hh3 : usbHostInterface_ s3 = true) by (by rewrite (opens_host _ _ _ H3)).
  pose proof (opens_trans _ _ _ _ _ _ H12 H3 eq_refl) as H123.
  case_if; bsimp; rewrite after_bind.
  - pose proof (quiet_GetConfigDescriptor d3 desc s3) as H4.
    destruct (GetConfigDescriptor_reads d3 desc s3) as (ret4 & d4 & -> & _).
    revert H4. generalize (after (GetConfigDescriptor d3 desc) s3). intros s4 H4.
    rewrite after_bind, after_ret.
    refine (opens_trans _ _ _ _ _ _ (opens_trans _ _ _ _ _ _ H123 H4 eq_refl) (close_opens b a s4 _) eq_refl).
    by rewrite (opens_host _ _ _ H4).
  - rewrite after_ret. exact (opens_trans _ _ _ _ _ _ H123 (close_opens b a s3 Hh3) eq_refl).
Qed.
End Reading.
