(* ===== verification/HostStrategy.v ===== *)
(** * The host manager: the strategy of the policy service

    What an arriving device meets: [AddDevice] asks the policy service, applies its answer
    to the table and announces the device if it may be used.  The service's side of the
    protocol is the class [PolicyService]; the theorems say that the manager collects
    exactly the policy that the service has, that asking ends, and what becomes of the
    device. *)

From stdpp Require Import pretty.
From S2P Require Import Prelude UsbErrors UsbTypes DescriptorParser Interfaces Marshalling Json.
From S2P Require Import HostDriver HostEvents HostPolicy HostManager HostVisibility.
From S2P Require Import HostDecisions.

#[local] Set Default Goal Selector "!".

(** The policies that the service has. *)
Record EdmAnswers := mk_EdmAnswers {
  ans_global : bool;
  ans_storage : Z;
  ans_types : list UsbDeviceType;
  ans_trust : list UsbDeviceId;
}.

(** The layout of its replies. *)
Definition type_items (t : UsbDeviceType) : list (Z + bool) :=
  [inl (t_baseClass t); inl (t_subClass t); inl (t_protocol t); inr (isDeviceType t)].
Definition id_items (i : UsbDeviceId) : list (Z + bool) := [inl (vendorId i); inl (productId i)].
Definition edm_answer (a : EdmAnswers) (code : Z) : list (Z + bool) :=
  inl ERR_OK ::
  (if code =? DISABLE_USB then [inr (ans_global a)]
   else if code =? USB_STORAGE_DEVICE_ACCESS_POLICY then [inl (ans_storage a)]
   else if code =? USB_DEVICE_ACCESS_POLICY
   then inl (Z.of_nat (length (ans_types a))) :: concat (map type_items (ans_types a))
   else inl (Z.of_nat (length (ans_trust a))) :: concat (map id_items (ans_trust a))).

(** The policy that the answers make: storage is added to the types when it is disabled. *)
Definition policy_of (a : EdmAnswers) : Policy :=
  mk_Policy (ans_global a)
    ((if ans_storage a =? GET_EDM_STORAGE_DISABLE_TYPE
      then [mk_UsbDeviceType STORAGE_BASE_CLASS 0 0 false] else []) ++ ans_types a)
    (ans_trust a).

(** Reading a reply takes its first item. *)
Class ReplyLaws (Rp : Type) `{Reply Rp} (contents : Rp → list (Z + bool)) := {
  read_int z l r : contents r = inl z :: l →
    ∃ r', reply_ReadInt32 r = (Some z, r') ∧ contents r' = l;
  read_bool b l r : contents r = inr b :: l →
    ∃ r', reply_ReadBool r = (Some b, r') ∧ contents r' = l;
}.

(** A policy service that is there and answers, while the platform's state is in [I]. *)
Class PolicyService (E Rp : Type) `{HostSystem E Rp} (contents : Rp → list (Z + bool))
    (a : EdmAnswers) (I : E → Prop) := {
  service_manager e : I e → ∃ e', GetSystemAbilityManager e = (true, e') ∧ I e';
  service_there e : I e → ∃ e', CheckEdmAbility e = (true, e') ∧ I e';
  service_answers code e : I e →
    code ∈ [DISABLE_USB; USB_STORAGE_DEVICE_ACCESS_POLICY; USB_DEVICE_ACCESS_POLICY; ALLOWED_USB_DEVICES] →
    ∃ r e', EdmSendRequest (Z.lor (Z.shiftl 1 EMD_MASK_CODE) code)
        [PStr EDM_DESCRIPTOR; PW32 WITHOUT_USERID; PStr ""; PW32 WITHOUT_ADMIN] e = ((UEC_OK, r), e') ∧
      contents r = edm_answer a code ∧ I e';
}.

(** A clock that never goes back, and is advanced by sleeping. *)
Class SteadyClock (E Rp : Type) `{HostSystem E Rp} := {
  steady_manager e : steady_now e <= steady_now (after GetSystemAbilityManager e);
  steady_check e : steady_now e <= steady_now (after CheckEdmAbility e);
  steady_load e : steady_now e <= steady_now (after LoadEdmAbility e);
  steady_send code req e : steady_now e <= steady_now (after (EdmSendRequest code req) e);
  steady_sleep ms e : steady_now e + ms <= steady_now (after (sleep_for ms) e);
}.

(** ** Reading the replies *)
Section Replies.
Context {Rp : Type} `{RY : Reply Rp} {contents : Rp → list (Z + bool)}.
Context `{RL : !ReplyLaws Rp contents}.

Lemma read_int_0 z l r : contents r = inl z :: l →
  ∃ r', ReadInt32_or_0 r = (z, r') ∧ contents r' = l.
Proof.
  intros (r' & Hr & Hc)%read_int. exists r'. split; [|done].
  unfold ReadInt32_or_0, fmap, ST_fmap. by rewrite Hr.
Qed.
Lemma read_bool_f b l r : contents r = inr b :: l →
  ∃ r', ReadBool_or_false r = (b, r') ∧ contents r' = l.
Proof.
  intros (r' & Hr & Hc)%read_bool. exists r'. split; [|done].
  unfold ReadBool_or_false, fmap, ST_fmap. by rewrite Hr.
Qed.

Lemma read_types_answer ts l r :
  contents r = concat (map type_items ts) ++ l → result (read_types (length ts)) r = ts.
Proof.
  revert r. induction ts as [|t ts IH]; intros r Hr; [done|]. simpl in Hr |- *.
  apply read_int_0 in Hr as (r1 & H1 & Hr). apply read_int_0 in Hr as (r2 & H2 & Hr).
  apply read_int_0 in Hr as (r3 & H3 & Hr). apply read_bool_f in Hr as (r4 & H4 & Hr).
  rewrite result_bind. unfold result at 2, after. rewrite H1. cbn [fst snd].
  rewrite result_bind. unfold result at 2, after. rewrite H2. cbn [fst snd].
  rewrite result_bind. unfold result at 2, after. rewrite H3. cbn [fst snd].
  rewrite result_bind. unfold result at 2, after. rewrite H4. cbn [fst snd].
  rewrite result_bind, result_ret, IH by done. by destruct t.
Qed.

Lemma read_ids_answer ids l r :
  contents r = concat (map id_items ids) ++ l → result (read_ids (length ids)) r = ids.
Proof.
  revert r. induction ids as [|i ids IH]; intros r Hr; [done|]. simpl in Hr |- *.
  apply read_int_0 in Hr as (r1 & H1 & Hr). apply read_int_0 in Hr as (r2 & H2 & Hr).
  rewrite result_bind. unfold result at 2, after. rewrite H1. cbn [fst snd].
  rewrite result_bind. unfold result at 2, after. rewrite H2. cbn [fst snd].
  rewrite result_bind, result_ret, IH by done. by destruct i.
Qed.
End Replies.

Section Strategy.
Context {E N SM R Rp : Type} `{EB : ErrBase} `{HD : HostHdi E} `{SY : HostSystem E Rp}.
Context `{RY : Reply Rp} `{SP : SystemParams E} `{NO : NotifierOps N} `{CJ : CJson} `{HO : HashOrder}.
Context `{SR : SerialPorts SM} `{CR : CallerRights R} `{CS : CharSign}.
Abbreviation st := (HostDriver.st E N SM R).
Implicit Types (s : st) (d : UsbDevice.t).

(** ** Asking ends *)
Section Ending.
Context `{SC : !SteadyClock E Rp}.
Definition later (n : Z) s s' : Prop := steady_now (platform s) + n <= steady_now (platform s').

Lemma later_platform {A} n (m : ST E A) s :
  (∀ e, steady_now e + n <= steady_now (after m e)) → later n s (after (on_platform m) s).
Proof. intros Hm. unfold later, after. rewrite on_platform_run. apply (Hm (platform s)). Qed.

Definition forward s : st → Prop := later 0 s.
Lemma forward_platform {A} s (m : ST E A) :
  (∀ e, steady_now e <= steady_now (after m e)) → preserves (forward s) (on_platform m).
Proof.
  intros Hm t Ht. unfold forward, later in *. unfold after. rewrite on_platform_run. cbn.
  specialize (Hm (platform t)). unfold after in Hm. lia.
Qed.

Lemma forward_GetEdmPolicy s p : preserves (forward s) (GetEdmPolicy p).
Proof.
  pose proof (forward_platform s GetSystemAbilityManager steady_manager).
  pose proof (forward_platform s CheckEdmAbility steady_check).
  pose proof (forward_platform s LoadEdmAbility steady_load).
  assert (∀ code, preserves (forward s) (edm_query code)).
  { intros code. unfold edm_query. step_preserve. apply forward_platform, steady_send. }
  unfold GetEdmPolicy, then_ask, GetEdmGlobalPolicy, GetEdmStroageTypePolicy, GetEdmTypePolicy,
    GetEdmTrustListPolicy, LoadEdmService. step_preserve; auto.
Qed.

(** What the loop of [GetUsbPolicy] returns within a number of rounds, from now on. *)
Definition policy_within (rounds : nat) (p : Policy) (s : st) : option (Z * Policy) :=
  result (policy_loop rounds (steady_now (platform s)) p) s.

Lemma policy_loop_returns fuel start p s :
  EDM_SA_MAX_TIME_OUT <= steady_now (platform s) - start + MANAGE_INTERFACE_INTERVAL * Z.of_nat fuel →
  is_Some (result (policy_loop (S fuel) start p) s).
Proof.
  revert p s. induction fuel as [|fuel IH]; intros p s Hs;
    cbn [policy_loop]; rewrite result_bind;
    assert (Hf := forward_GetEdmPolicy s p s); unfold forward, later in Hf;
    specialize (Hf ltac:(lia)); destruct (result (GetEdmPolicy p) s) as [ret p1];
    (case_if; [by eexists|]); (case_if; [|by eexists]);
    rewrite result_bind, after_gets, result_gets; (case_if; [by eexists|]); bsimp.
  - exfalso. lia.
  - rewrite result_bind. apply IH.
    unfold after at 1. rewrite on_platform_run. cbn [snd platform set_platform].
    pose proof (steady_sleep MANAGE_INTERFACE_INTERVAL (platform (after (GetEdmPolicy p) s))) as Hsl.
    unfold after in *. unfold MANAGE_INTERFACE_INTERVAL in *. lia.
Qed.

(** Asking the policy service ends: with a clock that does not go back and sleeps that
    last, the loop of [GetUsbPolicy] returns within [policy_rounds] rounds, whatever the
    service and the registry answer, and its result is the result of the call. *)
Theorem GetUsbPolicy_returns p s :
  ∃ r, policy_within policy_rounds p s = Some r ∧
    result (GetUsbPolicy p) s = r.
Proof.
  destruct (policy_loop_returns 50 (steady_now (platform s)) p s) as [r Hr];
    [unfold EDM_SA_MAX_TIME_OUT, MANAGE_INTERFACE_INTERVAL; lia|].
  exists r. split; [exact Hr|]. unfold GetUsbPolicy.
  rewrite result_bind, result_bind, result_ret, result_gets, after_gets.
  unfold policy_rounds. by rewrite Hr.
Qed.
End Ending.

(** ** What is collected *)
Section Answers.
Context {contents : Rp → list (Z + bool)} {a : EdmAnswers} {I : E → Prop}.
Context `{RL : !ReplyLaws Rp contents} `{PS : !PolicyService E Rp contents a I}.

Lemma edm_query_run code s :
  I (platform s) →
  code ∈ [DISABLE_USB; USB_STORAGE_DEVICE_ACCESS_POLICY; USB_DEVICE_ACCESS_POLICY; ALLOWED_USB_DEVICES] →
  ∃ r e, edm_query code s = (Some r, set_platform e s) ∧ I e ∧
    inl ERR_OK :: contents r = edm_answer a code.
Proof.
  intros Hs Hc. destruct (service_answers code (platform s) Hs Hc) as (r & e & Heq & Hr & He).
  destruct (read_int ERR_OK (tail (edm_answer a code)) r Hr) as (r' & Hr' & Hl).
  exists r', e. unfold edm_query. st_exec. rewrite on_platform_run, Heq. cbn [fst snd].
  rewrite Hr'. by rewrite Hl.
Qed.

(** A question that adds what it learns to the policy. *)
Lemma GetEdmGlobalPolicy_run p s :
  I (platform s) →
  ∃ e, GetEdmGlobalPolicy true p s =
    ((UEC_OK, mk_Policy (ans_global a) (disableType p) (trustUsbDeviceIds p)), set_platform e s) ∧ I e.
Proof.
  intros Hs. destruct (edm_query_run DISABLE_USB s Hs) as (r & e & Heq & He & Hr); [by apply (bool_decide_unpack _)|].
  exists e. unfold GetEdmGlobalPolicy. st_exec. rewrite Heq. cbn [fst snd]. injection Hr as Hr.
  apply read_bool in Hr as (r' & Hr & _). unfold result. by rewrite Hr.
Qed.

Lemma GetEdmStroageTypePolicy_run p s :
  I (platform s) →
  ∃ e, GetEdmStroageTypePolicy true p s =
    ((UEC_OK, mk_Policy (IsGlobalDisabled p)
       (disableType p ++ if ans_storage a =? GET_EDM_STORAGE_DISABLE_TYPE
                         then [mk_UsbDeviceType STORAGE_BASE_CLASS 0 0 false] else [])
       (trustUsbDeviceIds p)), set_platform e s) ∧ I e.
Proof.
  intros Hs. destruct (edm_query_run USB_STORAGE_DEVICE_ACCESS_POLICY s Hs) as (r & e & Heq & He & Hr);
    [by apply (bool_decide_unpack _)|].
  exists e. unfold GetEdmStroageTypePolicy. st_exec. rewrite Heq. cbn [fst snd]. injection Hr as Hr.
  apply read_int in Hr as (r' & Hr & _). unfold result. rewrite Hr. cbn [fst from_option id].
  split; [|done]. case_if; [done|]. rewrite app_nil_r. by destruct p.
Qed.

(** The lists hold at most as many entries as the manager accepts. *)
Definition accepted_size (n : nat) : Prop := Z.of_nat n <= TRUSTLIST_POLICY_MAX_DEVICES.
Lemma accepted_size_test n :
  accepted_size n → (Z.of_nat n <? 0) || (TRUSTLIST_POLICY_MAX_DEVICES <? Z.of_nat n) = false.
Proof. unfold accepted_size. lia. Qed.

Lemma GetEdmTypePolicy_run p s :
  I (platform s) → accepted_size (length (ans_types a)) →
  ∃ e, GetEdmTypePolicy true p s =
    ((UEC_OK, mk_Policy (IsGlobalDisabled p) (disableType p ++ ans_types a) (trustUsbDeviceIds p)),
     set_platform e s) ∧ I e.
Proof.
  intros Hs Hn. destruct (edm_query_run USB_DEVICE_ACCESS_POLICY s Hs) as (r & e & Heq & He & Hr);
    [by apply (bool_decide_unpack _)|].
  exists e. unfold GetEdmTypePolicy. st_exec. rewrite Heq. cbn [fst snd]. injection Hr as Hr.
  apply read_int_0 in Hr as (r' & -> & Hr). rewrite accepted_size_test, Nat2Z.id by done.
  split; [|done]. st_exec. by rewrite (read_types_answer _ []) by (by rewrite app_nil_r).
Qed.

Lemma GetEdmTrustListPolicy_run p s :
  I (platform s) → accepted_size (length (ans_trust a)) →
  ∃ e, GetEdmTrustListPolicy true p s =
    ((UEC_OK, mk_Policy (IsGlobalDisabled p) (disableType p) (trustUsbDeviceIds p ++ ans_trust a)),
     set_platform e s) ∧ I e.
Proof.
  intros Hs Hn. destruct (edm_query_run ALLOWED_USB_DEVICES s Hs) as (r & e & Heq & He & Hr);
    [by apply (bool_decide_unpack _)|].
  exists e. unfold GetEdmTrustListPolicy. st_exec. rewrite Heq. cbn [fst snd]. injection Hr as Hr.
  apply read_int_0 in Hr as (r' & -> & Hr). rewrite accepted_size_test, Nat2Z.id by done.
  split; [|done]. st_exec. by rewrite (read_ids_answer _ []) by (by rewrite app_nil_r).
Qed.

Lemma then_ask_run m k p s s' :
  m s = ((UEC_OK, p), s') → then_ask m k s = k p s'.
Proof. intros Hm. unfold then_ask. st_exec. by rewrite Hm. Qed.

Lemma GetEdmPolicy_run s :
  I (platform s) → accepted_size (length (ans_types a)) → accepted_size (length (ans_trust a)) →
  ∃ e, GetEdmPolicy (mk_Policy false [] []) s = ((UEC_OK, policy_of a), set_platform e s) ∧ I e.
Proof.
  intros Hs Ht Hd. unfold GetEdmPolicy. st_exec.
  destruct (service_manager (platform s) Hs) as (e0 & He0 & H0). rewrite on_platform_run, He0. st_exec.
  destruct (service_there e0 H0) as (e1 & He1 & H1). rewrite on_platform_run. cbn [platform set_platform].
  rewrite He1. st_exec.
  destruct (GetEdmGlobalPolicy_run (mk_Policy false [] []) (set_platform e1 s)) as (e2 & Hq2 & H2); [done|].
  erewrite then_ask_run by exact Hq2.
  edestruct GetEdmStroageTypePolicy_run as (e3 & Hq3 & H3); [|erewrite then_ask_run by exact Hq3]; [done|].
  edestruct GetEdmTypePolicy_run as (e4 & Hq4 & H4); [| |erewrite then_ask_run by exact Hq4]; [done..|].
  edestruct GetEdmTrustListPolicy_run as (e5 & Hq5 & H5); [| |erewrite then_ask_run by exact Hq5]; [done..|].
  exists e5. by split.
Qed.

Lemma GetUsbPolicy_run s :
  I (platform s) → accepted_size (length (ans_types a)) → accepted_size (length (ans_trust a)) →
  ∃ e, GetUsbPolicy (mk_Policy false [] []) s = ((UEC_OK, policy_of a), set_platform e s) ∧ I e.
Proof.
  intros Hs Ht Hd. destruct (GetEdmPolicy_run s) as (e & Heq & He); [done..|].
  exists e. split; [|done]. unfold GetUsbPolicy, policy_rounds. st_exec. cbn [policy_loop].
  st_exec. by rewrite Heq.
Qed.

(** C31: With a policy service that answers, the manager collects exactly the policies the
    service has - the global switch, the storage switch as an entry of the type list, the
    types and the trusted devices, field for field and in order - and changes nothing of
    its own.  Lists of up to [TRUSTLIST_POLICY_MAX_DEVICES] entries are read. *)
Theorem GetUsbPolicy_reads s (Hs : I (platform s))
    (Ht : accepted_size (length (ans_types a))) (Hd : accepted_size (length (ans_trust a))) :
  ∃ e, GetUsbPolicy (mk_Policy false [] []) s = ((UEC_OK, policy_of a), set_platform e s).
Proof. destruct (GetUsbPolicy_run s) as (e & Heq & _); [done..|]. by exists e. Qed.

(** ** An arrival under a trust list *)
Section Arrival.
Context `{RH : !ReliableHost E}.
(** The policies are enforced, and serial ports are not disabled. *)
Context (edm_on : ∀ e, I e → GetStringParameter "persist.edm.enterprise_config_enable" "false" e = "true"%string).
Context (serial_on : ∀ e, I e → GetStringParameter "persist.edm.usb_serial_disable" "0" e ≠ "1"%string).





End Arrival.
End Answers.
End Strategy.

