(* ===== verification/HostSim.v ===== *)
(** * The host manager on a concrete platform

    A platform that can be evaluated: a driver that accepts every request, a policy
    service whose replies are given, a clock and a count of the open devices.  The theorems
    about the host manager are applied to it, and a few histories are computed. *)

From stdpp Require Import pretty relations.
From S2P Require Import Prelude UsbErrors UsbTypes DescriptorParser Interfaces Marshalling Json.
From S2P Require Import HostDriver HostEvents HostPolicy HostManager HostVisibility.
From S2P Require Import HostDecisions HostReading HostStrategy.

#[local] Set Default Goal Selector "!".

Record sim := mk_sim {
  sim_params : gmap string string;
  sim_clock : Z;
  sim_open : Z;
  (** the raw descriptor that every device answers, of which 1000 bytes are read *)
  sim_raw : list Z;
  (** the reply of the policy service to a request code *)
  sim_edm : list (Z * list (Z + bool));
}.

Definition sim_ok : ST sim Z := λ e, (0, e).
Definition sim_out {A} (x : A) : ST sim (Z * A) := λ e, ((0, x), e).
Definition sim_count (n : Z) (e : sim) : sim :=
  mk_sim (sim_params e) (sim_clock e) (sim_open e + n) (sim_raw e) (sim_edm e).
Definition sim_tick (ms : Z) (e : sim) : sim :=
  mk_sim (sim_params e) (sim_clock e + Z.max 0 ms) (sim_open e) (sim_raw e) (sim_edm e).

Definition sim_reply (code : Z) (e : sim) : list (Z + bool) :=
  match list_find (λ kv, Z.lor (Z.shiftl 1 EMD_MASK_CODE) kv.1 = code) (sim_edm e) with
  | Some (_, (_, reply)) => reply
  | None => []
  end.

#[export] Instance sim_hdi : HostHdi sim := {
  hdi_BindUsbdHostSubscriber := sim_ok;
  hdi_UnbindUsbdHostSubscriber := sim_ok;
  hdi_OpenDevice _ := λ e, (0, sim_count 1 e);
  hdi_CloseDevice _ := λ e, (0, sim_count (-1) e);
  hdi_ResetDevice _ := sim_ok;
  hdi_ClaimInterface _ _ _ := sim_ok;
  hdi_SetInterface _ _ _ := sim_ok;
  hdi_ReleaseInterface _ _ := sim_ok;
  hdi_SetConfig _ _ := sim_ok;
  hdi_GetConfig _ _ := sim_out 1;
  hdi_ManageInterface _ _ _ := sim_ok;
  hdi_ClearHalt _ _ := sim_ok;
  hdi_GetRawDescriptor _ _ := λ e, ((0, u8 <$> take 1000 (sim_raw e)), e);
  hdi_GetStringDescriptor _ _ _ := sim_out [4; 3; 65; 0];
  hdi_GetDeviceFileDescriptor _ _ := sim_out 3;
  hdi_GetDeviceSpeed _ _ := sim_out 2;
  hdi_GetInterfaceActiveStatus _ _ _ := sim_out true;
  hdi_BulkTransferRead _ _ _ d := sim_out d;
  hdi_BulkTransferReadwithLength _ _ _ _ d := sim_out d;
  hdi_BulkTransferWrite _ _ _ _ := sim_ok;
  hdi_ControlTransferRead _ _ d := sim_out d;
  hdi_ControlTransferReadwithLength _ _ d := sim_out d;
  hdi_ControlTransferWrite _ _ _ := sim_ok;
  hdi_RequestQueue _ _ _ _ := sim_ok;
  hdi_RequestWait _ _ d := sim_out d;
  hdi_RequestCancel _ _ := sim_ok;
  hdi_UsbCancelTransfer _ _ := sim_ok;
  hdi_UsbSubmitTransfer _ _ _ _ := sim_ok;
  hdi_RegBulkCallback _ _ _ := sim_ok;
  hdi_UnRegBulkCallback _ _ := sim_ok;
  hdi_BulkRead _ _ _ := sim_ok;
  hdi_BulkWrite _ _ _ := sim_ok;
  hdi_BulkCancel _ _ := sim_ok;
  hdi_UsbDeviceAuthorize _ _ _ := sim_ok;
  hdi_UsbInterfaceAuthorize _ _ _ _ := sim_ok;
}.

Definition sim_reply_list : Type := list (Z + bool).
#[export] Instance sim_system : HostSystem sim sim_reply_list := {
  GetDeviceInterface := λ e, (true, e);
  GetHostInterface := λ e, (true, e);
  AddDeathRecipient _ := λ e, (true, e);
  PublishEvent _ := λ e, (true, e);
  GetSystemAbilityManager := λ e, (true, e);
  CheckEdmAbility := λ e, (true, e);
  LoadEdmAbility := sim_ok;
  EdmSendRequest code _ := λ e, ((0, sim_reply code e), e);
  access_exists _ := sim_ok;
  access_rw _ := sim_ok;
  steady_now := sim_clock;
  sleep_for ms := λ e, (tt, sim_tick ms e);
  iconv_utf16le bytes := Some (String.string_of_list_ascii
    (omap (λ b, if b =? 0 then None else Some (Ascii.ascii_of_nat (Z.to_nat b))) bytes));
}.

#[export] Instance sim_replies : Reply sim_reply_list := {
  reply_ReadInt32 := λ r, match r with inl z :: r => (Some z, r) | _ => (None, r) end;
  reply_ReadBool := λ r, match r with inr b :: r => (Some b, r) | _ => (None, r) end;
}.

#[export] Instance sim_parameters : SystemParams sim := {
  GetBoolParameter key def e := GetBoolParameter key def (sim_params e);
  GetStringParameter key def e := GetStringParameter key def (sim_params e);
  SetParameter key v := λ e,
    (true, mk_sim (<[key := v]> (sim_params e)) (sim_clock e) (sim_open e) (sim_raw e) (sim_edm e));
}.

#[export] Instance sim_notifier : NotifierOps unit := {
  notify_Send _ := λ n, (tt, n);
  notify_Cancel _ := λ n, (tt, n);
  notify_SendHdc := λ n, (tt, n);
  notify_CancelHdc := λ n, (tt, n);
}.
#[export] Instance sim_ports : SerialPorts (list UsbDev) := { serial_GetPortList := λ l, ((0, l), l) }.
#[export] Instance sim_rights : CallerRights bool := { rights_IsSystemAppOrSa := λ b, (b, b) }.
#[export] Instance sim_order : HashOrder := {
  hash_order _ l := reverse l;
  hash_order_perm _ l := reverse_Permutation l;
}.
#[export] Instance sim_char : CharSign := true.

#[export] Instance sim_reliable : ReliableHost sim.
Proof. by constructor. Qed.
#[export] Instance sim_counted : OpenCounted sim sim_reply_list sim_open.
Proof. constructor; cbn; lia || done. Qed.

#[export] Instance sim_clock_steady : SteadyClock sim sim_reply_list.
Proof. constructor; intros; cbn; lia. Qed.
#[export] Instance sim_reply_laws : ReplyLaws sim_reply_list id.
Proof. constructor; intros x l r; unfold id; intros ->; by exists l. Qed.

Section Samples.
#[local] Existing Instance sample_codes.
Abbreviation st := (HostDriver.st sim unit (list UsbDev) bool).

Definition sim_platform (params : gmap string string) (edm : list (Z * list (Z + bool))) : sim :=
  mk_sim params 0 0 [] edm.

(** An initialised manager with no devices, for a system caller. *)
Definition host_idle (e : sim) : st :=
  mk_st ∅ [] true None true true true [] e tt [mk_UsbDev 1 2] true [].

Definition disk : UsbDevice.t :=
  UsbDevice.SetBusNum 1 (UsbDevice.SetDevAddr 2 sample_device).
Definition stranger : UsbDevice.t :=
  UsbDevice.SetVendorId 7 (UsbDevice.SetBusNum 3 (UsbDevice.SetDevAddr 4 sample_device)).

Definition plain : st := host_idle (sim_platform ∅ []).
Definition attached : st := after (AddDevice_announce "1-2") (after (AddDevice_insert disk) plain).

Lemma attached_reachable : rtc host_step plain attached.
Proof.
  eapply rtc_l; [apply (step_insert disk); by vm_compute|].
  eapply rtc_l; [apply (step_announce "1-2")|]. apply rtc_refl.
Qed.

(** Two devices arrive; while the first is disabled before it was announced, the second is
    enabled and announced. *)
Definition arrived : st := after (AddDevice_insert stranger) (after (AddDevice_insert disk) plain).
Definition overlapped : st :=
  after (update_device "1-2" (UsbDevice.SetAuthorizeStatus DISABLED))
    (after (PublishCommonEvent COMMON_EVENT_USB_DEVICE_ATTACHED (UsbDevice.SetAuthorizeStatus ENABLED stranger))
       (after (report_change false "DeviceType" (UsbDevice.SetAuthorizeStatus NEW_ARRIVED disk))
          (after (update_device "3-4" (UsbDevice.SetAuthorizeStatus ENABLED)) arrived))).
Lemma overlapped_reachable : rtc part (plain, ∅) (overlapped, ∅).
Proof.
  eapply rtc_l; [apply (part_insert disk); by vm_compute|].
  eapply rtc_l; [apply (part_insert stranger); by vm_compute|].
  eapply rtc_l; [by apply (part_read "1-2" false "DeviceType" (UsbDevice.SetAuthorizeStatus NEW_ARRIVED disk)); vm_compute|].
  eapply rtc_l; [by apply (part_mark "3-4" (UsbDevice.SetAuthorizeStatus NEW_ARRIVED stranger)); vm_compute|].
  eapply rtc_l; [by apply (part_report "1-2" false "DeviceType" (UsbDevice.SetAuthorizeStatus NEW_ARRIVED disk)); vm_compute|].
  eapply rtc_l; [by apply (part_announce "3-4" (UsbDevice.SetAuthorizeStatus ENABLED stranger)); vm_compute|].
  eapply rtc_l; [by apply (part_write "1-2" false); vm_compute|]. apply rtc_refl.
Qed.

Lemma listed_iff_announced_witness :
  UsbDevice.SetAuthorizeStatus ENABLED stranger ∈ (result (GetDevices []) overlapped).2 ∧
  announced (log overlapped) (mk_UsbDev 1 2) = false ∧
  UsbDevice.SetAuthorizeStatus DISABLED disk ∉ (result (GetDevices []) overlapped).2.
Proof.
  pose proof (λ d, listed_iff_announced plain overlapped ∅ d (conj eq_refl eq_refl) overlapped_reachable eq_refl
                     (lookup_empty _)) as H.
  assert (Hd : announced (log overlapped) (mk_UsbDev 1 2) = false) by by vm_compute.
  split; [|split; [done|]].
  - apply (proj1 (H _)). split; [by exists "3-4"%string|by vm_compute].
  - intros Hin. apply (proj1 (H _)) in Hin as [_ Hann]. change (announced (log overlapped) (mk_UsbDev 1 2) = true) in Hann.
    by rewrite Hd in Hann.
Defined.

(** What the code does not exclude: the end of [AddDevice] has enabled the device, a policy
    disables it and says that it was detached, and then the end of [AddDevice] announces it. *)
Example announcement_overtaken :
  let s1 := after (AddDevice_insert disk) plain in
  let s2 := after (update_device "1-2" (UsbDevice.SetAuthorizeStatus ENABLED)) s1 in
  let s3 := after (ManageDevice (UsbDevice.GetVendorId disk) (UsbDevice.GetProductId disk) true) s2 in
  let s4 := after (PublishCommonEvent COMMON_EVENT_USB_DEVICE_ATTACHED (UsbDevice.SetAuthorizeStatus DISABLED disk)) s3 in
  announced (log s4) (mk_UsbDev 1 2) = true ∧ (result (GetDevices []) s4).2 = [] ∧
  UsbDevice.GetAuthorizeStatus <$> devices_ s4 !! "1-2"%string = Some DISABLED.
Proof. split_and!; by vm_compute. Qed.

(** A second device, from another vendor. *)
Definition both : st :=
  after (AddDevice_announce "3-4") (after (AddDevice_insert stranger) attached).

Lemma both_reachable : rtc host_step plain both.
Proof.
  eapply rtc_r; [eapply rtc_r; [apply attached_reachable|]|apply (step_announce "3-4")].
  apply (step_insert stranger); by vm_compute.
Qed.

Lemma both_ready : ready both.
Proof.
  split_and!; [done..|]. apply (host_reachable_consistent plain); [by split|apply both_reachable].
Qed.

Definition trust_disk : list UsbDeviceId :=
  [mk_UsbDeviceId (UsbDevice.GetProductId disk) (UsbDevice.GetVendorId disk)].

Lemma ManageDevicePolicy_exact_witness :
  ∃ s', ManageDevicePolicy trust_disk both = (UEC_OK, s') ∧
    (UsbDevice.GetAuthorizeStatus <$> devices_ s' !! "1-2"%string) = Some ENABLED ∧
    (UsbDevice.GetAuthorizeStatus <$> devices_ s' !! "3-4"%string) = Some DISABLED.
Proof.
  destruct (ManageDevicePolicy_exact trust_disk both both_ready) as (s' & Hs & Hd).
  exists s'. split; [exact Hs|]. rewrite Hd. by split; vm_compute.
Defined.

(** A manager without serial ports, and a device of the communication class. *)
Definition modem : UsbDevice.t := UsbDevice.SetClass 2 disk.
Definition modem_attached : st :=
  after (AddDevice_announce "1-2") (after (AddDevice_insert modem) (set_serial [] plain)).

Lemma modem_ready : ready modem_attached.
Proof.
  split_and!; [done..|]. apply (host_reachable_consistent (set_serial [] plain)); [by split|].
  eapply rtc_l; [apply (step_insert modem); by vm_compute|].
  eapply rtc_l; [apply (step_announce "1-2")|]. apply rtc_refl.
Qed.

Lemma ManageInterfaceType_devices_witness :
  statuses (after (ManageInterfaceType [mk_UsbDeviceType 2 0 0 true] true) modem_attached) =
    {["1-2"%string := DISABLED]}.
Proof.
  destruct (ManageInterfaceType_devices [mk_UsbDeviceType 2 0 0 true] true modem_attached)
    as [_ Hd]; [apply modem_ready|done|].
  rewrite Hd. by apply (bool_decide_unpack _); vm_compute.
Defined.

(** A device that answers the descriptors of a disk is read, and closed. *)
Definition reading : st :=
  host_idle (mk_sim ∅ 0 0
    ([18; 1; 0; 2; 0; 0; 0; 64; 129; 7; 145; 85; 0; 1; 1; 2; 3; 1] ++ layout (describe 57 sample_configs) [])
    []).

Lemma GetDeviceInfo_closes_witness :
  (∃ d, result (GetDeviceInfo 1 2 sample_device) reading = Val (UEC_OK, d) ∧
     UsbDevice.GetName d = "1-2"%string) ∧
  sim_open (platform (after (GetDeviceInfo 1 2 sample_device) reading)) = 0.
Proof.
  destruct (GetDeviceInfo_closes (opened := sim_open) 1 2 sample_device reading)
    as (ret & d & Hr & (e & He & Ho) & Hn).
  split.
  - exists d. assert (Hok : ret = UEC_OK).
    { assert (Hc : (match result (GetDeviceInfo 1 2 sample_device) reading with
                    | Val (r, _) => r | _ => 1 end) = UEC_OK) by (by vm_compute).
      by rewrite Hr in Hc. }
    subst ret. split; [exact Hr|]. by apply Hn.
  - rewrite He. exact Ho.
Defined.

(** A policy service with a trust list. *)
Definition trust_answers : EdmAnswers := mk_EdmAnswers false 0 [] trust_disk.
Definition serving (a : EdmAnswers) : list (Z * list (Z + bool)) :=
  map (λ code, (code, edm_answer a code))
    [DISABLE_USB; USB_STORAGE_DEVICE_ACCESS_POLICY; USB_DEVICE_ACCESS_POLICY; ALLOWED_USB_DEVICES].
Definition edm_params : gmap string string :=
  {["persist.edm.enterprise_config_enable"%string := "true"%string]}.
Definition same_service (a : EdmAnswers) (e : sim) : Prop :=
  sim_edm e = serving a ∧ sim_params e = edm_params.

#[local] Instance sim_service a : PolicyService sim sim_reply_list id a (same_service a).
Proof.
  constructor.
  - intros e He. by exists e.
  - intros e He. by exists e.
  - intros code e He Hc. exists (edm_answer a code), e. split; [|done]. cbn. f_equal.
    unfold sim_reply. rewrite (proj1 He).
    repeat (apply elem_of_cons in Hc as [->|Hc]; [done|]). by apply elem_of_nil in Hc.
Qed.

Lemma GetUsbPolicy_returns_witness :
  result (GetUsbPolicy (mk_Policy false [] [])) (host_idle (sim_platform ∅ [])) =
    (UEC_SERVICE_PREPARE_EDM_SA_FAILED, mk_Policy false [] []).
Proof.
  destruct (GetUsbPolicy_returns (mk_Policy false [] []) (host_idle (sim_platform ∅ []))) as (r & Hl & ->).
  assert (Hc : result (policy_loop policy_rounds 0 (mk_Policy false [] [])) (host_idle (sim_platform ∅ [])) =
    Some (UEC_SERVICE_PREPARE_EDM_SA_FAILED, mk_Policy false [] [])) by (by vm_compute).
  unfold policy_within in Hl. cbn [platform host_idle] in Hl. assert (Hz : Some r = Some (UEC_SERVICE_PREPARE_EDM_SA_FAILED, mk_Policy false [] [])).
  { by rewrite <- Hl, <- Hc. }
  by injection Hz.
Defined.

Definition full_answers : EdmAnswers :=
  mk_EdmAnswers false 2 [mk_UsbDeviceType 2 0 0 true] [mk_UsbDeviceId 5 6; mk_UsbDeviceId 7 8].
Lemma GetUsbPolicy_reads_witness :
  ∃ e, GetUsbPolicy (mk_Policy false [] []) (host_idle (sim_platform edm_params (serving full_answers))) =
    ((UEC_OK, mk_Policy false [mk_UsbDeviceType 8 0 0 false; mk_UsbDeviceType 2 0 0 true]
        [mk_UsbDeviceId 5 6; mk_UsbDeviceId 7 8]), set_platform e (host_idle (sim_platform edm_params (serving full_answers)))).
Proof.
  apply (GetUsbPolicy_reads (contents := id) (a := full_answers) (I := same_service full_answers)
    (host_idle (sim_platform edm_params (serving full_answers)))); [by split|by vm_compute..].
Defined.



(** A device that is a disabled serial port and on the trust list is announced twice, and
    ends enabled: the trust list overrides the serial switch. *)
Definition serial_platform : sim :=
  sim_platform (<["persist.edm.usb_serial_disable"%string := "1"%string]> edm_params)
    (serving trust_answers).
Example serial_port_trusted :
  let s := after (AddDevice (Some disk)) (host_idle serial_platform) in
  UsbDevice.GetAuthorizeStatus <$> devices_ s !! "1-2"%string = Some ENABLED ∧
  length (filter (λ e, about (mk_UsbDev 1 2) e = Some true) (log s)) = 2%nat.
Proof. split; by vm_compute. Qed.
End Samples.
