(* ===== verification/SerialManager.v ===== *)
(** * The serial manager

    [services/native/src/serial_manager.cpp]: the serial ports behind USB devices.  A port
    is opened for one application, whose token is kept in [portTokenMap_]; the other
    operations are for that application only, and the first read and the first write of a
    session are reported to the security service.

    The caller's token and user ([IPCSkeleton]) are arguments of the operations.  A call
    that holds a mutex is one transition; [SerialClose] takes and releases several, and is
    the composition of its critical sections, which may interleave with those of other
    calls. *)

From stdpp Require Import pretty relations.
From S2P Require Import Prelude Text UsbErrors HostDriver.

#[local] Set Default Goal Selector "!".

(** ** The serial driver ([ISerialInterface]) *)
Record SerialAttribute := mk_SerialAttribute { baudrate : Z; dataBits : Z; parity : Z; stopBits : Z }.
Record SerialDeviceInfo := mk_SerialDeviceInfo {
  si_busNum : Z; si_devAddr : Z; si_vid : Z; si_pid : Z; si_serialNum : string }.
Record SerialPort := mk_SerialPort { sp_portId : Z; deviceInfo : SerialDeviceInfo }.

Class SerialHdi (D : Type) := {
  hdi_SerialOpen : Z → ST D Z;
  hdi_SerialClose : Z → ST D Z;
  (** port, data, size and timeout; the result and the data *)
  hdi_SerialRead : Z → list Z → Z → Z → ST D (Z * list Z);
  hdi_SerialWrite : Z → list Z → Z → Z → ST D Z;
  hdi_SerialGetAttribute : Z → SerialAttribute → ST D (Z * SerialAttribute);
  hdi_SerialSetAttribute : Z → SerialAttribute → ST D Z;
  hdi_SerialGetPortList : list SerialPort → ST D (Z * list SerialPort);
  (** [UsbSecurityReport::GetCurrentTime] *)
  current_time : ST D Z;
}.

(** Who calls: the application's token and its user. *)
Record Caller := mk_Caller { token : Z; uid : Z }.

(** [serial_manager.h:31-34] [SERIAL_OPEN] to [SERIAL_WRITE] *)
Inductive SerialOperation := SERIAL_OPEN | SERIAL_CLOSE | SERIAL_READ | SERIAL_WRITE.
#[export] Instance SerialOperation_eq_dec : EqDecision SerialOperation.
Proof. solve_decision. Defined.

(** [serial_manager.cpp:424-434] [SerialManager::ReportSerialOperationSecurityInfo] the fields of a report *)
Record SerialReport := mk_SerialReport {
  happenTime : Z; r_portId : Z; operationType : SerialOperation; r_uid : Z }.

(** [serial_manager.cpp:36-40] the codes of the driver *)
Definition PARAM_COUNT_ONE : nat := 1.
Definition ERR_CODE_IOEXCEPTION : Z := -1.
Definition ERR_CODE_DEVICENOTOPEN : Z := -6.
Definition ERR_CODE_TIMEOUT : Z := -7.
Definition ERR_CODE_ERROR_OVERFLOW : Z := -8.

(** A line of the dump. *)
Inductive DumpLine :=
  | ParamCountError | InvalidCommand (arg : string) | DumpHelp | PortListBegin | PortListEnd
  | PortName (i : nat) | InvalidInteger | PortMissing (portId : Z)
  | PortAttribute (port : Z) (a : SerialAttribute).

(** What a dump does: it prints, or an exception that nobody catches leaves it. *)
Inductive DumpResult := Printed (lines : list DumpLine) (ok : bool) | StoiThrows.

Section SerialManager.
Context {D : Type}.

(** [serial_manager.h:74-84] [SerialManager] the members, the driver and the reports *)
Record st := mk_st {
  serial_ : bool;
  portTokenMap_ : gmap Z Z;
  serialPortMap_ : gmap Z SerialPort;
  portsHasBeenRead_ : gset Z;
  portsHasBeenWritten_ : gset Z;
  driver : D;
  reports : list SerialReport;
}.
Definition set_portTokenMap_ (v : gmap Z Z) (s : st) : st :=
  mk_st (serial_ s) v (serialPortMap_ s) (portsHasBeenRead_ s) (portsHasBeenWritten_ s) (driver s) (reports s).
Definition set_serialPortMap_ (v : gmap Z SerialPort) (s : st) : st :=
  mk_st (serial_ s) (portTokenMap_ s) v (portsHasBeenRead_ s) (portsHasBeenWritten_ s) (driver s) (reports s).
Definition set_portsHasBeenRead_ (v : gset Z) (s : st) : st :=
  mk_st (serial_ s) (portTokenMap_ s) (serialPortMap_ s) v (portsHasBeenWritten_ s) (driver s) (reports s).
Definition set_portsHasBeenWritten_ (v : gset Z) (s : st) : st :=
  mk_st (serial_ s) (portTokenMap_ s) (serialPortMap_ s) (portsHasBeenRead_ s) v (driver s) (reports s).
Definition set_driver (v : D) (s : st) : st :=
  mk_st (serial_ s) (portTokenMap_ s) (serialPortMap_ s) (portsHasBeenRead_ s) (portsHasBeenWritten_ s) v (reports s).
Definition set_reports (v : list SerialReport) (s : st) : st :=
  mk_st (serial_ s) (portTokenMap_ s) (serialPortMap_ s) (portsHasBeenRead_ s) (portsHasBeenWritten_ s) (driver s) v.

Context `{EB : ErrBase} `{SH : SerialHdi D}.

Definition on_driver {A} (m : ST D A) : ST st A :=
  λ s, let '(a, d) := m (driver s) in (a, set_driver d s).

(** [serial_manager.cpp:42-52] [SerialManager::SerialManager] [present] is whether the driver interface was obtained *)
Definition construct (present : bool) : ST st unit :=
  modify (λ s, mk_st present ∅ ∅ ∅ ∅ (driver s) (reports s)).

(** [serial_manager.cpp:59-70] [ErrorCodeWrap] *)
Definition ErrorCodeWrap (errorCode : Z) : Z :=
  if (errorCode =? ERR_CODE_IOEXCEPTION) || (errorCode =? ERR_CODE_ERROR_OVERFLOW)
  then UEC_SERIAL_IO_EXCEPTION
  else if errorCode =? ERR_CODE_DEVICENOTOPEN then UEC_SERIAL_DEVICENOTOPEN
  else if errorCode =? ERR_CODE_TIMEOUT then UEC_INTERFACE_TIMED_OUT
  else UEC_SERIAL_OTHER_ERROR.

(** [serial_manager.cpp:259-273] [SerialManager::CheckTokenIdValidity] *)
Definition CheckTokenIdValidity (c : Caller) (portId : Z) : ST st bool :=
  gets (λ s, match portTokenMap_ s !! portId with
             | None => false
             | Some owner => token c =? owner
             end).

(** [serial_manager.cpp:72-85] [SerialManager::CheckPortAndTokenId] *)
Definition CheckPortAndTokenId (c : Caller) (portId : Z) : ST st Z :=
  b ← gets serial_;
  if negb b then mret UEC_SERVICE_INVALID_VALUE
  else
    ok ← CheckTokenIdValidity c portId;
    mret (if negb ok then UEC_SERIAL_PORT_NOT_OPEN else UEC_OK).

(** [serial_manager.cpp:424-434] [SerialManager::ReportSerialOperationSecurityInfo] *)
Definition ReportSerialOperationSecurityInfo (c : Caller) (portId : Z) (op : SerialOperation)
    (time : Z) : ST st unit :=
  modify (λ s, set_reports (reports s ++ [mk_SerialReport time portId op (uid c)]) s).

(** [serial_manager.cpp:400-404] [SerialManager::QueryAndRecordFirstRead] *)
Definition QueryAndRecordFirstRead (portId : Z) : ST st bool :=
  known ← gets portsHasBeenRead_;
  modify (set_portsHasBeenRead_ ({[portId]} ∪ known)) ;;
  mret (bool_decide (portId ∉ known)).
(** [serial_manager.cpp:406-410] [SerialManager::QueryAndRecordFirstWrite] *)
Definition QueryAndRecordFirstWrite (portId : Z) : ST st bool :=
  known ← gets portsHasBeenWritten_;
  modify (set_portsHasBeenWritten_ ({[portId]} ∪ known)) ;;
  mret (bool_decide (portId ∉ known)).
(** [serial_manager.cpp:412-416] [SerialManager::ResetFirstRead] *)
Definition ResetFirstRead (portId : Z) : ST st unit :=
  modify (λ s, set_portsHasBeenRead_ (portsHasBeenRead_ s ∖ {[portId]}) s).
(** [serial_manager.cpp:418-422] [SerialManager::ResetFirstWrite] *)
Definition ResetFirstWrite (portId : Z) : ST st unit :=
  modify (λ s, set_portsHasBeenWritten_ (portsHasBeenWritten_ s ∖ {[portId]}) s).

(** [serial_manager.cpp:87-111] [SerialManager::SerialOpen] *)
Definition SerialOpen (c : Caller) (portId : Z) : ST st Z :=
  b ← gets serial_;
  if negb b then mret UEC_SERVICE_INVALID_VALUE
  else
    m ← gets portTokenMap_;
    if opt_is_some (m !! portId) then mret UEC_SERIAL_PORT_REPEAT_OPEN
    else
      timeMs ← on_driver current_time;
      ret ← on_driver (hdi_SerialOpen portId);
      if negb (ret =? UEC_OK) then mret (ErrorCodeWrap ret)
      else
        ReportSerialOperationSecurityInfo c portId SERIAL_OPEN timeMs ;;
        modify (λ s, set_portTokenMap_ (<[portId := token c]> (portTokenMap_ s)) s) ;;
        mret ret.

(** The critical sections of [SerialClose] after its check. *)
(** [serial_manager.cpp:123-129] [SerialManager::SerialClose] the driver's part *)
Definition SerialClose_driver (c : Caller) (portId : Z) : ST st Z :=
  timeMs ← on_driver current_time;
  ret ← on_driver (hdi_SerialClose portId);
  if negb (ret =? UEC_OK) then mret (ErrorCodeWrap ret)
  else ReportSerialOperationSecurityInfo c portId SERIAL_CLOSE timeMs ;; mret ret.
(** [serial_manager.cpp:133-134] [SerialManager::SerialClose] the end of the session *)
Definition SerialClose_erase (portId : Z) : ST st unit :=
  modify (λ s, set_portTokenMap_ (delete portId (portTokenMap_ s)) s).

(** [serial_manager.cpp:113-136] [SerialManager::SerialClose] *)
Definition SerialClose (c : Caller) (portId : Z) : ST st Z :=
  ret ← CheckPortAndTokenId c portId;
  if negb (ret =? UEC_OK) then mret ret
  else
    ret ← SerialClose_driver c portId;
    if negb (ret =? UEC_OK) then mret ret
    else
      ResetFirstRead portId ;;
      ResetFirstWrite portId ;;
      SerialClose_erase portId ;;
      mret ret.

(** [serial_manager.cpp:138-159] [SerialManager::SerialRead] the code, the data and the size that was read, if set *)
Definition SerialRead (c : Caller) (portId : Z) (data : list Z) (size timeout : Z)
    : ST st (Z * list Z * option Z) :=
  ret ← CheckPortAndTokenId c portId;
  if negb (ret =? UEC_OK) then mret (ret, data, None)
  else
    timeMs ← on_driver current_time;
    r ← on_driver (hdi_SerialRead portId data size timeout);
    let '(ret, data) := r in
    if ret <? UEC_OK then mret (ErrorCodeWrap ret, data, None)
    else
      first ← QueryAndRecordFirstRead portId;
      mwhen first (ReportSerialOperationSecurityInfo c portId SERIAL_READ timeMs) ;;
      mret (UEC_OK, data, Some (u32 ret)).

(** [serial_manager.cpp:161-182] [SerialManager::SerialWrite] *)
Definition SerialWrite (c : Caller) (portId : Z) (data : list Z) (size timeout : Z)
    : ST st (Z * option Z) :=
  ret ← CheckPortAndTokenId c portId;
  if negb (ret =? UEC_OK) then mret (ret, None)
  else
    timeMs ← on_driver current_time;
    ret ← on_driver (hdi_SerialWrite portId data size timeout);
    if ret <? UEC_OK then mret (ErrorCodeWrap ret, None)
    else
      first ← QueryAndRecordFirstWrite portId;
      mwhen first (ReportSerialOperationSecurityInfo c portId SERIAL_WRITE timeMs) ;;
      mret (UEC_OK, Some (u32 ret)).

(** [serial_manager.cpp:184-200] [SerialManager::SerialGetAttribute] *)
Definition SerialGetAttribute (c : Caller) (portId : Z) (attribute : SerialAttribute)
    : ST st (Z * SerialAttribute) :=
  ret ← CheckPortAndTokenId c portId;
  if negb (ret =? UEC_OK) then mret (ret, attribute)
  else
    r ← on_driver (hdi_SerialGetAttribute portId attribute);
    mret (if negb (r.1 =? UEC_OK) then (ErrorCodeWrap r.1, r.2) else r).

(** [serial_manager.cpp:202-219] [SerialManager::SerialSetAttribute] *)
Definition SerialSetAttribute (c : Caller) (portId : Z) (attribute : SerialAttribute) : ST st Z :=
  ret ← CheckPortAndTokenId c portId;
  if negb (ret =? UEC_OK) then mret ret
  else
    ret ← on_driver (hdi_SerialSetAttribute portId attribute);
    mret (if negb (ret =? UEC_OK) then ErrorCodeWrap ret else ret).

(** [serial_manager.cpp:240-246] [SerialManager::UpdateSerialPortMap] *)
Definition UpdateSerialPortMap (serialPortList : list SerialPort) : ST st unit :=
  mfor serialPortList (λ it,
    modify (λ s, set_serialPortMap_ (<[sp_portId it := it]> (serialPortMap_ s)) s)).

(** [serial_manager.cpp:221-238] [SerialManager::SerialGetPortList] *)
Definition SerialGetPortList (serialPortList : list SerialPort) : ST st (Z * list SerialPort) :=
  b ← gets serial_;
  if negb b then mret (UEC_SERVICE_INVALID_VALUE, serialPortList)
  else
    r ← on_driver (hdi_SerialGetPortList serialPortList);
    if negb (r.1 =? UEC_OK) then mret r
    else UpdateSerialPortMap r.2 ;; mret r.

(** [serial_manager.cpp:248-257] [SerialManager::IsPortIdExist] *)
Definition IsPortIdExist (portId : Z) : ST st bool :=
  gets (λ s, opt_is_some (serialPortMap_ s !! portId)).

(** [serial_manager.cpp:389-398] [SerialManager::GetSerialPort] [None] is [false] *)
Definition GetSerialPort (portId : Z) : ST st (option SerialPort) :=
  gets (λ s, serialPortMap_ s !! portId).

(** [serial_manager.cpp:275-289] [SerialManager::FreeTokenId] *)
Definition FreeTokenId (portId tokenId : Z) : ST st unit :=
  m ← gets portTokenMap_;
  if match m !! portId with None => true | Some owner => negb (owner =? tokenId) end then mret tt
  else
    b ← gets serial_;
    mwhen b (on_driver (hdi_SerialClose portId) ;; mret tt) ;;
    modify (λ s, set_portTokenMap_ (delete portId (portTokenMap_ s)) s).

(** ** Dumps *)

(** [serial_manager.cpp:291-313] [SerialManager::SerialPortListDump] *)
Definition SerialPortListDump (args : list string) : ST st (list DumpLine) :=
  match args with
  | [arg] =>
      if String.eqb arg "-l" then
        r ← SerialGetPortList [];
        mret ([PortListBegin] ++ map PortName (seq 0 (length r.2)) ++ [PortListEnd])
      else mret [InvalidCommand arg; DumpHelp]
  | _ => mret [ParamCountError; DumpHelp]
  end.

(** [serial_manager.cpp:315-340] [SerialManager::CheckDataAndProcessPortId] of the second argument *)
Definition CheckDataAndProcessPortId (c : Caller) (arg : string) (attribute : SerialAttribute)
    : ST st DumpResult :=
  if negb (all_digits arg) then mret (Printed [InvalidInteger] false)
  else
    match stoi arg with
    | None => mret StoiThrows
    | Some portId =>
        r ← SerialGetAttribute c portId attribute;
        if r.1 =? UEC_OK then mret (Printed [PortAttribute portId r.2] true)
        else
          ret ← SerialOpen c portId;
          if negb (ret =? UEC_OK) then mret (Printed [PortMissing portId] false)
          else
            r ← SerialGetAttribute c portId r.2;
            SerialClose c portId ;;
            mret (Printed [PortAttribute portId r.2] true)
    end.

(** The loop over all ports, which keeps the last attributes that were read. *)
Fixpoint dump_attributes (c : Caller) (i : Z) (ports : list SerialPort) (attribute : SerialAttribute)
    : ST st (list DumpLine) :=
  match ports with
  | [] => mret []
  | port :: ports =>
      if INT32_MAX <? i then mret []
      else
        let portId := i32 (sp_portId port) in
        r ← SerialGetAttribute c portId attribute;
        attribute ← (if negb (r.1 =? UEC_OK) then
                       SerialOpen c portId ;;
                       r ← SerialGetAttribute c portId r.2;
                       SerialClose c portId ;;
                       mret r.2
                     else mret r.2);
        rest ← dump_attributes c (i + 1) ports attribute;
        mret (PortAttribute i attribute :: rest)
  end.

(** [serial_manager.cpp:342-377] [SerialManager::SerialGetAttributeDump] [attribute] is the initial value of the local variable *)
Definition SerialGetAttributeDump (c : Caller) (args : list string) (attribute : SerialAttribute)
    : ST st DumpResult :=
  match args with
  | [_] =>
      r ← SerialGetPortList [];
      if negb (r.1 =? UEC_OK) then mret (Printed [] true)
      else
        lines ← dump_attributes c 0 r.2 attribute;
        mret (Printed lines true)
  | [_; arg] => CheckDataAndProcessPortId c arg attribute
  | _ => mret (Printed [DumpHelp] true)
  end.

(** ** Running a call of the driver *)
Lemma on_driver_run {A} (m : ST D A) (s : st) :
  on_driver m s = ((m (driver s)).1, set_driver (m (driver s)).2 s).
Proof. unfold on_driver. by destruct (m (driver s)). Qed.

Lemma serial_codes : UEC_SERVICE_INVALID_VALUE ≠ UEC_OK ∧ UEC_SERIAL_PORT_NOT_OPEN ≠ UEC_OK ∧
  UEC_SERIAL_PORT_REPEAT_OPEN ≠ UEC_OK.
Proof.
  unfold UEC_SERVICE_INVALID_VALUE, UEC_SERIAL_PORT_NOT_OPEN, UEC_SERIAL_PORT_REPEAT_OPEN, USB_OFFSET,
    UEC_OK. pose proof err_offset_range. lia.
Qed.

(** The code of a driver's error is an error. *)
Lemma ErrorCodeWrap_error e : ErrorCodeWrap e ≠ UEC_OK.
Proof.
  unfold ErrorCodeWrap, UEC_SERIAL_IO_EXCEPTION, UEC_SERIAL_DEVICENOTOPEN, UEC_INTERFACE_TIMED_OUT,
    UEC_SERIAL_OTHER_ERROR, USB_OFFSET, UEC_OK. pose proof err_offset_range. repeat case_if; lia.
Qed.

(** Who may use a port. *)
Definition owns (c : Caller) (portId : Z) (s : st) : Prop :=
  portTokenMap_ s !! portId = Some (token c).

Lemma CheckPortAndTokenId_run c p s :
  ∃ ret, CheckPortAndTokenId c p s = (ret, s) ∧
    (ret = UEC_OK ↔ serial_ s = true ∧ owns c p s) ∧
    (serial_ s = true → ¬ owns c p s → ret = UEC_SERIAL_PORT_NOT_OPEN).
Proof.
  destruct serial_codes as (Hi & Hn & _).
  unfold CheckPortAndTokenId, CheckTokenIdValidity, owns. st_exec. case_if; st_exec.
  - eexists. split; [done|]. destruct (portTokenMap_ s !! p) as [o|]; st_exec; [|naive_solver].
    case_if; bsimp; naive_solver.
  - eexists. split; [done|]. naive_solver.
Qed.

(** ** Only the owner of a port uses it *)

(** Whoever does not own a port is refused, and the refusal changes nothing. *)
Lemma not_owner_refused c p data size timeout attribute s :
  ¬ owns c p s →
  ∃ ret, ret ≠ UEC_OK ∧
    SerialClose c p s = (ret, s) ∧
    SerialRead c p data size timeout s = ((ret, data, None), s) ∧
    SerialWrite c p data size timeout s = ((ret, None), s) ∧
    SerialGetAttribute c p attribute s = ((ret, attribute), s) ∧
    SerialSetAttribute c p attribute s = (ret, s).
Proof.
  intros Hown. destruct (CheckPortAndTokenId_run c p s) as (ret & Hc & Hok & _).
  assert (Hne : ret ≠ UEC_OK) by (intros Hr; by apply Hok in Hr as [_ ?]). exists ret. split; [done|].
  apply Z.eqb_neq in Hne.
  unfold SerialClose, SerialRead, SerialWrite, SerialGetAttribute, SerialSetAttribute.
  by rewrite !bind_unfold, !Hc; cbn [fst snd]; rewrite Hne.
Qed.

(** C28: An application that did not open a port - or whose session has ended - is refused by
    every operation on it, with [UEC_SERIAL_PORT_NOT_OPEN], and the refusal changes nothing:
    the driver is not called and nothing is reported. *)
Theorem serial_gate c p data size timeout attribute s
    (Hser : serial_ s = true) (Hown : ¬ owns c p s) :
  SerialClose c p s = (UEC_SERIAL_PORT_NOT_OPEN, s) ∧
  SerialRead c p data size timeout s = ((UEC_SERIAL_PORT_NOT_OPEN, data, None), s) ∧
  SerialWrite c p data size timeout s = ((UEC_SERIAL_PORT_NOT_OPEN, None), s) ∧
  SerialGetAttribute c p attribute s = ((UEC_SERIAL_PORT_NOT_OPEN, attribute), s) ∧
  SerialSetAttribute c p attribute s = (UEC_SERIAL_PORT_NOT_OPEN, s).
Proof.
  destruct (CheckPortAndTokenId_run c p s) as (ret & Hc & _ & Hn). specialize (Hn Hser Hown). subst ret.
  destruct (not_owner_refused c p data size timeout attribute s Hown) as (ret & _ & Hcl & Hrest).
  assert (ret = UEC_SERIAL_PORT_NOT_OPEN) as ->; [|by split].
  unfold SerialClose in Hcl. rewrite bind_unfold, Hc in Hcl. cbn [fst snd] in Hcl.
  rewrite (proj2 (Z.eqb_neq _ _) (proj1 (proj2 serial_codes))) in Hcl. by injection Hcl.
Qed.

(** ** Sessions

    The documented behaviour of a driver that keeps the set of its open ports: a port is
    opened once, a close that succeeds closes it, and a call that fails - a close too -
    leaves the open ports as they are. *)
Section Sessions.
Context (open_ports : D → gset Z).
Class SerialLaws : Prop := {
  open_adds p d : result (hdi_SerialOpen p) d = UEC_OK →
    (p ∉ open_ports d) ∧ open_ports (after (hdi_SerialOpen p) d) = {[p]} ∪ open_ports d;
  open_fails p d : result (hdi_SerialOpen p) d ≠ UEC_OK →
    open_ports (after (hdi_SerialOpen p) d) = open_ports d;
  close_removes p d : result (hdi_SerialClose p) d = UEC_OK →
    open_ports (after (hdi_SerialClose p) d) = open_ports d ∖ {[p]};
  close_fails p d : result (hdi_SerialClose p) d ≠ UEC_OK →
    open_ports (after (hdi_SerialClose p) d) = open_ports d;
  read_same p b n t d : open_ports (after (hdi_SerialRead p b n t) d) = open_ports d;
  write_same p b n t d : open_ports (after (hdi_SerialWrite p b n t) d) = open_ports d;
  get_same p a d : open_ports (after (hdi_SerialGetAttribute p a) d) = open_ports d;
  set_same p a d : open_ports (after (hdi_SerialSetAttribute p a) d) = open_ports d;
  list_same l d : open_ports (after (hdi_SerialGetPortList l) d) = open_ports d;
  time_same d : open_ports (after current_time d) = open_ports d;
}.
Context `{SL : SerialLaws}.

(** The sessions, as they should be: the owners of the ports, the ports that are open at the
    driver, and those whose clean-up the driver refused. *)
Record sessions := mk_sessions { owners : gmap Z Z; opened : gset Z; stranded : gset Z }.
Inductive session_step : sessions → sessions → Prop :=
  | session_open p t o n f :
      o !! p = None → p ∉ n → session_step (mk_sessions o n f) (mk_sessions (<[p := t]> o) ({[p]} ∪ n) f)
  | session_close p o n f :
      is_Some (o !! p) → session_step (mk_sessions o n f) (mk_sessions (delete p o) (n ∖ {[p]}) f)
  | session_lost p o n f :
      is_Some (o !! p) → session_step (mk_sessions o n f) (mk_sessions (delete p o) n ({[p]} ∪ f))
  | session_stay x : session_step x x.

(** A port is open when it has an owner or was lost, and not both. *)
Definition accounted (x : sessions) : Prop :=
  opened x = dom (owners x) ∪ stranded x ∧ dom (owners x) ## stranded x.
Lemma session_accounted x y : session_step x y → accounted x → accounted y.
Proof.
  unfold accounted. intros []; cbn [owners opened stranded]; [..|done];
    rewrite ?dom_insert_L, ?dom_delete_L; intros [-> Hd].
  - split; [by rewrite union_assoc_L|set_solver].
  - assert (p ∈ dom o) by by apply elem_of_dom. split; [|set_solver]. set_solver.
  - assert (p ∈ dom o) by by apply elem_of_dom. split; [|set_solver].
    rewrite union_assoc_L. rewrite difference_union_L. set_solver.
Qed.

(** The sessions of the manager; [f] are the ports that were lost. *)
Definition view (s : st) (f : gset Z) : sessions := mk_sessions (portTokenMap_ s) (open_ports (driver s)) f.

(** What a call keeps when it opens and closes nothing: the owners, the open ports, the driver. *)
Definition kept (o : gmap Z Z) (n : gset Z) (s : st) : Prop :=
  serial_ s = true ∧ portTokenMap_ s = o ∧ open_ports (driver s) = n.
Section Kept.
Context (o : gmap Z Z) (n : gset Z).
Lemma kept_driver {A} (m : ST D A) :
  (∀ d, open_ports (after m d) = open_ports d) → preserves (kept o n) (on_driver m).
Proof.
  intros Hm s (H1 & H2 & H3). unfold after. rewrite on_driver_run. split; [done|]. split; [done|].
  specialize (Hm (driver s)). unfold after in Hm. cbn. by rewrite Hm.
Qed.
Lemma kept_serial_report c p op t : preserves (kept o n) (ReportSerialOperationSecurityInfo c p op t).
Proof. by intros s Hs. Qed.
Lemma kept_check c p : preserves (kept o n) (CheckPortAndTokenId c p).
Proof. unfold CheckPortAndTokenId, CheckTokenIdValidity. step_preserve. Qed.
Lemma kept_first_read p : preserves (kept o n) (QueryAndRecordFirstRead p).
Proof. unfold QueryAndRecordFirstRead. step_preserve. by intros s Hs. Qed.
Lemma kept_first_write p : preserves (kept o n) (QueryAndRecordFirstWrite p).
Proof. unfold QueryAndRecordFirstWrite. step_preserve. by intros s Hs. Qed.
Lemma kept_ports l : preserves (kept o n) (UpdateSerialPortMap l).
Proof. unfold UpdateSerialPortMap. step_preserve. apply preserves_modify. by intros s Hs. Qed.
End Kept.
#[local] Hint Resolve kept_serial_report kept_check kept_first_read kept_first_write kept_ports : preserve.

(** A call that opens and closes nothing. *)
Definition stays_put {A} (m : ST st A) : Prop := ∀ o n, preserves (kept o n) m.
Lemma stays_put_others :
  (∀ c p b n t, stays_put (SerialRead c p b n t)) ∧ (∀ c p b n t, stays_put (SerialWrite c p b n t)) ∧
  (∀ c p a, stays_put (SerialGetAttribute c p a)) ∧ (∀ c p a, stays_put (SerialSetAttribute c p a)) ∧
  (∀ l, stays_put (SerialGetPortList l)).
Proof.
  pose proof (λ o n, kept_driver o n current_time time_same).
  pose proof (λ o n p b k t, kept_driver o n (hdi_SerialRead p b k t) (read_same p b k t)).
  pose proof (λ o n p b k t, kept_driver o n (hdi_SerialWrite p b k t) (write_same p b k t)).
  pose proof (λ o n p a, kept_driver o n (hdi_SerialGetAttribute p a) (get_same p a)).
  pose proof (λ o n p a, kept_driver o n (hdi_SerialSetAttribute p a) (set_same p a)).
  pose proof (λ o n l, kept_driver o n (hdi_SerialGetPortList l) (list_same l)).
  split_and!; intros; intros ? ?;
    unfold SerialRead, SerialWrite, SerialGetAttribute, SerialSetAttribute, SerialGetPortList;
    step_preserve; auto.
Qed.

(** ** What an open, a close and a clean-up do to the sessions *)

(** The call of the driver between the clock and the records. *)
Lemma time_driver s : open_ports (current_time (driver s)).2 = open_ports (driver s).
Proof. apply (time_same (driver s)). Qed.

Lemma SerialOpen_effect c p s :
  serial_ s = true → let s' := after (SerialOpen c p) s in
  serial_ s' = true ∧
  if result (SerialOpen c p) s =? UEC_OK
  then portTokenMap_ s !! p = None ∧ (p ∉ open_ports (driver s)) ∧
       portTokenMap_ s' = <[p := token c]> (portTokenMap_ s) ∧
       open_ports (driver s') = {[p]} ∪ open_ports (driver s)
  else portTokenMap_ s' = portTokenMap_ s ∧ open_ports (driver s') = open_ports (driver s).
Proof.
  intros Hb. unfold SerialOpen, result, after. st_exec. rewrite Hb. st_exec.
  destruct (portTokenMap_ s !! p) as [o|] eqn:Hp; cbn [opt_is_some]; st_exec.
  { by rewrite (proj2 (Z.eqb_neq _ _) (proj2 (proj2 serial_codes))). }
  rewrite on_driver_run. st_exec. rewrite on_driver_run. st_exec. cbn [driver set_driver].
  pose proof (time_driver s) as Hd. set (d := (current_time (driver s)).2) in *.
  pose proof (open_adds p d) as Ha. pose proof (open_fails p d) as Hf. unfold result, after in Ha, Hf.
  destruct (Z.eqb_spec (hdi_SerialOpen p d).1 UEC_OK) as [Hok|Hno]; cbn [negb]; st_exec.
  - destruct (Ha Hok) as [Hin Heq]. rewrite (proj2 (Z.eqb_eq _ _) Hok). cbn. rewrite Heq, Hd in *. by split_and!.
  - rewrite (proj2 (Z.eqb_neq _ _) (ErrorCodeWrap_error _)). cbn. by rewrite (Hf Hno).
Qed.

Lemma SerialClose_driver_effect c p s :
  let s' := after (SerialClose_driver c p) s in
  serial_ s' = serial_ s ∧ portTokenMap_ s' = portTokenMap_ s ∧
  open_ports (driver s') =
    (if result (SerialClose_driver c p) s =? UEC_OK then open_ports (driver s) ∖ {[p]} else open_ports (driver s)).
Proof.
  unfold SerialClose_driver, result, after. st_exec. rewrite on_driver_run. st_exec. rewrite on_driver_run.
  st_exec. cbn [driver set_driver]. pose proof (time_driver s) as Hd. set (d := (current_time (driver s)).2) in *.
  pose proof (close_removes p d) as Hr. pose proof (close_fails p d) as Hf. unfold result, after in Hr, Hf.
  destruct (Z.eqb_spec (hdi_SerialClose p d).1 UEC_OK) as [Hok|Hno]; cbn [negb]; st_exec.
  - rewrite (proj2 (Z.eqb_eq _ _) Hok). cbn. by rewrite (Hr Hok), Hd.
  - rewrite (proj2 (Z.eqb_neq _ _) (ErrorCodeWrap_error _)). cbn. by rewrite (Hf Hno).
Qed.

Lemma SerialClose_effect c p s :
  let s' := after (SerialClose c p) s in
  serial_ s' = serial_ s ∧
  if result (SerialClose c p) s =? UEC_OK
  then owns c p s ∧ portTokenMap_ s' = delete p (portTokenMap_ s) ∧
       open_ports (driver s') = open_ports (driver s) ∖ {[p]}
  else portTokenMap_ s' = portTokenMap_ s ∧ open_ports (driver s') = open_ports (driver s).
Proof.
  unfold SerialClose, result, after. rewrite !bind_unfold.
  destruct (CheckPortAndTokenId_run c p s) as (ret & -> & Hok & _). cbn [fst snd].
  destruct (Z.eqb_spec ret UEC_OK) as [Hr|Hr]; cbn [negb];
    [|cbn [mret ST_ret fst snd]; by rewrite (proj2 (Z.eqb_neq _ _) Hr)].
  destruct (proj1 Hok Hr) as [_ Hown]. rewrite bind_unfold.
  destruct (SerialClose_driver_effect c p s) as (H1 & H2 & H3). unfold result, after in *.
  destruct (Z.eqb_spec (SerialClose_driver c p s).1 UEC_OK) as [Hr2|Hr2]; cbn [negb].
  - unfold ResetFirstRead, ResetFirstWrite, SerialClose_erase. st_exec. rewrite (proj2 (Z.eqb_eq _ _) Hr2).
    cbn. by rewrite H1, H2, H3.
  - cbn [mret ST_ret fst snd]. rewrite (proj2 (Z.eqb_neq _ _) Hr2). by rewrite H1, H2, H3.
Qed.

(** The clean-up of a client that held the port, and the driver refuses to close it. *)
Definition clean_up_fails (p t : Z) (s : st) : bool :=
  bool_decide (portTokenMap_ s !! p = Some t) && negb (result (hdi_SerialClose p) (driver s) =? UEC_OK).
Lemma FreeTokenId_effect p t s :
  serial_ s = true → let s' := after (FreeTokenId p t) s in
  serial_ s' = true ∧
  if decide (portTokenMap_ s !! p = Some t)
  then portTokenMap_ s' = delete p (portTokenMap_ s) ∧
       open_ports (driver s') = (if clean_up_fails p t s then open_ports (driver s) else open_ports (driver s) ∖ {[p]})
  else portTokenMap_ s' = portTokenMap_ s ∧ open_ports (driver s') = open_ports (driver s).
Proof.
  intros Hb. unfold FreeTokenId, clean_up_fails, after. st_exec. case_decide as Hp.
  - rewrite Hp, Z.eqb_refl. cbn [negb]. st_exec. rewrite Hb. unfold mwhen. st_exec. rewrite on_driver_run. st_exec.
    split; [done|]. split; [done|]. rewrite bool_decide_eq_true_2 by done. cbn.
    pose proof (close_removes p (driver s)) as Hr. pose proof (close_fails p (driver s)) as Hf.
    unfold result, after in *. destruct (Z.eqb_spec (hdi_SerialClose p (driver s)).1 UEC_OK); cbn; auto.
  - destruct (portTokenMap_ s !! p) as [o|]; st_exec; [|done].
    destruct (Z.eqb_spec o t) as [->|]; [done|]. by st_exec.
Qed.

(** The calls of the manager, one after the other, and the ports that their clean-ups lose. *)
Inductive serial_call : st * gset Z → st * gset Z → Prop :=
  | call_open c p s f : serial_call (s, f) (after (SerialOpen c p) s, f)
  | call_close c p s f : serial_call (s, f) (after (SerialClose c p) s, f)
  | call_read c p b n t s f : serial_call (s, f) (after (SerialRead c p b n t) s, f)
  | call_write c p b n t s f : serial_call (s, f) (after (SerialWrite c p b n t) s, f)
  | call_get c p a s f : serial_call (s, f) (after (SerialGetAttribute c p a) s, f)
  | call_set c p a s f : serial_call (s, f) (after (SerialSetAttribute c p a) s, f)
  | call_list l s f : serial_call (s, f) (after (SerialGetPortList l) s, f)
  | call_free p t s f :
      serial_call (s, f) (after (FreeTokenId p t) s, if clean_up_fails p t s then {[p]} ∪ f else f).

Definition serial_start (s : st) : Prop :=
  serial_ s = true ∧ portTokenMap_ s = ∅ ∧ portsHasBeenRead_ s = ∅ ∧
  portsHasBeenWritten_ s = ∅ ∧ open_ports (driver s) = ∅.

Lemma stays_put_step {A} (m : ST st A) s f :
  stays_put m → serial_ s = true → serial_ (after m s) = true ∧ session_step (view s f) (view (after m s) f).
Proof.
  intros Hm Hb. destruct (Hm (portTokenMap_ s) (open_ports (driver s)) s) as (H1 & H2 & H3); [done|].
  split; [done|]. unfold view. rewrite H2, H3. constructor.
Qed.

(** Each call is a step of the sessions. *)
Lemma serial_call_step x y :
  serial_call x y → serial_ x.1 = true → serial_ y.1 = true ∧ session_step (view x.1 x.2) (view y.1 y.2).
Proof.
  destruct stays_put_others as (Hr & Hw & Hg & Hs & Hl).
  intros [] Hb; cbn [fst snd] in *; try (by apply stays_put_step).
  - destruct (SerialOpen_effect c p s Hb) as [Hb' He]. split; [done|]. unfold view. case_match.
    + destruct He as (H1 & H2 & -> & ->). by constructor.
    + destruct He as [-> ->]. constructor.
  - destruct (SerialClose_effect c p s) as [Hb' He]. split; [by rewrite Hb'|]. unfold view. case_match.
    + destruct He as (H1 & -> & ->). constructor. by eexists.
    + destruct He as [-> ->]. constructor.
  - destruct (FreeTokenId_effect p t s Hb) as [Hb' He]. split; [done|]. unfold view. case_decide as Hp.
    + destruct He as [-> ->]. case_match; constructor; by eexists.
    + destruct He as [-> ->]. unfold clean_up_fails. rewrite bool_decide_eq_false_2 by done. constructor.
Qed.
Lemma serial_calls_accounted x y :
  rtc serial_call x y → serial_ x.1 = true → accounted (view x.1 x.2) →
  serial_ y.1 = true ∧ accounted (view y.1 y.2).
Proof.
  induction 1 as [|x y z Hxy _ IH]; intros Hb Ha; [done|].
  destruct (serial_call_step x y Hxy Hb) as [Hb' Hst]. apply IH; [done|]. by eapply session_accounted.
Qed.

(** Nobody can open a port that is open at the driver; one that is closed there and has no
    owner is opened when the driver opens it. *)
Lemma SerialOpen_busy c p s :
  serial_ s = true → p ∈ open_ports (driver s) → result (SerialOpen c p) s ≠ UEC_OK.
Proof.
  intros Hb Hp Hok. destruct (SerialOpen_effect c p s Hb) as [_ He].
  rewrite (proj2 (Z.eqb_eq _ _) Hok) in He. by destruct He as (_ & Hn & _).
Qed.
Lemma SerialOpen_free c p s :
  serial_ s = true → portTokenMap_ s !! p = None → p ∉ open_ports (driver s) →
  (∀ d, p ∉ open_ports d → result (hdi_SerialOpen p) d = UEC_OK) → result (SerialOpen c p) s = UEC_OK.
Proof.
  intros Hb Hp Hn Ho. unfold result, SerialOpen. st_exec. rewrite Hb. st_exec. rewrite Hp. cbn [opt_is_some].
  st_exec. rewrite on_driver_run. st_exec. rewrite on_driver_run. st_exec. cbn [driver set_driver].
  specialize (Ho (current_time (driver s)).2). rewrite time_driver in Ho. specialize (Ho Hn). unfold result in Ho.
  rewrite Ho, Z.eqb_refl. by st_exec.
Qed.

(** C29: One call after the other, whatever applications open, use, close or lose, the ports
    that are open at the driver are those with an owner and those that were lost: a port is
    lost when its application dies and the driver refuses the close of the clean-up, which
    forgets the owner all the same.  A port with an owner is not lost; a lost port can be
    opened by nobody; and a port that is neither can be opened by any
    application, if the driver opens a port that is closed. *)
Theorem serial_sessions s s' lost (Hs : serial_start s) (Hr : rtc serial_call (s, ∅) (s', lost)) :
  open_ports (driver s') = dom (portTokenMap_ s') ∪ lost ∧ dom (portTokenMap_ s') ## lost ∧
  (∀ c p, p ∈ lost → result (SerialOpen c p) s' ≠ UEC_OK) ∧
  (∀ c p, portTokenMap_ s' !! p = None → p ∉ lost →
     (∀ d, p ∉ open_ports d → result (hdi_SerialOpen p) d = UEC_OK) → result (SerialOpen c p) s' = UEC_OK).
Proof.
  destruct Hs as (Hb & Hm & _ & _ & Ho).
  destruct (serial_calls_accounted (s, ∅) (s', lost) Hr Hb) as (Hb' & He & Hd).
  { unfold accounted, view. cbn. rewrite Hm, Ho, dom_empty_L. split; [done|]. apply disjoint_empty_l. }
  cbn in Hb', He, Hd. split_and!; [done..| |].
  - intros c p Hp. apply SerialOpen_busy; [done|]. rewrite He. by apply elem_of_union_r.
  - intros c p Hn Hp. apply SerialOpen_free; [done..|]. rewrite He. intros [Hin|]%elem_of_union; [|done].
    apply elem_of_dom in Hin as [? Hin]. by rewrite Hn in Hin.
Qed.

(** ** Calls that interleave

    A client may die while its [SerialClose] is between the driver's close and the end of
    the session: [FreeTokenId] ends the session first, and another application opens the
    port. *)
Definition close_race (a b : Caller) (p : Z) : ST st Z :=
  SerialOpen a p ;;
  ret ← CheckPortAndTokenId a p;
  if negb (ret =? UEC_OK) then mret ret
  else
    ret ← SerialClose_driver a p;
    if negb (ret =? UEC_OK) then mret ret
    else
      ResetFirstRead p ;; ResetFirstWrite p ;;
      FreeTokenId p (token a) ;;
      opened ← SerialOpen b p;
      SerialClose_erase p ;;
      mret opened.

Lemma SerialOpen_run c p s :
  serial_ s = true → portTokenMap_ s !! p = None → p ∉ open_ports (driver s) →
  (∀ d, p ∉ open_ports d → result (hdi_SerialOpen p) d = UEC_OK) →
  ∃ s', SerialOpen c p s = (UEC_OK, s') ∧ serial_ s' = true ∧
    portTokenMap_ s' = <[p := token c]> (portTokenMap_ s) ∧ open_ports (driver s') = {[p]} ∪ open_ports (driver s).
Proof.
  intros Hb Hp Hn Ho. pose proof (SerialOpen_free c p s Hb Hp Hn Ho) as Hr.
  destruct (SerialOpen_effect c p s Hb) as [Hb' He]. rewrite Hr in He. destruct He as (_ & _ & H1 & H2).
  exists (after (SerialOpen c p) s). split_and!; [|done..]. unfold result, after in *. destruct (SerialOpen c p s). by cbn in *; subst.
Qed.
Lemma SerialClose_driver_run c p s :
  (∀ d, p ∈ open_ports d → result (hdi_SerialClose p) d = UEC_OK) → p ∈ open_ports (driver s) →
  ∃ s', SerialClose_driver c p s = (UEC_OK, s') ∧ serial_ s' = serial_ s ∧
    portTokenMap_ s' = portTokenMap_ s ∧ open_ports (driver s') = open_ports (driver s) ∖ {[p]}.
Proof.
  intros Hk Hp. assert (Hr : result (SerialClose_driver c p) s = UEC_OK).
  { unfold SerialClose_driver, result. st_exec. rewrite on_driver_run. st_exec. rewrite on_driver_run. st_exec.
    cbn [driver set_driver]. specialize (Hk (current_time (driver s)).2). rewrite time_driver in Hk. specialize (Hk Hp).
    unfold result in Hk. rewrite Hk, Z.eqb_refl. by st_exec. }
  destruct (SerialClose_driver_effect c p s) as (H1 & H2 & H3). rewrite Hr in H3.
  exists (after (SerialClose_driver c p) s). split_and!; [|done..].
  unfold result, after in *. destruct (SerialClose_driver c p s). by cbn in *; subst.
Qed.
Lemma FreeTokenId_run p t s :
  serial_ s = true → portTokenMap_ s !! p = Some t → p ∉ open_ports (driver s) →
  ∃ s', FreeTokenId p t s = (tt, s') ∧ serial_ s' = true ∧
    portTokenMap_ s' = delete p (portTokenMap_ s) ∧ open_ports (driver s') = open_ports (driver s).
Proof.
  intros Hb Hp Hn. destruct (FreeTokenId_effect p t s Hb) as [Hb' He]. rewrite decide_True in He by done.
  destruct He as [H1 H2]. exists (after (FreeTokenId p t) s). split_and!; [|done..|].
  - unfold after. by destruct (FreeTokenId p t s) as [[] s'].
  - rewrite H2. case_match; [done|]. clear -Hn. set_solver.
Qed.

(** Two applications can strand a port: the first opens it and dies while it closes it,
    and the second opens it before the first's [SerialClose] erases the owner.  The second
    is told that it has opened the port, but the port has no owner: it is open at the
    driver, every operation on it is refused, and no application can open it again. *)
Theorem close_race_strands_port a b p s
    (Hb : serial_ s = true) (Hp : portTokenMap_ s !! p = None)
    (Hc : ∀ d, p ∉ open_ports d → result (hdi_SerialOpen p) d = UEC_OK)
    (Hk : ∀ d, p ∈ open_ports d → result (hdi_SerialClose p) d = UEC_OK)
    (Hd : p ∉ open_ports (driver s)) :
  result (close_race a b p) s = UEC_OK ∧
  p ∈ open_ports (driver (after (close_race a b p) s)) ∧
  (∀ c, ¬ owns c p (after (close_race a b p) s)) ∧
  (∀ c, result (SerialOpen c p) (after (close_race a b p) s) ≠ UEC_OK).
Proof.
  destruct (SerialOpen_run a p s Hb Hp Hd Hc) as (s1 & H1 & Hb1 & Hm1 & Ho1).
  destruct (CheckPortAndTokenId_run a p s1) as (r2 & H2 & Hr2 & _).
  rewrite (proj2 Hr2) in H2 by (split; [done|]; unfold owns; by rewrite Hm1, lookup_insert_eq).
  destruct (SerialClose_driver_run a p s1 Hk) as (s3 & H3 & Hb3 & Hm3 & Ho3); [rewrite Ho1; set_solver|].
  set (s4 := set_portsHasBeenWritten_ (portsHasBeenWritten_ s3 ∖ {[p]})
               (set_portsHasBeenRead_ (portsHasBeenRead_ s3 ∖ {[p]}) s3)).
  destruct (FreeTokenId_run p (token a) s4) as (s5 & H5 & Hb5 & Hm5 & Ho5).
  { exact (eq_trans Hb3 Hb1). }
  { cbn. by rewrite Hm3, Hm1, lookup_insert_eq. }
  { cbn. rewrite Ho3. clear. set_solver. }
  destruct (SerialOpen_run b p s5 Hb5) as (s6 & H6 & Hb6 & Hm6 & Ho6); [by rewrite Hm5, lookup_delete_eq| |done|].
  { rewrite Ho5. cbn. rewrite Ho3. clear. set_solver. }
  assert (Hrun : close_race a b p s = (UEC_OK, set_portTokenMap_ (delete p (portTokenMap_ s6)) s6)).
  { unfold close_race. rewrite bind_unfold, H1. cbn [fst snd]. rewrite bind_unfold, H2. cbn [fst snd].
    rewrite Z.eqb_refl. cbn [negb]. rewrite bind_unfold, H3. cbn [fst snd].
    rewrite Z.eqb_refl. cbn [negb]. unfold ResetFirstRead, ResetFirstWrite. st_exec.
    match goal with |- context [FreeTokenId p _ ?t] => change t with s4 end. rewrite H5. st_exec. by rewrite H6. }
  assert (Hopen : p ∈ open_ports (driver s6)) by (rewrite Ho6; set_solver).
  assert (Hnone : delete p (portTokenMap_ s6) !! p = None) by apply lookup_delete_eq.
  unfold result at 1, after, owns. rewrite Hrun. cbn. rewrite Hnone. split_and!; [done..|].
  intros c. by apply SerialOpen_busy.
Qed.
End Sessions.

(** ** What is reported of a session *)

(** The ports that were read or written have an owner. *)
Definition unreported (s : st) : Prop :=
  portsHasBeenRead_ s ∪ portsHasBeenWritten_ s ⊆ dom (portTokenMap_ s).

(** The calls of the clients: not the clean-up of a client that died. *)
Inductive client_call : st → st → Prop :=
  | client_open c p s : client_call s (after (SerialOpen c p) s)
  | client_close c p s : client_call s (after (SerialClose c p) s)
  | client_read c p b n t s : client_call s (after (SerialRead c p b n t) s)
  | client_write c p b n t s : client_call s (after (SerialWrite c p b n t) s)
  | client_get c p a s : client_call s (after (SerialGetAttribute c p a) s)
  | client_set c p a s : client_call s (after (SerialSetAttribute c p a) s)
  | client_list l s : client_call s (after (SerialGetPortList l) s).

Lemma unreported_driver {A} (m : ST D A) : preserves unreported (on_driver m).
Proof. intros s Hs. unfold after. by rewrite on_driver_run. Qed.
Lemma unreported_check c p : preserves unreported (CheckPortAndTokenId c p).
Proof. unfold CheckPortAndTokenId, CheckTokenIdValidity. step_preserve. Qed.
Lemma unreported_report c p op t : preserves unreported (ReportSerialOperationSecurityInfo c p op t).
Proof. by intros s Hs. Qed.
Lemma unreported_ports l : preserves unreported (UpdateSerialPortMap l).
Proof. unfold UpdateSerialPortMap. step_preserve. apply preserves_modify. by intros s Hs. Qed.
#[local] Hint Resolve unreported_driver unreported_check unreported_report unreported_ports : preserve.

Lemma unreported_open c p : preserves unreported (SerialOpen c p).
Proof.
  unfold SerialOpen. step_preserve. apply preserves_modify. intros s. unfold unreported. cbn [portsHasBeenRead_ portsHasBeenWritten_ portTokenMap_ set_portTokenMap_]. rewrite dom_insert_L. clear. set_solver.
Qed.

Lemma unreported_close c p : preserves unreported (SerialClose c p).
Proof.
  intros s Hs. unfold SerialClose. rewrite after_bind. destruct (result _ s =? UEC_OK); cbn [negb];
    [|by apply unreported_check].
  rewrite after_bind. match goal with |- context [after (SerialClose_driver c p) ?t] =>
    assert (Ht : unreported (after (SerialClose_driver c p) t)) end.
  { unfold SerialClose_driver. apply (preserves_bind unreported); [auto with preserve|..|by apply unreported_check].
    step_preserve. }
  destruct (result (SerialClose_driver c p) _ =? UEC_OK); cbn [negb]; [|exact Ht].
  revert Ht. generalize (after (SerialClose_driver c p) (after (CheckPortAndTokenId c p) s)). intros u.
  unfold ResetFirstRead, ResetFirstWrite, SerialClose_erase, unreported. autorewrite with st.
  cbn [portsHasBeenRead_ portsHasBeenWritten_ portTokenMap_ set_portTokenMap_ set_portsHasBeenRead_
    set_portsHasBeenWritten_]. rewrite dom_delete_L. clear. set_solver.
Qed.

(** A successful use of a port by its owner keeps the ports that were used owned. *)
Lemma unreported_used c p {A} (body : ST st A) (e : Z → A) :
  (∀ s, owns c p s → unreported s → unreported (after body s)) →
  preserves unreported
    (ret ← CheckPortAndTokenId c p; if negb (ret =? UEC_OK) then mret (e ret) else body).
Proof.
  intros Hbody s Hs. unfold after. rewrite bind_unfold.
  destruct (CheckPortAndTokenId_run c p s) as (ret & -> & Hok & _). cbn [fst snd].
  case_if; cbn [negb]; [|done]. apply Hbody; [|done]. bsimp. by apply Hok.
Qed.

Lemma owned_dom c p s : owns c p s → p ∈ dom (portTokenMap_ s).
Proof. intros Hp. apply elem_of_dom. by eexists. Qed.

Lemma unreported_read c p b n t : preserves unreported (SerialRead c p b n t).
Proof.
  apply (unreported_used c p _ (λ ret, (ret, b, None))). intros s Ho%owned_dom Hs.
  rewrite after_bind. unfold after at 2. rewrite on_driver_run. cbn [snd].
  rewrite after_bind. unfold after at 2, result at 1. rewrite on_driver_run. cbn [fst snd].
  destruct (hdi_SerialRead p b n t _).1 as [r data]. case_if; [done|].
  unfold QueryAndRecordFirstRead, ReportSerialOperationSecurityInfo. autorewrite with st.
  clear -Hs Ho. case_bool_decide; unfold unreported in *; cbn in *; clear -Hs Ho; set_solver.
Qed.
Lemma unreported_write c p b n t : preserves unreported (SerialWrite c p b n t).
Proof.
  apply (unreported_used c p _ (λ ret, (ret, None))). intros s Ho%owned_dom Hs.
  rewrite after_bind. unfold after at 2. rewrite on_driver_run. cbn [snd].
  rewrite after_bind. unfold after at 2, result at 1. rewrite on_driver_run. cbn [fst snd].
  case_if; [done|].
  unfold QueryAndRecordFirstWrite, ReportSerialOperationSecurityInfo. autorewrite with st.
  clear -Hs Ho. case_bool_decide; unfold unreported in *; cbn in *; clear -Hs Ho; set_solver.
Qed.

Lemma client_call_unreported s s' : client_call s s' → unreported s → unreported s'.
Proof.
  intros []; [apply unreported_open|apply unreported_close|apply unreported_read|apply unreported_write| | |];
    match goal with |- unreported ?s → unreported (after ?m ?s) => revert s; change (preserves unreported m) end;
    unfold SerialGetAttribute, SerialSetAttribute, SerialGetPortList; step_preserve.
Qed.

(** A successful read is reported when it is the first. *)
Lemma SerialRead_reports c p b n t s :
  owns c p s → serial_ s = true → UEC_OK <= (hdi_SerialRead p b n t (current_time (driver s)).2).1.1 →
  reports (after (SerialRead c p b n t) s) = reports s ++
    (if bool_decide (p ∉ portsHasBeenRead_ s)
     then [mk_SerialReport (result current_time (driver s)) p SERIAL_READ (uid c)] else []).
Proof.
  intros Ho Hb Hr. unfold SerialRead, after. rewrite bind_unfold.
  destruct (CheckPortAndTokenId_run c p s) as (ret & -> & Hok & _). cbn [fst snd].
  rewrite (proj2 Hok) by done. st_exec. rewrite on_driver_run. st_exec. rewrite on_driver_run. st_exec.
  cbn [driver set_driver]. destruct (hdi_SerialRead p b n t _) as [[r data] d]. cbn [fst snd] in *.
  rewrite (proj2 (Z.ltb_ge _ _) Hr). unfold QueryAndRecordFirstRead, ReportSerialOperationSecurityInfo.
  st_exec. cbn [portsHasBeenRead_ set_driver]. case_bool_decide; unfold mwhen; st_exec; cbn; [done|].
  by rewrite app_nil_r.
Qed.

Lemma SerialOpen_success c p s :
  result (SerialOpen c p) s = UEC_OK →
  portTokenMap_ s !! p = None ∧ serial_ (after (SerialOpen c p) s) = true ∧
  owns c p (after (SerialOpen c p) s) ∧
  portsHasBeenRead_ (after (SerialOpen c p) s) = portsHasBeenRead_ s.
Proof.
  unfold result, after, owns, SerialOpen. st_exec.
  destruct (serial_ s) eqn:Hb; st_exec; [|intros Hc; by destruct (proj1 serial_codes)].
  destruct (portTokenMap_ s !! p) as [o|] eqn:Hp; cbn [opt_is_some]; st_exec;
    [intros Hc; by destruct (proj2 (proj2 serial_codes))|].
  rewrite on_driver_run. st_exec. rewrite on_driver_run. st_exec.
  case_if; st_exec; [|intros Hc; by destruct (ErrorCodeWrap_error _ Hc)].
  intros _. cbn. by rewrite lookup_insert_eq.
Qed.

(** In every history of client calls, the first successful read after a successful open
    is reported to the security service, with the port, the user and the time of the read:
    no earlier session of the port suppresses the report. *)
Theorem first_read_reported s0 s c p b n t
    (Hs : portsHasBeenRead_ s0 = ∅ ∧ portsHasBeenWritten_ s0 = ∅) (Hr : rtc client_call s0 s)
    (Hopen : result (SerialOpen c p) s = UEC_OK) :
  let s1 := after (SerialOpen c p) s in
  UEC_OK <= (hdi_SerialRead p b n t (current_time (driver s1)).2).1.1 →
  reports (after (SerialRead c p b n t) s1) =
    reports s1 ++ [mk_SerialReport (result current_time (driver s1)) p SERIAL_READ (uid c)].
Proof.
  intros s1 Hread. assert (Hu : unreported s).
  { assert (Hu0 : unreported s0) by (unfold unreported; destruct Hs as [-> ->]; set_solver).
    clear -Hu0 Hr. induction Hr as [|u v w Huv _ IH]; [done|]. by apply IH, (client_call_unreported u). }
  destruct (SerialOpen_success c p s Hopen) as (Hp & Hb & Ho & Hf).
  rewrite SerialRead_reports by done. rewrite bool_decide_eq_true_2; [done|].
  unfold s1. rewrite Hf. intros Hin. apply (not_elem_of_dom_2 _ _ Hp), Hu. set_solver.
Qed.
End SerialManager.
Arguments st : clear implicits.

(** ** The host manager's serial ports

    What [UsbHostManager::AddUsbSerialDevice] asks of the serial manager. *)
#[export] Instance serial_ports {D} `{EB : ErrBase} `{SH : SerialHdi D} : SerialPorts (st D) := {
  serial_GetPortList :=
    r ← SerialGetPortList [];
    mret (r.1, map (λ port, mk_UsbDev (si_busNum (deviceInfo port)) (si_devAddr (deviceInfo port))) r.2);
}.

(** ** The theorems on a concrete driver

    A driver that keeps the set of its open ports. *)
Section Samples.
#[local] Existing Instance sample_codes.
#[local] Instance sample_serial : SerialHdi (gset Z) := {
  hdi_SerialOpen p := λ d, if bool_decide (p ∈ d) then (ERR_CODE_IOEXCEPTION, d) else (0, {[p]} ∪ d);
  hdi_SerialClose p := λ d, if bool_decide (p ∈ d) then (0, d ∖ {[p]}) else (ERR_CODE_DEVICENOTOPEN, d);
  hdi_SerialRead p b n t := λ d, ((1, [65]), d);
  hdi_SerialWrite p b n t := λ d, (Z.of_nat (length b), d);
  hdi_SerialGetAttribute p a := λ d, ((0, mk_SerialAttribute 9600 8 0 1), d);
  hdi_SerialSetAttribute p a := λ d, (0, d);
  hdi_SerialGetPortList l := λ d, ((0, [mk_SerialPort 1 (mk_SerialDeviceInfo 1 2 1921 21905 "serial")]), d);
  current_time := λ d, (1000, d);
}.
#[local] Instance sample_serial_laws : SerialLaws (D := gset Z) id.
Proof.
  constructor; intros; try done; unfold id, result, after in *; simpl in *;
    repeat case_bool_decide; simpl in *; done || set_solver.
Qed.

Definition idle : st (gset Z) := mk_st true ∅ ∅ ∅ ∅ ∅ [].
Definition app_a : Caller := mk_Caller 10 100.
Definition app_b : Caller := mk_Caller 20 200.
Definition held : st (gset Z) := after (SerialOpen app_a 1) idle.

Lemma serial_gate_witness :
  result (SerialClose app_b 1) held = UEC_SERIAL_PORT_NOT_OPEN ∧
  after (SerialClose app_b 1) held = held.
Proof.
  destruct (serial_gate app_b 1 [] 1 1000 (mk_SerialAttribute 0 0 0 0) held) as (H & _).
  - by vm_compute.
  - by vm_compute.
  - unfold result, after. by rewrite H.
Defined.

Lemma serial_sessions_witness :
  let s := after (FreeTokenId 1 10) held in
  id (driver held) = {[1]} ∧ id (driver s) = dom (portTokenMap_ s) ∧ result (SerialOpen app_b 1) s = UEC_OK.
Proof.
  destruct (serial_sessions id idle (after (FreeTokenId 1 10) held) ∅) as (H1 & _ & _ & H2).
  - by split_and!.
  - eapply rtc_l; [apply (call_open app_a 1)|]. apply rtc_once.
    pose proof (call_free 1 10 held ∅) as Hf.
    assert (clean_up_fails 1 10 held = false) as Hn by by vm_compute. by rewrite Hn in Hf.
  - split; [by apply (bool_decide_unpack _)|]. split; [by rewrite union_empty_r_L in H1|].
    apply H2; [by vm_compute|exact (not_elem_of_empty _)|].
    intros d Hd. unfold result. cbn. unfold id in Hd. by rewrite bool_decide_eq_false_2.
Defined.

Lemma close_race_strands_port_witness :
  result (close_race app_a app_b 1) idle = UEC_OK ∧
  result (SerialOpen app_b 1) (after (close_race app_a app_b 1) idle) ≠ UEC_OK.
Proof.
  destruct (close_race_strands_port id app_a app_b 1 idle) as (H1 & _ & _ & H2).
  - done.
  - done.
  - intros d Hd. unfold result. simpl. unfold id in Hd. by rewrite bool_decide_eq_false_2.
  - intros d Hd. unfold result. simpl. unfold id in Hd. by rewrite bool_decide_eq_true_2.
  - by apply (bool_decide_unpack _).
  - by split.
Defined.

Lemma first_read_reported_witness :
  reports (after (SerialRead app_a 1 [] 1 1000) held) =
    [mk_SerialReport 1000 1 SERIAL_OPEN 100; mk_SerialReport 1000 1 SERIAL_READ 100].
Proof.
  pose proof (first_read_reported idle idle app_a 1 [] 1 1000) as H. cbv zeta in H. fold held in H.
  rewrite H; [by vm_compute|by split|apply rtc_refl|by vm_compute|by vm_compute].
Defined.

(** The clean-up of a client that died keeps the marks of its session, so that the next
    session's first read is not reported. *)
Example read_after_clean_up :
  let s := after (FreeTokenId 1 10) (after (SerialRead app_a 1 [] 1 1000) held) in
  reports (after (SerialRead app_b 1 [] 1 1000) (after (SerialOpen app_b 1) s)) =
    [mk_SerialReport 1000 1 SERIAL_OPEN 100; mk_SerialReport 1000 1 SERIAL_READ 100;
     mk_SerialReport 1000 1 SERIAL_OPEN 200].
Proof. by vm_compute. Qed.

(** A port number that does not fit an [int32_t] ends the dump with an exception. *)
Example dump_throws :
  result (SerialGetAttributeDump app_a ["-g"; "99999999999"]%string (mk_SerialAttribute 0 0 0 0)) idle =
    StoiThrows.
Proof. by vm_compute. Qed.
End Samples.

(** A driver that refuses a close: the port is lost. *)
Section Lost.
#[local] Existing Instance sample_codes.
#[local] Instance stubborn_serial : SerialHdi (gset Z) := {
  hdi_SerialOpen p := λ d, if bool_decide (p ∈ d) then (ERR_CODE_IOEXCEPTION, d) else (0, {[p]} ∪ d);
  hdi_SerialClose p := λ d, (ERR_CODE_IOEXCEPTION, d);
  hdi_SerialRead p b n t := λ d, ((1, [65]), d);
  hdi_SerialWrite p b n t := λ d, (Z.of_nat (length b), d);
  hdi_SerialGetAttribute p a := λ d, ((0, mk_SerialAttribute 9600 8 0 1), d);
  hdi_SerialSetAttribute p a := λ d, (0, d);
  hdi_SerialGetPortList l := λ d, ((0, []), d);
  current_time := λ d, (1000, d);
}.
Example clean_up_loses_port :
  let s := after (FreeTokenId 1 10) (after (SerialOpen app_a 1) idle) in
  portTokenMap_ s = ∅ ∧ driver s = {[1]} ∧ result (SerialOpen app_a 1) s ≠ UEC_OK.
Proof. split_and!; [by apply (bool_decide_unpack _)|by apply (bool_decide_unpack _)|by vm_compute]. Qed.
End Lost.
