(* ===== verification/Service.v ===== *)
(** * The service: its state and who may call it

    [services/native/src/usb_service.cpp], the build with [USB_MANAGER_PASS_THROUGH]: the
    system ability that the clients talk to.  This file has the members of [UsbService],
    the identity of the caller, the rights of the applications, and the fault reports of
    [usb_report_sys_event.cpp]; the requests of the clients follow in [ServiceHost],
    [ServiceSerial] and [ServiceGadget].

    The host manager, with its serial manager and its right manager, is the component
    [HostDriver.st]; what the service asks of the right manager is the class
    [RightsService].  The identity of the caller belongs to the platform that the right
    manager sees ([CallingIdentity]): a request of another client is the same call in a
    state with another caller.  The pointers to the managers are set by the constructor
    and kept as [bool]s; a use that the code does not guard is the call itself. *)

From stdpp Require Import pretty sorting.
From S2P Require Import Prelude UsbErrors UsbTypes Interfaces HostDriver HostManager.
From S2P Require SerialManager RightManager RightDatabase.

#[local] Set Default Goal Selector "!".

(** [usb_service.cpp:61-83] the constants of the service *)
Definition COMMEVENT_REGISTER_RETRY_TIMES : Z := 10.
Definition SERVICE_STARTUP_MAX_TIME : nat := 30.
Definition UNLOAD_SA_TIMER_INTERVAL : Z := 30 * 1000.
Definition SERIALREAD_SIZE_MAX : Z := 64 * 1024.
Definition SERIALWRITE_SIZE_MAX : Z := 200 * 1024.
Definition ISO_TRANSFER_TYPE : Z := 1.
Definition BULK_TRANSFER_TYPE : Z := 2.
Definition INTP_TRANSFER_TYPE : Z := 3.
Definition MEMSIZE_MAX : Z := 512 * 1024 * 1024.
Definition ARGLIST_SIZE_MIN : nat := 2.
Definition USB_DEFAULT_TOKEN : string := "UsbServiceTokenId".
Definition API_VERSION_ID_18 : Z := 18.
Definition ROOT_UID : Z := 0.
Definition EDM_UID : Z := 3057.

(** ** What the service uses *)

(** [AccessToken::HapTokenInfo], the fields that are read. *)
Record HapTokenInfo := mk_HapTokenInfo { bundleName : string; userID : Z; apiVersion : Z }.

(** The caller of the request: [IPCSkeleton] and [AccessTokenKit]. *)
Class CallingIdentity (Rt : Type) := {
  GetCallingTokenID : Rt → Z;
  GetCallingUid : Rt → Z;
  (** the type of the calling token is [TOKEN_NATIVE] *)
  CallingTokenIsNative : Rt → bool;
  GetHapTokenInfo : Z → Rt → Z * HapTokenInfo;
}.

(** Asking whether the caller is part of the system changes nothing. *)
Class SystemQuery (Rt : Type) `{CallerRights Rt} :=
  caller_query rt : after rights_IsSystemAppOrSa rt = rt.

(** What the service asks of the right manager. *)
Class RightsService (Rt : Type) := {
  rs_VerifyPermission : ST Rt bool;
  rs_HasSetFuncRight : Z → ST Rt Z;
  (** device, bundle, token and user *)
  rs_HasRight : string → string → string → Z → ST Rt bool;
  rs_RequestRight : string → string → string → string → Z → ST Rt Z;
  rs_RequestRight_accessory : USBAccessory.t → string → string → string → Z → ST Rt (Z * bool);
  (** [None]: an exception leaves the function *)
  rs_RequestRight_serial : Z → RightManager.SerialDeviceIdentity → string → string → Z →
    ST Rt (option Z);
  rs_AddDeviceRight : string → string → string → Z → ST Rt bool;
  rs_AddDeviceRight_token : string → string → ST Rt bool;
  rs_RemoveDeviceRight : string → string → string → Z → ST Rt bool;
  rs_CancelDeviceRight : string → string → string → Z → ST Rt Z;
  rs_RemoveDeviceAllRight : string → ST Rt bool;
  rs_CleanUpRightExpired : list string → ST Rt Z;
  rs_Init : ST Rt Z;
}.

(** The rest of the platform. *)
Class ServicePlatform (P : Type) := {
  (** [IUsbHostInterface::Get] succeeds *)
  HostInterfaceExists : P → bool;
  (** [ISerialInterface::Get] succeeds *)
  SerialInterfaceExists : P → bool;
  (** [UsbRightDbHelper::GetInstance] is not null *)
  RightHelperExists : P → bool;
  (** the entries of [/sys/bus/usb-serial/devices], whether each is a directory, if the path exists *)
  TtyEntries : P → option (list bool);
  close_fd : Z → ST P unit;
  AddSerialDeathRecipient : Z → ST P bool;
  SamgrExists : P → bool;
  UnloadSystemAbility : ST P Z;
  SetCritical : bool → ST P unit;
  CommonEventServiceExists : ST P bool;
  (** [COMMON_EVENT_USB_PORT_CHANGED] with its data *)
  PublishPortChanged : string → ST P bool;
  usleep : Z → ST P unit;
  NotifyProcessStatus : ST P unit;
  WatchParameter : string → ST P Z;
  (** the listener's allocation, and the three calls that register the service *)
  StatusListenerExists : P → bool;
  SubscribeSystemAbility : ST P Z;
  AddSystemAbilityListener : Z → ST P unit;
  Publish : ST P bool;
  unload_timer_Setup : ST P Z;
  unload_timer_Shutdown : ST P unit;
  (** the settings of the system: [None] is a failed query *)
  DataShareReady : P → bool;
  settings_Query : string → P → option string;
  settings_Update : string → string → ST P bool;
}.

(** ** What the service reports *)
Record TransferFault := mk_TransferFault {
  tf_type : string; tf_vid : Z; tf_pid : Z; tf_class : Z; tf_subclass : Z; tf_protocol : Z;
  tf_intf : Z; tf_endpoint : Z; tf_reason : Z; tf_description : string }.

Inductive ServiceEvent :=
  | OperationFault (operationType : string) (failReason : Z) (failDescription : string)
  | TransferFaultEvent (fault : TransferFault)
  | SerialOperationEvent (operationType client : string) (vid pid : Z) (serialNum : string)
      (attribute : SerialManager.SerialAttribute).

(** [usb_service.h:237-248] [SerialDeathRecipient] the members *)
Record SerialDeathRecipient := mk_SerialDeathRecipient { portId_ : Z; tokenId_ : Z }.

(** The delayed task of [UnLoadSelf], the only one its timer has. *)
Inductive UnloadTask := UnloadSelfTask.

Section Service.
Context {E N D Rt G P : Type}.

(** [usb_service.h:285-319] [UsbService] the members, the components they reach and the reports *)
Record st := mk_st {
  host : HostDriver.st E N (SerialManager.st D) Rt;
  gadget : G;
  env : P;
  ready_ : bool;
  commEventRetryTimes_ : Z;
  usbHostManager_ : bool;
  usbDeviceManager_ : bool;
  usbAccessoryManager_ : bool;
  usbPortManager_ : bool;
  usbRightManager_ : bool;
  usbSerialManager_ : bool;
  deviceVidPidMap_ : gmap string string;
  serialVidPidMap_ : gmap Z (string * string);
  unloadSelfTimerId_ : Z;
  serialRecipients : list (Z * SerialDeathRecipient);
  events : list ServiceEvent;
}.

Definition set_host (v : HostDriver.st E N (SerialManager.st D) Rt) (s : st) : st :=
  mk_st v (gadget s) (env s) (ready_ s) (commEventRetryTimes_ s) (usbHostManager_ s) (usbDeviceManager_ s) (usbAccessoryManager_ s) (usbPortManager_ s) (usbRightManager_ s) (usbSerialManager_ s) (deviceVidPidMap_ s) (serialVidPidMap_ s) (unloadSelfTimerId_ s) (serialRecipients s) (events s).
Definition set_gadget (v : G) (s : st) : st :=
  mk_st (host s) v (env s) (ready_ s) (commEventRetryTimes_ s) (usbHostManager_ s) (usbDeviceManager_ s) (usbAccessoryManager_ s) (usbPortManager_ s) (usbRightManager_ s) (usbSerialManager_ s) (deviceVidPidMap_ s) (serialVidPidMap_ s) (unloadSelfTimerId_ s) (serialRecipients s) (events s).
Definition set_env (v : P) (s : st) : st :=
  mk_st (host s) (gadget s) v (ready_ s) (commEventRetryTimes_ s) (usbHostManager_ s) (usbDeviceManager_ s) (usbAccessoryManager_ s) (usbPortManager_ s) (usbRightManager_ s) (usbSerialManager_ s) (deviceVidPidMap_ s) (serialVidPidMap_ s) (unloadSelfTimerId_ s) (serialRecipients s) (events s).
Definition set_ready_ (v : bool) (s : st) : st :=
  mk_st (host s) (gadget s) (env s) v (commEventRetryTimes_ s) (usbHostManager_ s) (usbDeviceManager_ s) (usbAccessoryManager_ s) (usbPortManager_ s) (usbRightManager_ s) (usbSerialManager_ s) (deviceVidPidMap_ s) (serialVidPidMap_ s) (unloadSelfTimerId_ s) (serialRecipients s) (events s).
Definition set_commEventRetryTimes_ (v : Z) (s : st) : st :=
  mk_st (host s) (gadget s) (env s) (ready_ s) v (usbHostManager_ s) (usbDeviceManager_ s) (usbAccessoryManager_ s) (usbPortManager_ s) (usbRightManager_ s) (usbSerialManager_ s) (deviceVidPidMap_ s) (serialVidPidMap_ s) (unloadSelfTimerId_ s) (serialRecipients s) (events s).
Definition set_usbHostManager_ (v : bool) (s : st) : st :=
  mk_st (host s) (gadget s) (env s) (ready_ s) (commEventRetryTimes_ s) v (usbDeviceManager_ s) (usbAccessoryManager_ s) (usbPortManager_ s) (usbRightManager_ s) (usbSerialManager_ s) (deviceVidPidMap_ s) (serialVidPidMap_ s) (unloadSelfTimerId_ s) (serialRecipients s) (events s).
Definition set_usbDeviceManager_ (v : bool) (s : st) : st :=
  mk_st (host s) (gadget s) (env s) (ready_ s) (commEventRetryTimes_ s) (usbHostManager_ s) v (usbAccessoryManager_ s) (usbPortManager_ s) (usbRightManager_ s) (usbSerialManager_ s) (deviceVidPidMap_ s) (serialVidPidMap_ s) (unloadSelfTimerId_ s) (serialRecipients s) (events s).
Definition set_usbAccessoryManager_ (v : bool) (s : st) : st :=
  mk_st (host s) (gadget s) (env s) (ready_ s) (commEventRetryTimes_ s) (usbHostManager_ s) (usbDeviceManager_ s) v (usbPortManager_ s) (usbRightManager_ s) (usbSerialManager_ s) (deviceVidPidMap_ s) (serialVidPidMap_ s) (unloadSelfTimerId_ s) (serialRecipients s) (events s).
Definition set_usbPortManager_ (v : bool) (s : st) : st :=
  mk_st (host s) (gadget s) (env s) (ready_ s) (commEventRetryTimes_ s) (usbHostManager_ s) (usbDeviceManager_ s) (usbAccessoryManager_ s) v (usbRightManager_ s) (usbSerialManager_ s) (deviceVidPidMap_ s) (serialVidPidMap_ s) (unloadSelfTimerId_ s) (serialRecipients s) (events s).
Definition set_usbRightManager_ (v : bool) (s : st) : st :=
  mk_st (host s) (gadget s) (env s) (ready_ s) (commEventRetryTimes_ s) (usbHostManager_ s) (usbDeviceManager_ s) (usbAccessoryManager_ s) (usbPortManager_ s) v (usbSerialManager_ s) (deviceVidPidMap_ s) (serialVidPidMap_ s) (unloadSelfTimerId_ s) (serialRecipients s) (events s).
Definition set_usbSerialManager_ (v : bool) (s : st) : st :=
  mk_st (host s) (gadget s) (env s) (ready_ s) (commEventRetryTimes_ s) (usbHostManager_ s) (usbDeviceManager_ s) (usbAccessoryManager_ s) (usbPortManager_ s) (usbRightManager_ s) v (deviceVidPidMap_ s) (serialVidPidMap_ s) (unloadSelfTimerId_ s) (serialRecipients s) (events s).
Definition set_deviceVidPidMap_ (v : gmap string string) (s : st) : st :=
  mk_st (host s) (gadget s) (env s) (ready_ s) (commEventRetryTimes_ s) (usbHostManager_ s) (usbDeviceManager_ s) (usbAccessoryManager_ s) (usbPortManager_ s) (usbRightManager_ s) (usbSerialManager_ s) v (serialVidPidMap_ s) (unloadSelfTimerId_ s) (serialRecipients s) (events s).
Definition set_serialVidPidMap_ (v : gmap Z (string * string)) (s : st) : st :=
  mk_st (host s) (gadget s) (env s) (ready_ s) (commEventRetryTimes_ s) (usbHostManager_ s) (usbDeviceManager_ s) (usbAccessoryManager_ s) (usbPortManager_ s) (usbRightManager_ s) (usbSerialManager_ s) (deviceVidPidMap_ s) v (unloadSelfTimerId_ s) (serialRecipients s) (events s).
Definition set_unloadSelfTimerId_ (v : Z) (s : st) : st :=
  mk_st (host s) (gadget s) (env s) (ready_ s) (commEventRetryTimes_ s) (usbHostManager_ s) (usbDeviceManager_ s) (usbAccessoryManager_ s) (usbPortManager_ s) (usbRightManager_ s) (usbSerialManager_ s) (deviceVidPidMap_ s) (serialVidPidMap_ s) v (serialRecipients s) (events s).
Definition set_serialRecipients (v : list (Z * SerialDeathRecipient)) (s : st) : st :=
  mk_st (host s) (gadget s) (env s) (ready_ s) (commEventRetryTimes_ s) (usbHostManager_ s) (usbDeviceManager_ s) (usbAccessoryManager_ s) (usbPortManager_ s) (usbRightManager_ s) (usbSerialManager_ s) (deviceVidPidMap_ s) (serialVidPidMap_ s) (unloadSelfTimerId_ s) v (events s).
Definition set_events (v : list ServiceEvent) (s : st) : st :=
  mk_st (host s) (gadget s) (env s) (ready_ s) (commEventRetryTimes_ s) (usbHostManager_ s) (usbDeviceManager_ s) (usbAccessoryManager_ s) (usbPortManager_ s) (usbRightManager_ s) (usbSerialManager_ s) (deviceVidPidMap_ s) (serialVidPidMap_ s) (unloadSelfTimerId_ s) (serialRecipients s) v.

Definition on_host {A} (m : ST (HostDriver.st E N (SerialManager.st D) Rt) A) : ST st A :=
  λ s, let '(a, h) := m (host s) in (a, set_host h s).
Definition on_env {A} (m : ST P A) : ST st A := λ s, let '(a, p) := m (env s) in (a, set_env p s).
Definition on_gadget {A} (m : ST G A) : ST st A :=
  λ s, let '(a, g) := m (gadget s) in (a, set_gadget g s).
(** The serial manager and the right manager are reached through the host manager's state. *)
Definition on_serial {A} (m : ST (SerialManager.st D) A) : ST st A := on_host (HostDriver.on_serial m).
Definition on_rights {A} (m : ST Rt A) : ST st A := on_host (HostDriver.on_rights m).
Definition ask_caller {A} (f : Rt → A) : ST st A := gets (λ s, f (HostDriver.rights (host s))).
Definition ask_env {A} (f : P → A) : ST st A := gets (λ s, f (env s)).
Definition report (e : ServiceEvent) : ST st unit := modify (λ s, set_events (events s ++ [e]) s).

(** [std::to_string] *)
Definition to_string (z : Z) : string := pretty z.

Context `{EB : ErrBase} `{CI : CallingIdentity Rt} `{CR : CallerRights Rt} `{RS : RightsService Rt}.
Context `{PL : ServicePlatform P}.

(** ** Reports *)

(** [usb_service.cpp:3260-3268] [UsbService::ReportUsbOperationFaultSysEvent] *)
Definition ReportUsbOperationFaultSysEvent (operationType : string) (failReason : Z)
    (failDescription : string) : ST st unit :=
  report (OperationFault operationType failReason failDescription).

(** [usb_service.cpp:3272-3280] [UsbService::ReportUsbSerialOperationFaultSysEvent] the port is not reported *)
Definition ReportUsbSerialOperationFaultSysEvent (portId : Z) (operationType : string)
    (failReason : Z) (failDescription : string) : ST st unit :=
  report (OperationFault operationType failReason failDescription).

(** [usb_report_sys_event.cpp:94-115] [UsbReportSysEvent::GetUsbInterfaceId] [None] is [false] *)
Definition GetUsbInterfaceId (usbDev : UsbDevice.t) (tmpPipe : UsbPipe) (interfaceId : Z)
    : option UsbInterface.t :=
  if (intfId tmpPipe =? 0) && (endpointId tmpPipe =? 0) then
    Some (UsbInterface.SetProtocol (UsbDevice.GetProtocol usbDev)
            (UsbInterface.SetSubClass (UsbDevice.GetSubclass usbDev)
               (UsbInterface.SetClass (UsbDevice.GetClass usbDev) UsbInterface.default)))
  else
    snd <$> list_find (λ i, UsbInterface.GetId i = interfaceId)
              (concat (map USBConfig.GetInterfaces (UsbDevice.GetConfigs usbDev))).

(** [usb_report_sys_event.cpp:37-61] [UsbReportSysEvent::ReportTransferFaultSysEvent] *)
Definition ReportTransferFaultSysEvent (transferType : string) (usbDev : UsbDevice.t)
    (tmpPipe : UsbPipe) (ret : Z) (description : string) : ST st unit :=
  match GetUsbInterfaceId usbDev tmpPipe (intfId tmpPipe) with
  | None => mret tt
  | Some itIF =>
      report (TransferFaultEvent (mk_TransferFault transferType
        (UsbDevice.GetVendorId usbDev) (UsbDevice.GetProductId usbDev)
        (UsbInterface.GetClass itIF) (UsbInterface.GetSubClass itIF)
        (UsbInterface.GetProtocol itIF) (intfId tmpPipe) (endpointId tmpPipe) ret description))
  end.

(** [usb_report_sys_event.cpp:34-34] [ERR_CODE_TIMEOUT] *)
Definition ERR_CODE_TIMEOUT : Z := -7.

(** [usb_report_sys_event.cpp:63-92] [UsbReportSysEvent::CheckAttributeReportTransferFaultSysEvent] a time-out on an interrupt endpoint is no fault *)
Definition CheckAttributeReportTransferFaultSysEvent (transferType : string) (usbDev : UsbDevice.t)
    (tmpPipe : UsbPipe) (ep : USBEndpoint.t) (ret : Z) (description : string) : ST st unit :=
  if (USBEndpoint.GetAttributes ep =? 3) && (ret =? ERR_CODE_TIMEOUT) then mret tt
  else
    match GetUsbInterfaceId usbDev tmpPipe (intfId tmpPipe) with
    | None => mret tt
    | Some itIF =>
        report (TransferFaultEvent (mk_TransferFault transferType
          (UsbDevice.GetVendorId usbDev) (UsbDevice.GetProductId usbDev)
          (UsbInterface.GetClass itIF) (UsbInterface.GetSubClass itIF)
          (UsbInterface.GetProtocol itIF) (intfId tmpPipe) (endpointId tmpPipe) ret description))
    end.

(** ** Who calls *)

(** [usb_service.cpp:2258-2273] [UsbService::GetCallingInfo] the bundle, the token and the user; [None] is [false] *)
Definition GetCallingInfo : ST st (option (string * string * Z)) :=
  token ← ask_caller GetCallingTokenID;
  r ← ask_caller (GetHapTokenInfo token);
  let '(ret, hapTokenInfoRes) := r in
  mret (if negb (ret =? ERR_OK) then None
        else Some (bundleName hapTokenInfoRes, to_string (u32 token), userID hapTokenInfoRes)).

(** [usb_service.cpp:1648-1660] [UsbService::GetBundleInfo] the token and the user; [None] is [false] *)
Definition GetBundleInfo : ST st (option (string * Z)) :=
  token ← ask_caller GetCallingTokenID;
  r ← ask_caller (GetHapTokenInfo token);
  let '(ret, hapTokenInfoRes) := r in
  mret (if negb (ret =? ERR_OK) then None else Some (USB_DEFAULT_TOKEN, userID hapTokenInfoRes)).

(** [usb_service.cpp:2297-2310] [UsbService::GetHapApiVersion] *)
Definition GetHapApiVersion : ST st Z :=
  token ← ask_caller GetCallingTokenID;
  r ← ask_caller (GetHapTokenInfo token);
  let '(ret, hapTokenInfoRes) := r in
  mret (if negb (ret =? ERR_OK) then API_VERSION_ID_18 else apiVersion hapTokenInfoRes).

(** [UsbRightManager::IsSystemAppOrSa] *)
Definition IsSystemAppOrSa : ST st bool := on_rights rights_IsSystemAppOrSa.

(** [usb_service.cpp:2277-2294] [UsbService::CheckSysApiPermission] *)
Definition CheckSysApiPermission : ST st Z :=
  sys ← IsSystemAppOrSa;
  if negb sys then mret UEC_SERVICE_PERMISSION_DENIED_SYSAPI
  else
    verified ← on_rights rs_VerifyPermission;
    if negb verified then
      apiVersion ← GetHapApiVersion;
      mret (if apiVersion <? API_VERSION_ID_18 then UEC_SERVICE_PERMISSION_DENIED_SYSAPI
            else UEC_SERVICE_PERMISSION_DENIED_SYSAPI_FAILED)
    else mret UEC_OK.

(** [usb_service.cpp:2653-2662] [UsbService::IsCallerValid] *)
Definition IsCallerValid : ST st bool :=
  native ← ask_caller CallingTokenIsNative;
  if (native : bool) then
    callerUid ← ask_caller GetCallingUid;
    mret ((callerUid =? ROOT_UID) || (callerUid =? EDM_UID))
  else mret false.

(** [usb_service.cpp:1709-1746] [UsbService::PreCallFunction] *)
Definition PreCallFunction : ST st Z :=
  hostInterface ← ask_env HostInterfaceExists;
  if negb hostInterface then mret UEC_SERVICE_INVALID_VALUE
  else
    right ← gets usbRightManager_;
    if negb right then mret UEC_SERVICE_INVALID_VALUE
    else
      ret ← CheckSysApiPermission;
      if negb (ret =? UEC_OK) then mret ret
      else
        b ← gets usbHostManager_;
        mret (if negb b then UEC_SERVICE_INVALID_VALUE else UEC_OK).

(** ** The identity of a device

    [deviceVidPidMap_] keeps, under the name of each attached device, the vendor, the
    product and the serial number that its rights are granted for. *)

(** [usb_service.cpp:1678-1690] [UsbService::GetDeviceVidPidSerialNumber] *)
Definition GetDeviceVidPidSerialNumber (deviceName : string) : ST st string :=
  gets (λ s, default "test"%string (deviceVidPidMap_ s !! deviceName)).

(** [usb_service.cpp:1693-1706] [UsbService::GetDeviceVidPidSerialNumber] the code, and the out-parameter when it is set *)
Definition FindDeviceVidPidSerialNumber (deviceName : string) : ST st (Z * option string) :=
  gets (λ s, match deviceVidPidMap_ s !! deviceName with
             | Some strDesc => (UEC_OK, Some strDesc)
             | None => (UEC_INTERFACE_INVALID_VALUE, None)
             end).

(** [usb_service.cpp:3183-3198] [UsbService::GetDeviceVidPidSerialNumber] of a serial port: the device and its identity *)
Definition FindSerialVidPidSerialNumber (portId : Z) : ST st (Z * option (string * string)) :=
  gets (λ s, match serialVidPidMap_ s !! portId with
             | Some identity => (UEC_OK, Some identity)
             | None => (UEC_INTERFACE_INVALID_VALUE, None)
             end).

(** The identity is found, or the request ends with [fail] of the code. *)
Definition with_identity {A} (deviceName : string) (fail : Z → A) (k : string → ST st A) : ST st A :=
  r ← FindDeviceVidPidSerialNumber deviceName;
  match r with
  | (_, Some strDesc) => k strDesc
  | (ret, None) => mret (fail ret)
  end.

(** ** The rights of the applications *)

(** [usb_service.cpp:1478-1513] [UsbService::HasRight] *)
Definition HasRight (deviceName : string) : ST st bool :=
  right ← gets usbRightManager_;
  if negb right then mret false
  else
    with_identity deviceName (λ _, false) (λ deviceVidPidSerialNum,
      sys ← IsSystemAppOrSa;
      if (sys : bool) then mret true
      else
        info ← GetCallingInfo;
        match info with
        | None => mret false
        | Some (bundleName, tokenId, userId) =>
            has ← on_rights (rs_HasRight deviceVidPidSerialNum bundleName tokenId userId);
            if (has : bool) then mret true
            else on_rights (rs_HasRight deviceVidPidSerialNum bundleName USB_DEFAULT_TOKEN userId)
        end).

(** [usb_service.cpp:1471-1475] [UsbService::HasRight] the code and the out-parameter *)
Definition HasRight_out (deviceName : string) : ST st (Z * bool) :=
  hasRight ← HasRight deviceName;
  mret (UEC_OK, hasRight).

(** The name of a device: [to_string(busNum) + "-" + to_string(devAddr)]. *)

(** [usb_service.cpp:1460-1468] [UsbService::CheckDevicePermission] *)
Definition CheckDevicePermission (busNum devAddr : Z) : ST st bool :=
  has ← HasRight (dev_name busNum devAddr);
  mret (if negb has then false else true).

(** [usb_service.cpp:1515-1544] [UsbService::RequestRight] [return false] is the code 0 *)
Definition RequestRight (deviceName : string) : ST st Z :=
  right ← gets usbRightManager_;
  if negb right then mret UEC_SERVICE_INNER_ERR
  else
    with_identity deviceName id (λ deviceVidPidSerialNum,
      sys ← IsSystemAppOrSa;
      if (sys : bool) then mret UEC_OK
      else
        info ← GetCallingInfo;
        match info with
        | None => mret 0
        | Some (bundleName, tokenId, userId) =>
            on_rights (rs_RequestRight deviceName deviceVidPidSerialNum bundleName tokenId userId)
        end).

(** [usb_service.cpp:1546-1583] [UsbService::RemoveRight] [return false] is the code 0 *)
Definition RemoveRight (deviceName : string) : ST st Z :=
  right ← gets usbRightManager_;
  if negb right then mret UEC_SERVICE_INVALID_VALUE
  else
    with_identity deviceName id (λ deviceVidPidSerialNum,
      sys ← IsSystemAppOrSa;
      if (sys : bool) then mret UEC_OK
      else
        info ← GetCallingInfo;
        match info with
        | None => mret 0
        | Some (bundleName, tokenId, userId) =>
            removed ← on_rights (rs_RemoveDeviceRight deviceVidPidSerialNum bundleName tokenId userId);
            if (removed : bool) then mret UEC_OK
            else
              removed ← on_rights
                (rs_RemoveDeviceRight deviceVidPidSerialNum bundleName USB_DEFAULT_TOKEN userId);
              mret (if negb removed then UEC_SERVICE_INNER_ERR else UEC_OK)
        end).

(** [usb_service.cpp:1585-1617] [UsbService::AddRight] *)
Definition AddRight (bundleName deviceName : string) : ST st Z :=
  right ← gets usbRightManager_;
  if negb right then mret UEC_SERVICE_INVALID_VALUE
  else
    ret ← CheckSysApiPermission;
    if negb (ret =? UEC_OK) then mret ret
    else
      with_identity deviceName id (λ deviceVidPidSerialNum,
        info ← GetBundleInfo;
        match info with
        | None => mret UEC_SERVICE_INVALID_VALUE
        | Some (tokenId, userId) =>
            added ← on_rights (rs_AddDeviceRight deviceVidPidSerialNum bundleName tokenId userId);
            mret (if negb added then UEC_SERVICE_INNER_ERR else UEC_OK)
        end).

(** [usb_service.cpp:1620-1644] [UsbService::AddAccessRight] *)
Definition AddAccessRight (tokenId deviceName : string) : ST st Z :=
  right ← gets usbRightManager_;
  if negb right then mret UEC_SERVICE_INVALID_VALUE
  else
    ret ← CheckSysApiPermission;
    if negb (ret =? UEC_OK) then mret ret
    else
      with_identity deviceName id (λ deviceVidPidSerialNum,
        added ← on_rights (rs_AddDeviceRight_token deviceVidPidSerialNum tokenId);
        mret (if negb added then UEC_SERVICE_INNER_ERR else UEC_OK)).

(** [usb_service.cpp:2314-2336] [UsbService::InitUsbRight] *)
Definition InitUsbRight : ST st Z :=
  right ← gets usbRightManager_;
  if negb right then mret UEC_SERVICE_INVALID_VALUE
  else
    ret ← on_rights rs_Init;
    if negb (ret =? UEC_OK) then mret ret
    else
      m ← gets deviceVidPidMap_;
      on_rights (rs_CleanUpRightExpired (omap (λ name, m !! name) (keys_in_order m))).

(** ** Running a call of a component *)
Lemma on_host_run {A} (m : ST (HostDriver.st E N (SerialManager.st D) Rt) A) (s : st) :
  on_host m s = (result m (host s), set_host (after m (host s)) s).
Proof. unfold on_host, result, after. by destruct (m (host s)). Qed.
Lemma after_on_host {A} (m : ST (HostDriver.st E N (SerialManager.st D) Rt) A) (s : st) :
  after (on_host m) s = set_host (after m (host s)) s.
Proof. unfold after at 1. by rewrite on_host_run. Qed.
Lemma on_env_run {A} (m : ST P A) (s : st) : on_env m s = (result m (env s), set_env (after m (env s)) s).
Proof. unfold on_env, result, after. by destruct (m (env s)). Qed.
Lemma on_gadget_run {A} (m : ST G A) (s : st) :
  on_gadget m s = (result m (gadget s), set_gadget (after m (gadget s)) s).
Proof. unfold on_gadget, result, after. by destruct (m (gadget s)). Qed.

(** The right manager of a state, and the state with another one. *)
Definition the_rights (s : st) : Rt := HostDriver.rights (host s).
Definition with_rights (rt : Rt) (s : st) : st := set_host (HostDriver.set_rights rt (host s)) s.
Definition the_serial (s : st) : SerialManager.st D := HostDriver.serial (host s).
Definition with_serial (d : SerialManager.st D) (s : st) : st :=
  set_host (HostDriver.set_serial d (host s)) s.

Lemma service_rights_run {A} (m : ST Rt A) (s : st) :
  on_rights m s = (result m (the_rights s), with_rights (after m (the_rights s)) s).
Proof.
  unfold on_rights. rewrite on_host_run. unfold result, after. by rewrite HostDriver.on_rights_run.
Qed.
Lemma service_serial_run {A} (m : ST (SerialManager.st D) A) (s : st) :
  on_serial m s = (result m (the_serial s), with_serial (after m (the_serial s)) s).
Proof.
  unfold on_serial. rewrite on_host_run. unfold result, after. by rewrite HostDriver.on_serial_run.
Qed.
Lemma with_rights_same (s : st) : with_rights (the_rights s) s = s.
Proof. by destruct s as [[]]. Qed.
Lemma with_serial_same (s : st) : with_serial (the_serial s) s = s.
Proof. by destruct s as [[]]. Qed.

(** The caller of a right manager's state: bundle, token and user. *)
Definition calling_info (rt : Rt) : option (string * string * Z) :=
  let '(ret, info) := GetHapTokenInfo (GetCallingTokenID rt) rt in
  if negb (ret =? ERR_OK) then None
  else Some (bundleName info, to_string (u32 (GetCallingTokenID rt)), userID info).

Lemma GetCallingInfo_run (s : st) : GetCallingInfo s = (calling_info (the_rights s), s).
Proof.
  unfold GetCallingInfo, ask_caller, calling_info, the_rights. st_exec.
  by destruct (GetHapTokenInfo _ _).
Qed.
End Service.
Arguments st : clear implicits.
