(* ===== verification/ServiceHost.v ===== *)
(** * The service: the requests to devices

    The host part of [services/native/src/usb_service.cpp]: the table of identities that
    follows the attached devices, and the requests of the clients to a device, each behind
    the right of its caller.  A request passes its out-parameters back with the code. *)

From stdpp Require Import pretty sorting.
From S2P Require Import Prelude UsbErrors UsbTypes DescriptorParser Interfaces Marshalling Json.
From S2P Require Import HostDriver HostEvents HostPolicy HostManager Service.
From S2P Require SerialManager.

#[local] Set Default Goal Selector "!".

(** [HDF_DEV_ERR_OP] of the driver framework. *)
Class HdfDevErr := HDF_DEV_ERR_OP : Z.

(** The structures of [interfaces/innerkits/UsbServerTypes.idl]. *)
Record UsbCtlSetUp := mk_UsbCtlSetUp {
  cs_reqType : Z; cs_reqCmd : Z; cs_value : Z; cs_index : Z; cs_length : Z; cs_timeout : Z }.
Record UsbTransInfo := mk_UsbTransInfo {
  ti_endpoint : Z; ti_flags : Z; ti_type : Z; ti_timeOut : Z; ti_length : Z; ti_userData : Z;
  ti_numIsoPackets : Z }.
Record UsbDeviceTypeInfo := mk_UsbDeviceTypeInfo {
  dt_baseClass : Z; dt_subClass : Z; dt_protocol : Z; dt_isDeviceType : bool }.
Record UsbDeviceIdInfo := mk_UsbDeviceIdInfo { di_productId : Z; di_vendorId : Z }.

(** ** Conversions *)

(** [usb_service.cpp:663-673] [UsbService::UsbDeviceIdChange] *)
Definition UsbDeviceIdChange (deviceIdInfoList : list UsbDeviceIdInfo) (deviceIdList : list UsbDeviceId)
    : list UsbDeviceId :=
  deviceIdList ++ map (λ d, mk_UsbDeviceId (di_productId d) (di_vendorId d)) deviceIdInfoList.

(** [usb_service.cpp:1663-1675] [UsbService::UsbDeviceTypeChange] *)
Definition UsbDeviceTypeChange (disableType : list UsbDeviceType) (deviceTypes : list UsbDeviceTypeInfo)
    : list UsbDeviceType :=
  disableType ++ map (λ d, mk_UsbDeviceType (dt_baseClass d) (dt_subClass d) (dt_protocol d)
                             (dt_isDeviceType d)) deviceTypes.

(** [usb_service.cpp:1105-1113] [UsbService::UsbCtrlTransferChange] *)
Definition UsbCtrlTransferChange (ctlSetup : UsbCtlSetUp) : UsbCtrlTransfer :=
  mk_UsbCtrlTransfer (cs_reqType ctlSetup) (cs_reqCmd ctlSetup) (cs_value ctlSetup)
    (cs_index ctlSetup) (cs_timeout ctlSetup).

(** [usb_service.cpp:1117-1126] [UsbService::UsbCtrlTransferChange] *)
Definition UsbCtrlTransferChange_params (ctlSetup : UsbCtlSetUp) : UsbCtrlTransferParams :=
  mk_UsbCtrlTransferParams (cs_reqType ctlSetup) (cs_reqCmd ctlSetup) (cs_value ctlSetup)
    (cs_index ctlSetup) (cs_length ctlSetup) (cs_timeout ctlSetup).

(** [usb_service.cpp:1263-1273] [UsbService::UsbTransInfoChange] *)
Definition UsbTransInfoChange (param : UsbTransInfo) : USBTransferInfo :=
  mk_USBTransferInfo (ti_endpoint param)
    [ti_flags param; ti_type param; ti_timeOut param; ti_length param; ti_userData param;
     ti_numIsoPackets param].

(** [usb_service.cpp:1276-1289] [UsbService::GetTransferTypeString] *)
Definition GetTransferTypeString (transInfo : UsbTransInfo) (ep : USBEndpoint.t) : string :=
  let transType :=
    if ti_type transInfo =? ISO_TRANSFER_TYPE then "IsochronousTransfer"%string
    else if ti_type transInfo =? BULK_TRANSFER_TYPE then "BulkTransfer"%string
    else if ti_type transInfo =? INTP_TRANSFER_TYPE then "InterruptTransfer"%string
    else "Unknown"%string in
  if USBEndpoint.GetDirection ep =? USB_ENDPOINT_DIR_IN then (transType +:+ "Read")%string
  else if USBEndpoint.GetDirection ep =? USB_ENDPOINT_DIR_OUT then (transType +:+ "Write")%string
  else transType.

(** [UsbPipe pipe = {ep.GetInterfaceId(), ep.GetAddress()}], two [uint8_t]s. *)
Definition pipe_of (ep : USBEndpoint.t) : UsbPipe :=
  mk_UsbPipe (u8 (USBEndpoint.GetInterfaceId ep)) (u8 (USBEndpoint.GetAddress ep)).

(** The text that identifies a device: vendor, product and serial number. *)
Definition unique_name (dev : UsbDevice.t) : string :=
  (to_string (UsbDevice.GetVendorId dev) +:+ "-" +:+ to_string (UsbDevice.GetProductId dev) +:+ "-"
   +:+ UsbDevice.GetmSerial dev)%string.

Section ServiceHost.
Context {E N D Rt G P Rp : Type} `{EB : ErrBase} `{HD : HostHdi E} `{SY : HostSystem E Rp}.
Context `{RY : Reply Rp} `{SP : SystemParams E} `{NO : NotifierOps N} `{CJ : CJson} `{HO : HashOrder}.
Context `{SH : SerialManager.SerialHdi D} `{CS : CharSign} `{HE : HdfDevErr}.
Context `{CI : CallingIdentity Rt} `{CR : CallerRights Rt} `{RS : RightsService Rt}.
Context `{PL : ServicePlatform P}.
#[local] Existing Instance SerialManager.serial_ports.
Abbreviation st := (Service.st E N D Rt G P).

(** A request behind the right of its caller: [denied] is what a refusal reports, [reply]
    makes the answer of a code. *)
Definition device_request {A} (busNum devAddr : Z) (reply : Z → A) (denied : ST st unit)
    (m : ST st A) : ST st A :=
  ok ← CheckDevicePermission busNum devAddr;
  if negb ok then denied ;; mret (reply UEC_SERVICE_PERMISSION_DENIED)
  else
    b ← gets usbHostManager_;
    if negb b then mret (reply UEC_SERVICE_INVALID_VALUE) else m.

(** The report of a fault of a device that is attached. *)
Definition report_target (busNum devAddr : Z) (f : UsbDevice.t → ST st unit) : ST st unit :=
  d ← on_host (HostManager.GetTargetDevice busNum devAddr);
  match d with Some usbDev => f usbDev | None => mret tt end.

(** A transfer: [code] is the code of an answer, [fault] reports a failed one. *)
Definition transfer {A} (busNum devAddr : Z) (reply : Z → A) (code : A → Z) (type : string)
    (pipe : UsbPipe) (m : ST st A) (fault : UsbDevice.t → Z → ST st unit) : ST st A :=
  b ← gets usbHostManager_;
  if negb b then mret (reply UEC_SERVICE_INVALID_VALUE)
  else
    ok ← CheckDevicePermission busNum devAddr;
    if negb ok then
      report_target busNum devAddr (λ usbDev,
        ReportTransferFaultSysEvent type usbDev pipe UEC_SERVICE_PERMISSION_DENIED
          "CheckDevicePermission failed") ;;
      mret (reply UEC_SERVICE_PERMISSION_DENIED)
    else
      r ← m;
      mwhen (negb (code r =? UEC_OK))
        (report_target busNum devAddr (λ usbDev, fault usbDev (code r))) ;;
      mret r.

(** ** The requests that answer with a code *)

(** [usb_service.cpp:503-522] [UsbService::OpenDevice] *)
Definition OpenDevice (busNum devAddr : Z) : ST st Z :=
  device_request busNum devAddr id
    (ReportUsbOperationFaultSysEvent "OpenDevice" UEC_SERVICE_PERMISSION_DENIED
       "CheckDevicePermission failed")
    (on_host (HostDriver.OpenDevice busNum devAddr)).

(** [usb_service.cpp:524-537] [UsbService::Close] *)
Definition Close (busNum devAddr : Z) : ST st Z :=
  device_request busNum devAddr id (mret tt) (on_host (HostDriver.Close busNum devAddr)).

(** [usb_service.cpp:540-565] [UsbService::ResetDevice] *)
Definition ResetDevice (busNum devAddr : Z) : ST st Z :=
  m ← gets deviceVidPidMap_;
  if negb (opt_is_some (m !! dev_name busNum devAddr)) then mret UEC_INTERFACE_NAME_NOT_FOUND
  else
    device_request busNum devAddr id
      (ReportUsbOperationFaultSysEvent "ResetDevice" UEC_SERVICE_PERMISSION_DENIED
         "CheckDevicePermission failed")
      (on_host (HostDriver.ResetDevice busNum devAddr)).

(** [usb_service.cpp:568-585] [UsbService::ClaimInterface] *)
Definition ClaimInterface (busNum devAddr interface force : Z) : ST st Z :=
  device_request busNum devAddr id (mret tt)
    (on_host (HostDriver.ClaimInterface busNum devAddr interface force)).

(** [usb_service.cpp:587-600] [UsbService::SetInterface] *)
Definition SetInterface (busNum devAddr interfaceid altIndex : Z) : ST st Z :=
  device_request busNum devAddr id (mret tt)
    (on_host (HostDriver.SetInterface busNum devAddr interfaceid altIndex)).

(** [usb_service.cpp:602-620] [UsbService::ReleaseInterface] *)
Definition ReleaseInterface (busNum devAddr interface : Z) : ST st Z :=
  device_request busNum devAddr id (mret tt)
    (ret ← on_host (HostDriver.ReleaseInterface busNum devAddr interface);
     mret (if ret =? HDF_DEV_ERR_OP then UEC_INTERFACE_INVALID_OPERATION else ret)).

(** [usb_service.cpp:622-635] [UsbService::SetActiveConfig] *)
Definition SetActiveConfig (busNum devAddr configIndex : Z) : ST st Z :=
  device_request busNum devAddr id (mret tt)
    (on_host (HostDriver.SetActiveConfig busNum devAddr configIndex)).

(** [usb_service.cpp:714-730] [UsbService::UsbAttachKernelDriver] *)
Definition UsbAttachKernelDriver (busNum devAddr interface : Z) : ST st Z :=
  device_request busNum devAddr id (mret tt)
    (on_host (HostDriver.UsbAttachKernelDriver busNum devAddr interface)).

(** [usb_service.cpp:734-750] [UsbService::UsbDetachKernelDriver] *)
Definition UsbDetachKernelDriver (busNum devAddr interface : Z) : ST st Z :=
  device_request busNum devAddr id (mret tt)
    (on_host (HostDriver.UsbDetachKernelDriver busNum devAddr interface)).

(** [usb_service.cpp:754-769] [UsbService::ClearHalt] *)
Definition ClearHalt (busNum devAddr interfaceId endpointId : Z) : ST st Z :=
  device_request busNum devAddr id (mret tt)
    (on_host (HostDriver.ClearHalt busNum devAddr interfaceId endpointId)).

(** [usb_service.cpp:1162-1182] [UsbService::RequestQueue] *)
Definition RequestQueue (busNum devAddr : Z) (ep : USBEndpoint.t) (clientData bufferData : list Z)
    : ST st Z :=
  device_request busNum devAddr id (mret tt)
    (on_host (HostDriver.RequestQueue (mk_UsbDev busNum devAddr) (pipe_of ep) clientData bufferData)).

(** [usb_service.cpp:1205-1218] [UsbService::RequestCancel] *)
Definition RequestCancel (busNum devAddr interfaceId endpointId : Z) : ST st Z :=
  device_request busNum devAddr id (mret tt)
    (on_host (HostDriver.RequestCancel busNum devAddr interfaceId endpointId)).

(** [usb_service.cpp:1243-1259] [UsbService::UsbCancelTransfer] *)
Definition UsbCancelTransfer (busNum devAddr endpoint : Z) : ST st Z :=
  device_request busNum devAddr id (mret tt)
    (on_host (HostDriver.UsbCancelTransfer (mk_UsbDev busNum devAddr) endpoint)).

(** [usb_service.cpp:1221-1239] [UsbService::RegBulkCallback] *)
Definition RegBulkCallback (busNum devAddr : Z) (ep : USBEndpoint.t) (cb : option Z) : ST st Z :=
  device_request busNum devAddr id (mret tt)
    (on_host (HostDriver.RegBulkCallback (mk_UsbDev busNum devAddr) (pipe_of ep) cb)).

(** [usb_service.cpp:1344-1363] [UsbService::UnRegBulkCallback] *)
Definition UnRegBulkCallback (busNum devAddr : Z) (ep : USBEndpoint.t) : ST st Z :=
  device_request busNum devAddr id (mret tt)
    (on_host (HostDriver.UnRegBulkCallback (mk_UsbDev busNum devAddr) (pipe_of ep))).

(** [usb_service.cpp:1439-1458] [UsbService::BulkCancel] *)
Definition BulkCancel (busNum devAddr : Z) (ep : USBEndpoint.t) : ST st Z :=
  device_request busNum devAddr id (mret tt)
    (on_host (HostDriver.BulkCancel (mk_UsbDev busNum devAddr) (pipe_of ep))).

(** ** The requests that read *)

(** [usb_service.cpp:882-892] [UsbService::GetActiveConfig] *)
Definition GetActiveConfig (busNum devAddr configIndex : Z) : ST st (Z * Z) :=
  device_request busNum devAddr (λ ret, (ret, configIndex)) (mret tt)
    (on_host (HostDriver.GetActiveConfig busNum devAddr configIndex)).

(** [usb_service.cpp:895-914] [UsbService::GetRawDescriptor] *)
Definition GetRawDescriptor (busNum devAddr : Z) (bufferData : list Z) : ST st (Z * list Z) :=
  device_request busNum devAddr (λ ret, (ret, bufferData))
    (ReportUsbOperationFaultSysEvent "GetRawDescriptor" UEC_SERVICE_PERMISSION_DENIED
       "CheckDevicePermission failed")
    (on_host (HostDriver.GetRawDescriptor busNum devAddr bufferData)).

(** [usb_service.cpp:916-933] [UsbService::GetFileDescriptor] *)
Definition GetFileDescriptor (busNum devAddr fd : Z) : ST st (Z * Z) :=
  device_request busNum devAddr (λ ret, (ret, fd)) (mret tt)
    (on_host (HostDriver.GetFileDescriptor busNum devAddr fd)).

(** [usb_service.cpp:1185-1202] [UsbService::RequestWait] *)
Definition RequestWait (busNum devAddr timeOut : Z) (data : list Z * list Z)
    : ST st (Z * (list Z * list Z)) :=
  device_request busNum devAddr (λ ret, (ret, data)) (mret tt)
    (on_host (HostDriver.RequestWait (mk_UsbDev busNum devAddr) timeOut data)).

(** [usb_service.cpp:936-949] [UsbService::GetDeviceSpeed] *)
Definition GetDeviceSpeed (busNum devAddr speed : Z) : ST st (Z * Z) :=
  ret ← PreCallFunction;
  if negb (ret =? UEC_OK) then mret (UEC_SERVICE_PRE_MANAGE_INTERFACE_FAILED, speed)
  else on_host (HostDriver.GetDeviceSpeed busNum devAddr speed).

(** [usb_service.cpp:953-965] [UsbService::GetInterfaceActiveStatus] *)
Definition GetInterfaceActiveStatus (busNum devAddr interfaceid : Z) (unactivated : bool)
    : ST st (Z * bool) :=
  ret ← PreCallFunction;
  if negb (ret =? UEC_OK) then mret (UEC_SERVICE_PRE_MANAGE_INTERFACE_FAILED, unactivated)
  else on_host (HostDriver.GetInterfaceActiveStatus busNum devAddr interfaceid unactivated).

(** ** Transfers *)

(** [usb_service.cpp:980-1008] [UsbService::BulkTransferRead] *)
Definition BulkTransferRead (busNum devAddr : Z) (ep : USBEndpoint.t) (bufferData : list Z)
    (timeOut : Z) : ST st (Z * list Z) :=
  transfer busNum devAddr (λ ret, (ret, bufferData)) fst "BulkRead" (pipe_of ep)
    (on_host (HostDriver.BulkTransferRead (mk_UsbDev busNum devAddr) (pipe_of ep) timeOut bufferData))
    (λ usbDev ret, CheckAttributeReportTransferFaultSysEvent "BulkRead" usbDev (pipe_of ep) ep ret
                     "BulkTransferReadFail").

(** [usb_service.cpp:1012-1040] [UsbService::BulkTransferReadwithLength] *)
Definition BulkTransferReadwithLength (busNum devAddr : Z) (ep : USBEndpoint.t) (length : Z)
    (bufferData : list Z) (timeOut : Z) : ST st (Z * list Z) :=
  transfer busNum devAddr (λ ret, (ret, bufferData)) fst "BulkRead" (pipe_of ep)
    (on_host (HostDriver.BulkTransferReadwithLength (mk_UsbDev busNum devAddr) (pipe_of ep) length
                timeOut bufferData))
    (λ usbDev ret, CheckAttributeReportTransferFaultSysEvent "BulkRead" usbDev (pipe_of ep) ep ret
                     "BulkTransferReadFail").

(** [usb_service.cpp:1043-1071] [UsbService::BulkTransferWrite] *)
Definition BulkTransferWrite (busNum devAddr : Z) (ep : USBEndpoint.t) (bufferData : list Z)
    (timeOut : Z) : ST st Z :=
  transfer busNum devAddr id id "BulkWrite" (pipe_of ep)
    (on_host (HostDriver.BulkTransferWrite (mk_UsbDev busNum devAddr) (pipe_of ep) bufferData timeOut))
    (λ usbDev ret, CheckAttributeReportTransferFaultSysEvent "BulkWrite" usbDev (pipe_of ep) ep ret
                     "BulkTransferWriteFail").

(** [usb_service.cpp:1073-1102] [UsbService::ControlTransfer] *)
Definition ControlTransfer (busNum devAddr : Z) (ctrlParams : UsbCtlSetUp) (bufferData : list Z)
    : ST st (Z * list Z) :=
  transfer busNum devAddr (λ ret, (ret, bufferData)) fst "ControlTransfer" (mk_UsbPipe 0 0)
    (on_host (HostDriver.ControlTransfer (mk_UsbDev busNum devAddr) (UsbCtrlTransferChange ctrlParams)
                bufferData))
    (λ usbDev ret, ReportTransferFaultSysEvent "ControlTransfer" usbDev (mk_UsbPipe 0 0) ret
                     "ControlTransferFail").

(** [usb_service.cpp:1130-1159] [UsbService::UsbControlTransfer] *)
Definition UsbControlTransfer (busNum devAddr : Z) (ctrlParams : UsbCtlSetUp) (bufferData : list Z)
    : ST st (Z * list Z) :=
  transfer busNum devAddr (λ ret, (ret, bufferData)) fst "ControlTransfer" (mk_UsbPipe 0 0)
    (on_host (HostDriver.UsbControlTransfer (mk_UsbDev busNum devAddr)
                (UsbCtrlTransferChange_params ctrlParams) bufferData))
    (λ usbDev ret, ReportTransferFaultSysEvent "ControlTransfer" usbDev (mk_UsbPipe 0 0) ret
                     "UsbControlTransferFail").

(** The shared memory of a transfer is its file descriptor; the object takes it over. *)

(** The two bulk transfers over shared memory differ in their names and in the driver's call. *)
Definition ashmem_transfer (name fail : string) (busNum devAddr : Z) (ep : USBEndpoint.t)
    (fd memSize : Z) (m : ST st Z) : ST st Z :=
  b ← gets usbHostManager_;
  if negb b || (fd <=? 0) || (memSize <=? 0) then
    on_env (close_fd fd) ;; mret UEC_SERVICE_INVALID_VALUE
  else
    ok ← CheckDevicePermission busNum devAddr;
    if negb ok then
      on_env (close_fd fd) ;;
      report_target busNum devAddr (λ usbDev,
        ReportTransferFaultSysEvent name usbDev (pipe_of ep) UEC_SERVICE_PERMISSION_DENIED
          "CheckDevicePermission failed") ;;
      mret UEC_SERVICE_PERMISSION_DENIED
    else
      ret ← m;
      mwhen (negb (ret =? UEC_OK))
        (report_target busNum devAddr (λ usbDev,
           CheckAttributeReportTransferFaultSysEvent name usbDev (pipe_of ep) ep ret fail)) ;;
      mret ret.

(** [usb_service.cpp:1365-1400] [UsbService::BulkRead] *)
Definition BulkRead (busNum devAddr : Z) (ep : USBEndpoint.t) (fd memSize : Z) : ST st Z :=
  ashmem_transfer "BulkRead" "BulkReadFail" busNum devAddr ep fd memSize
    (on_host (HostDriver.BulkRead (mk_UsbDev busNum devAddr) (pipe_of ep) (Some fd))).

(** [usb_service.cpp:1402-1437] [UsbService::BulkWrite] *)
Definition BulkWrite (busNum devAddr : Z) (ep : USBEndpoint.t) (fd memSize : Z) : ST st Z :=
  ashmem_transfer "BulkWrite" "BulkWriteFail" busNum devAddr ep fd memSize
    (on_host (HostDriver.BulkWrite (mk_UsbDev busNum devAddr) (pipe_of ep) (Some fd))).

(** The fault of a submitted transfer, when its device and its endpoint are known. *)
Definition submit_fault (busNum devAddr : Z) (param : UsbTransInfo) (ret : Z) (description : string)
    : ST st unit :=
  report_target busNum devAddr (λ usbDev,
    match HostManager.GetEndpointFromId usbDev (ti_endpoint param) with
    | None => mret tt
    | Some ep =>
        ReportTransferFaultSysEvent (GetTransferTypeString param ep) usbDev
          (mk_UsbPipe (u8 (USBEndpoint.GetInterfaceId ep)) (u8 (ti_endpoint param))) ret description
    end).

(** [usb_service.cpp:1292-1341] [UsbService::UsbSubmitTransfer] *)
Definition UsbSubmitTransfer (busNum devAddr : Z) (param : UsbTransInfo) (cb : option Z)
    (fd memSize : Z) : ST st Z :=
  match cb with
  | Some cb =>
      if (fd <=? 0) || (memSize <=? 0) || (MEMSIZE_MAX <=? memSize) then
        on_env (close_fd fd) ;; mret UEC_SERVICE_INVALID_VALUE
      else
        b ← gets usbHostManager_;
        if negb b then mret UEC_SERVICE_INVALID_VALUE
        else
          ok ← CheckDevicePermission busNum devAddr;
          if negb ok then
            submit_fault busNum devAddr param UEC_SERVICE_PERMISSION_DENIED
              "CheckDevicePermission failed" ;;
            mret UEC_SERVICE_PERMISSION_DENIED
          else
            ret ← on_host (HostDriver.UsbSubmitTransfer (mk_UsbDev busNum devAddr)
                             (UsbTransInfoChange param) cb fd);
            mwhen (negb (ret =? UEC_OK))
              (submit_fault busNum devAddr param ret "UsbSubmitTransferFail") ;;
            mret ret
  | None => on_env (close_fd fd) ;; mret UEC_SERVICE_INVALID_VALUE
  end.

(** ** The enterprise policies *)

(** A policy request: from the enterprise device manager or root, with the permission. *)
Definition policy_request (m : ST st Z) : ST st Z :=
  valid ← IsCallerValid;
  if negb valid then mret UEC_SERVICE_INVALID_OPERATION
  else
    ret ← PreCallFunction;
    if negb (ret =? UEC_OK) then mret UEC_SERVICE_PRE_MANAGE_INTERFACE_FAILED else m.

(** [usb_service.cpp:637-648] [UsbService::ManageGlobalInterface] *)
Definition ManageGlobalInterface (disable : bool) : ST st Z :=
  policy_request (on_host (HostPolicy.ManageGlobalInterface disable)).

(** [usb_service.cpp:650-661] [UsbService::ManageDevice] *)
Definition ManageDevice (vendorId productId : Z) (disable : bool) : ST st Z :=
  policy_request (on_host (HostPolicy.ManageDevice vendorId productId disable)).

(** [usb_service.cpp:675-688] [UsbService::ManageDevicePolicy] *)
Definition ManageDevicePolicy (trustList : list UsbDeviceIdInfo) : ST st Z :=
  policy_request (on_host (HostPolicy.ManageDevicePolicy (UsbDeviceIdChange trustList []))).

(** [usb_service.cpp:690-703] [UsbService::ManageInterfaceType] *)
Definition ManageInterfaceType (devTypeInfo : list UsbDeviceTypeInfo) (disable : bool) : ST st Z :=
  policy_request (on_host (HostPolicy.ManageInterfaceType (UsbDeviceTypeChange [] devTypeInfo) disable)).

(** [usb_service.cpp:705-711] [UsbService::ManageUsbSerialDevice] *)
Definition ManageUsbSerialDevice (disable : bool) : ST st Z :=
  serial ← gets usbSerialManager_;
  b ← gets usbHostManager_;
  if negb serial || negb b then mret UEC_SERVICE_INVALID_VALUE
  else on_host (HostPolicy.ManageUsbSerialDevice disable).

(** ** The attached devices *)

(** [usb_service.cpp:849-856] [UsbService::GetDeviceInfo] *)
Definition GetDeviceInfo (busNum devAddr : Z) (dev : UsbDevice.t) : ST st (res (Z * UsbDevice.t)) :=
  b ← gets usbHostManager_;
  if negb b then mret (Val (UEC_SERVICE_INVALID_VALUE, dev))
  else on_host (HostManager.GetDeviceInfo busNum devAddr dev).

(** [usb_service.cpp:860-867] [UsbService::GetDeviceInfoDescriptor] *)
Definition GetDeviceInfoDescriptor (uDev : UsbDev) (descriptor : list Z) (dev : UsbDevice.t)
    : ST st (res (Z * list Z * UsbDevice.t)) :=
  b ← gets usbHostManager_;
  if negb b then mret (Val (UEC_SERVICE_INVALID_VALUE, descriptor, dev))
  else on_host (HostManager.GetDeviceInfoDescriptor uDev descriptor dev).

(** [usb_service.cpp:871-878] [UsbService::GetConfigDescriptor] *)
Definition GetConfigDescriptor (dev : UsbDevice.t) (descriptor : list Z)
    : ST st (res (Z * UsbDevice.t)) :=
  b ← gets usbHostManager_;
  if negb b then mret (Val (UEC_SERVICE_INVALID_VALUE, dev))
  else on_host (HostManager.GetConfigDescriptor dev descriptor).

(** [std::map::insert] keeps an entry that is there. *)
Definition insert_identity (name uniqueName : string) : ST st unit :=
  modify (λ s, set_deviceVidPidMap_
    (match deviceVidPidMap_ s !! name with
     | Some _ => deviceVidPidMap_ s
     | None => <[name := uniqueName]> (deviceVidPidMap_ s)
     end) s).

(** [usb_service.cpp:773-803] [UsbService::AddDevice] *)
Definition AddDevice (busNum devAddr : Z) : ST st (res bool) :=
  b ← gets usbHostManager_;
  if negb b then mret (Val false)
  else
    r ← GetDeviceInfo busNum devAddr UsbDevice.default;
    match r with
    | OutOfBounds => mret OutOfBounds
    | OutOfFuel => mret OutOfFuel
    | Val (ret, devInfo) =>
        if negb (ret =? UEC_OK) then mret (Val false)
        else
          insert_identity (dev_name busNum devAddr) (unique_name devInfo) ;;
          on_host (HostManager.AddDevice (Some devInfo)) ;;
          mret (Val true)
    end.

(** [usb_service.cpp:807-836] [UsbService::DelDevice] *)
Definition DelDevice (busNum devAddr : Z) : ST st bool :=
  Close busNum devAddr ;;
  b ← gets usbHostManager_;
  right ← gets usbRightManager_;
  if negb b || negb right then mret false
  else
    let name := dev_name busNum devAddr in
    identity ← GetDeviceVidPidSerialNumber name;
    on_rights (rs_RemoveDeviceAllRight identity) ;;
    modify (λ s, set_deviceVidPidMap_ (delete name (deviceVidPidMap_ s)) s) ;;
    on_host (HostManager.DelDevice busNum devAddr).

(** [usb_service.cpp:839-846] [UsbService::GetDevices] *)
Definition GetDevices (deviceList : list UsbDevice.t) : ST st (Z * list UsbDevice.t) :=
  b ← gets usbHostManager_;
  if negb b then mret (UEC_SERVICE_INVALID_VALUE, deviceList)
  else on_host (HostManager.GetDevices deviceList).

(** [usb_service.cpp:969-976] [UsbService::GetDeviceProductName] [None] is [false] *)
Definition GetDeviceProductName (deviceName : string) : ST st (option string) :=
  b ← gets usbHostManager_;
  if negb b then mret None else on_host (HostManager.GetProductName deviceName).
End ServiceHost.
