(* ===== verification/ServiceSerial.v ===== *)
(** * The service: serial ports

    The serial part of [services/native/src/usb_service.cpp]: the rights to a port, which
    are those to its device, the requests to an open port, and what happens when the
    client of a port dies.  The serial manager is created when the first USB serial
    device shows up. *)

From stdpp Require Import pretty sorting.
From S2P Require Import Prelude UsbErrors HostDriver HostManager Service SerialManager.
From S2P Require RightManager.

#[local] Set Default Goal Selector "!".

(** What the clients see of a port ([UsbSerialPort]) and of its settings ([UsbSerialAttr]). *)
Record UsbSerialPort := mk_UsbSerialPort {
  usp_portId_ : Z; usp_busNum_ : Z; usp_devAddr_ : Z; usp_vid_ : Z; usp_pid_ : Z; usp_serialNum_ : string }.
Record UsbSerialAttr := mk_UsbSerialAttr {
  baudRate_ : Z; dataBits_ : Z; parity_ : Z; stopBits_ : Z }.

(** [usb_service.cpp:2819-2827] [UsbService::SerialAttributeChange] *)
Definition SerialAttributeChange (serialAttr : UsbSerialAttr) : SerialAttribute :=
  mk_SerialAttribute (baudRate_ serialAttr) (dataBits_ serialAttr) (parity_ serialAttr)
    (stopBits_ serialAttr).
(** [usb_service.cpp:2831-2839] [UsbService::SerialAttributeChange] *)
Definition SerialAttributeChange_back (attribute : SerialAttribute) : UsbSerialAttr :=
  mk_UsbSerialAttr (baudrate attribute) (dataBits attribute) (parity attribute) (stopBits attribute).

(** [usb_service.cpp:2891-2905] [UsbService::SerialPortChange] *)
Definition SerialPortChange (serialInfoList : list UsbSerialPort) (serialPortList : list SerialPort)
    : list UsbSerialPort :=
  serialInfoList ++ map (λ p, let i := deviceInfo p in
    mk_UsbSerialPort (sp_portId p) (si_busNum i) (si_devAddr i) (si_vid i) (si_pid i) (si_serialNum i))
    serialPortList.

(** The name and the identity of a port's device. *)
Definition port_identity (p : SerialPort) : string * string :=
  let i := deviceInfo p in
  ((to_string (si_busNum i) +:+ "-" +:+ to_string (si_devAddr i))%string,
   (to_string (si_vid i) +:+ "-" +:+ to_string (si_pid i) +:+ "-" +:+ si_serialNum i)%string).

Section ServiceSerial.
Context {E N D Rt G P : Type} `{EB : ErrBase} `{SH : SerialHdi D}.
Context `{CI : CallingIdentity Rt} `{CR : CallerRights Rt} `{RS : RightsService Rt}.
Context `{PL : ServicePlatform P}.
Abbreviation st := (Service.st E N D Rt G P).

(** The caller, as the serial manager sees it. *)
Definition caller : ST st Caller := ask_caller (λ rt, mk_Caller (GetCallingTokenID rt) (GetCallingUid rt)).

(** ** The serial manager *)

(** [usb_service.cpp:2598-2612] [CheckForTtyUSB] *)
Definition CheckForTtyUSB : ST st bool :=
  entries ← ask_env TtyEntries;
  mret match entries with
       | None => false
       | Some entries => existsb id entries
       end.

(** [usbSerialManager_ = make_shared<SerialManager>()], handed to the host manager. *)
Definition start_serial : ST st unit :=
  present ← ask_env SerialInterfaceExists;
  on_serial (SerialManager.construct present) ;;
  modify (set_usbSerialManager_ true) ;;
  on_host (HostManager.SetSerialManager true).

(** [usb_service.cpp:2681-2694] [UsbService::ValidateUsbSerialManagerAndPort] *)
Definition ValidateUsbSerialManagerAndPort (portId : Z) : ST st Z :=
  b ← gets usbSerialManager_;
  if negb b then mret UEC_SERVICE_INVALID_VALUE
  else
    known ← on_serial (IsPortIdExist portId);
    mret (if negb known then UEC_SERIAL_PORT_NOT_EXIST else UEC_OK).

(** [usb_service.cpp:2939-2950] [UsbService::CheckDbAbility] *)
Definition CheckDbAbility (portId : Z) : ST st Z :=
  helper ← ask_env RightHelperExists;
  if negb helper then
    ReportUsbSerialOperationFaultSysEvent portId "RequestSerialRight" UEC_SERIAL_DATEBASE_ERROR
      "get dbHelper failed" ;;
    mret UEC_SERIAL_DATEBASE_ERROR
  else mret UEC_OK.

(** [usb_service.cpp:3202-3217] [UsbService::UpdateDeviceVidPidMap] [std::map::insert] keeps the first port of a number *)
Definition UpdateDeviceVidPidMap (serialPortList : list SerialPort) : ST st unit :=
  modify (set_serialVidPidMap_
    (foldl (λ m ele,
       match m !! sp_portId ele with
       | Some _ => m
       | None => <[sp_portId ele := port_identity ele]> m
       end) ∅ serialPortList)).

(** [usb_service.cpp:2909-2935] [UsbService::SerialGetPortList] *)
Definition SerialGetPortList (serialInfoList : list UsbSerialPort)
    : ST st (Z * list UsbSerialPort) :=
  b ← gets usbSerialManager_;
  started ← (if negb b then
               tty ← CheckForTtyUSB;
               if (tty : bool) then start_serial ;; mret true else mret false
             else mret true);
  if negb started then mret (UEC_OK, serialInfoList)
  else
    r ← on_serial (SerialManager.SerialGetPortList []);
    let '(ret, serialPortList) := r in
    if negb (ret =? UEC_OK) then mret (ret, serialInfoList)
    else
      UpdateDeviceVidPidMap serialPortList ;;
      mret (ret, SerialPortChange serialInfoList serialPortList).

(** ** Rights to a port *)

(** [usb_service.cpp:3078-3131] [UsbService::HasSerialRight] the code and the out-parameter *)
Definition HasSerialRight (portId : Z) : ST st (Z * bool) :=
  right ← gets usbRightManager_;
  if negb right then mret (UEC_SERVICE_INVALID_VALUE, false)
  else
    ret ← ValidateUsbSerialManagerAndPort portId;
    if negb (ret =? UEC_OK) then mret (ret, false)
    else
      ret ← CheckDbAbility portId;
      if negb (ret =? UEC_OK) then mret (ret, false)
      else
        r ← FindSerialVidPidSerialNumber portId;
        match r with
        | (ret, None) => mret (ret, false)
        | (_, Some (deviceName, deviceVidPidSerialNum)) =>
            sys ← IsSystemAppOrSa;
            if (sys : bool) then mret (UEC_OK, true)
            else
              info ← GetCallingInfo;
              match info with
              | None => mret (UEC_SERVICE_INVALID_VALUE, false)
              | Some (bundleName, tokenId, userId) =>
                  has ← on_rights (rs_HasRight deviceVidPidSerialNum bundleName tokenId userId);
                  if (has : bool) then mret (UEC_OK, true)
                  else
                    has ← on_rights
                      (rs_HasRight deviceVidPidSerialNum bundleName USB_DEFAULT_TOKEN userId);
                    mret (UEC_OK, if (has : bool) then true else false)
              end
        end.

(** The fault report of an operation on a port, and its code. *)
Definition serial_fault {A} (portId : Z) (operationType : string) (ret : Z) (description : string)
    (a : A) : ST st A :=
  ReportUsbSerialOperationFaultSysEvent portId operationType ret description ;; mret a.

(** [usb_service.cpp:2954-3013] [UsbService::RequestSerialRight] the code and the out-parameter; [None]: an exception leaves the function *)
Definition RequestSerialRight (portId : Z) : ST st (option (Z * bool)) :=
  let fail ret text :=
    serial_fault portId "RequestSerialRight" ret text (Some (ret, false)) in
  right ← gets usbRightManager_;
  if negb right then fail UEC_SERVICE_INVALID_VALUE "usbRightManager_ is nullptr"%string
  else
    ret ← ValidateUsbSerialManagerAndPort portId;
    if negb (ret =? UEC_OK) then fail ret "invalid portId"%string
    else
      ret ← CheckDbAbility portId;
      if negb (ret =? UEC_OK) then mret (Some (ret, false))
      else
        r ← FindSerialVidPidSerialNumber portId;
        match r with
        | (ret, None) => fail ret "can not find deviceName."%string
        | (_, Some (deviceName, deviceVidPidSerialNum)) =>
            sys ← IsSystemAppOrSa;
            if (sys : bool) then mret (Some (UEC_OK, true))
            else
              info ← GetCallingInfo;
              match info with
              | None => fail UEC_SERVICE_INVALID_VALUE "GetCallingInfo false"%string
              | Some (bundleName, tokenId, userId) =>
                  r ← on_rights (rs_RequestRight_serial portId
                         (RightManager.mk_serial_identity deviceName deviceVidPidSerialNum)
                         bundleName tokenId userId);
                  mret match r with
                       | None => None
                       | Some ret => Some (UEC_OK, if negb (ret =? UEC_OK) then false else true)
                       end
              end
        end.

(** [usb_service.cpp:3017-3074] [UsbService::CancelSerialRight] *)
Definition CancelSerialRight (portId : Z) : ST st Z :=
  let fail ret text := serial_fault portId "CancelSerialRight" ret text ret in
  right ← gets usbRightManager_;
  if negb right then fail UEC_SERVICE_INVALID_VALUE "usbRightManager_ is nullptr"%string
  else
    ret ← ValidateUsbSerialManagerAndPort portId;
    if negb (ret =? UEC_OK) then fail ret "validate portId"%string
    else
      ret ← CheckDbAbility portId;
      if negb (ret =? UEC_OK) then mret ret
      else
        r ← FindSerialVidPidSerialNumber portId;
        match r with
        | (ret, None) => fail ret "can not find deviceName."%string
        | (_, Some (deviceName, deviceVidPidSerialNum)) =>
            sys ← IsSystemAppOrSa;
            if (sys : bool) then mret UEC_OK
            else
              info ← GetCallingInfo;
              match info with
              | None => fail UEC_SERVICE_INVALID_VALUE "GetCallingInfo false"%string
              | Some (bundleName, tokenId, userId) =>
                  removed ← on_rights (rs_RemoveDeviceRight deviceVidPidSerialNum bundleName tokenId userId);
                  removed ← (if (removed : bool) then mret true
                             else on_rights (rs_RemoveDeviceRight deviceVidPidSerialNum bundleName
                                               USB_DEFAULT_TOKEN userId));
                  if negb removed then
                    fail UEC_SERVICE_PERMISSION_DENIED "RemoveDeviceRight failed"%string
                  else
                    c ← caller;
                    on_serial (SerialManager.SerialClose c portId) ;;
                    mret UEC_OK
              end
        end.

(** [usb_service.cpp:3135-3179] [UsbService::AddSerialRight] *)
Definition AddSerialRight (tokenId portId : Z) : ST st Z :=
  let fail ret text := serial_fault portId "AddSerialRight" ret text ret in
  right ← gets usbRightManager_;
  if negb right then fail UEC_SERVICE_INVALID_VALUE "usbRightManager_ is nullptr"%string
  else
    ret ← CheckSysApiPermission;
    if negb (ret =? UEC_OK) then fail ret "SerialCheckSysApiPermission failed"%string
    else
      ret ← CheckDbAbility portId;
      if negb (ret =? UEC_OK) then mret ret
      else
        ret ← ValidateUsbSerialManagerAndPort portId;
        if negb (ret =? UEC_OK) then fail ret "ValidateUsbSerialManagerAndPort failed"%string
        else
          r ← FindSerialVidPidSerialNumber portId;
          match r with
          | (ret, None) => fail ret "can not find deviceName."%string
          | (_, Some (deviceName, deviceVidPidSerialNum)) =>
              added ← on_rights (rs_AddDeviceRight_token deviceVidPidSerialNum (to_string tokenId));
              if negb added then fail UEC_SERIAL_DATEBASE_ERROR "AddDeviceRight failed"%string
              else mret UEC_OK
          end.

(** ** Requests to a port *)

(** [usb_service.cpp:3221-3256] [UsbService::ReportUsbSerialOperationSysEvent] *)
Definition ReportUsbSerialOperationSysEvent (portId : Z) (operationType : string) : ST st unit :=
  serialPort ← on_serial (GetSerialPort portId);
  match serialPort with
  | None => mret tt
  | Some serialPort =>
      c ← caller;
      r ← on_serial (SerialManager.SerialGetAttribute c portId (mk_SerialAttribute 0 0 0 0));
      let '(ret, attribute) := r in
      if negb (ret =? UEC_OK) then mret tt
      else
        info ← GetCallingInfo;
        match info with
        | None => mret tt
        | Some (bundleName, _, _) =>
            let i := deviceInfo serialPort in
            report (SerialOperationEvent operationType bundleName (si_vid i) (si_pid i)
                      (si_serialNum i) attribute)
        end
  end.

(** A request to a port that exists: [reply] makes the answer of a code. *)
Definition port_request {A} (portId : Z) (operationType : string) (reply : Z → A) (m : ST st A)
    : ST st A :=
  ret ← ValidateUsbSerialManagerAndPort portId;
  if negb (ret =? UEC_OK) then
    serial_fault portId operationType ret "ValidateUsbSerialManagerAndPort failed" (reply ret)
  else m.

(** [usb_service.cpp:2698-2742] [UsbService::SerialOpen] *)
Definition SerialOpen (portId : Z) (serialRemote : Z) : ST st Z :=
  port_request portId "SerialOpen" id
    (r ← HasSerialRight portId;
     if negb r.2 then
       serial_fault portId "SerialOpen" UEC_SERVICE_PERMISSION_DENIED "There are no permissions"
         UEC_SERVICE_PERMISSION_DENIED
     else
       c ← caller;
       ok ← on_env (AddSerialDeathRecipient serialRemote);
       if negb ok then
         serial_fault portId "SerialOpen" UEC_SERVICE_INVALID_VALUE
           "SerialOpen add DeathRecipient failed" UEC_SERVICE_INVALID_VALUE
       else
         modify (λ s, set_serialRecipients
           (serialRecipients s ++ [(serialRemote, mk_SerialDeathRecipient portId (token c))]) s) ;;
         ret ← on_serial (SerialManager.SerialOpen c portId);
         if negb (ret =? UEC_OK) then
           serial_fault portId "SerialOpen" ret "SerialOpen failed" ret
         else
           ReportUsbSerialOperationSysEvent portId "SerialOpen" ;;
           mret UEC_OK).

(** [usb_service.cpp:2746-2763] [UsbService::SerialClose] *)
Definition SerialClose (portId : Z) : ST st Z :=
  port_request portId "SerialClose" id
    (ReportUsbSerialOperationSysEvent portId "SerialClose" ;;
     c ← caller;
     ret ← on_serial (SerialManager.SerialClose c portId);
     if negb (ret =? UEC_OK) then serial_fault portId "SerialClose" ret "SerialClose failed" ret
     else mret ret).

(** [usb_service.cpp:2767-2789] [UsbService::SerialRead] the code, the data and the size that was read, if set *)
Definition SerialRead (portId : Z) (data : list Z) (size timeout : Z)
    : ST st (Z * list Z * option Z) :=
  if (SERIALREAD_SIZE_MAX <? size) || (SERIALREAD_SIZE_MAX <? Z.of_nat (length data)) then
    mret (UEC_SERIAL_IO_EXCEPTION, data, None)
  else
    port_request portId "SerialRead" (λ ret, (ret, data, None))
      (c ← caller;
       r ← on_serial (SerialManager.SerialRead c portId data size timeout);
       if negb (r.1.1 =? UEC_OK) then serial_fault portId "SerialRead" r.1.1 "SerialRead failed" r
       else mret r).

(** [usb_service.cpp:2793-2815] [UsbService::SerialWrite] *)
Definition SerialWrite (portId : Z) (data : list Z) (size timeout : Z) : ST st (Z * option Z) :=
  if (SERIALWRITE_SIZE_MAX <? size) || (SERIALWRITE_SIZE_MAX <? Z.of_nat (length data)) then
    mret (UEC_SERIAL_IO_EXCEPTION, None)
  else
    port_request portId "SerialWrite" (λ ret, (ret, None))
      (c ← caller;
       r ← on_serial (SerialManager.SerialWrite c portId data size timeout);
       if negb (r.1 =? UEC_OK) then serial_fault portId "SerialWrite" r.1 "SerialWrite failed" r
       else mret r).

(** [usb_service.cpp:2843-2861] [UsbService::SerialGetAttribute] *)
Definition SerialGetAttribute (portId : Z) (attributeInfo : UsbSerialAttr)
    : ST st (Z * UsbSerialAttr) :=
  port_request portId "SerialGetAttribute" (λ ret, (ret, attributeInfo))
    (c ← caller;
     r ← on_serial (SerialManager.SerialGetAttribute c portId (mk_SerialAttribute 0 0 0 0));
     let '(ret, serialAttr) := r in
     mwhen (negb (ret =? UEC_OK))
       (ReportUsbSerialOperationFaultSysEvent portId "SerialGetAttribute" ret
          "SerialGetAttribute failed") ;;
     mret (ret, SerialAttributeChange_back serialAttr)).

(** [usb_service.cpp:2865-2887] [UsbService::SerialSetAttribute] *)
Definition SerialSetAttribute (portId : Z) (attributeInfo : UsbSerialAttr) : ST st Z :=
  port_request portId "SerialSetAttribute" id
    (c ← caller;
     ret ← on_serial (SerialManager.SerialSetAttribute c portId (SerialAttributeChange attributeInfo));
     if negb (ret =? UEC_OK) then
       serial_fault portId "SerialSetAttribute" ret "SerialSetAttribute failed" ret
     else
       ReportUsbSerialOperationSysEvent portId "SerialSetAttribute" ;;
       mret UEC_OK).

(** ** The death of a client *)

(** [usb_service.cpp:2585-2588] [UsbService::FreeTokenId] *)
Definition FreeTokenId (portId tokenId : Z) : ST st unit :=
  on_serial (SerialManager.FreeTokenId portId tokenId).

(** [usb_service.cpp:2576-2581] [UsbService::SerialDeathRecipient::OnRemoteDied] *)
Definition OnRemoteDied (r : SerialDeathRecipient) : ST st unit :=
  FreeTokenId (portId_ r) (tokenId_ r) ;;
  CancelSerialRight (portId_ r) ;;
  mret tt.
End ServiceSerial.
