(* ===== verification/ServiceGadget.v ===== *)
(** * The service: device mode, accessories and ports

    The rest of [services/native/src/usb_service.cpp]: the requests about the gadget
    functions, the accessories and the ports, the setting that shows whether HDC is on,
    the events of the drivers, the unloading of the service when nothing is attached,
    and the dump.

    The managers of device mode, accessories and ports are used through the classes below;
    the components [DeviceManager], [AccessoryManager] and [PortManager] implement them
    ([managers]). *)

From stdpp Require Import pretty sorting.
From S2P Require Import Prelude UsbErrors UsbTypes DescriptorParser Interfaces Marshalling Json.
From S2P Require Import HostDriver HostEvents HostPolicy HostManager Service ServiceHost ServiceSerial.
From S2P Require SerialManager DeviceManager AccessoryManager PortManager FunctionSwitchWindow.

#[local] Set Default Goal Selector "!".

(** ** The managers *)
Class DeviceService (G : Type) := {
  ds_SetPhyConnectState : bool → ST G unit;
  ds_GetCurrentFunctions : Z → ST G (Z * Z);
  ds_SetCurrentFunctions : Z → ST G Z;
  ds_HandleEvent : Z → ST G unit;
  ds_SetChargeFlag : bool → ST G unit;
  (** [None]: a null pointer is used *)
  ds_UserChangeProcess : G → option (Z * G);
  ds_IsGadgetConnected : ST G bool;
  ds_GetDumpHelp : list string;
  ds_Dump : list string → ST G (list string);
}.
Class AccessoryService (G : Type) := {
  as_HandleEvent : Z → ST G unit;
  as_GetAccessoryList : string → list USBAccessory.t → ST G (list USBAccessory.t);
  as_OpenAccessory : Z → ST G (Z * Z);
  as_CloseAccessory : Z → ST G Z;
  as_GetAccessorySerialNumber : USBAccessory.t → string → string → ST G (Z * string);
}.
Class PortService (G : Type) := {
  ps_IsReverseCharge : ST G bool;
  ps_GetPorts : list PortManager.UsbPort → ST G (Z * list PortManager.UsbPort);
  ps_GetSupportedModes : Z → Z → ST G (Z * Z);
  ps_SetPortRole : Z → Z → Z → ST G Z;
  ps_UpdatePort : Z → Z → Z → Z → ST G unit;
  ps_UpdatePort_modes : Z → Z → Z → Z → Z → ST G unit;
  ps_GetDumpHelp : list string;
  ps_Dump : list string → ST G PortManager.DumpResult;
}.

(** The names of [usb_errors.h]. *)
(** [usb_errors.h:30-31] [PERMISSION_DENIED_SYSAPI] *)
Definition PERMISSION_DENIED_SYSAPI : string := "PERMISSION_DENIED_SYSAPI".
Definition SYS_APP_PERMISSION_DENIED_SYSAPI : string := "SYS_APP_PERMISSION_DENIED_SYSAPI".

(** [usb_service.h:57-62] the arguments of the dump *)
Definition USB_HOST : string := "usb_host".
Definition USB_DEVICE : string := "usb_device".
Definition USB_PORT : string := "usb_port".
Definition USB_HELP : string := "-h".
Definition USB_LIST : string := "-l".
Definition USB_GETT : string := "-g".

(** [usb_service.h:78-78] [UnLoadSaType] *)
Inductive UnLoadSaType := UNLOAD_SA_DELAY | UNLOAD_SA_IMMEDIATELY.

(** What a dump prints. *)
Inductive DumpText := Text (line : string) | SerialText (line : SerialManager.DumpLine).

(** How a dump ends: with a code, or in one of the two ways the managers do not handle. *)
Inductive ServiceDump :=
  | DumpReturned (code : Z) (output : list DumpText)
  | DumpThrows
  | DumpIndexesEmptyVector.

(** A status change of the drivers ([USBDeviceInfo]). *)
Record USBDeviceInfo := mk_USBDeviceInfo { d_status : Z; d_busNum : Z; d_devNum : Z }.

Section ServiceGadget.
Context {E N D Rt G P Rp : Type} `{EB : ErrBase} `{HD : HostHdi E} `{SY : HostSystem E Rp}.
Context `{RY : Reply Rp} `{SP : SystemParams E} `{NO : NotifierOps N} `{CJ : CJson} `{HO : HashOrder}.
Context `{SH : SerialManager.SerialHdi D} `{CS : CharSign} `{HE : HdfDevErr}.
Context `{CI : CallingIdentity Rt} `{CR : CallerRights Rt} `{RS : RightsService Rt}.
Context `{PL : ServicePlatform P} `{TM : Timers P UnloadTask}.
Context `{DS : DeviceService G} `{AS : AccessoryService G} `{PS : PortService G}.
Abbreviation st := (Service.st E N D Rt G P).

(** ** The setting that shows whether HDC is on *)

(** [usb_service.cpp:2129-2161] [UsbService::SetSettingsDataHdcStatus] *)
Definition SetSettingsDataHdcStatus (func : Z) : ST st bool :=
  let key := "HDC_STATUS"%string in
  hdcStatus ← ask_env (settings_Query key);
  if negb (Z.land (u32 func) DeviceManager.USB_FUNCTION_HDC =? 0) then
    if bool_decide (hdcStatus = Some "true"%string) then mret true
    else on_env (settings_Update key "true")
  else
    if bool_decide (hdcStatus = Some "false"%string) then mret false
    else on_env (settings_Update key "false").

(** [usb_service.cpp:2102-2125] [UsbService::InitSettingsDataHdcStatus] *)
Definition InitSettingsDataHdcStatus : ST st bool :=
  dataShare ← ask_env DataShareReady;
  right ← gets usbRightManager_;
  device ← gets usbDeviceManager_;
  if negb dataShare then mret false
  else if negb right then mret false
  else if negb device then mret false
  else
    r ← on_gadget (ds_GetCurrentFunctions 0);
    (if negb (r.1 =? UEC_OK) then mret tt else SetSettingsDataHdcStatus r.2 ;; mret tt) ;;
    mret true.

(** ** Gadget functions *)

(** [usb_service.cpp:1751-1760] [UsbService::SetPhyConnect] *)
Definition SetPhyConnect (phyConnect : bool) : ST st unit :=
  device ← gets usbDeviceManager_;
  if negb device then mret tt else on_gadget (ds_SetPhyConnectState phyConnect).

(** A request of the system interface: the permission, then the manager of the request. *)
Definition sysapi_request {A} (operation : option string) (present : st → bool) (reply : Z → A)
    (m : ST st A) : ST st A :=
  right ← gets usbRightManager_;
  if negb right then mret (reply UEC_SERVICE_INVALID_VALUE)
  else
    ret ← CheckSysApiPermission;
    if negb (ret =? UEC_OK) then
      match operation with
      | Some op => ReportUsbOperationFaultSysEvent op ret "CheckSysApiPermission failed"
      | None => mret tt
      end ;;
      mret (reply ret)
    else
      b ← gets present;
      if negb b then mret (reply UEC_SERVICE_INVALID_VALUE) else m.

(** [usb_service.cpp:1762-1781] [UsbService::GetCurrentFunctions] *)
Definition GetCurrentFunctions (functions : Z) : ST st (Z * Z) :=
  sysapi_request (Some "FUNCTION_CHANGED"%string) usbDeviceManager_ (λ ret, (ret, functions))
    (on_gadget (ds_GetCurrentFunctions functions)).

(** [usb_service.cpp:1783-1810] [UsbService::SetCurrentFunctions] *)
Definition SetCurrentFunctions (functions : Z) : ST st Z :=
  sysapi_request (Some "FUNCTION_CHANGED"%string) (λ _, true) id
    (ret ← on_rights (rs_HasSetFuncRight functions);
     if negb (ret =? 0) then
       ReportUsbOperationFaultSysEvent "FUNCTION_CHANGED" ret "HasSetFuncRight fail" ;;
       mret ret
     else
       device ← gets usbDeviceManager_;
       if negb device then mret UEC_SERVICE_INVALID_VALUE
       else
         SetSettingsDataHdcStatus functions ;;
         on_gadget (ds_SetCurrentFunctions functions)).

(** [usb_service.cpp:1812-1828] [UsbService::UsbFunctionsFromString] an error is the function word of an answer [UEC_OK] *)
Definition UsbFunctionsFromString (funcs : string) : ST st (Z * Z) :=
  sysapi_request None (λ _, true) (λ ret, (UEC_OK, ret))
    (mret (UEC_OK, i32 (DeviceManager.ConvertFromString funcs))).

(** [usb_service.cpp:1830-1854] [UsbService::UsbFunctionsToString] *)
Definition UsbFunctionsToString (funcs : Z) : ST st (Z * string) :=
  right ← gets usbRightManager_;
  if negb right then mret (UEC_OK, ""%string)
  else
    sys ← IsSystemAppOrSa;
    if negb sys then mret (UEC_OK, PERMISSION_DENIED_SYSAPI)
    else
      verified ← on_rights rs_VerifyPermission;
      if negb verified then
        apiVersion ← GetHapApiVersion;
        mret (UEC_OK, if apiVersion <? API_VERSION_ID_18 then PERMISSION_DENIED_SYSAPI
                      else SYS_APP_PERMISSION_DENIED_SYSAPI)
      else mret (UEC_OK, DeviceManager.ConvertToString (u32 funcs)).

(** [usb_service.cpp:1857-1871] [UsbService::UpdateDeviceState] *)
Definition UpdateDeviceState (status : Z) : ST st unit :=
  device ← gets usbDeviceManager_;
  if negb device then mret tt
  else
    on_gadget (ds_HandleEvent status) ;;
    accessory ← gets usbAccessoryManager_;
    if negb accessory then mret tt else on_gadget (as_HandleEvent status).

(** [usb_service.cpp:1875-1890] [UsbService::UserChangeProcess] [None]: a null pointer is used *)
Definition UserChangeProcess : st → option (Z * st) := λ s,
  if negb (usbDeviceManager_ s) then Some (UEC_SERVICE_INVALID_VALUE, s)
  else if negb (usbPortManager_ s) then Some (UEC_SERVICE_INVALID_VALUE, s)
  else
    let s := after (res ← on_gadget ps_IsReverseCharge; on_gadget (ds_SetChargeFlag res)) s in
    match ds_UserChangeProcess (gadget s) with
    | Some (ret, g) => Some (ret, set_gadget g s)
    | None => None
    end.

(** ** Accessories *)

(** [usb_service.cpp:1894-1912] [UsbService::GetAccessoryList] *)
Definition GetAccessoryList (accessList : list USBAccessory.t) : ST st (Z * list USBAccessory.t) :=
  accessory ← gets usbAccessoryManager_;
  if negb accessory then mret (UEC_SERVICE_INVALID_VALUE, accessList)
  else
    info ← GetCallingInfo;
    match info with
    | None =>
        ReportUsbOperationFaultSysEvent "GetAccessoryList " UEC_SERVICE_INNER_ERR
          "GetCallingInfo false" ;;
        mret (UEC_SERVICE_INNER_ERR, accessList)
    | Some (bundleName, _, _) =>
        l ← on_gadget (as_GetAccessoryList bundleName accessList);
        mret (UEC_OK, l)
    end.

(** A request about an accessory: its caller and the accessory's identity are found, or
    the request ends with a code. *)
Definition accessory_request {A} (access : USBAccessory.t) (reply : Z → A)
    (m : string → string → string → Z → ST st A) : ST st A :=
  right ← gets usbRightManager_;
  accessory ← gets usbAccessoryManager_;
  if negb right || negb accessory then mret (reply UEC_SERVICE_INVALID_VALUE)
  else
    info ← GetCallingInfo;
    match info with
    | None => mret (reply UEC_SERVICE_GET_TOKEN_INFO_FAILED)
    | Some (bundleName, tokenId, userId) =>
        r ← on_gadget (as_GetAccessorySerialNumber access bundleName "");
        let '(ret, serialNum) := r in
        if negb (ret =? UEC_OK) then mret (reply ret) else m serialNum bundleName tokenId userId
    end.

(** [usb_service.cpp:2008-2035] [UsbService::HasAccessoryRight] *)
Definition HasAccessoryRight (access : USBAccessory.t) (result : bool) : ST st (Z * bool) :=
  accessory_request access (λ ret, (ret, result)) (λ serialNum bundleName tokenId userId,
    has ← on_rights (rs_HasRight serialNum bundleName tokenId userId);
    mret (UEC_OK, has)).

(** [usb_service.cpp:2039-2064] [UsbService::RequestAccessoryRight] *)
Definition RequestAccessoryRight (access : USBAccessory.t) (result : bool) : ST st (Z * bool) :=
  accessory_request access (λ ret, (ret, result)) (λ serialNum bundleName tokenId userId,
    on_rights (rs_RequestRight_accessory access serialNum bundleName tokenId userId)).

(** [usb_service.cpp:2068-2098] [UsbService::CancelAccessoryRight] *)
Definition CancelAccessoryRight (access : USBAccessory.t) : ST st Z :=
  accessory_request access id (λ serialNum bundleName tokenId userId,
    ret ← on_rights (rs_CancelDeviceRight serialNum bundleName tokenId userId);
    mret (if negb (ret =? UEC_OK) then UEC_SERVICE_DATABASE_OPERATION_FAILED else UEC_OK)).

(** [usb_service.cpp:1916-1952] [UsbService::OpenAccessory] *)
Definition OpenAccessory (access : USBAccessory.t) (fd : Z) : ST st (Z * Z) :=
  let fault {A} ret text (a : A) : ST st A :=
    ReportUsbOperationFaultSysEvent "OpenAccessory" ret text ;; mret a in
  accessory ← gets usbAccessoryManager_;
  if negb accessory then mret (UEC_SERVICE_INVALID_VALUE, fd)
  else
    info ← GetCallingInfo;
    match info with
    | None =>
        fault UEC_SERVICE_GET_TOKEN_INFO_FAILED "GetCallingInfo false"%string
          (UEC_SERVICE_GET_TOKEN_INFO_FAILED, fd)
    | Some (bundleName, _, _) =>
        r ← on_gadget (as_GetAccessorySerialNumber access bundleName "");
        let '(ret, serialNum) := r in
        if negb (ret =? UEC_OK) then fault ret "can not find accessory"%string (ret, fd)
        else
          r ← HasAccessoryRight access false;
          if negb (r.1 =? UEC_OK) || negb r.2 then
            fault UEC_SERVICE_PERMISSION_DENIED "No permission"%string
              (UEC_SERVICE_PERMISSION_DENIED, fd)
          else on_gadget (as_OpenAccessory fd)
    end.

(** [usb_service.cpp:1956-1967] [UsbService::CloseAccessory] *)
Definition CloseAccessory (fd : Z) : ST st Z :=
  accessory ← gets usbAccessoryManager_;
  if negb accessory then mret UEC_SERVICE_INVALID_VALUE else on_gadget (as_CloseAccessory fd).

(** [usb_service.cpp:1971-2004] [UsbService::AddAccessoryRight] *)
Definition AddAccessoryRight (tokenId : Z) (access : USBAccessory.t) : ST st Z :=
  right ← gets usbRightManager_;
  accessory ← gets usbAccessoryManager_;
  if negb right || negb accessory then mret UEC_SERVICE_INVALID_VALUE
  else
    ret ← CheckSysApiPermission;
    if negb (ret =? UEC_OK) then mret ret
    else
      r ← ask_caller (GetHapTokenInfo tokenId);
      let '(ret, hapTokenInfoRes) := r in
      if negb (ret =? UEC_OK) then mret UEC_SERVICE_GET_TOKEN_INFO_FAILED
      else
        r ← on_gadget (as_GetAccessorySerialNumber access (bundleName hapTokenInfoRes) "");
        let '(ret, serialNum) := r in
        if negb (ret =? UEC_OK) then mret ret
        else
          added ← on_rights (rs_AddDeviceRight_token serialNum (to_string tokenId));
          mret (if negb added then UEC_SERVICE_DATABASE_OPERATION_FAILED else UEC_OK).

(** ** Ports *)

(** [usb_service.cpp:2166-2184] [UsbService::GetPorts] *)
Definition GetPorts (ports : list PortManager.UsbPort) : ST st (Z * list PortManager.UsbPort) :=
  sysapi_request (Some "GetPorts"%string) usbPortManager_ (λ ret, (ret, ports))
    (on_gadget (ps_GetPorts ports)).

(** [usb_service.cpp:2187-2204] [UsbService::GetSupportedModes] *)
Definition GetSupportedModes (portId supportedModes : Z) : ST st (Z * Z) :=
  sysapi_request None usbPortManager_ (λ ret, (ret, supportedModes))
    (on_gadget (ps_GetSupportedModes portId supportedModes)).

(** [usb_service.cpp:2207-2230] [UsbService::SetPortRole] *)
Definition SetPortRole (portId powerRole dataRole : Z) : ST st Z :=
  sysapi_request (Some "SetPortRole"%string) usbPortManager_ id
    (ret ← on_gadget (ps_SetPortRole portId powerRole dataRole);
     mret (if ret =? HDF_ERR_NOT_SUPPORT then UEC_SERVICE_NOT_SUPPORT_SWITCH_PORT else ret)).

(** [usb_service.cpp:2233-2241] [UsbService::UpdateUsbPort] *)
Definition UpdateUsbPort (portId powerRole dataRole mode : Z) : ST st unit :=
  port ← gets usbPortManager_;
  if negb port then mret tt else on_gadget (ps_UpdatePort portId powerRole dataRole mode).

(** [usb_service.cpp:2243-2252] [UsbService::UpdateUsbPort] *)
Definition UpdateUsbPort_modes (portId powerRole dataRole mode supportedModes : Z) : ST st unit :=
  port ← gets usbPortManager_;
  if negb port then mret tt
  else on_gadget (ps_UpdatePort_modes portId powerRole dataRole mode supportedModes).

(** ** Unloading the service *)

(** [usb_service.cpp:2486-2501] [UsbService::IsNotNeedUnload] *)
Definition IsNotNeedUnload : ST st bool :=
  r ← on_host (HostManager.GetDevices []);
  isGadgetConnected ← on_gadget ds_IsGadgetConnected;
  mret (negb (bool_decide (r.2 = [])) || isGadgetConnected).

(** [usb_service.cpp:2510-2521] [UsbService::UnLoadSelf] the task *)
Definition unload_task : ST st unit :=
  samgr ← ask_env SamgrExists;
  if negb samgr then mret tt else on_env UnloadSystemAbility ;; mret tt.

(** [usb_service.cpp:2505-2556] [UsbService::UnLoadSelf] *)
Definition UnLoadSelf (type : UnLoadSaType) : ST st unit :=
  match type with
  | UNLOAD_SA_IMMEDIATELY => unload_task
  | UNLOAD_SA_DELAY =>
      b ← gets usbHostManager_;
      device ← gets usbDeviceManager_;
      if negb b then mret tt
      else if negb device then mret tt
      else
        id ← gets unloadSelfTimerId_;
        on_env (timer_Unregister id) ;;
        on_env unload_timer_Shutdown ;;
        keep ← IsNotNeedUnload;
        if (keep : bool) then on_env (SetCritical true)
        else
          on_env (SetCritical false) ;;
          ret ← on_env unload_timer_Setup;
          if negb (ret =? 0) then mret tt
          else
            id ← on_env (timer_Register UnloadSelfTask UNLOAD_SA_TIMER_INTERVAL true);
            modify (set_unloadSelfTimerId_ id)
  end.

(** [usb_service.cpp:2560-2572] [UsbService::UsbdDeathRecipient::OnRemoteDied] *)
Definition UsbdDeathRecipient_OnRemoteDied : ST st unit :=
  samgr ← ask_env SamgrExists;
  if negb samgr then mret tt else on_env UnloadSystemAbility ;; mret tt.

(** ** The events of the drivers *)

(** The statuses of the gadget side. *)
Definition is_gadget_status (status : Z) : bool :=
  (status =? ACT_UPDEVICE) || (status =? ACT_DOWNDEVICE) || (status =? ACT_ACCESSORYUP) ||
  (status =? ACT_ACCESSORYDOWN) || (status =? ACT_ACCESSORYSEND).

(** [usb_service.cpp:2615-2650] [UsbService::DeviceEvent] [OutOfBounds] and [OutOfFuel] are those of the parser; the bus and the address become [uint8_t]s *)
Definition DeviceEvent (info : USBDeviceInfo) : ST st (res Z) :=
  let status := d_status info in
  if is_gadget_status status then
    UpdateDeviceState status ;;
    UnLoadSelf UNLOAD_SA_DELAY ;;
    mret (Val UEC_OK)
  else
    let busNum := u8 (d_busNum info) in
    let devAddr := u8 (d_devNum info) in
    r ← (if status =? ACT_DEVUP then ServiceHost.AddDevice busNum devAddr
         else ok ← ServiceHost.DelDevice busNum devAddr; mret (Val ok));
    match r with
    | OutOfBounds => mret OutOfBounds
    | OutOfFuel => mret OutOfFuel
    | Val _ =>
        UnLoadSelf UNLOAD_SA_DELAY ;;
        mwhen (status =? ACT_DEVUP)
          (serial ← gets usbSerialManager_;
           mwhen (negb serial)
             (tty ← CheckForTtyUSB;
              mwhen tty start_serial)) ;;
        mret (Val UEC_OK)
    end.

(** ** The dump *)

(** [usb_service.cpp:2461-2482] [UsbService::DumpHelp] *)
Definition DumpHelp : ST st (list string) :=
  let head := ["Refer to the following usage:"; "-h: dump help";
               "============= dump the all device ==============";
               "usb_host -a: dump the all device list info";
               "------------------------------------------------"]%string in
  device ← gets usbDeviceManager_;
  if negb device then mret head
  else
    port ← gets usbPortManager_;
    if negb port then mret (head ++ ds_GetDumpHelp)
    else mret (head ++ ds_GetDumpHelp ++ ps_GetDumpHelp).

(** The help of the service and of its serial manager. *)
Definition full_help : ST st (list DumpText) :=
  help ← DumpHelp;
  mret (map Text help ++ [SerialText SerialManager.DumpHelp]).

(** [usb_service.cpp:2372-2421] [UsbService::DoDump] *)
Definition DoDump (argList : list string) : ST st ServiceDump :=
  let arg := default ""%string (head argList) in
  if String.eqb arg USB_HOST then
    b ← gets usbHostManager_;
    match b, argList with
    | true, _ :: arg1 :: _ =>
        r ← on_host (HostManager.Dump arg1);
        mret (DumpReturned UEC_OK (map Text r.1))
    | _, _ => mret (DumpReturned UEC_SERVICE_INVALID_VALUE [])
    end
  else if String.eqb arg USB_DEVICE then
    device ← gets usbDeviceManager_;
    if negb device then mret (DumpReturned UEC_SERVICE_INVALID_VALUE [])
    else
      lines ← on_gadget (ds_Dump argList);
      mret (DumpReturned UEC_OK (map Text lines))
  else if String.eqb arg USB_PORT then
    port ← gets usbPortManager_;
    if negb port then mret (DumpReturned UEC_SERVICE_INVALID_VALUE [])
    else
      r ← on_gadget (ps_Dump argList);
      mret match r with
           | PortManager.Printed lines => DumpReturned UEC_OK (map Text lines)
           | PortManager.StoiOutOfRange => DumpThrows
           | PortManager.EmptyVectorIndexed => DumpIndexesEmptyVector
           end
  else if String.eqb arg USB_HELP then
    help ← full_help; mret (DumpReturned UEC_OK help)
  else if String.eqb arg USB_LIST then
    lines ← on_serial (SerialManager.SerialPortListDump argList);
    mret (DumpReturned UEC_OK (map SerialText lines))
  else if String.eqb arg USB_GETT then
    c ← caller;
    r ← on_serial (SerialManager.SerialGetAttributeDump c argList
                     (SerialManager.mk_SerialAttribute 0 0 0 0));
    mret match r with
         | SerialManager.Printed lines _ => DumpReturned UEC_OK (map SerialText lines)
         | SerialManager.StoiThrows => DumpThrows
         end
  else
    help ← full_help;
    mret (DumpReturned UEC_OK (Text "Usb Dump service:invalid parameter." :: help)).

(** [usb_service.cpp:2425-2457] [UsbService::Dump] *)
Definition Dump (fd : Z) (argList : list string) : ST st ServiceDump :=
  if fd <? 0 then mret (DumpReturned UEC_SERVICE_INVALID_VALUE [])
  else
    serial ← gets usbSerialManager_;
    mwhen (negb serial) start_serial ;;
    match argList with
    | [] => help ← full_help; mret (DumpReturned UEC_SERVICE_INVALID_VALUE help)
    | _ => DoDump argList
    end.
End ServiceGadget.

(** ** The managers as components

    The three managers, each with its own state, implement the classes. *)
Section Managers.
Context {H Win N T HA TA EA HP NP : Type} `{EB : ErrBase}.
Context `{DeviceHdi H} `{FunctionWindow Win} `{NotifierOps N} `{Timers T DeviceManager.DelayTask}.
Context `{AccessoryManager.AccessoryPlatform EA} `{DHA : DeviceHdi HA} `{!AccessoryHdi HA}
  `{Timers TA AccessoryManager.AccTask}.
Context `{PortHdi HP PortManager.UsbPort} `{NNP : NotifierOps NP}.
(** The build flag [USB_MANAGER_HIDUMPER_SET]. *)
Context (hidumper_set : bool).

Record managers := mk_managers {
  device_manager : @DeviceManager.st H Win N T;
  accessory_manager : @AccessoryManager.st HA TA EA;
  port_manager : @PortManager.st HP NP;
}.

Definition on_device {A} (m : ST (@DeviceManager.st H Win N T) A) : ST managers A :=
  λ g, let '(a, d) := m (device_manager g) in
       (a, mk_managers d (accessory_manager g) (port_manager g)).
Definition on_accessory {A} (m : ST (@AccessoryManager.st HA TA EA) A) : ST managers A :=
  λ g, let '(a, x) := m (accessory_manager g) in
       (a, mk_managers (device_manager g) x (port_manager g)).
Definition on_port {A} (m : ST (@PortManager.st HP NP) A) : ST managers A :=
  λ g, let '(a, p) := m (port_manager g) in
       (a, mk_managers (device_manager g) (accessory_manager g) p).

#[export] Instance managers_device : DeviceService managers := {
  ds_SetPhyConnectState b := on_device (DeviceManager.SetPhyConnectState b);
  ds_GetCurrentFunctions f := on_device (DeviceManager.GetCurrentFunctions f);
  ds_SetCurrentFunctions f := on_device (DeviceManager.SetCurrentFunctions f);
  ds_HandleEvent status := on_device (DeviceManager.HandleEvent status);
  ds_SetChargeFlag b := on_device (DeviceManager.SetChargeFlag b);
  ds_UserChangeProcess g :=
    match DeviceManager.UserChangeProcess (device_manager g) with
    | Some (ret, d) => Some (ret, mk_managers d (accessory_manager g) (port_manager g))
    | None => None
    end;
  ds_IsGadgetConnected := on_device DeviceManager.IsGadgetConnected;
  ds_GetDumpHelp := DeviceManager.GetDumpHelp hidumper_set;
  ds_Dump args := on_device (DeviceManager.Dump hidumper_set args);
}.
#[export] Instance managers_accessory : AccessoryService managers := {
  as_HandleEvent status := on_accessory (AccessoryManager.HandleEvent status true);
  as_GetAccessoryList b l := on_accessory (AccessoryManager.GetAccessoryList b l);
  as_OpenAccessory fd := on_accessory (AccessoryManager.OpenAccessory fd);
  as_CloseAccessory fd := on_accessory (AccessoryManager.CloseAccessory fd);
  as_GetAccessorySerialNumber a b s :=
    on_accessory (AccessoryManager.GetAccessorySerialNumber a b s);
}.
#[export] Instance managers_port : PortService managers := {
  ps_IsReverseCharge := on_port PortManager.IsReverseCharge;
  ps_GetPorts l := on_port (PortManager.GetPorts l);
  ps_GetSupportedModes i m := on_port (PortManager.GetSupportedModes i m);
  ps_SetPortRole i p d := on_port (PortManager.SetPortRole i p d);
  ps_UpdatePort i p d m := on_port (PortManager.UpdatePort i p d m);
  ps_UpdatePort_modes i p d m ms := on_port (PortManager.UpdatePort_modes i p d m ms);
  ps_GetDumpHelp := PortManager.GetDumpHelp hidumper_set;
  ps_Dump args := on_port (PortManager.Dump hidumper_set args);
}.
End Managers.
