(* ===== verification/Parcels.v ===== *)
(** * Parcels of the other types

    The parcels of [interfaces/innerkits/native/include] that [Marshalling] does not have
    (ports, accessories, serial ports, interface types, bulk data) and those of the
    isochronous packets of [utils/native/src/struct_parcel.cpp].  [MessageParcel] adds to
    [Parcel] the operations of the IPC library that they use; an operation that reads into
    a reference and returns whether it could is one that returns an [option].  An
    allocation does not fail here.

    [Parcelable] is the interface of such a type, [ParcelableLaws] its wire format. *)

From S2P Require Import Prelude UsbTypes Marshalling HostEvents PortManager ServiceSerial.

#[local] Set Default Goal Selector "!".
#[local] Open Scope usb_scope.

Class MessageParcel (P : Type) `{Parcel P} := {
  new_parcel : P;
  WriteBool : bool → ST P bool;
  WriteUint64 : Z → ST P bool;
  WriteInterfaceToken : string → ST P bool;
  WriteBuffer : list Z → ST P bool;
  WriteParcelable : ST P bool → ST P bool;
  ReadBool : ST P bool;
  ReadInterfaceToken : ST P string;
  ReadUnpadBuffer : Z → ST P (option (list Z));
  TryReadInt32 : ST P (option Z);
  TryReadUint32 : ST P (option Z);
  TryReadUint64 : ST P (option Z);
  ReadParcelable {A} : ST P (option A) → ST P (option A);
}.

(** Both ends agree on what a parcel holds; a parcelable object is preceded by a mark. *)
Class MessageLaws (P : Type) `{MessageParcel P} (contents : P → list pitem) := {
  new_parcel_empty : contents new_parcel = [];
  read_bool b : reads contents ReadBool [PBool b] b;
  read_token s : reads contents ReadInterfaceToken [PToken s] s;
  read_buffer l : reads contents (ReadUnpadBuffer (Z.of_nat (length l))) [PBuf l] (Some l);
  try_read_int32 z : reads contents TryReadInt32 [PW32 z] (Some (i32 z));
  try_read_uint32 z : reads contents TryReadUint32 [PW32 z] (Some z);
  try_read_uint64 z : reads contents TryReadUint64 [PW64 z] (Some z);
  read_parcelable {A} (m : ST P (option A)) xs a :
    reads contents m xs a → reads contents (ReadParcelable m) (PObject :: xs) a;
}.
Class ReliableMessage (P : Type) `{MessageParcel P} (contents : P → list pitem) := {
  write_bool b : writes contents (WriteBool b) [PBool b];
  write_uint64 z : writes contents (WriteUint64 z) [PW64 z];
  write_token s : writes contents (WriteInterfaceToken s) [PToken s];
  write_buffer l : writes contents (WriteBuffer l) [PBuf l];
  write_parcelable m xs :
    writes contents m xs → writes contents (WriteParcelable m) (PObject :: xs);
}.

(** A loop that writes the elements of a vector and gives up at the first failure, and one
    that reads [n] of them and gives up at the first null. *)
Fixpoint write_all {P A} (f : A → ST P bool) (l : list A) : ST P bool :=
  match l with
  | [] => mret true
  | x :: l => f x ;! write_all f l
  end.
Fixpoint try_read_n {P A} (n : nat) (m : ST P (option A)) : ST P (option (list A)) :=
  match n with
  | O => mret (Some [])
  | S n =>
      x ← m;
      match x with
      | None => mret None
      | Some x =>
          xs ← try_read_n n m;
          mret (match xs with None => None | Some xs => Some (x :: xs) end)
      end
  end.

(** The packets of the driver's interfaces V1_2 and V2_0 have the same members. *)
Record UsbIsoPacketDescriptor := mk_UsbIsoPacketDescriptor {
  isoLength : Z; isoActualLength : Z; isoStatus : Z }.

(** [struct_parcel.h:28-28] [MAX_NUM_OF_ISO_PACKAGE] *)
Definition MAX_NUM_OF_ISO_PACKAGE : Z := 15000.

Class Parcelable (P A : Type) := {
  marshal : A → ST P bool;
  unmarshal : ST P (option A);
}.
Class ParcelableLaws (P A : Type) `{Parcelable P A} (contents : P → list pitem) := {
  wire : A → list pitem;
  sendable : A → Prop;
  marshal_writes x : writes contents (marshal x) (wire x);
  unmarshal_reads x : sendable x → reads contents unmarshal (wire x) (Some x);
}.

(** ** The codecs *)
Section Codecs.
Context {P : Type} `{MessageParcel P}.

(** [struct_parcel.cpp:21-34] [UsbIsoParcel::Marshalling] *)
Definition UsbIsoParcel_Marshalling (isoInfo : UsbIsoPacketDescriptor) : ST P bool :=
  WriteInt32 (isoLength isoInfo) ;!
  WriteInt32 (isoActualLength isoInfo) ;!
  WriteInt32 (isoStatus isoInfo) ;!
  mret true.

(** [struct_parcel.cpp:36-47] [UsbIsoParcel::Unmarshalling] *)
Definition UsbIsoParcel_Unmarshalling : ST P (option UsbIsoPacketDescriptor) :=
  isoLength ← ReadInt32;
  isoActualLength ← ReadInt32;
  isoStatus ← ReadInt32;
  mret (Some (mk_UsbIsoPacketDescriptor isoLength isoActualLength isoStatus)).

(** [struct_parcel.cpp:49-70] [UsbIsoVecParcel::Marshalling] *)
Definition UsbIsoVecParcel_Marshalling (isoInfoVec : list UsbIsoPacketDescriptor) : ST P bool :=
  let vecSize := u32 (Z.of_nat (length isoInfoVec)) in
  WriteUint32 vecSize ;!
  write_all (λ isoInfo, WriteParcelable (UsbIsoParcel_Marshalling isoInfo))
    (take (Z.to_nat vecSize) isoInfoVec).

(** [struct_parcel.cpp:72-101] [UsbIsoVecParcel::Unmarshalling] *)
Definition UsbIsoVecParcel_Unmarshalling : ST P (option (list UsbIsoPacketDescriptor)) :=
  vecSize ← TryReadUint32;
  match vecSize with
  | None => mret None
  | Some vecSize =>
      if MAX_NUM_OF_ISO_PACKAGE <? vecSize then mret None
      else try_read_n (Z.to_nat vecSize) (ReadParcelable UsbIsoParcel_Unmarshalling)
  end.

(** [struct_parcel.cpp:104-117] [UsbPassIsoParcel::Marshalling] *)
Definition UsbPassIsoParcel_Marshalling (isoInfo : UsbIsoPacketDescriptor) : ST P bool :=
  WriteInt32 (isoLength isoInfo) ;!
  WriteInt32 (isoActualLength isoInfo) ;!
  WriteInt32 (isoStatus isoInfo) ;!
  mret true.

(** [struct_parcel.cpp:119-130] [UsbPassIsoParcel::Unmarshalling] *)
Definition UsbPassIsoParcel_Unmarshalling : ST P (option UsbIsoPacketDescriptor) :=
  isoLength ← ReadInt32;
  isoActualLength ← ReadInt32;
  isoStatus ← ReadInt32;
  mret (Some (mk_UsbIsoPacketDescriptor isoLength isoActualLength isoStatus)).

(** [struct_parcel.cpp:132-152] [UsbPassIsoVecParcel::Marshalling] *)
Definition UsbPassIsoVecParcel_Marshalling (isoInfoVec : list UsbIsoPacketDescriptor)
    : ST P bool :=
  let vecSize := u32 (Z.of_nat (length isoInfoVec)) in
  WriteUint32 vecSize ;!
  write_all (λ isoInfo, WriteParcelable (UsbPassIsoParcel_Marshalling isoInfo))
    (take (Z.to_nat vecSize) isoInfoVec).

(** [struct_parcel.cpp:154-183] [UsbPassIsoVecParcel::Unmarshalling] *)
Definition UsbPassIsoVecParcel_Unmarshalling : ST P (option (list UsbIsoPacketDescriptor)) :=
  vecSize ← TryReadUint32;
  match vecSize with
  | None => mret None
  | Some vecSize =>
      if MAX_NUM_OF_ISO_PACKAGE <? vecSize then mret None
      else try_read_n (Z.to_nat vecSize) (ReadParcelable UsbPassIsoParcel_Unmarshalling)
  end.

(** [usb_bulk_trans_data.h:33-52] [Marshalling] *)
Definition UsbBulkTransData_Marshalling (data_ : list Z) : ST P bool :=
  let length_ := u32 (Z.of_nat (length data_)) in
  WriteUint32 length_ ;!
  if 0 <? length_ then WriteBuffer (take (Z.to_nat length_) data_) ;! mret true
  else mret true.

(** [usb_bulk_trans_data.h:54-78] [Unmarshalling] the data that could not be read are no data *)
Definition UsbBulkTransData_Unmarshalling : ST P (option (list Z)) :=
  dataSize ← TryReadUint32;
  match dataSize with
  | None => mret (Some [])
  | Some dataSize =>
      if dataSize =? 0 then mret (Some [])
      else
        readData ← ReadUnpadBuffer dataSize;
        mret (Some (default [] readData))
  end.

(** [usb_interface_type.cpp:20-27] [UsbDeviceType::Marshalling] *)
Definition UsbDeviceType_Marshalling (d : UsbDeviceType) : ST P bool :=
  WriteInt32 (t_baseClass d) ;!
  WriteInt32 (t_subClass d) ;!
  WriteInt32 (t_protocol d) ;!
  WriteBool (isDeviceType d) ;!
  mret true.

(** [usb_interface_type.cpp:34-41] [UsbDeviceType::ReadFromParcel] *)
Definition UsbDeviceType_ReadFromParcel : ST P UsbDeviceType :=
  baseClass ← ReadInt32;
  subClass ← ReadInt32;
  protocol ← ReadInt32;
  isDeviceType ← ReadBool;
  mret (mk_UsbDeviceType baseClass subClass protocol isDeviceType).
(** [usb_interface_type.cpp:29-32] [UsbDeviceType::Unmarshalling] *)
Definition UsbDeviceType_Unmarshalling : ST P (option UsbDeviceType) :=
  usbDeviceType ← UsbDeviceType_ReadFromParcel;
  mret (Some usbDeviceType).

(** [usb_port.h:36-44] [Marshalling] *)
Definition UsbPort_Marshalling (p : UsbPort) : ST P bool :=
  WriteInt32 (PortManager.id p) ;!
  WriteInt32 (supportedModes p) ;!
  WriteInt32 (currentMode (usbPortStatus p)) ;!
  WriteInt32 (currentPowerRole (usbPortStatus p)) ;!
  WriteInt32 (currentDataRole (usbPortStatus p)) ;!
  mret true.

(** [usb_port.h:46-58] [Unmarshalling] *)
Definition UsbPort_Unmarshalling : ST P (option UsbPort) :=
  id ← ReadInt32;
  supportedModes ← ReadInt32;
  currentMode ← ReadInt32;
  currentPowerRole ← ReadInt32;
  currentDataRole ← ReadInt32;
  mret (Some (mk_UsbPort id supportedModes
                (mk_UsbPortStatus currentMode currentPowerRole currentDataRole))).

(** [usb_accessory.h:61-69] [Marshalling] *)
Definition USBAccessory_Marshalling (a : USBAccessory.t) : ST P bool :=
  WriteString (USBAccessory.manufacturer_ a) ;!
  WriteString (USBAccessory.product_ a) ;!
  WriteString (USBAccessory.description_ a) ;!
  WriteString (USBAccessory.version_ a) ;!
  WriteString (USBAccessory.serialNumber_ a) ;!
  mret true.

(** [usb_accessory.h:71-83] [Unmarshalling] *)
Definition USBAccessory_Unmarshalling : ST P (option USBAccessory.t) :=
  manufacturer ← ReadString;
  product ← ReadString;
  description ← ReadString;
  version ← ReadString;
  serialNumber ← ReadString;
  mret (Some (USBAccessory.mk manufacturer product description version serialNumber)).

(** [usb_serial_type.h:32-41] [Marshalling] *)
Definition UsbSerialPort_Marshalling (p : UsbSerialPort) : ST P bool :=
  WriteInt32 (usp_portId_ p) ;!
  WriteUint8 (usp_busNum_ p) ;!
  WriteUint8 (usp_devAddr_ p) ;!
  WriteInt32 (usp_vid_ p) ;!
  WriteInt32 (usp_pid_ p) ;!
  WriteString (usp_serialNum_ p) ;!
  mret true.

(** [usb_serial_type.h:43-57] [Unmarshalling] *)
Definition UsbSerialPort_Unmarshalling : ST P (option UsbSerialPort) :=
  portId ← ReadInt32;
  busNum ← ReadUint8;
  devAddr ← ReadUint8;
  vid ← ReadInt32;
  pid ← ReadInt32;
  serialNum ← ReadString;
  mret (Some (mk_UsbSerialPort portId busNum devAddr vid pid serialNum)).

(** [usb_serial_type.h:66-73] [Marshalling] *)
Definition UsbSerialAttr_Marshalling (a : UsbSerialAttr) : ST P bool :=
  WriteUint32 (baudRate_ a) ;!
  WriteUint8 (stopBits_ a) ;!
  WriteUint8 (parity_ a) ;!
  WriteUint8 (dataBits_ a) ;!
  mret true.

(** [usb_serial_type.h:75-87] [Unmarshalling] *)
Definition UsbSerialAttr_Unmarshalling : ST P (option UsbSerialAttr) :=
  baudRate ← ReadUint32;
  stopBits ← ReadUint8;
  parity ← ReadUint8;
  dataBits ← ReadUint8;
  mret (Some (mk_UsbSerialAttr baudRate dataBits parity stopBits)).
End Codecs.

(** ** Wire formats *)
Section Rules.
Context {P : Type} (contents : P → list pitem).

Lemma write_all_writes {A} (f : A → ST P bool) (g : A → list pitem) l :
  (∀ x, writes contents (f x) (g x)) → writes contents (write_all f l) (concat (g <$> l)).
Proof.
  intros Hf. induction l as [|x l IH]; [apply writes_true|]. csimpl.
  by apply writes_seq.
Qed.

Lemma try_read_n_reads {A} (m : ST P (option A)) (g : A → list pitem) l :
  Forall (λ x, reads contents m (g x) (Some x)) l →
  reads contents (try_read_n (length l) m) (concat (g <$> l)) (Some l).
Proof.
  induction 1 as [|x l Hx _ IH]; simpl; [apply reads_ret|].
  eapply reads_bind; [exact Hx|]. cbn.
  rewrite <- (app_nil_r (concat _)). eapply reads_bind; [exact IH|]. apply reads_ret.
Qed.
End Rules.

(** A step that writes or reads one item. *)
Ltac message_write_steps :=
  repeat first
    [ apply writes_true
    | eapply (writes_seq _ _ _ [_]);
      [ first [ apply write_bool | apply write_uint64 | apply write_token | apply write_buffer
              | apply write_uint8 | apply write_uint32 | apply write_int32 | apply write_string ] | ] ].
Ltac message_read_steps :=
  repeat first
    [ apply reads_ret
    | eapply reads_one;
      [ first [ apply read_bool | apply read_token | apply try_read_int32
              | apply try_read_uint32 | apply try_read_uint64
              | apply read_uint8 | apply read_uint32 | apply read_int32 | apply read_string ]
      | cbn beta iota ] ].

(** Each type with its parcel: what it writes, and which values survive. *)
Section Instances.
Context {P : Type} `{MessageParcel P}.

#[export] Instance iso_packet_parcelable : Parcelable P UsbIsoPacketDescriptor :=
  { marshal := UsbIsoParcel_Marshalling; unmarshal := UsbIsoParcel_Unmarshalling }.
#[export] Instance iso_packets_parcelable : Parcelable P (list UsbIsoPacketDescriptor) :=
  { marshal := UsbIsoVecParcel_Marshalling; unmarshal := UsbIsoVecParcel_Unmarshalling }.
#[export] Instance device_type_parcelable : Parcelable P UsbDeviceType :=
  { marshal := UsbDeviceType_Marshalling; unmarshal := UsbDeviceType_Unmarshalling }.
#[export] Instance port_parcelable : Parcelable P UsbPort :=
  { marshal := UsbPort_Marshalling; unmarshal := UsbPort_Unmarshalling }.
#[export] Instance accessory_parcelable : Parcelable P USBAccessory.t :=
  { marshal := USBAccessory_Marshalling; unmarshal := USBAccessory_Unmarshalling }.
#[export] Instance serial_port_parcelable : Parcelable P UsbSerialPort :=
  { marshal := UsbSerialPort_Marshalling; unmarshal := UsbSerialPort_Unmarshalling }.
#[export] Instance serial_attr_parcelable : Parcelable P UsbSerialAttr :=
  { marshal := UsbSerialAttr_Marshalling; unmarshal := UsbSerialAttr_Unmarshalling }.
#[export] Instance bulk_data_parcelable : Parcelable P (list Z) :=
  { marshal := UsbBulkTransData_Marshalling; unmarshal := UsbBulkTransData_Unmarshalling }.

(** The packets of the two builds are the same on the wire. *)
Lemma pass_marshalling : UsbPassIsoVecParcel_Marshalling = UsbIsoVecParcel_Marshalling.
Proof. done. Qed.
Lemma pass_unmarshalling : UsbPassIsoVecParcel_Unmarshalling = UsbIsoVecParcel_Unmarshalling.
Proof. done. Qed.
End Instances.

(** Every integer member holds a value of its C++ type. *)
Definition typed_packet (i : UsbIsoPacketDescriptor) : Prop :=
  is_i32 (isoLength i) ∧ is_i32 (isoActualLength i) ∧ is_i32 (isoStatus i).
Definition typed_device_type (d : UsbDeviceType) : Prop :=
  is_i32 (t_baseClass d) ∧ is_i32 (t_subClass d) ∧ is_i32 (t_protocol d).
Definition typed_port (p : UsbPort) : Prop :=
  is_i32 (PortManager.id p) ∧ is_i32 (supportedModes p) ∧ is_i32 (currentMode (usbPortStatus p)) ∧
  is_i32 (currentPowerRole (usbPortStatus p)) ∧ is_i32 (currentDataRole (usbPortStatus p)).
Definition typed_serial_port (p : UsbSerialPort) : Prop :=
  is_i32 (usp_portId_ p) ∧ is_i32 (usp_vid_ p) ∧ is_i32 (usp_pid_ p).

Definition packet_items (i : UsbIsoPacketDescriptor) : list pitem :=
  [PW32 (u32 (isoLength i)); PW32 (u32 (isoActualLength i)); PW32 (u32 (isoStatus i))].
Definition packets_items (l : list UsbIsoPacketDescriptor) : list pitem :=
  let n := u32 (Z.of_nat (length l)) in
  PW32 n :: concat ((λ i, PObject :: packet_items i) <$> take (Z.to_nat n) l).
Definition bulk_items (l : list Z) : list pitem :=
  let n := u32 (Z.of_nat (length l)) in
  PW32 n :: (if 0 <? n then [PBuf (take (Z.to_nat n) l)] else []).

Section Laws.
Context {P : Type} `{MessageParcel P} (contents : P → list pitem) `{!ParcelLaws P contents}
  `{!MessageLaws P contents} `{!ReliableParcel P contents} `{!ReliableMessage P contents}.

Lemma packet_reads i :
  typed_packet i → reads contents UsbIsoParcel_Unmarshalling (packet_items i) (Some i).
Proof.
  intros (Hl & Ha & Hs). unfold UsbIsoParcel_Unmarshalling, packet_items.
  message_read_steps. rewrite !i32_u32 by done. destruct i. apply reads_ret.
Qed.

Lemma packets_writes l : writes contents (UsbIsoVecParcel_Marshalling l) (packets_items l).
Proof.
  unfold UsbIsoVecParcel_Marshalling, packets_items. cbv zeta.
  eapply (writes_seq _ _ _ [_]); [apply write_uint32|].
  apply write_all_writes. intros i. apply write_parcelable.
  unfold UsbIsoParcel_Marshalling, packet_items. message_write_steps.
Qed.

Lemma packets_reads l :
  Forall typed_packet l → Z.of_nat (length l) <= MAX_NUM_OF_ISO_PACKAGE →
  reads contents UsbIsoVecParcel_Unmarshalling (packets_items l) (Some l).
Proof.
  intros Hl Hn. unfold MAX_NUM_OF_ISO_PACKAGE in Hn. unfold UsbIsoVecParcel_Unmarshalling, packets_items.
  rewrite u32_id by width_lia. eapply reads_one; [apply try_read_uint32|]. cbn beta iota.
  unfold MAX_NUM_OF_ISO_PACKAGE. replace (15000 <? _) with false by lia.
  rewrite Nat2Z.id, take_ge by done. apply try_read_n_reads.
  eapply Forall_impl; [exact Hl|]. intros i Hi. by apply read_parcelable, packet_reads.
Qed.

(** A longer vector is refused at its length: the client reads a null pointer. *)
Lemma packets_refused n :
  MAX_NUM_OF_ISO_PACKAGE < n → reads contents UsbIsoVecParcel_Unmarshalling [PW32 n] None.
Proof.
  intros Hn. unfold UsbIsoVecParcel_Unmarshalling. eapply reads_one; [apply try_read_uint32|].
  cbn beta iota. replace (_ <? _) with true by lia. apply reads_ret.
Qed.
End Laws.

(** Every type keeps its interface. *)
Section ParcelableInstances.
Context {P : Type} `{MessageParcel P} (contents : P → list pitem) `{!ParcelLaws P contents}
  `{!MessageLaws P contents} `{!ReliableParcel P contents} `{!ReliableMessage P contents}.

#[export] Program Instance packet_laws : ParcelableLaws P UsbIsoPacketDescriptor contents :=
  { wire := packet_items; sendable := typed_packet }.
Next Obligation. intros i. simpl. unfold UsbIsoParcel_Marshalling. message_write_steps. Qed.
Next Obligation. intros i Hi. by apply packet_reads. Qed.

#[export] Program Instance packets_laws : ParcelableLaws P (list UsbIsoPacketDescriptor) contents :=
  { wire := packets_items;
    sendable l := Forall typed_packet l ∧ Z.of_nat (length l) <= MAX_NUM_OF_ISO_PACKAGE }.
Next Obligation. intros l. by apply packets_writes. Qed.
Next Obligation. intros l [? ?]. by apply packets_reads. Qed.

#[export] Program Instance device_type_laws : ParcelableLaws P UsbDeviceType contents :=
  { wire d := [PW32 (u32 (t_baseClass d)); PW32 (u32 (t_subClass d)); PW32 (u32 (t_protocol d));
               PBool (isDeviceType d)];
    sendable := typed_device_type }.
Next Obligation. intros d. simpl. unfold UsbDeviceType_Marshalling. message_write_steps. Qed.
Next Obligation.
  intros d (H1 & H2 & H3). simpl. unfold UsbDeviceType_Unmarshalling, UsbDeviceType_ReadFromParcel.
  rewrite <- (app_nil_r [_; _; _; _]). eapply reads_bind; [message_read_steps|].
  rewrite !i32_u32 by done. destruct d. apply reads_ret.
Qed.

#[export] Program Instance port_laws : ParcelableLaws P UsbPort contents :=
  { wire p := [PW32 (u32 (PortManager.id p)); PW32 (u32 (supportedModes p));
               PW32 (u32 (currentMode (usbPortStatus p)));
               PW32 (u32 (currentPowerRole (usbPortStatus p)));
               PW32 (u32 (currentDataRole (usbPortStatus p)))];
    sendable := typed_port }.
Next Obligation. intros p. simpl. unfold UsbPort_Marshalling. message_write_steps. Qed.
Next Obligation.
  intros p (H1 & H2 & H3 & H4 & H5). simpl. unfold UsbPort_Unmarshalling. message_read_steps.
  rewrite !i32_u32 by done. destruct p as [? ? []]. apply reads_ret.
Qed.

#[export] Program Instance accessory_laws : ParcelableLaws P USBAccessory.t contents :=
  { wire a := [PStr (USBAccessory.manufacturer_ a); PStr (USBAccessory.product_ a);
               PStr (USBAccessory.description_ a); PStr (USBAccessory.version_ a);
               PStr (USBAccessory.serialNumber_ a)];
    sendable _ := True }.
Next Obligation. intros a. simpl. unfold USBAccessory_Marshalling. message_write_steps. Qed.
Next Obligation.
  intros a _. simpl. unfold USBAccessory_Unmarshalling. message_read_steps.
  destruct a. apply reads_ret.
Qed.

#[export] Program Instance serial_port_laws : ParcelableLaws P UsbSerialPort contents :=
  { wire p := [PW32 (u32 (usp_portId_ p)); PU8 (usp_busNum_ p); PU8 (usp_devAddr_ p);
               PW32 (u32 (usp_vid_ p)); PW32 (u32 (usp_pid_ p)); PStr (usp_serialNum_ p)];
    sendable := typed_serial_port }.
Next Obligation. intros p. simpl. unfold UsbSerialPort_Marshalling. message_write_steps. Qed.
Next Obligation.
  intros p (H1 & H2 & H3). simpl. unfold UsbSerialPort_Unmarshalling. message_read_steps.
  rewrite !i32_u32 by done. destruct p. apply reads_ret.
Qed.

#[export] Program Instance serial_attr_laws : ParcelableLaws P UsbSerialAttr contents :=
  { wire a := [PW32 (baudRate_ a); PU8 (stopBits_ a); PU8 (parity_ a); PU8 (dataBits_ a)];
    sendable _ := True }.
Next Obligation. intros a. simpl. unfold UsbSerialAttr_Marshalling. message_write_steps. Qed.
Next Obligation.
  intros a _. simpl. unfold UsbSerialAttr_Unmarshalling. message_read_steps.
  destruct a. apply reads_ret.
Qed.

#[export] Program Instance bulk_data_laws : ParcelableLaws P (list Z) contents :=
  { wire := bulk_items; sendable l := is_u32 (Z.of_nat (length l)) }.
Next Obligation.
  intros l. simpl. unfold UsbBulkTransData_Marshalling, bulk_items. cbv zeta.
  eapply (writes_seq _ _ _ [_]); [apply write_uint32|].
  destruct (0 <? _); message_write_steps.
Qed.
Next Obligation.
  intros l Hl. simpl. unfold UsbBulkTransData_Unmarshalling, bulk_items. cbv zeta.
  rewrite u32_id by done. eapply reads_one; [apply try_read_uint32|]. cbn beta iota.
  destruct (Z.of_nat (length l) =? 0) eqn:E.
  - destruct l; [apply reads_ret | simpl in E; lia].
  - replace (0 <? _) with true by lia. rewrite Nat2Z.id, take_ge by done.
    eapply reads_one; [apply read_buffer|]. apply reads_ret.
Qed.

(** What one end marshals the other end unmarshals, and nothing is left over. *)
Lemma parcelable_roundtrip {A} `{L : ParcelableLaws P A contents} (x : A) (p : P) :
  sendable x → contents p = [] →
  result (marshal x) p = true ∧
  result unmarshal (after (marshal x) p) = Some x ∧
  contents (after unmarshal (after (marshal x) p)) = [].
Proof.
  intros Hx Hp. destruct (marshal_writes x p) as [Hw Hc]. split; [done|].
  apply (unmarshal_reads x Hx). by rewrite Hc, Hp, app_nil_r.
Qed.
End ParcelableInstances.

Section Survival.
Context {P : Type} `{MessageParcel P} (contents : P → list pitem) `{!ParcelLaws P contents}
  `{!MessageLaws P contents} `{!ReliableParcel P contents} `{!ReliableMessage P contents}.

(** What is marshalled into [p] is unmarshalled from it. *)
Definition survives {A} `{Parcelable P A} (p : P) (x : A) : Prop :=
  result (marshal x) p = true ∧
  result unmarshal (after (marshal x) p) = Some x ∧
  contents (after unmarshal (after (marshal x) p)) = [].

(** Every value of the types that the service and its clients exchange (ports,
    accessories, serial ports and their attributes, interface types, bulk data, and up to
    15000 isochronous packets) is unmarshalled from an empty parcel as it was marshalled,
    and leaves the parcel empty. *)
Theorem parcels_roundtrip (p : P) (Hp : contents p = []) :
  (∀ x : UsbPort, typed_port x → survives p x) ∧
  (∀ x : USBAccessory.t, survives p x) ∧
  (∀ x : UsbSerialPort, typed_serial_port x → survives p x) ∧
  (∀ x : UsbSerialAttr, survives p x) ∧
  (∀ x : UsbDeviceType, typed_device_type x → survives p x) ∧
  (∀ x : list Z, is_u32 (Z.of_nat (length x)) → survives p x) ∧
  (∀ x : list UsbIsoPacketDescriptor, Forall typed_packet x →
     Z.of_nat (length x) <= MAX_NUM_OF_ISO_PACKAGE → survives p x).
Proof.
  unfold survives. repeat split; try (eapply parcelable_roundtrip; [|done]; done).
Qed.
End Survival.

(** ** The concrete parcel *)
#[export] Instance list_message : MessageParcel (list pitem) := {
  new_parcel := [];
  WriteBool b := push (PBool b);
  WriteUint64 z := push (PW64 z);
  WriteInterfaceToken s := push (PToken s);
  WriteBuffer l := push (PBuf l);
  WriteParcelable m := λ p, m (p ++ [PObject]);
  ReadBool := pop (λ x, match x with PBool b => Some b | _ => None end) false;
  ReadInterfaceToken := pop (λ x, match x with PToken s => Some s | _ => None end) "";
  ReadUnpadBuffer n :=
    pop (λ x, match x with
              | PBuf l => if n =? Z.of_nat (length l) then Some (Some l) else None
              | _ => None
              end) None;
  TryReadInt32 := pop (λ x, match x with PW32 z => Some (Some (i32 z)) | _ => None end) None;
  TryReadUint32 := pop (λ x, match x with PW32 z => Some (Some z) | _ => None end) None;
  TryReadUint64 := pop (λ x, match x with PW64 z => Some (Some z) | _ => None end) None;
  ReadParcelable A m := λ p, match p with PObject :: p' => m p' | _ => (None, p) end;
}.

#[export] Instance list_message_laws : MessageLaws (list pitem) Datatypes.id.
Proof.
  constructor; try (intros z p rest Hp; simpl in Hp; by rewrite Hp); [done| |].
  - intros l p rest Hp. simpl in Hp. unfold result, after. rewrite Hp. simpl.
    by rewrite Z.eqb_refl.
  - intros A m xs a Hm p rest Hp. simpl in Hp. unfold result, after. rewrite Hp. simpl.
    by apply Hm.
Qed.
#[export] Instance list_message_reliable : ReliableMessage (list pitem) Datatypes.id.
Proof.
  constructor; try by constructor.
  intros m xs Hm p. unfold result, after. simpl.
  destruct (Hm (p ++ [PObject])) as [Hr Ha]. unfold result, after in *. simpl in *.
  split; [done|]. by rewrite Ha, <- app_assoc.
Qed.

Definition sample_packets : list UsbIsoPacketDescriptor :=
  [mk_UsbIsoPacketDescriptor 188 188 0; mk_UsbIsoPacketDescriptor 188 0 (-1)].

Lemma sample_packets_typed : Forall typed_packet sample_packets.
Proof. unfold typed_packet. repeat constructor; simpl; width_lia. Qed.

Lemma parcels_roundtrip_witness : survives (P := list pitem) Datatypes.id [] sample_packets.
Proof.
  apply (parcels_roundtrip (P := list pitem) Datatypes.id [] eq_refl);
    [apply sample_packets_typed | vm_compute; discriminate].
Defined.

Example sample_packets_parcel :
  after (S := list pitem) (marshal sample_packets) [] =
    [PW32 2; PObject; PW32 188; PW32 188; PW32 0; PObject; PW32 188; PW32 0; PW32 4294967295].
Proof. reflexivity. Qed.
