(* ===== verification/Callbacks.v ===== *)
(** * The callbacks of transfers

    How the completion of a transfer travels from the driver to the client that submitted
    it: the service wraps the client's remote object
    ([services/native/src/usb_transfer_callback_impl.cpp], [usb_bulkcallback_impl.cpp], and
    [usbd_transfer_callback_impl.cpp], [usbd_bulkcallback_impl.cpp] of the other build), and
    the client's stub ([interfaces/innerkits/native/src/usbd_callback_stub.cpp],
    [usbd_callback_server.cpp], [usbd_bulk_callback.cpp]) unpacks the message and calls the
    application.

    The class [RemoteObject] is the IPC proxy; [delivered] connects it to the stub.  The
    application's callback is recorded in [calls], oldest first. *)

From S2P Require Import Prelude UsbErrors Marshalling Parcels.

#[local] Set Default Goal Selector "!".
#[local] Open Scope usb_scope.

Class RemoteObject (P W : Type) := {
  GetInterfaceDescriptor : W → string;
  SendRequest : Z → P → ST W Z;
}.

(** [usbd_callback_stub.h:25-28] [UsbdStubCallBack] the codes, in the order of the enumeration *)
Definition CMD_USBD_TRANSFER_CALLBACK_READ : Z := 0.
Definition CMD_USBD_TRANSFER_CALLBACK_WRITE : Z := 1.
(** [usbd_callback_stub.h:30-30] [UsbdStubCallBack::UsbdStubCallBack] the descriptor *)
Definition UsbdStubCallBack_descriptor : string := "UsbdStubCallback.V1_2"%string.
(** [usbd_bulk_callback.h:24-27] [UsbdBulkCallBack] *)
Definition CMD_USBD_BULK_CALLBACK_READ : Z := 0.
Definition CMD_USBD_BULK_CALLBACK_WRITE : Z := 1.
(** [usbd_bulk_callback.h:29-29] [UsbdBulkCallBack::UsbdBulkCallBack] *)
Definition UsbdBulkCallBack_descriptor : string := "UsbdBulkCallback.V1_0"%string.

(** ** The service's side *)
Section Messages.
Context {P : Type} `{MessageParcel P}.

(** The writes that each callback of a transfer starts with, in each build, and those of a
    bulk callback; the code gives up at the first that fails. *)
Definition pass_message (descriptor : string) (status actLength : Z)
    (isoInfo : list UsbIsoPacketDescriptor) (userData : Z) : ST P bool :=
  WriteInterfaceToken descriptor ;!
  WriteParcelable (UsbPassIsoVecParcel_Marshalling isoInfo) ;!
  WriteInt32 status ;!
  WriteInt32 actLength ;!
  WriteUint64 userData ;!
  mret true.
Definition transfer_message (descriptor : string) (status actLength : Z)
    (isoInfo : list UsbIsoPacketDescriptor) (userData : Z) : ST P bool :=
  WriteInterfaceToken descriptor ;!
  WriteParcelable (UsbIsoVecParcel_Marshalling isoInfo) ;!
  WriteInt32 status ;!
  WriteInt32 actLength ;!
  WriteUint64 userData ;!
  mret true.
Definition bulk_message (descriptor : string) (status actLength : Z) : ST P bool :=
  WriteInterfaceToken descriptor ;!
  WriteInt32 status ;!
  WriteInt32 actLength ;!
  mret true.
End Messages.

Section Impl.
Context {P W : Type} `{MessageParcel P} `{!RemoteObject P W} `{EB : ErrBase}.
Variable remote_ : bool.

(** [usb_transfer_callback_impl.cpp:26-66] [UsbTransferCallbackImpl::OnTransferWriteCallback] *)
Definition UsbTransferCallbackImpl_OnTransferWriteCallback (status actLength : Z)
    (isoInfo : list UsbIsoPacketDescriptor) (userData : Z) : ST W Z :=
  if negb remote_ then mret UEC_SERVICE_INVALID_VALUE
  else
    descriptor ← gets GetInterfaceDescriptor;
    let '(written, data) :=
      run (pass_message descriptor status actLength isoInfo userData) new_parcel in
    if negb written then mret UEC_SERVICE_INVALID_VALUE
    else
      ret ← SendRequest CMD_USBD_TRANSFER_CALLBACK_WRITE data;
      if failed ret then mret ret else mret UEC_OK.

(** [usb_transfer_callback_impl.cpp:68-107] [UsbTransferCallbackImpl::OnTransferReadCallback] *)
Definition UsbTransferCallbackImpl_OnTransferReadCallback (status actLength : Z)
    (isoInfo : list UsbIsoPacketDescriptor) (userData : Z) : ST W Z :=
  if negb remote_ then mret UEC_SERVICE_INVALID_VALUE
  else
    descriptor ← gets GetInterfaceDescriptor;
    let '(written, data) :=
      run (pass_message descriptor status actLength isoInfo userData) new_parcel in
    if negb written then mret UEC_SERVICE_INVALID_VALUE
    else
      ret ← SendRequest CMD_USBD_TRANSFER_CALLBACK_READ data;
      if failed ret then mret ret else mret UEC_OK.

(** [usbd_transfer_callback_impl.cpp:26-66] [UsbdTransferCallbackImpl::OnTransferWriteCallback] *)
Definition UsbdTransferCallbackImpl_OnTransferWriteCallback (status actLength : Z)
    (isoInfo : list UsbIsoPacketDescriptor) (userData : Z) : ST W Z :=
  if negb remote_ then mret UEC_SERVICE_INVALID_VALUE
  else
    descriptor ← gets GetInterfaceDescriptor;
    let '(written, data) :=
      run (transfer_message descriptor status actLength isoInfo userData) new_parcel in
    if negb written then mret UEC_SERVICE_INVALID_VALUE
    else
      ret ← SendRequest CMD_USBD_TRANSFER_CALLBACK_WRITE data;
      if failed ret then mret ret else mret UEC_OK.

(** [usbd_transfer_callback_impl.cpp:68-107] [UsbdTransferCallbackImpl::OnTransferReadCallback] *)
Definition UsbdTransferCallbackImpl_OnTransferReadCallback (status actLength : Z)
    (isoInfo : list UsbIsoPacketDescriptor) (userData : Z) : ST W Z :=
  if negb remote_ then mret UEC_SERVICE_INVALID_VALUE
  else
    descriptor ← gets GetInterfaceDescriptor;
    let '(written, data) :=
      run (transfer_message descriptor status actLength isoInfo userData) new_parcel in
    if negb written then mret UEC_SERVICE_INVALID_VALUE
    else
      ret ← SendRequest CMD_USBD_TRANSFER_CALLBACK_READ data;
      if failed ret then mret ret else mret UEC_OK.

(** [usb_bulkcallback_impl.cpp:25-52] [UsbBulkCallbackImpl::OnBulkWriteCallback] *)
Definition UsbBulkCallbackImpl_OnBulkWriteCallback (status actLength : Z) : ST W Z :=
  if negb remote_ then mret UEC_SERVICE_INVALID_VALUE
  else
    descriptor ← gets GetInterfaceDescriptor;
    let '(written, data) :=
      run (bulk_message descriptor status actLength) new_parcel in
    if negb written then mret UEC_SERVICE_INVALID_VALUE
    else
      ret ← SendRequest CMD_USBD_BULK_CALLBACK_WRITE data;
      if failed ret then mret ret else mret UEC_OK.

(** [usb_bulkcallback_impl.cpp:54-81] [UsbBulkCallbackImpl::OnBulkReadCallback] *)
Definition UsbBulkCallbackImpl_OnBulkReadCallback (status actLength : Z) : ST W Z :=
  if negb remote_ then mret UEC_SERVICE_INVALID_VALUE
  else
    descriptor ← gets GetInterfaceDescriptor;
    let '(written, data) :=
      run (bulk_message descriptor status actLength) new_parcel in
    if negb written then mret UEC_SERVICE_INVALID_VALUE
    else
      ret ← SendRequest CMD_USBD_BULK_CALLBACK_READ data;
      if failed ret then mret ret else mret UEC_OK.

(** [usbd_bulkcallback_impl.cpp:25-52] [UsbdBulkCallbackImpl::OnBulkWriteCallback] *)
Definition UsbdBulkCallbackImpl_OnBulkWriteCallback (status actLength : Z) : ST W Z :=
  if negb remote_ then mret UEC_SERVICE_INVALID_VALUE
  else
    descriptor ← gets GetInterfaceDescriptor;
    let '(written, data) :=
      run (bulk_message descriptor status actLength) new_parcel in
    if negb written then mret UEC_SERVICE_INVALID_VALUE
    else
      ret ← SendRequest CMD_USBD_BULK_CALLBACK_WRITE data;
      if failed ret then mret ret else mret UEC_OK.

(** [usbd_bulkcallback_impl.cpp:54-81] [UsbdBulkCallbackImpl::OnBulkReadCallback] *)
Definition UsbdBulkCallbackImpl_OnBulkReadCallback (status actLength : Z) : ST W Z :=
  if negb remote_ then mret UEC_SERVICE_INVALID_VALUE
  else
    descriptor ← gets GetInterfaceDescriptor;
    let '(written, data) :=
      run (bulk_message descriptor status actLength) new_parcel in
    if negb written then mret UEC_SERVICE_INVALID_VALUE
    else
      ret ← SendRequest CMD_USBD_BULK_CALLBACK_READ data;
      if failed ret then mret ret else mret UEC_OK.
End Impl.

(** ** The client's side *)

(** [iusb_srv.h:32-36] [TransferCallbackInfo] *)
Record TransferCallbackInfo := mk_TransferCallbackInfo { status : Z; actualLength : Z }.

(** [usbd_callback_server.h:35-38] [UsbdCallBackServer] the members; the calls of [callback_] are recorded *)
Record UsbdCallBackServer := mk_UsbdCallBackServer {
  isoInfo_ : list UsbIsoPacketDescriptor;
  info_ : TransferCallbackInfo;
  calls : list (TransferCallbackInfo * list UsbIsoPacketDescriptor * Z) }.

Definition callback_ (info : TransferCallbackInfo) (isoInfo : list UsbIsoPacketDescriptor)
    (userData : Z) : ST UsbdCallBackServer unit :=
  modify (λ s, mk_UsbdCallBackServer (isoInfo_ s) (info_ s) (calls s ++ [(info, isoInfo, userData)])).

(** What the bulk callback of an application was told. *)
Inductive BulkCall := BulkWritten (status actLength : Z) | BulkRead (status actLength : Z).

Section Stub.
Context {P : Type} `{MessageParcel P} `{EB : ErrBase}.
Variable IPCObjectStub_OnRemoteRequest : Z → P → Z.

(** [usbd_callback_server.cpp:23-33] [UsbdCallBackServer::OnTransferWriteCallback] *)
Definition OnTransferWriteCallback (status actualLength : Z)
    (isoInfo : list UsbIsoPacketDescriptor) (userData : Z) : ST UsbdCallBackServer Z :=
  modify (λ s, mk_UsbdCallBackServer (isoInfo_ s) (mk_TransferCallbackInfo status actualLength)
                 (calls s)) ;;
  mwhen (negb (bool_decide (isoInfo = [])))
    (modify (λ s, mk_UsbdCallBackServer isoInfo (info_ s) (calls s))) ;;
  s ← get_st;
  callback_ (info_ s) (isoInfo_ s) userData ;;
  mret UEC_OK.

(** [usbd_callback_server.cpp:35-45] [UsbdCallBackServer::OnTransferReadCallback] *)
Definition OnTransferReadCallback (status actualLength : Z)
    (isoInfo : list UsbIsoPacketDescriptor) (userData : Z) : ST UsbdCallBackServer Z :=
  modify (λ s, mk_UsbdCallBackServer (isoInfo_ s) (mk_TransferCallbackInfo status actualLength)
                 (calls s)) ;;
  mwhen (negb (bool_decide (isoInfo = [])))
    (modify (λ s, mk_UsbdCallBackServer isoInfo (info_ s) (calls s))) ;;
  s ← get_st;
  callback_ (info_ s) (isoInfo_ s) userData ;;
  mret UEC_OK.

(** The four reads that both callbacks of the stub start with; [None] when one fails. *)
Definition read_report : ST P (option (list UsbIsoPacketDescriptor * Z * Z * Z)) :=
  usbIsoVecParcel ← ReadParcelable UsbIsoVecParcel_Unmarshalling;
  match usbIsoVecParcel with
  | None => mret None
  | Some isoInfoVec =>
      status ← TryReadInt32;
      match status with
      | None => mret None
      | Some status =>
          actLength ← TryReadInt32;
          match actLength with
          | None => mret None
          | Some actLength =>
              userData ← TryReadUint64;
              match userData with
              | None => mret None
              | Some userData => mret (Some (isoInfoVec, status, actLength, userData))
              end
          end
      end
  end.

(** [usbd_callback_stub.cpp:53-78] [UsbdStubCallBack::TransferWriteCallback] *)
Definition TransferWriteCallback (data : P) : ST UsbdCallBackServer Z :=
  match result read_report data with
  | None => mret UEC_SERVICE_WRITE_PARCEL_ERROR
  | Some (isoInfoVec, status, actLength, userData) =>
      OnTransferWriteCallback status actLength isoInfoVec userData
  end.

(** [usbd_callback_stub.cpp:80-105] [UsbdStubCallBack::TransferReadCallback] *)
Definition TransferReadCallback (data : P) : ST UsbdCallBackServer Z :=
  match result read_report data with
  | None => mret UEC_SERVICE_WRITE_PARCEL_ERROR
  | Some (isoInfoVec, status, actLength, userData) =>
      OnTransferReadCallback status actLength isoInfoVec userData
  end.

(** [usbd_callback_stub.cpp:22-51] [UsbdStubCallBack::OnRemoteRequest] *)
Definition UsbdStubCallBack_OnRemoteRequest (code : Z) (data : P) : ST UsbdCallBackServer Z :=
  if code =? CMD_USBD_TRANSFER_CALLBACK_WRITE then
    let '(remoteDescriptor, data) := run ReadInterfaceToken data in
    if negb (remoteDescriptor =? UsbdStubCallBack_descriptor)%string
    then mret UEC_INTERFACE_PERMISSION_DENIED
    else TransferWriteCallback data ;; mret UEC_OK
  else if code =? CMD_USBD_TRANSFER_CALLBACK_READ then
    let '(remoteDescriptor, data) := run ReadInterfaceToken data in
    if negb (remoteDescriptor =? UsbdStubCallBack_descriptor)%string
    then mret UEC_INTERFACE_PERMISSION_DENIED
    else TransferReadCallback data ;; mret UEC_OK
  else mret (IPCObjectStub_OnRemoteRequest code data).

(** [usbd_bulk_callback.cpp:22-70] [UsbdBulkCallBack::OnRemoteRequest] *)
Definition UsbdBulkCallBack_OnRemoteRequest (code : Z) (data : P) : ST (list BulkCall) Z :=
  if code =? CMD_USBD_BULK_CALLBACK_WRITE then
    let '(remoteDescriptor, data) := run ReadInterfaceToken data in
    if negb (UsbdBulkCallBack_descriptor =? remoteDescriptor)%string
    then mret UEC_INTERFACE_PERMISSION_DENIED
    else
      let '(status, data) := run TryReadInt32 data in
      match status with
      | None => mret UEC_SERVICE_WRITE_PARCEL_ERROR
      | Some status =>
          match result TryReadInt32 data with
          | None => mret UEC_SERVICE_WRITE_PARCEL_ERROR
          | Some actLength => modify (λ l, l ++ [BulkWritten status actLength]) ;; mret UEC_OK
          end
      end
  else if code =? CMD_USBD_BULK_CALLBACK_READ then
    let '(remoteDescriptor, data) := run ReadInterfaceToken data in
    if negb (UsbdBulkCallBack_descriptor =? remoteDescriptor)%string
    then mret UEC_INTERFACE_PERMISSION_DENIED
    else
      let '(status, data) := run TryReadInt32 data in
      match status with
      | None => mret UEC_SERVICE_WRITE_PARCEL_ERROR
      | Some status =>
          match result TryReadInt32 data with
          | None => mret UEC_SERVICE_WRITE_PARCEL_ERROR
          | Some actLength => modify (λ l, l ++ [BulkRead status actLength]) ;; mret UEC_OK
          end
      end
  else mret (IPCObjectStub_OnRemoteRequest code data).

(** The remote objects whose requests reach these stubs. *)
Definition delivered : RemoteObject P UsbdCallBackServer := {|
  GetInterfaceDescriptor _ := UsbdStubCallBack_descriptor;
  SendRequest := UsbdStubCallBack_OnRemoteRequest |}.
Definition bulk_delivered : RemoteObject P (list BulkCall) := {|
  GetInterfaceDescriptor _ := UsbdBulkCallBack_descriptor;
  SendRequest := UsbdBulkCallBack_OnRemoteRequest |}.
End Stub.

(** ** What the application is told *)

(** The completion of a transfer as the driver reports it. *)
Record Report := mk_Report {
  reading : bool; r_status : Z; r_actLength : Z; r_isoInfo : list UsbIsoPacketDescriptor;
  r_userData : Z }.

Definition typed_report (r : Report) : Prop :=
  is_i32 (r_status r) ∧ is_i32 (r_actLength r) ∧ Forall typed_packet (r_isoInfo r).

(** The abstract callback: the application is told what the driver reports; a report
    without packets repeats the packets of the one before. *)
Definition told (s : UsbdCallBackServer) (r : Report) : UsbdCallBackServer :=
  let packets := if bool_decide (r_isoInfo r = []) then isoInfo_ s else r_isoInfo r in
  let info := mk_TransferCallbackInfo (r_status r) (r_actLength r) in
  mk_UsbdCallBackServer packets info (calls s ++ [(info, packets, r_userData r)]).

Section Delivery.
Context {P : Type} `{MessageParcel P} `{EB : ErrBase}.
Context (contents : P → list pitem) `{!ParcelLaws P contents} `{!MessageLaws P contents}
  `{!ReliableParcel P contents} `{!ReliableMessage P contents}.
Variable IPCObjectStub_OnRemoteRequest : Z → P → Z.
#[local] Instance remote : RemoteObject P UsbdCallBackServer := delivered IPCObjectStub_OnRemoteRequest.
#[local] Instance bulk_remote : RemoteObject P (list BulkCall) :=
  bulk_delivered IPCObjectStub_OnRemoteRequest.

(** The driver's report, through the callback object of either build. *)
Definition report (r : Report) : ST UsbdCallBackServer Z :=
  (if reading r then UsbTransferCallbackImpl_OnTransferReadCallback (P := P) true
   else UsbTransferCallbackImpl_OnTransferWriteCallback (P := P) true)
    (r_status r) (r_actLength r) (r_isoInfo r) (r_userData r).
Definition report_V1_2 (r : Report) : ST UsbdCallBackServer Z :=
  (if reading r then UsbdTransferCallbackImpl_OnTransferReadCallback (P := P) true
   else UsbdTransferCallbackImpl_OnTransferWriteCallback (P := P) true)
    (r_status r) (r_actLength r) (r_isoInfo r) (r_userData r).

Lemma report_builds r : report r = report_V1_2 r.
Proof. by destruct r as [[] ? ? ? ?]. Qed.

(** The message of a report. *)
Definition report_message (r : Report) : ST P bool :=
  pass_message UsbdStubCallBack_descriptor (r_status r) (r_actLength r) (r_isoInfo r) (r_userData r).
Definition report_items (r : Report) : list pitem :=
  (PObject :: packets_items (r_isoInfo r)) ++
  [PW32 (u32 (r_status r)); PW32 (u32 (r_actLength r)); PW64 (r_userData r)].

Lemma report_message_writes r :
  writes contents (report_message r) (PToken UsbdStubCallBack_descriptor :: report_items r).
Proof.
  unfold report_message, pass_message, report_items.
  eapply (writes_seq _ _ _ [_]); [apply write_token|].
  eapply writes_seq; [apply write_parcelable; rewrite pass_marshalling; by apply packets_writes|].
  message_write_steps.
Qed.

Lemma read_report_reads r :
  typed_report r → Z.of_nat (length (r_isoInfo r)) <= MAX_NUM_OF_ISO_PACKAGE →
  reads contents read_report (report_items r)
    (Some (r_isoInfo r, r_status r, r_actLength r, r_userData r)).
Proof.
  intros (Hs & Ha & Hp) Hn. unfold read_report, report_items.
  eapply reads_bind; [by apply read_parcelable, packets_reads|]. cbn beta iota.
  message_read_steps. rewrite !i32_u32 by done. apply reads_ret.
Qed.

(** What the client receives: the descriptor, then the report. *)
Lemma report_received r :
  let data := after (report_message r) new_parcel in
  result (report_message r) new_parcel = true ∧
  result ReadInterfaceToken data = UsbdStubCallBack_descriptor ∧
  contents (after ReadInterfaceToken data) = report_items r.
Proof.
  intros data. destruct (report_message_writes r new_parcel) as [Hw Hc].
  rewrite new_parcel_empty in Hc. split; [done|]. by apply (read_token _ _ (report_items r)).
Qed.

(** A message that was written is sent; a token that is the stub's is accepted. *)
Lemma run_true {A} (m : ST P bool) p (x : A) (k : P → A) :
  result m p = true → (let '(b, q) := run m p in if negb b then x else k q) = k (after m p).
Proof. unfold result, after, run. destruct (m p). simpl. by intros ->. Qed.
Lemma run_token {A} (m : ST P string) p t (x : A) (k : P → A) :
  result m p = t →
  (let '(b, q) := run m p in if negb (b =? t)%string then x else k q) = k (after m p).
Proof. unfold result, after, run. destruct (m p). simpl. intros ->. by rewrite String.eqb_refl. Qed.

(** A report is what the stub makes of its message; the client's code is always 0. *)
Lemma callback_run r s :
  let data := after ReadInterfaceToken (after (report_message r) new_parcel) in
  report r s =
    (UEC_OK, after (if reading r then TransferReadCallback data else TransferWriteCallback data) s).
Proof.
  intros data. subst data. destruct (report_received r) as (Hw & Ht & _).
  unfold report_message in *. unfold report.
  destruct (reading r);
    unfold UsbTransferCallbackImpl_OnTransferReadCallback, UsbTransferCallbackImpl_OnTransferWriteCallback;
    cbn [negb]; rewrite bind_unfold; cbn [gets fst snd GetInterfaceDescriptor remote delivered];
    rewrite (run_true _ _ _ (λ data, ret ← SendRequest _ data; _) Hw), bind_unfold;
    cbn [SendRequest remote delivered]; unfold UsbdStubCallBack_OnRemoteRequest;
    cbn [Z.eqb Pos.eqb CMD_USBD_TRANSFER_CALLBACK_READ CMD_USBD_TRANSFER_CALLBACK_WRITE].
  all: rewrite (run_token _ _ _ _ _ Ht); cbn beta; rewrite bind_unfold; done.
Qed.

(** The two callbacks of the stub read the same and do the same. *)
Lemma stub_run r data s :
  (if reading r then TransferReadCallback data else TransferWriteCallback data) s =
  match result read_report data with
  | None => (UEC_SERVICE_WRITE_PARCEL_ERROR, s)
  | Some (isoInfoVec, status, actLength, userData) =>
      (UEC_OK, told s (mk_Report (reading r) status actLength isoInfoVec userData))
  end.
Proof.
  unfold TransferReadCallback, TransferWriteCallback.
  destruct (reading r), (result read_report data) as [[[[iso st] len] user]|]; try done;
    unfold OnTransferReadCallback, OnTransferWriteCallback, told; cbn [r_isoInfo];
    destruct (bool_decide (iso = [])); by destruct s.
Qed.

Lemma report_told r s :
  typed_report r → Z.of_nat (length (r_isoInfo r)) <= MAX_NUM_OF_ISO_PACKAGE →
  report r s = (UEC_OK, told s r).
Proof.
  intros Hr Hn. rewrite callback_run. unfold after at 1. rewrite stub_run.
  destruct (report_received r) as (_ & _ & Hc).
  destruct (read_report_reads r Hr Hn _ [] ltac:(by rewrite Hc, app_nil_r)) as [-> _].
  by destruct r.
Qed.

(** C32: Whatever transfers complete, in whatever order and of whatever kind, as long as no
    report has more than 15000 isochronous packets (a larger one is lost, which is
    [oversized_report_lost]), the application's callback is called once for each, in the order of the driver's reports
    and with the driver's status, length and user data; its packets are those of the last
    report that had any.  The driver is told each time that its report was delivered. *)
Theorem reports_delivered (rs : list Report) (s : UsbdCallBackServer)
    (Hrs : Forall (λ r, typed_report r ∧ Z.of_nat (length (r_isoInfo r)) <= MAX_NUM_OF_ISO_PACKAGE) rs) :
  mapM report rs s = (replicate (length rs) UEC_OK, foldl told s rs).
Proof.
  revert s. induction Hrs as [|r rs [Hr Hn] _ IH]; intros s; [done|].
  cbn [mapM length replicate foldl]. rewrite bind_unfold, report_told by done. cbn [fst snd].
  by rewrite bind_unfold, IH.
Qed.

(** A report of more than 15000 packets is lost: the client cannot read it and does
    nothing, and the driver is told that it was delivered all the same. *)
Theorem oversized_report_lost (r : Report) (s : UsbdCallBackServer)
    (Hn : MAX_NUM_OF_ISO_PACKAGE < Z.of_nat (length (r_isoInfo r)) < 2 ^ 32) :
  report r s = (UEC_OK, s).
Proof.
  rewrite callback_run. unfold after at 1. rewrite stub_run.
  destruct (report_received r) as (_ & _ & Hc).
  unfold report_items, packets_items in Hc. rewrite u32_id in Hc by width_lia.
  unfold read_report. rewrite result_bind.
  by destruct (read_parcelable _ [PW32 _] None (packets_refused contents _ (proj1 Hn)) _ _ Hc) as [-> _].
Qed.

End Delivery.

(** ** On the concrete parcel *)
Section Sample.
#[local] Existing Instance sample_codes.

Definition silent : UsbdCallBackServer := mk_UsbdCallBackServer [] (mk_TransferCallbackInfo 0 0) [].
Definition unknown_code (code : Z) (data : list pitem) : Z := 305.

Lemma reports_delivered_witness :
  mapM (report (P := list pitem) unknown_code)
    [mk_Report true 0 376 sample_packets 7; mk_Report false (-1) 0 [] 8] silent =
  ([0; 0], mk_UsbdCallBackServer sample_packets (mk_TransferCallbackInfo (-1) 0)
     [(mk_TransferCallbackInfo 0 376, sample_packets, 7);
      (mk_TransferCallbackInfo (-1) 0, sample_packets, 8)]).
Proof.
  apply (reports_delivered (P := list pitem) Datatypes.id unknown_code).
  repeat constructor; try apply sample_packets_typed; simpl; try width_lia; vm_compute; discriminate.
Defined.

Lemma oversized_report_lost_witness :
  report (P := list pitem) unknown_code
    (mk_Report true 0 0 (replicate (Z.to_nat 15001) (mk_UsbIsoPacketDescriptor 1 1 0)) 7) silent =
  (0, silent).
Proof.
  apply (oversized_report_lost (P := list pitem) Datatypes.id unknown_code).
  cbn [r_isoInfo]. rewrite length_replicate. vm_compute. by split.
Defined.
End Sample.
