(* ===== verification/ServiceLifecycle.v ===== *)
(** * The service: starting, stopping, and leaving when it is not needed

    The life cycle of [services/native/src/usb_service.cpp] in the build with
    [USB_MANAGER_PASS_THROUGH], and the subscriber of the drivers
    ([services/native/src/usb_manager_subscriber.cpp]).  The service starts on demand: it
    waits for the drivers, restores the rights, publishes itself, and from then on every
    event of the drivers decides afresh whether it is still needed. *)

From stdpp Require Import pretty sorting.
From S2P Require Import Prelude UsbErrors UsbTypes DescriptorParser Interfaces Marshalling Json.
From S2P Require Import HostDriver HostEvents HostPolicy HostManager.
From S2P Require Import Service ServiceHost ServiceSerial ServiceGadget.
From S2P Require SerialManager DeviceManager AccessoryManager PortManager RightManager.

#[local] Set Default Goal Selector "!".

Definition COMMEVENT_REGISTER_WAIT_DELAY_US : Z := 20000.

(** The identifiers of the system abilities. *)
Class SystemAbilityIds := { MEMORY_MANAGER_SA_ID : Z; USB_SYSTEM_ABILITY_ID : Z }.

(** The start and the stop of the managers of the gadget side. *)
Class GadgetLifecycle (G : Type) := {
  gl_InitUsbAccessoryInterface : ST G bool;
  gl_InitUsbDeviceInterface : ST G bool;
  gl_InitUsbPortInterface : ST G bool;
  gl_PortInit : ST G unit;
  gl_DeviceInit : ST G Z;
  gl_DeviceStop : ST G unit;
  gl_PortStop : ST G unit;
  (** the listener's own calls of the drivers, if they are there *)
  gl_UnbindDevice : ST G unit;
  gl_UnbindPort : ST G unit;
}.

(** A port as the driver reports it. *)
Record PortInfo := mk_PortInfo {
  pi_portId : Z; pi_powerRole : Z; pi_dataRole : Z; pi_mode : Z; pi_supportedModes : Z }.

Section ServiceLifecycle.
Context {E N D Rt G P Rp : Type} `{EB : ErrBase} `{HD : HostHdi E} `{SY : HostSystem E Rp}.
Context `{RY : Reply Rp} `{SP : SystemParams E} `{NO : NotifierOps N} `{CJ : CJson} `{HO : HashOrder}.
Context `{SH : SerialManager.SerialHdi D} `{CS : CharSign} `{HE : HdfDevErr}.
Context `{CI : CallingIdentity Rt} `{CR : CallerRights Rt} `{RS : RightsService Rt}.
Context `{PL : ServicePlatform P} `{TM : Timers P UnloadTask}.
Context `{DS : DeviceService G} `{AS : AccessoryService G} `{PS : PortService G} `{GL : GadgetLifecycle G} `{SI : SystemAbilityIds}.
#[local] Existing Instance SerialManager.serial_ports.
Abbreviation st := (Service.st E N D Rt G P).
Implicit Types s : st.

(** ** Starting *)

(** [usb_service.cpp:89-114] [UsbService::UsbService] the managers, and no state *)
Definition construct (h : HostDriver.st E N (SerialManager.st D) Rt) (g : G) (p : P) : st :=
  mk_st h g p false 0 true true true true true false ∅ ∅ (2 ^ 32 - 1) [] [].

(** [usb_service.cpp:484-499] [UsbService::IsCommonEventServiceAbilityExist] *)
Definition IsCommonEventServiceAbilityExist : ST st bool :=
  sm ← ask_env SamgrExists;
  if negb sm then mret false else on_env CommonEventServiceExists.

(** [usb_service.cpp:357-365] [UsbService::Init] the loop: [false] when the fuel runs out *)
Fixpoint Init_loop (fuel : nat) : ST st bool :=
  match fuel with
  | O => mret false
  | S fuel =>
      commEventRetryTimes ← gets commEventRetryTimes_;
      if commEventRetryTimes <=? COMMEVENT_REGISTER_RETRY_TIMES then
        found ← IsCommonEventServiceAbilityExist;
        if negb found then
          modify (λ s, set_commEventRetryTimes_ (commEventRetryTimes_ s + 1) s) ;;
          on_env (usleep COMMEVENT_REGISTER_WAIT_DELAY_US) ;;
          Init_loop fuel
        else modify (set_commEventRetryTimes_ 0) ;; mret true
      else mret true
  end.

(** Each round counts up to the limit. *)
Definition Init_rounds (retries : Z) : nat := S (Z.to_nat (COMMEVENT_REGISTER_RETRY_TIMES + 1 - retries)).

(** [usb_service.cpp:353-368] [UsbService::Init] *)
Definition Init : ST st bool :=
  retries ← gets commEventRetryTimes_;
  Init_loop (Init_rounds retries) ;;
  mret true.

(** [usb_service.cpp:373-398] [UsbService::InitUsbd] *)
Definition InitUsbd : ST st bool :=
  let then_init (present : bool) (m k : ST st bool) : ST st bool :=
    if negb present then mret false else ok ← m; if negb ok then mret false else k in
  accessory ← gets usbAccessoryManager_;
  then_init accessory (on_gadget gl_InitUsbAccessoryInterface)
    (device ← gets usbDeviceManager_;
     then_init device (on_gadget gl_InitUsbDeviceInterface)
       (port ← gets usbPortManager_;
        then_init port (on_gadget gl_InitUsbPortInterface)
          (b ← gets usbHostManager_;
           then_init b (on_host InitUsbHostInterface) (mret true)))).

(** The loop of [WaitUsbdService], with the rounds that are left. *)
Fixpoint wait_usbd (rounds : nat) : ST st unit :=
  match rounds with
  | O => mret tt
  | S rounds =>
      ok ← InitUsbd;
      if (ok : bool) then mret tt else on_env (usleep 1000000) ;; wait_usbd rounds
  end.

(** [usb_service.cpp:250-266] [UsbService::WaitUsbdService] *)
Definition WaitUsbdService : ST st unit := wait_usbd SERVICE_STARTUP_MAX_TIME.

(** [usb_service.cpp:292-300] [UsbService::OnStart] the callback of the watched parameter *)
Definition OnSerialParameter (value : option string) : ST st unit :=
  match value with
  | None => mret tt
  | Some value => ManageUsbSerialDevice (String.eqb value "1") ;; mret tt
  end.

(** [usb_service.cpp:270-349] [UsbService::OnStart] *)
Definition OnStart : ST st unit :=
  ready ← gets ready_;
  if (ready : bool) then mret tt
  else
    ok ← Init;
    if negb ok then mret tt
    else
      WaitUsbdService ;;
      serial ← gets (λ s, GetBoolParameter "const.SystemCapability.USB.USBManager.Serial" false
                            (HostDriver.platform (host s)));
      mwhen serial start_serial ;;
      on_env (WatchParameter "persist.edm.usb_serial_disable") ;;
      port ← gets usbPortManager_;
      if negb port then mret tt
      else
        on_gadget gl_PortInit ;;
        device ← gets usbDeviceManager_;
        if negb device then mret tt
        else
          on_gadget gl_DeviceInit ;;
          InitUsbRight ;;
          samgr ← ask_env SamgrExists;
          status ← ask_env StatusListenerExists;
          if negb samgr || negb status then mret tt
          else
            ret ← on_env SubscribeSystemAbility;
            if negb (ret =? UEC_OK) then mret tt
            else
              on_env (AddSystemAbilityListener MEMORY_MANAGER_SA_ID) ;;
              published ← on_env Publish;
              if negb published then mret tt
              else
                modify (set_ready_ true) ;;
                UnLoadSelf UNLOAD_SA_DELAY ;;
                InitSettingsDataHdcStatus ;;
                mret tt.

(** [usb_service.cpp:443-480] [UsbService::OnStop] *)
Definition OnStop : ST st unit :=
  ready ← gets ready_;
  if negb ready then mret tt
  else
    modify (set_ready_ false) ;;
    b ← gets usbHostManager_;
    if negb b then mret tt
    else
      on_host HostDriver.Stop ;;
      device ← gets usbDeviceManager_;
      if negb device then mret tt
      else
        on_gadget gl_DeviceStop ;;
        port ← gets usbPortManager_;
        if negb port then mret tt else on_gadget gl_PortStop.

(** [usb_service.cpp:239-246] [UsbService::OnAddSystemAbility] *)
Definition OnAddSystemAbility (systemAbilityId : Z) : ST st unit :=
  if systemAbilityId =? MEMORY_MANAGER_SA_ID then
    on_env NotifyProcessStatus ;;
    on_env (SetCritical true)
  else mret tt.

(** [usb_service.cpp:175-202] [UsbService::SystemAbilityStatusChangeListener::OnRemoveSystemAbility] the listener gets the interfaces of the drivers afresh *)
Definition OnRemoveSystemAbility (systemAbilityId : Z) : ST st unit :=
  if systemAbilityId =? USB_SYSTEM_ABILITY_ID then
    b ← ask_env HostInterfaceExists;
    mwhen b (on_host (HostDriver.on_platform hdi_UnbindUsbdHostSubscriber) ;; mret tt) ;;
    on_gadget gl_UnbindDevice ;;
    on_gadget gl_UnbindPort
  else mret tt.

(** ** The subscriber of the drivers *)

(** The data of the broadcast of a port. *)
Definition port_item (info : PortInfo) : json :=
  JObj [("portId", JNum (pi_portId info)); ("powerRole", JNum (pi_powerRole info));
        ("dataRole", JNum (pi_dataRole info)); ("mode", JNum (pi_mode info));
        ("supportedModes", JNum (pi_supportedModes info))]%string.

(** [usb_manager_subscriber.cpp:34-78] [UsbManagerSubscriber::PortChangedEvent] the [bool] of the publication is the code *)
Definition PortChangedEvent (info : PortInfo) : ST st Z :=
  match cJSON_PrintUnformatted (port_item info) with
  | None => mret UEC_SERVICE_OBJECT_CREATE_FAILED
  | Some jsonString =>
      UpdateUsbPort_modes (pi_portId info) (pi_powerRole info) (pi_dataRole info) (pi_mode info)
        (pi_supportedModes info) ;;
      isSuccess ← on_env (PublishPortChanged jsonString);
      mret (if (isSuccess : bool) then 1 else 0)
  end.

(** [usb_manager_subscriber.cpp:80-90] [UsbManagerSubscriber::DeviceEvent] *)
Definition SubscriberDeviceEvent (info : USBDeviceInfo) : ST st (res Z) := DeviceEvent info.

(** ** The wait for the common event service *)

(** A round that does not find the service: it asks, counts one up and sleeps. *)
Definition waits (s : st) : st :=
  let s1 := after IsCommonEventServiceAbilityExist s in
  set_env (after (usleep COMMEVENT_REGISTER_WAIT_DELAY_US) (env s1))
    (set_commEventRetryTimes_ (commEventRetryTimes_ s1 + 1) s1).
Definition waited (n : nat) (s : st) : st := Nat.iter n waits s.
Definition found s : bool := result IsCommonEventServiceAbilityExist s.

Lemma Init_loop_round n s :
  commEventRetryTimes_ s <= COMMEVENT_REGISTER_RETRY_TIMES →
  Init_loop (S n) s =
    if found s then (true, set_commEventRetryTimes_ 0 (after IsCommonEventServiceAbilityExist s))
    else Init_loop n (waits s).
Proof.
  intros Hl. cbn [Init_loop]. st_exec. rewrite (proj2 (Z.leb_le _ _)) by done. st_exec.
  unfold found, result, waits, after. destruct (IsCommonEventServiceAbilityExist s) as [[] s1]; st_exec; [done|].
  by rewrite on_env_run.
Qed.

Lemma waits_count s : commEventRetryTimes_ (waits s) = commEventRetryTimes_ s + 1.
Proof.
  unfold waits, after, IsCommonEventServiceAbilityExist, ask_env. st_exec. case_if; st_exec; [|done].
  by rewrite on_env_run.
Qed.

Lemma Init_loop_waits n s :
  0 <= COMMEVENT_REGISTER_RETRY_TIMES + 1 - commEventRetryTimes_ s → 
  Z.of_nat n = COMMEVENT_REGISTER_RETRY_TIMES + 1 - commEventRetryTimes_ s →
  ∃ k, (k <= n)%nat ∧ (∀ j, (j < k)%nat → found (waited j s) = false) ∧
    Init_loop (S n) s =
      (true, if bool_decide (k < n)%nat
             then set_commEventRetryTimes_ 0 (after IsCommonEventServiceAbilityExist (waited k s))
             else waited n s) ∧
    ((k < n)%nat → found (waited k s) = true).
Proof.
  revert s. induction n as [|n IH]; intros s Hle Hn.
  - exists 0%nat. split_and!; [lia|intros; lia| |intros; lia].
    cbn [Init_loop]. st_exec. rewrite (proj2 (Z.leb_gt _ _)) by lia. done.
  - rewrite Init_loop_round by lia. destruct (found s) eqn:Hf.
    { exists 0%nat. split_and!; [lia|intros; lia| |done]. by rewrite bool_decide_eq_true_2 by lia. }
    destruct (IH (waits s)) as (k & Hk & Hj & Hloop & Hfound); [rewrite waits_count; lia..|].
    assert (Hshift : ∀ j, waited j (waits s) = waited (S j) s).
    { intros j. unfold waited. by rewrite Nat.iter_succ_r. }
    exists (S k). rewrite Hloop, !Hshift. rewrite Hshift in Hfound. split_and!; [lia| | |intros; apply Hfound; lia].
    + intros [|j] Hlt; [exact Hf|]. rewrite <- Hshift. apply Hj. lia.
    + by rewrite (bool_decide_ext (S k < S n)%nat (k < n)%nat) by lia.
Qed.

(** C40: how long the start waits for the common event service.  From a count of at most the
    limit plus one, [Init] asks once for each count that is left, until it finds the
    service: every question before found nothing, and was followed by one count up and a
    sleep of [COMMEVENT_REGISTER_WAIT_DELAY_US]; the question that finds it resets the
    count to 0 and ends the wait; and when all questions are used up, the state is that
    after their rounds, whose count is the limit plus one, so that a later start does not
    ask at all.  In every case [Init] returns [true]. *)
Theorem Init_waits s
    (Hc : commEventRetryTimes_ s <= COMMEVENT_REGISTER_RETRY_TIMES + 1) :
  let questions := Z.to_nat (COMMEVENT_REGISTER_RETRY_TIMES + 1 - commEventRetryTimes_ s) in
  result Init s = true ∧
  ∃ k, (k <= questions)%nat ∧ (∀ j, (j < k)%nat → found (waited j s) = false) ∧
    (((k < questions)%nat ∧ found (waited k s) = true ∧
      after Init s = set_commEventRetryTimes_ 0 (after IsCommonEventServiceAbilityExist (waited k s))) ∨
     (k = questions ∧ after Init s = waited questions s ∧
      commEventRetryTimes_ (after Init s) = COMMEVENT_REGISTER_RETRY_TIMES + 1)).
Proof.
  intros questions. destruct (Init_loop_waits questions s) as (k & Hk & Hj & Hloop & Hfound); [lia|lia|].
  unfold Init, result, after. st_exec. change (Init_rounds (commEventRetryTimes_ s)) with (S questions).
  rewrite Hloop. st_exec. split; [done|]. exists k. split_and!; [done|done|].
  destruct (decide (k < questions)%nat) as [Hl|Hl].
  - left. rewrite bool_decide_eq_true_2 by done. auto.
  - right. rewrite bool_decide_eq_false_2 by done. split_and!; [lia|done|].
    assert (Hcount : ∀ n, commEventRetryTimes_ (waited n s) = commEventRetryTimes_ s + Z.of_nat n).
    { induction n as [|n IH]; [unfold waited; cbn; lia|]. change (waited (S n) s) with (waits (waited n s)).
      rewrite waits_count, IH. lia. }
    rewrite Hcount. lia.
Qed.
End ServiceLifecycle.

(** ** The managers start and stop *)
Section Managers.
Context {H Win N T HA TA EA HP NP : Type} `{EB : ErrBase}.
Context `{DeviceHdi H} `{FunctionWindow Win} `{NotifierOps N} `{Timers T DeviceManager.DelayTask}.
Context `{DHA : DeviceHdi HA}.
Context `{PortHdi HP PortManager.UsbPort} `{NNP : NotifierOps NP}.
(** What [Get] of the three interfaces yields in a state; the port manager asks up to three
    times, and its death recipient is added or not. *)
Context (get_accessory : @AccessoryManager.st HA TA EA → option HA).
Context (get_device : @DeviceManager.st H Win N T → option H).
Context (get_port : @PortManager.st HP NP → nat → option HP) (port_watched : @PortManager.st HP NP → bool).

#[export] Instance managers_lifecycle : GadgetLifecycle (@managers H Win N T HA TA EA HP NP) := {
  gl_InitUsbAccessoryInterface :=
    on_accessory (λ s, AccessoryManager.InitUsbAccessoryInterface (get_accessory s) s);
  gl_InitUsbDeviceInterface := on_device (λ s, DeviceManager.InitUsbDeviceInterface (get_device s) s);
  gl_InitUsbPortInterface :=
    on_port (λ s, PortManager.InitUsbPortInterface (get_port s) (port_watched s) s);
  gl_PortInit := on_port PortManager.Init;
  gl_DeviceInit := on_device DeviceManager.Init;
  gl_DeviceStop := on_device DeviceManager.Stop;
  gl_PortStop := on_port PortManager.Stop;
  gl_UnbindDevice := on_device (λ s,
    match get_device s with Some _ => (DeviceManager.on_hdi hdi_UnbindUsbdDeviceSubscriber ;; mret tt) s
    | None => (tt, s) end);
  gl_UnbindPort := on_port (λ s,
    match get_port s 0 with Some _ => (PortManager.on_hdi hdi_UnbindUsbdPortSubscriber ;; mret tt) s
    | None => (tt, s) end);
}.
End Managers.
