(* ===== verification/ServiceUnload.v ===== *)
(** * The service: when it is unloaded

    After its start and after each event of the drivers the service decides whether it is
    still needed: its unload timer is armed exactly when no device is listed and the gadget
    is not connected.  The task of the timer is the only thing that unloads a service that
    runs; what changes between two events, such as a policy, does not decide again. *)

From stdpp Require Import pretty sorting relations.
From S2P Require Import Prelude UsbErrors UsbTypes DescriptorParser Interfaces Marshalling Json.
From S2P Require Import HostDriver HostEvents HostPolicy HostManager.
From S2P Require Import Service ServiceHost ServiceSerial ServiceGadget ServiceLifecycle.
From S2P Require SerialManager RightManager DeviceManager.

#[local] Set Default Goal Selector "!".

(** The timer of the service works, and the other calls leave its tasks alone. *)
Class UnloadLaws (P : Type) `{ServicePlatform P} `{TimerLaws P UnloadTask} := {
  setup_succeeds p : result unload_timer_Setup p = 0;
  setup_pending p : pending (after unload_timer_Setup p) = pending p;
  shutdown_pending p : pending (after unload_timer_Shutdown p) = pending p;
  critical_pending b p : pending (after (SetCritical b) p) = pending p;
  unload_pending p : pending (after UnloadSystemAbility p) = pending p;
  exists_pending p : pending (after CommonEventServiceExists p) = pending p;
  usleep_pending us p : pending (after (usleep us) p) = pending p;
  watch_pending name p : pending (after (WatchParameter name) p) = pending p;
  subscribe_pending p : pending (after SubscribeSystemAbility p) = pending p;
  listener_pending id p : pending (after (AddSystemAbilityListener id) p) = pending p;
  publish_pending p : pending (after Publish p) = pending p;
  settings_pending key v p : pending (after (settings_Update key v) p) = pending p;
}.
(** Asking changes nothing. *)
Class ConnectionQuery (G : Type) `{DeviceService G} :=
  connection_query g : after ds_IsGadgetConnected g = g.

(** The device manager only reads a flag. *)
Section Managers.
Context {H Win N T HA TA EA HP NP : Type} `{EB : ErrBase}.
Context `{DeviceHdi H} `{FunctionWindow Win} `{NotifierOps N} `{Timers T DeviceManager.DelayTask}.
#[export] Instance managers_query hidumper_set :
  ConnectionQuery (H := managers_device hidumper_set) (@managers H Win N T HA TA EA HP NP).
Proof. intros []. done. Qed.
End Managers.

Section ServiceUnload.
Context {E N D Rt G P Rp : Type} `{EB : ErrBase} `{HD : HostHdi E} `{SY : HostSystem E Rp}.
Context `{RY : Reply Rp} `{SP : SystemParams E} `{NO : NotifierOps N} `{CJ : CJson} `{HO : HashOrder}.
Context `{SH : SerialManager.SerialHdi D} `{CS : CharSign} `{HE : HdfDevErr}.
Context `{CI : CallingIdentity Rt} `{CR : CallerRights Rt} `{RS : !RightsService Rt} `{!SystemQuery Rt}.
Context `{PL : ServicePlatform P} `{TM : Timers P UnloadTask} `{TL : !TimerLaws P UnloadTask} `{!UnloadLaws P}.
Context `{DS : DeviceService G} `{AS : AccessoryService G} `{PS : PortService G} `{!ConnectionQuery G}.
Context `{GL : GadgetLifecycle G} `{SI : SystemAbilityIds}.
#[local] Existing Instance SerialManager.serial_ports.
Abbreviation st := (Service.st E N D Rt G P).
Implicit Types s : st.

(** The service is needed: a device is listed, or the gadget is connected. *)
Definition needed s : bool :=
  negb (bool_decide ((result (HostManager.GetDevices []) (host s)).2 = [])) ||
  result ds_IsGadgetConnected (gadget s).

Lemma GetDevices_same l (h : HostDriver.st E N (SerialManager.st D) Rt) :
  after (HostManager.GetDevices l) h = h.
Proof.
  unfold HostManager.GetDevices, after. st_exec. rewrite HostDriver.on_rights_run. cbn.
  change (rights_IsSystemAppOrSa (HostDriver.rights h)).2 with (after rights_IsSystemAppOrSa (HostDriver.rights h)).
  rewrite caller_query. by destruct h.
Qed.

Lemma IsNotNeedUnload_run s : IsNotNeedUnload s = (needed s, s).
Proof.
  unfold IsNotNeedUnload, needed. st_exec. rewrite on_host_run. st_exec. rewrite on_gadget_run. st_exec.
  rewrite GetDevices_same. cbn. rewrite connection_query. by destruct s as [[]].
Qed.

(** What the decision depends on. *)
Lemma needed_ext s s' :
  devices_ (host s') = devices_ (host s) → the_rights s' = the_rights s → gadget s' = gadget s →
  needed s' = needed s.
Proof.
  intros Hd Hr Hg. unfold needed, HostManager.GetDevices, result, the_rights in *. st_exec.
  rewrite !HostDriver.on_rights_run. cbn. by rewrite Hd, Hr, Hg.
Qed.

(** The tasks of the timer, and the managers that the decision asks. *)
Record timing (t : gmap Z UnloadTask) (i : Z) s : Prop := {
  ti_pending : pending (env s) = t;
  ti_timer : unloadSelfTimerId_ s = i;
  ti_host : usbHostManager_ s = true;
  ti_device : usbDeviceManager_ s = true;
}.

Lemma UnLoadSelf_effect t i s :
  timing t i s →
  let s' := after (UnLoadSelf UNLOAD_SA_DELAY) s in
  needed s' = needed s ∧
  ∃ i', timing (if needed s then delete i t else <[i' := UnloadSelfTask]> (delete i t)) i' s' ∧
    (needed s = true → i' = i).
Proof.
  intros [Hp Hi Hh Hd]. cbv zeta. unfold UnLoadSelf, after. st_exec. rewrite Hh. st_exec. rewrite Hd. st_exec.
  rewrite on_env_run. st_exec. rewrite on_env_run. st_exec. rewrite IsNotNeedUnload_run. st_exec.
  assert (Hn : needed (set_env (after unload_timer_Shutdown (env (set_env
    (after (timer_Unregister (unloadSelfTimerId_ s)) (env s)) s))) (set_env
    (after (timer_Unregister (unloadSelfTimerId_ s)) (env s)) s)) = needed s) by (by apply needed_ext).
  rewrite Hn. destruct (needed s) eqn:En.
  - rewrite on_env_run. st_exec. split; [by rewrite <- En; apply needed_ext|].
    exists i. split; [|done]. split; [|done..]. cbn.
    by rewrite critical_pending, shutdown_pending, unregister_pending, Hp, Hi.
  - st_exec. rewrite on_env_run. st_exec. rewrite on_env_run. st_exec. rewrite setup_succeeds. st_exec.
    rewrite on_env_run. st_exec. split; [by rewrite <- En; apply needed_ext|].
    eexists. split; [split; [|reflexivity|exact Hh|exact Hd]|done]. cbn.
    by rewrite register_pending, setup_pending, critical_pending, shutdown_pending, unregister_pending, Hp, Hi.
Qed.

(** ** The events of the drivers *)
Lemma timing_env t i s s' :
  env s' = env s → unloadSelfTimerId_ s' = unloadSelfTimerId_ s → usbHostManager_ s' = usbHostManager_ s →
  usbDeviceManager_ s' = usbDeviceManager_ s → timing t i s → timing t i s'.
Proof. intros He Hi Hh Hd []. split; by congruence. Qed.
Lemma timing_host t i {A} (m : ST _ A) : preserves (timing t i) (on_host m).
Proof. intros s. unfold after. rewrite on_host_run. by apply timing_env. Qed.
Lemma timing_rights t i {A} (m : ST Rt A) : preserves (timing t i) (on_rights m).
Proof. apply timing_host. Qed.
Lemma timing_serial t i {A} (m : ST (SerialManager.st D) A) : preserves (timing t i) (on_serial m).
Proof. apply timing_host. Qed.
Lemma timing_gadget t i {A} (m : ST G A) : preserves (timing t i) (on_gadget m).
Proof. intros s. unfold after. rewrite on_gadget_run. by apply timing_env. Qed.
Lemma timing_ask t i {A} (f : Rt → A) : preserves (timing t i) (ask_caller f).
Proof. by intros s. Qed.
Lemma timing_ask_env t i {A} (f : P → A) : preserves (timing t i) (ask_env f).
Proof. by intros s. Qed.
Lemma timing_modify t i f :
  (∀ s, env (f s) = env s ∧ unloadSelfTimerId_ (f s) = unloadSelfTimerId_ s ∧
     usbHostManager_ (f s) = usbHostManager_ s ∧ usbDeviceManager_ (f s) = usbDeviceManager_ s) →
  preserves (timing t i) (modify f).
Proof. intros Hf s. destruct (Hf s) as (? & ? & ? & ?). rewrite after_modify. by apply timing_env. Qed.
#[local] Hint Resolve timing_host timing_rights timing_serial timing_gadget timing_ask timing_ask_env
  : preserve.
#[local] Hint Extern 5 (preserves (timing _ _) (modify _)) => by apply timing_modify : preserve.

Lemma timing_AddDevice t i b a : preserves (timing t i) (ServiceHost.AddDevice b a).
Proof. unfold ServiceHost.AddDevice, ServiceHost.GetDeviceInfo, insert_identity. step_preserve. Qed.
Lemma timing_DelDevice t i b a : preserves (timing t i) (ServiceHost.DelDevice b a).
Proof.
  unfold ServiceHost.DelDevice, ServiceHost.Close, device_request, CheckDevicePermission, HasRight,
    with_identity, FindDeviceVidPidSerialNumber, GetDeviceVidPidSerialNumber, IsSystemAppOrSa, GetCallingInfo.
  step_preserve.
Qed.
Lemma timing_UpdateDeviceState t i status : preserves (timing t i) (UpdateDeviceState status).
Proof. unfold UpdateDeviceState. step_preserve. Qed.

(** Starting the serial manager changes neither the decision nor the timer. *)
Definition decided (b : bool) t i s : Prop := needed s = b ∧ timing t i s.
Lemma decided_serial b t i {A} (m : ST (SerialManager.st D) A) : preserves (decided b t i) (on_serial m).
Proof.
  intros s [Hn Ht]. split; [|by apply timing_serial]. rewrite <- Hn. unfold after.
  rewrite service_serial_run. by apply needed_ext.
Qed.
Lemma decided_start_serial b t i : preserves (decided b t i) start_serial.
Proof.
  unfold start_serial, ask_env. apply preserves_bind; [apply preserves_gets|]. intros present.
  apply preserves_bind; [apply decided_serial|]. intros _.
  apply preserves_bind; [apply preserves_modify|]; [intros s [Hn Ht]|intros _ s [Hn Ht]].
  - split; [by rewrite <- Hn; apply needed_ext|]. by apply (timing_env t i s).
  - split; [|by apply timing_host]. rewrite <- Hn. unfold after. rewrite on_host_run.
    by apply needed_ext.
Qed.

#[local] Hint Resolve decided_start_serial : preserve.

(** An event that is handled to its end has decided. *)
Lemma DeviceEvent_decides t i info c s :
  timing t i s → result (DeviceEvent info) s = Val c →
  let s' := after (DeviceEvent info) s in
  ∃ i', timing (if needed s' then delete i t else <[i' := UnloadSelfTask]> (delete i t)) i' s'.
Proof.
  intros Ht Hr. cbv zeta. unfold DeviceEvent in *. destruct (is_gadget_status _).
  - rewrite !after_bind, after_ret. apply (timing_UpdateDeviceState t i (d_status info)) in Ht.
    destruct (UnLoadSelf_effect t i _ Ht) as [Hn (i' & Hi' & _)]. exists i'. by rewrite Hn.
  - cbv zeta in *. rewrite after_bind, result_bind in *.
    match type of Hr with context [result ?m s] =>
      assert (Ht' : timing t i (after m s)); [|revert Ht' Hr; generalize (after m s);
        destruct (result m s) as [ok| |]; [|done..]] end.
    { apply preserves_if; [intros _; apply timing_AddDevice|intros _|done].
      apply preserves_bind; [apply timing_DelDevice|]. intros ok. apply preserves_ret. }
    intros s1 Ht1 _. rewrite after_bind.
    destruct (UnLoadSelf_effect t i s1 Ht1) as [Hn (i' & Hi' & _)]. exists i'. revert Hn Hi'.
    generalize (after (UnLoadSelf UNLOAD_SA_DELAY) s1). intros s2 Hn Hi'. rewrite <- Hn in Hi'.
    rewrite after_bind, after_ret.
    match goal with |- context [after ?m s2] =>
      assert (Hd : preserves (decided (needed s2) (if needed s2 then delete i t
        else <[i' := UnloadSelfTask]> (delete i t)) i') m) end.
    { unfold CheckForTtyUSB, ask_env. step_preserve. }
    destruct (Hd s2 (conj eq_refl Hi')) as [Hn2 Ht2]. by rewrite Hn2.
Qed.

(** An event that ends in the parser has not. *)
Lemma timing_stuck t i info s :
  timing t i s → (∀ c, result (DeviceEvent info) s ≠ Val c) → timing t i (after (DeviceEvent info) s).
Proof.
  intros Ht Hr. unfold DeviceEvent in *. destruct (is_gadget_status _).
  { exfalso. eapply Hr. by rewrite !result_bind, result_ret. }
  cbv zeta in *. rewrite after_bind, result_bind in *.
  match goal with |- context [result ?m s] =>
    assert (Ht' : timing t i (after m s)); [|revert Ht' Hr; generalize (after m s);
      destruct (result m s) as [ok| |]] end.
  { apply preserves_if; [intros _; apply timing_AddDevice|intros _|done].
    apply preserves_bind; [apply timing_DelDevice|]. intros ok. apply preserves_ret. }
  - intros s1 _ Hr. exfalso. eapply Hr. by rewrite !result_bind, result_ret.
  - done.
  - done.
Qed.

(** ** Histories *)

(** The transitions: a start, an event of the drivers, the task of the timer, and whatever
    leaves the timer alone. *)
Inductive unload_step : st → st → Prop :=
  | step_start s : unload_step s (after OnStart s)
  | step_event info s : unload_step s (after (DeviceEvent info) s)
  | step_fire id p s :
      pending (env s) !! id = Some UnloadSelfTask → pending p = delete id (pending (env s)) →
      unload_step s (after unload_task (set_env p s))
  | step_apart s s' :
      pending (env s') = pending (env s) → unloadSelfTimerId_ s' = unloadSelfTimerId_ s →
      usbHostManager_ s' = usbHostManager_ s → usbDeviceManager_ s' = usbDeviceManager_ s →
      unload_step s s'.

(** At most one task is pending, and its identifier is known. *)
Definition one_task s : Prop := ∃ t i, timing t i s ∧ delete i t = ∅.

Lemma delete_insert_empty (i i' : Z) (t : gmap Z UnloadTask) b :
  delete i t = ∅ → delete i' (if b : bool then delete i t else <[i' := UnloadSelfTask]> (delete i t)) = ∅.
Proof. intros ->. destruct b; [by rewrite delete_empty|]. by rewrite delete_insert_id. Qed.

Lemma one_task_event info s : one_task s → one_task (after (DeviceEvent info) s).
Proof.
  intros (t & i & Ht & Hi). destruct (result (DeviceEvent info) s) as [c| |] eqn:Hr.
  - destruct (DeviceEvent_decides t i info c s Ht Hr) as [i' Hi']. eexists _, i'. split; [exact Hi'|].
    by apply delete_insert_empty.
  - exists t, i. split; [|done]. apply timing_stuck; [done|]. intros c. by rewrite Hr.
  - exists t, i. split; [|done]. apply timing_stuck; [done|]. intros c. by rewrite Hr.
Qed.

Lemma one_task_host {A} (m : ST _ A) : preserves one_task (on_host m).
Proof. intros s (t & i & Ht & Hi). exists t, i. split; [by apply timing_host|done]. Qed.
Lemma one_task_rights {A} (m : ST Rt A) : preserves one_task (on_rights m).
Proof. apply one_task_host. Qed.
Lemma one_task_serial {A} (m : ST (SerialManager.st D) A) : preserves one_task (on_serial m).
Proof. apply one_task_host. Qed.
Lemma one_task_gadget {A} (m : ST G A) : preserves one_task (on_gadget m).
Proof. intros s (t & i & Ht & Hi). exists t, i. split; [by apply timing_gadget|done]. Qed.
Lemma one_task_env {A} (m : ST P A) :
  (∀ p, pending (after m p) = pending p) → preserves one_task (on_env m).
Proof.
  intros Hm s (t & i & [] & Hi). exists t, i. unfold after. rewrite on_env_run. cbn [snd].
  split; [split; cbn; [by rewrite Hm|done..]|done].
Qed.
Lemma one_task_ask {A} (f : P → A) : preserves one_task (ask_env f).
Proof. by intros s. Qed.
Lemma one_task_modify f :
  (∀ s, env (f s) = env s ∧ unloadSelfTimerId_ (f s) = unloadSelfTimerId_ s ∧
     usbHostManager_ (f s) = usbHostManager_ s ∧ usbDeviceManager_ (f s) = usbDeviceManager_ s) →
  preserves one_task (modify f).
Proof. intros Hf s (t & i & Ht & Hi). exists t, i. split; [by apply timing_modify|done]. Qed.
Lemma one_task_UnLoadSelf : preserves one_task (UnLoadSelf UNLOAD_SA_DELAY).
Proof.
  intros s (t & i & Ht & Hi). destruct (UnLoadSelf_effect t i s Ht) as [_ (i' & Hi' & _)].
  eexists _, i'. split; [exact Hi'|]. by apply delete_insert_empty.
Qed.
#[local] Hint Resolve one_task_host one_task_rights one_task_serial one_task_gadget one_task_ask
  one_task_UnLoadSelf : preserve.
#[local] Hint Extern 4 (preserves one_task (on_env _)) =>
  apply one_task_env; intros;
  solve [apply exists_pending|apply usleep_pending|apply watch_pending|apply subscribe_pending
        |apply listener_pending|apply publish_pending|apply settings_pending] : preserve.
#[local] Hint Extern 5 (preserves one_task (modify _)) => by apply one_task_modify : preserve.

Lemma one_task_Init_loop n : preserves one_task (Init_loop n).
Proof.
  induction n as [|n IH]; cbn [Init_loop]; [by step_preserve|].
  unfold IsCommonEventServiceAbilityExist. step_preserve.
Qed.
Lemma one_task_wait_usbd n : preserves one_task (wait_usbd n).
Proof. induction n as [|n IH]; cbn [wait_usbd]; [by step_preserve|]. unfold InitUsbd. step_preserve. Qed.
#[local] Hint Resolve one_task_Init_loop one_task_wait_usbd : preserve.

Lemma one_task_OnStart : preserves one_task OnStart.
Proof.
  unfold OnStart, Init, WaitUsbdService, start_serial, InitUsbRight, InitSettingsDataHdcStatus,
    SetSettingsDataHdcStatus. step_preserve.
Qed.

Lemma unload_step_one_task s s' : unload_step s s' → one_task s → one_task s'.
Proof.
  intros [s1|info s1|id p s1 _ Hpend|s1 s2 H1 H2 H3 H4] Hs.
  - by apply one_task_OnStart.
  - by apply one_task_event.
  - destruct Hs as (t & i & [Hp Hi Hh Hd] & Ht). exists (delete id t), i. split.
    + unfold unload_task, ask_env, after. st_exec. case_if; st_exec; [|by split; [cbn; rewrite Hpend, Hp|..]].
      rewrite on_env_run. st_exec. split; cbn; [|done..]. by rewrite unload_pending, Hpend, Hp.
    + by rewrite delete_delete, Ht, delete_empty.
  - destruct Hs as (t & i & [] & Ht). exists t, i. split; [|done]. split; congruence.
Qed.

Lemma unload_one_task s0 s :
  pending (env s0) = ∅ → usbHostManager_ s0 = true → usbDeviceManager_ s0 = true →
  rtc unload_step s0 s → one_task s.
Proof.
  intros Hp Hh Hd Hr. assert (H0 : one_task s0).
  { exists ∅, (unloadSelfTimerId_ s0). split; [by split|apply delete_empty]. }
  clear Hp Hh Hd. induction Hr as [|s1 s2 s3 H12 _ IH]; [done|]. by apply IH, (unload_step_one_task s1).
Qed.

(** C23: every event of the drivers decides afresh whether the service is to be unloaded.
    In every history of the service - starts, events of the drivers, firings of the timer,
    and activity in between that leaves the timer alone -, no task is pending but the one
    that the last decision registered, so that the next decision can cancel it; and an
    event that has been handled to its end leaves exactly that task pending if no device is
    listed and the gadget is not connected, and no task otherwise.  It is a statement about
    decisions: a device that is enabled between two events, by a policy, cancels nothing,
    and the task that is pending then unloads the service. *)
Theorem unload_scheduled_iff_idle s0 s
    (Hstart : pending (env s0) = ∅ ∧ usbHostManager_ s0 = true ∧ usbDeviceManager_ s0 = true)
    (Hr : rtc unload_step s0 s) :
  (∀ id task, pending (env s) !! id = Some task → id = unloadSelfTimerId_ s) ∧
  ∀ info c, result (DeviceEvent info) s = Val c →
    let s' := after (DeviceEvent info) s in
    pending (env s') = if needed s' then ∅ else {[unloadSelfTimerId_ s' := UnloadSelfTask]}.
Proof.
  destruct Hstart as (Hp & Hh & Hd). destruct (unload_one_task s0 s Hp Hh Hd Hr) as (t & i & Ht & Hi).
  split.
  - intros id task. destruct Ht as [-> -> _ _]. intros Hid. destruct (decide (id = i)) as [|Hne]; [done|].
    assert (Hn : delete i t !! id = None) by (by rewrite Hi). by rewrite lookup_delete_ne, Hid in Hn.
  - intros info c Hc. cbv zeta. destruct (DeviceEvent_decides t i info c s Ht Hc) as (i' & [Hp' Hi' _ _]).
    rewrite Hp', Hi', Hi. by destruct (needed _).
Qed.
End ServiceUnload.
