(* ===== verification/ServiceGate.v ===== *)
(** * The service: no right, no device

    Every request of a client to a device goes through the service.  This file has the
    requests of [IUsbServer.idl] that concern devices as one type with its dispatcher, and
    shows that an application that was granted nothing for a device gets nothing from it:
    whatever it asks, the request fails and neither the driver nor the table of devices
    is touched. *)

From stdpp Require Import pretty sorting.
From S2P Require Import Prelude UsbErrors UsbTypes DescriptorParser Interfaces Marshalling Json.
From S2P Require Import HostDriver HostEvents HostPolicy HostManager Service ServiceHost.
From S2P Require SerialManager RightDatabase RightManager.

#[local] Set Default Goal Selector "!".

(** What a right manager promises: [entitled] are the rights that could be found in its
    records. *)
Class RightsLaws (Rt : Type) `{CallingIdentity Rt, CallerRights Rt, !RightsService Rt}
    (entitled : Rt → string → string → string → Z → Prop) := {
  has_right_entitled d b k u rt : result (rs_HasRight d b k u) rt = true → entitled rt d b k u;
  has_right_grants_nothing d b k u rt d' b' k' u' :
    entitled (after (rs_HasRight d b k u) rt) d' b' k' u' → entitled rt d' b' k' u';
  remove_keeps_caller d b k u rt :
    GetCallingTokenID (after (rs_RemoveDeviceRight d b k u) rt) = GetCallingTokenID rt;
  system_query :: SystemQuery Rt;
  native_is_system rt : CallingTokenIsNative rt = true → result rights_IsSystemAppOrSa rt = true;
}.

(** ** The requests *)

(** The requests of [IUsbServer.idl] about devices, with the device that a request is about. *)
Inductive DeviceRequest :=
  | ROpenDevice | RClose | RResetDevice
  | RClaimInterface (interface force : Z) | RSetInterface (interfaceid altIndex : Z)
  | RReleaseInterface (interface : Z) | RSetActiveConfig (configIndex : Z)
  | RUsbAttachKernelDriver (interface : Z) | RUsbDetachKernelDriver (interface : Z)
  | RClearHalt (interfaceId endpointId : Z)
  | RGetActiveConfig | RGetRawDescriptor | RGetFileDescriptor
  | RGetDeviceSpeed | RGetInterfaceActiveStatus (interfaceid : Z)
  | RBulkTransferRead (ep : USBEndpoint.t) (timeOut : Z)
  | RBulkTransferReadwithLength (ep : USBEndpoint.t) (length timeOut : Z)
  | RBulkTransferWrite (ep : USBEndpoint.t) (data : list Z) (timeOut : Z)
  | RControlTransfer (ctrlParams : UsbCtlSetUp) (data : list Z)
  | RUsbControlTransfer (ctrlParams : UsbCtlSetUp) (data : list Z)
  | RRequestQueue (ep : USBEndpoint.t) (clientData bufferData : list Z)
  | RRequestWait (timeOut : Z) | RRequestCancel (interfaceId endpointId : Z)
  | RUsbCancelTransfer (endpoint : Z)
  | RUsbSubmitTransfer (param : UsbTransInfo) (cb : option Z) (fd memSize : Z)
  | RRegBulkCallback (ep : USBEndpoint.t) (cb : option Z) | RUnRegBulkCallback (ep : USBEndpoint.t)
  | RBulkRead (ep : USBEndpoint.t) (fd memSize : Z) | RBulkWrite (ep : USBEndpoint.t) (fd memSize : Z)
  | RBulkCancel (ep : USBEndpoint.t).

Inductive HostRequest :=
  | ToDevice (busNum devAddr : Z) (r : DeviceRequest)
  | RManageGlobalInterface (disable : bool)
  | RManageDevice (vendorId productId : Z) (disable : bool)
  | RManageDevicePolicy (trustList : list UsbDeviceIdInfo)
  | RManageInterfaceType (devTypeInfo : list UsbDeviceTypeInfo) (disable : bool)
  | RGetDevices
  | RHasRight (deviceName : string) | RRequestRight (deviceName : string)
  | RRemoveRight (deviceName : string)
  | RAddRight (bundleName deviceName : string) | RAddAccessRight (tokenId deviceName : string).

(** An answer: its code, and what it carries. *)
Inductive Payload := NoData | Word (z : Z) | Flag (b : bool) | Bytes (data : list Z)
  | TwoBytes (data : list Z * list Z) | Devices (l : list UsbDevice.t).
Definition Response : Type := Z * Payload.

Section ServiceGate.
Context {E N D Rt G P Rp : Type} `{EB : ErrBase} `{HD : HostHdi E} `{SY : HostSystem E Rp}.
Context `{RY : Reply Rp} `{SP : SystemParams E} `{NO : NotifierOps N} `{CJ : CJson} `{HO : HashOrder}.
Context `{SH : SerialManager.SerialHdi D} `{CS : CharSign} `{HE : HdfDevErr}.
Context `{CI : CallingIdentity Rt} `{CR : CallerRights Rt} `{RS : !RightsService Rt}.
Context `{PL : ServicePlatform P}.
Abbreviation st := (Service.st E N D Rt G P).
Implicit Types s : st.

Definition plain (m : ST st Z) : ST st Response := ret ← m; mret (ret, NoData).
Definition carry {A} (f : A → Payload) (m : ST st (Z * A)) : ST st Response := r ← m; mret (r.1, f r.2).

(** The stub decodes a request and calls the service. *)
Definition serve_device (bus addr : Z) (r : DeviceRequest) : ST st Response :=
  match r with
  | ROpenDevice => plain (ServiceHost.OpenDevice bus addr)
  | RClose => plain (ServiceHost.Close bus addr)
  | RResetDevice => plain (ServiceHost.ResetDevice bus addr)
  | RClaimInterface i f => plain (ServiceHost.ClaimInterface bus addr i f)
  | RSetInterface i a => plain (ServiceHost.SetInterface bus addr i a)
  | RReleaseInterface i => plain (ServiceHost.ReleaseInterface bus addr i)
  | RSetActiveConfig c => plain (ServiceHost.SetActiveConfig bus addr c)
  | RUsbAttachKernelDriver i => plain (ServiceHost.UsbAttachKernelDriver bus addr i)
  | RUsbDetachKernelDriver i => plain (ServiceHost.UsbDetachKernelDriver bus addr i)
  | RClearHalt i e => plain (ServiceHost.ClearHalt bus addr i e)
  | RGetActiveConfig => carry Word (ServiceHost.GetActiveConfig bus addr 0)
  | RGetRawDescriptor => carry Bytes (ServiceHost.GetRawDescriptor bus addr [])
  | RGetFileDescriptor => carry Word (ServiceHost.GetFileDescriptor bus addr 0)
  | RGetDeviceSpeed => carry Word (ServiceHost.GetDeviceSpeed bus addr 0)
  | RGetInterfaceActiveStatus i => carry Flag (ServiceHost.GetInterfaceActiveStatus bus addr i false)
  | RBulkTransferRead ep t => carry Bytes (ServiceHost.BulkTransferRead bus addr ep [] t)
  | RBulkTransferReadwithLength ep n t =>
      carry Bytes (ServiceHost.BulkTransferReadwithLength bus addr ep n [] t)
  | RBulkTransferWrite ep d t => plain (ServiceHost.BulkTransferWrite bus addr ep d t)
  | RControlTransfer c d => carry Bytes (ServiceHost.ControlTransfer bus addr c d)
  | RUsbControlTransfer c d => carry Bytes (ServiceHost.UsbControlTransfer bus addr c d)
  | RRequestQueue ep c d => plain (ServiceHost.RequestQueue bus addr ep c d)
  | RRequestWait t => carry TwoBytes (ServiceHost.RequestWait bus addr t ([], []))
  | RRequestCancel i e => plain (ServiceHost.RequestCancel bus addr i e)
  | RUsbCancelTransfer e => plain (ServiceHost.UsbCancelTransfer bus addr e)
  | RUsbSubmitTransfer p cb fd n => plain (ServiceHost.UsbSubmitTransfer bus addr p cb fd n)
  | RRegBulkCallback ep cb => plain (ServiceHost.RegBulkCallback bus addr ep cb)
  | RUnRegBulkCallback ep => plain (ServiceHost.UnRegBulkCallback bus addr ep)
  | RBulkRead ep fd n => plain (ServiceHost.BulkRead bus addr ep fd n)
  | RBulkWrite ep fd n => plain (ServiceHost.BulkWrite bus addr ep fd n)
  | RBulkCancel ep => plain (ServiceHost.BulkCancel bus addr ep)
  end.

Definition serve (r : HostRequest) : ST st Response :=
  match r with
  | ToDevice bus addr r => serve_device bus addr r
  | RManageGlobalInterface b => plain (ServiceHost.ManageGlobalInterface b)
  | RManageDevice v p b => plain (ServiceHost.ManageDevice v p b)
  | RManageDevicePolicy l => plain (ServiceHost.ManageDevicePolicy l)
  | RManageInterfaceType l b => plain (ServiceHost.ManageInterfaceType l b)
  | RGetDevices => carry Devices (ServiceHost.GetDevices [])
  | RHasRight d => carry Flag (HasRight_out d)
  | RRequestRight d => plain (RequestRight d)
  | RRemoveRight d => plain (RemoveRight d)
  | RAddRight b d => plain (AddRight b d)
  | RAddAccessRight t d => plain (AddAccessRight t d)
  end.

(** The requests that an application may make without a right. *)
Definition open_to_all (r : HostRequest) : bool :=
  match r with
  | RGetDevices | RHasRight _ | RRequestRight _ | RRemoveRight _ => true
  | _ => false
  end.

(** ** What a request may touch *)

(** The host component is that of [h], its rights aside. *)
Definition unreached (h : HostDriver.st E N (SerialManager.st D) Rt) s : Prop :=
  ∃ rt, host s = HostDriver.set_rights rt h.

Lemma unreached_refl s : unreached (host s) s.
Proof. exists (HostDriver.rights (host s)). by destruct (host s). Qed.
Lemma unreached_host h s s' : host s' = host s → unreached h s → unreached h s'.
Proof. intros Heq [rt Hrt]. exists rt. by rewrite Heq. Qed.

Lemma unreached_rights h {A} (m : ST Rt A) : preserves (unreached h) (on_rights m).
Proof.
  intros s [rt Hrt]. unfold after. rewrite service_rights_run. cbn. unfold unreached, with_rights. cbn.
  rewrite Hrt. by eexists.
Qed.
Lemma unreached_target h b a : preserves (unreached h) (on_host (HostManager.GetTargetDevice b a)).
Proof. intros s Hs. unfold after. rewrite on_host_run. cbn. revert Hs. apply unreached_host. by destruct s. Qed.
Lemma unreached_ask h {A} (f : Rt → A) : preserves (unreached h) (ask_caller f).
Proof. by intros s. Qed.
Lemma unreached_env h {A} (m : ST P A) : preserves (unreached h) (on_env m).
Proof. intros s Hs. unfold after. by rewrite on_env_run. Qed.
Lemma unreached_report h e : preserves (unreached h) (report e).
Proof. by intros s Hs. Qed.
#[local] Hint Resolve unreached_rights unreached_target unreached_ask unreached_env unreached_report
  : preserve.

Lemma unreached_info h : preserves (unreached h) GetCallingInfo.
Proof. unfold GetCallingInfo. step_preserve. Qed.
Lemma unreached_sysapi h : preserves (unreached h) CheckSysApiPermission.
Proof. unfold CheckSysApiPermission, IsSystemAppOrSa, GetHapApiVersion. step_preserve. Qed.
Lemma unreached_identity h {A} n (f : Z → A) k :
  (∀ i, preserves (unreached h) (k i)) → preserves (unreached h) (with_identity n f k).
Proof.
  intros Hk. unfold with_identity. step_preserve.
Qed.
#[local] Hint Resolve unreached_info unreached_sysapi unreached_identity : preserve.

Lemma unreached_HasRight h n : preserves (unreached h) (HasRight n).
Proof. unfold HasRight, IsSystemAppOrSa. step_preserve. Qed.
#[local] Hint Resolve unreached_HasRight : preserve.
Lemma unreached_CheckDevicePermission h b a : preserves (unreached h) (CheckDevicePermission b a).
Proof. unfold CheckDevicePermission. step_preserve. Qed.
Lemma unreached_fault h t d p c x : preserves (unreached h) (ReportTransferFaultSysEvent t d p c x).
Proof. unfold ReportTransferFaultSysEvent. step_preserve. Qed.
#[local] Hint Resolve unreached_CheckDevicePermission unreached_fault : preserve.
Lemma unreached_submit_fault h b a p c x : preserves (unreached h) (submit_fault b a p c x).
Proof. unfold submit_fault, report_target. step_preserve. Qed.
Lemma unreached_operation_fault h o c x : preserves (unreached h) (ReportUsbOperationFaultSysEvent o c x).
Proof. apply unreached_report. Qed.
#[local] Hint Resolve unreached_operation_fault : preserve.
Lemma unreached_report_target h b a f :
  (∀ d, preserves (unreached h) (f d)) → preserves (unreached h) (report_target b a f).
Proof. intros Hf. unfold report_target. step_preserve. Qed.
#[local] Hint Resolve unreached_submit_fault unreached_report_target : preserve.

(** ** An application without a right *)
Section Unentitled.
Context (entitled : Rt → string → string → string → Z → Prop) `{!RightsLaws Rt entitled}.

(** The caller is an application, not a part of the system. *)
Definition ordinary s : Prop := result rights_IsSystemAppOrSa (the_rights s) = false.

(** No record entitles the caller to the device of a name. *)
Definition unentitled (name : string) s : Prop :=
  ∀ identity bundle token token' user,
    deviceVidPidMap_ s !! name = Some identity →
    calling_info (the_rights s) = Some (bundle, token, user) →
    ¬ entitled (the_rights s) identity bundle token' user.

Lemma IsSystemAppOrSa_ordinary s : ordinary s → IsSystemAppOrSa s = (false, s).
Proof.
  intros Ho. unfold IsSystemAppOrSa. rewrite service_rights_run, Ho, caller_query. by rewrite with_rights_same.
Qed.

Lemma not_entitled d b k u rt : ¬ entitled rt d b k u → result (rs_HasRight d b k u) rt = false.
Proof. intros Hn. apply not_true_is_false. intros Hr. by apply Hn, has_right_entitled. Qed.

Lemma CheckDevicePermission_unentitled b a s :
  ordinary s → unentitled (dev_name b a) s → result (CheckDevicePermission b a) s = false.
Proof.
  intros Ho Hu. unfold CheckDevicePermission, HasRight, with_identity, FindDeviceVidPidSerialNumber, result.
  st_exec. destruct (usbRightManager_ s); st_exec; [|done].
  destruct (deviceVidPidMap_ s !! _) as [identity|] eqn:Hi; st_exec; [|done].
  rewrite IsSystemAppOrSa_ordinary by done. st_exec.
  rewrite GetCallingInfo_run. st_exec.
  destruct (calling_info _) as [[[bundle token] user]|] eqn:Ec; [|done]. st_exec.
  rewrite service_rights_run. st_exec. rewrite not_entitled by (by eapply Hu).
  rewrite service_rights_run. st_exec. cbn [the_rights with_rights set_host host HostDriver.rights HostDriver.set_rights].
  rewrite not_entitled; [done|]. intros He%has_right_grants_nothing. by eapply Hu.
Qed.

(** ** Refusals *)

(** A computation that fails, and leaves the host component alone. *)
Definition refuses {A} (code : A → Z) (m : ST st A) s : Prop :=
  code (result m s) ≠ UEC_OK ∧ unreached (host s) (after m s).

Lemma refuses_plain m s : refuses id m s → refuses fst (plain m) s.
Proof. unfold refuses, plain. by autorewrite with st. Qed.
Lemma refuses_carry {A} (f : A → Payload) m s : refuses fst m s → refuses fst (carry f m) s.
Proof. unfold refuses, carry. by autorewrite with st. Qed.

Lemma denied_not_ok : UEC_SERVICE_PERMISSION_DENIED ≠ UEC_OK.
Proof. uec. Qed.
Lemma denied_sysapi_not_ok : UEC_SERVICE_PERMISSION_DENIED_SYSAPI ≠ UEC_OK.
Proof. uec. Qed.
Lemma not_found_not_ok : UEC_INTERFACE_NAME_NOT_FOUND ≠ UEC_OK.
Proof. uec. Qed.
Lemma operation_not_ok : UEC_SERVICE_INVALID_OPERATION ≠ UEC_OK.
Proof. uec. Qed.
Lemma pre_manage_not_ok : UEC_SERVICE_PRE_MANAGE_INTERFACE_FAILED ≠ UEC_OK.
Proof. uec. Qed.
#[local] Hint Resolve denied_not_ok denied_sysapi_not_ok not_found_not_ok operation_not_ok pre_manage_not_ok
  invalid_not_ok unreached_refl : core.

(** A computation that ends with a failure after steps that leave the host alone. *)
Lemma refuses_end {A} (code : A → Z) h (d : ST st unit) (x : A) s :
  preserves (unreached h) d → code x ≠ UEC_OK → unreached h s →
  code (result (d ;; mret x) s) ≠ UEC_OK ∧ unreached h (after (d ;; mret x) s).
Proof. intros Hd Hx Hs. autorewrite with st. split; [done|by apply Hd]. Qed.

Section Device.
Context (b a : Z) (s : st) (Ho : ordinary s) (Hu : unentitled (dev_name b a) s).

(** The check of the right fails. *)
Lemma refuses_check {A} (code : A → Z) (k : bool → ST st A) :
  (∀ s', unreached (host s) s' →
     code (result (k false) s') ≠ UEC_OK ∧ unreached (host s) (after (k false) s')) →
  refuses code (CheckDevicePermission b a ≫= k) s.
Proof.
  intros Hk. unfold refuses. autorewrite with st. rewrite CheckDevicePermission_unentitled by done.
  apply Hk, unreached_CheckDevicePermission, unreached_refl.
Qed.

Lemma device_request_refused {A} (reply : Z → A) code denied m :
  (∀ z, code (reply z) = z) → preserves (unreached (host s)) denied →
  refuses code (device_request b a reply denied m) s.
Proof. intros Hc Hd. apply refuses_check. intros s' Hs'. apply refuses_end; [done|by rewrite Hc|done]. Qed.

Lemma transfer_refused {A} (reply : Z → A) code type pipe m fault :
  (∀ z, code (reply z) = z) → refuses code (transfer b a reply code type pipe m fault) s.
Proof.
  intros Hc. unfold transfer. unfold refuses. rewrite after_bind, result_bind, after_gets, result_gets.
  case_if; [|split; [by rewrite result_ret, Hc|done]].
  apply refuses_check. intros s' Hs'. apply refuses_end; [|by rewrite Hc|done]. auto with preserve.
Qed.

Lemma ashmem_refused name fail ep fd n m : refuses id (ashmem_transfer name fail b a ep fd n m) s.
Proof.
  unfold ashmem_transfer, refuses. rewrite after_bind, result_bind, after_gets, result_gets.
  case_if; [apply (refuses_end id); auto with preserve; apply invalid_not_ok|].
  apply refuses_check. intros s' Hs'. cbn [negb].
  rewrite after_bind, result_bind. apply (refuses_end id); [auto with preserve|apply denied_not_ok|].
  by apply unreached_env.
Qed.

Lemma submit_refused param cb fd n : refuses id (UsbSubmitTransfer b a param cb fd n) s.
Proof.
  unfold UsbSubmitTransfer. destruct cb; [|apply (refuses_end id); auto with preserve; apply invalid_not_ok].
  case_if; [apply (refuses_end id); auto with preserve; apply invalid_not_ok|].
  unfold refuses. rewrite after_bind, result_bind, after_gets, result_gets.
  case_if; [|split; [apply invalid_not_ok|done]].
  apply refuses_check. intros s' Hs'. apply (refuses_end id); [auto with preserve|apply denied_not_ok|done].
Qed.

Lemma reset_refused : refuses id (ServiceHost.ResetDevice b a) s.
Proof.
  unfold ServiceHost.ResetDevice, refuses. rewrite after_bind, result_bind, after_gets, result_gets.
  case_if; [|split; [apply not_found_not_ok|done]].
  apply device_request_refused; auto with preserve.
Qed.
End Device.

(** ** The system interface *)
Lemma CheckSysApiPermission_ordinary s :
  ordinary s → CheckSysApiPermission s = (UEC_SERVICE_PERMISSION_DENIED_SYSAPI, s).
Proof. intros Ho. unfold CheckSysApiPermission. rewrite bind_unfold, IsSystemAppOrSa_ordinary by done. done. Qed.

Lemma PreCallFunction_ordinary s :
  ordinary s → ∃ ret, PreCallFunction s = (ret, s) ∧ ret ≠ UEC_OK.
Proof.
  intros Ho. unfold PreCallFunction, ask_env. st_exec.
  case_if; st_exec; [|by eexists; split; [|apply invalid_not_ok]].
  destruct (usbRightManager_ s); st_exec; [|by eexists; split; [|apply invalid_not_ok]].
  rewrite CheckSysApiPermission_ordinary by done. st_exec.
  rewrite (proj2 (Z.eqb_neq _ _) denied_sysapi_not_ok). st_exec.
  by eexists; split; [|apply denied_sysapi_not_ok].
Qed.

Lemma precall_refused {A} (code : A → Z) (x : A) (m : ST st A) s :
  ordinary s → code x ≠ UEC_OK →
  refuses code (ret ← PreCallFunction; if negb (ret =? UEC_OK) then mret x else m) s.
Proof.
  intros Ho Hx. destruct (PreCallFunction_ordinary s Ho) as (ret & Hr & Hn).
  unfold refuses, result, after. rewrite bind_unfold, Hr. cbn [fst snd].
  rewrite (proj2 (Z.eqb_neq _ _) Hn). cbn. by split.
Qed.

Lemma policy_refused m s : ordinary s → refuses id (policy_request m) s.
Proof.
  intros Ho. unfold refuses, policy_request, IsCallerValid, ask_caller, result, after. st_exec.
  destruct (CallingTokenIsNative _) eqn:En; st_exec; [|by split; [apply operation_not_ok|]].
  apply native_is_system in En. unfold ordinary, the_rights in Ho. by rewrite En in Ho.
Qed.

Lemma sysapi_refused (k : Z → ST st Z) s :
  ordinary s →
  refuses id (right ← gets usbRightManager_;
              if negb right then mret UEC_SERVICE_INVALID_VALUE
              else ret ← CheckSysApiPermission; if negb (ret =? UEC_OK) then mret ret else k ret) s.
Proof.
  intros Ho. unfold refuses, result, after. st_exec.
  destruct (usbRightManager_ s); st_exec; [|by split; [apply invalid_not_ok|]].
  rewrite CheckSysApiPermission_ordinary by done. st_exec.
  rewrite (proj2 (Z.eqb_neq _ _) denied_sysapi_not_ok). by split; [apply denied_sysapi_not_ok|].
Qed.

Lemma serve_device_refused b a r s :
  ordinary s → unentitled (dev_name b a) s → refuses fst (serve_device b a r) s.
Proof.
  intros Ho Hu.
  destruct r; cbn [serve_device];
    try (apply refuses_plain; (apply device_request_refused || apply transfer_refused ||
      apply ashmem_refused || apply submit_refused || apply reset_refused); auto with preserve; done);
    try (apply refuses_carry; (apply device_request_refused || apply transfer_refused);
      auto with preserve; done).
  all: apply refuses_carry, precall_refused; [done|apply pre_manage_not_ok].
Qed.

Lemma unreached_GetDevices h l : preserves (unreached h) (on_host (HostManager.GetDevices l)).
Proof.
  intros s [rt Hrt]. unfold after. rewrite on_host_run.
  unfold HostManager.GetDevices, after. st_exec. rewrite HostDriver.on_rights_run. cbn. rewrite Hrt. by eexists.
Qed.
#[local] Hint Resolve unreached_GetDevices : preserve.

(** Any request of such an application. *)
Lemma serve_unentitled r s :
  ordinary s → (∀ b a, unentitled (dev_name b a) s) →
  unreached (host s) (after (serve r) s) ∧
  (open_to_all r = false → (result (serve r) s).1 ≠ UEC_OK).
Proof.
  intros Ho Hu.
  assert (Hrefuse : refuses fst (serve r) s ∨ open_to_all r = true ∧ unreached (host s) (after (serve r) s)).
  { destruct r; cbn [serve];
      try (left; by apply serve_device_refused);
      try (left; apply refuses_plain, policy_refused, Ho);
      try (left; apply refuses_plain, sysapi_refused, Ho).
    all: right; split; [done|].
    all: refine ((_ : preserves (unreached (host s)) _) s (unreached_refl s)).
    all: unfold carry, plain, ServiceHost.GetDevices, HasRight_out, RequestRight, RemoveRight, IsSystemAppOrSa.
    all: step_preserve. }
  destruct Hrefuse as [[Hc Hh]|[Hq Hh]]; split; [done|done|done|by rewrite Hq].
Qed.

(** C1: an application that was granted nothing reaches nothing.  Take an application that is
    no part of the system, and no record that entitles it to any attached device: whichever
    request of [IUsbServer.idl] it makes about devices and policies, for whichever device
    and with whichever arguments, the driver, the table of devices, the recipients and the
    registered callback of the host manager are as before; and every request that is not
    open to all (listing the devices, asking for a right, asking for one and giving it up)
    answers with an error code. *)
Theorem unentitled_reaches_nothing r s
    (Ho : ordinary s) (Hu : ∀ b a, unentitled (dev_name b a) s) :
  unreached (host s) (after (serve r) s) ∧
  (open_to_all r = false → (result (serve r) s).1 ≠ UEC_OK).
Proof. by apply serve_unentitled. Qed.
End Unentitled.
End ServiceGate.
