(* ===== verification/ServicePorts.v ===== *)
(** * The service: no right, no port

    The requests of [IUsbServer.idl] about serial ports, as one type with its dispatcher.
    An application that was granted nothing for the device behind a port, and has not got
    it open, reaches neither the serial manager nor its driver. *)

From S2P Require Import Prelude UsbErrors UsbTypes Interfaces.
From S2P Require Import HostDriver HostManager Service ServiceHost ServiceSerial ServiceGate.
From S2P Require SerialManager RightManager.

#[local] Set Default Goal Selector "!".

Inductive PortRequest :=
  | QOpen (serialRemote : Z) | QClose
  | QRead (data : list Z) (size timeout : Z) | QWrite (data : list Z) (size timeout : Z)
  | QGetAttribute (attributeInfo : UsbSerialAttr) | QSetAttribute (attributeInfo : UsbSerialAttr)
  | QAddRight (tokenId : Z)
  | QHasRight | QRequestRight | QCancelRight.

(** The requests that an application may make without a right: it may ask whether it has
    one, ask for one, and give it up. *)
Definition open_port_request (r : PortRequest) : bool :=
  match r with QHasRight | QRequestRight | QCancelRight => true | _ => false end.

Section ServicePorts.
Context {E N D Rt G P : Type} `{EB : ErrBase} `{SH : SerialManager.SerialHdi D}.
Context `{CI : CallingIdentity Rt} `{CR : CallerRights Rt} `{RS : !RightsService Rt}.
Context `{PL : ServicePlatform P}.
Abbreviation st := (Service.st E N D Rt G P).
Abbreviation aside := (unreached (E := E) (N := N) (D := D) (Rt := Rt) (G := G) (P := P)).
Implicit Types (s : st) (h : HostDriver.st E N (SerialManager.st D) Rt).

(** The code of an answer; [None]: an exception left the function. *)
Definition serve_port (p : Z) (r : PortRequest) : ST st (option Z) :=
  match r with
  | QOpen cb => Some <$> SerialOpen p cb
  | QClose => Some <$> SerialClose p
  | QRead d n t => (λ r : Z * list Z * option Z, Some r.1.1) <$> SerialRead p d n t
  | QWrite d n t => (λ r : Z * option Z, Some r.1) <$> SerialWrite p d n t
  | QGetAttribute a => (λ r : Z * UsbSerialAttr, Some r.1) <$> SerialGetAttribute p a
  | QSetAttribute a => Some <$> SerialSetAttribute p a
  | QAddRight k => Some <$> AddSerialRight k p
  | QHasRight => (λ r : Z * bool, Some r.1) <$> HasSerialRight p
  | QRequestRight => (λ r, fst <$> r) <$> RequestSerialRight p
  | QCancelRight => Some <$> CancelSerialRight p
  end.

Context (entitled : Rt → string → string → string → Z → Prop) `{!RightsLaws Rt entitled}.

(** No record entitles the caller to the device of a port. *)
Definition unentitled_port (p : Z) s : Prop :=
  ∀ name identity bundle token token' user,
    serialVidPidMap_ s !! p = Some (name, identity) →
    calling_info (the_rights s) = Some (bundle, token, user) →
    ¬ entitled (the_rights s) identity bundle token' user.

Definition caller_of (rt : Rt) : SerialManager.Caller :=
  SerialManager.mk_Caller (GetCallingTokenID rt) (GetCallingUid rt).

(** The port is closed to the caller: it is an application, has no right, and has not got
    the port open. *)
Record shut (p : Z) s : Prop := {
  shut_ordinary : ordinary s;
  shut_unentitled : unentitled_port p s;
  shut_not_owner : ¬ SerialManager.owns (caller_of (the_rights s)) p (the_serial s);
}.

Lemma caller_run s : caller s = (caller_of (the_rights s), s).
Proof. done. Qed.

(** ** The operations *)
Lemma database_not_ok : UEC_SERIAL_DATEBASE_ERROR ≠ UEC_OK.
Proof. uec. Qed.
Lemma io_not_ok : UEC_SERIAL_IO_EXCEPTION ≠ UEC_OK.
Proof. uec. Qed.
Lemma not_exist_not_ok : UEC_SERIAL_PORT_NOT_EXIST ≠ UEC_OK.
Proof. uec. Qed.

Lemma ValidatePort_run p s :
  ValidateUsbSerialManagerAndPort p s = (result (ValidateUsbSerialManagerAndPort p) s, s).
Proof.
  unfold ValidateUsbSerialManagerAndPort, result. st_exec. case_if; st_exec; [|done].
  rewrite service_serial_run. st_exec. f_equal. exact (with_serial_same s).
Qed.

(** A call of the serial manager that is refused leaves the service as it is. *)
Lemma serial_same {A} (m : ST (SerialManager.st D) A) (a : A) s :
  m (the_serial s) = (a, the_serial s) → on_serial m s = (a, s).
Proof. intros Hm. rewrite service_serial_run. unfold result, after. rewrite Hm. cbn. by rewrite with_serial_same. Qed.

(** A computation that fails, and leaves the host component alone. *)
Definition denies {A} (code : A → option Z) h (m : ST st A) s : Prop :=
  (∃ ret, code (result m s) = Some ret ∧ ret ≠ UEC_OK) ∧ aside h (after m s).

Lemma denies_fault {A} (code : A → option Z) h p op ret text (a : A) s :
  code a = Some ret → ret ≠ UEC_OK → aside h s → denies code h (serial_fault p op ret text a) s.
Proof.
  intros Hc Hr Hs. unfold denies, serial_fault, ReportUsbSerialOperationFaultSysEvent.
  rewrite result_bind, after_bind. split; [by exists ret|]. by apply unreached_report.
Qed.

Lemma denies_port_request {A} (code : A → option Z) h p op (reply : Z → A) m s :
  (∀ ret, code (reply ret) = Some ret) → aside h s → denies code h m s →
  denies code h (port_request p op reply m) s.
Proof.
  intros Hc Hs Hm. unfold port_request, denies, result, after. rewrite bind_unfold, ValidatePort_run.
  cbn [fst snd]. case_if; bsimp; [exact Hm|].
  by eapply (denies_fault code h p op (result (ValidateUsbSerialManagerAndPort p) s)).
Qed.

Lemma after_map {A B} (f : A → B) (m : ST st A) s : after (f <$> m) s = after m s.
Proof. unfold after, fmap, ST_fmap. by destruct (m s). Qed.
Lemma denies_fmap {A B} (f : A → B) (code : B → option Z) h (m : ST st A) s :
  denies (λ a, code (f a)) h m s → denies code h (f <$> m) s.
Proof.
  unfold denies, result, after, fmap, ST_fmap. by destruct (m s).
Qed.

(** Looking a right up leaves the host component alone. *)
Lemma unreached_ValidatePort h p : preserves (aside h) (ValidateUsbSerialManagerAndPort p).
Proof. intros s Hs. unfold after. by rewrite ValidatePort_run. Qed.
Lemma unreached_port_fault h p op ret text :
  preserves (aside h) (ReportUsbSerialOperationFaultSysEvent p op ret text).
Proof. apply unreached_report. Qed.
#[local] Hint Resolve unreached_port_fault : preserve.
Lemma unreached_CheckDb h p : preserves (aside h) (CheckDbAbility p).
Proof. unfold CheckDbAbility. step_preserve. Qed.
#[local] Hint Resolve unreached_rights unreached_report unreached_info unreached_sysapi
  unreached_ValidatePort unreached_CheckDb : preserve.
Lemma unreached_HasSerialRight h p : preserves (aside h) (HasSerialRight p).
Proof. unfold HasSerialRight, FindSerialVidPidSerialNumber, IsSystemAppOrSa. step_preserve. Qed.

Lemma unreached_serial_fault h {A} p op ret text (a : A) :
  preserves (aside h) (serial_fault p op ret text a).
Proof. unfold serial_fault. step_preserve. Qed.
#[local] Hint Resolve unreached_serial_fault : preserve.
Lemma unreached_RequestSerialRight h p : preserves (aside h) (RequestSerialRight p).
Proof. unfold RequestSerialRight, FindSerialVidPidSerialNumber, IsSystemAppOrSa. step_preserve. Qed.

(** ** The requests of a caller to a port that is shut *)
Section Shut.
Context (p : Z) (s : st) (Hs : shut p s).

Lemma HasSerialRight_shut : (result (HasSerialRight p) s).2 = false.
Proof.
  destruct Hs as [Ho Hu _]. unfold HasSerialRight, FindSerialVidPidSerialNumber, result. st_exec.
  case_if; st_exec; [|done]. rewrite ValidatePort_run. st_exec. case_if; st_exec; [|done].
  unfold CheckDbAbility, ask_env. st_exec. destruct (RightHelperExists (env s)); st_exec.
  2:{ by rewrite (proj2 (Z.eqb_neq _ _) database_not_ok). }
  destruct (serialVidPidMap_ s !! p) as [[name identity]|] eqn:Hi; st_exec; [|done].
  rewrite (IsSystemAppOrSa_ordinary entitled) by done. st_exec. rewrite GetCallingInfo_run. st_exec.
  destruct (calling_info _) as [[[bundle token] user]|] eqn:Ec; st_exec; [|done].
  rewrite service_rights_run. st_exec. rewrite (not_entitled entitled) by (by eapply Hu). st_exec.
  rewrite service_rights_run. st_exec. cbn [the_rights with_rights set_host host HostDriver.rights HostDriver.set_rights].
  rewrite (not_entitled entitled); [done|]. intros He%has_right_grants_nothing. by eapply Hu.
Qed.

Lemma refused_call (data : list Z) (size timeout : Z) (attribute : SerialManager.SerialAttribute) :
  ∃ ret, ret ≠ UEC_OK ∧ let c := caller_of (the_rights s) in
    on_serial (SerialManager.SerialClose c p) s = (ret, s) ∧
    on_serial (SerialManager.SerialRead c p data size timeout) s = ((ret, data, None), s) ∧
    on_serial (SerialManager.SerialWrite c p data size timeout) s = ((ret, None), s) ∧
    on_serial (SerialManager.SerialGetAttribute c p attribute) s = ((ret, attribute), s) ∧
    on_serial (SerialManager.SerialSetAttribute c p attribute) s = (ret, s).
Proof.
  destruct (SerialManager.not_owner_refused _ p data size timeout attribute _ (shut_not_owner _ _ Hs))
    as (ret & Hr & H1 & H2 & H3 & H4 & H5).
  exists ret. split; [done|]. cbv zeta. split_and!; by apply serial_same.
Qed.

(** The report of an operation says nothing for a caller that is not the owner. *)
Lemma report_operation_shut op : ReportUsbSerialOperationSysEvent p op s = (tt, s).
Proof.
  destruct (refused_call [] 0 0 (SerialManager.mk_SerialAttribute 0 0 0 0)) as (ret & Hr & _ & _ & _ & Hg & _).
  unfold ReportUsbSerialOperationSysEvent. rewrite bind_unfold.
  rewrite (serial_same (SerialManager.GetSerialPort p) (SerialManager.serialPortMap_ (the_serial s) !! p)) by done.
  cbn [fst snd]. case_match; [|done]. rewrite bind_unfold, caller_run. cbn [fst snd].
  rewrite bind_unfold, Hg. cbn [fst snd]. by rewrite (proj2 (Z.eqb_neq _ _) Hr).
Qed.

Lemma SerialOpen_shut cb : denies Some (host s) (SerialOpen p cb) s.
Proof.
  apply denies_port_request; [done|apply unreached_refl|].
  pose proof HasSerialRight_shut as Hr. pose proof (unreached_HasSerialRight _ p s (unreached_refl s)) as Hh.
  unfold denies. rewrite result_bind, after_bind. revert Hh Hr.
  generalize (after (HasSerialRight p) s). destruct (result (HasSerialRight p) s) as [ret []]; [done|].
  intros s1 Hs1 _. apply (denies_fault _ _ p); [done|uec|done].
Qed.

Lemma SerialClose_shut : denies Some (host s) (SerialClose p) s.
Proof.
  apply denies_port_request; [done|apply unreached_refl|].
  destruct (refused_call [] 0 0 (SerialManager.mk_SerialAttribute 0 0 0 0)) as (ret & Hr & Hc & _).
  unfold denies, result, after. rewrite bind_unfold, report_operation_shut. cbn [fst snd].
  rewrite bind_unfold, caller_run. cbn [fst snd]. rewrite bind_unfold, Hc. cbn [fst snd].
  rewrite (proj2 (Z.eqb_neq _ _) Hr). by apply (denies_fault _ _ p), unreached_refl.
Qed.

Lemma SerialRead_shut data n t : denies (λ r : Z * list Z * option Z, Some r.1.1) (host s) (SerialRead p data n t) s.
Proof.
  unfold SerialRead. case_if; [split; [exists UEC_SERIAL_IO_EXCEPTION; split; [done|uec]|apply unreached_refl]|].
  apply denies_port_request; [done|apply unreached_refl|].
  destruct (refused_call data n t (SerialManager.mk_SerialAttribute 0 0 0 0)) as (ret & Hr & _ & Hc & _).
  unfold denies, result, after. rewrite bind_unfold, caller_run. cbn [fst snd].
  rewrite bind_unfold, Hc. cbn [fst snd]. rewrite (proj2 (Z.eqb_neq _ _) Hr).
  by eapply (denies_fault _ _ p), unreached_refl.
Qed.

Lemma SerialWrite_shut data n t : denies (λ r : Z * option Z, Some r.1) (host s) (SerialWrite p data n t) s.
Proof.
  unfold SerialWrite. case_if; [split; [exists UEC_SERIAL_IO_EXCEPTION; split; [done|uec]|apply unreached_refl]|].
  apply denies_port_request; [done|apply unreached_refl|].
  destruct (refused_call data n t (SerialManager.mk_SerialAttribute 0 0 0 0)) as (ret & Hr & _ & _ & Hc & _).
  unfold denies, result, after. rewrite bind_unfold, caller_run. cbn [fst snd].
  rewrite bind_unfold, Hc. cbn [fst snd]. rewrite (proj2 (Z.eqb_neq _ _) Hr).
  by eapply (denies_fault _ _ p), unreached_refl.
Qed.

Lemma SerialGetAttribute_shut a : denies (λ r : Z * UsbSerialAttr, Some r.1) (host s) (SerialGetAttribute p a) s.
Proof.
  apply denies_port_request; [done|apply unreached_refl|].
  destruct (refused_call [] 0 0 (SerialManager.mk_SerialAttribute 0 0 0 0)) as (ret & Hr & _ & _ & _ & Hc & _).
  unfold denies, result, after. rewrite bind_unfold, caller_run. cbn [fst snd].
  rewrite bind_unfold, Hc. cbn [fst snd]. rewrite (proj2 (Z.eqb_neq _ _) Hr). cbn [negb].
  split; [by exists ret|]. apply (unreached_report (host s)), unreached_refl.
Qed.

Lemma SerialSetAttribute_shut a : denies Some (host s) (SerialSetAttribute p a) s.
Proof.
  apply denies_port_request; [done|apply unreached_refl|].
  destruct (refused_call [] 0 0 (SerialAttributeChange a)) as (ret & Hr & _ & _ & _ & _ & Hc).
  unfold denies, result, after. rewrite bind_unfold, caller_run. cbn [fst snd].
  rewrite bind_unfold, Hc. cbn [fst snd]. rewrite (proj2 (Z.eqb_neq _ _) Hr).
  by apply (denies_fault _ _ p), unreached_refl.
Qed.

Lemma AddSerialRight_shut k : denies Some (host s) (AddSerialRight k p) s.
Proof.
  unfold AddSerialRight, denies, result, after. st_exec. case_if; st_exec.
  - rewrite (CheckSysApiPermission_ordinary entitled) by apply Hs. st_exec.
    rewrite (proj2 (Z.eqb_neq _ _) denied_sysapi_not_ok). apply (denies_fault _ _ p); [done|uec|apply unreached_refl].
  - apply (denies_fault _ _ p); [done|uec|apply unreached_refl].
Qed.

End Shut.

(** Giving a right up closes no port of another application: the caller of the close is the
    caller of the request. *)
Section Cancel.
Context (p : Z) (s : st) (Hown : ¬ SerialManager.owns (caller_of (the_rights s)) p (the_serial s)).

Definition same_caller (s' : st) : Prop :=
  ∃ rt, host s' = HostDriver.set_rights rt (host s) ∧ GetCallingTokenID rt = GetCallingTokenID (the_rights s).

Lemma same_caller_host s1 s2 : host s2 = host s1 → same_caller s1 → same_caller s2.
Proof. intros Heq (rt & Hrt & Ht). exists rt. by rewrite Heq. Qed.
Lemma same_caller_rights {A} (m : ST Rt A) :
  (∀ rt, GetCallingTokenID (after m rt) = GetCallingTokenID rt) → preserves same_caller (on_rights m).
Proof.
  intros Hm s1 (rt & Hrt & Ht). unfold after. rewrite service_rights_run. cbn.
  exists (after m (the_rights s1)). unfold with_rights. cbn. rewrite Hrt. split; [done|].
  rewrite Hm. unfold the_rights. by rewrite Hrt.
Qed.
Lemma same_caller_port_fault op ret text :
  preserves same_caller (ReportUsbSerialOperationFaultSysEvent p op ret text).
Proof. intros s1. by apply same_caller_host. Qed.
Lemma same_caller_validate : preserves same_caller (ValidateUsbSerialManagerAndPort p).
Proof. intros s1. apply same_caller_host. unfold after. by rewrite ValidatePort_run. Qed.
Lemma same_caller_info : preserves same_caller GetCallingInfo.
Proof. intros s1. apply same_caller_host. unfold after. by rewrite GetCallingInfo_run. Qed.
Lemma same_caller_system : preserves same_caller IsSystemAppOrSa.
Proof. apply same_caller_rights. intros rt. by rewrite caller_query. Qed.
Lemma same_caller_remove d b k u : preserves same_caller (on_rights (rs_RemoveDeviceRight d b k u)).
Proof. apply same_caller_rights. intros rt. apply remove_keeps_caller. Qed.
Lemma same_caller_close :
  preserves same_caller (c ← caller; on_serial (SerialManager.SerialClose c p) ;; mret UEC_OK).
Proof.
  intros s1 Hs1. rewrite !after_bind, after_ret. unfold after, result. rewrite caller_run. cbn [fst snd].
  assert (H1 : ¬ SerialManager.owns (caller_of (the_rights s1)) p (the_serial s1)).
  { destruct Hs1 as (rt & Hrt & Ht). unfold SerialManager.owns, the_serial, the_rights. rewrite Hrt. cbn.
    by rewrite Ht. }
  destruct (SerialManager.not_owner_refused _ p [] 0 0 (SerialManager.mk_SerialAttribute 0 0 0 0) _ H1)
    as (ret & _ & Hc & _).
  by rewrite (serial_same _ ret).
Qed.
#[local] Hint Resolve same_caller_port_fault same_caller_validate same_caller_info same_caller_system
  same_caller_remove same_caller_close : preserve.

Lemma CancelSerialRight_aside : aside (host s) (after (CancelSerialRight p) s).
Proof.
  assert (Hp : preserves same_caller (CancelSerialRight p)).
  { unfold CancelSerialRight, CheckDbAbility, FindSerialVidPidSerialNumber, serial_fault. step_preserve. }
  destruct (Hp s) as (rt & Hrt & _); [|by exists rt].
  exists (the_rights s). split; [by destruct s as [[]]|done].
Qed.
End Cancel.

(** Any request of an application that the port is shut to. *)
Lemma serve_port_shut p r s :
  shut p s →
  aside (host s) (after (serve_port p r) s) ∧
  (open_port_request r = false → ∃ ret, result (serve_port p r) s = Some ret ∧ ret ≠ UEC_OK).
Proof.
  intros Hs.
  assert (Hd : open_port_request r = false → denies id (host s) (serve_port p r) s).
  { destruct r; try done; intros _; cbn [serve_port]; apply denies_fmap.
    - by apply SerialOpen_shut.
    - by apply SerialClose_shut.
    - by apply SerialRead_shut.
    - by apply SerialWrite_shut.
    - by apply SerialGetAttribute_shut.
    - by apply SerialSetAttribute_shut.
    - by apply AddSerialRight_shut. }
  destruct (open_port_request r) eqn:Hr; [|by destruct (Hd eq_refl) as [? ?]].
  split; [|done]. destruct r; try done; cbn [serve_port]; rewrite after_map.
  - apply unreached_HasSerialRight, unreached_refl.
  - apply unreached_RequestSerialRight, unreached_refl.
  - apply CancelSerialRight_aside, Hs.
Qed.

(** C3: an application that was granted nothing for the device behind a serial port, and
    has not got the port open, reaches nothing through it: whichever request of
    [IUsbServer.idl] about the port it makes, the sessions of the ports, the serial driver
    and everything else of the host component are as before; and every request but asking
    for the right and giving it up answers with an error code. *)
Theorem unentitled_reaches_no_port p r s (Hs : shut p s) :
  aside (host s) (after (serve_port p r) s) ∧
  (open_port_request r = false → ∃ ret, result (serve_port p r) s = Some ret ∧ ret ≠ UEC_OK).
Proof. by apply serve_port_shut. Qed.
End ServicePorts.
