(* ===== verification/ServiceIdentity.v ===== *)
(** * The service: whose rights are checked

    A right is granted for a vendor, a product and a serial number, and a request names a
    bus and an address; [deviceVidPidMap_] leads from the one to the other.  The theorem of
    this file is that it follows the table of the attached devices: in every history of
    arrivals, removals, policies and requests of clients, a name has an identity exactly
    when a device is attached there, and the identity is that of the device, unless the
    device arrived under the name while another was attached ([service_step] keeps the
    set of those names).  So a client's right is looked up for the very device that it asks
    for, and for none when nothing is attached. *)

From stdpp Require Import pretty sorting relations.
From S2P Require Import Prelude UsbErrors UsbTypes DescriptorParser Interfaces Marshalling Json.
From S2P Require Import HostDriver HostEvents HostPolicy HostManager HostInvariant HostReading.
From S2P Require Import Service ServiceHost ServiceGate.
From S2P Require SerialManager RightDatabase RightManager.

#[local] Set Default Goal Selector "!".

(** ** The host manager keeps the identities of its devices *)
Section HostNames.
Context {E N SM R Rp : Type} `{EB : ErrBase} `{HD : HostHdi E} `{SY : HostSystem E Rp}.
Context `{RY : Reply Rp} `{SP : SystemParams E} `{NO : NotifierOps N} `{CJ : CJson} `{HO : HashOrder}.
Context `{SR : SerialPorts SM} `{CR : CallerRights R} `{CS : CharSign}.
Abbreviation hst := (HostDriver.st E N SM R).
Implicit Types (h : hst) (M : gmap string string).

(** The identities of the attached devices, by their names. *)
Definition attached h : gmap string string := unique_name <$> devices_ h.
Definition names M h : Prop := attached h = M.

Lemma names_same M h h' : devices_ h' = devices_ h → names M h → names M h'.
Proof. unfold names, attached. by intros ->. Qed.

Lemma names_modify M f : (∀ h, devices_ (f h) = devices_ h) → preserves (names M) (modify f).
Proof. intros Hf h Hh. by apply (names_same M h). Qed.

(** A device that is changed keeps its vendor, product and serial number. *)
Lemma names_update M name f :
  (∀ d, unique_name (f d) = unique_name d) → preserves (names M) (update_device name f).
Proof.
  intros Hf h Hh. unfold update_device. rewrite after_modify. unfold names, attached in *. cbn.
  rewrite <- Hh. apply map_eq. intros i. rewrite !lookup_fmap, lookup_alter.
  case_decide; [subst|done]. destruct (devices_ h !! i); cbn; [by rewrite Hf|done].
Qed.

Lemma names_platform M {A} (m : ST E A) : preserves (names M) (on_platform m).
Proof. intros h Hh. unfold after. rewrite HostDriver.on_platform_run. by apply (names_same M h). Qed.

#[export] Instance names_policies M : PolicyInvariant (names M).
Proof.
  constructor.
  - intros A m. apply names_platform.
  - intros bus addr b op h Hh. unfold after.
    destruct (UsbDeviceAuthorize_run bus addr b op h) as
      (ret & h' & -> & _ & [(Hd & _)|(d & _ & _ & _ & Hd & _)]); [by apply (names_same M h)|].
    apply (names_same M (after (update_device (dev_name bus addr)
      (UsbDevice.SetAuthorizeStatus (status_of b))) h)); [exact Hd|]. by apply names_update.
  - intros. by apply names_update.
  - intros. by apply names_modify.
Qed.

(** ** Predicates on the table of devices

    What depends on the table only, and survives the policies, survives every operation
    that neither adds nor removes a device. *)
Class TableOnly (I : hst → Prop) :=
  table_same h h' : devices_ h' = devices_ h → I h → I h'.

Section Table.
Context (I : hst → Prop) `{!PolicyInvariant I, !TableOnly I}.

Lemma table_modify f : (∀ h, devices_ (f h) = devices_ h) → preserves I (modify f).
Proof. intros Hf h Hh. by apply (table_same h). Qed.
Lemma table_platform {A} (m : ST E A) : preserves I (on_platform m).
Proof. apply inv_platform. Qed.
#[local] Hint Resolve kept_host kept_host_out : preserve.
#[local] Hint Extern 5 (preserves I (modify _)) => by apply table_modify : preserve.

Lemma table_serial {A} (m : ST SM A) : preserves I (HostDriver.on_serial m).
Proof. intros h Hh. unfold after. rewrite HostDriver.on_serial_run. by apply (table_same h). Qed.
Lemma table_rights {A} (m : ST R A) : preserves I (HostDriver.on_rights m).
Proof. intros h Hh. unfold after. rewrite HostDriver.on_rights_run. by apply (table_same h). Qed.
#[local] Hint Resolve table_platform table_serial table_rights : preserve.

Lemma table_string b a i : preserves I (GetDevStringValFromIdx b a i).
Proof. unfold GetDevStringValFromIdx. step_preserve. Qed.
Lemma table_wait n b a : preserves I (wait_path n b a).
Proof.
  induction n as [|n IH]; cbn [wait_path]; [apply preserves_ret|]. unfold CheckDevPathIsExist.
  step_preserve.
Qed.
#[local] Hint Resolve table_string table_wait : preserve.
Lemma table_FillDevStrings d : preserves I (FillDevStrings d).
Proof. unfold FillDevStrings, name_configs, name_interfaces. step_preserve. Qed.
#[local] Hint Resolve table_FillDevStrings : preserve.

Lemma table_GetDeviceInfo b a d : preserves I (HostManager.GetDeviceInfo b a d).
Proof.
  unfold HostManager.GetDeviceInfo, HostDriver.OpenDevice, HostDriver.Close,
    HostManager.GetDeviceInfoDescriptor, HostManager.GetConfigDescriptor, HostDriver.GetRawDescriptor.
  step_preserve.
Qed.

End Table.

#[export] Instance names_table M : TableOnly (names M).
Proof. intros h h'. apply names_same. Qed.
#[local] Hint Extern 1 (PolicyInvariant _) => apply _ : preserve.
#[local] Hint Extern 1 (TableOnly _) => apply _ : preserve.
#[local] Hint Resolve table_serial table_rights table_platform : preserve.
#[local] Hint Extern 5 (preserves (names _) (modify _)) => by apply names_modify : preserve.

Lemma names_announce M name : preserves (names M) (AddDevice_announce name).
Proof.
  intros h Hh. unfold AddDevice_announce, after, device_at. st_exec.
  destruct (devices_ h !! name) as [d|] eqn:Hd; [|done].
  case_bool_decide; st_exec; [done|]. unfold update_device. st_exec.
  match goal with |- context [PublishCommonEvent ?ev ?d ?t] =>
    destruct (PublishCommonEvent_run ev d t) as (ok & e & n & ->) end. st_exec.
  unfold names, attached in *. cbn. rewrite <- Hh. apply map_eq. intros i.
  rewrite !lookup_fmap, lookup_alter. case_decide; [subst; by rewrite Hd|done].
Qed.

(** A device that arrives brings its identity, one that leaves takes it away. *)
Lemma attached_AddDevice d h :
  attached (after (HostManager.AddDevice (Some d)) h) = <[key_of d := unique_name d]> (attached h).
Proof.
  set (M := <[key_of d := unique_name d]> (attached h)). unfold HostManager.AddDevice.
  rewrite after_bind. assert (Hi : names M (after (AddDevice_insert d) h)).
  { unfold AddDevice_insert. cbv zeta. rewrite after_bind. refine ((_ : preserves (names M) _) _ _).
    - unfold AddUsbSerialDevice. step_preserve.
    - unfold names, attached, M. cbn. by rewrite fmap_insert. }
  revert Hi. generalize (after (AddDevice_insert d) h). intros h1 H1.
  refine ((_ : preserves (names M) _) h1 H1).
  apply preserves_bind; [apply kept_ExecuteStrategy, names_policies|]. intros _.
  apply names_announce.
Qed.

Lemma attached_DelDevice b a h :
  attached (after (HostManager.DelDevice b a) h) = delete (dev_name b a) (attached h).
Proof.
  unfold HostManager.DelDevice, after, device_at, attached. st_exec.
  destruct (devices_ h !! dev_name b a) as [d|] eqn:Hd.
  - cbn [mwhen]. case_bool_decide; cbn [mwhen]; st_exec.
    + match goal with |- context [PublishCommonEvent ?ev ?d ?t] =>
        destruct (PublishCommonEvent_run ev d t) as (ok & e & n & ->) end. st_exec. cbn.
      by rewrite fmap_delete.
    + cbn. by rewrite fmap_delete.
  - cbn. by rewrite delete_id by (by rewrite lookup_fmap, Hd).
Qed.
End HostNames.

Section ServiceIdentity.
Context {E N D Rt G P Rp : Type} `{EB : ErrBase} `{HD : HostHdi E} `{SY : HostSystem E Rp}.
Context `{RY : Reply Rp} `{SP : SystemParams E} `{NO : NotifierOps N} `{CJ : CJson} `{HO : HashOrder}.
Context `{SH : SerialManager.SerialHdi D} `{CS : CharSign} `{HE : HdfDevErr}.
Context `{CI : CallingIdentity Rt} `{CR : CallerRights Rt} `{RS : !RightsService Rt}.
Context `{PL : ServicePlatform P}.
#[local] Existing Instance SerialManager.serial_ports.
Abbreviation st := (Service.st E N D Rt G P).
Implicit Types (s : st) (M : gmap string string).

(** The names that have an identity are those of the attached devices, and the identity is
    that of the device but for the names of [taken]. *)
Definition identified (taken : gset string) s : Prop :=
  ∀ name, (is_Some (deviceVidPidMap_ s !! name) ↔ is_Some (attached (host s) !! name)) ∧
    (name ∉ taken → deviceVidPidMap_ s !! name = attached (host s) !! name).

(** The identities stay, and so does what is known of the table of devices. *)
Section Kept.
Context (M : gmap string string) (I : HostDriver.st E N (SerialManager.st D) Rt → Prop).
Context `{!PolicyInvariant I, !TableOnly I}.
#[local] Hint Extern 1 (PolicyInvariant _) => apply _ : preserve.
#[local] Hint Extern 1 (TableOnly _) => apply _ : preserve.
Definition kept s : Prop := deviceVidPidMap_ s = M ∧ I (host s).

Lemma kept_host_call {A} (m : ST _ A) : preserves I m → preserves kept (on_host m).
Proof. intros Hm s [Hs Hh]. unfold after. rewrite on_host_run. split; [done|]. by apply Hm. Qed.
Lemma kept_rights {A} (m : ST Rt A) : preserves kept (on_rights m).
Proof. by apply kept_host_call, table_rights. Qed.
Lemma kept_env {A} (m : ST P A) : preserves kept (on_env m).
Proof. intros s Hs. unfold after. by rewrite on_env_run. Qed.
Lemma kept_ask {A} (f : Rt → A) : preserves kept (ask_caller f).
Proof. by intros s. Qed.
Lemma kept_ask_env {A} (f : P → A) : preserves kept (ask_env f).
Proof. by intros s. Qed.
Lemma kept_report e : preserves kept (report e).
Proof. by intros s. Qed.
#[local] Hint Resolve kept_rights kept_env kept_ask kept_ask_env kept_report : preserve.

(** *** Calls of the host manager that leave the identities alone *)
Lemma driver_kept (m : ST E Z) : preserves I (with_host (N := N) (S := SerialManager.st D) (R := Rt) m).
Proof. by apply kept_host. Qed.
Lemma driver_kept_out {A} (x : A) (m : ST E (Z * A)) :
  preserves I (with_host_out (N := N) (S := SerialManager.st D) (R := Rt) x m).
Proof. by apply kept_host_out. Qed.
#[local] Hint Resolve driver_kept driver_kept_out : preserve.
#[local] Hint Extern 3 (preserves I (on_platform _)) => by apply table_platform : preserve.
#[local] Hint Extern 3 (preserves I (HostDriver.on_rights _)) => by apply table_rights : preserve.
#[local] Hint Extern 5 (preserves I (modify _)) => by apply table_modify : preserve.

(** Unfold a driver request to the platform's call. *)
Ltac host_call :=
  apply kept_host_call;
  lazymatch goal with
  | |- preserves _ ?m => let f := head_of m in unfold f
  end; step_preserve.

(** *** The requests *)
Lemma kept_identity {A} n (f : Z → A) k :
  (∀ i, preserves kept (k i)) → preserves kept (with_identity n f k).
Proof. intros Hk. unfold with_identity. step_preserve. Qed.
Lemma kept_info : preserves kept GetCallingInfo.
Proof. unfold GetCallingInfo. step_preserve. Qed.
Lemma kept_sysapi : preserves kept CheckSysApiPermission.
Proof. unfold CheckSysApiPermission, IsSystemAppOrSa, GetHapApiVersion. step_preserve. Qed.
#[local] Hint Resolve kept_identity kept_info kept_sysapi : preserve.
Lemma kept_HasRight n : preserves kept (HasRight n).
Proof. unfold HasRight, IsSystemAppOrSa. step_preserve. Qed.
#[local] Hint Resolve kept_HasRight : preserve.
Lemma kept_CheckDevicePermission b a : preserves kept (CheckDevicePermission b a).
Proof. unfold CheckDevicePermission. step_preserve. Qed.
Lemma kept_PreCallFunction : preserves kept PreCallFunction.
Proof. unfold PreCallFunction. step_preserve. Qed.
Lemma kept_operation_fault o c x : preserves kept (ReportUsbOperationFaultSysEvent o c x).
Proof. apply kept_report. Qed.
Lemma kept_fault t d p c x : preserves kept (ReportTransferFaultSysEvent t d p c x).
Proof. unfold ReportTransferFaultSysEvent. step_preserve. Qed.
Lemma kept_attribute_fault t d p e c x :
  preserves kept (CheckAttributeReportTransferFaultSysEvent t d p e c x).
Proof. unfold CheckAttributeReportTransferFaultSysEvent. step_preserve. Qed.
Lemma kept_target b a : preserves kept (on_host (HostManager.GetTargetDevice b a)).
Proof. host_call. Qed.
#[local] Hint Resolve kept_CheckDevicePermission kept_PreCallFunction kept_operation_fault kept_fault
  kept_attribute_fault kept_target : preserve.

Lemma kept_device_request {A} b a (reply : Z → A) denied m :
  preserves kept denied → preserves kept m → preserves kept (device_request b a reply denied m).
Proof. intros Hd Hm. unfold device_request. step_preserve. Qed.
Lemma kept_report_target b a f :
  (∀ d, preserves kept (f d)) → preserves kept (report_target b a f).
Proof. intros Hf. unfold report_target. step_preserve. Qed.
#[local] Hint Resolve kept_report_target : preserve.
Lemma kept_transfer {A} b a (reply : Z → A) code type pipe m fault :
  preserves kept m → (∀ d c, preserves kept (fault d c)) →
  preserves kept (transfer b a reply code type pipe m fault).
Proof. intros Hm Hf. unfold transfer. step_preserve. Qed.
Lemma kept_ashmem name fail b a ep fd n m :
  preserves kept m → preserves kept (ashmem_transfer name fail b a ep fd n m).
Proof. intros Hm. unfold ashmem_transfer. step_preserve. Qed.
Lemma kept_submit_fault b a p c x : preserves kept (submit_fault b a p c x).
Proof. unfold submit_fault. step_preserve. Qed.
#[local] Hint Resolve kept_submit_fault : preserve.
Lemma kept_policy_request m : preserves kept m → preserves kept (policy_request m).
Proof. intros Hm. unfold policy_request, IsCallerValid. step_preserve. Qed.

Lemma kept_serve_device b a r : preserves kept (serve_device b a r).
Proof.
  destruct r; cbn [serve_device]; unfold plain, carry; (apply preserves_bind; [|step_preserve]).
  all: try (apply kept_device_request; [step_preserve|host_call]; done).
  all: try (apply kept_transfer; [host_call|step_preserve]; done).
  all: try (apply kept_ashmem; host_call; done).
  all: match goal with |- preserves _ ?m => let f := head_of m in unfold f end; step_preserve; try host_call.
Qed.

Lemma kept_serve r : preserves kept (serve r).
Proof.
  destruct r; cbn [serve]; [apply kept_serve_device|..];
    unfold plain, carry; (apply preserves_bind; [|step_preserve]).
  - by apply kept_policy_request, kept_host_call, kept_ManageGlobalInterfaceImpl.
  - by apply kept_policy_request, kept_host_call, kept_ManageDeviceImpl.
  - by apply kept_policy_request, kept_host_call, kept_ExecuteManageDevicePolicy.
  - by apply kept_policy_request, kept_host_call, kept_ExecuteManageInterfaceType.
  - unfold ServiceHost.GetDevices. step_preserve. host_call.
  - unfold HasRight_out. step_preserve.
  - unfold RequestRight, IsSystemAppOrSa. step_preserve.
  - unfold RemoveRight, IsSystemAppOrSa. step_preserve.
  - unfold AddRight, GetBundleInfo. step_preserve.
  - unfold AddAccessRight. step_preserve.
Qed.

Lemma kept_Close b a : preserves kept (Close b a).
Proof. apply kept_device_request; [step_preserve|host_call]. Qed.
Lemma kept_GetDeviceInfo b a d : preserves kept (GetDeviceInfo b a d).
Proof. unfold GetDeviceInfo. step_preserve. by apply kept_host_call, table_GetDeviceInfo. Qed.
Lemma kept_switch disable : preserves kept (ManageUsbSerialDevice disable).
Proof. unfold ManageUsbSerialDevice. step_preserve. by apply kept_host_call, kept_ManageUsbSerialDevice. Qed.
End Kept.

Lemma kept_identified {A} (m : ST st A) s taken :
  (∀ M M', preserves (kept M (names M')) m) → identified taken s → identified taken (after m s).
Proof.
  intros Hm Hs. destruct (Hm (deviceVidPidMap_ s) (attached (host s)) s) as [H1 H2]; [by split|].
  intros name. by rewrite H1, H2.
Qed.

(** ** Arrivals and removals *)

(** What an arrival does to the identities and to the devices: nothing when the device
    cannot be read. *)
Lemma AddDevice_effect b a s :
  let s' := after (AddDevice b a) s in
  (deviceVidPidMap_ s' = deviceVidPidMap_ s ∧ attached (host s') = attached (host s)) ∨
  ∃ d, dev_of d = mk_UsbDev b a ∧
    deviceVidPidMap_ s' = (match deviceVidPidMap_ s !! dev_name b a with
                           | Some _ => deviceVidPidMap_ s
                           | None => <[dev_name b a := unique_name d]> (deviceVidPidMap_ s)
                           end) ∧
    attached (host s') = <[dev_name b a := unique_name d]> (attached (host s)).
Proof.
  cbv zeta. unfold AddDevice. rewrite after_bind, result_gets, after_gets.
  destruct (usbHostManager_ s) eqn:Hm; cbn [negb]; [|by left]. rewrite after_bind.
  assert (H1 : deviceVidPidMap_ (after (GetDeviceInfo b a UsbDevice.default) s) = deviceVidPidMap_ s ∧
    attached (host (after (GetDeviceInfo b a UsbDevice.default) s)) = attached (host s)).
  { unfold GetDeviceInfo. rewrite !after_bind, result_gets, after_gets, Hm. cbn [negb].
    rewrite after_on_host. split; [done|]. by apply table_GetDeviceInfo; try apply _. }
  assert (Hr : result (GetDeviceInfo b a UsbDevice.default) s =
    result (HostManager.GetDeviceInfo b a UsbDevice.default) (host s)).
  { unfold GetDeviceInfo. rewrite !result_bind, result_gets, after_gets, Hm. cbn [negb].
    unfold result. by rewrite on_host_run. }
  destruct (GetDeviceInfo_reads b a UsbDevice.default (host s)) as (ret & d & Hd & Hid).
  rewrite Hr, Hd. revert H1. generalize (after (GetDeviceInfo b a UsbDevice.default) s). intros s1 [H1 H2].
  case_if; bsimp; [|by left]. right. exists d. destruct (Hid ltac:(assumption)) as [Hdev _].
  split; [done|]. rewrite !after_bind, after_ret. unfold insert_identity. rewrite after_modify.
  rewrite after_on_host. cbn [deviceVidPidMap_ set_host set_deviceVidPidMap_ host].
  rewrite <- H1. split; [done|]. rewrite attached_AddDevice, H2. f_equal.
  change (key_of d) with (dev_name (busNum (dev_of d)) (devAddr (dev_of d))). by rewrite Hdev.
Qed.

(** A device that arrives while another is attached under its name takes the name over. *)
Definition taken_by_arrival (b a : Z) s (taken : gset string) : gset string :=
  if opt_is_some (attached (host s) !! dev_name b a) then {[dev_name b a]} ∪ taken else taken.
(** The names that nothing is attached under are free again. *)
Definition still_taken s (taken : gset string) : gset string := filter (λ name, is_Some (attached (host s) !! name)) taken.

Lemma identified_AddDevice b a s taken :
  identified taken s → identified (taken_by_arrival b a s taken) (after (AddDevice b a) s).
Proof.
  intros Hs name. destruct (Hs name) as [Hd Hn]. unfold taken_by_arrival.
  assert (Hmore : name ∉ (if opt_is_some (attached (host s) !! dev_name b a) then {[dev_name b a]} ∪ taken else taken) → name ∉ taken).
  { case_match; set_solver. }
  destruct (AddDevice_effect b a s) as [[-> ->]|(d & _ & -> & ->)]; [by auto|].
  destruct (decide (name = dev_name b a)) as [->|Hne].
  - rewrite lookup_insert_eq. destruct (deviceVidPidMap_ s !! dev_name b a) as [x|] eqn:Hx.
    + rewrite Hx. split; [by split; eauto|]. assert (is_Some (attached (host s) !! dev_name b a)) as [y ->] by (apply Hd; eauto).
      set_solver.
    + rewrite lookup_insert_eq. done.
  - rewrite lookup_insert_ne by done.
    assert (Hsame : match deviceVidPidMap_ s !! dev_name b a with
              | Some _ => deviceVidPidMap_ s
              | None => <[dev_name b a := unique_name d]> (deviceVidPidMap_ s)
              end !! name = deviceVidPidMap_ s !! name).
    { destruct (deviceVidPidMap_ s !! dev_name b a); [done|by rewrite lookup_insert_ne]. }
    rewrite Hsame. auto.
Qed.

Lemma identified_DelDevice b a s taken :
  identified taken s → identified (still_taken (after (DelDevice b a) s) taken) (after (DelDevice b a) s).
Proof.
  assert (Hstill : ∀ s', identified taken s' → identified (still_taken s' taken) s').
  { intros s' Hs' name. destruct (Hs' name) as [Hd Hn]. split; [done|]. intros Hno.
    destruct (attached (host s') !! name) as [x|] eqn:Hx.
    - apply Hn. intros Hin. apply Hno, elem_of_filter. by rewrite Hx; split; [eexists|].
    - apply eq_None_not_Some. intros H. apply Hd in H. by destruct H. }
  intros Hs. apply Hstill. unfold DelDevice. rewrite after_bind.
  apply (kept_identified (Close b a)) in Hs; [|intros M M'; apply kept_Close; apply _].
  revert Hs. generalize (after (Close b a) s). intros s1 Hs.
  unfold after. st_exec. case_if; st_exec; [done|].
  rewrite service_rights_run. st_exec. rewrite on_host_run. intros name. destruct (Hs name) as [Hd Hn]. cbn.
  rewrite attached_DelDevice. cbn in *. destruct (decide (name = dev_name b a)) as [->|Hne].
  - by rewrite !lookup_delete_eq.
  - by rewrite !lookup_delete_ne.
Qed.

(** ** Histories *)

(** The transitions of the service, with the names that a device has taken over: any device
    may arrive and leave, under any name. *)
Inductive service_step : st * gset string → st * gset string → Prop :=
  | step_arrive b a s taken :
      service_step (s, taken) (after (AddDevice b a) s, taken_by_arrival b a s taken)
  | step_leave b a s taken :
      service_step (s, taken) (after (DelDevice b a) s, still_taken (after (DelDevice b a) s) taken)
  | step_serve r s taken : service_step (s, taken) (after (serve r) s, taken)
  | step_switch disable s taken : service_step (s, taken) (after (ManageUsbSerialDevice disable) s, taken)
  | step_policies s taken : service_step (s, taken) (after (on_host OnLoadSystemAbilitySuccess) s, taken)
  | step_elsewhere s s' taken :
      deviceVidPidMap_ s' = deviceVidPidMap_ s → devices_ (host s') = devices_ (host s) →
      service_step (s, taken) (s', taken).

Lemma service_step_identified c c' : service_step c c' → identified c.2 c.1 → identified c'.2 c'.1.
Proof.
  intros [] Hs; cbn [fst snd] in *.
  - by apply identified_AddDevice.
  - by apply identified_DelDevice.
  - apply kept_identified; [|done]. intros M M'. apply kept_serve; apply _.
  - apply kept_identified; [|done]. intros M M'. apply kept_switch; apply _.
  - apply kept_identified; [|done]. intros M M'. apply kept_host_call, kept_ExecuteStrategy; apply _.
  - intros name. specialize (Hs name). unfold attached in *. congruence.
Qed.

Definition service_start s : Prop := deviceVidPidMap_ s = ∅ ∧ devices_ (host s) = ∅.
(** A state that the service reaches, and the names that were taken over on the way. *)
Definition service_reaches s0 s (taken : gset string) : Prop :=
  service_start s0 ∧ rtc service_step (s0, ∅) (s, taken).

Lemma service_identified s0 s taken : service_reaches s0 s taken → identified taken s.
Proof.
  intros [[Hi Hd] Hr]. change (identified (s, taken).2 (s, taken).1).
  assert (Hs : identified (s0, ∅ : gset string).2 (s0, ∅ : gset string).1).
  { intros name. unfold attached. cbn [fst snd]. by rewrite Hi, Hd, fmap_empty, lookup_empty. }
  clear Hi Hd. induction Hr as [|c1 c2 c3 H12 _ IH]; [done|]. by apply IH, (service_step_identified c1).
Qed.

(** What the table of identities answers, when it agrees with the attached devices. *)
Lemma HasRight_identified s taken name bundle token user :
  identified taken s → name ∉ taken → usbRightManager_ s = true →
  rights_IsSystemAppOrSa (the_rights s) = (false, the_rights s) →
  calling_info (the_rights s) = Some (bundle, token, user) →
  result (HasRight name) s =
    match devices_ (host s) !! name with
    | None => false
    | Some d =>
        let own := rs_HasRight (unique_name d) bundle token user in
        result own (the_rights s) ||
        result (rs_HasRight (unique_name d) bundle USB_DEFAULT_TOKEN user) (after own (the_rights s))
    end.
Proof.
  intros Hi Ht Hm Ho Hc.
  unfold HasRight, with_identity, FindDeviceVidPidSerialNumber, IsSystemAppOrSa, result. st_exec.
  rewrite Hm. st_exec. rewrite (proj2 (Hi name) Ht). unfold attached. rewrite lookup_fmap.
  destruct (devices_ (host s) !! name) as [d|]; st_exec; [|done]. cbn [fmap option_fmap option_map]. st_exec.
  rewrite service_rights_run. unfold result, after. rewrite Ho. st_exec. rewrite with_rights_same.
  rewrite GetCallingInfo_run, Hc. st_exec. rewrite service_rights_run. st_exec. unfold result, after.
  destruct (rs_HasRight _ bundle token user (the_rights s)) as [[] rt]; st_exec; [done|].
  by rewrite service_rights_run.
Qed.

(** Nothing is attached under the name: nobody has a right to it. *)
Lemma HasRight_unattached s taken name :
  identified taken s → devices_ (host s) !! name = None → result (HasRight name) s = false.
Proof.
  intros Hi Hd. assert (Hnone : deviceVidPidMap_ s !! name = None).
  { apply eq_None_not_Some. intros H%Hi. unfold attached in H. rewrite lookup_fmap, Hd in H. by destruct H. }
  unfold HasRight, with_identity, FindDeviceVidPidSerialNumber, result. st_exec.
  destruct (usbRightManager_ s); st_exec; [|done]. rewrite Hnone. by st_exec.
Qed.

(** C2: the right that a request is checked against is the right for the device that is
    attached under the requested name.  In every history of the service that starts with no
    device - devices that arrive under any name and leave, policies, requests of any
    client - nobody has a right to a name that nothing is attached under; and an ordinary
    application is told that it has the right exactly when the right manager grants one for
    the vendor, product and serial number of the attached device, to the token of the
    caller or to the default token, provided that the device did not arrive while another
    one was still attached under its name. *)
Theorem HasRight_of_attached s0 s taken name
    (Hr : service_reaches s0 s taken) (Hm : usbRightManager_ s = true) :
  (devices_ (host s) !! name = None → result (HasRight name) s = false) ∧
  (∀ d bundle token user,
     devices_ (host s) !! name = Some d → name ∉ taken →
     rights_IsSystemAppOrSa (the_rights s) = (false, the_rights s) →
     calling_info (the_rights s) = Some (bundle, token, user) →
     let own := rs_HasRight (unique_name d) bundle token user in
     result (HasRight name) s =
       result own (the_rights s) ||
       result (rs_HasRight (unique_name d) bundle USB_DEFAULT_TOKEN user) (after own (the_rights s))).
Proof.
  pose proof (service_identified s0 s taken Hr) as Hi. split; [by eapply HasRight_unattached|].
  intros d bundle token user Hd Ht Ho Hc. by rewrite (HasRight_identified s taken name bundle token user), Hd.
Qed.

(** A device that arrives under a name which still has an identity gets that identity, not
    its own: [std::map::insert] keeps the old entry. *)
Lemma AddDevice_keeps_identity b a s identity :
  deviceVidPidMap_ s !! dev_name b a = Some identity →
  deviceVidPidMap_ (after (AddDevice b a) s) !! dev_name b a = Some identity.
Proof. intros Hi. destruct (AddDevice_effect b a s) as [[-> _]|(d & _ & -> & _)]; [done|]. by rewrite Hi. Qed.
End ServiceIdentity.
