(* ===== verification/ServiceRights.v ===== *)
(** * The service and the right manager

    The right manager of [RightManager] as the service uses it: its operations are the
    instance of [RightsService], and what the mediation theorem of [ServiceGate] asks of a
    right manager ([RightsLaws]) is proved of it: a right is found only in a record of its
    table, and no query adds one. *)

From S2P Require Import Prelude UsbErrors UsbTypes HostDriver Service ServiceGate.
From S2P Require Import RightDatabase.
From S2P Require RightManager.

#[local] Set Default Goal Selector "!".

(** The caller of a request, for the platform of the right manager: [IPCSkeleton] and
    [AccessTokenKit].  The type of a token is also in its bits, which is what
    [IsSystemAppOrSa] reads ([GetTokenTypeFlag]). *)
Class IpcCaller (E : Type) `{RightManager.RightPlatform E} := {
  calling_token : E → Z;
  calling_uid : E → Z;
  (** [GetTokenType] is [TOKEN_NATIVE] *)
  calling_type_native : E → bool;
  hap_api_version : Z → E → Z;
  type_agrees_with_flag e : calling_type_native e = true → RightManager.is_native_token e = true;
}.

Section ServiceRights.
Context {S E : Type} `{LA : RdbLaws S} `{RP : RightManager.RightPlatform E} `{!IpcCaller E} `{EB : ErrBase}.
Context (table0 : UsbRightTableInfo) (dialog : ST (@RightManager.st S E) unit).
Abbreviation rights := (@RightManager.st S E).
Implicit Types (rt : rights).

#[export] Instance right_manager_caller : CallingIdentity rights := {
  GetCallingTokenID rt := calling_token (RightManager.platform rt);
  GetCallingUid rt := calling_uid (RightManager.platform rt);
  CallingTokenIsNative rt := calling_type_native (RightManager.platform rt);
  GetHapTokenInfo token rt :=
    let '(ret, user, bundle) := RightManager.GetHapTokenInfo token (RightManager.platform rt) in
    (ret, mk_HapTokenInfo bundle user (hap_api_version token (RightManager.platform rt)));
}.

#[export] Instance right_manager_system : CallerRights rights := {
  rights_IsSystemAppOrSa := RightManager.IsSystemAppOrSa;
}.

#[export] Instance right_manager_service : RightsService rights := {
  rs_VerifyPermission := RightManager.VerifyPermission;
  rs_HasSetFuncRight := RightManager.HasSetFuncRight;
  rs_HasRight := RightManager.HasRight table0;
  rs_RequestRight := RightManager.RequestRight table0 dialog;
  rs_RequestRight_accessory := RightManager.RequestRight_accessory table0 dialog;
  rs_RequestRight_serial := RightManager.RequestRight_serial table0 dialog;
  rs_AddDeviceRight := RightManager.AddDeviceRight;
  rs_AddDeviceRight_token := RightManager.AddDeviceRight_token;
  rs_RemoveDeviceRight := RightManager.RemoveDeviceRight;
  rs_CancelDeviceRight := RightManager.CancelDeviceRight;
  rs_RemoveDeviceAllRight := RightManager.RemoveDeviceAllRight table0;
  rs_CleanUpRightExpired := RightManager.CleanUpRightExpired;
  rs_Init := RightManager.Init;
}.

(** The rights that the table could answer for: the console's, and those with a record,
    visible or durable. *)
Definition recorded rt (d b k : string) (u : Z) : Prop :=
  u = RightManager.USB_RIGHT_USERID_CONSOLE ∨
  ∃ x, (x ∈ (view (RightManager.database rt)).1.1 ∨ x ∈ (view (RightManager.database rt)).1.2) ∧
       row_key x = (u, d, b, Some k).

(** Every record of a state, visible or durable. *)
Definition all_records rt : list row :=
  (view (RightManager.database rt)).1.1 ++ (view (RightManager.database rt)).1.2.

Lemma all_records_only rt : RightManager.only (all_records rt) rt.
Proof.
  unfold RightManager.only, all_records.
  destruct (view (RightManager.database rt)) as [[R D] t] eqn:Hv.
  rewrite (within_view _ _ _ _ _ Hv). cbn. split; intros x Hx; apply elem_of_app; auto.
Qed.

Lemma recorded_only R rt d b k u :
  RightManager.only R rt → recorded rt d b k u →
  u = RightManager.USB_RIGHT_USERID_CONSOLE ∨ ∃ x, x ∈ R ∧ row_key x = (u, d, b, Some k).
Proof.
  unfold RightManager.only. intros Ho [->|(x & Hx & Hk)]; [by left|right].
  destruct (view (RightManager.database rt)) as [[R1 D1] t1] eqn:Hv.
  rewrite (within_view _ _ _ _ _ Hv) in Ho. exists x. split; [|done].
  destruct Hx as [Hx|Hx]; [by apply (proj1 Ho)|by apply (proj2 Ho)].
Qed.

Lemma recorded_all rt d b k u :
  u = RightManager.USB_RIGHT_USERID_CONSOLE ∨ (∃ x, x ∈ all_records rt ∧ row_key x = (u, d, b, Some k)) →
  recorded rt d b k u.
Proof.
  unfold all_records. intros [->|(x & Hx%elem_of_app & Hk)]; [by left|]. right. by exists x.
Qed.

#[export] Instance right_manager_laws : RightsLaws rights recorded.
Proof.
  constructor.
  - intros d b k u rt Hr. destruct (decide (u = RightManager.USB_RIGHT_USERID_CONSOLE)) as [->|Hu]; [by left|].
    apply recorded_all. right.
    destruct (RightManager.HasRight table0 d b k u rt) as [r rt'] eqn:Eh.
    assert (r = true) as ->. { revert Hr. unfold result. cbn. by rewrite Eh. }
    destruct (RightManager.HasRight_inv _ _ _ _ _ _ _ _ (all_records_only rt) Hu Eh) as (x & Hx & Hk & _).
    by exists x.
  - intros d b k u rt d' b' k' u' Hr. apply recorded_all.
    apply (recorded_only (all_records rt) (after (RightManager.HasRight table0 d b k u) rt)); [|exact Hr].
    apply RightManager.only_HasRight, all_records_only.
  - intros d b k u rt. cbn. unfold RightManager.RemoveDeviceRight, after, RightManager.on_db.
    case_if; [done|]. st_exec. by destruct (DeleteRightRecord u d b k (RightManager.database rt)).
  - intros rt. cbn. unfold RightManager.IsSystemAppOrSa, after. st_exec. by case_if.
  - intros rt Hn%type_agrees_with_flag. cbn. unfold RightManager.IsSystemAppOrSa, RightManager.ask, result.
    st_exec. by case_if.
Qed.
End ServiceRights.
