(* ===== verification/Client.v ===== *)
(** * The client library

    [interfaces/innerkits/native/src/usb_srv_client.cpp], [usb_device_pipe.cpp] and
    [usb_request.cpp]: what an application links to reach the service.  The library keeps a
    proxy of the service, gets a new one when the service has died, and turns each call
    into a request of [IUsbServer.idl].

    The lookup of the service is the class [AbilityAccess], the generated proxy the class
    [UsbServer]: a request with its answer.  A call through a null pointer is the result
    [None].  [Connect] and [ResetProxy] hold the mutex and are single transitions; the use
    of the proxy that follows is not under the mutex ([call]). *)

From S2P Require Import Prelude UsbErrors UsbTypes HostDriver HostEvents HostPolicy.
From S2P Require Import ServiceHost ServiceSerial ServiceGate ServicePorts.
From S2P Require PortManager.

#[local] Set Default Goal Selector "!".

(** ** The requests and their answers *)

(** The requests of [IUsbServer.idl] about the gadget functions, the accessories and the
    ports of the machine. *)
Inductive GadgetRequest :=
  | GGetCurrentFunctions | GSetCurrentFunctions (funcs : Z)
  | GUsbFunctionsFromString (funcs : string) | GUsbFunctionsToString (funcs : Z)
  | GAddAccessoryRight (tokenId : Z) (access : USBAccessory.t)
  | GHasAccessoryRight (access : USBAccessory.t) | GRequestAccessoryRight (access : USBAccessory.t)
  | GCancelAccessoryRight (access : USBAccessory.t) | GGetAccessoryList
  | GOpenAccessory (access : USBAccessory.t) | GCloseAccessory (fd : Z)
  | GGetPorts | GGetSupportedModes (portId : Z) | GSetPortRole (portId powerRole dataRole : Z).

Inductive Request :=
  | ToHost (r : HostRequest)
  | ToPort (portId : Z) (r : PortRequest)
  | ToPortList
  | ToGadget (r : GadgetRequest).

(** What an answer carries: the out-parameters that the proxy sets. *)
Inductive Carried :=
  | CHost (p : Payload)
  | CText (s : string) | CWord (z : Z) | CFlag (b : bool)
  | CAccessories (l : list USBAccessory.t) | CPorts (l : list PortManager.UsbPort)
  | CSerialData (data : list Z) (actualSize : option Z)
  | CAttribute (a : UsbSerialAttr) | CSerialPorts (l : list UsbSerialPort)
  | CNothing.

(** The value of an out-parameter after the call: [old] when the proxy has not set it. *)
Definition out_bytes (old : list Z) (c : Carried) : list Z :=
  match c with CHost (Bytes d) => d | _ => old end.
Definition out_word (old : Z) (c : Carried) : Z :=
  match c with CHost (Word z) | CWord z => z | _ => old end.
Definition out_flag (old : bool) (c : Carried) : bool :=
  match c with CHost (Flag b) | CFlag b => b | _ => old end.
Definition out_two (old : list Z * list Z) (c : Carried) : list Z * list Z :=
  match c with CHost (TwoBytes d) => d | _ => old end.
Definition out_devices (old : list UsbDevice.t) (c : Carried) : list UsbDevice.t :=
  match c with CHost (Devices l) => l | _ => old end.
Definition out_text (old : string) (c : Carried) : string :=
  match c with CText s => s | _ => old end.
Definition out_accessories (old : list USBAccessory.t) (c : Carried) : list USBAccessory.t :=
  match c with CAccessories l => l | _ => old end.
Definition out_ports (old : list PortManager.UsbPort) (c : Carried) : list PortManager.UsbPort :=
  match c with CPorts l => l | _ => old end.
Definition out_serial (old : list Z * Z) (c : Carried) : list Z * Z :=
  match c with CSerialData d n => (d, default old.2 n) | _ => old end.
Definition out_attribute (old : UsbSerialAttr) (c : Carried) : UsbSerialAttr :=
  match c with CAttribute a => a | _ => old end.
Definition out_serial_ports (old : list UsbSerialPort) (c : Carried) : list UsbSerialPort :=
  match c with CSerialPorts l => l | _ => old end.

(** ** What the library uses *)
Class AbilityAccess (A : Type) := {
  SystemAbilityManagerExists : A → bool;
  LoadSystemAbility : Z → Z → ST A (option Z);
  CheckSystemAbility : Z → ST A (option Z);
  (** the proxy of a remote object, and the object behind a proxy *)
  iface_cast : Z → A → option Z;
  AsObject : Z → A → option Z;
  new_death_recipient : ST A Z;
  AddDeathRecipient : Z → Z → ST A unit;
  RemoveDeathRecipient : Z → option Z → ST A unit;
  sleep_for : Z → ST A unit;
}.
(** The identifier of the service in [system_ability_definition.h]. *)
Class UsbAbility := USB_SYSTEM_ABILITY_ID : Z.
Class UsbServer (S : Type) := Transact : Z → Request → ST S (Z * Carried).

(** [usb_srv_client.cpp:33-33] [WAIT_SERVICE_LOAD] *)
Definition WAIT_SERVICE_LOAD : Z := 500.
(** [usb_srv_client.cpp:34-34] [MAX_WAIT_LOAD_SA_SECONDS] *)
Definition MAX_WAIT_LOAD_SA_SECONDS : Z := 4.
(** [usb_srv_client.cpp:36-36] [PARAM_ERROR] *)
Definition PARAM_ERROR : Z := 401.
(** [usb_srv_client.h:36-36] [CLAIM_FORCE_1] *)
Definition CLAIM_FORCE_1 : Z := 1.

(** ** Pipes and requests *)

(** [usb_device_pipe.h:52-53] [USBDevicePipe] *)
Record USBDevicePipe := mk_USBDevicePipe { busNum_ : Z; devAddr_ : Z }.
(** [usb_device_pipe.h:52-53] [USBDevicePipe] the default values *)
Definition default_pipe : USBDevicePipe := mk_USBDevicePipe UINT8_MAX UINT8_MAX.
(** [usb_device_pipe.cpp:89-92] [USBDevicePipe::SetBusNum] *)
Definition SetBusNum (busNum : Z) (p : USBDevicePipe) : USBDevicePipe :=
  mk_USBDevicePipe busNum (devAddr_ p).
(** [usb_device_pipe.cpp:94-97] [USBDevicePipe::SetDevAddr] *)
Definition SetDevAddr (devAddr : Z) (p : USBDevicePipe) : USBDevicePipe :=
  mk_USBDevicePipe (busNum_ p) devAddr.
(** [usb_device_pipe.cpp:99-102] [USBDevicePipe::GetBusNum] *)
Definition GetBusNum (p : USBDevicePipe) : Z := busNum_ p.
(** [usb_device_pipe.cpp:104-107] [USBDevicePipe::GetDevAddr] *)
Definition GetDevAddr (p : USBDevicePipe) : Z := devAddr_ p.

(** [usb_request.h:67-70] [UsbRequest] *)
Record UsbRequest := mk_UsbRequest {
  pipe_ : USBDevicePipe; endpoint_ : USBEndpoint.t; clientData_ : list Z; reqData_ : list Z }.
(** [usb_request.h:33-36] [UsbRequest::SetPipe] *)
Definition SetPipe (pipe : USBDevicePipe) (r : UsbRequest) : UsbRequest :=
  mk_UsbRequest pipe (endpoint_ r) (clientData_ r) (reqData_ r).
(** [usb_request.h:37-40] [UsbRequest::SetEndpoint] *)
Definition SetEndpoint (endpoint : USBEndpoint.t) (r : UsbRequest) : UsbRequest :=
  mk_UsbRequest (pipe_ r) endpoint (clientData_ r) (reqData_ r).
(** [usb_request.h:41-44] [UsbRequest::SetClientData] *)
Definition SetClientData (bufferData : list Z) (r : UsbRequest) : UsbRequest :=
  mk_UsbRequest (pipe_ r) (endpoint_ r) bufferData (reqData_ r).
(** [usb_request.h:45-48] [UsbRequest::SetReqData] *)
Definition SetReqData (bufferData : list Z) (r : UsbRequest) : UsbRequest :=
  mk_UsbRequest (pipe_ r) (endpoint_ r) (clientData_ r) bufferData.

(** The driver interface's transfer, as the application fills it in. *)
Record TransferInfo := mk_TransferInfo {
  i_endpoint : Z; i_flags : Z; i_type : Z; i_timeOut : Z; i_length : Z; i_userData : Z;
  i_numIsoPackets : Z }.

(** ** Conversions to the structures of the IDL *)

(** [usb_srv_client.cpp:252-260] [UsbSrvClient::UsbCtrlTransferChange] [length] keeps its indeterminate value *)
Definition UsbCtrlTransferChange (param : UsbCtrlTransfer) (ctlSetup : UsbCtlSetUp) : UsbCtlSetUp :=
  mk_UsbCtlSetUp (requestType param) (requestCmd param) (value param) (index param)
    (cs_length ctlSetup) (timeout param).
(** [usb_srv_client.cpp:279-288] [UsbSrvClient::UsbCtrlTransferChange] *)
Definition UsbCtrlTransferChange_params (param : UsbCtrlTransferParams) : UsbCtlSetUp :=
  mk_UsbCtlSetUp (p_requestType param) (p_requestCmd param) (p_value param) (p_index param)
    (p_length param) (p_timeout param).
(** [usb_srv_client.cpp:407-417] [UsbSrvClient::UsbTransInfoChange] *)
Definition UsbTransInfoChange (param : TransferInfo) : UsbTransInfo :=
  mk_UsbTransInfo (i_endpoint param) (i_flags param) (i_type param) (i_timeOut param)
    (i_length param) (i_userData param) (i_numIsoPackets param).
(** [usb_srv_client.cpp:534-544] [UsbSrvClient::UsbDeviceIdChange] *)
Definition UsbDeviceIdChange (deviceIdList : list UsbDeviceId) (deviceIdInfoList : list UsbDeviceIdInfo)
    : list UsbDeviceIdInfo :=
  deviceIdInfoList ++ map (λ d, mk_UsbDeviceIdInfo (productId d) (vendorId d)) deviceIdList.
(** [usb_srv_client.cpp:558-570] [UsbSrvClient::UsbDeviceTypeChange] *)
Definition UsbDeviceTypeChange (disableType : list UsbDeviceType) (deviceTypes : list UsbDeviceTypeInfo)
    : list UsbDeviceTypeInfo :=
  deviceTypes ++ map (λ d, mk_UsbDeviceTypeInfo (t_baseClass d) (t_subClass d) (t_protocol d)
                             (isDeviceType d)) disableType.

Section Client.
Context {A S : Type} `{EB : ErrBase} `{AC : AbilityAccess A} `{UA : UsbAbility} `{US : UsbServer S}.

(** [usb_srv_client.h:149-152] [UsbSrvClient] the members, the platform and the world behind the proxy *)
Record st := mk_st {
  proxy_ : option Z;
  deathRecipient_ : option Z;
  serialRemote : Z;
  access : A;
  server : S;
}.
Definition set_proxy_ (v : option Z) (s : st) : st :=
  mk_st v (deathRecipient_ s) (serialRemote s) (access s) (server s).
Definition set_deathRecipient_ (v : option Z) (s : st) : st :=
  mk_st (proxy_ s) v (serialRemote s) (access s) (server s).
Definition on_access {B} (m : ST A B) : ST st B :=
  λ s, let '(b, a) := m (access s) in
       (b, mk_st (proxy_ s) (deathRecipient_ s) (serialRemote s) a (server s)).
Definition on_server {B} (m : ST S B) : ST st B :=
  λ s, let '(b, x) := m (server s) in
       (b, mk_st (proxy_ s) (deathRecipient_ s) (serialRemote s) (access s) x).

(** ** The connection *)

(** [usb_srv_client.cpp:64-92] [UsbSrvClient::ConnectUnLocked] *)
Definition ConnectUnLocked (force : bool) : ST st (option Z) :=
  sm ← gets (λ s, SystemAbilityManagerExists (access s));
  if negb sm then mret (Some UEC_INTERFACE_GET_SYSTEM_ABILITY_MANAGER_FAILED)
  else
    remoteObject ← on_access (if force
                              then LoadSystemAbility USB_SYSTEM_ABILITY_ID MAX_WAIT_LOAD_SA_SECONDS
                              else CheckSystemAbility USB_SYSTEM_ABILITY_ID);
    match remoteObject with
    | None => mret (Some UEC_INTERFACE_GET_USB_SERVICE_FAILED)
    | Some remoteObject =>
        proxy ← gets (λ s, iface_cast remoteObject (access s));
        modify (set_proxy_ proxy) ;;
        match proxy with
        | None => mret None
        | Some proxy =>
            deathObject ← gets (λ s, AsObject proxy (access s));
            match deathObject with
            | None => mret (Some UEC_INTERFACE_DEAD_OBJECT)
            | Some deathObject =>
                recipient ← on_access new_death_recipient;
                modify (set_deathRecipient_ (Some recipient)) ;;
                on_access (AddDeathRecipient deathObject recipient) ;;
                mret (Some UEC_OK)
            end
        end
    end.

(** [usb_srv_client.cpp:55-62] [UsbSrvClient::Connect] *)
Definition Connect (force : bool) : ST st (option Z) :=
  proxy ← gets proxy_;
  match proxy with
  | Some _ => mret (Some UEC_OK)
  | None => ConnectUnLocked force
  end.

(** [usb_srv_client.cpp:39-43] [UsbSrvClient::UsbSrvClient] the connection, and the monitor of the serial ports *)
Definition construct (monitor : Z) (a : A) (x : S) : st :=
  let s := after (Connect false) (mk_st None None 0 a x) in
  mk_st (proxy_ s) (deathRecipient_ s) monitor (access s) (server s).

(** [usb_srv_client.cpp:94-108] [UsbSrvClient::ResetProxy] [remote] is what the weak pointer promotes to *)
Definition ResetProxy (remote : option Z) : ST st (option unit) :=
  proxy ← gets proxy_;
  match proxy with
  | None => mret (Some tt)
  | Some proxy =>
      serviceRemote ← gets (λ s, AsObject proxy (access s));
      if opt_is_some serviceRemote && bool_decide (serviceRemote = remote) then
        recipient ← gets deathRecipient_;
        on_access (RemoveDeathRecipient (default 0 serviceRemote) recipient) ;;
        modify (set_proxy_ None) ;;
        on_access (sleep_for WAIT_SERVICE_LOAD) ;;
        r ← ConnectUnLocked false;
        mret ((λ _, tt) <$> r)
      else mret (Some tt)
  end.

(** [usb_srv_client.cpp:110-118] [UsbSrvClient::UsbSrvDeathRecipient::OnRemoteDied] the outer [None] is a null weak pointer *)
Definition OnRemoteDied (remote : option (option Z)) : ST st (option unit) :=
  match remote with
  | None => mret (Some tt)
  | Some remote => ResetProxy remote
  end.

(** [proxy_->...]: a request through the proxy, if there is one. *)
Definition call (r : Request) : ST st (option (Z * Carried)) :=
  proxy ← gets proxy_;
  match proxy with
  | None => mret None
  | Some proxy => Some <$> on_server (Transact proxy r)
  end.

(** The two ways in which a call of the library starts: it connects, or it tests whether it
    is connected.  [fallback] is what it returns otherwise. *)
Definition connected {B} (force : bool) (fallback : B) (m : ST st (option B)) : ST st (option B) :=
  ret ← Connect force;
  match ret with
  | None => mret None
  | Some ret => if failed ret then mret (Some fallback) else m
  end.
Definition bound {B} (fallback : B) (m : ST st (option B)) : ST st (option B) :=
  proxy ← gets proxy_;
  match proxy with
  | None => mret (Some fallback)
  | Some _ => m
  end.

(** The code of an answer, or what [f] makes of it. *)
Definition code_of (r : Request) : ST st (option Z) := fmap fst <$> call r.
Definition answer {B} (r : Request) (f : Z → Carried → B) : ST st (option B) :=
  fmap (λ a : Z * Carried, f a.1 a.2) <$> call r.

(** A request to the device of a pipe. *)
Definition to_device (pipe : USBDevicePipe) (r : DeviceRequest) : Request :=
  ToHost (ToDevice (GetBusNum pipe) (GetDevAddr pipe) r).

(** ** Calls that connect *)

(** [usb_srv_client.cpp:121-134] [UsbSrvClient::OpenDevice] *)
Definition OpenDevice (device : UsbDevice.t) (pipe : USBDevicePipe) : ST st (option (Z * USBDevicePipe)) :=
  connected false (UEC_INTERFACE_NO_INIT, pipe)
    (answer (ToHost (ToDevice (UsbDevice.GetBusNum device) (UsbDevice.GetDevAddr device) ROpenDevice))
       (λ ret _,
          if failed ret then (ret, pipe)
          else (UEC_OK, SetDevAddr (UsbDevice.GetDevAddr device)
                          (SetBusNum (UsbDevice.GetBusNum device) pipe)))).

(** [usb_srv_client.cpp:136-147] [UsbSrvClient::ResetDevice] *)
Definition ResetDevice (pipe : USBDevicePipe) : ST st (option Z) :=
  connected false UEC_INTERFACE_NO_INIT
    (answer (to_device pipe RResetDevice) (λ ret _, if failed ret then ret else UEC_OK)).

(** [usb_srv_client.cpp:149-156] [UsbSrvClient::HasRight] *)
Definition HasRight (deviceName : string) : ST st (option bool) :=
  connected false false (answer (ToHost (RHasRight deviceName)) (λ _ c, out_flag false c)).

(** [usb_srv_client.cpp:158-166] [UsbSrvClient::RequestRight] *)
Definition RequestRight (deviceName : string) : ST st (option Z) :=
  connected false UEC_INTERFACE_NO_INIT (code_of (ToHost (RRequestRight deviceName))).

(** [usb_srv_client.cpp:168-176] [UsbSrvClient::RemoveRight] *)
Definition RemoveRight (deviceName : string) : ST st (option Z) :=
  connected false UEC_INTERFACE_NO_INIT (code_of (ToHost (RRemoveRight deviceName))).

(** [usb_srv_client.cpp:178-188] [UsbSrvClient::GetDevices] *)
Definition GetDevices (deviceList : list UsbDevice.t) : ST st (option (Z * list UsbDevice.t)) :=
  connected false (UEC_INTERFACE_NO_INIT, deviceList)
    (answer (ToHost RGetDevices) (λ ret c, (ret, out_devices deviceList c))).

(** [usb_srv_client.cpp:321-329] [UsbSrvClient::GetRawDescriptors] *)
Definition GetRawDescriptors (pipe : USBDevicePipe) (bufferData : list Z) : ST st (option (Z * list Z)) :=
  connected false (UEC_INTERFACE_NO_INIT, bufferData)
    (answer (to_device pipe RGetRawDescriptor) (λ ret c, (ret, out_bytes bufferData c))).

(** [usb_srv_client.cpp:331-339] [UsbSrvClient::GetFileDescriptor] *)
Definition GetFileDescriptor (pipe : USBDevicePipe) (fd : Z) : ST st (option (Z * Z)) :=
  connected false (UEC_INTERFACE_NO_INIT, fd)
    (answer (to_device pipe RGetFileDescriptor) (λ ret c, (ret, out_word fd c))).

(** [usb_srv_client.cpp:492-501] [UsbSrvClient::AddRight] *)
Definition AddRight (bundleName deviceName : string) : ST st (option Z) :=
  connected false UEC_INTERFACE_NO_INIT (code_of (ToHost (RAddRight bundleName deviceName))).

(** [usb_srv_client.cpp:503-512] [UsbSrvClient::AddAccessRight] *)
Definition AddAccessRight (tokenId deviceName : string) : ST st (option Z) :=
  connected false UEC_INTERFACE_NO_INIT (code_of (ToHost (RAddAccessRight tokenId deviceName))).

(** [usb_srv_client.cpp:594-603] [UsbSrvClient::GetDeviceSpeed] *)
Definition GetDeviceSpeed (pipe : USBDevicePipe) (speed : Z) : ST st (option (Z * Z)) :=
  connected false (UEC_INTERFACE_NO_INIT, speed)
    (answer (to_device pipe RGetDeviceSpeed) (λ ret c, (ret, out_word speed c))).

(** [usb_srv_client.cpp:605-613] [UsbSrvClient::GetInterfaceActiveStatus] *)
Definition GetInterfaceActiveStatus (pipe : USBDevicePipe) (interface : UsbInterface.t) (unactivated : bool)
    : ST st (option (Z * bool)) :=
  connected false (UEC_INTERFACE_NO_INIT, unactivated)
    (answer (to_device pipe (RGetInterfaceActiveStatus (u8 (UsbInterface.GetId interface))))
       (λ ret c, (ret, out_flag unactivated c))).

(** ** Calls that only test the proxy *)

(** [usb_srv_client.cpp:190-198] [UsbSrvClient::ClaimInterface] *)
Definition ClaimInterface (pipe : USBDevicePipe) (interface : UsbInterface.t) (force : bool)
    : ST st (option Z) :=
  bound UEC_INTERFACE_NO_INIT
    (code_of (to_device pipe (RClaimInterface (u8 (UsbInterface.GetId interface)) (Z.b2z force)))).

(** [usb_srv_client.cpp:200-208] [UsbSrvClient::UsbAttachKernelDriver] *)
Definition UsbAttachKernelDriver (pipe : USBDevicePipe) (interface : UsbInterface.t) : ST st (option Z) :=
  bound UEC_INTERFACE_NO_INIT
    (code_of (to_device pipe (RUsbAttachKernelDriver (u8 (UsbInterface.GetId interface))))).

(** [usb_srv_client.cpp:210-218] [UsbSrvClient::UsbDetachKernelDriver] *)
Definition UsbDetachKernelDriver (pipe : USBDevicePipe) (interface : UsbInterface.t) : ST st (option Z) :=
  bound UEC_INTERFACE_NO_INIT
    (code_of (to_device pipe (RUsbDetachKernelDriver (u8 (UsbInterface.GetId interface))))).

(** [usb_srv_client.cpp:220-228] [UsbSrvClient::ReleaseInterface] *)
Definition ReleaseInterface (pipe : USBDevicePipe) (interface : UsbInterface.t) : ST st (option Z) :=
  bound UEC_INTERFACE_NO_INIT
    (code_of (to_device pipe (RReleaseInterface (u8 (UsbInterface.GetId interface))))).

(** [usb_srv_client.cpp:230-250] [UsbSrvClient::BulkTransfer] the code and the buffer after the call *)
Definition BulkTransfer (pipe : USBDevicePipe) (endpoint : USBEndpoint.t) (bufferData : list Z) (timeOut : Z)
    : ST st (option (Z * list Z)) :=
  bound (UEC_INTERFACE_NO_INIT, bufferData)
    (if USB_ENDPOINT_DIR_IN =? USBEndpoint.GetDirection endpoint then
       let length_ := i32 (Z.of_nat (length bufferData)) in
       answer (to_device pipe (RBulkTransferReadwithLength endpoint length_ timeOut))
         (λ ret c, (ret, out_bytes [] c))
     else if USB_ENDPOINT_DIR_OUT =? USBEndpoint.GetDirection endpoint then
       answer (to_device pipe (RBulkTransferWrite endpoint bufferData timeOut))
         (λ ret _, (ret, bufferData))
     else mret (Some (UEC_INTERFACE_INVALID_VALUE, bufferData))).

(** A transfer to the host fills the buffer, so what the application put there is dropped. *)
Definition control_buffer (ctlSetup : UsbCtlSetUp) (bufferData : list Z) : list Z :=
  if Z.land (u32 (cs_reqType ctlSetup)) USB_ENDPOINT_DIR_MASK =? USB_ENDPOINT_DIR_IN then [] else bufferData.

(** [usb_srv_client.cpp:262-277] [UsbSrvClient::ControlTransfer] [uninitialised] is the structure on the stack *)
Definition ControlTransfer (uninitialised : UsbCtlSetUp) (pipe : USBDevicePipe) (ctrl : UsbCtrlTransfer)
    (bufferData : list Z) : ST st (option (Z * list Z)) :=
  bound (UEC_INTERFACE_NO_INIT, bufferData)
    (let ctlSetup := UsbCtrlTransferChange ctrl uninitialised in
     let bufferData := control_buffer ctlSetup bufferData in
     answer (to_device pipe (RControlTransfer ctlSetup bufferData))
       (λ ret c, (ret, out_bytes bufferData c))).

(** [usb_srv_client.cpp:290-305] [UsbSrvClient::UsbControlTransfer] *)
Definition UsbControlTransfer (pipe : USBDevicePipe) (ctrlParams : UsbCtrlTransferParams)
    (bufferData : list Z) : ST st (option (Z * list Z)) :=
  bound (UEC_INTERFACE_NO_INIT, bufferData)
    (let ctlSetup := UsbCtrlTransferChange_params ctrlParams in
     let bufferData := control_buffer ctlSetup bufferData in
     answer (to_device pipe (RUsbControlTransfer ctlSetup bufferData))
       (λ ret c, (ret, out_bytes bufferData c))).

(** [usb_srv_client.cpp:307-312] [UsbSrvClient::SetConfiguration] *)
Definition SetConfiguration (pipe : USBDevicePipe) (config : USBConfig.t) : ST st (option Z) :=
  bound UEC_INTERFACE_NO_INIT
    (code_of (to_device pipe (RSetActiveConfig (u8 (USBConfig.GetId config))))).

(** [usb_srv_client.cpp:314-319] [UsbSrvClient::SetInterface] *)
Definition SetInterface (pipe : USBDevicePipe) (interface : UsbInterface.t) : ST st (option Z) :=
  bound UEC_INTERFACE_NO_INIT
    (code_of (to_device pipe (RSetInterface (u8 (UsbInterface.GetId interface))
                                (u8 (UsbInterface.GetAlternateSetting interface))))).

(** [usb_srv_client.cpp:341-346] [UsbSrvClient::Close] *)
Definition Close (pipe : USBDevicePipe) : ST st (option bool) :=
  bound false (answer (to_device pipe RClose) (λ ret _, ret =? UEC_OK)).

(** [usb_srv_client.cpp:348-363] [UsbSrvClient::PipeRequestWait] the 64-bit timeout becomes the 32 bits of the request *)
Definition PipeRequestWait (pipe : USBDevicePipe) (timeOut : Z) (req : UsbRequest)
    : ST st (option (Z * UsbRequest)) :=
  bound (UEC_INTERFACE_NO_INIT, req)
    (answer (to_device pipe (RRequestWait (i32 timeOut)))
       (λ ret c,
          if failed ret then (ret, req)
          else
            let '(clientData, bufferData) := out_two ([], []) c in
            (ret, SetReqData bufferData (SetClientData clientData (SetPipe pipe req))))).

(** [usb_srv_client.cpp:365-371] [UsbSrvClient::RequestInitialize] *)
Definition RequestInitialize (request : UsbRequest) : ST st (option Z) :=
  bound UEC_INTERFACE_NO_INIT
    (code_of (to_device (pipe_ request)
       (RClaimInterface (u8 (USBEndpoint.GetInterfaceId (endpoint_ request))) CLAIM_FORCE_1))).

(** [usb_srv_client.cpp:373-379] [UsbSrvClient::RequestFree] *)
Definition RequestFree (request : UsbRequest) : ST st (option Z) :=
  bound UEC_INTERFACE_NO_INIT
    (code_of (to_device (pipe_ request)
       (RRequestCancel (u8 (USBEndpoint.GetInterfaceId (endpoint_ request)))
          (u8 (USBEndpoint.GetAddress (endpoint_ request)))))).

(** [usb_srv_client.cpp:381-387] [UsbSrvClient::RequestAbort] *)
Definition RequestAbort (request : UsbRequest) : ST st (option Z) :=
  bound UEC_INTERFACE_NO_INIT
    (code_of (to_device (pipe_ request)
       (RRequestCancel (u8 (USBEndpoint.GetInterfaceId (endpoint_ request)))
          (u8 (USBEndpoint.GetAddress (endpoint_ request)))))).

(** [usb_srv_client.cpp:389-395] [UsbSrvClient::RequestQueue] *)
Definition RequestQueue (request : UsbRequest) : ST st (option Z) :=
  bound UEC_INTERFACE_NO_INIT
    (code_of (to_device (pipe_ request)
       (RRequestQueue (endpoint_ request) (clientData_ request) (reqData_ request)))).

(** [usb_srv_client.cpp:397-405] [UsbSrvClient::UsbCancelTransfer] *)
Definition UsbCancelTransfer (pipe : USBDevicePipe) (endpoint : Z) : ST st (option Z) :=
  bound UEC_INTERFACE_NO_INIT (code_of (to_device pipe (RUsbCancelTransfer endpoint))).

(** The shared memory of a transfer is its descriptor and its size; a null pointer to it
    is dereferenced. *)
Definition with_ashmem {B} (ashmem : option (Z * Z)) (m : Z → Z → ST st (option B)) : ST st (option B) :=
  match ashmem with
  | None => mret None
  | Some (fd, memSize) => m fd memSize
  end.

(** [usb_srv_client.cpp:419-436] [UsbSrvClient::UsbSubmitTransfer] [cb] is the new callback server, or no callback *)
Definition UsbSubmitTransfer (pipe : USBDevicePipe) (info : TransferInfo) (cb : option Z)
    (ashmem : option (Z * Z)) : ST st (option Z) :=
  bound UEC_INTERFACE_NO_INIT
    (match cb with
     | None => mret (Some PARAM_ERROR)
     | Some callBackService =>
         with_ashmem ashmem (λ fd memSize,
           code_of (to_device pipe (RUsbSubmitTransfer (UsbTransInfoChange info) (Some callBackService)
                                      fd memSize)))
     end).

(** [usb_srv_client.cpp:438-446] [UsbSrvClient::RegBulkCallback] *)
Definition RegBulkCallback (pipe : USBDevicePipe) (endpoint : USBEndpoint.t) (cb : option Z)
    : ST st (option Z) :=
  bound UEC_INTERFACE_NO_INIT (code_of (to_device pipe (RRegBulkCallback endpoint cb))).

(** [usb_srv_client.cpp:448-456] [UsbSrvClient::UnRegBulkCallback] *)
Definition UnRegBulkCallback (pipe : USBDevicePipe) (endpoint : USBEndpoint.t) : ST st (option Z) :=
  bound UEC_INTERFACE_NO_INIT (code_of (to_device pipe (RUnRegBulkCallback endpoint))).

(** [usb_srv_client.cpp:458-468] [UsbSrvClient::BulkRead] *)
Definition BulkRead (pipe : USBDevicePipe) (endpoint : USBEndpoint.t) (ashmem : option (Z * Z))
    : ST st (option Z) :=
  bound UEC_INTERFACE_NO_INIT
    (with_ashmem ashmem (λ fd memSize, code_of (to_device pipe (RBulkRead endpoint fd memSize)))).

(** [usb_srv_client.cpp:470-480] [UsbSrvClient::BulkWrite] *)
Definition BulkWrite (pipe : USBDevicePipe) (endpoint : USBEndpoint.t) (ashmem : option (Z * Z))
    : ST st (option Z) :=
  bound UEC_INTERFACE_NO_INIT
    (with_ashmem ashmem (λ fd memSize, code_of (to_device pipe (RBulkWrite endpoint fd memSize)))).

(** [usb_srv_client.cpp:482-490] [UsbSrvClient::BulkCancel] *)
Definition BulkCancel (pipe : USBDevicePipe) (endpoint : USBEndpoint.t) : ST st (option Z) :=
  bound UEC_INTERFACE_NO_INIT (code_of (to_device pipe (RBulkCancel endpoint))).

(** [usb_srv_client.cpp:514-522] [UsbSrvClient::ManageGlobalInterface] *)
Definition ManageGlobalInterface (disable : bool) : ST st (option Z) :=
  bound UEC_INTERFACE_NO_INIT (code_of (ToHost (RManageGlobalInterface disable))).

(** [usb_srv_client.cpp:524-532] [UsbSrvClient::ManageDevice] *)
Definition ManageDevice (vendorId productId : Z) (disable : bool) : ST st (option Z) :=
  bound UEC_INTERFACE_NO_INIT (code_of (ToHost (RManageDevice vendorId productId disable))).

(** [usb_srv_client.cpp:546-556] [UsbSrvClient::ManageDevicePolicy] *)
Definition ManageDevicePolicy (trustList : list UsbDeviceId) : ST st (option Z) :=
  bound UEC_INTERFACE_NO_INIT (code_of (ToHost (RManageDevicePolicy (UsbDeviceIdChange trustList [])))).

(** [usb_srv_client.cpp:572-582] [UsbSrvClient::ManageInterfaceType] *)
Definition ManageInterfaceType (disableType : list UsbDeviceType) (disable : bool) : ST st (option Z) :=
  bound UEC_INTERFACE_NO_INIT
    (code_of (ToHost (RManageInterfaceType (UsbDeviceTypeChange disableType []) disable))).

(** [usb_srv_client.cpp:584-592] [UsbSrvClient::ClearHalt] *)
Definition ClearHalt (pipe : USBDevicePipe) (ep : USBEndpoint.t) : ST st (option Z) :=
  bound UEC_INTERFACE_NO_INIT
    (code_of (to_device pipe (RClearHalt (u8 (USBEndpoint.GetInterfaceId ep)) (u8 (USBEndpoint.GetAddress ep))))).

(** ** The gadget functions, the accessories and the ports: [GetCurrentFunctions] and its
    neighbours load the service if it is not there. *)

(** [usb_srv_client.cpp:849-860] [UsbSrvClient::GetCurrentFunctions] *)
Definition GetCurrentFunctions (funcs : Z) : ST st (option (Z * Z)) :=
  connected true (UEC_INTERFACE_NO_INIT, funcs)
    (answer (ToGadget GGetCurrentFunctions) (λ ret c, (ret, out_word funcs c))).

(** [usb_srv_client.cpp:862-873] [UsbSrvClient::SetCurrentFunctions] it returns [false] when it cannot connect *)
Definition SetCurrentFunctions (funcs : Z) : ST st (option Z) :=
  connected true (Z.b2z false) (code_of (ToGadget (GSetCurrentFunctions funcs))).

(** [usb_srv_client.cpp:875-887] [UsbSrvClient::UsbFunctionsFromString] *)
Definition UsbFunctionsFromString (funcs : string) : ST st (option Z) :=
  connected true UEC_INTERFACE_NO_INIT
    (answer (ToGadget (GUsbFunctionsFromString funcs))
       (λ ret c, if failed ret then ret else out_word 0 c)).

(** [usb_srv_client.cpp:889-900] [UsbSrvClient::UsbFunctionsToString] *)
Definition UsbFunctionsToString (funcs : Z) : ST st (option string) :=
  connected true ""%string
    (answer (ToGadget (GUsbFunctionsToString funcs))
       (λ ret c, if failed ret then ""%string else out_text ""%string c)).

(** [usb_srv_client.cpp:902-912] [UsbSrvClient::GetAccessoryList] *)
Definition GetAccessoryList (accessList : list USBAccessory.t)
    : ST st (option (Z * list USBAccessory.t)) :=
  connected false (UEC_INTERFACE_NO_INIT, accessList)
    (answer (ToGadget GGetAccessoryList) (λ ret c, (ret, out_accessories accessList c))).

(** [usb_srv_client.cpp:914-922] [UsbSrvClient::OpenAccessory] *)
Definition OpenAccessory (access : USBAccessory.t) (fd : Z) : ST st (option (Z * Z)) :=
  connected false (UEC_INTERFACE_NO_INIT, fd)
    (answer (ToGadget (GOpenAccessory access)) (λ ret c, (ret, out_word fd c))).

(** [usb_srv_client.cpp:924-932] [UsbSrvClient::AddAccessoryRight] *)
Definition AddAccessoryRight (tokenId : Z) (access : USBAccessory.t) : ST st (option Z) :=
  connected false UEC_INTERFACE_NO_INIT (code_of (ToGadget (GAddAccessoryRight tokenId access))).

(** [usb_srv_client.cpp:934-938] [UsbSrvClient::HasAccessoryRight] *)
Definition HasAccessoryRight (access : USBAccessory.t) (result : bool) : ST st (option (Z * bool)) :=
  connected false (UEC_INTERFACE_NO_INIT, result)
    (answer (ToGadget (GHasAccessoryRight access)) (λ ret c, (ret, out_flag result c))).

(** [usb_srv_client.cpp:940-948] [UsbSrvClient::RequestAccessoryRight] *)
Definition RequestAccessoryRight (access : USBAccessory.t) (result : bool) : ST st (option (Z * bool)) :=
  connected false (UEC_INTERFACE_NO_INIT, result)
    (answer (ToGadget (GRequestAccessoryRight access)) (λ ret c, (ret, out_flag result c))).

(** [usb_srv_client.cpp:950-958] [UsbSrvClient::CancelAccessoryRight] *)
Definition CancelAccessoryRight (access : USBAccessory.t) : ST st (option Z) :=
  connected false UEC_INTERFACE_NO_INIT (code_of (ToGadget (GCancelAccessoryRight access))).

(** [usb_srv_client.cpp:960-968] [UsbSrvClient::CloseAccessory] *)
Definition CloseAccessory (fd : Z) : ST st (option Z) :=
  connected false UEC_INTERFACE_NO_INIT (code_of (ToGadget (GCloseAccessory fd))).

(** [usb_srv_client.cpp:1038-1047] [UsbSrvClient::GetPorts] *)
Definition GetPorts (usbports : list PortManager.UsbPort) : ST st (option (Z * list PortManager.UsbPort)) :=
  connected true (UEC_INTERFACE_NO_INIT, usbports)
    (answer (ToGadget GGetPorts) (λ ret c, (ret, out_ports usbports c))).

(** [usb_srv_client.cpp:1049-1058] [UsbSrvClient::GetSupportedModes] *)
Definition GetSupportedModes (portId result : Z) : ST st (option (Z * Z)) :=
  connected true (UEC_INTERFACE_NO_INIT, result)
    (answer (ToGadget (GGetSupportedModes portId)) (λ ret c, (ret, out_word result c))).

(** [usb_srv_client.cpp:1060-1069] [UsbSrvClient::SetPortRole] *)
Definition SetPortRole (portId powerRole dataRole : Z) : ST st (option Z) :=
  connected true UEC_INTERFACE_NO_INIT (code_of (ToGadget (GSetPortRole portId powerRole dataRole))).

(** ** Serial ports *)

(** [usb_srv_client.cpp:1090-1099] [UsbSrvClient::SerialOpen] *)
Definition SerialOpen (portId : Z) : ST st (option Z) :=
  connected false UEC_INTERFACE_NO_INIT
    (monitor ← gets serialRemote; code_of (ToPort portId (QOpen monitor))).

(** [usb_srv_client.cpp:1101-1110] [UsbSrvClient::SerialClose] *)
Definition SerialClose (portId : Z) : ST st (option Z) :=
  connected false UEC_INTERFACE_NO_INIT (code_of (ToPort portId QClose)).

(** [usb_srv_client.cpp:1112-1122] [UsbSrvClient::SerialRead] the code, the data and the size that was read *)
Definition SerialRead (portId : Z) (data : list Z) (bufferSize actualSize timeout : Z)
    : ST st (option (Z * (list Z * Z))) :=
  connected false (UEC_INTERFACE_NO_INIT, (data, actualSize))
    (answer (ToPort portId (QRead [] bufferSize timeout))
       (λ ret c, (ret, out_serial (data, actualSize) c))).

(** [usb_srv_client.cpp:1124-1134] [UsbSrvClient::SerialWrite] *)
Definition SerialWrite (portId : Z) (data : list Z) (bufferSize actualSize timeout : Z)
    : ST st (option (Z * Z)) :=
  connected false (UEC_INTERFACE_NO_INIT, actualSize)
    (answer (ToPort portId (QWrite data bufferSize timeout)) (λ ret c, (ret, out_word actualSize c))).

(** [usb_srv_client.cpp:1136-1145] [UsbSrvClient::SerialGetAttribute] *)
Definition SerialGetAttribute (portId : Z) (attribute : UsbSerialAttr) : ST st (option (Z * UsbSerialAttr)) :=
  connected false (UEC_INTERFACE_NO_INIT, attribute)
    (answer (ToPort portId (QGetAttribute (mk_UsbSerialAttr 0 0 0 0)))
       (λ ret c, (ret, out_attribute attribute c))).

(** [usb_srv_client.cpp:1147-1157] [UsbSrvClient::SerialSetAttribute] *)
Definition SerialSetAttribute (portId : Z) (attribute : UsbSerialAttr) : ST st (option Z) :=
  connected false UEC_INTERFACE_NO_INIT (code_of (ToPort portId (QSetAttribute attribute))).

(** [usb_srv_client.cpp:1159-1169] [UsbSrvClient::SerialGetPortList] *)
Definition SerialGetPortList (serialPortList : list UsbSerialPort) : ST st (option (Z * list UsbSerialPort)) :=
  connected false (UEC_INTERFACE_NO_INIT, serialPortList)
    (answer ToPortList (λ ret c, (ret, out_serial_ports serialPortList c))).

(** [usb_srv_client.cpp:1171-1181] [UsbSrvClient::HasSerialRight] *)
Definition HasSerialRight (portId : Z) (hasRight : bool) : ST st (option (Z * bool)) :=
  connected false (UEC_INTERFACE_NO_INIT, hasRight)
    (answer (ToPort portId QHasRight)
       (λ ret c, if failed ret then (ret, out_flag hasRight c) else (UEC_OK, out_flag hasRight c))).

(** [usb_srv_client.cpp:1183-1192] [UsbSrvClient::CancelSerialRight] *)
Definition CancelSerialRight (portId : Z) : ST st (option Z) :=
  connected false UEC_INTERFACE_NO_INIT (code_of (ToPort portId QCancelRight)).

(** [usb_srv_client.cpp:1194-1203] [UsbSrvClient::RequestSerialRight] *)
Definition RequestSerialRight (portId : Z) (hasRight : bool) : ST st (option (Z * bool)) :=
  connected false (UEC_INTERFACE_NO_INIT, hasRight)
    (answer (ToPort portId QRequestRight) (λ ret c, (ret, out_flag hasRight c))).

(** [usb_srv_client.cpp:1205-1214] [UsbSrvClient::AddSerialRight] *)
Definition AddSerialRight (tokenId portId : Z) : ST st (option Z) :=
  connected false UEC_INTERFACE_NO_INIT (code_of (ToPort portId (QAddRight tokenId))).
End Client.

(** ** The methods of a pipe *)
Module Pipe.
Section Pipe.
Context {A S : Type} `{EB : ErrBase} `{AC : AbilityAccess A} `{UA : UsbAbility} `{US : UsbServer S}.
Abbreviation st := (@st A S).
Implicit Types this : USBDevicePipe.

(** [usb_device_pipe.cpp:32-40] [USBDevicePipe::Close] *)
Definition Close (ERR_INVALID_VALUE : Z) this : ST st (option Z) :=
  fmap (λ bSuccess : bool, if negb bSuccess then ERR_INVALID_VALUE else UEC_OK) <$> Client.Close this.
(** [usb_device_pipe.cpp:42-45] [USBDevicePipe::ClaimInterface] *)
Definition ClaimInterface this (interface : UsbInterface.t) (force : bool) : ST st (option Z) :=
  Client.ClaimInterface this interface force.
(** [usb_device_pipe.cpp:47-50] [USBDevicePipe::ReleaseInterface] *)
Definition ReleaseInterface this (interface : UsbInterface.t) : ST st (option Z) :=
  Client.ReleaseInterface this interface.
(** [usb_device_pipe.cpp:52-55] [USBDevicePipe::BulkTransfer] *)
Definition BulkTransfer this (endpoint : USBEndpoint.t) (bufferData : list Z) (timeOut : Z)
    : ST st (option (Z * list Z)) := Client.BulkTransfer this endpoint bufferData timeOut.
(** [usb_device_pipe.cpp:57-60] [USBDevicePipe::ControlTransfer] *)
Definition ControlTransfer (uninitialised : UsbCtlSetUp) this (ctrl : UsbCtrlTransfer)
    (bufferData : list Z) : ST st (option (Z * list Z)) :=
  Client.ControlTransfer uninitialised this ctrl bufferData.
(** [usb_device_pipe.cpp:62-65] [USBDevicePipe::UsbCancelTransfer] *)
Definition UsbCancelTransfer this (endpoint : Z) : ST st (option Z) :=
  Client.UsbCancelTransfer this endpoint.
(** [usb_device_pipe.cpp:67-71] [USBDevicePipe::UsbSubmitTransfer] *)
Definition UsbSubmitTransfer this (asyncContext : TransferInfo) (cb : option Z) (ashmem : option (Z * Z))
    : ST st (option Z) := Client.UsbSubmitTransfer this asyncContext cb ashmem.
(** [usb_device_pipe.cpp:73-77] [USBDevicePipe::UsbControlTransfer] *)
Definition UsbControlTransfer this (ctrlParams : UsbCtrlTransferParams) (bufferData : list Z)
    : ST st (option (Z * list Z)) := Client.UsbControlTransfer this ctrlParams bufferData.
(** [usb_device_pipe.cpp:79-82] [USBDevicePipe::SetConfiguration] *)
Definition SetConfiguration this (config : USBConfig.t) : ST st (option Z) :=
  Client.SetConfiguration this config.
(** [usb_device_pipe.cpp:84-87] [USBDevicePipe::SetInterface] *)
Definition SetInterface this (interface : UsbInterface.t) : ST st (option Z) :=
  Client.SetInterface this interface.
End Pipe.
End Pipe.

(** ** The methods of a request: the first one also sets its members *)
Module RequestOf.
Section RequestOf.
Context {A S : Type} `{EB : ErrBase} `{AC : AbilityAccess A} `{UA : UsbAbility} `{US : UsbServer S}.
Abbreviation st := (@st A S).

(** [usb_request.cpp:22-31] [UsbRequest::Initialize] the code and the request after the call *)
Definition Initialize (this : UsbRequest) (pipe : USBDevicePipe) (endpoint : USBEndpoint.t)
    : ST st (option (Z * UsbRequest)) :=
  let this := SetEndpoint endpoint (SetPipe pipe this) in
  fmap (λ ret, (ret, this)) <$> RequestInitialize this.
(** [usb_request.cpp:33-40] [UsbRequest::Queue] *)
Definition Queue (this : UsbRequest) : ST st (option Z) := RequestQueue this.
(** [usb_request.cpp:42-49] [UsbRequest::Free] *)
Definition Free (this : UsbRequest) : ST st (option Z) := RequestFree this.
(** [usb_request.cpp:51-58] [UsbRequest::Abort] *)
Definition Abort (this : UsbRequest) : ST st (option Z) := RequestAbort this.
End RequestOf.
End RequestOf.
