(* ===== verification/ClientLaws.v ===== *)
(** * The client library: its connection

    All calls of [Client] as one type, and what holds of each of them: a call makes at most
    one request, none goes through a null pointer, and the proxy that a call uses is one
    whose death the library will hear of.  The exception is a death notice that falls
    between the test of the proxy and its use, which the mutex does not span. *)

From stdpp Require Import relations.
From S2P Require Import Prelude UsbErrors UsbTypes HostDriver HostEvents HostPolicy.
From S2P Require Import ServiceHost ServiceSerial ServiceGate ServicePorts Client.
From S2P Require PortManager.

#[local] Set Default Goal Selector "!".

(** The calls of the library. *)
Inductive ClientCall :=
  | COpenDevice (device : UsbDevice.t) (pipe : USBDevicePipe) | CResetDevice (pipe : USBDevicePipe)
  | CHasRight (deviceName : string) | CRequestRight (deviceName : string)
  | CRemoveRight (deviceName : string) | CGetDevices (deviceList : list UsbDevice.t)
  | CGetRawDescriptors (pipe : USBDevicePipe) (bufferData : list Z)
  | CGetFileDescriptor (pipe : USBDevicePipe) (fd : Z)
  | CAddRight (bundleName deviceName : string) | CAddAccessRight (tokenId deviceName : string)
  | CGetDeviceSpeed (pipe : USBDevicePipe) (speed : Z)
  | CGetInterfaceActiveStatus (pipe : USBDevicePipe) (interface : UsbInterface.t) (unactivated : bool)
  | CClaimInterface (pipe : USBDevicePipe) (interface : UsbInterface.t) (force : bool)
  | CUsbAttachKernelDriver (pipe : USBDevicePipe) (interface : UsbInterface.t)
  | CUsbDetachKernelDriver (pipe : USBDevicePipe) (interface : UsbInterface.t)
  | CReleaseInterface (pipe : USBDevicePipe) (interface : UsbInterface.t)
  | CBulkTransfer (pipe : USBDevicePipe) (endpoint : USBEndpoint.t) (bufferData : list Z) (timeOut : Z)
  | CControlTransfer (uninitialised : UsbCtlSetUp) (pipe : USBDevicePipe) (ctrl : UsbCtrlTransfer)
      (bufferData : list Z)
  | CUsbControlTransfer (pipe : USBDevicePipe) (ctrlParams : UsbCtrlTransferParams) (bufferData : list Z)
  | CSetConfiguration (pipe : USBDevicePipe) (config : USBConfig.t)
  | CSetInterface (pipe : USBDevicePipe) (interface : UsbInterface.t) | CClose (pipe : USBDevicePipe)
  | CPipeRequestWait (pipe : USBDevicePipe) (timeOut : Z) (req : UsbRequest)
  | CRequestInitialize (request : UsbRequest) | CRequestFree (request : UsbRequest)
  | CRequestAbort (request : UsbRequest) | CRequestQueue (request : UsbRequest)
  | CUsbCancelTransfer (pipe : USBDevicePipe) (endpoint : Z)
  | CUsbSubmitTransfer (pipe : USBDevicePipe) (info : TransferInfo) (cb : option Z) (ashmem : option (Z * Z))
  | CRegBulkCallback (pipe : USBDevicePipe) (endpoint : USBEndpoint.t) (cb : option Z)
  | CUnRegBulkCallback (pipe : USBDevicePipe) (endpoint : USBEndpoint.t)
  | CBulkRead (pipe : USBDevicePipe) (endpoint : USBEndpoint.t) (ashmem : option (Z * Z))
  | CBulkWrite (pipe : USBDevicePipe) (endpoint : USBEndpoint.t) (ashmem : option (Z * Z))
  | CBulkCancel (pipe : USBDevicePipe) (endpoint : USBEndpoint.t)
  | CManageGlobalInterface (disable : bool) | CManageDevice (vendorId productId : Z) (disable : bool)
  | CManageDevicePolicy (trustList : list UsbDeviceId)
  | CManageInterfaceType (disableType : list UsbDeviceType) (disable : bool)
  | CClearHalt (pipe : USBDevicePipe) (ep : USBEndpoint.t)
  | CGetCurrentFunctions (funcs : Z) | CSetCurrentFunctions (funcs : Z)
  | CUsbFunctionsFromString (funcs : string) | CUsbFunctionsToString (funcs : Z)
  | CGetAccessoryList (accessList : list USBAccessory.t)
  | COpenAccessory (access : USBAccessory.t) (fd : Z)
  | CAddAccessoryRight (tokenId : Z) (access : USBAccessory.t)
  | CHasAccessoryRight (access : USBAccessory.t) (result : bool)
  | CRequestAccessoryRight (access : USBAccessory.t) (result : bool)
  | CCancelAccessoryRight (access : USBAccessory.t) | CCloseAccessory (fd : Z)
  | CGetPorts (usbports : list PortManager.UsbPort) | CGetSupportedModes (portId result : Z)
  | CSetPortRole (portId powerRole dataRole : Z)
  | CSerialOpen (portId : Z) | CSerialClose (portId : Z)
  | CSerialRead (portId : Z) (data : list Z) (bufferSize actualSize timeout : Z)
  | CSerialWrite (portId : Z) (data : list Z) (bufferSize actualSize timeout : Z)
  | CSerialGetAttribute (portId : Z) (attribute : UsbSerialAttr)
  | CSerialSetAttribute (portId : Z) (attribute : UsbSerialAttr)
  | CSerialGetPortList (serialPortList : list UsbSerialPort)
  | CHasSerialRight (portId : Z) (hasRight : bool) | CCancelSerialRight (portId : Z)
  | CRequestSerialRight (portId : Z) (hasRight : bool) | CAddSerialRight (tokenId portId : Z).

(** What a call returns: a code, a truth value, or a text. *)
Inductive Outcome := Code (ret : Z) | Said (b : bool) | Text (s : string).

Section ClientLaws.
Context {A S : Type} `{EB : ErrBase} `{AC : AbilityAccess A} `{UA : UsbAbility} `{US : UsbServer S}.
Abbreviation st := (@st A S).
Implicit Types s : st.

Definition code (m : ST st (option Z)) : ST st (option Outcome) := fmap Code <$> m.
Definition first {B} (m : ST st (option (Z * B))) : ST st (option Outcome) :=
  fmap (λ r, Code r.1) <$> m.

Definition perform (c : ClientCall) : ST st (option Outcome) :=
  match c with
  | COpenDevice d p => first (OpenDevice d p)
  | CResetDevice p => code (ResetDevice p)
  | CHasRight n => fmap Said <$> HasRight n
  | CRequestRight n => code (RequestRight n)
  | CRemoveRight n => code (RemoveRight n)
  | CGetDevices l => first (GetDevices l)
  | CGetRawDescriptors p b => first (GetRawDescriptors p b)
  | CGetFileDescriptor p fd => first (GetFileDescriptor p fd)
  | CAddRight b d => code (AddRight b d)
  | CAddAccessRight t d => code (AddAccessRight t d)
  | CGetDeviceSpeed p x => first (GetDeviceSpeed p x)
  | CGetInterfaceActiveStatus p i b => first (GetInterfaceActiveStatus p i b)
  | CClaimInterface p i f => code (ClaimInterface p i f)
  | CUsbAttachKernelDriver p i => code (UsbAttachKernelDriver p i)
  | CUsbDetachKernelDriver p i => code (UsbDetachKernelDriver p i)
  | CReleaseInterface p i => code (ReleaseInterface p i)
  | CBulkTransfer p e b t => first (BulkTransfer p e b t)
  | CControlTransfer u p c b => first (ControlTransfer u p c b)
  | CUsbControlTransfer p c b => first (UsbControlTransfer p c b)
  | CSetConfiguration p c => code (SetConfiguration p c)
  | CSetInterface p i => code (SetInterface p i)
  | CClose p => fmap Said <$> Close p
  | CPipeRequestWait p t r => first (PipeRequestWait p t r)
  | CRequestInitialize r => code (RequestInitialize r)
  | CRequestFree r => code (RequestFree r)
  | CRequestAbort r => code (RequestAbort r)
  | CRequestQueue r => code (RequestQueue r)
  | CUsbCancelTransfer p e => code (UsbCancelTransfer p e)
  | CUsbSubmitTransfer p i cb m => code (UsbSubmitTransfer p i cb m)
  | CRegBulkCallback p e cb => code (RegBulkCallback p e cb)
  | CUnRegBulkCallback p e => code (UnRegBulkCallback p e)
  | CBulkRead p e m => code (BulkRead p e m)
  | CBulkWrite p e m => code (BulkWrite p e m)
  | CBulkCancel p e => code (BulkCancel p e)
  | CManageGlobalInterface b => code (ManageGlobalInterface b)
  | CManageDevice v p b => code (ManageDevice v p b)
  | CManageDevicePolicy l => code (ManageDevicePolicy l)
  | CManageInterfaceType l b => code (ManageInterfaceType l b)
  | CClearHalt p e => code (ClearHalt p e)
  | CGetCurrentFunctions f => first (GetCurrentFunctions f)
  | CSetCurrentFunctions f => code (SetCurrentFunctions f)
  | CUsbFunctionsFromString f => code (UsbFunctionsFromString f)
  | CUsbFunctionsToString f => fmap Text <$> UsbFunctionsToString f
  | CGetAccessoryList l => first (GetAccessoryList l)
  | COpenAccessory a fd => first (OpenAccessory a fd)
  | CAddAccessoryRight t a => code (AddAccessoryRight t a)
  | CHasAccessoryRight a b => first (HasAccessoryRight a b)
  | CRequestAccessoryRight a b => first (RequestAccessoryRight a b)
  | CCancelAccessoryRight a => code (CancelAccessoryRight a)
  | CCloseAccessory fd => code (CloseAccessory fd)
  | CGetPorts l => first (GetPorts l)
  | CGetSupportedModes p r => first (GetSupportedModes p r)
  | CSetPortRole p a b => code (SetPortRole p a b)
  | CSerialOpen p => code (SerialOpen p)
  | CSerialClose p => code (SerialClose p)
  | CSerialRead p d n a t => first (SerialRead p d n a t)
  | CSerialWrite p d n a t => first (SerialWrite p d n a t)
  | CSerialGetAttribute p a => first (SerialGetAttribute p a)
  | CSerialSetAttribute p a => code (SerialSetAttribute p a)
  | CSerialGetPortList l => first (SerialGetPortList l)
  | CHasSerialRight p b => first (HasSerialRight p b)
  | CCancelSerialRight p => code (CancelSerialRight p)
  | CRequestSerialRight p b => first (RequestSerialRight p b)
  | CAddSerialRight t p => code (AddSerialRight t p)
  end.

(** ** The table of the calls *)

(** How a call starts: [Some force] connects, [None] only tests the proxy. *)
Definition starts (c : ClientCall) : option bool :=
  match c with
  | COpenDevice _ _ | CResetDevice _ | CHasRight _ | CRequestRight _ | CRemoveRight _ | CGetDevices _
  | CGetRawDescriptors _ _ | CGetFileDescriptor _ _ | CAddRight _ _ | CAddAccessRight _ _
  | CGetDeviceSpeed _ _ | CGetInterfaceActiveStatus _ _ _ => Some false
  | CGetCurrentFunctions _ | CSetCurrentFunctions _ | CUsbFunctionsFromString _
  | CUsbFunctionsToString _ | CGetPorts _ | CGetSupportedModes _ _ | CSetPortRole _ _ _ => Some true
  | CGetAccessoryList _ | COpenAccessory _ _ | CAddAccessoryRight _ _ | CHasAccessoryRight _ _
  | CRequestAccessoryRight _ _ | CCancelAccessoryRight _ | CCloseAccessory _ => Some false
  | CSerialOpen _ | CSerialClose _ | CSerialRead _ _ _ _ _ | CSerialWrite _ _ _ _ _
  | CSerialGetAttribute _ _ | CSerialSetAttribute _ _ | CSerialGetPortList _ | CHasSerialRight _ _
  | CCancelSerialRight _ | CRequestSerialRight _ _ | CAddSerialRight _ _ => Some false
  | _ => None
  end.

(** What a call returns when there is no service. *)
Definition fallback (c : ClientCall) : Outcome :=
  match c with
  | CHasRight _ | CClose _ => Said false
  | CSetCurrentFunctions _ => Code UEC_OK
  | CUsbFunctionsToString _ => Text ""
  | _ => Code UEC_INTERFACE_NO_INIT
  end.

(** The request that a call makes; [inl]: it makes none, and returns this, [None] being the
    dereference of a null shared memory. *)
Definition request_of (monitor : Z) (c : ClientCall) : option Outcome + Request :=
  let device p r := inr (to_device p r) in
  let shared m (f : Z → Z → option Outcome + Request) :=
    match m with Some (fd, n) => f fd n | None => inl None end in
  match c with
  | COpenDevice d _ =>
      inr (ToHost (ToDevice (UsbDevice.GetBusNum d) (UsbDevice.GetDevAddr d) ROpenDevice))
  | CResetDevice p => device p RResetDevice
  | CHasRight n => inr (ToHost (RHasRight n))
  | CRequestRight n => inr (ToHost (RRequestRight n))
  | CRemoveRight n => inr (ToHost (RRemoveRight n))
  | CGetDevices _ => inr (ToHost RGetDevices)
  | CGetRawDescriptors p _ => device p RGetRawDescriptor
  | CGetFileDescriptor p _ => device p RGetFileDescriptor
  | CAddRight b d => inr (ToHost (RAddRight b d))
  | CAddAccessRight t d => inr (ToHost (RAddAccessRight t d))
  | CGetDeviceSpeed p _ => device p RGetDeviceSpeed
  | CGetInterfaceActiveStatus p i _ => device p (RGetInterfaceActiveStatus (u8 (UsbInterface.GetId i)))
  | CClaimInterface p i f => device p (RClaimInterface (u8 (UsbInterface.GetId i)) (Z.b2z f))
  | CUsbAttachKernelDriver p i => device p (RUsbAttachKernelDriver (u8 (UsbInterface.GetId i)))
  | CUsbDetachKernelDriver p i => device p (RUsbDetachKernelDriver (u8 (UsbInterface.GetId i)))
  | CReleaseInterface p i => device p (RReleaseInterface (u8 (UsbInterface.GetId i)))
  | CBulkTransfer p e b t =>
      if Z.testbit (USBEndpoint.address_ e) 7
      then device p (RBulkTransferReadwithLength e (i32 (Z.of_nat (length b))) t)
      else device p (RBulkTransferWrite e b t)
  | CControlTransfer u p c b =>
      let x := UsbCtrlTransferChange c u in device p (RControlTransfer x (control_buffer x b))
  | CUsbControlTransfer p c b =>
      let x := UsbCtrlTransferChange_params c in device p (RUsbControlTransfer x (control_buffer x b))
  | CSetConfiguration p c => device p (RSetActiveConfig (u8 (USBConfig.GetId c)))
  | CSetInterface p i =>
      device p (RSetInterface (u8 (UsbInterface.GetId i)) (u8 (UsbInterface.GetAlternateSetting i)))
  | CClose p => device p RClose
  | CPipeRequestWait p t _ => device p (RRequestWait (i32 t))
  | CRequestInitialize r =>
      device (pipe_ r) (RClaimInterface (u8 (USBEndpoint.GetInterfaceId (endpoint_ r))) 1)
  | CRequestFree r | CRequestAbort r =>
      device (pipe_ r) (RRequestCancel (u8 (USBEndpoint.GetInterfaceId (endpoint_ r)))
                          (u8 (USBEndpoint.GetAddress (endpoint_ r))))
  | CRequestQueue r => device (pipe_ r) (RRequestQueue (endpoint_ r) (clientData_ r) (reqData_ r))
  | CUsbCancelTransfer p e => device p (RUsbCancelTransfer e)
  | CUsbSubmitTransfer p i cb m =>
      match cb with
      | None => inl (Some (Code PARAM_ERROR))
      | Some cb => shared m (λ fd n, device p (RUsbSubmitTransfer (UsbTransInfoChange i) (Some cb) fd n))
      end
  | CRegBulkCallback p e cb => device p (RRegBulkCallback e cb)
  | CUnRegBulkCallback p e => device p (RUnRegBulkCallback e)
  | CBulkRead p e m => shared m (λ fd n, device p (RBulkRead e fd n))
  | CBulkWrite p e m => shared m (λ fd n, device p (RBulkWrite e fd n))
  | CBulkCancel p e => device p (RBulkCancel e)
  | CManageGlobalInterface b => inr (ToHost (RManageGlobalInterface b))
  | CManageDevice v p b => inr (ToHost (RManageDevice v p b))
  | CManageDevicePolicy l => inr (ToHost (RManageDevicePolicy (UsbDeviceIdChange l [])))
  | CManageInterfaceType l b => inr (ToHost (RManageInterfaceType (UsbDeviceTypeChange l []) b))
  | CClearHalt p e =>
      device p (RClearHalt (u8 (USBEndpoint.GetInterfaceId e)) (u8 (USBEndpoint.GetAddress e)))
  | CGetCurrentFunctions _ => inr (ToGadget GGetCurrentFunctions)
  | CSetCurrentFunctions f => inr (ToGadget (GSetCurrentFunctions f))
  | CUsbFunctionsFromString f => inr (ToGadget (GUsbFunctionsFromString f))
  | CUsbFunctionsToString f => inr (ToGadget (GUsbFunctionsToString f))
  | CGetAccessoryList _ => inr (ToGadget GGetAccessoryList)
  | COpenAccessory a _ => inr (ToGadget (GOpenAccessory a))
  | CAddAccessoryRight t a => inr (ToGadget (GAddAccessoryRight t a))
  | CHasAccessoryRight a _ => inr (ToGadget (GHasAccessoryRight a))
  | CRequestAccessoryRight a _ => inr (ToGadget (GRequestAccessoryRight a))
  | CCancelAccessoryRight a => inr (ToGadget (GCancelAccessoryRight a))
  | CCloseAccessory fd => inr (ToGadget (GCloseAccessory fd))
  | CGetPorts _ => inr (ToGadget GGetPorts)
  | CGetSupportedModes p _ => inr (ToGadget (GGetSupportedModes p))
  | CSetPortRole p a b => inr (ToGadget (GSetPortRole p a b))
  | CSerialOpen p => inr (ToPort p (QOpen monitor))
  | CSerialClose p => inr (ToPort p QClose)
  | CSerialRead p _ n _ t => inr (ToPort p (QRead [] n t))
  | CSerialWrite p d n _ t => inr (ToPort p (QWrite d n t))
  | CSerialGetAttribute p _ => inr (ToPort p (QGetAttribute (mk_UsbSerialAttr 0 0 0 0)))
  | CSerialSetAttribute p a => inr (ToPort p (QSetAttribute a))
  | CSerialGetPortList _ => inr ToPortList
  | CHasSerialRight p _ => inr (ToPort p QHasRight)
  | CCancelSerialRight p => inr (ToPort p QCancelRight)
  | CRequestSerialRight p _ => inr (ToPort p QRequestRight)
  | CAddSerialRight t p => inr (ToPort p (QAddRight t))
  end.

(** What a call makes of the answer. *)
Definition interpret (c : ClientCall) (ret : Z) (carried : Carried) : Outcome :=
  match c with
  | CHasRight _ => Said (out_flag false carried)
  | CClose _ => Said (ret =? UEC_OK)
  | CUsbFunctionsFromString _ => Code (if failed ret then ret else out_word 0 carried)
  | CUsbFunctionsToString _ => Text (if failed ret then "" else out_text "" carried)
  | _ => Code ret
  end.

(** The abstract call: connect or test, then the request of the table. *)
Definition call_of (c : ClientCall) : ST st (option Outcome) :=
  let m :=
    monitor ← gets serialRemote;
    match request_of monitor c with
    | inl o => mret o
    | inr r => answer r (interpret c)
    end in
  match starts c with
  | Some force => connected force (fallback c) m
  | None => bound (fallback c) m
  end.

Lemma fmap_answer {B C} (f : B → C) r (g : Z → Carried → B) s :
  (fmap f <$> answer r g) s = answer (S := S) r (λ ret x, f (g ret x)) s.
Proof.
  unfold answer, fmap, ST_fmap. destruct (call r s) as [[[ret x]|] s1]; reflexivity.
Qed.
Lemma fmap_connected {B C} (f : B → C) force (x : B) m s :
  (fmap f <$> connected force x m) s = connected (A := A) (S := S) force (f x) (fmap f <$> m) s.
Proof.
  unfold connected, fmap at 1, ST_fmap. rewrite !bind_unfold.
  destruct (Connect force s) as [[ret|] s1]; [|done]. cbn [fst snd]. by destruct (failed ret).
Qed.
Lemma fmap_bound {B C} (f : B → C) (x : B) m s :
  (fmap f <$> bound x m) s = bound (A := A) (S := S) (f x) (fmap f <$> m) s.
Proof. unfold bound, fmap at 1, ST_fmap. rewrite !bind_unfold. cbn [gets fst snd]. by destruct (proxy_ s). Qed.

Lemma connected_ext {B} force (x x' : B) (m m' : ST st (option B)) s :
  x = x' → (∀ s, m s = m' s) → connected force x m s = connected force x' m' s.
Proof.
  intros -> Hm. unfold connected. rewrite !bind_unfold.
  destruct (Connect force s) as [[ret|] s1]; [|done]. cbn [fst snd]. by destruct (failed ret).
Qed.
Lemma bound_ext {B} (x x' : B) (m m' : ST st (option B)) s :
  x = x' → (∀ s, m s = m' s) → bound x m s = bound x' m' s.
Proof. intros -> Hm. unfold bound. rewrite !bind_unfold. cbn [gets fst snd]. by destruct (proxy_ s). Qed.
Lemma answer_ext {B} r (f g : Z → Carried → B) s :
  (∀ ret x, f ret x = g ret x) → answer (S := S) r f s = answer r g s.
Proof.
  intros Hf. unfold answer, fmap, ST_fmap. destruct (call r s) as [[[ret x]|] s1]; [|done].
  simpl. by rewrite Hf.
Qed.
Lemma code_answer r : code_of (A := A) (S := S) r = answer r (λ ret _, ret).
Proof. done. Qed.
Lemma failed_same ret : (if failed ret then ret else UEC_OK) = ret.
Proof. destruct (failed ret) eqn:Hf; [done|]. by apply failed_false in Hf. Qed.
Lemma direction_bit e :
  (USBEndpoint.GetDirection e = USB_ENDPOINT_DIR_IN ∧ Z.testbit (USBEndpoint.address_ e) 7 = true) ∨
  (USBEndpoint.GetDirection e = USB_ENDPOINT_DIR_OUT ∧ Z.testbit (USBEndpoint.address_ e) 7 = false).
Proof.
  unfold USBEndpoint.GetDirection, USB_ENDPOINT_DIR_MASK, USB_ENDPOINT_DIR_IN, USB_ENDPOINT_DIR_OUT.
  change 128 with (2 ^ 7).
  destruct (Z.testbit (USBEndpoint.address_ e) 7) eqn:Hb; [left|right]; split; try done; apply Z.bits_inj';
    intros n Hn; rewrite Z.land_spec, Z.pow2_bits_eqb by lia; destruct (7 =? n) eqn:E;
    rewrite ?andb_true_r, ?andb_false_r, ?Z.bits_0; try done; apply Z.eqb_eq in E; by subst.
Qed.

(** Each call, as written, is its row of the table. *)
Ltac same_call :=
  match goal with
  | |- (fmap _ <$> ?m) _ = _ => let h := head_of m in unfold h
  end;
  first
    [ rewrite fmap_connected; apply connected_ext; [done|intros ?]
    | rewrite fmap_bound; apply bound_ext; [done|intros ?] ];
  rewrite bind_unfold; cbn [gets fst snd];
  rewrite ?code_answer;
  try (rewrite fmap_answer; apply answer_ext; intros ? ?; cbn; rewrite ?failed_same; try done).

Lemma perform_call c s : perform c s = call_of c s.
Proof.
  destruct c; unfold perform, code, first, call_of; cbn [starts fallback request_of interpret]; same_call.
  all: try (destruct (failed ret) eqn:Hf;
            [|apply failed_false in Hf as ->; try destruct (out_two _ _)]; done).
  all: try (destruct cb as [cb|]; [|done]).
  all: try (destruct ashmem as [[fd n]|]; [|done]; cbn [with_ashmem]; rewrite code_answer, fmap_answer;
            by apply answer_ext).
  - destruct (direction_bit endpoint) as [[-> ->]|[-> ->]]; cbn [Z.eqb USB_ENDPOINT_DIR_IN USB_ENDPOINT_DIR_OUT Pos.eqb];
      rewrite fmap_answer; by apply answer_ext.
  - etransitivity; [|exact (fmap_answer Code _ (λ ret _, ret) _)]. reflexivity.
Qed.

(** ** No null pointer *)

(** The documented behaviour of the lookup: an object of the service casts to a proxy,
    behind which it stays, and a recipient that was added hears of its death until it is
    removed. *)
Class AccessLaws (watching : A → Z → Z → Prop) := {
  cast_some o a : is_Some (iface_cast o a);
  object_behind o p a a' : iface_cast o a = Some p → AsObject p a' = Some o;
  add_watches o d a : watching (after (AddDeathRecipient o d) a) o d;
  remove_keeps o d o' d' a :
    (o, Some d) ≠ (o', d') → watching a o d → watching (after (RemoveDeathRecipient o' d') a) o d;
  add_keeps o d o' d' a : watching a o d → watching (after (AddDeathRecipient o' d') a) o d;
  check_keeps o d a : watching a o d → watching (after (CheckSystemAbility USB_SYSTEM_ABILITY_ID) a) o d;
  load_keeps o d t a : watching a o d → watching (after (LoadSystemAbility USB_SYSTEM_ABILITY_ID t) a) o d;
  new_keeps o d a : watching a o d → watching (after new_death_recipient a) o d;
  sleep_keeps o d t a : watching a o d → watching (after (sleep_for t) a) o d;
}.

Section Connection.
Context (watching : A → Z → Z → Prop) `{!AccessLaws watching}.

(** The library hears of the death of the object behind its proxy. *)
Definition watched s : Prop :=
  ∀ p, proxy_ s = Some p →
    ∃ o d, (∀ a, AsObject p a = Some o) ∧ deathRecipient_ s = Some d ∧ watching (access s) o d.

(** A connection attempt from a state without a proxy. *)
Record attempt (s s' : st) (r : option Z) : Prop := {
  attempt_returns : is_Some r;
  attempt_ok : r = Some UEC_OK ↔ is_Some (proxy_ s');
  attempt_watched : watched s';
  attempt_server : server s' = server s;
  attempt_monitor : serialRemote s' = serialRemote s;
}.

Definition with_access (a : A) s : st :=
  mk_st (proxy_ s) (deathRecipient_ s) (serialRemote s) a (server s).
Lemma on_access_run {B} (m : ST A B) s :
  on_access m s = (result m (access s), with_access (after m (access s)) s).
Proof. unfold on_access, result, after, with_access. by destruct (m (access s)). Qed.

Lemma attempt_fails s a ret :
  proxy_ s = None → ret ≠ UEC_OK → attempt s (with_access a s) (Some ret).
Proof.
  intros Hp Hr. split; try done.
  - cbn. rewrite Hp. split; [congruence|by intros [? ?]].
  - intros p. cbn. by rewrite Hp.
Qed.

Lemma ConnectUnLocked_attempt force s :
  proxy_ s = None → attempt s (after (ConnectUnLocked force) s) (result (ConnectUnLocked force) s).
Proof.
  intros Hp. unfold ConnectUnLocked, result at 1, after at 1. rewrite bind_unfold. cbn [gets fst snd].
  destruct (SystemAbilityManagerExists (access s)); cbn [negb]; [|destruct s; by apply (attempt_fails (mk_st _ _ _ _ _)); [|uec]].
  set (look := if force then _ else _).
  rewrite bind_unfold, on_access_run. cbn [fst snd].
  destruct (result look (access s)) as [o|]; [|by apply attempt_fails; [|uec]].
  rewrite bind_unfold. cbn [gets fst snd access with_access].
  destruct (cast_some o (after look (access s))) as [p Hcast]. rewrite Hcast.
  rewrite bind_unfold. cbn [modify fst snd]. rewrite bind_unfold. cbn [gets fst snd].
  rewrite (object_behind o p _ _ Hcast). rewrite bind_unfold, on_access_run. cbn [fst snd].
  rewrite bind_unfold. cbn [modify fst snd]. rewrite bind_unfold, on_access_run. cbn [fst snd].
  split; cbn; try done.
  intros q [= <-]. exists o, (result new_death_recipient (after look (access s))).
  split; [intros a; by eapply object_behind|]. split; [done|]. apply add_watches.
Qed.

Lemma Connect_attempt force s :
  watched s → attempt s (after (Connect force) s) (result (Connect force) s).
Proof.
  intros Hw. unfold Connect, result, after. rewrite bind_unfold. cbn [gets fst snd].
  destruct (proxy_ s) as [p|] eqn:Hp; [|by apply ConnectUnLocked_attempt].
  by split.
Qed.

Lemma answer_runs {B} r (f : Z → Carried → B) s p :
  proxy_ s = Some p →
  answer r f s =
    (let '(a, x) := Transact p r (server s) in
     (Some (f a.1 a.2), mk_st (proxy_ s) (deathRecipient_ s) (serialRemote s) (access s) x)).
Proof.
  destruct s as [q d m a y]. cbn. intros ->. unfold answer, call, on_server, fmap, ST_fmap.
  rewrite bind_unfold. cbn. by destruct (Transact p r y).
Qed.

(** The shared memory of the call is there. *)
Definition shares (c : ClientCall) : Prop :=
  match c with
  | CUsbSubmitTransfer _ _ _ m | CBulkRead _ _ m | CBulkWrite _ _ m => is_Some m
  | _ => True
  end.

Lemma request_of_some monitor c o : shares c → request_of monitor c = inl o → is_Some o.
Proof.
  destruct c; cbn; try done; try (intros [[fd n] ->]; done).
  - by case_match.
  - intros [[fd n] ->]. destruct cb; [done|]. by intros [= <-].
Qed.

(** One call from a watched state: it returns, and what it did to the world behind the proxy
    is at most its one request. *)
Record served (c : ClientCall) s (s' : st) (o : option Outcome) : Prop := {
  served_returns : is_Some o;
  served_watched : watched s';
  served_monitor : serialRemote s' = serialRemote s;
  served_request :
    (server s' = server s ∧
       (o = Some (fallback c) ∨ request_of (serialRemote s) c = inl o)) ∨
    ∃ p r a, request_of (serialRemote s) c = inr r ∧ a = Transact p r (server s) ∧
      server s' = a.2 ∧ o = Some (interpret c a.1.1 a.1.2);
}.

(** The part of a call that follows the test of the connection. *)
Lemma request_served c s s1 :
  shares c → watched s1 → is_Some (proxy_ s1) →
  server s1 = server s → serialRemote s1 = serialRemote s →
  let m := monitor ← gets serialRemote;
           match request_of monitor c with inl o => mret o | inr r => answer r (interpret c) end in
  served c s (after m s1) (result m s1).
Proof.
  intros Hc Hw [p Hp] Hs Hm m. subst m. unfold result, after. rewrite bind_unfold. cbn [gets fst snd].
  rewrite Hm. destruct (request_of (serialRemote s) c) as [o|r] eqn:Hr.
  - cbn. split; [by eapply request_of_some|done|done|]. left. by split; [|right].
  - rewrite (answer_runs r _ _ p Hp), Hs. destruct (Transact p r (server s)) as [a x] eqn:Ht.
    cbn [fst snd]. split; cbn; [done| |done|].
    + intros q Hq. destruct (Hw q Hq) as (o & d & Hw'). by exists o, d.
    + right. exists p, r, (a, x). by rewrite Ht.
Qed.

Lemma perform_served c s :
  shares c → watched s → served c s (after (perform c) s) (result (perform c) s).
Proof.
  intros Hc Hw. unfold result, after. rewrite perform_call. unfold call_of.
  destruct (starts c) as [force|].
  - unfold connected. destruct (Connect_attempt force s Hw) as [[ret Hr] Hok Hw1 Hs Hm].
    unfold result, after in *. rewrite bind_unfold, Hr in *. destruct (failed ret) eqn:Hf; cbn [fst snd].
    + cbn. split; try done. left. split; [done|by left].
    + apply failed_false in Hf as ->. apply request_served; try done. by apply Hok.
  - unfold bound. rewrite bind_unfold. cbn [gets fst snd]. destruct (proxy_ s) as [p|] eqn:Hp.
    + apply request_served; try done.
    + cbn. split; try done. left. split; [done|by left].
Qed.

(** A call of a connected library is its request. *)
Lemma perform_connected c s p r :
  proxy_ s = Some p → request_of (serialRemote s) c = inr r →
  result (perform c) s =
    (let a := Transact p r (server s) in Some (interpret c a.1.1 a.1.2)).
Proof.
  intros Hp Hr. unfold result. rewrite perform_call. unfold call_of.
  assert (Hm : (monitor ← gets serialRemote;
                match request_of monitor c with inl o => mret o | inr r => answer r (interpret c) end) s =
               answer r (interpret c) s).
  { rewrite bind_unfold. cbn [gets fst snd]. by rewrite Hr. }
  destruct (starts c) as [force|]; [unfold connected, Connect|unfold bound];
    rewrite !bind_unfold; cbn [gets fst snd]; rewrite Hp; cbn [mret ST_ret fst snd];
    rewrite ?failed_ok, Hm, (answer_runs _ _ _ p Hp); by destruct (Transact p r (server s)).
Qed.

(** A death notice leaves the library watched, too. *)
Lemma ResetProxy_watched remote s :
  watched s → watched (after (ResetProxy remote) s) ∧ is_Some (result (ResetProxy remote) s).
Proof.
  intros Hw. unfold ResetProxy, result, after. rewrite bind_unfold. cbn [gets fst snd].
  destruct (proxy_ s) as [p|] eqn:Hp; [|done]. rewrite bind_unfold. cbn [gets fst snd].
  destruct (opt_is_some _ && _); [|done].
  rewrite bind_unfold. cbn [gets fst snd]. rewrite bind_unfold, on_access_run. cbn [fst snd].
  rewrite bind_unfold. cbn [modify fst snd]. rewrite bind_unfold, on_access_run. cbn [fst snd].
  rewrite bind_unfold. set (s1 := with_access _ _).
  destruct (ConnectUnLocked_attempt false s1 eq_refl) as [[ret Hr] _ Hw1 _ _].
  unfold result, after in *. rewrite Hr. done.
Qed.

(** The histories of a library: its calls, death notices, and anything that happens outside
    as long as the recipients stay where they are. *)
Inductive client_step : relation st :=
  | client_calls c s : shares c → client_step s (after (perform c) s)
  | client_notified remote s : client_step s (after (OnRemoteDied remote) s)
  | client_elsewhere s a x :
      (∀ o d, watching (access s) o d → watching a o d) →
      client_step s (mk_st (proxy_ s) (deathRecipient_ s) (serialRemote s) a x).

Lemma client_step_watched s s' : client_step s s' → watched s → watched s'.
Proof.
  intros [c t Hc|remote t|t a x Ha] Hw.
  - by apply perform_served.
  - destruct remote as [remote|]; [|done]. by apply ResetProxy_watched.
  - intros p Hp. destruct (Hw p Hp) as (o & d & Ho & Hd & Hwd). exists o, d. eauto.
Qed.

Lemma construct_watched monitor a x : watched (construct monitor a x).
Proof.
  destruct (Connect_attempt false (mk_st None None 0 a x)) as [_ _ Hw _ _]; [by intros p|].
  intros p Hp. destruct (Hw p Hp) as (o & d & Hw'). by exists o, d.
Qed.

(** Every state of a library that was constructed is watched. *)
Lemma library_watched monitor a x s :
  rtc client_step (construct monitor a x) s → watched s.
Proof.
  intros Hr. pose proof (construct_watched monitor a x) as Hw. revert Hw.
  induction Hr as [|y z w Hyz _ IH]; [done|]. intros Hy. by eapply IH, client_step_watched.
Qed.

(** C7: when the calls of a library and the notices of the service's death run one after the
    other, each as a whole - the mutex does not span a call, and a notice that is handled
    between a call's test of the proxy and its request can make it dereference null, which
    is [death_between_test_and_use] -, every call returns without the dereference of a null
    proxy, whatever the library has been through; when the library holds a proxy, it is
    registered for the death of the object behind it, so that the proxy of a dead service
    is always replaced; and the call has made at most the one request of its row, or has
    answered as it does when there is no service.  Given are the laws of the platform
    ([AccessLaws]: among them, that the proxy of an object has that object behind it, not
    null), and that a call of a transfer is given its shared memory. *)
Theorem client_call_served monitor a x c s
    (Hr : rtc client_step (construct monitor a x) s) (Hc : shares c) :
  served c s (after (perform c) s) (result (perform c) s).
Proof. apply perform_served; [done|]. by eapply library_watched. Qed.

(** The service restarts: the notice of its death gives the library the new proxy, or
    none; then the calls that only test the proxy fail until one that connects finds the
    service again, and that one makes its request. *)
Definition lookup_service (force : bool) : ST A (option Z) :=
  if force then LoadSystemAbility USB_SYSTEM_ABILITY_ID MAX_WAIT_LOAD_SA_SECONDS
  else CheckSystemAbility USB_SYSTEM_ABILITY_ID.

Lemma ConnectUnLocked_finds force s o :
  proxy_ s = None → SystemAbilityManagerExists (access s) = true →
  result (lookup_service force) (access s) = Some o →
  result (ConnectUnLocked force) s = Some UEC_OK.
Proof.
  intros Hp Hm Ho. unfold ConnectUnLocked, result at 1. rewrite bind_unfold. cbn [gets fst snd].
  rewrite Hm. cbn [negb]. fold (lookup_service force). rewrite bind_unfold, on_access_run. cbn [fst snd].
  rewrite Ho. rewrite bind_unfold. cbn [gets fst snd access with_access].
  destruct (cast_some o (after (lookup_service force) (access s))) as [p Hcast]. rewrite Hcast.
  rewrite bind_unfold. cbn [modify fst snd]. rewrite bind_unfold. cbn [gets fst snd].
  rewrite (object_behind o p _ _ Hcast). rewrite bind_unfold, on_access_run. cbn [fst snd].
  rewrite bind_unfold. cbn [modify fst snd]. by rewrite bind_unfold, on_access_run.
Qed.

(** C8: a library without a proxy recovers exactly through the calls that connect: a call
    that only tests the proxy answers that there is no service and changes nothing, however
    long the service has been back; a call that connects, once the service can be found,
    makes its request, and leaves a proxy for all others. *)
Theorem client_recovers c s r
    (Hp : proxy_ s = None) (Hm : SystemAbilityManagerExists (access s) = true)
    (Hfound : ∀ force, is_Some (result (lookup_service force) (access s)))
    (Hc : request_of (serialRemote s) c = inr r) :
  match starts c with
  | None => perform c s = (Some (fallback c), s)
  | Some _ =>
      ∃ p, let a := Transact p r (server s) in
        result (perform c) s = Some (interpret c a.1.1 a.1.2) ∧
        proxy_ (after (perform c) s) = Some p ∧ server (after (perform c) s) = a.2
  end.
Proof.
  destruct (starts c) as [force|] eqn:Hs.
  - destruct (Hfound force) as [o Ho]. pose proof (ConnectUnLocked_finds force s o Hp Hm Ho) as Hok.
    destruct (ConnectUnLocked_attempt force s Hp) as [_ Hpx _ Hsv Hmon].
    destruct (proj1 Hpx Hok) as [p Hp1]. exists p. cbv zeta.
    unfold result at 1, after. rewrite perform_call. unfold call_of. rewrite Hs. unfold connected, Connect.
    rewrite !bind_unfold. cbn [gets fst snd]. rewrite Hp. unfold result in Hok. unfold after in Hp1, Hsv, Hmon. rewrite Hok.
    rewrite failed_ok, bind_unfold. cbn [gets fst snd]. rewrite Hmon, Hc.
    rewrite (answer_runs _ _ _ p Hp1), Hsv. by destruct (Transact p r (server s)) as [[? ?] ?].
  - rewrite perform_call. unfold call_of. rewrite Hs. unfold bound. rewrite bind_unfold. cbn [gets fst snd].
    by rewrite Hp.
Qed.

Lemma ConnectUnLocked_gone s :
  proxy_ s = None → result (CheckSystemAbility USB_SYSTEM_ABILITY_ID) (access s) = None →
  proxy_ (ConnectUnLocked false s).2 = None.
Proof.
  intros Hp Hgone. unfold ConnectUnLocked. rewrite bind_unfold. cbn [gets fst snd].
  destruct (SystemAbilityManagerExists _); [|done]. cbn [negb].
  by rewrite bind_unfold, on_access_run, Hgone.
Qed.

(** The mutex does not span the use of the proxy: when the notice of the service's death
    is handled between the test of a call and its request, and the service is not back
    within half a second, the request goes through a null pointer. *)
Theorem death_between_test_and_use s p o force
    (Hp : proxy_ s = Some p) (Ho : AsObject p (access s) = Some o)
    (Hgone : result (CheckSystemAbility USB_SYSTEM_ABILITY_ID)
               (after (sleep_for WAIT_SERVICE_LOAD)
                  (after (RemoveDeathRecipient o (deathRecipient_ s)) (access s))) = None) :
  result (Connect force) s = Some UEC_OK ∧ after (Connect force) s = s ∧
  ∀ r, result (call r) (after (OnRemoteDied (Some (Some o))) s) = None.
Proof.
  split; [|split]; try (unfold Connect, result, after; rewrite bind_unfold; cbn [gets fst snd]; by rewrite Hp).
  intros r. unfold OnRemoteDied, ResetProxy. unfold result at 1, after at 1. rewrite bind_unfold. cbn [gets fst snd].
  rewrite Hp, bind_unfold. cbn [gets fst snd]. rewrite Ho, bool_decide_eq_true_2 by done. cbn [opt_is_some andb default].
  rewrite bind_unfold. cbn [gets fst snd]. rewrite bind_unfold, on_access_run. cbn [fst snd].
  rewrite bind_unfold. cbn [modify fst snd]. rewrite bind_unfold, on_access_run. cbn [fst snd].
  rewrite bind_unfold. cbn [mret ST_ret snd].
  unfold call. rewrite bind_unfold. cbn [gets fst snd].
  rewrite ConnectUnLocked_gone; [done|done|]. exact Hgone.
Qed.
End Connection.
End ClientLaws.

(** ** A platform with one service *)
Module Sample.
(** Whether the service is there, and the recipients that are registered. *)
Definition platform : Type := bool * list (Z * Z).
(** The service is the object 11, its proxy is 12. *)
#[local] Instance platform_access : AbilityAccess platform := {|
  SystemAbilityManagerExists _ := true;
  LoadSystemAbility _ _ := λ a, (Some 11, (true, a.2));
  CheckSystemAbility _ := λ a, (if a.1 then Some 11 else None, a);
  iface_cast o _ := Some (o + 1);
  AsObject p _ := Some (p - 1);
  new_death_recipient := λ a, (Z.of_nat (length a.2), a);
  AddDeathRecipient o d := λ a, (tt, (a.1, (o, d) :: a.2));
  RemoveDeathRecipient o d := λ a, (tt, (a.1, filter (λ w : Z * Z, (w.1, Some w.2) ≠ (o, d)) a.2));
  sleep_for _ := λ a, (tt, a);
|}.
Definition watching (a : platform) (o d : Z) : Prop := (o, d) ∈ a.2.
#[local] Instance platform_laws : AccessLaws (UA := 1406) watching.
Proof.
  split; unfold watching; cbn; try (intros; eauto; fail).
  - intros o p _ _ [= <-]. f_equal. lia.
  - intros. by left.
  - intros o d o' d' a Hne Hin. by apply list_elem_of_filter.
  - intros. by right.
Qed.
(** A server that counts its requests and agrees to each. *)
#[local] Instance counting : UsbServer Z := λ _ _ n, (UEC_OK, CHost (Word n), n + 1).
#[local] Instance ability : UsbAbility := 1406.
#[local] Existing Instance sample_codes.

Lemma client_call_served_witness :
  ∃ s, proxy_ s = None ∧
    served watching (CHasRight "1-1") s (after (perform (CHasRight "1-1")) s) (result (perform (CHasRight "1-1")) s).
Proof.
  exists (after (OnRemoteDied (Some (Some 11))) (construct 0 (false, []) 0)). split; [done|].
  apply (client_call_served watching 0 (false, []) 0); [|done].
  apply rtc_once. apply client_notified.
Defined.

Lemma client_recovers_witness :
  result (perform (CClose default_pipe)) (mk_st None None 0 (true, []) 0) = Some (Said false) ∧
  ∃ p, result (perform (CHasRight "1-1")) (mk_st None None 0 (true, []) 0) = Some (Said false) ∧
       proxy_ (after (perform (CHasRight "1-1")) (mk_st None None 0 (true, []) 0)) = Some p ∧
       server (after (perform (CHasRight "1-1")) (mk_st None None 0 (true, []) 0)) = 1.
Proof.
  split; [done|].
  refine (client_recovers watching (CHasRight "1-1") (mk_st None None 0 (true, []) 0) _
            eq_refl eq_refl _ eq_refl).
  by intros [].
Defined.

Lemma death_between_test_and_use_witness :
  result (call (ToHost RGetDevices)) (after (OnRemoteDied (Some (Some 11)))
    (mk_st (Some 12) (Some 0) 0 (false, [(11, 0)]) 0)) = None.
Proof.
  refine (proj2 (proj2 (death_between_test_and_use (mk_st (Some 12) (Some 0) 0 (false, [(11, 0)]) 0) 12 11 false
            eq_refl eq_refl eq_refl)) _).
Defined.
End Sample.

