(* ===== verification/Napi.v ===== *)
(** * The JavaScript engine as the bindings use it

    [interfaces/kits/js/napi/src/napi_util.cpp] and [utils/native/src/usb_napi_errors.cpp]:
    the bindings' helpers over Node-API and their errors.

    A call of Node-API is an operation of [NapiOp], indexed by the type of what it writes;
    the engine itself is the class [Napi], which gives an operation its status and, when the
    engine has written it, its out-parameter.  Handles, references, deferred promises and
    pointers are [Z].  A variable that the code declares without a value holds what the
    class [Uninitialised] says. *)

From S2P Require Import Prelude Text UsbTypes.

#[local] Set Default Goal Selector "!".

(** ** The operations of the engine *)

Definition nullptr : Z := 0.
(** [napi_status] of [js_native_api_types.h] *)
Definition napi_ok : Z := 0.
Definition napi_invalid_arg : Z := 1.
Definition napi_generic_failure : Z := 9.

Inductive napi_valuetype :=
  | napi_undefined | napi_null | napi_boolean | napi_number | napi_string | napi_symbol
  | napi_object | napi_function | napi_external | napi_bigint.
Inductive napi_typedarray_type :=
  | napi_int8_array | napi_uint8_array | napi_uint8_clamped_array | napi_int16_array
  | napi_uint16_array | napi_int32_array | napi_uint32_array | napi_float32_array
  | napi_float64_array | napi_bigint64_array | napi_biguint64_array.

#[global] Instance napi_valuetype_eq_dec : EqDecision napi_valuetype.
Proof. solve_decision. Defined.
#[global] Instance napi_typedarray_type_eq_dec : EqDecision napi_typedarray_type.
Proof. solve_decision. Defined.

(** The comparisons [type == napi_object] and [type == napi_uint8_array]. *)
Definition is_type (t u : napi_valuetype) : bool := bool_decide (t = u).
Definition is_array_type (t u : napi_typedarray_type) : bool := bool_decide (t = u).

(** What [napi_get_typedarray_info] writes: the type, the length, the data, the array
    buffer and the offset. *)
Record TypedArrayInfo := mk_TypedArrayInfo {
  ta_type : napi_typedarray_type; ta_length : Z; ta_data : Z; ta_buffer : Z; ta_offset : Z }.

(** A property that a module declares: a native function, by its name in the code, or a
    value. *)
Inductive Declared :=
  | DECLARE_NAPI_FUNCTION (name : string) (function : string)
  | DECLARE_NAPI_STATIC_PROPERTY (name : string) (value : Z).

(** The native functions that are handed over as the two halves of an asynchronous work
    are named by the work. *)
Inductive NapiOp : Set → Type :=
  (* calls: the number of arguments, and the arguments that were asked for *)
  | napi_get_cb_info (info argc : Z) : NapiOp (Z * list Z)
  (* reading *)
  | napi_typeof (value : Z) : NapiOp napi_valuetype
  | napi_has_named_property (object : Z) (name : string) : NapiOp bool
  | napi_get_named_property (object : Z) (name : string) : NapiOp Z
  | napi_is_array (value : Z) : NapiOp bool
  | napi_get_array_length (value : Z) : NapiOp Z
  | napi_get_element (object index : Z) : NapiOp Z
  | napi_get_value_string_utf8 (value bufsize : Z) : NapiOp string
  | napi_get_value_bool (value : Z) : NapiOp bool
  | napi_get_value_int32 (value : Z) : NapiOp Z
  | napi_get_value_uint32 (value : Z) : NapiOp Z
  | napi_is_typedarray (value : Z) : NapiOp bool
  | napi_get_typedarray_info (value : Z) : NapiOp TypedArrayInfo
  (* creating *)
  | napi_create_object : NapiOp Z
  | napi_create_array : NapiOp Z
  | napi_create_string_utf8 (str : string) : NapiOp Z
  | napi_create_int32 (value : Z) : NapiOp Z
  | napi_create_uint32 (value : Z) : NapiOp Z
  | napi_get_boolean (value : bool) : NapiOp Z
  | napi_get_undefined : NapiOp Z
  | napi_create_error (code message : Z) : NapiOp Z
  | napi_create_arraybuffer (byte_length : Z) : NapiOp (Z * Z)
  | napi_create_typedarray (type : napi_typedarray_type) (length arraybuffer offset : Z) : NapiOp Z
  (* writing *)
  | napi_set_named_property (object : Z) (name : string) (value : Z) : NapiOp unit
  | napi_set_element (object index value : Z) : NapiOp unit
  | napi_define_properties (object : Z) (properties : list Declared) : NapiOp unit
  (* exceptions *)
  | napi_throw (error : Z) : NapiOp unit
  | get_and_throw_last_error : NapiOp unit
  (* promises and works *)
  | napi_create_promise : NapiOp (Z * Z)
  | napi_resolve_deferred (deferred value : Z) : NapiOp unit
  | napi_reject_deferred (deferred value : Z) : NapiOp unit
  | napi_create_async_work (resource : Z) : NapiOp Z
  | napi_queue_async_work (work : Z) : NapiOp unit
  | napi_delete_async_work (work : Z) : NapiOp unit
  (* callbacks *)
  | napi_create_reference (value count : Z) : NapiOp Z
  | napi_get_reference_value (ref : Z) : NapiOp Z
  | napi_call_function (recv func : Z) (argv : list Z) : NapiOp Z
  | napi_open_handle_scope : NapiOp Z
  | napi_close_handle_scope (scope : Z) : NapiOp unit
  | napi_send_event : NapiOp unit.

(** The engine, and the bytes behind the typed arrays: [peek] reads [n] bytes from an
    address and [poke] overwrites the bytes from an address on. *)
Class Napi (E : Type) := {
  napi : ∀ {X : Set}, NapiOp X → ST E (Z * option X);
  peek : Z → Z → E → list Z;
  poke : Z → list Z → E → E;
}.

(** What the stack holds where the code has not initialised it. *)
Class Uninitialised := {
  any_value : Z;
  any_type : napi_valuetype;
  any_array_type : napi_typedarray_type;
  any_int : Z;
}.

(** The error codes that have a message, in a build. *)
Class ErrorMessages := ERRCODE_MSG_MAP : list (Z * string).

(** ** Codes of the errors *)

(** [usb_napi_errors.h:25-51] [UsbJsErrCode] *)
Definition OHEC_COMMON_PERMISSION_NOT_ALLOWED : Z := 201.
Definition OHEC_COMMON_NORMAL_APP_NOT_ALLOWED : Z := 202.
Definition OHEC_COMMON_PARAM_ERROR : Z := 401.
Definition CAPABILITY_NOT_SUPPORT : Z := 801.
Definition UEC_COMMON_BASE : Z := 14400000.
Definition UEC_COMMON_HAS_NO_RIGHT : Z := UEC_COMMON_BASE + 1.
Definition UEC_COMMON_HDC_NOT_ALLOWED : Z := UEC_COMMON_BASE + 2.
Definition UEC_COMMON_PORTROLE_SWITCH_NOT_ALLOWED : Z := UEC_COMMON_BASE + 3.
Definition UEC_COMMON_SERVICE_EXCEPTION : Z := UEC_COMMON_BASE + 4.
Definition UEC_COMMON_RIGHT_DATABASE_ERROR : Z := UEC_COMMON_BASE + 5.
Definition UEC_COMMON_FUNCTION_NOT_SUPPORT : Z := UEC_COMMON_BASE + 6.
Definition UEC_ACCESSORY_BASE : Z := UEC_COMMON_BASE + 1000.
Definition UEC_ACCESSORY_NOT_MATCH : Z := UEC_ACCESSORY_BASE + 1.
Definition UEC_ACCESSORY_OPEN_FAILED : Z := UEC_ACCESSORY_BASE + 2.
Definition UEC_ACCESSORY_CAN_NOT_REOPEN : Z := UEC_ACCESSORY_BASE + 3.
Definition USB_SUBMIT_TRANSFER_RESOURCE_BUSY_ERROR : Z := 14400007.
Definition USB_SUBMIT_TRANSFER_NO_DEVICE_ERROR : Z := 14400008.
Definition USB_SUBMIT_TRANSFER_NO_MEM_ERROR : Z := 14400009.
Definition USB_SUBMIT_TRANSFER_OTHER_ERROR : Z := 14400010.
Definition USB_SUBMIT_TRANSFER_NOT_FOUND_ERROR : Z := 14400011.
Definition USB_SUBMIT_TRANSFER_IO_ERROR : Z := 14400012.
Definition USB_DEVICE_PIPE_CHECK_ERROR : Z := 14400013.

(** [usb_napi_errors.h:53-86] [ERRCODE_MSG_MAP] *)
Definition usb_messages : ErrorMessages :=
  [(OHEC_COMMON_PERMISSION_NOT_ALLOWED,
    "BusinessError 201:Permission verification failed. The application does not have the permission required to call the API.");
   (OHEC_COMMON_NORMAL_APP_NOT_ALLOWED,
    "BusinessError 202:Permission denied. Normal application uses system api.");
   (OHEC_COMMON_PARAM_ERROR, "BusinessError 401:Parameter error.");
   (CAPABILITY_NOT_SUPPORT, "BusinessError 801:Capability not supported.");
   (UEC_COMMON_HAS_NO_RIGHT, "BusinessError 14400001:Permission denied.");
   (UEC_COMMON_HDC_NOT_ALLOWED,
    "BusinessError 14400002:Permission denied. The HDC is disabled by the system.");
   (UEC_COMMON_PORTROLE_SWITCH_NOT_ALLOWED,
    "BusinessError 14400003:Unsupported operation.The current device does not support port role switching.");
   (UEC_COMMON_SERVICE_EXCEPTION,
    "BusinessError 14400004:Service exception. Possible causes:No accessory is plugged in.");
   (UEC_COMMON_RIGHT_DATABASE_ERROR, "BusinessError 14400005:Database operation exception.");
   (UEC_COMMON_FUNCTION_NOT_SUPPORT,
    "BusinessError 14400006:Unsupported operation. The function is not supported.");
   (UEC_ACCESSORY_NOT_MATCH, "BusinessError 14401001:The target USBAccessory not matched.");
   (UEC_ACCESSORY_OPEN_FAILED, "BusinessError 14401002:Failed to open the native accessory node.");
   (UEC_ACCESSORY_CAN_NOT_REOPEN, "BusinessError 14401003:Cannot reopen the accessory.");
   (USB_SUBMIT_TRANSFER_RESOURCE_BUSY_ERROR,
    "BusinessError 14400007:Resource busy. Possible causes:1. The transfer has already been submitted.2. The interface is claimed by another program or driver.");
   (USB_SUBMIT_TRANSFER_NO_DEVICE_ERROR,
    "BusinessError 14400008:No such device (it may have been disconnected).");
   (USB_SUBMIT_TRANSFER_NO_MEM_ERROR,
    "BusinessError 14400009:Insufficient memory. Possible causes: 1. Malloc memory failed.");
   (USB_SUBMIT_TRANSFER_OTHER_ERROR, "BusinessError 14400010:Other USB error.");
   (USB_SUBMIT_TRANSFER_NOT_FOUND_ERROR,
    "BusinessError 14400011:The transfer is not in progress, or is already complete or cancelled.");
   (USB_SUBMIT_TRANSFER_IO_ERROR, "BusinessError 14400012:Transmission I/O error.");
   (USB_DEVICE_PIPE_CHECK_ERROR,
    "BusinessError 14400013:The USBDevicePipe validity check failed. Possible causes:1.The input parameters fail the validation check.2.The call chain used to obtain the input parameters is not reasonable.")
  ]%string.

(** [napi_util.cpp:30-30] [MAX_STR_LENGTH] *)
Definition MAX_STR_LENGTH : Z := 1024.
(** [SCHAR_MAX] and [UINT_MAX] of [climits] *)
Definition SCHAR_MAX : Z := 127.

Section Napi.
Context {E : Type} `{NA : Napi E} `{UN : Uninitialised} `{EM : ErrorMessages}.

(** ** Throwing *)

(** [usb_napi_errors.cpp:27-35] [GetErrMsgByErrCode] *)
Definition GetErrMsgByErrCode (errCode : Z) : option string :=
  snd <$> head (filter (λ kv, kv.1 = errCode) ERRCODE_MSG_MAP).

(** [NAPI_CALL] of [native_common.h]: after a failure the engine's last error is thrown and
    the caller returns a null pointer. *)
Definition NAPI_CALL {X : Set} (op : NapiOp X) (k : option X → ST E Z) : ST E Z :=
  '(status, out) ← napi op;
  if status =? napi_ok then k out else napi get_and_throw_last_error ;; mret nullptr.

(** [usb_napi_errors.cpp:37-57] [CreateBusinessError] *)
Definition CreateBusinessError (errCode : Z) (errMsg : string) : ST E Z :=
  match GetErrMsgByErrCode errCode with
  | None => '(_, result) ← napi napi_get_undefined; mret (default any_value result)
  | Some commMsg =>
      NAPI_CALL (napi_create_string_utf8 (c_str (commMsg +:+ errMsg))) (λ message,
      NAPI_CALL (napi_create_int32 errCode) (λ code,
      '(_, businessError) ← napi (napi_create_error nullptr (default nullptr message));
      napi (napi_set_named_property (default nullptr businessError) "code" (default nullptr code)) ;;
      mret (default nullptr businessError)))
  end.

(** [usb_napi_errors.cpp:59-64] [ThrowBusinessError] *)
Definition ThrowBusinessError (errCode : Z) (errMsg : string) : ST E unit :=
  businessError ← CreateBusinessError errCode errMsg;
  napi (napi_throw businessError) ;; mret tt.

(** [usb_napi_errors.h:91-98] [USB_ASSERT_BASE] [k] is the rest of the function *)
Definition USB_ASSERT_BASE {R} (assertion : bool) (errCode : Z) (errMsg : string) (retVal : R)
    (k : ST E R) : ST E R :=
  if assertion then k else ThrowBusinessError errCode errMsg ;; mret retVal.
(** [usb_napi_errors.h:102-103] [USB_ASSERT_RETURN_VOID] *)
Definition USB_ASSERT_RETURN_VOID (assertion : bool) (errCode : Z) (errMsg : string) {R} (unchanged : R)
    (k : ST E R) : ST E R := USB_ASSERT_BASE assertion errCode errMsg unchanged k.
(** [usb_napi_errors.h:104-104] [USB_ASSERT_RETURN_FALSE] *)
Definition USB_ASSERT_RETURN_FALSE (assertion : bool) (errCode : Z) (errMsg : string) {R} (outs : R)
    (k : ST E (bool * R)) : ST E (bool * R) := USB_ASSERT_BASE assertion errCode errMsg (false, outs) k.
(** [usb_napi_errors.h:122-131] [NAPI_CHECK_RETURN_FALSE] *)
Definition NAPI_CHECK_RETURN_FALSE (status : Z) {R} (outs : R) (k : ST E (bool * R)) : ST E (bool * R) :=
  if status =? napi_ok then k else mret (false, outs).

(** ** From JavaScript: an out-parameter that is not set keeps its value *)

(** [napi_util.cpp:31-47] [NapiUtil::JsValueToString] *)
Definition JsValueToString (value bufLen : Z) (target : string) : ST E string :=
  if (bufLen <=? 0) || (MAX_STR_LENGTH <? bufLen) then mret target
  else
    let actBufLen := bufLen + 1 in
    '(_, buf) ← napi (napi_get_value_string_utf8 value actBufLen);
    mret (c_str (default "" buf)%string).

(** [napi_has_named_property] and, if the object has it, [napi_get_named_property] and
    [napi_typeof], whose results the code does not check. *)
Definition has_property (object : Z) (fieldStr : string) : ST E bool :=
  '(_, hasProperty) ← napi (napi_has_named_property object (c_str fieldStr));
  mret (default false hasProperty).
Definition get_property (object : Z) (fieldStr : string) (value : Z) : ST E Z :=
  '(_, field) ← napi (napi_get_named_property object (c_str fieldStr));
  mret (default value field).
Definition type_of_value (value : Z) (type : napi_valuetype) : ST E napi_valuetype :=
  '(_, valueType) ← napi (napi_typeof value);
  mret (default type valueType).

(** [napi_util.cpp:49-80] [NapiUtil::JsObjectToString] *)
Definition JsObjectToString (object : Z) (fieldStr : string) (bufLen : Z) (fieldRef : string) : ST E string :=
  if bufLen <=? 0 then mret fieldRef
  else
    hasProperty ← has_property object fieldStr;
    if negb hasProperty then mret fieldRef
    else
      field ← get_property object fieldStr any_value;
      valueType ← type_of_value field any_type;
      USB_ASSERT_RETURN_VOID (is_type valueType napi_string) OHEC_COMMON_PARAM_ERROR
        ("The type of " +:+ fieldStr +:+ " must be string.") fieldRef
        (let actBufLen := bufLen + 1 in
         '(_, buf) ← napi (napi_get_value_string_utf8 field actBufLen);
         mret (c_str (default "" buf)%string)).

(** [napi_util.cpp:82-93] [NapiUtil::JsObjectGetProperty] *)
Definition JsObjectGetProperty (object : Z) (fieldStr : string) (value : Z) : ST E (bool * Z) :=
  hasProperty ← has_property object fieldStr;
  if negb hasProperty then mret (hasProperty, value)
  else
    value ← get_property object fieldStr value;
    mret (hasProperty, value).

(** [napi_util.cpp:95-111] [NapiUtil::JsObjectToBool] *)
Definition JsObjectToBool (object : Z) (fieldStr : string) (fieldRef : bool) : ST E bool :=
  hasProperty ← has_property object fieldStr;
  if negb hasProperty then mret fieldRef
  else
    field ← get_property object fieldStr any_value;
    valueType ← type_of_value field any_type;
    USB_ASSERT_RETURN_VOID (is_type valueType napi_boolean) OHEC_COMMON_PARAM_ERROR
      ("The type of " +:+ fieldStr +:+ " must be boolean.") fieldRef
      ('(_, value) ← napi (napi_get_value_bool field); mret (default fieldRef value)).

(** [napi_util.cpp:113-129] [NapiUtil::JsObjectToInt] *)
Definition JsObjectToInt (object : Z) (fieldStr : string) (fieldRef : Z) : ST E Z :=
  hasProperty ← has_property object fieldStr;
  if negb hasProperty then mret fieldRef
  else
    field ← get_property object fieldStr any_value;
    valueType ← type_of_value field any_type;
    USB_ASSERT_RETURN_VOID (is_type valueType napi_number) OHEC_COMMON_PARAM_ERROR
      ("The type of " +:+ fieldStr +:+ " must be number.") fieldRef
      ('(_, value) ← napi (napi_get_value_int32 field); mret (default fieldRef value)).

(** [napi_util.cpp:164-197] [NapiUtil::JsObjectToUint32] *)
Definition JsObjectToUint32 (object : Z) (fieldStr : string) (fieldRef : Z) : ST E (bool * Z) :=
  '(status, hasProperty) ← napi (napi_has_named_property object (c_str fieldStr));
  if negb (status =? napi_ok) || negb (default false hasProperty) then mret (false, fieldRef)
  else
    '(status, field) ← napi (napi_get_named_property object (c_str fieldStr));
    NAPI_CHECK_RETURN_FALSE status fieldRef
      ('(status, valueType) ← napi (napi_typeof (default nullptr field));
       NAPI_CHECK_RETURN_FALSE status fieldRef
         (USB_ASSERT_RETURN_FALSE (is_type (default any_type valueType) napi_number) OHEC_COMMON_PARAM_ERROR
            ("The type of " +:+ fieldStr +:+ " must be number.") fieldRef
            ('(status, value) ← napi (napi_get_value_uint32 (default nullptr field));
             let fieldRef := default fieldRef value in
             NAPI_CHECK_RETURN_FALSE status fieldRef (mret (true, fieldRef))))).

(** [napi_util.cpp:131-162] [NapiUtil::JsObjectToUint] the same steps without a result *)
Definition JsObjectToUint (object : Z) (fieldStr : string) (fieldRef : Z) : ST E Z :=
  snd <$> JsObjectToUint32 object fieldStr fieldRef.

(** [napi_util.cpp:199-211] [NapiUtil::JsObjectToUint8] *)
Definition JsObjectToUint8 (object : Z) (fieldStr : string) (fieldRef : Z) : ST E (bool * Z) :=
  tmpValue ← JsObjectToUint object fieldStr UINT32_MAX;
  mret (if SCHAR_MAX <? tmpValue then (false, fieldRef) else (true, u8 tmpValue)).

(** The buffer of a typed array: its address, its length and the offset of the array. *)
Record Uint8Buffer := mk_Uint8Buffer { uint8Buffer : Z; bufferSize : Z; offset : Z }.
Definition no_buffer : Uint8Buffer := mk_Uint8Buffer nullptr 0 0.

(** [napi_util.cpp:239-261] [NapiUtil::JsUint8ArrayParseReserveZeroBuffer] *)
Definition JsUint8ArrayParseReserveZeroBuffer (object : Z) (b : Uint8Buffer) : ST E (bool * Uint8Buffer) :=
  '(status, isTypedArray) ← napi (napi_is_typedarray object);
  let isTypedArray := default false isTypedArray in
  if negb (status =? napi_ok) || negb isTypedArray then
    USB_ASSERT_RETURN_FALSE isTypedArray OHEC_COMMON_PARAM_ERROR "The type of buffer must be TypedArray." b
      (mret (false, b))
  else
    '(infoStatus, info) ← napi (napi_get_typedarray_info object);
    let b := from_option (λ i, mk_Uint8Buffer (ta_data i) (ta_length i) (ta_offset i)) b info in
    NAPI_CHECK_RETURN_FALSE infoStatus b
      (USB_ASSERT_RETURN_FALSE (is_array_type (from_option ta_type any_array_type info) napi_uint8_array)
         OHEC_COMMON_PARAM_ERROR "The type of buffer must be Uint8Array." b
         (mret (true, b))).

(** [napi_util.cpp:213-237] [NapiUtil::JsUint8ArrayParse] *)
Definition JsUint8ArrayParse (object : Z) (b : Uint8Buffer) : ST E (bool * Uint8Buffer) :=
  '(ok, b) ← JsUint8ArrayParseReserveZeroBuffer object b;
  if negb ok then mret (false, b)
  else
    USB_ASSERT_RETURN_FALSE (negb (bufferSize b =? 0)) OHEC_COMMON_PARAM_ERROR
      "The size of buffer must be a positive number." b
      (mret (true, b)).

(** ** To JavaScript *)

(** [napi_util.cpp:263-277] [NapiUtil::Uint8ArrayToJsValue] [memcpy_s] fails on a null pointer and on an empty destination *)
Definition Uint8ArrayToJsValue (data : list Z) (size result : Z) : ST E Z :=
  '(_, buffer) ← napi (napi_create_arraybuffer size);
  let '(nativeArraybuffer, nativeValue) := default (nullptr, nullptr) buffer in
  if (nativeArraybuffer =? nullptr) || (size =? 0) then mret result
  else
    modify (poke nativeArraybuffer (take (Z.to_nat size) data)) ;;
    '(_, array) ← napi (napi_create_typedarray napi_uint8_array size nativeValue 0);
    mret (default result array).

(** [napi_util.cpp:279-284] [NapiUtil::SetValueUtf8String] *)
Definition SetValueUtf8String (fieldStr str : string) (result : Z) : ST E unit :=
  '(_, value) ← napi (napi_create_string_utf8 (c_str str));
  napi (napi_set_named_property result (c_str fieldStr) (default any_value value)) ;; mret tt.

(** [napi_util.cpp:286-291] [NapiUtil::SetValueInt32] *)
Definition SetValueInt32 (fieldStr : string) (intValue result : Z) : ST E unit :=
  '(_, value) ← napi (napi_create_int32 intValue);
  napi (napi_set_named_property result (c_str fieldStr) (default any_value value)) ;; mret tt.

(** [napi_util.cpp:293-307] [NapiUtil::SetValueUint32] *)
Definition SetValueUint32 (fieldStr : string) (uintValue result : Z) : ST E unit :=
  '(status, value) ← napi (napi_create_uint32 uintValue);
  if negb (status =? napi_ok) then mret tt
  else napi (napi_set_named_property result (c_str fieldStr) (default nullptr value)) ;; mret tt.

(** [napi_util.cpp:309-314] [NapiUtil::SetValueBool] *)
Definition SetValueBool (fieldStr : string) (boolValue : bool) (result : Z) : ST E unit :=
  '(_, value) ← napi (napi_get_boolean boolValue);
  napi (napi_set_named_property result (c_str fieldStr) (default any_value value)) ;; mret tt.
End Napi.
