(* ===== verification/JsValues.v ===== *)
(** * USB objects as JavaScript values

    The first part of [interfaces/kits/js/napi/src/usb_info.cpp]: what makes a JavaScript
    object of a device, a pipe or an accessory, and what reads one back.

    The object that a function is to fill in is the result of its definition.  A parser that
    finds a value of the wrong type throws and goes on with what its variable held. *)

From S2P Require Import Prelude UsbErrors UsbTypes Napi.
From S2P Require Import HostDriver HostEvents HostPolicy ServiceHost ServiceSerial ServiceGate ServicePorts Client.

#[local] Set Default Goal Selector "!".

(** [usb_info.cpp:60-62] [DEFAULT_DESCRIPTION_SIZE] the sizes of the texts *)
Definition STR_DEFAULT_SIZE : Z := 256.
Definition DEFAULT_DESCRIPTION_SIZE : Z := 32.
Definition DEFAULT_ACCESSORY_DESCRIPTION_SIZE : Z := 256.

Section JsValues.
Context {E : Type} `{NA : Napi E} `{UN : Uninitialised} `{EM : ErrorMessages}.

(** An object or an array that the code creates without looking at the status. *)
Definition create_object (obj : Z) : ST E Z :=
  '(_, value) ← napi napi_create_object; mret (default obj value).
Definition create_array (arr : Z) : ST E Z :=
  '(_, value) ← napi napi_create_array; mret (default arr value).
Definition set_named_property (object : Z) (name : string) (value : Z) : ST E unit :=
  napi (napi_set_named_property object name value) ;; mret tt.
Definition set_element (object index value : Z) : ST E unit :=
  napi (napi_set_element object index value) ;; mret tt.
Definition get_boolean (b : bool) (old : Z) : ST E Z :=
  '(_, value) ← napi (napi_get_boolean b); mret (default old value).
Definition create_int32 (v old : Z) : ST E Z :=
  '(_, value) ← napi (napi_create_int32 v); mret (default old value).
Definition create_string (s : string) (old : Z) : ST E Z :=
  '(_, value) ← napi (napi_create_string_utf8 s); mret (default old value).
Definition get_undefined (old : Z) : ST E Z :=
  '(_, value) ← napi napi_get_undefined; mret (default old value).

(** ** To JavaScript *)

(** [usb_info.cpp:144-149] [CreateUsbDevicePipe] *)
Definition CreateUsbDevicePipe (obj : Z) (pipe : USBDevicePipe) : ST E Z :=
  obj ← create_object obj;
  SetValueInt32 "busNum" (GetBusNum pipe) obj ;;
  SetValueInt32 "devAddress" (GetDevAddr pipe) obj ;;
  mret obj.

(** [usb_info.cpp:151-155] [CreatAccessoryHandle] *)
Definition CreatAccessoryHandle (obj fd : Z) : ST E Z :=
  obj ← create_object obj;
  SetValueInt32 "accessoryFd" fd obj ;;
  mret obj.

(** [usb_info.cpp:157-168] [CtoJSUsbEndpoint] *)
Definition CtoJSUsbEndpoint (obj : Z) (usbEndpoint : USBEndpoint.t) : ST E Z :=
  obj ← create_object obj;
  SetValueUint32 "address" (USBEndpoint.GetAddress usbEndpoint) obj ;;
  SetValueUint32 "attributes" (USBEndpoint.GetAttributes usbEndpoint) obj ;;
  SetValueInt32 "interval" (USBEndpoint.GetInterval usbEndpoint) obj ;;
  SetValueInt32 "maxPacketSize" (USBEndpoint.GetMaxPacketSize usbEndpoint) obj ;;
  SetValueUint32 "direction" (USBEndpoint.GetDirection usbEndpoint) obj ;;
  SetValueUint32 "number" (USBEndpoint.GetEndpointNumber usbEndpoint) obj ;;
  SetValueUint32 "type" (USBEndpoint.GetType usbEndpoint) obj ;;
  SetValueInt32 "interfaceId" (USBEndpoint.GetInterfaceId usbEndpoint) obj ;;
  mret obj.

(** The loop over the endpoints; [false] when one is missing, after which the function
    returns without setting them. *)
Fixpoint set_endpoints (usbInterface : UsbInterface.t) (arr : Z) (indices : list Z) : ST E bool :=
  match indices with
  | [] => mret true
  | i :: indices =>
      match UsbInterface.GetEndpoint i usbInterface with
      | None => mret false
      | Some usbEndpoint =>
          objTmp ← CtoJSUsbEndpoint any_value usbEndpoint;
          set_element arr i objTmp ;;
          set_endpoints usbInterface arr indices
      end
  end.

(** [usb_info.cpp:170-194] [CtoJSUsbInterface] *)
Definition CtoJSUsbInterface (obj : Z) (usbInterface : UsbInterface.t) : ST E Z :=
  obj ← create_object obj;
  SetValueInt32 "id" (UsbInterface.GetId usbInterface) obj ;;
  SetValueInt32 "protocol" (UsbInterface.GetProtocol usbInterface) obj ;;
  SetValueInt32 "clazz" (UsbInterface.GetClass usbInterface) obj ;;
  SetValueInt32 "subClass" (UsbInterface.GetSubClass usbInterface) obj ;;
  SetValueInt32 "alternateSetting" (UsbInterface.GetAlternateSetting usbInterface) obj ;;
  SetValueUtf8String "name" (UsbInterface.GetName usbInterface) obj ;;
  arr ← create_array any_value;
  complete ← set_endpoints usbInterface arr (seqZ 0 (UsbInterface.GetEndpointCount usbInterface));
  if negb complete then mret obj
  else set_named_property obj "endpoints" arr ;; mret obj.

(** [usb_info.cpp:196-215] [CtoJSUsbConfig] *)
Definition CtoJSUsbConfig (obj : Z) (usbConfig : USBConfig.t) : ST E Z :=
  obj ← create_object obj;
  SetValueInt32 "id" (USBConfig.GetId usbConfig) obj ;;
  SetValueUint32 "attributes" (USBConfig.GetAttributes usbConfig) obj ;;
  SetValueBool "isRemoteWakeup" (USBConfig.IsRemoteWakeup usbConfig) obj ;;
  SetValueBool "isSelfPowered" (USBConfig.IsSelfPowered usbConfig) obj ;;
  SetValueInt32 "maxPower" (USBConfig.GetMaxPower usbConfig) obj ;;
  SetValueUtf8String "name" (USBConfig.GetName usbConfig) obj ;;
  arr ← create_array any_value;
  mfor (seqZ 0 (USBConfig.GetInterfaceCount usbConfig)) (λ i,
    let usbInterface := default UsbInterface.default (USBConfig.GetInterface i usbConfig) in
    objTmp ← CtoJSUsbInterface any_value usbInterface;
    set_element arr i objTmp) ;;
  set_named_property obj "interfaces" arr ;;
  mret obj.

(** [usb_info.cpp:217-242] [CtoJSUsbDevice] *)
Definition CtoJSUsbDevice (obj : Z) (usbDevice : UsbDevice.t) : ST E Z :=
  obj ← create_object obj;
  SetValueUtf8String "name" (UsbDevice.GetName usbDevice) obj ;;
  SetValueUtf8String "serial" (UsbDevice.GetmSerial usbDevice) obj ;;
  SetValueUtf8String "manufacturerName" (UsbDevice.GetManufacturerName usbDevice) obj ;;
  SetValueUtf8String "productName" (UsbDevice.GetProductName usbDevice) obj ;;
  SetValueUtf8String "version" (UsbDevice.GetVersion usbDevice) obj ;;
  SetValueInt32 "vendorId" (UsbDevice.GetVendorId usbDevice) obj ;;
  SetValueInt32 "productId" (UsbDevice.GetProductId usbDevice) obj ;;
  SetValueInt32 "clazz" (UsbDevice.GetClass usbDevice) obj ;;
  SetValueInt32 "subClass" (UsbDevice.GetSubclass usbDevice) obj ;;
  SetValueInt32 "protocol" (UsbDevice.GetProtocol usbDevice) obj ;;
  SetValueInt32 "devAddress" (UsbDevice.GetDevAddr usbDevice) obj ;;
  SetValueInt32 "busNum" (UsbDevice.GetBusNum usbDevice) obj ;;
  arr ← create_array any_value;
  mfor (seqZ 0 (UsbDevice.GetConfigCount usbDevice)) (λ i,
    let usbConfig := default USBConfig.default (UsbDevice.GetConfig i usbDevice) in
    objTmp ← CtoJSUsbConfig any_value usbConfig;
    set_element arr i objTmp) ;;
  set_named_property obj "configs" arr ;;
  mret obj.

(** [usb_info.cpp:244-252] [CtoJSUSBAccessory] *)
Definition CtoJSUSBAccessory (obj : Z) (accessory : USBAccessory.t) : ST E Z :=
  obj ← create_object obj;
  SetValueUtf8String "manufacturer" (USBAccessory.GetManufacturer accessory) obj ;;
  SetValueUtf8String "product" (USBAccessory.GetProduct accessory) obj ;;
  SetValueUtf8String "description" (USBAccessory.GetDescription accessory) obj ;;
  SetValueUtf8String "version" (USBAccessory.GetVersion accessory) obj ;;
  SetValueUtf8String "serialNumber" (USBAccessory.GetSerialNumber accessory) obj ;;
  mret obj.

(** ** From JavaScript *)

(** [usb_info.cpp:118-131] [ParseUsbDevicePipe] *)
Definition ParseUsbDevicePipe (obj : Z) (pipe : USBDevicePipe) : ST E USBDevicePipe :=
  valueType ← type_of_value obj any_type;
  USB_ASSERT_RETURN_VOID (is_type valueType napi_object) OHEC_COMMON_PARAM_ERROR
    "The type of pipe must be USBDevicePipe." pipe
    (busNum ← JsObjectToInt obj "busNum" 0;
     let pipe := SetBusNum (u8 busNum) pipe in
     devAddr ← JsObjectToInt obj "devAddress" 0;
     mret (SetDevAddr (u8 devAddr) pipe)).

(** [usb_info.cpp:258-280] [ParseEndpointObj] *)
Definition ParseEndpointObj (endpointObj : Z) (ep : USBEndpoint.t) : ST E USBEndpoint.t :=
  address ← JsObjectToInt endpointObj "address" 0;
  attributes ← JsObjectToInt endpointObj "attributes" 0;
  interval ← JsObjectToInt endpointObj "interval" 0;
  maxPacketSize ← JsObjectToInt endpointObj "maxPacketSize" 0;
  direction ← JsObjectToInt endpointObj "direction" 0;
  USB_ASSERT_RETURN_VOID
    ((direction =? USB_ENDPOINT_DIR_IN) || (direction =? USB_ENDPOINT_DIR_OUT)) OHEC_COMMON_PARAM_ERROR
    "The interface should have the endpoints property." ep
    (number ← JsObjectToInt endpointObj "number" 0;
     type ← JsObjectToInt endpointObj "type" 0;
     interfaceId ← JsObjectToInt endpointObj "interfaceId" 0;
     mret (USBEndpoint.SetInterfaceId (u8 interfaceId)
             (USBEndpoint.make (u32 address) (u32 attributes) (u32 interval) (u32 maxPacketSize)))).

(** The elements of an array, each read from its default: [false] when the engine does not
    give one of them. *)
Fixpoint parse_elements {A} (parse : Z → ST E A) (array : Z) (indices : list Z) (acc : list A)
    : ST E (bool * list A) :=
  match indices with
  | [] => mret (true, acc)
  | i :: indices =>
      '(status, element) ← napi (napi_get_element array i);
      NAPI_CHECK_RETURN_FALSE status acc
        (a ← parse (default any_value element);
         parse_elements parse array indices (acc ++ [a]))
  end.

(** The array that a property holds: the part that [ParseEndpointsObjs] and
    [ParseInterfacesObjs] share but for the messages. *)
Definition parse_array {A} (parse : Z → ST E A) (object : Z) (field missing ill_typed : string) (acc : list A)
    : ST E (bool * list A) :=
  '(isGetObjSuccess, objs) ← JsObjectGetProperty object field any_value;
  USB_ASSERT_RETURN_FALSE isGetObjSuccess OHEC_COMMON_PARAM_ERROR missing acc
    ('(status, result) ← napi (napi_is_array objs);
     NAPI_CHECK_RETURN_FALSE status acc
       (USB_ASSERT_RETURN_FALSE (default false result) OHEC_COMMON_PARAM_ERROR ill_typed acc
          ('(status, count) ← napi (napi_get_array_length objs);
           NAPI_CHECK_RETURN_FALSE status acc
             (parse_elements parse objs (seqZ 0 (default 0 count)) acc)))).

(** [usb_info.cpp:282-305] [ParseEndpointsObjs] *)
Definition ParseEndpointsObjs (interfaceObj : Z) (eps : list USBEndpoint.t) : ST E (bool * list USBEndpoint.t) :=
  parse_array (λ endpointObj, ParseEndpointObj endpointObj USBEndpoint.default) interfaceObj "endpoints"
    "The interface should have the endpoints property." "The type of endpoints must be array." eps.

(** [usb_info.cpp:390-413] [ParseInterfaceObj] *)
Definition ParseInterfaceObj (interfaceObj : Z) (interface : UsbInterface.t) : ST E UsbInterface.t :=
  id ← JsObjectToInt interfaceObj "id" 0;
  protocol ← JsObjectToInt interfaceObj "protocol" 0;
  clzz ← JsObjectToInt interfaceObj "clazz" 0;
  subClass ← JsObjectToInt interfaceObj "subClass" 0;
  alternateSetting ← JsObjectToInt interfaceObj "alternateSetting" 0;
  name ← JsObjectToString interfaceObj "name" DEFAULT_DESCRIPTION_SIZE "";
  '(ret, eps) ← ParseEndpointsObjs interfaceObj [];
  mret (if negb ret then interface
        else UsbInterface.make id protocol clzz subClass alternateSetting name eps).

(** [usb_info.cpp:415-440] [ParseInterfacesObjs] *)
Definition ParseInterfacesObjs (configObj : Z) (interfaces : list UsbInterface.t) : ST E (bool * list UsbInterface.t) :=
  parse_array (λ interfaceObj, ParseInterfaceObj interfaceObj UsbInterface.default) configObj "interfaces"
    "The config should have the interfaces property." "The type of interfaces must be array." interfaces.

(** [usb_info.cpp:442-465] [ParseConfigObj] *)
Definition ParseConfigObj (configObj : Z) (config : USBConfig.t) : ST E USBConfig.t :=
  id ← JsObjectToInt configObj "id" 0;
  attributes ← JsObjectToInt configObj "attributes" 0;
  maxPower ← JsObjectToInt configObj "maxPower" 0;
  name ← JsObjectToString configObj "name" DEFAULT_DESCRIPTION_SIZE "";
  isRemoteWakeup ← JsObjectToBool configObj "isRemoteWakeup" false;
  isSelfPowered ← JsObjectToBool configObj "isSelfPowered" false;
  '(ret, interfaces) ← ParseInterfacesObjs configObj [];
  mret (if negb ret then config
        else USBConfig.make (u32 id) (u32 attributes) name (u32 maxPower) interfaces).

(** The loop of [ParseConfigsObjs], which does not look at the status. *)
Fixpoint parse_configs (configsObj : Z) (indices : list Z) (configs : list USBConfig.t)
    : ST E (list USBConfig.t) :=
  match indices with
  | [] => mret configs
  | i :: indices =>
      '(_, configObj) ← napi (napi_get_element configsObj i);
      config ← ParseConfigObj (default any_value configObj) USBConfig.default;
      parse_configs configsObj indices (configs ++ [config])
  end.

(** [usb_info.cpp:467-487] [ParseConfigsObjs] *)
Definition ParseConfigsObjs (deviceObj : Z) (configs : list USBConfig.t) : ST E (list USBConfig.t) :=
  '(hasProperty, configsObj) ← JsObjectGetProperty deviceObj "configs" any_value;
  USB_ASSERT_RETURN_VOID hasProperty OHEC_COMMON_PARAM_ERROR
    "The device should have the configs property." configs
    (valueType ← type_of_value configsObj any_type;
     USB_ASSERT_RETURN_VOID (is_type valueType napi_object) OHEC_COMMON_PARAM_ERROR
       "The type of configs must be object." configs
       ('(_, configCount) ← napi (napi_get_array_length configsObj);
        parse_configs configsObj (seqZ 0 (default 0 configCount)) configs)).

(** [usb_info.cpp:489-519] [ParseDeviceObj] *)
Definition ParseDeviceObj (deviceObj : Z) (dev : UsbDevice.t) : ST E UsbDevice.t :=
  name ← JsObjectToString deviceObj "name" DEFAULT_DESCRIPTION_SIZE "";
  manufacturerName ← JsObjectToString deviceObj "manufacturerName" DEFAULT_DESCRIPTION_SIZE "";
  productName ← JsObjectToString deviceObj "productName" DEFAULT_DESCRIPTION_SIZE "";
  version ← JsObjectToString deviceObj "version" DEFAULT_DESCRIPTION_SIZE "";
  serial ← JsObjectToString deviceObj "serial" DEFAULT_DESCRIPTION_SIZE "";
  devAddr ← JsObjectToInt deviceObj "devAddress" 0;
  busNum ← JsObjectToInt deviceObj "busNum" 0;
  vendorId ← JsObjectToInt deviceObj "vendorId" 0;
  productId ← JsObjectToInt deviceObj "productId" 0;
  clazz ← JsObjectToInt deviceObj "clazz" 0;
  subClass ← JsObjectToInt deviceObj "subClass" 0;
  protocol ← JsObjectToInt deviceObj "protocol" 0;
  configs ← ParseConfigsObjs deviceObj [];
  mret (UsbDevice.make name manufacturerName productName version (u8 devAddr) (u8 busNum) vendorId
          productId clazz subClass protocol configs).

(** [usb_info.cpp:521-534] [ParseAccessoryObj] *)
Definition ParseAccessoryObj (accessoryObj : Z) (accessory : USBAccessory.t) : ST E USBAccessory.t :=
  manufacturer ← JsObjectToString accessoryObj "manufacturer" DEFAULT_ACCESSORY_DESCRIPTION_SIZE "";
  product ← JsObjectToString accessoryObj "product" DEFAULT_ACCESSORY_DESCRIPTION_SIZE "";
  description ← JsObjectToString accessoryObj "description" DEFAULT_ACCESSORY_DESCRIPTION_SIZE "";
  version ← JsObjectToString accessoryObj "version" DEFAULT_ACCESSORY_DESCRIPTION_SIZE "";
  serialNumber ← JsObjectToString accessoryObj "serialNumber" DEFAULT_ACCESSORY_DESCRIPTION_SIZE "";
  mret (USBAccessory.make manufacturer product description version serialNumber).

(** [usb_info.cpp:307-315] [PipeControlParam] *)
Record PipeControlParam := mk_PipeControlParam {
  request : Z; target : Z; reqType : Z; value : Z; index : Z; data : Z; dataLength : Z }.

(** [usb_info.cpp:317-347] [ParsePipeControlParam] the result of the buffer's parser is not looked at *)
Definition ParsePipeControlParam (jsObj : Z) (controlParam : PipeControlParam) : ST E (bool * PipeControlParam) :=
  request ← JsObjectToInt jsObj "request" 0;
  target ← JsObjectToInt jsObj "target" 0;
  reqType ← JsObjectToUint jsObj "reqType" 0;
  value ← JsObjectToInt jsObj "value" 0;
  index ← JsObjectToInt jsObj "index" 0;
  '(hasProperty, dataValue) ← JsObjectGetProperty jsObj "data" any_value;
  USB_ASSERT_RETURN_FALSE hasProperty OHEC_COMMON_PARAM_ERROR
    "The controlParam should have the data property." controlParam
    ('(_, b) ← JsUint8ArrayParseReserveZeroBuffer dataValue no_buffer;
     mret (true, mk_PipeControlParam request target reqType value index (uint8Buffer b) (bufferSize b))).

(** [usb_info.cpp:349-357] [UsbPipeControlParam] *)
Record UsbPipeControlParam := mk_UsbPipeControlParam {
  u_reqType : Z; u_request : Z; u_value : Z; u_index : Z; u_length : Z; u_data : Z; u_dataLength : Z }.

(** [usb_info.cpp:359-388] [ParseUsbPipeControlParam] *)
Definition ParseUsbPipeControlParam (jsObj : Z) (controlParam : UsbPipeControlParam) : ST E UsbPipeControlParam :=
  reqType ← JsObjectToUint jsObj "bmRequestType" 0;
  request ← JsObjectToInt jsObj "bRequest" 0;
  value ← JsObjectToInt jsObj "wValue" 0;
  index ← JsObjectToInt jsObj "wIndex" 0;
  length ← JsObjectToInt jsObj "wLength" 0;
  '(hasProperty, dataValue) ← JsObjectGetProperty jsObj "data" any_value;
  USB_ASSERT_RETURN_VOID hasProperty OHEC_COMMON_PARAM_ERROR
    "The controlParam should have the data property." controlParam
    ('(_, b) ← JsUint8ArrayParseReserveZeroBuffer dataValue no_buffer;
     mret (mk_UsbPipeControlParam reqType request value index length (uint8Buffer b) (bufferSize b))).
End JsValues.
