(* ===== verification/JsLaws.v ===== *)
(** * What an engine does, and what the bindings make of it

    The documented behaviour of the operations of Node-API ([effect], over the part of the
    engine that can be observed, a [view]), as the class [NapiLaws]; a calculus for the
    bindings' programs on top of it ([wp]); and the theorems about the conversions of
    [JsValues]: what they build has the shape of a tree ([denotes]), and what they read of
    such a tree. *)

From S2P Require Import Prelude Text UsbErrors UsbTypes Napi.
From S2P Require Import HostDriver ServiceHost Client JsValues.

#[local] Set Default Goal Selector "!".

(** ** The view *)

(** A value: a number by its integral part; an object by its identity; a typed array by its
    type, its length, its data and its offset; an array buffer by its length and data; a
    promise by its deferred. *)
Inductive jsval :=
  | JUndefined | JNull | JBoolean (b : bool) | JNumber (n : Z) | JString (s : string)
  | JRef (o : Z) | JFunction (f : Z) | JTypedArray (type : napi_typedarray_type) (len data offset : Z)
  | JArrayBuffer (len data : Z) | JPromise (deferred : Z).

#[global] Instance jsval_eq_dec : EqDecision jsval.
Proof. solve_decision. Defined.

(** An object of the heap. *)
Inductive jsobj :=
  | Plain (props : gmap string jsval)
  | Array (elements : list jsval).

Record view := mk_view {
  handles : gmap Z jsval;
  heap : gmap Z jsobj;
  thrown : option jsval;
  (** a promise that is pending, or how it was settled: fulfilled or rejected, with what *)
  deferreds : gmap Z (option (bool * jsval));
  works : gset Z;
  (** the arguments of the calls that the engine has made *)
  frames : gmap Z (list jsval);
}.

Definition set_handles m g := mk_view m (heap g) (thrown g) (deferreds g) (works g) (frames g).
Definition set_heap m g := mk_view (handles g) m (thrown g) (deferreds g) (works g) (frames g).
Definition set_thrown v g := mk_view (handles g) (heap g) v (deferreds g) (works g) (frames g).
Definition set_deferreds m g := mk_view (handles g) (heap g) (thrown g) m (works g) (frames g).
Definition set_works m g := mk_view (handles g) (heap g) (thrown g) (deferreds g) m (frames g).

Definition type_of (v : jsval) : napi_valuetype :=
  match v with
  | JUndefined => napi_undefined | JNull => napi_null | JBoolean _ => napi_boolean
  | JNumber _ => napi_number | JString _ => napi_string | JFunction _ => napi_function
  | JRef _ | JTypedArray _ _ _ _ | JArrayBuffer _ _ | JPromise _ => napi_object
  end.

Definition plain_at (g : view) (h : Z) : option (Z * gmap string jsval) :=
  v ← handles g !! h;
  match v with
  | JRef o => ob ← heap g !! o; match ob with Plain props => Some (o, props) | Array _ => None end
  | _ => None
  end.
Definition array_at (g : view) (h : Z) : option (Z * list jsval) :=
  v ← handles g !! h;
  match v with
  | JRef o => ob ← heap g !! o; match ob with Array l => Some (o, l) | Plain _ => None end
  | _ => None
  end.

(** A new handle to a value. *)
Definition new_handle (v : jsval) (g : view) (h : Z) (g' : view) : Prop :=
  h ≠ nullptr ∧ handles g ⊆ handles g' ∧ handles g' !! h = Some v ∧ g' = set_handles (handles g') g.

(** The engine's coding of texts: UTF-8 with replacement, and cutting at a size. *)
Class TextCoding := {
  encode : string → string;
  cut : Z → string → string;
}.
(** Seven-bit texts are coded as they are. *)
Definition ascii_text (s : string) : Prop :=
  Forall (λ c, (Ascii.nat_of_ascii c < 128)%nat) (String.list_ascii_of_string s).

(** The effect of an operation on a view: what it writes, and the view after it.  [None]:
    the handle is not what the operation is for, or the operation runs code of the
    application.  The names that the bindings look up are not properties of
    [Object.prototype]. *)
Definition effect `{TextCoding} {X : Set} (op : NapiOp X) (g : view) : option (X → view → Prop) :=
  match op in NapiOp X return option (X → view → Prop) with
  | napi_get_cb_info info argc =>
      args ← frames g !! info;
      Some (λ r g', r.1 = Z.of_nat (length args) ∧
              Forall2 (λ h v, handles g' !! h = Some v) r.2
                (take (Z.to_nat argc) (args ++ replicate (Z.to_nat argc) JUndefined)) ∧
              handles g ⊆ handles g' ∧ g' = set_handles (handles g') g)
  | napi_typeof h => v ← handles g !! h; Some (λ t g', t = type_of v ∧ g' = g)
  | napi_has_named_property h name =>
      p ← plain_at g h; Some (λ b g', b = bool_decide (is_Some (p.2 !! name)) ∧ g' = g)
  | napi_get_named_property h name =>
      p ← plain_at g h; Some (new_handle (default JUndefined (p.2 !! name)) g)
  | napi_is_array h =>
      v ← handles g !! h;
      Some (λ b g', b = opt_is_some (array_at g h) ∧ g' = g)
  | napi_get_array_length h => p ← array_at g h; Some (λ n g', n = Z.of_nat (length p.2) ∧ g' = g)
  | napi_get_element h i =>
      p ← array_at g h; Some (new_handle (default JUndefined (p.2 !! Z.to_nat i)) g)
  | napi_get_value_string_utf8 h size =>
      match handles g !! h with
      | Some (JString s) => Some (λ r g', r = cut (size - 1) s ∧ g' = g)
      | _ => None
      end
  | napi_get_value_bool h =>
      match handles g !! h with Some (JBoolean b) => Some (λ r g', r = b ∧ g' = g) | _ => None end
  | napi_get_value_int32 h =>
      match handles g !! h with Some (JNumber n) => Some (λ r g', r = i32 n ∧ g' = g) | _ => None end
  | napi_get_value_uint32 h =>
      match handles g !! h with Some (JNumber n) => Some (λ r g', r = u32 n ∧ g' = g) | _ => None end
  | napi_is_typedarray h =>
      v ← handles g !! h;
      Some (λ b g', b = match v with JTypedArray _ _ _ _ => true | _ => false end ∧ g' = g)
  | napi_get_typedarray_info h =>
      match handles g !! h with
      | Some (JTypedArray t n d o) =>
          Some (λ i g', ta_type i = t ∧ ta_length i = n ∧ ta_data i = d ∧ ta_offset i = o ∧
                  handles g ⊆ handles g' ∧ g' = set_handles (handles g') g)
      | _ => None
      end
  | napi_create_object =>
      Some (λ h g', ∃ o, heap g !! o = None ∧ new_handle (JRef o) (set_heap (<[o:=Plain ∅]> (heap g)) g) h g')
  | napi_create_array =>
      Some (λ h g', ∃ o, heap g !! o = None ∧ new_handle (JRef o) (set_heap (<[o:=Array []]> (heap g)) g) h g')
  | napi_create_string_utf8 s => Some (new_handle (JString (encode s)) g)
  | napi_create_int32 n => Some (new_handle (JNumber n) g)
  | napi_create_uint32 n => Some (new_handle (JNumber n) g)
  | napi_get_boolean b => Some (new_handle (JBoolean b) g)
  | napi_get_undefined => Some (new_handle JUndefined g)
  | napi_create_error _ message =>
      v ← handles g !! message;
      Some (λ h g', ∃ o, heap g !! o = None ∧
              new_handle (JRef o) (set_heap (<[o:=Plain {["message" := v]}]> (heap g)) g) h g')
  | napi_create_arraybuffer n => Some (λ r g', r.1 ≠ nullptr ∧ new_handle (JArrayBuffer n r.1) g r.2 g')
  | napi_create_typedarray t n h o =>
      match handles g !! h with
      | Some (JArrayBuffer m d) =>
          if o + n <=? m then Some (new_handle (JTypedArray t n (d + o) o) g) else None
      | _ => None
      end
  | napi_set_named_property h name w =>
      p ← plain_at g h; v ← handles g !! w;
      Some (λ _ g', g' = set_heap (<[p.1:=Plain (<[name:=v]> p.2)]> (heap g)) g)
  | napi_set_element h i w =>
      p ← array_at g h; v ← handles g !! w;
      if Z.of_nat (length p.2) =? i
      then Some (λ _ g', g' = set_heap (<[p.1:=Array (p.2 ++ [v])]> (heap g)) g) else None
  | napi_throw h => v ← handles g !! h; Some (λ _ g', g' = set_thrown (Some v) g)
  | napi_create_promise =>
      Some (λ r g', r.1 ≠ nullptr ∧ deferreds g !! r.1 = None ∧
              new_handle (JPromise r.1) (set_deferreds (<[r.1:=None]> (deferreds g)) g) r.2 g')
  | napi_resolve_deferred d h =>
      v ← handles g !! h;
      if bool_decide (deferreds g !! d = Some None)
      then Some (λ _ g', g' = set_deferreds (<[d:=Some (true, v)]> (deferreds g)) g) else None
  | napi_reject_deferred d h =>
      v ← handles g !! h;
      if bool_decide (deferreds g !! d = Some None)
      then Some (λ _ g', g' = set_deferreds (<[d:=Some (false, v)]> (deferreds g)) g) else None
  | napi_create_async_work _ =>
      Some (λ w g', w ≠ nullptr ∧ (w ∉ works g) ∧ g' = set_works ({[w]} ∪ works g) g)
  | napi_queue_async_work w => if bool_decide (w ∈ works g) then Some (λ _ g', g' = g) else None
  | napi_delete_async_work w =>
      if bool_decide (w ∈ works g) then Some (λ _ g', g' = set_works (works g ∖ {[w]}) g) else None
  | napi_define_properties _ _ | get_and_throw_last_error | napi_create_reference _ _
  | napi_get_reference_value _ | napi_call_function _ _ _ | napi_open_handle_scope
  | napi_close_handle_scope _ | napi_send_event => None
  end.

(** An engine that does what Node-API says, while no exception is pending. *)
Class NapiLaws (E : Type) `{NA : Napi E} `{TC : TextCoding} := {
  look : E → view;
  napi_effect {X : Set} (op : NapiOp X) e P :
    thrown (look e) = None → effect op (look e) = Some P →
    ∃ x e', napi op e = ((napi_ok, Some x), e') ∧ P x (look e');
  look_poke p l e : look (poke p l e) = look e;
  peek_length p n e : 0 <= n → Z.of_nat (length (peek p n e)) = n;
  encode_ascii s : ascii_text s → encode s = s;
  cut_short n s : Z.of_nat (String.length s) ≤ n → cut n s = s;
  cut_length n s : 0 <= n → Z.of_nat (String.length (cut n s)) ≤ n;
}.

(** ** Programs over an engine *)

Section Calculus.
Context {E : Type} `{NA : Napi E} `{TC : TextCoding} `{NL : !NapiLaws E}.
Context `{UN : Uninitialised} `{EM : ErrorMessages}.
Implicit Types (e : E) (g : view).

(** [wp m Q e]: the program's result and the engine after it satisfy [Q]. *)
Definition wp {A} (m : ST E A) (Q : A → E → Prop) (e : E) : Prop := Q (m e).1 (m e).2.

Lemma wp_ret {A} (a : A) (Q : A → E → Prop) e : Q a e → wp (mret a) Q e.
Proof. done. Qed.
Lemma wp_bind {A B} (m : ST E A) (f : A → ST E B) Q e :
  wp m (λ a, wp (f a) Q) e → wp (m ≫= f) Q e.
Proof. unfold wp. by rewrite bind_unfold. Qed.
Lemma wp_mono {A} (m : ST E A) (P Q : A → E → Prop) e :
  wp m P e → (∀ a e', P a e' → Q a e') → wp m Q e.
Proof. unfold wp. auto. Qed.

Lemma wp_eq {A} (m m' : ST E A) (Q : A → E → Prop) e : m e = m' e → wp m' Q e → wp m Q e.
Proof. unfold wp. by intros ->. Qed.

(** An operation whose effect is known. *)
Lemma wp_op {X : Set} (op : NapiOp X) P (Q : Z * option X → E → Prop) e :
  thrown (look e) = None → effect op (look e) = Some P →
  (∀ x e', P x (look e') → Q (napi_ok, Some x) e') → wp (napi op) Q e.
Proof.
  intros He HP HQ. destruct (napi_effect op e P He HP) as (x & e' & Hrun & Hx).
  unfold wp. rewrite Hrun. by apply HQ.
Qed.

Lemma wp_modify (f : E → E) (Q : unit → E → Prop) e : Q tt (f e) → wp (modify f) Q e.
Proof. done. Qed.

(** What only creates: new handles and new objects. *)
Record grown g g' : Prop := {
  grown_handles : handles g ⊆ handles g';
  grown_heap : heap g ⊆ heap g';
  grown_thrown : thrown g' = thrown g;
  grown_deferreds : deferreds g' = deferreds g;
  grown_works : works g' = works g;
  grown_frames : frames g' = frames g;
}.
#[global] Instance grown_preorder : PreOrder grown.
Proof.
  split; [by intros g; split|].
  intros g1 g2 g3 [H1 H2 H3 H4 H5 H6] [K1 K2 K3 K4 K5 K6]. split; try congruence; by etrans.
Qed.

Lemma grown_set_handles g m : handles g ⊆ m → grown g (set_handles m g).
Proof. by split. Qed.
Lemma new_handle_grown v g h g' : new_handle v g h g' → grown g g'.
Proof. intros (_ & Hs & _ & ->). by apply grown_set_handles. Qed.
Lemma new_handle_lookup v g h g' : new_handle v g h g' → handles g' !! h = Some v.
Proof. by intros (_ & _ & ? & _). Qed.
Lemma new_handle_heap v g h g' : new_handle v g h g' → heap g' = heap g.
Proof. by intros (_ & _ & _ & ->). Qed.
Lemma new_handle_valid v g h g' : new_handle v g h g' → h ≠ nullptr.
Proof. by intros (? & _). Qed.
Lemma grown_handle g g' h v : grown g g' → handles g !! h = Some v → handles g' !! h = Some v.
Proof. intros Hg Hh. exact (lookup_weaken _ _ _ _ Hh (grown_handles _ _ Hg)). Qed.
Lemma grown_object g g' o ob : grown g g' → heap g !! o = Some ob → heap g' !! o = Some ob.
Proof. intros Hg Hh. exact (lookup_weaken _ _ _ _ Hh (grown_heap _ _ Hg)). Qed.
Lemma grown_quiet g g' : grown g g' → thrown g = None → thrown g' = None.
Proof. intros Hg H. by rewrite (grown_thrown _ _ Hg). Qed.

Lemma plain_at_ref g h o props :
  handles g !! h = Some (JRef o) → heap g !! o = Some (Plain props) → plain_at g h = Some (o, props).
Proof. intros Hh Ho. unfold plain_at. rewrite Hh. cbn. by rewrite Ho. Qed.
Lemma array_at_ref g h o l :
  handles g !! h = Some (JRef o) → heap g !! o = Some (Array l) → array_at g h = Some (o, l).
Proof. intros Hh Ho. unfold array_at. rewrite Hh. cbn. by rewrite Ho. Qed.

(** What only reads: new handles, and nothing else. *)
Definition handed g g' : Prop := handles g ⊆ handles g' ∧ g' = set_handles (handles g') g.
#[global] Instance handed_preorder : PreOrder handed.
Proof.
  split; [by intros []|]. intros g1 g2 g3 [H1 H2] [K1 K2]. split; [by etrans|].
  rewrite K2, H2. done.
Qed.
Lemma new_handle_handed v g h g' : new_handle v g h g' → handed g g'.
Proof. by intros (_ & Hs & _ & Hg). Qed.
Lemma handed_grown g g' : handed g g' → grown g g'.
Proof. intros [Hs ->]. by apply grown_set_handles. Qed.
Lemma handed_heap g g' : handed g g' → heap g' = heap g.
Proof. by intros [_ ->]. Qed.
Lemma handed_quiet g g' : handed g g' → thrown g = None → thrown g' = None.
Proof. by intros [_ ->]. Qed.
Lemma handed_plain g g' h p : handed g g' → plain_at g h = Some p → plain_at g' h = Some p.
Proof.
  intros Hh. unfold plain_at. rewrite (handed_heap _ _ Hh). destruct (handles g !! h) eqn:Hv; [|done].
  by rewrite (grown_handle _ _ _ _ (handed_grown _ _ Hh) Hv).
Qed.
Lemma handed_array g g' h p : handed g g' → array_at g h = Some p → array_at g' h = Some p.
Proof.
  intros Hh. unfold array_at. rewrite (handed_heap _ _ Hh). destruct (handles g !! h) eqn:Hv; [|done].
  by rewrite (grown_handle _ _ _ _ (handed_grown _ _ Hh) Hv).
Qed.

(** *** Reading a field of an object *)

Lemma wp_has_property h name p (Q : bool → E → Prop) e :
  thrown (look e) = None → plain_at (look e) h = Some p → no_nul name →
  (∀ e', look e' = look e → Q (bool_decide (is_Some (p.2 !! name))) e') →
  wp (has_property h name) Q e.
Proof.
  intros He Hp Hn HQ. apply wp_bind. rewrite Hn. eapply wp_op; [done|cbn; by rewrite Hp|].
  intros x e' [-> Hl]. by apply HQ.
Qed.

Lemma wp_get_property h name p v old (Q : Z → E → Prop) e :
  thrown (look e) = None → plain_at (look e) h = Some p → p.2 !! name = Some v → no_nul name →
  (∀ f e', handed (look e) (look e') → handles (look e') !! f = Some v → Q f e') →
  wp (get_property h name old) Q e.
Proof.
  intros He Hp Hv Hn HQ. apply wp_bind. rewrite Hn. eapply wp_op; [done|cbn; by rewrite Hp|].
  intros f e' Hf. rewrite Hv in Hf. cbn in Hf.
  apply HQ; eauto using new_handle_handed, new_handle_lookup.
Qed.

Lemma wp_type_of_value h v old (Q : napi_valuetype → E → Prop) e :
  thrown (look e) = None → handles (look e) !! h = Some v →
  (∀ e', look e' = look e → Q (type_of v) e') → wp (type_of_value h old) Q e.
Proof.
  intros He Hv HQ. apply wp_bind. eapply wp_op; [done|cbn; by rewrite Hv|].
  intros x e' [-> Hl]. by apply HQ.
Qed.

(** A field that is there, up to the test of its type. *)
Lemma wp_field {A} h name p v t (k : Z → napi_valuetype → ST E A)
    (Q : A → E → Prop) (a : A) e :
  thrown (look e) = None → plain_at (look e) h = Some p → p.2 !! name = Some v → no_nul name →
  type_of v = t →
  (∀ f e', handed (look e) (look e') → handles (look e') !! f = Some v → wp (k f t) Q e') →
  wp (hasProperty ← has_property h name;
      if negb hasProperty then mret a
      else field ← get_property h name any_value; valueType ← type_of_value field any_type; k field valueType) Q e.
Proof.
  intros He Hp Hv Hn Ht HQ.
  apply wp_bind. eapply wp_has_property; [done..|]. intros e1 H1. rewrite bool_decide_true by eauto. cbn [negb].
  rewrite <- H1 in *.
  apply wp_bind. eapply wp_get_property; [done..|]. intros f e2 H2 Hf.
  assert (He2 : thrown (look e2) = None) by eauto using handed_quiet.
  apply wp_bind. eapply wp_type_of_value; [done..|]. intros e3 H3. rewrite <- H3 in *. rewrite Ht. by apply HQ.
Qed.

Lemma wp_JsObjectToInt h name old p n (Q : Z → E → Prop) e :
  thrown (look e) = None → plain_at (look e) h = Some p → p.2 !! name = Some (JNumber n) → no_nul name →
  (∀ e', handed (look e) (look e') → Q (i32 n) e') → wp (JsObjectToInt h name old) Q e.
Proof.
  intros He Hp Hv Hn HQ. eapply wp_field; [done..|]. intros f e1 H1 Hf.
  apply wp_bind. eapply wp_op; [by eauto using handed_quiet|cbn; by rewrite Hf|].
  intros x e4 [-> H4]. apply wp_ret, HQ. by rewrite H4.
Qed.

Lemma wp_JsObjectToBool h name old p b (Q : bool → E → Prop) e :
  thrown (look e) = None → plain_at (look e) h = Some p → p.2 !! name = Some (JBoolean b) → no_nul name →
  (∀ e', handed (look e) (look e') → Q b e') → wp (JsObjectToBool h name old) Q e.
Proof.
  intros He Hp Hv Hn HQ. eapply wp_field; [done..|]. intros f e1 H1 Hf.
  apply wp_bind. eapply wp_op; [by eauto using handed_quiet|cbn; by rewrite Hf|].
  intros x e4 [-> H4]. apply wp_ret, HQ. by rewrite H4.
Qed.

Lemma wp_JsObjectToString h name n old p s (Q : string → E → Prop) e :
  thrown (look e) = None → plain_at (look e) h = Some p → p.2 !! name = Some (JString s) → no_nul name →
  0 < n → (∀ e', handed (look e) (look e') → Q (c_str (cut n s)) e') → wp (JsObjectToString h name n old) Q e.
Proof.
  intros He Hp Hv Hn Hpos HQ. unfold JsObjectToString. rewrite (proj2 (Z.leb_gt _ _) Hpos).
  eapply wp_field; [done..|]. intros f e1 H1 Hf.
  apply wp_bind. eapply wp_op; [by eauto using handed_quiet|cbn; by rewrite Hf|].
  intros x e4 [-> H4]. apply wp_ret. replace (n + 1 - 1) with n by lia. apply HQ. by rewrite H4.
Qed.

Lemma wp_JsObjectGetProperty h name old p v (Q : bool * Z → E → Prop) e :
  thrown (look e) = None → plain_at (look e) h = Some p → p.2 !! name = Some v → no_nul name →
  (∀ f e', handed (look e) (look e') → handles (look e') !! f = Some v → Q (true, f) e') →
  wp (JsObjectGetProperty h name old) Q e.
Proof.
  intros He Hp Hv Hn HQ. apply wp_bind. eapply wp_has_property; [done..|]. intros e1 H1.
  rewrite bool_decide_true by eauto. cbn [negb]. rewrite <- H1 in *.
  apply wp_bind. eapply wp_get_property; [done..|]. intros f e2 H2 Hf. by apply wp_ret, HQ.
Qed.

(** *** Errors *)

Lemma wp_NAPI_CALL {X : Set} (op : NapiOp X) P (k : option X → ST E Z) (Q : Z → E → Prop) e :
  thrown (look e) = None → effect op (look e) = Some P →
  (∀ x e', P x (look e') → wp (k (Some x)) Q e') → wp (NAPI_CALL op k) Q e.
Proof. intros He HP Hk. apply wp_bind. eapply wp_op; [done|done|]. intros x e' Hx. by apply Hk. Qed.

(** The object of an error: its message and its code. *)
Definition error_object (msg : string) (code : Z) : jsobj :=
  Plain {["message" := JString (encode (c_str msg)); "code" := JNumber code]}.

Lemma wp_CreateBusinessError code errMsg msg e :
  GetErrMsgByErrCode code = Some msg → thrown (look e) = None →
  wp (CreateBusinessError code errMsg)
     (λ h e', grown (look e) (look e') ∧
        ∃ a, handles (look e') !! h = Some (JRef a) ∧ heap (look e') !! a = Some (error_object (msg +:+ errMsg) code)) e.
Proof.
  intros Hmsg He. unfold CreateBusinessError. rewrite Hmsg.
  eapply wp_NAPI_CALL; [done|done|]. intros m e1 Hm. pose proof (new_handle_grown _ _ _ _ Hm) as G1.
  eapply wp_NAPI_CALL; [by eapply grown_quiet|done|]. intros c e2 Hc.
  pose proof (new_handle_grown _ _ _ _ Hc) as G2.
  apply new_handle_lookup in Hm. apply (grown_handle _ _ _ _ G2) in Hm.
  apply wp_bind. eapply wp_op; [eauto using grown_quiet|cbn; by rewrite Hm|].
  intros h e3 (a & Ha & Hh). cbn.
  assert (G3 : grown (look e2) (look e3)).
  { etrans; [|by eapply new_handle_grown]. split; cbn; try done. by apply insert_subseteq. }
  pose proof (new_handle_lookup _ _ _ _ Hh) as Hl. pose proof (new_handle_heap _ _ _ _ Hh) as Hheap. cbn in Hheap.
  assert (Ho : heap (look e3) !! a = Some (Plain {["message" := JString (encode (c_str (msg +:+ errMsg)))]})).
  { by rewrite Hheap, ?lookup_insert_eq. }
  apply wp_bind. eapply wp_op; [eauto using grown_quiet|cbn|].
  { rewrite (plain_at_ref _ _ _ _ Hl Ho). cbn. apply new_handle_lookup in Hc.
    by rewrite (grown_handle _ _ _ _ G3 Hc). }
  intros [] e4 H4. apply wp_ret. cbn in H4. rewrite H4. split.
  - transitivity (look e1); [done|]. transitivity (look e2); [done|].
    split; cbn; try apply G3. rewrite Hheap, insert_insert_eq. by apply insert_subseteq.
  - exists a. split; [done|]. cbn. by rewrite lookup_insert_eq.
Qed.
End Calculus.

Arguments wp : simpl never.
