(* ===== verification/JsTrees.v ===== *)
(** * Objects of the heap as trees

    The shape of a JavaScript value is a tree ([jtree]); [denotes] says that a value of the
    heap has it.  A program that creates a value puts its objects into the part of the heap
    that was not there before ([builds]); a program that reads one needs its tree only
    ([reads]).  The device that the bindings hand to the application is read back as
    [js_device] says. *)

From S2P Require Import Prelude Text UsbErrors UsbTypes Marshalling Napi.
From S2P Require Import HostDriver ServiceHost Client JsValues JsLaws.

#[local] Set Default Goal Selector "!".

(** ** Trees *)

#[local] Unset Elimination Schemes.
Inductive jtree :=
  | TVal (v : jsval)
  | TObj (fields : list (string * jtree))
  | TArr (elements : list jtree).
#[local] Set Elimination Schemes.

Section TreeInd.
Variable P : jtree → Prop.
Hypothesis P_val : ∀ v, P (TVal v).
Hypothesis P_obj : ∀ fields, Forall (λ f, P f.2) fields → P (TObj fields).
Hypothesis P_arr : ∀ elements, Forall P elements → P (TArr elements).
Fixpoint jtree_ind (t : jtree) : P t :=
  match t with
  | TVal v => P_val v
  | TObj fields =>
      P_obj fields ((fix go l : Forall (λ f, P f.2) l :=
        match l with [] => Forall_nil_2 _ | f :: l => Forall_cons_2 _ f l (jtree_ind f.2) (go l) end) fields)
  | TArr elements =>
      P_arr elements ((fix go l : Forall P l :=
        match l with [] => Forall_nil_2 _ | t :: l => Forall_cons_2 _ t l (jtree_ind t) (go l) end) elements)
  end.
End TreeInd.

(** The fields of an object are its properties; the elements of an array are its elements,
    in order. *)
Fixpoint denotes (D : gmap Z jsobj) (t : jtree) (v : jsval) : Prop :=
  match t with
  | TVal w => v = w
  | TObj fields =>
      ∃ o props, v = JRef o ∧ D !! o = Some (Plain props) ∧ dom props ⊆ list_to_set fields.*1 ∧
        (fix go fields : Prop :=
           match fields with
           | [] => True
           | f :: fields => (∃ w, props !! f.1 = Some w ∧ denotes D f.2 w) ∧ go fields
           end) fields
  | TArr elements =>
      ∃ o l, v = JRef o ∧ D !! o = Some (Array l) ∧
        (fix go elements l : Prop :=
           match elements, l with
           | [], [] => True
           | t :: elements, v :: l => denotes D t v ∧ go elements l
           | _, _ => False
           end) elements l
  end.

Section Denotes.
Implicit Types (D : gmap Z jsobj).

Definition fields_denote D (fields : list (string * jtree)) (props : gmap string jsval) : Prop :=
  dom props ⊆ (list_to_set fields.*1 : gset string) ∧
  Forall (λ f, ∃ w, props !! f.1 = Some w ∧ denotes D f.2 w) fields.

Lemma denotes_obj D fields v :
  denotes D (TObj fields) v ↔
  ∃ o props, v = JRef o ∧ D !! o = Some (Plain props) ∧ fields_denote D fields props.
Proof.
  unfold fields_denote. cbn. split; intros (o & props & Hv & Ho & Hd); exists o, props.
  - destruct Hd as [Hd Hf]. split_and!; [done..|]. clear Hd.
    induction fields as [|f fields IH]; [done|]. destruct Hf as [H1 H2]. constructor; auto.
  - destruct Hd as [Hd Hf]. split_and!; [done..|]. clear Hd.
    induction Hf as [|f fields H1 H2 IH]; [done|]. by split.
Qed.
Lemma denotes_arr D elements v :
  denotes D (TArr elements) v ↔ ∃ o l, v = JRef o ∧ D !! o = Some (Array l) ∧ Forall2 (denotes D) elements l.
Proof.
  cbn. split; intros (o & l & Hv & Ho & Hl); exists o, l; split_and!; try done; clear Ho; revert l Hl.
  - induction elements as [|t elements IH]; intros [|w l] Hl; try done. destruct Hl. constructor; auto.
  - induction elements as [|t elements IH]; intros [|w l] Hl; inversion_clear Hl; [done|split; [done|by apply IH]].
Qed.

Lemma denotes_mono D D' t : D ⊆ D' → ∀ v, denotes D t v → denotes D' t v.
Proof.
  intros Hs. induction t as [w|fields IH|elements IH] using jtree_ind; intros v.
  - done.
  - rewrite !denotes_obj. intros (o & props & -> & Ho & Hd & Hf). exists o, props.
    split_and!; [done|by eapply lookup_weaken|split; [done|]].
    rewrite Forall_forall in *. intros f Hin. destruct (Hf f Hin) as (w & Hw & Hden). eauto.
  - rewrite !denotes_arr. intros (o & l & -> & Ho & Hl). exists o, l.
    split_and!; [done|by eapply lookup_weaken|]. clear Ho.
    induction Hl as [|t w ts ws Ht Hts IHts]; constructor; inversion_clear IH; auto.
Qed.

(** The field of a name. *)
Fixpoint assoc (name : string) (fields : list (string * jtree)) : option jtree :=
  match fields with
  | [] => None
  | (k, t) :: fields => if String.eqb name k then Some t else assoc name fields
  end.
Lemma fields_denote_lookup D fields props name t :
  fields_denote D fields props → assoc name fields = Some t → ∃ w, props !! name = Some w ∧ denotes D t w.
Proof.
  intros [_ Hf]. induction Hf as [|[k t'] fields Hk _ IH]; [done|]. cbn.
  destruct (String.eqb_spec name k) as [->|]; [|auto]. intros [= ->]. done.
Qed.

(** Adding a field, and an element. *)
Lemma fields_denote_snoc D fields props name t w :
  fields_denote D fields props → (name ∉ fields.*1) → denotes D t w →
  fields_denote D (fields ++ [(name, t)]) (<[name:=w]> props).
Proof.
  intros [Hd Hf] Hn Ht. split.
  - rewrite dom_insert, fmap_app, list_to_set_app. set_solver.
  - apply Forall_app. split.
    + rewrite Forall_forall in *. intros f Hin. destruct (Hf f Hin) as (w' & Hw & ?).
      exists w'. rewrite lookup_insert_ne; [done|]. intros ->. apply Hn. by apply list_elem_of_fmap_2.
    + constructor; [|done]. exists w. by rewrite lookup_insert_eq.
Qed.
End Denotes.

(** ** Building *)
Section Building.
Context {E : Type} `{NA : Napi E} `{TC : TextCoding} `{NL : !NapiLaws E}.
Context `{UN : Uninitialised} `{EM : ErrorMessages}.
Implicit Types (e : E) (g : view).

(** What an object under construction holds. *)
Definition object_denotes (D : gmap Z jsobj) (t : jtree) (ob : jsobj) : Prop :=
  match t, ob with
  | TObj fields, Plain props => fields_denote D fields props
  | TArr elements, Array l => Forall2 (denotes D) elements l
  | _, _ => False
  end.

Lemma object_denotes_mono D D' t ob : D ⊆ D' → object_denotes D t ob → object_denotes D' t ob.
Proof.
  intros Hs. destruct t as [v|fields|elements], ob as [props|l]; try done; cbn.
  - intros [Hd Hf]. split; [done|]. eapply Forall_impl; [done|]. intros f (w & Hw & ?). exists w.
    eauto using denotes_mono.
  - intros Hl. eapply Forall2_impl; [done|]. intros. by eapply denotes_mono.
Qed.

(** The object [o], with the handle [h], is being built since [g0]: the new part of the
    heap, but for [o] itself, holds what it refers to. *)
Record building g0 o h t g : Prop := {
  building_grown : grown g0 g;
  building_handle : handles g !! h = Some (JRef o);
  building_valid : h ≠ nullptr;
  building_fresh : heap g0 !! o = None;
  building_object : ∃ ob, heap g !! o = Some ob ∧ object_denotes (delete o (heap g ∖ heap g0)) t ob;
}.

Lemma difference_new (m m0 : gmap Z jsobj) o ob :
  m0 !! o = None → <[o:=ob]> m ∖ m0 = <[o:=ob]> (m ∖ m0).
Proof.
  intros Ho. apply map_eq. intros i. rewrite lookup_difference.
  destruct (decide (i = o)) as [->|]; simplify_map_eq; [done|].
  rewrite lookup_difference. done.
Qed.

Lemma difference_mono (m m' m0 : gmap Z jsobj) : m ⊆ m' → m ∖ m0 ⊆ m' ∖ m0.
Proof.
  intros Hs. apply map_subseteq_spec. intros i x. rewrite !lookup_difference.
  destruct (m0 !! i); [done|]. intros Hi. by eapply lookup_weaken.
Qed.

Lemma grown_new g m : heap g ⊆ m → grown g (set_heap m g).
Proof. by split. Qed.

Lemma building_done g0 o h t g :
  building g0 o h t g → t ≠ TVal JUndefined →
  grown g0 g ∧ h ≠ nullptr ∧ ∃ v, handles g !! h = Some v ∧ denotes (heap g ∖ heap g0) t v.
Proof.
  intros [Hg Hh Hv Hf (ob & Ho & Hob)] _. split_and!; [done..|]. exists (JRef o). split; [done|].
  assert (Hnew : (heap g ∖ heap g0) !! o = Some ob) by (rewrite lookup_difference, Hf; done).
  apply object_denotes_mono with (D' := heap g ∖ heap g0) in Hob; [|apply delete_subseteq].
  destruct t as [v|fields|elements], ob as [props|l]; try done.
  - apply denotes_obj. eauto.
  - apply denotes_arr. eauto.
Qed.

(** Something else is created meanwhile. *)
Lemma building_meanwhile g0 o h t g g' : building g0 o h t g → grown g g' → building g0 o h t g'.
Proof.
  intros [Hg Hh Hv Hf (ob & Ho & Hob)] Hg'. split.
  - by etrans.
  - by eapply grown_handle.
  - done.
  - done.
  - exists ob. split; [by eapply grown_object|]. eapply object_denotes_mono; [|done].
    apply delete_mono, difference_mono, grown_heap, Hg'.
Qed.
Lemma building_child g0 o h t g g' : building g0 o h t g → grown g g' →
  heap g' ∖ heap g ⊆ delete o (heap g' ∖ heap g0).
Proof.
  intros [Hg _ _ _ (ob & Ho & _)] Hg'. apply map_subseteq_spec. intros i x.
  rewrite lookup_difference. destruct (heap g !! i) eqn:Hi; [done|]. intros Hx.
  rewrite lookup_delete_ne, lookup_difference by congruence.
  destruct (heap g0 !! i) eqn:H0; [|done]. by rewrite (grown_object _ _ _ _ Hg H0) in Hi.
Qed.

(** A store into the object under construction. *)
Lemma building_store g0 o h t t' ob ob' g :
  building g0 o h t g → heap g !! o = Some ob →
  (object_denotes (delete o (heap g ∖ heap g0)) t ob → object_denotes (delete o (heap g ∖ heap g0)) t' ob') →
  building g0 o h t' (set_heap (<[o:=ob']> (heap g)) g).
Proof.
  intros [Hg Hh Hv Hf (ob0 & Ho & Hob)] Ho' Hstep. simplify_eq. split; try done.
  - destruct Hg as [H1 H2 H3 H4 H5 H6]. split; try done. cbn. by apply insert_subseteq_r.
  - exists ob'. cbn. split; [by rewrite lookup_insert_eq|].
    rewrite difference_new, delete_insert_eq by done. auto.
Qed.

Lemma building_quiet g0 o h t g : thrown g0 = None → building g0 o h t g → thrown g = None.
Proof. intros H0 Hb. by eapply grown_quiet; [apply Hb|]. Qed.
Lemma building_plain g0 o h fields g :
  building g0 o h (TObj fields) g →
  ∃ props, plain_at g h = Some (o, props) ∧ heap g !! o = Some (Plain props).
Proof.
  intros [_ Hh _ _ ([props|l] & Ho & Hob)]; [|done]. exists props. split; [by apply plain_at_ref|done].
Qed.
Lemma building_array g0 o h elements g :
  building g0 o h (TArr elements) g →
  ∃ l, array_at g h = Some (o, l) ∧ heap g !! o = Some (Array l) ∧ length l = length elements.
Proof.
  intros [_ Hh _ _ ([props|l] & Ho & Hob)]; [done|]. exists l. split_and!; [by apply array_at_ref|done|].
  symmetry. by eapply Forall2_length.
Qed.

(** A new object is empty. *)
Lemma building_new g o ob h g' t :
  heap g !! o = None → new_handle (JRef o) (set_heap (<[o:=ob]> (heap g)) g) h g' → object_denotes ∅ t ob →
  building g o h t g'.
Proof.
  intros Ho Hn Ht. split.
  - etrans; [|by eapply new_handle_grown]. split; try done. by apply insert_subseteq.
  - by eapply new_handle_lookup.
  - by eapply new_handle_valid.
  - done.
  - exists ob. rewrite (new_handle_heap _ _ _ _ Hn). cbn. split; [by rewrite lookup_insert_eq|].
    eapply object_denotes_mono; [|done]. apply map_empty_subseteq.
Qed.

Lemma wp_create_object old (Q : Z → E → Prop) e :
  thrown (look e) = None →
  (∀ o h e', building (look e) o h (TObj []) (look e') → Q h e') → wp (create_object old) Q e.
Proof.
  intros He HQ. apply wp_bind. eapply wp_op; [done|done|]. intros h e' (o & Ho & Hn).
  apply wp_ret, (HQ o). eapply building_new; [done..|]. by repeat constructor.
Qed.
Lemma wp_create_array old (Q : Z → E → Prop) e :
  thrown (look e) = None →
  (∀ o h e', building (look e) o h (TArr []) (look e') → Q h e') → wp (create_array old) Q e.
Proof.
  intros He HQ. apply wp_bind. eapply wp_op; [done|done|]. intros h e' (o & Ho & Hn).
  apply wp_ret, (HQ o). eapply building_new; [done..|]. by constructor.
Qed.

Lemma wp_store_field g0 o h fields w name v t (Q : Z * option unit → E → Prop) e :
  thrown g0 = None → building g0 o h (TObj fields) (look e) → handles (look e) !! w = Some v →
  denotes (delete o (heap (look e) ∖ heap g0)) t v → (name ∉ fields.*1) →
  (∀ e', building g0 o h (TObj (fields ++ [(name, t)])) (look e') → Q (napi_ok, Some tt) e') →
  wp (napi (napi_set_named_property h name w)) Q e.
Proof.
  intros H0 Hb Hw Ht Hn HQ. destruct (building_plain _ _ _ _ _ Hb) as (props & Hp & Ho).
  eapply wp_op; [by eapply building_quiet|cbn; by rewrite Hp, Hw|]. intros [] e' Hl. apply HQ. rewrite Hl.
  eapply building_store; [done..|]. intros Hob. by apply fields_denote_snoc.
Qed.

Lemma wp_store_element g0 o h elements w i v t (Q : unit → E → Prop) e :
  thrown g0 = None → building g0 o h (TArr elements) (look e) → handles (look e) !! w = Some v →
  denotes (delete o (heap (look e) ∖ heap g0)) t v → i = Z.of_nat (length elements) →
  (∀ e', building g0 o h (TArr (elements ++ [t])) (look e') → Q tt e') →
  wp (set_element h i w) Q e.
Proof.
  intros H0 Hb Hw Ht -> HQ. destruct (building_array _ _ _ _ _ Hb) as (l & Hp & Ho & Hl).
  apply wp_bind. eapply wp_op; [by eapply building_quiet|cbn; by rewrite Hp, Hw; cbn; rewrite Hl, Z.eqb_refl|].
  intros [] e' Hl'. apply wp_ret, HQ. rewrite Hl'.
  eapply building_store; [done..|]. intros Hob. cbn. apply Forall2_app; [done|]. by repeat constructor.
Qed.

(** *** Fields with a value of their own *)
Lemma wp_value_field g0 o h fields name v (op : NapiOp Z) (Q : unit → E → Prop) e :
  thrown g0 = None → building g0 o h (TObj fields) (look e) → no_nul name → (name ∉ fields.*1) →
  effect op (look e) = Some (new_handle v (look e)) →
  (∀ e', building g0 o h (TObj (fields ++ [(name, TVal v)])) (look e') → Q tt e') →
  wp ('(_, value) ← napi op;
      napi (napi_set_named_property h (c_str name) (default any_value value)) ;; mret tt) Q e.
Proof.
  intros H0 Hb Hc Hn Hop HQ. apply wp_bind. eapply wp_op; [by eapply building_quiet|exact Hop|].
  intros w e1 Hw. cbn. rewrite Hc. apply wp_bind.
  eapply (wp_store_field _ _ _ _ _ _ v (TVal v)); [done| |by eapply new_handle_lookup|done|done|].
  - eapply building_meanwhile; [done|]. by eapply new_handle_grown.
  - intros e' Hb'. by apply wp_ret, HQ.
Qed.

Definition text (s : string) : jtree := TVal (JString (encode (c_str s))).
Definition num (n : Z) : jtree := TVal (JNumber n).
Definition flag (b : bool) : jtree := TVal (JBoolean b).

Lemma wp_SetValueInt32 g0 o h fields name n (Q : unit → E → Prop) e :
  thrown g0 = None → building g0 o h (TObj fields) (look e) → no_nul name → (name ∉ fields.*1) →
  (∀ e', building g0 o h (TObj (fields ++ [(name, num n)])) (look e') → Q tt e') →
  wp (SetValueInt32 name n h) Q e.
Proof. intros. by eapply wp_value_field. Qed.
Lemma wp_SetValueBool g0 o h fields name b (Q : unit → E → Prop) e :
  thrown g0 = None → building g0 o h (TObj fields) (look e) → no_nul name → (name ∉ fields.*1) →
  (∀ e', building g0 o h (TObj (fields ++ [(name, flag b)])) (look e') → Q tt e') →
  wp (SetValueBool name b h) Q e.
Proof. intros. by eapply wp_value_field. Qed.
Lemma wp_SetValueUtf8String g0 o h fields name s (Q : unit → E → Prop) e :
  thrown g0 = None → building g0 o h (TObj fields) (look e) → no_nul name → (name ∉ fields.*1) →
  (∀ e', building g0 o h (TObj (fields ++ [(name, text s)])) (look e') → Q tt e') →
  wp (SetValueUtf8String name s h) Q e.
Proof. intros. by eapply wp_value_field. Qed.
Lemma wp_SetValueUint32 g0 o h fields name n (Q : unit → E → Prop) e :
  thrown g0 = None → building g0 o h (TObj fields) (look e) → no_nul name → (name ∉ fields.*1) →
  (∀ e', building g0 o h (TObj (fields ++ [(name, num n)])) (look e') → Q tt e') →
  wp (SetValueUint32 name n h) Q e.
Proof.
  intros H0 Hb Hc Hn HQ. apply wp_bind. eapply wp_op; [by eapply building_quiet|done|].
  intros w e1 Hw. cbn. rewrite Hc. apply wp_bind.
  eapply (wp_store_field _ _ _ _ _ _ _ (num n)); [done| |by eapply new_handle_lookup|done|done|].
  - eapply building_meanwhile; [done|]. by eapply new_handle_grown.
  - intros e' Hb'. by apply wp_ret, HQ.
Qed.

(** *** Fields and elements that are built *)

(** The program creates a value of the shape [t], out of new objects. *)
Definition builds (m : ST E Z) (t : jtree) : Prop :=
  ∀ e, thrown (look e) = None →
    wp m (λ h e', grown (look e) (look e') ∧ h ≠ nullptr ∧
            ∃ v, handles (look e') !! h = Some v ∧ denotes (heap (look e') ∖ heap (look e)) t v) e.
Lemma builds_element g0 o h elements m t i (Q : unit → E → Prop) e :
  thrown g0 = None → building g0 o h (TArr elements) (look e) → builds m t →
  i = Z.of_nat (length elements) →
  (∀ e', building g0 o h (TArr (elements ++ [t])) (look e') → Q tt e') →
  wp (objTmp ← m; set_element h i objTmp) Q e.
Proof.
  intros H0 Hb Hm Hi HQ. apply wp_bind. eapply wp_mono; [by apply Hm; eapply building_quiet|].
  intros w e1 (Hg & _ & v & Hw & Ht). eapply wp_store_element; [done| |exact Hw| |exact Hi|exact HQ].
  - by eapply building_meanwhile.
  - eapply denotes_mono; [|exact Ht]. by eapply building_child.
Qed.

Lemma builds_field g0 o h fields m t name (Q : unit → E → Prop) e :
  thrown g0 = None → building g0 o h (TObj fields) (look e) → builds m t → (name ∉ fields.*1) →
  (∀ e', building g0 o h (TObj (fields ++ [(name, t)])) (look e') → Q tt e') →
  wp (arr ← m; set_named_property h name arr) Q e.
Proof.
  intros H0 Hb Hm Hn HQ. apply wp_bind. eapply wp_mono; [by apply Hm; eapply building_quiet|].
  intros w e1 (Hg & _ & v & Hw & Ht). apply wp_bind.
  eapply wp_store_field; [done| |exact Hw| |exact Hn|].
  - by eapply building_meanwhile.
  - eapply denotes_mono; [|exact Ht]. by eapply building_child.
  - intros e' Hb'. by apply wp_ret, HQ.
Qed.

(** The loop that fills an array with what is built for each index from [k] on. *)
Lemma wp_fill g0 o arr (f : Z → ST E Z) ts : ∀ elements (Q : unit → E → Prop) e,
  thrown g0 = None → building g0 o arr (TArr elements) (look e) →
  (∀ i t, ts !! i = Some t → builds (f (Z.of_nat (length elements + i))) t) →
  (∀ e', building g0 o arr (TArr (elements ++ ts)) (look e') → Q tt e') →
  wp (mfor (seqZ (Z.of_nat (length elements)) (Z.of_nat (length ts)))
        (λ i, objTmp ← f i; set_element arr i objTmp)) Q e.
Proof.
  induction ts as [|t ts IH]; intros elements Q e H0 Hb Hf HQ.
  { apply HQ. by rewrite app_nil_r. }
  rewrite seqZ_cons by (cbn; lia).
  replace (Z.pred (Z.of_nat (length (t :: ts)))) with (Z.of_nat (length ts)) by (cbn; lia).
  cbn [mfor]. apply wp_bind. eapply builds_element; [done..| |done|].
  { specialize (Hf 0%nat t eq_refl). by rewrite Nat.add_0_r in Hf. }
  intros e1 H1. specialize (IH (elements ++ [t]) Q e1 H0 H1). rewrite length_app in IH. cbn in IH.
  replace (Z.succ (Z.of_nat (length elements))) with (Z.of_nat (length elements + 1)) by lia.
  apply IH.
  - intros i t' Hi. specialize (Hf (S i) t' Hi). by replace (length elements + 1 + i)%nat with
      (length elements + S i)%nat by lia.
  - intros e' He'. apply HQ. by rewrite <- app_assoc in He'.
Qed.
End Building.

(** The fields of an object under construction, one after the other. *)
Ltac fresh_name := cbn; rewrite ?elem_of_cons, ?elem_of_nil; naive_solver.
Ltac build_field :=
  match goal with
  | Hb : building _ _ _ (TObj _) _ |- _ =>
      apply wp_bind;
      first [eapply wp_SetValueInt32 | eapply wp_SetValueUint32 | eapply wp_SetValueUtf8String
            | eapply wp_SetValueBool];
      [eassumption | exact Hb | reflexivity | fresh_name | clear Hb; intros ? Hb; cbn [app] in Hb]
  end.
Ltac build_object :=
  intros ?e ?He; apply wp_bind; eapply wp_create_object; [assumption | intros ?o ?h ?e ?Hb];
  repeat build_field.
Ltac build_done :=
  apply wp_ret; eapply building_done; [eassumption | done].

(** ** The objects of the bindings *)
Section Objects.
Context {E : Type} `{NA : Napi E} `{TC : TextCoding} `{NL : !NapiLaws E}.
Context `{UN : Uninitialised} `{EM : ErrorMessages}.

Definition pipe_tree (p : USBDevicePipe) : jtree :=
  TObj [("busNum", num (GetBusNum p)); ("devAddress", num (GetDevAddr p))]%string.
Definition endpoint_tree (ep : USBEndpoint.t) : jtree :=
  TObj [("address", num (USBEndpoint.GetAddress ep)); ("attributes", num (USBEndpoint.GetAttributes ep));
        ("interval", num (USBEndpoint.GetInterval ep));
        ("maxPacketSize", num (USBEndpoint.GetMaxPacketSize ep));
        ("direction", num (USBEndpoint.GetDirection ep));
        ("number", num (USBEndpoint.GetEndpointNumber ep)); ("type", num (USBEndpoint.GetType ep));
        ("interfaceId", num (USBEndpoint.GetInterfaceId ep))]%string.
Definition interface_tree (i : UsbInterface.t) : jtree :=
  TObj [("id", num (UsbInterface.GetId i)); ("protocol", num (UsbInterface.GetProtocol i));
        ("clazz", num (UsbInterface.GetClass i)); ("subClass", num (UsbInterface.GetSubClass i));
        ("alternateSetting", num (UsbInterface.GetAlternateSetting i));
        ("name", text (UsbInterface.GetName i));
        ("endpoints", TArr (endpoint_tree <$> UsbInterface.GetEndpoints i))]%string.
Definition config_tree (c : USBConfig.t) : jtree :=
  TObj [("id", num (USBConfig.GetId c)); ("attributes", num (USBConfig.GetAttributes c));
        ("isRemoteWakeup", flag (USBConfig.IsRemoteWakeup c));
        ("isSelfPowered", flag (USBConfig.IsSelfPowered c));
        ("maxPower", num (USBConfig.GetMaxPower c)); ("name", text (USBConfig.GetName c));
        ("interfaces", TArr (interface_tree <$> USBConfig.GetInterfaces c))]%string.
Definition device_tree (d : UsbDevice.t) : jtree :=
  TObj [("name", text (UsbDevice.GetName d)); ("serial", text (UsbDevice.GetmSerial d));
        ("manufacturerName", text (UsbDevice.GetManufacturerName d));
        ("productName", text (UsbDevice.GetProductName d)); ("version", text (UsbDevice.GetVersion d));
        ("vendorId", num (UsbDevice.GetVendorId d)); ("productId", num (UsbDevice.GetProductId d));
        ("clazz", num (UsbDevice.GetClass d)); ("subClass", num (UsbDevice.GetSubclass d));
        ("protocol", num (UsbDevice.GetProtocol d)); ("devAddress", num (UsbDevice.GetDevAddr d));
        ("busNum", num (UsbDevice.GetBusNum d));
        ("configs", TArr (config_tree <$> UsbDevice.GetConfigs d))]%string.
Definition accessory_tree (a : USBAccessory.t) : jtree :=
  TObj [("manufacturer", text (USBAccessory.GetManufacturer a)); ("product", text (USBAccessory.GetProduct a));
        ("description", text (USBAccessory.GetDescription a)); ("version", text (USBAccessory.GetVersion a));
        ("serialNumber", text (USBAccessory.GetSerialNumber a))]%string.

(** The counts that the loops use are the lengths of the lists. *)
Definition countable_interface (i : UsbInterface.t) : Prop :=
  Z.of_nat (length (UsbInterface.endpoints_ i)) < 2 ^ 31.
Definition countable_config (c : USBConfig.t) : Prop :=
  Z.of_nat (length (USBConfig.interfaces_ c)) < 2 ^ 31 ∧ Forall countable_interface (USBConfig.interfaces_ c).
Definition countable_device (d : UsbDevice.t) : Prop :=
  Z.of_nat (length (UsbDevice.configs_ d)) < 2 ^ 31 ∧ Forall countable_config (UsbDevice.configs_ d).

Lemma builds_pipe obj p : builds (CreateUsbDevicePipe obj p) (pipe_tree p).
Proof. build_object. build_done. Qed.
Lemma builds_endpoint obj ep : builds (CtoJSUsbEndpoint obj ep) (endpoint_tree ep).
Proof. build_object. build_done. Qed.
Lemma builds_accessory obj a : builds (CtoJSUSBAccessory obj a) (accessory_tree a).
Proof. build_object. build_done. Qed.

(** An array that was built for a field, and its storing. *)
Lemma wp_store_built g0 o h fields g1 o' arr elements name (Q : unit → E → Prop) e :
  thrown g0 = None → building g0 o h (TObj fields) g1 → building g1 o' arr (TArr elements) (look e) →
  (name ∉ fields.*1) →
  (∀ e', building g0 o h (TObj (fields ++ [(name, TArr elements)])) (look e') → Q tt e') →
  wp (set_named_property h name arr) Q e.
Proof.
  intros H0 Hb Ha Hn HQ. destruct (building_done _ _ _ _ _ Ha) as (Hg & _ & v & Hv & Ht); [done|].
  apply wp_bind. eapply wp_store_field; [done| |exact Hv| |exact Hn|].
  - by eapply building_meanwhile.
  - eapply denotes_mono; [|exact Ht]. by eapply building_child.
  - intros e' Hb'. by apply wp_ret, HQ.
Qed.

(** The loop over a list, into a new array. *)
Lemma wp_fill_list {A} g0 o arr (f : Z → ST E Z) (tree : A → jtree) (l : list A) (Q : unit → E → Prop) e :
  thrown g0 = None → building g0 o arr (TArr []) (look e) →
  (∀ i a, l !! i = Some a → builds (f (Z.of_nat i)) (tree a)) →
  (∀ e', building g0 o arr (TArr (tree <$> l)) (look e') → Q tt e') →
  wp (mfor (seqZ 0 (Z.of_nat (length l))) (λ i, objTmp ← f i; set_element arr i objTmp)) Q e.
Proof.
  intros H0 Hb Hf HQ. replace (length l) with (length (tree <$> l)) by apply length_fmap.
  eapply (wp_fill _ _ _ _ (tree <$> l) []); [done..| |done].
  intros i t Hi. apply list_lookup_fmap_Some in Hi as (a & -> & Ha). by apply Hf.
Qed.

Lemma set_endpoints_all i arr indices e :
  Forall (λ k, is_Some (UsbInterface.GetEndpoint k i)) indices →
  set_endpoints i arr indices e =
  (mfor indices (λ k, objTmp ← CtoJSUsbEndpoint any_value (default USBEndpoint.default (UsbInterface.GetEndpoint k i));
                      set_element arr k objTmp) ;; mret true) e.
Proof.
  intros H. revert e. induction H as [|k indices [ep Hep] _ IH]; intros e; [done|]. cbn [set_endpoints mfor].
  rewrite Hep. cbn [default from_option id]. rewrite !bind_unfold, IH. by rewrite !bind_unfold.
Qed.

Lemma GetEndpoint_lookup i k :
  UsbInterface.GetEndpoint (Z.of_nat k) i = UsbInterface.endpoints_ i !! k.
Proof.
  unfold UsbInterface.GetEndpoint. case_if; bsimp; rewrite ?Nat2Z.id; [|done].
  symmetry. apply lookup_ge_None. lia.
Qed.
Lemma GetInterface_lookup c k :
  USBConfig.GetInterface (Z.of_nat k) c = USBConfig.interfaces_ c !! k.
Proof.
  unfold USBConfig.GetInterface. case_if; bsimp; rewrite ?Nat2Z.id; [|done].
  symmetry. apply lookup_ge_None. lia.
Qed.
Lemma GetConfig_lookup d k :
  UsbDevice.GetConfig (Z.of_nat k) d = UsbDevice.configs_ d !! k.
Proof.
  unfold UsbDevice.GetConfig. case_if; bsimp; rewrite ?Nat2Z.id; [|done].
  symmetry. apply lookup_ge_None. lia.
Qed.

Lemma count_i32 n : Z.of_nat n < 2 ^ 31 → i32 (Z.of_nat n) = Z.of_nat n.
Proof. intros. apply i32_id. width_lia. Qed.

Lemma builds_interface obj i : countable_interface i → builds (CtoJSUsbInterface obj i) (interface_tree i).
Proof.
  intros Hc. build_object. apply wp_bind, wp_create_array; [by eapply building_quiet|]. intros o' arr ea Harr.
  unfold UsbInterface.GetEndpointCount. rewrite count_i32 by done.
  apply wp_bind. eapply wp_eq; [apply set_endpoints_all|].
  { apply Forall_forall. intros k Hk%elem_of_seqZ. replace k with (Z.of_nat (Z.to_nat k)) by lia.
       rewrite GetEndpoint_lookup. apply lookup_lt_is_Some_2. lia. }
  apply wp_bind. eapply (wp_fill_list _ _ _ _ endpoint_tree); [by eapply building_quiet|done| |].
  { intros k ep Hk. rewrite GetEndpoint_lookup, Hk. apply builds_endpoint. }
  intros eb Hfull. apply wp_ret. cbn [negb]. apply wp_bind.
  eapply wp_store_built; [done|done|done|fresh_name|]. intros ec Hend. build_done.
Qed.

Lemma builds_config obj c : countable_config c → builds (CtoJSUsbConfig obj c) (config_tree c).
Proof.
  intros [Hc Hi]. build_object. apply wp_bind, wp_create_array; [by eapply building_quiet|]. intros o' arr ea Harr.
  unfold USBConfig.GetInterfaceCount. rewrite u32_id by (split; lia).
  apply wp_bind. eapply (wp_fill_list _ _ _ _ interface_tree); [by eapply building_quiet|done| |].
  { intros k i Hk. rewrite GetInterface_lookup, Hk. apply builds_interface. by eapply Forall_lookup_1. }
  intros eb Hfull. apply wp_bind.
  eapply wp_store_built; [done|done|done|fresh_name|]. intros ec Hend. build_done.
Qed.

Lemma builds_device obj d : countable_device d → builds (CtoJSUsbDevice obj d) (device_tree d).
Proof.
  intros [Hc Hi]. build_object. apply wp_bind, wp_create_array; [by eapply building_quiet|]. intros o' arr ea Harr.
  unfold UsbDevice.GetConfigCount. rewrite count_i32 by done.
  apply wp_bind. eapply (wp_fill_list _ _ _ _ config_tree); [by eapply building_quiet|done| |].
  { intros k c Hk. rewrite GetConfig_lookup, Hk. apply builds_config. by eapply Forall_lookup_1. }
  intros eb Hfull. apply wp_bind.
  eapply wp_store_built; [done|done|done|fresh_name|]. intros ec Hend. build_done.
Qed.
End Objects.
