(* ===== verification/JsRoundTrip.v ===== *)
(** * Objects read back

    What the parsers of [JsValues] make of a value whose tree is known ([reads]), and the
    round trip: the object that the application gets for a device, a pipe or an accessory,
    handed back, is read as [js_device] or [js_accessory] says, a pipe as it was.  The texts are
    cut; the serial number, the names of the interfaces and the string indices are lost; the
    maximal power of a configuration is doubled. *)

From S2P Require Import Prelude Text UsbErrors UsbTypes Marshalling Napi.
From S2P Require Import HostDriver ServiceHost Client JsValues JsLaws JsTrees.

#[local] Set Default Goal Selector "!".

Section Reading.
Context {E : Type} `{NA : Napi E} `{TC : TextCoding} `{NL : !NapiLaws E}.
Context `{UN : Uninitialised} `{EM : ErrorMessages}.
Implicit Types (e : E) (g : view).

(** ** Handles to trees *)
Definition value_at g h t : Prop := ∃ v, handles g !! h = Some v ∧ denotes (heap g) t v.
Definition object_at g h fields : Prop :=
  ∃ o props, plain_at g h = Some (o, props) ∧ fields_denote (heap g) fields props.
Definition list_at g h elements : Prop :=
  ∃ o l, array_at g h = Some (o, l) ∧ Forall2 (denotes (heap g)) elements l.

Lemma value_at_object g h fields : value_at g h (TObj fields) → object_at g h fields.
Proof.
  intros (v & Hh & (o & props & -> & Ho & Hf)%denotes_obj). exists o, props. split; [|done].
  by apply plain_at_ref.
Qed.
Lemma value_at_list g h elements : value_at g h (TArr elements) → list_at g h elements.
Proof.
  intros (v & Hh & (o & l & -> & Ho & Hf)%denotes_arr). exists o, l. split; [|done].
  by apply array_at_ref.
Qed.
Lemma value_at_type g h fields : value_at g h (TObj fields) → ∃ o, handles g !! h = Some (JRef o).
Proof. intros (v & Hh & (o & props & -> & Ho & Hf)%denotes_obj). eauto. Qed.

Lemma value_at_grown g g' h t : grown g g' → value_at g h t → value_at g' h t.
Proof.
  intros Hg (v & Hh & Ht). exists v. split; [by eapply grown_handle|].
  eapply denotes_mono; [|done]. apply grown_heap, Hg.
Qed.
Lemma object_at_handed g g' h fields : handed g g' → object_at g h fields → object_at g' h fields.
Proof.
  intros Hg (o & props & Hp & Hf). exists o, props. rewrite (handed_heap _ _ Hg).
  split; [by eapply handed_plain|done].
Qed.
Lemma list_at_handed g g' h elements : handed g g' → list_at g h elements → list_at g' h elements.
Proof.
  intros Hg (o & l & Hp & Hf). exists o, l. rewrite (handed_heap _ _ Hg).
  split; [by eapply handed_array|done].
Qed.

(** ** Reading the fields of an object, from [g0] on *)
Record reading g0 h fields e : Prop := {
  reading_quiet : thrown (look e) = None;
  reading_handed : handed g0 (look e);
  reading_object : object_at (look e) h fields;
}.

Lemma reading_start h fields e :
  thrown (look e) = None → value_at (look e) h (TObj fields) → reading (look e) h fields e.
Proof. intros. split; [done..|]. by apply value_at_object. Qed.
Lemma reading_on g0 h fields e e' : reading g0 h fields e → handed (look e) (look e') → reading g0 h fields e'.
Proof.
  intros [Hq Hh Ho] Hs. split; [by eapply handed_quiet|by etrans|by eapply object_at_handed].
Qed.

Lemma wp_read_int g0 h fields name old n (Q : Z → E → Prop) e :
  reading g0 h fields e → assoc name fields = Some (num n) → no_nul name →
  (∀ e', reading g0 h fields e' → Q (i32 n) e') → wp (JsObjectToInt h name old) Q e.
Proof.
  intros Hr Ha Hn HQ. destruct (reading_object _ _ _ _ Hr) as (o & props & Hp & Hf).
  destruct (fields_denote_lookup _ _ _ _ _ Hf Ha) as (w & Hw & ->).
  eapply wp_JsObjectToInt; [apply Hr|done..|]. intros. eauto using reading_on.
Qed.
Lemma wp_read_bool g0 h fields name old b (Q : bool → E → Prop) e :
  reading g0 h fields e → assoc name fields = Some (flag b) → no_nul name →
  (∀ e', reading g0 h fields e' → Q b e') → wp (JsObjectToBool h name old) Q e.
Proof.
  intros Hr Ha Hn HQ. destruct (reading_object _ _ _ _ Hr) as (o & props & Hp & Hf).
  destruct (fields_denote_lookup _ _ _ _ _ Hf Ha) as (w & Hw & ->).
  eapply wp_JsObjectToBool; [apply Hr|done..|]. intros. eauto using reading_on.
Qed.

(** What a text comes back as, in a buffer of [n] characters. *)
Definition js_text (n : Z) (s : string) : string := c_str (cut n (encode (c_str s))).

Lemma wp_read_text g0 h fields name n old s (Q : string → E → Prop) e :
  reading g0 h fields e → assoc name fields = Some (text s) → no_nul name → 0 < n →
  (∀ e', reading g0 h fields e' → Q (js_text n s) e') → wp (JsObjectToString h name n old) Q e.
Proof.
  intros Hr Ha Hn Hpos HQ. destruct (reading_object _ _ _ _ Hr) as (o & props & Hp & Hf).
  destruct (fields_denote_lookup _ _ _ _ _ Hf Ha) as (w & Hw & ->).
  eapply wp_JsObjectToString; [apply Hr|done..|]. intros. apply HQ. eauto using reading_on.
Qed.

Lemma wp_read_property g0 h fields name old t (Q : bool * Z → E → Prop) e :
  reading g0 h fields e → assoc name fields = Some t → no_nul name →
  (∀ f e', reading g0 h fields e' → value_at (look e') f t → Q (true, f) e') →
  wp (JsObjectGetProperty h name old) Q e.
Proof.
  intros Hr Ha Hn HQ. destruct (reading_object _ _ _ _ Hr) as (o & props & Hp & Hf).
  destruct (fields_denote_lookup _ _ _ _ _ Hf Ha) as (w & Hw & Ht).
  eapply wp_JsObjectGetProperty; [apply Hr|done..|]. intros f e' Hh Hfw.
  apply HQ; [by eapply reading_on|]. exists w. by rewrite (handed_heap _ _ Hh).
Qed.

(** The parser gives [a] for every value of the tree [t], and changes nothing. *)
Definition reads {A} (parse : Z → ST E A) (t : jtree) (a : A) : Prop :=
  ∀ h e, thrown (look e) = None → value_at (look e) h t →
    wp (parse h) (λ r e', r = a ∧ handed (look e) (look e')) e.

(** ** Reading the elements of an array *)

Lemma wp_get_element h elements i t (Q : Z * option Z → E → Prop) e :
  thrown (look e) = None → list_at (look e) h elements → elements !! i = Some t →
  (∀ f e', handed (look e) (look e') → value_at (look e') f t → Q (napi_ok, Some f) e') →
  wp (napi (napi_get_element h (Z.of_nat i))) Q e.
Proof.
  intros He (o & l & Hp & Hl) Hi HQ. destruct (Forall2_lookup_l _ _ _ _ _ Hl Hi) as (w & Hw & Ht).
  eapply wp_op; [done|cbn; by rewrite Hp|]. intros f e' Hf. cbn in Hf. rewrite Nat2Z.id, Hw in Hf. cbn in Hf.
  apply HQ; [by eapply new_handle_handed|]. exists w.
  rewrite (new_handle_heap _ _ _ _ Hf). split; [by eapply new_handle_lookup|done].
Qed.

Lemma wp_parse_elements {A B} (parse : Z → ST E A) (tree : B → jtree) (js : B → A) h bs :
  (∀ b, b ∈ bs → reads parse (tree b) (js b)) →
  ∀ rest k acc e, thrown (look e) = None → list_at (look e) h (tree <$> bs) →
    rest = drop k bs → (k ≤ length bs)%nat →
    wp (parse_elements parse h (seqZ (Z.of_nat k) (Z.of_nat (length rest))) acc)
       (λ r e', r = (true, acc ++ (js <$> rest)) ∧ handed (look e) (look e')) e.
Proof.
  intros Hbs rest. induction rest as [|b rest IH]; intros k acc e He Hl Hrest Hk.
  { apply wp_ret. by rewrite app_nil_r. }
  assert (Hb : bs !! k = Some b).
  { rewrite <- (Nat.add_0_r k), <- lookup_drop, <- Hrest. done. }
  rewrite seqZ_cons by (cbn; lia).
  replace (Z.pred (Z.of_nat (length (b :: rest)))) with (Z.of_nat (length rest)) by (cbn; lia).
  cbn [parse_elements]. apply wp_bind. eapply wp_get_element; [done|done|by rewrite list_lookup_fmap, Hb|].
  intros f e1 H1 Hf. cbn. apply wp_bind. eapply wp_mono.
  { apply Hbs; [by eapply list_elem_of_lookup_2|by eapply handed_quiet|exact Hf]. }
  intros a e2 [-> H2]. assert (H12 : handed (look e) (look e2)) by (by etrans).
  replace (Z.succ (Z.of_nat k)) with (Z.of_nat (S k)) by lia.
  eapply wp_mono.
  { apply IH; [by eapply handed_quiet|by eapply list_at_handed| |].
    - erewrite drop_S in Hrest by done. by injection Hrest.
    - apply lookup_lt_Some in Hb. lia. }
  intros r e3 [-> H3]. split; [|by etrans]. by rewrite <- app_assoc.
Qed.

Lemma wp_array_length h elements (Q : Z * option Z → E → Prop) e :
  thrown (look e) = None → list_at (look e) h elements →
  (∀ e', look e' = look e → Q (napi_ok, Some (Z.of_nat (length elements))) e') →
  wp (napi (napi_get_array_length h)) Q e.
Proof.
  intros He (o & l & Hp & Hl) HQ. eapply wp_op; [done|cbn; by rewrite Hp|].
  intros n e' [-> Hl']. cbn. rewrite <- (Forall2_length _ _ _ Hl). by apply HQ.
Qed.

Lemma wp_parse_array {A B} (parse : Z → ST E A) (tree : B → jtree) (js : B → A) bs g0 h fields name m1 m2
    (Q : bool * list A → E → Prop) e :
  reading g0 h fields e → assoc name fields = Some (TArr (tree <$> bs)) → no_nul name →
  (∀ b, b ∈ bs → reads parse (tree b) (js b)) →
  (∀ e', reading g0 h fields e' → Q (true, js <$> bs) e') →
  wp (parse_array parse h name m1 m2 []) Q e.
Proof.
  intros Hr Ha Hn Hbs HQ. apply wp_bind. eapply wp_read_property; [done..|]. intros f e1 H1 Hf.
  cbn. apply wp_bind. pose proof (value_at_list _ _ _ Hf) as Hl. destruct Hf as (v & Hv & _).
  assert (Hq1 := reading_quiet _ _ _ _ H1).
  eapply wp_op; [done|cbn; by rewrite Hv|]. intros b e2 [-> H2].
  destruct Hl as (o & l & Hp & Hl). rewrite Hp. cbn. apply wp_bind.
  eapply (wp_array_length _ (tree <$> bs)); [by rewrite H2|by exists o, l; rewrite H2|].
  intros e3 H3. cbn. rewrite length_fmap. eapply wp_mono.
  { apply (wp_parse_elements parse tree js f bs Hbs bs 0); [by rewrite H3, H2| |done|lia].
    exists o, l. by rewrite H3, H2. }
  intros r e4 [-> H4]. apply HQ. eapply reading_on; [exact H1|]. by rewrite H3, H2 in H4.
Qed.
End Reading.

Ltac read_field :=
  match goal with
  | Hr : reading _ _ _ _ |- _ =>
      apply wp_bind;
      first [eapply wp_read_int | eapply wp_read_text | eapply wp_read_bool];
      [exact Hr | reflexivity | reflexivity | .. ]; [first [reflexivity | idtac] ..| clear Hr; intros ? Hr]
  end.

(** ** What comes back *)
Section Objects.
Context {E : Type} `{NA : Napi E} `{TC : TextCoding} `{NL : !NapiLaws E}.
Context `{UN : Uninitialised} `{EM : ErrorMessages}.

Definition js_interface (i : UsbInterface.t) : UsbInterface.t :=
  UsbInterface.mk (UsbInterface.id_ i) (UsbInterface.protocol_ i) (UsbInterface.klass_ i)
    (UsbInterface.subClass_ i) (UsbInterface.alternateSetting_ i) "" (UsbInterface.endpoints_ i)
    UINT8_MAX true.
Definition js_config (c : USBConfig.t) : USBConfig.t :=
  USBConfig.mk (USBConfig.id_ c) (USBConfig.attributes_ c) (js_interface <$> USBConfig.interfaces_ c)
    (USBConfig.GetMaxPower c) (js_text DEFAULT_DESCRIPTION_SIZE (USBConfig.name_ c)) UINT8_MAX.
Definition js_device (d : UsbDevice.t) : UsbDevice.t :=
  UsbDevice.make (js_text DEFAULT_DESCRIPTION_SIZE (UsbDevice.name_ d))
    (js_text DEFAULT_DESCRIPTION_SIZE (UsbDevice.manufacturerName_ d))
    (js_text DEFAULT_DESCRIPTION_SIZE (UsbDevice.productName_ d))
    (js_text DEFAULT_DESCRIPTION_SIZE (UsbDevice.version_ d))
    (UsbDevice.devAddr_ d) (UsbDevice.busNum_ d) (UsbDevice.vendorId_ d) (UsbDevice.productId_ d)
    (UsbDevice.baseClass_ d) (UsbDevice.subClass_ d) (UsbDevice.protocol_ d)
    (js_config <$> UsbDevice.configs_ d).
Definition js_accessory (a : USBAccessory.t) : USBAccessory.t :=
  USBAccessory.make (js_text DEFAULT_ACCESSORY_DESCRIPTION_SIZE (USBAccessory.manufacturer_ a))
    (js_text DEFAULT_ACCESSORY_DESCRIPTION_SIZE (USBAccessory.product_ a))
    (js_text DEFAULT_ACCESSORY_DESCRIPTION_SIZE (USBAccessory.description_ a))
    (js_text DEFAULT_ACCESSORY_DESCRIPTION_SIZE (USBAccessory.version_ a))
    (js_text DEFAULT_ACCESSORY_DESCRIPTION_SIZE (USBAccessory.serialNumber_ a)).

(** The values that the C++ types of the members hold. *)
Definition sized_pipe (p : USBDevicePipe) : Prop := is_u8 (busNum_ p) ∧ is_u8 (devAddr_ p).
Definition sized_endpoint (ep : USBEndpoint.t) : Prop :=
  typed_endpoint ep ∧ is_u32 (USBEndpoint.address_ ep) ∧ is_u32 (USBEndpoint.attributes_ ep) ∧
  is_u8 (USBEndpoint.interfaceId_ ep).
Definition sized_interface (i : UsbInterface.t) : Prop :=
  typed_interface i ∧ Forall sized_endpoint (UsbInterface.endpoints_ i) ∧ countable_interface i.
Definition sized_config (c : USBConfig.t) : Prop :=
  typed_config c ∧ is_u32 (USBConfig.attributes_ c) ∧ Forall sized_interface (USBConfig.interfaces_ c) ∧
  countable_config c.
Definition sized_device (d : UsbDevice.t) : Prop :=
  typed_device d ∧ is_u8 (UsbDevice.devAddr_ d) ∧ is_u8 (UsbDevice.busNum_ d) ∧
  Forall sized_config (UsbDevice.configs_ d) ∧ countable_device d.

Lemma land_pow2 a n : 0 <= n → Z.land a (2 ^ n) = if Z.testbit a n then 2 ^ n else 0.
Proof.
  intros Hn. apply Z.bits_inj'. intros i Hi. rewrite Z.land_spec, Z.pow2_bits_eqb by done.
  destruct (Z.eqb_spec n i) as [->|Hne].
  - destruct (Z.testbit a i); [by rewrite Z.pow2_bits_true|by rewrite Z.bits_0].
  - rewrite andb_false_r. destruct (Z.testbit a n); [by rewrite Z.pow2_bits_false|by rewrite Z.bits_0].
Qed.
Lemma direction_in_or_out ep :
  i32 (USBEndpoint.GetDirection ep) = USB_ENDPOINT_DIR_IN ∨
  i32 (USBEndpoint.GetDirection ep) = USB_ENDPOINT_DIR_OUT.
Proof.
  unfold USBEndpoint.GetDirection. change USB_ENDPOINT_DIR_MASK with (2 ^ 7). rewrite land_pow2 by done.
  destruct (Z.testbit _ _); [by left|by right].
Qed.
Lemma u8_i8 z : is_u8 z → u8 (i32 (i8 z)) = z.
Proof.
  intros Hz. rewrite i32_id.
  - unfold u8, i8. rewrite Zminus_mod_idemp_l. replace (z + 2 ^ 7 - 2 ^ 7) with z by lia. by apply Z.mod_small.
  - unfold i8. pose proof (Z.mod_pos_bound (z + 2 ^ 7) (2 ^ 8)). width_lia.
Qed.

Lemma u8_i32_id z : is_u8 z → u8 (i32 z) = z.
Proof. intros Hz. rewrite i32_id by width_lia. by apply u8_id. Qed.

Lemma reads_pipe p : sized_pipe p → reads (λ obj, ParseUsbDevicePipe obj default_pipe) (pipe_tree p) p.
Proof.
  intros [Hb Ha] h e He Hv. destruct (value_at_type _ _ _ Hv) as [o Ho].
  apply wp_bind. eapply wp_type_of_value; [done..|]. intros e1 H1. cbn.
  assert (Hr : reading (look e) h
    [("busNum", num (GetBusNum p)); ("devAddress", num (GetDevAddr p))]%string e1).
  { eapply reading_on; [by apply reading_start|by rewrite H1]. }
  do 2 read_field. apply wp_ret. split; [|apply Hr]. destruct p as [b a].
  unfold SetDevAddr, SetBusNum, GetBusNum, GetDevAddr in *. cbn in *. by rewrite !u8_i32_id.
Qed.

Lemma reads_endpoint ep :
  sized_endpoint ep → reads (λ obj, ParseEndpointObj obj USBEndpoint.default) (endpoint_tree ep) ep.
Proof.
  intros (Ht & Ha & Hat & Hi) h e He Hv. pose proof (reading_start _ _ _ He Hv) as Hr.
  do 5 read_field. unfold USB_ASSERT_RETURN_VOID, USB_ASSERT_BASE.
  replace ((i32 (USBEndpoint.GetDirection ep) =? USB_ENDPOINT_DIR_IN)
           || (i32 (USBEndpoint.GetDirection ep) =? USB_ENDPOINT_DIR_OUT))%bool with true
    by (destruct (direction_in_or_out ep) as [-> | ->]; done).
  do 3 read_field. apply wp_ret. split; [|apply Hr].
  destruct ep as [a at' iv mp ifc], Ht as [Hiv Hmp]. cbn in *.
  unfold USBEndpoint.SetInterfaceId, USBEndpoint.set_interfaceId_, USBEndpoint.make,
    USBEndpoint.GetAddress, USBEndpoint.GetAttributes, USBEndpoint.GetInterval,
    USBEndpoint.GetMaxPacketSize, USBEndpoint.GetInterfaceId. cbn.
  rewrite u8_i8, !u32_i32, (i32_id iv), (i32_id mp), !i32_u32 by done. done.
Qed.

Lemma reads_interface i :
  sized_interface i → reads (λ obj, ParseInterfaceObj obj UsbInterface.default) (interface_tree i) (js_interface i).
Proof.
  intros (Ht & Heps & Hc) h e He Hv. pose proof (reading_start _ _ _ He Hv) as Hr.
  do 6 read_field. apply wp_bind.
  eapply (wp_parse_array _ endpoint_tree id); [exact Hr|done|done| |].
  { intros ep Hep. apply reads_endpoint. rewrite Forall_forall in Heps. by apply Heps. }
  clear Hr. intros ? Hr. apply wp_ret. split; [|apply Hr]. cbn [negb]. rewrite list_fmap_id.
  destruct i, Ht as (H1 & H2 & H3 & H4 & H5 & _). cbn in *.
  unfold UsbInterface.make, js_interface. cbn. by rewrite !i32_id.
Qed.

Lemma reads_config c :
  sized_config c → reads (λ obj, ParseConfigObj obj USBConfig.default) (config_tree c) (js_config c).
Proof.
  intros (Ht & Ha & Hi & Hc) h e He Hv. pose proof (reading_start _ _ _ He Hv) as Hr.
  do 6 read_field. apply wp_bind.
  eapply (wp_parse_array _ interface_tree js_interface); [exact Hr|done|done| |].
  { intros i Hin. apply reads_interface. rewrite Forall_forall in Hi. by apply Hi. }
  clear Hr. intros ? Hr. apply wp_ret. split; [|apply Hr]. cbn [negb].
  destruct c, Ht as (H1 & H2 & _). cbn in *. unfold USBConfig.make, js_config, USBConfig.GetMaxPower. cbn.
  rewrite !(i32_id (i32 _)), !i32_u32, u32_i32, (i32_id id_) by auto using i32_range. done.
Qed.

(** The loop that does not look at the status does the same, as long as all is well. *)
Lemma parse_configs_elements h indices : ∀ acc e,
  (parse_elements (λ obj, ParseConfigObj obj USBConfig.default) h indices acc e).1.1 = true →
  parse_configs h indices acc e =
  let r := parse_elements (λ obj, ParseConfigObj obj USBConfig.default) h indices acc e in (r.1.2, r.2).
Proof.
  induction indices as [|i indices IH]; intros acc e; [done|]. cbn [parse_elements parse_configs].
  rewrite !bind_unfold. destruct (napi (napi_get_element h i) e) as [[status element] e1]. cbn.
  unfold NAPI_CHECK_RETURN_FALSE. destruct (status =? napi_ok); [|done]. rewrite !bind_unfold. apply IH.
Qed.

Lemma wp_parse_configs h cs (Q : list USBConfig.t → E → Prop) e :
  thrown (look e) = None → list_at (look e) h (config_tree <$> cs) → Forall sized_config cs →
  (∀ e', handed (look e) (look e') → Q (js_config <$> cs) e') →
  wp (parse_configs h (seqZ 0 (Z.of_nat (length cs))) []) Q e.
Proof.
  intros He Hl Hcs HQ.
  assert (Hrun : wp (parse_elements (λ obj, ParseConfigObj obj USBConfig.default) h (seqZ 0 (Z.of_nat (length cs))) [])
    (λ r e', r = (true, [] ++ (js_config <$> cs)) ∧ handed (look e) (look e')) e).
  { apply (wp_parse_elements _ config_tree js_config h cs) with (k := 0%nat); [|done..|lia].
    intros c Hc. apply reads_config. rewrite Forall_forall in Hcs. by apply Hcs. }
  destruct Hrun as [Hr Hh]. unfold wp. rewrite parse_configs_elements by (by rewrite Hr).
  cbn. rewrite Hr. by apply HQ.
Qed.

Lemma reads_device d :
  sized_device d → reads (λ obj, ParseDeviceObj obj UsbDevice.default) (device_tree d) (js_device d).
Proof.
  intros (Ht & Ha & Hb & Hcs & Hc) h e He Hv. pose proof (reading_start _ _ _ He Hv) as Hr.
  do 12 read_field. apply wp_bind. unfold ParseConfigsObjs.
  apply wp_bind. eapply wp_read_property; [exact Hr|done|done|]. clear Hr. intros f e1 Hr Hf. cbn.
  assert (Hq := reading_quiet _ _ _ _ Hr). pose proof (value_at_list _ _ _ Hf) as Hl.
  destruct Hf as (v & Hfv & (o & l & -> & _)%denotes_arr).
  apply wp_bind. eapply wp_type_of_value; [done..|]. intros e2 H2. cbn.
  apply wp_bind. eapply wp_array_length; [by rewrite H2|by rewrite H2|]. intros e3 H3. cbn.
  rewrite length_fmap. rewrite H2 in H3.
  eapply wp_parse_configs; [by rewrite H3|by rewrite H3|done|]. intros e4 H4. rewrite H3 in H4.
  apply wp_ret. split; [|etrans; [apply Hr|done]].
  destruct d, Ht as (T1 & T2 & T3 & T4 & T5 & _). cbn in *. unfold js_device. cbn.
  rewrite !u8_i32_id, !i32_id by done. done.
Qed.

Lemma reads_accessory a :
  reads (λ obj, ParseAccessoryObj obj USBAccessory.default) (accessory_tree a) (js_accessory a).
Proof.
  intros h e He Hv. pose proof (reading_start _ _ _ He Hv) as Hr.
  do 5 read_field. apply wp_ret. split; [done|apply Hr].
Qed.

(** ** Short texts are not cut *)
Definition short_text (n : Z) (s : string) : Prop :=
  ascii_text s ∧ no_nul s ∧ Z.of_nat (String.length s) <= n.
Lemma js_text_short n s : short_text n s → js_text n s = s.
Proof.
  intros (Ha & Hn & Hl). unfold js_text. rewrite Hn, encode_ascii, cut_short by done. done.
Qed.

(** ** Round trips *)

(** A program that builds the value, and one that reads it. *)
Lemma build_then_read {A} (make : ST E Z) (parse : Z → ST E A) t a e :
  thrown (look e) = None → builds make t → reads parse t a →
  wp (obj ← make; parse obj) (λ r e', r = a ∧ grown (look e) (look e')) e.
Proof.
  intros He Hm Hp. apply wp_bind. eapply wp_mono; [by apply Hm|]. intros h e1 (Hg & _ & v & Hv & Ht).
  assert (He1 : thrown (look e1) = None) by (by eapply grown_quiet).
  eapply wp_mono.
  { apply Hp; [done|]. exists v. split; [done|]. eapply denotes_mono; [|exact Ht].
    apply map_subseteq_difference_l. done. }
  intros r e2 [-> H2]. split; [done|]. etrans; [done|]. by apply handed_grown.
Qed.

(** C22: the object that an application gets for a device, handed back, is read as the device
    that [js_device] says, whatever its tree.  The bus and the address, the numbers of the
    vendor and the product, and the classes of the device are the same, and so are the
    endpoints, and the numbers of each configuration and interface, in their order.  The
    texts of the device and of a configuration end at their first NUL and are cut at the
    size of the buffer that they are read into (32 bytes).  The other members are not the same: the name of an interface
    is empty afterwards ([UsbInterface]'s constructor drops it) and its authorization and
    its string index are those of a new interface; the serial number, the authorization,
    the string indices and the remaining numbers of the device descriptor are those of a new
    device; and the maximal power of a configuration is doubled. *)
Theorem device_js_roundtrip d obj e (He : thrown (look e) = None) (Hd : sized_device d) :
  wp (obj ← CtoJSUsbDevice obj d; ParseDeviceObj obj UsbDevice.default)
     (λ d' e', d' = js_device d ∧ grown (look e) (look e')) e.
Proof. apply (build_then_read _ _ (device_tree d)); [done|apply builds_device, Hd|by apply reads_device]. Qed.

Lemma pipe_js_roundtrip p obj e (He : thrown (look e) = None) (Hp : sized_pipe p) :
  wp (obj ← CreateUsbDevicePipe obj p; ParseUsbDevicePipe obj default_pipe)
     (λ p' e', p' = p ∧ grown (look e) (look e')) e.
Proof. apply (build_then_read _ _ (pipe_tree p)); [done|apply builds_pipe|by apply reads_pipe]. Qed.

Lemma accessory_js_roundtrip a obj e (He : thrown (look e) = None) :
  wp (obj ← CtoJSUSBAccessory obj a; ParseAccessoryObj obj USBAccessory.default)
     (λ a' e', a' = js_accessory a ∧ grown (look e) (look e')) e.
Proof. apply (build_then_read _ _ (accessory_tree a)); [done|apply builds_accessory|apply reads_accessory]. Qed.
End Objects.
