(* ===== verification/Platform.v ===== *)
(** * What the bindings need of the system

    The JavaScript bindings ([JsWorld]) and those for ArkTS ([TaiheWorld]) run in the process
    of the application.  This file has what both use of it: the parts that the build
    includes, the calls of the operating system, codes of other libraries and the bounded
    copy. *)

From S2P Require Import Prelude Napi.

#[local] Set Default Goal Selector "!".

(** ** The build *)
Class Features := {
  USB_MANAGER_FEATURE_HOST : bool;
  USB_MANAGER_FEATURE_DEVICE : bool;
  USB_MANAGER_FEATURE_PORT : bool;
}.

(** ** The system *)

(** The operating system: [close], the allocator (an address, if there is memory), and the
    shared memory ([Ashmem]: its descriptor, its size). *)
Class System (O : Type) := {
  close : Z → ST O unit;
  allocate : ST O (option Z);
  CreateAshmem : string → Z → ST O (option (Z * Z));
  MapReadAndWriteAshmem : Z → ST O unit;
  WriteToAshmem : Z → list Z → ST O bool;
  ReadFromAshmem : Z → Z → ST O (option (list Z));
  UnmapAshmem : Z → ST O unit;
  CloseAshmem : Z → ST O unit;
}.

(** Codes of the driver framework and of the base library that the bindings compare with. *)
Class JsErrBase := {
  HDF_DEV_ERR_NO_DEVICE : Z;
  ERR_INVALID_VALUE : Z;
}.

(** [memcpy_s(dest, destMax, src, count)] of the library [bounds_checking_function]: its
    code, and what it writes to the destination, if anything (after an error it may clear
    the destination). *)
Class Securec := memcpy_s : Z → Z → list Z → Z * option (list Z).
Definition EOK : Z := 0.
Definition SECUREC_MEM_MAX_LEN : Z := 2 ^ 31 - 1.
Class SecurecLaws `{Securec} := {
  memcpy_s_ok dest destMax src :
    dest ≠ nullptr → 0 < Z.of_nat (length src) ≤ destMax → destMax ≤ SECUREC_MEM_MAX_LEN →
    memcpy_s dest destMax src = (EOK, Some src);
  memcpy_s_bound dest destMax src ret l :
    memcpy_s dest destMax src = (ret, Some l) → Z.of_nat (length l) ≤ destMax;
}.
