(* ===== verification/JsWorld.v ===== *)
(** * The bindings' world

    The state that the native functions of [interfaces/kits/js/napi] work on: the engine,
    the client library and what lies behind it, the descriptor of the open accessory
    ([g_accFd]), the contexts of the asynchronous works ([usb_async_context.h],
    [serial_async_context.h]) and those of the submitted transfers; and the checks with
    which a native function starts.

    A native function gives the handle that it returns, or [None] when it goes through a
    null pointer.  Memory that the code allocates with [new (std::nothrow)] comes from the
    class [System], and can be refused. *)

From S2P Require Import Prelude UsbErrors UsbTypes Napi.
From S2P Require Import HostDriver HostEvents HostPolicy ServiceHost ServiceSerial ServiceGate ServicePorts Client.
From S2P Require Import Platform JsValues.

#[local] Set Default Goal Selector "!".

(** ** The parts of the build *)
(** [usb_info.cpp:86-90] [UsbManagerFeature] *)
Inductive UsbManagerFeature := FEATURE_HOST | FEATURE_DEVICE | FEATURE_PORT.
(** [usb_info.cpp:92-116] [HasFeature] *)
Definition HasFeature `{Features} (feature : UsbManagerFeature) : bool :=
  match feature with
  | FEATURE_HOST => USB_MANAGER_FEATURE_HOST
  | FEATURE_DEVICE => USB_MANAGER_FEATURE_DEVICE
  | FEATURE_PORT => USB_MANAGER_FEATURE_PORT
  end.

(** ** Contexts of asynchronous works *)

(** A buffer: bytes of a typed array, at its address, or the native copy that a transfer to
    the device gets. *)
Inductive Buffer := ArrayBytes (address : Z) | NativeCopy (bytes : list Z).

(** [usb_async_context.h:63-69] [USBAsyncContext] *)
Record USBAsyncContext := mk_USBAsyncContext { work : Z; deferred : Z; status : Z }.
(** [usb_async_context.h:71-74] [USBRightAsyncContext] *)
Record USBRightAsyncContext := mk_USBRightAsyncContext { r_deviceName : string }.
(** [usb_async_context.h:76-80] [USBAccessoryRightAsyncContext] *)
Record USBAccessoryRightAsyncContext := mk_USBAccessoryRightAsyncContext {
  ar_accessory : USBAccessory.t; ar_hasRight : bool; ar_errCode : Z }.
(** [usb_async_context.h:82-85] [USBFunctionAsyncContext] *)
Record USBFunctionAsyncContext := mk_USBFunctionAsyncContext { f_functions : Z; f_errCode : Z }.
(** [usb_async_context.h:87-92] [USBPortRoleAsyncContext] *)
Record USBPortRoleAsyncContext := mk_USBPortRoleAsyncContext {
  pr_portId : Z; pr_powerRole : Z; pr_dataRole : Z; pr_errCode : Z }.
(** [usb_async_context.h:94-106] [USBControlTransferAsyncContext] *)
Record USBControlTransferAsyncContext := mk_USBControlTransferAsyncContext {
  c_pipe : USBDevicePipe; c_request : Z; c_target : Z; c_reqType : Z; c_value : Z; c_index : Z;
  c_buffer : Buffer; c_bufferLength : Z; c_dataSize : Z; c_timeOut : Z }.
(** [usb_async_context.h:108-119] [USBDeviceControlTransferAsyncContext] *)
Record USBDeviceControlTransferAsyncContext := mk_USBDeviceControlTransferAsyncContext {
  d_pipe : USBDevicePipe; d_reqType : Z; d_request : Z; d_value : Z; d_index : Z; d_length : Z;
  d_buffer : Buffer; d_bufferLength : Z; d_dataSize : Z; d_timeOut : Z }.
(** [usb_async_context.h:121-128] [USBBulkTransferAsyncContext] *)
Record USBBulkTransferAsyncContext := mk_USBBulkTransferAsyncContext {
  b_buffer : Buffer; b_bufferLength : Z; b_dataSize : Z; b_timeOut : Z; b_pipe : USBDevicePipe;
  b_endpoint : USBEndpoint.t }.
(** [serial_async_context.h:68-77] [SerialWriteAsyncContext] *)
Record SerialWriteAsyncContext := mk_SerialWriteAsyncContext {
  sw_contextErrno : Z; sw_ret : Z; sw_portId : Z; sw_size : Z; sw_timeout : Z; sw_pData : Z }.
(** [serial_async_context.h:79-88] [SerialReadAsyncContext] *)
Record SerialReadAsyncContext := mk_SerialReadAsyncContext {
  sr_contextErrno : Z; sr_ret : Z; sr_portId : Z; sr_size : Z; sr_timeout : Z; sr_pData : Z }.
(** [serial_async_context.h:90-96] [SerialRequestRightAsyncContext] *)
Record SerialRequestRightAsyncContext := mk_SerialRequestRightAsyncContext {
  rr_contextErrno : Z; rr_hasRight : bool; rr_portIdValue : Z }.

(** A work is known by its context: with it go its [execute] and its [complete]. *)
Inductive Context_ :=
  | RequestRightWork (c : USBRightAsyncContext)
  | RequestAccessoryRightWork (c : USBAccessoryRightAsyncContext)
  | SetCurrentFunctionsWork (c : USBFunctionAsyncContext)
  | SetPortRoleWork (c : USBPortRoleAsyncContext)
  | ControlTransferWork (c : USBControlTransferAsyncContext)
  | UsbControlTransferWork (c : USBDeviceControlTransferAsyncContext)
  | BulkTransferWork (c : USBBulkTransferAsyncContext)
  | SerialWriteWork (c : SerialWriteAsyncContext)
  | SerialReadWork (c : SerialReadAsyncContext)
  | SerialRequestRightWork (c : SerialRequestRightAsyncContext).

(** A work that the engine has in its queue: [execute] has run or has not. *)
Record Task := mk_Task { base : USBAsyncContext; context : Context_; executed : bool }.

(** ** Submitted transfers *)
(** [usb_async_context.h:146-162] [USBTransferAsyncContext] *)
Record USBTransferAsyncContext := mk_USBTransferAsyncContext {
  t_pipe : USBDevicePipe; t_endpoint : Z; t_flags : Z; t_type : Z; t_timeOut : Z; t_length : Z;
  t_bufferLength : Z; t_ashmem : option (Z * Z); t_buffer : Z; t_numIsoPackets : Z; t_callbackRef : Z }.
(** [usb_async_context.h:130-139] [AsyncCallBackContext] *)
Record AsyncCallBackContext := mk_AsyncCallBackContext {
  cb_callbackRef : Z; cb_actualLength : Z; cb_status : Z; cb_isoInfo : list (Z * Z * Z) }.
(** The task that [JsCallBack] sends to the engine's thread, and the transfer that it deletes
    at its end. *)
Record CallbackEvent := mk_CallbackEvent { ce_context : AsyncCallBackContext; ce_transfer : Z }.

Section World.
Context {E A S O : Type} `{NA : Napi E} `{UN : Uninitialised} `{EM : ErrorMessages}.
Context `{EB : ErrBase} `{AC : AbilityAccess A} `{UA : UsbAbility} `{US : UsbServer S}.
Context `{FE : Features} `{SY : System O}.

(** [usb_info.cpp:63-63] [g_accFd] and what else the bindings reach *)
Record world := mk_world {
  engine : E;
  lib : Client.st (A := A) (S := S);
  system : O;
  g_accFd : Z;
  (** the queue of works *)
  tasks : list Task;
  (** the contexts of the submitted transfers, by address, and the events on their way *)
  transfers : gmap Z USBTransferAsyncContext;
  events : list CallbackEvent;
}.

Definition set_engine (x : E) w := mk_world x (lib w) (system w) (g_accFd w) (tasks w) (transfers w) (events w).
Definition set_lib x w := mk_world (engine w) x (system w) (g_accFd w) (tasks w) (transfers w) (events w).
Definition set_system x w := mk_world (engine w) (lib w) x (g_accFd w) (tasks w) (transfers w) (events w).
Definition set_g_accFd x w := mk_world (engine w) (lib w) (system w) x (tasks w) (transfers w) (events w).
Definition set_tasks x w := mk_world (engine w) (lib w) (system w) (g_accFd w) x (transfers w) (events w).
Definition set_transfers x w := mk_world (engine w) (lib w) (system w) (g_accFd w) (tasks w) x (events w).
Definition set_events x w := mk_world (engine w) (lib w) (system w) (g_accFd w) (tasks w) (transfers w) x.

Definition on_engine {X} (m : ST E X) : ST world X :=
  λ w, let '(x, e) := m (engine w) in (x, set_engine e w).
Definition on_lib {X} (m : ST (Client.st (A := A) (S := S)) X) : ST world X :=
  λ w, let '(x, l) := m (lib w) in (x, set_lib l w).
Definition on_system {X} (m : ST O X) : ST world X :=
  λ w, let '(x, o) := m (system w) in (x, set_system o w).

(** ** Native functions *)

Abbreviation Native := (ST world (option Z)).

(** A call of the client library, and what follows unless it goes through a null pointer. *)
Definition invoke {X R} (m : ST (Client.st (A := A) (S := S)) (option X)) (k : X → ST world (option R))
    : ST world (option R) :=
  r ← on_lib m;
  match r with None => mret None | Some x => k x end.

Definition give (value : Z) : Native := mret (Some value).
Definition throw (errCode : Z) (errMsg : string) : ST world unit :=
  on_engine (ThrowBusinessError errCode errMsg).

(** The first lines of a native function, without the feature. *)
Definition require_feature (feature : UsbManagerFeature) (k : Native) : Native :=
  if negb (HasFeature feature) then throw CAPABILITY_NOT_SUPPORT "" ;; give nullptr else k.

(** [usb_napi_errors.h:101-101] [USB_ASSERT] *)
Definition USB_ASSERT (assertion : bool) (errCode : Z) (errMsg : string) (k : Native) : Native :=
  if assertion then k else throw errCode errMsg ;; give nullptr.
(** [usb_napi_errors.h:105-110] [USB_ASSERT_RETURN_UNDEF] *)
Definition USB_ASSERT_RETURN_UNDEF (assertion : bool) (errCode : Z) (errMsg : string) (k : Native) : Native :=
  obj ← on_engine (get_undefined nullptr);
  if assertion then k else throw errCode errMsg ;; give obj.
(** [usb_napi_errors.h:112-120] [NAPI_CHECK] *)
Definition NAPI_CHECK (status : Z) (k : Native) : Native :=
  if status =? napi_ok then k
  else obj ← on_engine (get_undefined nullptr); give obj.

(** [napi_get_cb_info] with room for [argc] arguments, which hold null pointers: the status,
    the number of arguments, and the array. *)
Definition cb_info (info argc : Z) : ST world (Z * Z * list Z) :=
  '(status, out) ← on_engine (napi (napi_get_cb_info info argc));
  mret (match out with
        | Some (given, argv) => (status, given, argv)
        | None => (status, argc, replicate (Z.to_nat argc) nullptr)
        end).
Definition arg (argv : list Z) (i : nat) : Z := default nullptr (argv !! i).

(** [napi_typeof], with its status and the type that the variable then holds. *)
Definition typeof (value : Z) (type : napi_valuetype) : ST world (Z * napi_valuetype) :=
  '(status, out) ← on_engine (napi (napi_typeof value));
  mret (status, default type out).

(** [napi_get_value_int32] and its neighbours, without a look at the status. *)
Definition get_int32 (value old : Z) : ST world Z :=
  '(_, out) ← on_engine (napi (napi_get_value_int32 value)); mret (default old out).
Definition get_uint32 (value old : Z) : ST world Z :=
  '(_, out) ← on_engine (napi (napi_get_value_uint32 value)); mret (default old out).
Definition get_bool (value : Z) (old : bool) : ST world bool :=
  '(_, out) ← on_engine (napi (napi_get_value_bool value)); mret (default old out).

(** The argument [i] must have the type [t]. *)
Definition require_type (argv : list Z) (i : nat) (t : napi_valuetype) (errMsg : string) (k : Native) : Native :=
  '(status, type) ← typeof (arg argv i) any_type;
  NAPI_CHECK status (USB_ASSERT (is_type type t) OHEC_COMMON_PARAM_ERROR errMsg k).
(** The same where the code does not look at the status of [napi_typeof]; the variable holds
    [type] before. *)
Definition require_type_unchecked (type : napi_valuetype) (argv : list Z) (i : nat) (t : napi_valuetype)
    (errMsg : string) (k : Native) : Native :=
  '(_, type) ← typeof (arg argv i) type;
  USB_ASSERT (is_type type t) OHEC_COMMON_PARAM_ERROR errMsg k.

(** At least [n] arguments. *)
Definition require_arguments (info n cap : Z) (errMsg : string) (k : Z → list Z → Native) : Native :=
  '(status, argc, argv) ← cb_info info cap;
  NAPI_CHECK status (USB_ASSERT (n <=? argc) OHEC_COMMON_PARAM_ERROR errMsg (k argc argv)).
End World.
Arguments world : clear implicits.
