(* ===== verification/JsCalls.v ===== *)
(** * The native functions that answer at once

    [interfaces/kits/js/napi/src/usb_info.cpp]: the functions of the module [usbManager] that
    return their result, its constants, and the table of what it exports.  [info] is the
    [napi_callback_info] of the call. *)

From S2P Require Import Prelude Text UsbErrors UsbTypes Napi.
From S2P Require Import HostDriver HostEvents HostPolicy ServiceHost ServiceSerial ServiceGate ServicePorts Client.
From S2P Require Import JsValues Platform JsWorld.
From S2P Require PortManager.

#[local] Set Default Goal Selector "!".

(** [usb_info.cpp:55-59] [PARAM_COUNT_0] *)
Definition PARAM_COUNT_0 : Z := 0.
(** [usb_info.cpp:56-56] [PARAM_COUNT_1] *)
Definition PARAM_COUNT_1 : Z := 1.
(** [usb_info.cpp:57-57] [PARAM_COUNT_2] *)
Definition PARAM_COUNT_2 : Z := 2.
(** [usb_info.cpp:58-58] [PARAM_COUNT_3] *)
Definition PARAM_COUNT_3 : Z := 3.
(** [usb_info.cpp:59-59] [PARAM_COUNT_4] *)
Definition PARAM_COUNT_4 : Z := 4.

(** [usb_errors.h:30-31] [PERMISSION_DENIED_SYSAPI] *)
Definition PERMISSION_DENIED_SYSAPI : string := "PERMISSION_DENIED_SYSAPI".
Definition SYS_APP_PERMISSION_DENIED_SYSAPI : string := "SYS_APP_PERMISSION_DENIED_SYSAPI".

(** [usb_srv_client.h:37-40] [SEVVERSION] *)
Definition SEVVERSION : string := "001" +:+ "." +:+ "001" +:+ "." +:+ "025".

Section JsCalls.
Context {E A S O : Type} `{NA : Napi E} `{UN : Uninitialised} `{EM : ErrorMessages}.
Context `{EB : ErrBase} `{AC : AbilityAccess A} `{UA : UsbAbility} `{US : UsbServer S}.
Context `{FE : Features} `{SY : System O} `{JE : JsErrBase}.
Abbreviation world := (JsWorld.world E A S O).
Abbreviation Native := (ST world (option Z)).

(** The two messages with which most functions start. *)
Definition one_argument : string := "The function at least takes one argument.".
Definition two_arguments : string := "The function at least takes two arguments.".

(** [usb_info.cpp:1129-1132] [CoreUsbFunctionsFromString] [USB_ASSERT_RETURN_UNDEF] for the two codes of a system interface. *)
Definition check_sysapi (ret : Z) (k : Native) : Native :=
  USB_ASSERT_RETURN_UNDEF (negb (ret =? UEC_SERVICE_PERMISSION_DENIED_SYSAPI))
    OHEC_COMMON_NORMAL_APP_NOT_ALLOWED ""
    (USB_ASSERT_RETURN_UNDEF (negb (ret =? UEC_SERVICE_PERMISSION_DENIED_SYSAPI_FAILED))
       OHEC_COMMON_PERMISSION_NOT_ALLOWED "" k).

(** [napi_get_boolean], [napi_create_int32] and [napi_get_undefined] into the result. *)
Definition give_boolean (b : bool) (old : Z) : Native := v ← on_engine (get_boolean b old); give v.
Definition give_int32 (n old : Z) : Native := v ← on_engine (create_int32 n old); give v.
Definition give_undefined (old : Z) : Native := v ← on_engine (get_undefined old); give v.

(** ** The core functions *)

(** [usb_info.cpp:559-567] [CoreGetDevices] The loop of [CoreGetDevices] and [DeviceGetAccessoryList]: it also creates an object
    that it does not use. *)
Fixpoint give_list {T} (make : T → ST E Z) (result : Z) (l : list T) (i : Z) : ST E unit :=
  match l with
  | [] => mret tt
  | x :: l =>
      create_object any_value ;;
      device ← make x;
      set_element result i device ;;
      give_list make result l (i + 1)
  end.

(** [usb_info.cpp:538-570] [CoreGetDevices] *)
Definition CoreGetDevices (info : Z) : Native :=
  require_feature FEATURE_HOST
    ('(_, argc, argv) ← cb_info info PARAM_COUNT_1;
     USB_ASSERT (argc =? PARAM_COUNT_0) OHEC_COMMON_PARAM_ERROR "The function takes no arguments."
       (invoke (GetDevices []) (λ '(ret, deviceList),
          result ← on_engine (create_array any_value);
          if failed ret then give result
          else on_engine (give_list (CtoJSUsbDevice any_value) result deviceList 0) ;; give result))).

(** [usb_info.cpp:572-603] [DeviceGetAccessoryList] *)
Definition DeviceGetAccessoryList (info : Z) : Native :=
  require_feature FEATURE_DEVICE
    ('(_, argc, argv) ← cb_info info PARAM_COUNT_1;
     USB_ASSERT (argc =? PARAM_COUNT_0) OHEC_COMMON_PARAM_ERROR "The function takes no arguments."
       (invoke (GetAccessoryList []) (λ '(ret, accessoryList),
          if ret =? UEC_OK then
            result ← on_engine (create_array any_value);
            on_engine (give_list (CtoJSUSBAccessory any_value) result accessoryList 0) ;;
            give result
          else throw UEC_COMMON_SERVICE_EXCEPTION "Service exception" ;; give nullptr))).

(** [usb_info.cpp:605-636] [CoreConnectDevice] *)
Definition CoreConnectDevice (info : Z) : Native :=
  require_feature FEATURE_HOST
    (require_arguments info PARAM_COUNT_1 PARAM_COUNT_1 one_argument (λ argc argv,
       require_type argv 0 napi_object "The type of device must be USBDevice."
         (dev ← on_engine (ParseDeviceObj (arg argv 0) UsbDevice.default);
          invoke (OpenDevice dev default_pipe) (λ '(ret, pipe),
            if ret =? UEC_OK then
              pipObj ← on_engine (CreateUsbDevicePipe nullptr pipe);
              give pipObj
            else if (ret =? UEC_SERVICE_PERMISSION_DENIED) || (ret =? UEC_INTERFACE_PERMISSION_DENIED) then
              throw UEC_COMMON_HAS_NO_RIGHT "need call requestRight to get the permission" ;;
              give nullptr
            else give_undefined nullptr)))).

(** [usb_info.cpp:638-680] [DeviceOpenAccessory] *)
Definition DeviceOpenAccessory (info : Z) : Native :=
  require_feature FEATURE_DEVICE
    (require_arguments info PARAM_COUNT_1 PARAM_COUNT_1 one_argument (λ argc argv,
       require_type argv 0 napi_object "The type of device must be USBAccessory."
         (accessory ← on_engine (ParseAccessoryObj (arg argv 0) USBAccessory.default);
          invoke (OpenAccessory accessory (-1)) (λ '(ret, fd),
            if ret =? UEC_OK then
              modify (set_g_accFd fd) ;;
              handleObj ← on_engine (CreatAccessoryHandle nullptr fd);
              give handleObj
            else
              (if (ret =? UEC_SERVICE_PERMISSION_DENIED) || (ret =? UEC_INTERFACE_PERMISSION_DENIED) then
                 throw UEC_COMMON_HAS_NO_RIGHT "Call requestAccessoryRight to get the permission first"
               else if ret =? UEC_SERVICE_ACCESSORY_NOT_MATCH then
                 throw UEC_ACCESSORY_NOT_MATCH "Get accessory through getAccessoryList"
               else if ret =? UEC_SERVICE_ACCESSORY_OPEN_NATIVE_NODE_FAILED then
                 throw UEC_ACCESSORY_OPEN_FAILED "Failed to open the native accessory node"
               else if ret =? UEC_SERVICE_ACCESSORY_REOPEN then
                 throw UEC_ACCESSORY_CAN_NOT_REOPEN "Cannot reopen accessory"
               else throw UEC_COMMON_SERVICE_EXCEPTION "Service exception") ;;
              give nullptr)))).

(** [usb_info.cpp:682-712] [DeviceCloseAccessory] the descriptor is closed, and the service told, after the exception too *)
Definition DeviceCloseAccessory (info : Z) : Native :=
  require_feature FEATURE_DEVICE
    (require_arguments info PARAM_COUNT_1 PARAM_COUNT_1 one_argument (λ argc argv,
       require_type argv 0 napi_object "The type of device must be USBAccessoryHandle."
         (accessoryFd ← on_engine (JsObjectToInt (arg argv 0) "accessoryFd" any_int);
          accFd ← gets g_accFd;
          mwhen ((accessoryFd =? 0) || negb (accessoryFd =? accFd) || (accFd =? 0))
            (throw OHEC_COMMON_PARAM_ERROR "Parameter accessoryHandle error, need openAccessory first.") ;;
          on_system (close accessoryFd) ;;
          invoke (CloseAccessory accFd) (λ ret,
            modify (set_g_accFd 0) ;;
            mwhen (failed ret) (throw UEC_COMMON_SERVICE_EXCEPTION "Service exception") ;;
            give nullptr)))).

(** [usb_info.cpp:725-729] [DeviceAddRight] A text argument, whose type is checked. *)
Definition text_argument (argv : list Z) (i : nat) (errMsg : string) (k : string → Native) : Native :=
  require_type argv i napi_string errMsg
    (s ← on_engine (JsValueToString (arg argv i) STR_DEFAULT_SIZE ""); k s).

(** [usb_info.cpp:714-749] [DeviceAddRight] *)
Definition DeviceAddRight (info : Z) : Native :=
  require_feature FEATURE_HOST
    (require_arguments info PARAM_COUNT_2 PARAM_COUNT_2 "The function at least takes two argument." (λ argc argv,
       text_argument argv 0 "The type of bundleName must be string." (λ bundleName,
       text_argument argv 1 "The type of deviceName must be string." (λ deviceName,
         invoke (AddRight bundleName deviceName) (λ ret,
           if ret =? UEC_OK then give_boolean true any_value
           else check_sysapi ret (give_boolean false any_value)))))).

(** [usb_info.cpp:751-796] [DeviceAddAccessoryRight] *)
Definition DeviceAddAccessoryRight (info : Z) : Native :=
  require_feature FEATURE_DEVICE
    (require_arguments info PARAM_COUNT_2 PARAM_COUNT_2 "The function at least takes two argument." (λ argc argv,
       require_type argv 0 napi_number "The type of tokenId must be number."
         (tokenId ← get_uint32 (arg argv 0) any_int;
          require_type argv 1 napi_object "The type of device must be USBAccessory."
            (accessory ← on_engine (ParseAccessoryObj (arg argv 1) USBAccessory.default);
             invoke (AddAccessoryRight tokenId accessory) (λ ret,
               if ret =? UEC_OK then give nullptr
               else if ret =? UEC_SERVICE_GET_TOKEN_INFO_FAILED then
                 throw OHEC_COMMON_PARAM_ERROR "" ;; give nullptr
               else if ret =? UEC_SERVICE_ACCESSORY_NOT_MATCH then
                 throw OHEC_COMMON_PARAM_ERROR "Get accessory through getAccessoryList" ;; give nullptr
               else if ret =? UEC_SERVICE_DATABASE_OPERATION_FAILED then
                 throw UEC_COMMON_RIGHT_DATABASE_ERROR "Database request operation exception" ;; give nullptr
               else
                 check_sysapi ret
                   (throw UEC_COMMON_SERVICE_EXCEPTION "Service exception" ;; give nullptr)))))).

(** [usb_info.cpp:798-833] [DeviceAddAccessRight] *)
Definition DeviceAddAccessRight (info : Z) : Native :=
  require_feature FEATURE_HOST
    (require_arguments info PARAM_COUNT_2 PARAM_COUNT_2 "The function at least takes two argument." (λ argc argv,
       text_argument argv 0 "The type of tokenId must be string." (λ tokenId,
       text_argument argv 1 "The type of deviceName must be string." (λ deviceName,
         invoke (AddAccessRight tokenId deviceName) (λ ret,
           if ret =? UEC_OK then give_boolean true any_value
           else check_sysapi ret (give_boolean false any_value)))))).

(** [usb_info.cpp:835-862] [DeviceRemoveRight] *)
Definition DeviceRemoveRight (info : Z) : Native :=
  require_feature FEATURE_HOST
    (require_arguments info PARAM_COUNT_1 PARAM_COUNT_1 one_argument (λ argc argv,
       text_argument argv 0 "The type of deviceName must be string." (λ deviceName,
         invoke (RemoveRight deviceName) (λ ret, give_boolean (ret =? UEC_OK) any_value)))).

(** [usb_info.cpp:864-903] [DeviceCancelAccessoryRight] the accessory is closed with the descriptor 0 *)
Definition DeviceCancelAccessoryRight (info : Z) : Native :=
  require_feature FEATURE_DEVICE
    (require_arguments info PARAM_COUNT_1 PARAM_COUNT_1 one_argument (λ argc argv,
       require_type argv 0 napi_object "The type of device must be USBAccessory."
         (accessory ← on_engine (ParseAccessoryObj (arg argv 0) USBAccessory.default);
          let cancel :=
            invoke (CancelAccessoryRight accessory) (λ ret,
              if ret =? UEC_OK then give nullptr
              else
                (if ret =? UEC_SERVICE_ACCESSORY_NOT_MATCH then
                   throw UEC_ACCESSORY_NOT_MATCH "Get accessory through getAccessoryList"
                 else if ret =? UEC_SERVICE_DATABASE_OPERATION_FAILED then
                   throw UEC_COMMON_RIGHT_DATABASE_ERROR "Database request operation exception"
                 else throw UEC_COMMON_SERVICE_EXCEPTION "Service exception") ;;
                give nullptr) in
          accFd ← gets g_accFd;
          if negb (accFd =? 0) then
            on_system (close accFd) ;;
            modify (set_g_accFd 0) ;;
            accFd ← gets g_accFd;
            invoke (CloseAccessory accFd) (λ _, cancel)
          else cancel))).

(** [usb_info.cpp:905-929] [CoreHasRight] *)
Definition CoreHasRight (info : Z) : Native :=
  require_feature FEATURE_HOST
    (require_arguments info PARAM_COUNT_1 PARAM_COUNT_1 one_argument (λ argc args,
       text_argument args 0 "The type of deviceName must be string" (λ deviceName,
         invoke (HasRight deviceName) (λ result, give_boolean result nullptr)))).

(** [usb_info.cpp:931-966] [DeviceHasAccessoryRight] *)
Definition DeviceHasAccessoryRight (info : Z) : Native :=
  require_feature FEATURE_DEVICE
    (require_arguments info PARAM_COUNT_1 PARAM_COUNT_1 one_argument (λ argc args,
       require_type args 0 napi_object "The type of device must be USBAccessory."
         (accessory ← on_engine (ParseAccessoryObj (arg args 0) USBAccessory.default);
          invoke (HasAccessoryRight accessory false) (λ '(ret, result),
            if ret =? UEC_OK then give_boolean result nullptr
            else
              (if ret =? UEC_SERVICE_ACCESSORY_NOT_MATCH then
                 throw UEC_ACCESSORY_NOT_MATCH "Get accessory through getAccessoryList"
               else if ret =? UEC_SERVICE_DATABASE_OPERATION_FAILED then
                 throw UEC_COMMON_RIGHT_DATABASE_ERROR "Database request operation exception"
               else throw UEC_COMMON_SERVICE_EXCEPTION "Service exception") ;;
              give nullptr)))).

(** [usb_info.cpp:1107-1137] [CoreUsbFunctionsFromString] *)
Definition CoreUsbFunctionsFromString (info : Z) : Native :=
  require_feature FEATURE_DEVICE
    (require_arguments info PARAM_COUNT_1 PARAM_COUNT_1 one_argument (λ argc argv,
       text_argument argv 0 "The type of funcs must be string." (λ funcs,
         invoke (UsbFunctionsFromString funcs) (λ numFuncs,
           check_sysapi numFuncs (give_int32 numFuncs any_value))))).

(** [usb_info.cpp:1139-1165] [CoreUsbFunctionsToString] *)
Definition CoreUsbFunctionsToString (info : Z) : Native :=
  require_feature FEATURE_DEVICE
    (require_arguments info PARAM_COUNT_1 PARAM_COUNT_1 one_argument (λ argc argv,
       require_type argv 0 napi_number "The type of funcs must be number."
         (funcs ← get_int32 (arg argv 0) any_int;
          invoke (UsbFunctionsToString funcs) (λ strFuncs,
            USB_ASSERT_RETURN_UNDEF (negb (String.eqb strFuncs PERMISSION_DENIED_SYSAPI))
              OHEC_COMMON_NORMAL_APP_NOT_ALLOWED ""
              (USB_ASSERT_RETURN_UNDEF (negb (String.eqb strFuncs SYS_APP_PERMISSION_DENIED_SYSAPI))
                 OHEC_COMMON_PERMISSION_NOT_ALLOWED ""
                 (result ← on_engine (create_string (c_str strFuncs) any_value); give result)))))).

(** [usb_info.cpp:1241-1267] [CoreGetCurrentFunctions] *)
Definition CoreGetCurrentFunctions (info : Z) : Native :=
  require_feature FEATURE_DEVICE
    ('(status, argc, argv) ← cb_info info PARAM_COUNT_1;
     NAPI_CHECK status
       (USB_ASSERT (argc =? PARAM_COUNT_0) OHEC_COMMON_PARAM_ERROR "The function takes no arguments."
          (invoke (GetCurrentFunctions any_int) (λ '(ret, cfuncs),
             check_sysapi ret
               (if failed ret then give_undefined any_value else give_int32 cfuncs any_value))))).

(** [usb_info.cpp:1294-1303] [CoreGetPorts] The object of a port. *)
Definition create_port (p : PortManager.UsbPort) : ST E Z :=
  port ← create_object any_value;
  SetValueInt32 "id" (PortManager.id p) port ;;
  SetValueInt32 "supportedModes" (PortManager.supportedModes p) port ;;
  usbPortStatus ← create_object any_value;
  SetValueInt32 "currentMode" (PortManager.currentMode (PortManager.usbPortStatus p)) usbPortStatus ;;
  SetValueInt32 "currentPowerRole" (PortManager.currentPowerRole (PortManager.usbPortStatus p)) usbPortStatus ;;
  SetValueInt32 "currentDataRole" (PortManager.currentDataRole (PortManager.usbPortStatus p)) usbPortStatus ;;
  set_named_property port "status" usbPortStatus ;;
  mret port.
(** [usb_info.cpp:1293-1305] [CoreGetPorts] *)
Fixpoint set_ports (result : Z) (ports : list PortManager.UsbPort) (i : Z) : ST E unit :=
  match ports with
  | [] => mret tt
  | p :: ports => port ← create_port p; set_element result i port ;; set_ports result ports (i + 1)
  end.

(** [usb_info.cpp:1269-1308] [CoreGetPorts] *)
Definition CoreGetPorts (info : Z) : Native :=
  require_feature FEATURE_PORT
    ('(status, argc, argv) ← cb_info info PARAM_COUNT_1;
     NAPI_CHECK status
       (USB_ASSERT (argc =? PARAM_COUNT_0) OHEC_COMMON_PARAM_ERROR "The function takes no arguments."
          (invoke (GetPorts []) (λ '(ret, ports),
             check_sysapi ret
               (if failed ret then give_undefined any_value
                else
                  result ← on_engine (create_array any_value);
                  on_engine (set_ports result ports 0) ;;
                  give result))))).

(** [usb_info.cpp:1312-1343] [PortGetSupportedModes] *)
Definition PortGetSupportedModes (info : Z) : Native :=
  require_feature FEATURE_PORT
    (require_arguments info PARAM_COUNT_1 PARAM_COUNT_1 one_argument (λ argc args,
       require_type args 0 napi_number "The type of portId must be number."
         (id ← get_int32 (arg args 0) 0;
          invoke (GetSupportedModes id 0) (λ '(ret, result),
            check_sysapi ret
              ('(status, napiValue) ← on_engine (napi (napi_create_int32 result));
               NAPI_CHECK status (give (default nullptr napiValue))))))).

(** ** The functions of a pipe *)

(** [usb_info.cpp:1440-1446] [PipeClaimInterface] The pipe of the first argument, whose type is checked twice. *)
Definition pipe_argument (argv : list Z) (k : USBDevicePipe → Native) : Native :=
  require_type_unchecked any_type argv 0 napi_object "The type of pipe must be USBDevicePipe."
    (pipe ← on_engine (ParseUsbDevicePipe (arg argv 0) default_pipe); k pipe).
(** [usb_info.cpp:1448-1452] [PipeClaimInterface] The interface of the second argument. *)
Definition interface_argument (argv : list Z) (k : UsbInterface.t → Native) : Native :=
  require_type_unchecked napi_object argv 1 napi_object "The type of iface must be USBInterface."
    (interface ← on_engine (ParseInterfaceObj (arg argv 1) UsbInterface.default); k interface).

(** [usb_info.cpp:1427-1470] [PipeClaimInterface] *)
Definition PipeClaimInterface (info : Z) : Native :=
  require_feature FEATURE_HOST
    (require_arguments info PARAM_COUNT_2 PARAM_COUNT_3 two_arguments (λ argc argv,
       pipe_argument argv (λ pipe,
       interface_argument argv (λ interface,
         isForce ← (if PARAM_COUNT_3 <=? argc then
                      '(_, type) ← typeof (arg argv 2) napi_object;
                      if is_type type napi_boolean then get_bool (arg argv 2) false else mret false
                    else mret false);
         invoke (Pipe.ClaimInterface pipe interface isForce) (λ ret, give_int32 ret any_value))))).

(** [usb_info.cpp:1472-1503] [PipeReleaseInterface] *)
Definition PipeReleaseInterface (info : Z) : Native :=
  require_feature FEATURE_HOST
    (require_arguments info PARAM_COUNT_2 PARAM_COUNT_2 two_arguments (λ argc argv,
       pipe_argument argv (λ pipe,
       interface_argument argv (λ interface,
         invoke (Pipe.ReleaseInterface pipe interface) (λ ret, give_int32 ret any_value))))).

(** [usb_info.cpp:1505-1535] [PipeSetInterface] *)
Definition PipeSetInterface (info : Z) : Native :=
  require_feature FEATURE_HOST
    (require_arguments info PARAM_COUNT_2 PARAM_COUNT_2 two_arguments (λ argc argv,
       pipe_argument argv (λ pipe,
       interface_argument argv (λ interface,
         invoke (SetInterface pipe interface) (λ ret, give_int32 ret any_value))))).

(** [usb_info.cpp:1537-1567] [PipeSetConfiguration] *)
Definition PipeSetConfiguration (info : Z) : Native :=
  require_feature FEATURE_HOST
    (require_arguments info PARAM_COUNT_2 PARAM_COUNT_2 two_arguments (λ argc argv,
       pipe_argument argv (λ pipe,
         require_type_unchecked napi_object argv 1 napi_object "The type of config must be USBConfig."
           (config ← on_engine (ParseConfigObj (arg argv 1) USBConfig.default);
            invoke (SetConfiguration pipe config) (λ ret, give_int32 ret any_value))))).

(** [usb_info.cpp:1569-1598] [PipeGetRawDescriptors] *)
Definition PipeGetRawDescriptors (info : Z) : Native :=
  require_feature FEATURE_HOST
    (require_arguments info PARAM_COUNT_1 PARAM_COUNT_1 one_argument (λ argc argv,
       pipe_argument argv (λ pipe,
         invoke (GetRawDescriptors pipe []) (λ '(ret, bufferData),
           if ret =? UEC_OK then
             result ← on_engine (Uint8ArrayToJsValue bufferData (Z.of_nat (length bufferData)) any_value);
             give result
           else give_undefined any_value)))).

(** [usb_info.cpp:1600-1625] [PipeGetFileDescriptor] *)
Definition PipeGetFileDescriptor (info : Z) : Native :=
  require_feature FEATURE_HOST
    (require_arguments info PARAM_COUNT_1 PARAM_COUNT_1 one_argument (λ argc argv,
       pipe_argument argv (λ pipe,
         invoke (GetFileDescriptor pipe (-1)) (λ '(_, fd), give_int32 fd any_value)))).

(** [usb_info.cpp:2513-2558] [PipeResetDevice] *)
Definition PipeResetDevice (info : Z) : Native :=
  require_feature FEATURE_HOST
    (require_arguments info PARAM_COUNT_1 PARAM_COUNT_1 one_argument (λ argc argv,
       pipe_argument argv (λ pipe,
         invoke (ResetDevice pipe) (λ ret,
           if ret =? UEC_OK then give_boolean true any_value
           else
             (if (ret =? HDF_DEV_ERR_NO_DEVICE) || (ret =? UEC_INTERFACE_NAME_NOT_FOUND) then
                throw USB_SUBMIT_TRANSFER_NO_DEVICE_ERROR "Submit transfer no device."
              else if ret =? UEC_SERVICE_PERMISSION_DENIED then
                throw UEC_COMMON_HAS_NO_RIGHT "No permission."
              else if ret =? HDF_FAILURE then
                throw USB_DEVICE_PIPE_CHECK_ERROR "Check devicePipe failed."
              else if ret =? UEC_SERVICE_INVALID_VALUE then
                throw UEC_COMMON_SERVICE_EXCEPTION "Service exception"
              else throw USB_SUBMIT_TRANSFER_OTHER_ERROR "Other USB error") ;;
             give_boolean false any_value)))).

(** [usb_info.cpp:2627-2651] [PipeClose] *)
Definition PipeClose (info : Z) : Native :=
  require_feature FEATURE_HOST
    (require_arguments info PARAM_COUNT_1 PARAM_COUNT_1 "The function takes one argument." (λ argc argv,
       pipe_argument argv (λ pipe,
         invoke (Pipe.Close ERR_INVALID_VALUE pipe) (λ ret, give_int32 ret any_value)))).

(** [usb_info.cpp:2653-2660] [GetVersion] *)
Definition GetVersion (info : Z) : Native :=
  result ← on_engine (create_string (c_str SEVVERSION) any_value); give result.
End JsCalls.
