(* ===== verification/JsAsync.v ===== *)
(** * The native functions that answer later

    [interfaces/kits/js/napi/src/usb_info.cpp]: the functions that return a promise.  Each
    fills in a context and queues a work; the engine runs [execute] on a thread of its pool
    and then [complete] on its own thread ([run_execute], [run_complete]).  [step] is one
    step of this world: a call, or a step of a queued work. *)

From S2P Require Import Prelude Text UsbErrors UsbTypes Napi.
From S2P Require Import HostDriver HostEvents HostPolicy ServiceHost ServiceSerial ServiceGate ServicePorts Client.
From S2P Require Import JsValues Platform JsWorld JsCalls.

#[local] Set Default Goal Selector "!".

Section JsAsync.
Context {E A S O : Type} `{NA : Napi E} `{UN : Uninitialised} `{EM : ErrorMessages}.
Context `{EB : ErrBase} `{AC : AbilityAccess A} `{UA : UsbAbility} `{US : UsbServer S}.
Context `{FE : Features} `{SY : System O} `{JE : JsErrBase} `{SC : Securec}.
Abbreviation world := (JsWorld.world E A S O).
Abbreviation Native := (ST world (option Z)).

(** ** Creating a work *)

(** [usb_info.cpp:1007-1011] [CoreRequestRight] [new (std::nothrow)] of a context: without memory the function returns a null pointer. *)
Definition new_context (k : Native) : Native :=
  p ← on_system allocate;
  match p with None => give nullptr | Some _ => k end.

(** [usb_info.cpp:1016-1017] [CoreRequestRight] [napi_create_promise]: the deferred of the context, and the promise. *)
Definition create_promise : ST world (Z * Z) :=
  '(_, out) ← on_engine (napi napi_create_promise); mret (default (nullptr, nullptr) out).

(** [usb_info.cpp:1016-1026] [CoreRequestRight] The last lines: the promise, the name of the work, the work and its queueing. *)
Definition queue_work (name : string) (c : Context_) : Native :=
  '(deferred, result) ← create_promise;
  resource ← on_engine (create_string name nullptr);
  '(_, out) ← on_engine (napi (napi_create_async_work resource));
  let work := default nullptr out in
  '(queued, _) ← on_engine (napi (napi_queue_async_work work));
  mwhen (queued =? napi_ok)
    (modify (λ w, set_tasks (tasks w ++ [mk_Task (mk_USBAsyncContext work deferred napi_ok) c false]) w)) ;;
  give result.

(** ** Settling a promise *)
Definition resolve_deferred (deferred value : Z) : ST world unit :=
  on_engine (napi (napi_resolve_deferred deferred value)) ;; mret tt.
Definition reject_deferred (deferred value : Z) : ST world unit :=
  on_engine (napi (napi_reject_deferred deferred value)) ;; mret tt.
Definition delete_async_work (work : Z) : ST world unit :=
  on_engine (napi (napi_delete_async_work work)) ;; mret tt.

(** [usb_info.cpp:133-142] [ProcessPromise] *)
Definition ProcessPromise (asyncContext : USBAsyncContext) (result : Z) : ST world unit :=
  if deferred asyncContext =? nullptr then mret tt
  else if status asyncContext =? napi_ok then resolve_deferred (deferred asyncContext) result
  else reject_deferred (deferred asyncContext) result.
(** [usb_info.cpp:1677-1679] [g_controlTransferComplete] *)
Definition resolve_if_deferred (asyncContext : USBAsyncContext) (result : Z) : ST world unit :=
  if deferred asyncContext =? nullptr then mret tt
  else resolve_deferred (deferred asyncContext) result.

Definition set_status (s : Z) (b : USBAsyncContext) : USBAsyncContext :=
  mk_USBAsyncContext (work b) (deferred b) s.

(** An [execute]: the context after it, unless it goes through a null pointer. *)
Abbreviation Execute := (ST world (option (USBAsyncContext * Context_))).

(** ** Asking for a right *)

(** [usb_info.cpp:968-976] [g_requestRightExecute] *)
Definition g_requestRightExecute (b : USBAsyncContext) (c : USBRightAsyncContext) : Execute :=
  invoke (RequestRight (r_deviceName c)) (λ ret,
    mret (Some (set_status (if ret =? UEC_OK then napi_ok else napi_generic_failure) b, RequestRightWork c))).

(** [usb_info.cpp:978-988] [g_requestRightComplete] *)
Definition g_requestRightComplete (b : USBAsyncContext) (c : USBRightAsyncContext) : ST world unit :=
  queryResult ← on_engine (get_boolean (status b =? napi_ok) nullptr);
  resolve_if_deferred b queryResult ;;
  delete_async_work (work b).

(** [usb_info.cpp:990-1027] [CoreRequestRight] *)
Definition CoreRequestRight (info : Z) : Native :=
  require_feature FEATURE_HOST
    (require_arguments info PARAM_COUNT_1 PARAM_COUNT_1 one_argument (λ argc args,
       text_argument args 0 "The type of deviceName must be string." (λ deviceName,
         new_context (queue_work "RequestRight" (RequestRightWork (mk_USBRightAsyncContext deviceName)))))).

(** [usb_info.cpp:1029-1038] [g_requestAccessoryRightExecute] *)
Definition g_requestAccessoryRightExecute (b : USBAsyncContext) (c : USBAccessoryRightAsyncContext) : Execute :=
  invoke (RequestAccessoryRight (ar_accessory c) false) (λ '(ret, result),
    mret (Some (b, RequestAccessoryRightWork (mk_USBAccessoryRightAsyncContext (ar_accessory c) result ret)))).

(** [CreateBusinessError] in a [complete]. *)
Definition business_error (errCode : Z) : ST world Z := on_engine (CreateBusinessError errCode "").

(** [usb_info.cpp:1040-1065] [g_requestAccessoryRightComplete] *)
Definition g_requestAccessoryRightComplete (b : USBAsyncContext) (c : USBAccessoryRightAsyncContext)
    : ST world unit :=
  let errCode := ar_errCode c in
  '(s, queryResult) ←
    (if errCode =? UEC_OK then
       r ← on_engine (get_boolean (ar_hasRight c) nullptr); mret (napi_ok, r)
     else if errCode =? UEC_SERVICE_ACCESSORY_NOT_MATCH then
       r ← business_error UEC_ACCESSORY_NOT_MATCH; mret (napi_generic_failure, r)
     else if errCode =? UEC_SERVICE_DATABASE_OPERATION_FAILED then
       r ← business_error UEC_COMMON_RIGHT_DATABASE_ERROR; mret (napi_generic_failure, r)
     else
       r ← business_error UEC_COMMON_SERVICE_EXCEPTION; mret (napi_generic_failure, r));
  ProcessPromise (set_status s b) queryResult ;;
  delete_async_work (work b).

(** [usb_info.cpp:1067-1105] [DeviceRequestAccessoryRight] *)
Definition DeviceRequestAccessoryRight (info : Z) : Native :=
  require_feature FEATURE_DEVICE
    (require_arguments info PARAM_COUNT_1 PARAM_COUNT_1 one_argument (λ argc args,
       require_type args 0 napi_object "The type of device must be USBAccessory."
         (accessory ← on_engine (ParseAccessoryObj (arg args 0) USBAccessory.default);
          new_context (queue_work "RequestRight"
            (RequestAccessoryRightWork (mk_USBAccessoryRightAsyncContext accessory false 0)))))).

(** ** Functions of the gadget and roles of a port *)

(** [usb_info.cpp:1177-1198] [g_setCurrentFunctionComplete] What a [complete] that rejects for a code, and fulfils with [false] for the others, does:
    the codes and the errors they become. *)
Definition settle_by_code (b : USBAsyncContext) (errCode : Z) (errors : list (Z * Z)) : ST world unit :=
  '(s, queryResult) ←
    (if errCode =? UEC_OK then
       r ← on_engine (get_boolean true nullptr); mret (napi_ok, r)
     else
       match head (filter (λ p, p.1 = errCode) errors) with
       | Some (_, code) => r ← business_error code; mret (napi_generic_failure, r)
       | None => r ← on_engine (get_boolean false nullptr); mret (napi_generic_failure, r)
       end);
  ProcessPromise (set_status s b) queryResult ;;
  delete_async_work (work b).

(** [usb_info.cpp:1167-1171] [g_setCurrentFunctionExecute] *)
Definition g_setCurrentFunctionExecute (b : USBAsyncContext) (c : USBFunctionAsyncContext) : Execute :=
  invoke (SetCurrentFunctions (f_functions c)) (λ ret,
    mret (Some (b, SetCurrentFunctionsWork (mk_USBFunctionAsyncContext (f_functions c) ret)))).

(** [usb_info.cpp:1173-1199] [g_setCurrentFunctionComplete] *)
Definition g_setCurrentFunctionComplete (b : USBAsyncContext) (c : USBFunctionAsyncContext) : ST world unit :=
  settle_by_code b (f_errCode c)
    [(UEC_SERVICE_PERMISSION_DENIED_SYSAPI, OHEC_COMMON_NORMAL_APP_NOT_ALLOWED);
     (UEC_SERVICE_PERMISSION_DENIED_SYSAPI_FAILED, OHEC_COMMON_PERMISSION_NOT_ALLOWED);
     (UEC_SERVICE_PERMISSION_CHECK_HDC, UEC_COMMON_HDC_NOT_ALLOWED);
     (UEC_SERVICE_FUNCTION_NOT_SUPPORT, UEC_COMMON_FUNCTION_NOT_SUPPORT)].

(** [usb_info.cpp:1201-1239] [CoreSetCurrentFunctions] *)
Definition CoreSetCurrentFunctions (info : Z) : Native :=
  require_feature FEATURE_DEVICE
    (require_arguments info PARAM_COUNT_1 PARAM_COUNT_1 one_argument (λ argc argv,
       require_type argv 0 napi_number "The type of funcs must be number."
         (funcs ← get_int32 (arg argv 0) 0;
          new_context (queue_work "SetCurrentFunctions"
            (SetCurrentFunctionsWork (mk_USBFunctionAsyncContext funcs 0)))))).

(** [usb_info.cpp:1345-1349] [g_setPortRoleExecute] *)
Definition g_setPortRoleExecute (b : USBAsyncContext) (c : USBPortRoleAsyncContext) : Execute :=
  invoke (SetPortRole (pr_portId c) (pr_powerRole c) (pr_dataRole c)) (λ ret,
    mret (Some (b, SetPortRoleWork
      (mk_USBPortRoleAsyncContext (pr_portId c) (pr_powerRole c) (pr_dataRole c) ret)))).

(** [usb_info.cpp:1351-1374] [g_setPortRoleComplete] *)
Definition g_setPortRoleComplete (b : USBAsyncContext) (c : USBPortRoleAsyncContext) : ST world unit :=
  settle_by_code b (pr_errCode c)
    [(UEC_SERVICE_PERMISSION_DENIED_SYSAPI, OHEC_COMMON_NORMAL_APP_NOT_ALLOWED);
     (UEC_SERVICE_PERMISSION_DENIED_SYSAPI_FAILED, OHEC_COMMON_PERMISSION_NOT_ALLOWED);
     (UEC_SERVICE_NOT_SUPPORT_SWITCH_PORT, UEC_COMMON_PORTROLE_SWITCH_NOT_ALLOWED)].

(** [usb_info.cpp:1376-1425] [PortSetPortRole] *)
Definition PortSetPortRole (info : Z) : Native :=
  require_feature FEATURE_PORT
    (require_arguments info PARAM_COUNT_3 PARAM_COUNT_3 "The function at least takes three arguments." (λ argc args,
       require_type args 0 napi_number "The type of portId must be number."
       (require_type args 1 napi_number "The type of powerRole must be number."
       (require_type args 2 napi_number "The type of dataRole must be number."
         (id ← get_int32 (arg args 0) 0;
          powerRole ← get_int32 (arg args 1) 0;
          dataRole ← get_int32 (arg args 2) 0;
          new_context (queue_work "PortSetPortRole"
            (SetPortRoleWork (mk_USBPortRoleAsyncContext id powerRole dataRole 0)))))))).

(** ** Transfers *)

(** [usb_info.cpp:1629-1629] [g_controlTransferExecute] The bytes that an [execute] takes from the buffer of its context. *)
Definition buffer_bytes (buffer : Buffer) (bufferLength : Z) : ST world (list Z) :=
  match buffer with
  | NativeCopy bytes => mret (take (Z.to_nat bufferLength) bytes)
  | ArrayBytes address => gets (λ w, peek address bufferLength (engine w))
  end.

(** [usb_info.cpp:1630-1633] [g_controlTransferExecute] [delete[]] of the buffer of a transfer to the device, which is then a null pointer.
    [None]: the bytes of a typed array are not the allocator's. *)
Definition delete_buffer (out : bool) (buffer : Buffer) : option Buffer :=
  if negb out then Some buffer
  else match buffer with
       | NativeCopy _ => Some (ArrayBytes nullptr)
       | ArrayBytes address => if address =? nullptr then Some buffer else None
       end.
Definition buffer_address (buffer : Buffer) : Z :=
  match buffer with NativeCopy _ => nullptr | ArrayBytes address => address end.

(** [usb_info.cpp:1641-1664] [g_controlTransferExecute] What an [execute] does with the answer of a transfer: the bytes that came in are copied
    into the typed array, cut at its length. *)
Definition finish_transfer (is_in : bool) (buffer : Buffer) (bufferLength bufLen ret : Z) (bufferData : list Z)
    : ST world (Z * Z) :=
  '(ret, bufLen) ←
    (if negb (ret =? UEC_OK) then mret (ret, bufLen)
     else if is_in && (0 <? bufferLength) && (0 <? Z.of_nat (length bufferData)) then
       let bufLen := Z.of_nat (length bufferData) in
       let bufLen := if bufferLength <? bufLen then bufferLength else bufLen in
       let '(ret, written) := memcpy_s (buffer_address buffer) bufferLength (take (Z.to_nat bufLen) bufferData) in
       match written with
       | None => mret (ret, bufLen)
       | Some l => modify (λ w, set_engine (poke (buffer_address buffer) l (engine w)) w) ;; mret (ret, bufLen)
       end
     else mret (ret, bufLen));
  mret (if ret =? UEC_OK then (napi_ok, u32 bufLen) else (napi_generic_failure, 0)).

(** [usb_info.cpp:1671-1681] [g_controlTransferComplete] [complete] of a transfer. *)
Definition complete_transfer (b : USBAsyncContext) (dataSize : Z) : ST world unit :=
  queryResult ← on_engine (create_int32 (if status b =? napi_ok then i32 dataSize else -1) nullptr);
  resolve_if_deferred b queryResult ;;
  delete_async_work (work b).

(** [usb_info.cpp:1646-1646] [g_controlTransferExecute] *)
Definition is_in (reqType : Z) : bool := Z.land reqType USB_ENDPOINT_DIR_MASK =? USB_ENDPOINT_DIR_IN.
(** [usb_info.cpp:1630-1630] [g_controlTransferExecute] *)
Definition is_out (reqType : Z) : bool := Z.land reqType USB_ENDPOINT_DIR_MASK =? USB_ENDPOINT_DIR_OUT.

(** [usb_info.cpp:1627-1665] [g_controlTransferExecute] *)
Definition g_controlTransferExecute (uninitialised : UsbCtlSetUp) (b : USBAsyncContext)
    (c : USBControlTransferAsyncContext) : Execute :=
  bufferData ← buffer_bytes (c_buffer c) (c_bufferLength c);
  let tctrl := mk_UsbCtrlTransfer (i32 (c_reqType c)) (c_request c) (c_value c) (c_index c) (c_timeOut c) in
  let bufLen := Z.of_nat (length bufferData) in
  match delete_buffer (is_out (c_reqType c)) (c_buffer c) with
  | None => mret None
  | Some buffer =>
      invoke (Pipe.ControlTransfer uninitialised (c_pipe c) tctrl bufferData) (λ '(ret, bufferData),
        '(s, dataSize) ← finish_transfer (is_in (c_reqType c)) buffer (c_bufferLength c) bufLen ret bufferData;
        mret (Some (set_status s b, ControlTransferWork
          (mk_USBControlTransferAsyncContext (c_pipe c) (c_request c) (c_target c) (c_reqType c) (c_value c)
             (c_index c) buffer (c_bufferLength c) dataSize (c_timeOut c)))))
  end.

(** [usb_info.cpp:1667-1682] [g_controlTransferComplete] *)
Definition g_controlTransferComplete (b : USBAsyncContext) (c : USBControlTransferAsyncContext) : ST world unit :=
  complete_transfer b (c_dataSize c).

(** [usb_info.cpp:1722-1730] [GetControlTransferParam] The timeout of the argument [i], if there is one and it is a number; [type] is what the
    variable holds before. *)
Definition optional_timeout (type : napi_valuetype) (argc n : Z) (argv : list Z) (i : nat) : ST world Z :=
  if n <? argc then
    '(_, type) ← typeof (arg argv i) type;
    if is_type type napi_number then get_int32 (arg argv i) 0 else mret 0
  else mret 0.

(** [usb_info.cpp:1684-1733] [GetControlTransferParam] *)
Definition GetControlTransferParam (info : Z) : ST world (option (USBDevicePipe * PipeControlParam * Z)) :=
  '(status, argc, argv) ← cb_info info PARAM_COUNT_3;
  if negb (status =? napi_ok) then mret None
  else if argc <? PARAM_COUNT_2 then throw OHEC_COMMON_PARAM_ERROR two_arguments ;; mret None
  else
    '(_, type) ← typeof (arg argv 0) any_type;
    if negb (is_type type napi_object) then
      throw OHEC_COMMON_PARAM_ERROR "The type of pipe must be USBDevicePipe." ;; mret None
    else
      pipe ← on_engine (ParseUsbDevicePipe (arg argv 0) default_pipe);
      '(ret, controlParam) ← on_engine
         (ParsePipeControlParam (arg argv 1) (mk_PipeControlParam 0 0 0 0 0 nullptr 0));
      if negb ret then mret None
      else
        timeOut ← optional_timeout type argc PARAM_COUNT_2 argv 2;
        mret (Some (pipe, controlParam, timeOut)).

(** [usb_info.cpp:1761-1782] [PipeControlTransfer] The buffer of the context: for a transfer to the device a native copy, which needs
    memory and [memcpy_s]; otherwise the typed array itself. *)
Definition native_buffer (out : bool) (address size : Z) : ST world (option Buffer) :=
  if negb out then mret (Some (ArrayBytes address))
  else if 0 <? size then
    p ← on_system allocate;
    match p with
    | None => mret None
    | Some nativeArrayBuffer =>
        bytes ← gets (λ w, peek address size (engine w));
        let '(ret, written) :=
          if address =? nullptr then (-1, None) else memcpy_s nativeArrayBuffer size bytes in
        mret (if ret =? EOK then Some (NativeCopy (default [] written)) else None)
    end
  else mret (Some (NativeCopy [])).

(** [usb_info.cpp:1735-1797] [PipeControlTransfer] *)
Definition PipeControlTransfer (info : Z) : Native :=
  require_feature FEATURE_HOST
    (p ← GetControlTransferParam info;
     match p with
     | None => give nullptr
     | Some (pipe, controlParam, timeOut) =>
         new_context
           (buffer ← native_buffer (is_out (reqType controlParam)) (data controlParam) (dataLength controlParam);
            match buffer with
            | None => give nullptr
            | Some buffer =>
                queue_work "PipeControlTransfer" (ControlTransferWork
                  (mk_USBControlTransferAsyncContext pipe (request controlParam) (target controlParam)
                     (reqType controlParam) (JsValues.value controlParam) (JsValues.index controlParam)
                     buffer (u32 (dataLength controlParam)) 0 timeOut))
            end)
     end).

(** [usb_info.cpp:1799-1837] [g_usbControlTransferExecute] *)
Definition g_usbControlTransferExecute (b : USBAsyncContext) (c : USBDeviceControlTransferAsyncContext) : Execute :=
  bufferData ← buffer_bytes (d_buffer c) (d_bufferLength c);
  let tctrl := mk_UsbCtrlTransferParams (i32 (d_reqType c)) (d_request c) (d_value c) (d_index c) (d_length c)
                 (d_timeOut c) in
  let bufLen := Z.of_nat (length bufferData) in
  match delete_buffer (is_out (d_reqType c)) (d_buffer c) with
  | None => mret None
  | Some buffer =>
      invoke (Pipe.UsbControlTransfer (d_pipe c) tctrl bufferData) (λ '(ret, bufferData),
        '(s, dataSize) ← finish_transfer (is_in (d_reqType c)) buffer (d_bufferLength c) bufLen ret bufferData;
        mret (Some (set_status s b, UsbControlTransferWork
          (mk_USBDeviceControlTransferAsyncContext (d_pipe c) (d_reqType c) (d_request c) (d_value c) (d_index c)
             (d_length c) buffer (d_bufferLength c) dataSize (d_timeOut c)))))
  end.

(** [usb_info.cpp:1839-1854] [g_usbControlTransferComplete] *)
Definition g_usbControlTransferComplete (b : USBAsyncContext) (c : USBDeviceControlTransferAsyncContext)
    : ST world unit := complete_transfer b (d_dataSize c).

(** [usb_info.cpp:1856-1908] [GetUsbControlTransferParam] *)
Definition GetUsbControlTransferParam (info : Z) : ST world (option (USBDevicePipe * UsbPipeControlParam * Z)) :=
  '(status, argc, argv) ← cb_info info PARAM_COUNT_3;
  if negb (status =? napi_ok) then mret None
  else if argc <? PARAM_COUNT_2 then throw OHEC_COMMON_PARAM_ERROR two_arguments ;; mret None
  else
    '(_, type) ← typeof (arg argv 0) any_type;
    if negb (is_type type napi_object) then
      throw OHEC_COMMON_PARAM_ERROR "The type of pipe must be USBDevicePipe." ;; mret None
    else
      pipe ← on_engine (ParseUsbDevicePipe (arg argv 0) default_pipe);
      '(_, type) ← typeof (arg argv 1) type;
      if negb (is_type type napi_object) then
        throw OHEC_COMMON_PARAM_ERROR "The type of pipe must be USBDeviceRequestParams." ;; mret None
      else
        controlParam ← on_engine
          (ParseUsbPipeControlParam (arg argv 1) (mk_UsbPipeControlParam 0 0 0 0 0 nullptr 0));
        timeOut ← optional_timeout type argc PARAM_COUNT_2 argv 2;
        mret (Some (pipe, controlParam, timeOut)).

(** [usb_info.cpp:1910-1972] [PipeUsbControlTransfer] *)
Definition PipeUsbControlTransfer (info : Z) : Native :=
  require_feature FEATURE_HOST
    (p ← GetUsbControlTransferParam info;
     match p with
     | None => give nullptr
     | Some (pipe, controlParam, timeOut) =>
         new_context
           (buffer ← native_buffer (is_out (u_reqType controlParam)) (u_data controlParam) (u_dataLength controlParam);
            match buffer with
            | None => give nullptr
            | Some buffer =>
                queue_work "PipeUsbControlTransfer" (UsbControlTransferWork
                  (mk_USBDeviceControlTransferAsyncContext pipe (u_reqType controlParam) (u_request controlParam)
                     (u_value controlParam) (u_index controlParam) (u_length controlParam)
                     buffer (u32 (u_dataLength controlParam)) 0 timeOut))
            end)
     end).

(** ** Bulk transfers *)

(** [usb_info.cpp:1974-2011] [g_bulkTransferExecute] *)
Definition g_bulkTransferExecute (b : USBAsyncContext) (c : USBBulkTransferAsyncContext) : Execute :=
  bufferData ← buffer_bytes (b_buffer c) (b_bufferLength c);
  let direction := USBEndpoint.GetDirection (b_endpoint c) in
  match delete_buffer (direction =? USB_ENDPOINT_DIR_OUT) (b_buffer c) with
  | None => mret None
  | Some buffer =>
      let bufLen := Z.of_nat (length bufferData) in
      invoke (Pipe.BulkTransfer (b_pipe c) (b_endpoint c) bufferData (b_timeOut c)) (λ '(ret, bufferData),
        '(s, dataSize) ← finish_transfer (direction =? USB_ENDPOINT_DIR_IN) buffer (b_bufferLength c) bufLen ret
                           bufferData;
        mret (Some (set_status s b, BulkTransferWork
          (mk_USBBulkTransferAsyncContext buffer (b_bufferLength c) dataSize (b_timeOut c) (b_pipe c)
             (b_endpoint c)))))
  end.

(** [usb_info.cpp:2013-2027] [g_bulkTransferComplete] *)
Definition g_bulkTransferComplete (b : USBAsyncContext) (c : USBBulkTransferAsyncContext) : ST world unit :=
  complete_transfer b (b_dataSize c).

(** [usb_info.cpp:2029-2061] [GetDescriptorOnBulkTransferParam] *)
Definition GetDescriptorOnBulkTransferParam (array : Z) (asyncContext : USBBulkTransferAsyncContext)
    (ep : USBEndpoint.t) : ST world (bool * USBBulkTransferAsyncContext) :=
  '(hasBuffer, p) ← on_engine (JsUint8ArrayParseReserveZeroBuffer array no_buffer);
  if negb hasBuffer then mret (false, asyncContext)
  else
    let with_buffer buffer length :=
      mk_USBBulkTransferAsyncContext buffer length (b_dataSize asyncContext) (b_timeOut asyncContext)
        (b_pipe asyncContext) ep in
    if (USBEndpoint.GetDirection ep =? USB_ENDPOINT_DIR_OUT) && (0 <? bufferSize p) then
      buffer ← native_buffer true (uint8Buffer p) (bufferSize p);
      match buffer with
      | None => mret (false, with_buffer (b_buffer asyncContext) (b_bufferLength asyncContext))
      | Some buffer => mret (true, with_buffer buffer (u32 (bufferSize p)))
      end
    else mret (true, with_buffer (ArrayBytes (uint8Buffer p)) (u32 (bufferSize p))).

(** The pipe and the timeout of a context. *)
Definition set_pipe (pipe : USBDevicePipe) (c : USBBulkTransferAsyncContext) : USBBulkTransferAsyncContext :=
  mk_USBBulkTransferAsyncContext (b_buffer c) (b_bufferLength c) (b_dataSize c) (b_timeOut c) pipe (b_endpoint c).
Definition set_timeOut (timeOut : Z) (c : USBBulkTransferAsyncContext) : USBBulkTransferAsyncContext :=
  mk_USBBulkTransferAsyncContext (b_buffer c) (b_bufferLength c) (b_dataSize c) timeOut (b_pipe c) (b_endpoint c).

(** [usb_info.cpp:2068-2070] [GetBulkTransferParams] An assertion of a function that returns [false] and the context as it is then. *)
Definition ASSERT_FALSE {C} (assertion : bool) (errMsg : string) (c : C) (k : ST world (bool * C))
    : ST world (bool * C) :=
  if assertion then k else throw OHEC_COMMON_PARAM_ERROR errMsg ;; mret (false, c).
(** [usb_info.cpp:2067-2067] [GetBulkTransferParams] [NAPI_CHECK] in a function that returns a [bool]: the handle to [undefined] is a [true]. *)
Definition NAPI_CHECK_BOOL {C} (status : Z) (c : C) (k : ST world (bool * C)) : ST world (bool * C) :=
  if status =? napi_ok then k
  else obj ← on_engine (get_undefined nullptr); mret (negb (obj =? nullptr), c).

(** [usb_info.cpp:2063-2102] [GetBulkTransferParams] *)
Definition GetBulkTransferParams (info : Z) (asyncContext : USBBulkTransferAsyncContext)
    : ST world (bool * USBBulkTransferAsyncContext) :=
  '(status, argc, argv) ← cb_info info PARAM_COUNT_4;
  NAPI_CHECK_BOOL status asyncContext
  (ASSERT_FALSE (PARAM_COUNT_3 <=? argc) "The function at least takes three arguments." asyncContext
  ('(_, type) ← typeof (arg argv 0) any_type;
   ASSERT_FALSE (is_type type napi_object) "The type of pipe must be USBDevicePipe." asyncContext
   (pipe ← on_engine (ParseUsbDevicePipe (arg argv 0) default_pipe);
    let asyncContext := set_pipe pipe asyncContext in
    '(_, type) ← typeof (arg argv 1) type;
    ASSERT_FALSE (is_type type napi_object) "The type of endpoint must be USBEndpoint." asyncContext
    (ep ← on_engine (ParseEndpointObj (arg argv 1) USBEndpoint.default);
     timeOut ← optional_timeout type argc PARAM_COUNT_3 argv 3;
     '(ok, asyncContext) ← GetDescriptorOnBulkTransferParam (arg argv 2) asyncContext ep;
     if negb ok then mret (false, asyncContext)
     else mret (true, set_timeOut timeOut asyncContext))))).

(** The context that [new (std::nothrow) USBBulkTransferAsyncContext()] gives. *)
Definition new_bulk : USBBulkTransferAsyncContext :=
  mk_USBBulkTransferAsyncContext (ArrayBytes nullptr) 0 0 0 default_pipe USBEndpoint.default.

(** [usb_info.cpp:2104-2143] [PipeBulkTransfer] *)
Definition PipeBulkTransfer (info : Z) : Native :=
  require_feature FEATURE_HOST
    (new_context
       ('(deferred, result) ← create_promise;
        '(ok, asyncContext) ← GetBulkTransferParams info new_bulk;
        if negb ok then
          queryResult ← on_engine (create_int32 (-1) nullptr);
          resolve_if_deferred (mk_USBAsyncContext nullptr deferred napi_invalid_arg) queryResult ;;
          give result
        else
          resource ← on_engine (create_string "PipeBulkTransfer" nullptr);
          '(status, out) ← on_engine (napi (napi_create_async_work resource));
          if negb (status =? napi_ok) then give result
          else
            let work := default nullptr out in
            '(queued, _) ← on_engine (napi (napi_queue_async_work work));
            mwhen (queued =? napi_ok)
              (modify (λ w, set_tasks
                 (tasks w ++ [mk_Task (mk_USBAsyncContext work deferred napi_ok)
                                (BulkTransferWork asyncContext) false]) w)) ;;
            give result)).
End JsAsync.
