(* ===== verification/JsTransfer.v ===== *)
(** * Submitted transfers

    [interfaces/kits/js/napi/src/usb_info.cpp]: [usbSubmitTransfer], whose answer comes
    through the callback of the application, and [usbCancelTransfer].  The context of a
    transfer lives in the heap ([transfers]) and goes to the service as its address; the
    service's callback ([JsCallBack]) copies the data and sends an event to the engine's
    thread ([callback_task]), which calls the application and deletes the context. *)

From S2P Require Import Prelude Text UsbErrors UsbTypes Napi.
From S2P Require Import HostDriver HostEvents HostPolicy ServiceHost ServiceSerial ServiceGate ServicePorts Client.
From S2P Require Import JsValues Platform JsWorld JsCalls JsAsync.
From S2P Require Parcels.

#[local] Set Default Goal Selector "!".

(** [napi_util.h:52-66] [TransferFlagsJs] *)
Definition TRANSFER_FLAGS_UNKNOWN : Z := 4.
(** [napi_util.h:95-109] [EndpointTransferTypeJs] *)
Definition EndpointTransferTypeJs_UNKNOWN : Z := 4.
(** [usb_info.cpp:79-85] [IO_ERROR] the codes of the driver *)
Definition IO_ERROR : Z := -1.
(** [usb_info.cpp:80-80] [INVALID_PARAM] *)
Definition INVALID_PARAM : Z := -2.
(** [usb_info.cpp:81-81] [NO_DEVICE] *)
Definition NO_DEVICE : Z := -4.
(** [usb_info.cpp:82-82] [NOT_FOUND] *)
Definition NOT_FOUND : Z := -5.
(** [usb_info.cpp:83-83] [ERROR_BUSY] *)
Definition ERROR_BUSY : Z := -6.
(** [usb_info.cpp:84-84] [NO_MEM] *)
Definition NO_MEM : Z := -11.
(** [usb_info.cpp:85-85] [DEFAULT_SUBMIT_BUFFER_SIZE] *)
Definition DEFAULT_SUBMIT_BUFFER_SIZE : Z := 1024.

(** What the driver reports of a transfer. *)
Record TransferCallbackInfo := mk_TransferCallbackInfo { tc_status : Z; tc_actualLength : Z }.

Section JsTransfer.
Context {E A S O : Type} `{NA : Napi E} `{UN : Uninitialised} `{EM : ErrorMessages}.
Context `{EB : ErrBase} `{AC : AbilityAccess A} `{UA : UsbAbility} `{US : UsbServer S}.
Context `{FE : Features} `{SY : System O} `{JE : JsErrBase} `{SC : Securec}.
Abbreviation world := (JsWorld.world E A S O).
Abbreviation Native := (ST world (option Z)).

(** [usb_info.cpp:2153-2153] [ParseTransferParams] [USB_ASSERT_RETURN_FALSE(env, assertion, false, errMsg)]: [false] is the code 0. *)
Definition ASSERT_FALSE_CODE {C} (errCode : Z) (assertion : bool) (errMsg : string) (c : C)
    (k : ST world (bool * C)) : ST world (bool * C) :=
  if assertion then k else throw errCode errMsg ;; mret (false, c).

(** [usb_info.cpp:2148-2155] [ParseTransferParams] The pipe in the property [devPipe]. *)
Definition pipe_property (object : Z) {C} (c : C) (k : USBDevicePipe → ST world (bool * C)) : ST world (bool * C) :=
  valuePipe ← on_engine (get_property object "devPipe" nullptr);
  '(_, valueType) ← typeof valuePipe any_type;
  ASSERT_FALSE_CODE (Z.b2z false) (is_type valueType napi_object) "The valueType of pipe must be USBDevicePipe." c
    (pipe ← on_engine (ParseUsbDevicePipe valuePipe default_pipe); k pipe).

(** The context that [new (std::nothrow) USBTransferAsyncContext()] gives. *)
Definition new_transfer : USBTransferAsyncContext :=
  mk_USBTransferAsyncContext default_pipe 0 0 0 0 0 0 None nullptr 0 nullptr.

(** [usb_info.cpp:2145-2192] [ParseTransferParams] *)
Definition ParseTransferParams (object : Z) (c : USBTransferAsyncContext)
    : ST world (bool * USBTransferAsyncContext) :=
  pipe_property object c (λ pipe,
  flags ← on_engine (JsObjectToInt object "flags" TRANSFER_FLAGS_UNKNOWN);
  if flags =? TRANSFER_FLAGS_UNKNOWN then mret (false, c)
  else
    endpoint ← on_engine (JsObjectToInt object "endpoint" (t_endpoint c));
    tranferType ← on_engine (JsObjectToInt object "type" EndpointTransferTypeJs_UNKNOWN);
    if tranferType =? EndpointTransferTypeJs_UNKNOWN then mret (false, c)
    else
      timeOut ← on_engine (JsObjectToInt object "timeout" (t_timeOut c));
      length ← on_engine (JsObjectToInt object "length" (t_length c));
      '(_, valueCallBack) ← on_engine (JsObjectGetProperty object "callback" any_value);
      '(_, valueType) ← typeof valueCallBack napi_object;
      ASSERT_FALSE_CODE (Z.b2z false) (is_type valueType napi_function) "The type of endpoint must be function." c
        ('(_, ref) ← on_engine (napi (napi_create_reference valueCallBack 1));
         '(_, valueUint8Array) ← on_engine (JsObjectGetProperty object "buffer" any_value);
         '(hasBuffer, b) ← on_engine (JsUint8ArrayParseReserveZeroBuffer valueUint8Array
                                        (mk_Uint8Buffer (t_buffer c) (t_bufferLength c) 0));
         if negb hasBuffer then mret (false, c)
         else
           numIsoPackets ← on_engine (JsObjectToUint object "isoPacketCount" (t_numIsoPackets c));
           mret (true, mk_USBTransferAsyncContext pipe endpoint flags tranferType timeOut length
                         (bufferSize b) (t_ashmem c) (uint8Buffer b) numIsoPackets
                         (default (t_callbackRef c) ref)))).

(** [usb_info.cpp:2197-2206] [GetTransferParamsFromJsObj] The object of the first argument. *)
Definition object_argument {C} (info : Z) (c : C) (k : Z → ST world (bool * C)) : ST world (bool * C) :=
  '(status, argc, argv) ← cb_info info PARAM_COUNT_1;
  NAPI_CHECK_BOOL status c
    (ASSERT_FALSE (PARAM_COUNT_1 <=? argc) "The function at least takes one arguments." c
       ('(_, valueType) ← typeof (arg argv 0) napi_undefined;
        ASSERT_FALSE (is_type valueType napi_object) "The type of pipe must be USBDataTransfer type." c
          (k (arg argv 0)))).

(** [usb_info.cpp:2194-2215] [GetTransferParamsFromJsObj] *)
Definition GetTransferParamsFromJsObj (info : Z) (c : USBTransferAsyncContext)
    : ST world (bool * USBTransferAsyncContext) :=
  object_argument info c (λ object,
    '(parseResult, c) ← ParseTransferParams object c;
    mret (parseResult, c)).

(** [usb_info.cpp:2329-2338] [GetUSBTransferInfo] the flags are not among what is copied: they are indeterminate *)
Definition GetUSBTransferInfo (ptrValue : Z) (c : USBTransferAsyncContext) : TransferInfo :=
  mk_TransferInfo (t_endpoint c) any_int (t_type c) (t_timeOut c) (t_length c) (u64 ptrValue) (t_numIsoPackets c).

Definition set_ashmem (m : option (Z * Z)) (c : USBTransferAsyncContext) : USBTransferAsyncContext :=
  mk_USBTransferAsyncContext (t_pipe c) (t_endpoint c) (t_flags c) (t_type c) (t_timeOut c) (t_length c)
    (t_bufferLength c) m (t_buffer c) (t_numIsoPackets c) (t_callbackRef c).
Definition set_i_length (n : Z) (i : TransferInfo) : TransferInfo :=
  mk_TransferInfo (i_endpoint i) (i_flags i) (i_type i) (i_timeOut i) n (i_userData i) (i_numIsoPackets i).

(** The direction bit of the endpoint number that the application gave. *)
Definition direction_of (endpoint : Z) : Z := Z.land (u8 endpoint) USB_ENDPOINT_DIR_MASK.

(** [usb_info.cpp:2340-2366] [CreateAndWriteAshmem] *)
Definition CreateAndWriteAshmem (c : USBTransferAsyncContext) (obj : TransferInfo)
    : ST world (bool * USBTransferAsyncContext * TransferInfo) :=
  let bufLen := if t_length c <=? 0 then DEFAULT_SUBMIT_BUFFER_SIZE else t_length c in
  ashmem ← on_system (CreateAshmem "CreateAshmem" bufLen);
  let c := set_ashmem ashmem c in
  match ashmem with
  | None => mret (false, c, obj)
  | Some (fd, _) =>
      if (direction_of (t_endpoint c) =? USB_ENDPOINT_DIR_OUT) && (0 <? t_length c) then
        bufferData ← gets (λ w, peek (t_buffer c) (t_bufferLength c) (engine w));
        let obj := set_i_length (i32 (Z.of_nat (length bufferData))) obj in
        on_system (MapReadAndWriteAshmem fd) ;;
        written ← on_system (WriteToAshmem fd bufferData);
        if negb written then
          on_system (UnmapAshmem fd) ;; on_system (CloseAshmem fd) ;; mret (false, c, obj)
        else mret (true, c, obj)
      else mret (true, c, obj)
  end.

(** [usb_info.cpp:2368-2388] [UsbSubmitTransferErrorCode] *)
Definition UsbSubmitTransferErrorCode (error : Z) : Z :=
  if error =? IO_ERROR then USB_SUBMIT_TRANSFER_IO_ERROR
  else if error =? INVALID_PARAM then OHEC_COMMON_PARAM_ERROR
  else if error =? NO_DEVICE then USB_SUBMIT_TRANSFER_NO_DEVICE_ERROR
  else if error =? NOT_FOUND then USB_SUBMIT_TRANSFER_NOT_FOUND_ERROR
  else if error =? ERROR_BUSY then USB_SUBMIT_TRANSFER_RESOURCE_BUSY_ERROR
  else if error =? NO_MEM then USB_SUBMIT_TRANSFER_NO_MEM_ERROR
  else if error =? UEC_SERVICE_PERMISSION_DENIED then UEC_COMMON_HAS_NO_RIGHT
  else USB_SUBMIT_TRANSFER_OTHER_ERROR.

Definition delete_transfer (p : Z) : ST world unit := modify (λ w, set_transfers (delete p (transfers w)) w).
Definition keep_transfer (p : Z) (c : USBTransferAsyncContext) : ST world unit :=
  modify (λ w, set_transfers (<[p:=c]> (transfers w)) w).
(** [usb_info.cpp:2280-2281] [ReadDataToBuffer] *)
Definition release_ashmem (m : option (Z * Z)) : ST world unit :=
  match m with
  | None => mret tt
  | Some (fd, _) => on_system (UnmapAshmem fd) ;; on_system (CloseAshmem fd)
  end.

(** [usb_info.cpp:2390-2438] [UsbSubmitTransfer] *)
Definition UsbSubmitTransfer (info : Z) : Native :=
  require_feature FEATURE_HOST
    (p ← on_system allocate;
     match p with
     | None => give nullptr
     | Some p =>
         keep_transfer p new_transfer ;;
         '(ok, c) ← GetTransferParamsFromJsObj info new_transfer;
         if negb ok then
           throw OHEC_COMMON_PARAM_ERROR "BusinessError 401:Parameter error." ;;
           delete_transfer p ;; give nullptr
         else
           let obj := GetUSBTransferInfo p c in
           if Parcels.MAX_NUM_OF_ISO_PACKAGE <? i_numIsoPackets obj then delete_transfer p ;; give nullptr
           else
             '(ok, c, obj) ← CreateAndWriteAshmem c obj;
             if negb ok then delete_transfer p ;; give nullptr
             else
               keep_transfer p c ;;
               invoke (Pipe.UsbSubmitTransfer (t_pipe c) obj (Some (i_userData obj)) (t_ashmem c)) (λ ret,
                 if negb (ret =? napi_ok) then
                   release_ashmem (t_ashmem c) ;;
                   delete_transfer p ;;
                   throw (UsbSubmitTransferErrorCode ret) "" ;;
                   give nullptr
                 else give nullptr)
     end).

(** ** The answer of a transfer *)

(** [usb_info.cpp:2257-2283] [ReadDataToBuffer] [None]: there is no shared memory *)
Definition ReadDataToBuffer (c : USBTransferAsyncContext) (i : TransferCallbackInfo) : ST world (option Z) :=
  match t_ashmem c with
  | None => mret None
  | Some (fd, _) =>
      let actBufLen := u64 (tc_actualLength i) in
      if (direction_of (t_endpoint c) =? USB_ENDPOINT_DIR_IN) && (0 <? t_bufferLength c) &&
         (0 <? tc_actualLength i) then
        on_system (MapReadAndWriteAshmem fd) ;;
        ashmemBuffer ← on_system (ReadFromAshmem fd (tc_actualLength i));
        match ashmemBuffer with
        | None => release_ashmem (t_ashmem c) ;; mret (Some (i32 actBufLen))
        | Some bytes =>
            let actBufLen := if t_bufferLength c <? actBufLen then t_bufferLength c else actBufLen in
            let '(_, written) := memcpy_s (t_buffer c) (t_bufferLength c) (take (Z.to_nat actBufLen) bytes) in
            (match written with
             | None => mret tt
             | Some l => modify (λ w, set_engine (poke (t_buffer c) l (engine w)) w)
             end) ;;
            release_ashmem (t_ashmem c) ;;
            mret (Some (i32 actBufLen))
        end
      else release_ashmem (t_ashmem c) ;; mret (Some (i32 actBufLen))
  end.

(** [usb_info.cpp:2285-2327] [JsCallBack] [None]: the context is not there *)
Definition JsCallBack (p : Z) (i : TransferCallbackInfo) (isoInfo : list (Z * Z * Z)) : ST world (option unit) :=
  ctx ← gets (λ w, transfers w !! p);
  match ctx with
  | None => mret None
  | Some c =>
      actBufLen ← ReadDataToBuffer c i;
      match actBufLen with
      | None => mret None
      | Some actBufLen =>
          q ← on_system allocate;
          match q with
          | None => delete_transfer p ;; mret (Some tt)
          | Some _ =>
              let asyncCBWork := mk_AsyncCallBackContext (t_callbackRef c) actBufLen (tc_status i) isoInfo in
              '(status, _) ← on_engine (napi napi_send_event);
              mwhen (status =? napi_ok)
                (modify (λ w, set_events (events w ++ [mk_CallbackEvent asyncCBWork p]) w)) ;;
              mret (Some tt)
          end
      end
  end.

(** [usb_info.cpp:2239-2252] [ParmsInput] The array of the isochronous packets: length, actual length and status of each. *)
Fixpoint set_packets (isoObjArray : Z) (isoInfo : list (Z * Z * Z)) (i : Z) : ST E unit :=
  match isoInfo with
  | [] => mret tt
  | (len, actual, status) :: isoInfo =>
      iso ← create_object nullptr;
      isoLength ← create_int32 len nullptr;
      isoActualLength ← create_int32 actual nullptr;
      isoStatus ← create_int32 status nullptr;
      set_named_property iso "length" isoLength ;;
      set_named_property iso "actualLength" isoActualLength ;;
      set_named_property iso "status" isoStatus ;;
      set_element isoObjArray i iso ;;
      set_packets isoObjArray isoInfo (i + 1)
  end.

(** [usb_info.cpp:2217-2255] [ParmsInput] *)
Definition ParmsInput (w : AsyncCallBackContext) : ST E Z :=
  res ← create_object nullptr;
  create_object nullptr ;;
  status ← create_int32 (cb_status w) nullptr;
  actualLength ← create_int32 (cb_actualLength w) nullptr;
  set_named_property res "status" status ;;
  set_named_property res "actualLength" actualLength ;;
  match cb_isoInfo w with
  | [] => mret res
  | isoInfo =>
      isoObjArray ← create_array nullptr;
      set_packets isoObjArray isoInfo 0 ;;
      set_named_property res "isoPacketDescs" isoObjArray ;;
      mret res
  end.

(** [usb_info.cpp:2301-2321] [JsCallBack] the task of the event, with the deletions at its end *)
Definition callback_task (ev : CallbackEvent) : ST world unit :=
  let asyncCBWork := ce_context ev in
  on_engine (
    '(_, scope) ← napi napi_open_handle_scope;
    '(_, resultJsCb) ← napi (napi_get_reference_value (cb_callbackRef asyncCBWork));
    argv1 ← ParmsInput asyncCBWork;
    napi (napi_call_function nullptr (default any_value resultJsCb) [nullptr; argv1]) ;;
    napi (napi_close_handle_scope (default any_value scope)) ;;
    mret tt) ;;
  delete_transfer (ce_transfer ev).

(** ** Cancelling *)

(** [usb_info.cpp:2440-2459] [ParseCancelParams] *)
Definition ParseCancelParams (object : Z) (c : USBDevicePipe * Z) : ST world (bool * (USBDevicePipe * Z)) :=
  pipe_property object c (λ pipe,
    endpoint ← on_engine (JsObjectToInt object "endpoint" c.2);
    mret (true, (pipe, endpoint))).

(** [usb_info.cpp:2461-2482] [GetCancelParamsFromJsObj] *)
Definition GetCancelParamsFromJsObj (info : Z) (c : USBDevicePipe * Z) : ST world (bool * (USBDevicePipe * Z)) :=
  object_argument info c (λ object,
    '(parseResult, c) ← ParseCancelParams object c;
    mret (parseResult, c)).

(** [usb_info.cpp:2484-2511] [UsbCancelTransfer] of the context only the pipe and the endpoint are used *)
Definition UsbCancelTransfer (info : Z) : Native :=
  require_feature FEATURE_HOST
    ('(ok, (pipe, endpoint)) ← GetCancelParamsFromJsObj info (default_pipe, 0);
     if negb ok then throw OHEC_COMMON_PARAM_ERROR "BusinessError 401:Parameter error." ;; give nullptr
     else
       invoke (Pipe.UsbCancelTransfer pipe endpoint) (λ ret,
         if negb (ret =? napi_ok) then throw (UsbSubmitTransferErrorCode ret) "" ;; give nullptr
         else give nullptr)).
End JsTransfer.
