(* ===== verification/JsSerial.v ===== *)
(** * The bindings of the serial ports

    [interfaces/kits/js/napi/src/serial_info.cpp]: the functions of the module [serial] with
    their contexts ([serial_async_context.h]) and their errors ([serial_napi_errors.h]).
    Three of them return a promise.  The module is a library of its own, with the messages
    [serial_messages]. *)

From S2P Require Import Prelude Text UsbErrors UsbTypes Napi.
From S2P Require Import HostDriver HostEvents HostPolicy ServiceHost ServiceSerial ServiceGate ServicePorts Client.
From S2P Require Import JsValues Platform JsWorld JsCalls JsAsync.
From S2P Require Service.

#[local] Set Default Goal Selector "!".

(** ** Codes *)

(** [serial_napi_errors.h:30-42] [SerialJsErrCode] *)
Definition SYSPARAM_INVALID_INPUT : Z := 401.
Definition SERIAL_SYSAPI_NOPERMISSION_CALL : Z := 201.
Definition SERIAL_SYSAPI_PERMISSION_DENIED : Z := 202.
Definition SERIAL_SERVICE_ABNORMAL : Z := 31400001.
Definition SERIAL_INTERFACE_PERMISSION_DENIED : Z := 31400002.
Definition SERIAL_PORT_NOT_EXIST : Z := 31400003.
Definition SERIAL_PORT_OCCUPIED : Z := 31400004.
Definition SERIAL_PORT_NOT_OPEN : Z := 31400005.
Definition SERIAL_TIMED_OUT : Z := 31400006.
Definition SERIAL_IO_EXCEPTION : Z := 31400007.
Definition SERIAL_RIGHT_DATABASE_ERROR : Z := 14400005.

(** [serial_napi_errors.h:45-62] [ERRCODE_MSG_MAP] *)
Definition serial_messages : ErrorMessages :=
  [(SYSPARAM_INVALID_INPUT, "BusinessError 401:Parameter error.");
   (SERIAL_SYSAPI_NOPERMISSION_CALL,
    "BusinessError 201:Permission denied. The application does not have the permission to call the API.");
   (SERIAL_SYSAPI_PERMISSION_DENIED, "BusinessError 202:Permission denied. Normal application uses system api.");
   (SERIAL_SERVICE_ABNORMAL, "BusinessError 31400001:The serial port service is abnormal.");
   (SERIAL_INTERFACE_PERMISSION_DENIED,
    "BusinessError 31400002:Permission denied. no access right to serial device, call requestSerialRight first.");
   (SERIAL_PORT_NOT_EXIST, "BusinessError 31400003:port not exist.");
   (SERIAL_PORT_OCCUPIED, "BusinessError 31400004:device is using by other application.");
   (SERIAL_PORT_NOT_OPEN, "BusinessError 31400005:device is not open, call open first.");
   (SERIAL_TIMED_OUT, "BusinessError 31400006:transfer timeout.");
   (SERIAL_IO_EXCEPTION,
    "BusinessError 31400007: IO exception. Possible causes: 1. The transfer was canceled. 2. The device offered more data.")
  ]%string.

(** [serial_info.cpp:44-44] [ARGC_1] *)
Definition ARGC_1 : Z := 1.
(** [serial_info.cpp:45-45] [ARGC_2] *)
Definition ARGC_2 : Z := 2.
(** [serial_info.cpp:46-46] [ARGC_3] *)
Definition ARGC_3 : Z := 3.

Section JsSerial.
Context {E A S O : Type} `{NA : Napi E} `{UN : Uninitialised} `{EM : ErrorMessages}.
Context `{EB : ErrBase} `{AC : AbilityAccess A} `{UA : UsbAbility} `{US : UsbServer S}.
Context `{SY : System O} `{SC : Securec}.
Abbreviation world := (JsWorld.world E A S O).
Abbreviation Native := (ST world (option Z)).
Abbreviation Execute := (ST world (option (USBAsyncContext * Context_))).

(** [serial_info.cpp:52-65] [ErrorCodeConversion] The table of [ErrorCodeConversion]; of two entries for a code the first counts. *)
Definition errorMap : list (Z * Z) :=
  [(UEC_SERVICE_PERMISSION_DENIED_SYSAPI, SERIAL_SYSAPI_PERMISSION_DENIED);
   (UEC_SERVICE_PERMISSION_DENIED, SERIAL_INTERFACE_PERMISSION_DENIED);
   (UEC_SERVICE_PERMISSION_DENIED_SYSAPI_FAILED, SERIAL_SYSAPI_NOPERMISSION_CALL);
   (UEC_SERIAL_PORT_REPEAT_OPEN, SERIAL_PORT_OCCUPIED);
   (UEC_SERIAL_PORT_REPEAT_CLOSE, SERIAL_PORT_OCCUPIED);
   (UEC_SERIAL_PORT_OCCUPIED, SERIAL_PORT_OCCUPIED);
   (UEC_SERIAL_DEVICENOTOPEN, SERIAL_PORT_NOT_OPEN);
   (UEC_SERIAL_PORT_NOT_OPEN, SERIAL_PORT_NOT_OPEN);
   (UEC_INTERFACE_TIMED_OUT, SERIAL_TIMED_OUT);
   (UEC_SERIAL_IO_EXCEPTION, SERIAL_IO_EXCEPTION);
   (UEC_SERIAL_PORT_NOT_EXIST, SERIAL_PORT_NOT_EXIST);
   (UEC_SERIAL_DATEBASE_ERROR, SERIAL_RIGHT_DATABASE_ERROR)].

(** [serial_info.cpp:50-71] [ErrorCodeConversion] *)
Definition ErrorCodeConversion (value : Z) : Z :=
  from_option snd SERIAL_SERVICE_ABNORMAL (head (filter (λ p, p.1 = value) errorMap)).

(** [serial_napi_errors.h:67-75] [CheckAndThrowOnError] *)
Definition CheckAndThrowOnError (assertion : bool) (errCode : Z) (errMsg : string) : ST world bool :=
  if negb assertion then throw errCode errMsg ;; mret false else mret true.

(** [serial_napi_errors.h:77-84] [CheckNapiResult] *)
Definition CheckNapiResult (theCall : Z) : bool := theCall =? napi_ok.

(** [serial_info.cpp:187-189] [SerialSetAttributeNapi] A check of a function that returns a handle, which is then a null pointer. *)
Definition check_or_null (assertion : bool) (errCode : Z) (errMsg : string) (k : Native) : Native :=
  ok ← CheckAndThrowOnError assertion errCode errMsg;
  if negb ok then give nullptr else k.
(** [serial_info.cpp:170-173] [ParseSetAttributeInterfaceParams] A check of a function that parses arguments: [None] is its [false]. *)
Definition check_or_false {R} (assertion : bool) (errCode : Z) (errMsg : string) (k : ST world (option R))
    : ST world (option R) :=
  ok ← CheckAndThrowOnError assertion errCode errMsg;
  if negb ok then mret None else k.

(** [serial_info.cpp:197-207] [ParseWriteInterfaceParams] The arguments, of which there must be [n] ([n] or [m] in some functions). *)
Definition serial_arguments {R} (info cap : Z) (allowed : list Z) (failedMsg countMsg : string)
    (fail : ST world R) (k : Z → list Z → ST world R) : ST world R :=
  '(status, argc, argv) ← cb_info info cap;
  if negb (CheckNapiResult status) then
    CheckAndThrowOnError false SYSPARAM_INVALID_INPUT failedMsg ;; fail
  else
    ok ← CheckAndThrowOnError (bool_decide (argc ∈ allowed)) SYSPARAM_INVALID_INPUT countMsg;
    if negb ok then fail else k argc argv.

(** [serial_info.cpp:208-218] [ParseWriteInterfaceParams] The number of a port in an argument: a number other than [-1]; with the type that the
    variable holds. *)
Definition port_argument {R} (argv : list Z) (i : nat) (typeMsg : string) (old : napi_valuetype)
    (fail : ST world R) (k : Z → napi_valuetype → ST world R) : ST world R :=
  '(_, type) ← typeof (arg argv i) old;
  ok ← CheckAndThrowOnError (is_type type napi_number) SYSPARAM_INVALID_INPUT typeMsg;
  if negb ok then fail
  else
    portIdValue ← get_int32 (arg argv i) (-1);
    ok ← CheckAndThrowOnError (negb (portIdValue =? -1)) SYSPARAM_INVALID_INPUT "Failed to get portId.";
    if negb ok then fail else k portIdValue type.

Definition takes_one : string := "The function takes 1 arguments.".
Definition portId_type : string := "The type of portId must be int32_t.".

(** [serial_info.cpp:494-515] [SerialOpenNapi] The functions of a port, which take its number only. *)
Definition with_port (info : Z) (failedMsg typeMsg : string) (k : Z → Native) : Native :=
  serial_arguments info ARGC_1 [ARGC_1] failedMsg takes_one (give nullptr) (λ argc argv,
    port_argument argv 0 typeMsg any_type (give nullptr) (λ portIdValue _, k portIdValue)).

(** ** The ports *)

(** [serial_info.cpp:84-94] [SerialGetPortListNapi] The objects of [SerialGetPortListNapi]. *)
Fixpoint set_serial_ports (result : Z) (portIds : list UsbSerialPort) (i : Z) : ST E unit :=
  match portIds with
  | [] => mret tt
  | p :: portIds =>
      portObj ← create_object any_value;
      SetValueInt32 "portId" (usp_portId_ p) portObj ;;
      SetValueUtf8String "deviceName" (Service.to_string (usp_busNum_ p) +:+ "-" +:+ Service.to_string (usp_devAddr_ p)) portObj ;;
      set_element result i portObj ;;
      set_serial_ports result portIds (i + 1)
  end.

(** [serial_info.cpp:73-96] [SerialGetPortListNapi] *)
Definition SerialGetPortListNapi (info : Z) : Native :=
  invoke (SerialGetPortList []) (λ '(ret, portIds),
    result ← on_engine (create_array nullptr);
    if ret <? 0 then give result
    else on_engine (set_serial_ports result portIds 0) ;; give result).

(** An attribute that the code declares without values. *)
Definition any_attribute : UsbSerialAttr := mk_UsbSerialAttr any_int any_int any_int any_int.

(** [serial_info.cpp:98-134] [SerialGetAttributeNapi] *)
Definition SerialGetAttributeNapi (info : Z) : Native :=
  with_port info "get arguments failed." "The type of arg0 must be int32_t." (λ portIdValue,
    invoke (SerialGetAttribute portIdValue any_attribute) (λ '(ret, serialAttribute),
      check_or_null (ret =? 0) (ErrorCodeConversion ret) "Failed to get attribute."
        (result ← on_engine (create_object nullptr);
         on_engine (SetValueUint32 "baudRate" (baudRate_ serialAttribute) result) ;;
         on_engine (SetValueUint32 "dataBits" (dataBits_ serialAttribute) result) ;;
         on_engine (SetValueUint32 "parity" (parity_ serialAttribute) result) ;;
         on_engine (SetValueUint32 "stopBits" (stopBits_ serialAttribute) result) ;;
         give result))).

(** [serial_info.cpp:166-169] [ParseSetAttributeInterfaceParams] The four numbers of an attribute object, up to the first that fails. *)
Definition parse_attribute (obj : Z) (a : UsbSerialAttr) : ST E (bool * UsbSerialAttr) :=
  '(ok, baudRate) ← JsObjectToUint32 obj "baudRate" (baudRate_ a);
  let a := mk_UsbSerialAttr baudRate (dataBits_ a) (parity_ a) (stopBits_ a) in
  if negb ok then mret (false, a)
  else
    '(ok, dataBits) ← JsObjectToUint8 obj "dataBits" (dataBits_ a);
    let a := mk_UsbSerialAttr baudRate dataBits (parity_ a) (stopBits_ a) in
    if negb ok then mret (false, a)
    else
      '(ok, parity) ← JsObjectToUint8 obj "parity" (parity_ a);
      let a := mk_UsbSerialAttr baudRate dataBits parity (stopBits_ a) in
      if negb ok then mret (false, a)
      else
        '(ok, stopBits) ← JsObjectToUint8 obj "stopBits" (stopBits_ a);
        mret (ok, mk_UsbSerialAttr baudRate dataBits parity stopBits).

(** [serial_info.cpp:136-175] [ParseSetAttributeInterfaceParams] *)
Definition ParseSetAttributeInterfaceParams (info : Z) : ST world (option (Z * UsbSerialAttr)) :=
  serial_arguments info ARGC_2 [ARGC_2] "get arguments failed." "The function takes 2 arguments." (mret None)
    (λ argc argv,
      port_argument argv 0 "The type of arg0 must be int32_t." any_type (mret None) (λ portIdValue type,
        '(_, type) ← typeof (arg argv 1) type;
        check_or_false (is_type type napi_object) SYSPARAM_INVALID_INPUT "The type of arg1 must be SerialAttribute."
          ('(result, serialAttribute) ← on_engine (parse_attribute (arg argv 1) any_attribute);
           check_or_false result SYSPARAM_INVALID_INPUT "Parse attribute failed."
             (mret (Some (portIdValue, serialAttribute)))))).

(** [serial_info.cpp:177-191] [SerialSetAttributeNapi] *)
Definition SerialSetAttributeNapi (info : Z) : Native :=
  p ← ParseSetAttributeInterfaceParams info;
  match p with
  | None => give nullptr
  | Some (portIdValue, serialAttribute) =>
      invoke (SerialSetAttribute portIdValue serialAttribute) (λ ret,
        check_or_null (ret =? 0) (ErrorCodeConversion ret) "Failed to set attribute." (give nullptr))
  end.

(** [serial_info.cpp:491-523] [SerialOpenNapi] *)
Definition SerialOpenNapi (info : Z) : Native :=
  with_port info "get arguments failed." portId_type (λ portIdValue,
    invoke (SerialOpen portIdValue) (λ ret,
      check_or_null (ret =? 0) (ErrorCodeConversion ret) "SerialOpen failed." (give nullptr))).

(** [serial_info.cpp:525-556] [SerialCloseNapi] *)
Definition SerialCloseNapi (info : Z) : Native :=
  with_port info "get arguments failed." portId_type (λ portIdValue,
    invoke (SerialClose portIdValue) (λ ret,
      check_or_null (ret =? 0) (ErrorCodeConversion ret) "SerialClose failed." (give nullptr))).

(** [serial_info.cpp:558-591] [SerialHasRightNapi] *)
Definition SerialHasRightNapi (info : Z) : Native :=
  with_port info "get arguments failed." portId_type (λ portIdValue,
    invoke (HasSerialRight portIdValue false) (λ '(ret, hasRight),
      check_or_null (ret =? 0) (ErrorCodeConversion ret) "SerialHasRight failed."
        (result ← on_engine (get_boolean hasRight nullptr); give result))).

(** [serial_info.cpp:593-623] [CancelSerialRightNapi] *)
Definition CancelSerialRightNapi (info : Z) : Native :=
  with_port info "get arguments failed." portId_type (λ portIdValue,
    invoke (CancelSerialRight portIdValue) (λ ret,
      check_or_null (ret =? 0) (ErrorCodeConversion ret) "SerialRemoveRight failed." (give nullptr))).

(** [serial_info.cpp:625-666] [SerialAddRightNapi] *)
Definition SerialAddRightNapi (info : Z) : Native :=
  serial_arguments info ARGC_2 [ARGC_2] "can not get arguments." "The function takes 2 arguments." (give nullptr)
    (λ argc argv,
      '(_, type) ← typeof (arg argv 0) any_type;
      check_or_null (is_type type napi_number) SYSPARAM_INVALID_INPUT "The type of tokenId must be int32_t."
        (tokenIdValue ← get_int32 (arg argv 0) 0;
         check_or_null (negb (tokenIdValue =? 0)) SYSPARAM_INVALID_INPUT "Failed to get tokenId."
           (port_argument argv 1 portId_type type (give nullptr) (λ portIdValue _,
              invoke (AddSerialRight tokenIdValue portIdValue) (λ ret,
                check_or_null (ret =? 0) (ErrorCodeConversion ret) "SerialAddRight failed." (give nullptr)))))).

(** ** Reading and writing *)

(** [serial_info.cpp:197-229] [ParseWriteInterfaceParams] [ParseWriteInterfaceParams] and [ParseReadInterfaceParams]: the port, the handle of the
    buffer and the timeout. *)
Definition transfer_params (info : Z) : ST world (option (Z * Z * Z)) :=
  serial_arguments info ARGC_3 [ARGC_2; ARGC_3] "get arguments failed." "The function takes 2 or 3 arguments."
    (mret None) (λ argc argv,
      port_argument argv 0 portId_type any_type (mret None) (λ portIdValue type,
        let buffer := arg argv 1 in
        if argc =? ARGC_3 then
          '(_, type) ← typeof (arg argv 2) type;
          check_or_false (is_type type napi_number) SYSPARAM_INVALID_INPUT "The type of timeout must be uint32_t."
            (timeoutValue ← get_uint32 (arg argv 2) 0;
             mret (Some (portIdValue, buffer, timeoutValue)))
        else mret (Some (portIdValue, buffer, 0)))).
(** [serial_info.cpp:193-230] [ParseWriteInterfaceParams] *)
Definition ParseWriteInterfaceParams (info : Z) : ST world (option (Z * Z * Z)) := transfer_params info.
(** [serial_info.cpp:346-382] [ParseReadInterfaceParams] *)
Definition ParseReadInterfaceParams (info : Z) : ST world (option (Z * Z * Z)) := transfer_params info.

(** [serial_info.cpp:241-248] [SerialWriteSyncNapi] [napi_get_typedarray_info], whose status nothing looks at: a value that is not a typed
    array leaves the type and the length as they were on the stack. *)
Definition typed_array (buffer : Z) (k : Z → Z → Native) : Native :=
  '(_, info) ← on_engine (napi (napi_get_typedarray_info buffer));
  let arrayType := from_option ta_type any_array_type info in
  let bufferLength := from_option ta_length any_int info in
  let bufferValue := from_option ta_data nullptr info in
  check_or_null (is_array_type arrayType napi_uint8_array) SYSPARAM_INVALID_INPUT
    "The type of buffer must be an array of uint8_t." (k bufferLength bufferValue).

(** [serial_info.cpp:249-250] [SerialWriteSyncNapi] The bytes behind a pointer, unless it is null. *)
Definition bytes_at (address size : Z) : ST world (option (list Z)) :=
  if (address =? nullptr) && (0 <? size) then mret None
  else bytes ← gets (λ w, peek address size (engine w)); mret (Some bytes).

(** [serial_info.cpp:409-413] [SerialReadSyncNapi] [memcpy_s] into the array: what it writes of what it was given. *)
Definition copy_to_array (address size : Z) (bytes : list Z) : ST world unit :=
  let '(_, written) := memcpy_s address size bytes in
  match written with
  | None => mret tt
  | Some l => modify (λ w, set_engine (poke address l (engine w)) w)
  end.

(** [serial_info.cpp:232-261] [SerialWriteSyncNapi] *)
Definition SerialWriteSyncNapi (info : Z) : Native :=
  p ← ParseWriteInterfaceParams info;
  match p with
  | None => give nullptr
  | Some (portIdValue, buffer, timeoutValue) =>
      typed_array buffer (λ bufferLength bufferValue,
        bufferVector ← bytes_at bufferValue bufferLength;
        match bufferVector with
        | None => mret None
        | Some bufferVector =>
            invoke (SerialWrite portIdValue bufferVector (u32 bufferLength) 0 timeoutValue) (λ '(ret, actualSize),
              check_or_null (ret =? 0) (ErrorCodeConversion ret) "SerialWrite Failed."
                (result ← on_engine (create_int32 (i32 actualSize) nullptr); give result))
        end)
  end.

(** [serial_info.cpp:384-417] [SerialReadSyncNapi] *)
Definition SerialReadSyncNapi (info : Z) : Native :=
  p ← ParseReadInterfaceParams info;
  match p with
  | None => give nullptr
  | Some (portIdValue, buffer, timeoutValue) =>
      typed_array buffer (λ bufferLength bufferValue,
        invoke (SerialRead portIdValue [] (u32 bufferLength) 0 timeoutValue) (λ '(ret, (bufferData, actualSize)),
          check_or_null (ret =? 0) (ErrorCodeConversion ret) "SerialReadSync Failed."
            (copy_to_array bufferValue bufferLength bufferData ;;
             result ← on_engine (create_int32 (i32 actualSize) nullptr);
             give result)))
  end.

(** ** Works *)

(** [serial_info.cpp:338-343] [SerialWriteNapi] A serial context after [napi_create_promise], and the queueing of its work.  The field
    [work] has no value when the engine does not write it. *)
Definition queue_serial_work (name : string) (deferred promise : Z) (c : Context_) : Native :=
  resourceName ← on_engine (create_string name any_value);
  '(_, out) ← on_engine (napi (napi_create_async_work resourceName));
  let work := default any_int out in
  '(queued, _) ← on_engine (napi (napi_queue_async_work work));
  mwhen (queued =? napi_ok)
    (modify (λ w, set_tasks (tasks w ++ [mk_Task (mk_USBAsyncContext work deferred napi_ok) c false]) w)) ;;
  give promise.

(** [serial_info.cpp:319-332] [SerialWriteNapi] [new (std::nothrow)] and [napi_create_promise]: the messages when one of them fails. *)
Definition with_promise (newMsg : string) (k : Z → Z → Native) : Native :=
  p ← on_system allocate;
  check_or_null (opt_is_some p) SYSPARAM_INVALID_INPUT newMsg
    ('(status, out) ← on_engine (napi napi_create_promise);
     if negb (status =? napi_ok) then
       CheckAndThrowOnError false SERIAL_SERVICE_ABNORMAL "promise is null" ;; give nullptr
     else let '(deferred, promise) := default (any_int, any_value) out in k deferred promise).

(** [serial_info.cpp:290-299] [g_serialWriteComplete] The end of a serial work: the promise is rejected with the code, or fulfilled. *)
Definition settle_serial (b : USBAsyncContext) (contextErrno : Z) (result : ST E Z) : ST world unit :=
  (if negb (contextErrno =? 0) then
     r ← on_engine (create_int32 contextErrno nullptr);
     reject_deferred (deferred b) r
   else
     r ← on_engine result;
     resolve_deferred (deferred b) r) ;;
  delete_async_work (work b).

(** [serial_info.cpp:263-286] [g_serialWriteExecute] *)
Definition g_serialWriteExecute (b : USBAsyncContext) (c : SerialWriteAsyncContext) : Execute :=
  if negb (sw_contextErrno c =? 0) || (sw_size c =? 0) then mret (Some (b, SerialWriteWork c))
  else
    bufferVector ← bytes_at (sw_pData c) (sw_size c);
    match bufferVector with
    | None => mret None
    | Some bufferVector =>
        invoke (SerialWrite (sw_portId c) bufferVector (sw_size c) 0 (sw_timeout c)) (λ '(ret, actualSize),
          mret (Some (b, SerialWriteWork (mk_SerialWriteAsyncContext
            (if negb (ret =? 0) then ErrorCodeConversion ret else sw_contextErrno c)
            (i32 actualSize) (sw_portId c) (sw_size c) (sw_timeout c) (sw_pData c)))))
    end.

(** [serial_info.cpp:288-300] [g_serialWriteComplete] *)
Definition g_serialWriteComplete (b : USBAsyncContext) (c : SerialWriteAsyncContext) : ST world unit :=
  settle_serial b (sw_contextErrno c) (create_int32 (sw_ret c) nullptr).

(** [serial_info.cpp:302-344] [SerialWriteNapi] [ret] has no value before the work runs *)
Definition SerialWriteNapi (info : Z) : Native :=
  p ← ParseWriteInterfaceParams info;
  match p with
  | None => give nullptr
  | Some (portIdValue, buffer, timeoutValue) =>
      typed_array buffer (λ bufferLength bufferValue,
        with_promise "asyncContext is null" (λ deferred promise,
          queue_serial_work "SerialWrite" deferred promise (SerialWriteWork
            (mk_SerialWriteAsyncContext 0 any_int portIdValue (u32 bufferLength) timeoutValue bufferValue))))
  end.

(** [serial_info.cpp:419-433] [g_serialReadExecute] *)
Definition g_serialReadExecute (b : USBAsyncContext) (c : SerialReadAsyncContext) : Execute :=
  invoke (SerialRead (sr_portId c) [] (sr_size c) 0 (sr_timeout c)) (λ '(ret, (bufferData, actualSize)),
    copy_to_array (sr_pData c) (sr_size c) bufferData ;;
    mret (Some (b, SerialReadWork (mk_SerialReadAsyncContext
      (if negb (ret =? 0) then ErrorCodeConversion ret else sr_contextErrno c)
      (i32 actualSize) (sr_portId c) (sr_size c) (sr_timeout c) (sr_pData c))))).

(** [serial_info.cpp:435-447] [g_serialReadComplete] *)
Definition g_serialReadComplete (b : USBAsyncContext) (c : SerialReadAsyncContext) : ST world unit :=
  settle_serial b (sr_contextErrno c) (create_int32 (sr_ret c) nullptr).

(** [serial_info.cpp:449-489] [SerialReadNapi] *)
Definition SerialReadNapi (info : Z) : Native :=
  p ← ParseReadInterfaceParams info;
  match p with
  | None => give nullptr
  | Some (portIdValue, buffer, timeoutValue) =>
      typed_array buffer (λ bufferLength bufferValue,
        with_promise "Failed to create promise." (λ deferred promise,
          queue_serial_work "SerialRead" deferred promise (SerialReadWork
            (mk_SerialReadAsyncContext 0 any_int portIdValue (u32 bufferLength) timeoutValue bufferValue))))
  end.

(** [serial_info.cpp:668-676] [g_serialRequestRightExecute] *)
Definition g_serialRequestRightExecute (b : USBAsyncContext) (c : SerialRequestRightAsyncContext) : Execute :=
  invoke (RequestSerialRight (rr_portIdValue c) (rr_hasRight c)) (λ '(ret, hasRight),
    mret (Some (b, SerialRequestRightWork (mk_SerialRequestRightAsyncContext
      (if negb (ret =? 0) then ErrorCodeConversion ret else 0) hasRight (rr_portIdValue c))))).

(** [serial_info.cpp:678-691] [g_serialRequestRightComplete] *)
Definition g_serialRequestRightComplete (b : USBAsyncContext) (c : SerialRequestRightAsyncContext)
    : ST world unit :=
  settle_serial b (rr_contextErrno c) (get_boolean (rr_hasRight c) nullptr).

(** [serial_info.cpp:693-738] [SerialRequestRightNapi] *)
Definition SerialRequestRightNapi (info : Z) : Native :=
  with_port info "can not get arguments." portId_type (λ portIdValue,
    with_promise "Failed to create promise." (λ deferred promise,
      queue_serial_work "SerialRequestRight" deferred promise (SerialRequestRightWork
        (mk_SerialRequestRightAsyncContext 0 false portIdValue)))).
End JsSerial.
