(* ===== verification/JsExports.v ===== *)
(** * What the modules export

    The constants, the enumerations and the functions that [UsbInit] of
    [interfaces/kits/js/napi/src/usb_info.cpp] and [SerialInit] of [serial_info.cpp] declare
    to the engine, and the functions by their names in the code. *)

From S2P Require Import Prelude Text UsbErrors UsbTypes Napi.
From S2P Require Import HostDriver HostEvents HostPolicy ServiceHost ServiceSerial ServiceGate ServicePorts Client.
From S2P Require Import JsValues Platform JsWorld JsCalls JsAsync JsTransfer JsSerial.

#[local] Set Default Goal Selector "!".

(** ** Constants *)

(** [usb_async_context.h:28-61] [NONE] *)
Definition NONE : Z := 0.
Definition SOURCE : Z := 1.
Definition SINK : Z := 2.
Definition HOST : Z := 1.
Definition DEVICE : Z := 2.
Definition UFP : Z := 1.
Definition DFP : Z := 2.
Definition DRP : Z := 3.
Definition NUM_MODES : Z := 4.
Definition USB_REQUEST_TARGET_DEVICE : Z := 0.
Definition USB_REQUEST_TARGET_INTERFACE : Z := 1.
Definition USB_REQUEST_TARGET_ENDPOINT : Z := 2.
Definition USB_REQUEST_TARGET_OTHER : Z := 3.
Definition USB_REQUEST_TYPE_STANDARD : Z := 0.
Definition USB_REQUEST_TYPE_CLASS : Z := 1.
Definition USB_REQUEST_TYPE_VENDOR : Z := 2.
Definition USB_REQUEST_DIR_TO_DEVICE : Z := 0.
Definition USB_REQUEST_DIR_FROM_DEVICE : Z := 128.
Definition ACM : Z := 1.
Definition ECM : Z := 2 ^ 1.
Definition HDC : Z := 2 ^ 2.
Definition MTP : Z := 2 ^ 3.
Definition PTP : Z := 2 ^ 4.
Definition RNDIS : Z := 2 ^ 5.
Definition MIDI : Z := 2 ^ 6.
Definition AUDIO_SOURCE : Z := 2 ^ 7.
Definition NCM : Z := 2 ^ 8.
Definition STORAGE : Z := 2 ^ 9.
(** [usb_info.cpp:65-78] [USB_TRANSFER_SHORT_NOT_OK] *)
Definition USB_TRANSFER_SHORT_NOT_OK : Z := 0.
Definition USB_TRANSFER_FREE_BUFFER : Z := 1.
Definition USB_TRANSFER_FREE_TRANSFER : Z := 2.
Definition USB_TRANSFER_ADD_ZERO_PACKET : Z := 3.
Definition TRANSFER_TYPE_ISOCHRONOUS : Z := 1.
Definition TRANSFER_TYPE_BULK : Z := 2.
Definition TRANSFER_TYPE_INTERRUPT : Z := 3.
Definition TRANSFER_COMPLETED : Z := 0.
Definition TRANSFER_ERROR : Z := 1.
Definition TRANSFER_TIMED_OUT : Z := 2.
Definition TRANSFER_CANCELED : Z := 3.
Definition TRANSFER_STALL : Z := 4.
Definition TRANSFER_NO_DEVICE : Z := 5.
Definition TRANSFER_OVERFLOW : Z := 6.
(** The rates are their own names. *)
(** [serial_async_context.h:23-52] [BAUDRATE_50] *)
Definition baud_rates : list Z :=
  [50; 75; 110; 134; 150; 200; 300; 600; 1200; 1800; 2400; 4800; 9600; 19200; 38400; 57600; 115200; 230400;
   460800; 500000; 576000; 921600; 1000000; 1152000; 1500000; 2000000; 2500000; 3000000; 3500000; 4000000].
(** [serial_async_context.h:54-66] [DATABIT_8] *)
Definition DATABIT_8 : Z := 8.
Definition DATABIT_7 : Z := 7.
Definition DATABIT_6 : Z := 6.
Definition DATABIT_5 : Z := 5.
Definition PARITY_NONE : Z := 0.
Definition PARITY_ODD : Z := 1.
Definition PARITY_EVEN : Z := 2.
Definition PARITY_MARK : Z := 3.
Definition PARITY_SPACE : Z := 4.
Definition STOPBIT_1 : Z := 0.
Definition STOPBIT_2 : Z := 1.

Section JsExports.
Context {E A S O : Type} `{NA : Napi E} `{UN : Uninitialised} `{EM : ErrorMessages}.
Context `{EB : ErrBase} `{AC : AbilityAccess A} `{UA : UsbAbility} `{US : UsbServer S}.
Context `{FE : Features} `{SY : System O} `{JE : JsErrBase} `{SC : Securec}.
Abbreviation world := (JsWorld.world E A S O).
Abbreviation Native := (ST world (option Z)).

(** ** Enumerations *)

(** [usb_info.cpp:2560-2578] [SetEnumProperty] *)
Definition SetEnumProperty (object : Z) (name : string) (value : Z) : ST E unit :=
  if String.eqb name "" then mret tt
  else
    '(status, tempValue) ← napi (napi_create_int32 value);
    if negb (status =? napi_ok) then mret tt
    else napi (napi_set_named_property object (c_str name) (default nullptr tempValue)) ;; mret tt.
Fixpoint set_enum (object : Z) (l : list (string * Z)) : ST E unit :=
  match l with
  | [] => mret tt
  | (name, value) :: l => SetEnumProperty object name value ;; set_enum object l
  end.
(** An object with the names of an enumeration, or a null pointer. *)
Definition create_enum (l : list (string * Z)) : ST E Z :=
  '(status, out) ← napi napi_create_object;
  if negb (status =? napi_ok) then mret nullptr
  else let object := default nullptr out in set_enum object l ;; mret object.

(** [usb_info.cpp:2580-2593] [NapiCreateFlagsEnum] *)
Definition NapiCreateFlagsEnum : ST E Z :=
  create_enum
    [("USB_TRANSFER_SHORT_NOT_OK", USB_TRANSFER_SHORT_NOT_OK);
     ("USB_TRANSFER_FREE_BUFFER", USB_TRANSFER_FREE_BUFFER);
     ("USB_TRANSFER_FREE_TRANSFER", USB_TRANSFER_FREE_TRANSFER);
     ("USB_TRANSFER_ADD_ZERO_PACKET", USB_TRANSFER_ADD_ZERO_PACKET)]%string.
(** [usb_info.cpp:2595-2607] [NapiCreateTypeEnum] *)
Definition NapiCreateTypeEnum : ST E Z :=
  create_enum
    [("TRANSFER_TYPE_ISOCHRONOUS", TRANSFER_TYPE_ISOCHRONOUS); ("TRANSFER_TYPE_BULK", TRANSFER_TYPE_BULK);
     ("TRANSFER_TYPE_INTERRUPT", TRANSFER_TYPE_INTERRUPT)]%string.
(** [usb_info.cpp:2609-2625] [NapiCreateStatusEnum] *)
Definition NapiCreateStatusEnum : ST E Z :=
  create_enum
    [("TRANSFER_COMPLETED", TRANSFER_COMPLETED); ("TRANSFER_ERROR", TRANSFER_ERROR);
     ("TRANSFER_TIMED_OUT", TRANSFER_TIMED_OUT); ("TRANSFER_CANCELED", TRANSFER_CANCELED);
     ("TRANSFER_STALL", TRANSFER_STALL); ("TRANSFER_NO_DEVICE", TRANSFER_NO_DEVICE);
     ("TRANSFER_OVERFLOW", TRANSFER_OVERFLOW)]%string.
(** [usb_info.cpp:2669-2681] [PowerRoleTypeEnum] *)
Definition PowerRoleTypeEnum : ST E Z :=
  create_enum
    [("NONE", NONE); ("SOURCE", SOURCE); ("SINK", SINK)]%string.
(** [usb_info.cpp:2683-2694] [DataRoleTypeEnum] *)
Definition DataRoleTypeEnum : ST E Z :=
  create_enum
    [("HOST", HOST); ("DEVICE", DEVICE)]%string.
(** [usb_info.cpp:2696-2709] [PortModeTypeEnum] *)
Definition PortModeTypeEnum : ST E Z :=
  create_enum
    [("UFP", UFP); ("DFP", DFP); ("DRP", DRP); ("NUM_MODES", NUM_MODES)]%string.
(** [usb_info.cpp:2711-2724] [USBRequestTargetTypeEnum] *)
Definition USBRequestTargetTypeEnum : ST E Z :=
  create_enum
    [("USB_REQUEST_TARGET_DEVICE", USB_REQUEST_TARGET_DEVICE);
     ("USB_REQUEST_TARGET_INTERFACE", USB_REQUEST_TARGET_INTERFACE);
     ("USB_REQUEST_TARGET_ENDPOINT", USB_REQUEST_TARGET_ENDPOINT);
     ("USB_REQUEST_TARGET_OTHER", USB_REQUEST_TARGET_OTHER)]%string.
(** [usb_info.cpp:2726-2738] [USBControlRequestTypeEnum] *)
Definition USBControlRequestTypeEnum : ST E Z :=
  create_enum
    [("USB_REQUEST_TYPE_STANDARD", USB_REQUEST_TYPE_STANDARD);
     ("USB_REQUEST_TYPE_CLASS", USB_REQUEST_TYPE_CLASS);
     ("USB_REQUEST_TYPE_VENDOR", USB_REQUEST_TYPE_VENDOR)]%string.
(** [usb_info.cpp:2740-2751] [USBRequestDirectionEnum] *)
Definition USBRequestDirectionEnum : ST E Z :=
  create_enum
    [("USB_REQUEST_DIR_TO_DEVICE", USB_REQUEST_DIR_TO_DEVICE);
     ("USB_REQUEST_DIR_FROM_DEVICE", USB_REQUEST_DIR_FROM_DEVICE)]%string.
(** [usb_info.cpp:2753-2772] [FunctionTypeEnum] *)
Definition FunctionTypeEnum : ST E Z :=
  create_enum
    [("ACM", ACM); ("ECM", ECM); ("HDC", HDC); ("MTP", MTP); ("PTP", PTP); ("RNDIS", RNDIS); ("MIDI", MIDI);
     ("AUDIO_SOURCE", AUDIO_SOURCE); ("NCM", NCM); ("STORAGE", STORAGE)]%string.
(** [serial_info.cpp:760-771] [NapiCreateStopBitsTypeEnum] *)
Definition NapiCreateStopBitsTypeEnum : ST E Z :=
  create_enum
    [("STOPBIT_1", STOPBIT_1); ("STOPBIT_2", STOPBIT_2)]%string.
(** [serial_info.cpp:773-787] [NapiCreateParityTypeEnum] *)
Definition NapiCreateParityTypeEnum : ST E Z :=
  create_enum
    [("PARITY_NONE", PARITY_NONE); ("PARITY_ODD", PARITY_ODD); ("PARITY_EVEN", PARITY_EVEN);
     ("PARITY_MARK", PARITY_MARK); ("PARITY_SPACE", PARITY_SPACE)]%string.
(** [serial_info.cpp:789-802] [NapiCreateDataBitsTypeEnum] *)
Definition NapiCreateDataBitsTypeEnum : ST E Z :=
  create_enum
    [("DATABIT_8", DATABIT_8); ("DATABIT_7", DATABIT_7); ("DATABIT_6", DATABIT_6); ("DATABIT_5", DATABIT_5)]%string.
(** [serial_info.cpp:804-843] [NapiCreateBaudRatesTypeEnum] *)
Definition NapiCreateBaudRatesTypeEnum : ST E Z :=
  create_enum (zip
    ["BAUDRATE_50"; "BAUDRATE_75"; "BAUDRATE_110"; "BAUDRATE_134"; "BAUDRATE_150"; "BAUDRATE_200";
     "BAUDRATE_300"; "BAUDRATE_600"; "BAUDRATE_1200"; "BAUDRATE_1800"; "BAUDRATE_2400"; "BAUDRATE_4800";
     "BAUDRATE_9600"; "BAUDRATE_19200"; "BAUDRATE_38400"; "BAUDRATE_57600"; "BAUDRATE_115200";
     "BAUDRATE_230400"; "BAUDRATE_460800"; "BAUDRATE_500000"; "BAUDRATE_576000"; "BAUDRATE_921600";
     "BAUDRATE_1000000"; "BAUDRATE_1152000"; "BAUDRATE_1500000"; "BAUDRATE_2000000"; "BAUDRATE_2500000";
     "BAUDRATE_3000000"; "BAUDRATE_3500000"; "BAUDRATE_4000000"]%string
    baud_rates).

(** ** Declarations *)

(** [usb_info.cpp:2662-2667] [ToInt32Value] *)
Definition ToInt32Value (value : Z) : ST E Z := create_int32 value nullptr.

(** The values of a table, in the order of its rows. *)
Fixpoint static_properties (l : list (string * ST E Z)) : ST E (list Declared) :=
  match l with
  | [] => mret []
  | (name, value) :: l =>
      v ← value;
      rest ← static_properties l;
      mret (DECLARE_NAPI_STATIC_PROPERTY name v :: rest)
  end.

(** [usb_info.cpp:2774-2831] [DeclareEnum] *)
Definition DeclareEnum (exports : Z) : ST E Z :=
  desc ← static_properties
    [("NONE", ToInt32Value NONE); ("SOURCE", ToInt32Value SOURCE); ("SINK", ToInt32Value SINK);
     ("PowerRoleType", PowerRoleTypeEnum); ("HOST", ToInt32Value HOST); ("DEVICE", ToInt32Value DEVICE);
     ("DataRoleType", DataRoleTypeEnum); ("UFP", ToInt32Value UFP); ("DFP", ToInt32Value DFP);
     ("DRP", ToInt32Value DRP); ("NUM_MODES", ToInt32Value NUM_MODES); ("PortModeType", PortModeTypeEnum);
     ("USB_REQUEST_TARGET_DEVICE", ToInt32Value USB_REQUEST_TARGET_DEVICE);
     ("USB_REQUEST_TARGET_INTERFACE", ToInt32Value USB_REQUEST_TARGET_INTERFACE);
     ("USB_REQUEST_TARGET_ENDPOINT", ToInt32Value USB_REQUEST_TARGET_ENDPOINT);
     ("USB_REQUEST_TARGET_OTHER", ToInt32Value USB_REQUEST_TARGET_OTHER);
     ("USBRequestTargetType", USBRequestTargetTypeEnum);
     ("USB_REQUEST_TYPE_STANDARD", ToInt32Value USB_REQUEST_TYPE_STANDARD);
     ("USB_REQUEST_TYPE_CLASS", ToInt32Value USB_REQUEST_TYPE_CLASS);
     ("USB_REQUEST_TYPE_VENDOR", ToInt32Value USB_REQUEST_TYPE_VENDOR);
     ("USBControlRequestType", USBControlRequestTypeEnum);
     ("USB_REQUEST_DIR_TO_DEVICE", ToInt32Value USB_REQUEST_DIR_TO_DEVICE);
     ("USB_REQUEST_DIR_FROM_DEVICE", ToInt32Value USB_REQUEST_DIR_FROM_DEVICE);
     ("USBRequestDirection", USBRequestDirectionEnum); ("ACM", ToInt32Value ACM); ("ECM", ToInt32Value ECM);
     ("HDC", ToInt32Value HDC); ("MTP", ToInt32Value MTP); ("PTP", ToInt32Value PTP);
     ("RNDIS", ToInt32Value RNDIS); ("MIDI", ToInt32Value MIDI);
     ("AUDIO_SOURCE", ToInt32Value AUDIO_SOURCE); ("NCM", ToInt32Value NCM);
     ("STORAGE", ToInt32Value STORAGE); ("FunctionType", FunctionTypeEnum);
     ("UsbTransferFlags", NapiCreateFlagsEnum); ("UsbEndpointTransferType", NapiCreateTypeEnum);
     ("UsbTransferStatus", NapiCreateStatusEnum)]%string;
  NAPI_CALL (napi_define_properties exports desc) (λ _, mret exports).

(** The functions of the module: the names for applications, and the names in the code. *)
Definition usb_exports : list (string * string) :=
  [("getDevices", "CoreGetDevices"); ("connectDevice", "CoreConnectDevice"); ("hasRight", "CoreHasRight");
   ("requestRight", "CoreRequestRight"); ("usbFunctionsFromString", "CoreUsbFunctionsFromString");
   ("getFunctionsFromString", "CoreUsbFunctionsFromString");
   ("usbFunctionsToString", "CoreUsbFunctionsToString");
   ("getStringFromFunctions", "CoreUsbFunctionsToString");
   ("setCurrentFunctions", "CoreSetCurrentFunctions"); ("setDeviceFunctions", "CoreSetCurrentFunctions");
   ("getCurrentFunctions", "CoreGetCurrentFunctions"); ("getDeviceFunctions", "CoreGetCurrentFunctions");
   ("getPorts", "CoreGetPorts"); ("getPortList", "CoreGetPorts");
   ("getSupportedModes", "PortGetSupportedModes"); ("getPortSupportModes", "PortGetSupportedModes");
   ("setPortRoles", "PortSetPortRole"); ("setPortRoleTypes", "PortSetPortRole");
   ("claimInterface", "PipeClaimInterface"); ("releaseInterface", "PipeReleaseInterface");
   ("bulkTransfer", "PipeBulkTransfer"); ("controlTransfer", "PipeControlTransfer");
   ("usbControlTransfer", "PipeUsbControlTransfer"); ("setInterface", "PipeSetInterface");
   ("setConfiguration", "PipeSetConfiguration"); ("getRawDescriptor", "PipeGetRawDescriptors");
   ("getFileDescriptor", "PipeGetFileDescriptor"); ("closePipe", "PipeClose");
   ("resetUsbDevice", "PipeResetDevice"); ("usbCancelTransfer", "UsbCancelTransfer");
   ("usbSubmitTransfer", "UsbSubmitTransfer"); ("getVersion", "GetVersion"); ("addRight", "DeviceAddRight");
   ("addDeviceAccessRight", "DeviceAddAccessRight"); ("removeRight", "DeviceRemoveRight");
   ("getAccessoryList", "DeviceGetAccessoryList"); ("openAccessory", "DeviceOpenAccessory");
   ("closeAccessory", "DeviceCloseAccessory"); ("addAccessoryRight", "DeviceAddAccessoryRight");
   ("hasAccessoryRight", "DeviceHasAccessoryRight");
   ("requestAccessoryRight", "DeviceRequestAccessoryRight");
   ("cancelAccessoryRight", "DeviceCancelAccessoryRight")]%string.
Definition declared (l : list (string * string)) : list Declared :=
  map (λ p, DECLARE_NAPI_FUNCTION p.1 p.2) l.
(** [usb_info.cpp:2837-2899] [UsbInit] *)
Definition UsbInit (exports : Z) : ST E Z :=
  NAPI_CALL (napi_define_properties exports (declared usb_exports)) (λ _,
    DeclareEnum exports ;; mret exports).

(** [serial_info.cpp:845-855] [DeclareEnum] *)
Definition SerialDeclareEnum (exports : Z) : ST E Z :=
  desc ← static_properties
    [("StopBits", NapiCreateStopBitsTypeEnum); ("Parity", NapiCreateParityTypeEnum);
     ("DataBits", NapiCreateDataBitsTypeEnum); ("BaudRates", NapiCreateBaudRatesTypeEnum)]%string;
  NAPI_CALL (napi_define_properties exports desc) (λ _, mret exports).
Definition serial_exports : list (string * string) :=
  [("getPortList", "SerialGetPortListNapi"); ("open", "SerialOpenNapi"); ("close", "SerialCloseNapi");
   ("read", "SerialReadNapi"); ("readSync", "SerialReadSyncNapi"); ("write", "SerialWriteNapi");
   ("writeSync", "SerialWriteSyncNapi"); ("getAttribute", "SerialGetAttributeNapi");
   ("setAttribute", "SerialSetAttributeNapi"); ("hasSerialRight", "SerialHasRightNapi");
   ("requestSerialRight", "SerialRequestRightNapi"); ("addSerialRight", "SerialAddRightNapi");
   ("cancelSerialRight", "CancelSerialRightNapi")]%string.
(** [serial_info.cpp:861-883] [SerialInit] *)
Definition SerialInit (exports : Z) : ST E Z :=
  NAPI_CALL (napi_define_properties exports (declared serial_exports)) (λ _,
    SerialDeclareEnum exports ;; mret exports).

(** ** The native functions by their names *)
Definition usb_functions : list (string * (Z → Native)) :=
  [("CoreGetDevices", CoreGetDevices); ("CoreConnectDevice", CoreConnectDevice);
   ("CoreHasRight", CoreHasRight); ("CoreRequestRight", CoreRequestRight);
   ("CoreUsbFunctionsFromString", CoreUsbFunctionsFromString);
   ("CoreUsbFunctionsToString", CoreUsbFunctionsToString);
   ("CoreSetCurrentFunctions", CoreSetCurrentFunctions);
   ("CoreGetCurrentFunctions", CoreGetCurrentFunctions); ("CoreGetPorts", CoreGetPorts);
   ("PortGetSupportedModes", PortGetSupportedModes); ("PortSetPortRole", PortSetPortRole);
   ("PipeClaimInterface", PipeClaimInterface); ("PipeReleaseInterface", PipeReleaseInterface);
   ("PipeBulkTransfer", PipeBulkTransfer); ("PipeControlTransfer", PipeControlTransfer);
   ("PipeUsbControlTransfer", PipeUsbControlTransfer); ("PipeSetInterface", PipeSetInterface);
   ("PipeSetConfiguration", PipeSetConfiguration); ("PipeGetRawDescriptors", PipeGetRawDescriptors);
   ("PipeGetFileDescriptor", PipeGetFileDescriptor); ("PipeClose", PipeClose);
   ("PipeResetDevice", PipeResetDevice); ("UsbCancelTransfer", UsbCancelTransfer);
   ("UsbSubmitTransfer", UsbSubmitTransfer); ("GetVersion", GetVersion); ("DeviceAddRight", DeviceAddRight);
   ("DeviceAddAccessRight", DeviceAddAccessRight); ("DeviceRemoveRight", DeviceRemoveRight);
   ("DeviceGetAccessoryList", DeviceGetAccessoryList); ("DeviceOpenAccessory", DeviceOpenAccessory);
   ("DeviceCloseAccessory", DeviceCloseAccessory); ("DeviceAddAccessoryRight", DeviceAddAccessoryRight);
   ("DeviceHasAccessoryRight", DeviceHasAccessoryRight);
   ("DeviceRequestAccessoryRight", DeviceRequestAccessoryRight);
   ("DeviceCancelAccessoryRight", DeviceCancelAccessoryRight)]%string.
Definition serial_functions : list (string * (Z → Native)) :=
  [("SerialGetPortListNapi", SerialGetPortListNapi); ("SerialOpenNapi", SerialOpenNapi);
   ("SerialCloseNapi", SerialCloseNapi); ("SerialReadNapi", SerialReadNapi);
   ("SerialReadSyncNapi", SerialReadSyncNapi); ("SerialWriteNapi", SerialWriteNapi);
   ("SerialWriteSyncNapi", SerialWriteSyncNapi); ("SerialGetAttributeNapi", SerialGetAttributeNapi);
   ("SerialSetAttributeNapi", SerialSetAttributeNapi); ("SerialHasRightNapi", SerialHasRightNapi);
   ("SerialRequestRightNapi", SerialRequestRightNapi); ("SerialAddRightNapi", SerialAddRightNapi);
   ("CancelSerialRightNapi", CancelSerialRightNapi)]%string.
Definition named {X} (name : string) (l : list (string * X)) : option X :=
  snd <$> head (filter (λ p, p.1 = name) l).
End JsExports.

Lemma named_row {X} name (l : list (string * X)) x : named name l = Some x → (name, x) ∈ l.
Proof.
  unfold named. destruct (filter _ l) as [|[n y] l'] eqn:Hf; [done|]. intros [= <-].
  assert (Hin : (n, y) ∈ filter (λ p, p.1 = name) l) by (rewrite Hf; left).
  apply list_elem_of_filter in Hin as [Hn Hin]. cbn in Hn. by subst n.
Qed.

(** Every name that a module exports stands for one function, which there is. *)
Definition bound {X} (exports : list (string * string)) (functions : list (string * X)) : bool :=
  bool_decide (NoDup exports.*1) && forallb (λ p, opt_is_some (named p.2 functions)) exports.
Section Bound.
Context {E A S O : Type} `{NA : Napi E} `{UN : Uninitialised} `{EM : ErrorMessages}.
Context `{EB : ErrBase} `{AC : AbilityAccess A} `{UA : UsbAbility} `{US : UsbServer S}.
Context `{FE : Features} `{SY : System O} `{JE : JsErrBase} `{SC : Securec}.
Lemma exports_bound :
  bound usb_exports (usb_functions (E := E) (A := A) (S := S) (O := O)) = true ∧
  bound serial_exports (serial_functions (E := E) (A := A) (S := S) (O := O)) = true.
Proof. by vm_compute. Qed.
End Bound.
