(* ===== verification/JsSteps.v ===== *)
(** * The bindings at work

    The two modules on one engine: a call of a native function, the two halves of a queued
    work, the answer of a submitted transfer and its event are the steps of the bindings'
    world ([step]); between them the application runs ([step_application]).  A step is
    atomic: an [execute] runs on a thread of the pool, but it works on its own context, on
    the bytes of a typed array and through the client library, which locks.

    [promises_ok] is the invariant of the steps: the promise of a work in the queue is
    pending, no two works have the same one, and a work has none only if the engine refuses
    to make promises. *)

From S2P Require Import Prelude Text UsbErrors UsbTypes Napi.
From S2P Require Import HostDriver HostEvents HostPolicy ServiceHost ServiceSerial ServiceGate ServicePorts Client.
From S2P Require Import JsValues JsLaws Platform JsWorld JsCalls JsAsync JsTransfer JsSerial JsExports.

#[local] Set Default Goal Selector "!".

Section JsSteps.
Context {E A S O : Type} `{NA : Napi E} `{UN : Uninitialised}.
Context `{EB : ErrBase} `{AC : AbilityAccess A} `{UA : UsbAbility} `{US : UsbServer S}.
Context `{FE : Features} `{SY : System O} `{JE : JsErrBase} `{SC : Securec}.
Abbreviation world := (JsWorld.world E A S O).
Abbreviation Native := (ST world (option Z)).

(** The [execute] of a work, and its [complete], by its context.  [uninitialised] is the
    setup packet that [Pipe.ControlTransfer] finds on the stack. *)
Definition run_execute (uninitialised : UsbCtlSetUp) (t : Task) : ST world (option (USBAsyncContext * Context_)) :=
  let b := base t in
  match context t with
  | RequestRightWork c => g_requestRightExecute b c
  | RequestAccessoryRightWork c => g_requestAccessoryRightExecute b c
  | SetCurrentFunctionsWork c => g_setCurrentFunctionExecute b c
  | SetPortRoleWork c => g_setPortRoleExecute b c
  | ControlTransferWork c => g_controlTransferExecute uninitialised b c
  | UsbControlTransferWork c => g_usbControlTransferExecute b c
  | BulkTransferWork c => g_bulkTransferExecute b c
  | SerialWriteWork c => g_serialWriteExecute b c
  | SerialReadWork c => g_serialReadExecute b c
  | SerialRequestRightWork c => g_serialRequestRightExecute b c
  end.

Definition run_complete (t : Task) : ST world unit :=
  let b := base t in
  match context t with
  | RequestRightWork c => g_requestRightComplete b c
  | RequestAccessoryRightWork c => g_requestAccessoryRightComplete (EM := usb_messages) b c
  | SetCurrentFunctionsWork c => g_setCurrentFunctionComplete (EM := usb_messages) b c
  | SetPortRoleWork c => g_setPortRoleComplete (EM := usb_messages) b c
  | ControlTransferWork c => g_controlTransferComplete b c
  | UsbControlTransferWork c => g_usbControlTransferComplete b c
  | BulkTransferWork c => g_bulkTransferComplete b c
  | SerialWriteWork c => g_serialWriteComplete b c
  | SerialReadWork c => g_serialReadComplete b c
  | SerialRequestRightWork c => g_serialRequestRightComplete b c
  end.

(** The functions of the two modules by the names that an application calls. *)
Definition native_function (serial : bool) (name : string) : option (Z → Native) :=
  if serial then
    function ← named name serial_exports; named function (serial_functions (EM := serial_messages))
  else
    function ← named name usb_exports; named function (usb_functions (EM := usb_messages)).

Context `{TC : TextCoding} `{NL : !NapiLaws E}.

(** One step.  A step that goes through a null pointer is not one: the process ends. *)
Inductive step : world → world → Prop :=
  | step_call serial name f info v w w' :
      native_function serial name = Some f → f info w = (Some v, w') → step w w'
  | step_execute i t uninitialised b c w w' :
      tasks w !! i = Some t → executed t = false →
      run_execute uninitialised t w = (Some (b, c), w') →
      step w (set_tasks (<[i:=mk_Task b c true]> (tasks w')) w')
  | step_complete i t w w' :
      tasks w !! i = Some t → executed t = true → run_complete t w = (tt, w') →
      step w (set_tasks (delete i (tasks w')) w')
  | step_answer p i isoInfo w w' : JsCallBack p i isoInfo w = (Some tt, w') → step w w'
  | step_event i ev w w' :
      events w !! i = Some ev → callback_task ev w = (tt, w') →
      deferreds (look (engine w')) = deferreds (look (engine w)) →
      step w (set_events (delete i (events w')) w')
  | step_application e w :
      (** an application makes no promise of Node-API and settles none *)
      deferreds (look e) = deferreds (look (engine w)) → step w (set_engine e w).

Inductive reachable (w0 : world) : world → Prop :=
  | reachable_start : reachable w0 w0
  | reachable_step w w' : reachable w0 w → step w w' → reachable w0 w'.
End JsSteps.
