(* ===== verification/JsPromises.v ===== *)
(** * The promises of the bindings

    The frame of the engine's operations ([NapiFrame]): only the operations on promises make
    or settle one.  From it, for calls with any arguments and an engine that may refuse any
    operation: a native function settles no promise of another call, and each work that it
    queues has a pending promise of its own ([respects]); an [execute] settles none; a
    [complete] settles that of its own work. *)

From S2P Require Import Prelude Text UsbErrors UsbTypes Napi.
From S2P Require Import HostDriver HostEvents HostPolicy ServiceHost ServiceSerial ServiceGate ServicePorts Client.
From S2P Require Import JsValues JsLaws Platform JsWorld JsCalls JsAsync JsTransfer JsSerial JsExports JsSteps.

#[local] Set Default Goal Selector "!".

(** ** Operations and promises *)

(** The operations that may touch a promise; [napi_call_function] runs the application. *)
Definition promise_op {X : Set} (op : NapiOp X) : bool :=
  match op with
  | napi_create_promise | napi_resolve_deferred _ _ | napi_reject_deferred _ _
  | napi_call_function _ _ _ => true
  | _ => false
  end.
Definition settles {X : Set} (op : NapiOp X) : option Z :=
  match op with
  | napi_resolve_deferred d _ | napi_reject_deferred d _ => Some d
  | _ => None
  end.

(** What an engine does with promises, in any state and for any operands. *)
Class NapiFrame (E : Type) `{NL : NapiLaws E} := {
  frame_other {X : Set} (op : NapiOp X) e :
    promise_op op = false → deferreds (look (napi op e).2) = deferreds (look e);
  frame_create e r e' :
    napi napi_create_promise e = (r, e') →
    match r.2 with
    | Some (d, _) => d ≠ nullptr ∧ deferreds (look e) !! d = None ∧
                     deferreds (look e') = <[d:=None]> (deferreds (look e))
    | None => r.1 ≠ napi_ok ∧ deferreds (look e') = deferreds (look e)
    end;
  frame_settle {X : Set} (op : NapiOp X) d e :
    settles op = Some d →
    (∀ d', d' ≠ d → deferreds (look (napi op e).2) !! d' = deferreds (look e) !! d') ∧
    (is_Some (deferreds (look e) !! d) → is_Some (deferreds (look (napi op e).2) !! d));
}.

Section Calm.
Context {E : Type} `{NA : Napi E} `{TC : TextCoding} `{NL : !NapiLaws E} `{NF : !NapiFrame E}.
Context `{UN : Uninitialised} `{EM : ErrorMessages}.

(** A program of the engine that leaves all promises as they are. *)
Definition same_promises (D : gmap Z (option (bool * jsval))) (e : E) : Prop := deferreds (look e) = D.
Definition calm {X} (m : ST E X) : Prop := ∀ D, preserves (same_promises D) m.

Lemma calm_op {X : Set} (op : NapiOp X) : promise_op op = false → calm (napi op).
Proof. intros Hop D e He. unfold same_promises, after. by rewrite frame_other. Qed.
Lemma calm_ret {X} (x : X) : calm (mret x).
Proof. intros D. apply preserves_ret. Qed.
Lemma calm_bind {X Y} (m : ST E X) (f : X → ST E Y) : calm m → (∀ x, calm (f x)) → calm (m ≫= f).
Proof. intros Hm Hf D. apply preserves_bind; [apply Hm|intros; apply Hf]. Qed.
Lemma calm_fmap {X Y} (f : X → Y) (m : ST E X) : calm m → calm (f <$> m).
Proof. intros Hm D e He. unfold after, fmap, ST_fmap. specialize (Hm D e He). unfold after in Hm. by destruct (m e). Qed.
Lemma calm_for {X} (l : list X) (f : X → ST E unit) : (∀ x, calm (f x)) → calm (mfor l f).
Proof. intros Hf D. apply preserves_for. intros x. apply Hf. Qed.
Lemma calm_poke p l : calm (modify (poke p l)).
Proof. intros D e He. unfold same_promises, after. cbn. by rewrite look_poke. Qed.
End Calm.

Create HintDb calm.
#[export] Hint Resolve calm_ret calm_poke : calm.

(** Split a program; what is left are calls of other programs, or operations. *)
Ltac calm_step :=
  first
    [ progress intros
    | solve [auto 3 with calm nocore]
    | apply calm_ret
    | match goal with
      | |- calm (napi _) => apply calm_op; reflexivity
      | |- calm (_ ≫= _) => apply calm_bind
      | |- calm (_ <$> _) => apply calm_fmap
      | |- calm (mfor _ _) => apply calm_for
      | |- calm (match ?x with _ => _ end) => destruct x
      end
    | progress cbv zeta ].
Ltac calm :=
  repeat calm_step;
  try (match goal with |- calm ?m => let h := head_of m in unfold h end; calm).

Section CalmPrograms.
Context {E : Type} `{NA : Napi E} `{TC : TextCoding} `{NL : !NapiLaws E} `{NF : !NapiFrame E}.
Context `{UN : Uninitialised} `{EM : ErrorMessages}.

Lemma calm_ThrowBusinessError code msg : calm (ThrowBusinessError code msg).
Proof. calm. Qed.
Lemma calm_CreateBusinessError code msg : calm (CreateBusinessError code msg).
Proof. calm. Qed.
Lemma calm_JsValueToString value len old : calm (JsValueToString value len old).
Proof. calm. Qed.
#[local] Hint Resolve calm_ThrowBusinessError calm_JsValueToString : calm.
Lemma calm_JsObjectToString object field len old : calm (JsObjectToString object field len old).
Proof. calm. Qed.
Lemma calm_JsObjectGetProperty object field old : calm (JsObjectGetProperty object field old).
Proof. calm. Qed.
Lemma calm_JsObjectToBool object field old : calm (JsObjectToBool object field old).
Proof. calm. Qed.
Lemma calm_JsObjectToInt object field old : calm (JsObjectToInt object field old).
Proof. calm. Qed.
Lemma calm_JsObjectToUint32 object field old : calm (JsObjectToUint32 object field old).
Proof. calm. Qed.
#[local] Hint Resolve calm_JsObjectToString calm_JsObjectGetProperty calm_JsObjectToBool calm_JsObjectToInt
  calm_JsObjectToUint32 : calm.
Lemma calm_JsObjectToUint object field old : calm (JsObjectToUint object field old).
Proof. calm. Qed.
#[local] Hint Resolve calm_JsObjectToUint : calm.
Lemma calm_JsObjectToUint8 object field old : calm (JsObjectToUint8 object field old).
Proof. calm. Qed.
Lemma calm_JsUint8ArrayParseReserveZeroBuffer object b : calm (JsUint8ArrayParseReserveZeroBuffer object b).
Proof. calm. Qed.
#[local] Hint Resolve calm_JsUint8ArrayParseReserveZeroBuffer calm_JsObjectToUint8 : calm.
Lemma calm_JsUint8ArrayParse object b : calm (JsUint8ArrayParse object b).
Proof. calm. Qed.
#[local] Hint Resolve calm_JsUint8ArrayParse : calm.
Lemma calm_Uint8ArrayToJsValue data size result : calm (Uint8ArrayToJsValue data size result).
Proof. calm. Qed.
Lemma calm_SetValueUtf8String field str result : calm (SetValueUtf8String field str result).
Proof. calm. Qed.
Lemma calm_SetValueInt32 field n result : calm (SetValueInt32 field n result).
Proof. calm. Qed.
Lemma calm_SetValueUint32 field n result : calm (SetValueUint32 field n result).
Proof. calm. Qed.
#[local] Hint Resolve calm_SetValueUtf8String calm_SetValueInt32 calm_SetValueUint32 : calm.

(** *** To JavaScript *)
Lemma calm_CreateUsbDevicePipe obj pipe : calm (CreateUsbDevicePipe obj pipe).
Proof. calm. Qed.
Lemma calm_CreatAccessoryHandle obj fd : calm (CreatAccessoryHandle obj fd).
Proof. calm. Qed.
Lemma calm_CtoJSUsbEndpoint obj ep : calm (CtoJSUsbEndpoint obj ep).
Proof. calm. Qed.
#[local] Hint Resolve calm_CtoJSUsbEndpoint : calm.
Lemma calm_set_endpoints i arr l : calm (set_endpoints i arr l).
Proof. induction l; cbn [set_endpoints]; calm. Qed.
Lemma calm_give_list {T} (make : T → ST E Z) result l i :
  (∀ x, calm (make x)) → calm (give_list make result l i).
Proof. intros Hmake. revert i. induction l; intros i; cbn [give_list]; calm. Qed.
#[local] Hint Resolve calm_set_endpoints : calm.
Lemma calm_CtoJSUsbInterface obj i : calm (CtoJSUsbInterface obj i).
Proof. calm. Qed.
#[local] Hint Resolve calm_CtoJSUsbInterface : calm.
Lemma calm_CtoJSUsbConfig obj c : calm (CtoJSUsbConfig obj c).
Proof. calm. Qed.
#[local] Hint Resolve calm_CtoJSUsbConfig : calm.
Lemma calm_CtoJSUsbDevice obj d : calm (CtoJSUsbDevice obj d).
Proof. calm. Qed.
Lemma calm_CtoJSUSBAccessory obj a : calm (CtoJSUSBAccessory obj a).
Proof. calm. Qed.

(** *** From JavaScript *)
Lemma calm_ParseUsbDevicePipe obj pipe : calm (ParseUsbDevicePipe obj pipe).
Proof. calm. Qed.
Lemma calm_ParseEndpointObj obj ep : calm (ParseEndpointObj obj ep).
Proof. calm. Qed.
Lemma calm_parse_elements {T} (parse : Z → ST E T) array l acc :
  (∀ x, calm (parse x)) → calm (parse_elements parse array l acc).
Proof. intros Hparse. revert acc. induction l; intros acc; cbn [parse_elements]; calm. Qed.
Lemma calm_parse_array {T} (parse : Z → ST E T) object field m1 m2 acc :
  (∀ x, calm (parse x)) → calm (parse_array parse object field m1 m2 acc).
Proof. intros Hparse. pose proof (calm_parse_elements parse). calm. Qed.
#[local] Hint Resolve calm_ParseEndpointObj calm_parse_array : calm.
Lemma calm_ParseInterfaceObj obj i : calm (ParseInterfaceObj obj i).
Proof. calm. Qed.
#[local] Hint Resolve calm_ParseInterfaceObj : calm.
Lemma calm_ParseConfigObj obj c : calm (ParseConfigObj obj c).
Proof. calm. Qed.
#[local] Hint Resolve calm_ParseConfigObj : calm.
Lemma calm_parse_configs obj l acc : calm (parse_configs obj l acc).
Proof. revert acc. induction l; intros acc; cbn [parse_configs]; calm. Qed.
#[local] Hint Resolve calm_parse_configs : calm.
Lemma calm_ParseDeviceObj obj d : calm (ParseDeviceObj obj d).
Proof. calm. Qed.
Lemma calm_ParseAccessoryObj obj a : calm (ParseAccessoryObj obj a).
Proof. calm. Qed.
Lemma calm_ParsePipeControlParam obj c : calm (ParsePipeControlParam obj c).
Proof. calm. Qed.
Lemma calm_ParseUsbPipeControlParam obj c : calm (ParseUsbPipeControlParam obj c).
Proof. calm. Qed.
Lemma calm_set_ports result l i : calm (set_ports result l i).
Proof. revert i. induction l; intros i; cbn [set_ports]; calm. Qed.
Lemma calm_set_serial_ports result l i : calm (set_serial_ports result l i).
Proof. revert i. induction l; intros i; cbn [set_serial_ports]; calm. Qed.
Lemma calm_parse_attribute obj a : calm (parse_attribute obj a).
Proof. calm. Qed.
End CalmPrograms.
#[export] Hint Resolve calm_ThrowBusinessError calm_CreateBusinessError calm_JsValueToString calm_JsObjectToString
  calm_JsObjectGetProperty calm_JsObjectToBool calm_JsObjectToInt calm_JsObjectToUint
  calm_JsUint8ArrayParseReserveZeroBuffer calm_Uint8ArrayToJsValue calm_CreateUsbDevicePipe
  calm_CreatAccessoryHandle calm_give_list calm_CtoJSUsbDevice calm_CtoJSUSBAccessory
  calm_ParseUsbDevicePipe calm_ParseEndpointObj calm_ParseInterfaceObj calm_ParseConfigObj
  calm_ParseDeviceObj calm_ParseAccessoryObj calm_ParsePipeControlParam calm_ParseUsbPipeControlParam
  calm_set_ports calm_set_serial_ports calm_parse_attribute calm_SetValueUint32 : calm.

(** ** The world *)

(** What a call makes of the promises and of the queue: it settles no older promise; and the
    works that it queues have each a promise of their own, new and pending. *)
Section Respects.
Context {E A S O : Type} `{NA : Napi E} `{TC : TextCoding} `{NL : !NapiLaws E} `{NF : !NapiFrame E}.
Context `{UN : Uninitialised} `{EM : ErrorMessages}.
Context `{EB : ErrBase} `{AC : AbilityAccess A} `{UA : UsbAbility} `{US : UsbServer S}.
Context `{FE : Features} `{SY : System O} `{JE : JsErrBase} `{SC : Securec}.
Abbreviation world := (JsWorld.world E A S O).
Implicit Types (w : world).

Definition promises w : gmap Z (option (bool * jsval)) := deferreds (look (engine w)).
Definition pending w (d : Z) : Prop := promises w !! d = Some None.
(** The engine may refuse to make a promise; most functions queue their work all the same,
    with a null deferred. *)
Definition refuses_promise : Prop := ∃ e : E, (napi napi_create_promise e).1.2 = None.
Definition promised (t : Task) : Prop := deferred (base t) ≠ nullptr ∨ refuses_promise.
(** The promises of the works in a queue; a work without one is left out. *)
Definition waiting (l : list Task) : list Z := filter (λ d, d ≠ nullptr) (map (λ t, deferred (base t)) l).

Record respects w w' : Prop := {
  rs_pending d : pending w d → pending w' d;
  rs_known d : promises w' !! d = None → promises w !! d = None;
  rs_tasks : ∃ l, tasks w' = tasks w ++ l ∧ NoDup (waiting l) ∧
    (∀ d, d ∈ waiting l → promises w !! d = None ∧ pending w' d) ∧ Forall promised l;
}.

#[global] Instance respects_preorder : PreOrder respects.
Proof.
  split.
  - intros w. split; [done|done|]. exists []. rewrite app_nil_r. split_and!; [done|constructor| |constructor].
    intros d Hd. by apply elem_of_nil in Hd.
  - intros w1 w2 w3 [P1 K1 (l1 & T1 & N1 & F1 & R1)] [P2 K2 (l2 & T2 & N2 & F2 & R2)].
    split; [auto|auto|]. exists (l1 ++ l2). rewrite T2, T1, app_assoc. split; [done|].
    unfold waiting. rewrite map_app, filter_app. split_and!; [| |by apply Forall_app].
    + apply NoDup_app. split_and!; [done| |done]. intros d H1 H2.
      destruct (F1 d H1) as [_ Hp]. destruct (F2 d H2) as [Hn _]. unfold pending in Hp. congruence.
    + intros d [Hd|Hd]%elem_of_app.
      * destruct (F1 d Hd). auto.
      * destruct (F2 d Hd). auto.
Qed.

Lemma respects_same w w' : promises w' = promises w → tasks w' = tasks w → respects w w'.
Proof.
  intros HD HT. split.
  - intros d. unfold pending. by rewrite HD.
  - intros d. by rewrite HD.
  - exists []. rewrite app_nil_r. split_and!; [done|constructor| |constructor].
    intros d Hd. by apply elem_of_nil in Hd.
Qed.

(** A program of the world that leaves the promises and the queue as they are. *)
Definition silent {X} (m : ST world X) : Prop :=
  ∀ w, promises (m w).2 = promises w ∧ tasks (m w).2 = tasks w.

Lemma silent_ret {X} (x : X) : silent (mret x).
Proof. by intros w. Qed.
Lemma silent_gets {X} (f : world → X) : silent (gets f).
Proof. by intros w. Qed.
Lemma silent_bind {X Y} (m : ST world X) (f : X → ST world Y) :
  silent m → (∀ x, silent (f x)) → silent (m ≫= f).
Proof.
  intros Hm Hf w. rewrite bind_unfold. destruct (Hm w) as [H1 H2], (Hf (m w).1 (m w).2) as [H3 H4].
  by rewrite H3, H4.
Qed.
Lemma silent_when b (m : ST world unit) : silent m → silent (mwhen b m).
Proof. destruct b; [done|intros _; apply silent_ret]. Qed.
Lemma silent_modify f :
  (∀ w, promises (f w) = promises w) → (∀ w, tasks (f w) = tasks w) → silent (modify f).
Proof. intros HD HT w. split; [apply HD|apply HT]. Qed.
Lemma silent_on_engine {X} (m : ST E X) : calm m → silent (on_engine m : ST world X).
Proof.
  intros Hm w. unfold on_engine. destruct (m (engine w)) as [x e] eqn:H. split; [|done].
  specialize (Hm _ (engine w) eq_refl). unfold same_promises, after in Hm. by rewrite H in Hm.
Qed.
Lemma silent_on_lib {X} (m : ST (Client.st (A := A) (S := S)) X) : silent (on_lib m : ST world X).
Proof. intros w. unfold on_lib. by destruct (m (lib w)). Qed.
Lemma silent_on_system {X} (m : ST O X) : silent (on_system m : ST world X).
Proof. intros w. unfold on_system. by destruct (m (system w)). Qed.
Lemma silent_poke p l : silent (modify (λ w, set_engine (poke p l (engine w)) w) : ST world unit).
Proof. apply silent_modify; [|done]. intros w. unfold promises. cbn. by rewrite look_poke. Qed.

(** A program that respects the promises: it may make some and queue works for them. *)
Definition respectful {X} (m : ST world X) : Prop := ∀ w, respects w (m w).2.

Lemma silent_respectful {X} (m : ST world X) : silent m → respectful m.
Proof. intros Hm w. destruct (Hm w). by apply respects_same. Qed.
Lemma respectful_bind {X Y} (m : ST world X) (f : X → ST world Y) :
  respectful m → (∀ x, respectful (f x)) → respectful (m ≫= f).
Proof. intros Hm Hf w. rewrite bind_unfold. etrans; [apply Hm|apply Hf]. Qed.

(** A work for a promise that the call has made. *)
Lemma respects_push w w' t :
  respects w w' → tasks w' = tasks w →
  (deferred (base t) = nullptr ∧ refuses_promise ∨
   deferred (base t) ≠ nullptr ∧ promises w !! deferred (base t) = None ∧ pending w' (deferred (base t))) →
  respects w (set_tasks (tasks w' ++ [t]) w').
Proof.
  intros [HP HK _] HT Hd. split; [done|done|]. exists [t]. cbn. rewrite HT. split; [done|].
  assert (Hp : Forall promised [t]).
  { apply Forall_singleton. destruct Hd as [[_ Hd]|[Hd _]]; [by right|by left]. }
  case_decide as Hn.
  - split_and!; [apply NoDup_singleton| |done]. intros d ->%list_elem_of_singleton. by destruct Hd as [[? _]|[_ Hd]].
  - split_and!; [constructor| |done]. intros d Hd'. by apply elem_of_nil in Hd'.
Qed.
End Respects.

#[export] Hint Resolve silent_ret silent_gets silent_on_lib silent_on_system silent_poke : calm.
Ltac silent_step :=
  first
    [ progress intros
    | solve [auto 3 with calm nocore]
    | match goal with
      | |- silent (_ ≫= _) => apply silent_bind
      | |- silent (mwhen _ _) => apply silent_when
      | |- silent (on_engine _) => apply silent_on_engine
      | |- silent (modify _) => apply silent_modify; [done|done]
      | |- silent (match ?x with _ => _ end) => destruct x
      end
    | calm_step
    | progress cbv zeta ].
Ltac silent :=
  repeat silent_step;
  try (match goal with
       | |- silent ?m => let h := head_of m in unfold h
       | |- calm ?m => let h := head_of m in unfold h
       end; silent).

(** Of a function that makes a promise: split it, up to the part that does. *)
Ltac respectful :=
  repeat first
    [ progress intros
    | solve [auto 3 with calm nocore]
    | progress cbv zeta
    | match goal with
      | |- respectful (_ ≫= _) => apply respectful_bind; [apply silent_respectful; solve [silent]|]
      | |- respectful (match ?x with _ => _ end) => destruct x
      end
    | apply silent_respectful; solve [silent] ];
  try (lazymatch goal with
       | |- respectful (_ ≫= _) => fail
       | |- respectful ?m => let h := head_of m in unfold h
       end; respectful).
