(* ===== verification/JsQueue.v ===== *)
(** * What the native functions do to the promises

    Every native function respects the promises ([respectful]); those that answer at once
    leave the promises and the queue alone ([silent]).  From this follows the invariant of
    the steps, [promises_ok]. *)

From S2P Require Import Prelude Text UsbErrors UsbTypes Napi.
From S2P Require Import HostDriver HostEvents HostPolicy ServiceHost ServiceSerial ServiceGate ServicePorts Client.
From S2P Require Import JsValues JsLaws Platform JsWorld JsCalls JsAsync JsTransfer JsSerial JsExports JsSteps JsPromises.

#[local] Set Default Goal Selector "!".

Section Queue.
Context {E A S O : Type} `{NA : Napi E} `{TC : TextCoding} `{NL : !NapiLaws E} `{NF : !NapiFrame E}.
Context `{UN : Uninitialised} `{EM : ErrorMessages}.
Context `{EB : ErrBase} `{AC : AbilityAccess A} `{UA : UsbAbility} `{US : UsbServer S}.
Context `{FE : Features} `{SY : System O} `{JE : JsErrBase} `{SC : Securec}.
Abbreviation world := (JsWorld.world E A S O).
Implicit Types (w : world).

(** ** The functions that make a promise *)

(** What [napi_create_promise] leaves, and the work that follows with calm operations. *)
Definition fresh_promise w w' (d : Z) : Prop :=
  respects w w' ∧ tasks w' = tasks w ∧ (d = nullptr ∧ refuses_promise (E := E) ∨ d ≠ nullptr ∧ promises w !! d = None ∧ pending w' d).

Lemma create_fresh w status out w1 :
  on_engine (napi napi_create_promise) w = ((status, out), w1) →
  match out with
  | Some (d, _) => fresh_promise w w1 d
  | None => status ≠ napi_ok ∧ fresh_promise w w1 nullptr
  end.
Proof.
  unfold on_engine. destruct (napi napi_create_promise (engine w)) as [r e] eqn:Hc. intros [= -> <-].
  pose proof (frame_create _ _ _ Hc) as Hf. cbn in Hf. destruct out as [[d p]|]; cbn.
  - destruct Hf as (Hn & Hnone & Hnew). unfold fresh_promise, pending, promises. cbn. rewrite Hnew. split_and!.
    + split; unfold pending, promises; cbn; rewrite Hnew.
      * intros d' Hd'. rewrite lookup_insert_ne; [done|]. congruence.
      * intros d'. rewrite lookup_insert_None. by intros [].
      * exists []. rewrite app_nil_r. split_and!; [done|constructor| |constructor].
        intros d' Hd'. by apply elem_of_nil in Hd'.
    + done.
    + right. by rewrite lookup_insert_eq.
  - destruct Hf as [Hs Hf]. split; [done|]. split_and!; [by apply respects_same|done|]. left. split; [done|].
    exists (engine w). by rewrite Hc.
Qed.
Lemma create_promise_fresh w : fresh_promise w (create_promise w).2 (create_promise w).1.1.
Proof.
  unfold create_promise. rewrite bind_unfold.
  destruct (on_engine (napi napi_create_promise) w) as [[status out] w1] eqn:Hc. apply create_fresh in Hc.
  destruct out as [[d p]|]; cbn; [done|by destruct Hc].
Qed.

(** A program that goes on with a promise that the call has made. *)
Definition uses_promise {X} w (d : Z) (m : ST world X) : Prop := ∀ w1, fresh_promise w w1 d → respects w (m w1).2.

Lemma uses_silent {X} w d (m : ST world X) : silent m → uses_promise w d m.
Proof. intros Hm w1 (HR & _ & _). destruct (Hm w1). etrans; [done|]. by apply respects_same. Qed.
Lemma uses_bind {X Y} w d (m : ST world X) (f : X → ST world Y) :
  silent m → (∀ x, uses_promise w d (f x)) → uses_promise w d (m ≫= f).
Proof.
  intros Hm Hf w1 (HR & HT & Hd). rewrite bind_unfold. apply Hf. destruct (Hm w1) as [HP1 HT1]. split_and!.
  - etrans; [done|]. by apply respects_same.
  - congruence.
  - unfold pending in *. by rewrite HP1.
Qed.
(** The work that the engine has queued. *)
Lemma uses_push {X} w d c status (work : Z) (b : bool) (m : ST world X) :
  silent m →
  uses_promise w d
    (mwhen b (modify (λ w, set_tasks (tasks w ++ [mk_Task (mk_USBAsyncContext work d status) c false]) w)) ;; m).
Proof.
  intros Hm w1 Hf. rewrite bind_unfold. etrans; [|by apply (silent_respectful m Hm)].
  destruct Hf as (HR & HT & Hd). destruct b; [|done]. by apply respects_push.
Qed.
(** The promise settled by the call itself. *)
Lemma uses_settle {X} w d v work status (m : ST world X) :
  silent m → uses_promise w d (resolve_if_deferred (mk_USBAsyncContext work d status) v ;; m).
Proof.
  intros Hm w1 (HR & HT & Hd). rewrite bind_unfold. etrans; [|by apply (silent_respectful m Hm)].
  unfold resolve_if_deferred. cbn. case_match eqn:Hn; [done|]. apply Z.eqb_neq in Hn.
  destruct Hd as [[? _]|(_ & Hnew & Hd)]; [done|]. unfold resolve_deferred. rewrite bind_unfold. unfold on_engine.
  destruct (frame_settle (napi_resolve_deferred d v) d (engine w1) eq_refl) as [Hother Hkept].
  destruct (napi (napi_resolve_deferred d v) (engine w1)) as [r e] eqn:Hr. cbn in *.
  destruct HR as [HP HK _]. unfold pending, promises in *. split; unfold pending, promises; cbn.
  - intros d' Hd'. rewrite Hother; [by apply HP|]. congruence.
  - intros d' Hd'. destruct (decide (d' = d)) as [->|Hne]; [done|]. rewrite Hother in Hd' by done. by apply HK.
  - exists []. rewrite app_nil_r. split_and!; [done|constructor| |constructor].
    intros d' Hd'. by apply elem_of_nil in Hd'.
Qed.
Lemma respectful_create_promise {X} (k : Z * Z → ST world X) :
  (∀ w d result, uses_promise w d (k (d, result))) → respectful (create_promise ≫= k).
Proof.
  intros Hk w. rewrite bind_unfold. pose proof (create_promise_fresh w) as Hf.
  destruct (create_promise w) as [[d result] w1]. by apply Hk.
Qed.
End Queue.

Ltac uses :=
  repeat first
    [ progress intros
    | progress cbv zeta
    | apply uses_push; solve [silent]
    | apply uses_settle; solve [silent]
    | apply uses_silent; solve [silent]
    | match goal with
      | |- uses_promise _ _ (_ ≫= _) => apply uses_bind; [solve [silent]|]
      | |- uses_promise _ _ (match ?x with _ => _ end) => destruct x
      end ].

Section Promising.
Context {E A S O : Type} `{NA : Napi E} `{TC : TextCoding} `{NL : !NapiLaws E} `{NF : !NapiFrame E}.
Context `{UN : Uninitialised} `{EM : ErrorMessages}.
Context `{EB : ErrBase} `{AC : AbilityAccess A} `{UA : UsbAbility} `{US : UsbServer S}.
Context `{FE : Features} `{SY : System O} `{JE : JsErrBase} `{SC : Securec}.
Abbreviation world := (JsWorld.world E A S O).
Implicit Types (w : world).

Lemma respectful_queue_work name c : respectful (queue_work name c : ST world (option Z)).
Proof. apply respectful_create_promise. uses. Qed.

#[local] Hint Resolve respectful_queue_work : calm.
Definition respectful_function (f : Z → ST world (option Z)) : Prop := ∀ info, respectful (f info).
(** [PipeBulkTransfer] makes the promise before it reads the arguments. *)
Lemma bulk_respectful : respectful_function PipeBulkTransfer.
Proof.
  intros info. unfold PipeBulkTransfer, require_feature, new_context. respectful.
  apply respectful_create_promise. uses.
Qed.

(** The serial functions do not go on without a promise. *)
Lemma respectful_with_promise msg (k : Z → Z → ST world (option Z)) :
  (∀ w d promise, uses_promise w d (k d promise)) → respectful (with_promise msg k).
Proof.
  intros Hk. unfold with_promise, check_or_null. respectful.
  intros w. rewrite bind_unfold.
  destruct (on_engine (napi napi_create_promise) w) as [[status out] w1] eqn:Hc. apply create_fresh in Hc. cbn.
  destruct (Z.eqb_spec status napi_ok) as [Hs|Hs]; cbn.
  - destruct out as [[d p]|]; [by apply Hk|by destruct Hc].
  - transitivity w1; [|apply (silent_respectful (CheckAndThrowOnError false SERIAL_SERVICE_ABNORMAL _ ;; give nullptr));
      silent].
    destruct out as [[d p]|]; [by destruct Hc|by destruct Hc as [_ []]].
Qed.
Lemma uses_queue_serial_work w name d promise c :
  uses_promise w d (queue_serial_work name d promise c : ST world (option Z)).
Proof. unfold queue_serial_work. uses. Qed.

(** The functions of the two modules. *)
#[local] Hint Resolve bulk_respectful respectful_with_promise uses_queue_serial_work : calm.
Ltac respectfuls :=
  cbn [map snd]; repeat (apply Forall_cons_2; [intros info; solve [respectful]|]); apply Forall_nil_2.
Lemma usb_respectful : Forall respectful_function (map snd usb_functions).
Proof. unfold usb_functions. respectfuls. Qed.
Lemma serial_respectful : Forall respectful_function (map snd serial_functions).
Proof. unfold serial_functions. respectfuls. Qed.
End Promising.

(** ** Every step *)
Section Steps.
Context {E A S O : Type} `{NA : Napi E} `{TC : TextCoding} `{NL : !NapiLaws E} `{NF : !NapiFrame E}.
Context `{UN : Uninitialised}.
Context `{EB : ErrBase} `{AC : AbilityAccess A} `{UA : UsbAbility} `{US : UsbServer S}.
Context `{FE : Features} `{SY : System O} `{JE : JsErrBase} `{SC : Securec}.
Abbreviation world := (JsWorld.world E A S O).
Implicit Types (w : world) (t : Task).

Lemma named_function {X} name (l : list (string * X)) (x : X) : named name l = Some x → x ∈ map snd l.
Proof.
  intros Hin%named_row. apply list_elem_of_In, in_map_iff. exists (name, x). split; [done|]. by apply list_elem_of_In.
Qed.

(** A function of either module respects the promises. *)
Lemma native_respectful serial name (f : Z → ST world (option Z)) :
  native_function serial name = Some f → respectful_function f.
Proof.
  unfold native_function. intros Hf. destruct serial; apply bind_Some in Hf as (function & _ & Hf);
    apply named_function in Hf.
  - pose proof (serial_respectful (EM := serial_messages)) as H. rewrite Forall_forall in H. by apply H.
  - pose proof (usb_respectful (EM := usb_messages)) as H. rewrite Forall_forall in H. by apply H.
Qed.

Lemma run_execute_silent uninitialised t : silent (run_execute uninitialised t : ST world _).
Proof. unfold run_execute. cbv zeta. destruct (context t); silent. Qed.
Lemma JsCallBack_silent p i isoInfo : silent (JsCallBack p i isoInfo : ST world _).
Proof. silent. Qed.
Lemma callback_task_tasks ev w : tasks (callback_task ev w).2 = tasks w.
Proof.
  unfold callback_task. cbv zeta. rewrite bind_unfold. unfold on_engine.
  match goal with |- context [?m (engine w)] => by destruct (m (engine w)) end.
Qed.

(** A program that settles the promise [d] at most. *)
Definition settling {X} (d : Z) (m : ST world X) : Prop :=
  ∀ w, tasks (m w).2 = tasks w ∧ ∀ d', d' ≠ d → promises (m w).2 !! d' = promises w !! d'.

Lemma settling_silent {X} d (m : ST world X) : silent m → settling d m.
Proof. intros Hm w. destruct (Hm w) as [H1 H2]. split; [done|]. intros d' _. by rewrite H1. Qed.
Lemma settling_bind {X Y} d (m : ST world X) (f : X → ST world Y) :
  settling d m → (∀ x, settling d (f x)) → settling d (m ≫= f).
Proof.
  intros Hm Hf w. rewrite bind_unfold. destruct (Hm w) as [H1 H2], (Hf (m w).1 (m w).2) as [H3 H4].
  split; [congruence|]. intros d' Hd. by rewrite H4, H2.
Qed.
Lemma settling_op {X : Set} (op : NapiOp X) d : settles op = Some d → settling d (on_engine (napi op)).
Proof.
  intros Hop w. unfold on_engine. destruct (frame_settle op d (engine w) Hop) as [Hother _].
  destruct (napi op (engine w)) as [r e]. by split.
Qed.

Ltac settling :=
  repeat first
    [ progress intros
    | progress cbv zeta
    | apply settling_op; reflexivity
    | apply settling_silent; solve [silent]
    | match goal with
      | |- settling _ (_ ≫= _) => apply settling_bind
      | |- settling _ (match ?x with _ => _ end) => destruct x
      end ];
  try (match goal with |- settling _ ?m => let h := head_of m in unfold h end; settling).

Lemma run_complete_settling t : settling (deferred (base t)) (run_complete t).
Proof.
  unfold run_complete. cbv zeta. destruct (context t); settling.
Qed.

(** A result that every run has. *)
Definition yields {X} (P : X → Prop) (m : ST world (option X)) : Prop := ∀ w x, (m w).1 = Some x → P x.
Lemma yields_ret {X} (P : X → Prop) x : P x → yields P (mret (Some x)).
Proof. by intros HP w y [= <-]. Qed.
Lemma yields_none {X} (P : X → Prop) : yields P (mret None).
Proof. by intros w y. Qed.
Lemma yields_bind {X Y} (P : X → Prop) (m : ST world Y) (f : Y → ST world (option X)) :
  (∀ y, yields P (f y)) → yields P (m ≫= f).
Proof. intros Hf w x. rewrite bind_unfold. apply Hf. Qed.
Lemma yields_invoke {X Y} (P : X → Prop) (m : ST (Client.st (A := A) (S := S)) (option Y)) (k : Y → ST world (option X)) :
  (∀ y, yields P (k y)) → yields P (invoke m k).
Proof. intros Hk. apply yields_bind. intros [y|]; [apply Hk|apply yields_none]. Qed.

(** An [execute] keeps the work and the promise of its context. *)
Lemma run_execute_base uninitialised t :
  yields (λ r, work r.1 = work (base t) ∧ deferred r.1 = deferred (base t)) (run_execute uninitialised t).
Proof.
  unfold run_execute. cbv zeta. destruct (context t);
    repeat first
      [ progress intros
      | progress cbv zeta
      | apply yields_none
      | apply yields_ret; done
      | apply yields_invoke
      | apply yields_bind
      | match goal with |- yields _ (match ?x with _ => _ end) => destruct x end
      | match goal with |- yields _ ?m => let h := head_of m in unfold h end ].
Qed.

(** ** The invariant *)

(** The promises of the queued works are pending, no two works have the same one, and a work
    has none only if the engine refuses to make one. *)
Record promises_ok w : Prop := {
  po_pending d : d ∈ waiting (tasks w) → pending w d;
  po_own : NoDup (waiting (tasks w));
  po_promised : Forall (promised (E := E)) (tasks w);
}.

Lemma promises_ok_same w w' :
  promises w' = promises w → map (λ t, deferred (base t)) (tasks w') = map (λ t, deferred (base t)) (tasks w) →
  promises_ok w → promises_ok w'.
Proof.
  intros HD HM [HP HN HF]. assert (HT : waiting (tasks w') = waiting (tasks w)) by (unfold waiting; by rewrite HM).
  split; rewrite ?HT; [|done|].
  - intros d Hd. unfold pending. rewrite HD. by apply HP.
  - assert (Hd : ∀ l : list Task, Forall (promised (E := E)) l ↔
                   Forall (λ d, d ≠ nullptr ∨ refuses_promise (E := E)) (map (λ t, deferred (base t)) l)).
    { intros l. symmetry. apply Forall_fmap. }
    by rewrite Hd, HM, <- Hd.
Qed.

Lemma waiting_app l1 l2 : waiting (l1 ++ l2) = waiting l1 ++ waiting l2.
Proof. unfold waiting. by rewrite map_app, filter_app. Qed.

Lemma promises_ok_respects w w' : respects w w' → promises_ok w → promises_ok w'.
Proof.
  intros [HP HK (l & HT & HN & HF & HR)] [HPw HNw HRw]. split; rewrite HT, ?waiting_app; [| |by apply Forall_app].
  - intros d [Hd|Hd]%elem_of_app; [by apply HP, HPw|by apply HF].
  - apply NoDup_app. split_and!; [done| |done]. intros d H1 H2. apply HPw in H1. apply HF in H2 as [H2 _].
    unfold pending in H1. congruence.
Qed.

Lemma deferred_insert (l : list Task) i t t' :
  l !! i = Some t → deferred (base t') = deferred (base t) →
  map (λ t, deferred (base t)) (<[i:=t']> l) = map (λ t, deferred (base t)) l.
Proof.
  intros Hi Hd. revert i Hi. induction l as [|u l IH]; intros [|i] Hi; [done|done| |].
  - injection Hi as ->. cbn. by rewrite Hd.
  - cbn. f_equal. by apply IH.
Qed.

Lemma waiting_delete (l : list Task) i t :
  l !! i = Some t → NoDup (waiting l) →
  NoDup (waiting (delete i l)) ∧ ∀ d, d ∈ waiting (delete i l) → d ∈ waiting l ∧ d ≠ deferred (base t).
Proof.
  intros Hi HN. assert (Hp : waiting l ≡ₚ filter (λ d, d ≠ nullptr) [deferred (base t)] ++ waiting (delete i l)).
  { unfold waiting. rewrite <- filter_app. rewrite (delete_Permutation _ _ _ Hi) at 1. done. }
  rewrite Hp in HN. apply NoDup_app in HN as (_ & Hdis & HN). split; [done|]. intros d Hd.
  split; [rewrite Hp; apply elem_of_app; by right|]. intros ->. apply (Hdis (deferred (base t))); [|done].
  apply list_elem_of_filter. split; [|by left]. unfold waiting in Hd. by apply list_elem_of_filter in Hd as [? _].
Qed.

(** The promise of a work in the queue. *)
Lemma promises_ok_works w :
  promises_ok w →
  (∀ t, t ∈ tasks w →
     pending w (deferred (base t)) ∨ deferred (base t) = nullptr ∧ refuses_promise (E := E)) ∧
  (∀ i j t u, tasks w !! i = Some t → tasks w !! j = Some u →
     deferred (base t) = deferred (base u) → deferred (base t) ≠ nullptr → i = j).
Proof.
  intros [HP HN HR]. split.
  - intros t Ht. destruct (decide (deferred (base t) = nullptr)) as [Hd|Hd].
    + right. split; [done|]. rewrite Forall_forall in HR. by destruct (HR t Ht).
    + left. apply HP. unfold waiting. apply list_elem_of_filter. split; [done|].
      by apply (list_elem_of_fmap_2 (λ t, deferred (base t))).
  - clear HP HR. unfold waiting in HN. induction (tasks w) as [|x l IH]; [by intros []|].
    assert (Hx : deferred (base x) ≠ nullptr →
      ∀ i u, l !! i = Some u → deferred (base u) ≠ deferred (base x)).
    { intros Hx i u Hu Heq. cbn in HN. rewrite decide_True in HN by done.
      apply NoDup_cons in HN as [HN _]. apply HN, list_elem_of_filter. split; [done|]. rewrite <- Heq.
      apply (list_elem_of_fmap_2 (λ t, deferred (base t))). by eapply list_elem_of_lookup_2. }
    assert (HN' : NoDup (filter (λ d, d ≠ nullptr) (map (λ t, deferred (base t)) l))).
    { cbn in HN. case_decide; [by apply NoDup_cons in HN as [_ ?]|done]. }
    intros [|i] [|j] t u Hi Hj Heq Hne; [done| | |].
    + injection Hi as ->. exfalso. by eapply Hx.
    + injection Hj as ->. rewrite Heq in Hne. exfalso. by eapply Hx.
    + f_equal. by eapply (IH HN').
Qed.

Lemma reachable_promises_ok w0 w : tasks w0 = [] → reachable w0 w → promises_ok w.
Proof.
  intros Hw0 Hw. induction Hw as [|w w' _ IH Hstep].
  - split; rewrite Hw0; [|constructor|constructor]. intros d Hd. by apply elem_of_nil in Hd.
  - destruct Hstep as [serial name f info v w w' Hf Hrun|i t u b c w w' Hi _ Hrun|i t w w' Hi _ Hrun|p i iso w w' Hrun
      |i ev w w' _ Hrun HD|e w HD].
    + pose proof (native_respectful _ _ _ Hf info w) as HR. rewrite Hrun in HR. by eapply promises_ok_respects.
    + pose proof (run_execute_silent u t w) as [HD HT]. pose proof (run_execute_base u t w (b, c)) as Hb.
      rewrite Hrun in HD, HT, Hb. destruct (Hb eq_refl) as [_ Hd]. cbn in *.
      eapply promises_ok_same; [exact HD| |done]. cbn. rewrite HT. by eapply deferred_insert.
    + destruct (run_complete_settling t w) as [HT HD]. rewrite Hrun in HT, HD. cbn in *.
      destruct IH as [HP HN HR]. destruct (waiting_delete _ _ _ Hi HN) as [HN' Hin].
      split; cbn; rewrite HT; [|done|by apply Forall_delete]. intros d Hd. destruct (Hin d Hd) as [Hd' Hne].
      unfold pending, promises. cbn. unfold promises in HD. rewrite HD by done. by apply HP.
    + pose proof (JsCallBack_silent p i iso w) as [HD HT]. rewrite Hrun in HD, HT. cbn in *.
      eapply promises_ok_same; [done| |done]. by rewrite HT.
    + pose proof (callback_task_tasks ev w) as HT. rewrite Hrun in HT. cbn in *.
      eapply promises_ok_same; [exact HD| |done]. cbn. by rewrite HT.
    + by eapply promises_ok_same.
Qed.

(** C10: whatever an application calls, with any arguments, and whichever operations the engine
    refuses, in every reachable state the promise of each queued work is still pending, and
    no other queued work has the same one: no call or work settles or shares the promise of
    another.  A queued work has no promise (a null deferred) only if there are states in
    which the engine refuses to make one, which most functions do not test. *)
Theorem works_own_their_promises w0 w (Hw0 : tasks w0 = []) (Hw : reachable w0 w) :
  (∀ t, t ∈ tasks w →
     pending w (deferred (base t)) ∨ deferred (base t) = nullptr ∧ refuses_promise (E := E)) ∧
  (∀ i j t u, tasks w !! i = Some t → tasks w !! j = Some u →
     deferred (base t) = deferred (base u) → deferred (base t) ≠ nullptr → i = j).
Proof. by apply promises_ok_works, (reachable_promises_ok w0). Qed.
End Steps.
