(* ===== verification/JsSettle.v ===== *)
(** * How a promise is settled

    What the application gets of a work that has run ([outcome]): a value or an error, and
    [complete_settles]: [run_complete] settles the promise of its work with exactly that, and
    no other promise.  The engine has no pending exception when it runs a [complete]. *)

From S2P Require Import Prelude Text UsbErrors UsbTypes Napi.
From S2P Require Import HostDriver HostEvents HostPolicy ServiceHost ServiceSerial ServiceGate ServicePorts Client.
From S2P Require Import JsValues JsLaws Platform JsWorld JsCalls JsAsync JsTransfer JsSerial JsExports JsSteps.
From S2P Require Import JsPromises.

#[local] Set Default Goal Selector "!".

(** A value that a promise is settled with: an error has the code and its message. *)
Inductive Outcome := OBoolean (b : bool) | ONumber (n : Z) | OError (code : Z).

(** The result of a call that is fulfilled with [true], rejected with an error for the codes
    of a table, and rejected with [false] for the others. *)
Definition by_code (errCode : Z) (errors : list (Z * Z)) : bool * Outcome :=
  if errCode =? UEC_OK then (true, OBoolean true)
  else match head (filter (λ p, p.1 = errCode) errors) with
       | Some (_, code) => (false, OError code)
       | None => (false, OBoolean false)
       end.

(** A transfer answers with the number of bytes, or with [-1]. *)
Definition transferred (s dataSize : Z) : bool * Outcome :=
  (true, ONumber (if s =? napi_ok then i32 dataSize else -1)).

(** A serial work is rejected with the number of its error. *)
Definition serial_outcome (contextErrno : Z) (o : Outcome) : bool * Outcome :=
  if contextErrno =? 0 then (true, o) else (false, ONumber contextErrno).

Section Outcome.
Context `{EB : ErrBase}.
Definition sysapi_errors : list (Z * Z) :=
  [(UEC_SERVICE_PERMISSION_DENIED_SYSAPI, OHEC_COMMON_NORMAL_APP_NOT_ALLOWED);
   (UEC_SERVICE_PERMISSION_DENIED_SYSAPI_FAILED, OHEC_COMMON_PERMISSION_NOT_ALLOWED)].
Definition outcome (t : Task) : bool * Outcome :=
  match context t with
  | RequestRightWork c => (true, OBoolean (status (base t) =? napi_ok))
  | RequestAccessoryRightWork c =>
      if ar_errCode c =? UEC_OK then (true, OBoolean (ar_hasRight c))
      else (false, OError (if ar_errCode c =? UEC_SERVICE_ACCESSORY_NOT_MATCH then UEC_ACCESSORY_NOT_MATCH
                           else if ar_errCode c =? UEC_SERVICE_DATABASE_OPERATION_FAILED
                                then UEC_COMMON_RIGHT_DATABASE_ERROR
                                else UEC_COMMON_SERVICE_EXCEPTION))
  | SetCurrentFunctionsWork c =>
      by_code (f_errCode c) (sysapi_errors ++
        [(UEC_SERVICE_PERMISSION_CHECK_HDC, UEC_COMMON_HDC_NOT_ALLOWED);
         (UEC_SERVICE_FUNCTION_NOT_SUPPORT, UEC_COMMON_FUNCTION_NOT_SUPPORT)])
  | SetPortRoleWork c =>
      by_code (pr_errCode c) (sysapi_errors ++
        [(UEC_SERVICE_NOT_SUPPORT_SWITCH_PORT, UEC_COMMON_PORTROLE_SWITCH_NOT_ALLOWED)])
  | ControlTransferWork c => transferred (status (base t)) (c_dataSize c)
  | UsbControlTransferWork c => transferred (status (base t)) (d_dataSize c)
  | BulkTransferWork c => transferred (status (base t)) (b_dataSize c)
  | SerialWriteWork c => serial_outcome (sw_contextErrno c) (ONumber (sw_ret c))
  | SerialReadWork c => serial_outcome (sr_contextErrno c) (ONumber (sr_ret c))
  | SerialRequestRightWork c => serial_outcome (rr_contextErrno c) (OBoolean (rr_hasRight c))
  end.
End Outcome.

Section Settle.
Context {E A S O : Type} `{NA : Napi E} `{TC : TextCoding} `{NL : !NapiLaws E}.
Context `{UN : Uninitialised} `{EM : ErrorMessages}.
Context `{EB : ErrBase} `{AC : AbilityAccess A} `{UA : UsbAbility} `{US : UsbServer S}.
Context `{FE : Features} `{SY : System O} `{JE : JsErrBase} `{SC : Securec}.
Abbreviation world := (JsWorld.world E A S O).
Implicit Types (w : world) (t : Task).

(** The value of JavaScript that an outcome is: an error is an object with the message of
    its code and the code. *)
Definition shows (o : Outcome) (g : view) (v : jsval) : Prop :=
  match o with
  | OBoolean b => v = JBoolean b
  | ONumber n => v = JNumber n
  | OError code => ∃ msg a, GetErrMsgByErrCode code = Some msg ∧ v = JRef a ∧
      heap g !! a = Some (Plain {["message" := JString (encode (c_str msg)); "code" := JNumber code]})
  end.

(** A program that makes such a value. *)
Definition makes_outcome (o : Outcome) (m : ST E Z) : Prop :=
  ∀ e, thrown (look e) = None →
    wp m (λ h e', grown (look e) (look e') ∧ ∃ v, handles (look e') !! h = Some v ∧ shows o (look e') v) e.

Lemma makes_boolean b old : makes_outcome (OBoolean b) (get_boolean b old).
Proof.
  intros e He. apply wp_bind. eapply wp_op; [done|done|]. intros h e' Hh.
  split; [by eapply new_handle_grown|]. exists (JBoolean b). split; [by eapply new_handle_lookup|done].
Qed.
Lemma makes_int32 n old : makes_outcome (ONumber n) (create_int32 n old).
Proof.
  intros e He. apply wp_bind. eapply wp_op; [done|done|]. intros h e' Hh.
  split; [by eapply new_handle_grown|]. exists (JNumber n). split; [by eapply new_handle_lookup|done].
Qed.

Lemma makes_error code :
  is_Some (GetErrMsgByErrCode code) → makes_outcome (OError code) (CreateBusinessError code "").
Proof.
  intros [msg Hmsg] e He. eapply wp_mono; [by apply wp_CreateBusinessError|].
  intros h e' (Hg & a & Hh & Ho). rewrite string_app_empty_r in Ho. split; [done|]. exists (JRef a). split; [done|].
  by exists msg, a.
Qed.

(** A world in which the handle [h] has the value of an outcome, and nothing else is new. *)
Definition ready w (o : Outcome) (h : Z) w' : Prop :=
  ∃ e v, w' = set_engine e w ∧ grown (look (engine w)) (look e) ∧ handles (look e) !! h = Some v ∧ shows o (look e) v.

(** What [complete] finds: no pending exception, its own promise pending, its own work. *)
Definition completable w (b : USBAsyncContext) : Prop :=
  thrown (look (engine w)) = None ∧ deferred b ≠ nullptr ∧ pending w (deferred b) ∧ work b ∈ works (look (engine w)).

(** The promise of [b] settled with an outcome, and its work deleted. *)
Definition settled w (b : USBAsyncContext) (r : bool * Outcome) w' : Prop :=
  lib w' = lib w ∧ tasks w' = tasks w ∧ works (look (engine w')) = works (look (engine w)) ∖ {[work b]} ∧
  ∃ v, shows r.2 (look (engine w')) v ∧
       promises w' = <[deferred b := Some (r.1, v)]> (promises w).

Lemma ready_outcome o (m : ST E Z) w :
  makes_outcome o m → thrown (look (engine w)) = None → wp (on_engine m : ST world Z) (ready w o) w.
Proof.
  intros Hm He. specialize (Hm _ He). unfold wp, on_engine in *. destruct (m (engine w)) as [h e]. cbn in *.
  destruct Hm as (Hg & v & Hv & Hs). by exists e, v.
Qed.

Definition settle_op (f : bool) (d h : Z) : NapiOp unit :=
  if f then napi_resolve_deferred d h else napi_reject_deferred d h.

Lemma wp_settle w b f o h w1 :
  completable w b → ready w o h w1 →
  wp ((if f : bool then resolve_deferred (deferred b) h else reject_deferred (deferred b) h) ;;
      delete_async_work (work b)) (λ _, settled w b (f, o)) w1.
Proof.
  intros (He & Hd & Hp & Hw) (e & v & -> & Hg & Hv & Hs).
  assert (He1 : thrown (look e) = None) by eauto using grown_quiet.
  assert (Hp1 : deferreds (look e) !! deferred b = Some None) by by rewrite (grown_deferreds _ _ Hg).
  destruct (napi_effect (settle_op f (deferred b) h) e
    (λ _ g', g' = set_deferreds (<[deferred b := Some (f, v)]> (deferreds (look e))) (look e)) He1)
    as (x1 & e1 & Hn1 & Hl1).
  { destruct f; cbn; rewrite Hv; cbn; by rewrite bool_decide_true. }
  assert (Hrun : ((if f then resolve_deferred (deferred b) h else reject_deferred (deferred b) h) : ST world unit)
      (set_engine e w) = (tt, set_engine e1 w)).
  { destruct f; unfold resolve_deferred, reject_deferred; rewrite bind_unfold; unfold on_engine; cbn in *;
      by rewrite Hn1. }
  apply wp_bind. unfold wp at 1. rewrite Hrun. cbn.
  unfold delete_async_work. apply wp_bind. unfold wp at 1, on_engine. cbn.
  destruct (napi_effect (napi_delete_async_work (work b)) e1
    (λ _ g', g' = set_works (works (look e1) ∖ {[work b]}) (look e1))) as (x & e2 & Hn & Hl2).
  { by rewrite Hl1. }
  { cbn. rewrite bool_decide_true; [done|]. rewrite Hl1. cbn. by rewrite (grown_works _ _ Hg). }
  rewrite Hn. cbn. apply wp_ret. unfold settled, promises. cbn. rewrite Hl2. cbn. rewrite Hl1. cbn. split_and!; [done|done| |].
  - by rewrite (grown_works _ _ Hg).
  - exists v. split; [|by rewrite (grown_deferreds _ _ Hg)]. by destruct o.
Qed.

(** *** The ends of the works *)

(** A value, and the promise settled with it: resolved or rejected by a flag. *)
Lemma wp_complete w b f o (m : ST E Z) (k : Z → ST world unit) :
  completable w b → makes_outcome o m →
  (∀ h, k h = ((if f : bool then resolve_deferred (deferred b) h else reject_deferred (deferred b) h) ;;
               delete_async_work (work b))) →
  wp (h ← on_engine m; k h) (λ _, settled w b (f, o)) w.
Proof.
  intros Hb Hm Hk. apply wp_bind. eapply wp_mono; [apply ready_outcome; [done|apply Hb]|].
  intros h w1 Hr. rewrite Hk. by apply wp_settle.
Qed.

Lemma resolve_if b h : deferred b ≠ nullptr → resolve_if_deferred b h = (resolve_deferred (deferred b) h : ST world unit).
Proof. intros Hd. unfold resolve_if_deferred. by rewrite (proj2 (Z.eqb_neq _ _) Hd). Qed.
Lemma process_promise b s h :
  deferred b ≠ nullptr →
  ProcessPromise (set_status s b) h =
    (if s =? napi_ok then resolve_deferred (deferred b) h else reject_deferred (deferred b) h : ST world unit).
Proof. intros Hd. unfold ProcessPromise. cbn. by rewrite (proj2 (Z.eqb_neq _ _) Hd). Qed.

Lemma bind_assoc {X Y Z'} (m : ST world X) (f : X → ST world Y) (g : Y → ST world Z') w :
  (((m ≫= f) ≫= g) w) = ((m ≫= (λ x, f x ≫= g)) w).
Proof. by rewrite !bind_unfold. Qed.

(** The shape of the ends that also set a status. *)
Lemma wp_complete_status w b s o (m : ST E Z) :
  completable w b → makes_outcome o m →
  wp ('(s, queryResult) ← (r ← on_engine m; mret (s, r)) : ST world (Z * Z);
      ProcessPromise (set_status s b) queryResult ;; delete_async_work (work b))
     (λ _, settled w b (s =? napi_ok, o)) w.
Proof.
  intros Hb Hm. eapply wp_eq; [apply bind_assoc|]. apply wp_complete; [done|done|].
  intros h. unfold mbind at 1, ST_bind at 1. cbn. rewrite process_promise by apply Hb. done.
Qed.

(** A code that is rejected with an error, for a table of known codes. *)
Lemma settle_by_code_settles w b errCode errors :
  completable w b → Forall (λ p, is_Some (GetErrMsgByErrCode p.2)) errors →
  wp (settle_by_code b errCode errors : ST world unit) (λ _, settled w b (by_code errCode errors)) w.
Proof.
  intros Hb Herr. unfold settle_by_code, by_code. case_match eqn:Hok.
  - apply (wp_complete_status _ _ napi_ok (OBoolean true)); [done|apply makes_boolean].
  - destruct (filter _ errors) as [|[c code] l] eqn:Hf; cbn.
    + apply (wp_complete_status _ _ napi_generic_failure (OBoolean false)); [done|apply makes_boolean].
    + apply (wp_complete_status _ _ napi_generic_failure (OError code)); [done|]. apply makes_error.
      assert (Hin : (c, code) ∈ filter (λ p, p.1 = errCode) errors) by (rewrite Hf; left).
      apply list_elem_of_filter in Hin as [_ Hin]. rewrite Forall_forall in Herr. by apply (Herr _ Hin).
Qed.

Lemma complete_transfer_settles w b dataSize :
  completable w b → wp (complete_transfer b dataSize : ST world unit) (λ _, settled w b (transferred (status b) dataSize)) w.
Proof.
  intros Hb. apply (wp_complete _ _ true); [done|apply makes_int32|]. intros h. by rewrite resolve_if by apply Hb.
Qed.

Lemma settle_serial_settles w b contextErrno o (m : ST E Z) :
  completable w b → makes_outcome o m →
  wp (settle_serial b contextErrno m : ST world unit) (λ _, settled w b (serial_outcome contextErrno o)) w.
Proof.
  intros Hb Hm. unfold settle_serial, serial_outcome. destruct (contextErrno =? 0); cbn.
  all: eapply wp_eq; [apply bind_assoc|].
  - by apply wp_complete.
  - apply wp_complete; [done|apply makes_int32|done].
Qed.
End Settle.

Section CompleteSettles.
Context {E A S O : Type} `{NA : Napi E} `{TC : TextCoding} `{NL : !NapiLaws E}.
Context `{UN : Uninitialised}.
Context `{EB : ErrBase} `{AC : AbilityAccess A} `{UA : UsbAbility} `{US : UsbServer S}.
Context `{FE : Features} `{SY : System O} `{JE : JsErrBase} `{SC : Securec}.
Abbreviation world := (JsWorld.world E A S O).

(** C11: the end of a work settles its promise exactly with its outcome, resolved or rejected, a
    value or an error with its code and message, deletes the work, and settles no other
    promise. *)
Theorem complete_settles (w : world) (t : Task) :
  completable w (base t) → settled (EM := usb_messages) w (base t) (outcome t) (run_complete t w).2.
Proof.
  intros Hb. change (wp (run_complete t) (λ _, settled (EM := usb_messages) w (base t) (outcome t)) w).
  unfold run_complete, outcome. destruct (context t) as [c|c|c|c|c|c|c|c|c|c]; cbv zeta.
  - unfold g_requestRightComplete. apply wp_complete; [done|apply makes_boolean|].
    intros h. by rewrite resolve_if by apply Hb.
  - unfold g_requestAccessoryRightComplete. cbv zeta. repeat case_match; cbn.
    1: apply (wp_complete_status _ _ napi_ok); [done|apply makes_boolean].
    all: apply (wp_complete_status _ _ napi_generic_failure); [done|apply makes_error; by eexists].
  - apply settle_by_code_settles; [done|]. repeat (constructor; [by eexists|]). constructor.
  - apply settle_by_code_settles; [done|]. repeat (constructor; [by eexists|]). constructor.
  - apply complete_transfer_settles, Hb.
  - apply complete_transfer_settles, Hb.
  - apply complete_transfer_settles, Hb.
  - apply settle_serial_settles; [done|apply makes_int32].
  - apply settle_serial_settles; [done|apply makes_int32].
  - apply settle_serial_settles; [done|apply makes_boolean].
Qed.
End CompleteSettles.
