(* ===== verification/JsBytes.v ===== *)
(** * The bytes of a transfer

    What an [execute] writes to the memory of the application: at most the length of the
    array of its transfer, whatever the service answers ([execute_writes_within]); and what
    the application then finds there ([read_delivers]). *)

From S2P Require Import Prelude Text UsbErrors UsbTypes Napi.
From S2P Require Import HostDriver HostEvents HostPolicy ServiceHost ServiceSerial ServiceGate ServicePorts Client.
From S2P Require Import JsValues JsLaws Platform JsWorld JsCalls JsAsync JsTransfer JsSerial JsExports JsSteps JsSettle.

#[local] Set Default Goal Selector "!".

(** The memory that an [execute] may write: the address and the size of the buffer of its
    context.  A work without a buffer may write nothing. *)
Definition target_of (c : Context_) : Z * Z :=
  match c with
  | ControlTransferWork c => (buffer_address (c_buffer c), c_bufferLength c)
  | UsbControlTransferWork c => (buffer_address (d_buffer c), d_bufferLength c)
  | BulkTransferWork c => (buffer_address (b_buffer c), b_bufferLength c)
  | SerialReadWork c => (sr_pData c, sr_size c)
  | _ => (nullptr, 0)
  end.

Section Bytes.
Context {E A S O : Type} `{NA : Napi E} `{UN : Uninitialised}.
Context `{EB : ErrBase} `{AC : AbilityAccess A} `{UA : UsbAbility} `{US : UsbServer S}.
Context `{FE : Features} `{SY : System O} `{JE : JsErrBase} `{SC : Securec} `{SL : !SecurecLaws}.
Context `{TC : TextCoding} `{NL : !NapiLaws E}.
Abbreviation world := (JsWorld.world E A S O).
Implicit Types (w : world) (t : Task).

(** The engine is as before but for at most [size] bytes from [address] on. *)
Definition written (address size : Z) (e e' : E) : Prop :=
  e' = e ∨ ∃ l, e' = poke address l e ∧ Z.of_nat (length l) ≤ size.

Definition untouched {X} (m : ST world X) : Prop := ∀ w, engine (m w).2 = engine w.
Definition writes {X} (address size : Z) (m : ST world X) : Prop :=
  ∀ w, written address size (engine w) (engine (m w).2).

Lemma untouched_ret {X} (x : X) : untouched (mret x).
Proof. by intros w. Qed.
Lemma untouched_gets {X} (f : world → X) : untouched (gets f).
Proof. by intros w. Qed.
Lemma untouched_on_lib {X} (m : ST (Client.st (A := A) (S := S)) X) : untouched (on_lib m : ST world X).
Proof. intros w. unfold on_lib. by destruct (m (lib w)). Qed.
Lemma untouched_bind {X Y} (m : ST world X) (f : X → ST world Y) :
  untouched m → (∀ x, untouched (f x)) → untouched (m ≫= f).
Proof. intros Hm Hf w. rewrite bind_unfold. by rewrite Hf, Hm. Qed.
Lemma untouched_writes {X} a n (m : ST world X) : untouched m → writes a n m.
Proof. intros Hm w. left. apply Hm. Qed.
Lemma writes_bind_r {X Y} a n (m : ST world X) (f : X → ST world Y) :
  untouched m → (∀ x, writes a n (f x)) → writes a n (m ≫= f).
Proof. intros Hm Hf w. rewrite bind_unfold. rewrite <- (Hm w). apply Hf. Qed.
Lemma writes_bind_l {X Y} a n (m : ST world X) (f : X → ST world Y) :
  writes a n m → (∀ x, untouched (f x)) → writes a n (m ≫= f).
Proof. intros Hm Hf w. rewrite bind_unfold. rewrite Hf. apply Hm. Qed.
Lemma writes_invoke {X Y} a n (m : ST (Client.st (A := A) (S := S)) (option X)) (k : X → ST world (option Y)) :
  (∀ x, writes a n (k x)) → writes a n (invoke m k).
Proof.
  intros Hk. apply writes_bind_r; [apply untouched_on_lib|]. intros [x|]; [apply Hk|]. by apply untouched_writes.
Qed.
(** [memcpy_s] writes no more than the size of its destination. *)
Lemma writes_copy a n src ret l :
  memcpy_s a n src = (ret, Some l) → writes a n (modify (λ w, set_engine (poke a l (engine w)) w) : ST world unit).
Proof. intros Hm w. right. exists l. split; [done|]. by eapply memcpy_s_bound. Qed.

Lemma writes_finish_transfer is_in buffer n bufLen ret data :
  writes (buffer_address buffer) n (finish_transfer is_in buffer n bufLen ret data : ST world (Z * Z)).
Proof.
  unfold finish_transfer. apply writes_bind_l; [|by intros []].
  destruct (negb _); [by apply untouched_writes|]. destruct (_ && _); [|by apply untouched_writes]. cbv zeta.
  destruct (memcpy_s _ _ _) as [r [l|]] eqn:Hm; [|by apply untouched_writes].
  apply writes_bind_l; [by eapply writes_copy|done].
Qed.
Lemma writes_copy_to_array a n bytes : writes a n (copy_to_array a n bytes : ST world unit).
Proof.
  unfold copy_to_array. destruct (memcpy_s _ _ _) as [r [l|]] eqn:Hm; [by eapply writes_copy|by apply untouched_writes].
Qed.

Lemma delete_buffer_address out buffer buffer' :
  delete_buffer out buffer = Some buffer' → buffer_address buffer' = buffer_address buffer.
Proof.
  unfold delete_buffer. destruct (negb out); [by intros [= <-]|]. destruct buffer as [a|]; [|by intros [= <-]].
  destruct (a =? nullptr); [|done]. by intros [= <-].
Qed.

Lemma untouched_buffer_bytes buffer n : untouched (buffer_bytes buffer n : ST world _).
Proof. by destruct buffer. Qed.
Lemma untouched_bytes_at a n : untouched (bytes_at a n : ST world _).
Proof. unfold bytes_at. by destruct (_ && _). Qed.

(** The shape of the three transfers. *)
Lemma writes_transfer {X} out buffer n (call : ST (Client.st (A := A) (S := S)) (option X))
    (k : Buffer → X → ST world (option (USBAsyncContext * Context_))) :
  (∀ buffer', buffer_address buffer' = buffer_address buffer → ∀ x, writes (buffer_address buffer) n (k buffer' x)) →
  writes (buffer_address buffer) n
    (match delete_buffer out buffer with None => mret None | Some buffer' => invoke call (k buffer') end).
Proof.
  intros Hk. destruct (delete_buffer out buffer) as [buffer'|] eqn:Hd; [|by apply untouched_writes].
  apply writes_invoke. apply Hk. by eapply delete_buffer_address.
Qed.

(** C12: the thread that runs a queued work writes nothing to the memory of the engine but at
    most as many bytes as the array of its own transfer has, at its address, whatever the
    service answers and however many bytes it sends. *)
Theorem execute_writes_within uninitialised t w :
  let '(address, size) := target_of (context t) in
  written address size (engine w) (engine (run_execute uninitialised t w).2).
Proof.
  destruct (target_of (context t)) as [a n] eqn:Ht.
  enough (H : writes a n (run_execute uninitialised t : ST world _)) by apply H.
  unfold run_execute. cbv zeta. destruct (context t) as [c|c|c|c|c|c|c|c|c|c]; injection Ht as <- <-.
  1-4: apply writes_invoke; by intros []; apply untouched_writes.
  1-3: apply writes_bind_r; [apply untouched_buffer_bytes|]; intros bytes; cbv zeta; apply writes_transfer;
    intros buffer' <- []; apply writes_bind_l; [apply writes_finish_transfer|by intros []].
  - unfold g_serialWriteExecute. destruct (_ || _); [by apply untouched_writes|].
    apply writes_bind_r; [apply untouched_bytes_at|]. intros [bytes|]; [|by apply untouched_writes].
    apply writes_invoke. intros []. by apply untouched_writes.
  - apply writes_invoke. intros [ret [data n]]. apply writes_bind_l; [apply writes_copy_to_array|done].
  - apply writes_invoke. intros []. by apply untouched_writes.
Qed.

(** What a bulk transfer from the device brings: the number that the application gets, and
    the bytes that it finds in its array of [n] bytes at [a]. *)
Definition delivered (a n ret : Z) (bytes : list Z) (e : E) : Z * E :=
  if negb (ret =? UEC_OK) then (-1, e)
  else match bytes with
       | [] => (n, e)
       | _ => (Z.min (Z.of_nat (length bytes)) n, poke a (take (Z.to_nat n) bytes) e)
       end.

Lemma finish_read a n ret bytes w :
  a ≠ nullptr → 0 < n ≤ SECUREC_MEM_MAX_LEN →
  finish_transfer true (ArrayBytes a) n n ret bytes w =
    ((if ret =? UEC_OK then napi_ok else napi_generic_failure,
      if ret =? UEC_OK then (delivered a n ret bytes (engine w)).1 else 0),
     set_engine (delivered a n ret bytes (engine w)).2 w).
Proof.
  intros Ha [Hn Hmax]. unfold SECUREC_MEM_MAX_LEN in *.
  assert (Hword : ∀ m, 0 <= m <= n → u32 m = m) by (intros m Hm; unfold u32; apply Z.mod_small; lia).
  unfold finish_transfer, delivered. rewrite bind_unfold.
  destruct (Z.eqb_spec ret UEC_OK) as [->|Hret]; cbn [negb fst snd]; [|destruct w; cbn; by rewrite (proj2 (Z.eqb_neq _ _) Hret)].
  rewrite (proj2 (Z.ltb_lt _ _) Hn). destruct bytes as [|x bytes].
  { change (0 <? Z.of_nat (length (@nil Z))) with false. cbn [andb mret ST_ret fst snd]. rewrite Hword by lia. by destruct w. }
  set (l := x :: bytes). assert (Hl : 0 < Z.of_nat (length l)) by (cbn; lia).
  rewrite (proj2 (Z.ltb_lt _ _) Hl). cbn [andb]. cbv zeta.
  set (m := if n <? Z.of_nat (length l) then n else Z.of_nat (length l)).
  assert (Hm : m = Z.min (Z.of_nat (length l)) n) by (subst m; destruct (Z.ltb_spec n (Z.of_nat (length l))); lia).
  assert (Htake : take (Z.to_nat m) l = take (Z.to_nat n) l).
  { destruct (Z.le_gt_cases n (Z.of_nat (length l))); [f_equal; lia|]. rewrite !take_ge; [done|lia|lia]. }
  rewrite Htake, (memcpy_s_ok a n); [|done|rewrite length_take; lia|done].
  rewrite bind_unfold. cbn. by rewrite Hword, Hm by lia.
Qed.

(** A bulk transfer from the device ends in the array and in the number of the promise:
    a failed transfer gives -1 and leaves the array; the bytes that came, cut at the length of
    the array, are at its front, and their number is the answer; but a transfer that brings no
    byte answers with the length of the whole array. *)
Theorem bulk_read_delivers b c a ret bytes (w : world) l' :
  let n := b_bufferLength c in
  b_buffer c = ArrayBytes a → a ≠ nullptr → 0 < n ≤ SECUREC_MEM_MAX_LEN →
  USBEndpoint.GetDirection (b_endpoint c) = USB_ENDPOINT_DIR_IN →
  Pipe.BulkTransfer (b_pipe c) (b_endpoint c) (peek a n (engine w)) (b_timeOut c) (lib w) = (Some (ret, bytes), l') →
  ∃ b' c' w', g_bulkTransferExecute b c w = (Some (b', c'), w') ∧ lib w' = l' ∧
    outcome (mk_Task b' c' true) = (true, ONumber (delivered a n ret bytes (engine w)).1) ∧
    engine w' = (delivered a n ret bytes (engine w)).2.
Proof.
  intros n Hb Ha Hn Hdir Hcall. unfold g_bulkTransferExecute, delete_buffer. rewrite Hb.
  cbn [buffer_bytes]. rewrite bind_unfold, Hdir, Z.eqb_refl. cbn [gets fst snd]. cbv zeta.
  change (USB_ENDPOINT_DIR_IN =? USB_ENDPOINT_DIR_OUT) with false. cbn [negb].
  unfold invoke. rewrite bind_unfold. unfold on_lib. fold n. rewrite Hcall. cbn [fst snd].
  rewrite bind_unfold, peek_length, finish_read by (done || lia). cbn.
  do 3 eexists. split; [done|]. split; [done|]. split; [|done].
  unfold outcome, transferred. cbn. do 2 f_equal. unfold delivered.
  destruct (Z.eqb_spec ret UEC_OK) as [->|Hret]; cbn; [|done]. apply i32_id. unfold SECUREC_MEM_MAX_LEN in Hn.
  destruct bytes as [|x bytes]; cbn [fst]; unfold is_i32; [lia|]. cbn. lia.
Qed.
End Bytes.
