(* ===== verification/JsArguments.v ===== *)
(** * What the native functions demand of their arguments

    The [signature] of a function of [usbManager]: the part of the module that it belongs to,
    how many arguments it takes, and the types that it checks up to the first object, whose
    properties it reads before it looks at the next argument.  [ill_typed_refused]: a call
    that does not fit is refused with an exception, and neither the service nor the engine's
    queue hears of it.  Four functions have no signature: [bulkTransfer] answers with a
    settled promise, [usbSubmitTransfer] and [usbCancelTransfer] throw a second time over the
    exception that is pending, and [getVersion] looks at no argument. *)

From S2P Require Import Prelude Text UsbErrors UsbTypes Napi.
From S2P Require Import HostDriver HostEvents HostPolicy ServiceHost ServiceSerial ServiceGate ServicePorts Client.
From S2P Require Import JsValues JsLaws Platform JsWorld JsCalls JsAsync JsTransfer JsSerial JsExports JsSteps.
From S2P Require Import JsSettle.

#[local] Set Default Goal Selector "!".

Record Signature := mk_Signature {
  s_feature : UsbManagerFeature;
  (** the least number of arguments; [None]: the function takes none *)
  s_count : option Z;
  s_types : list napi_valuetype;
}.
Definition takes (f : UsbManagerFeature) (n : Z) (types : list napi_valuetype) : Signature :=
  mk_Signature f (Some n) types.

(** The functions that check their arguments and refuse with one exception. *)
Definition signatures : list (string * Signature) :=
  [("CoreGetDevices", mk_Signature FEATURE_HOST None []);
   ("CoreConnectDevice", takes FEATURE_HOST 1 [napi_object]);
   ("CoreHasRight", takes FEATURE_HOST 1 [napi_string]);
   ("CoreRequestRight", takes FEATURE_HOST 1 [napi_string]);
   ("CoreUsbFunctionsFromString", takes FEATURE_DEVICE 1 [napi_string]);
   ("CoreUsbFunctionsToString", takes FEATURE_DEVICE 1 [napi_number]);
   ("CoreSetCurrentFunctions", takes FEATURE_DEVICE 1 [napi_number]);
   ("CoreGetCurrentFunctions", mk_Signature FEATURE_DEVICE None []);
   ("CoreGetPorts", mk_Signature FEATURE_PORT None []);
   ("PortGetSupportedModes", takes FEATURE_PORT 1 [napi_number]);
   ("PortSetPortRole", takes FEATURE_PORT 3 [napi_number; napi_number; napi_number]);
   ("PipeClaimInterface", takes FEATURE_HOST 2 [napi_object]);
   ("PipeReleaseInterface", takes FEATURE_HOST 2 [napi_object]);
   ("PipeControlTransfer", takes FEATURE_HOST 2 [napi_object]);
   ("PipeUsbControlTransfer", takes FEATURE_HOST 2 [napi_object]);
   ("PipeSetInterface", takes FEATURE_HOST 2 [napi_object]);
   ("PipeSetConfiguration", takes FEATURE_HOST 2 [napi_object]);
   ("PipeGetRawDescriptors", takes FEATURE_HOST 1 [napi_object]);
   ("PipeGetFileDescriptor", takes FEATURE_HOST 1 [napi_object]);
   ("PipeClose", takes FEATURE_HOST 1 [napi_object]);
   ("PipeResetDevice", takes FEATURE_HOST 1 [napi_object]);
   ("DeviceAddRight", takes FEATURE_HOST 2 [napi_string; napi_string]);
   ("DeviceAddAccessRight", takes FEATURE_HOST 2 [napi_string; napi_string]);
   ("DeviceRemoveRight", takes FEATURE_HOST 1 [napi_string]);
   ("DeviceGetAccessoryList", mk_Signature FEATURE_DEVICE None []);
   ("DeviceOpenAccessory", takes FEATURE_DEVICE 1 [napi_object]);
   ("DeviceCloseAccessory", takes FEATURE_DEVICE 1 [napi_object]);
   ("DeviceAddAccessoryRight", takes FEATURE_DEVICE 2 [napi_number; napi_object]);
   ("DeviceHasAccessoryRight", takes FEATURE_DEVICE 1 [napi_object]);
   ("DeviceRequestAccessoryRight", takes FEATURE_DEVICE 1 [napi_object]);
   ("DeviceCancelAccessoryRight", takes FEATURE_DEVICE 1 [napi_object])]%string.

(** Whether the arguments of a call fit. *)
Fixpoint types_fit (types : list napi_valuetype) (args : list jsval) : bool :=
  match types with
  | [] => true
  | t :: types => is_type (type_of (default JUndefined (head args))) t && types_fit types (tail args)
  end.
Definition fits (s : Signature) (args : list jsval) : bool :=
  match s_count s with
  | None => Z.of_nat (length args) =? 0
  | Some n => (n <=? Z.of_nat (length args)) && types_fit (s_types s) args
  end.

Section Arguments.
Context {E A S O : Type} `{NA : Napi E} `{TC : TextCoding} `{NL : !NapiLaws E}.
Context `{UN : Uninitialised}.
Context `{EB : ErrBase} `{AC : AbilityAccess A} `{UA : UsbAbility} `{US : UsbServer S}.
Context `{FE : Features} `{SY : System O} `{JE : JsErrBase} `{SC : Securec}.
#[local] Existing Instance usb_messages.
Abbreviation world := (JsWorld.world E A S O).
Abbreviation Native := (ST world (option Z)).
Implicit Types (w : world).

(** The pending exception is an error object with this code. *)
Definition threw (g : view) (code : Z) : Prop :=
  ∃ a props, thrown g = Some (JRef a) ∧ heap g !! a = Some (Plain props) ∧ props !! "code" = Some (JNumber code).

(** A refused call: an exception, a null pointer, and nothing else but the engine's objects. *)
Definition refused w (code : Z) (r : option Z) w' : Prop :=
  r = Some nullptr ∧ (∃ e, w' = set_engine e w) ∧ threw (look (engine w')) code.

(** *** Throwing *)

Lemma wp_throw w code msg :
  thrown (look (engine w)) = None → is_Some (GetErrMsgByErrCode code) →
  wp (throw code msg) (λ _ w', refused w code (Some nullptr) w') w.
Proof.
  intros He [comm Hc]. unfold throw, ThrowBusinessError, wp, on_engine.
  pose proof (wp_CreateBusinessError code msg comm _ Hc He) as Hw. unfold wp in Hw. rewrite bind_unfold.
  destruct (CreateBusinessError code msg (engine w)) as [h e]. cbn in *. destruct Hw as (Hg & a & Hh & Ho).
  rewrite bind_unfold.
  destruct (napi_effect (napi_throw h) e (λ _ g', g' = set_thrown (Some (JRef a)) (look e))) as (x & e1 & Hn & Hl).
  { eauto using grown_quiet. }
  { cbn. by rewrite Hh. }
  rewrite Hn. cbn. split; [done|]. split; [by exists e1|]. exists a. eexists. cbn. rewrite Hl. split; [done|].
  split; [exact Ho|]. done.
Qed.

(** An assertion that does not hold. *)
Lemma wp_USB_ASSERT w code msg (k : Native) :
  thrown (look (engine w)) = None → is_Some (GetErrMsgByErrCode code) →
  wp (USB_ASSERT false code msg k) (refused w code) w.
Proof.
  intros He Hc. apply wp_bind. eapply wp_mono; [by apply wp_throw|]. intros _ w' (_ & Hw & Ht).
  apply wp_ret. by split.
Qed.

(** *** Arguments *)

(** What only makes handles. *)
Definition handed_on w w' : Prop := ∃ e, w' = set_engine e w ∧ handed (look (engine w)) (look e).
#[global] Instance handed_on_preorder : PreOrder handed_on.
Proof.
  split.
  - intros w. exists (engine w). by destruct w.
  - intros w1 w2 w3 (e1 & -> & H1) (e2 & -> & H2). exists e2. split; [done|]. by etrans.
Qed.
Lemma handed_on_quiet w w' : handed_on w w' → thrown (look (engine w)) = None → thrown (look (engine w')) = None.
Proof. intros (e & -> & H). by apply handed_quiet. Qed.
Lemma handed_on_handle w w' h v :
  handed_on w w' → handles (look (engine w)) !! h = Some v → handles (look (engine w')) !! h = Some v.
Proof. intros (e & -> & H). by apply grown_handle, handed_grown. Qed.
Lemma refused_handed w w1 code r w' : handed_on w w1 → refused w1 code r w' → refused w code r w'.
Proof. intros (e & -> & _) (Hr & (e' & ->) & Ht). split; [done|]. split; [by exists e'|done]. Qed.

(** The handles of the arguments, of which the function has asked for [cap]. *)
Definition holds_args w (argv : list Z) (args : list jsval) (cap : nat) : Prop :=
  ∀ i, (i < cap)%nat → handles (look (engine w)) !! arg argv i = Some (default JUndefined (args !! i)).

Lemma holds_args_handed w w' argv args cap :
  handed_on w w' → holds_args w argv args cap → holds_args w' argv args cap.
Proof. intros Hw H i Hi. eapply handed_on_handle; [done|by apply H]. Qed.

Lemma wp_cb_info w info cap args (Q : Z * Z * list Z → world → Prop) :
  thrown (look (engine w)) = None → frames (look (engine w)) !! info = Some args → 0 <= cap →
  (∀ argv w', handed_on w w' → holds_args w' argv args (Z.to_nat cap) →
     Q (napi_ok, Z.of_nat (length args), argv) w') →
  wp (cb_info info cap) Q w.
Proof.
  intros He Hf Hcap HQ. unfold cb_info. apply wp_bind. unfold wp at 1, on_engine.
  destruct (napi_effect (napi_get_cb_info info cap) (engine w) (λ r g', r.1 = Z.of_nat (length args) ∧
              Forall2 (λ h v, handles g' !! h = Some v) r.2
                (take (Z.to_nat cap) (args ++ replicate (Z.to_nat cap) JUndefined)) ∧
              handles (look (engine w)) ⊆ handles g' ∧ g' = set_handles (handles g') (look (engine w))))
    as ([n argv] & e & Hn & Hlen & Hargs & Hs & Hg); [done|cbn; by rewrite Hf|].
  rewrite Hn. cbn in *. subst n. apply wp_ret, HQ; [by exists e|]. intros i Hi. cbn.
  rewrite Forall2_lookup in Hargs. specialize (Hargs i). rewrite lookup_take_lt in Hargs by done.
  assert (Hv : (args ++ replicate (Z.to_nat cap) JUndefined) !! i = Some (default JUndefined (args !! i))).
  { destruct (args !! i) eqn:Ha; [by apply lookup_app_l_Some|]. apply lookup_ge_None in Ha.
    rewrite lookup_app_r by done. apply lookup_replicate_2. lia. }
  rewrite Hv in Hargs. inversion Hargs as [h v Hh Harg|]. unfold arg. by rewrite <- Harg.
Qed.

Lemma wp_typeof w h v old (Q : Z * napi_valuetype → world → Prop) :
  thrown (look (engine w)) = None → handles (look (engine w)) !! h = Some v →
  (∀ w', handed_on w w' → Q (napi_ok, type_of v) w') → wp (typeof h old) Q w.
Proof.
  intros He Hv HQ. apply wp_bind. unfold wp at 1, on_engine.
  destruct (napi_effect (napi_typeof h) (engine w) (λ t g', t = type_of v ∧ g' = look (engine w))) as (t & e & Hn & -> & Hl);
    [done|cbn; by rewrite Hv|].
  rewrite Hn. cbn. apply wp_ret, HQ. exists e. split; [done|]. by rewrite Hl.
Qed.

(** *** Checks in a row *)

(** From the argument [i] on, the types are checked before anything else is done. *)
Definition refuses (cap i : nat) (types : list napi_valuetype) (k : list Z → Native) : Prop :=
  ∀ w argv args, thrown (look (engine w)) = None → holds_args w argv args cap →
    types_fit types (drop i args) = false → wp (k argv) (refused w OHEC_COMMON_PARAM_ERROR) w.

Lemma refuses_nil cap i k : refuses cap i [] k.
Proof. by intros w argv args _ _ ?. Qed.

Lemma types_fit_cons t types (args : list jsval) i :
  types_fit (t :: types) (drop i args) =
  is_type (type_of (default JUndefined (args !! i))) t && types_fit types (drop (i + 1) args).
Proof.
  cbn [types_fit]. f_equal.
  - f_equal. f_equal. by rewrite head_lookup, lookup_drop, Nat.add_0_r.
  - f_equal. rewrite <- drop_drop. by destruct (drop i args).
Qed.

(** One check: what follows it may rely on the type. *)
Lemma refuses_unless cap i t types old msg status_checked (k : list Z → Native) :
  (i < cap)%nat →
  (∀ w argv args, thrown (look (engine w)) = None → holds_args w argv args cap →
     type_of (default JUndefined (args !! i)) = t → types_fit types (drop (i + 1) args) = false →
     wp (k argv) (refused w OHEC_COMMON_PARAM_ERROR) w) →
  refuses cap i (t :: types)
    (λ argv, '(status, type) ← typeof (arg argv i) old;
             (if status_checked : bool then NAPI_CHECK status else id)
               (USB_ASSERT (is_type type t) OHEC_COMMON_PARAM_ERROR msg (k argv))).
Proof.
  intros Hi Hk w argv args He Hargs Hfit. rewrite types_fit_cons in Hfit.
  apply wp_bind. eapply wp_typeof; [done|by apply Hargs|]. intros w1 Hw1.
  assert (He1 : thrown (look (engine w1)) = None) by by eapply handed_on_quiet.
  assert (H : wp (USB_ASSERT (is_type (type_of (default JUndefined (args !! i))) t) OHEC_COMMON_PARAM_ERROR msg (k argv))
                (refused w1 OHEC_COMMON_PARAM_ERROR) w1).
  { destruct (is_type _ t) eqn:Ht.
    - apply bool_decide_eq_true in Ht. apply (Hk w1 argv args); [done|by eapply holds_args_handed|done|done].
    - apply wp_USB_ASSERT; [done|by eexists]. }
  eapply wp_mono; [by destruct status_checked; exact H|]. intros r w'. by apply refused_handed.
Qed.

Lemma refuses_type cap i t types msg (k : list Z → Native) :
  (i < cap)%nat → refuses cap (i + 1) types k →
  refuses cap i (t :: types) (λ argv, require_type argv i t msg (k argv)).
Proof. intros Hi Hk. apply (refuses_unless cap i t types any_type msg true); [done|]. intros w argv args He Ha _. by apply Hk. Qed.
Lemma refuses_pipe cap (k : list Z → USBDevicePipe → Native) :
  (0 < cap)%nat → refuses cap 0 [napi_object] (λ argv, pipe_argument argv (k argv)).
Proof.
  intros Hi. apply (refuses_unless cap 0 napi_object [] any_type _ false); [done|]. by intros w argv args _ _ _ ?.
Qed.

(** The reading of a text leaves the engine as it is. *)
Lemma wp_JsValueToString h s0 old (Q : string → E → Prop) e :
  thrown (look e) = None → handles (look e) !! h = Some (JString s0) →
  (∀ s e', look e' = look e → Q s e') → wp (JsValueToString h STR_DEFAULT_SIZE old) Q e.
Proof.
  intros He Hh HQ. apply wp_bind. eapply wp_op; [done|cbn; by rewrite Hh|]. intros x e' [_ Hl]. by apply wp_ret, HQ.
Qed.
Lemma handed_on_read {X} (m : ST E X) w (Q : X → world → Prop) :
  wp m (λ x e, look e = look (engine w) ∧ Q x (set_engine e w)) (engine w) → wp (on_engine m) Q w.
Proof. unfold wp, on_engine. destruct (m (engine w)). by intros [_ H]. Qed.

Lemma refuses_text cap i types msg (k : list Z → string → Native) :
  (i < cap)%nat → (∀ s, refuses cap (i + 1) types (λ argv, k argv s)) →
  refuses cap i (napi_string :: types) (λ argv, text_argument argv i msg (k argv)).
Proof.
  intros Hi Hk. apply (refuses_unless cap i napi_string types any_type msg true); [done|].
  intros w argv args He Ha Ht Hfit. destruct (default JUndefined (args !! i)) eqn:Hv; try done.
  pose proof (Ha i Hi) as Hh. rewrite Hv in Hh. apply wp_bind, handed_on_read.
  eapply wp_JsValueToString; [done|done|]. intros t e Hl. split; [done|].
  assert (Hw : handed_on w (set_engine e w)) by (exists e; by rewrite Hl).
  eapply wp_mono; [eapply (Hk t); [by eapply handed_on_quiet|by eapply holds_args_handed|done]|].
  intros r w'. by apply refused_handed.
Qed.

(** *** Whole functions *)

(** A call whose arguments do not fit. *)
Definition demands (s : Signature) (f : Z → Native) : Prop :=
  ∀ w info args, thrown (look (engine w)) = None → frames (look (engine w)) !! info = Some args →
    fits s args = false ∨ HasFeature (s_feature s) = false →
    wp (f info) (refused w (if HasFeature (s_feature s) then OHEC_COMMON_PARAM_ERROR else CAPABILITY_NOT_SUPPORT)) w.

Lemma wp_require_feature feature (k : Native) w :
  thrown (look (engine w)) = None →
  (HasFeature feature = true → wp k (refused w OHEC_COMMON_PARAM_ERROR) w) →
  wp (require_feature feature k)
     (refused w (if HasFeature feature then OHEC_COMMON_PARAM_ERROR else CAPABILITY_NOT_SUPPORT)) w.
Proof.
  intros He Hk. unfold require_feature. destruct (HasFeature feature); cbn [negb]; [by apply Hk|].
  apply wp_bind. eapply wp_mono; [apply wp_throw; [done|by eexists]|]. intros _ w' (_ & Hw & Ht). apply wp_ret. by split.
Qed.

Lemma demands_arguments feature n cap msg types (k : Z → list Z → Native) :
  0 <= cap → (∀ argc, refuses (Z.to_nat cap) 0 types (k argc)) →
  demands (takes feature n types) (λ info, require_feature feature (require_arguments info n cap msg k)).
Proof.
  intros Hcap Hk w info args He Hf Hfit. apply wp_require_feature; [done|]. intros HF.
  destruct Hfit as [Hfit|]; [|cbn in *; congruence]. cbn in Hfit.
  apply wp_bind. eapply wp_cb_info; [done..|]. intros argv w1 Hw1 Ha.
  assert (He1 : thrown (look (engine w1)) = None) by by eapply handed_on_quiet.
  eapply wp_mono; [|intros r w'; by apply refused_handed]. unfold NAPI_CHECK. cbn [Z.eqb napi_ok].
  destruct (n <=? Z.of_nat (length args)).
  - apply (Hk _ w1 argv args); [done|done|exact Hfit].
  - apply wp_USB_ASSERT; [done|by eexists].
Qed.

Lemma demands_none feature cap msg checked (k : Z → list Z → Native) :
  0 <= cap →
  demands (mk_Signature feature None [])
    (λ info, require_feature feature
       ('(status, argc, argv) ← cb_info info cap;
        (if checked : bool then NAPI_CHECK status else id)
          (USB_ASSERT (argc =? PARAM_COUNT_0) OHEC_COMMON_PARAM_ERROR msg (k argc argv)))).
Proof.
  intros Hcap w info args He Hf Hfit. apply wp_require_feature; [done|]. intros HF.
  destruct Hfit as [Hfit|]; [|cbn in *; congruence]. cbn in Hfit.
  apply wp_bind. eapply wp_cb_info; [done..|]. intros argv w1 Hw1 Ha.
  assert (He1 : thrown (look (engine w1)) = None) by by eapply handed_on_quiet.
  eapply wp_mono; [|intros r w'; by apply refused_handed].
  assert (H : wp (USB_ASSERT (Z.of_nat (length args) =? PARAM_COUNT_0) OHEC_COMMON_PARAM_ERROR msg
                   (k (Z.of_nat (length args)) argv)) (refused w1 OHEC_COMMON_PARAM_ERROR) w1).
  { unfold PARAM_COUNT_0. rewrite Hfit. apply wp_USB_ASSERT; [done|by eexists]. }
  by destruct checked.
Qed.

(** *** The table *)

Lemma refuses_uint32 cap i types msg old (k : list Z → Z → Native) :
  (i < cap)%nat → (∀ n, refuses cap (i + 1) types (λ argv, k argv n)) →
  refuses cap i (napi_number :: types)
    (λ argv, require_type argv i napi_number msg (n ← get_uint32 (arg argv i) old; k argv n)).
Proof.
  intros Hi Hk. apply (refuses_unless cap i napi_number types any_type msg true); [done|].
  intros w argv args He Ha Ht Hfit. destruct (default JUndefined (args !! i)) eqn:Hv; try done.
  pose proof (Ha i Hi) as Hh. rewrite Hv in Hh. apply wp_bind, wp_bind. apply handed_on_read.
  eapply wp_op; [done|cbn; by rewrite Hh|]. intros x e [_ Hl]. split; [done|]. apply wp_ret.
  assert (Hw : handed_on w (set_engine e w)) by (exists e; by rewrite Hl).
  eapply wp_mono; [eapply (Hk x); [by eapply handed_on_quiet|by eapply holds_args_handed|done]|].
  intros r w'. by apply refused_handed.
Qed.

Lemma demands_named name (g : Z → Native) s :
  named name usb_functions = Some g → demands s g →
  ∀ f : Z → Native, named name usb_functions = Some f → demands s f.
Proof. intros Hg Hd f Hf. rewrite Hg in Hf. by injection Hf as <-. Qed.

(** The parameters of the control transfers, which the two functions read apart. *)
Definition refuses_params {X} (n : Z) (m : Z → ST world (option X)) : Prop :=
  ∀ w info args, thrown (look (engine w)) = None → frames (look (engine w)) !! info = Some args →
    (n <=? Z.of_nat (length args)) && types_fit [napi_object] args = false →
    wp (m info) (λ r w', r = None ∧ refused w OHEC_COMMON_PARAM_ERROR (Some nullptr) w') w.

Lemma demands_params {X} n (m : Z → ST world (option X)) (k : X → Native) :
  refuses_params n m →
  demands (takes FEATURE_HOST n [napi_object])
    (λ info, require_feature FEATURE_HOST
       (p ← m info; match p with None => give nullptr | Some x => k x end)).
Proof.
  intros Hm w info args He Hf Hfit. apply wp_require_feature; [done|]. intros HF.
  destruct Hfit as [Hfit|]; [|cbn in *; congruence].
  apply wp_bind. eapply wp_mono; [by eapply Hm|]. intros r w' [-> (_ & Hw & Ht)]. apply wp_ret. by split.
Qed.

Lemma refuses_params_read {X} (msg msg' : string) (k : Z → list Z → napi_valuetype → ST world (option X)) :
  refuses_params PARAM_COUNT_2 (λ info,
    '(status, argc, argv) ← cb_info info PARAM_COUNT_3;
     if negb (status =? napi_ok) then mret None
     else if argc <? PARAM_COUNT_2 then throw OHEC_COMMON_PARAM_ERROR msg ;; mret None
     else
       '(_, type) ← typeof (arg argv 0) any_type;
       if negb (is_type type napi_object) then throw OHEC_COMMON_PARAM_ERROR msg' ;; mret None
       else k argc argv type).
Proof.
  assert (Hthrow : ∀ w w1 (text : string), handed_on w w1 → thrown (look (engine w1)) = None →
    wp (throw OHEC_COMMON_PARAM_ERROR text ;; mret (@None X))
       (λ r w', r = None ∧ refused w OHEC_COMMON_PARAM_ERROR (Some nullptr) w') w1).
  { intros w w1 text Hw1 He1. apply wp_bind. eapply wp_mono; [apply wp_throw; [done|by eexists]|].
    intros u w' Hw'. apply wp_ret. split; [done|by apply (refused_handed w w1)]. }
  intros w info args He Hf Hfit. apply wp_bind. eapply wp_cb_info; [done..|]. intros argv w1 Hw1 Ha.
  assert (He1 : thrown (look (engine w1)) = None) by by eapply handed_on_quiet.
  cbn [Z.eqb napi_ok negb]. destruct (Z.ltb_spec (Z.of_nat (length args)) PARAM_COUNT_2) as [Hn|Hn].
  { by apply Hthrow. }
  rewrite (proj2 (Z.leb_le _ _) Hn) in Hfit. cbn [andb] in Hfit.
  apply wp_bind. eapply wp_typeof; [done|by apply Ha; apply Nat.ltb_lt|]. intros w2 Hw2.
  assert (He2 : thrown (look (engine w2)) = None) by by eapply handed_on_quiet.
  pose proof (types_fit_cons napi_object [] args 0) as Hcons. rewrite drop_0 in Hcons.
  rewrite Hcons in Hfit. cbn [types_fit] in Hfit. rewrite andb_true_r in Hfit. rewrite Hfit. cbn [negb].
  apply Hthrow; [by etrans|done].
Qed.
Lemma refuses_control : refuses_params PARAM_COUNT_2 GetControlTransferParam.
Proof. apply refuses_params_read. Qed.
Lemma refuses_usb_control : refuses_params PARAM_COUNT_2 GetUsbControlTransferParam.
Proof. apply refuses_params_read. Qed.

#[local] Hint Resolve refuses_nil : core.
Ltac demand :=
  cbn [snd]; match goal with |- demands _ ?f => let h := head_of f in unfold h end;
  first
    [ apply (demands_params PARAM_COUNT_2); first [exact refuses_control | exact refuses_usb_control]
    | apply (demands_none _ PARAM_COUNT_1 _ true); done | apply (demands_none _ PARAM_COUNT_1 _ false); done
    | apply demands_arguments; [done|intros argc];
      repeat first
        [ apply refuses_pipe; by apply Nat.ltb_lt
        | apply refuses_text; [by apply Nat.ltb_lt|intros]
        | apply refuses_uint32; [by apply Nat.ltb_lt|intros]
        | apply refuses_type; [by apply Nat.ltb_lt|]
        | apply refuses_nil ] ].

Lemma signatures_demanded :
  Forall (λ p, ∀ f : Z → Native, named p.1 usb_functions = Some f → demands p.2 f) signatures.
Proof.
  unfold signatures. repeat (apply Forall_cons_2; [cbn [fst snd]; eapply demands_named; [reflexivity|]; demand|]).
  apply Forall_nil_2.
Qed.

(** The signature of a function by its name for applications. *)
Definition signature (name : string) : option Signature :=
  function ← named name usb_exports; named function signatures.

(** C20: a call of a function of usbManager that has a signature - every one but bulkTransfer,
    usbSubmitTransfer, usbCancelTransfer and getVersion - throws an error with the code 401
    and returns nothing when it has too few arguments or when one of the types that the
    signature lists is not that of its argument, and one with the code 801 when the build
    lacks the part of the module that it belongs to; the client library, the queue of works,
    the system and the open accessory are as before.  The signature lists the types that
    are checked up to the first object, which is read before the next argument is looked
    at; bulkTransfer answers such a call with a promise that is settled, and the other two
    transfers throw a second time over the pending exception. *)
Theorem ill_typed_refused name (f : Z → Native) s (w : world) info args :
  native_function false name = Some f → signature name = Some s →
  thrown (look (engine w)) = None → frames (look (engine w)) !! info = Some args →
  fits s args = false ∨ HasFeature (s_feature s) = false →
  refused w (if HasFeature (s_feature s) then OHEC_COMMON_PARAM_ERROR else CAPABILITY_NOT_SUPPORT)
    (f info w).1 (f info w).2.
Proof.
  unfold native_function, signature. intros (function & Hname & Hf)%bind_Some Hs He Hframe Hfit.
  apply bind_Some in Hs as (function' & Hname' & Hs). rewrite Hname in Hname'. injection Hname' as <-.
  pose proof signatures_demanded as H. rewrite Forall_forall in H. apply named_row in Hs.
  exact (H _ Hs f Hf w info args He Hframe Hfit).
Qed.
End Arguments.
