(* ===== verification/JsSession.v ===== *)
(** * A session of an application

    What an application sees from [getDevices] on: the array of the attached devices
    ([devices_listed]), and that [connectDevice] with one of its elements opens that device
    and gives a pipe to it, an error, or [undefined] ([connect_opens]). *)

From S2P Require Import Prelude Text UsbErrors UsbTypes Marshalling Napi.
From S2P Require Import HostDriver HostEvents HostPolicy ServiceHost ServiceSerial ServiceGate ServicePorts Client.
From S2P Require Import JsValues JsLaws JsTrees JsRoundTrip Platform JsWorld JsCalls JsAsync JsSerial JsArguments.

#[local] Set Default Goal Selector "!".

Section Session.
Context {E A S O : Type} `{NA : Napi E} `{TC : TextCoding} `{NL : !NapiLaws E}.
Context `{UN : Uninitialised}.
Context `{EB : ErrBase} `{AC : AbilityAccess A} `{UA : UsbAbility} `{US : UsbServer S}.
Context `{FE : Features} `{SY : System O} `{JE : JsErrBase}.
#[local] Existing Instance usb_messages.
Abbreviation world := (JsWorld.world E A S O).
Abbreviation Native := (ST world (option Z)).
Implicit Types (w : world).

Lemma bind_bind {X Y Z'} (m : ST E X) (f : X → ST E Y) (g : Y → ST E Z') e :
  ((x ← m; f x ≫= g) e) = (((x ← m; f x) ≫= g) e).
Proof. by rewrite !bind_unfold. Qed.

(** The loop over a list, which also creates objects that it does not use. *)
Lemma wp_give_list {T} (make : T → ST E Z) (tree : T → jtree) g0 o arr (l : list T) :
  (∀ x, x ∈ l → builds (make x) (tree x)) → ∀ elements (Q : unit → E → Prop) e,
  thrown g0 = None → building g0 o arr (TArr elements) (look e) →
  (∀ e', building g0 o arr (TArr (elements ++ (tree <$> l))) (look e') → Q tt e') →
  wp (give_list make arr l (Z.of_nat (length elements))) Q e.
Proof.
  induction l as [|x l IH]; intros Hmake elements Q e H0 Hb HQ; cbn [give_list].
  { apply HQ. by rewrite app_nil_r. }
  apply wp_bind. eapply wp_create_object; [by eapply building_quiet|]. intros o' h e1 Hnew.
  assert (Hb1 : building g0 o arr (TArr elements) (look e1)).
  { destruct (building_done _ _ _ _ _ Hnew) as (Hg & _); [done|]. by eapply building_meanwhile. }
  eapply wp_eq; [exact (bind_bind _ _ _ _)|].
  apply wp_bind. eapply builds_element; [done|done|apply Hmake; by left|done|]. intros e2 H2.
  replace (Z.of_nat (length elements) + 1) with (Z.of_nat (length (elements ++ [tree x]))) by (rewrite length_app; cbn; lia).
  apply IH; [intros y Hy; apply Hmake; by right|done|done|]. intros e3 H3. apply HQ. by rewrite <- app_assoc in H3.
Qed.

(** [on_engine] of a program whose run is known by [wp]. *)
Lemma wp_on_engine {X} (m : ST E X) w (Q : X → world → Prop) :
  wp m (λ x e, Q x (set_engine e w)) (engine w) → wp (on_engine m) Q w.
Proof. unfold wp, on_engine. by destruct (m (engine w)). Qed.
Lemma wp_invoke {X R} (m : ST (Client.st (A := A) (S := S)) (option X)) (k : X → ST world (option R)) w x l Q :
  m (lib w) = (Some x, l) → wp (k x) Q (set_lib l w) → wp (invoke m k) Q w.
Proof. intros Hm Hk. apply wp_bind. unfold wp at 1, on_lib. rewrite Hm. exact Hk. Qed.

(** The array of the devices that the service lists. *)
Definition lists_devices (g : view) (h ret : Z) (ds : list UsbDevice.t) : Prop :=
  value_at g h (TArr (if failed ret then [] else device_tree <$> ds)).

(** C21: getDevices returns an array with one object for each device that the service lists, in
    its order, each with all members of the device; when the service fails the array is empty. *)
Theorem devices_listed w info ret ds l' :
  HasFeature FEATURE_HOST = true →
  thrown (look (engine w)) = None → frames (look (engine w)) !! info = Some [] →
  GetDevices [] (lib w) = (Some (ret, ds), l') → Forall countable_device ds →
  ∃ h e, CoreGetDevices info w = (Some h, set_engine e (set_lib l' w)) ∧
    grown (look (engine w)) (look e) ∧ lists_devices (look e) h ret ds.
Proof.
  intros HF He Hf Hget Hds.
  enough (H : wp (CoreGetDevices info) (λ r w', ∃ h e, r = Some h ∧ w' = set_engine e (set_lib l' w) ∧
    grown (look (engine w)) (look e) ∧
    lists_devices (look e) h ret ds) w).
  { unfold wp in H. destruct (CoreGetDevices info w) as [r w']. cbn in H. destruct H as (h & e & -> & -> & H). by exists h, e. }
  unfold CoreGetDevices, require_feature. rewrite HF. cbn [negb].
  apply wp_bind. eapply wp_cb_info; [done..|]. intros argv w1 Hw1 _. cbn [length].
  change (USB_ASSERT (Z.of_nat 0 =? PARAM_COUNT_0)) with (USB_ASSERT (E := E) (A := A) (S := S) (O := O) true).
  destruct Hw1 as (e1 & -> & Hg1). eapply wp_invoke; [exact Hget|].
  apply wp_bind, wp_on_engine. cbn.
  eapply wp_create_array; [by eapply handed_quiet|]. intros o arr e2 Hb.
  assert (Hq1 : thrown (look e1) = None) by by eapply handed_quiet.
  assert (Hend : ∀ e3 ts, building (look e1) o arr (TArr ts) (look e3) →
    grown (look (engine w)) (look e3) ∧ value_at (look e3) arr (TArr ts)).
  { intros e3 ts H3. destruct (building_done _ _ _ _ _ H3) as (Hg & _ & v & Hv & Ht); [done|]. split.
    - etrans; [by apply handed_grown|done].
    - exists v. split; [done|]. eapply denotes_mono; [|exact Ht]. by apply map_subseteq_difference_l. }
  unfold lists_devices. destruct (failed ret) eqn:Hfail.
  - apply wp_ret. exists arr, e2. split; [done|]. split; [done|]. by apply Hend.
  - apply wp_bind, wp_on_engine. cbn.
    eapply (wp_give_list _ device_tree (look e1) o arr ds) with (elements := []); [|done|done|].
    { intros d Hd. apply builds_device. rewrite Forall_forall in Hds. by apply Hds. }
    intros e3 H3. apply wp_ret. exists arr, e3. split; [done|]. split; [done|]. by apply Hend.
Qed.

(** The object of the first argument, whose tree is known: what the function does with it. *)
Lemma wp_object_argument {X} w info v t (parse : Z → ST E X) x msg msg' (k : X → Native) (Q : option Z → world → Prop) :
  thrown (look (engine w)) = None → frames (look (engine w)) !! info = Some [v] →
  denotes (heap (look (engine w))) (TObj t) v → reads parse (TObj t) x →
  (∀ w', handed_on w w' → wp (k x) Q w') →
  wp (require_arguments info PARAM_COUNT_1 PARAM_COUNT_1 msg (λ argc argv,
        require_type argv 0 napi_object msg' (a ← on_engine (parse (arg argv 0)); k a))) Q w.
Proof.
  intros He Hf Hden Hreads Hk.
  apply wp_bind. eapply wp_cb_info; [done..|]. intros argv w1 Hw1 Ha. cbn [length].
  specialize (Ha 0%nat ltac:(by apply Nat.ltb_lt)). cbn in Ha.
  assert (Hden1 : denotes (heap (look (engine w1))) (TObj t) v).
  { destruct Hw1 as (e & -> & Hg). cbn. by rewrite (handed_heap _ _ Hg). }
  pose proof Hden1 as Hobj. apply denotes_obj in Hobj as (o & props & Hv & _).
  apply wp_bind. eapply wp_typeof; [by eapply handed_on_quiet|exact Ha|]. intros w2 Hw2.
  assert (Hw : handed_on w w2) by (by etrans). eapply handed_on_handle in Ha; [|done].
  subst v. cbn. apply wp_bind, wp_on_engine. eapply wp_mono.
  { eapply Hreads; [by eapply handed_on_quiet|]. exists (JRef o). split; [exact Ha|].
    destruct Hw2 as (e & -> & Hg). cbn. by rewrite (handed_heap _ _ Hg). }
  intros x' e3 [-> Hg3]. apply Hk. etrans; [exact Hw|]. by exists e3.
Qed.

(** What [connectDevice] makes of the answer of the service: a pipe object, the exception of
    a missing right, or [undefined]. *)
Definition connected_with (g : view) (r ret : Z) (pipe : USBDevicePipe) : Prop :=
  if ret =? UEC_OK then thrown g = None ∧ value_at g r (pipe_tree pipe)
  else if (ret =? UEC_SERVICE_PERMISSION_DENIED) || (ret =? UEC_INTERFACE_PERMISSION_DENIED)
  then r = nullptr ∧ threw g UEC_COMMON_HAS_NO_RIGHT
  else thrown g = None ∧ handles g !! r = Some JUndefined.

Lemma connect_run w info v d ret pipe l' :
  HasFeature FEATURE_HOST = true →
  thrown (look (engine w)) = None → frames (look (engine w)) !! info = Some [v] →
  denotes (heap (look (engine w))) (device_tree d) v → sized_device d →
  OpenDevice d default_pipe (lib w) = (Some (ret, pipe), l') →
  ∃ r e, CoreConnectDevice info w = (Some r, set_engine e (set_lib l' w)) ∧ connected_with (look e) r ret pipe.
Proof.
  intros HF He Hf Hden Hd Hopen.
  enough (H : wp (CoreConnectDevice info) (λ x w', ∃ r e, x = Some r ∧ w' = set_engine e (set_lib l' w) ∧
    connected_with (look e) r ret pipe) w).
  { unfold wp in H. destruct (CoreConnectDevice info w) as [x w']. cbn in H. destruct H as (r & e & -> & -> & H). by exists r, e. }
  unfold CoreConnectDevice, require_feature. rewrite HF. cbn [negb].
  eapply (wp_object_argument _ _ _ _ (λ obj, ParseDeviceObj obj UsbDevice.default) (js_device d)); [done|done|exact Hden|by apply reads_device|].
  intros w2 (e3 & -> & Hg3). assert (Hq : thrown (look e3) = None) by by eapply handed_quiet.
  eapply wp_invoke; [exact Hopen|]. cbn. unfold connected_with.
  destruct (ret =? UEC_OK).
  { apply wp_bind, wp_on_engine. eapply wp_mono; [by apply builds_pipe|]. intros h e4 (Hg4 & _ & u & Hv & Ht).
    apply wp_ret. exists h, e4. split_and!; [done|done|by eapply grown_quiet|].
    exists u. split; [done|]. eapply denotes_mono; [|exact Ht]. by apply map_subseteq_difference_l. }
  destruct (_ || _).
  { apply wp_bind. eapply wp_mono; [apply wp_throw; [done|by eexists]|]. intros _ w' (_ & (e4 & ->) & Ht).
    apply wp_ret. by exists nullptr, e4. }
  apply wp_bind, wp_on_engine, wp_bind. eapply wp_op; [done|done|]. intros h e4 Hh. apply wp_ret, wp_ret.
  exists h, e4. split_and!; [done|done| |by eapply new_handle_lookup].
  eapply grown_quiet; [by eapply new_handle_grown|done].
Qed.

(** ConnectDevice with the object of a device opens that very device at the service, on
    every branch: success gives the object of its pipe, a missing right throws 14400001, and
    any other failure returns undefined. *)
Theorem connect_opens w info v d ret pipe l' :
  HasFeature FEATURE_HOST = true →
  thrown (look (engine w)) = None → frames (look (engine w)) !! info = Some [v] →
  denotes (heap (look (engine w))) (device_tree d) v → sized_device d →
  OpenDevice d default_pipe (lib w) = (Some (ret, pipe), l') →
  ∃ r e, CoreConnectDevice info w = (Some r, set_engine e (set_lib l' w)) ∧ connected_with (look e) r ret pipe.
Proof. apply connect_run. Qed.

(** [cancelAccessoryRight] with an open accessory: the descriptor is closed, and then the
    service is asked to close the accessory of the descriptor 0. *)
Lemma cancel_closes_descriptor_zero w info v a r0 l1 l2 :
  HasFeature FEATURE_DEVICE = true →
  thrown (look (engine w)) = None → frames (look (engine w)) !! info = Some [v] →
  denotes (heap (look (engine w))) (accessory_tree a) v →
  g_accFd w ≠ 0 →
  CloseAccessory 0 (lib w) = (Some r0, l1) →
  CancelAccessoryRight (js_accessory a) l1 = (Some UEC_OK, l2) →
  let '(r, w') := DeviceCancelAccessoryRight info w in
  r = Some nullptr ∧ lib w' = l2 ∧ g_accFd w' = 0 ∧ system w' = (close (g_accFd w) (system w)).2.
Proof.
  intros HF He Hf Hden Hfd Hclose Hcancel.
  enough (H : wp (DeviceCancelAccessoryRight info) (λ r w', r = Some nullptr ∧ lib w' = l2 ∧ g_accFd w' = 0 ∧
    system w' = (close (g_accFd w) (system w)).2) w).
  { unfold wp in H. by destruct (DeviceCancelAccessoryRight info w). }
  unfold DeviceCancelAccessoryRight, require_feature. rewrite HF. cbn [negb].
  eapply (wp_object_argument _ _ _ _ (λ obj, ParseAccessoryObj obj USBAccessory.default) (js_accessory a)); [done|done|exact Hden|apply reads_accessory|].
  intros w' (e & -> & _). cbv zeta. apply wp_bind. unfold wp at 1. cbn [gets fst snd g_accFd set_engine].
  rewrite (proj2 (Z.eqb_neq _ _) Hfd). cbn [negb].
  apply wp_bind. unfold wp at 1, on_system. cbn [system set_engine].
  destruct (close (g_accFd w) (system w)) as [[] o]. cbn [fst snd].
  apply wp_bind. unfold wp at 1. cbn [modify fst snd]. apply wp_bind. unfold wp at 1. cbn [gets fst snd].
  eapply wp_invoke; [exact Hclose|]. eapply wp_invoke; [exact Hcancel|]. by apply wp_ret.
Qed.
End Session.

(** ** The errors of the serial ports *)
Section SerialErrors.
Context {E : Type} `{NA : Napi E} `{TC : TextCoding} `{NL : !NapiLaws E} `{UN : Uninitialised} `{EB : ErrBase}.
#[local] Existing Instance serial_messages.

(** One of the codes that the serial functions throw has no message ... *)
Lemma serial_codes_with_message value :
  GetErrMsgByErrCode (ErrorCodeConversion value) = None ↔ ErrorCodeConversion value = SERIAL_RIGHT_DATABASE_ERROR.
Proof.
  unfold ErrorCodeConversion. destruct (filter _ errorMap) as [|[c code] l] eqn:Hf; [by vm_compute|].
  assert (Hin : (c, code) ∈ filter (λ p, p.1 = value) errorMap) by (rewrite Hf; left).
  apply list_elem_of_filter in Hin as [_ Hin]. cbn [head from_option snd]. clear Hf l value.
  assert (Hcode : code ∈ map snd errorMap).
  { apply list_elem_of_In, in_map_iff. exists (c, code). split; [done|]. by apply list_elem_of_In. }
  cbn [map snd errorMap] in Hcode. clear Hin c. rewrite !elem_of_cons, elem_of_nil in Hcode.
  destruct_or!; subst code; vm_compute; split; congruence.
Qed.

(** ... so that the application catches [undefined]. *)
Lemma database_error_undefined msg e :
  thrown (look e) = None → thrown (look (ThrowBusinessError SERIAL_RIGHT_DATABASE_ERROR msg e).2) = Some JUndefined.
Proof.
  intros He. change (wp (ThrowBusinessError SERIAL_RIGHT_DATABASE_ERROR msg) (λ _ e', thrown (look e') = Some JUndefined) e).
  apply wp_bind, wp_bind. eapply wp_op; [done|done|]. intros h e1 Hh. apply wp_ret. cbn.
  assert (Hq : thrown (look e1) = None) by (eapply grown_quiet; [by eapply new_handle_grown|done]).
  apply wp_bind. eapply wp_op; [done|cbn; by rewrite (new_handle_lookup _ _ _ _ Hh)|]. intros x e2 H2. apply wp_ret.
  cbn in H2. by rewrite H2.
Qed.
End SerialErrors.
