(* ===== verification/JsSim.v ===== *)
(** * An engine

    An engine that does what Node-API says: the state is the [view] itself with the bytes of
    memory.  An operation whose operands are not what it is for, or that finds an exception
    pending, fails and changes nothing.  With it, a small system and a service that has one
    device, the theorems about the bindings are applied to runs. *)

From S2P Require Import Prelude Text UsbErrors UsbTypes Marshalling Napi.
From S2P Require Import HostDriver HostEvents HostPolicy ServiceHost ServiceSerial ServiceGate ServicePorts Client.
From S2P Require Import JsValues JsLaws JsTrees JsRoundTrip Platform JsWorld JsCalls JsAsync JsTransfer JsSerial JsExports.
From S2P Require Import JsSteps JsPromises JsQueue JsSettle JsBytes JsArguments JsSession.
From S2P Require ClientLaws.

#[local] Set Default Goal Selector "!".

Lemma substring_all s n : (String.length s <= n)%nat → String.substring 0 n s = s.
Proof. revert n. induction s as [|c s IH]; intros [|n] H; [done|done|cbn in H; lia|]. cbn in *. by rewrite IH by lia. Qed.
Lemma substring_length s n : (String.length (String.substring 0 n s) <= n)%nat.
Proof. revert n. induction s as [|c s IH]; intros [|n]; cbn; [lia..|]. specialize (IH n). lia. Qed.

#[export] Instance utf8 : TextCoding := {
  encode s := s;
  cut n s := String.substring 0 (Z.to_nat n) s;
}.

Record sim := mk_sim { s_view : view; s_memory : gmap Z Z }.

(** A number that is not a key, nor zero. *)
Definition unused (keys : gset Z) : Z := fresh ({[0]} ∪ keys).
Lemma unused_nonzero keys : unused keys ≠ 0.
Proof. intros H. apply (is_fresh ({[0]} ∪ keys)). fold (unused keys). rewrite H. set_solver. Qed.
Lemma unused_absent keys : unused keys ∉ keys.
Proof. intros H. apply (is_fresh ({[0]} ∪ keys)). fold (unused keys). set_solver. Qed.
Lemma unused_lookup {V} (m : gmap Z V) : m !! unused (dom m) = None.
Proof. apply not_elem_of_dom, unused_absent. Qed.

Definition hand (v : jsval) (g : view) : Z * view :=
  let h := unused (dom (handles g)) in (h, set_handles (<[h:=v]> (handles g)) g).
Lemma hand_new v g : new_handle v g (hand v g).1 (hand v g).2.
Proof.
  unfold new_handle, hand. cbn. split; [apply unused_nonzero|]. split.
  - apply insert_subseteq, unused_lookup.
  - split; [by rewrite lookup_insert_eq|by destruct g].
Qed.
Fixpoint hand_all (l : list jsval) (g : view) : list Z * view :=
  match l with
  | [] => ([], g)
  | v :: l => let '(h, g) := hand v g in let '(hs, g) := hand_all l g in (h :: hs, g)
  end.
Definition new_object (ob : jsobj) (g : view) : Z * view :=
  let o := unused (dom (heap g)) in hand (JRef o) (set_heap (<[o:=ob]> (heap g)) g).

(** An operation on the view; the memory is not concerned but by its free addresses. *)
Definition perform {X : Set} (op : NapiOp X) (address : Z) (g : view) : option (X * view) :=
  match op in NapiOp X return option (X * view) with
  | napi_get_cb_info info argc =>
      args ← frames g !! info;
      let '(hs, g') := hand_all (take (Z.to_nat argc) (args ++ replicate (Z.to_nat argc) JUndefined)) g in
      Some ((Z.of_nat (length args), hs), g')
  | napi_typeof h => v ← handles g !! h; Some (type_of v, g)
  | napi_has_named_property h name => p ← plain_at g h; Some (bool_decide (is_Some (p.2 !! name)), g)
  | napi_get_named_property h name => p ← plain_at g h; Some (hand (default JUndefined (p.2 !! name)) g)
  | napi_is_array h => v ← handles g !! h; Some (opt_is_some (array_at g h), g)
  | napi_get_array_length h => p ← array_at g h; Some (Z.of_nat (length p.2), g)
  | napi_get_element h i => p ← array_at g h; Some (hand (default JUndefined (p.2 !! Z.to_nat i)) g)
  | napi_get_value_string_utf8 h size =>
      match handles g !! h with Some (JString s) => Some (cut (size - 1) s, g) | _ => None end
  | napi_get_value_bool h => match handles g !! h with Some (JBoolean b) => Some (b, g) | _ => None end
  | napi_get_value_int32 h => match handles g !! h with Some (JNumber n) => Some (i32 n, g) | _ => None end
  | napi_get_value_uint32 h => match handles g !! h with Some (JNumber n) => Some (u32 n, g) | _ => None end
  | napi_is_typedarray h =>
      v ← handles g !! h; Some (match v with JTypedArray _ _ _ _ => true | _ => false end, g)
  | napi_get_typedarray_info h =>
      match handles g !! h with
      | Some (JTypedArray t n d o) => Some (mk_TypedArrayInfo t n d nullptr o, g)
      | _ => None
      end
  | napi_create_object => Some (new_object (Plain ∅) g)
  | napi_create_array => Some (new_object (Array []) g)
  | napi_create_string_utf8 s => Some (hand (JString (encode s)) g)
  | napi_create_int32 n => Some (hand (JNumber n) g)
  | napi_create_uint32 n => Some (hand (JNumber n) g)
  | napi_get_boolean b => Some (hand (JBoolean b) g)
  | napi_get_undefined => Some (hand JUndefined g)
  | napi_create_error _ message => v ← handles g !! message; Some (new_object (Plain {["message" := v]}) g)
  | napi_create_arraybuffer n => let '(h, g') := hand (JArrayBuffer n address) g in Some ((address, h), g')
  | napi_create_typedarray t n h o =>
      match handles g !! h with
      | Some (JArrayBuffer m d) => if o + n <=? m then Some (hand (JTypedArray t n (d + o) o) g) else None
      | _ => None
      end
  | napi_set_named_property h name w =>
      p ← plain_at g h; v ← handles g !! w; Some (tt, set_heap (<[p.1:=Plain (<[name:=v]> p.2)]> (heap g)) g)
  | napi_set_element h i w =>
      p ← array_at g h; v ← handles g !! w;
      if Z.of_nat (length p.2) =? i then Some (tt, set_heap (<[p.1:=Array (p.2 ++ [v])]> (heap g)) g) else None
  | napi_throw h => v ← handles g !! h; Some (tt, set_thrown (Some v) g)
  | napi_create_promise =>
      let d := unused (dom (deferreds g)) in
      let '(h, g') := hand (JPromise d) (set_deferreds (<[d:=None]> (deferreds g)) g) in Some ((d, h), g')
  | napi_resolve_deferred d h =>
      v ← handles g !! h;
      if bool_decide (deferreds g !! d = Some None)
      then Some (tt, set_deferreds (<[d:=Some (true, v)]> (deferreds g)) g) else None
  | napi_reject_deferred d h =>
      v ← handles g !! h;
      if bool_decide (deferreds g !! d = Some None)
      then Some (tt, set_deferreds (<[d:=Some (false, v)]> (deferreds g)) g) else None
  | napi_create_async_work _ => let w := unused (works g) in Some (w, set_works ({[w]} ∪ works g) g)
  | napi_queue_async_work w => if bool_decide (w ∈ works g) then Some (tt, g) else None
  | napi_delete_async_work w => if bool_decide (w ∈ works g) then Some (tt, set_works (works g ∖ {[w]}) g) else None
  | _ => None
  end.

Fixpoint read_bytes (p : Z) (n : nat) (m : gmap Z Z) : list Z :=
  match n with O => [] | Datatypes.S n => default 0 (m !! p) :: read_bytes (p + 1) n m end.
Fixpoint write_bytes (p : Z) (l : list Z) (m : gmap Z Z) : gmap Z Z :=
  match l with [] => m | b :: l => write_bytes (p + 1) l (<[p:=b]> m) end.

#[export] Instance sim_napi : Napi sim := {
  napi X op := λ e,
    match thrown (s_view e), perform op (unused (dom (s_memory e))) (s_view e) with
    | None, Some (x, g) => ((napi_ok, Some x), mk_sim g (s_memory e))
    | _, _ => ((napi_generic_failure, None), e)
    end;
  peek p n e := read_bytes p (Z.to_nat n) (s_memory e);
  poke p l e := mk_sim (s_view e) (write_bytes p l (s_memory e));
}.

Lemma read_bytes_length p n m : length (read_bytes p n m) = n.
Proof. revert p. induction n as [|n IH]; intros p; [done|]. cbn. by rewrite IH. Qed.

Lemma hand_all_handed l g :
  handles g ⊆ handles (hand_all l g).2 ∧ (hand_all l g).2 = set_handles (handles (hand_all l g).2) g ∧
  Forall2 (λ h v, handles (hand_all l g).2 !! h = Some v) (hand_all l g).1 l.
Proof.
  revert g. induction l as [|v l IH]; intros g; [split_and!; [done|by destruct g|constructor]|].
  cbn [hand_all]. pose proof (hand_new v g) as (_ & Hs & Hl & Hg). destruct (hand v g) as [h g1]. cbn in *.
  destruct (IH g1) as (Hs1 & Hg1 & Hf). destruct (hand_all l g1) as [hs g2]. cbn in *.
  split_and!; [by etrans| |].
  - rewrite Hg1, Hg. done.
  - constructor; [|done]. by eapply lookup_weaken.
Qed.

Lemma new_object_new ob g :
  ∃ o, heap g !! o = None ∧
    new_handle (JRef o) (set_heap (<[o:=ob]> (heap g)) g) (new_object ob g).1 (new_object ob g).2.
Proof. exists (unused (dom (heap g))). split; [apply unused_lookup|apply hand_new]. Qed.

Lemma perform_effect {X : Set} (op : NapiOp X) a g P :
  a ≠ nullptr → effect op g = Some P → ∃ x g', perform op a g = Some (x, g') ∧ P x g'.
Proof.
  intros Ha. destruct op; cbn; intros Heff;
    repeat match goal with
    | H : _ ≫= _ = Some _ |- _ => apply bind_Some in H as (? & ? & ?)
    | H : match ?x with _ => _ end = Some _ |- _ => destruct x eqn:?; try discriminate
    | H : Some _ = Some _ |- _ => injection H as <-
    | H : ?x = Some _ |- context [?x] => rewrite H; cbn
    | H : ?x = true |- context [?x] => rewrite H; cbn
    end; try done.
  1: { destruct (hand_all _ g) as [hs g'] eqn:Hh. eexists _, _. split; [done|]. cbn.
       pose proof (hand_all_handed (take (Z.to_nat argc) (x ++ replicate (Z.to_nat argc) JUndefined)) g) as H1.
       rewrite Hh in H1. cbn in H1. naive_solver. }
  all: try (eexists _, _; split; [done|]; cbn; by auto using hand_new, new_object_new).
  - eexists _, _. split; [done|]. cbn. split_and!; try done. by destruct g.
  - eexists _, _. split; [done|]. cbn. split_and!; [apply unused_nonzero|apply unused_lookup|].
    apply (hand_new _ (set_deferreds _ g)).
  - eexists _, _. split; [done|]. split_and!; [apply unused_nonzero|apply unused_absent|done].
Qed.

#[export] Instance sim_laws : NapiLaws sim.
Proof.
  refine {| look := s_view |}.
  - intros X op e P He HP. unfold napi, sim_napi. rewrite He.
    destruct (perform_effect op (unused (dom (s_memory e))) (s_view e) P) as (x & g & Hrun & Hx);
      [apply unused_nonzero|done|]. rewrite Hrun. by exists x, (mk_sim g (s_memory e)).
  - done.
  - intros p n e Hn. cbn. rewrite read_bytes_length. lia.
  - done.
  - intros n s Hs. apply substring_all. lia.
  - intros n s Hn. cbn. pose proof (substring_length s (Z.to_nat n)). lia.
Defined.

(** Promises change by the operations on promises only. *)
#[export] Instance sim_frame : NapiFrame sim.
Proof.
  split.
  - intros X op e Hop. unfold napi, sim_napi, look, sim_laws. destruct (thrown (s_view e)); [done|].
    destruct (perform op (unused (dom (s_memory e))) (s_view e)) as [[x g]|] eqn:Hp; [|done]. cbn.
    destruct op; try discriminate Hop; cbn in Hp;
      repeat match goal with
      | H : _ ≫= _ = Some _ |- _ => apply bind_Some in H as (? & ? & ?)
      | H : match ?x with _ => _ end = Some _ |- _ => destruct x eqn:?; try discriminate
      | H : Some _ = Some _ |- _ => injection H as <- <-
      end; try done.
    match goal with H : hand_all ?l _ = _ |- _ =>
      pose proof (hand_all_handed l (s_view e)) as (_ & Hg & _); rewrite H in Hg end. cbn in Hg. by rewrite Hg.
  - intros e r e'. unfold napi, sim_napi, look, sim_laws. destruct (thrown (s_view e)).
    { by intros [= <- <-]. }
    cbn. intros [= <- <-]. cbn. split_and!; [apply unused_nonzero|apply unused_lookup|done].
  - intros X op d e Hop. unfold napi, sim_napi, look, sim_laws. destruct (thrown (s_view e)); [done|].
    destruct (perform op (unused (dom (s_memory e))) (s_view e)) as [[x g]|] eqn:Hp; [|done]. cbn.
    destruct op; try discriminate Hop; injection Hop as <-; cbn in Hp; apply bind_Some in Hp as (v & Hv & Hp);
      case_bool_decide; try discriminate; injection Hp as <- <-; cbn;
      (split; [intros d' Hd; by rewrite lookup_insert_ne|intros _; by rewrite lookup_insert_eq]).
Qed.

(** ** A build, a system and a service *)

#[export] Instance sim_stack : Uninitialised := {
  any_value := 0; any_type := napi_undefined; any_array_type := napi_int8_array; any_int := 0 }.
#[export] Instance sim_features : Features := {
  USB_MANAGER_FEATURE_HOST := true; USB_MANAGER_FEATURE_DEVICE := true; USB_MANAGER_FEATURE_PORT := true }.
#[export] Instance sim_driver : JsErrBase := { HDF_DEV_ERR_NO_DEVICE := -202; ERR_INVALID_VALUE := 22 }.
#[export] Instance sim_securec : Securec := λ dest destMax src,
  if (dest =? nullptr) || (destMax <? Z.of_nat (length src)) then (22, None) else (EOK, Some src).
#[export] Instance sim_securec_laws : SecurecLaws.
Proof.
  split; unfold memcpy_s, sim_securec.
  - intros dest destMax src Hd Hl Hm. destruct (Z.eqb_spec dest nullptr); [done|].
    destruct (Z.ltb_spec destMax (Z.of_nat (length src))); [lia|done].
  - intros dest destMax src ret l. destruct (_ =? _); [done|].
    destruct (Z.ltb_spec destMax (Z.of_nat (length src))); [done|]. intros [= <- <-]. lia.
Qed.

(** The descriptors that are closed; memory there always is. *)
#[export] Instance sim_system : System (list Z) := {|
  close fd := λ o, (tt, fd :: o);
  allocate := λ o, (Some 4096, o);
  CreateAshmem _ n := λ o, (Some (3, n), o);
  MapReadAndWriteAshmem _ := λ o, (tt, o);
  WriteToAshmem _ _ := λ o, (true, o);
  ReadFromAshmem _ n := λ o, (Some (replicate (Z.to_nat n) 0), o);
  UnmapAshmem _ := λ o, (tt, o);
  CloseAshmem fd := λ o, (tt, fd :: o);
|}.

(** A service with its devices, which answers a transfer from a device with three bytes. *)
#[local] Instance shelf : UsbServer (list UsbDevice.t) := λ _ r ds,
  (match r with
   | ToHost RGetDevices => (UEC_OK, CHost (Devices ds))
   | ToHost (ToDevice _ _ (RBulkTransferReadwithLength _ _ _)) => (UEC_OK, CHost (Bytes [1; 2; 3]))
   | _ => (UEC_OK, CNothing)
   end, ds).

Module Session.
#[local] Existing Instance ClientLaws.Sample.platform_access.
#[local] Existing Instance ClientLaws.Sample.ability.
#[local] Existing Instance sample_codes.
Abbreviation sim_world := (JsWorld.world sim ClientLaws.Sample.platform (list UsbDevice.t) (list Z)).

Definition disk : UsbDevice.t :=
  UsbDevice.make "1-2" "maker" "disk" "1.0" 2 1 16 32 0 0 0 [].
Definition library (ds : list UsbDevice.t) : Client.st (A := ClientLaws.Sample.platform) (S := list UsbDevice.t) :=
  Client.mk_st (Some 12) (Some 0) 0 (true, []) ds.
Definition fresh_view : view := mk_view ∅ ∅ None ∅ ∅ ∅.
(** A world in which the function that runs has the arguments [args], in the frame 7. *)
Definition called_with (args : list jsval) (g : view) : view :=
  mk_view (handles g) (heap g) (thrown g) (deferreds g) (works g) {[7 := args]}.
Definition world_with (args : list jsval) (g : view) (ds : list UsbDevice.t) : sim_world :=
  mk_world (mk_sim (called_with args g) ∅) (library ds) [] 0 [] ∅ [].

(** [requestRight("1-2")] *)
Definition asking : sim_world := world_with [JString "1-2"] fresh_view [disk].
Definition asked : sim_world := (CoreRequestRight (EM := usb_messages) 7 asking).2.
Definition asked_task : Task := default (mk_Task (mk_USBAsyncContext 0 0 0) (RequestRightWork (mk_USBRightAsyncContext "")) false) (head (tasks asked)).

Lemma works_own_their_promises_witness :
  ∃ w : sim_world, length (tasks w) = 1%nat ∧ reachable asking w ∧
    ∀ t, t ∈ tasks w →
      pending w (deferred (base t)) ∨ deferred (base t) = nullptr ∧ refuses_promise (E := sim).
Proof.
  exists asked. split; [by vm_compute|].
  assert (H : reachable asking asked).
  { eapply reachable_step; [apply reachable_start|].
    apply (step_call false "requestRight" (CoreRequestRight (EM := usb_messages)) 7
             (default 0 (CoreRequestRight (EM := usb_messages) 7 asking).1)); [reflexivity|].
    vm_compute. reflexivity. }
  split; [exact H|]. exact (proj1 (works_own_their_promises asking asked eq_refl H)).
Defined.

Lemma complete_settles_witness :
  completable asked (base asked_task) ∧
  settled (EM := usb_messages) asked (base asked_task) (true, OBoolean true) (run_complete asked_task asked).2.
Proof.
  assert (H : completable asked (base asked_task)).
  { split_and!; [by vm_compute|by vm_compute|by vm_compute|]. apply (bool_decide_unpack _). by vm_compute. }
  split; [exact H|]. exact (complete_settles asked asked_task H).
Defined.

(** A read of two bytes into the array at 4096: the third byte of the answer has no room. *)
Definition reading_two : USBBulkTransferAsyncContext :=
  mk_USBBulkTransferAsyncContext (ArrayBytes 4096) 2 0 0 (mk_USBDevicePipe 1 2)
    (USBEndpoint.mk 129 2 0 512 0).
Definition quiet_base : USBAsyncContext := mk_USBAsyncContext 1 1 napi_ok.

Lemma execute_writes_within_witness :
  written 4096 2 (engine asking) (engine (run_execute (mk_UsbCtlSetUp 0 0 0 0 0 0)
    (mk_Task quiet_base (BulkTransferWork reading_two) false) asking).2).
Proof.
  apply (execute_writes_within (mk_UsbCtlSetUp 0 0 0 0 0 0) (mk_Task quiet_base (BulkTransferWork reading_two) false) asking).
Defined.

Lemma bulk_read_delivers_witness :
  ∃ b' c' w', g_bulkTransferExecute quiet_base reading_two asking = (Some (b', c'), w') ∧
    outcome (mk_Task b' c' true) = (true, ONumber 2).
Proof.
  destruct (bulk_read_delivers quiet_base reading_two 4096 UEC_OK [1; 2; 3] asking (lib asking))
    as (b' & c' & w' & Hrun & _ & Ho & _); [done|done|split; [done|by vm_compute]|done|by vm_compute|].
  exists b', c', w'. split; [exact Hrun|exact Ho].
Defined.

(** [connectDevice] without an argument, and with a number. *)
Lemma ill_typed_refused_witness :
  refused (world_with [] fresh_view [disk]) OHEC_COMMON_PARAM_ERROR
    (CoreConnectDevice (EM := usb_messages) 7 (world_with [] fresh_view [disk])).1
    (CoreConnectDevice (EM := usb_messages) 7 (world_with [] fresh_view [disk])).2 ∧
  refused (world_with [JNumber 5] fresh_view [disk]) OHEC_COMMON_PARAM_ERROR
    (CoreConnectDevice (EM := usb_messages) 7 (world_with [JNumber 5] fresh_view [disk])).1
    (CoreConnectDevice (EM := usb_messages) 7 (world_with [JNumber 5] fresh_view [disk])).2.
Proof.
  split.
  - exact (ill_typed_refused "connectDevice" (CoreConnectDevice (EM := usb_messages)) (takes FEATURE_HOST 1 [napi_object])
             (world_with [] fresh_view [disk]) 7 [] eq_refl eq_refl eq_refl eq_refl (or_introl eq_refl)).
  - exact (ill_typed_refused "connectDevice" (CoreConnectDevice (EM := usb_messages)) (takes FEATURE_HOST 1 [napi_object])
             (world_with [JNumber 5] fresh_view [disk]) 7 [JNumber 5] eq_refl eq_refl eq_refl eq_refl (or_introl eq_refl)).
Defined.

Lemma disk_countable : countable_device disk.
Proof. by split; [|constructor]. Qed.
Lemma disk_sized : sized_device disk.
Proof.
  unfold sized_device, typed_device, countable_device, is_i32, is_u32, is_u8. cbn.
  split_and!; try lia; constructor.
Qed.

(** A disk with configurations, interfaces and endpoints. *)
Definition full_disk : UsbDevice.t := UsbDevice.SetConfigs DescriptorParser.sample_configs disk.
Lemma full_disk_sized : sized_device full_disk.
Proof.
  unfold sized_device, full_disk, typed_device, countable_device, DescriptorParser.sample_configs. cbn.
  repeat first [split | constructor]; unfold is_i32, is_u32, is_u8; cbn; try lia; try done.
Qed.

Lemma device_js_roundtrip_witness :
  wp (obj ← CtoJSUsbDevice 0 full_disk; ParseDeviceObj (EM := usb_messages) obj UsbDevice.default)
     (λ d' e', d' = js_device full_disk ∧ grown fresh_view (look e')) (mk_sim fresh_view ∅).
Proof.
  apply (device_js_roundtrip (EM := usb_messages) (NL := sim_laws) full_disk 0 (mk_sim fresh_view ∅));
    [reflexivity|exact full_disk_sized].
Defined.

(** [getDevices()] *)
Lemma devices_listed_witness :
  ∃ h e, CoreGetDevices (EM := usb_messages) 7 (world_with [] fresh_view [disk]) =
      (Some h, set_engine e (set_lib (library [disk]) (world_with [] fresh_view [disk]))) ∧
    value_at (look e) h (TArr [device_tree disk]).
Proof.
  destruct (devices_listed (world_with [] fresh_view [disk]) 7 UEC_OK [disk] (library [disk]))
    as (h & e & Hrun & _ & Hv); [reflexivity..|by vm_compute|by repeat constructor|].
  exists h, e. split; [exact Hrun|exact Hv].
Defined.

(** [connectDevice(getDevices()[0])] *)
Lemma connect_opens_witness :
  ∃ (w : sim_world) r e, CoreConnectDevice (EM := usb_messages) 7 w = (Some r, set_engine e (set_lib (library [disk]) w)) ∧
    value_at (look e) r (pipe_tree (mk_USBDevicePipe 1 2)).
Proof.
  pose proof (builds_device 0 disk disk_countable (mk_sim fresh_view ∅) eq_refl) as Hb.
  unfold wp in Hb. destruct (CtoJSUsbDevice 0 disk (mk_sim fresh_view ∅)) as [h0 e0]. cbn in Hb.
  destruct Hb as (Hg & _ & v & _ & Hden).
  assert (Hq : thrown (s_view e0) = None) by by eapply grown_quiet.
  destruct (connect_opens (world_with [v] (s_view e0) [disk]) 7 v disk UEC_OK (mk_USBDevicePipe 1 2) (library [disk]))
    as (r & e & Hrun & Hc).
  - reflexivity.
  - exact Hq.
  - reflexivity.
  - eapply denotes_mono; [|exact Hden]. by apply map_subseteq_difference_l.
  - exact disk_sized.
  - by vm_compute.
  - exists (world_with [v] (s_view e0) [disk]), r, e. split; [exact Hrun|]. by destruct Hc.
Defined.
End Session.
