(* ===== verification/TaiheTypes.v ===== *)
(** * The values that ArkTS applications see

    [frameworks/ets/taihe/usb_manager]: the structures and enumerations of the two IDL
    files, and the conversions of [ohos.usbManager.impl.cpp] between them and the data model
    of the service.  A conversion to a narrower type is written out where C++ converts
    implicitly.

    The classes for the enumerations and for the runtime that fills the structures are
    generated by Taihe.  [EnumRuntime] is what the code uses of them. *)

From S2P Require Import Prelude Text UsbTypes Client.
From S2P Require PortManager.

#[local] Set Default Goal Selector "!".

(** ** Enumerations

    A generated class holds a key, which the code makes of the name of an item or of an
    integer; the keys of the items and the values that the IDL gives them ([table]) are
    related by the class. *)
Class EnumRuntime := {
  key : nat → Z;
  get_value : list Z → Z → Z;
  from_value : list Z → Z → Z;
}.
Class EnumLaws `{EnumRuntime} := {
  get_value_key table i v : table !! i = Some v → get_value table (key i) = v;
  from_value_key table i v : NoDup table → table !! i = Some v → from_value table v = key i;
}.

(** ** Structures *)
Module usbManager.
(** [ohos.usbManager.taihe:92-108] [USBEndpoint] *)
Record USBEndpoint := mk_USBEndpoint {
  ep_address : Z; ep_attributes : Z; ep_interval : Z; ep_maxPacketSize : Z; ep_direction : Z;
  ep_endpointAddr : Z; ep_type : Z; ep_interfaceId : Z }.
(** [ohos.usbManager.taihe:110-124] [USBInterface] *)
Record USBInterface := mk_USBInterface {
  if_id : Z; if_protocol : Z; if_clazz : Z; if_subClass : Z; if_alternateSetting : Z;
  if_name : string; if_endpoints : list USBEndpoint }.
(** [ohos.usbManager.taihe:126-140] [USBConfiguration] *)
Record USBConfiguration := mk_USBConfiguration {
  cf_id : Z; cf_attributes : Z; cf_maxPower : Z; cf_name : string; cf_isRemoteWakeup : bool;
  cf_isSelfPowered : bool; cf_interfaces : list USBInterface }.
(** [ohos.usbManager.taihe:142-168] [USBDevice] *)
Record USBDevice := mk_USBDevice {
  dv_busNum : Z; dv_devAddress : Z; dv_serial : string; dv_name : string;
  dv_manufacturerName : string; dv_productName : string; dv_version : string; dv_vendorId : Z;
  dv_productId : Z; dv_clazz : Z; dv_subClass : Z; dv_protocol : Z;
  dv_configs : list USBConfiguration }.
(** [ohos.usbManager.taihe:170-174] [USBDevicePipe] *)
Record USBDevicePipe := mk_USBDevicePipe { pp_busNum : Z; pp_devAddress : Z }.
(** [ohos.usbManager.taihe:204-210] [USBPortStatus] *)
Record USBPortStatus := mk_USBPortStatus {
  ps_currentMode : Z; ps_currentPowerRole : Z; ps_currentDataRole : Z }.
(** [ohos.usbManager.taihe:212-218] [USBPort] *)
Record USBPort := mk_USBPort { po_id : Z; po_supportedModes : Z; po_status : USBPortStatus }.
(** [ohos.usbManager.taihe:234-246] [USBDeviceRequestParams] [data] is a [Uint8Array] of the application *)
Record USBDeviceRequestParams := mk_USBDeviceRequestParams {
  rq_bmRequestType : Z; rq_bRequest : Z; rq_wValue : Z; rq_wIndex : Z; rq_wLength : Z; rq_data : Z }.
(** [ohos.usbManager.taihe:294-304] [USBAccessory] *)
Record USBAccessory := mk_USBAccessory {
  ac_manufacturer : string; ac_product : string; ac_description : string; ac_version : string;
  ac_serialNumber : string }.
(** [ohos.usbManager.taihe:344-350] [UsbIsoPacketDescriptor] *)
Record UsbIsoPacketDescriptor := mk_UsbIsoPacketDescriptor {
  ip_length : Z; ip_actualLength : Z; ip_status : Z }.
(** [ohos.usbManager.taihe:352-358] [SubmitTransferCallback] *)
Record SubmitTransferCallback := mk_SubmitTransferCallback {
  sc_actualLength : Z; sc_status : Z; sc_isoPacketDescs : list UsbIsoPacketDescriptor }.
(** [ohos.usbManager.taihe:360-380] [UsbDataTransferParams] *)
Record UsbDataTransferParams := mk_UsbDataTransferParams {
  tr_devPipe : USBDevicePipe; tr_flags : Z; tr_endpoint : Z; tr_type : Z; tr_timeout : Z;
  tr_length : Z; tr_callback : Z; tr_userData : list Z; tr_buffer : Z; tr_isoPacketCount : Z }.
End usbManager.
Import usbManager.

(** [ohos.usbManager.taihe:176-182] [PowerRoleType] *)
Definition PowerRoleType_table : list Z := [0; 1; 2].
(** [ohos.usbManager.taihe:184-190] [DataRoleType] *)
Definition DataRoleType_table : list Z := [0; 1; 2].
(** [ohos.usbManager.taihe:192-202] [PortModeType] *)
Definition PortModeType_table : list Z := [0; 1; 2; 3; 4].
(** [ohos.usbManager.taihe:266-270] [USBRequestDirection] *)
Definition USBRequestDirection_table : list Z := [0; 128].
(** [ohos.usbManager.taihe:310-318] [UsbTransferFlags] *)
Definition UsbTransferFlags_table : list Z := [0; 1; 2; 3].
(** [ohos.usbManager.taihe:320-334] [UsbTransferStatus] *)
Definition UsbTransferStatus_table : list Z := [0; 1; 2; 3; 4; 5; 6].
(** [ohos.usbManager.taihe:336-342] [UsbEndpointTransferType] *)
Definition UsbEndpointTransferType_table : list Z := [1; 2; 3].

Section TaiheTypes.
Context `{ER : EnumRuntime}.

(** [key_t::USB_REQUEST_DIR_TO_DEVICE] and its neighbours *)
Definition USB_REQUEST_DIR_TO_DEVICE : Z := key 0.
Definition USB_REQUEST_DIR_FROM_DEVICE : Z := key 1.
Definition PortMode_NONE : Z := key 0.
Definition PortMode_NUM_MODES : Z := key 4.

(** ** From the service to the application *)

(** [ohos.usbManager.impl.cpp:152-167] [ParseToUSBEndpoint] *)
Definition ParseToUSBEndpoint (usbEndpoint : USBEndpoint.t) : usbManager.USBEndpoint :=
  let directionKey :=
    if USBEndpoint.GetDirection usbEndpoint =? USB_ENDPOINT_DIR_OUT then USB_REQUEST_DIR_TO_DEVICE
    else USB_REQUEST_DIR_FROM_DEVICE in
  mk_USBEndpoint (i32 (USBEndpoint.GetAddress usbEndpoint)) (i32 (USBEndpoint.GetAttributes usbEndpoint))
    (USBEndpoint.GetInterval usbEndpoint) (USBEndpoint.GetMaxPacketSize usbEndpoint) directionKey
    (i32 (USBEndpoint.GetEndpointNumber usbEndpoint)) (i32 (USBEndpoint.GetType usbEndpoint))
    (USBEndpoint.GetInterfaceId usbEndpoint).
(** [ohos.usbManager.impl.cpp:169-184] [ParseToUSBInterface] *)
Definition ParseToUSBInterface (usbInterface : UsbInterface.t) : USBInterface :=
  mk_USBInterface (UsbInterface.GetId usbInterface) (UsbInterface.GetProtocol usbInterface)
    (UsbInterface.GetClass usbInterface) (UsbInterface.GetSubClass usbInterface)
    (UsbInterface.GetAlternateSetting usbInterface) (UsbInterface.GetName usbInterface)
    (ParseToUSBEndpoint <$> UsbInterface.GetEndpoints usbInterface).
(** [ohos.usbManager.impl.cpp:186-201] [ParseToUSBConfiguration] *)
Definition ParseToUSBConfiguration (usbConfig : USBConfig.t) : USBConfiguration :=
  mk_USBConfiguration (USBConfig.GetId usbConfig) (i32 (USBConfig.GetAttributes usbConfig))
    (USBConfig.GetMaxPower usbConfig) (USBConfig.GetName usbConfig) (USBConfig.IsRemoteWakeup usbConfig)
    (USBConfig.IsSelfPowered usbConfig) (ParseToUSBInterface <$> USBConfig.GetInterfaces usbConfig).
(** [ohos.usbManager.impl.cpp:203-224] [ParseToUSBDevice] *)
Definition ParseToUSBDevice (usbDevice : UsbDevice.t) : USBDevice :=
  mk_USBDevice (UsbDevice.GetBusNum usbDevice) (UsbDevice.GetDevAddr usbDevice)
    (UsbDevice.GetmSerial usbDevice) (UsbDevice.GetName usbDevice) (UsbDevice.GetManufacturerName usbDevice)
    (UsbDevice.GetProductName usbDevice) (UsbDevice.GetVersion usbDevice) (UsbDevice.GetVendorId usbDevice)
    (UsbDevice.GetProductId usbDevice) (UsbDevice.GetClass usbDevice) (UsbDevice.GetSubclass usbDevice)
    (UsbDevice.GetProtocol usbDevice) (ParseToUSBConfiguration <$> UsbDevice.GetConfigs usbDevice).

(** ** From the application to the service *)

(** [ohos.usbManager.impl.cpp:233-242] [ConvertToUSBEndpoint] *)
Definition ConvertToUSBEndpoint (usbEndpoint : usbManager.USBEndpoint) : USBEndpoint.t :=
  let point := USBEndpoint.default in
  let point := USBEndpoint.SetAddr (u32 (ep_address usbEndpoint)) point in
  let point := USBEndpoint.SetAttr (u32 (ep_attributes usbEndpoint)) point in
  let point := USBEndpoint.SetInterval (ep_interval usbEndpoint) point in
  let point := USBEndpoint.SetMaxPacketSize (ep_maxPacketSize usbEndpoint) point in
  USBEndpoint.SetInterfaceId (u8 (ep_interfaceId usbEndpoint)) point.
(** [ohos.usbManager.impl.cpp:244-259] [ConvertToUsbInterface] *)
Definition ConvertToUsbInterface (usbInterface : USBInterface) : UsbInterface.t :=
  let endpts := ConvertToUSBEndpoint <$> if_endpoints usbInterface in
  let interface := UsbInterface.default in
  let interface := UsbInterface.SetId (if_id usbInterface) interface in
  let interface := UsbInterface.SetProtocol (if_protocol usbInterface) interface in
  let interface := UsbInterface.SetClass (if_clazz usbInterface) interface in
  let interface := UsbInterface.SetSubClass (if_subClass usbInterface) interface in
  let interface := UsbInterface.SetAlternateSetting (if_alternateSetting usbInterface) interface in
  let interface := UsbInterface.SetName (c_str (if_name usbInterface)) interface in
  UsbInterface.SetEndpoints endpts interface.
(** [ohos.usbManager.impl.cpp:261-267] [ConvertUSBDevicePipe] *)
Definition ConvertUSBDevicePipe (usbDevice : usbManager.USBDevicePipe) : Client.USBDevicePipe :=
  SetDevAddr (u8 (pp_devAddress usbDevice)) (SetBusNum (u8 (pp_busNum usbDevice)) default_pipe).
(** [ohos.usbManager.impl.cpp:269-282] [ConvertToUSBConfig] *)
Definition ConvertToUSBConfig (usbConfiguration : USBConfiguration) : USBConfig.t :=
  let interfaces := ConvertToUsbInterface <$> cf_interfaces usbConfiguration in
  let usbConfig := USBConfig.default in
  let usbConfig := USBConfig.SetId (cf_id usbConfiguration) usbConfig in
  let usbConfig := USBConfig.SetAttribute (u32 (cf_attributes usbConfiguration)) usbConfig in
  let usbConfig := USBConfig.SetMaxPower (cf_maxPower usbConfiguration) usbConfig in
  let usbConfig := USBConfig.SetName (c_str (cf_name usbConfiguration)) usbConfig in
  USBConfig.SetInterfaces interfaces usbConfig.
(** [ohos.usbManager.impl.cpp:284-293] [ConvertUsbDevice] *)
Definition ConvertUsbDevice (usbDevice : usbManager.USBAccessory) : USBAccessory.t :=
  let device := USBAccessory.default in
  let device := USBAccessory.set_manufacturer_ (c_str (ac_manufacturer usbDevice)) device in
  let device := USBAccessory.set_product_ (c_str (ac_product usbDevice)) device in
  let device := USBAccessory.set_description_ (c_str (ac_description usbDevice)) device in
  let device := USBAccessory.set_version_ (c_str (ac_version usbDevice)) device in
  USBAccessory.set_serialNumber_ (c_str (ac_serialNumber usbDevice)) device.
(** [ohos.usbManager.impl.cpp:295-315] [ConvertToUsbDevice] *)
Definition ConvertToUsbDevice (usbDevice : USBDevice) : UsbDevice.t :=
  let configs := ConvertToUSBConfig <$> dv_configs usbDevice in
  let device := UsbDevice.default in
  let device := UsbDevice.SetConfigs configs device in
  let device := UsbDevice.SetDevAddr (u8 (dv_devAddress usbDevice)) device in
  let device := UsbDevice.SetBusNum (u8 (dv_busNum usbDevice)) device in
  let device := UsbDevice.SetName (c_str (dv_name usbDevice)) device in
  let device := UsbDevice.SetManufacturerName (c_str (dv_manufacturerName usbDevice)) device in
  let device := UsbDevice.SetProductName (c_str (dv_productName usbDevice)) device in
  let device := UsbDevice.SetVersion (c_str (dv_version usbDevice)) device in
  let device := UsbDevice.SetVendorId (dv_vendorId usbDevice) device in
  let device := UsbDevice.SetProductId (dv_productId usbDevice) device in
  let device := UsbDevice.SetClass (dv_clazz usbDevice) device in
  let device := UsbDevice.SetSubclass (dv_subClass usbDevice) device in
  UsbDevice.SetProtocol (dv_protocol usbDevice) device.

(** ** Ports, accessories and endpoints *)

(** [ohos.usbManager.impl.cpp:317-324] [ConvertUSBPortStatus] *)
Definition ConvertUSBPortStatus (usbDevice : PortManager.UsbPortStatus) : USBPortStatus :=
  mk_USBPortStatus (PortManager.currentMode usbDevice) (PortManager.currentPowerRole usbDevice)
    (PortManager.currentDataRole usbDevice).
(** [ohos.usbManager.impl.cpp:326-339] [ConvertUSBPort] *)
Definition ConvertUSBPort (usbDevice : PortManager.UsbPort) : USBPort :=
  let modes := PortManager.supportedModes usbDevice in
  let modeKey := if (0 <=? modes) && (modes <? PortMode_NUM_MODES) then modes else PortMode_NONE in
  mk_USBPort (PortManager.id usbDevice) modeKey (ConvertUSBPortStatus (PortManager.usbPortStatus usbDevice)).
(** [ohos.usbManager.impl.cpp:370-374] [ParseEndpointObj] *)
Definition ParseEndpointObj (endpoint : usbManager.USBEndpoint) : USBEndpoint.t :=
  USBEndpoint.SetInterfaceId (u8 (ep_interfaceId endpoint))
    (USBEndpoint.make (u32 (ep_address endpoint)) (u32 (ep_attributes endpoint)) (u32 (ep_interval endpoint))
       (u32 (ep_maxPacketSize endpoint))).
(** [ohos.usbManager.impl.cpp:839-844] [taihe2Native] *)
Definition taihe2Native (accessory : usbManager.USBAccessory) : USBAccessory.t :=
  USBAccessory.make (c_str (ac_manufacturer accessory)) (c_str (ac_product accessory))
    (c_str (ac_description accessory)) (c_str (ac_version accessory)) (c_str (ac_serialNumber accessory)).
(** [ohos.usbManager.impl.cpp:846-851] [native2Taihe] *)
Definition native2Taihe (accessory : USBAccessory.t) : usbManager.USBAccessory :=
  mk_USBAccessory (USBAccessory.GetManufacturer accessory) (USBAccessory.GetProduct accessory)
    (USBAccessory.GetDescription accessory) (USBAccessory.GetVersion accessory)
    (USBAccessory.GetSerialNumber accessory).
End TaiheTypes.
