(* ===== verification/TaiheWorld.v ===== *)
(** * The world of the ArkTS bindings

    What the functions of [frameworks/ets/taihe/usb_manager/src] work on: the runtime of
    ArkTS (ANI), the client library and what lies behind it, the descriptor of the open
    accessory, the contexts of the submitted transfers and the tasks that their callbacks
    post to the main thread.  [reports] lists the errors that were handed to the runtime
    ([taihe::set_business_error]), in order.

    A function gives its result, or [None] when it goes through a null or a dangling
    pointer. *)

From S2P Require Import Prelude Text UsbErrors UsbTypes Napi Platform.
From S2P Require Import HostDriver HostEvents HostPolicy ServiceHost ServiceSerial ServiceGate ServicePorts Client.
From S2P Require Import TaiheTypes.
Import usbManager.

#[local] Set Default Goal Selector "!".

(** ** The runtime of ArkTS

    A call of ANI has a status and, when the runtime has written it, an out-parameter.
    References, objects and pointers are [Z]. *)
Inductive AniOp : Set → Type :=
  | Object_GetFieldByName_Ref (object : Z) (name : string) : AniOp Z
  | ArrayBuffer_GetInfo (arraybuffer : Z) : AniOp (Z * Z)
  | GetVM : AniOp Z
  | GlobalReference_Create (ref : Z) : AniOp Z
  | GlobalReference_Delete (ref : Z) : AniOp unit
  | AttachCurrentThread (vm : Z) : AniOp Z
  | GetEnv (vm : Z) : AniOp Z
  | CreateLocalScope (nr_refs : Z) : AniOp unit
  | DestroyLocalScope : AniOp unit
  | FindClass (descriptor : string) : AniOp Z
  | Class_FindMethod (cls : Z) (name signature : string) : AniOp Z
  | Object_New (cls ctor : Z) : AniOp Z
  | Object_InstanceOf (object cls : Z) : AniOp bool
  | FunctionalObject_Call (fn : Z) (argv : list Z) : AniOp Z.

(** [get_env] is [taihe::get_env] on the thread that calls it, [into_ani] makes the object of
    an answer, [GetMainEventRunner] and [PostTask] belong to the event handler: whether there
    is a main runner, and whether it takes a task.  [array_bytes] and [write_array] are the
    bytes behind an array buffer. *)
Class Runtime (E : Type) := {
  ani : ∀ {X : Set}, AniOp X → ST E (Z * option X);
  get_env : ST E Z;
  into_ani : SubmitTransferCallback → ST E Z;
  GetMainEventRunner : ST E bool;
  PostTask : ST E bool;
  array_bytes : Z → Z → E → list Z;
  write_array : Z → list Z → E → E;
}.
Class AniStatus := { ANI_OK : Z; ANI_ERROR : Z }.

(** ** Transfers *)
(** [ohos.usbManager.impl.cpp:1012-1029] [USBTransferAsyncContext] the members that the code uses *)
Record USBTransferAsyncContext := mk_USBTransferAsyncContext {
  x_vm : Z; x_pipe : Client.USBDevicePipe; x_endpoint : Z; x_flags : Z; x_type : Z; x_timeOut : Z;
  x_length : Z; x_bufferLength : Z; x_ashmem : option (Z * Z); x_buffer : Z; x_numIsoPackets : Z;
  x_callbackRef : Z }.

(** A task on its way to the main thread: the context that it is about and the answer. *)
Record Posted := mk_Posted { po_context : Z; po_answer : SubmitTransferCallback }.

(** [ohos.usbManager.impl.cpp:49-53] [UsbManagerFeature] *)
Inductive UsbManagerFeature := FEATURE_HOST | FEATURE_DEVICE | FEATURE_PORT.
(** [ohos.usbManager.impl.cpp:55-79] [HasFeature] *)
Definition HasFeature `{Features} (feature : UsbManagerFeature) : bool :=
  match feature with
  | FEATURE_HOST => USB_MANAGER_FEATURE_HOST
  | FEATURE_DEVICE => USB_MANAGER_FEATURE_DEVICE
  | FEATURE_PORT => USB_MANAGER_FEATURE_PORT
  end.

(** ** Codes *)
(** [ohos.usbManager.impl.cpp:43-43] [ERROR] *)
Definition ERROR : Z := -1.
(** [ohos.usbManager.impl.cpp:44-44] [HDF_DEV_ERR_NO_DEVICE] *)
Definition HDF_DEV_ERR_NO_DEVICE : Z := -202.
(** The enumeration [UsbJsErrCode] of [ohos.usbManager.impl.cpp] gives its items the values
    of [usb_napi_errors.h]; they are those of [Napi].  The table of messages has others. *)
(** [ohos.usbManager.impl.cpp:108-134] [ERRCODE_MSG_MAP] *)
Definition ERRCODE_MSG_MAP : list (Z * string) :=
  [(OHEC_COMMON_PERMISSION_NOT_ALLOWED,
    "BusinessError 201:Permission verification failed. The application does not have the permission required to call the API.");
   (OHEC_COMMON_NORMAL_APP_NOT_ALLOWED,
    "BusinessError 202:Permission denied. Normal application uses system api.");
   (OHEC_COMMON_PARAM_ERROR, "BusinessError 401:Parameter error.");
   (CAPABILITY_NOT_SUPPORT, "BusinessError 801:Capability not supported.");
   (UEC_COMMON_HAS_NO_RIGHT, "BusinessError 14400001:Permission denied.");
   (UEC_COMMON_HDC_NOT_ALLOWED,
    "BusinessError 14400002:Permission denied. The HDC is disabled by the system.");
   (UEC_COMMON_PORTROLE_SWITCH_NOT_ALLOWED,
    "BusinessError 14400003:Unsupported operation.The current device does not support port role switching.");
   (UEC_COMMON_SERVICE_EXCEPTION,
    "BusinessError 14400004:Service exception. Possible causes:No accessory is plugged in.");
   (UEC_COMMON_RIGHT_DATABASE_ERROR, "BusinessError 14400005:Database operation exception.");
   (UEC_COMMON_FUNCTION_NOT_SUPPORT,
    "BusinessError 14400006:Unsupported operation. The function is not supported.");
   (UEC_ACCESSORY_NOT_MATCH, "BusinessError 14401001:The target USBAccessory not matched.");
   (UEC_ACCESSORY_OPEN_FAILED, "BusinessError 14401002:Failed to open the native accessory node.");
   (UEC_ACCESSORY_CAN_NOT_REOPEN, "BusinessError 14401003:Cannot reopen the accessory.");
   (USB_SUBMIT_TRANSFER_RESOURCE_BUSY_ERROR, "BusinessError 14400007:Resource busy.");
   (USB_SUBMIT_TRANSFER_NO_DEVICE_ERROR,
    "BusinessError 14400008:No such device (it may have been disconnected).");
   (USB_SUBMIT_TRANSFER_NO_MEM_ERROR, "BusinessError 14400009:Insufficient memory.");
   (USB_SUBMIT_TRANSFER_OTHER_ERROR, "BusinessError 14400010:Other USB error.");
   (USB_SUBMIT_TRANSFER_NOT_FOUND_ERROR,
    "BusinessError 14400011:The transfer is not in progress, or is already complete or cancelled.");
   (USB_SUBMIT_TRANSFER_IO_ERROR, "BusinessError 14400012:Transmission I/O error.")]%string.
(** [ohos.usbManager.impl.cpp:136-143] [GetErrMsgByErrCode] *)
Definition GetErrMsgByErrCode (errCode : Z) : string :=
  from_option snd ""%string (head (filter (λ kv, kv.1 = errCode) ERRCODE_MSG_MAP)).

Section World.
Context {E A S O : Type} `{RT : Runtime E}.
Context `{EB : ErrBase} `{AC : AbilityAccess A} `{UA : UsbAbility} `{US : UsbServer S}.
Context `{FE : Features} `{SY : System O}.

(** [g_accFd] of [ohos.usbManager.impl.cpp]; [handlers] are the threads that have set their
    [mainHandler].  [in_flight] is kept by the service, not by the code: the user data of the
    transfers that it has taken and not completed. *)
Record world := mk_world {
  runtime : E;
  lib : Client.st (A := A) (S := S);
  system : O;
  g_accFd : Z;
  reports : list (Z * string);
  contexts : gmap Z USBTransferAsyncContext;
  posted : list Posted;
  handlers : list Z;
  in_flight : gset Z;
}.

Definition set_runtime (x : E) w :=
  mk_world x (lib w) (system w) (g_accFd w) (reports w) (contexts w) (posted w) (handlers w) (in_flight w).
Definition set_lib x w :=
  mk_world (runtime w) x (system w) (g_accFd w) (reports w) (contexts w) (posted w) (handlers w) (in_flight w).
Definition set_system x w :=
  mk_world (runtime w) (lib w) x (g_accFd w) (reports w) (contexts w) (posted w) (handlers w) (in_flight w).
Definition set_g_accFd x w :=
  mk_world (runtime w) (lib w) (system w) x (reports w) (contexts w) (posted w) (handlers w) (in_flight w).
Definition set_reports x w :=
  mk_world (runtime w) (lib w) (system w) (g_accFd w) x (contexts w) (posted w) (handlers w) (in_flight w).
Definition set_contexts x w :=
  mk_world (runtime w) (lib w) (system w) (g_accFd w) (reports w) x (posted w) (handlers w) (in_flight w).
Definition set_posted x w :=
  mk_world (runtime w) (lib w) (system w) (g_accFd w) (reports w) (contexts w) x (handlers w) (in_flight w).
Definition set_handlers x w :=
  mk_world (runtime w) (lib w) (system w) (g_accFd w) (reports w) (contexts w) (posted w) x (in_flight w).
Definition set_in_flight x w :=
  mk_world (runtime w) (lib w) (system w) (g_accFd w) (reports w) (contexts w) (posted w) (handlers w) x.

Definition on_runtime {X} (m : ST E X) : ST world X :=
  λ w, let '(x, e) := m (runtime w) in (x, set_runtime e w).
Definition on_lib {X} (m : ST (Client.st (A := A) (S := S)) X) : ST world X :=
  λ w, let '(x, l) := m (lib w) in (x, set_lib l w).
Definition on_system {X} (m : ST O X) : ST world X :=
  λ w, let '(x, o) := m (system w) in (x, set_system o w).

(** ** Functions of the modules *)

Abbreviation Api R := (ST world (option R)).

(** A call of the client library, and what follows unless it goes through a null pointer. *)
Definition invoke {X R} (m : ST (Client.st (A := A) (S := S)) (option X)) (k : X → Api R) : Api R :=
  r ← on_lib m;
  match r with None => mret None | Some x => k x end.
Definition give {R} (r : R) : Api R := mret (Some r).

(** [taihe::set_business_error] *)
Definition set_business_error (errCode : Z) (msg : string) : ST world unit :=
  modify (λ w, set_reports (reports w ++ [(errCode, msg)]) w).
(** [ohos.usbManager.impl.cpp:145-148] [ThrowBusinessError] *)
Definition ThrowBusinessError (errCode : Z) (errMsg : string) : ST world unit :=
  set_business_error errCode (GetErrMsgByErrCode errCode +:+ errMsg).
(** [ThrowBusinessError], and the value that is then returned. *)
Definition fail {R} (errCode : Z) (errMsg : string) (r : R) : Api R :=
  ThrowBusinessError errCode errMsg ;; give r.

(** [ohos.usbManager.impl.cpp:397-400] [hasRight] the first lines of a function: without the part of the build, the code 801 *)
Definition require_feature {R} (feature : UsbManagerFeature) (r : R) (k : Api R) : Api R :=
  if negb (HasFeature feature) then fail CAPABILITY_NOT_SUPPORT "" r else k.

(** A call of ANI through the environment of the thread, with [k] after a success and
    [failed] after a failure; [None] when there is no environment. *)
Definition with_env {R} (k : Api R) : Api R :=
  env ← on_runtime get_env;
  if env =? nullptr then mret None else k.
Definition ani_or {X : Set} `{AniStatus} {R} (op : AniOp X) (failed : Api R) (k : option X → Api R) : Api R :=
  '(status, out) ← on_runtime (ani op);
  if negb (status =? ANI_OK) then failed else k out.
End World.
Arguments world : clear implicits.
