(* ===== verification/TaiheCalls.v ===== *)
(** * The functions of the ArkTS module usbManager

    [frameworks/ets/taihe/usb_manager/src/ohos.usbManager.impl.cpp]: every function of
    [ohos.usbManager.taihe] but the submitted transfers, which are in [TaiheTransfer].  The
    codes that a function reports are those of [TaiheWorld.ThrowBusinessError]; what it
    returns along with a report is written out. *)

From S2P Require Import Prelude Text UsbErrors UsbTypes Napi Platform.
From S2P Require Import HostDriver HostEvents HostPolicy ServiceHost ServiceSerial ServiceGate ServicePorts Client.
From S2P Require Import TaiheTypes TaiheWorld.
From S2P Require PortManager.
Import usbManager.

#[local] Set Default Goal Selector "!".

(** [usb_errors.h:30-30] [PERMISSION_DENIED_SYSAPI] *)
Definition PERMISSION_DENIED_SYSAPI : string := "PERMISSION_DENIED_SYSAPI".
(** [usb_errors.h:31-31] [SYS_APP_PERMISSION_DENIED_SYSAPI] *)
Definition SYS_APP_PERMISSION_DENIED_SYSAPI : string := "SYS_APP_PERMISSION_DENIED_SYSAPI".

Section TaiheCalls.
Context {E A S O : Type} `{RT : Runtime E} `{AS : AniStatus} `{ER : EnumRuntime} `{UN : Uninitialised}.
Context `{EB : ErrBase} `{AC : AbilityAccess A} `{UA : UsbAbility} `{US : UsbServer S}.
Context `{FE : Features} `{SY : System O} `{JE : JsErrBase} `{SC : Securec}.
Abbreviation world := (TaiheWorld.world E A S O).
Abbreviation Api R := (ST world (option R)).

(** ** Devices and rights *)

(** The structure that [return {}] gives. *)
Definition no_pipe : usbManager.USBDevicePipe := mk_USBDevicePipe 0 0.

(** [ohos.usbManager.impl.cpp:341-368] [connectDevice] *)
Definition connectDevice (device : USBDevice) : Api usbManager.USBDevicePipe :=
  require_feature FEATURE_HOST no_pipe
    (let usbDev := ConvertToUsbDevice device in
     invoke (OpenDevice usbDev default_pipe) (λ '(ret, pipe),
       if (ret =? UEC_SERVICE_PERMISSION_DENIED) || (ret =? UEC_INTERFACE_PERMISSION_DENIED) then
         fail UEC_COMMON_HAS_NO_RIGHT "need call requestRight to get the permission" no_pipe
       else if ret =? HDF_DEV_ERR_NO_DEVICE then fail USB_SUBMIT_TRANSFER_IO_ERROR "" no_pipe
       else if negb (ret =? UEC_OK) then fail UEC_COMMON_SERVICE_EXCEPTION "" no_pipe
       else give (mk_USBDevicePipe (GetBusNum pipe) (GetDevAddr pipe)))).

(** [ohos.usbManager.impl.cpp:376-393] [getDevices] *)
Definition getDevices : Api (list USBDevice) :=
  require_feature FEATURE_HOST []
    (invoke (GetDevices []) (λ '(ret, deviceList),
       if negb (ret =? 0) then give [] else give (ParseToUSBDevice <$> deviceList))).

(** [ohos.usbManager.impl.cpp:395-403] [hasRight] *)
Definition hasRight (deviceName : string) : Api bool :=
  require_feature FEATURE_HOST false (invoke (HasRight deviceName) give).

(** [ohos.usbManager.impl.cpp:405-417] [requestRightSync] *)
Definition requestRightSync (deviceName : string) : Api bool :=
  require_feature FEATURE_HOST false (invoke (RequestRight deviceName) (λ ret, give (ret =? UEC_OK))).

(** [ohos.usbManager.impl.cpp:419-431] [removeRight] *)
Definition removeRight (deviceName : string) : Api bool :=
  require_feature FEATURE_HOST false (invoke (RemoveRight deviceName) (λ ret, give (ret =? UEC_OK))).

(** [ohos.usbManager.impl.cpp:433-453] [addDeviceAccessRight] *)
Definition addDeviceAccessRight (tokenId deviceName : string) : Api bool :=
  require_feature FEATURE_HOST false
    (invoke (AddAccessRight tokenId deviceName) (λ ret,
       if ret =? UEC_OK then give true
       else if ret =? UEC_SERVICE_PERMISSION_DENIED_SYSAPI then
         fail OHEC_COMMON_NORMAL_APP_NOT_ALLOWED "Normal app not allowed" false
       else if ret =? UEC_SERVICE_PERMISSION_DENIED_SYSAPI_FAILED then
         fail OHEC_COMMON_PERMISSION_NOT_ALLOWED "Permission not allowed" false
       else give false)).

(** ** Functions *)

(** [ohos.usbManager.impl.cpp:455-471] [getFunctionsFromString] *)
Definition getFunctionsFromString (funcs : string) : Api Z :=
  require_feature FEATURE_DEVICE CAPABILITY_NOT_SUPPORT
    (invoke (UsbFunctionsFromString funcs) (λ numFuncs,
       if numFuncs =? UEC_SERVICE_PERMISSION_DENIED_SYSAPI then
         fail OHEC_COMMON_NORMAL_APP_NOT_ALLOWED "" OHEC_COMMON_NORMAL_APP_NOT_ALLOWED
       else if numFuncs =? UEC_SERVICE_PERMISSION_DENIED_SYSAPI_FAILED then
         fail OHEC_COMMON_PERMISSION_NOT_ALLOWED "" OHEC_COMMON_PERMISSION_NOT_ALLOWED
       else give numFuncs)).

(** [ohos.usbManager.impl.cpp:473-489] [getStringFromFunctions] *)
Definition getStringFromFunctions (funcs : Z) : Api string :=
  require_feature FEATURE_DEVICE ""%string
    (invoke (UsbFunctionsToString funcs) (λ strFuncs,
       if String.eqb strFuncs PERMISSION_DENIED_SYSAPI then
         fail OHEC_COMMON_NORMAL_APP_NOT_ALLOWED "" ""%string
       else if String.eqb strFuncs SYS_APP_PERMISSION_DENIED_SYSAPI then
         fail OHEC_COMMON_PERMISSION_NOT_ALLOWED "" ""%string
       else give strFuncs)).

(** [ohos.usbManager.impl.cpp:491-514] [setDeviceFunctionsSync] *)
Definition setDeviceFunctionsSync (funcs : Z) : Api unit :=
  require_feature FEATURE_DEVICE tt
    (invoke (SetCurrentFunctions funcs) (λ ret,
       if ret =? UEC_OK then give tt
       else if ret =? UEC_SERVICE_PERMISSION_DENIED_SYSAPI then fail OHEC_COMMON_NORMAL_APP_NOT_ALLOWED "" tt
       else if ret =? UEC_SERVICE_PERMISSION_DENIED_SYSAPI_FAILED then
         fail OHEC_COMMON_PERMISSION_NOT_ALLOWED "" tt
       else if ret =? UEC_SERVICE_PERMISSION_CHECK_HDC then fail UEC_COMMON_HDC_NOT_ALLOWED "" tt
       else fail UEC_COMMON_FUNCTION_NOT_SUPPORT "" tt)).

(** [ohos.usbManager.impl.cpp:516-537] [getDeviceFunctions] *)
Definition getDeviceFunctions : Api Z :=
  require_feature FEATURE_DEVICE 0
    (invoke (GetCurrentFunctions 0) (λ '(ret, cfuncs),
       if ret =? UEC_SERVICE_PERMISSION_DENIED_SYSAPI then
         fail OHEC_COMMON_NORMAL_APP_NOT_ALLOWED "Normal app not allowed" cfuncs
       else if ret =? UEC_SERVICE_PERMISSION_DENIED_SYSAPI_FAILED then
         fail OHEC_COMMON_PERMISSION_NOT_ALLOWED "Permission not allowed" cfuncs
       else if negb (ret =? UEC_OK) then fail UEC_COMMON_SERVICE_EXCEPTION "" cfuncs
       else give cfuncs)).

(** ** Ports *)

(** [ohos.usbManager.impl.cpp:539-571] [getPortList] *)
Definition getPortList : Api (list USBPort) :=
  require_feature FEATURE_PORT []
    (invoke (GetPorts []) (λ '(ret, ports),
       if ret =? UEC_SERVICE_PERMISSION_DENIED_SYSAPI then fail OHEC_COMMON_NORMAL_APP_NOT_ALLOWED "" []
       else if ret =? UEC_SERVICE_PERMISSION_DENIED_SYSAPI_FAILED then
         fail OHEC_COMMON_PERMISSION_NOT_ALLOWED "" []
       else if negb (ret =? UEC_OK) then fail UEC_COMMON_SERVICE_EXCEPTION "" []
       else match ports with
            | [] => give []
            | _ => give (ConvertUSBPort <$> ports)
            end)).

(** [ohos.usbManager.impl.cpp:573-597] [getPortSupportModes] the key of the mode *)
Definition getPortSupportModes (portId : Z) : Api Z :=
  require_feature FEATURE_PORT 0
    (if portId <? 0 then fail OHEC_COMMON_PARAM_ERROR "" 0
     else
       invoke (GetSupportedModes portId 0) (λ '(ret, result),
         if ret =? UEC_SERVICE_PERMISSION_DENIED_SYSAPI then fail OHEC_COMMON_NORMAL_APP_NOT_ALLOWED "" result
         else if ret =? UEC_SERVICE_PERMISSION_DENIED_SYSAPI_FAILED then
           fail OHEC_COMMON_PERMISSION_NOT_ALLOWED "" result
         else give result)).

(** [ohos.usbManager.impl.cpp:599-623] [setPortRoleTypesSync] the roles are keys, which convert to their values *)
Definition setPortRoleTypesSync (portId powerRole dataRole : Z) : Api unit :=
  require_feature FEATURE_PORT tt
    (let power := get_value PowerRoleType_table powerRole in
     let data := get_value DataRoleType_table dataRole in
     if (portId <? 0) || (power <? 0) || (data <? 0) then fail OHEC_COMMON_PARAM_ERROR "" tt
     else
       invoke (SetPortRole portId power data) (λ ret,
         if ret =? UEC_SERVICE_PERMISSION_DENIED_SYSAPI then fail OHEC_COMMON_NORMAL_APP_NOT_ALLOWED "" tt
         else if ret =? UEC_SERVICE_PERMISSION_DENIED_SYSAPI_FAILED then
           fail OHEC_COMMON_PERMISSION_NOT_ALLOWED "" tt
         else if negb (ret =? UEC_OK) then fail UEC_COMMON_PORTROLE_SWITCH_NOT_ALLOWED "" tt
         else give tt)).

(** ** An open device *)

(** [ohos.usbManager.impl.cpp:658-669] [claimInterface] *)
Definition claimInterface (pipe : usbManager.USBDevicePipe) (iface : USBInterface) (force : option bool) : Api Z :=
  require_feature FEATURE_HOST ERROR
    (let forceClaim := default false force in
     invoke (Pipe.ClaimInterface (ConvertUSBDevicePipe pipe) (ConvertToUsbInterface iface) forceClaim) give).

(** [ohos.usbManager.impl.cpp:671-681] [releaseInterface] *)
Definition releaseInterface (pipe : usbManager.USBDevicePipe) (iface : USBInterface) : Api Z :=
  require_feature FEATURE_HOST ERROR
    (invoke (Pipe.ReleaseInterface (ConvertUSBDevicePipe pipe) (ConvertToUsbInterface iface)) give).

(** [ohos.usbManager.impl.cpp:683-691] [setConfiguration] *)
Definition setConfiguration (pipe : usbManager.USBDevicePipe) (config : USBConfiguration) : Api Z :=
  require_feature FEATURE_HOST ERROR
    (invoke (SetConfiguration (ConvertUSBDevicePipe pipe) (ConvertToUSBConfig config)) give).

(** [ohos.usbManager.impl.cpp:693-701] [setInterface] *)
Definition setInterface (pipe : usbManager.USBDevicePipe) (iface : USBInterface) : Api Z :=
  require_feature FEATURE_HOST ERROR
    (invoke (SetInterface (ConvertUSBDevicePipe pipe) (ConvertToUsbInterface iface)) give).

(** [ohos.usbManager.impl.cpp:703-723] [getRawDescriptor] *)
Definition getRawDescriptor (pipe : usbManager.USBDevicePipe) : Api (list Z) :=
  require_feature FEATURE_HOST []
    (invoke (GetRawDescriptors (ConvertUSBDevicePipe pipe) []) (λ '(ret, bufferData),
       if ret =? UEC_SERVICE_PERMISSION_DENIED then
         fail UEC_COMMON_HAS_NO_RIGHT "need call requestRight to get the permission" []
       else if negb (ret =? UEC_OK) then fail UEC_COMMON_SERVICE_EXCEPTION "" []
       else give bufferData)).

(** [ohos.usbManager.impl.cpp:725-738] [getFileDescriptor] *)
Definition getFileDescriptor (pipe : usbManager.USBDevicePipe) : Api Z :=
  require_feature FEATURE_HOST ERROR
    (invoke (GetFileDescriptor (ConvertUSBDevicePipe pipe) ERROR) (λ '(ret, fd), give fd)).

(** [ohos.usbManager.impl.cpp:827-837] [closePipe] *)
Definition closePipe (pipe : usbManager.USBDevicePipe) : Api Z :=
  require_feature FEATURE_HOST ERROR (invoke (Pipe.Close ERR_INVALID_VALUE (ConvertUSBDevicePipe pipe)) give).

(** [ohos.usbManager.impl.cpp:1320-1349] [resetUsbDevice] *)
Definition resetUsbDevice (pipe : usbManager.USBDevicePipe) : Api bool :=
  if negb (HasFeature FEATURE_HOST) then fail CAPABILITY_NOT_SUPPORT "Capability not supported." false
  else
    invoke (ResetDevice (ConvertUSBDevicePipe pipe)) (λ ret,
      if ret =? UEC_OK then give true
      else if (ret =? HDF_DEV_ERR_NO_DEVICE) || (ret =? UEC_INTERFACE_NAME_NOT_FOUND) then
        fail USB_SUBMIT_TRANSFER_NO_DEVICE_ERROR
          "BusinessError 14400008:No such device (it may have been disconnected)." false
      else if ret =? UEC_SERVICE_PERMISSION_DENIED then fail UEC_COMMON_HAS_NO_RIGHT "No permission." false
      else if ret =? USB_RIGHT_FAILURE then fail USB_DEVICE_PIPE_CHECK_ERROR "Check devicePipe failed." false
      else if ret =? UEC_SERVICE_INVALID_VALUE then
        fail UEC_COMMON_SERVICE_EXCEPTION
          "BusinessError 14400004:Service exception. Possible causes:No accessory is plugged in." false
      else fail USB_SUBMIT_TRANSFER_OTHER_ERROR "BusinessError 14400010:Other USB error." false).

(** ** Transfers that wait *)

(** [ohos.usbManager.impl.cpp:789-801] [bulkTransferSync] the bytes of a [Uint8Array]: the address and the size of its array buffer *)
Definition array_buffer {R} (buffer : Z) (failed : Api R) (k : Z → Z → Api R) : Api R :=
  with_env
    (ani_or (Object_GetFieldByName_Ref buffer "buffer") failed (λ bufferRef,
       ani_or (ArrayBuffer_GetInfo (default any_value bufferRef)) failed (λ info,
         let '(data, size) := default (any_value, any_int) info in k data size))).

(** [memcpy_s] into an array buffer: its code. *)
Definition copy_to_array (data size : Z) (bytes : list Z) : ST world Z :=
  let '(ret, written) := memcpy_s data size bytes in
  match written with
  | None => mret ret
  | Some l => modify (λ w, set_runtime (write_array data l (runtime w)) w) ;; mret ret
  end.

(** [ohos.usbManager.impl.cpp:740-780] [usbControlTransferSync] *)
Definition usbControlTransferSync (pipe : usbManager.USBDevicePipe) (requestparam : USBDeviceRequestParams)
    (timeout : option Z) : Api Z :=
  require_feature FEATURE_HOST ERROR
    (let nativePipe := ConvertUSBDevicePipe pipe in
     let timeOut := default 0 timeout in
     let tctrl := mk_UsbCtrlTransferParams (rq_bmRequestType requestparam) (rq_bRequest requestparam)
                    (rq_wValue requestparam) (rq_wIndex requestparam) (rq_wLength requestparam) timeOut in
     array_buffer (rq_data requestparam) (give ERROR) (λ data size,
       bufferData ← gets (λ w, array_bytes data size (runtime w));
       invoke (Pipe.UsbControlTransfer nativePipe tctrl bufferData) (λ '(ret, bufferData),
         ret ← (if Z.land (u32 (rq_bmRequestType requestparam)) USB_ENDPOINT_DIR_MASK =? USB_ENDPOINT_DIR_IN
                then copy_to_array data size bufferData else mret ret);
         if negb (ret =? UEC_OK) then give ERROR else give (i32 (Z.of_nat (length bufferData)))))).

(** [ohos.usbManager.impl.cpp:782-825] [bulkTransferSync] *)
Definition bulkTransferSync (pipe : usbManager.USBDevicePipe) (endpoint : usbManager.USBEndpoint) (buffer : Z)
    (timeout : option Z) : Api Z :=
  require_feature FEATURE_HOST ERROR
    (array_buffer buffer (give ERROR) (λ data size,
       let ep := ParseEndpointObj endpoint in
       bufferData ← gets (λ w, array_bytes data size (runtime w));
       let nativePipe := ConvertUSBDevicePipe pipe in
       let timeOut := default 0 timeout in
       invoke (Pipe.BulkTransfer nativePipe ep bufferData timeOut) (λ '(ret, bufferData),
         let answer ret :=
           if ret =? UEC_OK then give (i32 (Z.of_nat (length bufferData))) else give ERROR in
         if USBEndpoint.GetDirection ep =? USB_ENDPOINT_DIR_IN then
           if size <? Z.of_nat (length bufferData) then give ERROR
           else ret ← copy_to_array data size bufferData; answer ret
         else answer ret))).

(** ** Accessories *)

(** [ohos.usbManager.impl.cpp:625-656] [addAccessoryRight] *)
Definition addAccessoryRight (tokenId : Z) (accessory : usbManager.USBAccessory) : Api unit :=
  require_feature FEATURE_DEVICE tt
    (invoke (AddAccessoryRight (u32 tokenId) (ConvertUsbDevice accessory)) (λ ret,
       if ret =? UEC_OK then give tt
       else if ret =? UEC_SERVICE_GET_TOKEN_INFO_FAILED then fail OHEC_COMMON_PARAM_ERROR "" tt
       else if ret =? UEC_SERVICE_ACCESSORY_NOT_MATCH then
         fail OHEC_COMMON_PARAM_ERROR "Get accessory through getAccessoryList" tt
       else if ret =? UEC_SERVICE_DATABASE_OPERATION_FAILED then
         fail UEC_COMMON_RIGHT_DATABASE_ERROR "Database request operation exception" tt
       else if ret =? UEC_SERVICE_PERMISSION_DENIED_SYSAPI then fail OHEC_COMMON_NORMAL_APP_NOT_ALLOWED "" tt
       else if ret =? UEC_SERVICE_PERMISSION_DENIED_SYSAPI_FAILED then
         fail OHEC_COMMON_PERMISSION_NOT_ALLOWED "" tt
       else fail UEC_COMMON_SERVICE_EXCEPTION "Service exception" tt)).

(** [ohos.usbManager.impl.cpp:853-873] [hasAccessoryRight] *)
Definition hasAccessoryRight (accessory : usbManager.USBAccessory) : Api bool :=
  require_feature FEATURE_DEVICE false
    (invoke (HasAccessoryRight (taihe2Native accessory) false) (λ '(ret, result),
       if ret =? UEC_OK then give result
       else if ret =? UEC_SERVICE_ACCESSORY_NOT_MATCH then
         fail UEC_ACCESSORY_NOT_MATCH "Get accessory through getAccessoryList" result
       else if ret =? UEC_SERVICE_DATABASE_OPERATION_FAILED then
         fail UEC_COMMON_RIGHT_DATABASE_ERROR "Database request operation exception" result
       else fail UEC_COMMON_SERVICE_EXCEPTION "Service exception" result)).

(** [ohos.usbManager.impl.cpp:875-895] [requestAccessoryRightSync] *)
Definition requestAccessoryRightSync (accessory : usbManager.USBAccessory) : Api bool :=
  require_feature FEATURE_DEVICE false
    (invoke (RequestAccessoryRight (taihe2Native accessory) false) (λ '(ret, result),
       if ret =? UEC_OK then give result
       else if ret =? UEC_SERVICE_ACCESSORY_NOT_MATCH then fail UEC_ACCESSORY_NOT_MATCH "" result
       else if ret =? UEC_SERVICE_DATABASE_OPERATION_FAILED then fail UEC_COMMON_RIGHT_DATABASE_ERROR "" result
       else fail UEC_COMMON_SERVICE_EXCEPTION "" result)).

(** [ohos.usbManager.impl.cpp:897-921] [cancelAccessoryRight] *)
Definition cancelAccessoryRight (accessory : usbManager.USBAccessory) : Api unit :=
  require_feature FEATURE_DEVICE tt
    (let cancel :=
       invoke (CancelAccessoryRight (taihe2Native accessory)) (λ ret,
         if ret =? UEC_OK then give tt
         else if ret =? UEC_SERVICE_ACCESSORY_NOT_MATCH then
           fail UEC_ACCESSORY_NOT_MATCH "Get accessory through getAccessoryList" tt
         else if ret =? UEC_SERVICE_DATABASE_OPERATION_FAILED then
           fail UEC_COMMON_RIGHT_DATABASE_ERROR "Database request operation exception" tt
         else fail UEC_COMMON_SERVICE_EXCEPTION "Service exception" tt) in
     fd ← gets g_accFd;
     if negb (fd =? 0) then
       invoke (CloseAccessory fd) (λ _,
         on_system (close fd) ;;
         modify (set_g_accFd 0) ;;
         cancel)
     else cancel).

(** [ohos.usbManager.impl.cpp:923-941] [getAccessoryList] *)
Definition getAccessoryList : Api (list usbManager.USBAccessory) :=
  require_feature FEATURE_DEVICE []
    (invoke (GetAccessoryList []) (λ '(ret, accessoryList),
       if ret =? UEC_OK then give (native2Taihe <$> accessoryList)
       else fail UEC_COMMON_SERVICE_EXCEPTION "Service exception" [])).

(** [ohos.usbManager.impl.cpp:943-967] [openAccessory] the descriptor of the handle, which holds no value unless the accessory opens *)
Definition openAccessory (accessory : usbManager.USBAccessory) : Api Z :=
  require_feature FEATURE_DEVICE any_int
    (invoke (OpenAccessory (taihe2Native accessory) (-1)) (λ '(ret, fd),
       if ret =? UEC_OK then modify (set_g_accFd fd) ;; give fd
       else if (ret =? UEC_SERVICE_PERMISSION_DENIED) || (ret =? UEC_INTERFACE_PERMISSION_DENIED) then
         fail UEC_COMMON_HAS_NO_RIGHT "" any_int
       else if ret =? UEC_SERVICE_ACCESSORY_NOT_MATCH then fail UEC_ACCESSORY_NOT_MATCH "" any_int
       else if ret =? UEC_SERVICE_ACCESSORY_OPEN_NATIVE_NODE_FAILED then fail UEC_ACCESSORY_OPEN_FAILED "" any_int
       else if ret =? UEC_SERVICE_ACCESSORY_REOPEN then fail UEC_ACCESSORY_CAN_NOT_REOPEN "" any_int
       else fail UEC_COMMON_SERVICE_EXCEPTION "" any_int)).

(** [ohos.usbManager.impl.cpp:969-988] [closeAccessory] *)
Definition closeAccessory (accessoryFd : Z) : Api unit :=
  require_feature FEATURE_DEVICE tt
    (fd ← gets g_accFd;
     if negb (accessoryFd =? fd) && negb (fd =? 0) then
       fail OHEC_COMMON_PARAM_ERROR "Parameter accessoryHandle error, need openAccessory first." tt
     else
       on_system (close accessoryFd) ;;
       invoke (CloseAccessory fd) (λ ret,
         modify (set_g_accFd 0) ;;
         if negb (ret =? UEC_OK) then fail UEC_COMMON_SERVICE_EXCEPTION "Service exception" tt
         else give tt)).
End TaiheCalls.
