(* ===== verification/TaiheTransfer.v ===== *)
(** * The submitted transfers of the ArkTS module

    [frameworks/ets/taihe/usb_manager/src/ohos.usbManager.impl.cpp]: [usbSubmitTransfer] makes
    a context, which the service gives back as user data when the transfer is complete
    ([AniCallBack]); the answer is posted to the main thread, whose task calls the
    application's function and deletes the context ([callback_task]).

    A context is the value at its address in [contexts]; a read of an address that is not
    there is a result of its own ([None]), as is a null pointer. *)

From S2P Require Import Prelude Text UsbErrors UsbTypes Napi Platform.
From S2P Require Import HostDriver HostEvents HostPolicy ServiceHost ServiceSerial ServiceGate ServicePorts Client.
From S2P Require Import TaiheTypes TaiheWorld TaiheCalls.
Import usbManager.

#[local] Set Default Goal Selector "!".

(** [ohos.usbManager.impl.cpp:36-36] [IO_ERROR] *)
Definition IO_ERROR : Z := -1.
(** [ohos.usbManager.impl.cpp:37-37] [INVALID_PARAM] *)
Definition INVALID_PARAM : Z := -2.
(** [ohos.usbManager.impl.cpp:38-38] [NO_DEVICE] *)
Definition NO_DEVICE : Z := -4.
(** [ohos.usbManager.impl.cpp:39-39] [NOT_FOUND] *)
Definition NOT_FOUND : Z := -5.
(** [ohos.usbManager.impl.cpp:40-40] [ERROR_BUSY] *)
Definition ERROR_BUSY : Z := -6.
(** [ohos.usbManager.impl.cpp:41-41] [NO_MEM] *)
Definition NO_MEM : Z := -11.
(** [ohos.usbManager.impl.cpp:1133-1133] [LOCAL_SCOPE_SIZE] *)
Definition LOCAL_SCOPE_SIZE : Z := 16.

(** What the driver reports of a transfer. *)
Record TransferCallbackInfo := mk_TransferCallbackInfo { tc_status : Z; tc_actualLength : Z }.

(** [ohos.usbManager.impl.cpp:990-1010] [UsbSubmitTransferErrorCode] *)
Definition UsbSubmitTransferErrorCode `{ErrBase} (error : Z) : Z :=
  if error =? IO_ERROR then USB_SUBMIT_TRANSFER_IO_ERROR
  else if error =? INVALID_PARAM then OHEC_COMMON_PARAM_ERROR
  else if error =? NO_DEVICE then USB_SUBMIT_TRANSFER_NO_DEVICE_ERROR
  else if error =? NOT_FOUND then USB_SUBMIT_TRANSFER_NOT_FOUND_ERROR
  else if error =? ERROR_BUSY then USB_SUBMIT_TRANSFER_RESOURCE_BUSY_ERROR
  else if error =? NO_MEM then USB_SUBMIT_TRANSFER_NO_MEM_ERROR
  else if error =? UEC_SERVICE_PERMISSION_DENIED then UEC_COMMON_HAS_NO_RIGHT
  else USB_SUBMIT_TRANSFER_OTHER_ERROR.

Section TaiheTransfer.
Context {E A S O : Type} `{RT : Runtime E} `{AS : AniStatus} `{ER : EnumRuntime} `{UN : Uninitialised}.
Context `{EB : ErrBase} `{AC : AbilityAccess A} `{UA : UsbAbility} `{US : UsbServer S}.
Context `{FE : Features} `{SY : System O} `{SC : Securec}.
Abbreviation world := (TaiheWorld.world E A S O).
Abbreviation Api R := (ST world (option R)).
Abbreviation Context_ := USBTransferAsyncContext.

(** ** Contexts *)

(** A context at an address, and what follows. *)
Definition with_context {R} (p : Z) (k : Context_ → Api R) : Api R :=
  c ← gets (λ w, contexts w !! p);
  match c with None => mret None | Some c => k c end.
Definition store (p : Z) (c : Context_) : ST world unit :=
  modify (λ w, set_contexts (<[p := c]> (contexts w)) w).
(** [delete context] *)
Definition delete_context (p : Z) : ST world unit :=
  modify (λ w, set_contexts (delete p (contexts w)) w).

Definition set_buffer (vm buffer size : Z) (c : Context_) : Context_ :=
  mk_USBTransferAsyncContext vm (x_pipe c) (x_endpoint c) (x_flags c) (x_type c) (x_timeOut c) (x_length c)
    size (x_ashmem c) buffer (x_numIsoPackets c) (x_callbackRef c).
Definition set_ashmem (ashmem : option (Z * Z)) (c : Context_) : Context_ :=
  mk_USBTransferAsyncContext (x_vm c) (x_pipe c) (x_endpoint c) (x_flags c) (x_type c) (x_timeOut c)
    (x_length c) (x_bufferLength c) ashmem (x_buffer c) (x_numIsoPackets c) (x_callbackRef c).
Definition set_callbackRef (ref : Z) (c : Context_) : Context_ :=
  mk_USBTransferAsyncContext (x_vm c) (x_pipe c) (x_endpoint c) (x_flags c) (x_type c) (x_timeOut c)
    (x_length c) (x_bufferLength c) (x_ashmem c) (x_buffer c) (x_numIsoPackets c) ref.

(** [ohos.usbManager.impl.cpp:1115-1131] [DeleteCallback] *)
Definition DeleteCallback (p : Z) : Api unit :=
  env ← on_runtime get_env;
  with_context p (λ c,
    if (env =? nullptr) || (x_callbackRef c =? nullptr) then delete_context p ;; give tt
    else on_runtime (ani (GlobalReference_Delete (x_callbackRef c))) ;; delete_context p ;; give tt).

(** [ohos.usbManager.impl.cpp:1200-1216] [CreateTransferContext] the new context, and its address *)
Definition CreateTransferContext (transfer : UsbDataTransferParams) : ST world (option Z) :=
  p ← on_system allocate;
  match p with
  | None => ThrowBusinessError CAPABILITY_NOT_SUPPORT "" ;; mret None
  | Some p =>
      store p (mk_USBTransferAsyncContext nullptr (ConvertUSBDevicePipe (tr_devPipe transfer))
                 (tr_endpoint transfer) (get_value UsbTransferFlags_table (tr_flags transfer))
                 (get_value UsbEndpointTransferType_table (tr_type transfer)) (tr_timeout transfer)
                 (tr_length transfer) 0 None nullptr (u32 (tr_isoPacketCount transfer)) nullptr) ;;
      mret (Some p)
  end.

(** [ohos.usbManager.impl.cpp:1218-1236] [ExtractBufferData] *)
Definition ExtractBufferData (p : Z) (array_obj : Z) : Api bool :=
  with_env
    (ani_or GetVM (give false) (λ vm,
       ani_or (Object_GetFieldByName_Ref array_obj "buffer") (give false) (λ buffer,
         ani_or (ArrayBuffer_GetInfo (default any_value buffer)) (give false) (λ info,
           let '(data, size) := default (any_value, any_int) info in
           with_context p (λ c, store p (set_buffer (default nullptr vm) data size c) ;; give true))))).

(** [ohos.usbManager.impl.cpp:1238-1248] [SetupCallback] *)
Definition SetupCallback (p : Z) (callbackObj : Z) : Api bool :=
  with_env
    (ani_or (GlobalReference_Create callbackObj) (give false) (λ callback,
       with_context p (λ c, store p (set_callbackRef (default any_value callback) c) ;; give true))).

(** [ohos.usbManager.impl.cpp:1250-1261] [PrepareTransferInfo] the flags are not among what is copied: they are indeterminate *)
Definition PrepareTransferInfo (transfer : UsbDataTransferParams) (p : Z) : TransferInfo :=
  mk_TransferInfo (tr_endpoint transfer) any_int (get_value UsbEndpointTransferType_table (tr_type transfer))
    (tr_timeout transfer) (tr_length transfer) (u64 p) (u32 (tr_isoPacketCount transfer)).

Definition set_i_length (n : Z) (i : TransferInfo) : TransferInfo :=
  mk_TransferInfo (i_endpoint i) (i_flags i) (i_type i) (i_timeOut i) n (i_userData i) (i_numIsoPackets i).
(** The direction bit of the endpoint of a context. *)
Definition direction_of (c : Context_) : Z := Z.land (u8 (x_endpoint c)) USB_ENDPOINT_DIR_MASK.

(** [ohos.usbManager.impl.cpp:1031-1048] [CreateAndWriteAshmem] the second part of the result is [obj] *)
Definition CreateAndWriteAshmem (p : Z) (obj : TransferInfo) : Api (bool * TransferInfo) :=
  with_context p (λ c,
    ashmem ← on_system (CreateAshmem "CreateAshmem" (x_length c));
    store p (set_ashmem ashmem c) ;;
    match ashmem with
    | None => give (false, obj)
    | Some (fd, _) =>
        if direction_of c =? USB_ENDPOINT_DIR_OUT then
          bufferData ← gets (λ w, array_bytes (x_buffer c) (x_bufferLength c) (runtime w));
          let obj := set_i_length (i32 (Z.of_nat (length bufferData))) obj in
          on_system (MapReadAndWriteAshmem fd) ;;
          written ← on_system (WriteToAshmem fd bufferData);
          if negb written then on_system (CloseAshmem fd) ;; give (false, obj)
          else give (true, obj)
        else give (true, obj)
    end).

(** The service has taken the transfer with this user data, if its answer says so. *)
Definition taken_by_service (userData ret : Z) : ST world unit :=
  mwhen (ret =? UEC_OK) (modify (λ w, set_in_flight ({[userData]} ∪ in_flight w) w)).

(** [ohos.usbManager.impl.cpp:1293-1301] [usbSubmitTransfer] the request of the prepared context, and what follows *)
Definition submit_prepared (p : Z) (transferInfo : TransferInfo) : Api unit :=
  with_context p (λ c,
    invoke (Pipe.UsbSubmitTransfer (x_pipe c) transferInfo (Some (i_userData transferInfo)) (x_ashmem c)) (λ ret,
      taken_by_service (i_userData transferInfo) ret ;;
      if negb (ret =? UEC_OK) then
        match x_ashmem c with
        | None => mret None
        | Some (fd, _) =>
            on_system (CloseAshmem fd) ;;
            deleted ← DeleteCallback p;
            match deleted with
            | None => mret None
            | Some _ => fail (UsbSubmitTransferErrorCode ret) "" tt
            end
        end
      else give tt)).

(** [ohos.usbManager.impl.cpp:1272-1302] [usbSubmitTransfer] *)
Definition usbSubmitTransfer (transfer : UsbDataTransferParams) : Api unit :=
  require_feature FEATURE_HOST tt
    (ctx ← CreateTransferContext transfer;
     match ctx with
     | None => give tt
     | Some p =>
         extracted ← ExtractBufferData p (tr_buffer transfer);
         match extracted with
         | None => mret None
         | Some false => delete_context p ;; give tt
         | Some true =>
             set_up ← SetupCallback p (tr_callback transfer);
             match set_up with
             | None => mret None
             | Some false => delete_context p ;; give tt
             | Some true =>
                 written ← CreateAndWriteAshmem p (PrepareTransferInfo transfer p);
                 match written with
                 | None => mret None
                 | Some (false, _) => DeleteCallback p
                 | Some (true, transferInfo) =>
                     submit_prepared p transferInfo
                 end
             end
         end
     end).

(** [ohos.usbManager.impl.cpp:1304-1318] [usbCancelTransfer] *)
Definition usbCancelTransfer (transfer : UsbDataTransferParams) : Api unit :=
  require_feature FEATURE_HOST tt
    (invoke (Pipe.UsbCancelTransfer (ConvertUSBDevicePipe (tr_devPipe transfer)) (tr_endpoint transfer)) (λ ret,
       if negb (ret =? UEC_OK) then fail (UsbSubmitTransferErrorCode ret) "" tt else give tt)).

(** ** The answer of a transfer *)

(** [ohos.usbManager.impl.cpp:1066-1067] [ReadDataToBuffer] *)
Definition release_ashmem (fd : Z) : ST world unit :=
  on_system (UnmapAshmem fd) ;; on_system (CloseAshmem fd).

(** [ohos.usbManager.impl.cpp:1050-1068] [ReadDataToBuffer] *)
Definition ReadDataToBuffer (c : Context_) (info : TransferCallbackInfo) : Api unit :=
  match x_ashmem c with
  | None => mret None
  | Some (fd, _) =>
      if direction_of c =? USB_ENDPOINT_DIR_IN then
        on_system (MapReadAndWriteAshmem fd) ;;
        ashmemBuffer ← on_system (ReadFromAshmem fd (tc_actualLength info));
        match ashmemBuffer with
        | None => release_ashmem fd ;; give tt
        | Some bytes =>
            copy_to_array (x_buffer c) (x_bufferLength c) (take (Z.to_nat (u64 (tc_actualLength info))) bytes) ;;
            release_ashmem fd ;;
            give tt
        end
      else release_ashmem fd ;; give tt
  end.

(** [ohos.usbManager.impl.cpp:1096-1113] [SendEventToMainThread] on a thread, which keeps its handler; [false] when there is no main runner *)
Definition SendEventToMainThread (thread : Z) (task : Posted) : ST world bool :=
  known ← gets handlers;
  runner ← (if decide (thread ∈ known) then mret true
            else
              runner ← on_runtime GetMainEventRunner;
              mwhen runner (modify (λ w : world, set_handlers (thread :: known) w)) ;;
              mret runner);
  if negb runner then mret false
  else
    taken ← on_runtime PostTask;
    mwhen taken (modify (λ w, set_posted (posted w ++ [task]) w)) ;;
    mret true.

(** [ohos.usbManager.impl.cpp:1140-1151] [AniCallBack] a packet of the driver: length, actual length and status; the structure takes the actual length first *)
Definition answer_of (info : TransferCallbackInfo) (isoInfo : list (Z * Z * Z)) : SubmitTransferCallback :=
  mk_SubmitTransferCallback (tc_actualLength info) (tc_status info)
    ((λ '(isoLength, isoActualLength, isoStatus), mk_UsbIsoPacketDescriptor isoActualLength isoLength isoStatus)
       <$> isoInfo).

(** [ohos.usbManager.impl.cpp:1134-1198] [AniCallBack] *)
Definition AniCallBack (thread p : Z) (info : TransferCallbackInfo) (isoInfo : list (Z * Z * Z)) : Api unit :=
  with_context p (λ c,
    read ← ReadDataToBuffer c info;
    match read with
    | None => mret None
    | Some _ =>
        sent ← SendEventToMainThread thread (mk_Posted p (answer_of info isoInfo));
        if negb sent then DeleteCallback p else give tt
    end).

(** [ohos.usbManager.impl.cpp:1070-1092] [GetDefaultBusinessError] a null pointer after a failure *)
Definition GetDefaultBusinessError : ST E Z :=
  '(status, cls) ← ani (FindClass "@ohos.base.BusinessError");
  if negb (status =? ANI_OK) then mret nullptr
  else
    '(status, ctor) ← ani (Class_FindMethod (default any_value cls) "<ctor>" ":");
    if negb (status =? ANI_OK) then mret nullptr
    else
      '(status, businessErrorObject) ← ani (Object_New (default any_value cls) (default any_value ctor));
      if negb (status =? ANI_OK) then mret nullptr else mret (default any_value businessErrorObject).

(** [ohos.usbManager.impl.cpp:1153-1161] [AniCallBack] the environment of the main thread; [None] after a failure of [GetEnv] *)
Definition main_env (vm : Z) : ST E (option Z) :=
  '(status, env) ← ani (AttachCurrentThread vm);
  if status =? ANI_ERROR then
    '(status, env) ← ani (GetEnv vm);
    mret (if negb (status =? ANI_OK) then None else Some (default nullptr env))
  else mret (Some (default nullptr env)).

(** [ohos.usbManager.impl.cpp:1152-1193] [AniCallBack] the task *)
Definition callback_task (task : Posted) : Api unit :=
  let p := po_context task in
  let end_with (last : ST world unit) : Api unit := (deleted ← DeleteCallback p; last ;; mret deleted) in
  let destroy := (on_runtime (ani DestroyLocalScope) ;; mret tt) in
  with_context p (λ c,
    if x_vm c =? nullptr then mret None
    else
      env ← on_runtime (main_env (x_vm c));
      match env with
      | None => DeleteCallback p
      | Some env =>
          if env =? nullptr then mret None
          else
            ani_or (CreateLocalScope LOCAL_SCOPE_SIZE) (DeleteCallback p) (λ _,
              businessError ← on_runtime GetDefaultBusinessError;
              param ← on_runtime (into_ani (po_answer task));
              ani_or (FindClass "std.core.Function2") (end_with destroy) (λ cls,
                '(ret, result) ← on_runtime (ani (Object_InstanceOf (x_callbackRef c) (default any_value cls)));
                if negb (default true result) || negb (ret =? ANI_OK) then end_with destroy
                else
                  on_runtime (ani (FunctionalObject_Call (x_callbackRef c) [businessError; param])) ;;
                  end_with destroy))
      end).
End TaiheTransfer.
