(* ===== verification/TaiheSerial.v ===== *)
(** * The functions of the ArkTS module serialManager

    [frameworks/ets/taihe/usb_manager/src/ohos.usbManager.serial.impl.cpp]: every function of
    [ohos.usbManager.serial.taihe].  The enumerations of a serial port are keys of classes
    that Taihe generates ([EnumRuntime]). *)

From S2P Require Import Prelude Text UsbErrors UsbTypes Napi Platform.
From S2P Require Import HostDriver HostEvents HostPolicy ServiceHost ServiceSerial ServiceGate ServicePorts Client.
From S2P Require Import TaiheTypes TaiheWorld TaiheCalls.
From S2P Require Service.

#[local] Set Default Goal Selector "!".

(** ** Codes *)
(** [ohos.usbManager.serial.impl.cpp:38-38] [SYSPARAM_INVALID_INPUT] *)
Definition SYSPARAM_INVALID_INPUT : Z := 401.
(** [ohos.usbManager.serial.impl.cpp:39-39] [SERIAL_SYSAPI_NOPERMISSION_CALL] *)
Definition SERIAL_SYSAPI_NOPERMISSION_CALL : Z := 201.
(** [ohos.usbManager.serial.impl.cpp:40-40] [SERIAL_SYSAPI_PERMISSION_DENIED] *)
Definition SERIAL_SYSAPI_PERMISSION_DENIED : Z := 202.
(** [ohos.usbManager.serial.impl.cpp:41-41] [SERIAL_SERVICE_ABNORMAL] *)
Definition SERIAL_SERVICE_ABNORMAL : Z := 31400001.
(** [ohos.usbManager.serial.impl.cpp:42-42] [SERIAL_INTERFACE_PERMISSION_DENIED] *)
Definition SERIAL_INTERFACE_PERMISSION_DENIED : Z := 31400002.
(** [ohos.usbManager.serial.impl.cpp:43-43] [SERIAL_PORT_NOT_EXIST] *)
Definition SERIAL_PORT_NOT_EXIST : Z := 31400003.
(** [ohos.usbManager.serial.impl.cpp:44-44] [SERIAL_PORT_OCCUPIED] *)
Definition SERIAL_PORT_OCCUPIED : Z := 31400004.
(** [ohos.usbManager.serial.impl.cpp:45-45] [SERIAL_PORT_NOT_OPEN] *)
Definition SERIAL_PORT_NOT_OPEN : Z := 31400005.
(** [ohos.usbManager.serial.impl.cpp:46-46] [SERIAL_TIMED_OUT] *)
Definition SERIAL_TIMED_OUT : Z := 31400006.
(** [ohos.usbManager.serial.impl.cpp:47-47] [SERIAL_IO_EXCEPTION] *)
Definition SERIAL_IO_EXCEPTION : Z := 31400007.
(** [ohos.usbManager.serial.impl.cpp:48-48] [UEC_COMMON_RIGHT_DATABASE_ERROR] *)
Definition UEC_COMMON_RIGHT_DATABASE_ERROR : Z := 14400005.
(** [ohos.usbManager.serial.impl.cpp:74-74] [MAX_READ_BUF_SIZE] *)
Definition MAX_READ_BUF_SIZE : Z := 8192.
(** [ohos.usbManager.serial.impl.cpp:75-75] [MAX_WRITE_BUF_SIZE] *)
Definition MAX_WRITE_BUF_SIZE : Z := 128000.

(** ** The structures of the IDL *)
(** [ohos.usbManager.serial.taihe:44-49] [SerialPort] *)
Record SerialPort := mk_SerialPort { s_portId : Z; s_deviceName : string }.
(** [ohos.usbManager.serial.taihe:50-59] [SerialAttribute] *)
Record SerialAttribute := mk_SerialAttribute {
  s_baudRate : Z; s_dataBits : option Z; s_parity : option Z; s_stopBits : option Z }.
(** [ohos.usbManager.serial.taihe:60-121] [BaudRates] *)
Definition BaudRates_table : list Z :=
  [50; 75; 110; 134; 150; 200; 300; 600; 1200; 1800; 2400; 4800; 9600; 19200; 38400; 57600;
   115200; 230400; 460800; 500000; 576000; 921600; 1000000; 1152000; 1500000; 2000000; 2500000;
   3000000; 3500000; 4000000].
(** [ohos.usbManager.serial.taihe:122-131] [DataBits] *)
Definition DataBits_table : list Z := [8; 7; 6; 5].
(** [ohos.usbManager.serial.taihe:132-143] [Parity] *)
Definition Parity_table : list Z := [0; 1; 2; 3; 4].
(** [ohos.usbManager.serial.taihe:144-149] [StopBits] *)
Definition StopBits_table : list Z := [0; 1].

Section TaiheSerial.
Context {E A S O : Type} `{RT : Runtime E} `{AS : AniStatus} `{ER : EnumRuntime} `{UN : Uninitialised}.
Context `{EB : ErrBase} `{AC : AbilityAccess A} `{UA : UsbAbility} `{US : UsbServer S}.
Context `{SY : System O} `{SC : Securec}.
Abbreviation world := (TaiheWorld.world E A S O).
Abbreviation Api R := (ST world (option R)).

(** [ohos.usbManager.serial.impl.cpp:53-66] [ErrorCodeConversion] *)
Definition errorMap : list (Z * Z) :=
  [(UEC_SERVICE_PERMISSION_DENIED_SYSAPI, SERIAL_SYSAPI_PERMISSION_DENIED);
   (UEC_SERVICE_PERMISSION_DENIED, SERIAL_INTERFACE_PERMISSION_DENIED);
   (UEC_SERVICE_PERMISSION_DENIED_SYSAPI_FAILED, SERIAL_SYSAPI_NOPERMISSION_CALL);
   (UEC_SERIAL_PORT_REPEAT_OPEN, SERIAL_PORT_OCCUPIED);
   (UEC_SERIAL_PORT_REPEAT_CLOSE, SERIAL_PORT_OCCUPIED);
   (UEC_SERIAL_PORT_OCCUPIED, SERIAL_PORT_OCCUPIED);
   (UEC_SERIAL_DEVICENOTOPEN, SERIAL_PORT_NOT_OPEN);
   (UEC_SERIAL_PORT_NOT_OPEN, SERIAL_PORT_NOT_OPEN);
   (UEC_INTERFACE_TIMED_OUT, SERIAL_TIMED_OUT);
   (UEC_SERIAL_IO_EXCEPTION, SERIAL_IO_EXCEPTION);
   (UEC_SERIAL_PORT_NOT_EXIST, SERIAL_PORT_NOT_EXIST);
   (UEC_SERIAL_DATEBASE_ERROR, UEC_COMMON_RIGHT_DATABASE_ERROR)].
(** [ohos.usbManager.serial.impl.cpp:51-72] [ErrorCodeConversion] *)
Definition ErrorCodeConversion (value : Z) : Z :=
  from_option snd SERIAL_SERVICE_ABNORMAL (head (filter (λ p, p.1 = value) errorMap)).

(** [ohos.usbManager.serial.impl.cpp:84-92] [CheckAndThrowOnError] *)
Definition CheckAndThrowOnError (assertion : bool) (errCode : Z) (errMsg : string) : ST world bool :=
  if negb assertion then set_business_error errCode errMsg ;; mret false else mret true.
(** [set_business_error], and the value that is then returned. *)
Definition refuse {R} (errCode : Z) (msg : string) (r : R) : Api R := set_business_error errCode msg ;; give r.

(** [ohos.usbManager.serial.impl.cpp:174-177] [OpenSerial] the first lines of a function of a port *)
Definition check_port {R} (ok : bool) (msg : string) (r : R) (k : Api R) : Api R :=
  checked ← CheckAndThrowOnError ok SYSPARAM_INVALID_INPUT msg;
  if negb checked then give r else k.
(** [ohos.usbManager.serial.impl.cpp:179-179] [OpenSerial] its last lines *)
Definition check_code {R} (ret : Z) (msg : string) (r : R) : Api R :=
  CheckAndThrowOnError (ret =? 0) (ErrorCodeConversion ret) msg ;; give r.

(** ** Ports and rights *)

(** [ohos.usbManager.serial.impl.cpp:94-112] [GetPortList] *)
Definition GetPortList : Api (list SerialPort) :=
  invoke (SerialGetPortList []) (λ '(ret, portIds),
    if ret <? 0 then give []
    else give ((λ port, mk_SerialPort (usp_portId_ port)
                  (Service.to_string (usp_busNum_ port) +:+ "-" +:+ Service.to_string (usp_devAddr_ port))%string)
                 <$> portIds)).

(** [ohos.usbManager.serial.impl.cpp:114-126] [HasSerialRight] *)
Definition HasSerialRight (portId : Z) : Api bool :=
  check_port (0 <=? portId) "HasSerialRight failed." false
    (invoke (Client.HasSerialRight portId false) (λ '(ret, hasRight),
       check_code ret "HasSerialRight failed." hasRight)).

(** [ohos.usbManager.serial.impl.cpp:128-141] [RequestSerialRight] *)
Definition RequestSerialRight (portId : Z) : Api bool :=
  check_port (0 <=? portId) "RequestSerialRight failed." false
    (invoke (Client.RequestSerialRight portId false) (λ '(ret, hasRight),
       check_code ret "RequestSerialRight failed." hasRight)).

(** [ohos.usbManager.serial.impl.cpp:143-157] [AddSerialRight] *)
Definition AddSerialRight (tokenId portId : Z) : Api unit :=
  check_port (0 <? tokenId) "AddSerialRight failed." tt
    (check_port (0 <=? portId) "AddSerialRight failed." tt
       (invoke (Client.AddSerialRight (u32 tokenId) portId) (λ ret, check_code ret "AddSerialRight failed." tt))).

(** [ohos.usbManager.serial.impl.cpp:159-169] [CancelSerialRight] *)
Definition CancelSerialRight (portId : Z) : Api unit :=
  check_port (0 <=? portId) "CancelSerialRight failed." tt
    (invoke (Client.CancelSerialRight portId) (λ ret, check_code ret "CancelSerialRight failed." tt)).

(** ** Sessions *)

(** [ohos.usbManager.serial.impl.cpp:171-181] [OpenSerial] *)
Definition OpenSerial (portId : Z) : Api unit :=
  check_port (0 <=? portId) "OpenSerial failed." tt
    (invoke (SerialOpen portId) (λ ret, check_code ret "OpenSerial failed." tt)).

(** [ohos.usbManager.serial.impl.cpp:183-193] [CloseSerial] *)
Definition CloseSerial (portId : Z) : Api unit :=
  check_port (0 <=? portId) "CloseSerial failed." tt
    (invoke (SerialClose portId) (λ ret, check_code ret "CloseSerial failed." tt)).

(** [ohos.usbManager.serial.impl.cpp:195-205] [SerialAttributeToTaihe] *)
Definition SerialAttributeToTaihe (serialAttribute : UsbSerialAttr) : SerialAttribute :=
  mk_SerialAttribute (from_value BaudRates_table (baudRate_ serialAttribute))
    (Some (from_value DataBits_table (dataBits_ serialAttribute)))
    (Some (from_value Parity_table (parity_ serialAttribute)))
    (Some (from_value StopBits_table (stopBits_ serialAttribute))).

(** [ohos.usbManager.serial.impl.cpp:207-227] [GetAttribute] *)
Definition GetAttribute (portId : Z) : Api SerialAttribute :=
  let taiheSerialAttribute := mk_SerialAttribute (key 0) None None None in
  if portId <? 0 then refuse SYSPARAM_INVALID_INPUT "portId is invalid!" taiheSerialAttribute
  else
    invoke (SerialGetAttribute portId (mk_UsbSerialAttr any_int any_int any_int any_int)) (λ '(ret, serialAttribute),
      if negb (ret =? 0) then refuse (ErrorCodeConversion ret) "Failed to get attribute!" taiheSerialAttribute
      else give (SerialAttributeToTaihe serialAttribute)).

(** [ohos.usbManager.serial.impl.cpp:229-271] [SetAttribute] *)
Definition SetAttribute (portId : Z) (attribute : SerialAttribute) : Api unit :=
  if portId <? 0 then refuse SYSPARAM_INVALID_INPUT "portId is invalid!" tt
  else
    match s_dataBits attribute with
    | None => refuse SYSPARAM_INVALID_INPUT "attribute.dataBits is invalid!" tt
    | Some dataBits =>
        match s_parity attribute with
        | None => refuse SYSPARAM_INVALID_INPUT "attribute.parity is invalid!" tt
        | Some parity =>
            match s_stopBits attribute with
            | None => refuse SYSPARAM_INVALID_INPUT "attribute.stopBits is invalid!" tt
            | Some stopBits =>
                let serialAttribute :=
                  mk_UsbSerialAttr (get_value BaudRates_table (s_baudRate attribute))
                    (get_value DataBits_table dataBits) (get_value Parity_table parity)
                    (get_value StopBits_table stopBits) in
                invoke (SerialSetAttribute portId serialAttribute) (λ ret,
                  if negb (ret =? 0) then refuse (ErrorCodeConversion ret) "Failed to set attribute!" tt
                  else give tt)
            end
        end
    end.

(** ** Reading and writing *)

(** [ohos.usbManager.serial.impl.cpp:273-336] [ReadSync] *)
Definition ReadSync (portId buffer : Z) (timeout : option Z) : Api Z :=
  if portId <? 0 then refuse SYSPARAM_INVALID_INPUT "portId is invalid!" ERROR
  else
    array_buffer buffer (refuse SYSPARAM_INVALID_INPUT "buffer is invalid!" ERROR) (λ data dataSize,
      if (data =? nullptr) || (MAX_READ_BUF_SIZE <? dataSize) then
        refuse SYSPARAM_INVALID_INPUT "buffer size > 8192 byte!" ERROR
      else
        match timeout with
        | None => refuse SYSPARAM_INVALID_INPUT "timeout is invalid!" ERROR
        | Some timeout =>
            invoke (SerialRead portId [] (u32 dataSize) 0 (u32 timeout)) (λ '(ret, (bufferData, actualSize)),
              if negb (ret =? 0) then refuse (ErrorCodeConversion ret) "readSync Failed!" ERROR
              else
                let actualSize :=
                  if negb (Z.of_nat (length bufferData) =? actualSize) then u32 (Z.of_nat (length bufferData))
                  else actualSize in
                let actualSize := if dataSize <? actualSize then u32 dataSize else actualSize in
                ret ← (if 0 <? actualSize then copy_to_array data dataSize (take (Z.to_nat actualSize) bufferData)
                       else mret ret);
                give (if ret =? UEC_OK then i32 actualSize else ERROR))
        end).

(** [ohos.usbManager.serial.impl.cpp:338-371] [WriteSync] *)
Definition WriteSync (portId : Z) (buffer : list Z) (timeout : option Z) : Api Z :=
  if portId <? 0 then refuse SYSPARAM_INVALID_INPUT "portId is invalid!" ERROR
  else if MAX_WRITE_BUF_SIZE <? Z.of_nat (length buffer) then
    refuse SYSPARAM_INVALID_INPUT "buffer size > 128kb!" ERROR
  else
    match timeout with
    | None => refuse SYSPARAM_INVALID_INPUT "timeout is invalid!" ERROR
    | Some timeout =>
        invoke (SerialWrite portId buffer (Z.of_nat (length buffer)) 0 (u32 timeout)) (λ '(ret, actualSize),
          if negb (ret =? 0) then refuse (ErrorCodeConversion ret) "writeSync Failed!" ERROR
          else give (i32 actualSize))
    end.
End TaiheSerial.
