(* ===== verification/TaiheModule.v ===== *)
(** * What an ArkTS application can call

    The two modules together: the functions that [TH_EXPORT_CPP_API_...] registers at the end
    of [ohos.usbManager.impl.cpp] and [ohos.usbManager.serial.impl.cpp], as one datatype of
    calls with one function that runs them, and the steps of the process of the application:
    a call, a completion of the service, a task of the main thread, or anything that the
    runtime, the service and the system do by themselves. *)

From S2P Require Import Prelude Text UsbErrors UsbTypes Napi Platform.
From S2P Require Import HostDriver HostEvents HostPolicy ServiceHost ServiceSerial ServiceGate ServicePorts Client.
From S2P Require Import TaiheTypes TaiheWorld TaiheCalls TaiheTransfer TaiheSerial.
Import usbManager.

#[local] Set Default Goal Selector "!".

(** [ohos.usbManager.impl.cpp:1354-1385] [TH_EXPORT_CPP_API_] *)
Inductive UsbCall :=
  | TH_getDevices | TH_connectDevice (device : USBDevice) | TH_hasRight (deviceName : string)
  | TH_requestRightSync (deviceName : string) | TH_removeRight (deviceName : string)
  | TH_addDeviceAccessRight (tokenId deviceName : string) | TH_getFunctionsFromString (funcs : string)
  | TH_getStringFromFunctions (funcs : Z) | TH_setDeviceFunctionsSync (funcs : Z) | TH_getDeviceFunctions
  | TH_getPortList | TH_getPortSupportModes (portId : Z)
  | TH_setPortRoleTypesSync (portId powerRole dataRole : Z)
  | TH_addAccessoryRight (tokenId : Z) (accessory : usbManager.USBAccessory)
  | TH_claimInterface (pipe : usbManager.USBDevicePipe) (iface : USBInterface) (force : option bool)
  | TH_releaseInterface (pipe : usbManager.USBDevicePipe) (iface : USBInterface)
  | TH_setConfiguration (pipe : usbManager.USBDevicePipe) (config : USBConfiguration)
  | TH_setInterface (pipe : usbManager.USBDevicePipe) (iface : USBInterface)
  | TH_getRawDescriptor (pipe : usbManager.USBDevicePipe)
  | TH_getFileDescriptor (pipe : usbManager.USBDevicePipe)
  | TH_usbControlTransferSync (pipe : usbManager.USBDevicePipe) (requestparam : USBDeviceRequestParams)
      (timeout : option Z)
  | TH_bulkTransferSync (pipe : usbManager.USBDevicePipe) (endpoint : usbManager.USBEndpoint) (buffer : Z)
      (timeout : option Z)
  | TH_closePipe (pipe : usbManager.USBDevicePipe)
  | TH_hasAccessoryRight (accessory : usbManager.USBAccessory)
  | TH_requestAccessoryRightSync (accessory : usbManager.USBAccessory)
  | TH_cancelAccessoryRight (accessory : usbManager.USBAccessory) | TH_getAccessoryList
  | TH_openAccessory (accessory : usbManager.USBAccessory) | TH_closeAccessory (accessoryFd : Z)
  | TH_usbSubmitTransfer (transfer : UsbDataTransferParams)
  | TH_usbCancelTransfer (transfer : UsbDataTransferParams)
  | TH_resetUsbDevice (pipe : usbManager.USBDevicePipe).
(** [ohos.usbManager.serial.impl.cpp:376-386] [TH_EXPORT_CPP_API_] *)
Inductive SerialCall :=
  | TH_getSerialPortList | TH_hasSerialRight (portId : Z) | TH_requestSerialRightSync (portId : Z)
  | TH_addSerialRight (tokenId portId : Z) | TH_cancelSerialRight (portId : Z) | TH_open (portId : Z)
  | TH_close (portId : Z) | TH_getAttribute (portId : Z)
  | TH_setAttribute (portId : Z) (attribute : SerialAttribute)
  | TH_readSync (portId buffer : Z) (timeout : option Z)
  | TH_writeSync (portId : Z) (buffer : list Z) (timeout : option Z).

(** The part of the build that a function of [usbManager] needs. *)
Definition feature_of (c : UsbCall) : UsbManagerFeature :=
  match c with
  | TH_getFunctionsFromString _ | TH_getStringFromFunctions _ | TH_setDeviceFunctionsSync _
  | TH_getDeviceFunctions | TH_addAccessoryRight _ _ | TH_hasAccessoryRight _
  | TH_requestAccessoryRightSync _ | TH_cancelAccessoryRight _ | TH_getAccessoryList | TH_openAccessory _
  | TH_closeAccessory _ => FEATURE_DEVICE
  | TH_getPortList | TH_getPortSupportModes _ | TH_setPortRoleTypesSync _ _ _ => FEATURE_PORT
  | _ => FEATURE_HOST
  end.

Section TaiheModule.
Context {E A S O : Type} `{RT : Runtime E} `{AS : AniStatus} `{ER : EnumRuntime} `{UN : Uninitialised}.
Context `{EB : ErrBase} `{AC : AbilityAccess A} `{UA : UsbAbility} `{US : UsbServer S}.
Context `{FE : Features} `{SY : System O} `{JE : JsErrBase} `{SC : Securec}.
Abbreviation world := (TaiheWorld.world E A S O).
Abbreviation Api R := (ST world (option R)).
Implicit Types w : world.

(** A call, with its result left out: whether it comes back. *)
Definition ignore {R} (m : Api R) : Api unit := fmap (λ _ : R, tt) <$> m.
(** [ohos.usbManager.impl.cpp:1354-1385] [TH_EXPORT_CPP_API_] *)
Definition run_usb (c : UsbCall) : Api unit :=
  match c with
  | TH_getDevices => ignore getDevices
  | TH_connectDevice device => ignore (connectDevice device)
  | TH_hasRight deviceName => ignore (hasRight deviceName)
  | TH_requestRightSync deviceName => ignore (requestRightSync deviceName)
  | TH_removeRight deviceName => ignore (removeRight deviceName)
  | TH_addDeviceAccessRight tokenId deviceName => ignore (addDeviceAccessRight tokenId deviceName)
  | TH_getFunctionsFromString funcs => ignore (getFunctionsFromString funcs)
  | TH_getStringFromFunctions funcs => ignore (getStringFromFunctions funcs)
  | TH_setDeviceFunctionsSync funcs => setDeviceFunctionsSync funcs
  | TH_getDeviceFunctions => ignore getDeviceFunctions
  | TH_getPortList => ignore getPortList
  | TH_getPortSupportModes portId => ignore (getPortSupportModes portId)
  | TH_setPortRoleTypesSync portId powerRole dataRole => setPortRoleTypesSync portId powerRole dataRole
  | TH_addAccessoryRight tokenId accessory => addAccessoryRight tokenId accessory
  | TH_claimInterface pipe iface force => ignore (claimInterface pipe iface force)
  | TH_releaseInterface pipe iface => ignore (releaseInterface pipe iface)
  | TH_setConfiguration pipe config => ignore (setConfiguration pipe config)
  | TH_setInterface pipe iface => ignore (setInterface pipe iface)
  | TH_getRawDescriptor pipe => ignore (getRawDescriptor pipe)
  | TH_getFileDescriptor pipe => ignore (getFileDescriptor pipe)
  | TH_usbControlTransferSync pipe requestparam timeout => ignore (usbControlTransferSync pipe requestparam timeout)
  | TH_bulkTransferSync pipe endpoint buffer timeout => ignore (bulkTransferSync pipe endpoint buffer timeout)
  | TH_closePipe pipe => ignore (closePipe pipe)
  | TH_hasAccessoryRight accessory => ignore (hasAccessoryRight accessory)
  | TH_requestAccessoryRightSync accessory => ignore (requestAccessoryRightSync accessory)
  | TH_cancelAccessoryRight accessory => cancelAccessoryRight accessory
  | TH_getAccessoryList => ignore getAccessoryList
  | TH_openAccessory accessory => ignore (openAccessory accessory)
  | TH_closeAccessory accessoryFd => closeAccessory accessoryFd
  | TH_usbSubmitTransfer transfer => usbSubmitTransfer transfer
  | TH_usbCancelTransfer transfer => usbCancelTransfer transfer
  | TH_resetUsbDevice pipe => ignore (resetUsbDevice pipe)
  end.
(** [ohos.usbManager.serial.impl.cpp:376-386] [TH_EXPORT_CPP_API_] *)
Definition run_serial (c : SerialCall) : Api unit :=
  match c with
  | TH_getSerialPortList => ignore GetPortList
  | TH_hasSerialRight portId => ignore (HasSerialRight portId)
  | TH_requestSerialRightSync portId => ignore (RequestSerialRight portId)
  | TH_addSerialRight tokenId portId => AddSerialRight tokenId portId
  | TH_cancelSerialRight portId => CancelSerialRight portId
  | TH_open portId => OpenSerial portId
  | TH_close portId => CloseSerial portId
  | TH_getAttribute portId => ignore (GetAttribute portId)
  | TH_setAttribute portId attribute => SetAttribute portId attribute
  | TH_readSync portId buffer timeout => ignore (ReadSync portId buffer timeout)
  | TH_writeSync portId buffer timeout => ignore (WriteSync portId buffer timeout)
  end.
Definition run_call (c : UsbCall + SerialCall) : Api unit :=
  match c with inl c => run_usb c | inr c => run_serial c end.

(** ** Steps

    Each step runs as a whole.  A run that goes through a null or a dangling pointer ends the
    process, so it has no step; that completions and tasks have no such run is a theorem
    ([TaiheOwnership.contexts_owned]), not a condition of the steps.  What the code relies on
    without a check: the allocator gives out addresses that are not in use; and the service
    completes a transfer that it has taken ([in_flight]) with the user data it was given, and
    completes it once. *)
Definition allocates w : Prop :=
  ∀ p o, allocate (system w) = (Some p, o) → contexts w !! p = None ∧ 0 <= p < 2 ^ 64.
Inductive step : world → world → Prop :=
  | step_call c w w' :
      allocates w → run_call c w = (Some tt, w') → step w w'
  | step_complete thread p info isoInfo w w' :
      p ∈ in_flight w →
      AniCallBack thread p info isoInfo (set_in_flight (in_flight w ∖ {[p]}) w) = (Some tt, w') → step w w'
  | step_task task rest w w' :
      posted w = task :: rest →
      callback_task task (set_posted rest w) = (Some tt, w') → step w w'
  | step_outside e l o w : step w (set_system o (set_lib l (set_runtime e w))).

Inductive reachable (w0 : world) : world → Prop :=
  | reachable_start : reachable w0 w0
  | reachable_step w w' : reachable w0 w → step w w' → reachable w0 w'.
End TaiheModule.
