(* ===== verification/TaiheLaws.v ===== *)
(** * What every call of the ArkTS modules has in common

    [stays f]: an operation leaves the part [f] of the world alone; [tells]: it hands at most
    one error to the runtime, with a code that the modules document.  The theorems of this
    file are about all the functions of the two modules. *)

From S2P Require Import Prelude Text UsbErrors UsbTypes Napi Platform.
From S2P Require Import HostDriver HostEvents HostPolicy ServiceHost ServiceSerial ServiceGate ServicePorts Client.
From S2P Require Import TaiheTypes TaiheWorld TaiheCalls TaiheTransfer TaiheSerial TaiheModule.

#[local] Set Default Goal Selector "!".

(** The codes of the two modules: those with a message, 14400013, which has none, and those
    of a serial port. *)
Definition documented : list Z :=
  (ERRCODE_MSG_MAP.*1) ++
  [USB_DEVICE_PIPE_CHECK_ERROR; SERIAL_SERVICE_ABNORMAL; SERIAL_INTERFACE_PERMISSION_DENIED; SERIAL_PORT_NOT_EXIST;
   SERIAL_PORT_OCCUPIED; SERIAL_PORT_NOT_OPEN; SERIAL_TIMED_OUT; SERIAL_IO_EXCEPTION].

Lemma ErrorCodeConversion_documented `{ErrBase} ret : ErrorCodeConversion ret ∈ documented.
Proof.
  unfold ErrorCodeConversion.
  assert (Hall : Forall (λ p : Z * Z, p.2 ∈ documented) errorMap).
  { unfold errorMap. repeat (constructor; [by apply (bool_decide_unpack _); vm_compute|]). constructor. }
  destruct (head _) as [[k c]|] eqn:Hh; cbn; [|by apply (bool_decide_unpack _); vm_compute].
  apply head_Some_elem_of, list_elem_of_filter in Hh as [_ Hin].
  rewrite Forall_forall in Hall. exact (Hall _ Hin).
Qed.
Lemma UsbSubmitTransferErrorCode_documented `{ErrBase} ret : UsbSubmitTransferErrorCode ret ∈ documented.
Proof. unfold UsbSubmitTransferErrorCode. repeat case_match; by apply (bool_decide_unpack _); vm_compute. Qed.

Section TaiheLaws.
Context {E A S O : Type} `{RT : Runtime E} `{AS : AniStatus} `{ER : EnumRuntime} `{UN : Uninitialised}.
Context `{EB : ErrBase} `{AC : AbilityAccess A} `{UA : UsbAbility} `{US : UsbServer S}.
Context `{FE : Features} `{SY : System O} `{JE : JsErrBase} `{SC : Securec}.
Abbreviation world := (TaiheWorld.world E A S O).
Abbreviation Api R := (ST world (option R)).
Implicit Types w : world.

(** ** What stays *)
Definition stays {F} (f : world → F) {X} (m : ST world X) : Prop := ∀ w, f (m w).2 = f w.

(** A part of the world that is not behind the runtime, the library or the system. *)
Class Kept {F} (f : world → F) := {
  kept_runtime e w : f (set_runtime e w) = f w;
  kept_lib l w : f (set_lib l w) = f w;
  kept_system o w : f (set_system o w) = f w;
}.
#[export] Instance kept_reports : Kept reports. Proof. done. Qed.
#[export] Instance kept_contexts : Kept contexts. Proof. done. Qed.
#[export] Instance kept_posted : Kept posted. Proof. done. Qed.
#[export] Instance kept_g_accFd : Kept g_accFd. Proof. done. Qed.
#[export] Instance kept_in_flight : Kept in_flight. Proof. done. Qed.

Section Stays.
Context {F} (f : world → F) `{KF : !Kept f}.

Lemma stays_ret {X} (x : X) : stays f (mret x).
Proof. done. Qed.
Lemma stays_give {R} (r : R) : stays f (give r : Api R).
Proof. done. Qed.
Lemma stays_gets {X} (g : world → X) : stays f (gets g).
Proof. done. Qed.
Lemma stays_bind {X Y} (m : ST world X) (k : X → ST world Y) :
  stays f m → (∀ x, stays f (k x)) → stays f (m ≫= k).
Proof. intros Hm Hk w. rewrite bind_unfold, Hk. apply Hm. Qed.
Lemma stays_fmap {X Y} (g : X → Y) (m : ST world X) : stays f m → stays f (g <$> m).
Proof. intros Hm w. specialize (Hm w). unfold fmap, ST_fmap. by destruct (m w). Qed.
Lemma stays_on_runtime {X} (m : ST E X) : stays f (on_runtime m).
Proof. intros w. unfold on_runtime. destruct (m _). apply kept_runtime. Qed.
Lemma stays_on_lib {X} (m : ST (Client.st (A := A) (S := S)) X) : stays f (on_lib m).
Proof. intros w. unfold on_lib. destruct (m _). apply kept_lib. Qed.
Lemma stays_on_system {X} (m : ST O X) : stays f (on_system m).
Proof. intros w. unfold on_system. destruct (m _). apply kept_system. Qed.
Lemma stays_invoke {X R} (m : ST (Client.st (A := A) (S := S)) (option X)) (k : X → Api R) :
  (∀ x, stays f (k x)) → stays f (invoke m k).
Proof. intros Hk. apply stays_bind; [apply stays_on_lib|]. intros [x|]; [apply Hk|apply stays_ret]. Qed.
Lemma stays_with_env {R} (k : Api R) : stays f k → stays f (with_env k).
Proof. intros Hk. apply stays_bind; [apply stays_on_runtime|]. intros env. case_match; [apply stays_ret|apply Hk]. Qed.
Lemma stays_ani_or {X : Set} {R} (op : AniOp X) (failed : Api R) (k : option X → Api R) :
  stays f failed → (∀ x, stays f (k x)) → stays f (ani_or op failed k).
Proof.
  intros Hf Hk. apply stays_bind; [apply stays_on_runtime|]. intros [status out]. cbv beta iota.
  case_match; [apply Hf|apply Hk].
Qed.
Lemma stays_array_buffer {R} b (failed : Api R) (k : Z → Z → Api R) :
  stays f failed → (∀ data size, stays f (k data size)) → stays f (array_buffer b failed k).
Proof.
  intros Hf Hk. apply stays_with_env, stays_ani_or; [apply Hf|]. intros ref. apply stays_ani_or; [apply Hf|].
  intros info. destruct (default _ info). apply Hk.
Qed.
Lemma stays_copy_to_array data size bytes : stays f (copy_to_array data size bytes).
Proof.
  unfold copy_to_array. destruct (memcpy_s _ _ _) as [ret [l|]]; [|apply stays_ret].
  apply stays_bind; [|intros; apply stays_ret]. intros w. apply kept_runtime.
Qed.
End Stays.

(** ** What is told *)
Definition tells {X} (m : ST world X) : Prop :=
  ∀ w, ∃ l, reports (m w).2 = reports w ++ l ∧ (length l ≤ 1)%nat ∧ Forall (λ r, r.1 ∈ documented) l.

Lemma stays_tells {X} (m : ST world X) : stays reports m → tells m.
Proof. intros Hm w. exists []. rewrite app_nil_r, Hm. split_and!; [done|cbn; lia|constructor]. Qed.
Lemma tells_bind {X Y} (m : ST world X) (k : X → ST world Y) :
  stays reports m → (∀ x, tells (k x)) → tells (m ≫= k).
Proof.
  intros Hm Hk w. rewrite bind_unfold. destruct (Hk (m w).1 (m w).2) as (l & Hl & H).
  exists l. by rewrite Hl, Hm.
Qed.
Lemma tells_bind_r {X Y} (m : ST world X) (k : X → ST world Y) :
  tells m → (∀ x, stays reports (k x)) → tells (m ≫= k).
Proof. intros Hm Hk w. rewrite bind_unfold, Hk. apply Hm. Qed.
Lemma tells_fmap {X Y} (g : X → Y) (m : ST world X) : tells m → tells (g <$> m).
Proof. intros Hm w. specialize (Hm w). unfold fmap, ST_fmap. by destruct (m w). Qed.
Lemma tells_set_business_error code msg : code ∈ documented → tells (set_business_error code msg : ST world unit).
Proof. intros Hc w. exists [(code, msg)]. split_and!; [done|cbn; lia|]. by constructor. Qed.
Lemma tells_fail {R} code msg (r : R) : code ∈ documented → tells (fail code msg r : Api R).
Proof.
  intros Hc. apply tells_bind_r; [by apply tells_set_business_error|]. intros. apply stays_give.
Qed.
Lemma tells_refuse {R} code msg (r : R) : code ∈ documented → tells (refuse code msg r : Api R).
Proof.
  intros Hc. apply tells_bind_r; [by apply tells_set_business_error|]. intros. apply stays_give.
Qed.
Lemma tells_require_feature {R} feature (r : R) (k : Api R) : tells k → tells (require_feature feature r k).
Proof.
  intros Hk. unfold require_feature. case_match; [|done]. apply tells_fail.
  by apply (bool_decide_unpack _); vm_compute.
Qed.
Lemma tells_invoke {X R} (m : ST (Client.st (A := A) (S := S)) (option X)) (k : X → Api R) :
  (∀ x, tells (k x)) → tells (invoke m k).
Proof.
  intros Hk. apply tells_bind; [apply stays_on_lib, _|]. intros [x|]; [apply Hk|apply stays_tells, stays_ret].
Qed.
Lemma tells_with_env {R} (k : Api R) : tells k → tells (with_env k).
Proof.
  intros Hk. apply tells_bind; [apply stays_on_runtime, _|]. intros env.
  case_match; [apply stays_tells, stays_ret|apply Hk].
Qed.
Lemma tells_ani_or {X : Set} {R} (op : AniOp X) (failed : Api R) (k : option X → Api R) :
  tells failed → (∀ x, tells (k x)) → tells (ani_or op failed k).
Proof.
  intros Hf Hk. apply tells_bind; [apply stays_on_runtime, _|]. intros [status out]. cbv beta iota.
  case_match; [apply Hf|apply Hk].
Qed.
Lemma tells_array_buffer {R} b (failed : Api R) (k : Z → Z → Api R) :
  tells failed → (∀ data size, tells (k data size)) → tells (array_buffer b failed k).
Proof.
  intros Hf Hk. apply tells_with_env, tells_ani_or; [apply Hf|]. intros ref. apply tells_ani_or; [apply Hf|].
  intros info. destruct (default _ info). apply Hk.
Qed.
Lemma tells_check_port {R} ok msg (r : R) (k : Api R) : tells k → tells (check_port ok msg r k).
Proof.
  intros Hk. unfold check_port, CheckAndThrowOnError. destruct ok; cbn [negb].
  - apply tells_bind; [apply stays_ret|]. intros x. destruct x; [exact Hk|apply stays_tells, stays_give].
  - apply (tells_refuse SYSPARAM_INVALID_INPUT msg r). by apply (bool_decide_unpack _); vm_compute.
Qed.
Lemma tells_check_code {R} ret msg (r : R) : tells (check_code ret msg r : Api R).
Proof.
  unfold check_code, CheckAndThrowOnError. case_match; cbn [negb].
  - apply tells_bind_r; [|intros; apply stays_give]. apply tells_bind_r; [|intros; apply stays_ret].
    apply tells_set_business_error, ErrorCodeConversion_documented.
  - by apply stays_tells.
Qed.
End TaiheLaws.

Create HintDb told.
#[export] Hint Resolve stays_ret stays_give stays_gets stays_on_runtime stays_on_lib stays_on_system
  stays_copy_to_array tells_check_code ErrorCodeConversion_documented UsbSubmitTransferErrorCode_documented : told.
#[export] Hint Extern 1 (Kept _) => apply _ : told.

#[export] Hint Extern 4 (_ ∈ documented) => by apply (bool_decide_unpack _); vm_compute : told.

(** One step through the text of a function: what it is made of decides which lemma applies. *)
Ltac stay_step :=
  first
    [ solve [auto with told]
    | lazymatch goal with
      | |- stays _ (invoke _ _) => apply stays_invoke; [auto with told|]; intros
      | |- stays _ (array_buffer _ _ _) => apply stays_array_buffer; [auto with told| |intros]
      | |- stays _ (with_env _) => apply stays_with_env; [auto with told|]
      | |- stays _ (ani_or _ _ _) => apply stays_ani_or; [auto with told| |intros]
      | |- stays _ (_ ≫= _) => apply stays_bind; [|intros]
      | |- stays _ (_ <$> _) => apply stays_fmap
      | |- stays _ (match _ with _ => _ end) => case_match
      end ].
Ltac tell_step :=
  first
    [ solve [auto with told]
    | lazymatch goal with
      | |- tells (require_feature _ _ _) => apply tells_require_feature
      | |- tells (fail _ _ _) => apply tells_fail
      | |- tells (refuse _ _ _) => apply tells_refuse
      | |- tells (invoke _ _) => apply tells_invoke; intros
      | |- tells (check_port _ _ _ _) => apply tells_check_port
      | |- tells (array_buffer _ _ _) => apply tells_array_buffer; [|intros]
      | |- tells (with_env _) => apply tells_with_env
      | |- tells (ani_or _ _ _) => apply tells_ani_or; [|intros]
      | |- tells (_ <$> _) => apply tells_fmap
      | |- tells (match _ with _ => _ end) => case_match
      | |- tells (_ ≫= _) => first [apply tells_bind; [by repeat stay_step|intros] | apply tells_bind_r; [|by intros; repeat stay_step]]
      end
    | apply stays_tells; by repeat stay_step ].

Section TaiheContexts.
Context {E A S O : Type} `{RT : Runtime E} `{AS : AniStatus} `{ER : EnumRuntime} `{UN : Uninitialised}.
Context `{EB : ErrBase} `{AC : AbilityAccess A} `{UA : UsbAbility} `{US : UsbServer S}.
Context `{FE : Features} `{SY : System O} `{JE : JsErrBase} `{SC : Securec}.
Abbreviation world := (TaiheWorld.world E A S O).
Abbreviation Api R := (ST world (option R)).
Implicit Types w : world.

(** ** Contexts *)

(** The contexts but for the one at [p]. *)
Definition contexts_but (p : Z) w : gmap Z USBTransferAsyncContext := delete p (contexts w).
#[export] Instance kept_contexts_but p : Kept (contexts_but p : world → _).
Proof. done. Qed.

(** What a transfer under way leaves alone: the new values of its context at [p]. *)
Class KeptAt (p : Z) {F} (f : world → F) := {
  kept_kept :: Kept f;
  kept_store c c' w : contexts w !! p = Some c → x_pipe c' = x_pipe c → x_endpoint c' = x_endpoint c →
    f (set_contexts (<[p := c']> (contexts w)) w) = f w;
}.
#[export] Instance kept_at_reports p : KeptAt p (reports : world → _).
Proof. by split; [apply _|]. Qed.
#[export] Instance kept_at_posted p : KeptAt p (posted : world → _).
Proof. by split; [apply _|]. Qed.
#[export] Instance kept_at_in_flight p : KeptAt p (in_flight : world → _).
Proof. by split; [apply _|]. Qed.
#[export] Instance kept_at_contexts_but p : KeptAt p (contexts_but p : world → _).
Proof. split; [apply _|]. intros. apply delete_insert_eq. Qed.
(** The pipe and the endpoint of the context at [p]. *)
Definition aim_at (p : Z) w : option (Client.USBDevicePipe * Z) := (λ c, (x_pipe c, x_endpoint c)) <$> contexts w !! p.
#[export] Instance kept_aim_at p : Kept (aim_at p : world → _).
Proof. done. Qed.
#[export] Instance kept_at_aim p : KeptAt p (aim_at p : world → _).
Proof.
  split; [apply _|]. intros c c' w Hc Hp He. unfold aim_at. cbn. by rewrite lookup_insert_eq, Hc; cbn; rewrite Hp, He.
Qed.

#[export] Instance kept_pair {F G} (f : world → F) (g : world → G) :
  Kept f → Kept g → Kept (λ w, (f w, g w)).
Proof. intros Hf Hg. split; intros; f_equal; first [apply Hf|apply Hg]. Qed.
#[export] Instance kept_at_pair p {F G} (f : world → F) (g : world → G) :
  KeptAt p f → KeptAt p g → KeptAt p (λ w, (f w, g w)).
Proof. intros Hf Hg. split; [apply _|]. intros. by f_equal; eapply kept_store. Qed.

Section OneContext.
Context {F} (p : Z) (f : world → F) `{KF : !KeptAt p f}.

Lemma with_context_run {R} (k : USBTransferAsyncContext → Api R) w c :
  contexts w !! p = Some c → with_context p k w = k c w.
Proof. intros Hc. unfold with_context. rewrite bind_unfold. cbn. by rewrite Hc. Qed.
Lemma with_context_none {R} (k : USBTransferAsyncContext → Api R) w :
  contexts w !! p = None → with_context p k w = (None, w).
Proof. intros Hc. unfold with_context. rewrite bind_unfold. cbn. by rewrite Hc. Qed.

Lemma stays_update {R} (g : USBTransferAsyncContext → USBTransferAsyncContext) (r : R) :
  (∀ c, x_pipe (g c) = x_pipe c ∧ x_endpoint (g c) = x_endpoint c) →
  stays f (with_context p (λ c, store p (g c) ;; give r) : Api R).
Proof.
  intros Hg w. destruct (contexts w !! p) as [c|] eqn:Hc; [|by rewrite with_context_none].
  erewrite with_context_run by done. rewrite bind_unfold. cbn. by eapply kept_store; [|apply Hg..].
Qed.
Lemma stays_ExtractBufferData array_obj : stays f (ExtractBufferData p array_obj).
Proof.
  apply stays_with_env; [apply _|]. repeat (apply stays_ani_or; [apply _|apply stays_give|]; intros).
  destruct (default _ _). by apply stays_update.
Qed.
Lemma stays_SetupCallback obj : stays f (SetupCallback p obj).
Proof.
  apply stays_with_env; [apply _|]. apply stays_ani_or; [apply _|apply stays_give|]. intros.
  by apply stays_update.
Qed.
Lemma stays_CreateAndWriteAshmem obj : stays f (CreateAndWriteAshmem p obj).
Proof.
  intros w. unfold CreateAndWriteAshmem. destruct (contexts w !! p) as [c|] eqn:Hc; [|by rewrite with_context_none].
  erewrite with_context_run by done. rewrite bind_unfold. set (create := on_system (CreateAshmem _ _)).
  pose proof (stays_on_system contexts (CreateAshmem "CreateAshmem" (x_length c)) w) as Hc1. fold create in Hc1.
  pose proof (stays_on_system f (CreateAshmem "CreateAshmem" (x_length c)) w) as Hf1. fold create in Hf1.
  destruct (create w) as [ashmem w1]. cbn [fst snd] in *. rewrite bind_unfold. cbn [store modify fst snd].
  match goal with |- f (?m ?w0).2 = _ => assert (Hm : stays f m) end.
  { destruct ashmem as [[fd sz]|]; [|apply stays_give]. case_match; [|apply stays_give]. cbv zeta.
    repeat (apply stays_bind; [first [apply stays_gets|apply stays_on_system; apply _]|intros]).
    case_match; [|apply stays_give]. apply stays_bind; [apply stays_on_system; apply _|intros; apply stays_give]. }
  etrans; [apply Hm|].
  etrans; [by apply (kept_store c (set_ashmem ashmem c)); [rewrite Hc1|..]|exact Hf1].
Qed.
End OneContext.

Lemma on_runtime_run {X} (m : ST E X) w :
  on_runtime m w = ((m (runtime w)).1, set_runtime (m (runtime w)).2 w).
Proof. unfold on_runtime. by destruct (m (runtime w)). Qed.

(** [DeleteCallback] deletes the context, whatever the runtime says. *)
Lemma DeleteCallback_run p w c :
  contexts w !! p = Some c →
  ∃ e, DeleteCallback p w = (Some tt, set_contexts (delete p (contexts w)) (set_runtime e w)).
Proof.
  intros Hc. unfold DeleteCallback. rewrite bind_unfold, on_runtime_run. cbn [fst snd].
  erewrite with_context_run by (cbn; exact Hc). case_match; [by eexists|].
  rewrite bind_unfold, on_runtime_run. by eexists.
Qed.
Lemma on_system_run {X} (m : ST O X) w :
  on_system m w = ((m (system w)).1, set_system (m (system w)).2 w).
Proof. unfold on_system. by destruct (m (system w)). Qed.
Lemma on_lib_run {X} (m : ST (Client.st (A := A) (S := S)) X) w :
  on_lib m w = ((m (lib w)).1, set_lib (m (lib w)).2 w).
Proof. unfold on_lib. by destruct (m (lib w)). Qed.
Lemma invoke_run {X R} (m : ST (Client.st (A := A) (S := S)) (option X)) (k : X → Api R) w x l :
  m (lib w) = (Some x, l) → invoke m k w = k x (set_lib l w).
Proof. intros Hm. unfold invoke. by rewrite bind_unfold, on_lib_run, Hm. Qed.
Lemma DeleteCallback_none p w : contexts w !! p = None → (DeleteCallback p w).1 = None.
Proof.
  intros Hc. unfold DeleteCallback. rewrite bind_unfold, on_runtime_run. cbn [fst snd]. by rewrite with_context_none.
Qed.
Lemma stays_delete {F} p (f : world → F) `{KF : !Kept f} :
  (∀ m w, delete p m = delete p (contexts w) → f (set_contexts m w) = f w) →
  stays f (delete_context p) ∧ stays f (DeleteCallback p).
Proof.
  intros Hf.
  assert (Hd : ∀ w, f (set_contexts (delete p (contexts w)) w) = f w).
  { intros w. apply Hf. apply delete_delete_eq. }
  split; [exact Hd|]. intros w. destruct (contexts w !! p) as [c|] eqn:Hc.
  - destruct (DeleteCallback_run p w c Hc) as [e ->]. cbn [snd].
    etrans; [exact (Hd (set_runtime e w))|apply kept_runtime].
  - unfold DeleteCallback. rewrite bind_unfold, on_runtime_run. cbn [fst snd].
    rewrite with_context_none by done. apply kept_runtime.
Qed.

(** The user data of a transfer is the address of its context. *)
Lemma CreateAndWriteAshmem_userData p obj obj' b w w' :
  CreateAndWriteAshmem p obj w = (Some (b, obj'), w') → i_userData obj' = i_userData obj.
Proof.
  unfold CreateAndWriteAshmem, with_context. rewrite bind_unfold. cbn [gets fst snd].
  destruct (contexts w !! p) as [c|]; [|done]. rewrite bind_unfold, on_system_run, bind_unfold. cbn [fst snd].
  destruct (CreateAshmem _ _ _).1 as [[fd size]|]; [|by intros [= <- <-]].
  case_match; [|by intros [= <- <-]]. rewrite bind_unfold. cbn [gets fst snd]. cbv zeta.
  rewrite bind_unfold, on_system_run, bind_unfold, on_system_run. cbn [fst snd].
  case_match; [rewrite bind_unfold|]; by intros [= <- <-].
Qed.

(** ** All calls *)

Lemma tells_usbSubmitTransfer transfer : tells (usbSubmitTransfer transfer : Api unit).
Proof.
  apply tells_require_feature. intros w. rewrite bind_unfold. unfold CreateTransferContext. rewrite bind_unfold.
  pose proof (stays_on_system reports allocate w) as Hr.
  destruct (on_system allocate w) as [[p|] w1]; cbn [fst snd] in *.
  2: { rewrite <- Hr. apply (tells_fail CAPABILITY_NOT_SUPPORT "" tt). auto with told. }
  rewrite bind_unfold. cbn [store modify mret ST_ret fst snd]. rewrite <- Hr.
  match goal with |- context [reports (?m ?w2).2] => enough (Hm : tells m) by exact (Hm w2) end.
  clear. destruct (stays_delete p reports ltac:(done)) as [Hdel HDel].
  apply tells_bind; [by apply stays_ExtractBufferData, _|]. intros [[|]|].
  2: apply stays_tells, stays_bind; [exact Hdel|intros; auto with told].
  2: by apply stays_tells, stays_ret.
  apply tells_bind; [by apply stays_SetupCallback, _|]. intros [[|]|].
  2: apply stays_tells, stays_bind; [exact Hdel|intros; auto with told].
  2: by apply stays_tells, stays_ret.
  apply tells_bind; [by apply stays_CreateAndWriteAshmem, _|].
  intros [[[|] info]|]; [|by apply stays_tells|by apply stays_tells].
  unfold submit_prepared. apply tells_bind; [apply stays_gets|]. intros [c|]; [|by apply stays_tells].
  apply tells_invoke. intros ret. apply tells_bind; [intros w'; unfold taken_by_service; by destruct (ret =? UEC_OK)|].
  intros _. case_match; [|by apply stays_tells, stays_give].
  destruct (x_ashmem c) as [[fd size]|]; [|by apply stays_tells].
  apply tells_bind; [auto with told|]. intros _. apply tells_bind; [exact HDel|].
  intros [[]|]; [|by apply stays_tells]. apply tells_fail. auto with told.
Qed.
(** The port that a call of [serialManager] is about. *)
Definition port_of (c : SerialCall) : option Z :=
  match c with
  | TH_getSerialPortList => None
  | TH_hasSerialRight portId | TH_requestSerialRightSync portId | TH_addSerialRight _ portId
  | TH_cancelSerialRight portId | TH_open portId | TH_close portId | TH_getAttribute portId
  | TH_setAttribute portId _ | TH_readSync portId _ _ | TH_writeSync portId _ _ => Some portId
  end.
(** A call that comes back with one report, and has done nothing else. *)
Definition only_reports (code : Z) (r : option unit * world) w : Prop :=
  ∃ msg, r = (Some tt, set_reports (reports w ++ [(code, msg)]) w).

Lemma tells_call c : tells (run_call c : Api unit).
Proof.
  destruct c as [c|c]; destruct c; cbn [run_call run_usb run_serial]; unfold ignore;
    lazymatch goal with
    | |- tells (usbSubmitTransfer _) => apply tells_usbSubmitTransfer
    | |- tells (_ <$> ?f) => let h := head_of f in unfold h
    | |- tells ?f => let h := head_of f in unfold h
    end; cbv zeta; repeat tell_step.
Qed.

(** C17: every function of the two ArkTS modules, whatever it is called with and whatever the
    service and the runtime answer, hands at most one error to the runtime, with a code that
    the modules document.  A function of a part that the build leaves out reports 801 and does
    nothing else; a function of a serial port with a negative number reports 401 and does
    nothing else. *)
Theorem call_reports c w :
  tells (run_call c : Api unit) ∧
  (∀ u, c = inl u → HasFeature (feature_of u) = false → only_reports CAPABILITY_NOT_SUPPORT (run_call c w) w) ∧
  (∀ s port, c = inr s → port_of s = Some port → port < 0 → only_reports SYSPARAM_INVALID_INPUT (run_call c w) w).
Proof.
  split; [apply tells_call|]. split.
  - intros u -> HF. unfold only_reports. destruct u; eexists; cbn [run_call run_usb feature_of] in *;
      lazymatch goal with
      | |- ignore ?f _ = _ => let h := head_of f in unfold ignore, h
      | |- ?f _ = _ => let h := head_of f in unfold h
      end; unfold require_feature; rewrite HF; reflexivity.
  - intros s port -> Hp Hneg. apply Z.ltb_lt in Hneg as Hlt. apply Z.leb_gt in Hneg as Hle.
    unfold only_reports. destruct s; try discriminate; injection Hp as ->; eexists; cbn [run_call run_serial];
      lazymatch goal with
      | |- ignore ?f _ = _ => let h := head_of f in unfold ignore, h
      | |- ?f _ = _ => let h := head_of f in unfold h
      end; unfold check_port, CheckAndThrowOnError; rewrite ?Hlt, ?Hle; try reflexivity.
    by destruct (0 <? tokenId).
Qed.
End TaiheContexts.
