(* ===== verification/TaiheSim.v ===== *)
(** * A runtime of ArkTS

    A runtime in which every call succeeds, whose enumerations have the position of an item
    as its key, over the system, the platform and the service of [JsSim]: the theorems about
    the ArkTS modules are applied to runs in it. *)

From S2P Require Import Prelude Text UsbErrors UsbTypes Napi Platform.
From S2P Require Import HostDriver HostEvents HostPolicy ServiceHost ServiceSerial ServiceGate ServicePorts Client.
From S2P Require Import JsSim TaiheTypes TaiheWorld TaiheCalls TaiheTransfer TaiheSerial TaiheModule.
From S2P Require ClientLaws.
Import usbManager.

#[local] Set Default Goal Selector "!".

(** The position of the first occurrence of a value. *)
Fixpoint position (v : Z) (l : list Z) : option nat :=
  match l with
  | [] => None
  | x :: l => if x =? v then Some O else Datatypes.S <$> position v l
  end.
Lemma position_lookup l i v : NoDup l → l !! i = Some v → position v l = Some i.
Proof.
  revert i. induction l as [|x l IH]; intros i Hn Hi; [done|]. apply NoDup_cons in Hn as [Hx Hn]. cbn.
  destruct (Z.eqb_spec x v) as [->|Hne]; destruct i as [|i]; cbn in Hi; try done.
  - by apply list_elem_of_lookup_2 in Hi.
  - congruence.
  - by rewrite (IH i).
Qed.

#[export] Instance sim_enum : EnumRuntime := {
  key := Z.of_nat;
  get_value table k := default 0 (table !! Z.to_nat k);
  from_value table v := from_option Z.of_nat (-1) (position v table);
}.
#[export] Instance sim_enum_laws : EnumLaws.
Proof.
  split; cbn.
  - intros table i v Hi. by rewrite Nat2Z.id, Hi.
  - intros table i v Hn Hi. by rewrite (position_lookup table i v).
Qed.

(** The array buffers: the bytes at the address [p].  The buffer of the array [p] is at [p],
    and has four bytes; every other object and reference is 1. *)
#[export] Instance sim_runtime : Runtime (gmap Z (list Z)) := {|
  ani X op := λ e,
    ((0, match op in AniOp X return option X with
         | Object_GetFieldByName_Ref object _ => Some object
         | ArrayBuffer_GetInfo arraybuffer => Some (arraybuffer, 4)
         | GlobalReference_Delete _ | CreateLocalScope _ | DestroyLocalScope => Some tt
         | Object_InstanceOf _ _ => Some true
         | _ => Some 1
         end), e);
  get_env := λ e, (1, e);
  into_ani _ := λ e, (1, e);
  GetMainEventRunner := λ e, (true, e);
  PostTask := λ e, (true, e);
  array_bytes p n e := take (Z.to_nat n) (default [] (e !! p));
  write_array p l e := <[p := l ++ drop (length l) (default [] (e !! p))]> e;
|}.
#[export] Instance sim_status : AniStatus := { ANI_OK := 0; ANI_ERROR := 1 }.

Module TaiheSim.
#[export] Existing Instance ClientLaws.Sample.platform_access.
#[export] Existing Instance ClientLaws.Sample.ability.
#[export] Existing Instance sample_codes.
Abbreviation sim_world S := (TaiheWorld.world (gmap Z (list Z)) ClientLaws.Sample.platform S (list Z)).

(** An application with the descriptor [fd] of an accessory, and one array at 64. *)
Definition world_with {S} (fd : Z) (s : S) : sim_world S :=
  mk_world {[64 := [1; 2; 3; 4]]} (Client.mk_st (Some 12) (Some 0) 0 (true, []) s) [] fd [] ∅ [] [] ∅.

(** A service with no devices that agrees to everything. *)
Definition agrees : UsbServer unit := λ _ _ s, (UEC_OK, CNothing, s).
End TaiheSim.
