(* ===== verification/TaiheOwnership.v ===== *)
(** * What the ArkTS modules own

    The contexts of the submitted transfers, each of which belongs to the service, as long
    as the transfer is in flight, or to one task of the main thread, which deletes it; and
    the descriptor of the open accessory. *)

From S2P Require Import Prelude Text UsbErrors UsbTypes Napi Platform.
From S2P Require Import HostDriver HostEvents HostPolicy ServiceHost ServiceSerial ServiceGate ServicePorts Client.
From S2P Require Import TaiheTypes TaiheWorld TaiheCalls TaiheTransfer TaiheSerial TaiheModule TaiheLaws JsSim TaiheSim.
From S2P Require ClientLaws.
Import usbManager.

#[local] Set Default Goal Selector "!".

(** The documented behaviour of ANI: an operation that succeeds has written its
    out-parameter, and a thread that cannot be attached for lack of anything but its being
    attached already is not met. *)
Class AniLaws (E : Type) `{Runtime E} `{AniStatus} := {
  GetVM_ok e out e' : ani GetVM e = ((ANI_OK, out), e') → default nullptr out ≠ nullptr;
  AttachCurrentThread_ok vm e status out e' :
    ani (AttachCurrentThread vm) e = ((status, out), e') → status = ANI_ERROR ∨ default nullptr out ≠ nullptr;
  GetEnv_ok vm e out e' : ani (GetEnv vm) e = ((ANI_OK, out), e') → default nullptr out ≠ nullptr;
}.

Section TaiheOwnership.
Context {E A S O : Type} `{RT : Runtime E} `{AS : AniStatus} `{ER : EnumRuntime} `{UN : Uninitialised}.
Context `{EB : ErrBase} `{AC : AbilityAccess A} `{UA : UsbAbility} `{US : UsbServer S}.
Context `{FE : Features} `{SY : System O} `{JE : JsErrBase} `{SC : Securec}.
Abbreviation world := (TaiheWorld.world E A S O).
Abbreviation Api R := (ST world (option R)).
Implicit Types w : world.

(** ** Submitting *)

(** A context given up: the others are as they were. *)
Lemma given_up p w w1 w2 x :
  contexts w !! p = None → contexts_but p w1 = contexts_but p w → in_flight w1 = in_flight w →
  (delete_context p ;; give tt : Api unit) w1 = (x, w2) → contexts w2 = contexts w ∧ in_flight w2 = in_flight w.
Proof.
  intros Hp Hb Hf Hrun. rewrite bind_unfold in Hrun. injection Hrun as _ <-. cbn.
  unfold contexts_but in Hb. by rewrite Hb, delete_id.
Qed.

(** What the preparation of a transfer writes into its context. *)
Lemma ExtractBufferData_vm p obj w w' :
  ExtractBufferData p obj w = (Some true, w') →
  ∃ c e out e', contexts w' !! p = Some c ∧ x_vm c = default nullptr out ∧ ani GetVM e = ((ANI_OK, out), e').
Proof.
  unfold ExtractBufferData, with_env, ani_or. rewrite bind_unfold, on_runtime_run. cbn [fst snd].
  case_match; [done|]. rewrite bind_unfold, on_runtime_run. cbn [fst snd].
  destruct (ani GetVM _) as [[status out] e'] eqn:Hvm. cbn [fst snd].
  destruct (Z.eqb_spec status ANI_OK) as [->|]; cbn [negb]; [|done].
  rewrite bind_unfold, on_runtime_run. cbn [fst snd]. destruct (ani (Object_GetFieldByName_Ref _ _) _) as [[status1 out1] e1]. cbn [fst snd].
  case_match; [done|]. rewrite bind_unfold, on_runtime_run. cbn [fst snd].
  destruct (ani (ArrayBuffer_GetInfo _) _) as [[status2 out2] e2]. cbn [fst snd]. case_match; [done|].
  destruct (default _ out2) as [data size]. unfold with_context. rewrite bind_unfold. cbn [gets fst snd].
  destruct (contexts _ !! p) as [c|]; [|done]. rewrite bind_unfold. cbn. intros [= <-].
  eexists _, _, out, _. split_and!; [cbn; apply lookup_insert_eq|done|exact Hvm].
Qed.
Lemma SetupCallback_context p obj w w' b c :
  contexts w !! p = Some c → SetupCallback p obj w = (Some b, w') →
  ∃ c', contexts w' !! p = Some c' ∧ x_vm c' = x_vm c.
Proof.
  intros Hc. unfold SetupCallback, with_env, ani_or. rewrite bind_unfold, on_runtime_run. cbn [fst snd].
  case_match; [done|]. rewrite bind_unfold, on_runtime_run. cbn [fst snd].
  destruct (ani _ _) as [[status out] e]. cbn [fst snd]. case_match; [intros [= <- <-]; by exists c|].
  rewrite (with_context_run p) with (c := c) by done. rewrite bind_unfold. cbn. intros [= <- <-].
  eexists. split; [apply lookup_insert_eq|done].
Qed.
Lemma CreateAndWriteAshmem_context p obj obj' w w' c :
  contexts w !! p = Some c → CreateAndWriteAshmem p obj w = (Some (true, obj'), w') →
  ∃ m, contexts w' !! p = Some (set_ashmem (Some m) c).
Proof.
  intros Hc. unfold CreateAndWriteAshmem. rewrite (with_context_run p) with (c := c) by done.
  rewrite bind_unfold, on_system_run, bind_unfold. cbn [store modify fst snd].
  destruct (CreateAshmem _ _ _).1 as [[fd size]|]; [|done]. case_match.
  - rewrite bind_unfold. cbn [gets fst snd]. cbv zeta. rewrite bind_unfold, on_system_run, bind_unfold, on_system_run.
    cbn [fst snd]. case_match; [by rewrite bind_unfold|]. intros [= _ <-]. exists (fd, size). cbn. apply lookup_insert_eq.
  - intros [= _ <-]. exists (fd, size). cbn. apply lookup_insert_eq.
Qed.

(** What a call of [usbSubmitTransfer] that comes back leaves: no context of its own, or
    one, new, whose transfer the service has just taken, for the endpoint and the pipe of
    the call and with its address as user data; it has its shared memory, and the virtual
    machine that the runtime gave. *)
Definition submitted (transfer : UsbDataTransferParams) w w' : Prop :=
  contexts w' = contexts w ∧ in_flight w' = in_flight w ∨
  ∃ p o c info w1,
    allocate (system w) = (Some p, o) ∧ contexts w' = <[p := c]> (contexts w) ∧ reports w' = reports w ∧
    in_flight w' = {[u64 p]} ∪ in_flight w ∧ is_Some (x_ashmem c) ∧
    (∃ e out e', ani GetVM e = ((ANI_OK, out), e') ∧ x_vm c = default nullptr out) ∧
    x_pipe c = ConvertUSBDevicePipe (tr_devPipe transfer) ∧ x_endpoint c = tr_endpoint transfer ∧
    Pipe.UsbSubmitTransfer (x_pipe c) info (Some (u64 p)) (x_ashmem c) (lib w1) = (Some UEC_OK, lib w').

Lemma submit_prepared_run p info c w w1 w' :
  contexts w1 !! p = Some c → contexts w !! p = None → contexts_but p w1 = contexts_but p w →
  in_flight w1 = in_flight w → submit_prepared p info w1 = (Some tt, w') →
  contexts w' = contexts w ∧ in_flight w' = in_flight w ∨
  contexts w' = <[p := c]> (contexts w) ∧ reports w' = reports w1 ∧
    in_flight w' = {[i_userData info]} ∪ in_flight w ∧
    Pipe.UsbSubmitTransfer (x_pipe c) info (Some (i_userData info)) (x_ashmem c) (lib w1) = (Some UEC_OK, lib w').
Proof.
  intros Hc Hfresh Hbut Hfly. unfold contexts_but in Hbut. unfold submit_prepared. rewrite (with_context_run p) with (c := c) by done.
  unfold invoke. rewrite bind_unfold, on_lib_run. cbn [fst snd].
  destruct (Pipe.UsbSubmitTransfer _ _ _ _ _) as [[ret|] l]; cbn [fst snd]; [|done].
  unfold taken_by_service. rewrite bind_unfold.
  destruct (Z.eqb_spec ret UEC_OK) as [->|Hne]; cbn [negb mwhen modify mret ST_ret fst snd].
  - intros [= <-]. right. split_and!; [|done|by rewrite <- Hfly|done]. cbn [contexts set_lib set_in_flight].
    by rewrite <- (insert_id (contexts w1) p c), <- insert_delete_eq, Hbut, delete_id.
  - destruct (x_ashmem c) as [[fd size]|]; [|done]. rewrite bind_unfold, on_system_run, bind_unfold. cbn [fst snd].
    match goal with |- context [DeleteCallback p ?w5] => destruct (DeleteCallback_run p w5 c Hc) as [e ->] end.
    cbn [fst snd]. intros [= <-]. left. cbn. by rewrite Hbut, delete_id.
Qed.

Lemma submit_run transfer w w' :
  (∀ p o, allocate (system w) = (Some p, o) → contexts w !! p = None) →
  usbSubmitTransfer transfer w = (Some tt, w') → submitted transfer w w'.
Proof.
  intros Hfresh. unfold usbSubmitTransfer, require_feature. destruct (negb _); [intros [= <-]; by left|].
  unfold CreateTransferContext. rewrite bind_unfold, bind_unfold, on_system_run. cbn [fst snd].
  destruct (allocate (system w)) as [[p|] o] eqn:Ha; cbn [fst snd]; [|intros [= <-]; by left].
  specialize (Hfresh p o eq_refl). rewrite bind_unfold. cbn [store modify mret ST_ret fst snd].
  match goal with |- context [set_contexts ?m ?w0] => set (w1 := set_contexts m w0) end.
  set (f := λ w : world, (contexts_but p w, (aim_at p w, (reports w, in_flight w)))).
  assert (H1 : f w1 = (contexts_but p w, (Some (ConvertUSBDevicePipe (tr_devPipe transfer), tr_endpoint transfer),
                        (reports w, in_flight w)))).
  { unfold f, w1, contexts_but, aim_at. cbn. by rewrite delete_insert_eq, lookup_insert_eq. }
  clearbody w1. rewrite bind_unfold.
  pose proof (stays_ExtractBufferData p f (tr_buffer transfer) w1) as H2.
  destruct (ExtractBufferData _ _ _) as [[[|]|] w2] eqn:Hx; cbn [fst snd] in *; [| |done]; rewrite H1 in H2; clear H1.
  2: { intros Hrun. left. injection H2 as ? _ _ ?. by eapply (given_up p w w2). }
  apply ExtractBufferData_vm in Hx as (c2 & e2 & out & e2' & Hc2 & Hvm & Hgot). clear w1.
  rewrite bind_unfold. pose proof (stays_SetupCallback p f (tr_callback transfer) w2) as H3.
  destruct (SetupCallback _ _ _) as [[[|]|] w3] eqn:Hx; cbn [fst snd] in *; [| |done]; rewrite H2 in H3; clear H2.
  2: { intros Hrun. left. injection H3 as ? _ _ ?. by eapply (given_up p w w3). }
  apply (SetupCallback_context _ _ _ _ _ _ Hc2) in Hx as (c3 & Hc3 & Hvm3). clear w2 Hc2.
  rewrite bind_unfold. pose proof (stays_CreateAndWriteAshmem p f (PrepareTransferInfo transfer p) w3) as H4.
  destruct (CreateAndWriteAshmem _ _ _) as [[[[|] info]|] w4] eqn:Hw; cbn [fst snd] in *; [| |done]; rewrite H3 in H4; clear H3.
  all: injection H4 as Hbut Haim Hrep Hfly; unfold aim_at in Haim; apply fmap_Some in Haim as (c & Hc & Haim).
  2: { destruct (DeleteCallback_run p w4 c Hc) as [e ->]. intros [= <-]. left. cbn. unfold contexts_but in Hbut.
       by rewrite Hbut, delete_id. }
  destruct (CreateAndWriteAshmem_context _ _ _ _ _ _ Hc3 Hw) as [m Hm]. rewrite Hc in Hm. injection Hm as Hm.
  apply CreateAndWriteAshmem_userData in Hw. intros Hrun.
  destruct (submit_prepared_run p info c w w4 w' Hc Hfresh Hbut Hfly Hrun) as [H|(Hctx & Hr & Hf & Hs)]; [by left|right].
  injection Haim as Hp He. rewrite Hw in Hs, Hf. exists p, o, c, info, w4. rewrite Hr.
  split_and!; try done.
  - by rewrite Hm.
  - exists e2, out, e2'. split; [done|]. rewrite Hm. cbn. congruence.
Qed.

(** ** Completions and tasks *)

(** The contexts, the tasks and the transfers in flight. *)
Definition books w : gmap Z USBTransferAsyncContext * list Posted * gset Z := (contexts w, posted w, in_flight w).
#[export] Instance kept_books : Kept (books : world → _).
Proof. done. Qed.


Section Runtime.
Context `{AL : !AniLaws E}.






End Runtime.

(** ** All calls *)

Ltac book_step :=
  first
    [ solve [intros ?; reflexivity]
    | lazymatch goal with
      | |- stays _ (require_feature _ _ _) => unfold require_feature
      | |- stays _ (check_port ?ok _ _ _) => unfold check_port, CheckAndThrowOnError; destruct ok; cbn [negb]
      | |- stays _ (check_code ?ret _ _) => unfold check_code, CheckAndThrowOnError; destruct (ret =? 0); cbn [negb]
      end
    | stay_step ].

Definition changes_accFd (c : UsbCall + SerialCall) : bool :=
  match c with
  | inl (TH_openAccessory _ | TH_closeAccessory _ | TH_cancelAccessoryRight _) => true
  | _ => false
  end.
(** A part of the world that is neither the contexts nor the reports. *)
Lemma stays_usbSubmitTransfer {F} (f : world → F) `{KF : !Kept f} transfer :
  (∀ m w, f (set_contexts m w) = f w) → (∀ l w, f (set_reports l w) = f w) →
  (∀ m w, f (set_in_flight m w) = f w) →
  stays f (usbSubmitTransfer transfer : Api unit).
Proof.
  intros Hm Hr Hfly. assert (Hrefuse : ∀ code msg, stays f (fail code msg tt : Api unit)) by (intros code msg w; apply Hr).
  assert (Hat : ∀ p, KeptAt p f) by (intros p; split; [done|intros; apply Hm]).
  assert (Hdel : ∀ p, stays f (delete_context p) ∧ stays f (DeleteCallback p)).
  { intros p. apply stays_delete; [done|intros; apply Hm]. }
  unfold usbSubmitTransfer, require_feature. case_match; [apply Hrefuse|].
  apply stays_bind.
  { apply stays_bind; [by apply stays_on_system|]. intros [p|]; apply stays_bind; try (intros; apply stays_ret).
    - intros w. apply Hm.
    - intros w. apply Hr. }
  intros [p|]; [|apply stays_give]. destruct (Hdel p) as [Hd HD].
  apply stays_bind; [apply stays_ExtractBufferData, _|]. intros [[|]|]; [|by apply stays_bind|apply stays_ret].
  apply stays_bind; [apply stays_SetupCallback, _|]. intros [[|]|]; [|by apply stays_bind|apply stays_ret].
  apply stays_bind; [apply stays_CreateAndWriteAshmem, _|]. intros [[[|] info]|]; [|done|apply stays_ret].
  apply stays_bind; [apply stays_gets|]. intros [c|]; [|apply stays_ret]. apply stays_invoke; [done|]. intros ret.
  apply stays_bind; [intros w; unfold taken_by_service; destruct (ret =? UEC_OK); [apply Hfly|done]|]. intros _.
  case_match; [|apply stays_give].
  destruct (x_ashmem c) as [[fd size]|]; [|apply stays_ret]. apply stays_bind; [by apply stays_on_system|].
  intros _. apply stays_bind; [done|]. intros [[]|]; [apply Hrefuse|apply stays_ret].
Qed.

Lemma call_accFd c : changes_accFd c = false → stays g_accFd (run_call c : Api unit).
Proof.
  intros Hc. destruct c as [c|c]; destruct c; try discriminate Hc; cbn [run_call run_usb run_serial]; unfold ignore;
    lazymatch goal with
    | |- stays _ (usbSubmitTransfer ?t) => by apply stays_usbSubmitTransfer
    | |- stays _ (_ <$> ?f) => let h := head_of f in unfold h
    | |- stays _ ?f => let h := head_of f in unfold h
    end; cbv zeta; repeat book_step.
Qed.

(** ** The invariant *)
Section Invariant.
Context `{AL : !AniLaws E}.





End Invariant.

(** C15: usbSubmitTransfer never loses a context and never keeps one that the service does not
    have: when it comes back, the contexts are what they were, or there is one more, at an
    address that was free, for the pipe and the endpoint of the call; then the service has
    just taken the transfer, with that address as its user data, and nothing is reported.
    The tasks under way are the same. *)
Theorem submit_keeps_context transfer w w'
    (Hfresh : ∀ p o, allocate (system w) = (Some p, o) → contexts w !! p = None)
    (Hrun : usbSubmitTransfer transfer w = (Some tt, w')) :
  posted w' = posted w ∧ submitted transfer w w'.
Proof.
  split; [|by apply submit_run].
  pose proof (stays_usbSubmitTransfer posted transfer ltac:(done) ltac:(done) ltac:(done) w) as H.
  by rewrite Hrun in H.
Qed.

(** What an operation does to the descriptor, to the system and to the library. *)
Definition accessory_state w : Z * O * Client.st (A := A) (S := S) := (g_accFd w, system w, lib w).

Lemma fail_accessory {R} code msg (r : R) w : accessory_state (fail code msg r w).2 = accessory_state w.
Proof. done. Qed.
Lemma openAccessory_state a w ret fd l :
  HasFeature FEATURE_DEVICE = true → OpenAccessory (taihe2Native a) (-1) (lib w) = (Some (ret, fd), l) →
  accessory_state (openAccessory a w).2 = (if ret =? UEC_OK then fd else g_accFd w, system w, l).
Proof.
  intros HF Hopen. unfold openAccessory, require_feature. rewrite HF. cbn [negb].
  rewrite (invoke_run _ _ _ _ _ Hopen). cbv beta iota. destruct (ret =? UEC_OK); [done|].
  repeat (case_match; [by rewrite fail_accessory|]). by rewrite fail_accessory.
Qed.
Lemma closeAccessory_refused h w :
  HasFeature FEATURE_DEVICE = true → h ≠ g_accFd w → g_accFd w ≠ 0 →
  only_reports OHEC_COMMON_PARAM_ERROR (closeAccessory h w) w.
Proof.
  intros HF Hne H0. unfold closeAccessory, require_feature. rewrite HF. cbn [negb]. rewrite bind_unfold. cbn [gets fst snd].
  rewrite (proj2 (Z.eqb_neq _ _) Hne), (proj2 (Z.eqb_neq _ _) H0). by eexists.
Qed.
Lemma closeAccessory_state h w ret l :
  HasFeature FEATURE_DEVICE = true → h = g_accFd w ∨ g_accFd w = 0 →
  CloseAccessory (g_accFd w) (lib w) = (Some ret, l) →
  accessory_state (closeAccessory h w).2 = (0, (close h (system w)).2, l).
Proof.
  intros HF Hh Hclose. unfold closeAccessory, require_feature. rewrite HF. cbn [negb]. rewrite bind_unfold. cbn [gets fst snd].
  assert (Hg : negb (h =? g_accFd w) && negb (g_accFd w =? 0) = false).
  { destruct Hh as [->| ->]; [by rewrite Z.eqb_refl|by rewrite andb_false_r]. }
  rewrite Hg, bind_unfold, on_system_run. cbn [fst snd].
  rewrite (invoke_run _ _ (set_system _ w) _ _ Hclose), bind_unfold.
  cbn [modify fst snd]. case_match; [by rewrite fail_accessory|done].
Qed.
Lemma cancelAccessoryRight_state a w r l ret l' :
  HasFeature FEATURE_DEVICE = true → g_accFd w ≠ 0 → CloseAccessory (g_accFd w) (lib w) = (Some r, l) →
  CancelAccessoryRight (taihe2Native a) l = (Some ret, l') →
  accessory_state (cancelAccessoryRight a w).2 = (0, (close (g_accFd w) (system w)).2, l').
Proof.
  intros HF H0 Hclose Hcancel. unfold cancelAccessoryRight, require_feature. rewrite HF. cbn [negb].
  cbv zeta. rewrite bind_unfold. cbn [gets fst snd]. rewrite (proj2 (Z.eqb_neq _ _) H0). cbn [negb].
  rewrite (invoke_run _ _ _ _ _ Hclose), bind_unfold, on_system_run, bind_unfold. cbn [modify fst snd].
  rewrite (invoke_run _ _ (set_g_accFd 0 (set_system _ (set_lib l w))) _ _ Hcancel). cbv beta. case_match; [done|].
  repeat (case_match; [by rewrite fail_accessory|]). by rewrite fail_accessory.
Qed.

(** C18: the descriptor of the open accessory is the one that the service gave last: no call
    but openAccessory, closeAccessory and cancelAccessoryRight changes it; openAccessory
    replaces it exactly when the service opens the accessory; closeAccessory with another
    handle is refused with 401 and does nothing while an accessory is open; with the right
    handle, as cancelAccessoryRight does, it closes that descriptor in the system once, and
    forgets it. *)
Theorem accessory_descriptor w (HF : HasFeature FEATURE_DEVICE = true) :
  (∀ c, changes_accFd c = false → g_accFd (run_call c w).2 = g_accFd w) ∧
  (∀ a ret fd l, OpenAccessory (taihe2Native a) (-1) (lib w) = (Some (ret, fd), l) →
     accessory_state (openAccessory a w).2 = (if ret =? UEC_OK then fd else g_accFd w, system w, l)) ∧
  (∀ h, h ≠ g_accFd w → g_accFd w ≠ 0 → only_reports OHEC_COMMON_PARAM_ERROR (closeAccessory h w) w) ∧
  (∀ ret l, CloseAccessory (g_accFd w) (lib w) = (Some ret, l) →
     accessory_state (closeAccessory (g_accFd w) w).2 = (0, (close (g_accFd w) (system w)).2, l) ∧
     ∀ a ret' l', g_accFd w ≠ 0 → CancelAccessoryRight (taihe2Native a) l = (Some ret', l') →
       accessory_state (cancelAccessoryRight a w).2 = (0, (close (g_accFd w) (system w)).2, l')).
Proof.
  split_and!; eauto using openAccessory_state, closeAccessory_refused.
  - intros c Hc. by apply call_accFd.
  - intros ret l Hclose. split; [eapply closeAccessory_state; eauto|]. intros. by eapply cancelAccessoryRight_state.
Qed.
End TaiheOwnership.

(** ** Runs *)
Module Runs.
Import TaiheSim.TaiheSim.
#[local] Existing Instance agrees.

(** A read of four bytes from the endpoint 129 of the device 1-2, with the array at 64. *)
Definition reading : UsbDataTransferParams :=
  mk_UsbDataTransferParams (mk_USBDevicePipe 1 2) 0 129 0 100 4 9 [] 64 0.
Definition start : sim_world unit := world_with 0 tt.
Definition after_submit : sim_world unit := (run_call (inl (TH_usbSubmitTransfer reading)) start).2.

Lemma submit_keeps_context_witness :
  posted after_submit = [] ∧ submitted reading start after_submit ∧ contexts after_submit !! 4096 ≠ None.
Proof.
  destruct (submit_keeps_context reading start after_submit) as [Hp Hs].
  - done.
  - by vm_compute.
  - split_and!; [exact Hp|exact Hs|]. by vm_compute.
Defined.

#[local] Instance sim_ani_laws : AniLaws (gmap Z (list Z)).
Proof. split; [by intros e out e' [= <- <-]|by intros vm e s out e' [= <- <- <-]; right|by intros vm e out e' [= <- <-]]. Qed.


(** An accessory is open with the descriptor 33. *)
Lemma accessory_descriptor_witness :
  HasFeature FEATURE_DEVICE = true ∧
  accessory_state (closeAccessory 33 (world_with 33 tt : sim_world unit)).2 =
    (0, [33], (lib (world_with 33 tt : sim_world unit))) ∧
  only_reports OHEC_COMMON_PARAM_ERROR (closeAccessory 7 (world_with 33 tt : sim_world unit)) (world_with 33 tt).
Proof.
  split; [done|]. pose proof (accessory_descriptor (world_with 33 tt : sim_world unit) eq_refl) as (_ & _ & Hother & Hclose).
  split; [|by apply Hother].
  destruct (Hclose UEC_OK (lib (world_with 33 tt : sim_world unit))) as [H _]; [by vm_compute|]. exact H.
Defined.
End Runs.
