(* ===== verification/TaiheSession.v ===== *)
(** * A session of an ArkTS application

    What comes back of the values that an ArkTS application gets and hands back
    ([taihe_roundtrip], [serial_attribute_roundtrip]); that the ArkTS and the JavaScript
    [connectDevice] open the same device and differ only in the failures that they tell
    ([connects_agree]); and what a transfer that waits answers ([bulk_transfer_answers]). *)

From S2P Require Import Prelude Text UsbErrors UsbTypes Marshalling Napi Platform.
From S2P Require Import HostDriver HostEvents HostPolicy ServiceHost ServiceSerial ServiceGate ServicePorts Client.
From S2P Require Import JsValues JsLaws JsTrees JsRoundTrip JsArguments JsSession.
From S2P Require JsWorld JsCalls.
From S2P Require Import TaiheTypes TaiheWorld TaiheCalls TaiheTransfer TaiheSerial TaiheModule TaiheLaws.
From S2P Require Import JsSim TaiheSim.
From S2P Require ClientLaws.

#[local] Set Default Goal Selector "!".

(** ** What comes back *)

(** The names are kept up to their first NUL; the index of a name and the status of an
    interface are lost. *)
Definition taihe_interface (i : UsbInterface.t) : UsbInterface.t :=
  UsbInterface.mk (UsbInterface.id_ i) (UsbInterface.protocol_ i) (UsbInterface.klass_ i)
    (UsbInterface.subClass_ i) (UsbInterface.alternateSetting_ i) (c_str (UsbInterface.name_ i))
    (UsbInterface.endpoints_ i) UINT8_MAX true.
(** The maximal power is doubled. *)
Definition taihe_config (c : USBConfig.t) : USBConfig.t :=
  USBConfig.mk (USBConfig.id_ c) (USBConfig.attributes_ c) (taihe_interface <$> USBConfig.interfaces_ c)
    (USBConfig.GetMaxPower c) (c_str (USBConfig.name_ c)) UINT8_MAX.
(** The serial number, the status and the numbers of the descriptor are lost. *)
Definition taihe_device (d : UsbDevice.t) : UsbDevice.t :=
  UsbDevice.make (c_str (UsbDevice.name_ d)) (c_str (UsbDevice.manufacturerName_ d))
    (c_str (UsbDevice.productName_ d)) (c_str (UsbDevice.version_ d)) (UsbDevice.devAddr_ d)
    (UsbDevice.busNum_ d) (UsbDevice.vendorId_ d) (UsbDevice.productId_ d) (UsbDevice.baseClass_ d)
    (UsbDevice.subClass_ d) (UsbDevice.protocol_ d) (taihe_config <$> UsbDevice.configs_ d).
Definition taihe_accessory (a : USBAccessory.t) : USBAccessory.t :=
  USBAccessory.make (c_str (USBAccessory.manufacturer_ a)) (c_str (USBAccessory.product_ a))
    (c_str (USBAccessory.description_ a)) (c_str (USBAccessory.version_ a)) (c_str (USBAccessory.serialNumber_ a)).

Section RoundTrip.
Context `{ER : EnumRuntime}.

Lemma u8_of_i8 z : is_u8 z → u8 (i8 z) = z.
Proof.
  intros Hz. unfold u8, i8. rewrite Zminus_mod_idemp_l.
  replace (z + 2 ^ 7 - 2 ^ 7) with z by lia. by apply Z.mod_small.
Qed.
Lemma endpoint_handed_back ep : sized_endpoint ep → ConvertToUSBEndpoint (ParseToUSBEndpoint ep) = ep.
Proof.
  intros (_ & Ha & Hat & Hi). destruct ep as [addr attr iv mp id]. cbn in *.
  unfold ConvertToUSBEndpoint, ParseToUSBEndpoint. cbn. rewrite !u32_i32 by done. unfold USBEndpoint.GetInterfaceId. cbn.
  by rewrite u8_of_i8.
Qed.
Lemma fmap_back {X Y} (f : Y → X) (g : X → Y) (h : X → X) (P : X → Prop) l :
  (∀ x, P x → f (g x) = h x) → Forall P l → f <$> (g <$> l) = h <$> l.
Proof. intros Hf. induction 1 as [|x l Hx _ IH]; [done|]. cbn. by rewrite Hf, IH. Qed.
Lemma interface_handed_back i : sized_interface i → ConvertToUsbInterface (ParseToUSBInterface i) = taihe_interface i.
Proof.
  intros (_ & He & _). unfold ConvertToUsbInterface, ParseToUSBInterface, taihe_interface, UsbInterface.GetEndpoints. cbn.
  by rewrite (fmap_back _ _ id _ _ endpoint_handed_back He), list_fmap_id.
Qed.
Lemma config_handed_back c : sized_config c → ConvertToUSBConfig (ParseToUSBConfiguration c) = taihe_config c.
Proof.
  intros (_ & Ha & Hi & _). unfold ConvertToUSBConfig, ParseToUSBConfiguration, taihe_config, USBConfig.GetInterfaces, USBConfig.GetAttributes. cbn.
  by rewrite (fmap_back _ _ _ _ _ interface_handed_back Hi), u32_i32.
Qed.
Lemma device_handed_back d : sized_device d → ConvertToUsbDevice (ParseToUSBDevice d) = taihe_device d.
Proof.
  intros (_ & Ha & Hb & Hc & _). unfold ConvertToUsbDevice, ParseToUSBDevice, taihe_device, UsbDevice.GetConfigs, UsbDevice.GetDevAddr, UsbDevice.GetBusNum. cbn.
  by rewrite (fmap_back _ _ _ _ _ config_handed_back Hc), !u8_id.
Qed.
Lemma pipe_handed_back p : sized_pipe p → ConvertUSBDevicePipe (usbManager.mk_USBDevicePipe (GetBusNum p) (GetDevAddr p)) = p.
Proof. intros [Hb Ha]. destruct p. unfold ConvertUSBDevicePipe. cbn in *. by rewrite !u8_id. Qed.
End RoundTrip.

(** C19: the structure of a device that an ArkTS application gets, handed back, is the same
    device for the service, member by member, down to each endpoint, but for what
    [taihe_device] says: texts end at their first NUL, the serial number, the status and the
    numbers of the device descriptor are lost, the indices of names too, and the maximal
    power of a configuration is doubled.  A pipe comes back as it was, and an accessory up to
    the NULs in its texts. *)
Theorem taihe_roundtrip `{ER : EnumRuntime} d pipe a (Hd : sized_device d) (Hp : sized_pipe pipe) :
  ConvertToUsbDevice (ParseToUSBDevice d) = taihe_device d ∧
  ConvertUSBDevicePipe (usbManager.mk_USBDevicePipe (GetBusNum pipe) (GetDevAddr pipe)) = pipe ∧
  taihe2Native (native2Taihe a) = taihe_accessory a.
Proof. split_and!; [by apply device_handed_back|by apply pipe_handed_back|done]. Qed.

(** ** Serial ports *)
Section Serial.
Context {E A S O : Type} `{RT : Runtime E} `{AS : AniStatus} `{ER : EnumRuntime} `{UN : Uninitialised}.
Context `{EB : ErrBase} `{AC : AbilityAccess A} `{UA : UsbAbility} `{US : UsbServer S}.
Context `{SY : System O} `{SC : Securec} `{EL : !EnumLaws}.
Abbreviation world := (TaiheWorld.world E A S O).
Abbreviation Api R := (ST world (option R)).
Implicit Types w : world.

(** The attributes that the enumerations of the IDL have. *)
Definition tabled (attr : UsbSerialAttr) : Prop :=
  baudRate_ attr ∈ BaudRates_table ∧ dataBits_ attr ∈ DataBits_table ∧ parity_ attr ∈ Parity_table ∧
  stopBits_ attr ∈ StopBits_table.
(** The attributes [attr] sent to the port, and the answer told. *)
Definition sends_attribute (portId : Z) (attr : UsbSerialAttr) : Api unit :=
  invoke (SerialSetAttribute portId attr) (λ ret,
    if negb (ret =? 0) then refuse (ErrorCodeConversion ret) "Failed to set attribute!" tt else give tt).

Lemma enum_back table v : NoDup table → v ∈ table → get_value table (from_value table v) = v.
Proof.
  intros Hn [i Hi]%list_elem_of_lookup. rewrite (from_value_key table i v) by done. by apply get_value_key.
Qed.
Lemma tables_distinct :
  NoDup BaudRates_table ∧ NoDup DataBits_table ∧ NoDup Parity_table ∧ NoDup StopBits_table.
Proof. split_and!; apply (bool_decide_unpack _); by vm_compute. Qed.

(** What getAttribute gives of a port, handed to setAttribute, sends the port exactly the
    attributes that it had, whenever the enumerations have them; getAttribute itself changes
    nothing and reports nothing. *)
Theorem serial_attribute_roundtrip w portId attr l (Hport : 0 ≤ portId)
    (Hget : SerialGetAttribute portId (mk_UsbSerialAttr any_int any_int any_int any_int) (lib w) = (Some (0, attr), l))
    (Hattr : tabled attr) :
  ∃ a, GetAttribute portId w = (Some a, set_lib l w) ∧ ∀ w', SetAttribute portId a w' = sends_attribute portId attr w'.
Proof.
  destruct Hattr as (Hb & Hd & Hp & Hs). destruct tables_distinct as (Nb & Nd & Np & Ns).
  apply Z.ltb_ge in Hport. exists (SerialAttributeToTaihe attr). split.
  - unfold GetAttribute. rewrite Hport. cbv zeta. by rewrite (invoke_run _ _ _ _ _ Hget).
  - intros w'. unfold SetAttribute. rewrite Hport. cbn [SerialAttributeToTaihe s_baudRate s_dataBits s_parity s_stopBits].
    cbv zeta. rewrite !enum_back by done. by destruct attr.
Qed.
End Serial.

(** ** Opening a device *)
Section Connecting.
Context {E A S O : Type} `{RT : Runtime E} `{AS : AniStatus} `{ER : EnumRuntime} `{UN : Uninitialised}.
Context `{EB : ErrBase} `{AC : AbilityAccess A} `{UA : UsbAbility} `{US : UsbServer S}.
Context `{FE : Features} `{SY : System O} `{JE : JsErrBase} `{SC : Securec}.
Context {N : Type} `{NA : Napi N} `{TC : TextCoding} `{NL : !NapiLaws N}.
#[local] Existing Instance usb_messages.
Implicit Types (w : TaiheWorld.world E A S O).

(** The report of a failed [connectDevice]. *)
Definition connect_failure (ret : Z) : Z :=
  if (ret =? UEC_SERVICE_PERMISSION_DENIED) || (ret =? UEC_INTERFACE_PERMISSION_DENIED) then UEC_COMMON_HAS_NO_RIGHT
  else if ret =? TaiheWorld.HDF_DEV_ERR_NO_DEVICE then USB_SUBMIT_TRANSFER_IO_ERROR
  else UEC_COMMON_SERVICE_EXCEPTION.

Lemma connectDevice_run d w ret pipe l :
  TaiheWorld.HasFeature TaiheWorld.FEATURE_HOST = true → sized_device d →
  OpenDevice d default_pipe (TaiheWorld.lib w) = (Some (ret, pipe), l) →
  if ret =? UEC_OK then
    connectDevice (ParseToUSBDevice d) w =
      (Some (usbManager.mk_USBDevicePipe (GetBusNum pipe) (GetDevAddr pipe)), TaiheWorld.set_lib l w)
  else ∃ msg, connectDevice (ParseToUSBDevice d) w =
      (Some no_pipe, TaiheWorld.set_reports (reports w ++ [(connect_failure ret, msg)]) (TaiheWorld.set_lib l w)).
Proof.
  intros HF Hd Hopen. unfold connectDevice, TaiheWorld.require_feature. rewrite HF, device_handed_back by done. cbn [negb].
  change (OpenDevice d) with (OpenDevice (taihe_device d)) in Hopen. cbv zeta.
  rewrite (invoke_run _ _ _ _ _ Hopen). cbv beta iota. unfold connect_failure.
  destruct (Z.eqb_spec ret UEC_OK) as [->|Hne]; cbn [negb].
  - rewrite (proj2 (Z.eqb_neq UEC_OK _)), (proj2 (Z.eqb_neq UEC_OK _)) by uec. done.
  - destruct (_ || _); [by eexists|]. destruct (ret =? _); by eexists.
Qed.

(** What the two languages tell of an answer of the service. *)
Definition told_alike (ret : Z) (pipe : USBDevicePipe) (g : view) (r : Z)
    (answer : option usbManager.USBDevicePipe) (told : list (Z * string)) : Prop :=
  if ret =? UEC_OK then
    thrown g = None ∧ value_at g r (pipe_tree pipe) ∧ told = [] ∧
    ∃ p, answer = Some p ∧ ConvertUSBDevicePipe p = pipe
  else
    (∃ msg, told = [(connect_failure ret, msg)]) ∧
    if connect_failure ret =? UEC_COMMON_HAS_NO_RIGHT then threw g UEC_COMMON_HAS_NO_RIGHT
    else thrown g = None ∧ handles g !! r = Some JUndefined.

(** C13: connectDevice with the value of a device that the application got, in JavaScript and in
    ArkTS over the same library, opens the same device at the service with the same effect,
    and the two tell the same: the pipe of the answer, with no error, after a success; the
    code 14400001 after a missing right.  They differ in the other failures only: JavaScript
    gives undefined, ArkTS reports 14400012 for a device that is gone and 14400004 for
    the rest. *)
Theorem connects_agree (wj : JsWorld.world N A S O) w info v d ret pipe l
    (HF : USB_MANAGER_FEATURE_HOST = true) (Hq : thrown (look (JsWorld.engine wj)) = None)
    (Hv : frames (look (JsWorld.engine wj)) !! info = Some [v])
    (Hden : denotes (heap (look (JsWorld.engine wj))) (device_tree d) v) (Hd : sized_device d)
    (Hlib : JsWorld.lib wj = TaiheWorld.lib w) (Hp : sized_pipe pipe)
    (Hopen : OpenDevice d default_pipe (TaiheWorld.lib w) = (Some (ret, pipe), l)) :
  ∃ r e told,
    JsCalls.CoreConnectDevice info wj = (Some r, JsWorld.set_engine e (JsWorld.set_lib l wj)) ∧
    (connectDevice (ParseToUSBDevice d) w).2 = TaiheWorld.set_reports (reports w ++ told) (TaiheWorld.set_lib l w) ∧
    told_alike ret pipe (look e) r (connectDevice (ParseToUSBDevice d) w).1 told.
Proof.
  pose proof (connectDevice_run d w ret pipe l HF Hd Hopen) as Ht.
  rewrite <- Hlib in Hopen. destruct (connect_run wj info v d ret pipe l HF Hq Hv Hden Hd Hopen) as (r & e & Hrun & Hc).
  unfold connected_with, told_alike, connect_failure in *. destruct (ret =? UEC_OK).
  - rewrite Ht. exists r, e, []. rewrite app_nil_r. split_and!; [done|by destruct w|by apply Hc..|done|].
    eexists. split; [done|]. by apply pipe_handed_back.
  - destruct Ht as [msg ->]. exists r, e. eexists. split_and!; [done|done|by eexists|].
    destruct (_ || _); [by destruct Hc|].
    destruct (ret =? _); exact Hc.
Qed.
End Connecting.

(** ** Transfers that wait *)
Section Waiting.
Context {E A S O : Type} `{RT : Runtime E} `{AS : AniStatus} `{ER : EnumRuntime} `{UN : Uninitialised}.
Context `{EB : ErrBase} `{AC : AbilityAccess A} `{UA : UsbAbility} `{US : UsbServer S}.
Context `{FE : Features} `{SY : System O} `{JE : JsErrBase} `{SC : Securec} `{SL : !SecurecLaws}.
Abbreviation world := (TaiheWorld.world E A S O).
Implicit Types w : world.

(** The runtime finds the bytes of the array: [size] bytes at [data]. *)
Definition array_found (buffer data size : Z) w w1 : Prop :=
  (∀ (failed : ST world (option Z)) k, array_buffer buffer failed k w = k data size w1) ∧
  data ≠ nullptr ∧ size ≤ SECUREC_MEM_MAX_LEN.

(** What bulkTransferSync answers and does to the array of the application, for every answer
    of the service.  To the device: the length of the array if the service says success,
    and -1 otherwise; the array keeps its bytes.  From the device, the code of the service has
    no part in the answer: bytes that do not fit are not written and the answer is -1; bytes
    that fit, after a failure too, go through memcpy_s, whose code decides between their
    number and -1; so when at least one came, they are written to the start of the array. *)
Theorem bulk_transfer_answers w w1 pipe endpoint buffer timeout data size ret bytes l
    (HF : TaiheWorld.HasFeature FEATURE_HOST = true) (Harray : array_found buffer data size w w1)
    (Htransfer : Pipe.BulkTransfer (ConvertUSBDevicePipe pipe) (ParseEndpointObj endpoint)
       (array_bytes data size (runtime w1)) (default 0 timeout) (lib w1) = (Some (ret, bytes), l)) :
  let result := bulkTransferSync pipe endpoint buffer timeout w in
  if USBEndpoint.GetDirection (ParseEndpointObj endpoint) =? USB_ENDPOINT_DIR_IN then
    (Z.of_nat (length bytes) ≤ size →
       result.1 = Some (if (memcpy_s data size bytes).1 =? UEC_OK then i32 (Z.of_nat (length bytes)) else ERROR)) ∧
    (bytes ≠ [] → Z.of_nat (length bytes) ≤ size →
       result = (Some (i32 (Z.of_nat (length bytes))), set_runtime (write_array data bytes (runtime w1)) (set_lib l w1))) ∧
    (size < Z.of_nat (length bytes) → result = (Some ERROR, set_lib l w1))
  else result = (Some (if ret =? UEC_OK then i32 (Z.of_nat (length bytes)) else ERROR), set_lib l w1).
Proof.
  destruct Harray as (Hfound & Hd & Hs). cbv zeta. unfold bulkTransferSync, require_feature. rewrite HF.
  cbn [negb]. rewrite Hfound. cbv zeta. rewrite bind_unfold. cbn [gets fst snd]. rewrite (invoke_run _ _ _ _ _ Htransfer). cbv beta iota.
  destruct (_ =? USB_ENDPOINT_DIR_IN).
  - split_and!.
    + intros Hle. rewrite (proj2 (Z.ltb_ge _ _) Hle), bind_unfold. unfold copy_to_array.
      destruct (memcpy_s _ _ _) as [code [written|]]; rewrite ?bind_unfold; cbn; by destruct (code =? UEC_OK).
    + intros Hne Hle. rewrite (proj2 (Z.ltb_ge _ _) Hle), bind_unfold. unfold copy_to_array.
      rewrite memcpy_s_ok; [done|done| |done]. split; [|done]. destruct bytes; [done|cbn; lia].
    + intros Hlt. by rewrite (proj2 (Z.ltb_lt _ _) Hlt).
  - by destruct (ret =? UEC_OK).
Qed.
End Waiting.

(** ** Runs *)
Module Runs.
Import TaiheSim.TaiheSim.

Lemma taihe_roundtrip_witness :
  sized_device JsSim.Session.full_disk ∧ sized_pipe (mk_USBDevicePipe 1 2) ∧
  ConvertToUsbDevice (ParseToUSBDevice JsSim.Session.full_disk) = taihe_device JsSim.Session.full_disk.
Proof.
  assert (Hp : sized_pipe (mk_USBDevicePipe 1 2)) by by split.
  split; [exact JsSim.Session.full_disk_sized|]. split; [exact Hp|].
  exact (proj1 (taihe_roundtrip JsSim.Session.full_disk (mk_USBDevicePipe 1 2) USBAccessory.default JsSim.Session.full_disk_sized Hp)).
Defined.

(** A port with 9600 baud, eight data bits, no parity and one stop bit. *)
Definition usual : UsbSerialAttr := mk_UsbSerialAttr 9600 8 0 0.
Definition usual_port : UsbServer unit := λ _ _ s, (UEC_OK, CAttribute usual, s).
Lemma serial_attribute_roundtrip_witness :
  ∃ a, GetAttribute (US := usual_port) 3 (world_with 0 tt) = (Some a, world_with 0 tt) ∧ s_baudRate a = key 12.
Proof.
  destruct (serial_attribute_roundtrip (US := usual_port) (world_with 0 tt) 3 usual (lib (world_with 0 tt)))
    as (a & Hget & _).
  - done.
  - by vm_compute.
  - unfold tabled. split_and!; apply (bool_decide_unpack _); by vm_compute.
  - exists a. split; [exact Hget|]. vm_compute in Hget. by injection Hget as <-.
Defined.

(** A device that answers a read with three bytes, and fails. *)
Definition failing_read : UsbServer unit := λ _ _ s, (7, CHost (Bytes [7; 8; 9]), s).
Definition endpoint_in : usbManager.USBEndpoint := usbManager.mk_USBEndpoint 129 2 0 512 1 1 2 0.
Lemma bulk_transfer_answers_witness :
  bulkTransferSync (US := failing_read) (usbManager.mk_USBDevicePipe 1 2) endpoint_in 64 None (world_with 0 tt) =
    (Some 3, set_runtime {[64 := [7; 8; 9; 4]]} (world_with 0 tt)).
Proof.
  pose proof (bulk_transfer_answers (US := failing_read) (world_with 0 tt) (world_with 0 tt)
    (usbManager.mk_USBDevicePipe 1 2) endpoint_in 64 None 64 4 7 [7; 8; 9] (lib (world_with 0 tt)) eq_refl) as H.
  destruct H as (_ & H & _).
  - by split_and!.
  - by vm_compute.
  - rewrite H; [|done|by apply Z.leb_le]. f_equal.
Defined.

(** The device of [JsSim] in both languages. *)
#[local] Existing Instance JsSim.shelf.
Definition with_disk : sim_world (list UsbDevice.t) := world_with 0 [JsSim.Session.disk].
Lemma connects_agree_witness :
  ∃ (wj : JsSim.Session.sim_world) r e,
    JsCalls.CoreConnectDevice (EM := usb_messages) 7 wj =
      (Some r, JsWorld.set_engine e (JsWorld.set_lib (lib with_disk) wj)) ∧
    told_alike UEC_OK (mk_USBDevicePipe 1 2) (look e) r (connectDevice (ParseToUSBDevice JsSim.Session.disk) with_disk).1 [].
Proof.
  pose proof (builds_device 0 JsSim.Session.disk JsSim.Session.disk_countable (mk_sim JsSim.Session.fresh_view ∅) eq_refl) as Hb.
  unfold wp in Hb.
  destruct (CtoJSUsbDevice 0 JsSim.Session.disk (mk_sim JsSim.Session.fresh_view ∅)) as [h0 e0]. cbn in Hb.
  destruct Hb as (Hg & _ & v & _ & Hden).
  assert (Hq : thrown (s_view e0) = None) by by eapply grown_quiet.
  destruct (connects_agree (JsSim.Session.world_with [v] (s_view e0) [JsSim.Session.disk]) with_disk 7 v JsSim.Session.disk
              UEC_OK (mk_USBDevicePipe 1 2) (lib with_disk)) as (r & e & told & Hrun & _ & Ht).
  - reflexivity.
  - exact Hq.
  - reflexivity.
  - eapply denotes_mono; [|exact Hden]. by apply map_subseteq_difference_l.
  - exact JsSim.Session.disk_sized.
  - reflexivity.
  - by split.
  - by vm_compute.
  - exists (JsSim.Session.world_with [v] (s_view e0) [JsSim.Session.disk]), r, e. split; [exact Hrun|].
    assert (told = []) as -> by apply Ht. exact Ht.
Defined.
End Runs.
