(* ===== verification/SettingsShare.v ===== *)
(** * The settings of the system

    [utils/native/src/usb_settings_datashare.cpp]: [UsbSettingDataShare], through which the
    service and the function window read and write settings.  The data-share library and the
    ability manager are the class [DataShare]; [SettingsLaws] says what the library documents
    of a table of settings.  [settings_roundtrip] is about two objects one after the other, as
    the service makes them: what the first has written the second reads. *)

From S2P Require Import Prelude.

#[local] Set Default Goal Selector "!".

(** [usb_settings_datashare.cpp:28-29] [SETTINGS_DATASHARE_URI] *)
Definition SETTINGS_DATASHARE_URI : string :=
  "datashare:///com.ohos.settingsdata/entry/settingsdata/SETTINGSDATA?Proxy=true".
(** [usb_settings_datashare.cpp:30-30] [SETTINGS_DATASHARE_EXT_URI] *)
Definition SETTINGS_DATASHARE_EXT_URI : string := "datashare:///com.ohos.settingsdata.DataAbility".
(** [usb_settings_datashare.cpp:31-31] [SETTINGS_DATA_COLUMN_KEYWORD] *)
Definition SETTINGS_DATA_COLUMN_KEYWORD : string := "KEYWORD".
(** [usb_settings_datashare.cpp:32-32] [SETTINGS_DATA_COLUMN_VALUE] *)
Definition SETTINGS_DATA_COLUMN_VALUE : string := "VALUE".
(** [usb_settings_datashare.h:43-43] [RDB_INVALID_VALUE] *)
Definition RDB_INVALID_VALUE : Z := -1.

(** The ability manager, and the calls of a [DataShareHelper] and of its result sets, both of
    which are [Z].  A predicate is the column and the value that it is equal to, a bucket
    the columns with their new values; [GetColumnIndex] and [GetString] write their
    out-parameter or leave it alone. *)
Class DataShare (P : Type) := {
  E_OK : Z;
  E_DATA_SHARE_NOT_READY : Z;
  HasSystemAbilityManager : P → bool;
  GetSystemAbility : Z → ST P (option Z);
  Create : Z → string → string → ST P (Z * option Z);
  helper_Query : Z → string → string * string → ST P (option Z);
  helper_Insert : Z → string → list (string * string) → ST P Z;
  helper_Update : Z → string → string * string → list (string * string) → ST P Z;
  NotifyChange : Z → string → ST P unit;
  Release : Z → ST P unit;
  GoToFirstRow : Z → ST P Z;
  GetColumnIndex : Z → string → ST P (option Z);
  GetString : Z → Z → ST P (option string);
  Close : Z → ST P unit;
}.

Section SettingsShare.
Context {P : Type} `{DS : DataShare P}.

(** [usb_settings_datashare.cpp:48-74] [UsbSettingDataShare::CreateDataShareHelper] *)
Definition CreateDataShareHelper (systemAbilityId : Z) : ST P (option Z) :=
  manager ← gets HasSystemAbilityManager;
  if negb manager then mret None
  else
    remote ← GetSystemAbility systemAbilityId;
    match remote with
    | None => mret None
    | Some remote =>
        '(ret, helper) ← Create remote SETTINGS_DATASHARE_URI SETTINGS_DATASHARE_EXT_URI;
        if ret =? E_OK then mret helper
        else if ret =? E_DATA_SHARE_NOT_READY then mret None
        else mret None
    end.

(** The object is its member [datashareHelper_]. *)
(** [usb_settings_datashare.cpp:35-38] [UsbSettingDataShare::UsbSettingDataShare] *)
Definition UsbSettingDataShare (USB_SYSTEM_ABILITY_ID : Z) : ST P (option Z) :=
  CreateDataShareHelper USB_SYSTEM_ABILITY_ID.
(** [usb_settings_datashare.cpp:40-46] [UsbSettingDataShare::~UsbSettingDataShare] *)
Definition destroy (datashareHelper_ : option Z) : ST P unit :=
  match datashareHelper_ with Some helper => Release helper | None => mret tt end.

(** [usb_settings_datashare.cpp:76-105] [UsbSettingDataShare::Query] [value] is an out-parameter *)
Definition Query (datashareHelper_ : option Z) (uri key value : string) : ST P (bool * string) :=
  match datashareHelper_ with
  | None => mret (false, value)
  | Some helper =>
      result ← helper_Query helper uri (SETTINGS_DATA_COLUMN_KEYWORD, key);
      match result with
      | None => mret (false, value)
      | Some result =>
          first ← GoToFirstRow result;
          if negb (first =? E_OK) then Close result ;; mret (false, value)
          else
            columnIndex ← GetColumnIndex result SETTINGS_DATA_COLUMN_VALUE;
            text ← GetString result (default 0 columnIndex);
            Close result ;;
            mret (true, default value text)
      end
  end.

(** [usb_settings_datashare.cpp:107-129] [UsbSettingDataShare::Insert] *)
Definition Insert (datashareHelper_ : option Z) (uri key value : string) : ST P bool :=
  match datashareHelper_ with
  | None => mret false
  | Some helper =>
      result ← helper_Insert helper uri [(SETTINGS_DATA_COLUMN_KEYWORD, key); (SETTINGS_DATA_COLUMN_VALUE, value)];
      if result =? RDB_INVALID_VALUE then Release helper ;; mret false
      else NotifyChange helper uri ;; Release helper ;; mret true
  end.

(** [usb_settings_datashare.cpp:131-157] [UsbSettingDataShare::Update] *)
Definition Update (datashareHelper_ : option Z) (uri key value : string) : ST P bool :=
  match datashareHelper_ with
  | None => mret false
  | Some helper =>
      '(found, _) ← Query datashareHelper_ uri key "";
      if negb found then Insert datashareHelper_ uri key value
      else
        result ← helper_Update helper uri (SETTINGS_DATA_COLUMN_KEYWORD, key) [(SETTINGS_DATA_COLUMN_VALUE, value)];
        if result =? RDB_INVALID_VALUE then Release helper ;; mret false
        else NotifyChange helper uri ;; Release helper ;; mret true
  end.
End SettingsShare.

(** ** A table of settings

    [table] holds the value of each key of each uri; [opened] says that a helper is open, and
    [rows] gives the values that a result set has, of the key it was asked for.  A helper
    that is open works until it is released; reading changes nothing but the result sets;
    a write stores the value, or fails with [RDB_INVALID_VALUE] and stores nothing. *)
Class SettingsLaws (P : Type) `{DS : DataShare P} := {
  table : P → gmap (string * string) string;
  opened : P → Z → Prop;
  rows : P → Z → option (list string);
  law_query h uri key e : opened e h →
    ∃ r e', helper_Query h uri (SETTINGS_DATA_COLUMN_KEYWORD, key) e = (Some r, e') ∧
      table e' = table e ∧ opened e' h ∧ rows e' r = Some (option_list (table e !! (uri, key)));
  law_first r h e l : opened e h → rows e r = Some l →
    ∃ c e', GoToFirstRow r e = (c, e') ∧ (c = E_OK ↔ l ≠ []) ∧ table e' = table e ∧ opened e' h ∧ rows e' r = Some l;
  law_read r h e v l : opened e h → rows e r = Some (v :: l) →
    ∃ i e' e'', GetColumnIndex r SETTINGS_DATA_COLUMN_VALUE e = (Some i, e') ∧ GetString r i e' = (Some v, e'') ∧
      table e'' = table e ∧ opened e'' h;
  law_close r h e : opened e h → table (Close r e).2 = table e ∧ opened (Close r e).2 h;
  law_insert h uri key value e : opened e h →
    let '(c, e') := helper_Insert h uri [(SETTINGS_DATA_COLUMN_KEYWORD, key); (SETTINGS_DATA_COLUMN_VALUE, value)] e in
    table e' = (if c =? RDB_INVALID_VALUE then table e else <[(uri, key) := value]> (table e));
  law_update h uri key value e : opened e h → is_Some (table e !! (uri, key)) →
    let '(c, e') := helper_Update h uri (SETTINGS_DATA_COLUMN_KEYWORD, key) [(SETTINGS_DATA_COLUMN_VALUE, value)] e in
    table e' = (if c =? RDB_INVALID_VALUE then table e else <[(uri, key) := value]> (table e));
  law_notify h uri e : table (NotifyChange h uri e).2 = table e;
  law_release h e : table (Release h e).2 = table e;
}.

Section Settings.
Context {P : Type} `{SL : SettingsLaws P}.

Lemma Query_run h uri key value e :
  opened e h →
  ∃ e', Query (Some h) uri key value e =
      ((opt_is_some (table e !! (uri, key)), default value (table e !! (uri, key))), e') ∧
    table e' = table e ∧ opened e' h.
Proof.
  intros Ho. unfold Query. rewrite bind_unfold.
  destruct (law_query h uri key e Ho) as (r & e1 & -> & Ht1 & Ho1 & Hr1). cbn [fst snd]. rewrite bind_unfold.
  destruct (law_first r h e1 _ Ho1 Hr1) as (c & e2 & -> & Hc & Ht2 & Ho2 & Hr2). cbn [fst snd].
  destruct (table e !! (uri, key)) as [v|]; cbn [option_list opt_is_some default] in *.
  - rewrite (proj2 (Z.eqb_eq c E_OK)) by by apply Hc. cbn [negb]. rewrite bind_unfold.
    destruct (law_read r h e2 v [] Ho2 Hr2) as (i & e3 & e4 & -> & Hs & Ht4 & Ho4). cbn [fst snd from_option id].
    rewrite bind_unfold, Hs, bind_unfold. cbn [fst snd]. eexists. split; [done|].
    destruct (law_close r h e4 Ho4) as [-> ?]. by rewrite Ht4, Ht2, Ht1.
  - rewrite (proj2 (Z.eqb_neq c E_OK)) by (intros Heq; by apply Hc in Heq). cbn [negb]. rewrite bind_unfold. eexists. split; [done|].
    destruct (law_close r h e2 Ho2) as [-> ?]. by rewrite Ht2, Ht1.
Qed.

(** An update stores the value exactly when it says so. *)
Lemma Update_run h uri key value e :
  opened e h →
  table (Update (Some h) uri key value e).2 =
    if (Update (Some h) uri key value e).1 then <[(uri, key) := value]> (table e) else table e.
Proof.
  intros Ho. unfold Update. rewrite bind_unfold.
  destruct (Query_run h uri key "" e Ho) as (e1 & -> & Ht1 & Ho1). cbn [fst snd].
  destruct (table e !! (uri, key)) as [v|] eqn:Hv; cbn [opt_is_some negb].
  - rewrite bind_unfold. assert (Hs : is_Some (table e1 !! (uri, key))) by (rewrite Ht1, Hv; by eexists).
    pose proof (law_update h uri key value e1 Ho1 Hs) as H. destruct (helper_Update _ _ _ _ e1) as [c e2]. cbn [fst snd].
    destruct (c =? RDB_INVALID_VALUE); rewrite !bind_unfold; cbn; by rewrite law_release, ?law_notify, H, Ht1.
  - unfold Insert. rewrite bind_unfold. pose proof (law_insert h uri key value e1 Ho1) as H.
    destruct (helper_Insert _ _ _ e1) as [c e2]. cbn [fst snd].
    destruct (c =? RDB_INVALID_VALUE); rewrite !bind_unfold; cbn; by rewrite law_release, ?law_notify, H, Ht1.
Qed.

(** Two objects, one after the other: an update that says that it has stored the value is
    what a later object reads, for that setting; every other setting reads as before.  An
    update that fails has changed nothing. *)
Theorem settings_roundtrip h h' uri key value uri' key' old e
    (Ho : opened e h) (Ho' : opened (destroy (Some h) (Update (Some h) uri key value e).2).2 h') :
  let stored := (Update (Some h) uri key value e).1 in
  let e' := (destroy (Some h) (Update (Some h) uri key value e).2).2 in
  (Query (Some h') uri' key' old e').1 =
    if stored && bool_decide ((uri', key') = (uri, key)) then (true, value)
    else (opt_is_some (table e !! (uri', key')), default old (table e !! (uri', key'))).
Proof.
  cbv zeta. destruct (Query_run h' uri' key' old _ Ho') as (e2 & -> & _). cbn [fst].
  unfold destroy. rewrite law_release, Update_run by done. destruct (Update _ _ _ _ e).1; cbn [andb]; [|done].
  case_bool_decide as Hk; [by rewrite Hk, lookup_insert_eq|by rewrite lookup_insert_ne].
Qed.
End Settings.

(** ** A table in memory *)
Module Sample.
Definition memory : Type := gmap (string * string) string * list string.
Definition store (uri key value : string) (e : memory) : Z * memory := (1, (<[(uri, key) := value]> e.1, e.2)).
#[local] Instance memory_share : DataShare memory := {|
  E_OK := 0;
  E_DATA_SHARE_NOT_READY := 1;
  HasSystemAbilityManager _ := true;
  GetSystemAbility _ := mret (Some 1);
  Create _ _ _ := mret (0, Some 5);
  helper_Query _ uri predicate := λ e, (Some 7, (e.1, option_list (e.1 !! (uri, predicate.2))));
  helper_Insert _ uri bucket := λ e,
    match bucket with [(_, key); (_, value)] => store uri key value e | _ => (RDB_INVALID_VALUE, e) end;
  helper_Update _ uri predicate bucket := λ e,
    match bucket with [(_, value)] => store uri predicate.2 value e | _ => (RDB_INVALID_VALUE, e) end;
  NotifyChange _ _ := mret tt;
  Release _ := mret tt;
  GoToFirstRow _ := λ e, (match e.2 with [] => 2 | _ => 0 end, e);
  GetColumnIndex _ _ := mret (Some 1);
  GetString _ _ := λ e, (head e.2, e);
  Close _ := mret tt;
|}.
#[local] Instance memory_laws : SettingsLaws memory.
Proof.
  refine {| table e := e.1; opened _ _ := True; rows e _ := Some e.2 |}; try done.
  - intros h uri key e _. eexists _, _. by split_and!.
  - intros r h e l _ [= <-]. eexists _, _. split; [done|]. split_and!; try done.
    cbn. by destruct e.2.
  - intros r h e v l _ [= Hr]. eexists _, _, _. split; [done|]. cbn. by rewrite Hr.
Defined.

Lemma settings_roundtrip_witness :
  let e := (destroy (Some 5) (Update (Some 5) "settings" "HDC_STATUS" "true" (∅, [])).2).2 in
  (Query (Some 5) "settings" "HDC_STATUS" "false" e).1 = (true, "true"%string) ∧
  (Query (Some 5) "settings" "other" "0" e).1 = (false, "0"%string).
Proof.
  split.
  - exact (settings_roundtrip 5 5 "settings" "HDC_STATUS" "true" "settings" "HDC_STATUS" "false" (∅, []) I I).
  - exact (settings_roundtrip 5 5 "settings" "HDC_STATUS" "true" "settings" "other" "0" (∅, []) I I).
Defined.
End Sample.
