(* ===== verification/ServiceTypes.v ===== *)
(** * What a client is shown of the attached devices

    The driver hands over bytes; the parser makes integers of them, and the members of a
    device are C++ integers of 32 bits.  Whatever happens to the service, every device of
    its table holds values of those types, so that what [Marshalling] says of its parcel
    holds of it.  The theorem of this file: which devices a client is listed, with which
    members, and that they come out of the parcel so. *)

From stdpp Require Import relations.
From S2P Require Import Prelude UsbErrors UsbTypes DescriptorParser Interfaces Marshalling Json.
From S2P Require Import HostDriver HostEvents HostPolicy HostManager HostInvariant HostVisibility HostReading.
From S2P Require Import Service ServiceHost ServiceGate ServiceIdentity.
From S2P Require SerialManager.

#[local] Set Default Goal Selector "!".

(** ** The parser *)
Section Parsed.
Context `{EB : ErrBase}.
Implicit Types (n : nat).

(** At most [n] elements in every container, and integers of 32 bits. *)
Definition small_interface n (i : UsbInterface.t) : Prop :=
  is_i32 (UsbInterface.id_ i) ∧ is_i32 (UsbInterface.protocol_ i) ∧
  is_i32 (UsbInterface.klass_ i) ∧ is_i32 (UsbInterface.subClass_ i) ∧
  is_i32 (UsbInterface.alternateSetting_ i) ∧
  (length (UsbInterface.endpoints_ i) <= n)%nat ∧ Forall typed_endpoint (UsbInterface.endpoints_ i).
Definition small_config n (c : USBConfig.t) : Prop :=
  is_i32 (USBConfig.id_ c) ∧ is_i32 (USBConfig.maxPower_ c) ∧
  (length (USBConfig.interfaces_ c) <= n)%nat ∧ Forall (small_interface n) (USBConfig.interfaces_ c).
Definition small n (cs : list USBConfig.t) : Prop := (length cs <= n)%nat ∧ Forall (small_config n) cs.

Lemma small_interface_le n m i : (n <= m)%nat → small_interface n i → small_interface m i.
Proof. unfold small_interface. intuition lia. Qed.
Lemma small_config_le n m c : (n <= m)%nat → small_config n c → small_config m c.
Proof.
  intros Hle (? & ? & ? & Hi). split_and!; [done|done|lia|].
  eapply Forall_impl; [done|]. intros i. by apply small_interface_le.
Qed.
Lemma small_le n m cs : (n <= m)%nat → small n cs → small m cs.
Proof.
  intros Hle [? Hc]. split; [lia|]. eapply Forall_impl; [done|]. intros c. by apply small_config_le.
Qed.

Lemma byte_i32 z : is_u8 z → is_i32 z.
Proof. width_lia. Qed.
Lemma word_i32 z : is_u16 z → is_i32 z.
Proof. width_lia. Qed.
#[local] Hint Resolve byte_i32 word_i32 : core.

Lemma rd16_word mem p w : Forall is_u8 mem → rd16 mem p = Val w → is_u16 w.
Proof.
  intros Hm. unfold rd16. intros (lo & Hlo & H)%res_bind_Val.
  apply res_bind_Val in H as (hi & Hhi & [= <-]).
  apply rd8_byte in Hlo, Hhi; [|done..]. width_lia.
Qed.

(** Every read of the packed structures gives bytes and words. *)
Ltac read_bytes Hm :=
  repeat match goal with
  | H : (_ ≫= _) = Val _ |- _ => apply res_bind_Val in H as (? & ? & H)
  | H : Val _ = Val _ |- _ => injection H as <-
  | H : rd8 _ _ = Val _ |- _ => apply (rd8_byte _ _ _ Hm) in H
  | H : rd16 _ _ = Val _ |- _ => apply (rd16_word _ _ _ Hm) in H
  end.

Lemma Forall_update_back {A} (P Q : A → Prop) f l :
  (∀ x, P x → Q (f x)) → (∀ x, P x → Q x) → Forall P l → Forall Q (update_back f l).
Proof.
  intros Hf Hpq Hl. unfold update_back. destruct (last l) as [x|] eqn:Hx.
  - apply last_Some in Hx as [l' ->]. rewrite removelast_last.
    rewrite Forall_app, Forall_singleton in Hl. destruct Hl as [Hl' Hx]. apply Forall_app. split.
    + eapply Forall_impl; [exact Hl'|auto].
    + apply Forall_singleton. auto.
  - eapply Forall_impl; [exact Hl|auto].
Qed.
Lemma length_update_back {A} (f : A → A) l : length (update_back f l) = length l.
Proof.
  unfold update_back. destruct (last l) as [x|] eqn:Hx; [|done].
  apply last_Some in Hx as [l' ->]. by rewrite removelast_last, !length_app.
Qed.

(** The three additions, on descriptors read from bytes. *)
Lemma AddConfig_small n configs mem p d :
  Forall is_u8 mem → UsbdConfigDescriptor.read mem p = Val d →
  small n configs → small (S n) (AddConfig configs d).2.
Proof.
  intros Hm Hd [Hl Hc]. unfold UsbdConfigDescriptor.read in Hd. read_bytes Hm.
  unfold AddConfig, small. cbn [snd]. rewrite length_app. cbn. split; [lia|]. apply Forall_app. split.
  - eapply Forall_impl; [exact Hc|]. intros c. apply small_config_le. lia.
  - apply Forall_singleton. split_and!; cbn; auto; try lia; apply Forall_nil_2.
Qed.

Lemma AddInterface_small n configs mem p d :
  Forall is_u8 mem → UsbdInterfaceDescriptor.read mem p = Val d →
  small n configs → small (S n) (AddInterface configs d).2.
Proof.
  intros Hm Hd Hs. unfold UsbdInterfaceDescriptor.read in Hd. read_bytes Hm.
  unfold AddInterface. destruct configs as [|c configs]; [by apply (small_le n); [lia|]|].
  destruct Hs as [Hl Hc]. cbn [snd]. split; [rewrite length_update_back; lia|].
  eapply Forall_update_back; [| |exact Hc]; [|intros ?; by apply small_config_le; lia].
  intros c' (K1 & K2 & K3 & K4). unfold small_config. cbn. unfold USBConfig.GetInterfaces. rewrite length_app. cbn.
  split_and!; [done|done|lia|]. apply Forall_app. split.
  - eapply Forall_impl; [exact K4|]. intros i. apply small_interface_le. lia.
  - apply Forall_singleton. split_and!; cbn; auto; try lia; apply Forall_nil_2.
Qed.

Lemma AddEndpoint_small n configs mem p d :
  Forall is_u8 mem → UsbdEndpointDescriptor.read mem p = Val d →
  small n configs → small (S n) (AddEndpoint configs d).2.
Proof.
  intros Hm Hd Hs. unfold UsbdEndpointDescriptor.read in Hd. read_bytes Hm.
  unfold AddEndpoint. destruct (last configs) as [c|]; [|by apply (small_le n); [lia|]].
  destruct (last (USBConfig.GetInterfaces c)) as [i|]; [|by apply (small_le n); [lia|]].
  destruct Hs as [Hl Hc]. cbn [snd]. split; [rewrite length_update_back; lia|].
  eapply Forall_update_back; [| |exact Hc]; [|intros ?; by apply small_config_le; lia].
  intros c' (K1 & K2 & K3 & K4). unfold small_config. cbn. unfold USBConfig.GetInterfaces. rewrite length_update_back.
  split_and!; [done|done|lia|].
  eapply Forall_update_back; [| |exact K4]; [|intros ?; by apply small_interface_le; lia].
  intros i' (J1 & J2 & J3 & J4 & J5 & J6 & J7). unfold small_interface. cbn. unfold UsbInterface.GetEndpoints. rewrite length_app. cbn.
  split_and!; try done; try lia. apply Forall_app. split; [done|]. apply Forall_singleton.
  split; cbn; auto.
Qed.

(** An element takes a round of the loop. *)
Lemma loop_small mem length fuel : ∀ cursor n configs ret configs',
  Forall is_u8 mem → small n configs →
  ParseConfigDescriptors_loop fuel mem length cursor configs = Val (ret, configs') →
  small (n + fuel) configs'.
Proof.
  induction fuel as [|fuel IH]; intros cursor n configs ret configs' Hm Hs; [done|].
  assert (Hstop : ∀ r, Val (r, configs) = Val (ret, configs') → small (n + S fuel) configs').
  { intros r [= _ <-]. apply (small_le n); [lia|done]. }
  assert (Hgo : ∀ (r : Z * list USBConfig.t) c, small (S n) r.2 →
    (let '(ret0, configs0) := r in
     if failed ret0 then Val (ret0, configs0)
     else ParseConfigDescriptors_loop fuel mem length c configs0) = Val (ret, configs') →
    small (n + S fuel) configs').
  { intros [r cs] c Hr. case_if; [intros [= _ <-]; apply (small_le (S n)); [lia|done]|].
    intros H. replace (n + S fuel)%nat with (S n + fuel)%nat by lia. by eapply IH. }
  cbn [ParseConfigDescriptors_loop].
  destruct (negb (cursor <? length)); [apply Hstop|].
  destruct (u32 (length - cursor) <? UsbdDescriptorHeader.size); [apply Hstop|].
  intros (h & Hh & H)%res_bind_Val. revert H. cbv zeta.
  destruct ((_ <? _) || _); [apply Hstop|].
  repeat (case_if; try apply Hstop).
  - intros (d & Hd & H)%res_bind_Val. eapply Hgo, H. by eapply AddConfig_small.
  - intros (d & Hd & H)%res_bind_Val. eapply Hgo, H. by eapply AddInterface_small.
  - intros (d & Hd & H)%res_bind_Val. eapply Hgo, H. by eapply AddEndpoint_small.
  - intros H. eapply (Hgo (UEC_OK, configs)), H. by apply (small_le n); [lia|].
Qed.

Lemma small_typed n cs :
  is_u32 (Z.of_nat n) → small n cs →
  is_u32 (Z.of_nat (length cs)) ∧ Forall typed_config cs.
Proof.
  intros Hn [Hl Hc]. split; [width_lia|]. eapply Forall_impl; [exact Hc|].
  intros c (H1 & H2 & H3 & H4). split_and!; [done|done|width_lia|].
  eapply Forall_impl; [exact H4|]. intros i (J1 & J2 & J3 & J4 & J5 & J6 & J7).
  split_and!; try done. width_lia.
Qed.

(** A buffer of bytes, of a size that leaves room for the parser's counter. *)
Definition descriptor_bytes (mem : list Z) : Prop :=
  Forall is_u8 mem ∧ is_u32 (Z.of_nat (S (length mem))).

Lemma parsed_typed mem cursor ret configs :
  descriptor_bytes mem → ParseConfigDescriptors mem cursor [] = Val (ret, configs) →
  is_u32 (Z.of_nat (length configs)) ∧ Forall typed_config configs.
Proof.
  intros [Hm Hn] H. apply (small_typed (S (length mem))); [done|].
  apply (loop_small mem _ _ _ O) in H; [done|done|]. split; [done|apply Forall_nil_2].
Qed.

(** The members that the device descriptor fills in. *)
Definition typed_head (d : UsbDevice.t) : Prop :=
  is_i32 (UsbDevice.vendorId_ d) ∧ is_i32 (UsbDevice.productId_ d) ∧
  is_i32 (UsbDevice.baseClass_ d) ∧ is_i32 (UsbDevice.subClass_ d) ∧ is_i32 (UsbDevice.protocol_ d).

Lemma device_head_typed mem length d ret d' :
  Forall is_u8 mem → ParseDeviceDescriptor (Some mem) length d = Val (ret, d') →
  ret = UEC_OK → typed_head d'.
Proof.
  intros Hm. unfold ParseDeviceDescriptor.
  do 2 (case_if; [intros [= <- _] Hbad; by destruct invalid_not_ok|]).
  intros (x & Hx & H)%res_bind_Val. revert H.
  case_if; [|intros [= <- _] Hbad; by destruct invalid_not_ok]. intros [= _ <-] _. unfold UsbdDeviceDescriptor.read in Hx. read_bytes Hm.
  split_and!; cbn; auto.
Qed.
End Parsed.

(** ** The host manager *)

(** The driver's buffer is a vector of bytes. *)
Class HdiBytes (E : Type) `{HostHdi E} :=
  raw_bytes dev e : descriptor_bytes (result (hdi_GetRawDescriptor dev []) e).2.

Section Host.
Context {E N SM R Rp : Type} `{EB : ErrBase} `{HD : HostHdi E} `{!HdiBytes E} `{SY : HostSystem E Rp}.
Context `{RY : Reply Rp} `{SP : SystemParams E} `{NO : NotifierOps N} `{CJ : CJson} `{HO : HashOrder}.
Context `{SR : SerialPorts SM} `{CR : CallerRights R} `{CS : CharSign}.
Abbreviation hst := (HostDriver.st E N SM R).
Implicit Types (h : hst).

Lemma typed_head_and_configs d :
  typed_device d ↔ typed_head d ∧ is_u32 (Z.of_nat (length (UsbDevice.configs_ d))) ∧
                   Forall typed_config (UsbDevice.configs_ d).
Proof. unfold typed_device, typed_head. tauto. Qed.

Lemma GetRawDescriptor_bytes b a h : descriptor_bytes (result (HostDriver.GetRawDescriptor b a []) h).2.
Proof.
  unfold HostDriver.GetRawDescriptor, with_host_out. rewrite result_bind, result_gets, after_gets.
  destruct (usbHostInterface_ h).
  - unfold result. rewrite HostDriver.on_platform_run. apply raw_bytes.
  - split; [apply Forall_nil_2|cbn; width_lia].
Qed.

Lemma mapM_each {X Y} (f : X → ST hst Y) (P : X → Prop) (Q : Y → Prop) l : ∀ h,
  (∀ x h, P x → Q (result (f x) h)) → Forall P l →
  length (result (mapM f l) h) = length l ∧ Forall Q (result (mapM f l) h).
Proof.
  induction l as [|x l IH]; intros h Hf Hl; [by split|]. apply Forall_cons in Hl as [Hx Hl].
  cbn [mapM]. rewrite !result_bind. destruct (IH (after (f x) h) Hf Hl) as [H1 H2].
  rewrite result_ret. split; [cbn; by rewrite H1|]. apply Forall_cons. auto.
Qed.

Lemma name_interfaces_typed b a l h :
  Forall typed_interface l →
  length (result (name_interfaces b a l) h) = length l ∧ Forall typed_interface (result (name_interfaces b a l) h).
Proof. apply mapM_each. intros i t Hi. by rewrite !result_bind, result_ret. Qed.

Lemma name_configs_typed b a l h :
  Forall typed_config l →
  length (result (name_configs b a l) h) = length l ∧ Forall typed_config (result (name_configs b a l) h).
Proof.
  apply mapM_each. intros c t (K1 & K2 & K3 & K4). rewrite !result_bind, result_ret.
  match goal with |- context [result (name_interfaces ?b ?a ?l) ?t] =>
    destruct (name_interfaces_typed b a l t K4) as [H1 H2]; revert H1 H2;
    generalize (result (name_interfaces b a l) t) end.
  intros ifs H1 H2. split_and!; [done|done| |exact H2]. cbn in *. by rewrite H1.
Qed.

Lemma FillDevStrings_typed d h : typed_device d → typed_device (result (FillDevStrings d) h).
Proof.
  rewrite !typed_head_and_configs. intros (Hh & Hl & Hc). unfold FillDevStrings. cbv zeta.
  rewrite !result_bind, result_ret.
  match goal with |- context [result (name_configs ?b ?a ?l) ?t] =>
    destruct (name_configs_typed b a l t Hc) as [H1 H2]; revert H1 H2;
    generalize (result (name_configs b a l) t) end.
  intros cs H1 H2. split; [exact Hh|]. split; [|exact H2]. cbn in *. by rewrite H1.
Qed.

(** A device that could be read holds values of its types. *)
Lemma GetDeviceInfoDescriptor_typed u d h ret desc d' :
  result (HostManager.GetDeviceInfoDescriptor u [] d) h = Val (ret, desc, d') →
  ret = UEC_OK → descriptor_bytes desc ∧ typed_head d'.
Proof.
  unfold HostManager.GetDeviceInfoDescriptor. rewrite result_bind.
  pose proof (GetRawDescriptor_bytes (busNum u) (devAddr u) h) as Hb.
  destruct (result (HostDriver.GetRawDescriptor _ _ _) h) as [ret0 desc0]. cbn [snd] in Hb.
  case_if; bsimp; [|intros [= <- _ _]; done].
  case_if; [intros [= <- _ _] Hbad; by destruct invalid_not_ok|].
  rewrite result_ret. intros ([ret1 d1] & Hp & [= <- <- <-])%res_bind_Val Hok.
  split; [done|]. eapply device_head_typed; [apply Hb|exact Hp|done].
Qed.

Lemma GetConfigDescriptor_typed d desc h ret d' :
  descriptor_bytes desc → typed_head d →
  result (HostManager.GetConfigDescriptor d desc) h = Val (ret, d') → ret = UEC_OK → typed_device d'.
Proof.
  intros Hb Hd. unfold HostManager.GetConfigDescriptor.
  destruct (ParseConfigDescriptors desc CURSOR_INIT []) as [[r cs]| |] eqn:Hp; [|done|done].
  case_if; bsimp; [|intros [= <- _]; done]. rewrite result_bind. intros [= <- <-] _.
  apply FillDevStrings_typed, typed_head_and_configs. split; [exact Hd|]. by eapply parsed_typed.
Qed.

Lemma GetDeviceInfo_typed b a d h d' :
  result (HostManager.GetDeviceInfo b a d) h = Val (UEC_OK, d') → typed_device d'.
Proof.
  unfold HostManager.GetDeviceInfo. rewrite !result_bind.
  case_if; bsimp; [|intros [= ? _]; done]. rewrite result_bind.
  match goal with |- context [result (HostManager.GetDeviceInfoDescriptor ?u [] d) ?t] =>
    pose proof (GetDeviceInfoDescriptor_typed u d t) as Hd;
    destruct (result (HostManager.GetDeviceInfoDescriptor u [] d) t) as [[[ret desc] d1]| |] end; [|done|done].
  destruct (ret =? UEC_OK) eqn:Hr; cbn [negb]; bsimp.
  - destruct (Hd ret desc d1 eq_refl ltac:(done)) as [Hb Hh]. rewrite result_bind.
    match goal with |- context [result (HostManager.GetConfigDescriptor d1 desc) ?t] =>
      pose proof (GetConfigDescriptor_typed d1 desc t) as Hc;
      destruct (result (HostManager.GetConfigDescriptor d1 desc) t) as [[ret1 d2]| |] end; [|done|done].
    rewrite result_bind, result_ret. match goal with |- context [result (HostDriver.Close b a) ?t] =>
      generalize (result (HostDriver.Close b a) t); intros rc end.
    case_if; intros [= Hret <-]; bsimp; [by eapply Hc|congruence].
  - rewrite result_bind, result_ret. match goal with |- context [result (HostDriver.Close b a) ?t] =>
      generalize (result (HostDriver.Close b a) t); intros rc end.
    case_if; intros [= ? _]; bsimp; congruence.
Qed.

(** *** The table *)
Definition typed_table h : Prop := map_Forall (λ _, typed_device) (devices_ h).

#[export] Instance typed_table_only : TableOnly typed_table.
Proof. intros h h' Hd. unfold typed_table. by rewrite Hd. Qed.

Lemma typed_update name f :
  (∀ d, typed_device d → typed_device (f d)) → preserves typed_table (update_device name f).
Proof.
  intros Hf h Hh. unfold update_device. rewrite after_modify. intros n d. cbn. rewrite lookup_alter.
  case_decide; [|apply Hh]. intros (d' & Hd' & ->)%fmap_Some. by eapply Hf, Hh.
Qed.

Lemma Forall_altered {X} (P : X → Prop) f (l : list X) i :
  (∀ x, P x → P (f x)) → Forall P l → Forall P (alter f i l).
Proof. intros Hf Hl. apply Forall_alter; [done|]. intros x _. apply Hf. Qed.

#[export] Instance typed_policies : PolicyInvariant typed_table.
Proof.
  constructor.
  - intros A m h Hh. unfold after. rewrite HostDriver.on_platform_run. by apply (table_same h).
  - intros bus addr b op h Hh. unfold after.
    destruct (UsbDeviceAuthorize_run bus addr b op h) as
      (ret & h' & -> & _ & [(Hd & _)|(d & _ & _ & _ & Hd & _)]); [by apply (table_same h)|].
    apply (table_same (after (update_device (dev_name bus addr)
      (UsbDevice.SetAuthorizeStatus (status_of b))) h)); [exact Hd|]. by apply typed_update.
  - intros name i j b. apply typed_update. intros d. rewrite !typed_head_and_configs.
    intros (H1 & H2 & H3). split; [exact H1|]. cbn. rewrite length_alter. split; [done|].
    apply Forall_altered; [|done]. intros c (K1 & K2 & K3 & K4). split_and!; [done|done|..]; cbn.
    + by rewrite length_alter.
    + apply Forall_altered; [intros i'; exact (λ Hi, Hi)|exact K4].
  - intros op v p c sc pr h Hh. by apply (table_same h).
Qed.

Lemma typed_announce name : preserves typed_table (AddDevice_announce name).
Proof.
  intros h Hh. unfold AddDevice_announce, after, device_at. st_exec.
  destruct (devices_ h !! name) as [d|] eqn:Hd; [|done].
  case_bool_decide; st_exec; [done|]. unfold update_device. st_exec.
  match goal with |- context [PublishCommonEvent ?ev ?d ?t] =>
    destruct (PublishCommonEvent_run ev d t) as (ok & e & n & ->) end. st_exec.
  intros i x. cbn. rewrite lookup_alter. case_decide; [|apply Hh]. subst.
  rewrite Hd. intros [= <-]. exact (Hh _ _ Hd).
Qed.

Lemma typed_AddDevice d : typed_device d → preserves typed_table (HostManager.AddDevice (Some d)).
Proof.
  intros Hd. unfold HostManager.AddDevice, AddDevice_insert. cbv zeta.
  apply preserves_bind; [|intros _; apply preserves_bind; [apply kept_ExecuteStrategy, typed_policies|
    intros _; apply typed_announce]].
  apply preserves_bind.
  - intros h Hh i x. cbn. rewrite lookup_insert. case_decide; [|apply Hh]. by intros [= <-].
  - intros _. unfold AddUsbSerialDevice. step_preserve.
    + apply table_serial; apply _.
    + apply table_modify; [apply _..|done].
Qed.

Lemma typed_DelDevice b a : preserves typed_table (HostManager.DelDevice b a).
Proof.
  intros h Hh. unfold HostManager.DelDevice, after, device_at. st_exec.
  destruct (devices_ h !! dev_name b a) as [d|] eqn:Hd; [|done].
  cbn [mwhen]. case_bool_decide; cbn [mwhen]; st_exec.
  - match goal with |- context [PublishCommonEvent ?ev ?d ?t] =>
      destruct (PublishCommonEvent_run ev d t) as (ok & e & n & ->) end. st_exec. cbn.
    by apply map_Forall_delete.
  - by apply map_Forall_delete.
Qed.

(** What a client is given are devices of the table, for some without the serial number. *)
Lemma typed_GetDevices h d :
  typed_table h → d ∈ (result (HostManager.GetDevices []) h).2 → typed_device d.
Proof.
  intros Hh. unfold HostManager.GetDevices. rewrite !result_bind, result_ret. cbn [snd].
  intros (d0 & Hin & Hd)%list_elem_of_omap. apply list_elem_of_omap in Hin as (n & _ & Hin).
  rewrite result_gets in Hin. unfold after in Hin. rewrite HostDriver.on_rights_run in Hin.
  apply (Hh n d0) in Hin. revert Hd. case_if; [done|]. case_if; by intros [= <-].
Qed.
End Host.

(** ** The service *)
Section Listed.
Context {E N D Rt G P Rp : Type} `{EB : ErrBase} `{HD : HostHdi E} `{!HdiBytes E} `{SY : HostSystem E Rp}.
Context `{RY : Reply Rp} `{SP : SystemParams E} `{NO : NotifierOps N} `{CJ : CJson} `{HO : HashOrder}.
Context `{SH : SerialManager.SerialHdi D} `{CS : CharSign} `{HE : HdfDevErr}.
Context `{CI : CallingIdentity Rt} `{CR : CallerRights Rt} `{RS : !RightsService Rt}.
Context `{PL : ServicePlatform P}.
#[local] Existing Instance SerialManager.serial_ports.
Abbreviation st := (Service.st E N D Rt G P).
Implicit Types s : st.

Lemma kept_typed {A} (m : ST st A) s :
  (∀ M, preserves (kept M typed_table) m) → typed_table (host s) → typed_table (host (after m s)).
Proof. intros Hm Hs. by apply (Hm (deviceVidPidMap_ s) s). Qed.

Lemma service_AddDevice_typed b a s :
  typed_table (host s) → typed_table (host (after (AddDevice b a) s)).
Proof.
  intros Hs. unfold AddDevice. rewrite after_bind, result_gets, after_gets.
  destruct (usbHostManager_ s) eqn:Hm; cbn [negb]; [|done]. rewrite after_bind.
  assert (H1 : typed_table (host (after (GetDeviceInfo b a UsbDevice.default) s))).
  { apply kept_typed; [|done]. intros M. apply kept_GetDeviceInfo; apply _. }
  assert (Hr : result (GetDeviceInfo b a UsbDevice.default) s =
    result (HostManager.GetDeviceInfo b a UsbDevice.default) (host s)).
  { unfold GetDeviceInfo. rewrite !result_bind, result_gets, after_gets, Hm. cbn [negb].
    unfold result. by rewrite on_host_run. }
  pose proof (GetDeviceInfo_typed b a UsbDevice.default (host s)) as Ht. rewrite Hr.
  revert H1 Ht. generalize (after (GetDeviceInfo b a UsbDevice.default) s). intros s1 H1 Ht.
  destruct (result (HostManager.GetDeviceInfo _ _ _) _) as [[ret d]| |]; [|done|done].
  case_if; bsimp; [|done]. subst. rewrite !after_bind, after_ret. unfold insert_identity. rewrite after_modify.
  rewrite after_on_host. apply typed_AddDevice; [by apply Ht|exact H1].
Qed.

Lemma service_DelDevice_typed b a s :
  typed_table (host s) → typed_table (host (after (DelDevice b a) s)).
Proof.
  intros Hs. unfold DelDevice. rewrite after_bind.
  apply (kept_typed (Close b a)) in Hs; [|intros M; apply kept_Close; apply _].
  revert Hs. generalize (after (Close b a) s). intros s1 Hs.
  unfold after. st_exec. case_if; st_exec; [done|].
  rewrite service_rights_run. st_exec. rewrite on_host_run. cbn. by apply typed_DelDevice.
Qed.

Lemma service_step_typed (c c' : st * gset string) : service_step c c' → typed_table (host c.1) → typed_table (host c'.1).
Proof.
  intros [] Hs; cbn [fst] in *.
  - by apply service_AddDevice_typed.
  - by apply service_DelDevice_typed.
  - apply kept_typed; [|done]. intros M. apply kept_serve; apply _.
  - apply kept_typed; [|done]. intros M. apply kept_switch; apply _.
  - apply kept_typed; [|done]. intros M. apply kept_host_call, kept_ExecuteStrategy; apply _.
  - by apply (table_same (host s)).
Qed.

Lemma service_typed s0 s taken : service_reaches s0 s taken → typed_table (host s).
Proof.
  intros [[_ Hd] Hr]. change (typed_table (host (s, taken).1)).
  assert (Hs : typed_table (host (s0, ∅ : gset string).1)).
  { unfold typed_table. cbn [fst]. rewrite Hd. apply map_Forall_empty. }
  clear Hd. induction Hr as [|c1 c2 c3 H12 _ IH]; [done|]. by apply IH, (service_step_typed c1).
Qed.

(** What a client sees of a device: nothing of a disabled one, nor of a hub unless it is part
    of the system, and the serial number only then. *)
Definition shown_as (system : bool) (d x : UsbDevice.t) : Prop :=
  UsbDevice.GetAuthorizeStatus d = ENABLED ∧ (UsbDevice.GetClass d = BASE_CLASS_HUB → system = true) ∧
  x = if system then d else UsbDevice.SetmSerial "" d.

Lemma GetDevices_shown (h : HostDriver.st E N (SerialManager.st D) Rt) x :
  x ∈ (result (HostManager.GetDevices []) h).2 ↔
  ∃ name d, devices_ h !! name = Some d ∧ shown_as (result rights_IsSystemAppOrSa (HostDriver.rights h)) d x.
Proof.
  unfold HostManager.GetDevices. rewrite !result_bind, result_ret, result_gets. cbn [snd app].
  set (system := result (HostDriver.on_rights _) h).
  assert (result rights_IsSystemAppOrSa (HostDriver.rights h) = system) as ->.
  { unfold system, result. by rewrite HostDriver.on_rights_run. }
  unfold after. rewrite HostDriver.on_rights_run. cbn [snd HostDriver.devices_ HostDriver.set_rights].
  rewrite list_elem_of_omap. setoid_rewrite elem_of_devices_in_order.
  assert (Hone : ∀ d, (if (UsbDevice.GetClass d =? BASE_CLASS_HUB) && negb system ||
      negb (bool_decide (UsbDevice.GetAuthorizeStatus d = ENABLED)) then None
      else Some (if system then d else UsbDevice.SetmSerial "" d)) = Some x ↔ shown_as system d x).
  { intros d. unfold shown_as. destruct (Z.eqb_spec (UsbDevice.GetClass d) BASE_CLASS_HUB) as [Hh|Hh];
      destruct system; case_bool_decide as Ha; cbn; naive_solver. }
  setoid_rewrite Hone. naive_solver.
Qed.

Context {Q : Type} `{!Parcel Q} (contents : Q → list pitem) `{!ParcelLaws Q contents} `{!ReliableParcel Q contents}.

(** C9: what a client that asks for the devices is listed, in every history of devices that
    arrive and leave, policies and requests, whatever bytes the devices describe themselves
    with.  An ordinary application is listed exactly the enabled devices of the table that
    are not hubs, each without its serial number and otherwise as it is; a part of the
    system is listed exactly the enabled devices, as they are.  Every member of a listed
    device holds a value of its C++ type, so that a client reads the device from its parcel
    as it was listed, but for what the parcels leave out ([wire_device]). *)
Theorem listed_devices_shown s0 s taken (q : Q)
    (Hr : service_reaches s0 s taken) (Hm : usbHostManager_ s = true) (Hq : contents q = []) :
  ∃ ds, result (serve RGetDevices) s = (UEC_OK, Devices ds) ∧
    (∀ x, x ∈ ds ↔ ∃ name d, devices_ (host s) !! name = Some d ∧
       shown_as (result rights_IsSystemAppOrSa (the_rights s)) d x) ∧
    Forall (λ x, typed_device x ∧
      result UsbDevice_Unmarshalling (after (UsbDevice_Marshalling x) q) = wire_device x) ds.
Proof.
  exists (result (HostManager.GetDevices []) (host s)).2. split_and!.
  - cbn [serve]. unfold carry, ServiceHost.GetDevices. rewrite !result_bind, result_gets, after_gets, Hm.
    cbn [negb]. rewrite result_ret. unfold result. rewrite on_host_run. cbn [fst snd].
    f_equal. unfold HostManager.GetDevices. by rewrite !result_bind, result_ret.
  - intros x. apply GetDevices_shown.
  - apply Forall_forall. intros x Hx.
    assert (Ht : typed_device x) by (eapply typed_GetDevices; [by eapply service_typed|exact Hx]).
    split; [done|]. destruct (UsbDevice_writes contents x q) as [_ Hc].
    apply (UsbDevice_reads contents x Ht _ []). by rewrite Hc, Hq, app_nil_r.
Qed.
End Listed.
