(* ===== verification/EndToEnd.v ===== *)
(** * From the application to the table of rights

    The client library, the service and the right manager, one behind the other: what an
    application can do with the library, and what it is told about its rights. *)

From stdpp Require Import relations.
From S2P Require Import Prelude UsbErrors UsbTypes Interfaces Marshalling Json HostDriver HostEvents HostPolicy HostManager.
From S2P Require Import Service ServiceHost ServiceSerial ServiceGate ServicePorts.
From S2P Require Import ServiceIdentity ServiceRights RightDatabase Client ClientLaws.
From S2P Require SerialManager RightManager.

#[local] Set Default Goal Selector "!".

(** ** Two questions to the right manager *)
Section Asked.
Context {S E : Type} `{RdbHealthy S} `{RP : RightManager.RightPlatform E} `{EB : ErrBase}.
Context (table0 : UsbRightTableInfo).
Abbreviation rights := (@RightManager.st S E).
Implicit Types rt : rights.
Import RightManager.

(** An unexpired record in the table. *)
Definition held (R : list row) (now : Z) (d b k : string) (u : Z) : Prop :=
  ∃ x, x ∈ R ∧ row_key x = (u, d, b, Some k) ∧ IsInfoExpired (info_of x) now = false.

(** The clock does not move while a request is served. *)
Class StillClock := still_clock (e : E) : result clock (after clock e) = result clock e.

(** The store answers, and its records are as the manager writes them. *)
Record working rt (R : list row) (now : Z) : Prop := {
  working_ready : ready (database rt) R;
  working_regular : Forall regular R;
  working_length : Z.of_nat (length R) <= INT32_MAX;
  working_now : now_at rt = now;
}.

Lemma held_forallb R now d b k u :
  held R now d b k u ↔
  forallb (λ x, IsInfoExpired (info_of x) now)
    (filter (λ x, matches (key_clause u d b k) x = true) R) = false.
Proof.
  split.
  - intros (x & Hx & Hk%matches_key & He). apply not_true_is_false. intros Hall.
    apply (forallb_true_elem _ _ x) in Hall; [congruence|]. by apply list_elem_of_filter.
  - intros (x & [Hm Hx]%list_elem_of_filter & He)%forallb_false_exists.
    exists x. split_and!; [done|by apply matches_key|done].
Qed.

Context `{!StillClock}.

Lemma now_still rt : now_at (after GetCurrentTimestamp rt) = now_at rt.
Proof.
  unfold now_at, GetCurrentTimestamp, after, on_platform. st_unfold.
  pose proof (still_clock (platform rt)) as Hc. unfold result, after in *.
  destruct (clock (platform rt)) as [t e]. cbn in *. by rewrite Hc.
Qed.

Lemma HasRight_held d b k u rt R now :
  working rt R now → u ≠ USB_RIGHT_USERID_CONSOLE →
  result (HasRight table0 d b k u) rt = true ↔ held R now d b k u.
Proof.
  intros [Hs Hreg Hlen Hn] Hu. subst now.
  by rewrite (HasRight_ready table0 d b k u rt R Hs Hreg Hlen Hu (now_still rt)), negb_true_iff, held_forallb.
Qed.

Lemma now_on_db {A} (m : ST (@db S) A) rt : now_at (after (on_db m) rt) = now_at rt.
Proof. unfold now_at, after, on_db. by destruct (m (database rt)). Qed.

Lemma now_TidyUp rt :
  now_at (after (TidyUpRight table0 TIGHT_UP_USB_RIGHT_RECORD_EXPIRED) rt) = now_at rt.
Proof.
  rewrite TidyUp_expired_after. case_if; [done|]. unfold CleanUpRightNormalExpired.
  rewrite after_bind, now_on_db. apply now_still.
Qed.

Lemma regular_filter (P : row → Prop) `{∀ x, Decision (P x)} R :
  Forall regular R → Forall regular (filter P R).
Proof. rewrite !Forall_forall. intros HR x [_ Hx]%list_elem_of_filter. by apply HR. Qed.

(** A question leaves the store working, and takes away only records that have expired. *)
Lemma HasRight_leaves d b k u rt R now d' b' k' u' :
  working rt R now → u ≠ USB_RIGHT_USERID_CONSOLE →
  ∃ R', working (after (HasRight table0 d b k u) rt) R' now ∧
        (held R' now d' b' k' u' ↔ held R now d' b' k' u').
Proof.
  intros [Hs Hreg Hlen Hn] Hu. subst now. unfold HasRight. rewrite (proj2 (Z.eqb_neq _ _) Hu).
  autorewrite with st. set (s1 := after GetCurrentTimestamp rt).
  assert (Hs1 : ready (database s1) R) by (unfold s1; by rewrite GetCurrentTimestamp_database).
  destruct (TidyUp_ready table0 s1 R Hs1) as (R' & Hs' & HR').
  assert (Hlen' : Z.of_nat (length R') <= INT32_MAX).
  { destruct HR' as [->|[uid ->]]; [done|].
    pose proof (length_filter (λ x, matches (tidy_clause uid (now_at s1)) x = false) R). lia. }
  rewrite GetCurrentTimestamp_result.
  destruct (IsRecordExpired_ready table0 u d b k (now_at rt) _ R' Hs' Hlen') as (s'' & He & Hs'').
  exists R'. split; [split|].
  - unfold after at 1, on_db. rewrite He. exact Hs''.
  - destruct HR' as [->|[uid ->]]; [done|]. by apply regular_filter.
  - done.
  - rewrite now_on_db, now_TidyUp. unfold s1. apply now_still.
  - rewrite !held_forallb. destruct HR' as [->|[uid ->]]; [done|].
    unfold s1. rewrite now_still. by rewrite forallb_drop_expired; [|apply u64_range|].
Qed.
End Asked.

(** ** The whole path *)
Section EndToEnd.
Context {E N D G P Rp : Type} `{EB : ErrBase} `{HD : HostHdi E} `{SY : HostSystem E Rp}.
Context `{RY : Reply Rp} `{SP : SystemParams E} `{NO : NotifierOps N} `{CJ : CJson} `{HO : HashOrder}.
Context `{SH : SerialManager.SerialHdi D} `{CS : CharSign} `{HE : HdfDevErr}.
Context `{PL : ServicePlatform P}.
Context {Rt : Type} `{CI : CallingIdentity Rt} `{CR : CallerRights Rt} `{RS : !RightsService Rt}.
Context {A : Type} `{AC : AbilityAccess A} `{UA : UsbAbility}.
Context (watching : A → Z → Z → Prop) `{!AccessLaws watching}.
Abbreviation service := (Service.st E N D Rt G P).
Context `{US : !UsbServer service}.
Abbreviation library := (@Client.st A service).

(** What the generated proxy and stub make of a request: the service runs it, its code comes
    back, and so does what it carries, when the code is success.  (A list of devices comes
    back through its parcels.) *)
Class Delivers := {
  delivered_host p r (x : service) : (Transact p (ToHost r) x).2 = after (serve r) x;
  delivered_host_code p r (x : service) : (Transact p (ToHost r) x).1.1 = (result (serve r) x).1;
  delivered_host_data p r (x : service) :
    (result (serve r) x).1 = UEC_OK → (∀ l, (result (serve r) x).2 ≠ Devices l) →
    (Transact p (ToHost r) x).1.2 = CHost (result (serve r) x).2;
  delivered_port p k r (x : service) : (Transact p (ToPort k r) x).2 = after (serve_port k r) x;
  delivered_port_code p k r (x : service) ret :
    result (serve_port k r) x = Some ret → (Transact p (ToPort k r) x).1.1 = ret;
}.
Context `{!Delivers}.
Context (entitled : Rt → string → string → string → Z → Prop) `{!RightsLaws Rt entitled}.

(** The outcome is a success. *)
Definition granted_outcome (o : option Outcome) : Prop := o = Some (Code UEC_OK) ∨ o = Some (Said true).

(** What the caller has no part in: its requests about devices, when nothing entitles it to
    any, and about a port that is shut to it. *)
Definition barred (r : Request) (x : service) : Prop :=
  match r with
  | ToHost _ => ordinary x ∧ ∀ b a, unentitled entitled (dev_name b a) x
  | ToPort k _ => shut entitled k x
  | _ => False
  end.
(** The requests that need no right. *)
Definition needs_right (r : Request) : bool :=
  match r with
  | ToHost r => negb (open_to_all r)
  | ToPort _ q => negb (open_port_request q)
  | _ => false
  end.

Lemma refused_outcome monitor c r ret y :
  request_of monitor c = inr r → needs_right r = true → ret ≠ UEC_OK →
  ¬ granted_outcome (Some (interpret c ret y)) ∧ ¬ granted_outcome (Some (fallback c)).
Proof.
  assert (Hn : UEC_INTERFACE_NO_INIT ≠ UEC_OK) by uec.
  unfold granted_outcome. intros Hr Hq Hret. rewrite <- Z.eqb_neq in Hret.
  destruct c; cbn in Hr |- *; repeat case_match; simplify_eq; try discriminate Hq; try (split; naive_solver; fail).
  rewrite Hret. split; naive_solver.
Qed.

Lemma barred_request p r x :
  barred r x →
  unreached (host x) (Transact p r x).2 ∧ (needs_right r = true → (Transact p r x).1.1 ≠ UEC_OK).
Proof.
  destruct r as [r|k q| |]; cbn [barred needs_right]; [| |by intros []..]; rewrite ?negb_true_iff.
  - intros [Ho Hu]. rewrite delivered_host, delivered_host_code. by apply (serve_unentitled entitled).
  - intros Hs. rewrite delivered_port. destruct (serve_port_shut entitled k q x Hs) as [Hu Hn].
    split; [done|]. intros (ret & Hret & Hne)%Hn. by rewrite (delivered_port_code p k q x ret Hret).
Qed.

Lemma perform_barred c r (s : library) :
  watched watching s → shares c → request_of (serialRemote s) c = inr r → barred r (server s) →
  unreached (host (server s)) (server (after (perform c) s)) ∧
  (needs_right r = true → ¬ granted_outcome (result (perform c) s)).
Proof.
  intros Hw Hc Hreq Hb. destruct (perform_served watching c s Hc Hw) as [_ _ _ Hs].
  destruct Hs as [[-> Hs]|(p & r' & b & Hreq' & -> & -> & ->)].
  - split; [apply unreached_refl|]. intros Hq. destruct Hs as [->|Hs]; [|congruence].
    by apply (refused_outcome _ c r 1 CNothing Hreq Hq).
  - rewrite Hreq in Hreq'. injection Hreq' as <-.
    destruct (barred_request p r (server s) Hb) as [Hu Hn]. split; [done|].
    intros Hq. by apply (refused_outcome _ c r _ _ Hreq Hq), Hn.
Qed.

(** C4: an application that was granted nothing reaches nothing with the library either.
    Whatever the library has been through, if no record entitles its application to a
    device, or the port in question is shut to it, then no call about devices or that port
    changes anything of the host component of the service - no device is opened, claimed or
    written to, no policy and no session is changed - and the outcome of every call that
    needs a right is a failure. *)
Theorem client_reaches_nothing monitor a x c r (s : library)
    (Hr : rtc (client_step watching) (construct monitor a x) s) (Hc : shares c)
    (Hreq : request_of (serialRemote s) c = inr r) (Hb : barred r (server s)) :
  unreached (host (server s)) (server (after (perform c) s)) ∧
  (needs_right r = true → ¬ granted_outcome (result (perform c) s)).
Proof. apply perform_barred; [by eapply library_watched|done..]. Qed.
End EndToEnd.

(** ** With the right manager *)
Section Told.
Context {E N D G P Rp : Type} `{EB : ErrBase} `{HD : HostHdi E} `{SY : HostSystem E Rp}.
Context `{RY : Reply Rp} `{SP : SystemParams E} `{NO : NotifierOps N} `{CJ : CJson} `{HO : HashOrder}.
Context `{SH : SerialManager.SerialHdi D} `{CS : CharSign} `{HE : HdfDevErr}.
Context `{PL : ServicePlatform P}.
Context {S RE : Type} `{RH : RdbHealthy S} `{RP : RightManager.RightPlatform RE} `{!IpcCaller RE} `{SC : !StillClock}.
Context (table0 : UsbRightTableInfo) (dialog : ST (@RightManager.st S RE) unit).
#[local] Instance told_rights : RightsService (@RightManager.st S RE) := right_manager_service table0 dialog.
Context {A : Type} `{AC : AbilityAccess A} `{UA : UsbAbility}.
Abbreviation service := (Service.st E N D (@RightManager.st S RE) G P).
Context `{US : !UsbServer service} `{DL : !Delivers}.
Abbreviation library := (@Client.st A service).

(** A token of the caller, or the one that stands for every token. *)
Lemma HasRight_either d b k k' u (rt : @RightManager.st S RE) R now :
  working rt R now → u ≠ RightManager.USB_RIGHT_USERID_CONSOLE →
  let own := RightManager.HasRight table0 d b k u in
  result own rt || result (RightManager.HasRight table0 d b k' u) (after own rt) = true ↔
  held R now d b k u ∨ held R now d b k' u.
Proof.
  intros Hw Hu own. rewrite orb_true_iff. unfold own at 1.
  rewrite (HasRight_held table0 d b k u rt R now Hw Hu).
  destruct (HasRight_leaves table0 d b k u rt R now d b k' u Hw Hu) as (R' & Hw' & Hh).
  unfold own. by rewrite (HasRight_held table0 d b k' u _ R' now Hw' Hu), Hh.
Qed.

Lemma serve_HasRight name (x : service) :
  result (serve (RHasRight name)) x = (UEC_OK, Flag (result (Service.HasRight name) x)).
Proof. cbn [serve]. unfold carry, HasRight_out. by autorewrite with st. Qed.

(** C6: what an application is told about its rights is the truth, all the way.  The library
    is connected to a service that started with no device and has any history of devices,
    policies and requests; the name is not one that a device took over while another was
    attached under it; the application is not part of the system, its user is not the
    console user (0), and while it is served the store of the right manager answers, its
    rows are as the manager writes them and its clock stands still.  Then [HasRight]
    answers yes exactly when a device is attached under the name and the table of rights
    holds an unexpired record of the user and the application's bundle for the vendor,
    product and serial number of that device, with the token of the application or the
    default token. *)
Theorem client_HasRight_exact name bundle token user R now s0 taken (s : library) p
    (Hp : proxy_ s = Some p)
    (Hh : service_reaches s0 (server s) taken) (Ht : name ∉ taken)
    (Hm : usbRightManager_ (server s) = true)
    (Ho : rights_IsSystemAppOrSa (the_rights (server s)) = (false, the_rights (server s)))
    (Hc : calling_info (the_rights (server s)) = Some (bundle, token, user))
    (Hu : user ≠ RightManager.USB_RIGHT_USERID_CONSOLE) (Hw : working (the_rights (server s)) R now) :
  result (perform (CHasRight name)) s = Some (Said true) ↔
  ∃ d k, devices_ (host (server s)) !! name = Some d ∧ (k = token ∨ k = USB_DEFAULT_TOKEN) ∧
         held R now (unique_name d) bundle k user.
Proof.
  assert (Hsaid : result (perform (CHasRight name)) s = Some (Said (result (Service.HasRight name) (server s)))).
  { rewrite (perform_connected (CHasRight name) s p (ToHost (RHasRight name)) Hp eq_refl). cbn [interpret].
    rewrite delivered_host_data by (by rewrite serve_HasRight). by rewrite serve_HasRight. }
  rewrite Hsaid, (HasRight_identified (server s) taken name bundle token user); [|by eapply service_identified|done..].
  destruct (devices_ (host (server s)) !! name) as [d|]; [|split; [done|by intros (? & ? & ? & _)]].
  cbv zeta. transitivity (held R now (unique_name d) bundle token user ∨
                           held R now (unique_name d) bundle USB_DEFAULT_TOKEN user).
  - rewrite <- (HasRight_either _ _ _ _ _ _ _ _ Hw Hu). split; [by intros [= ?]|]. intros Hb. by rewrite <- Hb.
  - split; [intros [?|?]; eauto 6|]. intros (? & ? & [= <-] & [-> | ->] & ?); auto.
Qed.
End Told.
