(* ===== verification/TaiheEndToEnd.v ===== *)
(** * From an ArkTS application to the devices

    Which calls of the client library each function of the ArkTS modules makes, with which
    arguments ([calls_issue]), and with it what an application without rights can do through
    them ([arkts_reaches_nothing]). *)

From stdpp Require Import relations.
From S2P Require Import Prelude Text UsbErrors UsbTypes Interfaces Marshalling Json Napi Platform.
From S2P Require Import HostDriver HostEvents HostPolicy HostManager.
From S2P Require Import Service ServiceHost ServiceSerial ServiceGate ServicePorts Client ClientLaws EndToEnd.
From S2P Require Import TaiheTypes TaiheWorld TaiheCalls TaiheTransfer TaiheSerial TaiheModule TaiheLaws.
From S2P Require SerialManager.

#[local] Set Default Goal Selector "!".

Section Issued.
Context {E A S O : Type} `{RT : Runtime E} `{AS : AniStatus} `{ER : EnumRuntime} `{UN : Uninitialised}.
Context `{EB : ErrBase} `{AC : AbilityAccess A} `{UA : UsbAbility} `{US : UsbServer S}.
Context `{FE : Features} `{SY : System O} `{JE : JsErrBase} `{SC : Securec}.
Abbreviation world := (TaiheWorld.world E A S O).
Abbreviation Api R := (ST world (option R)).
Implicit Types w : world.

(** ** The calls of the library that a function makes

    As a specification: a list of calls for each function, its arguments and the world it is
    called in.  The runtime is asked for the bytes of an array, the system for the shared
    memory of a transfer; when they refuse, there is no call. *)

(** The address and the size of the array buffer of a [Uint8Array], when the runtime tells them. *)
Definition array_fields (buffer : Z) : ST E (option (Z * Z)) :=
  '(status, ref) ← ani (Object_GetFieldByName_Ref buffer "buffer");
  if negb (status =? ANI_OK) then mret None
  else
    '(status, info) ← ani (ArrayBuffer_GetInfo (default any_value ref));
    mret (if negb (status =? ANI_OK) then None else Some (default (any_value, any_int) info)).
Definition array_of (buffer : Z) : ST E (option (Z * Z)) :=
  env ← get_env;
  if env =? nullptr then mret None else array_fields buffer.
(** The calls that need the array at [buffer], given its address, its size and its bytes. *)
Definition with_array (buffer : Z) (calls : Z → Z → list Z → list ClientCall) w : list ClientCall :=
  match array_of buffer (runtime w) with
  | (Some (data, size), e) => calls data size (array_bytes data size e)
  | (None, _) => []
  end.

(** What a transfer needs of the runtime before it is submitted: its array and a reference to
    its callback. *)
Definition array_ready (buffer : Z) : ST E (option (Z * Z)) :=
  env ← get_env;
  if env =? nullptr then mret None
  else
    '(status, vm) ← ani GetVM;
    if negb (status =? ANI_OK) then mret None else array_fields buffer.
Definition callback_ready (callback : Z) : ST E bool :=
  env ← get_env;
  if env =? nullptr then mret false
  else
    '(status, ref) ← ani (GlobalReference_Create callback);
    mret (status =? ANI_OK).
Definition array_and_callback (transfer : usbManager.UsbDataTransferParams) : ST E (option (Z * Z)) :=
  a ← array_ready (usbManager.tr_buffer transfer);
  match a with
  | None => mret None
  | Some a =>
      (λ ready : bool, if ready then Some a else None) <$> callback_ready (usbManager.tr_callback transfer)
  end.
Definition goes_out (transfer : usbManager.UsbDataTransferParams) : bool :=
  Z.land (u8 (usbManager.tr_endpoint transfer)) USB_ENDPOINT_DIR_MASK =? USB_ENDPOINT_DIR_OUT.
(** What it needs of the system: shared memory, which holds the bytes that go out. *)
Definition shared_memory (transfer : usbManager.UsbDataTransferParams) (bytes : list Z) : ST O (option (Z * Z)) :=
  ashmem ← CreateAshmem "CreateAshmem" (usbManager.tr_length transfer);
  match ashmem with
  | None => mret None
  | Some (fd, size) =>
      if goes_out transfer then
        MapReadAndWriteAshmem fd ;;
        written ← WriteToAshmem fd bytes;
        mret (if negb written then None else Some (fd, size))
      else mret (Some (fd, size))
  end.
(** The request of a transfer whose context is at [p]; what goes out is the whole array. *)
Definition info_of (transfer : usbManager.UsbDataTransferParams) (p : Z) (bytes : list Z) : TransferInfo :=
  mk_TransferInfo (usbManager.tr_endpoint transfer) any_int
    (get_value UsbEndpointTransferType_table (usbManager.tr_type transfer)) (usbManager.tr_timeout transfer)
    (if goes_out transfer then i32 (Z.of_nat (length bytes)) else usbManager.tr_length transfer)
    (u64 p) (u32 (usbManager.tr_isoPacketCount transfer)).
Definition submissions (transfer : usbManager.UsbDataTransferParams) w : list ClientCall :=
  match allocate (system w) with
  | (None, _) => []
  | (Some p, o) =>
      match array_and_callback transfer (runtime w) with
      | (None, _) => []
      | (Some (data, size), e) =>
          let bytes := array_bytes data size e in
          match (shared_memory transfer bytes o).1 with
          | None => []
          | Some ashmem =>
              [CUsbSubmitTransfer (ConvertUSBDevicePipe (usbManager.tr_devPipe transfer))
                 (info_of transfer p bytes) (Some (u64 p)) (Some ashmem)]
          end
      end
  end.

Definition only_if (b : bool) (l : list ClientCall) : list ClientCall := if b then l else [].

Definition usb_calls (c : UsbCall) w : list ClientCall :=
  match c with
  | TH_getDevices => [CGetDevices []]
  | TH_connectDevice device => [COpenDevice (ConvertToUsbDevice device) default_pipe]
  | TH_hasRight deviceName => [CHasRight deviceName]
  | TH_requestRightSync deviceName => [CRequestRight deviceName]
  | TH_removeRight deviceName => [CRemoveRight deviceName]
  | TH_addDeviceAccessRight tokenId deviceName => [CAddAccessRight tokenId deviceName]
  | TH_getFunctionsFromString funcs => [CUsbFunctionsFromString funcs]
  | TH_getStringFromFunctions funcs => [CUsbFunctionsToString funcs]
  | TH_setDeviceFunctionsSync funcs => [CSetCurrentFunctions funcs]
  | TH_getDeviceFunctions => [CGetCurrentFunctions 0]
  | TH_getPortList => [CGetPorts []]
  | TH_getPortSupportModes portId => only_if (0 <=? portId) [CGetSupportedModes portId 0]
  | TH_setPortRoleTypesSync portId powerRole dataRole =>
      let power := get_value PowerRoleType_table powerRole in
      let data := get_value DataRoleType_table dataRole in
      only_if ((0 <=? portId) && (0 <=? power) && (0 <=? data)) [CSetPortRole portId power data]
  | TH_addAccessoryRight tokenId accessory => [CAddAccessoryRight (u32 tokenId) (ConvertUsbDevice accessory)]
  | TH_claimInterface pipe iface force =>
      [CClaimInterface (ConvertUSBDevicePipe pipe) (ConvertToUsbInterface iface) (default false force)]
  | TH_releaseInterface pipe iface => [CReleaseInterface (ConvertUSBDevicePipe pipe) (ConvertToUsbInterface iface)]
  | TH_setConfiguration pipe config => [CSetConfiguration (ConvertUSBDevicePipe pipe) (ConvertToUSBConfig config)]
  | TH_setInterface pipe iface => [CSetInterface (ConvertUSBDevicePipe pipe) (ConvertToUsbInterface iface)]
  | TH_getRawDescriptor pipe => [CGetRawDescriptors (ConvertUSBDevicePipe pipe) []]
  | TH_getFileDescriptor pipe => [CGetFileDescriptor (ConvertUSBDevicePipe pipe) ERROR]
  | TH_usbControlTransferSync pipe requestparam timeout =>
      with_array (usbManager.rq_data requestparam) (λ _ _ bytes,
        [CUsbControlTransfer (ConvertUSBDevicePipe pipe)
           (mk_UsbCtrlTransferParams (usbManager.rq_bmRequestType requestparam) (usbManager.rq_bRequest requestparam)
              (usbManager.rq_wValue requestparam) (usbManager.rq_wIndex requestparam) (usbManager.rq_wLength requestparam) (default 0 timeout))
           bytes]) w
  | TH_bulkTransferSync pipe endpoint buffer timeout =>
      with_array buffer (λ _ _ bytes,
        [CBulkTransfer (ConvertUSBDevicePipe pipe) (ParseEndpointObj endpoint) bytes (default 0 timeout)]) w
  | TH_closePipe pipe => [CClose (ConvertUSBDevicePipe pipe)]
  | TH_hasAccessoryRight accessory => [CHasAccessoryRight (taihe2Native accessory) false]
  | TH_requestAccessoryRightSync accessory => [CRequestAccessoryRight (taihe2Native accessory) false]
  | TH_cancelAccessoryRight accessory =>
      let cancel := [CCancelAccessoryRight (taihe2Native accessory)] in
      if g_accFd w =? 0 then cancel
      else
        CCloseAccessory (g_accFd w) ::
        match (CloseAccessory (g_accFd w) (lib w)).1 with Some _ => cancel | None => [] end
  | TH_getAccessoryList => [CGetAccessoryList []]
  | TH_openAccessory accessory => [COpenAccessory (taihe2Native accessory) (-1)]
  | TH_closeAccessory accessoryFd =>
      only_if ((accessoryFd =? g_accFd w) || (g_accFd w =? 0)) [CCloseAccessory (g_accFd w)]
  | TH_usbSubmitTransfer transfer => submissions transfer w
  | TH_usbCancelTransfer transfer =>
      [CUsbCancelTransfer (ConvertUSBDevicePipe (usbManager.tr_devPipe transfer)) (usbManager.tr_endpoint transfer)]
  | TH_resetUsbDevice pipe => [CResetDevice (ConvertUSBDevicePipe pipe)]
  end.
Definition serial_calls (c : SerialCall) w : list ClientCall :=
  match c with
  | TH_getSerialPortList => [CSerialGetPortList []]
  | TH_hasSerialRight portId => only_if (0 <=? portId) [CHasSerialRight portId false]
  | TH_requestSerialRightSync portId => only_if (0 <=? portId) [CRequestSerialRight portId false]
  | TH_addSerialRight tokenId portId =>
      only_if ((0 <? tokenId) && (0 <=? portId)) [CAddSerialRight (u32 tokenId) portId]
  | TH_cancelSerialRight portId => only_if (0 <=? portId) [CCancelSerialRight portId]
  | TH_open portId => only_if (0 <=? portId) [CSerialOpen portId]
  | TH_close portId => only_if (0 <=? portId) [CSerialClose portId]
  | TH_getAttribute portId =>
      only_if (0 <=? portId) [CSerialGetAttribute portId (mk_UsbSerialAttr any_int any_int any_int any_int)]
  | TH_setAttribute portId attribute =>
      match s_dataBits attribute, s_parity attribute, s_stopBits attribute with
      | Some dataBits, Some parity, Some stopBits =>
          only_if (0 <=? portId)
            [CSerialSetAttribute portId
               (mk_UsbSerialAttr (get_value BaudRates_table (s_baudRate attribute)) (get_value DataBits_table dataBits)
                  (get_value Parity_table parity) (get_value StopBits_table stopBits))]
      | _, _, _ => []
      end
  | TH_readSync portId buffer timeout =>
      only_if (0 <=? portId)
        (with_array buffer (λ data size _,
           match timeout with
           | None => []
           | Some timeout =>
               only_if (negb (data =? nullptr) && (size <=? 8192)) [CSerialRead portId [] (u32 size) 0 (u32 timeout)]
           end) w)
  | TH_writeSync portId buffer timeout =>
      let size := Z.of_nat (length buffer) in
      match timeout with
      | None => []
      | Some timeout =>
          only_if ((0 <=? portId) && (size <=? 128000)) [CSerialWrite portId buffer size 0 (u32 timeout)]
      end
  end.
(** A function of usbManager makes no call without its part of the build. *)
Definition calls_of (c : UsbCall + SerialCall) w : list ClientCall :=
  match c with
  | inl u => only_if (HasFeature (feature_of u)) (usb_calls u w)
  | inr s => serial_calls s w
  end.

(** What the calls of a list do to the library, one after the other. *)
Definition after_calls (l : list ClientCall) (s : Client.st (A := A) (S := S)) := foldl (λ s cc, after (perform cc) s) s l.

(** ** What an operation does to the library is the calls [l] *)
Definition issued (l : world → list ClientCall) {X} (m : ST world X) : Prop :=
  ∀ w, lib (m w).2 = after_calls (l w) (lib w).

Lemma issued_stays {X} (m : ST world X) : stays lib m → issued (λ _, []) m.
Proof. intros Hm w. apply Hm. Qed.
Lemma issued_fmap l {X Y} (g : X → Y) (m : ST world X) : issued l m → issued l (g <$> m).
Proof. intros Hm w. specialize (Hm w). unfold fmap, ST_fmap. by destruct (m w). Qed.
Lemma issued_invoke cc {X R} (m : ST (Client.st (A := A) (S := S)) (option X)) (k : X → Api R) :
  (∀ s, after (perform cc) s = (m s).2) → (∀ x, stays lib (k x)) → issued (λ _, [cc]) (invoke m k).
Proof.
  intros Hm Hk w. unfold invoke. rewrite bind_unfold, on_lib_run. cbn [fst snd after_calls foldl]. rewrite Hm.
  destruct (m (lib w)).1 as [x|]; [by rewrite (Hk x)|done].
Qed.
Lemma issued_feature l feature {R} (r : R) (k : Api R) :
  issued l k → issued (λ w, only_if (HasFeature feature) (l w)) (require_feature feature r k).
Proof. intros Hk w. unfold require_feature, only_if. destruct (HasFeature feature); [apply Hk|done]. Qed.
Lemma issued_port l ok msg {R} (r : R) (k : Api R) :
  issued l k → issued (λ w, only_if ok (l w)) (check_port ok msg r k).
Proof. intros Hk w. unfold check_port, CheckAndThrowOnError, only_if. destruct ok; [apply Hk|done]. Qed.
Lemma issued_if_else (b : bool) l {X} (m m' : ST world X) :
  stays lib m → issued l m' → issued (λ w, only_if (negb b) (l w)) (if b then m else m').
Proof. intros Hm Hm' w. destruct b; [apply Hm|apply Hm']. Qed.
Lemma issued_gets {V} (g : world → V) (cc : V → ClientCall) {X} (k : V → ST world X) :
  (∀ x, issued (λ _, [cc x]) (k x)) → issued (λ w, [cc (g w)]) (gets g ≫= k).
Proof. intros Hk w. apply Hk. Qed.

Lemma lib_on_runtime {X} (m : ST E X) : stays lib (on_runtime m : ST world X).
Proof. intros w. by rewrite on_runtime_run. Qed.
Lemma lib_on_system {X} (m : ST O X) : stays lib (on_system m : ST world X).
Proof. intros w. by rewrite on_system_run. Qed.
Lemma lib_copy_to_array data size bytes : stays lib (copy_to_array data size bytes : ST world Z).
Proof. intros w. unfold copy_to_array. by destruct (memcpy_s _ _ _) as [ret [l|]]. Qed.

(** What the library does behind a call of [ClientCall]. *)
Lemma after_fmap {X Y} (g : X → Y) (m : ST (Client.st (A := A) (S := S)) X) s : after (g <$> m) s = (m s).2.
Proof. unfold after, fmap, ST_fmap. by destruct (m s). Qed.

(** The array of a function: the code that asks for it, and [with_array]. *)
Lemma with_env_run {R} (k : Api R) w :
  with_env k w = let '(env, e) := get_env (runtime w) in
                 if env =? nullptr then (None, set_runtime e w) else k (set_runtime e w).
Proof.
  unfold with_env. rewrite bind_unfold, on_runtime_run. destruct (get_env _) as [env e]; cbn. by case_match.
Qed.
Lemma ani_or_run {X : Set} {R} (op : AniOp X) (failed : Api R) (k : option X → Api R) w :
  ani_or op failed k w = let '(status, out, e) := ani op (runtime w) in
                         if negb (status =? ANI_OK) then failed (set_runtime e w) else k out (set_runtime e w).
Proof.
  unfold ani_or. rewrite bind_unfold, on_runtime_run. destruct (ani op _) as [[status out] e]; cbn. by case_match.
Qed.
Lemma array_fields_run {R} buffer (failed : Api R) (k : Z → Z → Api R) w :
  stays lib failed →
  lib (ani_or (Object_GetFieldByName_Ref buffer "buffer") failed (λ ref,
         ani_or (ArrayBuffer_GetInfo (default any_value ref)) failed (λ info,
           let '(data, size) := default (any_value, any_int) info in k data size)) w).2
  = match array_fields buffer (runtime w) with
    | (Some (data, size), e) => lib (k data size (set_runtime e w)).2
    | (None, _) => lib w
    end.
Proof.
  intros Hf. rewrite ani_or_run. unfold array_fields. rewrite bind_unfold.
  destruct (ani (Object_GetFieldByName_Ref _ _) _) as [[status ref] e]; cbn [fst snd].
  destruct (negb _); [by rewrite Hf|]. rewrite ani_or_run, bind_unfold. cbn [runtime set_runtime].
  destruct (ani (ArrayBuffer_GetInfo _) e) as [[status' info] e']; cbn [fst snd].
  destruct (negb _); cbn; [by rewrite Hf|]. by destruct (default _ info).
Qed.
Lemma issued_array l buffer {R} (failed : Api R) (k : Z → Z → Api R) :
  stays lib failed → (∀ data size, issued (λ w, l data size (array_bytes data size (runtime w))) (k data size)) →
  issued (with_array buffer l) (array_buffer buffer failed k).
Proof.
  intros Hf Hk w. unfold array_buffer, with_array, array_of. rewrite with_env_run, bind_unfold.
  destruct (get_env _) as [env e]; cbn [fst snd]. destruct (env =? nullptr); [done|].
  rewrite (array_fields_run buffer failed) by done. cbn [runtime set_runtime].
  destruct (array_fields buffer e) as [[[data size]|] e']; [|done].
  exact (Hk data size (set_runtime e' (set_runtime e w))).
Qed.
End Issued.

Ltac lib_step :=
  first
    [ solve [intros ?; reflexivity]
    | lazymatch goal with
      | |- stays _ (on_runtime _) => apply lib_on_runtime
      | |- stays _ (on_system _) => apply lib_on_system
      | |- stays _ (copy_to_array _ _ _) => apply lib_copy_to_array
      | |- stays _ (with_env _) => unfold with_env
      | |- stays _ (ani_or _ _ _) => unfold ani_or
      | |- stays _ (with_context _ _) => unfold with_context
      | |- stays _ (_ ≫= _) => apply stays_bind; [|intros]
      | |- stays _ (_ <$> _) => apply stays_fmap
      | |- stays _ (check_code ?ret _ _) => unfold check_code, CheckAndThrowOnError; destruct (ret =? 0); cbn [negb]
      | |- stays _ (match _ with _ => _ end) => case_match
      end ].
Ltac stays_lib := cbv beta zeta; by repeat lib_step.
(** [same_request] proves that the call of the library is the one of the list. *)
Ltac same_request := first [reflexivity | apply after_fmap | cbn [perform]; rewrite after_fmap; symmetry; apply after_fmap].
Ltac issue_step :=
  lazymatch goal with
  | |- issued _ (require_feature _ _ _) => apply issued_feature
  | |- issued _ (check_port _ _ _ _) => apply issued_port
  | |- issued _ (invoke _ _) => apply issued_invoke; [intros; same_request|intros; stays_lib]
  | |- issued _ (array_buffer _ _ _) => apply issued_array; [stays_lib|intros]
  | |- issued _ (_ <$> _) => apply issued_fmap
  | |- issued (λ _, []) _ => apply issued_stays; stays_lib
  | |- issued _ (if _ then _ else _) => apply issued_if_else; [stays_lib|]
  end.
Ltac issue_now := refine (issued_invoke _ _ _ _ _ _); [intros; same_request|intros; stays_lib].

Section Calls.
Context {E A S O : Type} `{RT : Runtime E} `{AS : AniStatus} `{ER : EnumRuntime} `{UN : Uninitialised}.
Context `{EB : ErrBase} `{AC : AbilityAccess A} `{UA : UsbAbility} `{US : UsbServer S}.
Context `{FE : Features} `{SY : System O} `{JE : JsErrBase} `{SC : Securec}.
Abbreviation world := (TaiheWorld.world E A S O).
Abbreviation Api R := (ST world (option R)).
Implicit Types w : world.

(** ** Functions whose calls depend on the state *)
Lemma issued_resetUsbDevice pipe : issued (calls_of (inl (TH_resetUsbDevice pipe))) (resetUsbDevice pipe : Api bool).
Proof.
  intros w. unfold resetUsbDevice. cbn [calls_of feature_of usb_calls]. destruct (HasFeature FEATURE_HOST); [|done].
  apply (issued_invoke (CResetDevice (ConvertUSBDevicePipe pipe))); [intros; same_request|intros; stays_lib].
Qed.
Lemma issued_closeAccessory fd : issued (calls_of (inl (TH_closeAccessory fd))) (closeAccessory fd : Api unit).
Proof.
  intros w. unfold closeAccessory, require_feature. cbn [calls_of feature_of usb_calls].
  destruct (HasFeature FEATURE_DEVICE); [|done]. cbn [negb only_if]. rewrite bind_unfold. cbn [gets fst snd].
  rewrite <- negb_orb. destruct ((fd =? g_accFd w) || (g_accFd w =? 0)); [|done]. cbn [negb only_if].
  rewrite bind_unfold, on_system_run. cbn [fst snd].
  change (lib w) with (lib (set_system (close fd (system w)).2 w)).
  apply (issued_invoke (CCloseAccessory (g_accFd w))); [intros; same_request|intros; stays_lib].
Qed.
Lemma issued_cancelAccessoryRight a :
  issued (calls_of (inl (TH_cancelAccessoryRight a))) (cancelAccessoryRight a : Api unit).
Proof.
  unfold cancelAccessoryRight. apply issued_feature. cbv zeta. intros w. rewrite bind_unfold. cbn [gets fst snd usb_calls].
  match goal with |- context [if negb _ then _ else ?m] =>
    assert (Hc : issued (λ _, [CCancelAccessoryRight (taihe2Native a)]) m) by issue_step; set (cancel := m) in * end.
  destruct (g_accFd w =? 0); [apply Hc|]. cbn [negb]. unfold invoke at 1. rewrite bind_unfold, on_lib_run.
  cbn [fst snd]. set (closed := CloseAccessory (g_accFd w)).
  assert (Hcl : ∀ s, after (perform (CCloseAccessory (g_accFd w))) s = (closed s).2) by (intros; apply after_fmap).
  cbn [after_calls foldl]. rewrite Hcl. destruct (closed (lib w)) as [[ret|] s]; cbn [fst snd]; [|done].
  rewrite bind_unfold, on_system_run, bind_unfold. cbn [fst snd]. apply Hc.
Qed.
(** The preparation of a transfer: the code, and what the specification asks for. *)
Lemma ExtractBufferData_run p buffer w c :
  contexts w !! p = Some c →
  match array_ready buffer (runtime w) with
  | (Some (data, size), e) =>
      ∃ vm, ExtractBufferData p buffer w
            = (Some true, set_contexts (<[p := set_buffer vm data size c]> (contexts w)) (set_runtime e w))
  | (None, _) => (ExtractBufferData p buffer w).1 ≠ Some true
  end.
Proof.
  intros Hc. unfold ExtractBufferData, array_ready. rewrite with_env_run, bind_unfold.
  destruct (get_env _) as [env e1]; cbn [fst snd]. destruct (env =? nullptr); [done|].
  rewrite ani_or_run, bind_unfold. cbn [runtime set_runtime]. destruct (ani GetVM e1) as [[status vm] e2]; cbn [fst snd].
  destruct (negb _); [done|]. unfold array_fields. rewrite ani_or_run, bind_unfold. cbn [runtime set_runtime].
  destruct (ani (Object_GetFieldByName_Ref _ _) e2) as [[status2 ref] e3]; cbn [fst snd]. destruct (negb _); [done|].
  rewrite ani_or_run, bind_unfold. cbn [runtime set_runtime].
  destruct (ani (ArrayBuffer_GetInfo _) e3) as [[status3 info] e4]; cbn [fst snd]. destruct (negb _); [done|].
  cbn [mret ST_ret]. destruct (default _ info) as [data size]. exists (default nullptr vm).
  by rewrite (with_context_run p) with (c := c) by done.
Qed.
Lemma SetupCallback_run p callback w c :
  contexts w !! p = Some c →
  match callback_ready callback (runtime w) with
  | (true, e) =>
      ∃ ref, SetupCallback p callback w
             = (Some true, set_contexts (<[p := set_callbackRef ref c]> (contexts w)) (set_runtime e w))
  | (false, _) => (SetupCallback p callback w).1 ≠ Some true
  end.
Proof.
  intros Hc. unfold SetupCallback, callback_ready. rewrite with_env_run, bind_unfold.
  destruct (get_env _) as [env e1]; cbn [fst snd]. destruct (env =? nullptr); [done|].
  rewrite ani_or_run, bind_unfold. cbn [runtime set_runtime].
  destruct (ani (GlobalReference_Create _) e1) as [[status ref] e2]; cbn [fst snd mret ST_ret].
  destruct (status =? ANI_OK); [|done]. exists (default any_value ref).
  by rewrite (with_context_run p) with (c := c) by done.
Qed.
Lemma CreateAndWriteAshmem_run p transfer obj w c :
  contexts w !! p = Some c → x_length c = usbManager.tr_length transfer → x_endpoint c = usbManager.tr_endpoint transfer →
  let bytes := array_bytes (x_buffer c) (x_bufferLength c) (runtime w) in
  match shared_memory transfer bytes (system w) with
  | (Some ashmem, o) =>
      CreateAndWriteAshmem p obj w
      = (Some (true, if goes_out transfer then set_i_length (i32 (Z.of_nat (length bytes))) obj else obj),
         set_contexts (<[p := set_ashmem (Some ashmem) c]> (contexts w)) (set_system o w))
  | (None, _) => ∀ obj', (CreateAndWriteAshmem p obj w).1 ≠ Some (true, obj')
  end.
Proof.
  intros Hc Hl Hp bytes. unfold CreateAndWriteAshmem, shared_memory, goes_out.
  rewrite (with_context_run p) with (c := c) by done. unfold direction_of. rewrite Hl, Hp.
  rewrite (bind_unfold (CreateAshmem _ _)), bind_unfold, on_system_run. cbn [fst snd].
  destruct (CreateAshmem _ _ _) as [[[fd size]|] o1]; cbn [fst snd]; [|done]. rewrite bind_unfold. cbn [store modify fst snd].
  destruct (_ =? USB_ENDPOINT_DIR_OUT); [|done]. rewrite !bind_unfold. cbn [gets fst snd]. cbv zeta.
  rewrite ?bind_unfold, !on_system_run. cbn [fst snd system set_system runtime set_contexts].
  fold bytes. destruct (WriteToAshmem fd bytes _) as [[|] o2]; cbn [fst snd negb mret ST_ret]; [done|].
  intros obj'. by rewrite bind_unfold.
Qed.

Lemma lib_DeleteCallback p : stays lib (DeleteCallback p : Api unit).
Proof. unfold DeleteCallback, delete_context. by repeat lib_step. Qed.
Lemma lib_ExtractBufferData p array_obj : stays lib (ExtractBufferData p array_obj : Api bool).
Proof. unfold ExtractBufferData. by repeat lib_step. Qed.
Lemma lib_SetupCallback p obj : stays lib (SetupCallback p obj : Api bool).
Proof. unfold SetupCallback. by repeat lib_step. Qed.
Lemma lib_CreateAndWriteAshmem p obj : stays lib (CreateAndWriteAshmem p obj : Api (bool * TransferInfo)).
Proof. unfold CreateAndWriteAshmem. repeat lib_step; cbv zeta; by repeat lib_step. Qed.

Lemma lib_submit_prepared p info w c :
  contexts w !! p = Some c →
  lib (submit_prepared p info w).2
  = after_calls [CUsbSubmitTransfer (x_pipe c) info (Some (i_userData info)) (x_ashmem c)] (lib w).
Proof.
  intros Hc. unfold submit_prepared. rewrite (with_context_run p) with (c := c) by done.
  apply (issued_invoke (CUsbSubmitTransfer (x_pipe c) info (Some (i_userData info)) (x_ashmem c)));
    [intros; same_request|].
  intros ret. apply stays_bind; [unfold taken_by_service, mwhen; by repeat lib_step|]. intros _.
  repeat lib_step; apply lib_DeleteCallback.
Qed.

(** What is left of [usbSubmitTransfer] once there is an address, and from each stage on. *)
Lemma issued_usbSubmitTransfer transfer :
  issued (calls_of (inl (TH_usbSubmitTransfer transfer))) (usbSubmitTransfer transfer : Api unit).
Proof.
  unfold usbSubmitTransfer. apply issued_feature. intros w. cbn [usb_calls]. unfold submissions.
  unfold CreateTransferContext. rewrite bind_unfold, bind_unfold, on_system_run. cbn [fst snd].
  destruct (allocate (system w)) as [[p|] o]; cbn [fst snd]; [|done].
  rewrite bind_unfold. cbn [store modify mret ST_ret fst snd contexts set_system].
  match goal with |- context [set_contexts (<[p := ?c]> _) ?w0] => set (c1 := c); set (w1 := set_contexts _ w0) end.
  assert (Hc1 : contexts w1 !! p = Some c1) by apply lookup_insert_eq. rewrite bind_unfold. unfold array_and_callback.
  change (runtime w) with (runtime w1). rewrite bind_unfold.
  pose proof (ExtractBufferData_run p (usbManager.tr_buffer transfer) w1 c1 Hc1) as H2.
  pose proof (lib_ExtractBufferData p (usbManager.tr_buffer transfer) w1) as L2.
  destruct (array_ready _ _) as [[[data size]|] e2]; cbn [fst snd].
  2: { destruct (ExtractBufferData _ _ _) as [[[|]|] w2]; [done|exact L2..]. }
  destruct H2 as [vm ->]. cbn [fst snd]. rewrite bind_unfold. clear L2.
  set (c2 := set_buffer vm data size c1). set (w2 := set_contexts _ _).
  assert (Hc2 : contexts w2 !! p = Some c2) by apply lookup_insert_eq. change e2 with (runtime w2).
  unfold fmap, ST_fmap. pose proof (SetupCallback_run p (usbManager.tr_callback transfer) w2 c2 Hc2) as H3.
  pose proof (lib_SetupCallback p (usbManager.tr_callback transfer) w2) as L3.
  destruct (callback_ready _ _) as [[|] e3]; cbn [fst snd].
  2: { destruct (SetupCallback _ _ _) as [[[|]|] w3]; [done|exact L3..]. }
  destruct H3 as [ref ->]. cbn [fst snd]. rewrite bind_unfold. clear L3.
  set (c3 := set_callbackRef ref c2). set (w3 := set_contexts _ (set_runtime e3 w2)).
  assert (Hc3 : contexts w3 !! p = Some c3) by apply lookup_insert_eq.
  pose proof (CreateAndWriteAshmem_run p transfer (PrepareTransferInfo transfer p) w3 c3 Hc3 eq_refl eq_refl) as H4.
  pose proof (lib_CreateAndWriteAshmem p (PrepareTransferInfo transfer p) w3) as L4.
  cbv zeta in H4. change (runtime w3) with e3 in H4. change (x_buffer c3) with data in H4.
  change (x_bufferLength c3) with size in H4. change (system w3) with o in H4.
  destruct (shared_memory _ _ _) as [[ashmem|] o4]; cbn [fst snd].
  2: { destruct (CreateAndWriteAshmem _ _ _) as [[[[|] obj]|] w4]; [by destruct (H4 obj)| |exact L4].
       etrans; [apply lib_DeleteCallback|exact L4]. }
  rewrite H4. cbn [fst snd]. erewrite lib_submit_prepared by apply lookup_insert_eq.
  unfold info_of. by destruct (goes_out transfer).
Qed.

Lemma issued_call c : issued (calls_of c) (run_call c : Api unit).
Proof.
  change (issued (λ w, calls_of c w) (run_call c : Api unit)).
  destruct c as [c|c]; destruct c; cbn [run_call run_usb run_serial]; unfold ignore;
    try first [exact (issued_usbSubmitTransfer _) | exact (issued_cancelAccessoryRight _)
              |exact (issued_closeAccessory _) | exact (issued_fmap _ _ _ (issued_resetUsbDevice _))];
    cbn [calls_of feature_of usb_calls serial_calls];
    lazymatch goal with
    | |- issued _ (_ <$> ?f) => let h := head_of f in unfold h
    | |- issued _ ?f => let h := head_of f in unfold h
    end; cbv zeta; first [by repeat issue_step | rewrite ?Z.leb_antisym; by repeat issue_step | repeat issue_step].
  - intros w. rewrite !Z.leb_antisym, <- !negb_orb. destruct (_ || _ || _); [done|issue_now].
  - by apply (issued_gets _ (CUsbControlTransfer _ _)); intros; issue_step.
  - by apply (issued_gets _ (λ bytes, CBulkTransfer _ _ bytes _)); intros; issue_step.
  - intros w. unfold check_port, CheckAndThrowOnError. destruct (0 <? tokenId), (0 <=? portId); [issue_now|done..].
  - intros w. rewrite Z.leb_antisym. destruct (portId <? 0); [by repeat case_match|].
    do 3 (case_match; [|done]). issue_now.
  - rewrite Z.leb_antisym. do 2 issue_step. intros w. cbv beta. rewrite Z.leb_antisym, <- negb_orb. change MAX_READ_BUF_SIZE with 8192.
    destruct (_ || _); [by case_match|]. case_match; [issue_now|done].
  - intros w. rewrite !Z.leb_antisym. change MAX_WRITE_BUF_SIZE with 128000.
    destruct (portId <? 0); [by case_match|]. destruct (128000 <? _); [by case_match|]. case_match; [issue_now|done].
Qed.


(** What the lists hold. *)
Lemma calls_of_shares c w : Forall shares (calls_of c w).
Proof.
  assert (Hif : ∀ b l, Forall shares l → Forall shares (only_if b l)) by (intros [] l Hl; [done|constructor]).
  destruct c as [c|c]; cbn [calls_of]; [apply Hif|]; destruct c; cbn [usb_calls serial_calls]; cbv zeta;
    unfold with_array, submissions; repeat first [apply Hif | case_match]; repeat constructor; by eexists.
Qed.
End Calls.

(** ** Without a right *)
Section WithoutRight.
Context {E N D G P Rp : Type} `{EB : ErrBase} `{HD : HostHdi E} `{HSY : HostSystem E Rp}.
Context `{RY : Reply Rp} `{SP : SystemParams E} `{NO : NotifierOps N} `{CJ : CJson} `{HO : HashOrder}.
Context `{SH : SerialManager.SerialHdi D} `{CS : CharSign} `{HE : HdfDevErr}.
Context `{PL : ServicePlatform P}.
Context {Rt : Type} `{CI : CallingIdentity Rt} `{CR : CallerRights Rt} `{RS : !RightsService Rt}.
Context {A : Type} `{AC : AbilityAccess A} `{UA : UsbAbility}.
Context (watching : A → Z → Z → Prop) `{!AccessLaws watching}.
Abbreviation service := (Service.st E N D Rt G P).
Context `{US : !UsbServer service} `{DL : !Delivers}.
Context (entitled : Rt → string → string → string → Z → Prop) `{!RightsLaws Rt entitled}.
Context {X O : Type} `{RT : Runtime X} `{AS : AniStatus} `{ER : EnumRuntime} `{UN : Uninitialised}.
Context `{FE : Features} `{SY : System O} `{JE : JsErrBase} `{SC : Securec}.
Abbreviation world := (TaiheWorld.world X A service O).
Implicit Types w : world.

(** The caller has no part in what the function is about: a device, when nothing entitles the
    caller to any, or a port that is shut to it. *)
Definition no_part (c : UsbCall + SerialCall) (y : service) : Prop :=
  match c with
  | inl u => feature_of u = FEATURE_HOST ∧ ordinary y ∧ ∀ b a, unentitled entitled (dev_name b a) y
  | inr s => ∃ port, port_of s = Some port ∧ shut entitled port y
  end.

(** The request behind each call of such a function is one that the service refuses. *)
Lemma no_part_barred monitor c w y :
  no_part c y → Forall (λ cc, ∃ r, request_of monitor cc = inr r ∧ barred entitled r y) (calls_of c w).
Proof.
  assert (Hif : ∀ Q b (l : list ClientCall), Forall Q l → Forall Q (only_if b l)) by (intros Q [] l Hl; [done|constructor]).
  destruct c as [u|s]; cbn [calls_of].
  - intros (Hf & Hb). apply Hif. destruct u; try discriminate Hf; cbn [usb_calls]; unfold with_array, submissions;
      repeat case_match; repeat constructor; cbn; repeat case_match; (eexists; split; [reflexivity|exact Hb]).
  - intros (port & Hp & Hs). destruct s; try discriminate Hp; injection Hp as <-; cbn [serial_calls]; cbv zeta;
      unfold with_array; repeat first [apply Hif | case_match]; repeat constructor; (eexists; split; [reflexivity|exact Hs]).
Qed.
(** Such a function makes one call at most. *)
Lemma no_part_once c w y : no_part c y → (length (calls_of c w) ≤ 1)%nat.
Proof.
  assert (Hif : ∀ b (l : list ClientCall), (length l ≤ 1 → length (only_if b l) ≤ 1)%nat) by (intros [] l Hl; [done|cbn; lia]).
  destruct c as [u|s]; cbn [calls_of].
  - intros (Hf & _). apply Hif. destruct u; try discriminate Hf; cbn [usb_calls]; unfold with_array, submissions;
      repeat case_match; cbn; lia.
  - intros _. destruct s; cbn [serial_calls]; cbv zeta; unfold with_array; repeat first [apply Hif | case_match]; cbn; lia.
Qed.

(** The steps of a library, and what it is known to hold. *)
Lemma after_calls_step l s : Forall shares l → rtc (client_step watching) s (after_calls l s).
Proof.
  intros Hl. revert s. induction Hl as [|cc l Hc _ IH]; intros s; [done|].
  eapply rtc_l; [|apply IH]. by constructor.
Qed.

(** A failure to open is told. *)
Lemma connectDevice_told device w :
  is_Some (OpenDevice (ConvertToUsbDevice device) default_pipe (lib w)).1 →
  (∀ pipe, (OpenDevice (ConvertToUsbDevice device) default_pipe (lib w)).1 ≠ Some (UEC_OK, pipe)) →
  ∃ code msg, (connectDevice device w).1 = Some no_pipe ∧ reports (connectDevice device w).2 = reports w ++ [(code, msg)].
Proof.
  intros [[ret pipe] Hret] Hne. unfold connectDevice, require_feature.
  destruct (negb _); [by eexists _, _|]. cbv zeta.
  destruct (OpenDevice _ _ (lib w)) as [o l] eqn:Ho. cbn [fst] in *. subst o.
  rewrite (invoke_run _ _ _ _ _ Ho). cbv beta iota.
  destruct (_ || _); [by eexists _, _|]. destruct (ret =? TaiheWorld.HDF_DEV_ERR_NO_DEVICE); [by eexists _, _|].
  destruct (Z.eqb_spec ret UEC_OK) as [->|]; [by destruct (Hne pipe)|by eexists _, _].
Qed.

(** C5: an ArkTS application that was granted nothing reaches nothing.  Whatever its library has
    been through, if no record entitles the application to a device, then no function of
    [usbManager] about devices, and if a port is shut to it, then no function of
    [serialManager] about that port, changes anything of the host component of the service:
    no device is opened, claimed or written to, no policy and no session is changed.
    connectDevice gives no pipe and reports an error. *)
Theorem arkts_reaches_nothing monitor a y c w
    (Hr : rtc (client_step watching) (construct monitor a y) (lib w)) (Hno : no_part c (server (lib w))) :
  unreached (host (server (lib w))) (server (lib (run_call c w).2)) ∧
  (∀ device, c = inl (TH_connectDevice device) →
     (connectDevice device w).1 = Some no_pipe ∧ reports (connectDevice device w).2 ≠ reports w).
Proof.
  assert (Hw : watched watching (lib w)) by by eapply library_watched.
  split.
  - rewrite (issued_call c w). pose proof (no_part_once c w _ Hno) as Hl. pose proof (calls_of_shares c w) as Hs.
    pose proof (no_part_barred (serialRemote (lib w)) c w _ Hno) as Hb.
    destruct (calls_of c w) as [|cc l]; [apply unreached_refl|]. destruct l; [|cbn in Hl; lia].
    rewrite Forall_singleton in Hs, Hb. destruct Hb as (r & Hreq & Hb). cbn.
    by apply (perform_barred watching entitled cc r (lib w)).
  - intros device ->. set (cc := COpenDevice (ConvertToUsbDevice device) default_pipe).
    assert (∃ r, request_of (serialRemote (lib w)) cc = inr r ∧ barred entitled r (server (lib w))) as (r & Hreq & Hb)
      by (eexists; split; [reflexivity|apply Hno]).
    destruct (perform_barred watching entitled cc r (lib w) Hw I Hreq Hb) as [_ Hn].
    destruct (perform_served watching cc (lib w) I Hw) as [Hsome _ _ _].
    assert (Hq : needs_right r = true) by by injection Hreq as <-.
    specialize (Hn Hq). unfold cc, perform, first, result, fmap, ST_fmap, granted_outcome in Hn, Hsome.
    destruct (connectDevice_told device w) as (code & msg & H1 & H2).
    + destruct (OpenDevice _ _ (lib w)) as [[]  l]; [by eexists|by destruct Hsome].
    + intros pipe Heq. apply Hn. left. destruct (OpenDevice _ _ (lib w)) as [o l]. cbn in Heq |- *. by rewrite Heq.
    + split; [done|]. rewrite H2. intros Heq. apply (f_equal length) in Heq. rewrite length_app in Heq. cbn in Heq. lia.
Qed.
End WithoutRight.
