(* ===== verification/ServiceSim.v ===== *)
(** * The service on a concrete platform

    The host manager of [HostSim], the serial manager and the right manager of their
    samples under one service, with a platform of its own: the theorems about the service
    are applied to it, and a few requests are computed. *)

From stdpp Require Import pretty relations.
From S2P Require Import Prelude UsbErrors UsbTypes DescriptorParser Interfaces Marshalling Json.
From S2P Require Import HostDriver HostEvents HostPolicy HostManager HostVisibility HostSim.
From S2P Require Import Client ClientLaws EndToEnd.
From S2P Require Import Service ServiceHost ServiceSerial ServiceGadget ServiceUnload.
From S2P Require Import ServiceGate ServicePorts ServiceIdentity ServiceRights ServiceTypes.
From S2P Require Import RightDatabase.
From S2P Require SerialManager RightManager.
From S2P Require TaiheTypes TaiheWorld TaiheCalls TaiheModule TaiheEndToEnd TaiheSim JsSim.

#[local] Set Default Goal Selector "!".

(** The platform of the service: the descriptors that were closed, whether the unload timer
    runs, and the settings. *)
Record machine := mk_machine {
  closed : list Z;
  timer_running : bool;
  settings : gmap string string;
  tasks : counting_timers UnloadTask;
}.

#[export] Instance machine_platform : ServicePlatform machine := {
  HostInterfaceExists _ := true;
  SerialInterfaceExists _ := true;
  RightHelperExists _ := true;
  TtyEntries _ := Some [true];
  close_fd fd := λ m, (tt, mk_machine (closed m ++ [fd]) (timer_running m) (settings m) (tasks m));
  AddSerialDeathRecipient _ := λ m, (true, m);
  SamgrExists _ := true;
  UnloadSystemAbility := λ m, (0, m);
  SetCritical _ := λ m, (tt, m);
  CommonEventServiceExists := λ m, (true, m);
  PublishPortChanged _ := λ m, (true, m);
  usleep _ := λ m, (tt, m);
  NotifyProcessStatus := λ m, (tt, m);
  WatchParameter _ := λ m, (0, m);
  StatusListenerExists _ := true;
  SubscribeSystemAbility := λ m, (0, m);
  AddSystemAbilityListener _ := λ m, (tt, m);
  Publish := λ m, (true, m);
  unload_timer_Setup := λ m, (0, mk_machine (closed m) true (settings m) (tasks m));
  unload_timer_Shutdown := λ m, (tt, mk_machine (closed m) false (settings m) (tasks m));
  DataShareReady _ := true;
  settings_Query key m := settings m !! key;
  settings_Update key v := λ m, (true, mk_machine (closed m) (timer_running m) (<[key := v]> (settings m)) (tasks m));
}.

Definition set_tasks (v : counting_timers UnloadTask) (m : machine) : machine :=
  mk_machine (closed m) (timer_running m) (settings m) v.
#[export] Instance machine_timers : Timers machine UnloadTask := {
  pending m := pending (tasks m);
  timer_Register task delay once := λ m,
    let '(id, t) := timer_Register task delay once (tasks m) in (id, set_tasks t m);
  timer_Unregister id := λ m, let '(a, t) := timer_Unregister id (tasks m) in (a, set_tasks t m);
}.
#[export] Instance machine_timer_laws : TimerLaws machine UnloadTask.
Proof.
  constructor; intros.
  - exact (register_fresh task delay once (tasks t)).
  - exact (register_pending task delay once (tasks t)).
  - exact (unregister_pending id (tasks t)).
Qed.
#[export] Instance machine_unload : UnloadLaws machine.
Proof. by constructor. Qed.

#[export] Instance sim_dev_err : HdfDevErr := -207.

(** Token 7 calls, as user 1000. *)
#[export] Instance sample_caller : @IpcCaller Z RightManager.sample_platform.
Proof.
  refine {| calling_token _ := 7; calling_uid _ := 1000; calling_type_native _ := false;
            hap_api_version _ _ := 18 |}.
  done.
Defined.

Section Samples.
#[local] Existing Instance sample_codes.
#[local] Existing Instance RightManager.sample_platform.
#[local] Existing Instance SerialManager.sample_serial.
Abbreviation rights := (@RightManager.st RightDatabase.mem Z).
Abbreviation st := (Service.st sim unit (gset Z) rights unit machine).

(** Nobody answers a dialog. *)
Definition unanswered : ST rights unit := λ rt, (tt, rt).
#[local] Instance sim_service : RightsService rights :=
  right_manager_service RightDatabase.no_table unanswered.
#[local] Instance sim_laws : RightsLaws rights recorded :=
  right_manager_laws RightDatabase.no_table unanswered.

Definition sim_host (e : sim) (rt : rights) : HostDriver.st sim unit (SerialManager.st (gset Z)) rights :=
  HostDriver.mk_st ∅ [] true None true true true [] e tt SerialManager.idle rt [].

(** The service after its start: all managers are there, and nothing is attached. *)
Definition booted (e : sim) (rt : rights) : st :=
  mk_st (sim_host e rt) tt (mk_machine [] false ∅ (CountingTimers 1 ∅)) true 0 true true true true true true ∅ ∅ (2 ^ 32 - 1) [] [].

(** A disk that answers its descriptors, and a table of rights that has one for another
    device. *)
Definition disk_platform : sim :=
  mk_sim ∅ 0 0
    ([18; 1; 0; 2; 0; 0; 0; 64; 129; 7; 145; 85; 0; 1; 1; 2; 3; 1] ++ layout (describe 57 sample_configs) [])
    [].
Definition start : st := booted disk_platform RightManager.sample_st.
Definition plugged : st := after (ServiceHost.AddDevice 1 2) start.

Definition open_disk : HostRequest := ToDevice 1 2 ROpenDevice.

Definition disk_identity : string := "1921-21905-A".

Lemma plugged_identities : deviceVidPidMap_ plugged = {["1-2"%string := disk_identity]}.
Proof. apply (bool_decide_unpack _). by vm_compute. Qed.

(** Token 7 has a right, but none for the disk: it cannot open it, nor reach it. *)
Lemma plugged_unentitled b a : unentitled recorded (dev_name b a) plugged.
Proof.
  intros identity bundle token token' user Hi Hc. rewrite plugged_identities in Hi.
  apply lookup_singleton_Some in Hi as [_ <-].
  assert (Hinfo : calling_info (the_rights plugged) = Some ("app"%string, "7"%string, 100)) by (by vm_compute).
  rewrite Hinfo in Hc. injection Hc as <- <- <-.
  assert (Hdb : RightManager.database (the_rights plugged) = RightDatabase.sample_db) by (by vm_compute).
  intros [Hu|(x & Hx & Hk)]; [done|]. rewrite Hdb in Hx. destruct Hx as [Hx|Hx];
    apply list_elem_of_singleton in Hx as ->; discriminate Hk.
Qed.

Lemma unentitled_reaches_nothing_witness :
  unreached (host plugged) (after (serve open_disk) plugged) ∧
  (result (serve open_disk) plugged).1 ≠ UEC_OK.
Proof.
  destruct (unentitled_reaches_nothing recorded open_disk plugged) as [H1 H2].
  - by vm_compute.
  - intros b a. apply plugged_unentitled.
  - split; [exact H1|]. by apply H2.
Defined.

(** The same disk, once the user has granted the right for it. *)
Definition granted_start : st :=
  booted disk_platform (after (RightManager.AddDeviceRight disk_identity "app" "7" 100) RightManager.sample_st).
Definition granted : st := after (ServiceHost.AddDevice 1 2) granted_start.

Example granted_opens :
  result (serve open_disk) granted = (UEC_OK, NoData) ∧
  sim_open (HostDriver.platform (host (after (serve open_disk) granted))) = 1.
Proof. split; by vm_compute. Qed.

(** Nothing was attached under the name of the disk when it arrived. *)
Lemma arrived_reaches (x : st) :
  service_start x → service_reaches x (after (ServiceHost.AddDevice 1 2) x) ∅.
Proof.
  intros Hx. split; [done|]. apply rtc_once.
  assert (Hfree : taken_by_arrival 1 2 x ∅ = ∅).
  { unfold taken_by_arrival, attached. by rewrite (proj2 Hx), fmap_empty, lookup_empty. }
  rewrite <- Hfree at 2. apply step_arrive.
Qed.
Lemma granted_reachable : service_reaches granted_start granted ∅.
Proof. by apply arrived_reaches. Qed.

Definition granted_disk : UsbDevice.t :=
  default UsbDevice.default (devices_ (host granted) !! "1-2"%string).
Lemma HasRight_of_attached_witness :
  result (HasRight "9-9") granted = false ∧ result (HasRight "1-2") granted = true.
Proof.
  destruct (HasRight_of_attached granted_start granted ∅ "9-9" granted_reachable ltac:(done)) as [H _].
  destruct (HasRight_of_attached granted_start granted ∅ "1-2" granted_reachable ltac:(done)) as [_ H'].
  split; [by apply H; vm_compute|].
  assert (Hd : devices_ (host granted) !! "1-2"%string = Some granted_disk) by (by vm_compute).
  rewrite (H' _ "app"%string "7"%string 100 Hd (not_elem_of_empty _)); by vm_compute.
Defined.

(** Another disk arrives while the first one's removal has not been reported: it is
    attached under the identity of the first, whose rights it inherits. *)
Definition other_disk : sim :=
  mk_sim ∅ 0 0
    ([18; 1; 0; 2; 0; 0; 0; 64; 130; 8; 145; 85; 0; 1; 1; 2; 3; 1] ++ layout (describe 57 sample_configs) [])
    [].
Definition swapped : st :=
  after (ServiceHost.AddDevice 1 2) (set_host (HostDriver.set_platform other_disk (host granted)) granted).

Example swapped_inherits :
  unique_name <$> devices_ (host swapped) !! "1-2"%string = Some "2178-21905-A"%string ∧
  deviceVidPidMap_ swapped !! "1-2"%string = Some disk_identity ∧
  result (HasRight "1-2") swapped = true.
Proof. split_and!; by vm_compute. Qed.

(** The ports are listed, and token 7 asks for the first without a right for its device. *)
Definition listed_ports (s : st) : st := after (ServiceSerial.SerialGetPortList []) s.
Definition port_identity_of_1 : string := "1921-21905-serial".

Lemma listed_shut : shut recorded 1 (listed_ports plugged).
Proof.
  assert (Hm : serialVidPidMap_ (listed_ports plugged) = {[1 := ("1-2"%string, port_identity_of_1)]}).
  { apply (bool_decide_unpack _). by vm_compute. }
  assert (Hdb : RightManager.database (the_rights (listed_ports plugged)) = RightDatabase.sample_db)
    by (by vm_compute).
  assert (Hinfo : calling_info (the_rights (listed_ports plugged)) = Some ("app"%string, "7"%string, 100))
    by (by vm_compute).
  split; [by vm_compute| |by vm_compute].
  intros name identity bundle token token' user Hi Hc. rewrite Hm in Hi.
  apply lookup_singleton_Some in Hi as [_ [= <- <-]]. rewrite Hinfo in Hc. injection Hc as <- <- <-.
  intros [Hu|(x & Hx & Hk)]; [done|]. rewrite Hdb in Hx. destruct Hx as [Hx|Hx];
    apply list_elem_of_singleton in Hx as ->; discriminate Hk.
Qed.

Lemma unentitled_reaches_no_port_witness :
  unreached (host (listed_ports plugged)) (after (serve_port 1 (QOpen 5)) (listed_ports plugged)) ∧
  ∃ ret, result (serve_port 1 (QOpen 5)) (listed_ports plugged) = Some ret ∧ ret ≠ UEC_OK.
Proof.
  destruct (unentitled_reaches_no_port recorded 1 (QOpen 5) (listed_ports plugged) listed_shut) as [H1 H2].
  split; [exact H1|]. by apply H2.
Defined.

(** With a right for the port's device, the port is opened and owned. *)
Definition port_granted : st :=
  listed_ports (booted disk_platform
    (after (RightManager.AddDeviceRight port_identity_of_1 "app" "7" 100) RightManager.sample_st)).
Example granted_opens_port :
  result (serve_port 1 (QOpen 5)) port_granted = Some UEC_OK ∧
  SerialManager.portTokenMap_ (the_serial (after (serve_port 1 (QOpen 5)) port_granted)) !! 1 = Some 7.
Proof. split; by vm_compute. Qed.

(** A client that opens a port again is told that it is open, but the recipient of its second
    attempt stays: when the second remote object dies, the first session is closed. *)
Definition opened_twice : st :=
  after (serve_port 1 (QOpen 6)) (after (serve_port 1 (QOpen 5)) port_granted).
Example second_attempt_ends_session :
  result (serve_port 1 (QOpen 6)) (after (serve_port 1 (QOpen 5)) port_granted)
    = Some UEC_SERIAL_PORT_REPEAT_OPEN ∧
  let r := mk_SerialDeathRecipient 1 7 in
  serialRecipients opened_twice = [(5, r); (6, r)] ∧
  SerialManager.portTokenMap_ (the_serial (after (ServiceSerial.OnRemoteDied r) opened_twice)) !! 1 = None.
Proof. split_and!; by vm_compute. Qed.

(** The disk that is listed, and its way to a client. *)
Lemma u8_bytes l : Forall is_u8 (u8 <$> l).
Proof. apply Forall_fmap, Forall_true. intros z. apply u8_range. Qed.
#[local] Instance sim_bytes : HdiBytes sim.
Proof.
  intros dev e. split; cbn; [apply u8_bytes|]. rewrite length_fmap, length_take.
  pose proof (Nat.le_min_l 1000 (length (sim_raw e))). width_lia.
Qed.

Definition listed : list UsbDevice.t :=
  match (result (serve RGetDevices) plugged).2 with Devices l => l | _ => [] end.
Definition listed_disk : UsbDevice.t := default UsbDevice.default (head listed).
Lemma listed_disk_in : listed_disk ∈ listed.
Proof.
  assert (Hl : length listed = 1%nat) by (by vm_compute). unfold listed_disk.
  revert Hl. generalize listed. intros [|d l]; [done|]. intros _. by left.
Qed.

Lemma listed_devices_shown_witness :
  (∃ name d, devices_ (host plugged) !! name = Some d ∧ shown_as false d listed_disk) ∧
  typed_device listed_disk ∧
  result (S := list pitem) UsbDevice_Unmarshalling (after (UsbDevice_Marshalling listed_disk) []) =
    wire_device listed_disk.
Proof.
  destruct (listed_devices_shown (Q := list pitem) id start plugged ∅ [])
    as (ds & Hds & Hshown & Htyped); [by apply arrived_reaches|done..|].
  assert (Hsame : ds = listed) by (unfold listed; by rewrite Hds). subst ds.
  split; [apply (proj1 (Hshown _)), listed_disk_in|].
  exact (proj1 (Forall_forall _ _) Htyped _ listed_disk_in).
Defined.

(** ** An application with the client library *)

(** The proxy and the stub: the requests run on the service, and their answers come back. *)
#[local] Instance direct : UsbServer st := λ _ r,
  match r with
  | ToHost r => a ← serve r; mret (a.1, CHost a.2)
  | ToPort k q => ret ← serve_port k q; mret (default 0 ret, CNothing)
  | _ => mret (UEC_INTERFACE_NO_INIT, CNothing)
  end.
#[local] Instance direct_delivers : Delivers.
Proof.
  split; intros; unfold Transact, direct; rewrite bind_unfold; try done.
  unfold result in *. cbn [fst snd]. by rewrite H.
Qed.
#[local] Existing Instance Sample.platform_access.
#[local] Existing Instance Sample.ability.
#[local] Existing Instance Sample.platform_laws.
#[local] Instance sample_still : StillClock (E := Z).
Proof. done. Qed.

Definition library_of (x : st) : @Client.st Sample.platform st := Client.construct 0 (true, []) x.
Lemma library_server x : Client.server (library_of x) = x.
Proof. done. Qed.
Lemma library_proxy x : Client.proxy_ (library_of x) = Some 12.
Proof. done. Qed.
Definition to_disk : ClientCall := CResetDevice (mk_USBDevicePipe 1 2).

Lemma client_reaches_nothing_witness :
  unreached (host plugged) (Client.server (after (perform to_disk) (library_of plugged))) ∧
  ¬ granted_outcome (result (perform to_disk) (library_of plugged)).
Proof.
  destruct (client_reaches_nothing Sample.watching recorded 0 (true, []) plugged to_disk
    (to_device (mk_USBDevicePipe 1 2) RResetDevice) (library_of plugged)) as [H1 H2].
  - apply rtc_refl.
  - exact I.
  - exact eq_refl.
  - rewrite library_server. split; [by vm_compute|]. intros b a. apply plugged_unentitled.
  - rewrite library_server in H1. split; [exact H1|]. exact (H2 eq_refl).
Defined.

(** An ArkTS application on the same library connects to the disk. *)
#[local] Existing Instance TaiheSim.sim_runtime.
#[local] Existing Instance TaiheSim.sim_status.
#[local] Existing Instance TaiheSim.sim_enum.
#[local] Existing Instance JsSim.sim_stack.
#[local] Existing Instance JsSim.sim_features.
#[local] Existing Instance JsSim.sim_driver.
#[local] Existing Instance JsSim.sim_securec.
#[local] Existing Instance JsSim.sim_system.
Definition arkts : TaiheWorld.world (gmap Z (list Z)) Sample.platform st (list Z) :=
  TaiheWorld.mk_world ∅ (library_of plugged) [] 0 [] ∅ [] [] ∅.
Definition wanted : TaiheTypes.usbManager.USBDevice := TaiheTypes.ParseToUSBDevice JsSim.Session.disk.

Lemma arkts_server : Client.server (TaiheWorld.lib arkts) = plugged.
Proof. exact (library_server plugged). Qed.

Lemma arkts_reaches_nothing_witness :
  unreached (host plugged)
    (Client.server (TaiheWorld.lib (TaiheModule.run_call (inl (TaiheModule.TH_connectDevice wanted)) arkts).2)) ∧
  (TaiheCalls.connectDevice wanted arkts).1 = Some TaiheCalls.no_pipe.
Proof.
  destruct (TaiheEndToEnd.arkts_reaches_nothing Sample.watching recorded 0 (true, []) plugged
    (inl (TaiheModule.TH_connectDevice wanted)) arkts) as [H1 H2].
  - apply rtc_refl.
  - rewrite arkts_server. split; [exact eq_refl|]. split; [by vm_compute|]. intros b a. apply plugged_unentitled.
  - rewrite arkts_server in H1. split; [exact H1|]. exact (proj1 (H2 wanted eq_refl)).
Defined.

(** The record of the right that was granted for the disk. *)
Definition granted_rows : list row := (view (RightManager.database (the_rights granted))).1.1.
Lemma granted_working : working (the_rights granted) granted_rows 2000.
Proof.
  split; [by vm_compute| |by vm_compute|by vm_compute].
  assert (H : forallb (λ x, (0 <=? row_requestTime x) && (row_requestTime x <? 2 ^ 63) &&
                 (row_validPeriod x =? USB_RIGHT_VALID_PERIOD_SET)) granted_rows = true) by (by vm_compute).
  rewrite forallb_forall in H. apply Forall_forall. intros x Hx%list_elem_of_In%H. bsimp.
  split; [lia|by left].
Qed.

Lemma client_HasRight_exact_witness :
  result (perform (CHasRight "1-2")) (library_of granted) = Some (Said true) ↔
  ∃ d k, devices_ (host granted) !! "1-2"%string = Some d ∧ (k = "7"%string ∨ k = USB_DEFAULT_TOKEN) ∧
         held granted_rows 2000 (unique_name d) "app" k 100.
Proof.
  pose proof (client_HasRight_exact RightDatabase.no_table unanswered "1-2" "app" "7" 100 granted_rows 2000
    granted_start ∅ (library_of granted) 12 (library_proxy granted)) as H.
  rewrite library_server in H. apply H.
  - apply granted_reachable.
  - exact (not_elem_of_empty _).
  - done.
  - by vm_compute.
  - by vm_compute.
  - done.
  - apply granted_working.
Defined.

(** It is told so: the library of the application says yes. *)
Example client_told : result (perform (CHasRight "1-2")) (library_of granted) = Some (Said true).
Proof. by vm_compute. Qed.
End Samples.
