(* ===== verification/ServiceWhole.v ===== *)
(** * The whole service on a concrete platform

    The service of [ServiceSim] with the device manager, the accessory manager and the port
    manager of their samples in their places: all components together, driven by the
    events of the drivers. *)

From stdpp Require Import pretty relations.
From S2P Require Import Prelude UsbErrors UsbTypes DescriptorParser Interfaces Marshalling Json.
From S2P Require Import HostDriver HostEvents HostPolicy HostManager HostVisibility HostSim.
From S2P Require Import Service ServiceHost ServiceSerial ServiceGadget ServiceLifecycle ServiceUnload.
From S2P Require Import ServiceGate ServicePorts ServiceIdentity ServiceRights ServiceSim.
From S2P Require Import RightDatabase.
From S2P Require SerialManager RightManager DeviceManager AccessoryManager PortManager.

#[local] Set Default Goal Selector "!".

Section Samples.
#[local] Existing Instance sample_codes.
#[local] Existing Instance RightManager.sample_platform.
#[local] Existing Instance SerialManager.sample_serial.
#[local] Existing Instance sim_service.
#[local] Existing Instance sim_laws.
#[local] Existing Instance DeviceManager.sample_hdi.
#[local] Existing Instance DeviceManager.sample_window.
#[local] Existing Instance DeviceManager.sample_notifier.
#[local] Existing Instance AccessoryManager.sample_accessory.
#[local] Existing Instance AccessoryManager.sample_platform.
#[local] Existing Instance PortManager.sample_hdi.

Abbreviation gadget_side := (@managers Z unit (list string) (counting_timers DeviceManager.DelayTask)
  Z (counting_timers AccessoryManager.AccTask) unit (list PortManager.UsbPort) (list string)).
#[local] Instance whole_device : DeviceService gadget_side := managers_device true.
#[local] Instance whole_accessory : AccessoryService gadget_side :=
  managers_accessory (DHA := AccessoryManager.sample_hdi).
#[local] Instance whole_port : PortService gadget_side := managers_port true.
#[local] Instance whole_query : ConnectionQuery gadget_side := managers_query true.

Abbreviation st := (Service.st sim unit (gset Z) (@RightManager.st RightDatabase.mem Z) gadget_side machine).

#[local] Instance whole_lifecycle : GadgetLifecycle gadget_side :=
  managers_lifecycle (λ _, Some 0) (λ _, Some 12) (λ _ _, Some PortManager.sample_ports) (λ _, true).
#[local] Instance whole_abilities : SystemAbilityIds :=
  {| MEMORY_MANAGER_SA_ID := 1; USB_SYSTEM_ABILITY_ID := 2 |}.

Definition resting : st :=
  construct (sim_host disk_platform RightManager.sample_st)
    (mk_managers DeviceManager.sample AccessoryManager.fresh PortManager.ready)
    (mk_machine [] false ∅ (CountingTimers 1 ∅)).

(** A disk is attached: the service stays.  It is removed: the service is to be unloaded. *)
Definition attach : USBDeviceInfo := mk_USBDeviceInfo ACT_DEVUP 1 2.
Definition detach : USBDeviceInfo := mk_USBDeviceInfo ACT_DEVDOWN 1 2.
Definition with_disk : st := after (DeviceEvent attach) resting.

Definition without_disk : st := after (DeviceEvent detach) with_disk.
Lemma attach_handled : result (DeviceEvent attach) resting = Val UEC_OK.
Proof. by vm_compute. Qed.
Lemma detach_handled : result (DeviceEvent detach) with_disk = Val UEC_OK.
Proof. by vm_compute. Qed.
Lemma disk_needed : needed with_disk = true.
Proof. by vm_compute. Qed.
Lemma nothing_needed : needed without_disk = false.
Proof. by vm_compute. Qed.

Lemma resting_starts :
  pending (env resting) = ∅ ∧ usbHostManager_ resting = true ∧ usbDeviceManager_ resting = true.
Proof. done. Qed.

Lemma with_disk_eq : after (DeviceEvent attach) resting = with_disk.
Proof. unfold with_disk. reflexivity. Qed.
Lemma without_disk_eq : after (DeviceEvent detach) with_disk = without_disk.
Proof. unfold without_disk. reflexivity. Qed.
Lemma with_disk_reachable : rtc unload_step resting with_disk.
Proof. apply rtc_once. unfold with_disk. apply step_event. Qed.

Lemma unload_scheduled_iff_idle_witness :
  pending (env with_disk) = ∅ ∧
  pending (env without_disk) = {[unloadSelfTimerId_ without_disk := UnloadSelfTask]}.
Proof.
  pose proof (proj2 (unload_scheduled_iff_idle resting resting resting_starts (rtc_refl _ _))
    attach UEC_OK attach_handled) as H1.
  pose proof (proj2 (unload_scheduled_iff_idle resting with_disk resting_starts with_disk_reachable)
    detach UEC_OK detach_handled) as H2.
  cbv zeta in H1, H2. rewrite with_disk_eq in H1. rewrite without_disk_eq in H2.
  rewrite disk_needed in H1. rewrite nothing_needed in H2. exact (conj H1 H2).
Defined.

(** A start with every driver there: the service is published, and its unloading is
    scheduled at once, since nothing is attached. *)
Definition started : st := after OnStart resting.
Example started_ready :
  ready_ started = true ∧ pending (env started) = {[unloadSelfTimerId_ started := UnloadSelfTask]} ∧
  settings (env started) !! "HDC_STATUS"%string = Some "true"%string.
Proof. split_and!; by vm_compute. Qed.

(** A second start finds the service ready, and does nothing. *)
Example started_twice : after OnStart started = started.
Proof. by vm_compute. Qed.

Lemma Init_waits_witness : result Init resting = true ∧ commEventRetryTimes_ (after Init resting) = 0.
Proof.
  destruct (Init_waits resting) as (Hr & k & _ & Hasked & [(_ & _ & Hs)|(Hk & _)]); [done|..].
  - split; [exact Hr|]. by rewrite Hs.
  - assert (Hf : found (waited 0 resting) = false) by (apply Hasked; rewrite Hk; vm_compute; lia).
    vm_compute in Hf. discriminate Hf.
Defined.
End Samples.
